(* ===== verification/_CoqProject ===== *)
-Q . S2P
Prelude.v
Klist.v
KlistOps.v
WdtHardware.v
Watchdog.v
WatchdogSpec.v
WatchdogProps.v
WdtAlive.v
RegBus.v
SpiCtl.v
SpiDrv.v
SpiMaster.v
W25p16.v
SpiDev.v
SpiDevProps.v
FpgaUpdate.v
EspiCtl.v
SpiStack.v
Mdio.v
Bcm53101.v
Pxm.v
Timer.v
TimerSpec.v
TimerInv.v
TimerProps.v
TimerRun.v
TimerNext.v
TimerCache.v
Crc32.v
Vsprintf.v
Format.v
FormatProps.v
Scan.v
ScanProps.v
WdtProc.v
GpioLib.v
GpioLibProps.v
GpioReach.v
Gpio8xxx.v
Gpio8xxxProps.v
GpioUser.v
Printk.v
PrintkProps.v
PrintkConsole.v
PrintkMsg.v
PrintkFormat.v
PrintkBoot.v
Console.v
ConsoleProps.v
Ratelimit.v
TimerSleep.v
Peripherals.v
PeripheralsProps.v
WdtTimer.v
FpgaCdev.v
