(* ===== verification/Prelude.v ===== *)
(** * H20PN-2000 board software: a verification library

    The repository holds a Linux 2.6.35 kernel for a board with a P1020
    processor (linux-2.6-cloud-2000) and the board's own drivers and programs
    (drivers). This library models the board-specific parts and proves what they
    do. File names below are relative to the repository's source tree.

    ** The parts and how they interact

    - A software watchdog: processes register with a period and send alive
      messages; a timer function checks them, counts down and reboots the board,
      and triggers an external watchdog chip over GPIO (drivers/wdt/src).
    - The SPI bus with three chips: an FPGA, a clock chip (DPLL) and the flash
      the FPGA is loaded from. It is used in two ways. From user space,
      drivers/spidrv maps the registers of the controller and frames register
      accesses. In the kernel, spidev.c and w25p16.c build messages, the SPI core
      and the queue of spi_bitbang.c hand them on, and fsl_espi.c moves them
      through the controller by interrupts.
    - An Ethernet switch reached over the MDIO bus of the processor
      (drivers/drv_bcm53101/newdrv, drivers/net/fsl_pq_mdio.c of the kernel).
    - A library for registers of the local FPGA and, through it, of the boards
      in the slots of the rack (drivers/remotefpga/newApi), and a program that
      loads a new image into the FPGA's flash (drivers/fpga_update).
    - A library for fan, power modules, EEPROMs, alarm LEDs, temperature and
      clock, most of them behind registers of the FPGA (drivers/externdrv).
    - The pins of the processor: the GPIO library of the kernel with its files
      under /sys, the controller's driver, which the board changed for its
      watchdog and its run LED, and the programs that blink the LED
      (drivers/gpio/gpiolib.c and arch/powerpc/sysdev/mpc8xxx_gpio.c of the
      kernel, drivers/externdrv).
    - What all of them use of the kernel: the timer wheel (kernel/timer.c), the
      log and its consoles (kernel/printk.c), rate limiting, formatted output and
      input (lib/vsprintf.c), linked lists, checksums.

    ** Files

    - Prelude: C integers at their width, big-endian words, buffers with bounds,
      the monad of computations with state and undefined behaviour, the hint
      database [board], the tactics [run], [zbool], [split_match], [lens], error
      numbers and ioctl encoding.
    - Klist: include/linux/list.h on a store of nodes; [is_list] is the
      representation predicate. KlistOps: the other functions of that header.
    - WdtHardware: WDT_hardware.c, the GPIO block with the waveform of its pins.
    - Watchdog: watchdog.c. The globals are the record [ctl], the tasks are
      nodes in memory; one definition per handler, and [handle] dispatches an
      event (tick of the clock, timer, open, close, read, write, ioctl).
    - WatchdogSpec: the abstract driver, whose state is a list of tasks, the
      representation relation and one lemma per handler.
    - WatchdogProps: reachability and the watchdog's theorems; WdtAlive: tasks that
      report in time are not rebooted. WdtProc: the /proc handlers (proc.c), which
      read their numbers with the sscanf of Scan.
    - RegBus: the interface to a device with registers (class [RegBus]), the log
      of accesses, bounded polling.
    - SpiCtl: drivers/spidrv/spi.c, and the class [SpiSlave], what a controller
      with an answering slave does.
    - SpiDrv: drivers/spidrv/spidrv.c with its semaphore, mapping and life cycle.
    - SpiMaster: drivers/spi/spi.c and include/linux/spi/spi.h of the kernel, with
      the class [SpiMaster], what a controller driver promises to the core.
    - W25p16: drivers/spi/w25p16.c, flash commands as messages.
    - SpiDev, SpiDevProps: drivers/spi/spidev.c, file operations, ioctl, access
      functions for other drivers, probe and remove; and its theorems.
    - EspiCtl: drivers/spi/fsl_espi.c and spi_bitbang.c, the controller driver and
      the message queue, over the same registers and slaves as SpiCtl.
    - Mdio: the MDIO functions of drivers/net/fsl_pq_mdio.c; Bcm53101: the switch
      driver, over the PHY registers that Mdio is proved to provide.
    - SpiStack: the path from a program through the SPI device, the core and the
      queue to the slave, over EspiCtl. FpgaUpdate: drivers/fpga_update. FpgaCdev:
      the character device of drivers/spi/fpga.c.
    - Pxm: drivers/remotefpga/newApi.
    - Timer: kernel/timer.c; TimerSpec: a flat set of timers; TimerInv: the
      invariant of the wheel; TimerProps, TimerRun: its theorems, and the interrupt
      with timer functions. TimerNext: the search for the next expiry; TimerCache:
      its remembered answer, in runs from boot. TimerSleep: sleeping tasks ([schedule_timeout], [msleep]) and the rounding
      of times, on the wheel.
    - WdtTimer: the watchdog and the timer wheel together.
    - Crc32: lib/crc32.c and the tables lib/gen_crc32table.c prints.
    - Vsprintf: texts as numbers (lib/vsprintf.c, lib/string.c). Format,
      FormatProps: the output side of lib/vsprintf.c, from [number] to [vsnprintf]
      with its extensions for pointers. Scan, ScanProps: [vsscanf].
    - GpioLib: drivers/gpio/gpiolib.c over any chip; GpioLibProps: its invariant
      and one lemma per function; GpioReach: the states that calls reach.
    - Gpio8xxx, Gpio8xxxProps: the controller, a chip of the library, over the
      registers of the class [GpioBlock]. GpioUser: the programs on the files.
    - Printk: the ring buffer, syslog(2), printk and the console semaphore;
      PrintkProps, PrintkConsole, PrintkMsg, PrintkBoot: its theorems, against a
      log that never forgets ([alog]); PrintkFormat: printk with the formatting
      of Format.
    - Console, ConsoleProps: registration of consoles and dumpers. Ratelimit:
      lib/ratelimit.c.
    - Peripherals, PeripheralsProps: the functions of drivers/externdrv over the
      FPGA's device file (class [FpgaDev]), and on the driver of the board, SpiDev
      ([board_dev]).

    ** What the theorems show

    - The watchdog implements its abstract driver on every reachable state, with
      defined behaviour ([handle_refines], [reachable_invariant]). Tasks that
      report within their periods are not rebooted from the load of the driver on
      ([alive_tasks_no_restart]), as long as periods above 80 timer periods do not
      reach over the wrap of the clock; there a task that reports in time is
      rebooted ([live_task_rebooted]). A hanging task is rebooted at the 82nd expiry
      of the timer ([hanging_task_reboots]). Disabling, hard reset, registration, the check
      itself, load and unload are specified ([disabled_no_restart],
      [hard_reset_stops_trigger], [register_remove_roundtrip],
      [check_registered_tasks_exact], [watchdog_init_unwinds],
      [watchdog_cleanup_releases]), and so is the pulse to the chip
      ([serve_watchdog_hw_pulse]). With its timer on the timer wheel the driver
      does what it does with a perfect timer ([watchdog_on_wheel]), so that the
      board reboots 20 seconds of clock ticks after a task hangs
      ([board_reboots]).
    - SPI from user space: transfers end and stay in their buffers for every
      device, and exchange the right words with an answering slave
      ([spi_transfer_safe], [spi_transfer_duplex]); register reads and writes send
      the right frames under the semaphore ([fpga_spi_read_ok],
      [fpga_spi_write_ok]), up to the lengths at which they overrun
      ([fpga_spi_read_overrun]); initialisation and exit ([spidrv_init_ready]);
      the clock divider is the best one ([clock_divider_best]).
    - SPI in the kernel: queue, interrupt handler and registers refine an exchange
      of words between memory and slave ([bitbang_work_refines],
      [espi_message_duplex]); word granularity makes short segments overrun or
      disturb each other ([espi_last_segment_overrun],
      [espi_adjacent_corrupted]); settings are checked ([espi_setup_rejects]). Over
      any controller that keeps the contract of [SpiMaster], which moves whole words,
      the device reads what it was asked to, stays in its buffer for requests whose
      whole words fit and overruns it for some others that pass its own check
      ([spidev_message_overrun]), keeps its life
      cycle and its chip select, changes settings atomically and holds its mutex
      in flash mode ([spidev_read_ok], [spidev_message_in_bounds],
      [spidev_lifetime], [kernel_access_restores], [reconfigure_atomic],
      [flash_mode_blocks]); flash erase, page program and read send exactly their
      commands ([w25p16_write_page], [w25p16_read_ok]),
      and a write across a page sends no data ([w25p16_write_crossing]).
    - The MDIO functions are the registers of the PHYs ([mdio_refines]), the
      switch driver is its pages ([bcm53101_access]) and configures six registers
      ([bcm53101_cfg_init_ok]).
    - Commands to remote boards have their fields in place and reads return the
      clause's buffer within a bounded number of polls ([cr_rd_set_command],
      [cr_rd_reads], [rm_wr_commands]).
    - A program's transfer reaches the slave through all layers
      ([spidev_reaches_slave]); an update programs images that fit one message
      and nothing of larger ones ([fpga_update_large], [fpga_update_small]).
    - The timer wheel is a set of timers with their times: none runs early or
      late, also when the tick counter wraps around ([timer_wheel_refines],
      [timer_on_time], [timer_wheel_wf]); an interrupt ends and deleting
      synchronously waits for a running function ([run_timers_ends],
      [del_timer_sync_quiesces]); slack stays within its bound
      ([apply_slack_within]) and an idle processor does not sleep past a timer, also
      when it uses the remembered answer of an earlier search
      ([sleep_not_too_long]), as long as timers lie within 2^30 ticks; an older one
      can be missed ([ancient_timer_missed]). A task that sleeps leaves no timer behind, is not
      woken early by its timer ([schedule_timeout_returns]), and [msleep] returns
      ([msleep_ends]) and not before its time ([msleep_long]). Rounded times stay
      near ([round_jiffies_near]), except that just after the wrap of the clock one
      may lie in the past ([round_jiffies_past]).
    - Formatted output writes nothing beyond its buffer and there what unlimited
      output would begin with ([vsnprintf_truncates]); numbers have their sign,
      prefix, digits and padding in place ([number_layout], [put_dec_equiv]);
      resources fit the array they are put together in ([resource_string_safe]).
      Input ends for every text and format ([vsscanf_returns]), and reads back
      numbers that were printed ([scan_print_roundtrip], [print_read_roundtrip]).
    - Cutting a list and splicing the part back gives the list
      ([cut_splice_roundtrip]); the other functions of the header have a lemma each.
    - The log: readers, consoles and dumps see what was written, in order, while
      others write ([syslog_read_refines], [release_console_sem_shows],
      [printk_shows], [log_buf_grows]); for the consoles, what is written during a
      pass has to fit into the buffer. Reading the last messages works unless the
      32-bit character counter comes near its wrap, where it returns nothing
      ([syslog_read_all_last]). Consoles are kept with the preferred one first, and
      boot consoles are not always removed when a real one comes, as the source
      says they are ([register_console_list], [unregister_console_list]); rate limiting lets at most twice its burst
      through in an interval ([ratelimit_bound]).
    - GPIO: the table of the library is consistent in every state that calls
      reach, and a GPIO has one owner ([gpio_table_invariant],
      [gpio_request_outcome]), except that a chip which registered early and whose
      device cannot be created later loses its requested GPIOs
      ([early_chip_lost]). The driver sets the pin it is asked for, drives the other
      outputs to what the data register reads, and may drop a value for pin 9
      ([gpio_driver_refines]); when nobody else sets a pin, the run LED follows the
      program from the first call on that asks for it to be off
      ([run_led_follows]).
    - Peripherals: on the driver of the board a register read delivers nothing, or
      overruns its buffer ([eeprom_read_nothing]).
    - The table-driven checksum is the division by its polynomial and detects
      changes of up to four neighbouring bytes ([crc32_le_equiv],
      [crc32_le_detects]); decimal numbers are read back ([strtol_decimal]).

    ** Bounds and fuel

    Loops over lists in memory take the number of nodes in the store as fuel, and
    the theorems show that it suffices on every reachable state. Polling loops
    have the source's own counters (1000 polls in SpiCtl and Pxm, 100000 in W25p16
    and Mdio, 65535 in Bcm53101). Waits without a limit in the source (interrupts
    in EspiCtl, the MDIO indicator) take the number of interrupts or reads that
    happen as an argument, report that they are still waiting when it is used up,
    and are proved to finish for every number above the device's latency. The
    timer interrupt and the search for the next timer visit at most 256 slots of
    the first wheel and 64 of each other one. Printing takes the length of the
    text as fuel, releasing the console semaphore one turn per change that others
    make meanwhile and two more; walks along consoles take their number. The GPIO
    library has 256 numbers. Formatting takes 22 rounds for digits, 4 for the
    groups of five of a decimal number, one more than 32768 for padding, since a
    width has 16 bits, and two per character of the format and one more for the
    format itself; reading takes the length of the format. The waits for
    a power module have the source's counters, 0xfffff and 101. The softirqs of
    WdtTimer take a number of steps, and every number from some bound on is
    proved to be enough. What other
    processors do between two steps of the log is a list of actions, empty while
    consoles register; what they do while a task sleeps is a list of events, and
    the loop of msleep takes one such list per iteration.

    ** What is not modelled

    Delays and the disabled (#if 0) code; the messages that drivers print. The
    wrap of a pointer after 4 GB of formatted output.
    Interleaving of the watchdog's timer with its ioctls on another processor:
    handlers run one at a time. Probe functions that only talk to the device
    tree. The links and the debug listing of the GPIO
    library, and its locks: calls are atomic. Printing to a binary buffer and
    timers of processors that go away, which are not configured. Hash lists. The
    scheduler, which a sleeping task sees as the events until it is back. The
    command-line programs,
    the log-to-file driver, and the
    rest of the kernel, whose functions appear as arguments (results of
    allocation, registration, user memory) or as effects on the state. *)

From Stdlib Require Export ZArith Lia.
From stdpp Require Export base option numbers gmap list.

#[global] Open Scope Z_scope.

(** ** C integers

    A C integer of width [w] is a [Z]; the conversions below are the ones the
    compiler inserts at an assignment, a cast or an unsigned operation. The
    board is a 32-bit PowerPC: [int], [unsigned long] and pointers have 32
    bits, and memory is big-endian. *)

Definition u8 (z : Z) : Z := z mod 2 ^ 8.
Definition u16 (z : Z) : Z := z mod 2 ^ 16.
Definition u32 (z : Z) : Z := z mod 2 ^ 32.
Definition s8 (z : Z) : Z := (z + 2 ^ 7) mod 2 ^ 8 - 2 ^ 7.
Definition s16 (z : Z) : Z := (z + 2 ^ 15) mod 2 ^ 16 - 2 ^ 15.
Definition s32 (z : Z) : Z := (z + 2 ^ 31) mod 2 ^ 32 - 2 ^ 31.
Definition s64 (z : Z) : Z := (z + 2 ^ 63) mod 2 ^ 64 - 2 ^ 63.
(** Signed arithmetic that does not overflow. *)
Definition sint (z : Z) : option Z := if (- 2 ^ 31 <=? z) && (z <? 2 ^ 31) then Some z else None.

(** C truth of an [int]. *)
Definition truth (z : Z) : bool := negb (z =? 0).

(** [~ x] on a 32-bit unsigned operand. *)
Definition not32 (z : Z) : Z := 2 ^ 32 - 1 - u32 z.

Lemma u8_range z : 0 <= u8 z < 2 ^ 8.
Proof. apply Z.mod_pos_bound; lia. Qed.

Lemma u16_range z : 0 <= u16 z < 2 ^ 16.
Proof. apply Z.mod_pos_bound; lia. Qed.

Lemma u32_range z : 0 <= u32 z < 2 ^ 32.
Proof. apply Z.mod_pos_bound; lia. Qed.

Lemma u8_small z : 0 <= z < 2 ^ 8 -> u8 z = z.
Proof. apply Z.mod_small. Qed.

Lemma u16_small z : 0 <= z < 2 ^ 16 -> u16 z = z.
Proof. apply Z.mod_small. Qed.

Lemma u32_small z : 0 <= z < 2 ^ 32 -> u32 z = z.
Proof. apply Z.mod_small. Qed.

Lemma u32_idemp z : u32 (u32 z) = u32 z.
Proof. apply u32_small, u32_range. Qed.

Lemma u32_congr z : exists k, u32 z = z + k * 2 ^ 32.
Proof.
  unfold u32. exists (- (z / 2 ^ 32)). pose proof (Z.div_mod z (2 ^ 32) ltac:(lia)). lia.
Qed.

Lemma u32_add_l a b : u32 (u32 a + b) = u32 (a + b).
Proof. unfold u32. apply Zplus_mod_idemp_l. Qed.

Lemma s32_congr z y k : z = y + k * 2 ^ 32 -> - 2 ^ 31 <= y < 2 ^ 31 -> s32 z = y.
Proof.
  intros -> Hy. unfold s32. replace (y + k * 2 ^ 32 + 2 ^ 31) with (y + 2 ^ 31 + k * 2 ^ 32) by lia.
  rewrite Z_mod_plus_full, Z.mod_small by lia. lia.
Qed.

Lemma s32_small z : - 2 ^ 31 <= z < 2 ^ 31 -> s32 z = z.
Proof. intros H. apply (s32_congr z z 0); lia. Qed.

Lemma not32_spec m i : 0 <= m < 2 ^ 32 -> 0 <= i < 32 ->
  Z.testbit (not32 m) i = negb (Z.testbit m i).
Proof.
  intros Hm Hi. unfold not32. rewrite (u32_small m) by lia.
  replace (2 ^ 32 - 1 - m) with (Z.lnot m + 1 * 2 ^ 32) by (pose proof (Z.add_lnot_diag m); lia).
  rewrite <- (Z.mod_pow2_bits_low _ 32) by lia.
  rewrite Z_mod_plus_full, Z.mod_pow2_bits_low, Z.lnot_spec by lia. done.
Qed.

Lemma u32_once_around z : 2 ^ 32 <= z < 2 ^ 33 -> u32 z = z - 2 ^ 32.
Proof.
  intros H. unfold u32.
  replace z with (z - 2 ^ 32 + 1 * 2 ^ 32) at 1 by lia.
  rewrite Z_mod_plus_full. apply Z.mod_small. lia.
Qed.

(** ** Bit fields

    The drivers assemble register words by shifting and or-ing fields. A field
    below the shifted one adds without carry. *)

Lemma land_shiftl_small a b n :
  0 <= n -> 0 <= b < 2 ^ n -> Z.land (Z.shiftl a n) b = 0.
Proof.
  intros Hn Hb. apply Z.bits_inj'. intros i Hi.
  rewrite Z.land_spec, Z.bits_0, Z.shiftl_spec by lia.
  destruct (Z.ltb_spec i n) as [Hlt|Hge].
  - rewrite Z.testbit_neg_r by lia. done.
  - rewrite <- (Z.mod_small b (2 ^ n)) by lia.
    rewrite Z.mod_pow2_bits_high by lia. apply andb_false_r.
Qed.

Lemma lor_shiftl_add a b n :
  0 <= n -> 0 <= b < 2 ^ n -> Z.lor (Z.shiftl a n) b = a * 2 ^ n + b.
Proof.
  intros Hn Hb.
  rewrite <- Z.add_nocarry_lor by (by apply land_shiftl_small).
  by rewrite Z.shiftl_mul_pow2.
Qed.

(** Or-ing onto a word whose low [n] bits are clear. *)
Lemma lor_mul_add a b n :
  0 <= n -> 0 <= b < 2 ^ n -> Z.lor (a * 2 ^ n) b = a * 2 ^ n + b.
Proof. intros. rewrite <- (lor_shiftl_add a b n) by lia. by rewrite Z.shiftl_mul_pow2. Qed.

Lemma lor_range n a b :
  0 <= n -> 0 <= a < 2 ^ n -> 0 <= b < 2 ^ n -> 0 <= Z.lor a b < 2 ^ n.
Proof.
  intros Hn Ha Hb. assert (0 <= Z.lor a b) by (apply Z.lor_nonneg; lia). split; [done|].
  apply Z.bounded_iff_bits_nonneg; [done|done|]. intros i Hi. rewrite Z.lor_spec.
  by rewrite (proj1 (Z.bounded_iff_bits_nonneg n a Hn ltac:(lia)) ltac:(lia) i Hi),
    (proj1 (Z.bounded_iff_bits_nonneg n b Hn ltac:(lia)) ltac:(lia) i Hi).
Qed.

Lemma land_low n z : 0 <= n -> Z.land z (2 ^ n - 1) = z mod 2 ^ n.
Proof. intros. rewrite <- Z.land_ones, Z.ones_equiv by lia. f_equal. Qed.

Lemma land_ff z : Z.land z 0xff = z mod 2 ^ 8.
Proof. exact (land_low 8 z ltac:(lia)). Qed.

Lemma land_ffff z : Z.land z 0xffff = z mod 2 ^ 16.
Proof. exact (land_low 16 z ltac:(lia)). Qed.

Lemma land_1 z : Z.land z 1 = z mod 2.
Proof. exact (land_low 1 z ltac:(lia)). Qed.

(** ** Big-endian words: how the PowerPC stores a word in memory and how the
    drivers spell it out byte by byte. *)

Definition be32_bytes (w : Z) : list Z :=
  [u8 (Z.shiftr w 24); u8 (Z.shiftr w 16); u8 (Z.shiftr w 8); u8 w].

Definition be32 (b0 b1 b2 b3 : Z) : Z :=
  Z.lor (Z.lor (Z.lor (Z.shiftl b0 24) (Z.shiftl b1 16)) (Z.shiftl b2 8)) b3.

Definition is_byte (b : Z) : Prop := 0 <= b < 2 ^ 8.
Definition is_u16 (x : Z) : Prop := 0 <= x < 2 ^ 16.
Definition is_u32 (x : Z) : Prop := 0 <= x < 2 ^ 32.

Lemma land_u32 a b : is_u32 b -> is_u32 (Z.land a b).
Proof.
  intros Hb. rewrite <- (u32_small b Hb). unfold u32, is_u32. rewrite <- Z.land_ones, Z.land_assoc, Z.land_ones by lia.
  apply Z.mod_pos_bound. lia.
Qed.

Lemma be32_value b0 b1 b2 b3 :
  is_byte b0 -> is_byte b1 -> is_byte b2 -> is_byte b3 ->
  be32 b0 b1 b2 b3 = b0 * 2 ^ 24 + b1 * 2 ^ 16 + b2 * 2 ^ 8 + b3.
Proof.
  unfold is_byte, be32. intros H0 H1 H2 H3.
  rewrite !Z.shiftl_mul_pow2 by lia.
  rewrite (lor_mul_add b0 (b1 * 2 ^ 16) 24) by lia.
  replace (b0 * 2 ^ 24 + b1 * 2 ^ 16) with ((b0 * 2 ^ 8 + b1) * 2 ^ 16) by lia.
  rewrite (lor_mul_add _ (b2 * 2 ^ 8) 16) by lia.
  replace ((b0 * 2 ^ 8 + b1) * 2 ^ 16 + b2 * 2 ^ 8)
    with (((b0 * 2 ^ 8 + b1) * 2 ^ 8 + b2) * 2 ^ 8) by lia.
  rewrite (lor_mul_add _ b3 8) by lia. lia.
Qed.

Lemma u8_is_byte z : is_byte (u8 z).
Proof. apply u8_range. Qed.

(** Taking a word apart into bytes and assembling it again is the identity. *)
Lemma be32_of_bytes w :
  is_u32 w ->
  be32 (u8 (Z.shiftr w 24)) (u8 (Z.shiftr w 16)) (u8 (Z.shiftr w 8)) (u8 w) = w.
Proof.
  unfold is_u32. intros Hw. rewrite be32_value by apply u8_is_byte.
  unfold u8. rewrite !Z.shiftr_div_pow2 by lia.
  pose proof (Z.div_mod w (2 ^ 8)) as E1.
  pose proof (Z.div_mod (w / 2 ^ 8) (2 ^ 8)) as E2.
  pose proof (Z.div_mod (w / 2 ^ 16) (2 ^ 8)) as E3.
  rewrite Z.div_div in E2, E3 by lia.
  change (2 ^ 8 * 2 ^ 8) with (2 ^ 16) in E2.
  change (2 ^ 16 * 2 ^ 8) with (2 ^ 24) in E3.
  rewrite (Z.mod_small (w / 2 ^ 24)).
  2:{ split; [apply Z.div_pos; lia | apply Z.div_lt_upper_bound; lia]. }
  lia.
Qed.

Lemma bytes_of_be32 b0 b1 b2 b3 :
  is_byte b0 -> is_byte b1 -> is_byte b2 -> is_byte b3 ->
  be32_bytes (be32 b0 b1 b2 b3) = [b0; b1; b2; b3].
Proof.
  intros H0 H1 H2 H3. rewrite be32_value by done. unfold is_byte in *.
  unfold be32_bytes, u8. rewrite !Z.shiftr_div_pow2 by lia.
  set (w := b0 * 2 ^ 24 + b1 * 2 ^ 16 + b2 * 2 ^ 8 + b3).
  assert (w / 2 ^ 24 = b0) as ->
    by (symmetry; apply Z.div_unique with (b1 * 2 ^ 16 + b2 * 2 ^ 8 + b3); lia).
  assert (w / 2 ^ 16 = b0 * 2 ^ 8 + b1) as ->
    by (symmetry; apply Z.div_unique with (b2 * 2 ^ 8 + b3); lia).
  assert (w / 2 ^ 8 = (b0 * 2 ^ 8 + b1) * 2 ^ 8 + b2) as ->
    by (symmetry; apply Z.div_unique with b3; lia).
  subst w.
  repeat f_equal;
    [ apply Z.mod_small; lia
    | symmetry; apply Z.mod_unique with b0; lia
    | symmetry; apply Z.mod_unique with (b0 * 2 ^ 8 + b1); lia
    | symmetry; apply Z.mod_unique with (b0 * 2 ^ 16 + b1 * 2 ^ 8 + b2); lia ].
Qed.

(** ** Buffers

    A C array is the list of its elements. An access outside it has no
    defined behaviour; the operations return [None] there. *)

Definition buf_write (buf : list Z) (off : nat) (data : list Z) : option (list Z) :=
  if bool_decide (off + length data <= length buf)%nat
  then Some (take off buf ++ data ++ drop (off + length data) buf)
  else None.

Definition buf_read (buf : list Z) (off n : nat) : option (list Z) :=
  if bool_decide (off + n <= length buf)%nat
  then Some (take n (drop off buf))
  else None.

Lemma buf_write_Some buf off data :
  (off + length data <= length buf)%nat ->
  buf_write buf off data = Some (take off buf ++ data ++ drop (off + length data) buf).
Proof. intros. unfold buf_write. by rewrite bool_decide_true. Qed.

Lemma buf_write_None buf off data :
  (length buf < off + length data)%nat -> buf_write buf off data = None.
Proof. intros. unfold buf_write. rewrite bool_decide_false; [done | lia]. Qed.

Lemma buf_write_length buf off data buf' :
  buf_write buf off data = Some buf' -> length buf' = length buf.
Proof.
  unfold buf_write. case_bool_decide; intros; simplify_eq.
  rewrite !length_app, length_take, length_drop. lia.
Qed.

(** Writing one element is the update of the list. *)
Lemma buf_write_one buf i x : (i < length buf)%nat -> buf_write buf i [x] = Some (<[i := x]> buf).
Proof.
  intros Hi. rewrite buf_write_Some by (simpl; lia). f_equal. rewrite insert_take_drop by done.
  simpl. do 3 f_equal. lia.
Qed.

Lemma buf_read_Some buf off n :
  (off + n <= length buf)%nat -> buf_read buf off n = Some (take n (drop off buf)).
Proof. intros. unfold buf_read. by rewrite bool_decide_true. Qed.

Lemma buf_read_None buf off n :
  (length buf < off + n)%nat -> buf_read buf off n = None.
Proof. intros. unfold buf_read. rewrite bool_decide_false; [done | lia]. Qed.

Lemma buf_read_length buf off n data :
  buf_read buf off n = Some data -> length data = n.
Proof.
  unfold buf_read. case_bool_decide; intros; simplify_eq.
  rewrite length_take, length_drop. lia.
Qed.

(** What was written is what is read back. *)
Lemma buf_read_write buf off data buf' :
  buf_write buf off data = Some buf' -> buf_read buf' off (length data) = Some data.
Proof.
  intros H. pose proof (buf_write_length _ _ _ _ H) as HL.
  unfold buf_write in H. case_bool_decide; simplify_eq.
  rewrite buf_read_Some by lia. f_equal.
  rewrite drop_app_ge by (rewrite length_take; lia).
  rewrite length_take, Nat.min_l by lia.
  rewrite Nat.sub_diag, drop_0. apply take_app_length.
Qed.

(** ** Updates of an element that is there *)

Lemma list_alter_Some {A} (f : A -> A) (l : list A) i x :
  l !! i = Some x -> alter f i l = <[i := f x]> l.
Proof.
  intros H. apply list_eq. intros j. rewrite list_lookup_alter.
  destruct (decide (i = j)) as [->|Hne].
  - rewrite H, list_lookup_insert_eq; [done | by eapply lookup_lt_Some].
  - by rewrite list_lookup_insert_ne.
Qed.

(** Storing the next element of a piece that is spliced into a list. *)
Lemma splice_insert {A} (d t : list A) k m c : (k < length d)%nat -> (k < m)%nat ->
  take (S k) (<[k := c]> d) ++ t ++ drop m (<[k := c]> d) = take k d ++ (c :: t) ++ drop m d.
Proof.
  intros Hk Hm. rewrite drop_insert_lt, insert_take_drop by done.
  rewrite take_app_ge by (rewrite length_take; lia). rewrite length_take, Nat.min_l by lia.
  replace (S k - k)%nat with 1%nat by lia. cbn [take]. by rewrite take_0, <- app_assoc.
Qed.

Lemma fmap_alter {A B} (g : A -> B) (f : A -> A) (f' : B -> B) (l : list A) i :
  (forall x, g (f x) = f' (g x)) -> alter f' i (g <$> l) = g <$> alter f i l.
Proof.
  intros H. apply list_eq. intros j. rewrite list_lookup_alter, !list_lookup_fmap, list_lookup_alter.
  destruct (decide (i = j)); [|done]. destruct (l !! i); cbn; [by rewrite H | done].
Qed.

Lemma map_alter_Some `{Countable K} {A} (f : A -> A) (m : gmap K A) k x :
  m !! k = Some x -> alter f k m = <[k := f x]> m.
Proof.
  intros Hk. apply map_eq. intros j. destruct (decide (k = j)) as [->|Hne].
  - by rewrite lookup_alter_eq, Hk, lookup_insert_eq.
  - by rewrite lookup_alter_ne, lookup_insert_ne.
Qed.

(** ** Computations with state and undefined behaviour

    [M S A] is a computation that reads and updates a state [S] and returns an
    [A]; [None] is undefined behaviour (an access outside an array, a null
    pointer). C error codes are ordinary results. *)

Definition M (S A : Type) : Type := S -> option (A * S).

#[export] Instance M_ret S : MRet (M S) := fun A a s => Some (a, s).
#[export] Instance M_bind S : MBind (M S) :=
  fun A B f m s => match m s with Some (a, s') => f a s' | None => None end.

Definition get {S} : M S S := fun s => Some (s, s).
Definition put {S} (s : S) : M S unit := fun _ => Some (tt, s).
Definition gets {S A} (f : S -> A) : M S A := fun s => Some (f s, s).
Definition modify {S} (f : S -> S) : M S unit := fun s => Some (tt, f s).
Definition ub {S A} : M S A := fun _ => None.
Definition lift_opt {S A} (o : option A) : M S A :=
  fun s => match o with Some a => Some (a, s) | None => None end.

(** Run a computation on a component of the state. *)
Definition zoom {S T A} (proj : S -> T) (upd : T -> S -> S) (m : M T A) : M S A :=
  fun s => match m (proj s) with Some (a, t) => Some (a, upd t s) | None => None end.

Definition exec {S A} (m : M S A) (s : S) : option S := snd <$> m s.
Definition result {S A} (m : M S A) (s : S) : option A := fst <$> m s.

Lemma bind_unfold {S A B} (f : A -> M S B) (m : M S A) (s : S) :
  (m ≫= f) s = match m s with Some (a, s') => f a s' | None => None end.
Proof. reflexivity. Qed.

Lemma bind_Some {S A B} (f : A -> M S B) (m : M S A) (s : S) a s' :
  m s = Some (a, s') -> (m ≫= f) s = f a s'.
Proof. intros H. by rewrite bind_unfold, H. Qed.

Lemma bind_inv {S A B} (f : A -> M S B) (m : M S A) (s : S) b s2 :
  (m ≫= f) s = Some (b, s2) ->
  exists a s1, m s = Some (a, s1) /\ f a s1 = Some (b, s2).
Proof. rewrite bind_unfold. destruct (m s) as [[a s1]|]; [eauto | done]. Qed.

Lemma bind_total {S A B} (f : A -> M S B) (m : M S A) (s : S) :
  is_Some (m s) -> (forall a s', m s = Some (a, s') -> is_Some (f a s')) -> is_Some ((m ≫= f) s).
Proof. intros [[a s'] E] Hf. rewrite (bind_Some _ _ _ _ _ E). by apply Hf. Qed.

Lemma ret_unfold {S A} (a : A) (s : S) : (mret a : M S A) s = Some (a, s).
Proof. reflexivity. Qed.

Lemma get_run {S} (s : S) : get s = Some (s, s).
Proof. reflexivity. Qed.

Lemma put_run {S} (x s : S) : put x s = Some (tt, x).
Proof. reflexivity. Qed.

Lemma gets_run {S A} (f : S -> A) (s : S) : gets f s = Some (f s, s).
Proof. reflexivity. Qed.

Lemma modify_run {S} (f : S -> S) (s : S) : modify f s = Some (tt, f s).
Proof. reflexivity. Qed.

Lemma lift_opt_run {S A} (a : A) (s : S) : lift_opt (Some a) s = Some (a, s).
Proof. reflexivity. Qed.

Lemma lift_opt_None {S A} (s : S) : lift_opt (None : option A) s = None.
Proof. reflexivity. Qed.

(** *** Invariants of computations *)

(** [preserves P m]: from a state of [P], [m] ends, if defined, in one of [P]. *)
Definition preserves {S A} (P : S -> Prop) (m : M S A) : Prop :=
  forall s a s', P s -> m s = Some (a, s') -> P s'.

(** [safe P m]: from a state of [P], [m] has defined behaviour. *)
Definition safe {S A} (P : S -> Prop) (m : M S A) : Prop :=
  forall s, P s -> is_Some (m s).

Section Preserves.
Context {S : Type} (P : S -> Prop).

Lemma preserves_ret {A} (a : A) : preserves P (mret a).
Proof. intros s a' s' Hs H. rewrite ret_unfold in H. by simplify_eq. Qed.

Lemma preserves_bind {A B} (m : M S A) (f : A -> M S B) :
  preserves P m -> (forall a, preserves P (f a)) -> preserves P (m ≫= f).
Proof.
  intros Hm Hf s b s2 Hs H.
  apply bind_inv in H as (a & s1 & H1 & H2).
  eapply Hf; [|exact H2]. by eapply Hm.
Qed.

Lemma preserves_gets {A} (f : S -> A) : preserves P (gets f).
Proof. intros s a s' Hs H. unfold gets in H. by simplify_eq. Qed.

Lemma preserves_get : preserves P (get : M S S).
Proof. intros s a s' Hs H. unfold get in H. by simplify_eq. Qed.

Lemma preserves_modify (f : S -> S) :
  (forall s, P s -> P (f s)) -> preserves P (modify f).
Proof. intros Hf s a s' Hs H. unfold modify in H. simplify_eq. by apply Hf. Qed.

Lemma preserves_lift_opt {A} (o : option A) : preserves P (lift_opt o).
Proof. intros s a s' Hs H. unfold lift_opt in H. destruct o; by simplify_eq. Qed.

Lemma preserves_if {A} (b : bool) (m1 m2 : M S A) :
  preserves P m1 -> preserves P m2 -> preserves P (if b then m1 else m2).
Proof. by destruct b. Qed.

Lemma preserves_ub {A} : preserves P (ub : M S A).
Proof. intros s a s' _ H. done. Qed.
End Preserves.

Create HintDb board.
#[export] Hint Resolve preserves_ret preserves_bind preserves_gets preserves_lift_opt
  preserves_if preserves_ub : board.
#[export] Hint Resolve u8_range u16_range u32_range u8_is_byte : board.

(** ** Tactics *)

(** One step of a straight-line computation. *)
Ltac run_step :=
  first
    [ rewrite bind_unfold
    | rewrite ret_unfold
    | rewrite get_run
    | rewrite put_run
    | rewrite gets_run
    | rewrite modify_run
    | rewrite lift_opt_run
    | rewrite lift_opt_None ].

Ltac run := repeat (run_step; cbn beta iota).

(** A computation built from parts that preserve a property. *)
Ltac preserve :=
  repeat first
    [ assumption
    | solve [eauto 1 with board]
    | apply preserves_bind; [|intros ?]
    | apply preserves_ret | apply preserves_get | apply preserves_gets
    | apply preserves_lift_opt | apply preserves_ub
    | match goal with |- preserves _ (match ?x with _ => _ end) => destruct x eqn:? end
    | solve [eauto with board] ].

(** Turn boolean comparisons in hypotheses and goal into propositions. *)
Ltac zbool :=
  repeat match goal with
  | H : (_ =? _) = true |- _ => apply Z.eqb_eq in H
  | H : (_ =? _) = false |- _ => apply Z.eqb_neq in H
  | H : (_ <? _) = true |- _ => apply Z.ltb_lt in H
  | H : (_ <? _) = false |- _ => apply Z.ltb_ge in H
  | H : (_ <=? _) = true |- _ => apply Z.leb_le in H
  | H : (_ <=? _) = false |- _ => apply Z.leb_gt in H
  | H : (_ && _)%bool = true |- _ => apply andb_true_iff in H as [? ?]
  | H : (_ || _)%bool = false |- _ => apply orb_false_iff in H as [? ?]
  | H : negb _ = true |- _ => apply negb_true_iff in H
  | H : negb _ = false |- _ => apply negb_false_iff in H
  end.

(** Case analysis on the condition of the first [if] or [match] of the goal. *)
Ltac split_match :=
  match goal with
  | |- context [match ?x with _ => _ end] => destruct x eqn:?
  end.

(** Lengths of buffers put together from slices. *)
Ltac lens :=
  repeat first [rewrite length_app | rewrite length_take | rewrite length_drop
               | rewrite length_replicate].

(** ** Linux error numbers (include/asm-generic/errno-base.h, errno.h) *)

Definition ENXIO : Z := 6.
Definition EAGAIN : Z := 11.
Definition ENOMEM : Z := 12.
Definition EFAULT : Z := 14.
Definition EBUSY : Z := 16.
Definition EEXIST : Z := 17.
Definition ENODEV : Z := 19.
Definition EINVAL : Z := 22.
Definition ENOTTY : Z := 25.
Definition ESPIPE : Z := 29.
Definition EMSGSIZE : Z := 90.
Definition ESHUTDOWN : Z := 108.
Definition ENOIOCTLCMD : Z := 515.

(** ** ioctl command numbers (include/asm-generic/ioctl.h with the PowerPC
    field widths of arch/powerpc/include/asm/ioctl.h) *)

Definition IOC_NONE : Z := 1.
Definition IOC_READ : Z := 2.
Definition IOC_WRITE : Z := 4.

Definition IOC (dir type nr size : Z) : Z :=
  Z.lor (Z.lor (Z.lor (Z.shiftl dir 29) (Z.shiftl type 8)) nr) (Z.shiftl size 16).

Definition IOC_DIR (cmd : Z) : Z := Z.land (Z.shiftr cmd 29) 7.
Definition IOC_TYPE (cmd : Z) : Z := Z.land (Z.shiftr cmd 8) 0xff.
Definition IOC_NR (cmd : Z) : Z := Z.land cmd 0xff.
Definition IOC_SIZE (cmd : Z) : Z := Z.land (Z.shiftr cmd 16) 0x1fff.

Definition IO (type nr : Z) : Z := IOC IOC_NONE type nr 0.
Definition IOR (type nr size : Z) : Z := IOC IOC_READ type nr size.
Definition IOW (type nr size : Z) : Z := IOC IOC_WRITE type nr size.
