(* ===== verification/Klist.v ===== *)
(** * The kernel's doubly linked list (include/linux/list.h)

    Pointers are [Z]; the memory that holds [struct list_head]s is a finite map
    from addresses to nodes. Following a pointer outside the map is undefined
    behaviour ([None]). The four stores of [__list_add] and the two of
    [__list_del] happen one after the other, as in the source, so that the
    aliased cases (the empty list, where the head is its own neighbour) are
    covered by the same code.

    [is_list h head l] says that the circular list at [head] links exactly the
    nodes [l], forwards and backwards; the theorems show that [list_add] and
    [list_del] implement consing and removing on [l]. *)

From S2P Require Import Prelude.

Record list_head := LH { next : Z; prev : Z }.

Definition LIST_POISON1 : Z := 0x00100100.
Definition LIST_POISON2 : Z := 0x00200200.

(** ** Stores through a pointer *)

Definition set_next (p v : Z) (h : gmap Z list_head) : option (gmap Z list_head) :=
  match h !! p with
  | Some n => Some (<[p := LH v (prev n)]> h)
  | None => None
  end.

Definition set_prev (p v : Z) (h : gmap Z list_head) : option (gmap Z list_head) :=
  match h !! p with
  | Some n => Some (<[p := LH (next n) v]> h)
  | None => None
  end.

(** ** Operations *)

Definition INIT_LIST_HEAD (l : Z) (h : gmap Z list_head) : option (gmap Z list_head) :=
  h1 ← set_next l l h; set_prev l l h1.

Definition __list_add (new prev next : Z) (h : gmap Z list_head)
  : option (gmap Z list_head) :=
  h1 ← set_prev next new h;
  h2 ← set_next new next h1;
  h3 ← set_prev new prev h2;
  set_next prev new h3.

Definition list_add (new head : Z) (h : gmap Z list_head) : option (gmap Z list_head) :=
  n ← h !! head;
  __list_add new head (next n) h.

Definition list_add_tail (new head : Z) (h : gmap Z list_head)
  : option (gmap Z list_head) :=
  n ← h !! head;
  __list_add new (prev n) head h.

Definition __list_del (prev next : Z) (h : gmap Z list_head) : option (gmap Z list_head) :=
  h1 ← set_prev next prev h;
  set_next prev next h1.

Definition list_del (entry : Z) (h : gmap Z list_head) : option (gmap Z list_head) :=
  e ← h !! entry;
  h1 ← __list_del (prev e) (next e) h;
  h2 ← set_next entry LIST_POISON1 h1;
  set_prev entry LIST_POISON2 h2.

(** ** What a list is *)

Definition nextof (h : gmap Z list_head) (p : Z) : option Z := next <$> h !! p.
Definition prevof (h : gmap Z list_head) (p : Z) : option Z := prev <$> h !! p.

Definition linked (h : gmap Z list_head) (a b : Z) : Prop :=
  nextof h a = Some b /\ prevof h b = Some a.

Fixpoint chain (h : gmap Z list_head) (a : Z) (l : list Z) (b : Z) : Prop :=
  match l with
  | [] => linked h a b
  | x :: l' => linked h a x /\ chain h x l' b
  end.

Definition is_list (h : gmap Z list_head) (head : Z) (l : list Z) : Prop :=
  NoDup (head :: l) /\ chain h head l head.

(** ** Fields after a store *)

Section Stores.
Context (h : gmap Z list_head) (p v : Z).

Lemma set_next_ok : is_Some (h !! p) -> exists h',
  set_next p v h = Some h' /\
  (forall q, nextof h' q = if decide (q = p) then Some v else nextof h q) /\
  (forall q, prevof h' q = prevof h q) /\ dom h' = dom h.
Proof.
  intros [n Hn]. unfold set_next. rewrite Hn. eexists. split; [done|].
  unfold nextof, prevof. repeat split.
  - intros q. case_decide as E; simplify_map_eq; done.
  - intros q. destruct (decide (q = p)) as [->|]; by simplify_map_eq.
  - rewrite dom_insert_L. apply elem_of_dom_2 in Hn. set_solver.
Qed.

Lemma set_prev_ok : is_Some (h !! p) -> exists h',
  set_prev p v h = Some h' /\
  (forall q, prevof h' q = if decide (q = p) then Some v else prevof h q) /\
  (forall q, nextof h' q = nextof h q) /\ dom h' = dom h.
Proof.
  intros [n Hn]. unfold set_prev. rewrite Hn. eexists. split; [done|].
  unfold nextof, prevof. repeat split.
  - intros q. case_decide as E; simplify_map_eq; done.
  - intros q. destruct (decide (q = p)) as [->|]; by simplify_map_eq.
  - rewrite dom_insert_L. apply elem_of_dom_2 in Hn. set_solver.
Qed.
End Stores.

Lemma dom_is_Some (h h' : gmap Z list_head) (p : Z) :
  dom h' = dom h -> is_Some (h !! p) -> is_Some (h' !! p).
Proof. intros E. by rewrite <- !elem_of_dom, E. Qed.

Lemma __list_add_ok (h : gmap Z list_head) new p n :
  is_Some (h !! new) -> is_Some (h !! p) -> is_Some (h !! n) -> new <> p -> new <> n ->
  exists h', __list_add new p n h = Some h' /\ dom h' = dom h /\
    (forall q, nextof h' q =
       if decide (q = p) then Some new else if decide (q = new) then Some n else nextof h q) /\
    (forall q, prevof h' q =
       if decide (q = new) then Some p else if decide (q = n) then Some new else prevof h q).
Proof.
  intros Hnew Hp Hn Hne1 Hne2. unfold __list_add.
  destruct (set_prev_ok h n new Hn) as (h1 & -> & P1 & N1 & D1). simpl.
  destruct (set_next_ok h1 new n) as (h2 & -> & N2 & P2 & D2).
  { by eapply dom_is_Some. }
  simpl. destruct (set_prev_ok h2 new p) as (h3 & -> & P3 & N3 & D3).
  { eapply dom_is_Some; [|exact Hnew]. congruence. }
  simpl. destruct (set_next_ok h3 p new) as (h4 & -> & N4 & P4 & D4).
  { eapply dom_is_Some; [|exact Hp]. congruence. }
  exists h4. split; [done|]. split; [congruence|]. split; intros q.
  - rewrite N4, N3, N2, N1. repeat case_decide; congruence.
  - rewrite P4, P3, P2, P1. repeat case_decide; congruence.
Qed.

(** ** Chains *)

Lemma chain_ext h h' a l b :
  (forall p, p ∈ a :: l -> nextof h' p = nextof h p) ->
  (forall p, p ∈ l ++ [b] -> prevof h' p = prevof h p) ->
  chain h a l b -> chain h' a l b.
Proof.
  revert a. induction l as [|x l IH]; intros a Hn Hp; simpl.
  - intros [H1 H2]. split; [rewrite Hn | rewrite Hp]; set_solver.
  - intros [[H1 H2] H]. split.
    + split; [rewrite Hn | rewrite Hp]; set_solver.
    + apply IH; [intros p ? ..|done]; [apply Hn | apply Hp]; set_solver.
Qed.

Lemma chain_app h a l1 x l2 b :
  chain h a (l1 ++ x :: l2) b <-> chain h a l1 x /\ chain h x l2 b.
Proof. revert a. induction l1 as [|y l1 IH]; intros a; simpl; [done|]. rewrite IH. tauto. Qed.

Lemma linked_is_Some h a b : linked h a b -> is_Some (h !! a) /\ is_Some (h !! b).
Proof. unfold linked, nextof, prevof. destruct (h !! a), (h !! b); simpl; naive_solver. Qed.

Lemma chain_is_Some h a l b p :
  chain h a l b -> p ∈ a :: l ++ [b] -> is_Some (h !! p).
Proof.
  revert a. induction l as [|x l IH]; intros a; simpl.
  - intros H%linked_is_Some Hp. set_solver.
  - intros [H%linked_is_Some Hc] Hp. apply elem_of_cons in Hp as [->|Hp]; [tauto|].
    by eapply IH.
Qed.

(** First element of a chain, and the node before its end. *)
Lemma chain_first h a l b :
  chain h a l b -> linked h a (hd b l).
Proof. destruct l; simpl; tauto. Qed.

Lemma default_last_cons (a x : Z) l : default a (last (x :: l)) = default x (last l).
Proof. rewrite last_cons. by destruct (last l). Qed.

Lemma default_last_elem (a : Z) l : default a (last l) ∈ a :: l.
Proof.
  destruct (last l) eqn:El; simpl; [|set_solver].
  apply last_Some_elem_of in El. set_solver.
Qed.

Lemma chain_last h a l b :
  chain h a l b -> linked h (default a (last l)) b.
Proof.
  revert a. induction l as [|x l IH]; intros a; simpl; [done|].
  intros [_ H]. rewrite default_last_cons. by apply IH.
Qed.

(** ** The operations implement their list specification *)

(** Inserting after the head makes the new node the first one. *)
Lemma list_add_spec h head l new :
  is_list h head l -> new ∉ head :: l -> is_Some (h !! new) ->
  exists h', list_add new head h = Some h' /\ is_list h' head (new :: l) /\ dom h' = dom h.
Proof.
  intros [Hnd Hc] Hnew Hs.
  pose proof (chain_first _ _ _ _ Hc) as [Hn Hp].
  pose proof (chain_is_Some _ _ _ _ head Hc ltac:(set_solver)) as [nh Hh].
  unfold nextof in Hn. rewrite Hh in Hn. simpl in Hn. simplify_eq.
  unfold list_add. rewrite Hh. simpl. rewrite Hn.
  assert (hd head l ∈ head :: l) as Hhd by (destruct l; set_solver).
  destruct (__list_add_ok h new head (hd head l)) as (h' & E & D & N & P).
  { done. } { by eexists. }
  { eapply chain_is_Some; [exact Hc | set_solver]. } { set_solver. }
  { intros ->. done. }
  exists h'. split; [done|]. split; [|done]. split.
  { apply NoDup_cons in Hnd as [? ?]. apply NoDup_cons; split; [set_solver|].
    apply NoDup_cons; split; set_solver. }
  apply NoDup_cons in Hnd as [Hh1 Hnd]. simpl. split.
  - split; [rewrite N | rewrite P]; by rewrite decide_True.
  - destruct l as [|x l]; simpl in *.
    + split; [rewrite N | rewrite P]; repeat case_decide; set_solver.
    + destruct Hc as [_ Hc]. apply NoDup_cons in Hnd as [Hx Hnd]. split.
      { split; [rewrite N | rewrite P]; repeat case_decide; set_solver. }
      eapply chain_ext; [..|exact Hc].
      * intros p Hp'. rewrite N. repeat case_decide; set_solver.
      * intros p Hp'. rewrite P. repeat case_decide; set_solver.
Qed.

Lemma __list_del_ok (h : gmap Z list_head) p n :
  is_Some (h !! p) -> is_Some (h !! n) ->
  exists h', __list_del p n h = Some h' /\ dom h' = dom h /\
    (forall q, nextof h' q = if decide (q = p) then Some n else nextof h q) /\
    (forall q, prevof h' q = if decide (q = n) then Some p else prevof h q).
Proof.
  intros Hp Hn. unfold __list_del.
  destruct (set_prev_ok h n p Hn) as (h1 & -> & P1 & N1 & D1). simpl.
  destruct (set_next_ok h1 p n) as (h2 & -> & N2 & P2 & D2).
  { by eapply dom_is_Some. }
  exists h2. split; [done|]. split; [congruence|].
  split; intros q; [rewrite N2, N1 | rewrite P2, P1]; done.
Qed.

Lemma list_del_ok (h : gmap Z list_head) e p n :
  linked h p e -> linked h e n ->
  exists h', list_del e h = Some h' /\ dom h' = dom h /\
    (forall q, q <> e -> nextof h' q = if decide (q = p) then Some n else nextof h q) /\
    (forall q, q <> e -> prevof h' q = if decide (q = n) then Some p else prevof h q).
Proof.
  intros Hpe Hen.
  pose proof (linked_is_Some _ _ _ Hpe) as [Sp Se].
  pose proof (linked_is_Some _ _ _ Hen) as [_ Sn].
  destruct Hpe as [_ Hp], Hen as [Hn _].
  unfold list_del. unfold nextof, prevof in Hp, Hn.
  destruct (h !! e) as [ne|] eqn:He; simplify_eq/=.
  destruct (__list_del_ok h (prev ne) (next ne)) as (h1 & -> & D1 & N1 & P1);
    [done | done | simpl].
  destruct (set_next_ok h1 e LIST_POISON1) as (h2 & -> & N2 & P2 & D2).
  { eapply dom_is_Some; eauto. }
  simpl. destruct (set_prev_ok h2 e LIST_POISON2) as (h3 & -> & P3 & N3 & D3).
  { eapply dom_is_Some; [|eexists; exact He]. congruence. }
  exists h3. split; [done|]. split; [congruence|]. split; intros q Hq.
  - rewrite N3, N2, decide_False by done. apply N1.
  - rewrite P3, decide_False, P2 by done. apply P1.
Qed.

(** Joining the two halves around a removed node. *)
Lemma chain_join h h' a l1 l2 b :
  (forall p, p ∈ a :: l1 -> nextof h' p =
     if decide (p = default a (last l1)) then Some (hd b l2) else nextof h p) ->
  (forall p, p ∈ l1 -> prevof h' p = prevof h p) ->
  (forall p, p ∈ l2 -> nextof h' p = nextof h p) ->
  (forall p, p ∈ l2 ++ [b] -> prevof h' p =
     if decide (p = hd b l2) then Some (default a (last l1)) else prevof h p) ->
  NoDup (a :: l1) -> NoDup (l2 ++ [b]) ->
  forall e, chain h a l1 e -> chain h e l2 b -> chain h' a (l1 ++ l2) b.
Proof.
  revert a. induction l1 as [|x l1 IH]; intros a Hn1 Hp1 Hn2 Hp2 Hnd1 Hnd2 e H1 H2.
  - simpl in *. destruct l2 as [|y l2]; simpl in *.
    + split; [rewrite Hn1 | rewrite Hp2]; [by rewrite decide_True|set_solver|
        by rewrite decide_True|set_solver].
    + destruct H2 as [_ H2]. apply NoDup_cons in Hnd2 as [Hy Hnd2]. split.
      * split; [rewrite Hn1 | rewrite Hp2]; [by rewrite decide_True|set_solver|
          by rewrite decide_True|set_solver].
      * eapply chain_ext; [..|exact H2]; intros p Hp; [apply Hn2; set_solver|].
        rewrite Hp2 by set_solver. case_decide; set_solver.
  - destruct H1 as [[Ha Hx] H1]. apply NoDup_cons in Hnd1 as [Hax Hnd1].
    rewrite default_last_cons in *. simpl. split.
    + pose proof (default_last_elem x l1) as Hin.
      split; [rewrite Hn1 by set_solver | rewrite Hp1 by set_solver]; [|done].
      rewrite decide_False; [done|]. intros ->. done.
    + eapply IH; eauto; intros p Hp; [apply Hn1 | apply Hp1]; set_solver.
Qed.

(** Removing a node leaves the others linked in their order. *)
Lemma list_del_spec h head l1 e l2 :
  is_list h head (l1 ++ e :: l2) ->
  exists h', list_del e h = Some h' /\ is_list h' head (l1 ++ l2) /\ dom h' = dom h.
Proof.
  intros [Hnd Hc]. apply chain_app in Hc as [H1 H2].
  destruct (list_del_ok h e (default head (last l1)) (hd head l2))
    as (h' & E & D & N & P); [by apply chain_last | by apply chain_first |].
  exists h'. split; [done|]. split; [|done].
  assert (NoDup (head :: l1 ++ l2)) as Hnd'.
  { rewrite <- Permutation_middle in Hnd. rewrite NoDup_cons in Hnd. rewrite NoDup_cons in Hnd.
    apply NoDup_cons. set_solver. }
  split; [done|].
  assert (e <> head) as Hne by (apply NoDup_cons in Hnd as [? _]; set_solver).
  assert (forall p, p ∈ l1 ++ l2 -> p <> e) as Hnot.
  { intros p Hp ->. apply NoDup_cons in Hnd as [_ Hnd].
    apply NoDup_app in Hnd as (_ & Hx & Hy). apply NoDup_cons in Hy. set_solver. }
  pose proof (proj1 (NoDup_cons _ _) Hnd') as [Hhead Hl].
  apply NoDup_app in Hl as (Hl1 & Hdisj & Hl2).
  pose proof (default_last_elem head l1) as HL.
  assert (hd head l2 ∈ l2 ++ [head]) as HF by (destruct l2; set_solver).
  eapply (chain_join h); [..|exact H1|exact H2].
  - intros p Hp. apply N. set_solver.
  - intros p Hp. rewrite P by set_solver. rewrite decide_False; [done|]. intros ->.
    apply elem_of_app in HF as [HF|HF]; [by eapply Hdisj|].
    apply list_elem_of_singleton in HF. rewrite HF in Hp. set_solver.
  - intros p Hp. rewrite N by set_solver. rewrite decide_False; [done|]. intros ->.
    apply elem_of_cons in HL as [HL|HL]; [|by eapply Hdisj]. rewrite HL in Hp. set_solver.
  - intros p Hp. apply P. apply elem_of_app in Hp as [Hp|Hp];
      [apply Hnot; set_solver | set_solver].
  - apply NoDup_cons. set_solver.
  - apply NoDup_app. split; [done|]. split; [set_solver|]. apply NoDup_singleton.
Qed.

(** Initialising a node makes it point to itself. *)
Lemma INIT_LIST_HEAD_eq h p :
  is_Some (h !! p) -> INIT_LIST_HEAD p h = Some (<[p := LH p p]> h).
Proof.
  intros [n Hn]. unfold INIT_LIST_HEAD, set_next, set_prev. rewrite Hn. simpl.
  rewrite lookup_insert_eq. simpl. by rewrite insert_insert_eq.
Qed.

Lemma is_list_other h head l p n :
  is_list h head l -> p ∉ head :: l -> is_list (<[p := n]> h) head l.
Proof.
  intros [Hnd Hc] Hp. split; [done|]. eapply chain_ext; [..|exact Hc];
    intros q Hq; unfold nextof, prevof; rewrite lookup_insert_ne; set_solver.
Qed.

(** An initialised head is the empty list. *)
Lemma INIT_LIST_HEAD_spec h head :
  is_Some (h !! head) ->
  exists h', INIT_LIST_HEAD head h = Some h' /\ is_list h' head [].
Proof.
  intros Hs. rewrite (INIT_LIST_HEAD_eq h head Hs). eexists. split; [done|].
  split; [apply NoDup_singleton|].
  split; unfold nextof, prevof; by rewrite lookup_insert_eq.
Qed.
