(* ===== verification/KlistOps.v ===== *)
(** * The rest of the kernel's list functions (include/linux/list.h)

    Moving, replacing, rotating, cutting and splicing circular lists, on the store
    of nodes of Klist and store by store as in the source. Each function is shown to
    do to the sequences of nodes what its description says; all other nodes keep
    their contents. *)

From S2P Require Import Prelude Klist.

(** ** Operations *)

Definition list_replace (old new : Z) (h : gmap Z list_head) : option (gmap Z list_head) :=
  o ← h !! old;
  h1 ← set_next new (next o) h;
  n1 ← h1 !! new;
  h2 ← set_prev (next n1) new h1;
  o2 ← h2 !! old;
  h3 ← set_prev new (prev o2) h2;
  n3 ← h3 !! new;
  set_next (prev n3) new h3.

Definition list_replace_init (old new : Z) (h : gmap Z list_head) : option (gmap Z list_head) :=
  h1 ← list_replace old new h; INIT_LIST_HEAD old h1.

Definition list_del_init (entry : Z) (h : gmap Z list_head) : option (gmap Z list_head) :=
  e ← h !! entry;
  h1 ← __list_del (prev e) (next e) h;
  INIT_LIST_HEAD entry h1.

Definition list_move (entry head : Z) (h : gmap Z list_head) : option (gmap Z list_head) :=
  e ← h !! entry;
  h1 ← __list_del (prev e) (next e) h;
  list_add entry head h1.

Definition list_move_tail (entry head : Z) (h : gmap Z list_head) : option (gmap Z list_head) :=
  e ← h !! entry;
  h1 ← __list_del (prev e) (next e) h;
  list_add_tail entry head h1.

Definition list_is_last (entry head : Z) (h : gmap Z list_head) : option bool :=
  e ← h !! entry; Some (next e =? head).

Definition list_empty (head : Z) (h : gmap Z list_head) : option bool :=
  n ← h !! head; Some (next n =? head).

Definition list_empty_careful (head : Z) (h : gmap Z list_head) : option bool :=
  n ← h !! head; Some ((next n =? head) && (next n =? prev n)).

Definition list_is_singular (head : Z) (h : gmap Z list_head) : option bool :=
  n ← h !! head; Some (negb (next n =? head) && (next n =? prev n)).

Definition list_rotate_left (head : Z) (h : gmap Z list_head) : option (gmap Z list_head) :=
  n ← h !! head;
  if negb (next n =? head) then list_move_tail (next n) head h else Some h.

Definition __list_cut_position (list head entry : Z) (h : gmap Z list_head) : option (gmap Z list_head) :=
  e ← h !! entry;
  let new_first := next e in
  n ← h !! head;
  h1 ← set_next list (next n) h;
  l ← h1 !! list;
  h2 ← set_prev (next l) list h1;
  h3 ← set_prev list entry h2;
  h4 ← set_next entry list h3;
  h5 ← set_next head new_first h4;
  set_prev new_first head h5.

Definition list_cut_position (list head entry : Z) (h : gmap Z list_head) : option (gmap Z list_head) :=
  n ← h !! head;
  if next n =? head then Some h
  else if (next n =? prev n) && (negb (next n =? entry) && negb (head =? entry)) then Some h
  else if entry =? head then INIT_LIST_HEAD list h
  else __list_cut_position list head entry h.

Definition __list_splice (list prev_ next_ : Z) (h : gmap Z list_head) : option (gmap Z list_head) :=
  n ← h !! list;
  h1 ← set_prev (next n) prev_ h;
  h2 ← set_next prev_ (next n) h1;
  h3 ← set_next (prev n) next_ h2;
  set_prev next_ (prev n) h3.

Definition list_splice (list head : Z) (h : gmap Z list_head) : option (gmap Z list_head) :=
  n ← h !! list;
  if negb (next n =? list) then b ← h !! head; __list_splice list head (next b) h else Some h.

Definition list_splice_tail (list head : Z) (h : gmap Z list_head) : option (gmap Z list_head) :=
  n ← h !! list;
  if negb (next n =? list) then b ← h !! head; __list_splice list (prev b) head h else Some h.

Definition list_splice_init (list head : Z) (h : gmap Z list_head) : option (gmap Z list_head) :=
  n ← h !! list;
  if negb (next n =? list)
  then b ← h !! head; h1 ← __list_splice list head (next b) h; INIT_LIST_HEAD list h1 else Some h.

Definition list_splice_tail_init (list head : Z) (h : gmap Z list_head) : option (gmap Z list_head) :=
  n ← h !! list;
  if negb (next n =? list)
  then b ← h !! head; h1 ← __list_splice list (prev b) head h; INIT_LIST_HEAD list h1 else Some h.

(** ** Segments

    Neighbours in a sequence of nodes are linked to each other. *)

Fixpoint seg (h : gmap Z list_head) (l : list Z) : Prop :=
  match l with
  | x :: (y :: _) as r => linked h x y /\ seg h r
  | _ => True
  end.

Lemma chain_seg h a l b : chain h a l b <-> seg h (a :: l ++ [b]).
Proof. revert a. induction l as [|x l IH]; intros a; cbn; [tauto|]. rewrite IH. cbn. tauto. Qed.

Lemma seg_app h l1 x l2 : seg h (l1 ++ x :: l2) <-> seg h (l1 ++ [x]) /\ seg h (x :: l2).
Proof.
  induction l1 as [|a l1 IH]; [cbn; tauto|]. destruct l1 as [|b l1]; cbn [app seg] in *; [tauto|]. rewrite IH. tauto.
Qed.

Lemma seg_link h l1 x y l2 : seg h (l1 ++ x :: y :: l2) <-> seg h (l1 ++ [x]) /\ linked h x y /\ seg h (y :: l2).
Proof. rewrite seg_app. done. Qed.

(** Stores outside a segment do not break it. *)
Lemma seg_ext h h' l : (forall q, q ∈ removelast l -> nextof h' q = nextof h q) ->
  (forall q, q ∈ tail l -> prevof h' q = prevof h q) -> seg h l -> seg h' l.
Proof.
  induction l as [|x [|y l] IH]; intros Hn Hp; [done..|]. cbn [seg]. intros [[L1 L2] Hs]. split.
  - split; [rewrite Hn by (cbn; set_solver)|rewrite Hp by set_solver]; done.
  - apply IH; [intros q Hq; apply Hn; cbn in *; set_solver|intros q Hq; apply Hp; cbn in *; set_solver|done].
Qed.

Lemma seg_is_Some h l x : seg h l -> (1 < length l)%nat -> x ∈ l -> is_Some (h !! x).
Proof.
  induction l as [|a [|b l] IH]; intros Hs Hl Hx; cbn in Hl; [lia..|]. destruct Hs as [L Hs]. apply linked_is_Some in L as [Sa Sb].
  apply elem_of_cons in Hx as [-> |Hx]; [done|]. destruct l as [|c l]; [by apply list_elem_of_singleton in Hx as ->|].
  apply IH; [done|cbn; lia|done].
Qed.

(** Nodes with the same fields are the same. *)
Lemma node_eq (h h' : gmap Z list_head) q : nextof h' q = nextof h q -> prevof h' q = prevof h q -> h' !! q = h !! q.
Proof.
  unfold nextof, prevof. destruct (h' !! q) as [[a b]|], (h !! q) as [[c d]|]; cbn; intros; simplify_eq; done.
Qed.

(** All nodes but those of [l] are as before. *)
Definition elsewhere (h h' : gmap Z list_head) (l : list Z) : Prop := forall q, q ∉ l -> h' !! q = h !! q.

(** The fields of a circular list, from its sequence. *)
Lemma is_list_seg h a l : is_list h a l <-> NoDup (a :: l) /\ seg h (a :: l ++ [a]).
Proof. unfold is_list. by rewrite chain_seg. Qed.

Lemma is_list_node h a l : is_list h a l -> exists n, h !! a = Some n /\ next n = hd a l /\ prev n = default a (last l).
Proof.
  intros [_ Hc]. pose proof (chain_first _ _ _ _ Hc) as [Hn _]. pose proof (chain_last _ _ _ _ Hc) as [_ Hp].
  unfold nextof, prevof in *. destruct (h !! a) as [n|]; [|done]. exists n. cbn in *. by simplify_eq.
Qed.

Lemma is_list_Some h a l x : is_list h a l -> x ∈ a :: l -> is_Some (h !! x).
Proof. intros [_ Hc] Hx. eapply chain_is_Some; [exact Hc|set_solver]. Qed.

(** ** Tests *)

Lemma list_empty_spec h a l : is_list h a l -> list_empty a h = Some (bool_decide (l = [])).
Proof.
  intros Hl. destruct (is_list_node _ _ _ Hl) as (n & Hn & En & _). unfold list_empty. rewrite Hn. cbn [mbind option_bind]. f_equal. rewrite En.
  destruct l as [|x l]; cbn [hd]; [by rewrite Z.eqb_refl, bool_decide_true|]. rewrite bool_decide_false by done.
  apply Z.eqb_neq. destruct Hl as [Hnd _]. apply NoDup_cons in Hnd. set_solver.
Qed.

Lemma hd_not a l : NoDup (a :: l) -> (hd a l =? a) = bool_decide (l = []).
Proof.
  intros Hnd. destruct l as [|x l]; cbn [hd]; [by rewrite Z.eqb_refl, bool_decide_true|]. rewrite bool_decide_false by done.
  apply Z.eqb_neq. apply NoDup_cons in Hnd. set_solver.
Qed.

Lemma list_is_singular_spec h a l : is_list h a l -> list_is_singular a h = Some (bool_decide (length l = 1%nat)).
Proof.
  intros Hl. destruct (is_list_node _ _ _ Hl) as (n & Hn & En & Ep). unfold list_is_singular. rewrite Hn. cbn [mbind option_bind]. f_equal.
  rewrite En, Ep. destruct Hl as [Hnd _]. rewrite hd_not by done. destruct l as [|x [|y l]].
  - done.
  - rewrite (bool_decide_false ([x] = [])), bool_decide_true by done. cbn. apply Z.eqb_refl.
  - rewrite !bool_decide_false by done. cbn [negb andb hd]. rewrite !default_last_cons. apply Z.eqb_neq.
    pose proof (default_last_elem y l). apply NoDup_cons in Hnd as [_ Hnd]. apply NoDup_cons in Hnd as [Hx _]. intros E. by rewrite <- E in *.
Qed.

(** ** Splicing *)

Lemma __list_splice_ok h a p n f g : h !! a = Some (LH f g) ->
  is_Some (h !! p) -> is_Some (h !! n) -> is_Some (h !! f) -> is_Some (h !! g) ->
  exists h', __list_splice a p n h = Some h' /\ dom h' = dom h /\
    (forall q, nextof h' q = if decide (q = g) then Some n else if decide (q = p) then Some f else nextof h q) /\
    (forall q, prevof h' q = if decide (q = n) then Some g else if decide (q = f) then Some p else prevof h q).
Proof.
  intros Ha Sp Sn Sf Sg. unfold __list_splice. rewrite Ha. cbn [mbind option_bind next prev].
  destruct (set_prev_ok h f p Sf) as (h1 & -> & P1 & N1 & D1). cbn [mbind option_bind].
  destruct (set_next_ok h1 p f) as (h2 & -> & N2 & P2 & D2); [by eapply dom_is_Some|]. cbn [mbind option_bind].
  destruct (set_next_ok h2 g n) as (h3 & -> & N3 & P3 & D3); [eapply dom_is_Some; [|exact Sg]; congruence|]. cbn [mbind option_bind].
  destruct (set_prev_ok h3 n g) as (h4 & -> & P4 & N4 & D4); [eapply dom_is_Some; [|exact Sn]; congruence|].
  exists h4. split; [done|]. split; [congruence|]. split; intros q.
  - rewrite N4, N3, N2, N1. done.
  - rewrite P4, P3, P2, P1. done.
Qed.

Lemma in_removelast (l : list Z) x : x ∈ removelast l -> x ∈ l.
Proof. induction l as [|y [|z l] IH]; cbn [removelast]; set_solver. Qed.

(** A segment put between two neighbours. *)
Lemma splice_seg h h' u p la f g n w : la = f :: tail la -> la = removelast la ++ [g] ->
  seg h (u ++ [p]) -> seg h la -> seg h (n :: w) -> NoDup la ->
  (forall q, q ∈ la -> q ∉ u ++ p :: n :: w) -> p ∉ u -> n ∉ tail (u ++ [p]) -> n ∉ w -> p ∉ removelast (n :: w) ->
  (forall q, nextof h' q = if decide (q = g) then Some n else if decide (q = p) then Some f else nextof h q) ->
  (forall q, prevof h' q = if decide (q = n) then Some g else if decide (q = f) then Some p else prevof h q) ->
  seg h' (u ++ p :: la ++ n :: w).
Proof.
  intros Ef Eg Su Sl Sw Hnd Hdis Hpu Hnu Hnw Hpw N P.
  assert (f ∈ la) as Hf by (rewrite Ef; set_solver). assert (g ∈ la) as Hg by (rewrite Eg; set_solver).
  assert (g ∉ removelast la) as Hgr by (rewrite Eg, NoDup_app in Hnd; set_solver).
  assert (f ∉ tail la) as Hft by (rewrite Ef in Hnd; apply NoDup_cons in Hnd; tauto).
  assert (forall (l : list Z) x, x ∈ tail l -> x ∈ l) as Hti by (intros [|y l] x; set_solver).
  pose proof in_removelast as Hri.
  rewrite Ef. cbn [app]. rewrite seg_link. split; [|split].
  - eapply seg_ext; [..|exact Su]; intros q Hq.
    + rewrite removelast_last in Hq. rewrite N, !decide_False; [done|set_solver..].
    + rewrite P, !decide_False; [done| |]; [intros ->; apply Hti in Hq; set_solver|set_solver].
  - split; [rewrite N|rewrite P]; [rewrite decide_False by set_solver|rewrite decide_False by set_solver]; by rewrite decide_True.
  - assert (f :: tail la ++ n :: w = removelast la ++ g :: n :: w) as ->.
    { change (f :: tail la ++ n :: w) with ((f :: tail la) ++ n :: w). rewrite <- Ef. rewrite Eg at 1. by rewrite <- app_assoc. }
    rewrite seg_link. rewrite <- Eg. split; [|split].
    + eapply seg_ext; [..|exact Sl]; intros q Hq.
      * rewrite N, !decide_False; [done| |]; [apply Hri in Hq; set_solver|set_solver].
      * rewrite P, !decide_False; [done|set_solver|]. apply Hti in Hq. set_solver.
    + split; [rewrite N|rewrite P]; by rewrite decide_True.
    + eapply seg_ext; [..|exact Sw]; intros q Hq.
      * rewrite N, !decide_False; [done|set_solver|]. apply Hri in Hq. set_solver.
      * cbn [tail] in Hq. rewrite P, !decide_False; [done|set_solver..].
Qed.

Lemma seg_tail h a l : seg h (a :: l) -> seg h l.
Proof. destruct l; cbn; tauto. Qed.

Lemma seg_front h l b : seg h (l ++ [b]) -> seg h l.
Proof.
  induction l as [|x [|y l] IH]; [done..|]. cbn [app seg] in *. tauto.
Qed.

(** The first and the last of a list that is not empty. *)
Lemma ends_of (a : Z) la : la <> [] -> la = hd a la :: tail la /\ la = removelast la ++ [default a (last la)].
Proof.
  intros Hne. split; [by destruct la|]. destruct (last la) as [g|] eqn:E; [|by apply last_None in E].
  apply last_Some in E as [l' ->]. by rewrite removelast_last.
Qed.

(** A place in a circular list: the two neighbours there. *)
Lemma place (a : Z) l1 l2 : NoDup (a :: l1 ++ l2) -> exists u w,
  let p := default a (last l1) in let n := hd a l2 in
  a :: l1 = u ++ [p] /\ l2 ++ [a] = n :: w /\ (p ∉ u) /\ (n ∉ tail (u ++ [p])) /\ (n ∉ w) /\ (p ∉ removelast (n :: w)).
Proof.
  intros Hnd. exists (removelast (a :: l1)), (tail (l2 ++ [a])). cbv zeta. apply NoDup_cons in Hnd as [Ha Hnd].
  apply NoDup_app in Hnd as (N1 & Hd & N2). assert (a :: l1 = removelast (a :: l1) ++ [default a (last l1)]) as E1.
  { destruct (ends_of a (a :: l1)) as [_ E]; [done|]. by rewrite default_last_cons in E. }
  assert (NoDup (a :: l1)) as Na by (apply NoDup_cons; set_solver). pose proof Na as Na'. rewrite E1 in Na'. apply NoDup_app in Na' as (_ & Hu & _).
  split; [done|]. split; [by destruct l2|]. split; [set_solver|]. rewrite <- E1. cbn [tail].
  pose proof (default_last_elem a l1) as Hp. split; [destruct l2; set_solver|]. split.
  - destruct l2 as [|x l2]; cbn; [set_solver|]. apply NoDup_cons in N2. set_solver.
  - assert (hd a l2 :: tail (l2 ++ [a]) = l2 ++ [a]) as -> by (by destruct l2). rewrite removelast_last. clear - Hp Ha Hd. revert Hp.
    generalize (default a (last l1)). intros d Hp. set_solver.
Qed.

Section Splice.
Context (h : gmap Z list_head) (a : Z) (la : list Z) (b : Z) (lb : list Z).
Hypothesis (Ha : is_list h a la) (Hb : is_list h b lb) (apart : forall q, q ∈ a :: la -> q ∉ b :: lb).

Lemma joined_nodup l : Permutation l (la ++ lb) -> NoDup (b :: l).
Proof.
  intros Hp. destruct Ha as [Na _], Hb as [Nb _]. apply NoDup_cons in Na as [_ Na]. apply NoDup_cons in Nb as [Hbn Nb].
  apply NoDup_cons. rewrite Hp. split; [set_solver|]. apply NoDup_app. split; [done|]. split; [set_solver|done].
Qed.

Lemma splice_between l1 l2 : la <> [] -> lb = l1 ++ l2 ->
  exists h', __list_splice a (default b (last l1)) (hd b l2) h = Some h' /\ dom h' = dom h /\
    is_list h' b (l1 ++ la ++ l2) /\ elsewhere h h' (b :: la ++ lb).
Proof.
  intros Hne El. destruct (is_list_node _ _ _ Ha) as ([f g] & Hn & Hf & Hg). cbn in Hf, Hg. subst f g.
  destruct (ends_of a la Hne) as [E1 E2]. pose proof (proj1 (is_list_seg _ _ _) Ha) as [Hnd Sa]. pose proof (proj1 (is_list_seg _ _ _) Hb) as [Hndb Sb].
  destruct (place b l1 l2) as (u & w & Eu & Ew & Hpu & Hnu & Hnw & Hpw); [by rewrite <- El|]. set (p := default b (last l1)) in *. set (n := hd b l2) in *.
  assert (b :: lb ++ [b] = u ++ p :: n :: w) as E.
  { rewrite El, <- app_assoc, Ew. change (b :: l1 ++ n :: w) with ((b :: l1) ++ n :: w). by rewrite Eu, <- app_assoc. }
  assert (hd a la ∈ la /\ default a (last la) ∈ la) as [If Ig].
  { split; [rewrite E1 at 2|rewrite E2 at 2]; set_solver. }
  assert (forall q, q ∈ u ++ p :: n :: w -> q ∈ b :: lb) as Hin by (intros q; rewrite <- E; set_solver).
  destruct (__list_splice_ok h a p n (hd a la) (default a (last la)) Hn) as (h' & Eh & D & N & P).
  { apply (is_list_Some _ _ _ _ Hb), Hin. set_solver. } { apply (is_list_Some _ _ _ _ Hb), Hin. set_solver. }
  { apply (is_list_Some _ _ _ _ Ha). set_solver. } { apply (is_list_Some _ _ _ _ Ha). set_solver. }
  exists h'. split; [done|]. split; [done|]. rewrite E, seg_link in Sb. destruct Sb as (S1 & _ & S2). split.
  - apply is_list_seg. split; [apply joined_nodup; rewrite El; solve_Permutation|]. rewrite <- !app_assoc, Ew.
    change (b :: l1 ++ la ++ n :: w) with ((b :: l1) ++ la ++ n :: w). rewrite Eu, <- app_assoc.
    eapply splice_seg; [exact E1|exact E2|exact S1| |exact S2| |..|exact N|exact P]; try done.
    + apply seg_tail in Sa. by apply seg_front in Sa.
    + by apply NoDup_cons in Hnd as [_ ?].
    + intros q Hq Hq'. apply (apart q); [set_solver|by apply Hin].
  - intros q Hq. rewrite elem_of_cons, elem_of_app in Hq. assert ((q ∉ la) /\ (q ∉ b :: lb)) as [Q1 Q2] by (rewrite elem_of_cons; tauto).
    assert (q <> p /\ q <> n) as [? ?] by (split; intros ->; apply Q2, Hin; set_solver).
    apply node_eq; [rewrite N|rewrite P]; rewrite !decide_False; congruence || (intros ->; done).
Qed.

(** The nodes of one list come before those of the other. *)
Lemma list_splice_spec : exists h', list_splice a b h = Some h' /\ is_list h' b (la ++ lb) /\ dom h' = dom h /\ elsewhere h h' (b :: la ++ lb).
Proof.
  destruct (is_list_node _ _ _ Ha) as (na & Hna & Ena & _). destruct (is_list_node _ _ _ Hb) as (nb & Hnb & Enb & _).
  unfold list_splice. rewrite Hna. cbn [mbind option_bind]. rewrite Ena, hd_not by apply Ha. case_bool_decide as Hne; cbn [negb]; [subst la; by exists h|].
  rewrite Hnb. cbn [mbind option_bind]. rewrite Enb. destruct (splice_between [] lb Hne eq_refl) as (h' & E & D & L & O). by exists h'.
Qed.

(** The nodes of one list come behind those of the other. *)
Lemma list_splice_tail_spec : exists h', list_splice_tail a b h = Some h' /\ is_list h' b (lb ++ la) /\ dom h' = dom h /\ elsewhere h h' (b :: la ++ lb).
Proof.
  destruct (is_list_node _ _ _ Ha) as (na & Hna & Ena & _). destruct (is_list_node _ _ _ Hb) as (nb & Hnb & _ & Enb).
  unfold list_splice_tail. rewrite Hna. cbn [mbind option_bind]. rewrite Ena, hd_not by apply Ha. case_bool_decide as Hne; cbn [negb].
  { subst la. exists h. rewrite app_nil_r. done. }
  rewrite Hnb. cbn [mbind option_bind]. rewrite Enb. destruct (splice_between lb [] Hne) as (h' & E & D & L & O); [by rewrite app_nil_r|].
  rewrite app_nil_r in L. by exists h'.
Qed.
End Splice.

(** ** Removing and moving *)

Lemma nodup_drop (a e : Z) l1 l2 : NoDup (a :: l1 ++ e :: l2) -> NoDup (a :: l1 ++ l2) /\ (e ∉ a :: l1 ++ l2).
Proof.
  intros Hnd. assert (a :: l1 ++ e :: l2 ≡ₚ e :: a :: l1 ++ l2) as Hp by solve_Permutation. rewrite Hp in Hnd. apply NoDup_cons in Hnd. tauto.
Qed.

(** The two stores of [__list_del] take a node out; its own fields stay. *)
Lemma unlink_spec h a l1 e l2 : is_list h a (l1 ++ e :: l2) ->
  exists n h', h !! e = Some n /\ __list_del (prev n) (next n) h = Some h' /\ is_list h' a (l1 ++ l2) /\ dom h' = dom h /\
    elsewhere h h' (a :: l1 ++ l2).
Proof.
  intros Hl. pose proof (proj1 (is_list_seg _ _ _) Hl) as [Hnd Hs]. destruct (nodup_drop _ _ _ _ Hnd) as [Hnd' He].
  destruct (place a l1 l2 Hnd') as (u & w & Eu & Ew & Hpu & Hnu & Hnw & Hpw). set (p := default a (last l1)) in *. set (n := hd a l2) in *.
  assert (a :: (l1 ++ e :: l2) ++ [a] = u ++ p :: e :: n :: w) as E.
  { rewrite <- app_assoc. cbn [app]. rewrite Ew. change (a :: l1 ++ e :: n :: w) with ((a :: l1) ++ e :: n :: w). by rewrite Eu, <- app_assoc. }
  rewrite E, seg_link in Hs. destruct Hs as (S1 & L1 & L2 & S2). pose proof (linked_is_Some _ _ _ L1) as [Sp _]. pose proof (linked_is_Some _ _ _ L2) as [Se Sn].
  destruct Se as [ne He']. destruct L1 as [_ L1], L2 as [L2 _]. unfold nextof, prevof in L1, L2. rewrite He' in L1, L2. injection L1 as L1. injection L2 as L2.
  destruct (__list_del_ok h p n Sp Sn) as (h' & Eh & D & N & P). exists ne, h'. rewrite L1, L2. split; [done|]. split; [done|].
  split; [|split; [done|]].
  - apply is_list_seg. split; [done|]. rewrite <- app_assoc, Ew. change (a :: l1 ++ n :: w) with ((a :: l1) ++ n :: w). rewrite Eu, <- app_assoc. cbn [app].
    rewrite seg_link. split; [|split].
    + eapply seg_ext; [..|exact S1]; intros q Hq; [rewrite removelast_last in Hq; rewrite N|rewrite P]; rewrite decide_False; try done; intros ->; done.
    + split; [rewrite N|rewrite P]; by rewrite decide_True.
    + eapply seg_ext; [..|exact S2]; intros q Hq; [rewrite N|rewrite P]; rewrite decide_False; try done; intros ->; done.
  - intros q Hq. assert (p ∈ a :: l1 ++ l2 /\ n ∈ a :: l1 ++ l2) as [Ip In_].
    { split; [pose proof (default_last_elem a l1); unfold p; set_solver|unfold n; destruct l2; set_solver]. }
    apply node_eq; [rewrite N|rewrite P]; rewrite decide_False; try done; intros ->; done.
Qed.

(** A list whose nodes were not written to. *)
Lemma is_list_frame h h' L b lb : elsewhere h h' L -> (forall q, q ∈ b :: lb -> q ∉ L) -> is_list h b lb -> is_list h' b lb.
Proof.
  intros He Hd [Hnd Hc]. split; [done|]. eapply chain_ext; [..|exact Hc]; intros q Hq; unfold nextof, prevof; rewrite He; try done; apply Hd; set_solver.
Qed.

(** A new node between two neighbours. *)
Lemma add_between h a l1 l2 new : is_list h a (l1 ++ l2) -> new ∉ a :: l1 ++ l2 -> is_Some (h !! new) ->
  exists h', __list_add new (default a (last l1)) (hd a l2) h = Some h' /\ is_list h' a (l1 ++ new :: l2) /\ dom h' = dom h /\
    elsewhere h h' (new :: a :: l1 ++ l2).
Proof.
  intros Hl Hnew Sn. pose proof (proj1 (is_list_seg _ _ _) Hl) as [Hnd Hs].
  destruct (place a l1 l2 Hnd) as (u & w & Eu & Ew & Hpu & Hnu & Hnw & Hpw). set (p := default a (last l1)) in *. set (n := hd a l2) in *.
  assert (p ∈ a :: l1 ++ l2 /\ n ∈ a :: l1 ++ l2) as [Ip In_].
  { split; [pose proof (default_last_elem a l1); unfold p; set_solver|unfold n; destruct l2; set_solver]. }
  assert (forall q, q ∈ u ++ [p] -> q ∈ a :: l1 ++ l2) as Hu by (intros q; rewrite <- Eu; set_solver).
  assert (forall q, q ∈ n :: w -> q ∈ a :: l1 ++ l2) as Hw by (intros q; rewrite <- Ew; set_solver).
  destruct (__list_add_ok h new p n Sn) as (h' & Eh & D & N & P);
    [by apply (is_list_Some _ _ _ _ Hl)|by apply (is_list_Some _ _ _ _ Hl)|by intros ->|by intros ->|].
  assert (a :: (l1 ++ l2) ++ [a] = u ++ p :: n :: w) as E.
  { rewrite <- app_assoc, Ew. change (a :: l1 ++ n :: w) with ((a :: l1) ++ n :: w). by rewrite Eu, <- app_assoc. }
  rewrite E, seg_link in Hs. destruct Hs as (S1 & _ & S2). exists h'. split; [done|]. split; [|split; [done|]].
  - apply is_list_seg. split.
    { assert (a :: l1 ++ new :: l2 ≡ₚ new :: a :: l1 ++ l2) as -> by solve_Permutation. by apply NoDup_cons. }
    rewrite <- app_assoc. cbn [app]. rewrite Ew. change (a :: l1 ++ new :: n :: w) with ((a :: l1) ++ new :: n :: w). rewrite Eu, <- app_assoc. cbn [app].
    rewrite seg_link. split; [|split].
    + eapply seg_ext; [..|exact S1]; intros q Hq; [rewrite N|rewrite P]; rewrite !decide_False; try done; intros ->;
        first [done|rewrite removelast_last in Hq; done|apply Hnew, Hu; apply in_removelast in Hq; done|apply Hnew, Hu; destruct (u ++ [p]); set_solver].
    + split; [rewrite N|rewrite P]; by rewrite decide_True.
    + change (linked h' new n /\ seg h' (n :: w)). split.
      * split; [rewrite N, decide_False by (by intros ->)|rewrite P, decide_False by (by intros ->)]; by rewrite decide_True.
      * eapply seg_ext; [..|exact S2]; intros q Hq; [rewrite N|rewrite P]; rewrite !decide_False; try done; intros ->;
          first [done|apply Hnew, Hw; apply in_removelast in Hq; done|apply Hnew, Hw; cbn in Hq; set_solver].
  - intros q Hq. rewrite elem_of_cons in Hq. assert (q <> p /\ q <> n /\ q <> new) as (? & ? & ?) by (repeat split; intros ->; tauto).
    apply node_eq; [rewrite N|rewrite P]; by rewrite !decide_False.
Qed.

Lemma list_add_tail_spec h a l new : is_list h a l -> new ∉ a :: l -> is_Some (h !! new) ->
  exists h', list_add_tail new a h = Some h' /\ is_list h' a (l ++ [new]) /\ dom h' = dom h /\ elsewhere h h' (new :: a :: l).
Proof.
  intros Hl Hnew Sn. destruct (is_list_node _ _ _ Hl) as (n & Hn & _ & Ep). unfold list_add_tail. rewrite Hn. cbn [mbind option_bind]. rewrite Ep.
  destruct (add_between h a l [] new) as (h' & E & L & D & O); rewrite ?app_nil_r in *; try done. by exists h'.
Qed.

Lemma list_add_frame h a l new : is_list h a l -> new ∉ a :: l -> is_Some (h !! new) ->
  exists h', list_add new a h = Some h' /\ is_list h' a (new :: l) /\ dom h' = dom h /\ elsewhere h h' (new :: a :: l).
Proof.
  intros Hl Hnew Sn. destruct (is_list_node _ _ _ Hl) as (n & Hn & En & _). unfold list_add. rewrite Hn. cbn [mbind option_bind]. rewrite En.
  destruct (add_between h a [] l new) as (h' & E & L & D & O); try done. by exists h'.
Qed.

(** The node is an empty list afterwards. *)
Lemma list_del_init_spec h a l1 e l2 : is_list h a (l1 ++ e :: l2) ->
  exists h', list_del_init e h = Some h' /\ is_list h' a (l1 ++ l2) /\ is_list h' e [] /\ dom h' = dom h.
Proof.
  intros Hl. destruct (nodup_drop a e l1 l2) as [_ He]; [apply Hl|]. destruct (unlink_spec _ _ _ _ _ Hl) as (n & h1 & Hn & E & L & D & O).
  unfold list_del_init. rewrite Hn. cbn [mbind option_bind]. rewrite E. cbn [mbind option_bind].
  assert (is_Some (h1 !! e)) as Se by (rewrite O by done; by eexists). rewrite INIT_LIST_HEAD_eq by done. eexists. split; [done|].
  split; [by apply is_list_other|]. split; [|rewrite dom_insert_L, <- D; apply elem_of_dom in Se; set_solver].
  split; [apply NoDup_singleton|]. split; unfold nextof, prevof; by rewrite lookup_insert_eq.
Qed.

(** To the tail of the same list. *)
Lemma move_tail_same h a l1 e l2 : is_list h a (l1 ++ e :: l2) ->
  exists h', list_move_tail e a h = Some h' /\ is_list h' a (l1 ++ l2 ++ [e]) /\ dom h' = dom h.
Proof.
  intros Hl. destruct (nodup_drop a e l1 l2) as [_ He]; [apply Hl|]. destruct (unlink_spec _ _ _ _ _ Hl) as (n & h1 & Hn & E & L & D & O).
  unfold list_move_tail. rewrite Hn. cbn [mbind option_bind]. rewrite E. cbn [mbind option_bind].
  destruct (list_add_tail_spec h1 a (l1 ++ l2) e L He) as (h' & E' & L' & D' & _); [rewrite O by done; by eexists|].
  exists h'. split; [done|]. rewrite app_assoc. split; [done|congruence].
Qed.

(** From one list to the head or the tail of another. *)
Section Move.
Context (h : gmap Z list_head) (a : Z) (l1 : list Z) (e : Z) (l2 : list Z) (b : Z) (lb : list Z).
Hypothesis (Ha : is_list h a (l1 ++ e :: l2)) (Hb : is_list h b lb) (apart : forall q, q ∈ a :: l1 ++ e :: l2 -> q ∉ b :: lb).

Lemma move_apart : exists n h1, h !! e = Some n /\ __list_del (prev n) (next n) h = Some h1 /\ is_list h1 a (l1 ++ l2) /\ is_list h1 b lb /\
  dom h1 = dom h /\ (e ∉ b :: lb) /\ is_Some (h1 !! e) /\ (forall q, q ∈ a :: l1 ++ l2 -> q ∉ e :: b :: lb).
Proof.
  destruct (nodup_drop a e l1 l2) as [_ He]; [apply Ha|]. destruct (unlink_spec _ _ _ _ _ Ha) as (n & h1 & Hn & E & L & D & O).
  exists n, h1. split; [done|]. split; [done|]. split; [done|]. assert (forall q, q ∈ a :: l1 ++ l2 -> q ∉ b :: lb) as Hd by (intros q Hq; apply apart; set_solver).
  split; [eapply is_list_frame; [exact O| |exact Hb]; intros q Hq Hq'; by apply (Hd q)|]. split; [done|].
  split; [apply apart; set_solver|]. split; [rewrite O by done; by eexists|]. intros q Hq. rewrite elem_of_cons. intros [-> |Hq']; [done|by apply (Hd q)].
Qed.

Lemma list_move_spec : exists h', list_move e b h = Some h' /\ is_list h' a (l1 ++ l2) /\ is_list h' b (e :: lb) /\ dom h' = dom h.
Proof.
  destruct move_apart as (n & h1 & Hn & E & L & Lb & D & Heb & Se & Hd). unfold list_move. rewrite Hn. cbn [mbind option_bind]. rewrite E. cbn [mbind option_bind].
  destruct (list_add_frame h1 b lb e Lb Heb Se) as (h' & E' & L' & D' & O). exists h'. split; [done|]. split; [by eapply is_list_frame|]. split; [done|congruence].
Qed.

Lemma list_move_tail_spec : exists h', list_move_tail e b h = Some h' /\ is_list h' a (l1 ++ l2) /\ is_list h' b (lb ++ [e]) /\ dom h' = dom h.
Proof.
  destruct move_apart as (n & h1 & Hn & E & L & Lb & D & Heb & Se & Hd). unfold list_move_tail. rewrite Hn. cbn [mbind option_bind]. rewrite E. cbn [mbind option_bind].
  destruct (list_add_tail_spec h1 b lb e Lb Heb Se) as (h' & E' & L' & D' & O). exists h'. split; [done|]. split; [by eapply is_list_frame|]. split; [done|congruence].
Qed.
End Move.

(** The first node becomes the last. *)
Lemma list_rotate_left_spec h a l : is_list h a l ->
  exists h', list_rotate_left a h = Some h' /\ is_list h' a (match l with [] => [] | x :: l => l ++ [x] end).
Proof.
  intros Hl. destruct (is_list_node _ _ _ Hl) as (n & Hn & En & _). unfold list_rotate_left. rewrite Hn. cbn [mbind option_bind].
  rewrite En, hd_not by apply Hl. destruct l as [|x l]; [by exists h|]. rewrite bool_decide_false by done. cbn [negb hd].
  destruct (move_tail_same h a [] x l Hl) as (h' & E & L & _). by exists h'.
Qed.

(** ** Cutting *)

Lemma __list_cut_position_ok h c a e f n : h !! a = Some (LH f (default 0 (prevof h a))) -> nextof h e = Some n ->
  is_Some (h !! c) -> is_Some (h !! f) -> is_Some (h !! n) -> c <> a -> c <> e -> c <> f ->
  exists h', __list_cut_position c a e h = Some h' /\ dom h' = dom h /\
    (forall q, nextof h' q = if decide (q = a) then Some n else if decide (q = e) then Some c else if decide (q = c) then Some f else nextof h q) /\
    (forall q, prevof h' q = if decide (q = n) then Some a else if decide (q = c) then Some e else if decide (q = f) then Some c else prevof h q).
Proof.
  intros Ha He Sc Sf Sn Hca Hce Hcf. unfold __list_cut_position. unfold nextof in He. destruct (h !! e) as [ne|] eqn:Ee; [|done]. injection He as He.
  rewrite Ha. cbn [mbind option_bind next]. rewrite He. destruct (set_next_ok h c f Sc) as (h1 & -> & N1 & P1 & D1). cbn [mbind option_bind].
  assert (exists m, h1 !! c = Some m /\ next m = f) as (m & Hm & Em).
  { pose proof (N1 c) as N. rewrite decide_True in N by done. unfold nextof in N. destruct (h1 !! c) as [m|]; [|done]. injection N as N. by exists m. }
  rewrite Hm. cbn [mbind option_bind]. rewrite Em.
  assert (forall (g : gmap Z list_head) q, dom g = dom h -> is_Some (h !! q) -> is_Some (g !! q)) as Hd by (intros g q Dg; by apply dom_is_Some).
  destruct (set_prev_ok h1 f c) as (h2 & -> & P2 & N2 & D2); [by apply Hd|]. cbn [mbind option_bind].
  destruct (set_prev_ok h2 c e) as (h3 & -> & P3 & N3 & D3); [apply Hd; [congruence|done]|]. cbn [mbind option_bind].
  destruct (set_next_ok h3 e c) as (h4 & -> & N4 & P4 & D4); [apply Hd; [congruence|by eexists]|]. cbn [mbind option_bind].
  destruct (set_next_ok h4 a n) as (h5 & -> & N5 & P5 & D5); [apply Hd; [congruence|by eexists]|]. cbn [mbind option_bind].
  destruct (set_prev_ok h5 n a) as (h6 & -> & P6 & N6 & D6); [apply Hd; [congruence|done]|].
  exists h6. split; [done|]. split; [congruence|]. split; intros q.
  - by rewrite N6, N5, N4, N3, N2, N1.
  - by rewrite P6, P5, P4, P3, P2, P1.
Qed.

Lemma cut_guard h c a l1 e l2 : is_list h a (l1 ++ e :: l2) -> list_cut_position c a e h = __list_cut_position c a e h.
Proof.
  intros Hl. destruct (is_list_node _ _ _ Hl) as (n & Hn & En & Ep). pose proof (list_is_singular_spec _ _ _ Hl) as Hs.
  unfold list_is_singular in Hs. unfold list_cut_position. rewrite Hn in *. cbn [mbind option_bind] in *. injection Hs as Hs.
  assert (e <> a) as Hea by (destruct Hl as [Hnd _]; apply NoDup_cons in Hnd; set_solver). rewrite En, hd_not in * by apply Hl.
  rewrite bool_decide_false in * by (by destruct l1). cbn [negb andb] in Hs. rewrite Hs, (proj2 (Z.eqb_neq e a)) by done. case_bool_decide as H1; [|done].
  rewrite length_app in H1. cbn [length] in H1. assert (l1 = []) as -> by (apply nil_length_inv; lia). cbn [app hd]. by rewrite Z.eqb_refl.
Qed.

(** The nodes up to [e] go to the other list, whatever it was, the rest stays. *)
Lemma list_cut_position_spec h c a l1 e l2 : is_list h a (l1 ++ e :: l2) -> c ∉ a :: l1 ++ e :: l2 -> is_Some (h !! c) ->
  exists h', list_cut_position c a e h = Some h' /\ is_list h' c (l1 ++ [e]) /\ is_list h' a l2 /\ dom h' = dom h.
Proof.
  intros Hl Hc Sc. rewrite (cut_guard _ _ _ _ _ _ Hl). pose proof (proj1 (is_list_seg _ _ _) Hl) as [Hnd Hs]. destruct (is_list_node _ _ _ Hl) as (na & Hna & Ena & Epa).
  set (f := hd a (l1 ++ e :: l2)) in *. set (n := hd a l2).
  assert (f ∈ l1 ++ [e] /\ l1 ++ [e] = f :: tail (l1 ++ [e])) as [If Ef] by (unfold f; destruct l1; set_solver).
  assert (n ∈ a :: l2 /\ l2 ++ [a] = n :: tail (l2 ++ [a])) as [In_ Ew] by (unfold n; destruct l2; set_solver).
  assert (NoDup (a :: l2) /\ NoDup (l1 ++ [e]) /\ (forall q, q ∈ l1 ++ [e] -> q ∉ a :: l2)) as (Nd2 & Nd1 & Hdis).
  { apply NoDup_cons in Hnd as [Ha Hnd]. change (l1 ++ e :: l2) with (l1 ++ [e] ++ l2) in Ha, Hnd. rewrite app_assoc in Ha, Hnd.
    apply NoDup_app in Hnd as (? & ? & ?). split; [apply NoDup_cons; set_solver|]. split; [done|]. set_solver. }
  assert (c ∉ l1 ++ [e]) as C1 by set_solver. assert (c ∉ a :: l2) as C2 by set_solver.
  assert (seg h (l1 ++ [e]) /\ linked h e n /\ seg h (l2 ++ [a])) as (S1 & [L _] & S2).
  { apply seg_tail in Hs. rewrite <- app_assoc in Hs. cbn [app] in Hs. rewrite Ew, seg_link, <- Ew in Hs. exact Hs. }
  destruct (__list_cut_position_ok h c a e f n) as (h' & Eh & D & N & P); try done.
  { rewrite Hna. f_equal. destruct na. unfold prevof. rewrite Hna. cbn in *. by subst. }
  { apply (is_list_Some _ _ _ _ Hl). set_solver. } { apply (is_list_Some _ _ _ _ Hl). set_solver. } { set_solver. } { set_solver. } { by intros ->. }
  assert (forall q, q ∈ l1 ++ [e] -> q <> a /\ q <> n /\ q <> c) as D1 by (intros q Hq; repeat split; intros ->; [apply (Hdis a)|apply (Hdis n)|]; set_solver).
  assert (forall q, q ∈ a :: l2 -> q <> e /\ q <> c /\ q <> f) as D2 by (intros q Hq; repeat split; intros ->; [apply (Hdis e)| |apply (Hdis f)]; set_solver).
  assert (c <> a /\ c <> e /\ c <> f /\ c <> n) as (? & ? & ? & ?) by (repeat split; intros ->; set_solver).
  exists h'. split; [done|]. split; [|split; [|done]]; apply is_list_seg.
  - split; [by apply NoDup_cons|]. rewrite Ef. cbn [app]. change (linked h' c f /\ seg h' ((f :: tail (l1 ++ [e])) ++ [c])). rewrite <- Ef, <- app_assoc. cbn [app].
    rewrite seg_link. split; [|split; [|split; [|done]]].
    + destruct (D1 f If) as (? & ? & ?). split; [rewrite N|rewrite P]; repeat case_decide; congruence.
    + eapply seg_ext; [..|exact S1]; intros q Hq; [rewrite removelast_last in Hq|].
      * destruct (D1 q) as (? & ? & ?); [set_solver|]. rewrite N, !decide_False; try done. intros ->. apply NoDup_app in Nd1. set_solver.
      * assert (q ∈ l1 ++ [e]) as Hq' by (rewrite Ef; set_solver). destruct (D1 q Hq') as (? & ? & ?). rewrite P, !decide_False; try done.
        intros ->. rewrite Ef in Nd1. apply NoDup_cons in Nd1. tauto.
    + destruct (D1 e) as (? & ? & ?); [set_solver|]. split; [rewrite N|rewrite P]; repeat case_decide; congruence.
  - split; [done|]. rewrite Ew. change (linked h' a n /\ seg h' (n :: tail (l2 ++ [a]))). rewrite <- Ew. split.
    + split; [rewrite N|rewrite P]; by rewrite decide_True.
    + eapply seg_ext; [..|exact S2]; intros q Hq; [rewrite removelast_last in Hq|].
      * destruct (D2 q) as (? & ? & ?); [set_solver|]. rewrite N, !decide_False; try done. intros ->. apply NoDup_cons in Nd2. tauto.
      * assert (q ∈ l2 ++ [a]) as Hq' by (rewrite Ew; set_solver). destruct (D2 q) as (? & ? & ?); [set_solver|]. rewrite P, !decide_False; try done.
        intros ->. assert (NoDup (l2 ++ [a])) as Nd3 by (rewrite Permutation_app_comm; done). rewrite Ew in Nd3. apply NoDup_cons in Nd3. tauto.
Qed.

(** ** Replacing *)

(** Every node of a circular list can be taken for its head. *)
Lemma is_list_turn h a l1 e l2 : is_list h a (l1 ++ e :: l2) -> is_list h e (l2 ++ a :: l1).
Proof.
  intros [Hnd Hc]. split; [by assert (e :: l2 ++ a :: l1 ≡ₚ a :: l1 ++ e :: l2) as -> by solve_Permutation|].
  apply chain_app in Hc as [H1 H2]. by apply chain_app.
Qed.

(** What a field that was stored reads. *)
Lemma nextof_Some h q v : nextof h q = Some v -> exists m, h !! q = Some m /\ next m = v.
Proof. unfold nextof. destruct (h !! q) as [m|]; [|done]. intros [= H]. by exists m. Qed.
Lemma prevof_Some h q v : prevof h q = Some v -> exists m, h !! q = Some m /\ prev m = v.
Proof. unfold prevof. destruct (h !! q) as [m|]; [|done]. intros [= H]. by exists m. Qed.

(** If the old node is an empty list, its own field was overwritten before it is read. *)
Lemma list_replace_ok h old new f g : h !! old = Some (LH f g) -> is_Some (h !! new) -> is_Some (h !! f) -> is_Some (h !! g) ->
  let g' := if decide (old = f) then new else g in
  exists h', list_replace old new h = Some h' /\ dom h' = dom h /\
    (forall q, nextof h' q = if decide (q = g') then Some new else if decide (q = new) then Some f else nextof h q) /\
    (forall q, prevof h' q = if decide (q = new) then Some g' else if decide (q = f) then Some new else prevof h q).
Proof.
  intros Ho Sn Sf Sg g'.
  assert (forall (k : gmap Z list_head) q, dom k = dom h -> is_Some (h !! q) -> is_Some (k !! q)) as Hd by (intros k q Dk; by apply dom_is_Some).
  assert (is_Some (h !! g')) as Sg' by (unfold g'; by case_decide).
  unfold list_replace. rewrite Ho. cbn [mbind option_bind next]. destruct (set_next_ok h new f Sn) as (h1 & -> & N1 & P1 & D1). cbn [mbind option_bind].
  destruct (nextof_Some h1 new f) as (m & -> & Em); [by rewrite N1, decide_True|]. cbn [mbind option_bind]. rewrite Em.
  destruct (set_prev_ok h1 f new) as (h2 & -> & P2 & N2 & D2); [by apply Hd|]. cbn [mbind option_bind].
  destruct (prevof_Some h2 old g') as (m2 & -> & Em2).
  { rewrite P2, P1. unfold g', prevof. rewrite Ho. by case_decide. }
  cbn [mbind option_bind]. rewrite Em2. destruct (set_prev_ok h2 new g') as (h3 & -> & P3 & N3 & D3); [apply Hd; [congruence|done]|]. cbn [mbind option_bind].
  destruct (prevof_Some h3 new g') as (m3 & -> & Em3); [by rewrite P3, decide_True|]. cbn [mbind option_bind]. rewrite Em3.
  destruct (set_next_ok h3 g' new) as (h4 & -> & N4 & P4 & D4); [apply Hd; [congruence|done]|].
  exists h4. split; [done|]. split; [congruence|]. split; intros q; [by rewrite N4, N3, N2, N1|by rewrite P4, P3, P2, P1].
Qed.

(** A new head, in the place of the old one. *)
Lemma list_replace_spec h a l new : is_list h a l -> new ∉ a :: l -> is_Some (h !! new) ->
  exists h', list_replace a new h = Some h' /\ is_list h' new l /\ dom h' = dom h.
Proof.
  intros Hl Hnew Sn. pose proof (proj1 (is_list_seg _ _ _) Hl) as [Hnd Hs]. destruct (is_list_node _ _ _ Hl) as ([f g] & Hna & Ef & Eg). cbn in Ef, Eg.
  assert (f ∈ a :: l) as If by (subst f; destruct l; set_solver). assert (g ∈ a :: l) as Ig by (subst g; apply default_last_elem).
  destruct (list_replace_ok h a new f g Hna Sn) as (h' & E & D & N & P); [by apply (is_list_Some _ _ _ _ Hl)..|]. exists h'. split; [done|]. split; [|done].
  apply is_list_seg. apply NoDup_cons in Hnd as [Ha Hnd]. split; [apply NoDup_cons; set_solver|]. destruct l as [|x l]; cbn [hd last] in *.
  - subst f g. rewrite decide_True in N, P by done. cbn. split; [|done]. split; [rewrite N|rewrite P]; by rewrite decide_True.
  - rewrite decide_False in N, P by (subst f; set_solver). destruct (ends_of a (x :: l)) as [_ El]; [done|]. rewrite <- Eg in El.
    assert (g <> new /\ f <> new) as [? ?] by (split; intros ->; set_solver). subst f. change (linked h' new x /\ seg h' ((x :: l) ++ [new])). split.
    + split; [rewrite N, decide_False by done|rewrite P, decide_False by done]; by rewrite decide_True.
    + rewrite El, <- app_assoc. cbn [app]. rewrite seg_link. split; [|split; [|done]].
      * rewrite <- El. apply seg_tail in Hs. apply seg_front in Hs. eapply seg_ext; [..|exact Hs]; intros q Hq.
        -- rewrite N, !decide_False; [done| |]; intros ->; [apply in_removelast in Hq; set_solver|]. rewrite El in Hnd. rewrite El, removelast_last in Hq. apply NoDup_app in Hnd. set_solver.
        -- cbn [tail] in Hq. rewrite P, !decide_False; [done| |]; intros ->; [apply NoDup_cons in Hnd; tauto|set_solver].
      * split; [rewrite N|rewrite P]; by rewrite decide_True.
Qed.

(** The nodes of a list under a new head, and the old one empty. *)
Lemma list_replace_init_spec h a l new : is_list h a l -> new ∉ a :: l -> is_Some (h !! new) ->
  exists h', list_replace_init a new h = Some h' /\ is_list h' new l /\ is_list h' a [].
Proof.
  intros Hl Hnew Sn. destruct (list_replace_spec h a l new Hl Hnew Sn) as (h1 & E & L & D). unfold list_replace_init. rewrite E. cbn [mbind option_bind].
  assert (is_Some (h1 !! a)) as Sa by (eapply dom_is_Some; [exact D|]; apply (is_list_Some _ _ _ _ Hl); set_solver). rewrite INIT_LIST_HEAD_eq by done.
  eexists. split; [done|]. split; [apply is_list_other; [done|]|]; destruct Hl as [Hnd _]; [apply NoDup_cons in Hnd; set_solver|].
  split; [apply NoDup_singleton|]. split; unfold nextof, prevof; by rewrite lookup_insert_eq.
Qed.

(** ** Splicing with an empty list left behind *)

Section SpliceInit.
Context (h : gmap Z list_head) (a : Z) (la : list Z) (b : Z) (lb : list Z).
Hypothesis (Ha : is_list h a la) (Hb : is_list h b lb) (apart : forall q, q ∈ a :: la -> q ∉ b :: lb).

Lemma init_after h1 l : dom h1 = dom h -> l ≡ₚ la ++ lb -> is_list h1 b l ->
  exists h', INIT_LIST_HEAD a h1 = Some h' /\ is_list h' b l /\ is_list h' a [].
Proof.
  intros D Hp L. assert (is_Some (h1 !! a)) as Sa by (eapply dom_is_Some; [exact D|]; apply (is_list_Some _ _ _ _ Ha); set_solver).
  rewrite INIT_LIST_HEAD_eq by done. eexists. split; [done|]. split.
  - apply is_list_other; [done|]. rewrite elem_of_cons, Hp, elem_of_app. destruct Ha as [Hnd _]. apply NoDup_cons in Hnd as [Hal _].
    pose proof (apart a ltac:(set_solver)). set_solver.
  - split; [apply NoDup_singleton|]. split; unfold nextof, prevof; by rewrite lookup_insert_eq.
Qed.

Lemma list_splice_init_spec : exists h', list_splice_init a b h = Some h' /\ is_list h' b (la ++ lb) /\ is_list h' a [].
Proof.
  destruct (is_list_node _ _ _ Ha) as (na & Hna & Ena & _). destruct (list_splice_spec h a la b lb Ha Hb apart) as (h1 & E & L & D & _).
  unfold list_splice in E. unfold list_splice_init. rewrite Hna in *. cbn [mbind option_bind] in *. rewrite Ena, hd_not in * by apply Ha.
  case_bool_decide as Hne; cbn [negb] in *; [injection E as <-; subst la; by exists h|].
  destruct (h !! b) as [nb|]; [|done]. cbn [mbind option_bind] in *. rewrite E. cbn [mbind option_bind]. by apply init_after.
Qed.

Lemma list_splice_tail_init_spec : exists h', list_splice_tail_init a b h = Some h' /\ is_list h' b (lb ++ la) /\ is_list h' a [].
Proof.
  destruct (is_list_node _ _ _ Ha) as (na & Hna & Ena & _). destruct (list_splice_tail_spec h a la b lb Ha Hb apart) as (h1 & E & L & D & _).
  unfold list_splice_tail in E. unfold list_splice_tail_init. rewrite Hna in *. cbn [mbind option_bind] in *. rewrite Ena, hd_not in * by apply Ha.
  case_bool_decide as Hne; cbn [negb] in *; [injection E as <-; subst la; rewrite app_nil_r in *; by exists h|].
  destruct (h !! b) as [nb|]; [|done]. cbn [mbind option_bind] in *. rewrite E. cbn [mbind option_bind]. apply init_after; [done|apply Permutation_app_comm|done].
Qed.
End SpliceInit.

(** C40: A list that is cut at any of its nodes is two lists, the nodes up to that one and
    the rest; and splicing the first back gives the list as it was and leaves an
    empty one. *)
Theorem cut_splice_roundtrip h c a l1 e l2 : is_list h a (l1 ++ e :: l2) -> c ∉ a :: l1 ++ e :: l2 -> is_Some (h !! c) ->
  exists h1 h2, list_cut_position c a e h = Some h1 /\ is_list h1 c (l1 ++ [e]) /\ is_list h1 a l2 /\
    list_splice_init c a h1 = Some h2 /\ is_list h2 a (l1 ++ e :: l2) /\ is_list h2 c [].
Proof.
  intros Hl Hc Sc. destruct (list_cut_position_spec h c a l1 e l2 Hl Hc Sc) as (h1 & E1 & Lc & La & _).
  destruct (list_splice_init_spec h1 c (l1 ++ [e]) a l2 Lc La) as (h2 & E2 & L2 & Lc2).
  { destruct Hl as [Hnd _]. apply NoDup_cons in Hnd as [Ha Hnd]. change (l1 ++ e :: l2) with (l1 ++ [e] ++ l2) in *. rewrite app_assoc in *.
    apply NoDup_app in Hnd. set_solver. }
  exists h1, h2. rewrite <- app_assoc in L2. done.
Qed.

(** Head 1 with the nodes 2, 3 and 4, cut at 3 into the head 9. *)
Definition three : gmap Z list_head :=
  {[1 := LH 2 4; 2 := LH 3 1; 3 := LH 4 2; 4 := LH 1 3; 9 := LH 0 0]}.

Lemma cut_splice_roundtrip_witness : exists h1 h2, list_cut_position 9 1 3 three = Some h1 /\ is_list h1 9 [2; 3] /\ is_list h1 1 [4] /\
  list_splice_init 9 1 h1 = Some h2 /\ is_list h2 1 [2; 3; 4] /\ is_list h2 9 [].
Proof.
  refine (cut_splice_roundtrip three 9 1 [2] 3 [4] _ _ _).
  - split; [apply (bool_decide_unpack _); vm_compute; exact I|]. repeat split.
  - apply (bool_decide_unpack _). vm_compute. exact I.
  - by eexists.
Defined.
