(* ===== verification/WdtHardware.v ===== *)
(** * The GPIO lines of the external watchdog chip (drivers/wdt/src/WDT_hardware.c)

    The GPIO block is a set of 32-bit registers; a data register drives the pins
    that are outputs and reads back what was written to it. [wave] records the
    successive values of [gpdat], so that the pulses the chip sees can be
    stated. [None] as a state is the null pointer [ccsr_gpio] before
    [hardware_init] has mapped the block: an access through it is undefined. *)

From S2P Require Import Prelude.

Definition WDT_LONG_PIN : Z := 0x10000000.
Definition WDT_PIN : Z := 0x40000000.

Record ccsr_gpio_t := Gpio {
  gpdir : Z; gpodr : Z; gpdat : Z; gpier : Z; gpimr : Z; gpicr : Z;
  wave : list Z
}.

(** The variable [ccsr_gpio]: null or pointing to the registers. *)
Definition hw : Type := option ccsr_gpio_t.

Definition with_gpdir (v : Z) (g : ccsr_gpio_t) : ccsr_gpio_t :=
  Gpio v (gpodr g) (gpdat g) (gpier g) (gpimr g) (gpicr g) (wave g).

Definition with_gpdat (v : Z) (g : ccsr_gpio_t) : ccsr_gpio_t :=
  Gpio (gpdir g) (gpodr g) v (gpier g) (gpimr g) (gpicr g) (wave g ++ [v]).

(** Read-modify-write of a register through the pointer. *)
Definition rmw (f : ccsr_gpio_t -> ccsr_gpio_t) : M hw unit :=
  fun p => match p with Some g => Some (tt, Some (f g)) | None => None end.

Definition setbits32_gpdir (m : Z) : M hw unit :=
  rmw (fun g => with_gpdir (Z.lor (gpdir g) m) g).
Definition setbits32_gpdat (m : Z) : M hw unit :=
  rmw (fun g => with_gpdat (Z.lor (gpdat g) m) g).
Definition clrbits32_gpdat (m : Z) : M hw unit :=
  rmw (fun g => with_gpdat (Z.land (gpdat g) (not32 m)) g).

(** One service of the chip: a low pulse on its trigger input. *)
Definition serve_watchdog_hw : M hw Z :=
  clrbits32_gpdat 0x40000000;;
  setbits32_gpdat 0x40000000;;
  mret 0.

Definition WDT_LONG_BIT (bit : bool) : M hw unit :=
  if bit then setbits32_gpdat WDT_LONG_PIN else clrbits32_gpdat WDT_LONG_PIN.

Definition slow_down_watchdog_hw : M hw Z :=
  WDT_LONG_BIT true;;
  serve_watchdog_hw;;
  mret 0.

(** [ioremap] is the kernel's: its result is an argument. *)
Definition hardware_init (immap : hw) : M hw Z :=
  put immap;;
  setbits32_gpdir 0x40000000;;
  setbits32_gpdir 0x10000000;;
  clrbits32_gpdat 0x10000000;;
  setbits32_gpdat 0x40000000;;
  clrbits32_gpdat 0x40000000;;
  serve_watchdog_hw;;
  serve_watchdog_hw;;
  mret 0.

Definition hardware_clean : M hw unit := mret tt.

(** ** What the chip sees *)

Definition pin (m : Z) (w : Z) : bool := truth (Z.land w m).

Lemma pin_set m w : m <> 0 -> pin m (Z.lor w m) = true.
Proof.
  intros Hm. unfold pin, truth. apply negb_true_iff, Z.eqb_neq.
  replace (Z.land (Z.lor w m) m) with m; [done|].
  apply Z.bits_inj'. intros i Hi. rewrite Z.land_spec, Z.lor_spec. by destruct (Z.testbit w i), (Z.testbit m i).
Qed.

Lemma not32_range m : 0 <= not32 m < 2 ^ 32.
Proof. unfold not32. pose proof (u32_range m). lia. Qed.

Lemma u32_bits_high z i : is_u32 z -> 32 <= i -> Z.testbit z i = false.
Proof.
  intros Hz Hi. rewrite <- (Z.mod_small z (2 ^ 32)) by exact Hz.
  by apply Z.mod_pow2_bits_high.
Qed.

Lemma WDT_PIN_bit i : 0 <= i -> Z.testbit WDT_PIN i = bool_decide (i = 30).
Proof.
  intros Hi. change WDT_PIN with (2 ^ 30). rewrite Z.pow2_bits_eqb by lia.
  case_bool_decide; [subst; done | apply Z.eqb_neq; lia].
Qed.

(** Bit [i] of the data register after the pin was cleared and after it was set. *)
Lemma clr_pin_bits w i : is_u32 w -> 0 <= i ->
  Z.testbit (Z.land w (not32 WDT_PIN)) i = (Z.testbit w i && negb (bool_decide (i = 30)))%bool.
Proof.
  intros Hw Hi. rewrite Z.land_spec.
  destruct (Z.ltb_spec i 32).
  - rewrite not32_spec by (unfold WDT_PIN; lia). by rewrite WDT_PIN_bit.
  - by rewrite (u32_bits_high w) by done.
Qed.

Lemma set_pin_bits w i : 0 <= i ->
  Z.testbit (Z.lor w WDT_PIN) i = (Z.testbit w i || bool_decide (i = 30))%bool.
Proof. intros Hi. by rewrite Z.lor_spec, WDT_PIN_bit. Qed.

(** Servicing the external watchdog gives it one low pulse: the trigger line goes
    low, then high, and no other line of the GPIO block changes at any moment. *)
Theorem serve_watchdog_hw_pulse g :
  is_u32 (gpdat g) ->
  exists lo hi,
    serve_watchdog_hw (Some g) =
      Some (0, Some (Gpio (gpdir g) (gpodr g) hi (gpier g) (gpimr g) (gpicr g)
                       (wave g ++ [lo; hi]))) /\
    Z.testbit lo 30 = false /\ Z.testbit hi 30 = true /\
    (forall i, 0 <= i -> i <> 30 ->
       Z.testbit lo i = Z.testbit (gpdat g) i /\ Z.testbit hi i = Z.testbit (gpdat g) i).
Proof.
  intros Hw.
  exists (Z.land (gpdat g) (not32 WDT_PIN)),
         (Z.lor (Z.land (gpdat g) (not32 WDT_PIN)) WDT_PIN).
  split.
  { unfold serve_watchdog_hw, clrbits32_gpdat, setbits32_gpdat, rmw, with_gpdat. run.
    cbn [wave gpdat gpdir gpodr gpier gpimr gpicr]. by rewrite <- app_assoc. }
  rewrite clr_pin_bits, set_pin_bits, clr_pin_bits by done.
  rewrite bool_decide_true, andb_false_r by done. repeat split.
  - rewrite clr_pin_bits by done. rewrite bool_decide_false by done. apply andb_true_r.
  - rewrite set_pin_bits, clr_pin_bits by done. rewrite bool_decide_false by done.
    by rewrite andb_true_r, orb_false_r.
Qed.

Lemma serve_watchdog_hw_pulse_witness :
  is_u32 0x50000001 /\
  exists lo hi,
    serve_watchdog_hw (Some (Gpio 0x50000000 0 0x50000001 0 0 0 [])) =
      Some (0, Some (Gpio 0x50000000 0 hi 0 0 0 [lo; hi])) /\
    Z.testbit lo 30 = false /\ Z.testbit hi 30 = true /\
    (forall i, 0 <= i -> i <> 30 ->
       Z.testbit lo i = Z.testbit 0x50000001 i /\ Z.testbit hi i = Z.testbit 0x50000001 i).
Proof.
  split; [unfold is_u32; lia|].
  apply (serve_watchdog_hw_pulse (Gpio 0x50000000 0 0x50000001 0 0 0 [])).
  unfold is_u32; simpl; lia.
Defined.
