(* ===== verification/Watchdog.v ===== *)
(** * The software watchdog driver (drivers/wdt/src/watchdog.c)

    The driver's globals are the record [ctl]; the registered tasks live in
    kernel memory, one node per task, linked through [registered_tasks_list]
    with the list of Klist.v. [listhead] is the first member of
    [struct wdt_registerded_task_s], so [list_entry] is the identity on
    addresses. Every handler is a computation on the whole state; following a
    stale or null pointer is undefined behaviour.

    What the driver takes from outside is an argument of the handlers: the
    bytes a user process passes ([umem]), the result of [kmalloc], the results
    of [register_reboot_notifier] and [misc_register], and the GPIO block that
    [ioremap] maps. A handler runs within one tick: [jiffies] does not change
    under it. *)

From S2P Require Import Prelude Klist WdtHardware.

(** ** Configuration (.config of the kernel, configs.h, wdt.h, ioctl_codes.h) *)

Definition HZ : Z := 250.
Definition TIMEOUT_VALUE : Z := 20.
Definition TRIGGER_PERIOD : Z := HZ / 4.
Definition MAX_LEN : nat := 64.

Definition WDT_IOC_MAGIC : Z := 119.
Definition WDT_IOCTL_MAXNR : Z := 12.
Definition WDT_GET_STATUS : Z := IOR WDT_IOC_MAGIC 1 4.
Definition WDT_OPEN_ONLY : Z := IO WDT_IOC_MAGIC 2.
Definition WDT_ALWAYS_TIME_OUT : Z := IO WDT_IOC_MAGIC 3.
Definition WDT_ENABLE : Z := IO WDT_IOC_MAGIC 4.
Definition WDT_DISABLE : Z := IO WDT_IOC_MAGIC 5.
Definition WDT_REGISTER_ME : Z := IOW WDT_IOC_MAGIC 6 4.
Definition WDT_REMOVE_ME : Z := IOW WDT_IOC_MAGIC 7 4.
Definition WDT_SERVE_ME : Z := IOW WDT_IOC_MAGIC 8 4.
Definition WDT_EXCLUSIV_OPEN_ONLY : Z := IO WDT_IOC_MAGIC 9.
Definition WDT_ALWAYS_OPEN : Z := IO WDT_IOC_MAGIC 10.
Definition WDT_GETSUPPORT : Z := IOR WDT_IOC_MAGIC 11 4.
Definition IOCTL_HARDRESET : Z := IO WDT_IOC_MAGIC 12.

(** ** Data *)

(** [struct wdt_registerded_task_s] without its list head. *)
Record task := Task {
  pid : Z; call_period : Z; expires : Z; last_jiffies : Z; command : list Z
}.

(** The driver's global variables, with what the kernel keeps for it: the
    clock, the pending expiry of [watchdog_ticktock], the registrations and how
    often [kernel_restart] was called. *)
Record ctl := Ctl {
  timeout_open_only : Z;
  timer_count : Z;
  timer_period : Z;
  do_hard_reset : Z;
  enabled : Z;
  device_open : Z;
  device_exclusiv_open_only : Z;
  jiffies : Z;
  watchdog_ticktock : option Z;
  reboot_notifier : bool;
  misc_device : bool;
  restarts : nat
}.

Record wdt := Wdt {
  vars : ctl;
  links : gmap Z list_head;
  tasks : gmap Z task;
  hardware : hw
}.

Definition with_vars (f : ctl -> ctl) (s : wdt) : wdt :=
  Wdt (f (vars s)) (links s) (tasks s) (hardware s).
Definition with_mem (l : gmap Z list_head) (t : gmap Z task) (s : wdt) : wdt :=
  Wdt (vars s) l t (hardware s).
Definition with_hardware (h : hw) (s : wdt) : wdt :=
  Wdt (vars s) (links s) (tasks s) h.

Definition set_timeout_open_only (v : Z) (c : ctl) : ctl :=
  Ctl v (timer_count c) (timer_period c) (do_hard_reset c) (enabled c) (device_open c)
    (device_exclusiv_open_only c) (jiffies c) (watchdog_ticktock c) (reboot_notifier c)
    (misc_device c) (restarts c).
Definition set_timer_count (v : Z) (c : ctl) : ctl :=
  Ctl (timeout_open_only c) v (timer_period c) (do_hard_reset c) (enabled c) (device_open c)
    (device_exclusiv_open_only c) (jiffies c) (watchdog_ticktock c) (reboot_notifier c)
    (misc_device c) (restarts c).
Definition set_do_hard_reset (v : Z) (c : ctl) : ctl :=
  Ctl (timeout_open_only c) (timer_count c) (timer_period c) v (enabled c) (device_open c)
    (device_exclusiv_open_only c) (jiffies c) (watchdog_ticktock c) (reboot_notifier c)
    (misc_device c) (restarts c).
Definition set_enabled (v : Z) (c : ctl) : ctl :=
  Ctl (timeout_open_only c) (timer_count c) (timer_period c) (do_hard_reset c) v (device_open c)
    (device_exclusiv_open_only c) (jiffies c) (watchdog_ticktock c) (reboot_notifier c)
    (misc_device c) (restarts c).
Definition set_device_open (v : Z) (c : ctl) : ctl :=
  Ctl (timeout_open_only c) (timer_count c) (timer_period c) (do_hard_reset c) (enabled c) v
    (device_exclusiv_open_only c) (jiffies c) (watchdog_ticktock c) (reboot_notifier c)
    (misc_device c) (restarts c).
Definition set_exclusiv (v : Z) (c : ctl) : ctl :=
  Ctl (timeout_open_only c) (timer_count c) (timer_period c) (do_hard_reset c) (enabled c)
    (device_open c) v (jiffies c) (watchdog_ticktock c) (reboot_notifier c)
    (misc_device c) (restarts c).
Definition set_jiffies (v : Z) (c : ctl) : ctl :=
  Ctl (timeout_open_only c) (timer_count c) (timer_period c) (do_hard_reset c) (enabled c)
    (device_open c) (device_exclusiv_open_only c) v (watchdog_ticktock c) (reboot_notifier c)
    (misc_device c) (restarts c).
Definition set_ticktock (v : option Z) (c : ctl) : ctl :=
  Ctl (timeout_open_only c) (timer_count c) (timer_period c) (do_hard_reset c) (enabled c)
    (device_open c) (device_exclusiv_open_only c) (jiffies c) v (reboot_notifier c)
    (misc_device c) (restarts c).
Definition set_reboot_notifier (v : bool) (c : ctl) : ctl :=
  Ctl (timeout_open_only c) (timer_count c) (timer_period c) (do_hard_reset c) (enabled c)
    (device_open c) (device_exclusiv_open_only c) (jiffies c) (watchdog_ticktock c) v
    (misc_device c) (restarts c).
Definition set_misc_device (v : bool) (c : ctl) : ctl :=
  Ctl (timeout_open_only c) (timer_count c) (timer_period c) (do_hard_reset c) (enabled c)
    (device_open c) (device_exclusiv_open_only c) (jiffies c) (watchdog_ticktock c)
    (reboot_notifier c) v (restarts c).
Definition set_restarts (v : nat) (c : ctl) : ctl :=
  Ctl (timeout_open_only c) (timer_count c) (timer_period c) (do_hard_reset c) (enabled c)
    (device_open c) (device_exclusiv_open_only c) (jiffies c) (watchdog_ticktock c)
    (reboot_notifier c) (misc_device c) v.

(** The initialisers of the globals, at clock value [j]. *)
Definition ctl0 (j : Z) : ctl :=
  Ctl 0 (TIMEOUT_VALUE * HZ) TRIGGER_PERIOD 0 1 0 0 j None false false 0.

(** What a user process passes with an [ioctl]: the memory behind the argument,
    as [copy_from_user], [copy_to_user] and [put_user] find it ([None] or
    [false]: the copy faults). *)
Record umem := Umem {
  um_pid : option Z;
  um_task : option task;
  um_writable : bool
}.

Definition upd (f : ctl -> ctl) : M wdt unit := modify (with_vars f).
Definition var {A} (f : ctl -> A) : M wdt A := gets (fun s => f (vars s)).
Definition on_hardware {A} (m : M hw A) : M wdt A := zoom hardware with_hardware m.

Section Driver.
(** Address of the global [registered_tasks_list]. *)
Context (registered_tasks_list : Z).

(** ** The task list

    The loops walk the links from the head; the fuel is the number of nodes
    in memory, which a walk along a list without repetition cannot exceed. *)

Definition first (s : wdt) : option Z := next <$> links s !! registered_tasks_list.

Fixpoint already_registered_loop (fuel : nat) (ptr taskpid : Z) (s : wdt) : option Z :=
  if ptr =? registered_tasks_list then Some 0
  else match fuel with
  | O => None
  | S fuel =>
      t ← tasks s !! ptr;
      if pid t =? taskpid then Some (- EEXIST)
      else n ← links s !! ptr; already_registered_loop fuel (next n) taskpid s
  end.

Definition wdt_task_already_registered (taskpid : Z) : M wdt Z :=
  s ← get;
  ptr ← lift_opt (first s);
  lift_opt (already_registered_loop (size (links s)) ptr taskpid s).

(** [kmalloc] gives the address [mem], 0 when there is no memory left. *)
Definition wdt_register_task (mem : Z) (task : task) : M wdt Z :=
  r ← wdt_task_already_registered (pid task);
  if truth r then mret (- EEXIST)
  else if mem =? 0 then mret (- ENOMEM)
  else
    s ← get;
    let j := jiffies (vars s) in
    h1 ← lift_opt (INIT_LIST_HEAD mem (<[mem := LH 0 0]> (links s)));
    let t := Task (pid task) (call_period task) (u32 (call_period task + j)) j
               (take MAX_LEN (command task)) in
    h2 ← lift_opt (list_add mem registered_tasks_list h1);
    put (with_mem h2 (<[mem := t]> (tasks s)) s);;
    mret 0.

Definition kfree (p : Z) (s : wdt) : wdt :=
  with_mem (delete p (links s)) (delete p (tasks s)) s.

(** The loop of [wdt_unregister_task]: [true] when the entry was found. *)
Fixpoint unregister_loop (fuel : nat) (ptr taskpid : Z) (s : wdt) : option (bool * wdt) :=
  if (ptr =? registered_tasks_list) || (ptr =? 0) then Some (false, s)
  else match fuel with
  | O => None
  | S fuel =>
      t ← tasks s !! ptr;
      if pid t =? taskpid then
        h ← list_del ptr (links s);
        Some (true, kfree ptr (with_mem h (tasks s) s))
      else n ← links s !! ptr; unregister_loop fuel (next n) taskpid s
  end.

Definition wdt_unregister_task (taskpid : Z) : M wdt Z :=
  s ← get;
  ptr ← lift_opt (first s);
  r ← lift_opt (unregister_loop (size (links s)) ptr taskpid s);
  put (snd r);;
  mret (if fst r : bool then 0 else - ENXIO).

(** The alive message of a task: its expiry and time of service are reset. *)
Definition served (j : Z) (t : task) : task :=
  Task (pid t) (call_period t) (u32 (call_period t + j)) j (command t).

Fixpoint serve_loop (fuel : nat) (ptr taskpid : Z) (found : bool) (s : wdt)
  : option (bool * wdt) :=
  if ptr =? registered_tasks_list then Some (found, s)
  else match fuel with
  | O => None
  | S fuel =>
      t ← tasks s !! ptr;
      n ← links s !! ptr;
      if pid t =? taskpid then
        serve_loop fuel (next n) taskpid true
          (with_mem (links s) (<[ptr := served (jiffies (vars s)) t]> (tasks s)) s)
      else serve_loop fuel (next n) taskpid found s
  end.

Definition wdt_serve_task (taskpid : Z) : M wdt Z :=
  s ← get;
  ptr ← lift_opt (first s);
  r ← lift_opt (serve_loop (size (links s)) ptr taskpid false s);
  put (snd r);;
  mret (if fst r : bool then 0 else - ENXIO).

Fixpoint serve_all_loop (fuel : nat) (ptr : Z) (s : wdt) : option wdt :=
  if ptr =? registered_tasks_list then Some s
  else match fuel with
  | O => None
  | S fuel =>
      t ← tasks s !! ptr;
      n ← links s !! ptr;
      serve_all_loop fuel (next n)
        (with_mem (links s) (<[ptr := served (jiffies (vars s)) t]> (tasks s)) s)
  end.

Definition serve_all_tasks : M wdt Z :=
  s ← get;
  ptr ← lift_opt (first s);
  s' ← lift_opt (serve_all_loop (size (links s)) ptr s);
  put s';;
  mret 0.

(** What the loop of [check_registered_tasks] ends with. *)
Inductive verdict := AllAlive | JiffiesOverflow | TimedOut.

Fixpoint check_loop (fuel : nat) (ptr comp_jiffies : Z) (s : wdt) : option verdict :=
  if ptr =? registered_tasks_list then Some AllAlive
  else match fuel with
  | O => None
  | S fuel =>
      t ← tasks s !! ptr;
      if expires t <=? comp_jiffies then
        if comp_jiffies <=? last_jiffies t then Some JiffiesOverflow else Some TimedOut
      else n ← links s !! ptr; check_loop fuel (next n) comp_jiffies s
  end.

Definition check_registered_tasks : M wdt Z :=
  s ← get;
  ptr ← lift_opt (first s);
  v ← lift_opt (check_loop (size (links s)) ptr (jiffies (vars s)) s);
  match v with
  | AllAlive => mret 0
  | JiffiesOverflow => serve_all_tasks;; mret 0
  | TimedOut => mret (- EFAULT)
  end.

Fixpoint cleanup_loop (fuel : nat) (ptr : Z) (s : wdt) : option wdt :=
  if ptr =? registered_tasks_list then Some s
  else match fuel with
  | O => None
  | S fuel =>
      n ← links s !! ptr;
      h ← list_del ptr (links s);
      cleanup_loop fuel (next n) (kfree ptr (with_mem h (tasks s) s))
  end.

(** [no_of_entries_cleaned] is only counted by the debug output. *)
Definition wdt_cleanup_tasklist : M wdt Z :=
  s ← get;
  ptr ← lift_opt (first s);
  s' ← lift_opt (cleanup_loop (size (links s)) ptr s);
  put s';;
  mret 0.

(** ** File operations *)

Definition softdog_open : M wdt Z :=
  o ← var device_open;
  x ← var device_exclusiv_open_only;
  if truth o && truth x then mret (- EBUSY)
  else upd (set_device_open (s32 (o + 1)));; mret 0.

(** [CONFIG_WATCHDOG_NOWAYOUT] is set: the timer keeps running. *)
Definition softdog_release : M wdt Z :=
  o ← var device_open;
  upd (set_device_open (s32 (o - 1)));;
  mret 0.

(** Result and the word put into the user's buffer, if any. *)
Definition softdog_read (len : Z) : M wdt (Z * option Z) :=
  c ← var timer_count;
  let rest_count := u32 (c / HZ) in
  if len <? 4 then mret (- EINVAL, None)
  else mret (4, Some rest_count).

(** [pwrite]: the position is not the file's own; [data] is what [get_user]
    reads ([inr] its error). *)
Definition softdog_write (pwrite : bool) (len : Z) (data : Z + Z) : M wdt Z :=
  if pwrite then mret (- ESPIPE)
  else if negb (len =? 4) then mret (- EINVAL)
  else match data with
  | inr error => mret error
  | inl new_count => upd (set_timer_count (u32 new_count));; mret 4
  end.

Definition softdog_ioctl (cmd arg : Z) (u : umem) (mem : Z) : M wdt Z :=
  if negb (IOC_TYPE cmd =? WDT_IOC_MAGIC) then mret (- ENOTTY)
  else if WDT_IOCTL_MAXNR <? IOC_NR cmd then mret (- ENOTTY)
  else if cmd =? WDT_SERVE_ME then
    if truth arg then
      match um_pid u with
      | None => mret (- EFAULT)
      | Some tmp_pid =>
          r ← wdt_serve_task tmp_pid;
          if truth r then mret (- EAGAIN) else mret 0
      end
    else mret (- EINVAL)
  else if cmd =? WDT_REGISTER_ME then
    if truth arg then
      match um_task u with
      | None => mret (- EFAULT)
      | Some tmp =>
          r ← wdt_register_task mem tmp;
          if truth r then mret (- EAGAIN) else mret 0
      end
    else mret (- EINVAL)
  else if cmd =? WDT_REMOVE_ME then
    if truth arg then
      match um_pid u with
      | None => mret (- EFAULT)
      | Some tmp_pid =>
          r ← wdt_unregister_task tmp_pid;
          if truth r then mret (- ENXIO) else mret 0
      end
    else mret 0
  else if cmd =? WDT_OPEN_ONLY then upd (set_timeout_open_only 1);; mret 0
  else if cmd =? WDT_ALWAYS_TIME_OUT then upd (set_timeout_open_only 0);; mret 0
  else if cmd =? WDT_EXCLUSIV_OPEN_ONLY then upd (set_exclusiv 1);; mret 0
  else if cmd =? WDT_ALWAYS_OPEN then upd (set_exclusiv 0);; mret 0
  else if cmd =? WDT_ENABLE then
    e ← var enabled;
    if negb (e =? 1) then
      r ← serve_all_tasks;
      if negb (truth r) then upd (set_enabled 1);; mret 0
      else upd (set_enabled 0);; mret (- EFAULT)
    else mret 0
  else if cmd =? WDT_DISABLE then upd (set_enabled 0);; mret 0
  else if cmd =? WDT_GETSUPPORT then
    if um_writable u then mret 0 else mret (- EFAULT)
  else if cmd =? WDT_GET_STATUS then
    if um_writable u then mret 0 else mret (- EFAULT)
  else if cmd =? IOCTL_HARDRESET then upd (set_do_hard_reset 1);; mret 0
  else mret (- ENOIOCTLCMD).

(** ** The timer *)

Definition kernel_restart : M wdt unit :=
  upd (fun c => set_restarts (S (restarts c)) c).

Definition mod_timer (e : Z) : M wdt unit := upd (set_ticktock (Some (u32 e))).
Definition del_timer : M wdt unit := upd (set_ticktock None).

(** The countdown of [watchdog_fire] when a task did not report. *)
Definition count_down : M wdt unit :=
  upd (fun c => if timer_period c <? timer_count c
                then set_timer_count (timer_count c - timer_period c) c
                else set_timer_count 0 c).

Definition watchdog_fire : M wdt unit :=
  c ← var (fun c => c);
  (if (timer_count c =? 0) && truth (enabled c) then kernel_restart else mret tt);;
  c ← var (fun c => c);
  if (0 <? timer_count c) || negb (truth (enabled c)) then
    (if negb (truth (do_hard_reset c))
     then on_hardware serve_watchdog_hw;; mret tt else mret tt);;
    mod_timer (jiffies c + timer_period c);;
    if negb (truth (enabled c)) then mret tt
    else if truth (timeout_open_only c) && negb (truth (device_open c)) then mret tt
    else
      r ← check_registered_tasks;
      if r =? 0 then upd (set_timer_count (TIMEOUT_VALUE * HZ))
      else count_down
  else mret tt.

(** ** Load and unload *)

Definition SYS_DOWN : Z := 1.
Definition SYS_HALT : Z := 2.

(** The reboot notifier only prints. *)
Definition my_wdt_notifier_sys (code : Z) : M wdt Z := mret 0.

Definition wdt_proc_init : M wdt Z := mret 0.
Definition wdt_proc_cleanup : M wdt unit := mret tt.

Definition watchdog_init (notifier_ret misc_ret : Z) (immap : hw) : M wdt Z :=
  if truth notifier_ret then mret notifier_ret
  else
    upd (set_reboot_notifier true);;
    if truth misc_ret then
      upd (set_reboot_notifier false);; mret misc_ret
    else
      upd (set_misc_device true);;
      ret ← wdt_proc_init;
      if truth ret then mret ret
      else
        on_hardware (hardware_init immap);;
        del_timer;;
        j ← var jiffies;
        mod_timer (j + TRIGGER_PERIOD);;
        mret 0.

Definition watchdog_cleanup : M wdt unit :=
  wdt_cleanup_tasklist;;
  del_timer;;
  upd (set_misc_device false);;
  upd (set_reboot_notifier false);;
  wdt_proc_cleanup;;
  on_hardware slow_down_watchdog_hw;;
  on_hardware hardware_clean.

(** ** The driver as a reactive system *)

Inductive event :=
| EvOpen
| EvRelease
| EvRead (len : Z)
| EvWrite (pwrite : bool) (len : Z) (data : Z + Z)
| EvIoctl (cmd arg : Z) (u : umem) (mem : Z)
| EvFire
| EvTick.

(** The timer softirq takes the timer off before it calls its function; the
    clock interrupt advances [jiffies]. *)
Definition handle (ev : event) : M wdt Z :=
  match ev with
  | EvOpen => softdog_open
  | EvRelease => softdog_release
  | EvRead len => r ← softdog_read len; mret (fst r)
  | EvWrite p len data => softdog_write p len data
  | EvIoctl cmd arg u mem => softdog_ioctl cmd arg u mem
  | EvFire => del_timer;; watchdog_fire;; mret 0
  | EvTick => upd (fun c => set_jiffies (u32 (jiffies c + 1)) c);; mret 0
  end.

Fixpoint handle_all (evs : list event) : M wdt unit :=
  match evs with
  | [] => mret tt
  | ev :: evs => handle ev;; handle_all evs
  end.

(** Memory after the module is loaded: the statically initialised head. *)
Definition loaded (j : Z) : wdt :=
  Wdt (ctl0 j) {[registered_tasks_list := LH registered_tasks_list registered_tasks_list]}
    ∅ None.
End Driver.
