(* ===== verification/WatchdogSpec.v ===== *)
(** * What the watchdog driver promises, and that it keeps it

    The abstract driver keeps the registered tasks as a plain list, newest
    first, and has no memory: its operations are total functions. The lemmas of
    this file, collected in [handle_ok], show that every handler of Watchdog.v, run on memory that
    represents an abstract state, has defined behaviour, returns what the
    abstract operation returns and leaves memory that represents the abstract
    result: exactly one allocated node per registered task. *)

From S2P Require Import Prelude Klist WdtHardware Watchdog.

(** ** The abstract driver *)

Record awdt := AWdt { avars : ctl; regs : list task; ahw : hw }.

Definition awith_vars (f : ctl -> ctl) (a : awdt) : awdt := AWdt (f (avars a)) (regs a) (ahw a).
Definition awith_regs (l : list task) (a : awdt) : awdt := AWdt (avars a) l (ahw a).

Definition is_reg (p : Z) (l : list task) : bool := existsb (fun t => pid t =? p) l.

Definition a_serve (j p : Z) (l : list task) : list task :=
  map (fun t => if pid t =? p then served j t else t) l.

Fixpoint a_unregister (p : Z) (l : list task) : list task :=
  match l with
  | [] => []
  | t :: l => if pid t =? p then l else t :: a_unregister p l
  end.

Definition new_task (j : Z) (t : task) : task :=
  Task (pid t) (call_period t) (u32 (call_period t + j)) j (take MAX_LEN (command t)).

(** The first task whose time is over decides. *)
Fixpoint a_check (j : Z) (l : list task) : verdict :=
  match l with
  | [] => AllAlive
  | t :: l =>
      if expires t <=? j then if j <=? last_jiffies t then JiffiesOverflow else TimedOut
      else a_check j l
  end.

Definition a_register (mem : Z) (t : task) (a : awdt) : Z * awdt :=
  if is_reg (pid t) (regs a) then (- EEXIST, a)
  else if mem =? 0 then (- ENOMEM, a)
  else (0, awith_regs (new_task (jiffies (avars a)) t :: regs a) a).

(** [register_reboot_notifier] and the like are not in question here: the
    commands of the device. *)
Definition a_ioctl (cmd arg : Z) (u : umem) (mem : Z) (a : awdt) : Z * awdt :=
  let j := jiffies (avars a) in
  if negb (IOC_TYPE cmd =? WDT_IOC_MAGIC) then (- ENOTTY, a)
  else if WDT_IOCTL_MAXNR <? IOC_NR cmd then (- ENOTTY, a)
  else if cmd =? WDT_SERVE_ME then
    if negb (truth arg) then (- EINVAL, a)
    else match um_pid u with
    | None => (- EFAULT, a)
    | Some p => (if is_reg p (regs a) then 0 else - EAGAIN, awith_regs (a_serve j p (regs a)) a)
    end
  else if cmd =? WDT_REGISTER_ME then
    if negb (truth arg) then (- EINVAL, a)
    else match um_task u with
    | None => (- EFAULT, a)
    | Some t => let '(r, a') := a_register mem t a in (if truth r then - EAGAIN else 0, a')
    end
  else if cmd =? WDT_REMOVE_ME then
    if negb (truth arg) then (0, a)
    else match um_pid u with
    | None => (- EFAULT, a)
    | Some p =>
        (if is_reg p (regs a) then 0 else - ENXIO, awith_regs (a_unregister p (regs a)) a)
    end
  else if cmd =? WDT_OPEN_ONLY then (0, awith_vars (set_timeout_open_only 1) a)
  else if cmd =? WDT_ALWAYS_TIME_OUT then (0, awith_vars (set_timeout_open_only 0) a)
  else if cmd =? WDT_EXCLUSIV_OPEN_ONLY then (0, awith_vars (set_exclusiv 1) a)
  else if cmd =? WDT_ALWAYS_OPEN then (0, awith_vars (set_exclusiv 0) a)
  else if cmd =? WDT_ENABLE then
    if enabled (avars a) =? 1 then (0, a)
    else (0, awith_vars (set_enabled 1) (awith_regs (map (served j) (regs a)) a))
  else if cmd =? WDT_DISABLE then (0, awith_vars (set_enabled 0) a)
  else if cmd =? WDT_GETSUPPORT then (if um_writable u then 0 else - EFAULT, a)
  else if cmd =? WDT_GET_STATUS then (if um_writable u then 0 else - EFAULT, a)
  else if cmd =? IOCTL_HARDRESET then (0, awith_vars (set_do_hard_reset 1) a)
  else (- ENOIOCTLCMD, a).

Definition kick (h : hw) : hw :=
  match serve_watchdog_hw h with Some (_, h') => h' | None => h end.

(** The timer: reboot, or trigger the hardware and watch the tasks. *)
Definition a_fire (a : awdt) : awdt :=
  let c := avars a in
  if (timer_count c =? 0) && truth (enabled c) then
    awith_vars (fun c => set_restarts (S (restarts c)) c)
      (awith_vars (set_ticktock None) a)
  else if (0 <? timer_count c) || negb (truth (enabled c)) then
    let a1 := AWdt (set_ticktock (Some (u32 (jiffies c + timer_period c))) c) (regs a)
                (if truth (do_hard_reset c) then ahw a else kick (ahw a)) in
    if negb (truth (enabled c)) then a1
    else if truth (timeout_open_only c) && negb (truth (device_open c)) then a1
    else match a_check (jiffies c) (regs a) with
    | AllAlive => awith_vars (set_timer_count (TIMEOUT_VALUE * HZ)) a1
    | JiffiesOverflow =>
        awith_vars (set_timer_count (TIMEOUT_VALUE * HZ))
          (awith_regs (map (served (jiffies c)) (regs a)) a1)
    | TimedOut =>
        awith_vars (fun c => if timer_period c <? timer_count c
                             then set_timer_count (timer_count c - timer_period c) c
                             else set_timer_count 0 c) a1
    end
  else awith_vars (set_ticktock None) a.

Definition a_handle (ev : event) (a : awdt) : Z * awdt :=
  let c := avars a in
  match ev with
  | EvOpen =>
      if truth (device_open c) && truth (device_exclusiv_open_only c) then (- EBUSY, a)
      else (0, awith_vars (set_device_open (s32 (device_open c + 1))) a)
  | EvRelease => (0, awith_vars (set_device_open (s32 (device_open c - 1))) a)
  | EvRead len => (if len <? 4 then - EINVAL else 4, a)
  | EvWrite p len data =>
      if p then (- ESPIPE, a)
      else if negb (len =? 4) then (- EINVAL, a)
      else match data with
      | inr e => (e, a)
      | inl n => (4, awith_vars (set_timer_count (u32 n)) a)
      end
  | EvIoctl cmd arg u mem => a_ioctl cmd arg u mem a
  | EvFire => (0, a_fire a)
  | EvTick => (0, awith_vars (fun c => set_jiffies (u32 (jiffies c + 1)) c) a)
  end.

Definition a_run (evs : list event) (a : awdt) : awdt :=
  foldl (fun a ev => snd (a_handle ev a)) a evs.

(** ** Memory that represents an abstract state *)

Section Refinement.
Context (head : Z).

Record rep_at (addrs : list Z) (s : wdt) (a : awdt) : Prop := RepAt {
  rep_vars : vars s = avars a;
  rep_hw : hardware s = ahw a;
  rep_list : is_list (links s) head addrs;
  rep_tasks : Forall2 (fun p t => tasks s !! p = Some t) addrs (regs a);
  rep_dom_links : dom (links s) = {[head]} ∪ list_to_set addrs;
  rep_dom_tasks : dom (tasks s) = list_to_set addrs;
  rep_nonnull : 0 ∉ addrs
}.

Definition rep (s : wdt) (a : awdt) : Prop := exists addrs, rep_at addrs s a.

Lemma rep_fuel addrs s a : rep_at addrs s a -> (length addrs <= size (links s))%nat.
Proof.
  intros R. rewrite <- size_dom, (rep_dom_links _ _ _ R).
  destruct (rep_list _ _ _ R) as [Hnd _].
  rewrite size_union by (apply NoDup_cons in Hnd; set_solver).
  rewrite size_list_to_set by (apply NoDup_cons in Hnd; tauto). lia.
Qed.

Lemma rep_first addrs s a :
  rep_at addrs s a -> first head s = Some (List.hd head addrs).
Proof. intros R. destruct (rep_list _ _ _ R) as [_ Hc]. apply (chain_first _ _ _ _ Hc). Qed.

(** Following one link of a chain. *)
Lemma chain_step h a p l b :
  chain h a (p :: l) b -> exists n, h !! p = Some n /\ next n = List.hd b l.
Proof.
  intros [_ Hc]. apply chain_first in Hc as [Hn _]. unfold nextof in Hn.
  destruct (h !! p) as [n|]; simplify_eq/=. eauto.
Qed.

(** ** The loops *)

Lemma already_registered_loop_ok l : forall fuel a s ts p,
  chain (links s) a l head -> head ∉ l ->
  Forall2 (fun q t => tasks s !! q = Some t) l ts -> (length l <= fuel)%nat ->
  already_registered_loop head fuel (List.hd head l) p s =
    Some (if is_reg p ts then - EEXIST else 0).
Proof.
  induction l as [|q l IH]; intros fuel a s ts p Hc Hh Ht Hf;
    inversion Ht as [|? t ? ts' Hq Ht']; subst; simpl.
  - destruct fuel; simpl; by rewrite Z.eqb_refl.
  - destruct fuel as [|fuel]; simpl in *; [lia|].
    rewrite (proj2 (Z.eqb_neq q head)) by set_solver. rewrite Hq. simpl.
    destruct (pid t =? p); [done|].
    destruct (chain_step _ _ _ _ _ Hc) as (n & Hn & En). rewrite Hn. simpl. rewrite En.
    destruct Hc as [_ Hc]. apply IH with q; [done|set_solver|done|lia].
Qed.

Lemma check_loop_ok l : forall fuel a s ts j,
  chain (links s) a l head -> head ∉ l ->
  Forall2 (fun q t => tasks s !! q = Some t) l ts -> (length l <= fuel)%nat ->
  check_loop head fuel (List.hd head l) j s = Some (a_check j ts).
Proof.
  induction l as [|q l IH]; intros fuel a s ts j Hc Hh Ht Hf;
    inversion Ht as [|? t ? ts' Hq Ht']; subst; simpl.
  - destruct fuel; simpl; by rewrite Z.eqb_refl.
  - destruct fuel as [|fuel]; simpl in *; [lia|].
    rewrite (proj2 (Z.eqb_neq q head)) by set_solver. rewrite Hq. simpl.
    destruct (expires t <=? j); [by destruct (j <=? last_jiffies t)|].
    destruct (chain_step _ _ _ _ _ Hc) as (n & Hn & En). rewrite Hn. simpl. rewrite En.
    destruct Hc as [_ Hc]. apply IH with q; [done|set_solver|done|lia].
Qed.

(** A walk that rewrote the nodes [l] of [s] to hold [ts]. *)
Record rewritten (l : list Z) (ts : list task) (s s' : wdt) : Prop := Rewritten {
  rw_vars : vars s' = vars s;
  rw_links : links s' = links s;
  rw_hw : hardware s' = hardware s;
  rw_tasks : Forall2 (fun p t => tasks s' !! p = Some t) l ts;
  rw_other : forall p, p ∉ l -> tasks s' !! p = tasks s !! p;
  rw_dom : dom (tasks s') = dom (tasks s)
}.

(** Rewriting one node, then the rest. *)
Lemma rewritten_cons q l t ts t0 s s' :
  tasks s !! q = Some t0 -> q ∉ l ->
  rewritten l ts (with_mem (links s) (<[q := t]> (tasks s)) s) s' ->
  rewritten (q :: l) (t :: ts) s s'.
Proof.
  intros Hq Hql [V L H T O D]. simpl in *. split; try done.
  - constructor; [|done]. rewrite O by done. by simplify_map_eq.
  - intros p Hp. rewrite O by set_solver. apply lookup_insert_ne. set_solver.
  - rewrite D, dom_insert_L. apply elem_of_dom_2 in Hq. set_solver.
Qed.

(** Leaving one node alone, then the rest. *)
Lemma rewritten_skip q l t ts s s' :
  tasks s !! q = Some t -> q ∉ l ->
  rewritten l ts s s' -> rewritten (q :: l) (t :: ts) s s'.
Proof.
  intros Hq Hql [V L H T O D]. split; try done.
  - constructor; [|done]. by rewrite O.
  - intros p Hp. apply O. set_solver.
Qed.

Lemma other_tasks q (l : list Z) t ts (m : gmap Z task) :
  q ∉ l -> Forall2 (fun p t => m !! p = Some t) l ts ->
  Forall2 (fun p t' => <[q := t]> m !! p = Some t') l ts.
Proof.
  intros Hq H. induction H as [|p t' l ts Hp H IH]; constructor.
  - rewrite lookup_insert_ne; [done | set_solver].
  - apply IH. set_solver.
Qed.

Lemma freed_tasks q (l : list Z) ts (m : gmap Z task) :
  q ∉ l -> Forall2 (fun p t => m !! p = Some t) l ts ->
  Forall2 (fun p t' => delete q m !! p = Some t') l ts.
Proof.
  intros Hq H. induction H as [|p t' l ts Hp H IH]; constructor.
  - rewrite lookup_delete_ne; [done | set_solver].
  - apply IH. set_solver.
Qed.

Lemma serve_loop_ok l : forall fuel a s ts p found,
  chain (links s) a l head -> NoDup (head :: l) ->
  Forall2 (fun q t => tasks s !! q = Some t) l ts -> (length l <= fuel)%nat ->
  exists s', serve_loop head fuel (List.hd head l) p found s = Some (found || is_reg p ts, s')%bool
    /\ rewritten l (a_serve (jiffies (vars s)) p ts) s s'.
Proof.
  induction l as [|q l IH]; intros fuel a s ts p found Hc Hnd Ht Hf;
    inversion Ht as [|? t ? ts' Hq Ht']; subst; simpl.
  - exists s. destruct fuel; simpl; rewrite Z.eqb_refl, orb_false_r; by repeat constructor.
  - destruct fuel as [|fuel]; simpl in *; [lia|].
    rewrite !NoDup_cons in Hnd. destruct Hnd as (Hh & Hql & Hnd).
    rewrite (proj2 (Z.eqb_neq q head)) by set_solver. rewrite Hq. simpl.
    destruct (chain_step _ _ _ _ _ Hc) as (n & Hn & En). rewrite Hn. simpl. rewrite En.
    destruct Hc as [_ Hc].
    assert (NoDup (head :: l)) as Hnd' by (apply NoDup_cons; set_solver).
    destruct (pid t =? p).
    + set (s1 := with_mem _ _ s).
      destruct (IH fuel q s1 ts' p true) as (s' & E & R);
        [done | done | by apply other_tasks | lia |].
      exists s'. rewrite E, orb_true_r. split; [done|].
      by eapply rewritten_cons.
    + destruct (IH fuel q s ts' p found) as (s' & E & R); [done.. | lia |].
      exists s'. split; [done|]. by apply rewritten_skip.
Qed.

Lemma serve_all_loop_ok l : forall fuel a s ts,
  chain (links s) a l head -> NoDup (head :: l) ->
  Forall2 (fun q t => tasks s !! q = Some t) l ts -> (length l <= fuel)%nat ->
  exists s', serve_all_loop head fuel (List.hd head l) s = Some s'
    /\ rewritten l (map (served (jiffies (vars s))) ts) s s'.
Proof.
  induction l as [|q l IH]; intros fuel a s ts Hc Hnd Ht Hf;
    inversion Ht as [|? t ? ts' Hq Ht']; subst; simpl.
  - exists s. destruct fuel; simpl; rewrite Z.eqb_refl; by repeat constructor.
  - destruct fuel as [|fuel]; simpl in *; [lia|].
    rewrite !NoDup_cons in Hnd. destruct Hnd as (Hh & Hql & Hnd).
    rewrite (proj2 (Z.eqb_neq q head)) by set_solver. rewrite Hq. simpl.
    destruct (chain_step _ _ _ _ _ Hc) as (n & Hn & En). rewrite Hn. simpl. rewrite En.
    destruct Hc as [_ Hc]. set (s1 := with_mem _ _ s).
    destruct (IH fuel q s1 ts') as (s' & E & R);
      [done | apply NoDup_cons; set_solver | by apply other_tasks | lia |].
    exists s'. split; [done|]. by eapply rewritten_cons.
Qed.

(** Rewriting the nodes of a represented list. *)
Lemma rep_rewritten addrs s a ts s' :
  rep_at addrs s a -> rewritten addrs ts s s' -> rep_at addrs s' (awith_regs ts a).
Proof.
  intros [V H L T DL DT N] [V' L' H' T' O D]. split; simpl; try congruence; done.
Qed.

(** Freeing the node that [list_del] unlinked. *)
Lemma rep_unlink l1 q l2 s a t h :
  rep_at (l1 ++ q :: l2) s a -> tasks s !! q = Some t ->
  list_del q (links s) = Some h ->
  exists ts1 ts2, regs a = ts1 ++ t :: ts2 /\ length ts1 = length l1 /\
    rep_at (l1 ++ l2) (kfree q (with_mem h (tasks s) s)) (awith_regs (ts1 ++ ts2) a).
Proof.
  intros [V H L T DL DT N] Hq Hd.
  destruct (list_del_spec _ _ _ _ _ L) as (h' & Hd' & L' & D'). simplify_eq.
  apply Forall2_app_inv_l in T as (ts1 & ts2' & T1 & T2 & Er).
  inversion T2 as [|? t' ? ts2 Hq' T2']; subst. simplify_eq.
  exists ts1, ts2. split; [done|]. split; [symmetry; by eapply Forall2_length|].
  destruct L as [Hnd _], L' as [Hnd' Hc'].
  assert (q ∉ head :: l1 ++ l2) as Hnot.
  { rewrite <- Permutation_middle in Hnd. rewrite !NoDup_cons in Hnd. set_solver. }
  split; simpl; try done.
  - split; [done|]. eapply chain_ext; [..|exact Hc']; intros p Hp;
      unfold nextof, prevof; rewrite lookup_delete_ne; try done; set_solver.
  - apply Forall2_app; (apply freed_tasks; [set_solver | done]).
  - rewrite dom_delete_L, D', DL. rewrite !list_to_set_app_L. simpl. set_solver.
  - rewrite dom_delete_L, DT. rewrite !list_to_set_app_L. simpl. set_solver.
  - set_solver.
Qed.

(** The tasks before the current node do not have the pid that is looked for. *)
Lemma unregister_loop_ok l2 : forall fuel l1 s a p ts1 ts2,
  rep_at (l1 ++ l2) s a -> regs a = ts1 ++ ts2 -> length ts1 = length l1 ->
  is_reg p ts1 = false -> (length l2 <= fuel)%nat ->
  exists s', unregister_loop head fuel (List.hd head l2) p s = Some (is_reg p ts2, s')
    /\ rep s' (awith_regs (ts1 ++ a_unregister p ts2) a).
Proof.
  induction l2 as [|q l2 IH]; intros fuel l1 s a p ts1 ts2 R Er El Hp Hf.
  - assert (ts2 = []) as ->.
    { pose proof (Forall2_length _ _ _ (rep_tasks _ _ _ R)) as HL.
      rewrite Er, !length_app in HL. simpl in HL. destruct ts2; [done|]. simpl in HL. lia. }
    exists s. destruct fuel; simpl; rewrite Z.eqb_refl; (split; [done|]);
      exists (l1 ++ []); destruct a; simpl in *; by rewrite <- Er.
  - destruct fuel as [|fuel]; simpl in *; [lia|].
    pose proof (rep_tasks _ _ _ R) as T. rewrite Er in T.
    apply Forall2_app_inv in T as [_ T]; [|by symmetry].
    inversion T as [|? t ? ts2' Hq T']; subst.
    destruct (rep_list _ _ _ R) as [Hnd Hc].
    pose proof (rep_nonnull _ _ _ R) as Hnn.
    rewrite (proj2 (Z.eqb_neq q head)), (proj2 (Z.eqb_neq q 0)), Hq
      by (apply NoDup_cons in Hnd; set_solver). simpl.
    destruct (pid t =? p) eqn:Ep.
    + destruct (list_del_spec _ _ _ _ _ (rep_list _ _ _ R)) as (h & Hd & _).
      rewrite Hd. simpl. eexists. split; [done|].
      destruct (rep_unlink l1 q l2 s a t h R Hq Hd) as (us1 & us2 & Eu & Lu & R').
      rewrite Er in Eu. apply app_inj_1 in Eu as [-> Eu]; [|congruence].
      simplify_eq. by exists (l1 ++ l2).
    + apply chain_app in Hc as [_ Hc]. apply chain_first in Hc as [Hn _].
      unfold nextof in Hn. destruct (links s !! q) as [n|]; simplify_eq/=. rewrite Hn.
      destruct (IH fuel (l1 ++ [q]) s a p (ts1 ++ [t]) ts2') as (s' & E & R').
      * by rewrite <- app_assoc.
      * by rewrite <- app_assoc.
      * rewrite !length_app. simpl. lia.
      * unfold is_reg in *. rewrite existsb_app, Hp. simpl. by rewrite Ep.
      * lia.
      * exists s'. split; [done|]. by rewrite <- app_assoc in R'.
Qed.

Lemma cleanup_loop_ok l : forall fuel s a,
  rep_at l s a -> (length l <= fuel)%nat ->
  exists s', cleanup_loop head fuel (List.hd head l) s = Some s' /\
    rep_at [] s' (awith_regs [] a).
Proof.
  induction l as [|q l IH]; intros fuel s a R Hf.
  - pose proof (rep_tasks _ _ _ R) as T. inversion T as [Er|].
    exists s. destruct fuel; simpl; rewrite Z.eqb_refl; (split; [done|]);
      destruct a; simpl in *; by subst.
  - destruct fuel as [|fuel]; simpl in *; [lia|].
    destruct (rep_list _ _ _ R) as [Hnd Hc].
    rewrite (proj2 (Z.eqb_neq q head)) by (apply NoDup_cons in Hnd; set_solver).
    destruct (chain_step _ _ _ _ _ Hc) as (n & Hn & En). rewrite Hn. simpl.
    destruct (list_del_spec _ head [] q l (rep_list _ _ _ R)) as (h & Hd & _).
    rewrite Hd. simpl. rewrite En.
    pose proof (rep_tasks _ _ _ R) as T. inversion T as [|? t ? ts Hq T' E1 E2]. subst.
    destruct (rep_unlink [] q l s a t h R Hq Hd) as (us1 & us2 & Eu & Lu & R').
    destruct (IH fuel _ _ R') as (s' & E & R''); [lia|]. eauto.
Qed.

(** ** The operations *)

(** [m] does on [s] what [f] does on [a]. *)
Definition does (m : M wdt Z) (f : awdt -> Z * awdt) (s : wdt) (a : awdt) : Prop :=
  exists s', m s = Some (fst (f a), s') /\ rep s' (snd (f a)).

Lemma rep_upd f s a : rep s a -> rep (with_vars f s) (awith_vars f a).
Proof.
  intros [l [V H L T DL DT N]]. exists l. split; simpl; try done. by rewrite V.
Qed.

Lemma rep_vars_eq s a : rep s a -> vars s = avars a.
Proof. intros [l R]. apply (rep_vars _ _ _ R). Qed.

Lemma wdt_task_already_registered_ok p s a :
  rep s a ->
  wdt_task_already_registered head p s = Some (if is_reg p (regs a) then - EEXIST else 0, s).
Proof.
  intros [l R]. unfold wdt_task_already_registered. run.
  rewrite (rep_first _ _ _ R). run. pose proof (rep_fuel _ _ _ R) as Hf.
  destruct R as [V H [Hnd Hc] T DL DT N].
  by rewrite (already_registered_loop_ok l _ head s (regs a))
    by (try done; apply NoDup_cons in Hnd; tauto).
Qed.

Lemma wdt_register_task_ok mem t s a :
  rep s a -> (mem = 0 \/ links s !! mem = None) ->
  does (wdt_register_task head mem t) (a_register mem t) s a.
Proof.
  intros Rep Hmem. unfold does, wdt_register_task, a_register.
  rewrite bind_unfold, (wdt_task_already_registered_ok _ _ _ Rep).
  destruct (is_reg (pid t) (regs a)); [by eexists|]. change (truth 0) with false. cbv iota.
  destruct (Z.eqb_spec mem 0) as [->|Hm0]; [by eexists|].
  destruct Hmem as [|Hfresh]; [done|]. destruct Rep as [l R].
  pose proof R as [V H L T DL DT N]. run.
  rewrite INIT_LIST_HEAD_eq by (rewrite lookup_insert_eq; by eexists).
  rewrite insert_insert_eq. run.
  assert (mem ∉ head :: l) as Hnot.
  { apply not_elem_of_dom in Hfresh. rewrite DL in Hfresh. set_solver. }
  destruct (list_add_spec (<[mem := LH mem mem]> (links s)) head l mem) as (h & E & L' & D').
  { by apply is_list_other. } { done. } { rewrite lookup_insert_eq. by eexists. }
  rewrite E. run. eexists. split; [done|]. exists (mem :: l). split; simpl; try done.
  - constructor; [by rewrite lookup_insert_eq, <- V|]. apply other_tasks; [set_solver|done].
  - rewrite D', dom_insert_L, DL. set_solver.
  - rewrite dom_insert_L, DT. set_solver.
  - set_solver.
Qed.

Lemma wdt_unregister_task_ok p s a :
  rep s a ->
  does (wdt_unregister_task head p)
    (fun a => (if is_reg p (regs a) then 0 else - ENXIO, awith_regs (a_unregister p (regs a)) a))
    s a.
Proof.
  intros [l R]. unfold does, wdt_unregister_task. run.
  rewrite (rep_first _ _ _ R). run. pose proof (rep_fuel _ _ _ R) as Hf.
  destruct (unregister_loop_ok l (size (links s)) [] s a p [] (regs a)) as (s' & E & R');
    [done..|]. rewrite E. run. eauto.
Qed.

Lemma wdt_serve_task_ok p s a :
  rep s a ->
  does (wdt_serve_task head p)
    (fun a => (if is_reg p (regs a) then 0 else - ENXIO,
               awith_regs (a_serve (jiffies (avars a)) p (regs a)) a)) s a.
Proof.
  intros [l R]. unfold does, wdt_serve_task. run.
  rewrite (rep_first _ _ _ R). run. pose proof (rep_fuel _ _ _ R) as Hf.
  destruct (serve_loop_ok l (size (links s)) head s (regs a) p false) as (s' & E & W);
    [apply (rep_list _ _ _ R) | apply (rep_list _ _ _ R) | apply (rep_tasks _ _ _ R) | done |].
  rewrite E. run. eexists. split; [done|]. exists l.
  rewrite <- (rep_vars _ _ _ R). by eapply rep_rewritten.
Qed.

Lemma serve_all_tasks_ok s a :
  rep s a ->
  does (serve_all_tasks head)
    (fun a => (0, awith_regs (map (served (jiffies (avars a))) (regs a)) a)) s a.
Proof.
  intros [l R]. unfold does, serve_all_tasks. run.
  rewrite (rep_first _ _ _ R). run. pose proof (rep_fuel _ _ _ R) as Hf.
  destruct (serve_all_loop_ok l (size (links s)) head s (regs a)) as (s' & E & W);
    [apply (rep_list _ _ _ R) | apply (rep_list _ _ _ R) | apply (rep_tasks _ _ _ R) | done |].
  rewrite E. run. eexists. split; [done|]. exists l.
  rewrite <- (rep_vars _ _ _ R). by eapply rep_rewritten.
Qed.

Definition a_check_tasks (a : awdt) : Z * awdt :=
  match a_check (jiffies (avars a)) (regs a) with
  | AllAlive => (0, a)
  | JiffiesOverflow => (0, awith_regs (map (served (jiffies (avars a))) (regs a)) a)
  | TimedOut => (- EFAULT, a)
  end.

Lemma check_registered_tasks_ok s a :
  rep s a -> does (check_registered_tasks head) a_check_tasks s a.
Proof.
  intros Rep. pose proof Rep as [l R]. unfold does, check_registered_tasks, a_check_tasks. run.
  rewrite (rep_first _ _ _ R). run. pose proof (rep_fuel _ _ _ R) as Hf.
  destruct (rep_list _ _ _ R) as [Hnd Hc].
  rewrite (check_loop_ok l _ head s (regs a)); [|done|apply NoDup_cons in Hnd; tauto|
    apply (rep_tasks _ _ _ R)|done].
  run. rewrite (rep_vars _ _ _ R). destruct (a_check _ _); [by eexists| |by eexists].
  destruct (serve_all_tasks_ok s a Rep) as (s' & E & R'). rewrite bind_unfold, E. by eexists.
Qed.

Lemma wdt_cleanup_tasklist_ok s a :
  rep s a -> exists s', wdt_cleanup_tasklist head s = Some (0, s') /\
    rep_at [] s' (awith_regs [] a).
Proof.
  intros [l R]. unfold wdt_cleanup_tasklist. run.
  rewrite (rep_first _ _ _ R). run. pose proof (rep_fuel _ _ _ R) as Hf.
  destruct (cleanup_loop_ok l (size (links s)) s a R Hf) as (s' & E & R').
  rewrite E. run. eauto.
Qed.

Lemma upd_run f s : upd f s = Some (tt, with_vars f s).
Proof. reflexivity. Qed.

(** Commands that only set a variable, or nothing. *)
Ltac settle := rewrite ?bind_unfold, ?upd_run; run; eexists; split; [done|]; simpl; first [done | by apply rep_upd].

Lemma softdog_ioctl_ok cmd arg u mem s a :
  rep s a -> (mem = 0 \/ links s !! mem = None) ->
  does (softdog_ioctl head cmd arg u mem) (a_ioctl cmd arg u mem) s a.
Proof.
  intros Rep Hmem. pose proof (rep_vars_eq _ _ Rep) as V. unfold does, softdog_ioctl, a_ioctl.
  destruct (negb (IOC_TYPE cmd =? WDT_IOC_MAGIC)); [settle|].
  destruct (WDT_IOCTL_MAXNR <? IOC_NR cmd); [settle|].
  destruct (cmd =? WDT_SERVE_ME).
  { destruct (truth arg); [|settle]. destruct (um_pid u) as [p|]; [|settle]. simpl.
    destruct (wdt_serve_task_ok p s a Rep) as (s' & E & R'). rewrite bind_unfold, E.
    simpl in *. destruct (is_reg p (regs a)); by eexists. }
  destruct (cmd =? WDT_REGISTER_ME).
  { destruct (truth arg); [|settle]. destruct (um_task u) as [t|]; [|settle]. simpl.
    destruct (wdt_register_task_ok mem t s a Rep Hmem) as (s' & E & R').
    rewrite bind_unfold, E. destruct (a_register mem t a) as [r a']. simpl in *.
    destruct (truth r); by eexists. }
  destruct (cmd =? WDT_REMOVE_ME).
  { destruct (truth arg); [|settle]. destruct (um_pid u) as [p|]; [|settle]. simpl.
    destruct (wdt_unregister_task_ok p s a Rep) as (s' & E & R'). rewrite bind_unfold, E.
    simpl in *. destruct (is_reg p (regs a)); by eexists. }
  destruct (cmd =? WDT_OPEN_ONLY); [settle|].
  destruct (cmd =? WDT_ALWAYS_TIME_OUT); [settle|].
  destruct (cmd =? WDT_EXCLUSIV_OPEN_ONLY); [settle|].
  destruct (cmd =? WDT_ALWAYS_OPEN); [settle|].
  destruct (cmd =? WDT_ENABLE).
  { unfold var. run. rewrite V. destruct (enabled (avars a) =? 1); simpl; [settle|].
    destruct (serve_all_tasks_ok s a Rep) as (s' & E & R'). rewrite bind_unfold, E.
    simpl in *. settle. }
  destruct (cmd =? WDT_DISABLE); [settle|].
  destruct (cmd =? WDT_GETSUPPORT); [destruct (um_writable u); settle|].
  destruct (cmd =? WDT_GET_STATUS); [destruct (um_writable u); settle|].
  destruct (cmd =? IOCTL_HARDRESET); settle.
Qed.

Lemma rep_hardware h s a : rep s a -> rep (with_hardware h s) (AWdt (avars a) (regs a) h).
Proof. intros [l [V H L T DL DT N]]. exists l. by split. Qed.

Lemma kick_run (h : hw) : is_Some h -> serve_watchdog_hw h = Some (0, kick h) /\ is_Some (kick h).
Proof. intros [g ->]. unfold kick. split; [reflexivity | by eexists]. Qed.

Lemma on_hardware_kick s a :
  rep s a -> is_Some (ahw a) ->
  exists s', on_hardware serve_watchdog_hw s = Some (0, s') /\
    rep s' (AWdt (avars a) (regs a) (kick (ahw a))) /\ vars s' = vars s.
Proof.
  intros Rep Hh. pose proof Rep as [l R]. unfold on_hardware, zoom.
  rewrite (rep_hw _ _ _ R). destruct (kick_run _ Hh) as [-> _].
  eexists. split; [done|]. split; [by apply rep_hardware | done].
Qed.

(** The body of the timer after the hardware has been triggered. *)
Lemma watch_tasks_ok s a :
  rep s a ->
  exists s', (r ← check_registered_tasks head;
              if r =? 0 then upd (set_timer_count (TIMEOUT_VALUE * HZ)) else count_down) s
             = Some (tt, s') /\
    rep s' (match a_check (jiffies (avars a)) (regs a) with
            | AllAlive => awith_vars (set_timer_count (TIMEOUT_VALUE * HZ)) a
            | JiffiesOverflow => awith_vars (set_timer_count (TIMEOUT_VALUE * HZ))
                (awith_regs (map (served (jiffies (avars a))) (regs a)) a)
            | TimedOut => awith_vars (fun c => if timer_period c <? timer_count c
                           then set_timer_count (timer_count c - timer_period c) c
                           else set_timer_count 0 c) a
            end).
Proof.
  intros Rep. destruct (check_registered_tasks_ok s a Rep) as (s' & E & R').
  rewrite bind_unfold, E. unfold a_check_tasks in *.
  destruct (a_check _ _); simpl in *; (eexists; split; [done|]); by apply rep_upd.
Qed.

Lemma rep_ticktock e s a :
  rep s a -> rep (with_vars (set_ticktock e) s) (AWdt (set_ticktock e (avars a)) (regs a) (ahw a)).
Proof. apply (rep_upd (set_ticktock e)). Qed.

Lemma watchdog_fire_ok s a :
  rep s a -> is_Some (ahw a) ->
  exists s', (del_timer;; watchdog_fire head) s = Some (tt, s') /\ rep s' (a_fire a).
Proof.
  intros Rep Hh. unfold del_timer, watchdog_fire, a_fire. rewrite bind_unfold, upd_run.
  apply (rep_upd (set_ticktock None)) in Rep. set (s0 := with_vars _ s) in *.
  set (a0 := awith_vars _ a) in *. pose proof (rep_vars_eq _ _ Rep) as V.
  unfold var. run. rewrite V. simpl.
  destruct ((timer_count (avars a) =? 0) && truth (enabled (avars a))) eqn:E0.
  { unfold kernel_restart. rewrite upd_run. run. cbn [vars with_vars]. rewrite V. simpl.
    apply andb_true_iff in E0 as [Ec ->]. apply Z.eqb_eq in Ec as ->. simpl.
    eexists. split; [done|]. by apply (rep_upd (fun c => set_restarts (S (restarts c)) c)). }
  run. rewrite V. simpl.
  destruct ((0 <? timer_count (avars a)) || negb (truth (enabled (avars a)))); [|by eexists].
  (* the hardware, unless a reset was asked for *)
  assert (exists s1, (if negb (truth (do_hard_reset (avars a)))
      then on_hardware serve_watchdog_hw;; mret () else mret ()) s0 = Some (tt, s1) /\
      rep s1 (AWdt (avars a0) (regs a) (if truth (do_hard_reset (avars a))
                                        then ahw a else kick (ahw a)))) as (s1 & E1 & R1).
  { destruct (truth (do_hard_reset (avars a))); simpl; [by eexists|].
    destruct (on_hardware_kick s0 a0 Rep Hh) as (s1 & E & R & _).
    rewrite bind_unfold, E. by eexists. }
  rewrite bind_unfold, E1. unfold mod_timer. rewrite bind_unfold, upd_run.
  apply (rep_ticktock (Some (u32 (jiffies (avars a) + timer_period (avars a))))) in R1.
  set (s2 := with_vars _ s1) in *. simpl in R1.
  destruct (negb (truth (enabled (avars a)))); [by eexists|].
  destruct (truth (timeout_open_only (avars a)) && negb (truth (device_open (avars a))));
    [by eexists|].
  destruct (watch_tasks_ok s2 _ R1) as (s' & E & R'). rewrite E. eexists. split; [done|].
  exact R'.
Qed.

(** The events a handler may be given in state [s]: [kmalloc] returns a fresh
    address or none. *)
Definition fresh_alloc (ev : event) (s : wdt) : Prop :=
  match ev with
  | EvIoctl _ _ _ mem => mem = 0 \/ links s !! mem = None
  | _ => True
  end.

Lemma handle_ok ev s a :
  rep s a -> is_Some (ahw a) -> fresh_alloc ev s ->
  does (handle head ev) (a_handle ev) s a.
Proof.
  intros Rep Hh Hf. pose proof (rep_vars_eq _ _ Rep) as V. unfold does.
  destruct ev as [| |len|p len data|cmd arg u mem| |]; cbn [handle a_handle].
  - unfold softdog_open, var. run. rewrite V.
    destruct (truth _ && truth _)%bool; settle.
  - unfold softdog_release, var. run. rewrite V. settle.
  - unfold softdog_read, var. run. destruct (len <? 4); settle.
  - unfold softdog_write. destruct p; [settle|].
    destruct (negb (len =? 4)); [settle|]. destruct data; settle.
  - by apply softdog_ioctl_ok.
  - destruct (watchdog_fire_ok s a Rep Hh) as (s' & E & R').
    exists s'. split; [|done]. rewrite bind_unfold in E. rewrite bind_unfold.
    destruct (del_timer s) as [[x s1]|]; [|done]. by rewrite bind_unfold, E.
  - settle.
Qed.

Lemma a_handle_mapped ev a : is_Some (ahw a) -> is_Some (ahw (snd (a_handle ev a))).
Proof.
  intros Hh. destruct (kick_run _ Hh) as [_ Hk].
  destruct ev as [| |len|p len data|cmd arg u mem| |]; simpl; try done.
  - by destruct (truth _ && truth _)%bool.
  - destruct p; [done|]. destruct (negb (len =? 4)); [done|]. by destruct data.
  - unfold a_ioctl, a_register. repeat (case_match; simplify_eq/=; try done).
  - unfold a_fire. by repeat (case_match; simpl; try done).
Qed.
End Refinement.
