(* ===== verification/WatchdogProps.v ===== *)
(** * Correctness of the watchdog driver

    The theorems are about the pointer-level driver of Watchdog.v; their proofs
    work on the abstract driver of WatchdogSpec.v and transfer the result. *)

From S2P Require Import Prelude Klist WdtHardware Watchdog WatchdogSpec.

(** ** Runs *)

Section Runs.
Context (head : Z).

(** [P] holds of every event and of the state it meets, along a run. *)
Fixpoint along (P : event -> wdt -> Prop) (evs : list event) (s : wdt) : Prop :=
  match evs with
  | [] => True
  | ev :: evs => P ev s /\ forall r s', handle head ev s = Some (r, s') -> along P evs s'
  end.

(** A run whose allocations are fresh is defined; an abstract invariant that
    the events of the run preserve holds at its end. *)
Lemma run_invariant (P : event -> wdt -> Prop) (I : awdt -> Prop) :
  (forall ev s a, rep head s a -> P ev s -> I a -> I (snd (a_handle ev a))) ->
  forall evs s a, rep head s a -> is_Some (ahw a) -> I a ->
  along fresh_alloc evs s -> along P evs s ->
  exists s', handle_all head evs s = Some (tt, s') /\
    rep head s' (a_run evs a) /\ I (a_run evs a).
Proof.
  intros HI evs. induction evs as [|ev evs IH]; intros s a Rep Hh Ia Hf HP; [by exists s|].
  destruct Hf as [Hf Hfs], HP as [HP HPs].
  destruct (handle_ok head ev s a Rep Hh Hf) as (s1 & E & R1).
  destruct (IH s1 (snd (a_handle ev a)) R1) as (s' & E' & R').
  { by apply a_handle_mapped. } { by eapply HI. } { by eapply Hfs. } { by eapply HPs. }
  exists s'. split; [|done]. cbn [handle_all]. by rewrite (bind_Some _ _ _ _ _ E).
Qed.

Lemma along_True evs : forall s, along (fun _ _ => True) evs s.
Proof. induction evs; simpl; auto. Qed.

(** A condition on the events alone. *)
Lemma along_Forall (P : event -> Prop) evs : forall s,
  Forall P evs -> along (fun ev _ => P ev) evs s.
Proof. induction evs as [|ev evs IH]; intros s H; inversion H; simpl; auto. Qed.

Lemma along_impl (P Q : event -> wdt -> Prop) evs : (forall ev s, P ev s -> Q ev s) ->
  forall s, along P evs s -> along Q evs s.
Proof. intros HPQ. induction evs as [|ev evs IH]; simpl; [done|]. intros s [? ?]; eauto. Qed.

(** Events that allocate nothing keep every run fresh. *)
Definition no_alloc (ev : event) : Prop :=
  match ev with EvIoctl _ _ _ mem => mem = 0 | _ => True end.

Lemma no_alloc_fresh evs s : Forall no_alloc evs -> along fresh_alloc evs s.
Proof.
  intros H. apply (along_impl (fun ev _ => no_alloc ev)); [|by apply along_Forall].
  intros [] ?; simpl; auto.
Qed.

Lemma loaded_rep j : rep head (loaded head j) (AWdt (ctl0 j) [] None).
Proof.
  exists []. split; simpl; try done.
  - split; [apply NoDup_singleton|]. split; unfold nextof, prevof; by rewrite lookup_singleton_eq.
  - rewrite dom_singleton_L. set_solver.
  - set_solver.
Qed.

Definition a_started (j : Z) (g : ccsr_gpio_t) : awdt :=
  AWdt (set_ticktock (Some (u32 (j + TRIGGER_PERIOD)))
         (set_ticktock None (set_misc_device true (set_reboot_notifier true (ctl0 j))))) []
    (match hardware_init (Some g) None with Some (_, h) => h | None => None end).

Lemma watchdog_init_ok j g :
  exists s, watchdog_init 0 0 (Some g) (loaded head j) = Some (0, s) /\
    rep head s (a_started j g).
Proof.
  eexists. split; [reflexivity|].
  pose proof (loaded_rep j) as R.
  apply (rep_upd head (set_reboot_notifier true)) in R.
  apply (rep_upd head (set_misc_device true)) in R.
  apply (rep_hardware head (match hardware_init (Some g) None with Some (_, h) => h | None => None end)) in R.
  apply (rep_upd head (set_ticktock None)) in R.
  by apply (rep_upd head (set_ticktock (Some (u32 (j + TRIGGER_PERIOD))))) in R.
Qed.

Lemma a_started_mapped j g : is_Some (ahw (a_started j g)).
Proof. by eexists. Qed.
End Runs.

(** ** The invariant *)

Definition flag (z : Z) : Prop := z = 0 \/ z = 1.

(** A task's expiry is its period after its last service. *)
Definition task_wf (t : task) : Prop :=
  is_u32 (call_period t) /\ is_u32 (last_jiffies t) /\
  expires t = u32 (call_period t + last_jiffies t).

Record wf (a : awdt) : Prop := Wf {
  wf_pids : NoDup (map pid (regs a));
  wf_tasks : Forall task_wf (regs a);
  wf_count : is_u32 (timer_count (avars a));
  wf_period : timer_period (avars a) = TRIGGER_PERIOD;
  wf_jiffies : is_u32 (jiffies (avars a));
  wf_enabled : flag (enabled (avars a));
  wf_reset : flag (do_hard_reset (avars a));
  wf_exclusiv : flag (device_exclusiv_open_only (avars a));
  wf_open_only : flag (timeout_open_only (avars a));
  wf_timer : restarts (avars a) = 0%nat -> is_Some (watchdog_ticktock (avars a))
}.

(** What a process can pass: the period is an [unsigned long]. *)
Definition event_ok (ev : event) : Prop :=
  match ev with
  | EvIoctl _ _ u _ => match um_task u with Some t => is_u32 (call_period t) | None => True end
  | _ => True
  end.

Lemma served_wf j t : is_u32 j -> task_wf t -> task_wf (served j t).
Proof. intros Hj (H1 & H2 & H3). by split. Qed.

Lemma new_task_wf j t : is_u32 j -> is_u32 (call_period t) -> task_wf (new_task j t).
Proof. intros Hj Ht. by split. Qed.

Lemma map_pid_served j l : map pid (map (served j) l) = map pid l.
Proof. induction l as [|t l IH]; simpl; [done|]. by rewrite IH. Qed.

Lemma map_pid_serve j p l : map pid (a_serve j p l) = map pid l.
Proof. induction l as [|t l IH]; simpl; [done|]. rewrite IH. by destruct (pid t =? p). Qed.

Lemma is_reg_pid p l : is_reg p l = true <-> p ∈ map pid l.
Proof.
  induction l as [|t l IH]; simpl; [set_solver|].
  rewrite orb_true_iff, elem_of_cons, IH, Z.eqb_eq. naive_solver.
Qed.

Lemma a_unregister_sub p l x : x ∈ a_unregister p l -> x ∈ l.
Proof. induction l as [|t l IH]; simpl; [done|]. destruct (pid t =? p); set_solver. Qed.

Lemma a_unregister_pids p l : NoDup (map pid l) -> NoDup (map pid (a_unregister p l)).
Proof.
  induction l as [|t l IH]; simpl; [done|]. rewrite NoDup_cons. intros [H1 H2].
  destruct (pid t =? p); [done|]. simpl. apply NoDup_cons. split; [|by apply IH].
  rewrite list_elem_of_fmap in *. intros (x & Ex & Hx). apply H1.
  exists x. split; [done|]. by eapply a_unregister_sub.
Qed.

Lemma wf_regs a l :
  wf a -> NoDup (map pid l) -> Forall task_wf l -> wf (awith_regs l a).
Proof. intros [] ? ?. by split. Qed.

Lemma wf_serve_all a : wf a -> wf (awith_regs (map (served (jiffies (avars a))) (regs a)) a).
Proof.
  intros W. apply wf_regs; [done|by rewrite map_pid_served; apply W|].
  apply Forall_fmap. eapply Forall_impl; [apply (wf_tasks _ W)|].
  intros t Ht. apply served_wf; [apply W | done].
Qed.

Lemma wf_serve_one p a : wf a -> wf (awith_regs (a_serve (jiffies (avars a)) p (regs a)) a).
Proof.
  intros W. apply wf_regs; [done|by rewrite map_pid_serve; apply W|].
  apply Forall_fmap. eapply Forall_impl; [apply (wf_tasks _ W)|].
  intros x Hx. simpl. case_match; [apply served_wf; [apply W|] |]; done.
Qed.

Lemma wf_register mem t a :
  wf a -> is_u32 (call_period t) -> wf (snd (a_register mem t a)).
Proof.
  intros W Ht. unfold a_register. destruct (is_reg _ _) eqn:E; [done|].
  case_match; [done|]. apply wf_regs; [done| |].
  - simpl. apply NoDup_cons. split; [|apply W]. rewrite <- is_reg_pid. congruence.
  - constructor; [apply new_task_wf; [apply W | done] | apply W].
Qed.

Lemma wf_unregister p a : wf a -> wf (awith_regs (a_unregister p (regs a)) a).
Proof.
  intros W. apply wf_regs; [done|by apply a_unregister_pids, W|].
  apply Forall_forall. intros x Hx. apply a_unregister_sub in Hx.
  pose proof (wf_tasks _ W) as HF. rewrite Forall_forall in HF. by apply HF.
Qed.

Lemma wf_ioctl cmd arg u mem a :
  wf a -> event_ok (EvIoctl cmd arg u mem) -> wf (snd (a_ioctl cmd arg u mem a)).
Proof.
  intros W Hok. unfold a_ioctl.
  assert (forall t, um_task u = Some t -> wf (snd (a_register mem t a))) as HR.
  { intros t Et. simpl in Hok. rewrite Et in Hok. by apply wf_register. }
  pose proof (wf_serve_all a W) as WS. clear Hok.
  repeat (case_match; simpl; try done); auto using wf_serve_one, wf_unregister;
    try (destruct W, WS; split; simpl in *; try done; unfold flag; auto; fail).
  specialize (HR _ eq_refl). by destruct (a_register _ _ _); simplify_eq/=.
Qed.

Lemma TRIGGER_PERIOD_val : TRIGGER_PERIOD = 62.
Proof. reflexivity. Qed.

Lemma wf_fire a : wf a -> wf (a_fire a).
Proof.
  intros W. pose proof (wf_serve_all a W) as WS.
  assert (is_u32 (TIMEOUT_VALUE * HZ)) as HT by (unfold is_u32, TIMEOUT_VALUE, HZ; lia).
  assert (negb ((timer_count (avars a) =? 0) && truth (enabled (avars a))) = true ->
          (0 <? timer_count (avars a)) || negb (truth (enabled (avars a))) = true) as HC.
  { pose proof (wf_count _ W) as [? _]. destruct (truth _); [|by rewrite orb_true_r].
    rewrite andb_true_r, orb_false_r, negb_true_iff, Z.eqb_neq, Z.ltb_lt. lia. }
  unfold a_fire. destruct (_ && truth (enabled _)); [by destruct W; split|].
  rewrite HC by done. clear HC.
  repeat (case_match; try done); destruct W, WS; split; simpl in *; try done;
    try (by intros; eexists); case_match; simpl; try done; try (by intros; eexists);
    zbool; unfold is_u32 in *; rewrite ?TRIGGER_PERIOD_val in *; lia.
Qed.

Lemma wf_handle ev a : wf a -> event_ok ev -> wf (snd (a_handle ev a)).
Proof.
  intros W Hok. destruct ev as [| |len|p len data|cmd arg u mem| |]; simpl.
  - case_match; [done|]. by destruct W.
  - by destruct W.
  - done.
  - repeat (case_match; try done). destruct W. split; simpl; try done. apply u32_range.
  - by apply wf_ioctl.
  - by apply wf_fire.
  - destruct W. split; simpl; try done. apply u32_range.
Qed.

Lemma wf_started j g : is_u32 j -> wf (a_started j g).
Proof. intros Hj. split; simpl; try done; unfold flag; auto using NoDup_nil_2. Qed.

(** ** Reachable states *)

Section Reachable.
Context (head : Z).

Inductive wstep : wdt -> wdt -> Prop :=
| wstep_handle ev s r s' :
    fresh_alloc ev s -> event_ok ev -> handle head ev s = Some (r, s') -> wstep s s'.

Definition reachable (s : wdt) : Prop :=
  exists j g s0, is_u32 j /\
    watchdog_init 0 0 (Some g) (loaded head j) = Some (0, s0) /\ rtc wstep s0 s.

Lemma wstep_rep s s' a :
  wstep s s' -> rep head s a -> wf a -> is_Some (ahw a) ->
  exists a', rep head s' a' /\ wf a' /\ is_Some (ahw a').
Proof.
  intros [ev s1 r s2 Hf Hok E] Rep W Hh.
  destruct (handle_ok head ev s1 a Rep Hh Hf) as (s3 & E' & R').
  rewrite E in E'. simplify_eq.
  exists (snd (a_handle ev a)). auto using wf_handle, a_handle_mapped.
Qed.

Lemma reachable_ok s :
  reachable s -> exists a, rep head s a /\ wf a /\ is_Some (ahw a).
Proof.
  intros (j & g & s0 & Hj & E0 & Hs).
  destruct (watchdog_init_ok head j g) as (s0' & E0' & R0).
  rewrite E0 in E0'. simplify_eq.
  assert (exists a, rep head s0' a /\ wf a /\ is_Some (ahw a)) as H0.
  { exists (a_started j g). split; [done|]. split; [by apply wf_started|].
    apply a_started_mapped. }
  clear E0 R0. induction Hs as [s|s s1 s2 Hst Hs IH]; [done|]. apply IH.
  destruct H0 as (a & R & W & Hh). by eapply wstep_rep.
Qed.
End Reachable.

(** ** Tasks in memory and tasks of the abstract state *)

Lemma rep_task head s a t :
  rep head s a -> (t ∈ regs a <-> exists p, tasks s !! p = Some t).
Proof.
  intros [l [V H L T DL DT N]]. split.
  - intros Ht. apply list_elem_of_lookup in Ht as [i Hi].
    destruct (Forall2_lookup_r _ _ _ _ _ T Hi) as (p & _ & Hp). eauto.
  - intros [p Hp]. assert (p ∈ l) as Hl.
    { apply elem_of_dom_2 in Hp. rewrite DT in Hp. by apply elem_of_list_to_set in Hp. }
    apply list_elem_of_lookup in Hl as [i Hi].
    destruct (Forall2_lookup_l _ _ _ _ _ T Hi) as (t' & Hi' & Hp').
    rewrite Hp in Hp'. simplify_eq. by eapply list_elem_of_lookup_2.
Qed.

(** Every task in memory satisfies [P]. *)
Definition each_task (P : task -> Prop) (s : wdt) : Prop :=
  forall p t, tasks s !! p = Some t -> P t.

Lemma each_task_regs head P s a :
  rep head s a -> (each_task P s <-> Forall P (regs a)).
Proof.
  intros Rep. rewrite Forall_forall. split.
  - intros H t Ht. apply (rep_task _ _ _ _ Rep) in Ht as [p Hp]. by eapply H.
  - intros H p t Hp. apply H, (rep_task _ _ _ _ Rep). eauto.
Qed.

Lemma a_check_alive j l : Forall (fun t => j < expires t) l -> a_check j l = AllAlive.
Proof.
  induction 1 as [|t l Ht Hl IH]; simpl; [done|].
  destruct (Z.leb_spec (expires t) j); [lia | done].
Qed.

Lemma a_check_dead j l t :
  t ∈ l -> expires t <= j -> Forall (fun u => last_jiffies u < j) l -> a_check j l = TimedOut.
Proof.
  intros Ht He. induction 1 as [|u l Hu Hl IH]; [by apply not_elem_of_nil in Ht|]. simpl.
  destruct (Z.leb_spec (expires u) j).
  - destruct (Z.leb_spec j (last_jiffies u)); [lia | done].
  - apply elem_of_cons in Ht as [->|Ht]; [lia | auto].
Qed.

Lemma a_check_sound j l :
  Forall (fun u => last_jiffies u < j) l ->
  a_check j l = AllAlive /\ Forall (fun t => j < expires t) l \/
  a_check j l = TimedOut /\ ~ Forall (fun t => j < expires t) l.
Proof.
  intros Hl. destruct (decide (Forall (fun t => j < expires t) l)) as [H|H].
  - left. auto using a_check_alive.
  - right. split; [|done]. apply not_Forall_Exists in H; [|apply _].
    apply Exists_exists in H as (t & Ht & He). apply (a_check_dead j l t); auto.
    by apply Z.nlt_ge.
Qed.

(** ** Refinement and invariant *)

(** C1: In every reachable state the driver's memory represents an abstract
    state, and every event (file operation, command, timer expiry or tick) is
    handled without undefined behaviour, with the result and the new state of
    the abstract driver. *)
Theorem handle_refines head s :
  reachable head s ->
  exists a, rep head s a /\
    forall ev, fresh_alloc ev s ->
    exists s', handle head ev s = Some (fst (a_handle ev a), s') /\
      rep head s' (snd (a_handle ev a)).
Proof.
  intros Hs. destruct (reachable_ok head s Hs) as (a & R & W & Hh).
  exists a. split; [done|]. intros ev Hf. by apply handle_ok.
Qed.

(** C4: In every reachable state the task list is a well-formed circular list
    with exactly one allocated node per registered task, no process is
    registered twice, every task's expiry is its period after its last alive
    message (modulo 2^32), the countdown is in range, and the timer is pending
    unless a reboot was ordered. *)
Theorem reachable_invariant head s :
  reachable head s ->
  exists addrs ts,
    is_list (links s) head addrs /\
    Forall2 (fun p t => tasks s !! p = Some t) addrs ts /\
    dom (links s) = {[head]} ∪ list_to_set addrs /\
    dom (tasks s) = list_to_set addrs /\
    NoDup (map pid ts) /\ Forall task_wf ts /\
    is_u32 (timer_count (vars s)) /\ timer_period (vars s) = TRIGGER_PERIOD /\
    (restarts (vars s) = 0%nat -> is_Some (watchdog_ticktock (vars s))).
Proof.
  intros Hs. destruct (reachable_ok head s Hs) as (a & [addrs R] & W & Hh).
  destruct R as [V H L T DL DT N]. exists addrs, (regs a). rewrite V. destruct W. done.
Qed.

(** ** Supervision of the tasks *)

Definition watching (c : ctl) : Prop :=
  truth (enabled c) = true /\
  truth (timeout_open_only c) && negb (truth (device_open c)) = false.

(** *** A task that hangs *)

(** [d] ticks of the clock, then the timer fires. *)
Definition beat (d : nat) : list event := replicate d EvTick ++ [EvFire].
Definition beats (ds : list nat) : list event := concat (map beat ds).

Definition hanging (a : awdt) : Prop :=
  watching (avars a) /\ timer_period (avars a) = TRIGGER_PERIOD /\ 0 <= jiffies (avars a) /\
  (exists t, t ∈ regs a /\ expires t <= jiffies (avars a)) /\
  Forall (fun u => last_jiffies u < jiffies (avars a)) (regs a).

Lemma a_run_app evs1 evs2 a : a_run (evs1 ++ evs2) a = a_run evs2 (a_run evs1 a).
Proof. apply foldl_app. Qed.

Lemma set_jiffies_same a : awith_vars (set_jiffies (jiffies (avars a))) a = a.
Proof. by destruct a as [[] ? ?]. Qed.

Lemma a_run_ticks d : forall a,
  0 <= jiffies (avars a) -> jiffies (avars a) + Z.of_nat d < 2 ^ 32 ->
  a_run (replicate d EvTick) a = awith_vars (set_jiffies (jiffies (avars a) + Z.of_nat d)) a.
Proof.
  induction d as [|d IH]; intros a H0 H.
  - cbn [replicate a_run foldl]. rewrite Z.add_0_r. symmetry. apply set_jiffies_same.
  - cbn [replicate]. change (a_run (EvTick :: replicate d EvTick) a)
      with (a_run (replicate d EvTick) (awith_vars (fun c => set_jiffies (u32 (jiffies c + 1)) c) a)).
    rewrite IH; cbn [awith_vars avars jiffies set_jiffies]; rewrite u32_small by lia; [|lia|lia].
    unfold awith_vars. cbn. f_equal. unfold set_jiffies. cbn. f_equal. lia.
Qed.

Lemma hanging_later a j : hanging a -> jiffies (avars a) <= j ->
  hanging (awith_vars (set_jiffies j) a).
Proof.
  intros (Hw & Hp & Hj & (t & Ht & He) & Hl) Hle.
  split; [done|]. split; [done|]. split; [simpl; lia|]. split.
  - exists t. simpl. split; [done|lia].
  - eapply Forall_impl; [exact Hl|]. simpl. lia.
Qed.

Lemma hanging_check a : hanging a -> a_check (jiffies (avars a)) (regs a) = TimedOut.
Proof. intros (_ & _ & _ & (t & Ht & He) & Hl). by apply a_check_dead with t. Qed.

Lemma hanging_fire a : hanging a -> 0 < timer_count (avars a) ->
  hanging (a_fire a) /\ restarts (avars (a_fire a)) = restarts (avars a) /\
  jiffies (avars (a_fire a)) = jiffies (avars a) /\
  timer_count (avars (a_fire a)) = Z.max 0 (timer_count (avars a) - 62).
Proof.
  intros H Hc. pose proof (hanging_check a H) as HC. pose proof H as ([He Ho] & Hp & Hj & Ht & Hl).
  unfold a_fire. rewrite (proj2 (Z.eqb_neq (timer_count (avars a)) 0)) by lia.
  rewrite (proj2 (Z.ltb_lt 0 (timer_count (avars a)))) by lia. rewrite He, Ho, HC. unfold awith_vars; simpl.
  rewrite Hp, TRIGGER_PERIOD_val.
  destruct (Z.ltb_spec 62 (timer_count (avars a))); (split; [exact H|]); simpl; repeat split; lia.
Qed.

Lemma hanging_beat d a : hanging a -> jiffies (avars a) + Z.of_nat d < 2 ^ 32 ->
  exists a1, a_run (beat d) a = a_fire a1 /\ hanging a1 /\
    avars a1 = set_jiffies (jiffies (avars a) + Z.of_nat d) (avars a).
Proof.
  intros H Hd. eexists. split.
  - unfold beat. rewrite a_run_app, a_run_ticks by (try lia; apply H). reflexivity.
  - split; [|done]. apply hanging_later; [done|lia].
Qed.

Lemma hanging_beats ds : forall a,
  hanging a -> 62 * (Z.of_nat (length ds) - 1) < timer_count (avars a) ->
  jiffies (avars a) + Z.of_nat (sum_list ds) < 2 ^ 32 ->
  hanging (a_run (beats ds) a) /\
  restarts (avars (a_run (beats ds) a)) = restarts (avars a) /\
  jiffies (avars (a_run (beats ds) a)) = jiffies (avars a) + Z.of_nat (sum_list ds) /\
  timer_count (avars (a_run (beats ds) a)) =
    (if ds is [] then timer_count (avars a)
     else Z.max 0 (timer_count (avars a) - 62 * Z.of_nat (length ds))).
Proof.
  induction ds as [|d ds IH]; intros a H Hc Hj; [simpl; split; [done|]; repeat split; lia|].
  change (beats (d :: ds)) with (beat d ++ beats ds). rewrite a_run_app. simpl in Hc, Hj.
  destruct (hanging_beat d a H ltac:(lia)) as (a1 & -> & H1 & V1).
  destruct (hanging_fire a1 H1) as (H2 & Hr & Hj2 & Hc2); [rewrite V1; simpl; lia|].
  rewrite V1 in Hr, Hj2, Hc2. simpl in Hr, Hj2, Hc2.
  destruct (IH (a_fire a1) H2) as (H3 & Hr3 & Hj3 & Hc3); [lia|lia|].
  split; [done|]. rewrite Hr3, Hj3, Hc3, Hr, Hj2, Hc2. simpl. repeat split; [lia|].
  destruct ds; simpl in *; lia.
Qed.

Lemma hanging_expired d a : hanging a -> jiffies (avars a) + Z.of_nat d < 2 ^ 32 ->
  timer_count (avars a) = 0 ->
  restarts (avars (a_run (beat d) a)) = S (restarts (avars a)).
Proof.
  intros H Hd Hc. destruct (hanging_beat d a H Hd) as (a1 & -> & ([He _] & _) & V1).
  unfold a_fire. rewrite V1 in *. simpl in *. rewrite Hc, He. simpl. by rewrite V1.
Qed.

Lemma beats_no_alloc ds : Forall no_alloc (beats ds).
Proof.
  induction ds as [|d ds IH]; [constructor|]. change (beats (d :: ds)) with (beat d ++ beats ds).
  apply Forall_app; split; [|done]. unfold beat. apply Forall_app; split; [|by constructor].
  apply Forall_replicate. exact I.
Qed.

Lemma run_beats head ds s a : rep head s a -> is_Some (ahw a) ->
  exists s', handle_all head (beats ds) s = Some (tt, s') /\ rep head s' (a_run (beats ds) a) /\
    is_Some (ahw (a_run (beats ds) a)).
Proof.
  intros R Hh. apply (run_invariant head (fun _ _ => True) (fun a => is_Some (ahw a)));
    auto using along_True, no_alloc_fresh, beats_no_alloc.
  intros ev s1 a1 _ _ H1. by apply a_handle_mapped.
Qed.

Lemma hanging_start head s p t :
  reachable head s -> watching (vars s) -> tasks s !! p = Some t -> expires t <= jiffies (vars s) ->
  each_task (fun u => last_jiffies u < jiffies (vars s)) s ->
  exists a, rep head s a /\ is_Some (ahw a) /\ hanging a.
Proof.
  intros Hs Hw Hp He Hl. destruct (reachable_ok head s Hs) as (a & R & W & Hh). exists a.
  pose proof (rep_vars_eq _ _ _ R) as V. rewrite V in *. do 2 (split; [done|]).
  split; [done|]. split; [apply W|]. split; [apply W|].
  split; [|by apply (each_task_regs _ _ _ _ R) in Hl].
  exists t. split; [|done]. apply (rep_task _ _ _ _ R). eauto.
Qed.

Lemma hanging_reboots head s a ds d : rep head s a -> is_Some (ahw a) -> hanging a ->
  timer_count (vars s) = TIMEOUT_VALUE * HZ -> length ds = 81%nat ->
  jiffies (vars s) + Z.of_nat (sum_list ds) + Z.of_nat d < 2 ^ 32 ->
  exists s1 s2,
    handle_all head (beats ds) s = Some (tt, s1) /\
    timer_count (vars s1) = 0 /\ restarts (vars s1) = restarts (vars s) /\
    handle_all head (beats [d]) s1 = Some (tt, s2) /\
    restarts (vars s2) = S (restarts (vars s)).
Proof.
  intros R Hh Ha Hc Hds Hj. rewrite (rep_vars_eq _ _ _ R) in *.
  destruct (run_beats head ds s a R Hh) as (s1 & E1 & R1 & Hh1).
  destruct (run_beats head [d] s1 _ R1 Hh1) as (s2 & E2 & R2 & _).
  unfold TIMEOUT_VALUE, HZ in Hc.
  destruct (hanging_beats ds a Ha) as (H1 & Hr1 & Hj1 & Hc1); [lia|lia|].
  assert (timer_count (avars (a_run (beats ds) a)) = 0) as Hz.
  { rewrite Hc1. destruct ds; simpl in *; lia. }
  exists s1, s2. rewrite (rep_vars_eq _ _ _ R1), (rep_vars_eq _ _ _ R2), <- Hr1.
  repeat (split; [done|]). change (beats [d]) with (beat d ++ []). rewrite app_nil_r.
  apply hanging_expired; [done|lia|done].
Qed.

(** C2: A task that misses its expiry is detected: while the driver is
    watching, 81 expiries of the timer count the full countdown of 20 s down to
    zero without a reboot and the 82nd orders exactly one, however the clock
    advances between them (short of wrapping around). *)
Theorem hanging_task_reboots head s p t ds d :
  reachable head s -> watching (vars s) ->
  timer_count (vars s) = TIMEOUT_VALUE * HZ ->
  tasks s !! p = Some t -> expires t <= jiffies (vars s) ->
  each_task (fun u => last_jiffies u < jiffies (vars s)) s ->
  length ds = 81%nat ->
  jiffies (vars s) + Z.of_nat (sum_list ds) + Z.of_nat d < 2 ^ 32 ->
  exists s1 s2,
    handle_all head (beats ds) s = Some (tt, s1) /\
    timer_count (vars s1) = 0 /\ restarts (vars s1) = restarts (vars s) /\
    handle_all head (beats [d]) s1 = Some (tt, s2) /\
    restarts (vars s2) = S (restarts (vars s)).
Proof.
  intros Hs Hw Hc Hp He Hl Hds Hj. destruct (hanging_start head s p t Hs Hw Hp He Hl) as (a & R & Hh & Ha).
  by apply (hanging_reboots head s a ds d).
Qed.

(** ** Modes *)

Definition not_enable (ev : event) : Prop :=
  match ev with EvIoctl cmd _ _ _ => cmd <> WDT_ENABLE | _ => True end.

Definition disabled (n : nat) (a : awdt) : Prop :=
  restarts (avars a) = n /\ enabled (avars a) = 0.

Lemma disabled_handle n ev a :
  not_enable ev -> disabled n a -> disabled n (snd (a_handle ev a)).
Proof.
  intros Hev [Hn He]. destruct ev as [| |len|p len data|cmd arg u mem| |]; simpl in *; try done.
  - by case_match.
  - by repeat (case_match; try done).
  - unfold a_ioctl, a_register. rewrite (proj2 (Z.eqb_neq cmd WDT_ENABLE)) by done.
    repeat (case_match; simplify_eq/=; try done).
  - unfold a_fire. rewrite He. change (truth 0) with false. by rewrite andb_false_r, orb_true_r.
Qed.

(** While the watchdog is disabled it never reboots the board, whatever the
    state of the tasks and of the countdown, until a WDT_ENABLE command. *)
Theorem disabled_no_restart head evs s :
  reachable head s -> enabled (vars s) = 0 ->
  along head fresh_alloc evs s -> Forall not_enable evs ->
  exists s', handle_all head evs s = Some (tt, s') /\
    restarts (vars s') = restarts (vars s) /\ enabled (vars s') = 0.
Proof.
  intros Hs He Hf HN. destruct (reachable_ok head s Hs) as (a & R & W & Hh).
  destruct (run_invariant head (fun ev _ => not_enable ev) (disabled (restarts (vars s))))
    with (evs := evs) (s := s) (a := a) as (s' & E & R' & H); auto using along_Forall.
  - intros. by apply disabled_handle.
  - by rewrite (rep_vars_eq _ _ _ R) in *.
  - exists s'. by rewrite (rep_vars_eq _ _ _ R').
Qed.

Definition resetting (h : hw) (a : awdt) : Prop := do_hard_reset (avars a) = 1 /\ ahw a = h.

Lemma resetting_handle h ev a : resetting h a -> resetting h (snd (a_handle ev a)).
Proof.
  intros [Hr Hh]. destruct ev as [| |len|p len data|cmd arg u mem| |]; simpl; try done.
  - by case_match.
  - by repeat (case_match; try done).
  - unfold a_ioctl, a_register. repeat (case_match; simplify_eq/=; try done).
  - unfold a_fire. rewrite Hr. repeat (case_match; try done).
    split; simpl; [by case_match | done].
Qed.

(** IOCTL_HARDRESET is final: after it no event triggers the external
    watchdog chip again, so that its timeout resets the board. *)
Theorem hard_reset_stops_trigger head arg u evs s :
  reachable head s ->
  along head fresh_alloc (EvIoctl IOCTL_HARDRESET arg u 0 :: evs) s ->
  exists s', handle_all head (EvIoctl IOCTL_HARDRESET arg u 0 :: evs) s = Some (tt, s') /\
    hardware s' = hardware s /\ do_hard_reset (vars s') = 1.
Proof.
  intros Hs [_ Hf]. destruct (reachable_ok head s Hs) as (a & R & W & Hh).
  pose proof (handle_ok head (EvIoctl IOCTL_HARDRESET arg u 0) s a R Hh (or_introl eq_refl))
    as (s1 & E1 & R1).
  destruct (run_invariant head (fun _ _ => True) (resetting (hardware s)))
    with (evs := evs) (s := s1) (a := snd (a_handle (EvIoctl IOCTL_HARDRESET arg u 0) a))
    as (s' & E & R' & [Hr Hh']); eauto using along_True, a_handle_mapped.
  - intros. by apply resetting_handle.
  - split; [done|]. destruct R as [l [_ -> _ _ _ _ _]]. done.
  - exists s'. cbn [handle_all]. rewrite (bind_Some _ _ _ _ _ E1). split; [done|].
    rewrite (rep_vars_eq _ _ _ R'). by destruct R' as [l' [_ -> _ _ _ _ _]].
Qed.

(** ** Registration *)

Lemma is_reg_false head p s a :
  rep head s a -> each_task (fun t => pid t <> p) s -> is_reg p (regs a) = false.
Proof.
  intros R H. apply not_true_is_false. rewrite is_reg_pid, list_elem_of_fmap.
  apply (each_task_regs _ _ _ _ R) in H. rewrite Forall_forall in H.
  intros (t & -> & Ht). by apply (H t).
Qed.

Lemma a_serve_other j p l : is_reg p l = false -> a_serve j p l = l.
Proof.
  induction l as [|t l IH]; simpl; [done|]. rewrite orb_false_iff. intros [-> H].
  by rewrite IH.
Qed.

(** A process that registers, and is not registered yet, is accepted when
    memory is there; it cannot register twice, its alive messages are accepted
    from then on, and its removal restores the list of tasks as it was. *)
Theorem register_remove_roundtrip head s a t arg w mem :
  rep head s a ->
  each_task (fun u => pid u <> pid t) s ->
  truth arg = true -> mem <> 0 -> links s !! mem = None ->
  let u := Umem (Some (pid t)) (Some t) w in
  exists s1 s2 s3 s4,
    softdog_ioctl head WDT_REGISTER_ME arg u mem s = Some (0, s1) /\
    softdog_ioctl head WDT_REGISTER_ME arg u 0 s1 = Some (- EAGAIN, s2) /\
    softdog_ioctl head WDT_SERVE_ME arg u 0 s2 = Some (0, s3) /\
    softdog_ioctl head WDT_REMOVE_ME arg u 0 s3 = Some (0, s4) /\
    rep head s4 a.
Proof.
  intros R Ht Harg Hm Hfresh u. pose proof (is_reg_false _ _ _ _ R Ht) as Hreg.
  destruct (softdog_ioctl_ok head WDT_REGISTER_ME arg u mem s a R) as (s1 & E1 & R1); [auto|].
  destruct (softdog_ioctl_ok head WDT_REGISTER_ME arg u 0 s1 _ R1) as (s2 & E2 & R2); [auto|].
  destruct (softdog_ioctl_ok head WDT_SERVE_ME arg u 0 s2 _ R2) as (s3 & E3 & R3); [auto|].
  destruct (softdog_ioctl_ok head WDT_REMOVE_ME arg u 0 s3 _ R3) as (s4 & E4 & R4); [auto|].
  assert (snd (a_ioctl WDT_REGISTER_ME arg u mem a) =
            awith_regs (new_task (jiffies (avars a)) t :: regs a) a /\
          fst (a_ioctl WDT_REGISTER_ME arg u mem a) = 0) as [Ea1 Er1].
  { unfold a_ioctl, a_register. simpl. rewrite Harg, Hreg. simpl.
    by rewrite (proj2 (Z.eqb_neq mem 0)). }
  rewrite Er1 in E1. rewrite Ea1 in *. clear Ea1 Er1.
  pose proof (a_serve_other (jiffies (avars a)) _ _ Hreg) as Es. unfold a_serve in Es.
  clear R R1. unfold a_ioctl, a_register, a_serve in *. simpl in E2, R2, E3, R3, E4, R4.
  rewrite Harg, Z.eqb_refl in *.
  simpl in E2, R2, E3, R3, E4, R4. rewrite Z.eqb_refl, Es in *. simpl in E2, R2, E3, R3, E4, R4.
  exists s1, s2, s3, s4. rewrite Z.eqb_refl in E4, R4. repeat (split; [done|]). by destruct a.
Qed.

(** ** The check *)

(** As long as the clock is past every alive message, the check of the
    timer is exact: it returns 0 if every task's expiry lies ahead and -EFAULT
    otherwise. *)
Theorem check_registered_tasks_exact head s :
  reachable head s ->
  each_task (fun u => last_jiffies u < jiffies (vars s)) s ->
  exists r, result (check_registered_tasks head) s = Some r /\
    (r = 0 /\ each_task (fun t => jiffies (vars s) < expires t) s \/
     r = - EFAULT /\ ~ each_task (fun t => jiffies (vars s) < expires t) s).
Proof.
  intros Hs Hl. destruct (reachable_ok head s Hs) as (a & R & W & Hh).
  destruct (check_registered_tasks_ok head s a R) as (s' & E & R').
  exists (fst (a_check_tasks a)). unfold result. rewrite E. split; [done|].
  apply (each_task_regs _ _ _ _ R) in Hl. rewrite !(each_task_regs head _ s a R).
  rewrite (rep_vars_eq _ _ _ R) in *.
  unfold a_check_tasks. destruct (a_check_sound _ _ Hl) as [[-> ?]|[-> ?]]; simpl; auto.
Qed.

(** Near the wrap of the clock the check is wrong: a task whose expiry
    wraps past 2^32 is reported as hanging at every later tick before the wrap,
    although its period has not passed. *)
Theorem wrap_false_alarm head s p t :
  reachable head s ->
  tasks s !! p = Some t -> 2 ^ 32 <= call_period t + last_jiffies t ->
  each_task (fun u => last_jiffies u < jiffies (vars s)) s ->
  jiffies (vars s) < last_jiffies t + call_period t /\
  result (check_registered_tasks head) s = Some (- EFAULT).
Proof.
  intros Hs Hp Hw Hl. destruct (reachable_ok head s Hs) as (a & R & W & Hh).
  pose proof (wf_jiffies _ W) as [_ Hj]. pose proof (Hl _ _ Hp) as Ht.
  apply (each_task_regs _ _ _ _ R) in Hl. rewrite (rep_vars_eq _ _ _ R) in *.
  split; [lia|]. assert (t ∈ regs a) as Hin by (apply (rep_task _ _ _ _ R); eauto).
  pose proof (wf_tasks _ W) as HF. rewrite Forall_forall in HF.
  destruct (HF t Hin) as ([_ Hc] & [_ H2] & He). rewrite u32_once_around in He by lia.
  destruct (check_registered_tasks_ok head s a R) as (s' & E & _). unfold result. rewrite E.
  unfold a_check_tasks. rewrite (a_check_dead _ _ t); [done|done|lia|done].
Qed.

(** The run of a live task: it sends its alive message, a quarter of a second
    passes, the timer fires. *)
Definition alive_beat (p : Z) : list event :=
  EvIoctl WDT_SERVE_ME 1 (Umem (Some p) None true) 0 :: beat 62.

(** The false alarm reboots the board: a process with a period of 30 s that
    registers 28 s before the clock wraps and then reports four times a second
    is taken for hanging at every expiry of the timer, and the 82nd orders a
    reboot, before the wrap. *)
Theorem live_task_rebooted :
  let head := 4096 in
  let t := Task 7 (30 * HZ) 0 0 [] in
  let run :=
    watchdog_init 0 0 (Some (Gpio 0 0 0 0 0 0 []));;
    handle_all head
      (EvIoctl WDT_REGISTER_ME 1 (Umem None (Some t) true) 8192 ::
       concat (replicate 82 (alive_beat 7))) in
  (fun s => (restarts (vars s), jiffies (vars s), tasks s !! 8192)) <$>
    exec run (loaded head (2 ^ 32 - 28 * HZ)) =
  Some (1%nat, 2 ^ 32 - 28 * HZ + 82 * 62,
        Some (served (2 ^ 32 - 28 * HZ + 81 * 62) t)).
Proof. vm_compute. reflexivity. Qed.

(** ** Interfaces to processes *)

(** A count written to the device is a number of jiffies but is read back
    in seconds: what is read is the count written divided by 250. *)
Theorem write_read_units n s :
  is_u32 n ->
  exists s', softdog_write false 4 (inl n) s = Some (4, s') /\
    softdog_read 4 s' = Some ((4, Some (n / HZ)), s').
Proof.
  intros Hn. eexists. split; [reflexivity|]. unfold softdog_read, var. run. simpl.
  assert (is_u32 (n / HZ)) as Hd.
  { unfold is_u32, HZ in *. split; [apply Z.div_pos; lia|]. apply Z.div_lt_upper_bound; lia. }
  by rewrite (u32_small n), (u32_small (n / HZ)).
Qed.

(** A command whose magic number or number is not the driver's is refused
    with -ENOTTY, and an address that does not belong to the process gives
    -EFAULT; both change nothing. *)
Theorem ioctl_rejects head cmd arg u mem s :
  IOC_TYPE cmd <> WDT_IOC_MAGIC \/ WDT_IOCTL_MAXNR < IOC_NR cmd ->
  softdog_ioctl head cmd arg u mem s = Some (- ENOTTY, s) /\
  forall w, truth arg = true ->
    softdog_ioctl head WDT_SERVE_ME arg (Umem None None w) mem s = Some (- EFAULT, s) /\
    softdog_ioctl head WDT_REGISTER_ME arg (Umem None None w) mem s = Some (- EFAULT, s) /\
    softdog_ioctl head WDT_REMOVE_ME arg (Umem None None w) mem s = Some (- EFAULT, s).
Proof.
  intros H. split.
  - unfold softdog_ioctl. destruct (Z.eqb_spec (IOC_TYPE cmd) WDT_IOC_MAGIC); [|done].
    destruct H as [H|H]; [done|]. by rewrite (proj2 (Z.ltb_lt _ _) H).
  - intros w Ha. unfold softdog_ioctl. simpl. by rewrite Ha.
Qed.

(** ** Load and unload *)

(** Unloading gives back everything: no task node stays allocated, the
    list head is empty, the timer is stopped, and the device and the reboot
    notifier are deregistered; the chip is switched to its long timeout and
    triggered once more. *)
Theorem watchdog_cleanup_releases head s :
  reachable head s ->
  exists s' g, watchdog_cleanup head s = Some (tt, s') /\
    tasks s' = ∅ /\ links s' = {[head := LH head head]} /\
    watchdog_ticktock (vars s') = None /\
    misc_device (vars s') = false /\ reboot_notifier (vars s') = false /\
    hardware s' = Some g /\ pin WDT_PIN (gpdat g) = true.
Proof.
  intros Hs. destruct (reachable_ok head s Hs) as (a & R & W & [g0 Hh]).
  destruct (wdt_cleanup_tasklist_ok head s a R) as (s1 & E1 & R1).
  destruct R1 as [V H L T DL DT N]. simpl in *.
  unfold watchdog_cleanup. rewrite (bind_Some _ _ _ _ _ E1).
  assert (hardware s1 = Some g0) as Hg by congruence.
  unfold del_timer, upd, wdt_proc_cleanup, on_hardware, zoom. run. cbn [hardware with_vars].
  rewrite Hg. eexists _, _. split; [reflexivity|]. simpl.
  split; [by apply dom_empty_inv_L|].
  split.
  { apply map_eq. intros i. destruct (decide (i = head)) as [->|Hne].
    - rewrite lookup_singleton_eq. destruct L as [_ [Hn Hp]]. unfold nextof, prevof in *.
      destruct (links s1 !! head) as [[n p]|]; simpl in *; by simplify_eq.
    - rewrite lookup_singleton_ne by done. apply not_elem_of_dom. rewrite DL. set_solver. }
  repeat (split; [done|]).
  by apply pin_set.
Qed.

(** A failed load leaves nothing behind: when the reboot notifier or the
    device cannot be registered, the load returns that error and the state is
    as before; otherwise it succeeds, everything is registered and the timer is
    armed for the next quarter of a second. *)
Theorem watchdog_init_unwinds head j g notifier_ret misc_ret :
  (notifier_ret <> 0 ->
     watchdog_init notifier_ret misc_ret (Some g) (loaded head j) =
       Some (notifier_ret, loaded head j)) /\
  (misc_ret <> 0 ->
     watchdog_init 0 misc_ret (Some g) (loaded head j) = Some (misc_ret, loaded head j)) /\
  exists s, watchdog_init 0 0 (Some g) (loaded head j) = Some (0, s) /\
    reboot_notifier (vars s) = true /\ misc_device (vars s) = true /\
    watchdog_ticktock (vars s) = Some (u32 (j + HZ / 4)) /\ is_Some (hardware s).
Proof.
  unfold watchdog_init, truth. split; [|split].
  - intros H. by rewrite (proj2 (Z.eqb_neq _ _) H).
  - intros H. by rewrite (proj2 (Z.eqb_neq _ _) H).
  - eexists. split; [reflexivity|]. by repeat split.
Qed.

(** ** Witnesses *)

Lemma reachable_run head j g s0 evs s :
  is_u32 j -> watchdog_init 0 0 (Some g) (loaded head j) = Some (0, s0) ->
  along head fresh_alloc evs s0 -> Forall event_ok evs ->
  handle_all head evs s0 = Some (tt, s) -> reachable head s.
Proof.
  intros Hj E0 Hf Hok E. exists j, g, s0. split; [done|]. split; [done|]. clear E0.
  revert s0 Hf E. induction Hok as [|ev evs Hev Hok IH]; intros s0 Hf E.
  - cbn [handle_all] in E. rewrite ret_unfold in E. by simplify_eq.
  - destruct Hf as [Hf Hfs]. cbn [handle_all] in E.
    apply bind_inv in E as (r & s1 & E1 & E2).
    eapply rtc_l; [by econstructor|]. by apply IH; [eapply Hfs|].
Qed.

Definition ex_gpio : ccsr_gpio_t := Gpio 0 0 0 0 0 0 [].
Definition ex_register (period : Z) : event :=
  EvIoctl WDT_REGISTER_ME 1 (Umem None (Some (Task 7 period 0 0 [])) true) 8192.

(** The driver, loaded at clock value [j], with one task of period [period]
    registered one tick ago. *)
Definition ex_state (j period : Z) : wdt :=
  match exec (watchdog_init 0 0 (Some ex_gpio);; handle_all 4096 [ex_register period; EvTick])
          (loaded 4096 j) with
  | Some s => s
  | None => loaded 4096 j
  end.

Lemma ex_reachable j period :
  is_u32 j -> is_u32 period -> reachable 4096 (ex_state j period).
Proof.
  intros Hj Hp. destruct (watchdog_init_ok 4096 j ex_gpio) as (s0 & E0 & R0).
  assert (along 4096 fresh_alloc [ex_register period; EvTick] s0) as Hf.
  { split; [right|by split]. destruct R0 as [l [_ _ _ T DL _ _]].
    apply Forall2_nil_inv_r in T as ->. apply not_elem_of_dom. rewrite DL. set_solver. }
  destruct (run_invariant 4096 (fun _ _ => True) (fun _ => True))
    with (evs := [ex_register period; EvTick]) (s := s0) (a := a_started j ex_gpio)
    as (s & E & _); auto using along_True, a_started_mapped.
  replace (ex_state j period) with s.
  - apply reachable_run with j ex_gpio s0 [ex_register period; EvTick]; auto.
    apply Forall_cons; split; [exact Hp|]. by apply Forall_cons.
  - unfold ex_state, exec. by rewrite bind_unfold, E0, E.
Qed.

Lemma each_task_singleton P s p t : tasks s = {[p := t]} -> P t -> each_task P s.
Proof. intros E H q u Hq. rewrite E in Hq. apply lookup_singleton_Some in Hq as [_ <-]. done. Qed.

Ltac ex_reach := apply ex_reachable; unfold is_u32; lia.
Ltac ex_tasks t :=
  apply (each_task_singleton _ _ 8192 t); [vm_compute; reflexivity | vm_compute; done].

Lemma handle_refines_witness :
  reachable 4096 (ex_state 1000 5) /\
  exists a, rep 4096 (ex_state 1000 5) a /\
    forall ev, fresh_alloc ev (ex_state 1000 5) ->
    exists s', handle 4096 ev (ex_state 1000 5) = Some (fst (a_handle ev a), s') /\
      rep 4096 s' (snd (a_handle ev a)).
Proof.
  assert (reachable 4096 (ex_state 1000 5)) as H by ex_reach.
  split; [exact H|]. exact (handle_refines 4096 (ex_state 1000 5) H).
Defined.

Lemma reachable_invariant_witness :
  reachable 4096 (ex_state 1000 5) /\ is_u32 (timer_count (vars (ex_state 1000 5))).
Proof.
  assert (reachable 4096 (ex_state 1000 5)) as H by ex_reach.
  split; [exact H|].
  destruct (reachable_invariant 4096 (ex_state 1000 5) H) as (? & ? & ? & ? & ? & ? & ? & ? & Hc & _).
  exact Hc.
Defined.

Lemma hanging_task_reboots_witness :
  exists s1 s2,
    handle_all 4096 (beats (replicate 81 62%nat)) (ex_state 1000 1) = Some (tt, s1) /\
    timer_count (vars s1) = 0 /\ restarts (vars s1) = 0%nat /\
    handle_all 4096 (beats [62%nat]) s1 = Some (tt, s2) /\ restarts (vars s2) = 1%nat.
Proof.
  refine (hanging_task_reboots 4096 (ex_state 1000 1) 8192 (Task 7 1 1001 1000 [])
            (replicate 81 62%nat) 62 _ _ _ _ _ _ _ _).
  - ex_reach.
  - by vm_compute.
  - by vm_compute.
  - by vm_compute.
  - by vm_compute.
  - ex_tasks (Task 7 1 1001 1000 []).
  - done.
  - by vm_compute.
Defined.

Lemma disabled_no_restart_witness :
  exists s', handle_all 4096 [EvFire; EvWrite false 4 (inl 0); EvFire]
      (match exec (handle 4096 (EvIoctl WDT_DISABLE 0 (Umem None None true) 0)) (ex_state 1000 1)
       with Some s => s | None => ex_state 1000 1 end) = Some (tt, s') /\
    restarts (vars s') = 0%nat /\ enabled (vars s') = 0.
Proof.
  refine (disabled_no_restart 4096 [EvFire; EvWrite false 4 (inl 0); EvFire] _ _ _ _ _).
  - pose proof (ex_reachable 1000 1 ltac:(unfold is_u32; lia) ltac:(unfold is_u32; lia))
      as (j & g & s0 & Hj & E & Hr).
    exists j, g, s0. split; [exact Hj|]. split; [exact E|]. eapply rtc_r; [exact Hr|].
    eapply (wstep_handle 4096 (EvIoctl WDT_DISABLE 0 (Umem None None true) 0));
      [left; reflexivity | exact I | reflexivity].
  - reflexivity.
  - by apply no_alloc_fresh; repeat constructor.
  - by repeat constructor.
Defined.

Lemma hard_reset_stops_trigger_witness :
  exists s', handle_all 4096 [EvIoctl IOCTL_HARDRESET 0 (Umem None None true) 0; EvFire; EvFire]
      (ex_state 1000 5) = Some (tt, s') /\
    hardware s' = hardware (ex_state 1000 5) /\ do_hard_reset (vars s') = 1.
Proof.
  refine (hard_reset_stops_trigger 4096 0 (Umem None None true) [EvFire; EvFire] (ex_state 1000 5) _ _).
  - ex_reach.
  - by apply no_alloc_fresh; repeat constructor.
Defined.

Lemma register_remove_roundtrip_witness :
  exists a, rep 4096 (loaded 4096 1000) a /\
  exists s1 s2 s3 s4,
    softdog_ioctl 4096 WDT_REGISTER_ME 1 (Umem (Some 7) (Some (Task 7 5 0 0 [])) true) 8192
      (loaded 4096 1000) = Some (0, s1) /\
    softdog_ioctl 4096 WDT_REGISTER_ME 1 (Umem (Some 7) (Some (Task 7 5 0 0 [])) true) 0 s1 =
      Some (- EAGAIN, s2) /\
    softdog_ioctl 4096 WDT_SERVE_ME 1 (Umem (Some 7) (Some (Task 7 5 0 0 [])) true) 0 s2 =
      Some (0, s3) /\
    softdog_ioctl 4096 WDT_REMOVE_ME 1 (Umem (Some 7) (Some (Task 7 5 0 0 [])) true) 0 s3 =
      Some (0, s4) /\
    rep 4096 s4 a.
Proof.
  exists (AWdt (ctl0 1000) [] None). split; [apply loaded_rep|].
  refine (register_remove_roundtrip 4096 (loaded 4096 1000) (AWdt (ctl0 1000) [] None)
            (Task 7 5 0 0 []) 1 true 8192 _ _ _ _ _).
  - apply loaded_rep.
  - intros q u Hq. cbn in Hq; rewrite lookup_empty in Hq. discriminate.
  - reflexivity.
  - lia.
  - reflexivity.
Defined.

Lemma check_registered_tasks_exact_witness :
  exists r, result (check_registered_tasks 4096) (ex_state 1000 5) = Some r /\
    (r = 0 /\ each_task (fun t => jiffies (vars (ex_state 1000 5)) < expires t) (ex_state 1000 5) \/
     r = - EFAULT /\
     ~ each_task (fun t => jiffies (vars (ex_state 1000 5)) < expires t) (ex_state 1000 5)).
Proof.
  refine (check_registered_tasks_exact 4096 (ex_state 1000 5) _ _).
  - ex_reach.
  - ex_tasks (Task 7 5 1005 1000 []).
Defined.

Lemma wrap_false_alarm_witness :
  4294967201 < 4294967200 + 100 /\
  result (check_registered_tasks 4096) (ex_state 4294967200 100) = Some (- EFAULT).
Proof.
  refine (wrap_false_alarm 4096 (ex_state 4294967200 100) 8192 (Task 7 100 4 4294967200 []) _ _ _ _).
  - ex_reach.
  - by vm_compute.
  - by vm_compute.
  - ex_tasks (Task 7 100 4 4294967200 []).
Defined.

Lemma write_read_units_witness :
  exists s', softdog_write false 4 (inl 20) (loaded 4096 0) = Some (4, s') /\
    softdog_read 4 s' = Some ((4, Some 0), s').
Proof. refine (write_read_units 20 (loaded 4096 0) _). unfold is_u32. lia. Defined.

Lemma ioctl_rejects_witness :
  softdog_ioctl 4096 0x1234 0 (Umem None None true) 0 (loaded 4096 0) =
    Some (- ENOTTY, loaded 4096 0).
Proof.
  refine (proj1 (ioctl_rejects 4096 0x1234 0 (Umem None None true) 0 (loaded 4096 0) _)).
  left. vm_compute. discriminate.
Defined.

Lemma watchdog_cleanup_releases_witness :
  exists s' g, watchdog_cleanup 4096 (ex_state 1000 5) = Some (tt, s') /\
    tasks s' = ∅ /\ links s' = {[4096 := LH 4096 4096]} /\
    watchdog_ticktock (vars s') = None /\
    misc_device (vars s') = false /\ reboot_notifier (vars s') = false /\
    hardware s' = Some g /\ pin WDT_PIN (gpdat g) = true.
Proof. refine (watchdog_cleanup_releases 4096 (ex_state 1000 5) _). ex_reach. Defined.
