(* ===== verification/WdtAlive.v ===== *)
(** * Live tasks are not rebooted

    The promise of a supervised process is stated on what it does, not on the
    driver's fields: an observer counts the ticks since each process last reported
    and since the driver last checked. If no process is ever silent for its period,
    the board is not rebooted, also while the clock wraps around, where the driver
    takes live processes for hanging until the wrap is over. *)

From S2P Require Import Prelude WdtHardware Watchdog WatchdogSpec WatchdogProps.

(** ** The observer *)

(** A process that was told it is registered: its period, and the ticks since its
    registration or its last alive message that was answered with 0. *)
Record client := Client { client_pid : Z; client_period : Z; age : Z }.

(** [since] counts the ticks since the timer last fired while the driver watched. *)
Record observer := Observer { clients : list client; since : Z }.

Definition older (c : client) : client := Client (client_pid c) (client_period c) (age c + 1).
Definition renew (p : Z) (c : client) : client :=
  if client_pid c =? p then Client (client_pid c) (client_period c) 0 else c.

Definition watches (c : ctl) : bool :=
  truth (enabled c) && negb (truth (timeout_open_only c) && negb (truth (device_open c))).

(** What an event with result [r] tells the observer. *)
Definition observe (ev : event) (r : Z) (s : wdt) (o : observer) : observer :=
  match ev with
  | EvTick => Observer (map older (clients o)) (since o + 1)
  | EvFire => Observer (clients o) (if watches (vars s) then 0 else since o)
  | EvIoctl cmd arg u _ =>
      if negb (truth arg && (r =? 0)) then o
      else if cmd =? WDT_REGISTER_ME then
        match um_task u with
        | Some t => Observer (Client (pid t) (call_period t) 0 :: clients o) (since o)
        | None => o
        end
      else
        match um_pid u with
        | Some p =>
            if cmd =? WDT_SERVE_ME then Observer (map (renew p) (clients o)) (since o)
            else if cmd =? WDT_REMOVE_ME
            then Observer (filter (fun c => client_pid c <> p) (clients o)) (since o)
            else o
        | None => o
        end
  | _ => o
  end.

(** False alarms last for one period before the wrap, and 81 of them are needed. *)
Definition SAFE_PERIOD : Z := 80 * TRIGGER_PERIOD.

(** When the driver checks, no process has been silent for its period; a process
    with a period over [SAFE_PERIOD] is not near the wrap of the clock. The
    driver checks every [TRIGGER_PERIOD] ticks at most, and at least once in
    2^31 ticks. Nobody shortens the countdown. *)
Definition reported (now : Z) (c : client) : bool :=
  (age c <? client_period c) &&
  ((client_period c <=? SAFE_PERIOD) || (now + client_period c <? 2 ^ 32)).

Definition lively (ev : event) (s : wdt) (o : observer) : bool :=
  match ev with
  | EvFire =>
      negb (watches (vars s)) ||
      ((TRIGGER_PERIOD <=? since o) && (since o <=? 2 ^ 31) &&
       forallb (reported (jiffies (vars s))) (clients o))
  | EvWrite _ _ (inl n) => TIMEOUT_VALUE * HZ <=? u32 n
  | _ => true
  end.

Section Alive.
Context (head : Z).

Fixpoint promised (evs : list event) (s : wdt) (o : observer) : bool :=
  match evs with
  | [] => true
  | ev :: evs' =>
      lively ev s o &&
      match handle head ev s with
      | Some (r, s') => promised evs' s' (observe ev r s o)
      | None => true
      end
  end.

(** ** The observer knows the driver *)

(** The driver has heard of the task [n] ticks ago, and the observer not later. *)
Definition known (j : Z) (o : observer) (t : task) : Prop :=
  exists c n, c ∈ clients o /\ client_pid c = pid t /\ client_period c = call_period t /\
    0 <= n <= age c /\ last_jiffies t = u32 (j - n) /\ expires t = u32 (j - n + call_period t).

(** A process that has an entry has one that is renewed with it. *)
Lemma known_served j o t : (exists c, c ∈ clients o /\ client_pid c = pid t /\
    client_period c = call_period t /\ 0 <= age c) -> known (u32 j) o (served (u32 j) t).
Proof.
  intros (c & Hc & Hp & Hd & Ha). exists c, 0. cbn. split_and!; try done; try lia.
  - rewrite Z.sub_0_r. unfold u32. by rewrite Zmod_mod.
  - f_equal. lia.
Qed.

Lemma u32_back j n : u32 (u32 (j + 1) - (n + 1)) = u32 (j - n).
Proof. unfold u32. rewrite Zminus_mod_idemp_l. f_equal. lia. Qed.

Lemma known_tick j o t : known j o t -> known (u32 (j + 1)) (Observer (map older (clients o)) (since o + 1)) t.
Proof.
  intros (c & n & Hc & Hp & Hd & Hn & Hl & He). exists (older c), (n + 1). cbn.
  split_and!; try done; try lia.
  - by apply list_elem_of_fmap_2.
  - by rewrite u32_back.
  - rewrite He. unfold u32. rewrite <- Zplus_mod_idemp_l. fold (u32 (j - n)). rewrite <- u32_back. unfold u32.
    by rewrite Zplus_mod_idemp_l.
Qed.

Lemma known_more j o c t : known j o t -> known j (Observer (c :: clients o) (since o)) t.
Proof. intros (c' & n & Hc & H). exists c', n. split; [by right | done]. Qed.

Lemma known_since j o z t : known j o t -> known j (Observer (clients o) z) t.
Proof. done. Qed.

Lemma known_entry j o t : known j o t ->
  exists c, c ∈ clients o /\ client_pid c = pid t /\ client_period c = call_period t /\ 0 <= age c.
Proof. intros (c & n & Hc & Hp & Hd & Hn & _). exists c. split_and!; [done..|lia]. Qed.

Lemma known_serve_all j o l : is_u32 j -> Forall (known j o) l -> Forall (known j o) (map (served j) l).
Proof.
  intros Hj H. apply Forall_fmap. eapply Forall_impl; [exact H|]. intros t Ht. cbn.
  rewrite <- (u32_small j Hj). by apply known_served, (known_entry j).
Qed.

Lemma known_serve j o p l : is_u32 j -> Forall (known j o) l ->
  Forall (known j (Observer (map (renew p) (clients o)) (since o))) (a_serve j p l).
Proof.
  intros Hj H. apply Forall_fmap. eapply Forall_impl; [exact H|]. intros t Ht. cbn.
  assert (Hre : forall c, c ∈ clients o -> renew p c ∈ map (renew p) (clients o))
    by (intros; by apply list_elem_of_fmap_2).
  destruct (Z.eqb_spec (pid t) p) as [<-|Hne].
  - apply known_entry in Ht as (c & Hc & Hp & Hd & Ha). rewrite <- (u32_small j Hj). apply known_served.
    assert (E : renew (pid t) c = Client (client_pid c) (client_period c) 0)
      by (unfold renew; by rewrite Hp, Z.eqb_refl).
    exists (renew (pid t) c). split_and!; [by apply Hre | by rewrite E ..].
  - destruct Ht as (c & n & Hc & Hp & Hn). exists c, n. split; [|done].
    replace c with (renew p c); [by apply Hre|]. unfold renew. rewrite Hp. by apply Z.eqb_neq in Hne as ->.
Qed.

Lemma not_served j p l : is_reg p l = false -> a_serve j p l = l.
Proof.
  induction l as [|t l IH]; cbn; [done|]. intros [-> H]%orb_false_iff. f_equal. by apply IH.
Qed.

Lemma not_unregistered p l : is_reg p l = false -> a_unregister p l = l.
Proof.
  induction l as [|t l IH]; cbn; [done|]. intros [-> H]%orb_false_iff. f_equal. by apply IH.
Qed.

Lemma unregister_other p l t : NoDup (map pid l) -> t ∈ a_unregister p l -> pid t <> p.
Proof.
  induction l as [|u l IH]; cbn; [intros _ H; by apply not_elem_of_nil in H|]. intros [Hu Hl]%NoDup_cons.
  destruct (Z.eqb_spec (pid u) p) as [<-|Hne].
  - intros Ht Hp. apply Hu. rewrite <- Hp. by apply list_elem_of_fmap_2.
  - intros [->|Ht]%elem_of_cons; auto.
Qed.

Lemma known_remove j o p l : NoDup (map pid l) -> Forall (known j o) l ->
  Forall (known j (Observer (filter (fun c => client_pid c <> p) (clients o)) (since o))) (a_unregister p l).
Proof.
  rewrite !Forall_forall. intros Hn H t Ht. pose proof (unregister_other p l t Hn Ht) as Hp.
  destruct (H t (a_unregister_sub _ _ _ Ht)) as (c & n & Hc & Hcp & Hr). exists c, n. split; [|done].
  apply list_elem_of_filter. split; [congruence | done].
Qed.

(** Tests on the numbers of commands. *)
Ltac known_command :=
  repeat match goal with
  | |- context [?a =? ?b] => first [change (a =? b) with true | change (a =? b) with false]
  | |- context [?a <? ?b] => first [change (a <? b) with true | change (a <? b) with false]
  end; cbn [negb].

(** Commands that are refused, and commands about no process. *)
Lemma observe_fails cmd arg u mem r s o : r <> 0 -> observe (EvIoctl cmd arg u mem) r s o = o.
Proof. intros Hr. cbn. apply Z.eqb_neq in Hr as ->. by rewrite andb_false_r. Qed.

Lemma observe_other cmd arg u mem r s o : cmd <> WDT_SERVE_ME -> cmd <> WDT_REGISTER_ME ->
  cmd <> WDT_REMOVE_ME -> observe (EvIoctl cmd arg u mem) r s o = o.
Proof.
  intros H1 H2 H3. cbn. apply Z.eqb_neq in H1 as ->. apply Z.eqb_neq in H2 as ->. apply Z.eqb_neq in H3 as ->.
  by repeat case_match.
Qed.

(** The observer and the driver agree on the processes; nothing else changes. *)
Definition agree (o : observer) (a : awdt) : Prop := Forall (known (jiffies (avars a)) o) (regs a).
Definition same_vars (a a' : awdt) : Prop :=
  jiffies (avars a') = jiffies (avars a) /\ restarts (avars a') = restarts (avars a) /\
  timer_count (avars a') = timer_count (avars a).

Lemma agree_serve arg u mem s a o : wf a -> agree o a ->
  let '(r, a') := a_ioctl WDT_SERVE_ME arg u mem a in
  agree (observe (EvIoctl WDT_SERVE_ME arg u mem) r s o) a' /\ same_vars a a'.
Proof.
  intros W K. unfold a_ioctl. known_command. destruct (truth arg) eqn:Ha; cbn [negb];
    [|by rewrite observe_fails]. destruct (um_pid u) as [p|] eqn:Hu; [|by rewrite observe_fails].
  split; [|done]. destruct (is_reg p (regs a)) eqn:Hr.
  - cbn. rewrite Ha, Hu. cbn. unfold agree. cbn. by apply known_serve; [apply W|].
  - rewrite observe_fails by done. unfold agree. cbn. by rewrite not_served.
Qed.

Lemma agree_remove arg u mem s a o : wf a -> agree o a ->
  let '(r, a') := a_ioctl WDT_REMOVE_ME arg u mem a in
  agree (observe (EvIoctl WDT_REMOVE_ME arg u mem) r s o) a' /\ same_vars a a'.
Proof.
  intros W K. unfold a_ioctl. known_command. destruct (truth arg) eqn:Ha; cbn [negb].
  - destruct (um_pid u) as [p|] eqn:Hu; [|by rewrite observe_fails].
    split; [|done]. destruct (is_reg p (regs a)) eqn:Hr.
    + cbn. rewrite Ha, Hu. cbn. unfold agree. cbn. by apply known_remove; [apply W|].
    + rewrite observe_fails by done. unfold agree. cbn. by rewrite not_unregistered.
  - split; [|done]. cbn. by rewrite Ha.
Qed.

Lemma agree_register arg u mem s a o : wf a -> agree o a ->
  let '(r, a') := a_ioctl WDT_REGISTER_ME arg u mem a in
  agree (observe (EvIoctl WDT_REGISTER_ME arg u mem) r s o) a' /\ same_vars a a'.
Proof.
  intros W K. unfold a_ioctl. known_command. destruct (truth arg) eqn:Ha; cbn [negb];
    [|by rewrite observe_fails]. destruct (um_task u) as [t|] eqn:Hu; [|by rewrite observe_fails].
  unfold a_register. destruct (is_reg (pid t) (regs a)); [by rewrite observe_fails|].
  destruct (mem =? 0); [by rewrite observe_fails|]. split; [|done]. cbn. rewrite Ha, Hu. cbn.
  unfold agree. cbn. constructor.
  - exists (Client (pid t) (call_period t) 0), 0. cbn. split_and!; try done; [by left | |f_equal; lia].
    by rewrite Z.sub_0_r, u32_small by apply W.
  - eapply Forall_impl; [exact K|]. intros x Hx. by apply known_more.
Qed.

Lemma agree_ioctl cmd arg u mem s a o : wf a -> agree o a ->
  let '(r, a') := a_ioctl cmd arg u mem a in
  agree (observe (EvIoctl cmd arg u mem) r s o) a' /\ same_vars a a'.
Proof.
  intros W K. destruct (decide (cmd = WDT_SERVE_ME)) as [->|H1]; [by apply agree_serve|].
  destruct (decide (cmd = WDT_REGISTER_ME)) as [->|H2]; [by apply agree_register|].
  destruct (decide (cmd = WDT_REMOVE_ME)) as [->|H3]; [by apply agree_remove|].
  destruct (a_ioctl cmd arg u mem a) as [r a'] eqn:E. rewrite observe_other by done.
  unfold a_ioctl in E. rewrite (proj2 (Z.eqb_neq _ _) H1), (proj2 (Z.eqb_neq _ _) H2), (proj2 (Z.eqb_neq _ _) H3) in E.
  pose proof (known_serve_all (jiffies (avars a)) o (regs a) (wf_jiffies _ W) K) as KS.
  repeat (case_match; simplify_eq; try done).
Qed.

(** ** The countdown *)

(** The ticks before the wrap in which false alarms happen. *)
Definition ALARM : Z := 2 ^ 32 - SAFE_PERIOD.

(** The countdown is full, or [k] checks in a row have failed, [TRIGGER_PERIOD] ticks
    apart, the last one [since] ticks ago. *)
Definition counting (o : observer) (a : awdt) : Prop :=
  TIMEOUT_VALUE * HZ <= timer_count (avars a) \/
  exists k, 1 <= k <= 80 /\ TIMEOUT_VALUE * HZ - TRIGGER_PERIOD * k <= timer_count (avars a) /\
    ALARM + TRIGGER_PERIOD * (k - 1) < u32 (jiffies (avars a) - since o).

Record alive_inv (n : nat) (o : observer) (a : awdt) : Prop := {
  al_agree : agree o a;
  al_restarts : restarts (avars a) = n;
  al_since : 0 <= since o;
  al_counting : counting o a
}.

Lemma counting_pos o a : counting o a -> 0 < timer_count (avars a).
Proof.
  unfold counting. change (TIMEOUT_VALUE * HZ) with 5000. intros [H|(k & Hk & H & _)]; rewrite ?TRIGGER_PERIOD_val in *; lia.
Qed.

Lemma observe_since cmd arg u mem r s o : since (observe (EvIoctl cmd arg u mem) r s o) = since o.
Proof. cbn. by repeat case_match. Qed.

Lemma reported_at j o c : forallb (reported j) (clients o) = true -> c ∈ clients o ->
  age c < client_period c /\ (client_period c <= SAFE_PERIOD \/ j + client_period c < 2 ^ 32).
Proof.
  intros L Hc. rewrite forallb_forall in L. apply list_elem_of_In in Hc. specialize (L c Hc). unfold reported in L.
  apply andb_true_iff in L as [L1%Z.ltb_lt L2]. apply orb_true_iff in L2 as [L2%Z.leb_le|L2%Z.ltb_lt]; auto.
Qed.

(** Before the last [SAFE_PERIOD] ticks of the clock there is no false alarm. *)
Lemma check_false_alarm j o l : is_u32 j -> Forall (known j o) l ->
  forallb (reported j) (clients o) = true -> a_check j l = TimedOut -> ALARM < j.
Proof.
  intros Hj K L. induction K as [|t l Kt K IH]; cbn; [done|].
  destruct Kt as (c & n & Hc & Hp & Hd & Hn & Hl & He).
  destruct (reported_at j o c L Hc) as [Ha Hs]. rewrite Hd in *.
  destruct (Z.leb_spec (expires t) j) as [Hle|]; [|by auto].
  destruct (Z.leb_spec j (last_jiffies t)) as [|Hlt]; [done|]. intros _.
  unfold ALARM. change SAFE_PERIOD with 4960 in *. unfold is_u32 in Hj.
  assert (n <> 0) by (intros ->; rewrite Z.sub_0_r, u32_small in Hl by done; lia).
  destruct (Z_lt_le_dec (j - n + call_period t) (2 ^ 32)) as [Hlo|]; [|lia].
  rewrite u32_small in He by (unfold is_u32; lia). lia.
Qed.

(** One more failure in a row. *)
Lemma next_failure o a : counting o a -> wf a -> TRIGGER_PERIOD <= since o <= 2 ^ 31 ->
  ALARM < jiffies (avars a) ->
  exists k, 1 <= k <= 80 /\
    TIMEOUT_VALUE * HZ - TRIGGER_PERIOD * (k - 1) <= timer_count (avars a) /\
    ALARM + TRIGGER_PERIOD * (k - 1) < jiffies (avars a).
Proof.
  intros C W Hsp Hal. pose proof (wf_jiffies _ W) as Hj. unfold is_u32 in Hj.
  unfold counting, ALARM in *. change SAFE_PERIOD with 4960 in *. change (TIMEOUT_VALUE * HZ) with 5000 in *.
  rewrite TRIGGER_PERIOD_val in *. destruct C as [C|(k & Hk & Hc & Hf)]; [exists 1; lia|].
  exists (k + 1). assert (Hu : u32 (jiffies (avars a) - since o) = jiffies (avars a) - since o)
    by (apply u32_small; unfold is_u32; lia). lia.
Qed.

Lemma fire_watching s o a : vars s = avars a -> watches (avars a) = true -> wf a ->
  alive_inv (restarts (avars a)) o a -> lively EvFire s o = true ->
  alive_inv (restarts (avars a)) (Observer (clients o) 0) (a_fire a).
Proof.
  intros V Hw W [K _ Hs C] L. cbn in L. rewrite V, Hw in L. cbn [negb orb] in L.
  apply andb_true_iff in L as [[L1%Z.leb_le L2%Z.leb_le]%andb_true_iff Hcl]. pose proof (conj L1 L2) as Hsp.
  pose proof (counting_pos o a C) as Hpos. unfold watches in Hw.
  apply andb_true_iff in Hw as [Hen Hopen]. apply negb_true_iff in Hopen.
  pose proof (wf_jiffies _ W) as Hj. pose proof (wf_period _ W) as Hp.
  unfold a_fire. rewrite (proj2 (Z.eqb_neq (timer_count (avars a)) 0)) by lia.
  rewrite (proj2 (Z.ltb_lt 0 (timer_count (avars a)))) by lia. rewrite Hen, Hopen. cbn [andb orb negb].
  destruct (a_check (jiffies (avars a)) (regs a)) eqn:Hch.
  - split; [done | done | done | by left].
  - split; [|done | done | by left]. apply known_serve_all; [done|exact K].
  - pose proof (check_false_alarm _ o _ Hj K Hcl Hch) as Hal.
    destruct (next_failure o a C) as (k & Hk & Hc & Hf); [done..|].
    assert (Hlt : timer_period (avars a) < timer_count (avars a)).
    { rewrite Hp. change (TIMEOUT_VALUE * HZ) with 5000 in *. rewrite TRIGGER_PERIOD_val in *. lia. }
    set (v := set_ticktock _ (avars a)). unfold awith_vars. cbn [avars regs ahw].
    change (timer_period v) with (timer_period (avars a)). change (timer_count v) with (timer_count (avars a)).
    rewrite (proj2 (Z.ltb_lt _ _) Hlt), Hp. split; [done | done | done |]. right. exists k. split; [done|].
    cbn [avars]. change (jiffies _) with (jiffies (avars a)) at 1.
    change (timer_count (set_timer_count ?z _)) with z. cbn [since]. rewrite Z.sub_0_r, u32_small by done.
    split; [|exact Hf]. lia.
Qed.

Lemma fire_idle o a : watches (avars a) = false -> wf a -> alive_inv (restarts (avars a)) o a ->
  alive_inv (restarts (avars a)) o (a_fire a).
Proof.
  intros Hw W [K _ Hs C]. pose proof (counting_pos o a C) as Hpos. unfold watches in Hw.
  unfold a_fire. rewrite (proj2 (Z.eqb_neq (timer_count (avars a)) 0)) by lia.
  rewrite (proj2 (Z.ltb_lt 0 (timer_count (avars a)))) by lia. cbn [andb orb].
  destruct (truth (enabled (avars a))); cbn [negb andb] in *; [|by split].
  apply negb_false_iff in Hw. rewrite Hw. by split.
Qed.

(** Every event keeps it. *)
Lemma alive_handle n ev s o a : vars s = avars a -> wf a -> alive_inv n o a -> lively ev s o = true ->
  alive_inv n (observe ev (fst (a_handle ev a)) s o) (snd (a_handle ev a)).
Proof.
  intros V W I L. pose proof (al_restarts _ _ _ I) as <-.
  destruct ev as [| |len|p len data|cmd arg u mem| |]; cbn [a_handle].
  - by case_match; destruct I; split.
  - by destruct I; split.
  - done.
  - destruct p; [done|]. destruct (negb (len =? 4)); [done|]. destruct data as [z|e]; [|done].
    destruct I as [K Hr Hs C]. split; [done | done | done |]. left. by apply Z.leb_le.
  - pose proof (agree_ioctl cmd arg u mem s a o W (al_agree _ _ _ I)) as H.
    destruct (a_ioctl cmd arg u mem a) as [r a'] eqn:E. cbn [fst snd].
    destruct H as [H (Hj & Hr & Hc)]. destruct I as [K _ Hs C].
    split; [done | done | by rewrite observe_since |]. unfold counting. by rewrite observe_since, Hj, Hc.
  - cbn [fst snd observe]. rewrite V. destruct (watches (avars a)) eqn:Hw; [by eapply fire_watching|].
    destruct o. by apply fire_idle.
  - destruct I as [K Hr Hs C]. split; cbn [observe snd avars awith_vars]; [|done|cbn; lia|].
    + unfold agree. cbn. eapply Forall_impl; [exact K|]. intros t. apply known_tick.
    + unfold counting in *. cbn -[TRIGGER_PERIOD Z.mul Z.sub]. by rewrite u32_back.
Qed.

Lemma alive_run evs : forall s a o n, rep head s a -> wf a -> is_Some (ahw a) -> alive_inv n o a ->
  along head fresh_alloc evs s -> Forall event_ok evs -> promised evs s o = true ->
  exists s' o' a', handle_all head evs s = Some (tt, s') /\ rep head s' a' /\ alive_inv n o' a'.
Proof.
  induction evs as [|ev evs IH]; intros s a o n R W Hh I Hf Hok P; [by exists s, o, a|].
  destruct Hf as [Hf Hfs]. apply andb_true_iff in P as [P Ps]. apply Forall_cons in Hok as [Hok Hoks].
  destruct (handle_ok head ev s a R Hh Hf) as (s1 & E & R1). rewrite E in Ps.
  destruct (IH s1 (snd (a_handle ev a)) (observe ev (fst (a_handle ev a)) s o) n) as (s' & o' & a' & E' & H').
  - done.
  - by apply wf_handle.
  - by apply a_handle_mapped.
  - apply alive_handle; [by apply (rep_vars_eq head)|done|done|done].
  - by eapply Hfs.
  - done.
  - done.
  - exists s', o', a'. split; [|done]. cbn [handle_all]. by rewrite (bind_Some _ _ _ _ _ E).
Qed.
End Alive.

(** ** The theorem *)

(** C3: A board whose processes are alive is not rebooted, from the load of the driver
    on and whatever else the processes do. Alive means: whenever the timer fires
    and the driver watches, every registered process has registered or reported
    fewer ticks ago than its period. This holds also while the clock wraps around
    for periods up to 80 timer periods (19.8 s); a longer period must not reach
    over the wrap when the timer fires, where live tasks are rebooted
    ([live_task_rebooted]). The timer fires 62 ticks apart or more, the driver is
    not kept from watching for 2^31 ticks, and nobody writes a countdown below the
    default. *)
Theorem alive_tasks_no_restart head j g s0 evs :
  is_u32 j -> watchdog_init 0 0 (Some g) (loaded head j) = Some (0, s0) ->
  along head fresh_alloc evs s0 -> Forall event_ok evs ->
  promised head evs s0 (Observer [] TRIGGER_PERIOD) = true ->
  exists s', handle_all head evs s0 = Some (tt, s') /\
    restarts (vars s') = 0%nat /\ timer_count (vars s') <> 0.
Proof.
  intros Hj E Hf Hok P. destruct (watchdog_init_ok head j g) as (s0' & E' & R).
  rewrite E in E'. simplify_eq.
  destruct (alive_run head evs s0' (a_started j g) (Observer [] TRIGGER_PERIOD) 0) as (s' & o' & a' & H & R' & I);
    [done | by apply wf_started | apply a_started_mapped | | done | done | done |].
  { split; [constructor | done | done |]. by left. }
  exists s'. split; [done|]. rewrite (rep_vars_eq _ _ _ R'). split; [apply I|].
  pose proof (counting_pos _ _ (al_counting _ _ _ I)). lia.
Qed.

(** A process with a period of 2 s registers shortly before the clock wraps around,
    reports four times a second and is alive after the wrap; meanwhile the driver
    counts down. *)
Definition wrap_start : Z := 2 ^ 32 - 4 * HZ.
Definition wrap_events : list event :=
  EvIoctl WDT_REGISTER_ME 1 (Umem None (Some (Task 7 (2 * HZ) 0 0 [])) true) 8192 ::
  concat (replicate 20 (alive_beat 7)).
Definition wrap_loaded : wdt :=
  from_option snd (loaded 4096 0) (watchdog_init 0 0 (Some (Gpio 0 0 0 0 0 0 [])) (loaded 4096 wrap_start)).

Lemma alive_beats (P : event -> Prop) p n : P EvTick -> P EvFire ->
  P (EvIoctl WDT_SERVE_ME 1 (Umem (Some p) None true) 0) -> Forall P (concat (replicate n (alive_beat p))).
Proof.
  intros Ht Hf Hs. apply Forall_concat, Forall_replicate. constructor; [done|].
  apply Forall_app. split; [by apply Forall_replicate | by constructor].
Qed.

Lemma alive_tasks_no_restart_witness :
  exists s', handle_all 4096 wrap_events wrap_loaded = Some (tt, s') /\
    restarts (vars s') = 0%nat /\ timer_count (vars s') <> 0.
Proof.
  refine (alive_tasks_no_restart 4096 wrap_start (Gpio 0 0 0 0 0 0 []) wrap_loaded wrap_events _ _ _ _ _).
  - split; vm_compute; [discriminate | reflexivity].
  - vm_compute. reflexivity.
  - split; [vm_compute; auto|]. intros r s' _. apply no_alloc_fresh. by apply alive_beats.
  - constructor; [split; vm_compute; [discriminate | reflexivity] | by apply alive_beats].
  - vm_compute. reflexivity.
Defined.
