(* ===== verification/RegBus.v ===== *)
(** * Device registers

    The interface between the drivers and a device: reading a register gives a
    value and may change the device (a status register, a FIFO), writing one
    changes it. A driver's theorems are stated for every device of the class,
    or for every device that keeps the promises named in the statement. The
    world records the accesses in order, so that a theorem can say what was put
    on the bus. *)

From S2P Require Import Prelude.

Class RegBus (R HW : Type) := {
  rb_read : R -> HW -> Z * HW;
  rb_write : R -> Z -> HW -> HW
}.

Inductive io (R : Type) := Rd (r : R) (v : Z) | Wr (r : R) (v : Z).
Arguments Rd {_} _ _.
Arguments Wr {_} _ _.

Record world (R HW : Type) := World { dev : HW; log : list (io R) }.
Arguments World {_ _} _ _.
Arguments dev {_ _} _.
Arguments log {_ _} _.

Section Access.
Context {R HW : Type} `{!RegBus R HW}.
Implicit Types (w : world R HW) (r : R).

Definition rd (r : R) : M (world R HW) Z := fun w =>
  Some (fst (rb_read r (dev w)), World (snd (rb_read r (dev w))) (log w ++ [Rd r (fst (rb_read r (dev w)))])).

Definition wr (r : R) (v : Z) : M (world R HW) unit := fun w =>
  Some (tt, World (rb_write r v (dev w)) (log w ++ [Wr r v])).

Lemma rd_run r w :
  rd r w = Some (fst (rb_read r (dev w)),
                 World (snd (rb_read r (dev w))) (log w ++ [Rd r (fst (rb_read r (dev w)))])).
Proof. reflexivity. Qed.

Lemma wr_run r v w : wr r v w = Some (tt, World (rb_write r v (dev w)) (log w ++ [Wr r v])).
Proof. reflexivity. Qed.

(** Accesses of a computation: how many it adds to the log at most. *)
Definition accesses {A} (n : nat) (m : M (world R HW) A) : Prop :=
  forall w a w', m w = Some (a, w') ->
    exists l, log w' = log w ++ l /\ (length l <= n)%nat.

Lemma accesses_ret {A} (a : A) : accesses 0 (mret a).
Proof. intros w a' w' H. rewrite ret_unfold in H. simplify_eq. exists []. by rewrite app_nil_r. Qed.

Lemma accesses_rd r : accesses 1 (rd r).
Proof. intros w a w' H. rewrite rd_run in H. simplify_eq/=. by eexists. Qed.

Lemma accesses_wr r v : accesses 1 (wr r v).
Proof. intros w a w' H. rewrite wr_run in H. simplify_eq/=. by eexists. Qed.

Lemma accesses_lift_opt {A} (o : option A) : accesses 0 (lift_opt o).
Proof.
  intros w a w' H. destruct o; [|by rewrite lift_opt_None in H].
  rewrite lift_opt_run in H. simplify_eq. exists []. by rewrite app_nil_r.
Qed.

Lemma accesses_ub {A} n : accesses n (ub : M (world R HW) A).
Proof. by intros w a w' H. Qed.

Lemma accesses_bind {A B} n k (m : M (world R HW) A) (f : A -> M (world R HW) B) :
  accesses n m -> (forall a, accesses k (f a)) -> accesses (n + k) (m ≫= f).
Proof.
  intros Hm Hf w b w2 H. apply bind_inv in H as (a & w1 & H1 & H2).
  destruct (Hm _ _ _ H1) as (l1 & E1 & L1), (Hf _ _ _ _ H2) as (l2 & E2 & L2).
  exists (l1 ++ l2). rewrite E2, E1, length_app, app_assoc. split; [done|lia].
Qed.

Lemma accesses_weaken {A} n k (m : M (world R HW) A) :
  accesses n m -> (n <= k)%nat -> accesses k m.
Proof. intros Hm Hle w a w' H. destruct (Hm _ _ _ H) as (l & ? & ?). exists l. split; [done|lia]. Qed.

Lemma accesses_if {A} n (b : bool) (m1 m2 : M (world R HW) A) :
  accesses n m1 -> accesses n m2 -> accesses n (if b then m1 else m2).
Proof. by destruct b. Qed.

(** Reading [r] until [stop] accepts the value, at most [fuel] times: the last
    value and whether it was accepted. *)
Fixpoint poll (fuel : nat) (r : R) (stop : Z -> bool) (last : Z) : M (world R HW) (bool * Z) :=
  match fuel with
  | O => mret (false, last)
  | S fuel =>
      v ← rd r;
      if stop v then mret (true, v) else poll fuel r stop v
  end.

Lemma poll_total fuel r stop : forall last w, is_Some (poll fuel r stop last w).
Proof.
  induction fuel as [|fuel IH]; intros last w; [by eexists|].
  cbn [poll]. rewrite bind_unfold, rd_run. destruct (stop _); [by eexists | apply IH].
Qed.

Lemma accesses_poll fuel r stop : forall last, accesses fuel (poll fuel r stop last).
Proof.
  induction fuel as [|fuel IH]; intros last; [apply accesses_ret|].
  apply (accesses_bind 1 fuel); [apply accesses_rd|]. intros v.
  apply accesses_if; [|apply IH]. eapply accesses_weaken; [apply accesses_ret|lia].
Qed.

(** When the device already satisfies the condition, one read is enough. *)
Lemma poll_now fuel r stop last w :
  stop (fst (rb_read r (dev w))) = true ->
  poll (S fuel) r stop last w =
    Some ((true, fst (rb_read r (dev w))),
          World (snd (rb_read r (dev w))) (log w ++ [Rd r (fst (rb_read r (dev w)))])).
Proof. intros H. cbn [poll]. by rewrite bind_unfold, rd_run, H. Qed.
End Access.

#[export] Hint Resolve accesses_ret accesses_rd accesses_wr accesses_lift_opt accesses_ub
  accesses_poll : board.
