(* ===== verification/SpiCtl.v ===== *)
(** * The SPI controller of the processor, from user space (drivers/spidrv/spi.c)

    The controller's registers are mapped into the process. [spi_transfer] moves
    a message through the transmit and receive FIFOs in words of four bytes;
    [spi_setup] programs clock, polarity and word length of a chip select. The
    declarations of spi.h are not part of the repository: the bits of the
    device's [mode] field are variables, and [spi_device] has the fields the
    code uses. *)

From S2P Require Import Prelude RegBus.

Inductive spi_reg := MODE | EVENT | MASK | COMMAND | TRANSMIT | RECEIVE | CSMODE (i : Z).

Record spi_device := SpiDevice {
  chip_select : Z; max_speed_hz : Z; mode : Z; bits_per_word : Z
}.

Definition CSMODE_CI_INACTIVEHIGH : Z := 2 ^ 31.
Definition CSMODE_CP_BEGIN_EDGECLK : Z := 2 ^ 30.
Definition CSMODE_REV : Z := 2 ^ 29.
Definition CSMODE_DIV16 : Z := 2 ^ 28.
Definition CSMODE_PM (x : Z) : Z := u32 (Z.shiftl x 24).
Definition CSMODE_POL_1 : Z := 2 ^ 20.
Definition CSMODE_LEN (x : Z) : Z := u32 (Z.shiftl x 16).
Definition SPMODE_ENABLE : Z := 2 ^ 31.
Definition SPIM_NE : Z := 0x200.
Definition SPI_EV_NE : Z := Z.shiftr 0x80000000 22.
Definition SPI_EV_NF : Z := Z.shiftr 0x80000000 23.
Definition SPI_TIMEOUT : nat := 1000.
Definition CSMODE_PM_MAX : Z := 0xF.
Definition SPMODE_INIT_VAL : Z := Z.lor (Z.shiftl 4 8) (Z.shiftl 3 0).
Definition CSMODE_INIT_VAL : Z :=
  Z.lor (Z.lor (Z.lor CSMODE_POL_1 (Z.shiftl 0 12)) (Z.lor (Z.shiftl 0 8) (Z.shiftl 1 3)))
    CSMODE_CI_INACTIVEHIGH.

(** A word read through an [unsigned int *] into a byte buffer. *)
Definition word_at (buf : list Z) (off : nat) : option Z :=
  match buf_read buf off 4 with
  | Some [b0; b1; b2; b3] => Some (be32 b0 b1 b2 b3)
  | _ => None
  end.

Definition not_full (e : Z) : bool := truth (Z.land e SPI_EV_NF).
Definition not_empty (e : Z) : bool := truth (Z.land e SPI_EV_NE).
Definition word_received (e : Z) : bool := 4 <=? Z.land (Z.shiftr e 24) 0x3f.

Section Driver.
Context {HW : Type} `{!RegBus spi_reg HW}.

(** The loop over [tm]: wait for the receiver, then for a whole word, and store
    it; [false] when the loop ran out. *)
Definition receive_word (rxbuf : list Z) (roff : nat) : M (world spi_reg HW) (bool * list Z) :=
  p ← poll SPI_TIMEOUT EVENT not_empty 0;
  if fst p : bool then
    poll SPI_TIMEOUT EVENT word_received 0;;
    rxword ← rd RECEIVE;
    rxbuf ← lift_opt (buf_write rxbuf roff (be32_bytes rxword));
    mret (true, rxbuf)
  else mret (false, rxbuf).

(** The transmit half of the loop body: the new offset into [txbuf]. *)
Definition transmit_word (txbuf : list Z) (toff : nat) : M (world spi_reg HW) nat :=
  event ← rd EVENT;
  if not_full event then
    txword ← lift_opt (word_at txbuf toff);
    wr TRANSMIT txword;;
    mret (toff + 4)%nat
  else mret toff.

(** The [do ... while (len > 0)] loop. *)
Fixpoint transfer_loop (fuel : nat) (len : Z) (toff roff : nat) (txbuf rxbuf : list Z)
  : M (world spi_reg HW) (bool * list Z) :=
  match fuel with
  | O => ub
  | S fuel =>
      toff ← transmit_word txbuf toff;
      r ← receive_word rxbuf roff;
      if 0 <? len - 4 then
        transfer_loop fuel (len - 4) toff (if fst r : bool then roff + 4 else roff)%nat
          txbuf (snd r)
      else mret r
  end.

(** Result and receive buffer. *)
Definition spi_transfer (spidev : spi_device) (txbuf rxbuf : list Z) (len : Z)
  : M (world spi_reg HW) (Z * list Z) :=
  wr COMMAND (u32 (Z.lor (Z.shiftl (chip_select spidev) 30) (len - 1)));;
  wr MASK SPIM_NE;;
  r ← transfer_loop (S (Z.to_nat len)) len 0 0 txbuf rxbuf;
  if fst r : bool then
    wr MASK 0;;
    mret (0, snd r)
  else mret (-1, snd r).

(** [mapped]: the pointer to the registers is not null. *)
Definition spi_dev_init (mapped : bool) : M (world spi_reg HW) Z :=
  if negb mapped then mret (-1)
  else
    wr MODE 0;;
    wr MASK 0;;
    wr COMMAND 0;;
    wr EVENT 0xffffffff;;
    wr MODE (Z.lor SPMODE_INIT_VAL SPMODE_ENABLE);;
    wr (CSMODE 0) CSMODE_INIT_VAL;;
    wr (CSMODE 1) CSMODE_INIT_VAL;;
    wr (CSMODE 2) CSMODE_INIT_VAL;;
    wr (CSMODE 3) CSMODE_INIT_VAL;;
    mret 0.

(** Bits of [spi_device.mode] (spi.h). *)
Context (SPI_CPHA SPI_CPOL SPI_LSB_FIRST : Z).

Definition spibrg : Z := 198000000.

(** Divider select and prescaler for a clock of [hz]; [pm] is an
    [unsigned char]. [None]: division by zero. *)
Definition clock_divider (hz : Z) : option (bool * Z) :=
  if 32 <? spibrg / hz then
    if u32 (hz * 32) =? 0 then None
    else
      let pm := u8 (spibrg / u32 (hz * 32)) in
      Some (true, if CSMODE_PM_MAX <? pm then CSMODE_PM_MAX else pm)
  else if u32 (hz * 2) =? 0 then None
  else Some (false, u8 (spibrg / u32 (hz * 2))).

Definition hw_mode_of (old : Z) (spidev : spi_device) (div16 : bool) (pm : Z) : Z :=
  let m := Z.land old
    (not32 (Z.lor (Z.lor CSMODE_CP_BEGIN_EDGECLK CSMODE_CI_INACTIVEHIGH) CSMODE_REV)) in
  let m := if truth (Z.land (mode spidev) SPI_CPHA) then Z.lor m CSMODE_CP_BEGIN_EDGECLK else m in
  let m := if truth (Z.land (mode spidev) SPI_CPOL) then Z.lor m CSMODE_CI_INACTIVEHIGH else m in
  let m := if negb (truth (Z.land (mode spidev) SPI_LSB_FIRST)) then Z.lor m CSMODE_REV else m in
  let m := Z.land m (not32 (Z.lor (Z.lor (CSMODE_LEN 0xF) CSMODE_DIV16) (CSMODE_PM 0xF))) in
  let m := Z.lor m (CSMODE_LEN (bits_per_word spidev - 1)) in
  let m := if div16 then Z.lor m CSMODE_DIV16 else m in
  Z.lor m (CSMODE_PM pm).

(** Result and the device, whose word length gets its default. *)
Definition spi_setup (spidev : spi_device) : M (world spi_reg HW) (Z * spi_device) :=
  if max_speed_hz spidev =? 0 then mret (-1, spidev)
  else
    let spidev :=
      if bits_per_word spidev =? 0
      then SpiDevice (chip_select spidev) (max_speed_hz spidev) (mode spidev) 8 else spidev in
    old ← rd (CSMODE (chip_select spidev));
    d ← lift_opt (clock_divider (max_speed_hz spidev));
    regval ← rd MODE;
    wr MODE (Z.land regval (not32 SPMODE_ENABLE));;
    wr (CSMODE (chip_select spidev)) (hw_mode_of old spidev (fst d) (snd d));;
    wr MODE regval;;
    mret (0, spidev).
End Driver.

(** ** Safety and termination for every device *)

Section AnyDevice.
Context {HW : Type} `{!RegBus spi_reg HW}.
Implicit Types w : world spi_reg HW.

(** Words of a message of [len] bytes: the loop runs at least once. *)
Definition words (len : Z) : nat := Z.to_nat (Z.max 1 ((len + 3) / 4)).

Lemma words_step len : 0 < len - 4 -> words len = S (words (len - 4)).
Proof.
  intros H. unfold words. replace (len + 3) with (len - 4 + 3 + 1 * 4) by lia.
  rewrite Z.div_add by lia. assert (1 <= (len - 4 + 3) / 4) by (apply Z.div_le_lower_bound; lia). lia.
Qed.

Lemma words_last len : len - 4 <= 0 -> words len = 1%nat.
Proof.
  intros H. unfold words. assert ((len + 3) / 4 < 2) by (apply Z.div_lt_upper_bound; lia). lia.
Qed.

Lemma words_fuel len : (words len <= S (Z.to_nat len))%nat.
Proof.
  unfold words. destruct (Z.le_gt_cases len 0).
  - assert ((len + 3) / 4 <= 0) by (apply Z.lt_succ_r, Z.div_lt_upper_bound; lia). lia.
  - assert ((len + 3) / 4 <= len) by (apply Z.lt_succ_r, Z.div_lt_upper_bound; lia). lia.
Qed.

Lemma word_at_Some buf off : (off + 4 <= length buf)%nat -> is_Some (word_at buf off).
Proof.
  intros H. unfold word_at. rewrite buf_read_Some by done.
  assert (length (take 4 (drop off buf)) = 4%nat) as HL.
  { rewrite length_take, length_drop. lia. }
  destruct (take 4 (drop off buf)) as [|? [|? [|? [|? [|? ?]]]]]; simpl in HL; try lia. by eexists.
Qed.

Lemma word_at_None buf off : (length buf < off + 4)%nat -> word_at buf off = None.
Proof. intros H. unfold word_at. by rewrite buf_read_None. Qed.

Lemma transmit_word_safe txbuf toff w :
  (toff + 4 <= length txbuf)%nat ->
  exists toff' w', transmit_word txbuf toff w = Some (toff', w') /\ (toff' <= toff + 4)%nat.
Proof.
  intros H. unfold transmit_word. rewrite bind_unfold, rd_run. destruct (not_full _).
  - destruct (word_at_Some _ _ H) as [x ->]. eexists _, _. split; [reflexivity|lia].
  - eexists _, _. split; [reflexivity|lia].
Qed.

Lemma receive_word_safe rxbuf roff w :
  (roff + 4 <= length rxbuf)%nat ->
  exists b rxbuf' w', receive_word rxbuf roff w = Some ((b, rxbuf'), w') /\
    length rxbuf' = length rxbuf.
Proof.
  intros H. unfold receive_word.
  destruct (poll_total SPI_TIMEOUT EVENT not_empty 0 w) as [[[b e] w1] E1].
  rewrite (bind_Some _ _ _ _ _ E1). cbn [fst]. destruct b.
  - destruct (poll_total SPI_TIMEOUT EVENT word_received 0 w1) as [[p w2] E2].
    rewrite (bind_Some _ _ _ _ _ E2), bind_unfold, rd_run, bind_unfold, buf_write_Some by done.
    rewrite lift_opt_run, ret_unfold. eexists _, _, _. split; [reflexivity|].
    eapply buf_write_length. by apply buf_write_Some.
  - eexists _, _, _. by split.
Qed.

Lemma transfer_loop_safe fuel : forall len toff roff txbuf rxbuf w,
  (words len <= fuel)%nat ->
  (toff + 4 * words len <= length txbuf)%nat -> (roff + 4 * words len <= length rxbuf)%nat ->
  is_Some (transfer_loop fuel len toff roff txbuf rxbuf w).
Proof.
  induction fuel as [|fuel IH]; intros len toff roff txbuf rxbuf w Hf Ht Hr.
  { unfold words in Hf. lia. }
  assert (1 <= words len)%nat by (unfold words; lia). cbn [transfer_loop].
  destruct (transmit_word_safe txbuf toff w) as (toff' & w1 & E1 & L1); [lia|].
  rewrite (bind_Some _ _ _ _ _ E1).
  destruct (receive_word_safe rxbuf roff w1) as (b & rxbuf' & w2 & E2 & L2); [lia|].
  rewrite (bind_Some _ _ _ _ _ E2). cbn [fst snd].
  destruct (Z.ltb_spec 0 (len - 4)) as [Hl|Hl]; [|by eexists].
  rewrite words_step in * by done. apply IH; [lia|lia|]. destruct b; lia.
Qed.

Lemma accesses_transfer_loop fuel : forall len toff roff txbuf rxbuf,
  accesses (2003 * words len) (transfer_loop fuel len toff roff txbuf rxbuf).
Proof.
  induction fuel as [|fuel IH]; intros len toff roff txbuf rxbuf; [apply accesses_ub|].
  cbn [transfer_loop].
  assert (accesses 2 (transmit_word txbuf toff)) as HT.
  { apply (accesses_bind 1 1); [auto with board|]. intros e.
    apply accesses_if; [|eapply accesses_weaken; [auto with board|lia]].
    apply (accesses_bind 0 1); [auto with board|]. intros x.
    apply (accesses_bind 1 0); auto with board. }
  assert (accesses 2001 (receive_word rxbuf roff)) as HR.
  { apply (accesses_bind 1000 1001); [auto with board|]. intros [b e].
    apply accesses_if; [|eapply accesses_weaken; [auto with board|lia]].
    apply (accesses_bind 1000 1); [auto with board|]. intros _.
    apply (accesses_bind 1 0); [auto with board|]. intros x.
    apply (accesses_bind 0 0); auto with board. }
  destruct (Z.ltb_spec 0 (len - 4)) as [Hl|Hl].
  - rewrite words_step by done.
    apply (accesses_weaken (2 + (2001 + 2003 * words (len - 4)))); [|lia].
    apply (accesses_bind 2); [done|]. intros t.
    apply (accesses_bind 2001); [done|]. intros r. apply IH.
  - rewrite words_last by lia. apply (accesses_weaken (2 + (2001 + 0))); [|lia].
    apply (accesses_bind 2); [done|]. intros t.
    apply (accesses_bind 2001); [done|]. auto with board.
Qed.

(** C33: A transfer ends and stays within its buffers, whatever the controller
    does: if both buffers hold the message rounded up to whole words, the
    behaviour is defined, and it makes at most 2003 register accesses per word
    (two polls of at most 1000 reads) and 3 around them. *)
Theorem spi_transfer_safe spidev txbuf rxbuf len w :
  (4 * words len <= length txbuf)%nat -> (4 * words len <= length rxbuf)%nat ->
  exists r w' l, spi_transfer spidev txbuf rxbuf len w = Some (r, w') /\
    log w' = log w ++ l /\ (length l <= 3 + 2003 * words len)%nat.
Proof.
  intros Ht Hr.
  assert (accesses (2 + (2003 * words len + 1)) (spi_transfer spidev txbuf rxbuf len)) as HA.
  { apply (accesses_bind 1 (1 + (2003 * words len + 1))); [auto with board|]. intros _.
    apply (accesses_bind 1 (2003 * words len + 1)); [auto with board|]. intros _.
    apply accesses_bind; [apply accesses_transfer_loop|]. intros r.
    apply accesses_if; [|eapply accesses_weaken; [auto with board|lia]].
    apply (accesses_bind 1 0); auto with board. }
  assert (is_Some (spi_transfer spidev txbuf rxbuf len w)) as [[r w'] E].
  { apply bind_total; [by eexists|]. intros _ w1 _. apply bind_total; [by eexists|]. intros _ w2 _.
    apply bind_total; [apply transfer_loop_safe; [apply words_fuel|lia|lia]|].
    intros [b rx] w3 _. cbn [fst snd]. destruct b; by eexists. }
  destruct (HA _ _ _ E) as (l & El & Hl). exists r, w', l. split; [done|]. split; [done|lia].
Qed.
End AnyDevice.

(** ** A controller with a slave that answers

    What the controller promises: it has room for a word, and a word that is
    transmitted is followed by a received word, the slave's answer, at the
    slave's state. *)

Class SpiSlave (HW St : Type) `{!RegBus spi_reg HW} := {
  slave : St -> Z -> Z * St;
  ready : HW -> St -> Prop;
  full : HW -> St -> Z -> Prop;
  ready_event h s : ready h s ->
    not_full (fst (rb_read EVENT h)) = true /\ ready (snd (rb_read EVENT h)) s;
  ready_transmit h s x : ready h s ->
    full (rb_write TRANSMIT x h) (snd (slave s x)) (fst (slave s x));
  full_event h s a : full h s a ->
    not_empty (fst (rb_read EVENT h)) = true /\
    word_received (fst (rb_read EVENT h)) = true /\ full (snd (rb_read EVENT h)) s a;
  full_receive h s a : full h s a ->
    fst (rb_read RECEIVE h) = a /\ ready (snd (rb_read RECEIVE h)) s;
  ready_control h s r v : ready h s -> r = COMMAND \/ r = MASK \/ r = MODE \/ (exists i, r = CSMODE i) ->
    ready (rb_write r v h) s;
  ready_clear h s v : ready h s -> ready (rb_write EVENT v h) s;
  ready_status h s r : ready h s -> r = MODE \/ (exists i, r = CSMODE i) ->
    ready (snd (rb_read r h)) s
}.

Section WithSlave.
Context {HW St : Type} `{!RegBus spi_reg HW} `{!SpiSlave HW St}.
Implicit Types (w : world spi_reg HW) (s : St).

Fixpoint answers (s : St) (ws : list Z) : list Z :=
  match ws with
  | [] => []
  | x :: ws => fst (slave s x) :: answers (snd (slave s x)) ws
  end.

Fixpoint after (s : St) (ws : list Z) : St :=
  match ws with
  | [] => s
  | x :: ws => after (snd (slave s x)) ws
  end.

Definition bytes (ws : list Z) : list Z := concat (map be32_bytes ws).

(** The words put into the transmit FIFO, from the log. *)
Definition sent (l : list (io spi_reg)) : list Z :=
  omap (fun e => match e with Wr TRANSMIT v => Some v | _ => None end) l.

Lemma bytes_length ws : length (bytes ws) = (4 * length ws)%nat.
Proof. induction ws as [|x ws IH]; [done|]. unfold bytes in *. simpl. rewrite IH. lia. Qed.

Lemma answers_length ws : forall s, length (answers s ws) = length ws.
Proof. induction ws as [|x ws IH]; intros s; simpl; [done|]. by rewrite IH. Qed.

Lemma word_at_app pre x post :
  is_u32 x -> word_at (pre ++ be32_bytes x ++ post) (length pre) = Some x.
Proof.
  intros Hx. unfold word_at. rewrite buf_read_Some by (rewrite !length_app; simpl; lia).
  rewrite drop_app_length. simpl. by rewrite be32_of_bytes.
Qed.

Lemma transmit_word_ready pre x post w s :
  is_u32 x -> ready (dev w) s ->
  exists w', transmit_word (pre ++ be32_bytes x ++ post) (length pre) w =
      Some ((length pre + 4)%nat, w') /\
    full (dev w') (snd (slave s x)) (fst (slave s x)) /\ sent (log w') = sent (log w) ++ [x].
Proof.
  intros Hx Hr. destruct (ready_event _ _ Hr) as [HN Hr'].
  unfold transmit_word. rewrite bind_unfold, rd_run, HN, word_at_app by done.
  rewrite bind_unfold, lift_opt_run, bind_unfold, wr_run. eexists. split; [reflexivity|]. simpl.
  split; [by apply ready_transmit|]. unfold sent. rewrite !omap_app. simpl. by rewrite app_nil_r.
Qed.

Lemma receive_word_full pre rest w s a :
  (4 <= length rest)%nat -> full (dev w) s a ->
  exists w', receive_word (pre ++ rest) (length pre) w =
      Some ((true, (pre ++ be32_bytes a) ++ drop 4 rest), w') /\
    ready (dev w') s /\ sent (log w') = sent (log w).
Proof.
  intros HL Hf. destruct (full_event _ _ _ Hf) as (HE & _ & Hf1).
  destruct (full_event _ _ _ Hf1) as (_ & HW2 & Hf2).
  destruct (full_receive _ _ _ Hf2) as (Ha & Hr).
  unfold receive_word. change SPI_TIMEOUT with (S 999).
  rewrite bind_unfold, poll_now by done. cbn [fst].
  rewrite bind_unfold, poll_now by done. rewrite bind_unfold, rd_run. cbn [dev log].
  rewrite Ha, bind_unfold, buf_write_Some by (rewrite length_app; simpl; lia).
  rewrite lift_opt_run, ret_unfold. eexists. split.
  - do 3 f_equal. rewrite take_app_length. rewrite drop_app_ge by (simpl; lia).
    rewrite <- app_assoc. do 3 f_equal. simpl. lia.
  - split; [done|]. cbn [log]. unfold sent. rewrite !omap_app. simpl. by rewrite !app_nil_r.
Qed.

Lemma transfer_loop_slave ws : forall fuel len tpre tpost rpre rest w s,
  ready (dev w) s -> length ws = words len -> (length ws <= fuel)%nat -> Forall is_u32 ws ->
  (4 * length ws <= length rest)%nat ->
  exists w', transfer_loop fuel len (length tpre) (length rpre)
      (tpre ++ bytes ws ++ tpost) (rpre ++ rest) w =
      Some ((true, rpre ++ bytes (answers s ws) ++ drop (4 * length ws) rest), w') /\
    ready (dev w') (after s ws) /\ sent (log w') = sent (log w) ++ ws.
Proof.
  induction ws as [|x ws IH]; intros fuel len tpre tpost rpre rest w s Hr Hlen Hf Hw HL.
  { unfold words in Hlen. simpl in Hlen. lia. }
  apply Forall_cons in Hw as [Hx Hws]. destruct fuel as [|fuel]; simpl in Hf, HL; [lia|].
  cbn [transfer_loop]. change (bytes (x :: ws)) with (be32_bytes x ++ bytes ws).
  rewrite <- (app_assoc (be32_bytes x)).
  destruct (transmit_word_ready tpre x (bytes ws ++ tpost) w s Hx Hr) as (w1 & E1 & Hfull & S1).
  rewrite (bind_Some _ _ _ _ _ E1).
  destruct (receive_word_full rpre rest w1 _ _ ltac:(lia) Hfull) as (w2 & E2 & Hr2 & S2).
  rewrite (bind_Some _ _ _ _ _ E2). cbn [fst snd].
  destruct (Z.ltb_spec 0 (len - 4)) as [Hl|Hl].
  - rewrite words_step in Hlen by done. simpl in Hlen.
    destruct (IH fuel (len - 4) (tpre ++ be32_bytes x) tpost
                (rpre ++ be32_bytes (fst (slave s x))) (drop 4 rest) w2 (snd (slave s x)))
      as (w3 & E3 & Hr3 & S3); [done|lia|lia|done|rewrite length_drop; lia|].
    rewrite !length_app in E3. cbn [length be32_bytes] in E3. rewrite <- !app_assoc in E3.
    rewrite <- !app_assoc, E3. eexists. split; [|split; [done|]].
    + do 3 f_equal. cbn [answers]. change (bytes (?a :: ?l)) with (be32_bytes a ++ bytes l).
      rewrite drop_drop, <- app_assoc. do 4 f_equal. simpl. lia.
    + by rewrite S3, S2, S1, <- app_assoc.
  - rewrite words_last in Hlen by lia. simpl in Hlen. assert (ws = []) as -> by (destruct ws; simpl in *; [done|lia]).
    eexists. split; [|split; [done|by rewrite S2, S1]].
    rewrite ret_unfold. do 3 f_equal. rewrite <- app_assoc. done.
Qed.

(** The whole transfer with a slave that answers. *)
Lemma spi_transfer_slave spidev ws tpost rest len w s :
  ready (dev w) s -> length ws = words len -> Forall is_u32 ws ->
  (4 * length ws <= length rest)%nat ->
  exists w', spi_transfer spidev (bytes ws ++ tpost) rest len w =
      Some ((0, bytes (answers s ws) ++ drop (4 * length ws) rest), w') /\
    ready (dev w') (after s ws) /\ sent (log w') = sent (log w) ++ ws.
Proof.
  intros Hr Hlen Hws HL. unfold spi_transfer. rewrite bind_unfold, wr_run, bind_unfold, wr_run.
  cbn [dev log].
  match goal with |- context [(transfer_loop _ _ _ _ _ _ ≫= _) ?v] =>
    assert (ready (dev v) s /\ sent (log v) = sent (log w)) as [Hr1 S1]; [|
    destruct (transfer_loop_slave ws (S (Z.to_nat len)) len [] tpost [] rest v s)
      as (w' & E & Hr' & S'); [done|done|rewrite Hlen; apply words_fuel|done|done|]]
  end.
  { split; [by repeat (apply ready_control; [|auto])|].
    unfold sent. cbn [log]. rewrite !omap_app. simpl. by rewrite !app_nil_r. }
  cbn [length app] in E. rewrite (bind_Some _ _ _ _ _ E). cbn [fst snd].
  rewrite bind_unfold, wr_run, ret_unfold. eexists. split; [reflexivity|]. cbn [dev log].
  split; [by apply ready_control; auto|]. rewrite <- S1, <- S'. unfold sent.
  rewrite omap_app. simpl. by rewrite app_nil_r.
Qed.

(** A message that does not fit the transmit buffer in whole words: the loop
    reads past its end. *)
Lemma transfer_loop_overrun ws : forall fuel len tpre tpost rpre rest w s,
  ready (dev w) s -> (length ws < words len)%nat -> Forall is_u32 ws ->
  (length tpost < 4)%nat -> (4 * length ws <= length rest)%nat ->
  transfer_loop fuel len (length tpre) (length rpre) (tpre ++ bytes ws ++ tpost) (rpre ++ rest) w
    = None.
Proof.
  induction ws as [|x ws IH]; intros fuel len tpre tpost rpre rest w s Hr Hlen Hw Hp HL;
    (destruct fuel as [|fuel]; [done|]); cbn [transfer_loop].
  - destruct (ready_event _ _ Hr) as [HN _]. rewrite bind_unfold. unfold transmit_word at 1.
    rewrite bind_unfold, rd_run, HN, word_at_None by (rewrite length_app; simpl; lia). done.
  - apply Forall_cons in Hw as [Hx Hws]. change (bytes (x :: ws)) with (be32_bytes x ++ bytes ws).
    rewrite <- (app_assoc (be32_bytes x)). simpl in HL, Hlen.
    destruct (transmit_word_ready tpre x (bytes ws ++ tpost) w s Hx Hr) as (w1 & E1 & Hfull & S1).
    rewrite (bind_Some _ _ _ _ _ E1).
    destruct (receive_word_full rpre rest w1 _ _ ltac:(lia) Hfull) as (w2 & E2 & Hr2 & S2).
    rewrite (bind_Some _ _ _ _ _ E2). cbn [fst snd].
    destruct (Z.ltb_spec 0 (len - 4)) as [Hl|Hl]; [|rewrite words_last in Hlen by lia; lia].
    rewrite words_step in Hlen by done.
    replace (length tpre + 4)%nat with (length (tpre ++ be32_bytes x)) by (rewrite length_app; done).
    replace (length rpre + 4)%nat with (length (rpre ++ be32_bytes (fst (slave s x))))
      by (rewrite length_app; done).
    rewrite (app_assoc tpre). eapply IH; [done|lia|done|done|rewrite length_drop; lia].
Qed.
End WithSlave.

(** *** The controller in loopback: what is transmitted is received *)

Module Loopback.
#[export] Instance loop_bus : RegBus spi_reg (option Z) := {|
  rb_read r h :=
    match r with
    | EVENT => (if h is Some _ then 0x04000300 else 0x100, h)
    | RECEIVE => (default 0 h, None)
    | _ => (0, h)
    end;
  rb_write r v h := match r with TRANSMIT => Some v | _ => h end
|}.

#[export] Program Instance loop_slave : SpiSlave (option Z) unit := {|
  slave s x := (x, s);
  ready h _ := h = None;
  full h _ a := h = Some a
|}.
Solve Obligations with naive_solver.
End Loopback.
Import Loopback.

(** C32: With a slave that answers, the words of the transmit buffer are sent in
    order, the receive buffer holds the slave's answers, byte for byte in
    big-endian order, followed by what it held before, and the controller is
    ready for the next message. *)
Theorem spi_transfer_duplex {HW St} `{!RegBus spi_reg HW} `{!SpiSlave HW St}
    spidev ws tpost rest len (w : world spi_reg HW) (s : St) :
  ready (dev w) s -> length ws = words len -> Forall is_u32 ws ->
  (4 * length ws <= length rest)%nat ->
  exists w', spi_transfer spidev (bytes ws ++ tpost) rest len w =
      Some ((0, bytes (answers s ws) ++ drop (4 * length ws) rest), w') /\
    ready (dev w') (after s ws) /\ sent (log w') = sent (log w) ++ ws.
Proof. apply spi_transfer_slave. Qed.

Lemma spi_transfer_duplex_witness :
  exists w', spi_transfer (SpiDevice 1 6500000 3 8) (bytes [0x01020304; 0x05060708]) (replicate 10 0) 7
      (World (None : option Z) []) =
      Some ((0, [1; 2; 3; 4; 5; 6; 7; 8; 0; 0]), w') /\
    ready (dev w') tt /\ sent (log w') = [0x01020304; 0x05060708].
Proof.
  refine (spi_transfer_duplex (SpiDevice 1 6500000 3 8) [0x01020304; 0x05060708] [] (replicate 10 0)
            7 (World (None : option Z) []) tt _ _ _ _).
  - reflexivity.
  - reflexivity.
  - repeat constructor; vm_compute; discriminate.
  - simpl. lia.
Defined.

Lemma spi_transfer_safe_witness :
  exists r w' l,
    spi_transfer (SpiDevice 0 6500000 3 8) (replicate 8 0) (replicate 8 0) 5
      (World (None : option Z) []) = Some (r, w') /\
    log w' = [] ++ l /\ (length l <= 3 + 2003 * 2)%nat.
Proof.
  refine (spi_transfer_safe (SpiDevice 0 6500000 3 8) (replicate 8 0) (replicate 8 0) 5
            (World (None : option Z) []) _ _); vm_compute; lia.
Defined.

(** ** The clock *)

(** For every speed the prescaler can reach, the divider is the best one:
    the clock [spibrg / (d * (pm + 1))], with [d] 32 or 2 as the divide-by-16
    bit says, is below the speed asked for, and the next faster one is not. *)
Theorem clock_divider_best hz :
  386719 <= hz < 2 ^ 31 -> ~ 6000000 < hz <= 6187500 ->
  exists div16 pm, clock_divider hz = Some (div16, pm) /\ 0 <= pm <= 15 /\
    let d := if div16 : bool then 32 else 2 in
    d * pm * hz <= spibrg < d * (pm + 1) * hz.
Proof.
  intros Hhz Hgap. unfold clock_divider.
  assert (forall d, 0 < d -> d * (spibrg / (hz * d)) * hz <= spibrg < d * (spibrg / (hz * d) + 1) * hz) as HQ.
  { intros d Hd. pose proof (Z.mul_div_le spibrg (hz * d) ltac:(nia)).
    pose proof (Z.mul_succ_div_gt spibrg (hz * d) ltac:(nia)). nia. }
  unfold spibrg in *. destruct (Z.ltb_spec 32 (198000000 / hz)) as [Hs|Hs].
  - assert (hz <= 6000000) as Hle.
    { apply Z.nlt_ge. intros Hlt. apply Z.lt_nge in Hs. apply Hs, Z.lt_succ_r.
      apply Z.div_lt_upper_bound; lia. }
    rewrite (u32_small (hz * 32)) by lia.
    rewrite (proj2 (Z.eqb_neq (hz * 32) 0)) by lia.
    assert (198000000 / (hz * 32) < 16) by (apply Z.div_lt_upper_bound; lia).
    assert (0 <= 198000000 / (hz * 32)) by (apply Z.div_pos; lia).
    rewrite (u8_small (198000000 / (hz * 32))) by lia.
    rewrite (proj2 (Z.ltb_ge CSMODE_PM_MAX _)) by (unfold CSMODE_PM_MAX; lia).
    exists true, (198000000 / (hz * 32)). split; [done|]. split; [lia|]. apply HQ. lia.
  - assert (6187500 < hz) as Hgt.
    { apply Z.nle_gt. intros Hle. apply Z.nlt_ge in Hs. apply Hs.
      apply Z.lt_le_trans with 33; [lia|]. apply Z.div_le_lower_bound; lia. }
    rewrite (u32_small (hz * 2)) by lia.
    rewrite (proj2 (Z.eqb_neq (hz * 2) 0)) by lia.
    assert (198000000 / (hz * 2) < 16) by (apply Z.div_lt_upper_bound; lia).
    assert (0 <= 198000000 / (hz * 2)) by (apply Z.div_pos; lia).
    rewrite (u8_small (198000000 / (hz * 2))) by lia.
    exists false, (198000000 / (hz * 2)). split; [done|]. split; [lia|]. apply HQ. lia.
Qed.

Lemma clock_divider_best_witness :
  exists div16 pm, clock_divider 6500000 = Some (div16, pm) /\ 0 <= pm <= 15 /\
    let d := if div16 : bool then 32 else 2 in
    d * pm * 6500000 <= spibrg < d * (pm + 1) * 6500000.
Proof. refine (clock_divider_best 6500000 _ _); lia. Defined.

(** A speed between 22749 and 24169 Hz is not refused or limited: the
    prescaler is cut to eight bits before it is compared with its maximum, and
    the clock is more than fifteen times the speed asked for. *)
Theorem clock_divider_truncated hz :
  22749 <= hz <= 24169 ->
  exists pm, clock_divider hz = Some (true, pm) /\ 0 <= pm <= 15 /\
    15 * hz * (32 * (pm + 1)) < spibrg.
Proof.
  intros Hhz. unfold clock_divider, spibrg.
  assert (32 < 198000000 / hz) as ->%Z.ltb_lt
    by (apply Z.lt_le_trans with 33; [lia|apply Z.div_le_lower_bound; lia]).
  rewrite (u32_small (hz * 32)) by lia. rewrite (proj2 (Z.eqb_neq (hz * 32) 0)) by lia.
  set (q := 198000000 / (hz * 32)).
  assert (256 <= q) by (apply Z.div_le_lower_bound; lia).
  assert (q < 272) by (apply Z.div_lt_upper_bound; lia).
  assert (u8 q = q - 256) as ->.
  { unfold u8. symmetry. apply Z.mod_unique with 1; lia. }
  rewrite (proj2 (Z.ltb_ge CSMODE_PM_MAX _)) by (unfold CSMODE_PM_MAX; lia).
  exists (q - 256). split; [done|]. split; [lia|].
  pose proof (Z.mul_div_le 198000000 (hz * 32) ltac:(lia)). fold q in H1. nia.
Qed.

Lemma clock_divider_truncated_witness :
  exists pm, clock_divider 24000 = Some (true, pm) /\ 0 <= pm <= 15 /\
    15 * 24000 * (32 * (pm + 1)) < spibrg.
Proof. refine (clock_divider_truncated 24000 _). lia. Defined.

(** ** The mode of a chip select *)

Lemma mode_bit_cases i : 0 <= i < 32 ->
  i = 31 \/ i = 30 \/ i = 29 \/ i = 28 \/ 24 <= i < 28 \/ 20 <= i < 24 \/ 16 <= i < 20 \/ 0 <= i < 16.
Proof. lia. Qed.

Lemma CSMODE_field x n i : 0 <= i < 32 -> 0 <= n ->
  Z.testbit (u32 (Z.shiftl x n)) i = Z.testbit x (i - n).
Proof. intros Hi Hn. unfold u32. rewrite Z.mod_pow2_bits_low by lia. by rewrite Z.shiftl_spec by lia. Qed.

Lemma small_bits x n i : 0 <= n -> 0 <= x < 2 ^ n -> n <= i -> Z.testbit x i = false.
Proof. intros Hn Hx Hi. rewrite <- (Z.mod_small x (2 ^ n)) by lia. by apply Z.mod_pow2_bits_high; lia. Qed.

Lemma neg_bits x i : i < 0 -> Z.testbit x i = false.
Proof. intros. by apply Z.testbit_neg_r. Qed.

(** The bit of a 32-bit constant at each position, by cases. *)
Ltac const_bits i :=
  assert (In i (map Z.of_nat (seq 0 32))) as Hin
    by (apply in_map_iff; exists (Z.to_nat i); split; [lia | apply in_seq; lia]);
  vm_compute in Hin;
  repeat match goal with
  | H : _ \/ _ |- _ => destruct H as [<-|H]
  | H : False |- _ => destruct H
  end.

Lemma if_lor_bit (c : bool) m k i :
  Z.testbit (if c then Z.lor m k else m) i = (Z.testbit m i || (c && Z.testbit k i))%bool.
Proof. destruct c; simpl; [apply Z.lor_spec | by rewrite orb_false_r]. Qed.

Section ModeWord.
Context (SPI_CPHA SPI_CPOL SPI_LSB_FIRST : Z).

(** What the bits of the word mean (the comments of spi.c). *)
Definition mode_bit (old : Z) (d : spi_device) (div16 : bool) (pm i : Z) : bool :=
  if i =? 31 then truth (Z.land (mode d) SPI_CPOL)
  else if i =? 30 then truth (Z.land (mode d) SPI_CPHA)
  else if i =? 29 then negb (truth (Z.land (mode d) SPI_LSB_FIRST))
  else if i =? 28 then div16
  else if 24 <=? i then Z.testbit pm (i - 24)
  else if 20 <=? i then Z.testbit old i
  else if 16 <=? i then Z.testbit (bits_per_word d - 1) (i - 16)
  else Z.testbit old i.

(** The mode word written for a chip select has the polarity, phase, bit
    order, divider, prescaler and word length asked for, each in its field, and
    keeps the other bits (select polarity and timing) as they were. *)
Theorem hw_mode_fields old d div16 pm i :
  0 <= pm <= 15 -> 1 <= bits_per_word d <= 16 -> 0 <= i < 32 ->
  Z.testbit (hw_mode_of SPI_CPHA SPI_CPOL SPI_LSB_FIRST old d div16 pm) i =
    mode_bit old d div16 pm i.
Proof.
  intros Hpm Hb Hi.
  assert (forall n, Z.testbit pm n = (if 4 <=? n then false else Z.testbit pm n)) as Epm.
  { intros n. destruct (Z.leb_spec 4 n); [by apply (small_bits _ 4); lia | done]. }
  assert (forall n, Z.testbit (bits_per_word d - 1) n =
            (if 4 <=? n then false else Z.testbit (bits_per_word d - 1) n)) as Ebw.
  { intros n. destruct (Z.leb_spec 4 n); [by apply (small_bits _ 4); lia | done]. }
  unfold hw_mode_of, mode_bit, CSMODE_LEN, CSMODE_PM.
  set (bw := bits_per_word d - 1) in *.
  rewrite Z.lor_spec, if_lor_bit, Z.lor_spec, Z.land_spec, !if_lor_bit, Z.land_spec,
    (CSMODE_field bw), (CSMODE_field pm), Ebw, Epm by lia. clear Ebw Epm Hb Hpm.
  const_bits i; clear Hi; simpl; rewrite ?(neg_bits bw), ?(neg_bits pm) by lia;
  repeat match goal with |- context [Z.testbit ?c ?k] =>
    match c with old => fail 1 | bw => fail 1 | pm => fail 1 | _ =>
      let v := eval vm_compute in (Z.testbit c k) in change (Z.testbit c k) with v end end;
  rewrite ?andb_true_r, ?andb_false_r, ?orb_false_r, ?orb_true_r; done.
Qed.
End ModeWord.

Lemma hw_mode_fields_witness :
  Z.testbit (hw_mode_of 1 2 8 0x80100008 (SpiDevice 0 6500000 3 8) false 15) 24 = true.
Proof.
  refine (hw_mode_fields 1 2 8 0x80100008 (SpiDevice 0 6500000 3 8) false 15 24 _ _ _);
    simpl; lia.
Defined.

(** ** Bytes as words *)

Fixpoint pack (l : list Z) : list Z :=
  match l with
  | b0 :: b1 :: b2 :: b3 :: l => be32 b0 b1 b2 b3 :: pack l
  | _ => []
  end.

Lemma pack_length n : forall l, length l = (4 * n)%nat -> length (pack l) = n.
Proof.
  induction n as [|n IH]; intros l Hl; [by destruct l|].
  destruct l as [|b0 [|b1 [|b2 [|b3 l]]]]; simpl in Hl; try lia. simpl. f_equal. apply IH. lia.
Qed.

Lemma bytes_pack n : forall l, length l = (4 * n)%nat -> Forall is_byte l -> bytes (pack l) = l.
Proof.
  induction n as [|n IH]; intros l Hl Hb; [by destruct l|].
  destruct l as [|b0 [|b1 [|b2 [|b3 l]]]]; simpl in Hl; try lia.
  rewrite !Forall_cons in Hb. destruct Hb as (H0 & H1 & H2 & H3 & Hb).
  change (bytes (pack (b0 :: b1 :: b2 :: b3 :: l))) with (be32_bytes (be32 b0 b1 b2 b3) ++ bytes (pack l)).
  rewrite bytes_of_be32 by done. simpl. do 4 f_equal. apply IH; [lia|done].
Qed.

Lemma pack_u32 l : Forall is_byte l -> Forall is_u32 (pack l).
Proof.
  revert l. fix IH 1. intros [|b0 [|b1 [|b2 [|b3 l]]]] Hb; try (by constructor).
  rewrite !Forall_cons in Hb. destruct Hb as (H0 & H1 & H2 & H3 & Hb). simpl. constructor; [|by apply IH].
  rewrite be32_value by done. unfold is_byte, is_u32 in *. lia.
Qed.
