(* ===== verification/SpiDrv.v ===== *)
(** * Register access to the FPGA and the clock chip over SPI (drivers/spidrv/spidrv.c)

    The process-wide state is the device descriptor with the address of the
    mapped registers and the semaphore shared with other processes. [sem_ops]
    records the calls on the semaphore, each with the number of register
    accesses made before it. [mapping] is where the registers are mapped: an
    access through a register pointer that is not there, such as [MAP_FAILED],
    is undefined. *)

From S2P Require Import Prelude RegBus SpiCtl.

Definition CHIPSELECT_FPGA : Z := 0.
Definition CHIPSELECT_DPLL : Z := 1.
Definition CHIPSELECT_EPCS : Z := 2.
Definition SPI_FPGA_WR_SINGLE : Z := 0x01.
Definition SPI_FPGA_WR_BURST : Z := 0x02.
Definition SPI_FPGA_RD_BURST : Z := 0x03.
Definition SPI_FPGA_RD_SINGLE : Z := 0x05.
Definition MULTI_REG_LEN_MAX : nat := 512.
Definition MAP_FAILED : Z := 2 ^ 32 - 1.

(** The local arrays [txbuf] and [rxbuf]. *)
Definition zeroed : list Z := replicate (MULTI_REG_LEN_MAX + 2) 0.

Definition fpga_header (single burst addr : Z) (count : nat) : list Z :=
  [if (count =? 1)%nat then single else burst; u8 (Z.land (Z.shiftr addr 8) 0xff);
   u8 (Z.land addr 0xff)].

(** [msb] is or-ed into the first byte (the read bit), the write clears it. *)
Definition dpll_header (read : bool) (addr : Z) (count : nat) : list Z :=
  let address := u16 (Z.land (Z.shiftl addr 1) 0x7ffe) in
  let b0 := u8 (Z.land (Z.shiftr address 8) 0xff) in
  let b1 := u8 (Z.land address 0xff) in
  [if read then Z.lor b0 0x80 else Z.land b0 (u8 (not32 0x80));
   if (1 <? count)%nat then Z.lor b1 0x01 else b1].

(** Calls on the semaphore: [semop] and [semctl] with [SETVAL]. *)
Inductive sem_call := SemOp (op : Z) | SetVal (v : Z).

Section Access.
Context {HW : Type} `{!RegBus spi_reg HW}.
Abbreviation W := (world spi_reg HW).

Definition mix_spi_write (spi : spi_device) (addr : Z) (data : option (list Z)) (count : nat)
  : M W Z :=
  match data with
  | None => mret (-1)
  | Some data =>
      if (MULTI_REG_LEN_MAX <? count)%nat then mret (-1)
      else
        frame ←
          (if chip_select spi =? CHIPSELECT_FPGA then
             src ← lift_opt (buf_read data 0 count);
             tx ← lift_opt (buf_write zeroed 0 (fpga_header SPI_FPGA_WR_SINGLE SPI_FPGA_WR_BURST addr count));
             tx ← lift_opt (buf_write tx 3 src);
             mret (Some (tx, Z.of_nat count + 4))
           else if chip_select spi =? CHIPSELECT_DPLL then
             src ← lift_opt (buf_read data 0 count);
             tx ← lift_opt (buf_write zeroed 0 (dpll_header false addr count));
             tx ← lift_opt (buf_write tx 2 src);
             mret (Some (tx, Z.of_nat count + 2))
           else if chip_select spi =? CHIPSELECT_EPCS then mret (Some (zeroed, 0))
           else mret None);
        match frame with
        | None => mret (-1)
        | Some (tx, len) =>
            r ← spi_transfer spi tx zeroed len;
            if fst r <? 0 then mret (-1) else mret 0
        end
  end.

(** Result and the caller's buffer, into which the data goes at [off]. *)
Definition mix_spi_read (spi : spi_device) (addr : Z) (data : option (list Z)) (off count : nat)
  : M W (Z * option (list Z)) :=
  match data with
  | None => mret (-1, None)
  | Some data =>
      if (MULTI_REG_LEN_MAX <? count)%nat then mret (-1, Some data)
      else
        frame ←
          (if chip_select spi =? CHIPSELECT_FPGA then
             tx ← lift_opt (buf_write zeroed 0
               (fpga_header SPI_FPGA_RD_SINGLE SPI_FPGA_RD_BURST addr count ++ [0]));
             mret (Some (tx, Z.of_nat count + 4))
           else if chip_select spi =? CHIPSELECT_DPLL then
             tx ← lift_opt (buf_write zeroed 0 (dpll_header true addr count));
             mret (Some (tx, Z.of_nat count + 2))
           else if chip_select spi =? CHIPSELECT_EPCS then mret (Some (zeroed, 0))
           else mret None);
        match frame with
        | None => mret (-1, Some data)
        | Some (tx, len) =>
            r ← spi_transfer spi tx zeroed len;
            if fst r <? 0 then mret (-1, Some data)
            else if chip_select spi =? CHIPSELECT_FPGA then
              src ← lift_opt (buf_read (snd r) 4 count);
              data ← lift_opt (buf_write data off src);
              mret (0, Some data)
            else if chip_select spi =? CHIPSELECT_DPLL then
              src ← lift_opt (buf_read (snd r) 2 count);
              data ← lift_opt (buf_write data off src);
              mret (0, Some data)
            else mret (0, Some data)
        end
  end.

(** ** The library's entry points *)

Record drv := Drv {
  spidev : spi_device; spi_reg_ptr : Z; fd_mmap : option Z; mapping : option Z;
  sem_ops : list (sem_call * nat); bus : W
}.

Definition with_spidev (d : spi_device) (s : drv) : drv :=
  Drv d (spi_reg_ptr s) (fd_mmap s) (mapping s) (sem_ops s) (bus s).
Definition with_map (p : Z) (fd m : option Z) (s : drv) : drv :=
  Drv (spidev s) p fd m (sem_ops s) (bus s).
Definition with_sem (l : list (sem_call * nat)) (s : drv) : drv :=
  Drv (spidev s) (spi_reg_ptr s) (fd_mmap s) (mapping s) l (bus s).
Definition with_bus (b : W) (s : drv) : drv :=
  Drv (spidev s) (spi_reg_ptr s) (fd_mmap s) (mapping s) (sem_ops s) b.

Definition usable (s : drv) : bool := bool_decide (mapping s = Some (spi_reg_ptr s)).

Definition on_bus {A} (m : M W A) : M drv A := fun s =>
  if usable s then zoom bus with_bus m s else None.

Definition sem_do (c : sem_call) : M drv unit :=
  modify (fun s => with_sem (sem_ops s ++ [(c, length (log (bus s)))]) s).
Definition semop (op : Z) : M drv unit := sem_do (SemOp op).

(** spi.h *)
Context (SPI_CPHA SPI_CPOL SPI_LSB_FIRST SPI_MODE_3 : Z).

(** Speed, select, mode and word length, then [spi_setup]. *)
Definition select (cs : Z) : M drv unit :=
  modify (with_spidev (SpiDevice cs 6500000 SPI_MODE_3 8));;
  d ← gets spidev;
  r ← on_bus (spi_setup SPI_CPHA SPI_CPOL SPI_LSB_FIRST d);
  modify (with_spidev (snd r)).

Definition fpga_spi_read (addr : Z) (data : option (list Z)) (count : nat)
  : M drv (Z * option (list Z)) :=
  semop (-1);;
  select CHIPSELECT_FPGA;;
  d ← gets spidev;
  r ← on_bus (mix_spi_read d (u16 addr) data 0 count);
  semop 1;;
  mret (0, snd r).

Definition fpga_spi_write (addr : Z) (data : option (list Z)) (count : nat) : M drv Z :=
  semop (-1);;
  select CHIPSELECT_FPGA;;
  d ← gets spidev;
  on_bus (mix_spi_write d (u16 addr) data count);;
  semop 1;;
  mret 0.

(** The loop of [dpll_spi_read]: [n] reads of two bytes, from the [i]-th on. A
    null [data] is refused in the first round; [data + 2 * i] is not null. *)
Fixpoint dpll_read_loop (n i : nat) (addr : Z) (data : option (list Z))
  : M drv (option (list Z)) :=
  match n with
  | O => mret data
  | S n =>
      (match data with
       | None => if (0 <? i)%nat then ub else mret tt
       | Some _ => mret tt
       end);;
      d ← gets spidev;
      r ← on_bus (mix_spi_read d (u16 (addr + 2 * Z.of_nat i)) data (2 * i) 2);
      dpll_read_loop n (S i) addr (snd r)
  end.

Definition dpll_spi_read (addr : Z) (data : option (list Z)) (count : nat)
  : M drv (Z * option (list Z)) :=
  semop (-1);;
  select CHIPSELECT_DPLL;;
  let loop := if (count mod 2 =? 0)%nat then (count / 2)%nat else ((count + 1) / 2)%nat in
  data ← dpll_read_loop loop 0 addr data;
  semop 1;;
  mret (0, data).

Definition dpll_spi_write (addr : Z) (data : option (list Z)) (count : nat) : M drv Z :=
  semop (-1);;
  select CHIPSELECT_DPLL;;
  d ← gets spidev;
  on_bus (mix_spi_write d (u16 addr) data count);;
  semop 1;;
  mret 0.

(** ** Initialisation and exit

    [created]: the result of the exclusive [semget]; [opened]: of the second
    one. *)
Definition spidrv_semlock_init (created opened : Z) : M drv Z :=
  if created =? -1 then
    if opened =? -1 then mret (-1) else mret 0
  else sem_do (SetVal 1);; mret 0.

(** [fd] and [addr]: the results of [open] and [mmap]. *)
Definition spidrv_mmap_init (fd addr : Z) : M drv Z :=
  if fd =? -1 then
    s ← get; put (with_map (spi_reg_ptr s) None (mapping s) s);; mret (-1)
  else
    modify (with_map addr (Some fd) (if addr =? MAP_FAILED then None else Some addr));;
    p ← gets spi_reg_ptr;
    if p =? 0 then mret (-1) else mret 0.

(** [munmap] and [close]; the pointer keeps its value. *)
Definition spidrv_mmap_exit : M drv unit :=
  s ← get; put (with_map (spi_reg_ptr s) None None s).

Fixpoint setup_loop (n : nat) (i : Z) : M drv unit :=
  match n with
  | O => mret tt
  | S n => select i;; setup_loop n (i + 1)
  end.

Definition spidrv_setup_init : M drv Z :=
  p ← gets spi_reg_ptr;
  (if p =? 0 then mret (-1) else on_bus (spi_dev_init true));;
  setup_loop 4 0;;
  mret 0.

Definition spidrv_init (created opened fd addr : Z) : M drv Z :=
  modify (fun s => with_spidev (SpiDevice 0 0 0 0) (with_map 0 (fd_mmap s) (mapping s) s));;
  r ← spidrv_semlock_init created opened;
  if truth r then mret (-1)
  else
    r ← spidrv_mmap_init fd addr;
    if truth r then mret (-1)
    else
      r ← spidrv_setup_init;
      if truth r then mret (-1) else mret 0.

Definition spidrv_exit : M drv Z := spidrv_mmap_exit;; mret 0.
End Access.

(** ** Frames *)

Lemma words_covers len : len <= 4 * Z.of_nat (words len).
Proof.
  unfold words. pose proof (Z.mul_succ_div_gt (len + 3) 4 ltac:(lia)).
  destruct (Z.max_spec 1 ((len + 3) / 4)) as [[? ->]|[? ->]]; lia.
Qed.

Lemma words_round_up len : 1 <= len -> 4 * Z.of_nat (words len) <= len + 3.
Proof.
  intros H. unfold words. pose proof (Z.mul_div_le (len + 3) 4 ltac:(lia)).
  assert (1 <= (len + 3) / 4) by (apply Z.div_le_lower_bound; lia). lia.
Qed.

Lemma zeroed_length : length zeroed = 514%nat.
Proof. apply length_replicate. Qed.

Lemma zeroed_bytes n : Forall is_byte (drop n zeroed).
Proof. apply Forall_drop, Forall_replicate. unfold is_byte. lia. Qed.

Lemma u8_land_ff x : is_byte (u8 (Z.land x 0xff)).
Proof. apply u8_is_byte. Qed.

Lemma fpga_header_bytes single burst addr count :
  is_byte single -> is_byte burst -> Forall is_byte (fpga_header single burst addr count).
Proof.
  intros Hs Hb. unfold fpga_header. rewrite !Forall_cons, Forall_nil.
  split; [by case_match|]. auto using u8_is_byte.
Qed.

Lemma dpll_header_bytes read addr count : Forall is_byte (dpll_header read addr count).
Proof.
  unfold dpll_header. rewrite !Forall_cons, Forall_nil. split; [|split; [|done]].
  - destruct read; [apply lor_range; [lia|apply u8_is_byte | unfold is_byte; lia]|].
    unfold is_byte. pose proof (u8_range (Z.land (Z.shiftr (u16 (Z.land (Z.shiftl addr 1) 0x7ffe)) 8) 0xff)).
    change (u8 (not32 0x80)) with (2 ^ 7 - 1). rewrite land_low by lia.
    pose proof (Z.mod_pos_bound (u8 (Z.land (Z.shiftr (u16 (Z.land (Z.shiftl addr 1) 0x7ffe)) 8) 0xff)) (2 ^ 7)). lia.
  - case_match; [apply lor_range; [lia|apply u8_is_byte | unfold is_byte; lia] | apply u8_is_byte].
Qed.

(** What goes over the wire for a header and data: whole words, the rest zero. *)
Definition frame_words (hdr : list Z) (len : Z) : list Z :=
  pack (take (4 * words len) (hdr ++ drop (length hdr) zeroed)).

Lemma frame_write hdr : (length hdr <= 514)%nat ->
  buf_write zeroed 0 hdr = Some (hdr ++ drop (length hdr) zeroed).
Proof. intros H. rewrite buf_write_Some by (rewrite zeroed_length; lia). done. Qed.

Lemma frame_write_data hdr data : (length hdr + length data <= 514)%nat ->
  buf_write (hdr ++ drop (length hdr) zeroed) (length hdr) data =
    Some ((hdr ++ data) ++ drop (length (hdr ++ data)) zeroed).
Proof.
  intros H. rewrite buf_write_Some by (rewrite length_app, length_drop, zeroed_length; lia).
  f_equal. rewrite take_app_length, <- app_assoc. do 2 f_equal.
  rewrite drop_app_ge by lia. rewrite drop_drop, length_app. f_equal. lia.
Qed.

Section Frames.
Context {HW St : Type} `{!RegBus spi_reg HW} `{!SpiSlave HW St}.
Implicit Types (w : world spi_reg HW) (s : St).

Lemma frame_words_length hdr len : (length hdr <= 514)%nat -> (4 * words len <= 514)%nat ->
  length (frame_words hdr len) = words len.
Proof.
  intros Hh Hl. apply pack_length. rewrite length_take, length_app, length_drop, zeroed_length. lia.
Qed.

Lemma frame_transfer spi hdr len w s :
  ready (dev w) s -> (length hdr <= 514)%nat -> Forall is_byte hdr -> (4 * words len <= 514)%nat ->
  exists w', spi_transfer spi (hdr ++ drop (length hdr) zeroed) zeroed len w =
      Some ((0, bytes (answers s (frame_words hdr len)) ++ drop (4 * words len) zeroed), w') /\
    ready (dev w') (after s (frame_words hdr len)) /\
    sent (log w') = sent (log w) ++ frame_words hdr len.
Proof.
  intros Hr Hh Hb Hl. set (tx := hdr ++ drop (length hdr) zeroed).
  assert (length tx = 514%nat) as Ltx.
  { subst tx. rewrite length_app, length_drop, zeroed_length. lia. }
  assert (Forall is_byte tx) as Btx by (apply Forall_app; split; [done|apply zeroed_bytes]).
  assert (tx = bytes (frame_words hdr len) ++ drop (4 * words len) tx) as Etx.
  { unfold frame_words. fold tx. rewrite (bytes_pack (words len)).
    - by rewrite take_drop. - rewrite length_take. lia. - by apply Forall_take. }
  pose proof (spi_transfer_slave spi (frame_words hdr len) (drop (4 * words len) tx) zeroed len w s)
    as H. rewrite <- Etx, (frame_words_length hdr len), zeroed_length in H by done.
  apply H; [done|done| |lia]. apply pack_u32, Forall_take, Btx.
Qed.

(** A message that does not fit in whole words is read past the buffer. *)
Lemma frame_overrun spi hdr len w s :
  ready (dev w) s -> (length hdr <= 514)%nat -> Forall is_byte hdr -> (514 < 4 * words len)%nat ->
  spi_transfer spi (hdr ++ drop (length hdr) zeroed) zeroed len w = None.
Proof.
  intros Hr Hh Hb Hl. unfold spi_transfer. rewrite bind_unfold, wr_run, bind_unfold, wr_run, bind_unfold.
  set (tx := hdr ++ drop (length hdr) zeroed).
  assert (length tx = 514%nat) as Ltx.
  { subst tx. rewrite length_app, length_drop, zeroed_length. lia. }
  assert (Forall is_byte tx) as Btx by (apply Forall_app; split; [done|apply zeroed_bytes]).
  assert (tx = bytes (pack (take 512 tx)) ++ drop 512 tx) as Etx.
  { rewrite (bytes_pack 128). - by rewrite take_drop. - rewrite length_take. lia.
    - by apply Forall_take. }
  match goal with |- context [transfer_loop _ _ _ _ _ _ ?v] =>
    pose proof (transfer_loop_overrun (pack (take 512 tx)) (S (Z.to_nat len)) len [] (drop 512 tx) []
                  zeroed v s) as H end.
  cbn [app length] in H. rewrite <- Etx in H. rewrite H; [done|..].
  - cbn [dev]. by repeat (apply ready_control; [|auto]).
  - rewrite (pack_length 128) by (rewrite length_take; lia). lia.
  - by apply pack_u32, Forall_take.
  - rewrite length_drop. lia.
  - rewrite (pack_length 128) by (rewrite length_take; lia). rewrite zeroed_length. lia.
Qed.

(** The answer bytes a read takes out of the receive buffer. *)
Lemma answer_slice s hdr len skip count :
  (length hdr <= 514)%nat -> (4 * words len <= 514)%nat -> (skip + count <= 4 * words len)%nat ->
  buf_read (bytes (answers s (frame_words hdr len)) ++ drop (4 * words len) zeroed) skip count =
    Some (take count (drop skip (bytes (answers s (frame_words hdr len))))).
Proof.
  intros Hh Hl Hs.
  assert (length (bytes (answers s (frame_words hdr len))) = (4 * words len)%nat) as HL.
  { by rewrite bytes_length, answers_length, frame_words_length. }
  rewrite buf_read_Some by (rewrite length_app, HL; lia). f_equal.
  rewrite drop_app_le by lia. rewrite take_app_le by (rewrite length_drop; lia). done.
Qed.
End Frames.

(** ** The entry points with a slave that answers *)

Section EntryPoints.
Context {HW St : Type} `{!RegBus spi_reg HW} `{!SpiSlave HW St}.
Context (SPI_CPHA SPI_CPOL SPI_LSB_FIRST SPI_MODE_3 : Z).
Implicit Types (w : world spi_reg HW) (s : St) (d : drv (HW := HW)).

Definition fpga_read_words (addr : Z) (count : nat) : list Z :=
  frame_words (fpga_header SPI_FPGA_RD_SINGLE SPI_FPGA_RD_BURST (u16 addr) count ++ [0])
    (Z.of_nat count + 4).

Definition fpga_write_words (addr : Z) (data : list Z) : list Z :=
  frame_words (fpga_header SPI_FPGA_WR_SINGLE SPI_FPGA_WR_BURST (u16 addr) (length data) ++ data)
    (Z.of_nat (length data) + 4).

Lemma fits len : 1 <= len <= 512 -> (4 * words len <= 514)%nat.
Proof. intros H. pose proof (words_round_up len ltac:(lia)). assert (words len <= 128)%nat; lia. Qed.

Lemma overruns len : 513 <= len -> (514 < 4 * words len)%nat.
Proof. intros H. pose proof (words_covers len). lia. Qed.

Lemma select_ok cs d s :
  usable d = true -> ready (dev (bus d)) s ->
  exists d', select SPI_CPHA SPI_CPOL SPI_LSB_FIRST SPI_MODE_3 cs d = Some (tt, d') /\
    spidev d' = SpiDevice cs 6500000 SPI_MODE_3 8 /\ ready (dev (bus d')) s /\
    usable d' = usable d /\ sem_ops d' = sem_ops d /\
    sent (log (bus d')) = sent (log (bus d)).
Proof.
  intros Hp Hr. unfold select. rewrite bind_unfold, modify_run, bind_unfold, gets_run, bind_unfold.
  unfold on_bus. change (usable (with_spidev _ d)) with (usable d). rewrite Hp. unfold zoom.
  cbn [bus with_spidev spidev].
  unfold spi_setup. cbv zeta. cbn [max_speed_hz bits_per_word chip_select mode].
  change (6500000 =? 0) with false. change (8 =? 0) with false. cbn [max_speed_hz chip_select].
  change (clock_divider 6500000) with (Some (false, 15)).
  rewrite bind_unfold, rd_run, bind_unfold, lift_opt_run, bind_unfold, rd_run, bind_unfold, wr_run,
    bind_unfold, wr_run, bind_unfold, wr_run, ret_unfold, modify_run.
  eexists. split; [reflexivity|]. cbn [spidev with_spidev with_bus bus dev log snd sem_ops].
  split; [done|]. split.
  - repeat (apply ready_control; [|eauto 6]). repeat (apply ready_status; [|eauto 6]). done.
  - repeat (split; [done|]). unfold sent. rewrite !omap_app. simpl. by rewrite !app_nil_r.
Qed.

Lemma mix_read_fpga spi addr dst off count w s :
  ready (dev w) s -> chip_select spi = CHIPSELECT_FPGA ->
  (count <= 508)%nat -> (off + count <= length dst)%nat ->
  exists w', mix_spi_read spi (u16 addr) (Some dst) off count w =
      Some ((0, Some (take off dst ++
               take count (drop 4 (bytes (answers s (fpga_read_words addr count)))) ++
               drop (off + count) dst)), w') /\
    ready (dev w') (after s (fpga_read_words addr count)) /\
    sent (log w') = sent (log w) ++ fpga_read_words addr count.
Proof.
  intros Hr Hcs Hc Hd. unfold mix_spi_read.
  rewrite (proj2 (Nat.ltb_ge MULTI_REG_LEN_MAX count)) by (unfold MULTI_REG_LEN_MAX; lia).
  rewrite Hcs. change (CHIPSELECT_FPGA =? CHIPSELECT_FPGA) with true. cbn iota.
  rewrite frame_write by (simpl; lia). rewrite bind_unfold, bind_unfold, lift_opt_run, ret_unfold.
  set (hdr := fpga_header SPI_FPGA_RD_SINGLE SPI_FPGA_RD_BURST (u16 addr) count ++ [0]).
  assert (Forall is_byte hdr) as Hb.
  { apply Forall_app. split; [apply fpga_header_bytes|]; rewrite ?Forall_singleton;
      unfold is_byte, SPI_FPGA_RD_SINGLE, SPI_FPGA_RD_BURST; lia. }
  pose proof (fits (Z.of_nat count + 4) ltac:(lia)) as Hf.
  destruct (frame_transfer spi hdr (Z.of_nat count + 4) w s Hr ltac:(simpl; lia) Hb Hf)
    as (w' & E & Hr' & S').
  rewrite bind_unfold, E. cbn [fst snd]. change (0 <? 0) with false. cbn iota.
  rewrite answer_slice; [|simpl; lia|done|pose proof (words_covers (Z.of_nat count + 4)); lia].
  rewrite bind_unfold, lift_opt_run, bind_unfold.
  assert (length (take count (drop 4 (bytes (answers s (frame_words hdr (Z.of_nat count + 4)))))) = count) as HL.
  { rewrite length_take, length_drop, bytes_length, answers_length, frame_words_length by (simpl; lia || done).
    pose proof (words_covers (Z.of_nat count + 4)). lia. }
  rewrite buf_write_Some by (rewrite HL; done). rewrite lift_opt_run, ret_unfold, HL.
  eexists. split; [reflexivity|]. done.
Qed.

(** C34: Reading the FPGA sends the read command with the register address and
    gives the caller the bytes the FPGA answers after the four header bytes,
    without touching the rest of its buffer; the semaphore is taken before the
    first and given back after the last access to the controller. This holds up
    to 508 bytes. *)
Theorem fpga_spi_read_ok addr dst count d s :
  usable d = true -> ready (dev (bus d)) s ->
  (count <= 508)%nat -> (count <= length dst)%nat ->
  exists d', fpga_spi_read SPI_CPHA SPI_CPOL SPI_LSB_FIRST SPI_MODE_3 addr (Some dst) count d =
      Some ((0, Some (take count (drop 4 (bytes (answers s (fpga_read_words addr count)))) ++
               drop count dst)), d') /\
    ready (dev (bus d')) (after s (fpga_read_words addr count)) /\
    sent (log (bus d')) = sent (log (bus d)) ++ fpga_read_words addr count /\
    sem_ops d' = sem_ops d ++ [(SemOp (-1), length (log (bus d))); (SemOp 1, length (log (bus d')))].
Proof.
  intros Hp Hr Hc Hd. unfold fpga_spi_read, semop, sem_do. rewrite bind_unfold, modify_run.
  destruct (select_ok CHIPSELECT_FPGA
    (with_sem (sem_ops d ++ [(SemOp (-1), length (log (bus d)))]) d) s Hp Hr)
    as (d1 & E1 & V1 & Hr1 & P1 & O1 & S1).
  rewrite (bind_Some _ _ _ _ _ E1), bind_unfold, gets_run, V1.
  destruct (mix_read_fpga (SpiDevice CHIPSELECT_FPGA 6500000 SPI_MODE_3 8) addr dst 0 count (bus d1) s
              Hr1 eq_refl Hc Hd) as (w2 & E2 & Hr2 & S2).
  rewrite bind_unfold. unfold on_bus, zoom. rewrite P1. change (usable (with_sem _ d)) with (usable d). rewrite Hp, E2.
  rewrite bind_unfold, modify_run, ret_unfold. eexists. split; [reflexivity|].
  cbn [bus with_bus with_sem sem_ops]. split; [done|]. split; [by rewrite S2, S1|].
  rewrite O1. cbn [sem_ops with_sem]. by rewrite <- app_assoc.
Qed.

(** Reading 509 to 512 bytes passes the length check and runs over: the
    message does not fit the 514-byte buffers in whole words. *)
Theorem fpga_spi_read_overrun addr dst count d s :
  usable d = true -> ready (dev (bus d)) s ->
  (509 <= count <= 512)%nat ->
  fpga_spi_read SPI_CPHA SPI_CPOL SPI_LSB_FIRST SPI_MODE_3 addr (Some dst) count d = None.
Proof.
  intros Hp Hr Hc. unfold fpga_spi_read, semop, sem_do. rewrite bind_unfold, modify_run.
  destruct (select_ok CHIPSELECT_FPGA
    (with_sem (sem_ops d ++ [(SemOp (-1), length (log (bus d)))]) d) s Hp Hr)
    as (d1 & E1 & V1 & Hr1 & P1 & O1 & S1).
  rewrite (bind_Some _ _ _ _ _ E1), bind_unfold, gets_run, V1, bind_unfold.
  unfold on_bus, zoom. rewrite P1. change (usable (with_sem _ d)) with (usable d). rewrite Hp. unfold mix_spi_read.
  rewrite (proj2 (Nat.ltb_ge MULTI_REG_LEN_MAX count)) by (unfold MULTI_REG_LEN_MAX; lia).
  cbn [chip_select]. change (CHIPSELECT_FPGA =? CHIPSELECT_FPGA) with true. cbn iota.
  rewrite frame_write by (simpl; lia). rewrite bind_unfold, bind_unfold, lift_opt_run, ret_unfold.
  rewrite bind_unfold, (frame_overrun _ _ _ _ s); [done|done|simpl; lia| |apply overruns; lia].
  apply Forall_app. split; [apply fpga_header_bytes|]; rewrite ?Forall_singleton;
    unfold is_byte, SPI_FPGA_RD_SINGLE, SPI_FPGA_RD_BURST; lia.
Qed.

(** Writing the FPGA sends the write command, the register address and the
    data, padded with zero bytes to whole words; the semaphore is held around
    it. This holds up to 508 bytes. *)
Theorem fpga_spi_write_ok addr data d s :
  usable d = true -> ready (dev (bus d)) s ->
  (length data <= 508)%nat -> Forall is_byte data ->
  exists d', fpga_spi_write SPI_CPHA SPI_CPOL SPI_LSB_FIRST SPI_MODE_3 addr (Some data) (length data) d =
      Some (0, d') /\
    ready (dev (bus d')) (after s (fpga_write_words addr data)) /\
    sent (log (bus d')) = sent (log (bus d)) ++ fpga_write_words addr data /\
    sem_ops d' = sem_ops d ++ [(SemOp (-1), length (log (bus d))); (SemOp 1, length (log (bus d')))].
Proof.
  intros Hp Hr Hc Hbytes. unfold fpga_spi_write, semop, sem_do. rewrite bind_unfold, modify_run.
  destruct (select_ok CHIPSELECT_FPGA
    (with_sem (sem_ops d ++ [(SemOp (-1), length (log (bus d)))]) d) s Hp Hr)
    as (d1 & E1 & V1 & Hr1 & P1 & O1 & S1).
  rewrite (bind_Some _ _ _ _ _ E1), bind_unfold, gets_run, V1, bind_unfold.
  unfold on_bus, zoom. rewrite P1. change (usable (with_sem _ d)) with (usable d). rewrite Hp. unfold mix_spi_write.
  rewrite (proj2 (Nat.ltb_ge MULTI_REG_LEN_MAX (length data))) by (unfold MULTI_REG_LEN_MAX; lia).
  cbn [chip_select]. change (CHIPSELECT_FPGA =? CHIPSELECT_FPGA) with true. cbn iota.
  rewrite buf_read_Some, drop_0, firstn_all by lia.
  set (hdr := fpga_header SPI_FPGA_WR_SINGLE SPI_FPGA_WR_BURST (u16 addr) (length data)).
  rewrite bind_unfold, bind_unfold, lift_opt_run, bind_unfold, frame_write, lift_opt_run by (simpl; lia).
  pose proof (frame_write_data hdr data ltac:(simpl; lia)) as EW. change (length hdr) with 3%nat in EW.
  change (length hdr) with 3%nat. rewrite bind_unfold, EW, lift_opt_run, ret_unfold.
  assert (Forall is_byte (hdr ++ data)) as Hb.
  { apply Forall_app. split; [apply fpga_header_bytes|done];
      unfold is_byte, SPI_FPGA_WR_SINGLE, SPI_FPGA_WR_BURST; lia. }
  destruct (frame_transfer (SpiDevice CHIPSELECT_FPGA 6500000 SPI_MODE_3 8) (hdr ++ data)
    (Z.of_nat (length data) + 4) (bus d1) s Hr1) as (w2 & E2 & Hr2 & S2);
    [rewrite length_app; simpl; lia|done|apply fits; lia|].
  rewrite bind_unfold, E2. cbn [fst]. change (0 <? 0) with false. cbn iota.
  rewrite ret_unfold, bind_unfold, modify_run, ret_unfold. eexists. split; [reflexivity|].
  cbn [bus with_bus with_sem sem_ops]. split; [done|]. split; [by rewrite S2, S1|].
  rewrite O1. cbn [sem_ops with_sem]. by rewrite <- app_assoc.
Qed.

(** *** The clock chip *)

Definition dpll_read_words (addr : Z) : list Z := frame_words (dpll_header true addr 2) 4.

Lemma mix_read_dpll spi addr dst off w s :
  ready (dev w) s -> chip_select spi = CHIPSELECT_DPLL ->
  exists w', mix_spi_read spi addr (Some dst) off 2 w =
      match buf_write dst off (take 2 (drop 2 (bytes (answers s (dpll_read_words addr))))) with
      | Some dst' => Some ((0, Some dst'), w')
      | None => None
      end /\
    ready (dev w') (after s (dpll_read_words addr)) /\
    sent (log w') = sent (log w) ++ dpll_read_words addr.
Proof.
  intros Hr Hcs. unfold mix_spi_read. change (MULTI_REG_LEN_MAX <? 2)%nat with false.
  rewrite Hcs. change (CHIPSELECT_DPLL =? CHIPSELECT_FPGA) with false.
  change (CHIPSELECT_DPLL =? CHIPSELECT_DPLL) with true. cbn iota.
  rewrite frame_write by (simpl; lia). rewrite bind_unfold, bind_unfold, lift_opt_run, ret_unfold.
  destruct (frame_transfer spi (dpll_header true addr 2) 4 w s Hr ltac:(simpl; lia)
              (dpll_header_bytes _ _ _) ltac:(vm_compute; lia)) as (w' & E & Hr' & S').
  exists w'. split; [|done]. rewrite bind_unfold. change (Z.of_nat 2 + 2) with 4. rewrite E. cbn [fst snd].
  change (0 <? 0) with false. cbn iota.
  rewrite answer_slice by (vm_compute; lia). rewrite bind_unfold, lift_opt_run, bind_unfold.
  fold (dpll_read_words addr). by destruct (buf_write dst off _).
Qed.

Lemma dpll_answer_length s addr :
  length (take 2 (drop 2 (bytes (answers s (dpll_read_words addr))))) = 2%nat.
Proof.
  rewrite length_take, length_drop, bytes_length, answers_length.
  unfold dpll_read_words. rewrite frame_words_length by (vm_compute; lia). done.
Qed.

Lemma dpll_loop_overrun n : forall i addr data d s,
  usable d = true -> ready (dev (bus d)) s ->
  chip_select (spidev d) = CHIPSELECT_DPLL -> (length data < 2 * (i + n))%nat -> (0 < n)%nat ->
  dpll_read_loop n i addr (Some data) d = None.
Proof.
  induction n as [|n IH]; intros i addr data d s Hp Hr Hcs Hl Hn; [lia|]. cbn [dpll_read_loop].
  rewrite bind_unfold, ret_unfold, bind_unfold, gets_run, bind_unfold. unfold on_bus, zoom. rewrite Hp.
  destruct (mix_read_dpll (spidev d) (u16 (addr + 2 * Z.of_nat i)) data (2 * i) (bus d) s Hr Hcs)
    as (w' & E & Hr' & _). rewrite E. clear E.
  pose proof (dpll_answer_length s (u16 (addr + 2 * Z.of_nat i))) as HL.
  destruct (buf_write data (2 * i) _) as [data'|] eqn:EW; [|done]. cbn [snd].
  pose proof (buf_write_length _ _ _ _ EW) as EL.
  unfold buf_write in EW. rewrite HL in EW. case_bool_decide; [|done].
  eapply IH; [done|exact Hr'|done| |].
  - rewrite EL. lia.
  - destruct n; [lia|]. lia.
Qed.

(** Reading an odd number of bytes from the clock chip writes one byte past
    the caller's buffer: the bytes are read in pairs, rounded up. *)
Theorem dpll_spi_read_odd_overrun addr dst d s :
  usable d = true -> ready (dev (bus d)) s -> Nat.odd (length dst) = true ->
  dpll_spi_read SPI_CPHA SPI_CPOL SPI_LSB_FIRST SPI_MODE_3 addr (Some dst) (length dst) d = None.
Proof.
  intros Hp Hr Hodd. apply Nat.odd_spec in Hodd as [k Hk].
  unfold dpll_spi_read, semop, sem_do. rewrite bind_unfold, modify_run.
  destruct (select_ok CHIPSELECT_DPLL
    (with_sem (sem_ops d ++ [(SemOp (-1), length (log (bus d)))]) d) s Hp Hr)
    as (d1 & E1 & V1 & Hr1 & P1 & O1 & S1).
  rewrite (bind_Some _ _ _ _ _ E1). change (usable (with_sem _ d)) with (usable d) in P1.
  assert ((length dst mod 2 =? 0)%nat = false) as ->.
  { apply Nat.eqb_neq. rewrite Hk. replace (2 * k + 1)%nat with (1 + k * 2)%nat by lia.
    rewrite Nat.Div0.mod_add. done. }
  assert ((length dst + 1) / 2 = k + 1)%nat as ->.
  { rewrite Hk. replace (2 * k + 1 + 1)%nat with ((k + 1) * 2)%nat by lia. apply Nat.div_mul. lia. }
  rewrite bind_unfold, (dpll_loop_overrun _ _ _ _ d1 s); [done|congruence|done|by rewrite V1|lia|lia].
Qed.

(** The state in which [spidrv_init] maps the registers. *)
Definition before_map (created : Z) (d : drv (HW := HW)) : drv :=
  with_spidev (SpiDevice 0 0 0 0) (with_map 0 (fd_mmap d) (mapping d)
    (if created =? -1 then d
     else with_sem (sem_ops d ++ [(SetVal 1, length (log (bus d)))]) d)).

Lemma init_to_map created opened fd addr d :
  fd <> -1 -> created <> -1 \/ opened <> -1 ->
  spidrv_init SPI_CPHA SPI_CPOL SPI_LSB_FIRST SPI_MODE_3 created opened fd addr d =
    (r ← spidrv_mmap_init fd addr;
     if truth r then mret (-1)
     else
       r ← spidrv_setup_init SPI_CPHA SPI_CPOL SPI_LSB_FIRST SPI_MODE_3;
       if truth r then mret (-1) else mret 0) (before_map created d).
Proof.
  intros Hfd Hsem. unfold spidrv_init, spidrv_semlock_init, before_map, sem_do.
  rewrite bind_unfold, modify_run, bind_unfold.
  destruct (Z.eqb_spec created (-1)); [|done].
  destruct (Z.eqb_spec opened (-1)); [lia|done].
Qed.

Lemma setup_loop_ok n i d s :
  usable d = true -> ready (dev (bus d)) s ->
  exists d', setup_loop SPI_CPHA SPI_CPOL SPI_LSB_FIRST SPI_MODE_3 n i d = Some (tt, d') /\
    usable d' = usable d /\ ready (dev (bus d')) s /\ sem_ops d' = sem_ops d /\
    sent (log (bus d')) = sent (log (bus d)).
Proof.
  revert i d. induction n as [|n IH]; intros i d Hp Hr; cbn [setup_loop]; [by exists d|].
  destruct (select_ok i d s Hp Hr) as (d1 & E1 & _ & Hr1 & P1 & O1 & S1).
  rewrite (bind_Some _ _ _ _ _ E1).
  destruct (IH (i + 1) d1) as (d2 & E2 & P2 & Hr2 & O2 & S2); [congruence|done|].
  exists d2. rewrite E2, P2, O2, S2. auto.
Qed.

Lemma spi_dev_init_ok w s :
  ready (dev w) s ->
  exists w', spi_dev_init true w = Some (0, w') /\ ready (dev w') s /\ sent (log w') = sent (log w).
Proof.
  intros Hr. unfold spi_dev_init. cbn [negb].
  repeat rewrite bind_unfold, wr_run. rewrite ret_unfold. eexists. split; [reflexivity|].
  cbn [dev log]. split.
  - do 5 (apply ready_control; [|eauto 6]). apply ready_clear.
    do 3 (apply ready_control; [|eauto 6]). done.
  - unfold sent. rewrite !omap_app. simpl. by rewrite !app_nil_r.
Qed.

Lemma setup_init_ok d s :
  spi_reg_ptr d <> 0 -> usable d = true -> ready (dev (bus d)) s ->
  exists d', spidrv_setup_init SPI_CPHA SPI_CPOL SPI_LSB_FIRST SPI_MODE_3 d = Some (0, d') /\
    usable d' = usable d /\ ready (dev (bus d')) s /\ sem_ops d' = sem_ops d /\
    sent (log (bus d')) = sent (log (bus d)).
Proof.
  intros H0 Hp Hr. unfold spidrv_setup_init. rewrite bind_unfold, gets_run.
  rewrite (proj2 (Z.eqb_neq (spi_reg_ptr d) 0) H0), bind_unfold. unfold on_bus, zoom. rewrite Hp.
  destruct (spi_dev_init_ok (bus d) s Hr) as (w & -> & Hw & Sw).
  destruct (setup_loop_ok 4 0 (with_bus w d) s Hp Hw) as (d' & E & P & Hr' & O & S').
  rewrite (bind_Some _ _ _ _ _ E), ret_unfold. exists d'. rewrite P, O, S', <- Sw. auto.
Qed.

(** After a successful [spidrv_init] the registers are mapped where the
    pointer points and the slave is ready for its first message: nothing has
    been sent, and the semaphore was set to one by the process that created it
    and by no other. After [spidrv_exit] no access is possible. *)
Theorem spidrv_init_ready created opened fd addr d s :
  fd <> -1 -> created <> -1 \/ opened <> -1 -> addr <> 0 -> addr <> MAP_FAILED ->
  ready (dev (bus d)) s ->
  exists d', spidrv_init SPI_CPHA SPI_CPOL SPI_LSB_FIRST SPI_MODE_3 created opened fd addr d =
      Some (0, d') /\
    usable d' = true /\ ready (dev (bus d')) s /\
    sent (log (bus d')) = sent (log (bus d)) /\
    sem_ops d' = sem_ops d ++
      (if created =? -1 then [] else [(SetVal 1, length (log (bus d)))]) /\
    exists d'', spidrv_exit d' = Some (0, d'') /\ usable d'' = false.
Proof.
  intros Hfd Hsem H0 Hm Hr. rewrite init_to_map by done. unfold spidrv_mmap_init.
  rewrite (proj2 (Z.eqb_neq fd (-1)) Hfd), (proj2 (Z.eqb_neq addr MAP_FAILED) Hm).
  rewrite bind_unfold, bind_unfold, modify_run, bind_unfold, gets_run.
  set (d1 := with_map addr (Some fd) (Some addr) (before_map created d)).
  change (spi_reg_ptr d1) with addr. rewrite (proj2 (Z.eqb_neq addr 0) H0), ret_unfold.
  change (truth 0) with false. cbn iota.
  assert (usable d1 = true) as Hu by (unfold usable; by apply bool_decide_eq_true).
  assert (bus d1 = bus d) as Hb by (unfold d1, before_map; by destruct (created =? -1)).
  destruct (setup_init_ok d1 s H0 Hu) as (d2 & E & P & Hr2 & O & S2); [by rewrite Hb|].
  rewrite (bind_Some _ _ _ _ _ E). exists d2. rewrite P, O, S2, Hb.
  do 4 (split; [done|]). split; [|by eexists].
  unfold d1, before_map. destruct (created =? -1); [by rewrite app_nil_r|done].
Qed.

(** A failed mapping of the registers is not noticed: [mmap] reports failure
    as [MAP_FAILED], the code tests for null, and the initialisation goes on to
    access the registers through that pointer. *)
Theorem spidrv_init_map_failed created opened fd d :
  fd <> -1 -> created <> -1 \/ opened <> -1 ->
  spidrv_init SPI_CPHA SPI_CPOL SPI_LSB_FIRST SPI_MODE_3 created opened fd MAP_FAILED d = None.
Proof.
  intros Hfd Hsem. rewrite init_to_map by done.
  unfold spidrv_mmap_init. rewrite (proj2 (Z.eqb_neq fd (-1)) Hfd). done.
Qed.
End EntryPoints.

(** ** Witnesses, with the controller in loopback *)

Import SpiCtl.Loopback.

Definition ex_drv : drv (HW := option Z) := Drv (SpiDevice 0 0 0 0) 0x48000000 (Some 3) (Some 0x48000000) [] (World None []).

Lemma fpga_spi_read_ok_witness :
  exists d', fpga_spi_read 1 2 8 3 0x1234 (Some [9; 9; 9]) 2 ex_drv =
      Some ((0, Some [0; 0; 9]), d') /\
    ready (dev (bus d')) tt /\
    sent (log (bus d')) = [0x03123400; 0] /\
    sem_ops d' = [(SemOp (-1), 0%nat); (SemOp 1, length (log (bus d')))].
Proof.
  refine (fpga_spi_read_ok 1 2 8 3 0x1234 [9; 9; 9] 2 ex_drv tt _ _ _ _).
  - reflexivity.
  - reflexivity.
  - lia.
  - simpl. lia.
Defined.

Lemma fpga_spi_read_overrun_witness :
  fpga_spi_read 1 2 8 3 0 (Some (replicate 512 0)) 512 ex_drv = None.
Proof.
  refine (fpga_spi_read_overrun 1 2 8 3 0 (replicate 512 0) 512 ex_drv tt _ _ _).
  - reflexivity.
  - reflexivity.
  - lia.
Defined.

Lemma fpga_spi_write_ok_witness :
  exists d', fpga_spi_write 1 2 8 3 0x1234 (Some [0xab]) 1 ex_drv = Some (0, d') /\
    ready (dev (bus d')) tt /\
    sent (log (bus d')) = [0x011234ab; 0] /\
    sem_ops d' = [(SemOp (-1), 0%nat); (SemOp 1, length (log (bus d')))].
Proof.
  refine (fpga_spi_write_ok 1 2 8 3 0x1234 [0xab] ex_drv tt _ _ _ _).
  - reflexivity.
  - reflexivity.
  - simpl. lia.
  - apply Forall_singleton. unfold is_byte. lia.
Defined.

Lemma dpll_spi_read_odd_overrun_witness :
  dpll_spi_read 1 2 8 3 0 (Some [0; 0; 0]) 3 ex_drv = None.
Proof.
  refine (dpll_spi_read_odd_overrun 1 2 8 3 0 [0; 0; 0] ex_drv tt _ _ _); reflexivity.
Defined.

Lemma spidrv_init_map_failed_witness :
  spidrv_init 1 2 8 3 5 0 3 MAP_FAILED ex_drv = None.
Proof.
  refine (spidrv_init_map_failed 1 2 8 3 5 0 3 ex_drv _ _); [lia|left; lia].
Defined.

Lemma spidrv_init_ready_witness :
  exists d', spidrv_init 1 2 8 3 5 0 3 0x48000000 ex_drv = Some (0, d') /\
    usable d' = true /\ ready (dev (bus d')) tt /\
    sent (log (bus d')) = [] /\ sem_ops d' = [(SetVal 1, 0%nat)] /\
    exists d'', spidrv_exit d' = Some (0, d'') /\ usable d'' = false.
Proof.
  refine (spidrv_init_ready 1 2 8 3 5 0 3 0x48000000 ex_drv tt _ _ _ _ _);
    [lia|left; lia|lia|done|reflexivity].
Defined.
