(* ===== verification/SpiMaster.v ===== *)
(** * The SPI core of the kernel (drivers/spi/spi.c, include/linux/spi/spi.h)

    A message is a list of transfers; the core checks it and hands it to the
    controller driver, whose promises are the class [SpiMaster]: [transfer] runs
    a message to its completion and says with what status, how many bytes were
    moved and what was put into the receive buffers. The laws of the class are
    what the driver of this board does, which moves whole words: a transfer may
    store up to three bytes more than its length (SpiStack proves them for
    EspiCtl). The bus keeps the messages that reached the controller, in order. *)

From S2P Require Import Prelude.

Definition SPI_CPHA : Z := 0x01.
Definition SPI_CPOL : Z := 0x02.
Definition SPI_MODE_3 : Z := Z.lor SPI_CPOL SPI_CPHA.
Definition SPI_CS_HIGH : Z := 0x04.
Definition SPI_LSB_FIRST : Z := 0x08.
Definition SPI_3WIRE : Z := 0x10.
Definition SPI_LOOP : Z := 0x20.
Definition SPI_NO_CS : Z := 0x40.
Definition SPI_READY : Z := 0x80.

Definition SPI_MASTER_HALF_DUPLEX : Z := 1.
Definition SPI_MASTER_NO_RX : Z := 2.
Definition SPI_MASTER_NO_TX : Z := 4.

(** [struct spi_device], the fields that matter. *)
Record kspi := KSpi { chip_select : Z; mode : Z; bits_per_word : Z; max_speed_hz : Z }.

(** [struct spi_transfer]: the bytes of [tx_buf] ([None]: null), whether
    [rx_buf] is given, and the length. *)
Record xfer := Xfer { tx_buf : option (list Z); rx_buf : bool; len : nat }.

(** What completes a message: [rx] has, for each transfer, the bytes put into
    its [rx_buf]. *)
Record outcome := Outcome { status : Z; actual_length : Z; rx : list (list Z) }.

(** The bytes of the whole words that hold [n] bytes. *)
Definition whole (n : nat) : nat := 4 * ((n + 3) / 4).

Lemma whole_bounds n : (n <= whole n < n + 4)%nat.
Proof.
  unfold whole. pose proof (Nat.div_mod_eq (n + 3) 4). pose proof (Nat.mod_upper_bound (n + 3) 4 ltac:(lia)). lia.
Qed.

Lemma whole_le n k : (n <= 4 * k)%nat -> (whole n <= 4 * k)%nat.
Proof. unfold whole. intros Hn. assert ((n + 3) / 4 < k + 1)%nat; [apply Nat.Div0.div_lt_upper_bound|]; lia. Qed.

Class SpiMaster (H : Type) := {
  mode_bits : Z;
  flags : Z;
  master_setup : kspi -> H -> Z * H;
  transfer : kspi -> list xfer -> H -> outcome * H;
  (** a transfer puts no more than the whole words of its length into the receive
      buffer *)
  transfer_rx k xs h :
    Forall2 (fun x l => (length l <= whole (len x))%nat) xs (rx (fst (transfer k xs h)));
  (** and at least its length when the message succeeds *)
  transfer_done k xs h : status (fst (transfer k xs h)) = 0 ->
    Forall2 (fun x l => rx_buf x = true -> (len x <= length l)%nat) xs
      (rx (fst (transfer k xs h))) /\
    actual_length (fst (transfer k xs h)) = Z.of_nat (sum_list_with len xs)
}.

Record bus (H : Type) := Bus { hw : H; messages : list (kspi * list xfer) }.
Arguments Bus {_} _ _.
Arguments hw {_} _.
Arguments messages {_} _.

Section Core.
Context {H : Type} `{!SpiMaster H}.

Definition bad_direction (x : xfer) : bool :=
  let tx := bool_decide (is_Some (tx_buf x)) in
  (rx_buf x && tx) || (truth (Z.land flags SPI_MASTER_NO_TX) && tx) ||
  (truth (Z.land flags SPI_MASTER_NO_RX) && rx_buf x).

(** [spi_async] and the wait for the completion; the second component says
    whether the message was queued at all. *)
Definition spi_async (k : kspi) (xs : list xfer) : M (bus H) outcome := fun b =>
  if (truth (Z.land flags SPI_MASTER_HALF_DUPLEX) || truth (Z.land (mode k) SPI_3WIRE)) &&
     existsb bad_direction xs
  then Some (Outcome (- EINVAL) 0 (map (fun _ => []) xs), b)
  else Some (fst (transfer k xs (hw b)),
             Bus (snd (transfer k xs (hw b))) (messages b ++ [(k, xs)])).

Definition spi_sync (k : kspi) (xs : list xfer) : M (bus H) outcome := spi_async k xs.

(** [spi_write]: [len] bytes of a buffer. *)
Definition spi_write (k : kspi) (buf : list Z) (n : nat) : M (bus H) Z :=
  data ← lift_opt (buf_read buf 0 n);
  o ← spi_sync k [Xfer (Some data) false n];
  mret (status o).

(** Result and the device, whose word length gets its default. *)
Definition spi_setup (k : kspi) : M (bus H) (Z * kspi) := fun b =>
  if truth (Z.land (mode k) (not32 mode_bits)) then Some ((- EINVAL, k), b)
  else
    let k := if bits_per_word k =? 0
             then KSpi (chip_select k) (mode k) 8 (max_speed_hz k) else k in
    let r := master_setup k (hw b) in
    Some ((fst r, k), Bus (snd r) (messages b)).

Lemma spi_sync_total k xs b : is_Some (spi_sync k xs b).
Proof. unfold spi_sync, spi_async. case_match; by eexists. Qed.

(** A full-duplex controller and a device without 3-wire mode: the message
    reaches the controller. *)
Lemma spi_sync_run k xs b :
  truth (Z.land flags SPI_MASTER_HALF_DUPLEX) = false ->
  truth (Z.land (mode k) SPI_3WIRE) = false ->
  spi_sync k xs b = Some (fst (transfer k xs (hw b)),
                      Bus (snd (transfer k xs (hw b))) (messages b ++ [(k, xs)])).
Proof. intros H1 H2. unfold spi_sync, spi_async. by rewrite H1, H2. Qed.

(** What a message of one transfer receives. *)
Lemma spi_sync_rx k x b o b' :
  spi_sync k [x] b = Some (o, b') -> exists l, rx o = [l] /\ (length l <= whole (len x))%nat.
Proof.
  unfold spi_sync, spi_async. case_match; intros E; simplify_eq/=.
  - exists []. split; [done|simpl; lia].
  - pose proof (transfer_rx k [x] (hw b)) as HF. inversion HF as [|? l ? ls Hl Hn E1 E2]; subst.
    inversion Hn; subst. eauto.
Qed.

(** Messages are only ever appended. *)
Definition sends {A} (P : kspi * list xfer -> Prop) (m : M (bus H) A) : Prop :=
  forall b a b', m b = Some (a, b') -> exists l, messages b' = messages b ++ l /\ Forall P l.

Lemma sends_ret {A} P (a : A) : sends P (mret a).
Proof. intros b a' b' E. rewrite ret_unfold in E. simplify_eq. exists []. by rewrite app_nil_r. Qed.

Lemma sends_lift_opt {A} P (o : option A) : sends P (lift_opt o).
Proof.
  intros b a b' E. destruct o; [|by rewrite lift_opt_None in E].
  rewrite lift_opt_run in E. simplify_eq. exists []. by rewrite app_nil_r.
Qed.

Lemma sends_bind {A B} P (m : M (bus H) A) (f : A -> M (bus H) B) :
  sends P m -> (forall a, sends P (f a)) -> sends P (m ≫= f).
Proof.
  intros Hm Hf b c b2 E. apply bind_inv in E as (a & b1 & E1 & E2).
  destruct (Hm _ _ _ E1) as (l1 & M1 & F1), (Hf _ _ _ _ E2) as (l2 & M2 & F2).
  exists (l1 ++ l2). rewrite M2, M1, app_assoc. split; [done|]. by apply Forall_app.
Qed.

Lemma sends_sync P k xs : P (k, xs) -> sends P (spi_sync k xs).
Proof.
  intros HP b a b' E. unfold spi_sync, spi_async in E. case_match; simplify_eq/=.
  - exists []. by rewrite app_nil_r.
  - exists [(k, xs)]. split; [done|]. by apply Forall_singleton.
Qed.

Lemma sends_ub {A} P : sends P (ub : M (bus H) A).
Proof. by intros b a b' E. Qed.
End Core.

#[export] Hint Resolve sends_ret sends_lift_opt sends_ub : board.

(** A controller that answers zeros, in whole words, for closed examples. *)
Module NullMaster.
#[export] Program Instance null_master : SpiMaster unit := {|
  mode_bits := 0xff;
  flags := 0;
  master_setup _ h := (0, h);
  transfer _ xs h :=
    (Outcome 0 (Z.of_nat (sum_list_with len xs)) (map (fun x => replicate (whole (len x)) 0) xs), h)
|}.
Next Obligation.
  intros k xs []. simpl. clear k. induction xs as [|x xs IH]; simpl; constructor; [|done].
  by rewrite length_replicate.
Qed.
Next Obligation.
  intros k xs [] _. simpl. split; [|done]. clear k.
  induction xs as [|x xs IH]; simpl; constructor; [|done]. intros _. rewrite length_replicate. apply whole_bounds.
Qed.
End NullMaster.
