(* ===== verification/W25p16.v ===== *)
(** * The serial flash behind the FPGA (drivers/spi/w25p16.c, w25p16.h)

    Commands to the flash chip as SPI messages. The local arrays of the
    functions are lists; an access outside them is undefined, and so is a mutex
    taken twice (the call would never return). Arrays the source does not
    initialise are an argument. *)

From S2P Require Import Prelude SpiMaster.

Definition FLASH_PAGESIZE : Z := 256.
Definition OPCODE_WREN : Z := 0x06.
Definition OPCODE_RDSR : Z := 0x05.
Definition OPCODE_WRSR : Z := 0x01.
Definition OPCODE_READ : Z := 0x03.
Definition OPCODE_PP : Z := 0x02.
Definition OPCODE_CHIP_ERASE : Z := 0xc7.
Definition OPCODE_SE : Z := 0xd8.
Definition SR_WIP : Z := 1.
Definition MAX_READY_WAIT_COUNT : nat := Z.to_nat 100000.
Definition CMD_SIZE : nat := 4.
Definition EIO : Z := 5.

(** Opcode and 24-bit address. *)
Definition command_bytes (op addr : Z) : list Z :=
  [op; u8 (Z.shiftr addr 16); u8 (Z.shiftr addr 8); u8 addr].

Definition u64 (z : Z) : Z := z mod 2 ^ 64.

Section Flash.
Context {H : Type} `{!SpiMaster H}.

Record w25p := W25p {
  spi : kspi; lock : bool; size : Z; erasesize : Z; command : list Z; fbus : bus H
}.

Definition with_fbus (b : bus H) (f : w25p) : w25p :=
  W25p (spi f) (lock f) (size f) (erasesize f) (command f) b.
Definition with_lock (l : bool) (f : w25p) : w25p :=
  W25p (spi f) l (size f) (erasesize f) (command f) (fbus f).
Definition with_command (c : list Z) (f : w25p) : w25p :=
  W25p (spi f) (lock f) (size f) (erasesize f) c (fbus f).

Definition on_bus {A} (m : M (bus H) A) : M w25p A := zoom fbus with_fbus m.

Definition mutex_lock : M w25p unit := fun f =>
  if lock f then None else Some (tt, with_lock true f).
Definition mutex_unlock : M w25p unit := fun f =>
  if lock f then Some (tt, with_lock false f) else None.

(** Store into [flash->command] from its start. *)
Definition set_command (off : nat) (bs : list Z) : M w25p unit :=
  c ← gets command;
  c ← lift_opt (buf_write c off bs);
  modify (with_command c).

(** A full-duplex message between two local arrays of [n] bytes: status and the
    receive array. *)
Definition exchange (tx rxb : list Z) (n : nat) : M w25p (outcome * list Z) :=
  k ← gets spi;
  data ← lift_opt (buf_read tx 0 n);
  _ ← lift_opt (buf_read rxb 0 n);
  o ← on_bus (spi_sync k [Xfer (Some data) true n]);
  rxb ← lift_opt (buf_write rxb 0 (concat (rx o)));
  mret (o, rxb).

Definition read_sr : M w25p Z :=
  r ← exchange (OPCODE_RDSR :: replicate 13 0) (replicate 14 0) 2;
  if status (fst r) <? 0 then mret (status (fst r))
  else lift_opt (snd r !! 1%nat).

Definition write_sr (val : Z) : M w25p Z :=
  set_command 0 [OPCODE_WRSR; u8 val];;
  k ← gets spi;
  c ← gets command;
  on_bus (spi_write k c 2).

Definition write_enable : M w25p Z :=
  k ← gets spi;
  on_bus (spi_write k [OPCODE_WREN] 1).

Fixpoint ready_loop (count : nat) : M w25p Z :=
  match count with
  | O => mret 1
  | S count =>
      sr ← read_sr;
      if sr <? 0 then mret 1
      else if negb (truth (Z.land sr SR_WIP)) then mret 0
      else ready_loop count
  end.

Definition wait_till_ready : M w25p Z := ready_loop MAX_READY_WAIT_COUNT.

Definition erase_chip : M w25p Z :=
  r ← wait_till_ready;
  if truth r then mret 1
  else
    write_enable;;
    set_command 0 [OPCODE_CHIP_ERASE];;
    k ← gets spi;
    c ← gets command;
    on_bus (spi_write k c 1);;
    mret 0.

Definition erase_sector (offset : Z) : M w25p Z :=
  r ← wait_till_ready;
  if truth r then mret 1
  else
    write_enable;;
    set_command 0 (command_bytes OPCODE_SE offset);;
    k ← gets spi;
    c ← gets command;
    on_bus (spi_write k c CMD_SIZE);;
    mret 0.

(** The loop of [w25p16_erase]: [true] when a sector failed. Out of fuel only
    when [len] is not a multiple of a positive sector size. *)
Fixpoint erase_loop (fuel : nat) (addr n : Z) : M w25p bool :=
  if n =? 0 then mret false
  else match fuel with
  | O => ub
  | S fuel =>
      r ← erase_sector addr;
      if truth r then mret true
      else
        e ← gets erasesize;
        erase_loop fuel (u32 (addr + e)) (u32 (n - e))
  end.

(** Result and whether the request was marked done. *)
Definition w25p16_erase (addr n : Z) : M w25p (Z * bool) :=
  sz ← gets size;
  e ← gets erasesize;
  if sz <? u64 (addr + n) then mret (- EINVAL, false)
  else if e =? 0 then ub
  else if negb (n mod e =? 0) then mret (- EINVAL, false)
  else
    mutex_lock;;
    r ← (if u32 n =? sz then erase_chip else mret 0);
    if truth r then mutex_unlock;; mret (- EIO, false)
    else
      failed ← erase_loop (Z.to_nat (u32 n)) (u32 addr) (u32 n);
      mutex_unlock;;
      if failed : bool then mret (- EIO, false) else mret (0, true).

(** [stack]: the initial contents of [tx_buf], [stack'] of [rx_buf]. Result,
    [*retlen] (unless returned early) and the caller's buffer. *)
Definition w25p16_read (stack stack' : list Z) (from : Z) (n : nat) (buf : list Z)
  : M w25p (Z * option Z * list Z) :=
  sz ← gets size;
  if (n =? 0)%nat then mret (0, None, buf)
  else if sz <? u64 (from + Z.of_nat n) then mret (- EINVAL, None, buf)
  else
    tx ← lift_opt (buf_write stack 0 (command_bytes OPCODE_READ from));
    mutex_lock;;
    r ← wait_till_ready;
    if truth r then mutex_unlock;; mret (1, Some 0, buf)
    else
      set_command 0 (command_bytes OPCODE_READ from);;
      o ← exchange tx stack' (CMD_SIZE + n);
      data ← lift_opt (buf_read (snd o) 4 n);
      buf ← lift_opt (buf_write buf 0 data);
      mutex_unlock;;
      mret (0, Some (u32 (actual_length (fst o) - 4)), buf).

(** The message of [w25p16_write]: the first [n] bytes of [tx_buf]. *)
Definition send (tx : list Z) (n : nat) : M w25p outcome :=
  k ← gets spi;
  data ← lift_opt (buf_read tx 0 n);
  on_bus (spi_sync k [Xfer (Some data) false n]).

(** The loop over the following pages, from offset [i]: it returns [*retlen]. *)
Fixpoint page_loop (fuel : nat) (tx : list Z) (to i n retlen : Z) : M w25p Z :=
  if n <=? i then mret retlen
  else match fuel with
  | O => ub
  | S fuel =>
      let page_size := if FLASH_PAGESIZE <? n - i then FLASH_PAGESIZE else n - i in
      set_command 1 [u8 (Z.shiftr (to + i) 16); u8 (Z.shiftr (to + i) 8); u8 (to + i)];;
      wait_till_ready;;
      write_enable;;
      o ← send tx CMD_SIZE;
      page_loop fuel tx to (i + page_size) n (u32 (retlen + (actual_length o - 4)))
  end.

Definition w25p16_write (to : Z) (n : nat) (buf : list Z) : M w25p (Z * Z) :=
  sz ← gets size;
  if (n =? 0)%nat then mret (0, 0)
  else if sz <? u64 (to + Z.of_nat n) then mret (- EINVAL, 0)
  else
    mutex_lock;;
    r ← wait_till_ready;
    if truth r then mutex_unlock;; mret (1, 0)
    else
      write_enable;;
      tx ← lift_opt (buf_write (replicate 256 0) 0 (command_bytes OPCODE_PP to));
      let page_offset := u32 (Z.rem to FLASH_PAGESIZE) in
      retlen ←
        (if u32 (page_offset + Z.of_nat n) <=? FLASH_PAGESIZE then
           data ← lift_opt (buf_read buf 0 n);
           tx ← lift_opt (buf_write tx 4 data);
           o ← send tx (CMD_SIZE + n);
           mret (u32 (actual_length o - 4))
         else
           let page_size := u32 (FLASH_PAGESIZE - page_offset) in
           o ← send tx CMD_SIZE;
           page_loop n tx to page_size (Z.of_nat n) (u32 (actual_length o - 4)));
      mutex_unlock;;
      mret (0, retlen).

(** Both print what they receive. *)
Definition w25p16_read_id : M w25p (list Z) :=
  r ← exchange ([0x90; 0x00; 0x00; 0x00] ++ replicate 10 0) (replicate 14 0) 6;
  mret (take 6 (snd r)).

Definition w25p16_read_test : M w25p (list Z) :=
  r ← exchange ([0x30; 0x00; 0x10; 0x00] ++ replicate 10 0) (replicate 14 0) 6;
  mret (take 6 (snd r)).
End Flash.

(** ** What each operation sends *)

Definition message : Type := kspi * list xfer.
Definition tx_message (k : kspi) (bs : list Z) : message := (k, [Xfer (Some bs) false (length bs)]).
Definition poll_message (k : kspi) : message := (k, [Xfer (Some [OPCODE_RDSR; 0]) true 2]).

Section Ops.
Context {H : Type} `{!SpiMaster H}.
Context (full_duplex : truth (Z.land flags SPI_MASTER_HALF_DUPLEX) = false).
Abbreviation F := (w25p (H := H)).
Implicit Types f : F.

Definition good f : Prop :=
  length (command f) = 4%nat /\ truth (Z.land (mode (spi f)) SPI_3WIRE) = false.

(** The configuration of the chip is not touched. *)
Definition same f f' : Prop :=
  spi f' = spi f /\ lock f' = lock f /\ size f' = size f /\ erasesize f' = erasesize f /\
  length (command f') = length (command f).

(** [m] has defined behaviour on [f] and its result and messages satisfy [T]. *)
Definition does {A} (T : A -> list message -> Prop) (m : M F A) (f : F) : Prop :=
  exists a f' l, m f = Some (a, f') /\ same f f' /\
    messages (fbus f') = messages (fbus f) ++ l /\ T a l.

Lemma same_good f f' : same f f' -> good f -> good f'.
Proof. intros (E & _ & _ & _ & L) [H1 H2]. split; [by rewrite L | by rewrite E]. Qed.

Lemma same_trans f1 f2 f3 : same f1 f2 -> same f2 f3 -> same f1 f3.
Proof. unfold same. intuition congruence. Qed.

Lemma does_ret {A} (T : A -> list message -> Prop) a f : T a [] -> does T (mret a) f.
Proof. intros HT. exists a, f, []. rewrite app_nil_r. repeat split; done. Qed.

Lemma does_gets {A} (T : A -> list message -> Prop) g f : T (g f) [] -> does T (gets g) f.
Proof. intros HT. exists (g f), f, []. rewrite app_nil_r. repeat split; done. Qed.

Lemma does_lift {A} (T : A -> list message -> Prop) o a f :
  o = Some a -> T a [] -> does T (lift_opt o) f.
Proof. intros -> HT. exists a, f, []. rewrite app_nil_r. repeat split; done. Qed.

Lemma does_bind {A B} (T1 : A -> list message -> Prop) (T : B -> list message -> Prop)
    (m : M F A) (g : A -> M F B) f :
  does T1 m f ->
  (forall a l1 f', same f f' -> T1 a l1 -> does (fun b l2 => T b (l1 ++ l2)) (g a) f') ->
  does T (m ≫= g) f.
Proof.
  intros (a & f1 & l1 & E1 & S1 & M1 & H1) Hg.
  destruct (Hg a l1 f1 S1 H1) as (b & f2 & l2 & E2 & S2 & M2 & H2).
  exists b, f2, (l1 ++ l2). rewrite (bind_Some _ _ _ _ _ E1). split; [done|].
  split; [by eapply same_trans|]. by rewrite M2, M1, app_assoc.
Qed.

Lemma does_mono {A} (T T' : A -> list message -> Prop) (m : M F A) f :
  does T m f -> (forall a l, T a l -> T' a l) -> does T' m f.
Proof. intros (a & f' & l & E & S & Hm & HT) Himp. exists a, f', l. auto. Qed.

Lemma does_sync k xs f : truth (Z.land (mode k) SPI_3WIRE) = false ->
  does (fun o l => o = fst (transfer k xs (hw (fbus f))) /\ l = [(k, xs)])
    (on_bus (spi_sync k xs)) f.
Proof.
  intros Hk. unfold does, on_bus, zoom. rewrite (spi_sync_run k xs _ full_duplex Hk).
  eexists _, _, _. split; [reflexivity|]. split; [by repeat split|]. split; [reflexivity|]. done.
Qed.

Lemma does_write k buf n f : truth (Z.land (mode k) SPI_3WIRE) = false -> (n <= length buf)%nat ->
  does (fun _ l => l = [tx_message k (take n buf)]) (on_bus (spi_write k buf n)) f.
Proof.
  intros Hk Hn. unfold does, spi_write, on_bus, zoom.
  rewrite buf_read_Some, bind_unfold, lift_opt_run, bind_unfold, (spi_sync_run _ _ _ full_duplex Hk),
    ret_unfold by done.
  eexists _, _, _. split; [reflexivity|]. split; [by repeat split|]. split; [reflexivity|].
  unfold tx_message. by rewrite drop_0, length_take, Nat.min_l.
Qed.

Lemma does_set_command off bs f : (off + length bs <= length (command f))%nat ->
  does (fun _ l => l = []) (set_command off bs) f.
Proof.
  intros Hl. unfold set_command.
  eexists tt, _, []. split.
  - rewrite bind_unfold, gets_run, buf_write_Some by done. reflexivity.
  - split; [|simpl; by rewrite app_nil_r]. repeat split; try done. simpl.
    rewrite !length_app, length_take, length_drop. lia.
Qed.

Lemma does_exchange tx rxb n f : good f -> (n <= length tx)%nat -> (whole n <= length rxb)%nat ->
  does (fun r l => length (snd r) = length rxb /\
          (exists data, rx (fst r) = [data] /\ buf_write rxb 0 data = Some (snd r) /\
             (status (fst r) = 0 -> (n <= length data)%nat /\ actual_length (fst r) = Z.of_nat n)) /\
          (exists h, fst r = fst (transfer (spi f) [Xfer (Some (take n tx)) true n] h)) /\
          l = [(spi f, [Xfer (Some (take n tx)) true n])])
    (exchange tx rxb n) f.
Proof.
  intros [_ Hk] Ht Hr. pose proof (whole_bounds n) as Hw. unfold exchange.
  set (k := spi f) in *. set (x := Xfer (Some (take n tx)) true n).
  pose proof (transfer_rx k [x] (hw (fbus f))) as HF.
  inversion HF as [|? data ? ls Hl Hn E1 E2]; subst. inversion Hn; subst. clear HF Hn.
  eexists (fst (transfer k [x] (hw (fbus f))), _), _, _. split; [|split; [|split; [|split; [|split; [|split]]]]].
  - rewrite bind_unfold, gets_run, (buf_read_Some tx), (buf_read_Some rxb) by lia.
    rewrite bind_unfold, lift_opt_run, bind_unfold, lift_opt_run, drop_0, bind_unfold.
    unfold on_bus, zoom. fold k. fold x. rewrite (spi_sync_run k [x] _ full_duplex Hk), <- E2. cbn [concat].
    rewrite app_nil_r, bind_unfold, buf_write_Some by (simpl in Hl; lia). reflexivity.
  - by repeat split.
  - reflexivity.
  - cbn [snd]. eapply (buf_write_length rxb 0 data). apply buf_write_Some. simpl in *. lia.
  - exists data. cbn [fst snd]. split; [done|]. split; [apply buf_write_Some; simpl in *; lia|].
    intros Hs. destruct (transfer_done k [x] (hw (fbus f)) Hs) as [HD HA]. rewrite <- E2 in HD.
    inversion HD as [|? ? ? ? Hd]; subst. split; [by apply Hd|]. rewrite HA. simpl. lia.
  - by eexists.
  - done.
Qed.

(** *** Commands *)

Lemma does_read_sr f : good f -> does (fun _ l => l = [poll_message (spi f)]) read_sr f.
Proof.
  intros G. unfold read_sr. eapply does_bind; [apply does_exchange; [done|simpl; lia|vm_compute; lia]|].
  intros [o rxb] l1 f1 S1 (L & _ & _ & ->). cbn [fst snd] in *.
  destruct (status o <? 0); [by apply does_ret|].
  destruct (lookup_lt_is_Some_2 rxb 1) as [v E]; [rewrite L; simpl; lia|].
  by eapply does_lift.
Qed.

Definition polls (k : kspi) (l : list message) : Prop :=
  exists n, l = replicate n (poll_message k) /\ (n <= MAX_READY_WAIT_COUNT)%nat.

Lemma does_ready_loop count : forall f, good f ->
  does (fun r l => (r = 0 \/ r = 1) /\
          exists n, l = replicate n (poll_message (spi f)) /\ (n <= count)%nat) (ready_loop count) f.
Proof.
  induction count as [|count IH]; intros f G.
  - apply does_ret. split; [auto|]. by exists 0%nat.
  - cbn [ready_loop]. eapply does_bind; [by apply does_read_sr|].
    intros sr l1 f1 S1 ->. destruct (sr <? 0).
    { apply does_ret. split; [auto|]. exists 1%nat. split; [done|lia]. }
    destruct (negb _).
    { apply does_ret. split; [auto|]. exists 1%nat. split; [done|lia]. }
    eapply does_mono; [apply IH; by eapply same_good|].
    intros r l (Hr & n & -> & Hn). split; [done|]. destruct S1 as (-> & _).
    exists (S n). split; [done|lia].
Qed.

Lemma does_wait f : good f ->
  does (fun r l => (r = 0 \/ r = 1) /\ polls (spi f) l) wait_till_ready f.
Proof. apply does_ready_loop. Qed.

Lemma does_write_enable f : good f ->
  does (fun _ l => l = [tx_message (spi f) [OPCODE_WREN]]) write_enable f.
Proof.
  intros G. unfold write_enable. eapply does_bind; [by apply (does_gets (fun k l => k = spi f /\ l = []))|].
  intros k l1 f1 S1 [-> ->]. eapply does_mono; [apply does_write; [apply G|done]|]. done.
Qed.

(** A command from [flash->command] that was just stored there. *)
Lemma does_command bs f : good f -> (length bs <= 4)%nat ->
  does (fun r l => r = 0 /\ l = [tx_message (spi f) bs])
    (set_command 0 bs;; (k ← gets spi; c ← gets command; on_bus (spi_write k c (length bs));; mret 0)) f.
Proof.
  intros [G1 G2] Hb. pose proof G1 as G1'. unfold does, set_command.
  rewrite bind_unfold, bind_unfold, gets_run, buf_write_Some, bind_unfold, lift_opt_run, modify_run by lia.
  rewrite bind_unfold, gets_run, bind_unfold, gets_run. cbn [spi command with_command].
  match goal with |- context [on_bus (spi_write _ ?c _) ≫= _] =>
    destruct (does_write (spi f) c (length bs)
      (with_command c f)) as (r & f' & l & E & S & M & ->) end.
  { done. } { rewrite !length_app. simpl. lia. }
  rewrite bind_unfold, E, ret_unfold. eexists _, _, _. split; [reflexivity|].
  split; [|split; [exact M|split; [done|]]].
  - destruct S as (S1 & S2 & S3 & S4 & S5). repeat split; try done. rewrite S5. cbn [command with_command].
    rewrite !length_app, length_take, length_drop. simpl. lia.
  - rewrite take_0. cbn [app]. by rewrite take_app_length.
Qed.

(** ** Correctness *)

Definition sector_message (k : kspi) (offset : Z) : message :=
  tx_message k (command_bytes OPCODE_SE offset).
Definition wren_message (k : kspi) : message := tx_message k [OPCODE_WREN].
Definition program_message (k : kspi) (to : Z) (data : list Z) : message :=
  tx_message k (command_bytes OPCODE_PP to ++ data).

(** The wait for the chip ends with [r]. *)
Definition waits (r : Z) f : Prop := exists f', wait_till_ready f = Some (r, f').

(** Waiting for the chip, write enable and a command: what [erase_sector] and
    [erase_chip] do. *)
Lemma does_wait_command bs f : good f -> (length bs <= 4)%nat ->
  does (fun r l => exists ps, polls (spi f) ps /\ waits r f /\
          (r = 1 /\ l = ps \/ r = 0 /\ l = ps ++ [wren_message (spi f); tx_message (spi f) bs]))
    (r ← wait_till_ready;
     if truth r then mret 1
     else
       write_enable;;
       set_command 0 bs;;
       k ← gets spi; c ← gets command; on_bus (spi_write k c (length bs));; mret 0) f.
Proof.
  intros G Hb. eapply (does_bind (fun r l => waits r f /\ (r = 0 \/ r = 1) /\ polls (spi f) l)).
  { destruct (does_wait f G) as (r & f1 & l & E & HT). exists r, f1, l. rewrite E.
    split; [done|]. by repeat split; try apply HT; exists f1. }
  intros r ps f1 S1 (Hw & Hr & Hps). pose proof (same_good _ _ S1 G) as G1. destruct S1 as (K1 & _).
  destruct Hr as [-> | ->]; cbn iota beta; [change (truth 0) with false | change (truth 1) with true]; cbn iota.
  - eapply does_bind; [by apply does_write_enable|]. intros _ l2 f2 S2 ->.
    pose proof (same_good _ _ S2 G1) as G2. destruct S2 as (K2 & _).
    eapply does_mono; [by apply (does_command bs)|].
    intros r l [-> ->]. exists ps. split; [done|]. split; [done|]. right. rewrite K2, K1. done.
  - apply does_ret. exists ps. split; [done|]. split; [done|]. left. by rewrite app_nil_r.
Qed.

Lemma does_erase_sector offset f : good f ->
  does (fun r l => exists ps, polls (spi f) ps /\
          (r = 1 /\ l = ps \/ r = 0 /\ l = ps ++ [wren_message (spi f); sector_message (spi f) offset]))
    (erase_sector offset) f.
Proof.
  intros G. eapply does_mono; [apply (does_wait_command (command_bytes OPCODE_SE offset)); [done|simpl; lia]|].
  intros r l (ps & Hps & _ & HR). by exists ps.
Qed.

Definition chip_erase_message (k : kspi) : message := tx_message k [OPCODE_CHIP_ERASE].

Lemma does_erase_chip f : good f ->
  does (fun r l => exists ps, polls (spi f) ps /\ waits r f /\
          (r = 1 /\ l = ps \/ r = 0 /\ l = ps ++ [wren_message (spi f); chip_erase_message (spi f)]))
    erase_chip f.
Proof. intros G. apply (does_wait_command [OPCODE_CHIP_ERASE]); [done|simpl; lia]. Qed.

(** Erasing a sector waits for the chip, asking its status at most 100000
    times, and then sends exactly a write enable and the sector-erase command
    with the 24-bit address; if the chip does not become ready it sends nothing
    more and returns 1. *)
Theorem erase_sector_messages offset f :
  good f ->
  exists r f' ps, erase_sector offset f = Some (r, f') /\ polls (spi f) ps /\
    (r = 1 /\ messages (fbus f') = messages (fbus f) ++ ps \/
     r = 0 /\ messages (fbus f') =
       messages (fbus f) ++ ps ++ [wren_message (spi f); sector_message (spi f) offset]).
Proof.
  intros G. destruct (does_erase_sector offset f G) as (r & f' & l & E & _ & Hm & ps & Hps & HR).
  exists r, f', ps. split; [done|]. split; [done|]. rewrite Hm.
  destruct HR as [[-> ->]|[-> ->]]; auto.
Qed.

Lemma does_send tx n f : good f -> (n <= length tx)%nat ->
  does (fun _ l => l = [tx_message (spi f) (take n tx)]) (send tx n) f.
Proof.
  intros G Hn. unfold send. eapply does_bind; [by apply (does_gets (fun k l => k = spi f /\ l = []))|].
  intros k l1 f1 S1 [-> ->]. rewrite buf_read_Some, drop_0 by done.
  eapply does_bind; [by apply (does_lift (fun d l => d = take n tx /\ l = []) _ (take n tx))|].
  intros d l2 f2 S2 [-> ->]. eapply does_mono; [apply does_sync; apply G|].
  intros o l [_ ->]. unfold tx_message. by rewrite length_take, Nat.min_l.
Qed.

(** Taking the mutex, waiting for the chip. *)
Lemma lock_and_wait {A} (g : Z -> M F A) f : lock f = false -> good f ->
  exists r f1 ps, (mutex_lock;; r ← wait_till_ready; g r) f = g r f1 /\
    wait_till_ready (with_lock true f) = Some (r, f1) /\
    lock f1 = true /\ good f1 /\ spi f1 = spi f /\ size f1 = size f /\ (r = 0 \/ r = 1) /\
    polls (spi f) ps /\ messages (fbus f1) = messages (fbus f) ++ ps.
Proof.
  intros HL G. rewrite bind_unfold. unfold mutex_lock. rewrite HL.
  destruct (does_wait (with_lock true f)) as (r & f1 & ps & E & S & M1 & Hr & Hps); [done|].
  rewrite (bind_Some _ _ _ _ _ E). exists r, f1, ps.
  pose proof (same_good _ _ S G) as G1. destruct S as (S1 & S2 & S3 & _). by repeat split; try apply G1.
Qed.

Lemma unlock_run {A} (m : M F A) f : lock f = true -> (mutex_unlock;; m) f = m (with_lock false f).
Proof. intros HL. rewrite bind_unfold. unfold mutex_unlock. by rewrite HL. Qed.

Lemma in_range sz a n : 0 <= a -> a + Z.of_nat n <= sz -> sz < 2 ^ 64 ->
  (sz <? u64 (a + Z.of_nat n)) = false.
Proof. intros Ha Hn Hs. unfold u64. rewrite Z.mod_small by lia. apply Z.ltb_ge. lia. Qed.

Lemma page_offset_small to : 0 <= to -> u32 (Z.rem to FLASH_PAGESIZE) = to mod 256.
Proof.
  intros Ht. unfold FLASH_PAGESIZE. rewrite Z.rem_mod_nonneg by lia. apply u32_small.
  pose proof (Z.mod_pos_bound to 256). lia.
Qed.

Lemma write_page to n buf f :
  lock f = false -> good f -> size f < 2 ^ 64 ->
  0 <= to -> to + Z.of_nat n <= size f -> (1 <= n <= 252)%nat ->
  to mod 256 + Z.of_nat n <= 256 -> (n <= length buf)%nat ->
  exists r retlen f' ps, w25p16_write to n buf f = Some ((r, retlen), f') /\
    lock f' = false /\ length (command f') = 4%nat /\ waits r (with_lock true f) /\ polls (spi f) ps /\
    (r = 1 /\ messages (fbus f') = messages (fbus f) ++ ps \/
     r = 0 /\ messages (fbus f') =
       messages (fbus f) ++ ps ++ [wren_message (spi f); program_message (spi f) to (take n buf)]).
Proof.
  intros HL G Hs Ht Hr Hn Hp Hb. unfold w25p16_write. rewrite bind_unfold, gets_run.
  rewrite (proj2 (Nat.eqb_neq n 0)), in_range by lia. cbn iota.
  match goal with |- context [(mutex_lock;; r ← wait_till_ready; @?g r)] =>
    destruct (lock_and_wait g f HL G) as (r & f1 & ps & -> & EW1 & L1 & G1 & K1 & Z1 & Hrr & Hps & M1) end.
  cbv beta. destruct Hrr as [-> | ->].
  2:{ change (truth 1) with true. cbn iota. rewrite unlock_run, ret_unfold by done.
      eexists _, _, _, ps. split; [reflexivity|]. split; [done|]. split; [apply G1|].
      split; [by exists f1|]. auto. }
  change (truth 0) with false. cbn iota.
  destruct (does_write_enable f1 G1) as (x & f2 & l2 & E2 & S2 & M2 & ->).
  rewrite (bind_Some _ _ _ _ _ E2). pose proof (same_good _ _ S2 G1) as G2.
  rewrite buf_write_Some, bind_unfold, lift_opt_run, take_0 by (simpl; lia). cbv zeta.
  rewrite page_offset_small, (u32_small (to mod 256 + Z.of_nat n))
    by (pose proof (Z.mod_pos_bound to 256); lia).
  rewrite (proj2 (Z.leb_le (to mod 256 + Z.of_nat n) FLASH_PAGESIZE)) by (unfold FLASH_PAGESIZE; lia).
  rewrite (buf_read_Some buf), drop_0 by done. cbn [app].
  set (cmd := command_bytes OPCODE_PP to). set (zs := drop (0 + length cmd) (replicate 256 0)).
  assert (buf_write (cmd ++ zs) 4 (take n buf) = Some ((cmd ++ take n buf) ++ drop n zs)) as EW.
  { rewrite buf_write_Some by (rewrite length_app, length_take; subst cmd zs; rewrite length_drop, length_replicate; simpl; lia).
    f_equal. change 4%nat with (length cmd). rewrite take_app_length, <- app_assoc. do 2 f_equal.
    rewrite length_take, drop_app_ge by lia. f_equal. lia. }
  rewrite bind_unfold, bind_unfold, lift_opt_run, EW, bind_unfold, lift_opt_run.
  assert (length (cmd ++ take n buf) = (CMD_SIZE + n)%nat) as EL.
  { rewrite length_app, length_take. subst cmd. simpl. unfold CMD_SIZE. lia. }
  destruct (does_send ((cmd ++ take n buf) ++ drop n zs) (CMD_SIZE + n) f2 G2)
    as (o & f3 & l3 & E3 & S3 & M3 & ->); [rewrite length_app; lia|].
  rewrite (bind_Some _ _ _ _ _ E3), ret_unfold.
  pose proof (same_good _ _ S3 G2) as [C3 _].
  destruct S2 as (K2 & L2 & _), S3 as (K3 & L3 & _).
  rewrite unlock_run, ret_unfold by congruence.
  eexists _, _, _, ps. split; [reflexivity|]. split; [done|]. split; [done|]. split; [by exists f1|]. split; [done|].
  right. split; [done|].
  cbn [fbus with_lock]. rewrite M3, M2, M1, K2, K1, <- EL, take_app_length, <- !app_assoc. done.
Qed.

(** Writing up to 252 bytes within one page programs them: after the status
    polls the chip gets exactly a write enable and one page-program command with
    the address and the data; if it does not become ready it gets nothing and 1
    is returned. The mutex is released on both ways. *)
Theorem w25p16_write_page to n buf f :
  lock f = false -> good f -> size f < 2 ^ 64 ->
  0 <= to -> to + Z.of_nat n <= size f -> (1 <= n <= 252)%nat ->
  to mod 256 + Z.of_nat n <= 256 -> (n <= length buf)%nat ->
  exists r retlen f' ps, w25p16_write to n buf f = Some ((r, retlen), f') /\
    lock f' = false /\ polls (spi f) ps /\
    (r = 1 /\ messages (fbus f') = messages (fbus f) ++ ps \/
     r = 0 /\ messages (fbus f') =
       messages (fbus f) ++ ps ++ [wren_message (spi f); program_message (spi f) to (take n buf)]).
Proof.
  intros. destruct (write_page to n buf f) as (r & retlen & f' & ps & E & HL & _ & _ & HR); [done..|].
  by exists r, retlen, f', ps.
Qed.

(** Writing 253 to 256 bytes into one page runs over the 256-byte message
    buffer, four bytes of which the command takes, as soon as the chip is ready. *)
Lemma write_overflow to n buf f :
  lock f = false -> good f -> size f < 2 ^ 64 ->
  0 <= to -> to + Z.of_nat n <= size f -> (253 <= n)%nat -> to mod 256 + Z.of_nat n <= 256 ->
  exists r f1 ps, wait_till_ready (with_lock true f) = Some (r, f1) /\
    polls (spi f) ps /\ messages (fbus f1) = messages (fbus f) ++ ps /\
    w25p16_write to n buf f = if truth r then Some ((1, 0), with_lock false f1) else None.
Proof.
  intros HL G Hs Ht Hr Hn Hp. unfold w25p16_write. rewrite bind_unfold, gets_run.
  rewrite (proj2 (Nat.eqb_neq n 0)), in_range by lia. cbn iota.
  destruct (does_wait (with_lock true f)) as (r & f1 & ps & E & S1 & M1 & Hrr & Hps); [done|].
  exists r, f1, ps. split; [done|]. split; [done|]. split; [done|].
  rewrite bind_unfold. unfold mutex_lock at 1. rewrite HL, (bind_Some _ _ _ _ _ E).
  pose proof (same_good _ _ S1 G) as G1. destruct S1 as (_ & L1 & _). cbn [lock with_lock] in L1.
  destruct Hrr as [-> | ->].
  2:{ change (truth 1) with true. cbn iota. by rewrite unlock_run, ret_unfold. }
  change (truth 0) with false. cbn iota.
  destruct (does_write_enable f1 G1) as (x & f2 & l2 & E2 & S2 & M2 & ->).
  rewrite (bind_Some _ _ _ _ _ E2).
  rewrite buf_write_Some, bind_unfold, lift_opt_run by (simpl; lia). cbv zeta.
  rewrite page_offset_small, (u32_small (to mod 256 + Z.of_nat n))
    by (pose proof (Z.mod_pos_bound to 256); lia).
  rewrite (proj2 (Z.leb_le (to mod 256 + Z.of_nat n) FLASH_PAGESIZE)) by (unfold FLASH_PAGESIZE; lia).
  rewrite bind_unfold, bind_unfold. destruct (buf_read buf 0 n) as [data|] eqn:Ed; [|done].
  rewrite lift_opt_run, bind_unfold, buf_write_None; [done|].
  apply buf_read_length in Ed. rewrite Ed, !length_app, length_take, length_drop, length_replicate. simpl. lia.
Qed.

(** A message that carries no more than a command. *)
Definition short (m : message) : Prop := Forall (fun x => (len x <= CMD_SIZE)%nat) (snd m).

Lemma polls_short k ps : polls k ps -> Forall short ps.
Proof.
  intros (m & -> & _). apply Forall_replicate, Forall_singleton. simpl. unfold CMD_SIZE. lia.
Qed.

Lemma tx_short k bs : (length bs <= 4)%nat -> short (tx_message k bs).
Proof. intros Hb. by apply Forall_singleton. Qed.

Lemma does_page_loop fuel : forall tx to i n retlen f,
  good f -> (4 <= length tx)%nat -> n - i <= Z.of_nat fuel ->
  does (fun _ l => Forall short l) (page_loop fuel tx to i n retlen) f.
Proof.
  induction fuel as [|fuel IH]; intros tx to i n retlen f G Htx Hf; cbn [page_loop];
    (destruct (Z.leb_spec n i); [by apply does_ret|]); [lia|]. cbv zeta.
  eapply does_bind; [apply does_set_command; destruct G as [-> _]; simpl; lia|].
  intros _ l1 f1 S1 ->. pose proof (same_good _ _ S1 G) as G1.
  eapply does_bind; [by apply does_wait|]. intros _ l2 f2 S2 [_ H2%polls_short].
  pose proof (same_good _ _ S2 G1) as G2.
  eapply does_bind; [by apply does_write_enable|]. intros _ l3 f3 S3 ->.
  pose proof (same_good _ _ S3 G2) as G3.
  eapply does_bind; [apply does_send; [done|unfold CMD_SIZE; lia]|]. intros o l4 f4 S4 ->.
  pose proof (same_good _ _ S4 G3) as G4.
  eapply does_mono; [apply IH; [done|done|]|].
  - destruct (Z.ltb_spec FLASH_PAGESIZE (n - i)); unfold FLASH_PAGESIZE in *; lia.
  - intros ? l Hl. simpl. apply Forall_app. split; [done|]. constructor; [|constructor; [|done]];
      apply tx_short; rewrite ?length_take; unfold CMD_SIZE; [simpl|]; lia.
Qed.

(** Writing across a page boundary sends no data: every message to the chip
    is a status poll or a four-byte command, and yet success is returned. *)
Theorem w25p16_write_crossing to n buf f :
  lock f = false -> good f -> size f < 2 ^ 32 ->
  0 <= to -> to + Z.of_nat n <= size f -> 256 < to mod 256 + Z.of_nat n ->
  exists r retlen f' l, w25p16_write to n buf f = Some ((r, retlen), f') /\
    (r = 0 \/ r = 1) /\ lock f' = false /\
    messages (fbus f') = messages (fbus f) ++ l /\ Forall short l.
Proof.
  intros HL G Hs Ht Hr Hp. pose proof (Z.mod_pos_bound to 256 ltac:(lia)) as Hmod.
  pose proof (Z.mod_le to 256 Ht ltac:(lia)) as Hle.
  unfold w25p16_write. rewrite bind_unfold, gets_run.
  rewrite (proj2 (Nat.eqb_neq n 0)), in_range by lia. cbn iota.
  match goal with |- context [(mutex_lock;; r ← wait_till_ready; @?g r)] =>
    destruct (lock_and_wait g f HL G)
      as (r0 & f1 & ps & -> & EW1 & L1 & G1 & K1 & Z1 & Hrr & Hps%polls_short & M1) end.
  cbv beta. destruct Hrr as [-> | ->].
  2:{ change (truth 1) with true. cbn iota. rewrite unlock_run, ret_unfold by done.
      eexists _, _, _, ps. split; [reflexivity|]. auto. }
  change (truth 0) with false. cbn iota.
  destruct (does_write_enable f1 G1) as (x & f2 & l2 & E2 & S2 & M2 & ->).
  rewrite (bind_Some _ _ _ _ _ E2). pose proof (same_good _ _ S2 G1) as G2.
  rewrite buf_write_Some, bind_unfold, lift_opt_run by (simpl; lia). cbv zeta.
  rewrite page_offset_small, (u32_small (to mod 256 + Z.of_nat n)) by lia.
  rewrite (proj2 (Z.leb_gt (to mod 256 + Z.of_nat n) FLASH_PAGESIZE)) by (unfold FLASH_PAGESIZE; lia).
  match goal with |- context [send ?t CMD_SIZE ≫= ?g] => set (tx := t);
    assert (does (fun _ l => Forall short l) (send tx CMD_SIZE ≫= g) f2) as (ret & f3 & l3 & E3 & S3 & M3 & H3)
  end.
  { assert (4 <= length tx)%nat by (subst tx; rewrite !length_app; simpl; lia).
    eapply does_bind; [apply does_send; [done|unfold CMD_SIZE; lia]|].
    intros o l4 f4 S4 ->. eapply does_mono; [apply does_page_loop; [by eapply same_good|done|]|].
    - unfold FLASH_PAGESIZE. rewrite u32_small by lia. lia.
    - intros ? l Hl. constructor; [|done]. apply tx_short. rewrite length_take. unfold CMD_SIZE. lia. }
  rewrite (bind_Some _ _ _ _ _ E3). destruct S2 as (K2 & L2 & _), S3 as (K3 & L3 & _).
  rewrite unlock_run, ret_unfold by congruence.
  eexists _, _, _, (ps ++ [tx_message (spi f1) [OPCODE_WREN]] ++ l3).
  split; [reflexivity|]. split; [auto|]. split; [done|]. cbn [fbus with_lock].
  split; [by rewrite M3, M2, M1, <- !app_assoc|].
  apply Forall_app. split; [done|]. apply Forall_app. split; [|done].
  apply Forall_singleton, tx_short. simpl. lia.
Qed.

Definition read_xfer (stack : list Z) (from : Z) (n : nat) : xfer :=
  Xfer (Some (take (CMD_SIZE + n) (command_bytes OPCODE_READ from ++ drop 4 stack))) true (CMD_SIZE + n).

(** Reading up to 252 bytes sends, after the status polls, one read command
    with the address, and when the message succeeds the caller's buffer gets
    the [n] bytes received behind the command; the mutex is released. A chip
    that does not become ready gives 1 and leaves the buffer alone. *)
Theorem w25p16_read_ok stack stack' from n buf f :
  lock f = false -> good f -> size f < 2 ^ 64 -> length stack = 256%nat -> length stack' = 256%nat ->
  0 <= from -> from + Z.of_nat n <= size f -> (1 <= n <= 252)%nat -> (n <= length buf)%nat ->
  exists r retlen buf' f' ps, w25p16_read stack stack' from n buf f = Some ((r, retlen, buf'), f') /\
    lock f' = false /\ polls (spi f) ps /\
    (r = 1 /\ buf' = buf /\ messages (fbus f') = messages (fbus f) ++ ps \/
     r = 0 /\ messages (fbus f') = messages (fbus f) ++ ps ++ [(spi f, [read_xfer stack from n])] /\
     exists h data, rx (fst (transfer (spi f) [read_xfer stack from n] h)) = [data] /\
       (status (fst (transfer (spi f) [read_xfer stack from n] h)) = 0 ->
        retlen = Some (Z.of_nat n) /\ buf' = take n (drop 4 data) ++ drop n buf)).
Proof.
  intros HL G Hs Hst Hst' Ht Hr Hn Hb. unfold w25p16_read. rewrite bind_unfold, gets_run.
  rewrite (proj2 (Nat.eqb_neq n 0)), in_range by lia. cbn iota.
  rewrite buf_write_Some, bind_unfold, lift_opt_run, take_0 by (simpl; lia). cbn [app].
  change (0 + length (command_bytes OPCODE_READ from))%nat with 4%nat.
  set (cmd := command_bytes OPCODE_READ from). set (tx := cmd ++ drop 4 stack).
  match goal with |- context [(mutex_lock;; r ← wait_till_ready; @?g r)] =>
    destruct (lock_and_wait g f HL G) as (r & f1 & ps & -> & EW1 & L1 & G1 & K1 & Z1 & Hrr & Hps & M1) end.
  cbv beta. destruct Hrr as [-> | ->].
  2:{ change (truth 1) with true. cbn iota. rewrite unlock_run, ret_unfold by done.
      eexists _, _, _, _, ps. split; [reflexivity|]. auto 6. }
  change (truth 0) with false. cbn iota.
  destruct (does_set_command 0 cmd f1) as (x & f2 & l2 & E2 & S2 & M2 & ->);
    [destruct G1 as [-> _]; simpl; lia|].
  rewrite (bind_Some _ _ _ _ _ E2). pose proof (same_good _ _ S2 G1) as G2.
  assert (length tx = 256%nat) as Ltx by (subst tx; rewrite length_app, length_drop; simpl; lia).
  destruct (does_exchange tx stack' (CMD_SIZE + n) f2 G2)
    as ([o rxb] & f3 & l3 & E3 & S3 & M3 & HLr & (data & Ed & Ew & Hd) & (h & Eo) & ->);
    [unfold CMD_SIZE; lia|rewrite Hst'; apply (whole_le _ 64); unfold CMD_SIZE; lia|]. cbn [fst snd] in *.
  rewrite (bind_Some _ _ _ _ _ E3). cbn [snd fst].
  rewrite buf_read_Some, bind_unfold, lift_opt_run by lia.
  rewrite buf_write_Some, bind_unfold, lift_opt_run by (rewrite length_take; lia).
  destruct S2 as (K2 & L2 & _), S3 as (K3 & L3 & _). rewrite K2, K1 in *.
  rewrite unlock_run, ret_unfold by congruence.
  eexists _, _, _, _, ps. split; [reflexivity|]. split; [done|]. split; [done|]. right.
  split; [done|]. split.
  { cbn [fbus with_lock]. rewrite M3, M2, M1, app_nil_r, <- app_assoc. done. }
  exists h, data. unfold read_xfer. fold cmd. fold tx. rewrite <- Eo. split; [done|].
  intros Hs0. destruct (Hd Hs0) as [HLd HA]. pose proof (buf_write_length _ _ _ _ Ew) as HLw.
  unfold buf_write in Ew. case_bool_decide; [|done].
  injection Ew as <-. rewrite take_0, HA. cbn [app]. unfold CMD_SIZE in *. split.
  - f_equal. rewrite u32_small; lia.
  - rewrite drop_app_le by lia. rewrite take_app_le by (rewrite length_drop; lia).
    rewrite length_take_le by (rewrite length_drop; lia). done.
Qed.
End Ops.

(** ** Witnesses *)

Import SpiMaster.NullMaster.

Definition ex_flash : w25p (H := unit) :=
  W25p (KSpi 2 3 8 6500000) false 0x7fffff 0x10000 [0; 0; 0; 0] (Bus tt []).

Ltac closed_bounds := repeat split; first [lia | vm_compute; discriminate | vm_compute; lia | done].

Lemma ex_flash_good : good ex_flash.
Proof. done. Qed.

Lemma erase_sector_messages_witness :
  exists r f' ps, erase_sector 0x123456 ex_flash = Some (r, f') /\ polls (spi ex_flash) ps /\
    (r = 1 /\ messages (fbus f') = messages (fbus ex_flash) ++ ps \/
     r = 0 /\ messages (fbus f') =
       messages (fbus ex_flash) ++ ps ++
         [wren_message (spi ex_flash); tx_message (spi ex_flash) [0xd8; 0x12; 0x34; 0x56]]).
Proof. exact (erase_sector_messages eq_refl 0x123456 ex_flash ex_flash_good). Defined.

Lemma w25p16_write_page_witness :
  exists r retlen f' ps, w25p16_write 0x100 2 [1; 2] ex_flash = Some ((r, retlen), f') /\
    lock f' = false /\ polls (spi ex_flash) ps /\
    (r = 1 /\ messages (fbus f') = messages (fbus ex_flash) ++ ps \/
     r = 0 /\ messages (fbus f') =
       messages (fbus ex_flash) ++ ps ++
         [wren_message (spi ex_flash); tx_message (spi ex_flash) [0x02; 0; 1; 0; 1; 2]]).
Proof.
  refine (w25p16_write_page eq_refl 0x100 2 [1; 2] ex_flash eq_refl ex_flash_good _ _ _ _ _ _);
    closed_bounds.
Defined.

Lemma w25p16_write_crossing_witness :
  exists r retlen f' l, w25p16_write 0xff 2 [1; 2] ex_flash = Some ((r, retlen), f') /\
    (r = 0 \/ r = 1) /\ lock f' = false /\
    messages (fbus f') = messages (fbus ex_flash) ++ l /\ Forall short l.
Proof.
  refine (w25p16_write_crossing eq_refl 0xff 2 [1; 2] ex_flash eq_refl ex_flash_good _ _ _ _);
    closed_bounds.
Defined.

Lemma w25p16_read_ok_witness :
  exists r retlen buf' f' ps,
    w25p16_read (replicate 256 0) (replicate 256 0) 0 2 [7; 7; 7] ex_flash = Some ((r, retlen, buf'), f') /\
    lock f' = false /\ polls (spi ex_flash) ps /\
    (r = 1 /\ buf' = [7; 7; 7] /\ messages (fbus f') = messages (fbus ex_flash) ++ ps \/
     r = 0 /\ messages (fbus f') =
       messages (fbus ex_flash) ++ ps ++ [(spi ex_flash, [read_xfer (replicate 256 0) 0 2])] /\
     exists h data, rx (fst (transfer (spi ex_flash) [read_xfer (replicate 256 0) 0 2] h)) = [data] /\
       (status (fst (transfer (spi ex_flash) [read_xfer (replicate 256 0) 0 2] h)) = 0 ->
        retlen = Some 2 /\ buf' = take 2 (drop 4 data) ++ [7])).
Proof.
  refine (w25p16_read_ok eq_refl (replicate 256 0) (replicate 256 0) 0 2 [7; 7; 7] ex_flash eq_refl
            ex_flash_good _ _ _ _ _ _ _); closed_bounds.
Defined.
