(* ===== verification/SpiDev.v ===== *)
(** * The SPI character device of the board (drivers/spi/spidev.c)

    One device, with a global [chip_select] that says which chip (FPGA, clock
    chip, FPGA flash) the next message is for. The state holds the
    [spi_device], the driver's data ([spidev_data]), the two mutexes, the level of
    the GPIO line of the flash, and the SPI bus. A null or freed pointer, an
    access outside an array, unlocking a free mutex and waiting for a mutex that
    is held (nobody else can release it here, the call never returns) are all
    [None]. *)

From S2P Require Import Prelude SpiMaster W25p16.

Definition MULTI_REG_LEN_MAX : nat := 512.
Definition DS31400_REG_ADDR_MAX : Z := 0xffff.
Definition FLASH_FPGA : Z := 2.
Definition DS31400_CHIP : Z := 1.
Definition FPGA_CHIP : Z := 0.
Definition SPI_FPGA_WR_SINGLE : Z := 0x01.
Definition SPI_FPGA_WR_BURST : Z := 0x02.
Definition SPI_FPGA_RD_BURST : Z := 0x03.
Definition SPI_FPGA_RD_SINGLE : Z := 0x05.
Definition bufsiz : Z := 4096.

Definition SPI_MODE_MASK : Z :=
  Z.lor (Z.lor (Z.lor SPI_CPHA SPI_CPOL) (Z.lor SPI_CS_HIGH SPI_LSB_FIRST))
    (Z.lor (Z.lor SPI_3WIRE SPI_LOOP) (Z.lor SPI_NO_CS SPI_READY)).

(** include/linux/spi/spidev.h *)
Definition SPI_IOC_MAGIC : Z := 107.
Definition SPI_IOC_RD_MODE : Z := IOR SPI_IOC_MAGIC 1 1.
Definition SPI_IOC_WR_MODE : Z := IOW SPI_IOC_MAGIC 1 1.
Definition SPI_IOC_RD_LSB_FIRST : Z := IOR SPI_IOC_MAGIC 2 1.
Definition SPI_IOC_WR_LSB_FIRST : Z := IOW SPI_IOC_MAGIC 2 1.
Definition SPI_IOC_RD_BITS_PER_WORD : Z := IOR SPI_IOC_MAGIC 3 1.
Definition SPI_IOC_WR_BITS_PER_WORD : Z := IOW SPI_IOC_MAGIC 3 1.
Definition SPI_IOC_RD_MAX_SPEED_HZ : Z := IOR SPI_IOC_MAGIC 4 4.
Definition SPI_IOC_WR_MAX_SPEED_HZ : Z := IOW SPI_IOC_MAGIC 4 4.
Definition SPI_IOC_OPER_FPGA : Z := IOW SPI_IOC_MAGIC 5 1.
Definition W25_ERASE_CHIP : Z := IOW SPI_IOC_MAGIC 9 1.
Definition W25_ERASE_SECTOR : Z := IOW SPI_IOC_MAGIC 10 4.
Definition W25P16_READ : Z := IOR SPI_IOC_MAGIC 11 4.
Definition W25P16_WRITE : Z := IOW SPI_IOC_MAGIC 12 4.
Definition W25P1165_ID : Z := IOR SPI_IOC_MAGIC 13 1.
Definition SPI_IOC_OPER_FLASH : Z := IOW SPI_IOC_MAGIC 14 1.
Definition SPI_IOC_OPER_FLASH_DONE : Z := IOW SPI_IOC_MAGIC 15 1.

(** ** Messages to the FPGA and the clock chip *)

Definition zeroed : list Z := replicate (MULTI_REG_LEN_MAX + 2) 0.

Definition ds31400_header (read : bool) (addr : Z) (count : nat) : list Z :=
  let address := u16 (Z.land (Z.shiftl addr 1) 0x7ffe) in
  let b0 := u8 (Z.land (Z.shiftr address 8) 0xff) in
  let b1 := u8 (Z.land address 0xff) in
  [if read then Z.lor b0 0x80 else Z.land b0 (u8 (not32 0x80));
   if (1 <? count)%nat then Z.lor b1 0x01 else b1].

Definition fpga_header (single burst addr : Z) (count : nat) : list Z :=
  [if (count =? 1)%nat then single else burst; u8 (Z.land (Z.shiftr addr 8) 0xff);
   u8 (Z.land addr 0xff)].

Section Device.
Context {H : Type} `{!SpiMaster H}.

(** One full-duplex message from [buf] into [rx_buf], then [count] bytes from
    [skip] on into the caller's data. *)
Definition sync_read (k : kspi) (buf data : list Z) (n skip count : nat)
  : M (bus H) (Z * list Z) :=
  tx ← lift_opt (buf_read buf 0 n);
  _ ← lift_opt (buf_read zeroed 0 n);
  o ← spi_sync k [Xfer (Some tx) true n];
  rxb ← lift_opt (buf_write zeroed 0 (concat (rx o)));
  src ← lift_opt (buf_read rxb skip count);
  data ← lift_opt (buf_write data 0 src);
  mret (status o, data).

(** [cs]: the global [chip_select]. For the flash the message is not even
    initialised. Result and the caller's data. *)
Definition mix_spi_read (cs : Z) (k : kspi) (addr : Z) (data : option (list Z)) (count : nat)
  : M (bus H) (Z * option (list Z)) :=
  match data with
  | None => mret (- EINVAL, None)
  | Some data =>
      if (MULTI_REG_LEN_MAX <? count)%nat then mret (- EINVAL, Some data)
      else if cs =? DS31400_CHIP then
        buf ← lift_opt (buf_write zeroed 0 (ds31400_header true addr count));
        src ← lift_opt (buf_read data 0 count);
        buf ← lift_opt (buf_write buf 2 src);
        r ← sync_read k buf data (count + 2) 2 count;
        mret (fst r, Some (snd r))
      else if cs =? FPGA_CHIP then
        buf ← lift_opt (buf_write zeroed 0
          (fpga_header SPI_FPGA_RD_SINGLE SPI_FPGA_RD_BURST addr count ++ [0]));
        src ← lift_opt (buf_read data 0 count);
        buf ← lift_opt (buf_write buf 4 src);
        r ← sync_read k buf data (count + 4) 4 count;
        mret (fst r, Some (snd r))
      else ub
  end.

Definition mix_spi_write (cs : Z) (k : kspi) (addr : Z) (data : option (list Z)) (count : nat)
  : M (bus H) Z :=
  match data with
  | None => mret (- EINVAL)
  | Some data =>
      if (MULTI_REG_LEN_MAX <? count)%nat then mret (- EINVAL)
      else if cs =? DS31400_CHIP then
        buf ← lift_opt (buf_write zeroed 0 (ds31400_header false addr count));
        src ← lift_opt (buf_read data 0 count);
        buf ← lift_opt (buf_write buf 2 src);
        spi_write k buf (count + 2)
      else if cs =? FPGA_CHIP then
        buf ← lift_opt (buf_write zeroed 0
          (fpga_header SPI_FPGA_WR_SINGLE SPI_FPGA_WR_BURST addr count));
        src ← lift_opt (buf_read data 0 count);
        buf ← lift_opt (buf_write buf 3 src);
        spi_write k buf (count + 4)
      else mret 0
  end.

(** ** State *)

Record sdev := SDev {
  kdev : kspi;               (* the spi_device *)
  refs : Z;                  (* references taken with spi_dev_get *)
  bound : bool;              (* spidev->spi is not NULL *)
  chip_sel : Z;              (* chip_select *)
  chip_sel_lock : bool;
  buf_lock : bool;
  gpio_flash : Z;            (* level of GPIO_FPGAFLASH *)
  users : Z;
  buffer : option (list Z);
  listed : bool;             (* in device_list *)
  freed : bool;              (* kfree(spidev) *)
  fl_lock : bool;            (* flash.lock *)
  fl_command : list Z;       (* flash.command *)
  sbus : bus H
}.

Definition with_kdev (k : kspi) (s : sdev) : sdev :=
  SDev k (refs s) (bound s) (chip_sel s) (chip_sel_lock s) (buf_lock s) (gpio_flash s) (users s)
    (buffer s) (listed s) (freed s) (fl_lock s) (fl_command s) (sbus s).
Definition with_refs (r : Z) (s : sdev) : sdev :=
  SDev (kdev s) r (bound s) (chip_sel s) (chip_sel_lock s) (buf_lock s) (gpio_flash s) (users s)
    (buffer s) (listed s) (freed s) (fl_lock s) (fl_command s) (sbus s).
Definition with_chip_sel (c : Z) (s : sdev) : sdev :=
  SDev (kdev s) (refs s) (bound s) c (chip_sel_lock s) (buf_lock s) (gpio_flash s) (users s)
    (buffer s) (listed s) (freed s) (fl_lock s) (fl_command s) (sbus s).
Definition with_chip_sel_lock (b : bool) (s : sdev) : sdev :=
  SDev (kdev s) (refs s) (bound s) (chip_sel s) b (buf_lock s) (gpio_flash s) (users s)
    (buffer s) (listed s) (freed s) (fl_lock s) (fl_command s) (sbus s).
Definition with_buf_lock (b : bool) (s : sdev) : sdev :=
  SDev (kdev s) (refs s) (bound s) (chip_sel s) (chip_sel_lock s) b (gpio_flash s) (users s)
    (buffer s) (listed s) (freed s) (fl_lock s) (fl_command s) (sbus s).
Definition with_gpio (g : Z) (s : sdev) : sdev :=
  SDev (kdev s) (refs s) (bound s) (chip_sel s) (chip_sel_lock s) (buf_lock s) g (users s)
    (buffer s) (listed s) (freed s) (fl_lock s) (fl_command s) (sbus s).
Definition with_buffer (b : option (list Z)) (s : sdev) : sdev :=
  SDev (kdev s) (refs s) (bound s) (chip_sel s) (chip_sel_lock s) (buf_lock s) (gpio_flash s)
    (users s) b (listed s) (freed s) (fl_lock s) (fl_command s) (sbus s).
Definition with_users (u : Z) (s : sdev) : sdev :=
  SDev (kdev s) (refs s) (bound s) (chip_sel s) (chip_sel_lock s) (buf_lock s) (gpio_flash s) u
    (buffer s) (listed s) (freed s) (fl_lock s) (fl_command s) (sbus s).
Definition with_life (bnd lst fr : bool) (s : sdev) : sdev :=
  SDev (kdev s) (refs s) bnd (chip_sel s) (chip_sel_lock s) (buf_lock s) (gpio_flash s) (users s)
    (buffer s) lst fr (fl_lock s) (fl_command s) (sbus s).
Definition with_sbus (b : bus H) (s : sdev) : sdev :=
  SDev (kdev s) (refs s) (bound s) (chip_sel s) (chip_sel_lock s) (buf_lock s) (gpio_flash s)
    (users s) (buffer s) (listed s) (freed s) (fl_lock s) (fl_command s) b.
Definition with_flash (l : bool) (c : list Z) (b : bus H) (s : sdev) : sdev :=
  SDev (kdev s) (refs s) (bound s) (chip_sel s) (chip_sel_lock s) (buf_lock s) (gpio_flash s)
    (users s) (buffer s) (listed s) (freed s) l c b.

Definition on_sbus {A} (m : M (bus H) A) : M sdev A := zoom sbus with_sbus m.

(** [struct w25p flash]: its [spi] pointer is the device's. *)
Definition on_flash {A} (m : M w25p A) : M sdev A := fun s =>
  match m (W25p (kdev s) (fl_lock s) 0x7fffff 0 (fl_command s) (sbus s)) with
  | Some (a, f) => Some (a, with_flash (W25p16.lock f) (command f) (fbus f) s)
  | None => None
  end.

Definition lock_chip_sel : M sdev unit := fun s =>
  if chip_sel_lock s then None else Some (tt, with_chip_sel_lock true s).
Definition unlock_chip_sel : M sdev unit := fun s =>
  if chip_sel_lock s then Some (tt, with_chip_sel_lock false s) else None.
Definition lock_buf : M sdev unit := fun s =>
  if buf_lock s then None else Some (tt, with_buf_lock true s).
Definition unlock_buf : M sdev unit := fun s =>
  if buf_lock s then Some (tt, with_buf_lock false s) else None.

Definition set_cs (cs : Z) : M sdev unit :=
  modify (fun s => with_kdev (KSpi cs (mode (kdev s)) (bits_per_word (kdev s))
                                (max_speed_hz (kdev s))) s).

(** [spi_setup] on the device. *)
Definition setup : M sdev Z :=
  k ← gets kdev;
  r ← on_sbus (spi_setup k);
  modify (with_kdev (snd r));;
  mret (fst r).

(** ** The kernel interface: fpga_spi_read, fpga_spi_write, dpll_spi_read,
    dpll_spi_write *)

(** [spi_dev_get]; the callers use the pointer without a check. *)
Definition get_spi : M sdev unit := fun s =>
  if bound s && negb (freed s) then Some (tt, with_refs (refs s + 1) s) else None.

(** Take the chip-select mutex and switch to chip [cs]; what was selected
    before is returned. *)
Definition switch_to (cs chip : Z) : M sdev (Z * Z) :=
  get_spi;;
  lock_chip_sel;;
  k ← gets kdev;
  c ← gets chip_sel;
  set_cs cs;;
  modify (with_chip_sel chip);;
  mret (chip_select k, c).

Definition switch_back (saved : Z * Z) : M sdev unit :=
  set_cs (fst saved);;
  modify (with_chip_sel (snd saved));;
  unlock_chip_sel.

Definition dpll_spi_write (addr : Z) (data : option (list Z)) (count : nat) : M sdev Z :=
  saved ← switch_to 1 DS31400_CHIP;
  k ← gets kdev;
  c ← gets chip_sel;
  ret ← on_sbus (mix_spi_write c k addr data count);
  switch_back saved;;
  mret ret.

(** A null [data] is refused in the first round; [data + 2 * i] is not null. *)
Fixpoint dpll_read_loop (n i : nat) (addr : Z) (data : option (list Z))
  : M sdev (option (list Z)) :=
  match n with
  | O => mret data
  | S n =>
      k ← gets kdev;
      c ← gets chip_sel;
      data ←
        (match data with
         | None =>
             if (0 <? i)%nat then ub
             else r ← on_sbus (mix_spi_read c k (u16 (addr + 2 * Z.of_nat i)) None 2); mret (snd r)
         | Some d =>
             sub ← lift_opt (buf_read d (2 * i) (length d - 2 * i));
             r ← on_sbus (mix_spi_read c k (u16 (addr + 2 * Z.of_nat i)) (Some sub) 2);
             match snd r with
             | Some sub => d ← lift_opt (buf_write d (2 * i) sub); mret (Some d)
             | None => mret (Some d)
             end
         end);
      dpll_read_loop n (S i) addr data
  end.

Definition dpll_spi_read (addr : Z) (data : option (list Z)) (count : nat)
  : M sdev (Z * option (list Z)) :=
  saved ← switch_to 1 DS31400_CHIP;
  let loop := if (count mod 2 =? 0)%nat then (count / 2)%nat else ((count + 1) / 2)%nat in
  data ← dpll_read_loop loop 0 addr data;
  switch_back saved;;
  mret (0, data).

Definition fpga_spi_write (addr : Z) (data : option (list Z)) (count : nat) : M sdev Z :=
  saved ← switch_to 0 FPGA_CHIP;
  k ← gets kdev;
  c ← gets chip_sel;
  ret ← on_sbus (mix_spi_write c k addr data count);
  switch_back saved;;
  mret ret.

Definition fpga_spi_read (addr : Z) (data : option (list Z)) (count : nat)
  : M sdev (Z * option (list Z)) :=
  saved ← switch_to 0 FPGA_CHIP;
  k ← gets kdev;
  c ← gets chip_sel;
  r ← on_sbus (mix_spi_read c k (u16 addr) data count);
  switch_back saved;;
  mret (0, snd r).

Definition WRITE_ONCE_REG : Z := 0x2000 + 0x0010.

Definition unitboard_fpga_write (slot addr wdata : Z) : M sdev Z :=
  let data :=
    [u8 (Z.lor (Z.shiftl (Z.land slot 0x0f) 4) (Z.shiftr (Z.land addr 0xf00) 8));
     u8 (Z.land addr 0xff); u8 (Z.shiftr (Z.land wdata 0xff00) 8); u8 (Z.land wdata 0xff)] in
  fpga_spi_write WRITE_ONCE_REG (Some (data ++ replicate 28 0)) 4;;
  mret 0.

(** ** read and write *)

(** [struct spi_rdwr_argv]. *)
Record spi_rdwr := SpiRdwr { cs : Z; addr : Z; rw_len : nat; buff : list Z }.

(** Select the chip of a request; [false]: no such chip. *)
Definition select_chip (c : Z) : M sdev bool :=
  if c =? 0 then set_cs 0;; modify (with_chip_sel FPGA_CHIP);; mret true
  else if c =? 1 then set_cs 1;; modify (with_chip_sel DS31400_CHIP);; mret true
  else mret false.

(** Using the [spi_device] through [spidev->spi]. *)
Definition deref_spi : M sdev unit := fun s =>
  if bound s && negb (freed s) then Some (tt, s) else None.

(** [u]: the caller's structure, [None] when it cannot be read; then [stack] is
    what the local variable holds. Result and the structure copied back. *)
Definition spidev_read (u : option spi_rdwr) (stack : spi_rdwr) : M sdev (Z * option spi_rdwr) :=
  lock_chip_sel;;
  let sopt := default stack u in
  (if (cs sopt =? 0) || (cs sopt =? 1) then deref_spi else mret tt);;
  ok ← select_chip (cs sopt);
  if negb ok || (64 <? rw_len sopt)%nat then
    unlock_chip_sel;;
    mret (Z.of_nat (rw_len sopt), None)
  else
    lock_buf;;
    k ← gets kdev;
    c ← gets chip_sel;
    r ← on_sbus (mix_spi_read c k (addr sopt) (Some (buff sopt)) (rw_len sopt));
    unlock_buf;;
    unlock_chip_sel;;
    mret (Z.of_nat (rw_len sopt),
          Some (SpiRdwr (cs sopt) (addr sopt) (rw_len sopt) (default (buff sopt) (snd r)))).

Definition spidev_write (u : option spi_rdwr) (stack : spi_rdwr) : M sdev Z :=
  lock_chip_sel;;
  let sopt := default stack u in
  (if (cs sopt =? 0) || (cs sopt =? 1) then deref_spi else mret tt);;
  ok ← select_chip (cs sopt);
  if negb ok || (64 <? rw_len sopt)%nat then
    unlock_chip_sel;;
    mret (Z.of_nat (rw_len sopt))
  else
    lock_buf;;
    k ← gets kdev;
    c ← gets chip_sel;
    on_sbus (mix_spi_write c k (addr sopt) (Some (buff sopt)) (rw_len sopt));;
    unlock_buf;;
    unlock_chip_sel;;
    mret (Z.of_nat (rw_len sopt)).

(** ** Messages of several transfers *)

(** [struct spi_ioc_transfer]: user addresses and length. *)
Record spi_ioc_transfer := IocTransfer { u_tx : Z; u_rx : Z; u_len : Z }.

(** User memory: [access_ok] on a range, the bytes [copy_from_user] gets, and
    whether [__copy_to_user] succeeds. *)
Record user := User {
  access_ok : Z -> Z -> bool;
  copy_from_user : Z -> Z -> option (list Z);
  copy_to_user : Z -> list Z -> bool
}.

(** A transfer of the message: its place in the bounce buffer. *)
Record segment := Segment { seg_off : Z; seg_tx : bool; seg_rx : bool; seg_len : Z }.

(** The first loop of [spidev_message]: [off] is [buf - spidev->buffer], kept
    modulo the address size. [inl]: the error status. *)
Fixpoint build (um : user) (us : list spi_ioc_transfer) (off total : Z) (buf : list Z)
  : option ((Z + (list segment * Z)) * list Z) :=
  match us with
  | [] => Some (inr ([], total), buf)
  | u :: us =>
      let total := u32 (total + u_len u) in
      if bufsiz <? total then Some (inl (- EMSGSIZE), buf)
      else if truth (u_rx u) && negb (access_ok um (u_rx u) (u_len u)) then Some (inl (- EFAULT), buf)
      else
        match (if truth (u_tx u)
               then match copy_from_user um (u_tx u) (u_len u) with
                    | None => Some None
                    | Some data => Some <$> buf_write buf (Z.to_nat off) data
                    end
               else Some (Some buf)) with
        | None => None
        | Some None => Some (inl (- EFAULT), buf)
        | Some (Some buf) =>
            match build um us (u32 (off + u_len u)) total buf with
            | Some (inr (segs, t), buf) =>
                Some (inr (Segment off (truth (u_tx u)) (truth (u_rx u)) (u_len u) :: segs, t), buf)
            | r => r
            end
        end
  end.

(** The kernel transfers, as the controller finds their buffers. *)
Fixpoint xfers (segs : list segment) (buf : list Z) : option (list xfer) :=
  match segs with
  | [] => Some []
  | g :: segs =>
      tx ← (if seg_tx g
            then Some <$> buf_read buf (Z.to_nat (seg_off g)) (Z.to_nat (seg_len g))
            else Some None);
      _ ← (if seg_rx g
           then buf_read buf (Z.to_nat (seg_off g)) (Z.to_nat (seg_len g)) else Some []);
      xs ← xfers segs buf;
      Some (Xfer tx (seg_rx g) (Z.to_nat (seg_len g)) :: xs)
  end.

(** What the controller receives goes into the bounce buffer. *)
Fixpoint fill (segs : list segment) (rxs : list (list Z)) (buf : list Z) : option (list Z) :=
  match segs, rxs with
  | g :: segs, r :: rxs =>
      buf ← (if seg_rx g then buf_write buf (Z.to_nat (seg_off g)) r else Some buf);
      fill segs rxs buf
  | _, _ => Some buf
  end.

(** The last loop: copy out to the user; [false]: a copy failed. *)
Fixpoint copy_out (um : user) (us : list spi_ioc_transfer) (off : Z) (buf : list Z) : option bool :=
  match us with
  | [] => Some true
  | u :: us =>
      if truth (u_rx u) then
        data ← buf_read buf (Z.to_nat off) (Z.to_nat (u_len u));
        if copy_to_user um (u_rx u) data then copy_out um us (u32 (off + u_len u)) buf
        else Some false
      else copy_out um us (u32 (off + u_len u)) buf
  end.

(** [spidev_sync]: the status, or the number of bytes. *)
Definition spidev_sync (xs : list xfer) : M sdev (Z * list (list Z)) :=
  b ← gets bound;
  if negb b then mret (- ESHUTDOWN, [])
  else
    k ← gets kdev;
    o ← on_sbus (spi_async k xs);
    mret (if status o =? 0 then actual_length o else status o, rx o).

(** [mem]: [kcalloc] succeeds. *)
Definition spidev_message (um : user) (mem : bool) (us : list spi_ioc_transfer) : M sdev Z :=
  if negb mem then mret (- ENOMEM)
  else
    b ← gets buffer;
    buf ← lift_opt b;
    r ← lift_opt (build um us 0 0 buf);
    modify (with_buffer (Some (snd r)));;
    match fst r with
    | inl e => mret e
    | inr (segs, total) =>
        xs ← lift_opt (xfers segs (snd r));
        o ← spidev_sync xs;
        buf ← lift_opt (fill segs (snd o) (snd r));
        modify (with_buffer (Some buf));;
        if fst o <? 0 then mret (fst o)
        else
          ok ← lift_opt (copy_out um us 0 buf);
          mret (if ok : bool then total else - EFAULT)
    end.

(** ** ioctl *)

(** [w25_rw_date_t]. *)
Record w25_rw_date_t := RwDate { rw_addr : Z; rw_size : nat; rw_buf : list Z }.

(** What the ioctl argument points to: the result of [access_ok]; the integer
    [__get_user] reads ([None]: it faults); whether [__put_user] succeeds; the
    flash request, or how many of its bytes could not be copied; how many bytes
    could not be copied back; the transfers of a message, and whether the two
    [kmalloc]s of that path succeed. [stack]s: uninitialised local arrays. *)
Record ioctl_arg := IoctlArg {
  arg_ok : bool;
  arg_get : option Z;
  arg_put : bool;
  arg_flash : Z + w25_rw_date_t;
  arg_back : Z;
  arg_ioc : option (list spi_ioc_transfer);
  arg_mem : bool;
  arg_mem2 : bool;
  arg_user : user;
  arg_stack : list Z;
  arg_stack' : list Z
}.

(** The result, and what the command stores through the argument: an integer
    or a flash request. *)
Inductive reply := NoReply | Value (z : Z) | Flash (d : w25_rw_date_t).

Definition put_user (a : ioctl_arg) (z : Z) : M sdev (Z * reply) :=
  if arg_put a then mret (0, Value z) else mret (- EFAULT, NoReply).

(** Change the device with [f], set it up, and on failure store the old value
    back with [undo]. *)
Definition reconfigure (f : kspi -> kspi) (undo : kspi -> kspi -> kspi) : M sdev (Z * reply) :=
  save ← gets kdev;
  modify (fun s => with_kdev (f (kdev s)) s);;
  retval ← setup;
  (if retval <? 0 then modify (fun s => with_kdev (undo save (kdev s)) s) else mret tt);;
  mret (retval, NoReply).

Definition set_mode (m : Z) (k : kspi) : kspi :=
  KSpi (chip_select k) m (bits_per_word k) (max_speed_hz k).
Definition set_bits (b : Z) (k : kspi) : kspi := KSpi (chip_select k) (mode k) b (max_speed_hz k).
Definition set_hz (h : Z) (k : kspi) : kspi := KSpi (chip_select k) (mode k) (bits_per_word k) h.

Definition restore_mode (save k : kspi) : kspi := set_mode (mode save) k.
Definition restore_bits (save k : kspi) : kspi := set_bits (bits_per_word save) k.
Definition restore_hz (save k : kspi) : kspi := set_hz (max_speed_hz save) k.

(** The integer argument of a write command. *)
Definition with_arg (a : ioctl_arg) (f : Z -> M sdev (Z * reply)) : M sdev (Z * reply) :=
  match arg_get a with
  | None => mret (- EFAULT, NoReply)
  | Some tmp => f tmp
  end.

Definition sizeof_spi_ioc_transfer : Z := 32.

(** The [default] branch. *)
Definition ioctl_message (cmd : Z) (a : ioctl_arg) : M sdev (Z * reply) :=
  if negb (IOC_NR cmd =? 0) || negb (IOC_DIR cmd =? IOC_WRITE) then mret (- ENOTTY, NoReply)
  else
    let tmp := IOC_SIZE cmd in
    if negb (tmp mod sizeof_spi_ioc_transfer =? 0) then mret (- EINVAL, NoReply)
    else if tmp / sizeof_spi_ioc_transfer =? 0 then mret (0, NoReply)
    else if negb (arg_mem a) then mret (- ENOMEM, NoReply)
    else match arg_ioc a with
    | None => mret (- EFAULT, NoReply)
    | Some ioc =>
        r ← spidev_message (arg_user a) (arg_mem2 a)
              (take (Z.to_nat (tmp / sizeof_spi_ioc_transfer)) ioc);
        mret (r, NoReply)
    end.

Definition ioctl_command (cmd : Z) (a : ioctl_arg) : M sdev (Z * reply) :=
  if cmd =? SPI_IOC_RD_MODE then
    k ← gets kdev; put_user a (Z.land (mode k) SPI_MODE_MASK)
  else if cmd =? SPI_IOC_RD_LSB_FIRST then
    k ← gets kdev; put_user a (if truth (Z.land (mode k) SPI_LSB_FIRST) then 1 else 0)
  else if cmd =? SPI_IOC_RD_BITS_PER_WORD then
    k ← gets kdev; put_user a (bits_per_word k)
  else if cmd =? SPI_IOC_RD_MAX_SPEED_HZ then
    k ← gets kdev; put_user a (max_speed_hz k)
  else if cmd =? SPI_IOC_WR_MODE then
    with_arg a (fun tmp =>
      if truth (Z.land (u8 tmp) (not32 SPI_MODE_MASK)) then mret (- EINVAL, NoReply)
      else
        k ← gets kdev;
        reconfigure (set_mode (u8 (Z.lor (u8 tmp) (Z.land (mode k) (not32 SPI_MODE_MASK)))))
          restore_mode)
  else if cmd =? SPI_IOC_WR_LSB_FIRST then
    with_arg a (fun tmp =>
      reconfigure (fun k => set_mode (if truth (u8 tmp) then Z.lor (mode k) SPI_LSB_FIRST
                                      else Z.land (mode k) (not32 SPI_LSB_FIRST)) k)
        restore_mode)
  else if cmd =? SPI_IOC_WR_BITS_PER_WORD then
    with_arg a (fun tmp => reconfigure (set_bits (u8 tmp)) restore_bits)
  else if cmd =? SPI_IOC_WR_MAX_SPEED_HZ then
    with_arg a (fun tmp => reconfigure (set_hz (u32 tmp)) restore_hz)
  else if cmd =? SPI_IOC_OPER_FLASH then
    lock_chip_sel;;
    set_cs 2;;
    setup;;
    modify (with_gpio 0);;
    modify (with_chip_sel FLASH_FPGA);;
    mret (0, NoReply)
  else if cmd =? SPI_IOC_OPER_FLASH_DONE then
    set_cs 0;;
    setup;;
    modify (with_chip_sel FPGA_CHIP);;
    modify (with_gpio 1);;
    unlock_chip_sel;;
    mret (0, NoReply)
  else if cmd =? W25_ERASE_CHIP then
    r ← on_flash erase_chip; mret (r, NoReply)
  else if cmd =? W25_ERASE_SECTOR then
    with_arg a (fun tmp => r ← on_flash (erase_sector (u32 tmp)); mret (r, NoReply))
  else if cmd =? W25P16_READ then
    match arg_flash a with
    | inl missed => mret (missed, NoReply)
    | inr d =>
        r ← on_flash (w25p16_read (arg_stack a) (arg_stack' a) (rw_addr d) (rw_size d) (rw_buf d));
        let d' := RwDate (rw_addr d) (rw_size d) (snd r) in
        if fst (fst r) =? 0 then mret (arg_back a, Flash d') else mret (fst (fst r), NoReply)
    end
  else if cmd =? W25P16_WRITE then
    match arg_flash a with
    | inl missed => mret (missed, NoReply)
    | inr d =>
        r ← on_flash (w25p16_write (rw_addr d) (rw_size d) (rw_buf d));
        if fst r =? 0 then mret (arg_back a, Flash d) else mret (fst r, NoReply)
    end
  else if cmd =? W25P1165_ID then
    set_cs 2;;
    setup;;
    on_flash w25p16_read_id;;
    ioctl_message cmd a
  else ioctl_message cmd a.

Definition spidev_ioctl (cmd : Z) (a : ioctl_arg) : M sdev (Z * reply) :=
  if negb (IOC_TYPE cmd =? SPI_IOC_MAGIC) then mret (- ENOTTY, NoReply)
  else if (truth (Z.land (IOC_DIR cmd) IOC_READ) || truth (Z.land (IOC_DIR cmd) IOC_WRITE)) &&
          negb (arg_ok a) then mret (- EFAULT, NoReply)
  else
    b ← gets bound;
    if negb b then mret (- ESHUTDOWN, NoReply)
    else
      modify (fun s => with_refs (refs s + 1) s);;
      r ← ioctl_command cmd a;
      modify (fun s => with_refs (refs s - 1) s);;
      mret r.

(** ** Open, close, seek, probe, remove *)

(** [kfree(spidev)]. *)
Definition free_spidev : M sdev unit := fun s =>
  if freed s then None else Some (tt, with_life (bound s) (listed s) true s).

(** [devt_matches]: the device number of the inode is this device's; [mem]: what
    [kmalloc] returns, the uninitialised memory or null. *)
Definition spidev_open (devt_matches : bool) (mem : option (list Z)) : M sdev Z :=
  l ← gets listed;
  if negb (l && devt_matches) then mret (- ENXIO)
  else
    b ← gets buffer;
    match (match b with Some _ => b | None => mem end) with
    | None => mret (- ENOMEM)
    | Some m =>
        modify (with_buffer (Some m));;
        modify (fun s => with_users (users s + 1) s);;
        mret 0
    end.

Definition spidev_release : M sdev Z :=
  fr ← gets freed;
  if fr : bool then ub
  else
    modify (fun s => with_users (users s - 1) s);;
    u ← gets users;
    if u =? 0 then
      modify (with_buffer None);;
      b ← gets bound;
      (if negb b then free_spidev else mret tt);;
      mret 0
    else mret 0.

(** Result and the new position. *)
Definition spidev__llseek (f_pos offset : Z) : Z * Z :=
  if (offset <? 0) || (DS31400_REG_ADDR_MAX <? offset) then (-1, f_pos) else (offset, offset).

Definition spidev_remove : M sdev Z :=
  fr ← gets freed;
  if fr : bool then ub
  else
    modify (fun s => with_life false false (freed s) s);;
    u ← gets users;
    (if u =? 0 then free_spidev else mret tt);;
    mret 0.

(** [mem]: the [kzalloc] succeeds; [minor]: the first free minor number, if
    any; [created]: the error of [device_create], or 0; [gpio]: the level of the
    flash's GPIO line. *)
Definition spidev_probe (k : kspi) (mem : bool) (minor : option nat) (created gpio : Z) (b : bus H)
  : option (Z * option sdev) :=
  if negb mem then Some (- ENOMEM, None)
  else
    let status := match minor with Some _ => created | None => - ENODEV end in
    let ok := status =? 0 in
    let k := KSpi 2 SPI_MODE_3 (bits_per_word k) 6500000 in
    let s := SDev k 0 true DS31400_CHIP false false gpio 0 None ok (negb ok) false [0; 0; 0; 0] b in
    match (setup;; on_flash w25p16_read_id) s with
    | Some (_, s) => Some (status, Some s)
    | None => None
    end.
End Device.

(** What module load leaves registered: character device, class, driver. *)
Record registered := Registered { chrdev : bool; class : bool; driver : bool }.

(** The results of [register_chrdev], [class_create] (0 or the error) and
    [spi_register_driver]. *)
Definition spidev_init (chrdev_ret class_err driver_ret : Z) : Z * registered :=
  if chrdev_ret <? 0 then (chrdev_ret, Registered false false false)
  else if truth class_err then (class_err, Registered false false false)
  else if driver_ret <? 0 then (driver_ret, Registered false false false)
  else (driver_ret, Registered true true true).

Definition spidev_exit (r : registered) : registered := Registered false false false.
