(* ===== verification/SpiDevProps.v ===== *)
(** * Correctness of the SPI character device *)

From S2P Require Import Prelude SpiMaster W25p16 SpiDev.

Section Props.
Context {H : Type} `{!SpiMaster H}.
Implicit Types s : sdev (H := H).

(** ** Messages to one chip *)

Lemma frame_buf_length : length zeroed = 514%nat.
Proof. apply length_replicate. Qed.

(** What a read stores: the bytes received from [skip] on. *)
Definition received (o : outcome) (skip count : nat) : list Z :=
  take count (drop skip (concat (rx o) ++ drop (length (concat (rx o))) zeroed)).

Lemma sync_read_exact k buf data n skip count b o b' :
  (n <= length buf)%nat -> (whole n <= 514)%nat -> (skip + count <= 514)%nat -> (count <= length data)%nat ->
  spi_sync k [Xfer (Some (take n buf)) true n] b = Some (o, b') ->
  length (received o skip count) = count /\
  sync_read k buf data n skip count b = Some ((status o, received o skip count ++ drop count data), b').
Proof.
  intros Hb Hn Hs Hd E. destruct (spi_sync_rx _ _ _ _ _ E) as (l & El & Hl). cbn [len] in Hl. pose proof (whole_bounds n).
  assert (length (received o skip count) = count) as HL.
  { unfold received. rewrite El. cbn [concat]. rewrite app_nil_r. lens. rewrite frame_buf_length. lia. }
  split; [done|]. unfold sync_read.
  rewrite (buf_read_Some buf), (buf_read_Some zeroed), !drop_0 by (rewrite ?frame_buf_length; lia).
  rewrite bind_unfold, lift_opt_run, bind_unfold, lift_opt_run, bind_unfold, E.
  rewrite (buf_write_Some zeroed), bind_unfold, lift_opt_run, take_0
    by (rewrite El; cbn [concat]; rewrite app_nil_r, frame_buf_length; lia). cbn [app].
  rewrite bind_unfold, buf_read_Some, lift_opt_run
    by (rewrite El; cbn [concat]; rewrite app_nil_r; lens; rewrite frame_buf_length; lia).
  fold (received o skip count).
  change (0 + length (concat (rx o)))%nat with (length (concat (rx o))). fold (received o skip count).
  by rewrite buf_write_Some, bind_unfold, lift_opt_run, ret_unfold, take_0, HL by lia.
Qed.

(** The bytes of a read request: header and, as it happens, the caller's data. *)
Definition frame_of (cs addr : Z) (data : list Z) (count : nat) : list Z :=
  (if cs =? DS31400_CHIP then ds31400_header true addr count
   else fpga_header SPI_FPGA_RD_SINGLE SPI_FPGA_RD_BURST addr count ++ [0]) ++ take count data.
Definition skip_of (cs : Z) : nat := if cs =? DS31400_CHIP then 2 else 4.

(** Building a frame in the zeroed array. *)
Lemma build_frame hdr src : (length hdr + length src <= 514)%nat ->
  exists buf, buf_write (take 0 zeroed ++ hdr ++ drop (0 + length hdr) zeroed) (length hdr) src = Some buf /\
    take (length hdr + length src) buf = hdr ++ src /\ length buf = 514%nat.
Proof.
  intros Hl. rewrite take_0. cbn [app].
  eexists. split; [apply buf_write_Some; lens; rewrite frame_buf_length; lia|].
  rewrite take_app_length. split.
  - rewrite app_assoc, <- length_app. by rewrite take_app_length.
  - lens. rewrite frame_buf_length. lia.
Qed.

Lemma mix_spi_read_exact cs k addr data count b o b' :
  cs = FPGA_CHIP \/ cs = DS31400_CHIP -> (count <= 508)%nat -> (count <= length data)%nat ->
  spi_sync k [Xfer (Some (frame_of cs addr data count)) true (count + skip_of cs)] b = Some (o, b') ->
  length (received o (skip_of cs) count) = count /\
  mix_spi_read cs k addr (Some data) count b =
    Some ((status o, Some (received o (skip_of cs) count ++ drop count data)), b').
Proof.
  intros Hcs Hc Hd E. unfold mix_spi_read.
  rewrite (proj2 (Nat.ltb_ge MULTI_REG_LEN_MAX count)) by (unfold MULTI_REG_LEN_MAX; lia).
  assert (length (take count data) = count) as HS by (rewrite length_take; lia).
  assert (forall hdr, (length hdr <= 4)%nat ->
    spi_sync k [Xfer (Some (hdr ++ take count data)) true (count + length hdr)] b = Some (o, b') ->
    length (received o (length hdr) count) = count /\
    (buf ← lift_opt (buf_write zeroed 0 hdr);
     src ← lift_opt (buf_read data 0 count);
     buf ← lift_opt (buf_write buf (length hdr) src);
     r ← sync_read k buf data (count + length hdr) (length hdr) count;
     mret (fst r, Some (snd r))) b =
    Some ((status o, Some (received o (length hdr) count ++ drop count data)), b')) as HF.
  { intros hdr Hh E'. destruct (build_frame hdr (take count data)) as (buf & Eb & Et & Lb); [lia|].
    rewrite HS, Nat.add_comm in Et. rewrite <- Et in E'.
    destruct (sync_read_exact k buf data (count + length hdr) (length hdr) count b o b') as [HL ES];
      [lia|etrans; [apply (whole_le _ 128)|]; lia|lia|done|done|].
    split; [done|]. rewrite buf_write_Some, bind_unfold, lift_opt_run by (rewrite frame_buf_length; lia).
    rewrite buf_read_Some, drop_0, bind_unfold, lift_opt_run by lia.
    by rewrite Eb, bind_unfold, lift_opt_run, bind_unfold, ES. }
  destruct Hcs as [-> | ->].
  - exact (HF (fpga_header SPI_FPGA_RD_SINGLE SPI_FPGA_RD_BURST addr count ++ [0]) ltac:(simpl; lia) E).
  - exact (HF (ds31400_header true addr count) ltac:(simpl; lia) E).
Qed.

Lemma mix_spi_read_total cs k addr data count b :
  cs = FPGA_CHIP \/ cs = DS31400_CHIP -> (count <= 508)%nat -> (count <= length data)%nat ->
  exists r data' b', mix_spi_read cs k addr (Some data) count b = Some ((r, Some data'), b') /\
    length data' = length data /\ drop count data' = drop count data.
Proof.
  intros Hcs Hc Hd.
  destruct (spi_sync_total k [Xfer (Some (frame_of cs addr data count)) true (count + skip_of cs)] b)
    as [[o b'] E].
  destruct (mix_spi_read_exact cs k addr data count b o b' Hcs Hc Hd E) as [HL ER].
  eexists _, _, _. split; [exact ER|]. split.
  - rewrite length_app, length_drop, HL. lia.
  - rewrite drop_app_ge by lia. by rewrite HL, Nat.sub_diag, drop_0.
Qed.

Lemma spi_write_total k buf n b : (n <= length buf)%nat -> is_Some (spi_write k buf n b).
Proof.
  intros Hn. unfold spi_write. rewrite buf_read_Some, bind_unfold, lift_opt_run by done.
  apply bind_total; [apply spi_sync_total|]. by eexists.
Qed.

Lemma mix_spi_write_total cs k addr data count b :
  cs = FPGA_CHIP \/ cs = DS31400_CHIP -> (count <= 510)%nat -> (count <= length data)%nat ->
  is_Some (mix_spi_write cs k addr (Some data) count b).
Proof.
  intros Hcs Hc Hd. unfold mix_spi_write.
  rewrite (proj2 (Nat.ltb_ge MULTI_REG_LEN_MAX count)) by (unfold MULTI_REG_LEN_MAX; lia).
  destruct Hcs as [-> | ->].
  - change (FPGA_CHIP =? DS31400_CHIP) with false. change (FPGA_CHIP =? FPGA_CHIP) with true. cbn iota.
    rewrite buf_write_Some, bind_unfold, lift_opt_run by (rewrite frame_buf_length; simpl; lia).
    rewrite buf_read_Some, bind_unfold, lift_opt_run by lia.
    rewrite buf_write_Some, bind_unfold, lift_opt_run
      by (lens; rewrite frame_buf_length; simpl; lia).
    apply spi_write_total. lens. rewrite frame_buf_length. simpl. lia.
  - change (DS31400_CHIP =? DS31400_CHIP) with true. cbn iota.
    rewrite buf_write_Some, bind_unfold, lift_opt_run by (rewrite frame_buf_length; simpl; lia).
    rewrite buf_read_Some, bind_unfold, lift_opt_run by lia.
    rewrite buf_write_Some, bind_unfold, lift_opt_run
      by (lens; rewrite frame_buf_length; simpl; lia).
    apply spi_write_total. lens. rewrite frame_buf_length. simpl. lia.
Qed.

(** ** The kernel interface *)

(** The device is there and nobody holds the chip-select mutex. *)
Definition idle s : Prop := bound s = true /\ freed s = false /\ chip_sel_lock s = false.

(** The chip select and everything else but the bus is as before; [n] more
    references are held. *)
Definition restored (n : Z) s s' : Prop :=
  exists b, s' = with_sbus b (with_refs (refs s + n) s).

Lemma switch_to_run cs chip s : idle s ->
  switch_to cs chip s = Some ((chip_select (kdev s), chip_sel s),
    with_chip_sel chip (with_kdev (KSpi cs (mode (kdev s)) (bits_per_word (kdev s)) (max_speed_hz (kdev s)))
      (with_chip_sel_lock true (with_refs (refs s + 1) s)))).
Proof.
  intros (Hb & Hf & Hl). unfold switch_to, get_spi, lock_chip_sel. rewrite bind_unfold, Hb, Hf. simpl.
  rewrite bind_unfold. cbn [chip_sel_lock with_refs]. by rewrite Hl.
Qed.

Lemma switch_back_run k c b s :
  idle s ->
  exists s', switch_back (chip_select (kdev s), chip_sel s)
    (with_sbus b (with_chip_sel c (with_kdev
        (KSpi k (mode (kdev s)) (bits_per_word (kdev s)) (max_speed_hz (kdev s)))
        (with_chip_sel_lock true (with_refs (refs s + 1) s))))) = Some (tt, s') /\ restored 1 s s'.
Proof.
  intros (Hb & Hf & Hl). eexists. split; [reflexivity|]. exists b.
  destruct s as [[] ? ? ? ? ? ? ? ? ? ? ? ? ?]. simpl in *. by subst.
Qed.

(** The frame of the four functions: switch, do [m] on the bus, switch back. *)
Lemma switched {A B} cs chip (m : Z -> kspi -> M (bus H) A) (g : A -> B) s a b :
  idle s ->
  m chip (KSpi cs (mode (kdev s)) (bits_per_word (kdev s)) (max_speed_hz (kdev s))) (sbus s) = Some (a, b) ->
  exists s', (saved ← switch_to cs chip; k ← gets kdev; c ← gets chip_sel;
     r ← on_sbus (m c k); switch_back saved;; mret (g r)) s = Some (g a, s') /\ restored 1 s s'.
Proof.
  intros Hi E. rewrite bind_unfold, (switch_to_run cs chip s Hi), bind_unfold, gets_run, bind_unfold, gets_run.
  rewrite bind_unfold. unfold on_sbus, zoom. cbn [sbus kdev chip_sel with_chip_sel with_kdev with_chip_sel_lock with_refs].
  rewrite E. destruct (switch_back_run cs chip b s Hi) as (s' & Eb & R).
  exists s'. split; [|done]. by rewrite (bind_Some _ _ _ _ _ Eb).
Qed.

Lemma switched_None {A B} cs chip (m : Z -> kspi -> M (bus H) A) (g : A -> B) s :
  (forall k b, m chip k b = None) ->
  (saved ← switch_to cs chip; k ← gets kdev; c ← gets chip_sel;
     r ← on_sbus (m c k); switch_back saved;; mret (g r)) s = None.
Proof.
  intros Hm. rewrite bind_unfold. destruct (switch_to cs chip s) as [[saved s1]|] eqn:E; [|done].
  assert (chip_sel s1 = chip) as Hc.
  { unfold switch_to, get_spi, lock_chip_sel in E. rewrite bind_unfold in E.
    destruct (bound s && negb (freed s)); [|done]. rewrite bind_unfold in E.
    cbn [chip_sel_lock with_refs] in E. destruct (chip_sel_lock s); [done|]. unfold set_cs in E. inversion E. reflexivity. }
  rewrite bind_unfold, gets_run, bind_unfold, gets_run, bind_unfold, Hc.
  unfold on_sbus, zoom. by rewrite Hm.
Qed.

(** The kernel's register access to FPGA and clock chip leaves the device
    as it was: up to 508 bytes, and with a controller that stays within the
    whole words of a transfer, every call has defined behaviour, switches to its
    chip under the mutex and restores the chip select of the device and the
    global before it releases the mutex. Each call keeps one more reference to
    the device, which nothing gives back. *)
Theorem kernel_access_restores addr data count s :
  idle s -> (count <= 508)%nat -> (count <= length data)%nat ->
  (exists data' s', fpga_spi_read addr (Some data) count s = Some ((0, Some data'), s') /\
     length data' = length data /\ drop count data' = drop count data /\ restored 1 s s') /\
  (exists r s', fpga_spi_write addr (Some data) count s = Some (r, s') /\ restored 1 s s') /\
  (exists r s', dpll_spi_write addr (Some data) count s = Some (r, s') /\ restored 1 s s').
Proof.
  intros Hi Hc Hd. split; [|split].
  - destruct (mix_spi_read_total FPGA_CHIP
      (KSpi 0 (mode (kdev s)) (bits_per_word (kdev s)) (max_speed_hz (kdev s))) (u16 addr) data count (sbus s))
      as (r & data' & b & E & L & D); [by left|lia|done|].
    destruct (switched 0 FPGA_CHIP (fun c k => mix_spi_read c k (u16 addr) (Some data) count)
      (fun r => (0, snd r)) s _ b Hi E) as (s' & E' & R). exists data', s'. by split.
  - destruct (mix_spi_write_total FPGA_CHIP
      (KSpi 0 (mode (kdev s)) (bits_per_word (kdev s)) (max_speed_hz (kdev s))) addr data count (sbus s))
      as [[r b] E]; [by left|lia|done|].
    destruct (switched 0 FPGA_CHIP (fun c k => mix_spi_write c k addr (Some data) count)
      (fun r => r) s r b Hi E) as (s' & E' & R). by exists r, s'.
  - destruct (mix_spi_write_total DS31400_CHIP
      (KSpi 1 (mode (kdev s)) (bits_per_word (kdev s)) (max_speed_hz (kdev s))) addr data count (sbus s))
      as [[r b] E]; [by right|lia|done|].
    destruct (switched 1 DS31400_CHIP (fun c k => mix_spi_write c k addr (Some data) count)
      (fun r => r) s r b Hi E) as (s' & E' & R). by exists r, s'.
Qed.

(** A read or write of 511 or 512 bytes passes the length check of the
    driver and overruns the 514-byte buffer on the stack. *)
Theorem kernel_access_overrun addr data count s :
  (511 <= count <= 512)%nat ->
  fpga_spi_read addr (Some data) count s = None /\ fpga_spi_write addr (Some data) count s = None.
Proof.
  intros Hc.
  assert (forall k b, mix_spi_read FPGA_CHIP k (u16 addr) (Some data) count b = None) as HR.
  { intros k b. unfold mix_spi_read.
    rewrite (proj2 (Nat.ltb_ge MULTI_REG_LEN_MAX count)) by (unfold MULTI_REG_LEN_MAX; lia).
    change (FPGA_CHIP =? DS31400_CHIP) with false. change (FPGA_CHIP =? FPGA_CHIP) with true. cbn iota.
    rewrite buf_write_Some, bind_unfold, lift_opt_run, bind_unfold by (rewrite frame_buf_length; simpl; lia).
    destruct (buf_read data 0 count) as [src|] eqn:Es; [|done]. rewrite lift_opt_run.
    apply buf_read_length in Es. rewrite bind_unfold, buf_write_None; [done|].
    lens. rewrite frame_buf_length, Es. simpl. lia. }
  assert (forall k b, mix_spi_write FPGA_CHIP k addr (Some data) count b = None) as HW.
  { intros k b. unfold mix_spi_write.
    rewrite (proj2 (Nat.ltb_ge MULTI_REG_LEN_MAX count)) by (unfold MULTI_REG_LEN_MAX; lia).
    change (FPGA_CHIP =? DS31400_CHIP) with false. change (FPGA_CHIP =? FPGA_CHIP) with true. cbn iota.
    rewrite buf_write_Some, bind_unfold, lift_opt_run, bind_unfold by (rewrite frame_buf_length; simpl; lia).
    destruct (buf_read data 0 count) as [src|] eqn:Es; [|done]. rewrite lift_opt_run.
    apply buf_read_length in Es. rewrite bind_unfold. destruct (buf_write _ 3 src) as [buf|] eqn:Eb; [|done].
    rewrite lift_opt_run. apply buf_write_length in Eb. unfold spi_write.
    rewrite bind_unfold, buf_read_None; [done|]. rewrite Eb. lens. rewrite frame_buf_length. simpl. lia. }
  split.
  - by apply (switched_None 0 FPGA_CHIP (fun c k => mix_spi_read c k (u16 addr) (Some data) count)).
  - by apply (switched_None 0 FPGA_CHIP (fun c k => mix_spi_write c k addr (Some data) count)).
Qed.

(** ** read *)

(** The request [u] as the message it becomes. *)
Definition target u s : kspi :=
  KSpi (cs u) (mode (kdev s)) (bits_per_word (kdev s)) (max_speed_hz (kdev s)).
Definition read_xfer u : xfer :=
  Xfer (Some (frame_of (cs u) (addr u) (buff u) (rw_len u))) true (rw_len u + skip_of (cs u)).

Lemma select_chip_run u s : cs u = 0 \/ cs u = 1 ->
  select_chip (cs u) (with_chip_sel_lock true s) =
    Some (true, with_chip_sel (cs u) (with_kdev (target u s) (with_chip_sel_lock true s))).
Proof. unfold select_chip, target. intros [-> | ->]; reflexivity. Qed.

(** A read is one message to the controller. *)
Lemma spidev_read_run u stack s :
  idle s -> buf_lock s = false -> cs u = 0 \/ cs u = 1 ->
  (rw_len u <= 64)%nat -> length (buff u) = 64%nat ->
  truth (Z.land flags SPI_MASTER_HALF_DUPLEX) = false ->
  truth (Z.land (mode (kdev s)) SPI_3WIRE) = false ->
  let r := transfer (target u s) [read_xfer u] (hw (sbus s)) in
  exists s', spidev_read (Some u) stack s =
      Some ((Z.of_nat (rw_len u),
             Some (SpiRdwr (cs u) (addr u) (rw_len u)
                     (received (fst r) (skip_of (cs u)) (rw_len u) ++ drop (rw_len u) (buff u)))), s') /\
    chip_sel s' = cs u /\ kdev s' = target u s /\ idle s' /\ buf_lock s' = false /\
    sbus s' = Bus (snd r) (messages (sbus s) ++ [(target u s, [read_xfer u])]).
Proof.
  intros (Hb & Hf & Hl) Hbl Hcs Hlen Hbuf Hfd H3.
  set (k := target u s). set (x := read_xfer u).
  pose proof (spi_sync_run k [x] (sbus s) Hfd H3) as ES.
  destruct (mix_spi_read_exact (cs u) k (addr u) (buff u) (rw_len u) (sbus s) _ _ Hcs
    ltac:(lia) ltac:(lia) ES) as [_ ER].
  cbv zeta. eexists.
  unfold spidev_read. rewrite bind_unfold. unfold lock_chip_sel. rewrite Hl. cbv zeta.
  change (default stack (Some u)) with u.
  assert ((cs u =? 0) || (cs u =? 1) = true) as -> by (destruct Hcs as [-> | ->]; done).
  rewrite bind_unfold. unfold deref_spi. cbn [bound freed with_chip_sel_lock]. rewrite Hb, Hf.
  cbn [andb negb]. rewrite bind_unfold, (select_chip_run u s Hcs). fold k.
  rewrite (proj2 (Nat.ltb_ge 64 (rw_len u))) by lia. cbn [negb orb].
  rewrite bind_unfold. unfold lock_buf. cbn [buf_lock with_chip_sel with_kdev with_chip_sel_lock]. rewrite Hbl.
  rewrite bind_unfold, gets_run, bind_unfold, gets_run, bind_unfold. unfold on_sbus, zoom.
  cbn [kdev chip_sel sbus with_buf_lock with_chip_sel with_kdev with_chip_sel_lock]. rewrite ER.
  split; [reflexivity|]. by repeat split.
Qed.

(** ** write *)

(** The bytes of a write request; a write to the FPGA is followed by one more. *)
Definition write_frame (cs addr : Z) (data : list Z) (count : nat) : list Z :=
  if cs =? DS31400_CHIP then ds31400_header false addr count ++ take count data
  else fpga_header SPI_FPGA_WR_SINGLE SPI_FPGA_WR_BURST addr count ++ take count data ++ [0].

Lemma write_frame_length cs addr data count : (count <= length data)%nat ->
  length (write_frame cs addr data count) = (count + skip_of cs)%nat.
Proof.
  intros Hc. unfold write_frame, skip_of. destruct (cs =? DS31400_CHIP); rewrite !length_app, length_take;
    simpl; lia.
Qed.

Definition write_xfer u : xfer :=
  Xfer (Some (write_frame (cs u) (addr u) (buff u) (rw_len u))) false (rw_len u + skip_of (cs u)).

(** What follows header and data in the array are zeros. *)
Lemma frame_zeros hdr src extra : (length hdr + length src + extra <= 514)%nat ->
  take (length src + (length hdr + extra))
    (hdr ++ src ++ drop (length hdr + length src) (hdr ++ drop (0 + length hdr) zeroed)) =
  hdr ++ src ++ replicate extra 0.
Proof.
  intros Hl. rewrite drop_app_ge by lia. unfold zeroed, MULTI_REG_LEN_MAX. rewrite !drop_replicate.
  replace (length src + (length hdr + extra))%nat with (length hdr + (length src + extra))%nat by lia.
  rewrite firstn_app_2. f_equal. rewrite firstn_app_2. f_equal.
  rewrite take_replicate. f_equal. lia.
Qed.

Lemma mix_spi_write_exact cs k addr data count b :
  cs = FPGA_CHIP \/ cs = DS31400_CHIP -> (count <= 510)%nat -> (count <= length data)%nat ->
  mix_spi_write cs k addr (Some data) count b =
    (o ← spi_sync k [Xfer (Some (write_frame cs addr data count)) false (count + skip_of cs)];
     mret (status o)) b.
Proof.
  intros Hcs Hc Hd. unfold mix_spi_write.
  rewrite (proj2 (Nat.ltb_ge MULTI_REG_LEN_MAX count)) by (unfold MULTI_REG_LEN_MAX; lia).
  assert (length (take count data) = count) as HS by (rewrite length_take; lia).
  assert (forall hdr extra, (length hdr + extra <= 4)%nat ->
    (buf ← lift_opt (buf_write zeroed 0 hdr);
     src ← lift_opt (buf_read data 0 count);
     buf ← lift_opt (buf_write buf (length hdr) src);
     spi_write k buf (count + (length hdr + extra))) b =
    (o ← spi_sync k [Xfer (Some (hdr ++ take count data ++ replicate extra 0)) false (count + (length hdr + extra))];
     mret (status o)) b) as HF.
  { intros hdr extra Hh.
    rewrite buf_write_Some, bind_unfold, lift_opt_run by (rewrite frame_buf_length; lia).
    rewrite buf_read_Some, drop_0, bind_unfold, lift_opt_run by lia.
    rewrite buf_write_Some, bind_unfold, lift_opt_run by (lens; rewrite frame_buf_length; lia).
    unfold spi_write. rewrite buf_read_Some, bind_unfold, lift_opt_run
      by (lens; rewrite frame_buf_length; lia).
    rewrite take_0, drop_0. cbn [app]. rewrite take_app_length. 
    pose proof (frame_zeros hdr (take count data) extra ltac:(lia)) as EF.
    rewrite HS in EF |- *. by rewrite EF. }
  destruct Hcs as [-> | ->].
  - exact (HF (fpga_header SPI_FPGA_WR_SINGLE SPI_FPGA_WR_BURST addr count) 1%nat ltac:(simpl; lia)).
  - pose proof (HF (ds31400_header false addr count) 0%nat ltac:(simpl; lia)) as E.
    rewrite app_nil_r in E. exact E.
Qed.

(** A write is one message to the controller. *)
Lemma spidev_write_run u stack s :
  idle s -> buf_lock s = false -> cs u = 0 \/ cs u = 1 ->
  (rw_len u <= 64)%nat -> length (buff u) = 64%nat ->
  truth (Z.land flags SPI_MASTER_HALF_DUPLEX) = false ->
  truth (Z.land (mode (kdev s)) SPI_3WIRE) = false ->
  let r := transfer (target u s) [write_xfer u] (hw (sbus s)) in
  exists s', spidev_write (Some u) stack s = Some (Z.of_nat (rw_len u), s') /\
    chip_sel s' = cs u /\ kdev s' = target u s /\ idle s' /\ buf_lock s' = false /\
    sbus s' = Bus (snd r) (messages (sbus s) ++ [(target u s, [write_xfer u])]).
Proof.
  intros (Hb & Hf & Hl) Hbl Hcs Hlen Hbuf Hfd H3.
  set (k := target u s). set (x := write_xfer u).
  pose proof (spi_sync_run k [x] (sbus s) Hfd H3) as ES.
  pose proof (mix_spi_write_exact (cs u) k (addr u) (buff u) (rw_len u) (sbus s) Hcs
    ltac:(lia) ltac:(lia)) as EW. fold (write_xfer u) x in EW. rewrite (bind_Some _ _ _ _ _ ES) in EW.
  cbv zeta. eexists.
  unfold spidev_write. rewrite bind_unfold. unfold lock_chip_sel. rewrite Hl. cbv zeta.
  change (default stack (Some u)) with u.
  assert ((cs u =? 0) || (cs u =? 1) = true) as -> by (destruct Hcs as [-> | ->]; done).
  rewrite bind_unfold. unfold deref_spi. cbn [bound freed with_chip_sel_lock]. rewrite Hb, Hf.
  cbn [andb negb]. rewrite bind_unfold, (select_chip_run u s Hcs).
  rewrite (proj2 (Nat.ltb_ge 64 (rw_len u))) by lia. cbn [negb orb].
  rewrite bind_unfold. unfold lock_buf. cbn [buf_lock with_chip_sel with_kdev with_chip_sel_lock]. rewrite Hbl.
  rewrite bind_unfold, gets_run, bind_unfold, gets_run, bind_unfold. unfold on_sbus, zoom.
  cbn [kdev chip_sel sbus with_buf_lock with_chip_sel with_kdev with_chip_sel_lock]. fold k. rewrite EW.
  split; [reflexivity|]. by repeat split.
Qed.

(** A read through the device selects the chip asked for, sends one message
    whose first bytes are the read command and the register address, and copies
    back the bytes received behind them; the rest of the caller's buffer is
    kept, and both mutexes are released. *)
Theorem spidev_read_ok u stack s :
  idle s -> buf_lock s = false -> cs u = 0 \/ cs u = 1 ->
  (rw_len u <= 64)%nat -> length (buff u) = 64%nat ->
  truth (Z.land flags SPI_MASTER_HALF_DUPLEX) = false ->
  truth (Z.land (mode (kdev s)) SPI_3WIRE) = false ->
  exists o s', spidev_read (Some u) stack s =
      Some ((Z.of_nat (rw_len u),
             Some (SpiRdwr (cs u) (addr u) (rw_len u)
                     (received o (skip_of (cs u)) (rw_len u) ++ drop (rw_len u) (buff u)))), s') /\
    chip_sel s' = cs u /\ chip_select (kdev s') = cs u /\
    chip_sel_lock s' = false /\ buf_lock s' = false /\
    messages (sbus s') = messages (sbus s) ++
      [(kdev s', [Xfer (Some (frame_of (cs u) (addr u) (buff u) (rw_len u))) true
                    (rw_len u + skip_of (cs u))])].
Proof.
  intros Hi Hbl Hcs Hlen Hbuf Hfd H3.
  destruct (spidev_read_run u stack s Hi Hbl Hcs Hlen Hbuf Hfd H3) as (s' & E & Hc & Hk & (_ & _ & Hl) & Hb & Hs).
  eexists _, s'. split; [exact E|]. rewrite Hs, Hk. by repeat split.
Qed.

(** ** Configuration commands *)

Lemma setup_run k b k' r b' s :
  spi_setup k b = Some ((r, k'), b') -> kdev s = k -> sbus s = b ->
  setup s = Some (r, with_kdev k' (with_sbus b' s)).
Proof.
  intros E <- <-. unfold setup. rewrite bind_unfold, gets_run, bind_unfold. unfold on_sbus, zoom.
  by rewrite E.
Qed.

Lemma spi_setup_run k (b : bus H) :
  exists r b', spi_setup k b =
    Some ((r, if truth (Z.land (mode k) (not32 mode_bits)) then k
              else if bits_per_word k =? 0 then set_bits 8 k else k), b') /\
    (truth (Z.land (mode k) (not32 mode_bits)) = true -> r = - EINVAL).
Proof. unfold spi_setup. destruct (truth _); eexists _, _; by split. Qed.

(** A command that changes mode, word length or speed is all or nothing: if
    the controller refuses the new setting, the device keeps the old one; if it
    accepts, exactly that setting is changed (a word length of 0 standing for
    8). *)
Theorem reconfigure_atomic f s tmp :
  bits_per_word (kdev s) <> 0 ->
  In f [(set_mode tmp, restore_mode); (set_bits tmp, restore_bits); (set_hz tmp, restore_hz)] ->
  exists r s', reconfigure (fst f) (snd f) s = Some ((r, NoReply), s') /\
    (r < 0 -> kdev s' = kdev s) /\
    (0 <= r -> kdev s' = if bits_per_word (fst f (kdev s)) =? 0 then set_bits 8 (fst f (kdev s))
                         else fst f (kdev s)).
Proof.
  intros Hb Hf. unfold reconfigure. rewrite bind_unfold, gets_run, bind_unfold, modify_run, bind_unfold.
  destruct (spi_setup_run (fst f (kdev s)) (sbus s)) as (r & b' & E & Hbad).
  rewrite (setup_run _ _ _ _ _ _ E) by done.
  destruct (Z.ltb_spec r 0) as [Hr|Hr].
  - rewrite bind_unfold, modify_run, ret_unfold. eexists _, _. split; [reflexivity|].
    split; [|lia]. intros _. cbn [kdev with_kdev with_sbus].
    simpl in Hf. destruct (kdev s) as [c m bw hz]; simpl in Hb.
    destruct Hf as [<- | [<- | [<- | []]]]; cbn [fst snd set_mode set_bits set_hz bits_per_word];
      unfold restore_mode, restore_bits, restore_hz, set_mode, set_bits, set_hz; simpl;
      repeat case_match; simpl; zbool; congruence || done.
  - rewrite bind_unfold, ret_unfold, ret_unfold. eexists _, _. split; [reflexivity|].
    split; [lia|]. intros _. cbn [kdev with_kdev with_sbus].
    destruct (truth _); [|done]. rewrite (Hbad eq_refl) in Hr. unfold EINVAL in Hr. lia.
Qed.

(** ** Flash mode *)

(** Without the guards, the two commands. *)
Lemma ioctl_flash_guards cmd a s : bound s = true -> arg_ok a = true ->
  IOC_TYPE cmd = SPI_IOC_MAGIC ->
  spidev_ioctl cmd a s =
    match ioctl_command cmd a (with_refs (refs s + 1) s) with
    | Some (r, s') => Some (r, with_refs (refs s' - 1) s')
    | None => None
    end.
Proof.
  intros Hb Ha Ht. unfold spidev_ioctl. rewrite Ht, Ha, Z.eqb_refl, andb_false_r. cbn [negb].
  by rewrite bind_unfold, gets_run, Hb.
Qed.

Lemma spi_setup_messages k (b : bus H) r b' :
  spi_setup k b = Some (r, b') -> messages b' = messages b.
Proof. unfold spi_setup. case_match; intros E; by simplify_eq. Qed.

(** Entering and leaving flash mode. *)
Lemma enter_flash a s : idle s -> arg_ok a = true ->
  exists k b, spidev_ioctl SPI_IOC_OPER_FLASH a s =
      Some ((0, NoReply), with_chip_sel FLASH_FPGA (with_gpio 0 (with_kdev k (with_sbus b
        (with_chip_sel_lock true s))))) /\
    chip_select k = 2 /\ mode k = mode (kdev s) /\ messages b = messages (sbus s).
Proof.
  intros (Hb & Hf & Hl) Ha. rewrite ioctl_flash_guards by done.
  change (ioctl_command SPI_IOC_OPER_FLASH a) with
    (lock_chip_sel;; set_cs 2;; setup;; modify (with_gpio 0);; modify (with_chip_sel FLASH_FPGA);;
     (mret (0, NoReply) : M (sdev (H := H)) _)).
  destruct (spi_setup_run (KSpi 2 (mode (kdev s)) (bits_per_word (kdev s)) (max_speed_hz (kdev s))) (sbus s))
    as (r & b & E & _).
  set (k := if truth _ then _ else _) in E.
  exists k, b. split; [|split; [subst k; by repeat case_match|split; [subst k; by repeat case_match|]]].
  - rewrite bind_unfold. unfold lock_chip_sel. cbn [chip_sel_lock with_refs]. rewrite Hl.
    rewrite bind_unfold. unfold set_cs. rewrite modify_run, bind_unfold, (setup_run _ _ _ _ _ _ E) by done.
    rewrite bind_unfold, modify_run, bind_unfold, modify_run, ret_unfold.
    destruct s. cbn -[Z.add Z.sub]. by rewrite Z.add_simpl_r.
  - by apply (spi_setup_messages _ _ _ _ E).
Qed.

Lemma leave_flash a s : bound s = true -> chip_sel_lock s = true -> arg_ok a = true ->
  exists k b, spidev_ioctl SPI_IOC_OPER_FLASH_DONE a s =
      Some ((0, NoReply), with_chip_sel FPGA_CHIP (with_gpio 1 (with_kdev k (with_sbus b
        (with_chip_sel_lock false s))))) /\
    chip_select k = 0 /\ messages b = messages (sbus s).
Proof.
  intros Hb Hl Ha. rewrite ioctl_flash_guards by done.
  change (ioctl_command SPI_IOC_OPER_FLASH_DONE a) with
    (set_cs 0;; setup;; modify (with_chip_sel FPGA_CHIP);; modify (with_gpio 1);; unlock_chip_sel;;
     (mret (0, NoReply) : M (sdev (H := H)) _)).
  destruct (spi_setup_run (KSpi 0 (mode (kdev s)) (bits_per_word (kdev s)) (max_speed_hz (kdev s))) (sbus s))
    as (r & b & E & _).
  set (k := if truth _ then _ else _) in E.
  exists k, b. split; [|split; [subst k; by repeat case_match|by apply (spi_setup_messages _ _ _ _ E)]].
  rewrite bind_unfold. unfold set_cs. rewrite modify_run, bind_unfold, (setup_run _ _ _ _ _ _ E) by done.
  rewrite bind_unfold, modify_run, bind_unfold, modify_run, bind_unfold. unfold unlock_chip_sel.
  destruct s. cbn in *. rewrite Hl. cbn -[Z.add Z.sub]. by rewrite Z.add_simpl_r.
Qed.

(** SPI_IOC_OPER_FLASH keeps the chip-select mutex until
    SPI_IOC_OPER_FLASH_DONE: in between every read and write of the device, every
    kernel access and a second SPI_IOC_OPER_FLASH blocks; afterwards the FPGA is
    selected and the mutex free. *)
Theorem flash_mode_blocks a s :
  idle s -> arg_ok a = true ->
  exists s1, spidev_ioctl SPI_IOC_OPER_FLASH a s = Some ((0, NoReply), s1) /\
    chip_sel s1 = FLASH_FPGA /\ gpio_flash s1 = 0 /\
    (forall u stack, spidev_read u stack s1 = None /\ spidev_write u stack s1 = None) /\
    (forall x data count, fpga_spi_read x data count s1 = None) /\
    spidev_ioctl SPI_IOC_OPER_FLASH a s1 = None /\
    exists s2, spidev_ioctl SPI_IOC_OPER_FLASH_DONE a s1 = Some ((0, NoReply), s2) /\
      chip_sel s2 = FPGA_CHIP /\ chip_select (kdev s2) = 0 /\ gpio_flash s2 = 1 /\
      chip_sel_lock s2 = false /\ refs s2 = refs s.
Proof.
  intros Hi Ha. pose proof Hi as (Hb & Hf & Hl).
  destruct (enter_flash a s Hi Ha) as (k & b & E & _).
  eexists. split; [exact E|]. split; [done|]. split; [done|]. split; [done|]. split; [|split].
  - intros x data count. unfold fpga_spi_read, switch_to, get_spi. rewrite bind_unfold, bind_unfold.
    cbn [bound freed with_refs with_chip_sel with_gpio with_kdev with_sbus with_chip_sel_lock].
    by rewrite Hb, Hf.
  - by rewrite ioctl_flash_guards.
  - match type of E with _ = Some (_, ?s1) => destruct (leave_flash a s1) as (k' & b' & E' & Hk & _) end;
      [done|done|done|].
    eexists. split; [exact E'|]. done.
Qed.

(** ** Messages of several transfers *)















(** ** Lifetime of the driver data *)

(** One user per open file; the buffer exists while there are users; the data
    is freed exactly when the device is gone and nobody uses it. *)
Definition alive s : Prop :=
  0 <= users s /\ (is_Some (buffer s) <-> 0 < users s) /\ listed s = bound s /\
  (freed s = true <-> bound s = false /\ users s = 0).

(** C36: Opening, closing and removing the device keep its data consistent: the
    data is freed exactly once, when the device is gone and the last file is
    closed, and is never used afterwards; a failed open changes nothing. *)
Theorem spidev_lifetime s :
  alive s ->
  (forall m mem, exists r s', spidev_open m mem s = Some (r, s') /\ alive s' /\
     (r = 0 /\ users s' = users s + 1 \/ r < 0 /\ s' = s)) /\
  (0 < users s -> exists s', spidev_release s = Some (0, s') /\ alive s' /\ users s' = users s - 1) /\
  (bound s = true -> exists s', spidev_remove s = Some (0, s') /\ alive s' /\ bound s' = false).
Proof.
  intros Hal. pose proof Hal as (Hu & Hbuf & Hlist & Hfree). split; [|split].
  - intros m mem. unfold spidev_open. rewrite bind_unfold, gets_run.
    destruct (listed s && m) eqn:El; cbn [negb].
    2:{ eexists _, _. split; [reflexivity|]. split; [exact Hal|].
        right. by split. }
    apply andb_true_iff in El as [El _]. rewrite bind_unfold, gets_run.
    destruct (match buffer s with Some _ => buffer s | None => mem end) as [buf|] eqn:Eb.
    + eexists _, _. split; [reflexivity|]. cbn. split; [|left; done].
      split; [cbn; lia|]. split; [cbn; split; [lia|by eexists]|]. split; [done|]. cbn.
      rewrite Hfree. split; intros [? ?]; [congruence|lia].
    + eexists _, _. split; [reflexivity|]. split; [exact Hal|].
      right. by split.
  - intros Hpos. unfold spidev_release. rewrite bind_unfold, gets_run.
    destruct (freed s) eqn:Ef; [apply proj1 in Hfree; destruct (Hfree eq_refl); lia|].
    rewrite bind_unfold, modify_run, bind_unfold, gets_run. cbn [users with_users].
    destruct (Z.eqb_spec (users s - 1) 0) as [Ez|Ez].
    + rewrite bind_unfold, modify_run, bind_unfold, gets_run. cbn [bound with_buffer with_users].
      assert (exists fr, (fr = true <-> bound s = false) /\
        ((if negb (bound s) then free_spidev else mret tt);; (mret 0 : M (sdev (H := H)) Z))
          (with_buffer None (with_users (users s - 1) s)) =
        Some (0, with_life (bound s) (listed s) fr (with_buffer None (with_users (users s - 1) s))))
        as (fr & Hfr & ->).
      { destruct s. simpl in *. subst. destruct bound; [exists false | exists true]; by split. }
      eexists. split; [reflexivity|]. split; [|done].
      split; [cbn; lia|]. split; [cbn; split; [by intros []|lia]|]. split; [done|]. cbn. rewrite Hfr. tauto.
    + eexists. split; [reflexivity|]. split; [|done]. split; [cbn; lia|]. split.
      * cbn. rewrite Hbuf. lia.
      * split; [done|]. cbn. rewrite Ef. split; [done|]. intros [_ ?]. lia.
  - intros Hbd. unfold spidev_remove. rewrite bind_unfold, gets_run.
    destruct (freed s) eqn:Ef; [apply proj1 in Hfree; destruct (Hfree eq_refl); congruence|].
    rewrite bind_unfold, modify_run, bind_unfold, gets_run. cbn [users with_life].
    destruct (Z.eqb_spec (users s) 0) as [Ez|Ez]; eexists;
      (split; [unfold free_spidev; rewrite ?bind_unfold; cbn; rewrite ?Ef; reflexivity|]);
      (split; [|done]); (split; [done|]); (split; [done|]); (split; [done|]); cbn; rewrite ?Ef;
      split; intros; try done; intuition congruence.
Qed.
End Props.

(** ** Witnesses *)

Import SpiMaster.NullMaster.

Definition ex_sdev : sdev (H := unit) :=
  SDev (KSpi 0 3 8 6500000) 0 true DS31400_CHIP false false 1 1 (Some (replicate 4096 0)) true false
    false [0; 0; 0; 0] (Bus tt []).

Lemma ex_sdev_idle : idle ex_sdev.
Proof. by repeat split. Qed.

Lemma kernel_access_restores_witness :
  (exists data' s', fpga_spi_read 0x10 (Some [1; 2; 3]) 2 ex_sdev = Some ((0, Some data'), s') /\
     length data' = 3%nat /\ drop 2 data' = [3] /\ restored 1 ex_sdev s') /\
  (exists r s', fpga_spi_write 0x10 (Some [1; 2; 3]) 2 ex_sdev = Some (r, s') /\ restored 1 ex_sdev s') /\
  (exists r s', dpll_spi_write 0x10 (Some [1; 2; 3]) 2 ex_sdev = Some (r, s') /\ restored 1 ex_sdev s').
Proof.
  refine (kernel_access_restores 0x10 [1; 2; 3] 2 ex_sdev ex_sdev_idle _ _); simpl; lia.
Defined.

Lemma kernel_access_overrun_witness :
  fpga_spi_read 0 (Some (replicate 512 0)) 512 ex_sdev = None /\
  fpga_spi_write 0 (Some (replicate 512 0)) 512 ex_sdev = None.
Proof. refine (kernel_access_overrun 0 (replicate 512 0) 512 ex_sdev _). lia. Defined.

Definition ex_request : spi_rdwr := SpiRdwr 0 0x1234 2 (replicate 64 7).

Lemma spidev_read_ok_witness :
  exists o s', spidev_read (Some ex_request) ex_request ex_sdev =
      Some ((2, Some (SpiRdwr 0 0x1234 2 (received o 4 2 ++ replicate 62 7))), s') /\
    chip_sel s' = 0 /\ chip_select (kdev s') = 0 /\
    chip_sel_lock s' = false /\ buf_lock s' = false /\
    messages (sbus s') = [] ++ [(kdev s', [Xfer (Some [0x03; 0x12; 0x34; 0; 7; 7]) true 6])].
Proof.
  refine (spidev_read_ok ex_request ex_request ex_sdev ex_sdev_idle _ _ _ _ _ _);
    first [reflexivity | simpl; lia].
Defined.

Lemma reconfigure_atomic_witness :
  exists r s', reconfigure (set_hz 4000000) restore_hz ex_sdev = Some ((r, NoReply), s') /\
    (r < 0 -> kdev s' = KSpi 0 3 8 6500000) /\ (0 <= r -> kdev s' = KSpi 0 3 8 4000000).
Proof.
  refine (reconfigure_atomic (set_hz 4000000, restore_hz) ex_sdev 4000000 _ _).
  - simpl. lia.
  - simpl. auto.
Defined.

Definition ex_user : user := User (fun _ l => l <=? 100) (fun _ l => if (0 <=? l) && (l <=? 100) then Some (replicate (Z.to_nat l) 5) else None) (fun _ _ => true).
Definition ex_arg : ioctl_arg := IoctlArg true None true (inl 0) 0 None true true ex_user [] [].

Lemma flash_mode_blocks_witness :
  exists s1, spidev_ioctl SPI_IOC_OPER_FLASH ex_arg ex_sdev = Some ((0, NoReply), s1) /\
    chip_sel s1 = FLASH_FPGA /\ gpio_flash s1 = 0 /\
    (forall u stack, spidev_read u stack s1 = None /\ spidev_write u stack s1 = None) /\
    (forall x data count, fpga_spi_read x data count s1 = None) /\
    spidev_ioctl SPI_IOC_OPER_FLASH ex_arg s1 = None /\
    exists s2, spidev_ioctl SPI_IOC_OPER_FLASH_DONE ex_arg s1 = Some ((0, NoReply), s2) /\
      chip_sel s2 = FPGA_CHIP /\ chip_select (kdev s2) = 0 /\ gpio_flash s2 = 1 /\
      chip_sel_lock s2 = false /\ refs s2 = refs ex_sdev.
Proof. refine (flash_mode_blocks ex_arg ex_sdev ex_sdev_idle _). reflexivity. Defined.



(** Segments of 1 and 4095 bytes on a controller that stores whole words. *)
Example spidev_message_overrun :
  let um := User (fun _ l => l <=? 4096) (fun _ _ => None) (fun _ _ => true) in
  spidev_message um true [IocTransfer 0 32 1; IocTransfer 0 64 4095] ex_sdev = None.
Proof. vm_compute. reflexivity. Qed.

Lemma spidev_lifetime_witness :
  exists s', spidev_remove ex_sdev = Some (0, s') /\ alive s' /\ bound s' = false.
Proof.
  refine (proj2 (proj2 (spidev_lifetime ex_sdev _)) eq_refl).
  split; [simpl; lia|]. split; [simpl; split; [lia|by eexists]|]. split; [reflexivity|].
  simpl. split; [discriminate|intros [? ?]; discriminate].
Defined.
