(* ===== verification/FpgaUpdate.v ===== *)
(** * The FPGA update program (drivers/fpga_update/fpga_update.c)

    The program opens the SPI device, switches it to flash mode, erases the chip
    and writes an image in blocks of 256 bytes. It is modelled on the device of
    SpiDev: its system calls are the driver's functions, so that a run of the
    program is a run of program, driver and flash code together. *)

From S2P Require Import Prelude SpiMaster W25p16 SpiDev SpiDevProps.

Definition BLOCK_SIZE : nat := 0x100.
Definition TEST_ADDR : Z := 0.

(** The C library's result of a system call that returned [r]. *)
Definition syscall_result (r : Z) : Z := if r <? 0 then -1 else r.

(** What the successive [read]s of 256 bytes from the image give: nothing when
    the file could not be opened (each [read] of the descriptor -1 fails, which
    ends the loop like the end of the file does). *)
Definition image_reads (image : option (list Z)) : list (list Z) :=
  match image with
  | None => []
  | Some bs => reshape (replicate (length bs / BLOCK_SIZE + 1) BLOCK_SIZE) bs
  end.

(** What [main] prints at the end. *)
Inductive verdict := Usage | Error | Success.
#[global] Instance verdict_eq_dec : EqDecision verdict.
Proof. solve_decision. Defined.

Section Program.
Context {H : Type} `{!SpiMaster H}.
(** The memory of the process, of which no command here but [W25P16_WRITE] has
    anything; the uninitialised [w25p16_date.buf]. *)
Context (um : user) (stack : list Z).

Definition flash_arg (d : w25_rw_date_t) : ioctl_arg :=
  IoctlArg true None true (inr d) 0 None true true um [] [].

Definition ioctl (cmd : Z) (d : w25_rw_date_t) : M (sdev (H := H)) Z :=
  r ← spidev_ioctl cmd (flash_arg d);
  mret (syscall_result (fst r)).

(** The loop: [ret] and [w25p16_date.buf] from the pass before. *)
Fixpoint write_blocks (reads : list (list Z)) (faddr : Z) (buf : list Z) (ret : Z) : M (sdev (H := H)) Z :=
  match reads with
  | [] => mret ret
  | block :: reads =>
      if (length block =? 0)%nat then mret ret
      else
        let buf := block ++ drop (length block) buf in
        ret ← ioctl W25P16_WRITE (RwDate faddr (length block) buf);
        if negb (ret =? 0) then mret ret
        else write_blocks reads (u32 (faddr + Z.of_nat BLOCK_SIZE)) buf ret
  end.

Definition fpga_flash_write (devt_matches : bool) (mem : option (list Z)) (reads : list (list Z))
  : M (sdev (H := H)) Z :=
  let d := RwDate 0 0 stack in
  fd ← spidev_open devt_matches mem;
  if fd <? 0 then mret (-1)
  else
    ret ← ioctl SPI_IOC_OPER_FLASH d;
    ret ← (if ret <? 0 then mret ret
           else
             e ← ioctl W25_ERASE_CHIP d;
             if e <? 0 then mret (-1)
             else write_blocks reads TEST_ADDR stack ret);
    ioctl SPI_IOC_OPER_FLASH_DONE d;;
    spidev_release;;
    mret ret.

(** [argv1]: whether there is an argument, and the file it names. *)
Definition main (devt_matches : bool) (mem : option (list Z)) (argv1 : option (option (list Z)))
  : M (sdev (H := H)) verdict :=
  match argv1 with
  | None => mret Usage
  | Some image =>
      r ← fpga_flash_write devt_matches mem (image_reads image);
      mret (if r <? 0 then Error else Success)
  end.
End Program.

(** ** A session with the flash *)

Section Session.
Context {H : Type} `{!SpiMaster H}.
Context (full_duplex : truth (Z.land flags SPI_MASTER_HALF_DUPLEX) = false).
Context (um : user) (stack : list Z).
Abbreviation D := (sdev (H := H)).
Implicit Types s : D.

(** The device exists and nobody uses the flash. *)
Definition available s : Prop :=
  idle s /\ listed s = true /\ fl_lock s = false /\ length (fl_command s) = 4%nat /\ 0 <= users s /\
  truth (Z.land (mode (kdev s)) SPI_3WIRE) = false.

(** In flash mode, opened; the flash is [k]. *)
Definition opened (u : Z) s : Prop :=
  bound s = true /\ freed s = false /\ chip_sel_lock s = true /\ users s = u.
Definition usable (k : kspi) s : Prop :=
  kdev s = k /\ fl_lock s = false /\ length (fl_command s) = 4%nat /\
  truth (Z.land (mode k) SPI_3WIRE) = false.

(** The chip answers the status command, and is not busy. *)
Definition chip_ready : Prop := forall k h,
  let o := fst (transfer k [Xfer (Some [OPCODE_RDSR; 0]) true 2] h) in
  status o = 0 /\ exists x y l, rx o = [x :: y :: l] /\ 0 <= y /\ truth (Z.land y SR_WIP) = false.

Lemma open_run mem s : available s ->
  exists m, spidev_open true (Some mem) s = Some (0, with_users (users s + 1) (with_buffer m s)).
Proof.
  intros (_ & Hl & _). unfold spidev_open. rewrite bind_unfold, gets_run, Hl. cbn [andb negb].
  rewrite bind_unfold, gets_run. by destruct (buffer s) as [m|]; [exists (Some m)|exists (Some mem)].
Qed.

Lemma enter_run d mem s : available s ->
  exists k s1, chip_select k = 2 /\ opened (users s + 1) s1 /\ usable k s1 /\ messages (sbus s1) = messages (sbus s) /\
    forall B (e : M D B) (g : Z -> M D B),
      (fd ← spidev_open true (Some mem);
       if fd <? 0 then e else ret ← ioctl um SPI_IOC_OPER_FLASH d; g ret) s = g 0 s1.
Proof.
  intros Ha. destruct (open_run mem s Ha) as (m & EO). destruct Ha as (Hi & _ & Hfl & Hc & _ & H3).
  destruct (enter_flash (flash_arg um d) (with_users (users s + 1) (with_buffer m s)) Hi eq_refl)
    as (k & b & E & Hk & Hm & Hb).
  match type of E with _ = Some (_, ?s1) => exists k, s1 end.
  split; [done|]. split; [|split; [|split; [exact Hb|]]]; cycle 2.
  - intros B e g. rewrite (bind_Some _ _ _ _ _ EO). change (0 <? 0) with false. cbn iota.
    rewrite bind_unfold. unfold ioctl. rewrite (bind_Some _ _ _ _ _ E). reflexivity.
  - destruct Hi as (Hi1 & Hi2 & _). done.
  - split; [done|]. split; [done|]. split; [done|]. by rewrite Hm.
Qed.

Lemma leave_run {A} (ret : A) d u s : opened (u + 1) s -> 0 <= u ->
  exists s', (ioctl um SPI_IOC_OPER_FLASH_DONE d;; spidev_release;; mret ret) s = Some (ret, s') /\
    idle s' /\ users s' = u /\ chip_sel s' = FPGA_CHIP /\ chip_select (kdev s') = 0 /\
    messages (sbus s') = messages (sbus s).
Proof.
  intros (Hb & Hf & Hl & Hu) Hu0.
  destruct (leave_flash (flash_arg um d) s Hb Hl eq_refl) as (k & b & E & Hk & Hm).
  rewrite bind_unfold. unfold ioctl. rewrite (bind_Some _ _ _ _ _ E), ret_unfold, bind_unfold.
  unfold spidev_release. rewrite bind_unfold, gets_run.
  cbn [freed with_chip_sel with_gpio with_kdev with_sbus with_chip_sel_lock]. rewrite Hf.
  rewrite bind_unfold, modify_run, bind_unfold, gets_run. cbn [users with_users with_chip_sel with_gpio with_kdev with_sbus with_chip_sel_lock].
  destruct (Z.eqb_spec (users s - 1) 0).
  - rewrite bind_unfold, modify_run, bind_unfold, gets_run.
    cbn [bound with_buffer users with_users with_chip_sel with_gpio with_kdev with_sbus with_chip_sel_lock].
    rewrite Hb. eexists. split; [reflexivity|]. cbn. repeat split; try done. lia.
  - eexists. split; [reflexivity|]. cbn. repeat split; try done. lia.
Qed.

(** *** Flash commands of the device *)

Definition flash_of s : w25p (H := H) := W25p (kdev s) (fl_lock s) 0x7fffff 0 (fl_command s) (sbus s).

Lemma usable_good k s : usable k s -> good (flash_of s).
Proof. intros (<- & _ & Hc & H3). done. Qed.

Lemma does_ready_sr (f : w25p (H := H)) : chip_ready -> good f ->
  does (fun r _ => 0 <= r /\ truth (Z.land r SR_WIP) = false) read_sr f.
Proof.
  intros HR G. unfold read_sr. eapply does_bind; [apply does_exchange; [done|done|simpl; lia|vm_compute; lia]|].
  intros [o rxb] l f1 S1 (_ & (data & Ed & Ew & _) & (h & Eo) & _). cbn [fst snd] in *.
  destruct (HR (spi f) h) as (Hs & x & y & l' & Er & Hy & Hw).
  change (take 2 (OPCODE_RDSR :: replicate 13 0)) with [OPCODE_RDSR; 0] in Eo. rewrite <- Eo in Hs, Er.
  rewrite Hs. change (0 <? 0) with false. cbn iota. rewrite Ed in Er. injection Er as ->.
  unfold buf_write in Ew. case_bool_decide; [|done]. injection Ew as <-. by eapply (does_lift _ _ y).
Qed.

Lemma ready_waits (f : w25p (H := H)) r : chip_ready -> good f -> waits r f -> r = 0.
Proof.
  intros HR G (f' & E). unfold wait_till_ready in E.
  destruct MAX_READY_WAIT_COUNT as [|c] eqn:EM; [unfold MAX_READY_WAIT_COUNT in EM; lia|].
  cbn [ready_loop] in E. destruct (does_ready_sr f HR G) as (sr & f1 & l & E1 & _ & _ & Hs & Hw).
  rewrite (bind_Some _ _ _ _ _ E1), (proj2 (Z.ltb_ge sr 0)), Hw in E by lia. cbn [negb] in E.
  rewrite ret_unfold in E. congruence.
Qed.

(** A command that only works on the flash. *)
Lemma flash_ioctl_run {A} cmd d (m : M (w25p (H := H)) A) (g : A -> Z * reply) s u :
  opened u s -> IOC_TYPE cmd = SPI_IOC_MAGIC ->
  (forall s, ioctl_command cmd (flash_arg um d) s = (r ← on_flash m; mret (g r)) s) ->
  ioctl um cmd d s =
    match m (flash_of s) with
    | Some (a, f) => Some (syscall_result (fst (g a)), with_flash (W25p16.lock f) (command f) (fbus f) s)
    | None => None
    end.
Proof.
  intros (Hb & _) Ht Hm. unfold ioctl. rewrite bind_unfold, ioctl_flash_guards, Hm by done.
  rewrite bind_unfold. unfold on_flash. cbn [kdev fl_lock fl_command sbus with_refs]. fold (flash_of s).
  destruct (m (flash_of s)) as [[a f]|]; [|done]. rewrite !ret_unfold. destruct s. cbn -[Z.add Z.sub].
  by rewrite Z.add_simpl_r.
Qed.

Lemma erase_run d k u s : opened u s -> usable k s ->
  exists r s1 ps, ioctl um W25_ERASE_CHIP d s = Some (r, s1) /\ opened u s1 /\ usable k s1 /\
    polls k ps /\ (chip_ready -> r = 0) /\
    (r = 1 /\ messages (sbus s1) = messages (sbus s) ++ ps \/
     r = 0 /\ messages (sbus s1) = messages (sbus s) ++ ps ++ [wren_message k; chip_erase_message k]).
Proof.
  intros Ho Hu. pose proof (usable_good _ _ Hu) as G.
  rewrite (flash_ioctl_run W25_ERASE_CHIP d erase_chip (fun r => (r, NoReply)) s u Ho) by done.
  destruct (does_erase_chip full_duplex _ G) as (r & f & l & E & (S1 & S2 & _ & _ & S5) & M1 & ps & Hps & Hw & HR).
  rewrite E. destruct Hu as (Hk & Hl & Hc & H3). cbn [spi flash_of] in *. rewrite Hk in *. cbn [fst].
  eexists _, _, ps. split; [reflexivity|]. split; [done|]. split; [|split; [done|split]].
  - split; [done|]. cbn in *. by rewrite S2, S5, Hl, Hc.
  - intros HR'. by rewrite (ready_waits _ _ HR' G Hw).
  - cbn [sbus with_flash]. rewrite M1. destruct HR as [[-> ->]|[-> ->]]; auto.
Qed.

Lemma write_ioctl_run d u s : opened u s ->
  ioctl um W25P16_WRITE d s =
    match w25p16_write (rw_addr d) (rw_size d) (rw_buf d) (flash_of s) with
    | Some ((r, _), f) => Some (syscall_result r, with_flash (W25p16.lock f) (command f) (fbus f) s)
    | None => None
    end.
Proof.
  intros Ho.
  rewrite (flash_ioctl_run W25P16_WRITE d (w25p16_write (rw_addr d) (rw_size d) (rw_buf d))
    (fun r => if fst r =? 0 then (0, Flash d) else (fst r, NoReply)) s u Ho eq_refl).
  - destruct (w25p16_write _ _ _ _) as [[[r l] f]|]; [|done]. cbn [fst].
    destruct (Z.eqb_spec r 0) as [->|]; done.
  - intros s'. change (ioctl_command W25P16_WRITE (flash_arg um d)) with
      (r ← on_flash (w25p16_write (rw_addr d) (rw_size d) (rw_buf d));
       if fst r =? 0 then mret (0, Flash d) else (mret (fst r, NoReply) : M D _)).
    rewrite !bind_unfold. destruct (on_flash _ s') as [[r s1]|]; [|done]. by destruct (fst r =? 0).
Qed.

Lemma block_run addr block rest k u s :
  opened u s -> usable k s -> (1 <= length block <= 252)%nat -> 0 <= addr -> addr mod 256 = 0 -> addr + 252 <= 0x7fffff ->
  exists r s1 ps, ioctl um W25P16_WRITE (RwDate addr (length block) (block ++ rest)) s = Some (r, s1) /\
    opened u s1 /\ usable k s1 /\ polls k ps /\ (chip_ready -> r = 0) /\
    (r = 1 /\ messages (sbus s1) = messages (sbus s) ++ ps \/
     r = 0 /\ messages (sbus s1) = messages (sbus s) ++ ps ++ [wren_message k; program_message k addr block]).
Proof.
  intros Ho Hu Hn Ha Hm Hr. pose proof (usable_good _ _ Hu) as G. destruct Hu as (Hk & Hl & Hc & H3).
  rewrite (write_ioctl_run _ _ _ Ho). cbn [rw_addr rw_size rw_buf].
  destruct (write_page full_duplex addr (length block) (block ++ rest) (flash_of s))
    as (r & retlen & f & ps & E & HL & HC & Hw & Hps & HR); [done|done|cbn; lia|done|cbn; lia|lia|lia| |].
  { rewrite length_app. lia. }
  rewrite E. cbn [spi flash_of fbus] in *. rewrite take_app_length, Hk in *.
  eexists _, _, ps. split; [reflexivity|]. split; [done|]. split; [|split; [done|split]].
  - split; [done|]. cbn. done.
  - intros HR'. by rewrite (ready_waits _ _ HR' (G : good (with_lock true (flash_of s))) Hw).
  - cbn [sbus with_flash]. destruct HR as [[-> ->]|[-> ->]]; auto.
Qed.

(** A full block, as every read but the last of an image gives, does not fit. *)
Lemma block_overflow addr block rest u k s :
  opened u s -> usable k s -> (253 <= length block <= 256)%nat -> 0 <= addr -> addr mod 256 = 0 ->
  addr + 256 <= 0x7fffff ->
  (chip_ready -> ioctl um W25P16_WRITE (RwDate addr (length block) (block ++ rest)) s = None) /\
  forall r s1, ioctl um W25P16_WRITE (RwDate addr (length block) (block ++ rest)) s = Some (r, s1) ->
    r = 1 /\ opened u s1 /\ exists ps, polls k ps /\ messages (sbus s1) = messages (sbus s) ++ ps.
Proof.
  intros Ho Hu Hn Ha Hm Hr. pose proof (usable_good _ _ Hu) as G. destruct Hu as (Hk & Hl & Hc & H3).
  rewrite (write_ioctl_run _ _ _ Ho). cbn [rw_addr rw_size rw_buf].
  destruct (write_overflow full_duplex addr (length block) (block ++ rest) (flash_of s))
    as (r & f1 & ps & Ew & Hps & Hms & E); [done|done|cbn; lia|done|cbn; lia|lia|lia|].
  rewrite E. cbn [spi flash_of fbus] in *. rewrite Hk in *. split.
  - intros HR. assert (r = 0) as -> by (eapply (ready_waits (with_lock true (flash_of s))); [done|exact G|by exists f1]).
    done.
  - intros r' s1. destruct (truth r); [|done]. intros [= <- <-]. split; [done|]. split; [done|].
    exists ps. split; [done|]. done.
Qed.

(** ** Theorems *)

(** What the program sends for an image of [bs]. *)
Definition erased (k : kspi) : list message := [wren_message k; chip_erase_message k].
Definition programmed (k : kspi) (bs : list Z) : list message :=
  [wren_message k; program_message k TEST_ADDR bs].

Lemma first_read bs : exists tl, image_reads (Some bs) = take BLOCK_SIZE bs :: tl.
Proof.
  unfold image_reads. rewrite Nat.add_1_r. cbn [replicate reshape]. by eexists.
Qed.

Lemma small_reads bs : (length bs <= 252)%nat -> image_reads (Some bs) = [bs].
Proof.
  intros Hl. unfold image_reads, BLOCK_SIZE. rewrite Nat.div_small by lia. cbn [replicate reshape Nat.add].
  by rewrite firstn_all2 by lia.
Qed.

(** The loop on the reads of a small image, or of none. *)
Lemma small_loop image k u s :
  opened u s -> usable k s -> (length (default [] image) <= 252)%nat ->
  exists r s1 l, write_blocks um (image_reads image) TEST_ADDR stack 0 s = Some (r, s1) /\
    (r = 0 \/ r = 1) /\ opened u s1 /\ messages (sbus s1) = messages (sbus s) ++ l /\
    (default [] image = [] -> l = []) /\
    (default [] image <> [] -> exists ps, polls k ps /\
       (l = ps \/ l = ps ++ programmed k (default [] image)) /\
       (chip_ready -> l = ps ++ programmed k (default [] image))).
Proof.
  intros Ho Hu Hl.
  assert (default [] image = [] -> exists r s1 l, write_blocks um (image_reads image) TEST_ADDR stack 0 s = Some (r, s1) /\
    (r = 0 \/ r = 1) /\ opened u s1 /\ messages (sbus s1) = messages (sbus s) ++ l /\ l = []) as Hempty.
  { intros E. exists 0, s, []. rewrite app_nil_r.
    split; [destruct image as [bs|]; cbn in E; [subst bs|]; reflexivity|]. auto. }
  destruct image as [bs|]; cbn [from_option id] in *;
    [destruct (decide (bs = [])) as [->|Hb]|].
  - destruct (Hempty eq_refl) as (r & s1 & l & E1 & E2 & E3 & E4 & E5). by exists r, s1, l.
  - rewrite small_reads by done. cbn [write_blocks].
    assert (length bs <> 0)%nat as Hb0 by (by destruct bs).
    rewrite (proj2 (Nat.eqb_neq _ _) Hb0). cbv zeta.
    destruct (block_run TEST_ADDR bs (drop (length bs) stack) k u s Ho Hu) as
      (r & s1 & ps & E & Ho1 & _ & Hps & HR & HM); [lia|done|done|done|].
    rewrite (bind_Some _ _ _ _ _ E). destruct HM as [[-> HM]|[-> HM]]; cbn [negb Z.eqb Pos.eqb];
      rewrite ret_unfold; eexists _, s1, _; (split; [reflexivity|]); (split; [auto|]); (split; [done|]);
      (split; [exact HM|]); (split; [done|]); intros _; exists ps; auto.
    split; [done|]. split; [auto|]. intros HR'%HR. lia.
  - destruct (Hempty eq_refl) as (r & s1 & l & E1 & E2 & E3 & E4 & E5). by exists r, s1, l.
Qed.

(** A run of the program on an available device: the erasure and the loop. *)
Lemma main_run mem image s : available s ->
  exists k s1 r ps l, chip_select k = 2 /\ opened (users s + 1) s1 /\ usable k s1 /\ polls k ps /\
    (r = 1 /\ l = [] \/ r = 0 /\ l = erased k) /\ (chip_ready -> r = 0) /\
    messages (sbus s1) = messages (sbus s) ++ ps ++ l /\
    main um stack true (Some mem) (Some image) s =
      (r ← (ret ← write_blocks um (image_reads image) TEST_ADDR stack 0;
            ioctl um SPI_IOC_OPER_FLASH_DONE (RwDate 0 0 stack);; spidev_release;; mret ret);
       mret (if r <? 0 then Error else Success)) s1.
Proof.
  intros Ha. destruct (enter_run (RwDate 0 0 stack) mem s Ha) as (k & s1 & Hk & Ho & Hu & M1 & EN).
  destruct (erase_run (RwDate 0 0 stack) k _ s1 Ho Hu) as (r & s2 & ps & E & Ho2 & Hu2 & Hps & HR & HM).
  assert (r = 0 \/ r = 1) as Hr by intuition.
  exists k, s2, r, ps, (if r =? 0 then erased k else []). split; [done|]. split; [done|]. split; [done|].
  split; [done|]. split; [destruct Hr as [-> | ->]; auto|]. split; [done|]. split.
  - rewrite <- M1. destruct HM as [[-> ->]|[-> ->]]; cbn [Z.eqb]; by rewrite ?app_nil_r.
  - cbn [main]. unfold fpga_flash_write. rewrite bind_unfold, (EN Z). change (0 <? 0) with false. cbn iota.
    rewrite (bind_unfold _ _ s1), (bind_Some _ _ _ _ _ E). by destruct Hr as [-> | ->].
Qed.

(** Updating with an image of at most 252 bytes, or with a file that cannot be
    opened, ends with the report of success and the device as before: free, closed
    and switched to the FPGA. The chip is erased, also when there is no image, and
    the image programmed at address 0, each unless the chip stayed busy. *)
Theorem fpga_update_small mem image s :
  available s -> (length (default [] image) <= 252)%nat ->
  exists k s' ps l1 l2, main um stack true (Some mem) (Some image) s = Some (Success, s') /\
    idle s' /\ users s' = users s /\ chip_sel s' = FPGA_CHIP /\ chip_select (kdev s') = 0 /\
    chip_select k = 2 /\ polls k ps /\
    messages (sbus s') = messages (sbus s) ++ ps ++ l1 ++ l2 /\
    (l1 = [] \/ l1 = erased k) /\ (chip_ready -> l1 = erased k) /\
    (default [] image = [] -> l2 = []) /\
    (default [] image <> [] -> exists ps', polls k ps' /\
       (l2 = ps' \/ l2 = ps' ++ programmed k (default [] image)) /\
       (chip_ready -> l2 = ps' ++ programmed k (default [] image))).
Proof.
  intros Ha Hl. destruct (main_run mem image s Ha) as (k & s1 & e & ps & l1 & Hk & Ho & Hu & Hps & He & HR & M1 & EM).
  destruct (small_loop image k _ s1 Ho Hu Hl) as (r & s2 & l2 & E & Hr & Ho2 & M2 & HL1 & HL2).
  destruct (leave_run r (RwDate 0 0 stack) (users s) s2 Ho2) as (s3 & E3 & Hi & Hus & Hcs & Hck & M3); [by apply Ha|].
  exists k, s3, ps, l1, l2. rewrite EM, bind_unfold, (bind_Some _ _ _ _ _ E), E3, ret_unfold.
  split; [by destruct Hr as [-> | ->]|]. repeat (split; [done|]).
  split; [by rewrite M3, M2, M1, <- !app_assoc|].
  split; [intuition|]. split; [|done]. intros ->%HR. intuition; lia.
Qed.

(** C30: Updating with a larger image never programs anything. With a chip that
    becomes ready the first block runs over the driver's message buffer: the run has
    no defined behaviour. In every run that has, the chip got only status polls and
    commands of at most four bytes, and the program reports success all the same. *)
Theorem fpga_update_large mem image s :
  available s -> (253 <= length image)%nat ->
  (chip_ready -> main um stack true (Some mem) (Some (Some image)) s = None) /\
  forall v s', main um stack true (Some mem) (Some (Some image)) s = Some (v, s') ->
    v = Success /\ idle s' /\ users s' = users s /\
    exists l, messages (sbus s') = messages (sbus s) ++ l /\ Forall short l.
Proof.
  intros Ha Hl.
  destruct (main_run mem (Some image) s Ha) as (k & s1 & e & ps & l1 & Hk & Ho & Hu & Hps & He & HR & M1 & EM).
  rewrite EM. destruct (first_read image) as [tl ->]. cbn [write_blocks].
  assert (length (take BLOCK_SIZE image) = Nat.min 256 (length image)) as EL by apply length_take.
  assert (length (take BLOCK_SIZE image) <> 0)%nat as E0 by lia.
  rewrite (proj2 (Nat.eqb_neq _ _) E0). cbv zeta.
  destruct (block_overflow TEST_ADDR (take BLOCK_SIZE image) (drop (length (take BLOCK_SIZE image)) stack) _ k s1 Ho Hu)
    as [HN HS]; [lia|done|done|done|].
  set (d := RwDate TEST_ADDR _ _) in *. split.
  - intros HN'%HN. by rewrite !bind_unfold, HN'.
  - intros v s' E. destruct (ioctl um W25P16_WRITE d s1) as [[r s2]|] eqn:Ew; [|by rewrite !bind_unfold, Ew in E].
    destruct (HS r s2 eq_refl) as (-> & Ho2 & ps' & Hps' & M2).
    rewrite bind_unfold, bind_unfold, (bind_Some _ _ _ _ _ Ew) in E. cbn [Z.eqb negb] in E. rewrite ret_unfold in E.
    destruct (leave_run 1 (RwDate 0 0 stack) (users s) s2 Ho2) as (s3 & E3 & Hi & Hus & _ & _ & M3); [by apply Ha|].
    rewrite E3, ret_unfold in E. injection E as <- <-. split; [done|]. split; [done|]. split; [done|].
    exists (ps ++ l1 ++ ps'). split; [by rewrite M3, M2, M1, <- !app_assoc|].
    apply Forall_app. split; [by eapply polls_short|]. apply Forall_app. split; [|by eapply polls_short].
    destruct He as [[_ ->]|[_ ->]]; [done|].
    constructor; [|constructor; [|done]]; apply tx_short; simpl; lia.
Qed.
End Session.

(** ** Witnesses *)

Import SpiMaster.NullMaster.

(** Nobody has the device open; a chip that is never busy. *)
Definition ex_closed : sdev (H := unit) :=
  SDev (KSpi 0 3 8 6500000) 0 true DS31400_CHIP false false 1 0 None true false
    false [0; 0; 0; 0] (Bus tt []).

Lemma ex_closed_available : available ex_closed.
Proof. by repeat split. Qed.

Lemma null_chip_ready : chip_ready (H := unit).
Proof. intros k h. split; [done|]. by exists 0, 0, [0; 0]. Qed.

Lemma null_full_duplex : truth (Z.land (flags (H := unit)) SPI_MASTER_HALF_DUPLEX) = false.
Proof. reflexivity. Qed.

Definition ex_buf : list Z := replicate 256 0.

(** A name that cannot be opened: the chip is erased and success reported. *)
Lemma fpga_update_small_witness :
  exists k s' ps, main ex_user ex_buf true (Some ex_buf) (Some None) ex_closed = Some (Success, s') /\
    polls k ps /\ messages (sbus s') = ps ++ [wren_message k; tx_message k [0xc7]].
Proof.
  destruct (fpga_update_small null_full_duplex ex_user ex_buf ex_buf None ex_closed ex_closed_available)
    as (k & s' & ps & l1 & l2 & E & _ & _ & _ & _ & _ & Hps & HM & _ & H1 & H2 & _).
  - simpl. lia.
  - exists k, s', ps. split; [exact E|]. split; [exact Hps|].
    rewrite HM, (H1 null_chip_ready), (H2 eq_refl), app_nil_r. reflexivity.
Defined.

Lemma fpga_update_large_witness :
  main ex_user ex_buf true (Some ex_buf) (Some (Some (replicate 300 0x5a))) ex_closed = None.
Proof.
  refine (proj1 (fpga_update_large null_full_duplex ex_user ex_buf ex_buf (replicate 300 0x5a) ex_closed
    ex_closed_available _) null_chip_ready).
  rewrite length_replicate. lia.
Defined.
