(* ===== verification/EspiCtl.v ===== *)
(** * The SPI controller driver of the kernel (drivers/spi/fsl_espi.c) and the
    message queue it runs on (drivers/spi/spi_bitbang.c)

    A transfer is started by [fsl_espi_bufs] and moved word by word by the
    interrupt handler [fsl_espi_irq] until it reports completion; [bitbang_work]
    runs the transfers of a message. Memory is a list of blocks and a pointer a
    block with an offset, because the buffers of a message may coincide or lie
    next to each other: SPI_IOC_MESSAGE puts all its segments into one block and
    receives in place. The chip-select callback of the driver does nothing and
    is left out, with the delays around it.

    [exchange] says what a transfer does to memory and slave without registers
    and interrupts; the driver is proved to implement it. *)

From S2P Require Import Prelude RegBus SpiCtl SpiMaster.

Definition ENETDOWN : Z := 100.
Definition EREMOTEIO : Z := 121.

Definition SPIE_NE : Z := 0x200.
Definition SPIE_NF : Z := 0x100.
Definition SPIE_RXCNT (reg : Z) : Z := Z.land (Z.shiftr reg 24) 0x3F.
Definition MODEBITS : Z :=
  Z.lor (Z.lor (Z.lor (Z.lor SPI_CPOL SPI_CPHA) SPI_CS_HIGH) SPI_LSB_FIRST) SPI_LOOP.

(** ** Memory *)

Abbreviation memory := (list (list Z)).
Abbreviation ptr := (nat * nat)%type.

Definition advance (p : ptr) : ptr := (fst p, snd p + 4)%nat.

Definition load32 (m : memory) (p : ptr) : option Z :=
  match m !! fst p with Some buf => word_at buf (snd p) | None => None end.

Definition store32 (m : memory) (p : ptr) (v : Z) : option memory :=
  match m !! fst p with
  | Some buf =>
      match buf_write buf (snd p) (be32_bytes v) with
      | Some buf => Some (<[fst p := buf]> m)
      | None => None
      end
  | None => None
  end.

(** ** State *)

Record fsl_espi_cs := EspiCs { cs_rx_shift : Z; cs_tx_shift : Z; hw_mode : Z }.

(** [cs]: the [controller_state] of the device; [done]: the counter of the
    completion. *)
Record fsl_espi (HW : Type) := Espi {
  tx : option ptr; rx : option ptr; count : Z; rx_shift : Z; tx_shift : Z;
  spibrg : Z; done : Z; cs : option fsl_espi_cs; mem : memory; regs : world spi_reg HW
}.
Arguments Espi {_} _ _ _ _ _ _ _ _ _ _.
Arguments tx {_} _.
Arguments rx {_} _.
Arguments count {_} _.
Arguments rx_shift {_} _.
Arguments tx_shift {_} _.
Arguments spibrg {_} _.
Arguments done {_} _.
Arguments cs {_} _.
Arguments mem {_} _.
Arguments regs {_} _.

Section Setters.
Context {HW : Type}.
Implicit Types s : fsl_espi HW.

Definition with_bufs (t r : option ptr) (n : Z) s : fsl_espi HW :=
  Espi t r n (rx_shift s) (tx_shift s) (spibrg s) (done s) (cs s) (mem s) (regs s).
Definition with_shifts (r t : Z) s : fsl_espi HW :=
  Espi (tx s) (rx s) (count s) r t (spibrg s) (done s) (cs s) (mem s) (regs s).
Definition with_done (d : Z) s : fsl_espi HW :=
  Espi (tx s) (rx s) (count s) (rx_shift s) (tx_shift s) (spibrg s) d (cs s) (mem s) (regs s).
Definition with_cs (c : option fsl_espi_cs) s : fsl_espi HW :=
  Espi (tx s) (rx s) (count s) (rx_shift s) (tx_shift s) (spibrg s) (done s) c (mem s) (regs s).
Definition with_mem (m : memory) s : fsl_espi HW :=
  Espi (tx s) (rx s) (count s) (rx_shift s) (tx_shift s) (spibrg s) (done s) (cs s) m (regs s).
Definition with_regs (w : world spi_reg HW) s : fsl_espi HW :=
  Espi (tx s) (rx s) (count s) (rx_shift s) (tx_shift s) (spibrg s) (done s) (cs s) (mem s) w.
End Setters.

(** [struct spi_transfer]; [delay_usecs] and [cs_change] only time and select. *)
Record transfer := Transfer {
  t_tx_buf : option ptr; t_rx_buf : option ptr; t_len : Z; t_bits_per_word : Z; t_speed_hz : Z
}.

Record message := Message { m_spi : kspi; m_transfers : list transfer }.

Inductive irqreturn := IRQ_NONE | IRQ_HANDLED.

(** Divider select and prescaler; [None]: division by zero. *)
Definition espi_divider (spibrg hz : Z) : option (bool * Z) :=
  if hz =? 0 then None
  else if 32 <? spibrg / hz then
    if u32 (hz * 32) =? 0 then None
    else
      let pm := u8 (spibrg / u32 (hz * 32)) in
      Some (true, if CSMODE_PM_MAX <? pm then CSMODE_PM_MAX else pm)
  else if u32 (hz * 2) =? 0 then None
  else Some (false, u8 (spibrg / u32 (hz * 2))).

(** ** The driver *)

Section Driver.
Context {HW : Type} `{!RegBus spi_reg HW}.
Abbreviation E := (fsl_espi HW).

(** [spin_event_timeout] evaluates its condition at least twice; [spins] is how
    often it does so within the time in between. *)
Context (spins : nat).

Definition on_regs {A} (m : M (world spi_reg HW) A) : M E A :=
  zoom regs with_regs m.

Definition spin_event_timeout (stop : Z -> bool) : M E (bool * Z) :=
  on_regs (poll (spins + 2) EVENT stop 0).

Definition fsl_espi_rx_buf (data : Z) : M E unit :=
  s ← get;
  match rx s with
  | None => ub
  | Some p =>
      m ← lift_opt (store32 (mem s) p (Z.shiftr data (rx_shift s)));
      modify (with_mem m);;
      modify (with_bufs (tx s) (Some (advance p)) (count s))
  end.

Definition fsl_espi_tx_buf : M E Z :=
  s ← get;
  match tx s with
  | None => mret 0
  | Some p =>
      x ← lift_opt (load32 (mem s) p);
      modify (with_bufs (Some (advance p)) (rx s) (count s));;
      mret (u32 (Z.shiftl x (tx_shift s)))
  end.

Definition fsl_espi_setup_transfer (spi : kspi) (t : option transfer) : M E Z :=
  let bits_per_word := match t with Some t => t_bits_per_word t | None => 0 end in
  let hz := match t with Some t => t_speed_hz t | None => 0 end in
  let bits_per_word := if bits_per_word =? 0 then SpiMaster.bits_per_word spi else bits_per_word in
  if (bits_per_word <? 4) || (16 <? bits_per_word) then mret (- EINVAL)
  else
    let hz := if hz =? 0 then max_speed_hz spi else hz in
    s ← get;
    match cs s with
    | None => ub
    | Some c =>
        modify (with_shifts 0 0);;
        d ← lift_opt (espi_divider (spibrg s) hz);
        let m := Z.land (hw_mode c)
          (not32 (Z.lor (Z.lor (CSMODE_LEN 0xF) CSMODE_DIV16) (CSMODE_PM 0xF))) in
        let m := Z.lor m (CSMODE_LEN (bits_per_word - 1)) in
        let m := if fst d : bool then Z.lor m CSMODE_DIV16 else m in
        let m := Z.lor m (CSMODE_PM (snd d)) in
        modify (with_cs (Some (EspiCs 0 0 m)));;
        regval ← on_regs (rd MODE);
        on_regs (wr MODE (Z.land regval (not32 SPMODE_ENABLE)));;
        on_regs (wr (CSMODE (chip_select spi)) m);;
        on_regs (wr MODE regval);;
        mret 0
    end.

(** [alloc]: whether [kzalloc] succeeds. Result and the device, whose word
    length gets its default. *)
Definition fsl_espi_setup (alloc : bool) (spi : kspi) : M E (Z * kspi) :=
  if truth (Z.land (mode spi) (not32 MODEBITS)) then mret (- EINVAL, spi)
  else if max_speed_hz spi =? 0 then mret (- EINVAL, spi)
  else
    s ← get;
    match (match cs s with Some c => Some c | None => if alloc then Some (EspiCs 0 0 0) else None end) with
    | None => mret (- ENOMEM, spi)
    | Some c =>
        let spi := if SpiMaster.bits_per_word spi =? 0
                   then KSpi (chip_select spi) (mode spi) 8 (max_speed_hz spi) else spi in
        v ← on_regs (rd (CSMODE (chip_select spi)));
        let m := Z.land v
          (not32 (Z.lor (Z.lor CSMODE_CP_BEGIN_EDGECLK CSMODE_CI_INACTIVEHIGH) CSMODE_REV)) in
        let m := if truth (Z.land (mode spi) SPI_CPHA) then Z.lor m CSMODE_CP_BEGIN_EDGECLK else m in
        let m := if truth (Z.land (mode spi) SPI_CPOL) then Z.lor m CSMODE_CI_INACTIVEHIGH else m in
        let m := if negb (truth (Z.land (mode spi) SPI_LSB_FIRST)) then Z.lor m CSMODE_REV else m in
        modify (with_cs (Some (EspiCs (cs_rx_shift c) (cs_tx_shift c) m)));;
        r ← fsl_espi_setup_transfer spi None;
        if r <? 0 then
          s ← get;
          modify (with_cs (match cs s with
                           | Some c' => Some (EspiCs (cs_rx_shift c') (cs_tx_shift c') (hw_mode c))
                           | None => None
                           end));;
          mret (r, spi)
        else mret (0, spi)
    end.

Definition fsl_espi_cleanup : M E unit := modify (with_cs None).

Definition fsl_espi_irq : M E irqreturn :=
  event ← on_regs (rd EVENT);
  if truth (Z.land event SPIE_NE) then
    s ← get;
    let limit := Z.min 4 (count s) in
    p ← spin_event_timeout (fun e => u32 limit <=? SPIE_RXCNT e);
    if negb (fst p) then mret IRQ_NONE
    else
      rx_data ← on_regs (rd RECEIVE);
      (match rx s with Some _ => fsl_espi_rx_buf rx_data | None => mret tt end);;
      s ← get;
      modify (with_bufs (tx s) (rx s) (count s - 4));;
      if 0 <? count s - 4 then
        q ← (if Z.land (snd p) SPIE_NF =? 0
             then spin_event_timeout (fun e => truth (Z.land e SPIE_NF))
             else mret (true, snd p));
        if negb (fst q) then mret IRQ_NONE
        else
          word ← fsl_espi_tx_buf;
          on_regs (wr TRANSMIT word);;
          mret IRQ_HANDLED
      else
        s ← get;
        modify (with_bufs (tx s) (rx s) 0);;
        on_regs (wr EVENT (snd p));;
        s ← get;
        modify (with_done (done s + 1));;
        mret IRQ_HANDLED
  else
    on_regs (wr EVENT event);;
    mret IRQ_HANDLED.

(** Waiting while at most [n] interrupts arrive: [false] when the transfer is
    still not complete. *)
Fixpoint wait_for_completion (n : nat) : M E bool :=
  s ← get;
  if 0 <? done s then modify (with_done (done s - 1));; mret true
  else
    match n with
    | O => mret false
    | S n => fsl_espi_irq;; wait_for_completion n
    end.

(** [None]: still waiting after [n] interrupts. *)
Definition fsl_espi_bufs (n : nat) (spi : kspi) (t : transfer) : M E (option Z) :=
  modify (with_bufs (t_tx_buf t) (t_rx_buf t) (s32 (t_len t)));;
  on_regs (wr COMMAND (u32 (Z.lor (Z.shiftl (chip_select spi) 30) (t_len t - 1))));;
  modify (with_done 0);;
  on_regs (wr MASK SPIM_NE);;
  word ← fsl_espi_tx_buf;
  on_regs (wr TRANSMIT word);;
  finished ← wait_for_completion n;
  if finished : bool then
    on_regs (wr MASK 0);;
    mret (Some (s32 (t_len t)))
  else mret None.

(** ** The message queue *)

Definition needs_setup (spi : kspi) (t : transfer) : bool :=
  truth (t_speed_hz t) || truth (t_bits_per_word t) || truth (SpiMaster.bits_per_word spi).

(** The transfers of a message, each waiting for at most [n] interrupts: status,
    [actual_length] and [do_setup]; [None] when one of them does not finish. *)
Fixpoint run_transfers (n : nat) (spi : kspi) (ts : list transfer) (actual : Z) (do_setup : bool)
  : M E (option (Z * Z * bool)) :=
  match ts with
  | [] => mret (Some (0, actual, do_setup))
  | t :: ts =>
      let do_setup := needs_setup spi t in
      status ← (if do_setup then fsl_espi_setup_transfer spi (Some t) else mret 0);
      if status <? 0 then mret (Some (status, actual, do_setup))
      else if bool_decide (t_tx_buf t = None) && bool_decide (t_rx_buf t = None) && truth (t_len t)
      then mret (Some (- EINVAL, actual, do_setup))
      else
        r ← (if truth (t_len t) then fsl_espi_bufs n spi t else mret (Some status));
        match r with
        | None => mret None
        | Some status =>
            let actual := if 0 <? status then u32 (actual + status) else actual in
            if negb (u32 status =? t_len t)
            then mret (Some (if 0 <=? status then - EREMOTEIO else status, actual, do_setup))
            else run_transfers n spi ts actual do_setup
        end
  end.

(** The messages of the queue: status and [actual_length] of each; [None] when
    a transfer does not finish. *)
Fixpoint bitbang_work (n : nat) (queue : list message) : M E (option (list (Z * Z))) :=
  match queue with
  | [] => mret (Some [])
  | m :: queue =>
      r ← run_transfers n (m_spi m) (m_transfers m) 0 false;
      match r with
      | None => mret None
      | Some (status, actual, do_setup) =>
          (if do_setup : bool then fsl_espi_setup_transfer (m_spi m) None;; mret tt else mret tt);;
          rest ← bitbang_work n queue;
          mret (option_map (cons (status, actual)) rest)
      end
  end.

(** Result and the queue. *)
Definition spi_bitbang_transfer (spi : kspi) (m : message) (queue : list message)
  : Z * list message :=
  if max_speed_hz spi =? 0 then (- ENETDOWN, queue) else (0, queue ++ [m]).
End Driver.

(** ** What a transfer does

    [exchange n tx rx m s]: [n] words, taken from [tx] (zeros without one),
    given to the slave, the answers put to [rx] (dropped without one): the words
    sent, the memory and the slave's state. *)

Section Exchange.
Context {HW St : Type} `{!RegBus spi_reg HW} `{!SpiSlave HW St}.
Implicit Types (m : memory) (st : St) (s : fsl_espi HW).

Definition load_opt m (p : option ptr) : option Z :=
  match p with Some p => u32 <$> load32 m p | None => Some 0 end.

Definition store_opt m (p : option ptr) (v : Z) : option memory :=
  match p with Some p => store32 m p v | None => Some m end.

Fixpoint exchange (n : nat) (tx rx : option ptr) m st : option (list Z * memory * St) :=
  match n with
  | O => Some ([], m, st)
  | S n =>
      match load_opt m tx with
      | None => None
      | Some x =>
          match store_opt m rx (fst (slave st x)) with
          | None => None
          | Some m =>
              match exchange n (advance <$> tx) (advance <$> rx) m (snd (slave st x)) with
              | None => None
              | Some (xs, m, st) => Some (x :: xs, m, st)
              end
          end
      end
  end.

(** The transfers of a message, one after the other. *)
Fixpoint exchanges (ts : list transfer) m st : option (list Z * memory * St) :=
  match ts with
  | [] => Some ([], m, st)
  | t :: ts =>
      match exchange (if t_len t =? 0 then 0 else words (t_len t)) (t_tx_buf t) (t_rx_buf t) m st with
      | None => None
      | Some (xs, m, st) =>
          match exchanges ts m st with
          | None => None
          | Some (ys, m, st) => Some (xs ++ ys, m, st)
          end
      end
  end.

(** The driver between two accesses to the slave: no shifts, the device set up. *)
Definition idle (s : fsl_espi HW) (m : memory) (st : St) : Prop :=
  ready (dev (regs s)) st /\ mem s = m /\ rx_shift s = 0 /\ tx_shift s = 0.

(** A word is on its way: [a] is the slave's answer to it. *)
Definition busy (s : fsl_espi HW) (m : memory) (st : St) (a : Z) : Prop :=
  full (dev (regs s)) st a /\ mem s = m /\ rx_shift s = 0 /\ tx_shift s = 0.


Definition same_setup (s s' : fsl_espi HW) : Prop :=
  spibrg s' = spibrg s /\ cs s' = cs s.

(** *** Steps of the driver *)

Lemma on_regs_rd r s :
  on_regs (rd r) s = Some (fst (rb_read r (dev (regs s))),
    with_regs (World (snd (rb_read r (dev (regs s))))
                 (log (regs s) ++ [Rd r (fst (rb_read r (dev (regs s))))])) s).
Proof. reflexivity. Qed.

Lemma on_regs_wr r v (s : fsl_espi HW) :
  on_regs (wr r v) s =
    Some (tt, with_regs (World (rb_write r v (dev (regs s))) (log (regs s) ++ [Wr r v])) s).
Proof. reflexivity. Qed.

Lemma with_regs_twice w w' s : with_regs w (with_regs w' s) = with_regs w s.
Proof. reflexivity. Qed.

Lemma spin_now spins stop s :
  stop (fst (rb_read EVENT (dev (regs s)))) = true ->
  spin_event_timeout spins stop s = Some ((true, fst (rb_read EVENT (dev (regs s)))),
    with_regs (World (snd (rb_read EVENT (dev (regs s))))
                 (log (regs s) ++ [Rd EVENT (fst (rb_read EVENT (dev (regs s))))])) s).
Proof.
  intros H. unfold spin_event_timeout, on_regs, zoom.
  replace (spins + 2)%nat with (S (spins + 1)) by lia. by rewrite poll_now.
Qed.

Lemma rx_step data s :
  rx_shift s = 0 ->
  (match rx s with Some _ => fsl_espi_rx_buf data | None => mret tt end) s =
    match store_opt (mem s) (rx s) data with
    | None => None
    | Some m => Some (tt, with_mem m (with_bufs (tx s) (advance <$> rx s) (count s) s))
    end.
Proof.
  intros Hs. destruct s as [t [p|] c rs ts b d cs' m w]; [|done]. cbn in Hs. subst rs.
  cbn [rx]. unfold fsl_espi_rx_buf. rewrite bind_unfold, get_run. cbn [rx mem rx_shift].
  rewrite Z.shiftr_0_r, bind_unfold. cbn [store_opt]. by destruct (store32 m p data).
Qed.

Lemma tx_step s :
  tx_shift s = 0 ->
  fsl_espi_tx_buf s =
    match load_opt (mem s) (tx s) with
    | None => None
    | Some x => Some (x, with_bufs (advance <$> tx s) (rx s) (count s) s)
    end.
Proof.
  intros Hs. destruct s as [[p|] r c rs ts b d cs' m w]; [|done]. cbn in Hs. subst ts.
  unfold fsl_espi_tx_buf. rewrite bind_unfold, get_run. cbn [tx mem tx_shift].
  rewrite bind_unfold. cbn [load_opt]. destruct (load32 m p); [|done]. cbn.
  by rewrite Z.shiftl_0_r.
Qed.

Lemma rxcnt_limit e c : 0 <= c -> word_received e = true -> (u32 (Z.min 4 c) <=? SPIE_RXCNT e) = true.
Proof. intros Hc. unfold word_received. rewrite u32_small, !Z.leb_le by lia. unfold SPIE_RXCNT. lia. Qed.

Lemma nf_truth e : truth (Z.land e SPIE_NF) = not_full e.
Proof. reflexivity. Qed.

(** The interrupt for the answer to a word, up to the answer in memory. *)
Lemma irq_receive spins s m st a :
  busy s m st a -> 0 <= count s ->
  exists e s1,
    fsl_espi_irq spins s =
      match store_opt m (rx s) a with
      | None => None
      | Some m =>
          (if 0 <? count s - 4 then
             q ← (if Z.land e SPIE_NF =? 0
                  then spin_event_timeout spins (fun e => truth (Z.land e SPIE_NF))
                  else mret (true, e));
             if negb (fst q) then mret IRQ_NONE
             else
               word ← fsl_espi_tx_buf;
               on_regs (wr TRANSMIT word);;
               mret IRQ_HANDLED
           else
             s ← get;
             modify (with_bufs (tx s) (rx s) 0);;
             on_regs (wr EVENT e);;
             s ← get;
             modify (with_done (done s + 1));;
             mret IRQ_HANDLED) (with_mem m s1)
      end /\
    ready (dev (regs s1)) st /\ rx_shift s1 = 0 /\ tx_shift s1 = 0 /\
    tx s1 = tx s /\ rx s1 = advance <$> rx s /\ count s1 = count s - 4 /\
    done s1 = done s /\ same_setup s s1 /\ sent (log (regs s1)) = sent (log (regs s)).
Proof.
  intros (Hf & <- & Hrs & Hts) Hc0.
  destruct (full_event _ _ _ Hf) as (HE & _ & Hf1).
  destruct (full_event _ _ _ Hf1) as (_ & HW2 & Hf2).
  destruct (full_receive _ _ _ Hf2) as (Ha & Hr).
  unfold fsl_espi_irq. rewrite bind_unfold, on_regs_rd.
  unfold not_empty in HE. change SPI_EV_NE with SPIE_NE in HE. rewrite HE.
  rewrite bind_unfold, get_run. cbv zeta. cbn [count with_regs].
  rewrite bind_unfold, spin_now by (by apply rxcnt_limit). cbn [fst snd negb regs with_regs dev log].
  rewrite bind_unfold, on_regs_rd. cbn [regs with_regs dev log]. rewrite Ha.
  rewrite !with_regs_twice. set (w := World (snd (rb_read RECEIVE _)) _). exists (fst (rb_read EVENT (snd (rb_read EVENT (dev (regs s)))))).
  exists (with_bufs (tx s) (advance <$> rx s) (count s - 4) (with_regs w s)). split.
  - rewrite bind_unfold.
    pose proof (rx_step a (with_regs w s) Hrs) as HX. cbn [mem rx with_regs] in HX |- *.
    rewrite HX.
    destruct (store_opt (mem s) (rx s) a) as [m|]; [|done].
    rewrite bind_unfold, get_run, bind_unfold, modify_run. done.
  - do 7 (split; [done|]). split; [done|]. cbn [log]. subst w. cbn [regs with_regs with_bufs log].
    unfold sent. rewrite !omap_app. simpl. by rewrite !app_nil_r.
Qed.

Lemma irq_more spins s m st a :
  busy s m st a -> 4 < count s ->
  match store_opt m (rx s) a with
  | None => fsl_espi_irq spins s = None
  | Some m =>
      match load_opt m (tx s) with
      | None => fsl_espi_irq spins s = None
      | Some x =>
          exists s', fsl_espi_irq spins s = Some (IRQ_HANDLED, s') /\
            busy s' m (snd (slave st x)) (fst (slave st x)) /\
            tx s' = advance <$> tx s /\ rx s' = advance <$> rx s /\ count s' = count s - 4 /\
            done s' = done s /\ same_setup s s' /\ sent (log (regs s')) = sent (log (regs s)) ++ [x]
      end
  end.
Proof.
  intros Hb Hc. destruct (irq_receive spins _ _ _ _ Hb ltac:(lia))
    as (e & s1 & -> & Hr & Hrs & Hts & T & R & C & D & S1 & L).
  destruct (store_opt m (rx s) a) as [m1|]; [|done].
  rewrite (proj2 (Z.ltb_lt 0 (count s - 4))) by lia.
  assert (exists e' w2, (if Z.land e SPIE_NF =? 0
      then spin_event_timeout spins (fun e => truth (Z.land e SPIE_NF)) else mret (true, e))
      (with_mem m1 s1) = Some ((true, e'), with_regs w2 (with_mem m1 s1)) /\
      ready (dev w2) st /\ sent (log w2) = sent (log (regs s))) as (e' & w2 & E2 & Hr2 & L2).
  { destruct (Z.land e SPIE_NF =? 0).
    - destruct (ready_event _ _ Hr) as [HN Hr2]. rewrite spin_now by done.
      eexists _, _. split; [reflexivity|]. cbn [dev log regs with_mem]. split; [done|].
      rewrite <- L. unfold sent. rewrite omap_app. simpl. by rewrite app_nil_r.
    - exists e, (regs s1). split; [|done]. rewrite ret_unfold. by destruct s1. }
  rewrite (bind_Some _ _ _ _ _ E2). cbn [fst negb]. rewrite bind_unfold, tx_step by done.
  cbn [mem tx with_regs with_mem]. rewrite T. destruct (load_opt m1 (tx s)) as [x|]; [|done].
  rewrite bind_unfold, on_regs_wr, ret_unfold. eexists. split; [reflexivity|].
  unfold busy, same_setup in *. cbn [tx rx count done mem rx_shift tx_shift regs cs spibrg
    with_regs with_mem with_bufs dev log]. rewrite R, C, D.
  split; [by split; [apply ready_transmit|]|]. do 5 (split; [done|]).
  unfold sent in *. rewrite omap_app, L2. simpl. done.
Qed.

Lemma irq_last spins s m st a :
  busy s m st a -> 0 <= count s <= 4 ->
  match store_opt m (rx s) a with
  | None => fsl_espi_irq spins s = None
  | Some m =>
      exists s', fsl_espi_irq spins s = Some (IRQ_HANDLED, s') /\ idle s' m st /\
        done s' = done s + 1 /\ same_setup s s' /\ sent (log (regs s')) = sent (log (regs s))
  end.
Proof.
  intros Hb Hc. destruct (irq_receive spins _ _ _ _ Hb ltac:(lia))
    as (e & s1 & -> & Hr & Hrs & Hts & T & R & C & D & S1 & L).
  destruct (store_opt m (rx s) a) as [m1|]; [|done].
  rewrite (proj2 (Z.ltb_ge 0 (count s - 4))) by lia.
  rewrite bind_unfold, get_run, bind_unfold, modify_run, bind_unfold, on_regs_wr, bind_unfold,
    get_run, bind_unfold, modify_run, ret_unfold.
  eexists. split; [reflexivity|]. unfold idle, same_setup in *.
  cbn [tx rx count done mem rx_shift tx_shift regs cs spibrg with_regs with_mem with_bufs
    with_done dev log]. rewrite D.
  split; [by split; [apply ready_clear|]|]. do 2 (split; [done|]).
  rewrite <- L. unfold sent. rewrite omap_app. simpl. by rewrite app_nil_r.
Qed.

(** Waiting with a word on its way, [S k] words still to be received. *)
Lemma wait_exchange spins k : forall n s m st a,
  busy s m st a -> done s = 0 -> 0 < count s -> words (count s) = S k -> (S k <= n)%nat ->
  match store_opt m (rx s) a with
  | None => wait_for_completion spins n s = None
  | Some m =>
      match exchange k (tx s) (advance <$> rx s) m st with
      | None => wait_for_completion spins n s = None
      | Some (xs, m, st) =>
          exists s', wait_for_completion spins n s = Some (true, s') /\ idle s' m st /\
            done s' = 0 /\ same_setup s s' /\ sent (log (regs s')) = sent (log (regs s)) ++ xs
      end
  end.
Proof.
  induction k as [|k IH]; intros [|n] s m st a Hb Hd Hc Hw Hn; try lia;
    cbn [wait_for_completion]; rewrite bind_unfold, get_run, Hd; cbn [Z.ltb Z.compare].
  - assert (count s <= 4) as Hc4.
    { destruct (Z.le_gt_cases (count s) 4); [done|]. rewrite words_step in Hw by lia.
      unfold words in Hw. lia. }
    pose proof (irq_last spins _ _ _ _ Hb ltac:(lia)) as HI. destruct (store_opt m (rx s) a) as [m1|];
      [|by rewrite bind_unfold, HI].
    cbn [exchange]. destruct HI as (s1 & E & (Hr & Hm & Hrs & Hts) & D & S1 & L).
    rewrite (bind_Some _ _ _ _ _ E). rewrite Hd in D.
    assert (wait_for_completion spins n s1 = Some (true, with_done 0 s1)) as ->.
    { destruct n; cbn [wait_for_completion]; by rewrite bind_unfold, get_run, D. }
    eexists. split; [reflexivity|]. rewrite app_nil_r. done.
  - assert (4 < count s) as Hc4.
    { destruct (Z.le_gt_cases (count s) 4); [|lia]. rewrite words_last in Hw by lia. lia. }
    pose proof (irq_more spins _ _ _ _ Hb Hc4) as HI. destruct (store_opt m (rx s) a) as [m1|];
      [|by rewrite bind_unfold, HI].
    cbn [exchange]. destruct (load_opt m1 (tx s)) as [x|]; [|by rewrite bind_unfold, HI].
    destruct HI as (s1 & E & Hb1 & T & R & C & D & S1 & L).
    rewrite (bind_Some _ _ _ _ _ E). rewrite words_step in Hw by lia.
    pose proof (IH n s1 _ _ _ Hb1) as HX. rewrite C, D, T, R in HX.
    specialize (HX Hd ltac:(lia) ltac:(lia) ltac:(lia)).
    destruct (store_opt m1 (advance <$> rx s) (fst (slave st x))) as [m2|]; [|done].
    destruct (exchange k (advance <$> tx s) (advance <$> (advance <$> rx s)) m2 (snd (slave st x)))
      as [[[xs m3] st3]|]; [|done].
    destruct HX as (s' & E' & Hi & D' & S' & L'). exists s'. split; [done|]. split; [done|].
    split; [done|]. split; [by split; (etransitivity; [apply S'|apply S1])|].
    rewrite L', L, <- app_assoc. done.
Qed.

(** A transfer is the exchange of its bytes, rounded up to whole words. *)
Lemma bufs_exchange spins n spi t s m st :
  idle s m st -> 0 < t_len t < 2 ^ 31 -> (words (t_len t) <= n)%nat ->
  match exchange (words (t_len t)) (t_tx_buf t) (t_rx_buf t) m st with
  | None => fsl_espi_bufs spins n spi t s = None
  | Some (xs, m, st) =>
      exists s', fsl_espi_bufs spins n spi t s = Some (Some (t_len t), s') /\
        idle s' m st /\ same_setup s s' /\ sent (log (regs s')) = sent (log (regs s)) ++ xs
  end.
Proof.
  intros (Hr & Hm & Hrs & Hts) Hl Hn. unfold fsl_espi_bufs. rewrite s32_small by lia.
  destruct (words (t_len t)) as [|k] eqn:Hk; [unfold words in Hk; lia|].
  rewrite bind_unfold, modify_run, bind_unfold, on_regs_wr, bind_unfold, modify_run,
    bind_unfold, on_regs_wr, bind_unfold, tx_step by done.
  cbn [mem tx rx count regs with_bufs with_done with_regs dev log]. rewrite Hm.
  cbn [exchange]. destruct (load_opt m (t_tx_buf t)) as [x|]; [|done].
  rewrite bind_unfold, on_regs_wr. cbn [regs with_bufs with_done with_regs dev log].
  match goal with |- context [(wait_for_completion spins n ≫= _) ?s1] =>
    pose proof (wait_exchange spins k n s1 m (snd (slave st x)) (fst (slave st x))) as HX;
    assert (busy s1 m (snd (slave st x)) (fst (slave st x))) as Hb;
      [|specialize (HX Hb eq_refl);
        assert (sent (log (regs s1)) = sent (log (regs s)) ++ [x]) as L1] end.
  { unfold busy. cbn. split; [|done]. apply ready_transmit. by repeat (apply ready_control; [|auto]). }
  { cbn [regs with_bufs with_done with_regs log]. unfold sent. rewrite !omap_app. simpl.
    by rewrite !app_nil_r. }
  cbn [tx rx count with_bufs with_done with_regs] in HX. specialize (HX ltac:(lia) Hk Hn).
  destruct (store_opt m (t_rx_buf t) (fst (slave st x))) as [m1|]; [|by rewrite bind_unfold, HX].
  destruct (exchange k (advance <$> t_tx_buf t) (advance <$> t_rx_buf t) m1 (snd (slave st x)))
    as [[[xs m2] st2]|]; [|by rewrite bind_unfold, HX].
  destruct HX as (s2 & E & (Hr2 & Hm2 & Hrs2 & Hts2) & D & S2 & L).
  rewrite (bind_Some _ _ _ _ _ E), bind_unfold, on_regs_wr, ret_unfold.
  eexists. split; [reflexivity|]. unfold idle, same_setup in *.
  cbn [regs with_regs mem rx_shift tx_shift cs spibrg dev log]. split.
  { split; [apply ready_control; auto|done]. }
  split; [done|]. rewrite L1 in L. unfold sent in *. rewrite omap_app, L.
  cbn. by rewrite app_nil_r, <- app_assoc.
Qed.

(** Word length and speed a transfer asks for, or the device's. *)
Definition asked_bits (spi : kspi) (t : option transfer) : Z :=
  let b := match t with Some t => t_bits_per_word t | None => 0 end in
  if b =? 0 then SpiMaster.bits_per_word spi else b.

Definition asked_hz (spi : kspi) (t : option transfer) : Z :=
  let hz := match t with Some t => t_speed_hz t | None => 0 end in
  if hz =? 0 then max_speed_hz spi else hz.

Definition can_setup (brg : Z) (spi : kspi) (t : option transfer) : Prop :=
  4 <= asked_bits spi t <= 16 /\ is_Some (espi_divider brg (asked_hz spi t)).

Lemma setup_transfer_ok spi t s m st :
  idle s m st -> is_Some (cs s) -> can_setup (spibrg s) spi t ->
  exists s', fsl_espi_setup_transfer spi t s = Some (0, s') /\ idle s' m st /\
    spibrg s' = spibrg s /\ is_Some (cs s') /\ sent (log (regs s')) = sent (log (regs s)).
Proof.
  intros (Hr & Hm & Hrs & Hts) [c Hc] [Hb [d Hd]]. unfold fsl_espi_setup_transfer. cbv zeta.
  fold (asked_bits spi t). fold (asked_hz spi t).
  assert ((asked_bits spi t <? 4) || (16 <? asked_bits spi t) = false) as ->.
  { apply orb_false_iff. rewrite !Z.ltb_ge. lia. }
  rewrite bind_unfold, get_run, Hc, bind_unfold, modify_run, bind_unfold, Hd, lift_opt_run.
  rewrite bind_unfold, modify_run, bind_unfold, on_regs_rd, bind_unfold, on_regs_wr, bind_unfold,
    on_regs_wr, bind_unfold, on_regs_wr, ret_unfold.
  eexists. split; [reflexivity|]. unfold idle.
  cbn [regs with_regs with_cs with_shifts mem rx_shift tx_shift cs spibrg dev log].
  split; [|split; [done|split; [done|]]].
  - split; [|done]. repeat (apply ready_control; [|eauto 6]). apply ready_status; [done|auto].
  - unfold sent. rewrite !omap_app. simpl. by rewrite !app_nil_r.
Qed.

(** A transfer the queue can run while [n] interrupts arrive. *)
Definition valid_transfer (brg : Z) (n : nat) (spi : kspi) (t : transfer) : Prop :=
  0 <= t_len t < 2 ^ 31 /\ (words (t_len t) <= n)%nat /\
  (t_len t = 0 \/ is_Some (t_tx_buf t) \/ is_Some (t_rx_buf t)) /\
  (needs_setup spi t = true -> can_setup brg spi (Some t)).

Definition total_len (ts : list transfer) : Z := foldr (fun t n => t_len t + n) 0 ts.

Definition valid_message (brg : Z) (n : nat) (m : message) : Prop :=
  Forall (valid_transfer brg n (m_spi m)) (m_transfers m) /\
  total_len (m_transfers m) < 2 ^ 32 /\ can_setup brg (m_spi m) None.

(** The part of [run_transfers] for one transfer. *)
Lemma run_transfer spins n spi t ts actual do_setup s m st :
  idle s m st -> is_Some (cs s) -> valid_transfer (spibrg s) n spi t ->
  0 <= actual -> actual + t_len t < 2 ^ 32 ->
  match exchange (if t_len t =? 0 then 0 else words (t_len t)) (t_tx_buf t) (t_rx_buf t) m st with
  | None => run_transfers spins n spi (t :: ts) actual do_setup s = None
  | Some (xs, m, st) =>
      exists s', run_transfers spins n spi (t :: ts) actual do_setup s =
          run_transfers spins n spi ts (actual + t_len t) (needs_setup spi t) s' /\
        idle s' m st /\ spibrg s' = spibrg s /\ is_Some (cs s') /\
        sent (log (regs s')) = sent (log (regs s)) ++ xs
  end.
Proof.
  intros Hi Hc (Hl & Hn & Hp & Hs) Ha0 Ha. cbn [run_transfers]. cbv zeta.
  assert (exists s1, (if needs_setup spi t then fsl_espi_setup_transfer spi (Some t) else mret 0) s =
      Some (0, s1) /\ idle s1 m st /\ spibrg s1 = spibrg s /\ is_Some (cs s1) /\
      sent (log (regs s1)) = sent (log (regs s))) as (s1 & E1 & Hi1 & B1 & C1 & L1).
  { destruct (needs_setup spi t); [|by exists s]. by apply setup_transfer_ok; auto. }
  rewrite (bind_Some _ _ _ _ _ E1). change (0 <? 0) with false. cbv iota.
  assert (bool_decide (t_tx_buf t = None) && bool_decide (t_rx_buf t = None) && truth (t_len t) =
    false) as ->.
  { destruct Hp as [->|[[p ->]|[p ->]]]; [apply andb_false_r|done|].
    destruct (bool_decide (t_tx_buf t = None)); done. }
  unfold truth. destruct (Z.eqb_spec (t_len t) 0) as [H0|H0]; cbn [negb].
  - rewrite bind_unfold, ret_unfold, H0. cbn [exchange]. exists s1. rewrite Z.add_0_r, app_nil_r. auto.
  - pose proof (bufs_exchange spins n spi t s1 m st Hi1 ltac:(lia) Hn) as HX.
    destruct (exchange (words (t_len t)) (t_tx_buf t) (t_rx_buf t) m st) as [[[xs m2] st2]|];
      [|by rewrite bind_unfold, HX].
    destruct HX as (s2 & E2 & Hi2 & [B2 C2] & L2). exists s2. rewrite (bind_Some _ _ _ _ _ E2).
    rewrite (proj2 (Z.ltb_lt 0 (t_len t))), !u32_small, Z.eqb_refl by lia.
    cbn [negb]. rewrite B2, C2, L2, L1. auto.
Qed.

Lemma run_transfers_exchanges spins n spi ts : forall actual do_setup s m st,
  idle s m st -> is_Some (cs s) -> Forall (valid_transfer (spibrg s) n spi) ts ->
  0 <= actual -> actual + total_len ts < 2 ^ 32 ->
  match exchanges ts m st with
  | None => run_transfers spins n spi ts actual do_setup s = None
  | Some (xs, m, st) =>
      exists d s', run_transfers spins n spi ts actual do_setup s =
          Some (Some (0, actual + total_len ts, d), s') /\
        idle s' m st /\ spibrg s' = spibrg s /\ is_Some (cs s') /\
        sent (log (regs s')) = sent (log (regs s)) ++ xs
  end.
Proof.
  induction ts as [|t ts IH]; intros actual do_setup s m st Hi Hc Hv Ha0 Ha.
  { cbn. eexists _, s. rewrite Z.add_0_r, app_nil_r. auto. }
  apply Forall_cons in Hv as [Ht Hts].
  assert (0 <= total_len ts) as Hts0.
  { clear -Hts. induction Hts as [|t ts [Hl _] _ IH]; simpl; lia. }
  assert (0 <= t_len t) by apply Ht. cbn [total_len foldr] in Ha. fold (total_len ts) in Ha.
  pose proof (run_transfer spins n spi t ts actual do_setup s m st Hi Hc Ht Ha0 ltac:(lia)) as HX.
  cbn [exchanges].
  destruct (exchange _ (t_tx_buf t) (t_rx_buf t) m st) as [[[xs m1] st1]|]; [|done].
  destruct HX as (s1 & -> & Hi1 & B1 & C1 & L1).
  specialize (IH (actual + t_len t) (needs_setup spi t) s1 m1 st1 Hi1 C1).
  rewrite B1 in IH. specialize (IH Hts ltac:(lia) ltac:(lia)).
  destruct (exchanges ts m1 st1) as [[[ys m2] st2]|]; [|done].
  destruct IH as (d & s2 & E2 & Hi2 & B2 & C2 & L2). exists d, s2.
  rewrite E2. cbn [total_len foldr]. fold (total_len ts). rewrite Z.add_assoc, L2, L1, <- app_assoc.
  auto.
Qed.

Lemma exchanges_app ts1 : forall ts2 m st,
  exchanges (ts1 ++ ts2) m st =
    match exchanges ts1 m st with
    | None => None
    | Some (xs, m, st) =>
        match exchanges ts2 m st with
        | None => None
        | Some (ys, m, st) => Some (xs ++ ys, m, st)
        end
    end.
Proof.
  induction ts1 as [|t ts1 IH]; intros ts2 m st; cbn [exchanges app].
  { by destruct (exchanges ts2 m st) as [[[ys m1] st1]|]. }
  destruct (exchange _ (t_tx_buf t) (t_rx_buf t) m st) as [[[xs m1] st1]|]; [|done].
  rewrite IH. destruct (exchanges ts1 m1 st1) as [[[ys m2] st2]|]; [|done].
  destruct (exchanges ts2 m2 st2) as [[[zs m3] st3]|]; [|done]. by rewrite app_assoc.
Qed.

(** What the completion of a message reports. *)
Definition completion (m : message) : Z * Z := (0, total_len (m_transfers m)).

Lemma work_exchanges spins n queue : forall s m st,
  idle s m st -> is_Some (cs s) -> Forall (valid_message (spibrg s) n) queue ->
  match exchanges (concat (map m_transfers queue)) m st with
  | None => bitbang_work spins n queue s = None
  | Some (xs, m, st) =>
      exists s', bitbang_work spins n queue s = Some (Some (map completion queue), s') /\
        idle s' m st /\ spibrg s' = spibrg s /\ is_Some (cs s') /\
        sent (log (regs s')) = sent (log (regs s)) ++ xs
  end.
Proof.
  induction queue as [|q queue IH]; intros s m st Hi Hc Hv.
  { cbn. exists s. rewrite app_nil_r. auto. }
  apply Forall_cons in Hv as [(Hts & Hlen & Hset) Hq]. cbn [map concat bitbang_work].
  rewrite exchanges_app.
  pose proof (run_transfers_exchanges spins n (m_spi q) (m_transfers q) 0 false s m st
    Hi Hc Hts ltac:(lia) Hlen) as HX.
  destruct (exchanges (m_transfers q) m st) as [[[xs m1] st1]|]; [|by rewrite bind_unfold, HX].
  destruct HX as (d & s1 & E1 & Hi1 & B1 & C1 & L1). rewrite (bind_Some _ _ _ _ _ E1).
  assert (exists s2, (if d then fsl_espi_setup_transfer (m_spi q) None;; mret tt else mret tt) s1 =
      Some (tt, s2) /\ idle s2 m1 st1 /\ spibrg s2 = spibrg s /\ is_Some (cs s2) /\
      sent (log (regs s2)) = sent (log (regs s)) ++ xs) as (s2 & E2 & Hi2 & B2 & C2 & L2).
  { destruct d; [|by exists s1]. destruct (setup_transfer_ok (m_spi q) None s1 m1 st1)
      as (s2 & E2 & Hi2 & B2 & C2 & L2); [done|done|by rewrite B1|].
    exists s2. rewrite (bind_Some _ _ _ _ _ E2), B2, L2. auto. }
  rewrite (bind_Some _ _ _ _ _ E2). specialize (IH s2 m1 st1 Hi2 C2). rewrite B2 in IH.
  specialize (IH Hq). destruct (exchanges (concat (map m_transfers queue)) m1 st1)
    as [[[ys m2] st2]|]; [|by rewrite bind_unfold, IH].
  destruct IH as (s3 & E3 & Hi3 & B3 & C3 & L3). rewrite (bind_Some _ _ _ _ _ E3), ret_unfold.
  exists s3. rewrite B3, L3, L2, <- app_assoc. auto.
Qed.

(** *** Exchanges in memory *)

Lemma load_at m b pre x post :
  is_u32 x -> m !! b = Some (pre ++ be32_bytes x ++ post) ->
  load_opt m (Some (b, length pre)) = Some x.
Proof.
  intros Hx Hm. cbn. unfold load32. cbn [fst snd]. rewrite Hm, word_at_app by done.
  cbn. by rewrite u32_small.
Qed.

Lemma store_at m b pre rest a :
  m !! b = Some (pre ++ rest) -> (4 <= length rest)%nat ->
  store_opt m (Some (b, length pre)) a = Some (<[b := (pre ++ be32_bytes a) ++ drop 4 rest]> m).
Proof.
  intros Hm Hr. cbn. unfold store32. cbn [fst snd].
  rewrite Hm, buf_write_Some by (rewrite length_app; simpl; lia).
  rewrite take_app_length, drop_app_ge by lia. rewrite <- app_assoc. do 5 f_equal. simpl. lia.
Qed.

Lemma advance_app (b : nat) (pre : list Z) x :
  advance <$> Some (b, length pre) = Some (b, length (pre ++ be32_bytes x)).
Proof. by rewrite length_app. Qed.

(** Sending from a block. *)
Lemma exchange_send b ws : forall tpre tpost m st,
  m !! b = Some (tpre ++ bytes ws ++ tpost) -> Forall is_u32 ws ->
  exchange (length ws) (Some (b, length tpre)) None m st = Some (ws, m, after st ws).
Proof.
  induction ws as [|x ws IH]; intros tpre tpost m st Hb Hw; [done|].
  apply Forall_cons in Hw as [Hx Hw].
  change (bytes (x :: ws)) with (be32_bytes x ++ bytes ws) in Hb. rewrite <- app_assoc in Hb.
  cbn [length exchange store_opt]. rewrite (load_at _ _ _ x _ Hx Hb), (advance_app b tpre x).
  rewrite app_assoc in Hb. change (advance <$> None) with (@None ptr). by rewrite (IH _ _ _ _ Hb Hw).
Qed.

(** Sending from one block and receiving into another. *)
Lemma exchange_separate b b' ws : forall tpre tpost rpre rest m st,
  b <> b' -> m !! b = Some (tpre ++ bytes ws ++ tpost) -> m !! b' = Some (rpre ++ rest) ->
  Forall is_u32 ws -> (4 * length ws <= length rest)%nat ->
  exchange (length ws) (Some (b, length tpre)) (Some (b', length rpre)) m st =
    Some (ws, <[b' := rpre ++ bytes (answers st ws) ++ drop (4 * length ws) rest]> m, after st ws).
Proof.
  induction ws as [|x ws IH]; intros tpre tpost rpre rest m st Hne Hb Hb' Hw HL.
  { cbn [length exchange answers after]. change (bytes []) with (@nil Z). cbn [app].
    by rewrite Nat.mul_0_r, drop_0, list_insert_id. }
  apply Forall_cons in Hw as [Hx Hw]. simpl in HL.
  change (bytes (x :: ws)) with (be32_bytes x ++ bytes ws) in Hb. rewrite <- app_assoc in Hb.
  cbn [length exchange]. rewrite (load_at _ _ _ x _ Hx Hb), (store_at _ _ _ _ _ Hb') by lia.
  rewrite (advance_app b tpre x), (advance_app b' rpre (fst (slave st x))).
  rewrite (IH _ tpost _ (drop 4 rest)).
  - rewrite list_insert_insert_eq. do 3 f_equal. cbn [answers].
    change (bytes (?a :: ?l)) with (be32_bytes a ++ bytes l).
    rewrite drop_drop, <- !app_assoc. do 5 f_equal. lia.
  - done.
  - rewrite list_lookup_insert_ne by done. by rewrite <- app_assoc.
  - rewrite list_lookup_insert_eq by (by eapply lookup_lt_Some). done.
  - done.
  - rewrite length_drop. lia.
Qed.

(** Receiving in place. *)
Lemma exchange_inplace b ws : forall pre post m st,
  m !! b = Some (pre ++ bytes ws ++ post) -> Forall is_u32 ws ->
  exchange (length ws) (Some (b, length pre)) (Some (b, length pre)) m st =
    Some (ws, <[b := pre ++ bytes (answers st ws) ++ post]> m, after st ws).
Proof.
  induction ws as [|x ws IH]; intros pre post m st Hb Hw.
  { cbn [length exchange answers after]. by rewrite list_insert_id. }
  apply Forall_cons in Hw as [Hx Hw].
  change (bytes (x :: ws)) with (be32_bytes x ++ bytes ws) in Hb. rewrite <- app_assoc in Hb.
  cbn [length exchange]. rewrite (load_at _ _ _ x _ Hx Hb).
  rewrite (store_at _ _ _ _ _ Hb) by (rewrite length_app; simpl; lia).
  rewrite (advance_app b pre (fst (slave st x))).
  change (drop 4 (be32_bytes x ++ bytes ws ++ post)) with (bytes ws ++ post).
  rewrite (IH _ post); [|by rewrite list_lookup_insert_eq by (by eapply lookup_lt_Some)|done].
  rewrite list_insert_insert_eq. cbn [answers].
  change (bytes (?a :: ?l)) with (be32_bytes a ++ bytes l). by rewrite <- !app_assoc.
Qed.

(** A block without room for the whole words is overrun, wherever the words
    come from. *)
Lemma exchange_overrun n : forall t b off buf m st,
  m !! b = Some buf -> (off <= length buf < off + 4 * n)%nat ->
  exchange n t (Some (b, off)) m st = None.
Proof.
  induction n as [|n IH]; intros t b off buf m st Hb Hl; [lia|].
  cbn [exchange]. destruct (load_opt m t) as [x|]; [|done].
  cbn. unfold store32. cbn [fst snd]. rewrite Hb.
  destruct (decide (off + 4 <= length buf)%nat) as [H4|H4].
  - rewrite buf_write_Some by (simpl; lia). unfold advance. cbn [fst snd].
    rewrite (IH _ b (off + 4)%nat (take off buf ++ be32_bytes (fst (slave st x)) ++
                                   drop (off + 4) buf)); [done| |].
    + rewrite list_lookup_insert_eq by (by eapply lookup_lt_Some). done.
    + lens. simpl. lens. lia.
  - by rewrite buf_write_None by (simpl; lia).
Qed.

(** Blocks keep their lengths. *)
Lemma exchange_length n : forall t r m st xs m' st' b buf,
  exchange n t r m st = Some (xs, m', st') -> m !! b = Some buf ->
  exists buf', m' !! b = Some buf' /\ length buf' = length buf.
Proof.
  induction n as [|n IH]; intros t r m st xs m' st' b buf E Hb; cbn [exchange] in E.
  { simplify_eq. eauto. }
  destruct (load_opt m t) as [x|]; [|done].
  destruct (store_opt m r (fst (slave st x))) as [m1|] eqn:Es; [|done].
  destruct (exchange n (advance <$> t) (advance <$> r) m1 (snd (slave st x)))
    as [[[ys m2] st2]|] eqn:E2; [|done]. simplify_eq.
  assert (exists buf1, m1 !! b = Some buf1 /\ length buf1 = length buf) as (buf1 & Hb1 & Hl1).
  { destruct r as [[b' o]|]; cbn in Es; [|simplify_eq; eauto]. unfold store32 in Es. cbn [fst snd] in Es.
    destruct (m !! b') as [buf0|] eqn:Hb0; [|done].
    destruct (buf_write buf0 o _) as [buf1|] eqn:Ew; [|done]. simplify_eq.
    destruct (decide (b = b')) as [->|Hne].
    - simplify_eq. rewrite list_lookup_insert_eq by (by eapply lookup_lt_Some).
      eexists. split; [done|]. by eapply buf_write_length.
    - rewrite list_lookup_insert_ne by done. eauto. }
  rewrite <- Hl1. by eapply IH.
Qed.

Lemma exchanges_length ts : forall m st xs m' st' b buf,
  exchanges ts m st = Some (xs, m', st') -> m !! b = Some buf ->
  exists buf', m' !! b = Some buf' /\ length buf' = length buf.
Proof.
  induction ts as [|t ts IH]; intros m st xs m' st' b buf E Hb; cbn [exchanges] in E.
  { simplify_eq. eauto. }
  destruct (exchange _ _ _ m st) as [[[ys m1] st1]|] eqn:E1; [|done].
  destruct (exchanges ts m1 st1) as [[[zs m2] st2]|] eqn:E2; [|done]. simplify_eq.
  destruct (exchange_length _ _ _ _ _ _ _ _ _ _ E1 Hb) as (buf1 & Hb1 & <-). by eapply IH.
Qed.

Lemma words_multiple len : 0 < len -> len mod 4 <> 0 -> len < 4 * Z.of_nat (words len).
Proof.
  intros H0 H. pose proof (Z.div_mod (len + 3) 4 ltac:(lia)). pose proof (Z.mod_pos_bound (len + 3) 4).
  assert (1 <= (len + 3) / 4) by (apply Z.div_le_lower_bound; lia).
  unfold words. rewrite Z2Nat.id by lia.
  destruct (Z.eq_dec ((len + 3) mod 4) 3) as [E|E]; [|lia].
  exfalso. apply H. apply Z.mod_divide; [lia|]. exists ((len + 3) / 4). lia.
Qed.

Lemma valid_single brg n spi tb rb len :
  can_setup brg spi None -> 0 <= len < 2 ^ 31 -> (words len <= n)%nat ->
  valid_transfer brg n spi (Transfer (Some tb) rb len 0 0).
Proof. intros Hs Hl Hn. split; [done|]. split; [done|]. split; [right; left; by eexists|]. done. Qed.
End Exchange.

(** ** Properties *)

Section Properties.
Context {HW St : Type} `{!RegBus spi_reg HW} `{!SpiSlave HW St}.
Implicit Types (m : memory) (st : St) (s : fsl_espi HW).

(** C28: The message queue, the interrupt handler and the registers together
    implement [exchanges]: the queued messages are run in order, every one
    completes with status 0 and its whole length, the words of their buffers
    are sent in order, the slave's answers are in memory and the driver is ready
    for the next message. The behaviour is
    undefined exactly when an exchange leaves a buffer. A transfer takes one
    interrupt per word. *)
Theorem bitbang_work_refines spins n queue s m st :
  idle s m st -> is_Some (cs s) -> Forall (valid_message (spibrg s) n) queue ->
  match exchanges (concat (map m_transfers queue)) m st with
  | None => bitbang_work spins n queue s = None
  | Some (xs, m', st') =>
      exists s', bitbang_work spins n queue s = Some (Some (map completion queue), s') /\
        idle s' m' st' /\ spibrg s' = spibrg s /\ is_Some (cs s') /\
        sent (log (regs s')) = sent (log (regs s)) ++ xs
  end.
Proof. apply work_exchanges. Qed.

(** A message with one transfer between two buffers sends the words of the
    transmit buffer and puts the answers into the receive buffer: in whole
    words, so up to three bytes more than the length it reports. *)
Theorem espi_message_duplex spins n spi bt br ws tpost rest len s m st :
  idle s m st -> is_Some (cs s) -> can_setup (spibrg s) spi None ->
  bt <> br -> m !! bt = Some (bytes ws ++ tpost) -> m !! br = Some rest -> Forall is_u32 ws ->
  0 < len < 2 ^ 31 -> length ws = words len -> (words len <= n)%nat ->
  (4 * words len <= length rest)%nat ->
  exists s', bitbang_work spins n
      [Message spi [Transfer (Some (bt, 0%nat)) (Some (br, 0%nat)) len 0 0]] s =
        Some (Some [(0, len)], s') /\
    idle s' (<[br := bytes (answers st ws) ++ drop (4 * words len) rest]> m) (after st ws) /\
    spibrg s' = spibrg s /\ is_Some (cs s') /\
    sent (log (regs s')) = sent (log (regs s)) ++ ws.
Proof.
  intros Hi Hc Hs Hne Hbt Hbr Hw Hl Hlen Hn Hr.
  set (t := Transfer (Some (bt, 0%nat)) (Some (br, 0%nat)) len 0 0).
  pose proof (work_exchanges spins n [Message spi [t]] s m st Hi Hc) as HX.
  assert (Forall (valid_message (spibrg s) n) [Message spi [t]]) as Hv.
  { apply Forall_singleton. split; [|split; [cbn; lia|done]].
    apply Forall_singleton, valid_single; [done|lia|done]. }
  specialize (HX Hv). cbn [map concat app m_transfers exchanges t t_len t_tx_buf t_rx_buf] in HX.
  rewrite (proj2 (Z.eqb_neq len 0)), <- Hlen in HX by lia.
  rewrite (exchange_separate bt br ws [] tpost [] rest m st) in HX; [|done..|lia].
  destruct HX as (s' & E & Hi' & B & C & L). exists s'. rewrite E, <- Hlen. unfold completion.
  cbn [map m_transfers total_len foldr t_len]. rewrite Z.add_0_r. rewrite app_nil_r in L. auto.
Qed.

(** Sending without receiving. *)
Lemma espi_message_send spins n spi bt ws tpost len s m st :
  idle s m st -> is_Some (cs s) -> can_setup (spibrg s) spi None ->
  m !! bt = Some (bytes ws ++ tpost) -> Forall is_u32 ws ->
  0 < len < 2 ^ 31 -> length ws = words len -> (words len <= n)%nat ->
  exists s', bitbang_work spins n [Message spi [Transfer (Some (bt, 0%nat)) None len 0 0]] s =
        Some (Some [(0, len)], s') /\
    idle s' m (after st ws) /\ spibrg s' = spibrg s /\ is_Some (cs s') /\
    sent (log (regs s')) = sent (log (regs s)) ++ ws.
Proof.
  intros Hi Hc Hs Hbt Hw Hl Hlen Hn.
  set (t := Transfer (Some (bt, 0%nat)) None len 0 0).
  pose proof (work_exchanges spins n [Message spi [t]] s m st Hi Hc) as HX.
  assert (Forall (valid_message (spibrg s) n) [Message spi [t]]) as Hv.
  { apply Forall_singleton. split; [|split; [cbn; lia|done]].
    apply Forall_singleton, valid_single; [done|lia|done]. }
  specialize (HX Hv). cbn [map concat app m_transfers exchanges t t_len t_tx_buf t_rx_buf] in HX.
  rewrite (proj2 (Z.eqb_neq len 0)), <- Hlen in HX by lia.
  rewrite (exchange_send bt ws [] tpost m st) in HX; [|done..].
  destruct HX as (s' & E & Hi' & B & C & L). exists s'. rewrite E. unfold completion.
  cbn [map m_transfers total_len foldr t_len]. rewrite Z.add_0_r. rewrite app_nil_r in L. auto.
Qed.

(** A message whose last segment reaches the end of its buffer and is not a
    whole number of words long runs over the end of the buffer, whatever
    precedes it: SPI_IOC_MESSAGE with segments of 1 and 4095 bytes, which the
    SPI device accepts, writes past the 4096 bytes of its buffer. *)
Theorem espi_last_segment_overrun spins n spi ts t b off buf s m st :
  idle s m st -> is_Some (cs s) -> valid_message (spibrg s) n (Message spi (ts ++ [t])) ->
  m !! b = Some buf -> t_rx_buf t = Some (b, off) ->
  Z.of_nat off + t_len t = Z.of_nat (length buf) -> t_len t mod 4 <> 0 ->
  bitbang_work spins n [Message spi (ts ++ [t])] s = None.
Proof.
  intros Hi Hc Hv Hb Ht Hlen Hmod.
  pose proof (work_exchanges spins n [Message spi (ts ++ [t])] s m st Hi Hc) as HX.
  rewrite Forall_singleton in HX. specialize (HX Hv).
  cbn [map concat m_transfers] in HX. rewrite app_nil_r, exchanges_app in HX.
  destruct (exchanges ts m st) as [[[xs m1] st1]|] eqn:E; [|done].
  destruct (exchanges_length _ _ _ _ _ _ _ _ E Hb) as (buf1 & Hb1 & Hl1).
  destruct Hv as [Hv _]. cbn [m_transfers m_spi] in Hv. apply Forall_app in Hv as [_ Hv].
  apply Forall_singleton in Hv as [Hl0 _].
  assert (t_len t <> 0) as H0 by (intros H; by rewrite H in Hmod).
  cbn [exchanges] in HX. rewrite (proj2 (Z.eqb_neq (t_len t) 0)), Ht in HX by done.
  pose proof (words_multiple (t_len t) ltac:(lia) Hmod).
  by rewrite (exchange_overrun _ _ b off buf1 m1 st1 Hb1) in HX by lia.
Qed.

(** Segments that lie next to each other and are received in place disturb
    each other: after a segment of one byte the second segment's first three
    bytes are no longer the caller's but the slave's answer. *)
Theorem espi_adjacent_corrupted spins n spi b b0 b1 b2 b3 b4 post s m st :
  idle s m st -> is_Some (cs s) -> can_setup (spibrg s) spi None -> (1 <= n)%nat ->
  Forall is_byte [b0; b1; b2; b3; b4] -> m !! b = Some (b0 :: b1 :: b2 :: b3 :: b4 :: post) ->
  let a := fst (slave st (be32 b0 b1 b2 b3)) in
  exists r s', bitbang_work spins n
      [Message spi [Transfer (Some (b, 0%nat)) (Some (b, 0%nat)) 1 0 0;
                    Transfer (Some (b, 1%nat)) (Some (b, 1%nat)) 4 0 0]] s = Some (r, s') /\
    sent (log (regs s')) = sent (log (regs s)) ++
      [be32 b0 b1 b2 b3; be32 (u8 (Z.shiftr a 16)) (u8 (Z.shiftr a 8)) (u8 a) b4].
Proof.
  intros Hi Hc Hs Hn HB Hb a.
  set (t1 := Transfer (Some (b, 0%nat)) (Some (b, 0%nat)) 1 0 0).
  set (t2 := Transfer (Some (b, 1%nat)) (Some (b, 1%nat)) 4 0 0).
  pose proof (work_exchanges spins n [Message spi [t1; t2]] s m st Hi Hc) as HX.
  assert (Forall (valid_message (spibrg s) n) [Message spi [t1; t2]]) as Hv.
  { apply Forall_singleton. split; [|split; [cbn; lia|done]].
    apply Forall_cons. split; [|apply Forall_singleton]; (apply valid_single; [done|lia|]);
      change (1 <= n)%nat; done. }
  specialize (HX Hv). rewrite !Forall_cons in HB. destruct HB as (H0 & H1 & H2 & H3 & H4 & _).
  assert (be32_bytes (be32 b0 b1 b2 b3) = [b0; b1; b2; b3]) as E0 by by apply bytes_of_be32.
  assert (forall p q r v, is_byte p -> is_byte q -> is_byte r -> is_byte v -> is_u32 (be32 p q r v))
    as HU by (intros; unfold is_u32; rewrite be32_value by done; unfold is_byte in *; lia).
  set (w2 := be32 (u8 (Z.shiftr a 16)) (u8 (Z.shiftr a 8)) (u8 a) b4) in *.
  assert (be32_bytes w2 = [u8 (Z.shiftr a 16); u8 (Z.shiftr a 8); u8 a; b4]) as E2.
  { apply bytes_of_be32; auto using u8_is_byte. }
  cbn [map concat app m_transfers exchanges t1 t2 t_len t_tx_buf t_rx_buf Z.eqb] in HX.
  change (words 1) with (length [be32 b0 b1 b2 b3]) in HX. change (words 4) with (length [w2]) in HX.
  rewrite (exchange_inplace b [be32 b0 b1 b2 b3] [] (b4 :: post)) in HX;
    [|change (bytes [?x]) with (be32_bytes x ++ []); by rewrite E0, Hb|by apply Forall_singleton; apply HU].
  rewrite (exchange_inplace b [w2] [u8 (Z.shiftr a 24)] post) in HX.
  - destruct HX as (s' & E & _ & _ & _ & L). eexists _, s'. split; [exact E|]. exact L.
  - rewrite list_lookup_insert_eq by (by eapply lookup_lt_Some). 
    change (bytes [w2]) with (be32_bytes w2 ++ []). by rewrite E2.
  - apply Forall_singleton, HU; auto using u8_is_byte.
Qed.

(** A word length the controller does not have is refused without a write
    to its registers, and the settings of the device are the ones before. *)
Theorem espi_setup_rejects alloc spi c s :
  cs s = Some c -> truth (Z.land (mode spi) (not32 MODEBITS)) = false -> max_speed_hz spi <> 0 ->
  bits_per_word spi <> 0 -> ~ 4 <= bits_per_word spi <= 16 ->
  exists s' v, fsl_espi_setup alloc spi s = Some ((- EINVAL, spi), s') /\ cs s' = Some c /\
    log (regs s') = log (regs s) ++ [Rd (CSMODE (chip_select spi)) v].
Proof.
  intros Hc Hm Hz Hb0 Hb. unfold fsl_espi_setup. rewrite Hm, (proj2 (Z.eqb_neq _ 0) Hz).
  rewrite bind_unfold, get_run, Hc. cbv zeta. rewrite (proj2 (Z.eqb_neq (bits_per_word spi) 0) Hb0).
  rewrite bind_unfold, on_regs_rd, bind_unfold, modify_run, bind_unfold.
  unfold fsl_espi_setup_transfer. cbn [Z.eqb]. cbv zeta.
  assert ((bits_per_word spi <? 4) || (16 <? bits_per_word spi) = true) as ->.
  { apply orb_true_iff. rewrite !Z.ltb_lt. lia. }
  rewrite ret_unfold. change (- EINVAL <? 0) with true. cbv iota.
  rewrite bind_unfold, get_run, bind_unfold, modify_run, ret_unfold.
  eexists _, _. split; [reflexivity|]. cbn. by destruct c.
Qed.
End Properties.

(** ** Witnesses *)

(** A controller whose slave answers with the complement of the word. *)
Module Inverter.
Record inverter := Inverter { pending : option Z }.

#[export] Instance inv_bus : RegBus spi_reg inverter := {|
  rb_read r h :=
    match r with
    | EVENT => (if pending h is Some _ then 0x04000300 else 0x100, h)
    | RECEIVE => (default 0 (pending h), Inverter None)
    | _ => (0, h)
    end;
  rb_write r v h := match r with TRANSMIT => Inverter (Some (not32 v)) | _ => h end
|}.

#[export] Program Instance inv_slave : SpiSlave inverter unit := {|
  slave s x := (not32 x, s);
  ready h _ := pending h = None;
  full h _ a := pending h = Some a
|}.
Solve Obligations with (intros; destruct_all inverter; naive_solver).
End Inverter.
Import Inverter.

Definition ex_espi (m : memory) : fsl_espi inverter :=
  Espi None None 0 0 0 198000000 0 (Some (EspiCs 0 0 0)) m (World (Inverter.Inverter None) []).
Definition ex_spi : kspi := KSpi 0 SPI_MODE_3 8 6500000.

Lemma ex_setup : can_setup 198000000 ex_spi None.
Proof. split; [cbn; lia|]. vm_compute. by eexists. Qed.

Lemma bitbang_work_refines_witness :
  exists s', bitbang_work 0 2
      [Message ex_spi [Transfer (Some (0, 0)%nat) (Some (1, 0)%nat) 5 0 0];
       Message ex_spi [Transfer (Some (1, 0)%nat) None 4 0 0]]
      (ex_espi [[1; 2; 3; 4; 5; 6; 7; 8]; replicate 9 0]) = Some (Some [(0, 5); (0, 4)], s') /\
    idle s' [[1; 2; 3; 4; 5; 6; 7; 8]; [254; 253; 252; 251; 250; 249; 248; 247; 0]] tt /\
    spibrg s' = 198000000 /\ is_Some (cs s') /\
    sent (log (regs s')) = [0x01020304; 0x05060708; 0xfefdfcfb].
Proof.
  refine (bitbang_work_refines 0 2
      [Message ex_spi [Transfer (Some (0, 0)%nat) (Some (1, 0)%nat) 5 0 0];
       Message ex_spi [Transfer (Some (1, 0)%nat) None 4 0 0]]
      (ex_espi [[1; 2; 3; 4; 5; 6; 7; 8]; replicate 9 0])
      [[1; 2; 3; 4; 5; 6; 7; 8]; replicate 9 0] tt _ _ _).
  - repeat split.
  - by eexists.
  - apply Forall_cons. split; [|apply Forall_singleton];
      (split; [|split; [done|apply ex_setup]]); apply Forall_singleton, valid_single;
      apply ex_setup || lia || (vm_compute; lia).
Defined.

Lemma espi_message_duplex_witness :
  exists s', bitbang_work 0 2
      [Message ex_spi [Transfer (Some (0, 0)%nat) (Some (1, 0)%nat) 5 0 0]]
      (ex_espi [[1; 2; 3; 4; 5; 6; 7; 8]; replicate 9 0]) = Some (Some [(0, 5)], s') /\
    idle s' [[1; 2; 3; 4; 5; 6; 7; 8]; [254; 253; 252; 251; 250; 249; 248; 247; 0]] tt /\
    spibrg s' = 198000000 /\ is_Some (cs s') /\
    sent (log (regs s')) = [0x01020304; 0x05060708].
Proof.
  refine (espi_message_duplex 0 2 ex_spi 0 1 [0x01020304; 0x05060708] [] (replicate 9 0) 5
      (ex_espi [[1; 2; 3; 4; 5; 6; 7; 8]; replicate 9 0])
      [[1; 2; 3; 4; 5; 6; 7; 8]; replicate 9 0] tt _ _ ex_setup _ _ _ _ _ _ _ _).
  - repeat split.
  - by eexists.
  - done.
  - reflexivity.
  - reflexivity.
  - rewrite !Forall_cons, Forall_nil. unfold is_u32. lia.
  - lia.
  - reflexivity.
  - done.
  - vm_compute. lia.
Defined.

Lemma espi_last_segment_overrun_witness :
  bitbang_work 0 2 [Message ex_spi ([Transfer (Some (0, 0)%nat) (Some (0, 0)%nat) 1 0 0] ++
    [Transfer (Some (0, 1)%nat) (Some (0, 1)%nat) 7 0 0])] (ex_espi [replicate 8 0]) = None.
Proof.
  refine (espi_last_segment_overrun 0 2 ex_spi _ _ 0 1 (replicate 8 0) (ex_espi [replicate 8 0])
            _ tt _ _ _ _ _ _ _).
  - repeat split.
  - by eexists.
  - split; [|split; [done|apply ex_setup]]. apply Forall_cons. split;
      [|apply Forall_singleton]; apply valid_single; apply ex_setup || lia || (vm_compute; lia).
  - reflexivity.
  - reflexivity.
  - reflexivity.
  - done.
Defined.

Lemma espi_adjacent_corrupted_witness :
  exists r s', bitbang_work 0 1
      [Message ex_spi [Transfer (Some (0, 0)%nat) (Some (0, 0)%nat) 1 0 0;
                       Transfer (Some (0, 1)%nat) (Some (0, 1)%nat) 4 0 0]]
      (ex_espi [[1; 2; 3; 4; 5]]) = Some (r, s') /\
    sent (log (regs s')) = [0x01020304; 0xfdfcfb05].
Proof.
  refine (espi_adjacent_corrupted 0 1 ex_spi 0 1 2 3 4 5 [] (ex_espi [[1; 2; 3; 4; 5]]) _ tt
            _ _ ex_setup _ _ _).
  - repeat split.
  - by eexists.
  - done.
  - rewrite !Forall_cons, Forall_nil. unfold is_byte. lia.
  - reflexivity.
Defined.

Lemma espi_setup_rejects_witness :
  exists s' v, fsl_espi_setup true (KSpi 1 SPI_MODE_3 32 6500000) (ex_espi []) =
      Some ((- EINVAL, KSpi 1 SPI_MODE_3 32 6500000), s') /\ cs s' = Some (EspiCs 0 0 0) /\
    log (regs s') = [Rd (CSMODE 1) v].
Proof.
  refine (espi_setup_rejects true (KSpi 1 SPI_MODE_3 32 6500000) (EspiCs 0 0 0) (ex_espi []) _ _ _ _ _).
  - reflexivity.
  - reflexivity.
  - done.
  - done.
  - cbn. lia.
Defined.
