(* ===== verification/SpiStack.v ===== *)
(** * The SPI device on the SPI controller

    The character device (SpiDev) is proved against the interface [SpiMaster];
    here the controller driver (EspiCtl) is that interface, and a read or write
    of the device goes through the message queue and the interrupt handler to
    the slave. The buffers of a message lie in the driver's memory, filled up
    with zeros to whole words: [mix_spi_read] and [mix_spi_write] send from and
    receive into zeroed arrays of 514 bytes, of which a request uses 68 at most,
    so the up to three bytes the driver takes and stores too many are these
    zeros. *)

From S2P Require Import Prelude RegBus SpiCtl EspiCtl SpiMaster W25p16 SpiDev SpiDevProps.

(** ** A message in memory *)

(** Two blocks per transfer: what is sent and what is received, whole words. *)
Definition padding (n : nat) : list Z := replicate (4 * words (Z.of_nat n) - n) 0.
Definition blocks (x : xfer) : memory :=
  [default [] (tx_buf x) ++ padding (len x); replicate (4 * words (Z.of_nat (len x))) 0].
Definition place (i : nat) (x : xfer) : EspiCtl.transfer :=
  Transfer ((fun _ => (2 * i, 0)%nat) <$> tx_buf x) (if rx_buf x then Some (2 * i + 1, 0)%nat else None)
    (Z.of_nat (len x)) 0 0.
(** What is in the receive buffers afterwards: whole words. *)
Definition collect (m : memory) (i : nat) (x : xfer) : list Z :=
  if rx_buf x then take (whole (len x)) (m !!! (2 * i + 1)%nat) else [].

(** The promises of [SpiMaster] for a message, as a test. *)
Definition lawful (xs : list xfer) (o : outcome) : bool :=
  bool_decide (Forall2 (fun x l => (length l <= whole (len x))%nat) xs (SpiMaster.rx o)) &&
  (negb (status o =? 0) ||
   bool_decide (Forall2 (fun x l => rx_buf x = true -> (len x <= length l)%nat) xs (SpiMaster.rx o) /\
                actual_length o = Z.of_nat (sum_list_with len xs))).

Section Stack.
Context {HW St : Type} `{!RegBus spi_reg HW} `{!SpiSlave HW St}.
(** How often the driver looks at the event register, and how many interrupts
    it is given for a transfer. *)
Context (spins n : nat).

Definition run_message (k : kspi) (xs : list xfer) (s : fsl_espi HW) : option (outcome * fsl_espi HW) :=
  match bitbang_work spins n [Message k (imap place xs)] (with_mem (concat (map blocks xs)) s) with
  | Some (Some [(st, actual)], s') => Some (Outcome st actual (imap (collect (mem s')) xs), s')
  | _ => None
  end.

(** The driver as a controller of the SPI core. A run that has no outcome, or
    one that breaks the promises, counts as an error; the theorems show that a
    read or write of the device has neither. *)
Definition failed (xs : list xfer) : outcome := Outcome (- EREMOTEIO) 0 (map (fun _ => []) xs).

Definition espi_transfer (k : kspi) (xs : list xfer) (s : fsl_espi HW) : outcome * fsl_espi HW :=
  match run_message k xs s with
  | Some (o, s') => (if lawful xs o then o else failed xs, s')
  | None => (failed xs, s)
  end.

Definition espi_setup (k : kspi) (s : fsl_espi HW) : Z * fsl_espi HW :=
  match fsl_espi_setup true k s with Some ((r, _), s') => (r, s') | None => (- EINVAL, s) end.

Lemma failed_rx xs : Forall2 (fun x l => (length l <= whole (len x))%nat) xs (SpiMaster.rx (failed xs)).
Proof. unfold failed. cbn. induction xs; constructor; cbn; [lia | done]. Qed.

Lemma espi_transfer_rx k xs s :
  Forall2 (fun x l => (length l <= whole (len x))%nat) xs (SpiMaster.rx (fst (espi_transfer k xs s))).
Proof.
  unfold espi_transfer. destruct (run_message k xs s) as [[o s']|]; [|apply failed_rx].
  cbn [fst]. destruct (lawful xs o) eqn:E; [|apply failed_rx].
  apply andb_true_iff in E as [E _]. exact (bool_decide_eq_true_1 _ E).
Qed.

Lemma espi_transfer_done k xs s : status (fst (espi_transfer k xs s)) = 0 ->
  Forall2 (fun x l => rx_buf x = true -> (len x <= length l)%nat) xs (SpiMaster.rx (fst (espi_transfer k xs s))) /\
  actual_length (fst (espi_transfer k xs s)) = Z.of_nat (sum_list_with len xs).
Proof.
  unfold espi_transfer. destruct (run_message k xs s) as [[o s']|]; [|done].
  cbn [fst]. destruct (lawful xs o) eqn:E; [|done]. intros Hs.
  apply andb_true_iff in E as [_ E]. rewrite Hs in E. exact (bool_decide_eq_true_1 _ E).
Qed.

#[export] Instance espi_master : SpiMaster (fsl_espi HW) := {|
  mode_bits := MODEBITS;
  flags := 0;
  master_setup := espi_setup;
  transfer := espi_transfer;
  transfer_rx := espi_transfer_rx;
  transfer_done := espi_transfer_done
|}.

(** ** One transfer through the driver *)

Lemma words_whole len : (0 < len)%nat -> (4 * words (Z.of_nat len))%nat = whole len.
Proof.
  intros Hl. unfold words, whole. f_equal. replace ((Z.of_nat len + 3) / 4) with (Z.of_nat ((len + 3) / 4)).
  - pose proof (whole_bounds len) as Hw. unfold whole in Hw. lia.
  - rewrite Nat2Z.inj_div. f_equal. lia.
Qed.

Lemma words_cover len : (len <= 4 * words (Z.of_nat len))%nat.
Proof.
  unfold words. pose proof (Z.div_mod (Z.of_nat len + 3) 4 ltac:(lia)).
  pose proof (Z.mod_pos_bound (Z.of_nat len + 3) 4). lia.
Qed.

(** The words a buffer is sent as. *)
Definition frame_words (d : list Z) : list Z := pack (d ++ padding (length d)).

Lemma frame_words_ok d : Forall is_byte d ->
  bytes (frame_words d) = d ++ padding (length d) /\ Forall is_u32 (frame_words d) /\
  length (frame_words d) = words (Z.of_nat (length d)).
Proof.
  intros Hd. pose proof (words_cover (length d)).
  assert (Hl : length (d ++ padding (length d)) = (4 * words (Z.of_nat (length d)))%nat).
  { unfold padding. lens. lia. }
  assert (Hb : Forall is_byte (d ++ padding (length d))).
  { apply Forall_app. split; [done|]. by apply Forall_replicate. }
  split; [by eapply bytes_pack|]. split; [by apply pack_u32|]. by apply pack_length.
Qed.

(** The driver between messages. *)
Definition waiting (k : kspi) (s : fsl_espi HW) (st : St) : Prop :=
  EspiCtl.idle s (mem s) st /\ is_Some (EspiCtl.cs s) /\ can_setup (EspiCtl.spibrg s) k None.

Lemma waiting_mem k s st m : waiting k s st -> waiting k (with_mem m s) st.
Proof. by intros ((H1 & H2 & H3) & H4 & H5). Qed.

Lemma run_message_duplex k d s st :
  waiting k s st -> Forall is_byte d -> 0 < Z.of_nat (length d) < 2 ^ 31 ->
  (words (Z.of_nat (length d)) <= n)%nat ->
  exists s', run_message k [Xfer (Some d) true (length d)] s =
      Some (Outcome 0 (Z.of_nat (length d)) [bytes (answers st (frame_words d))], s') /\
    waiting k s' (after st (frame_words d)) /\
    sent (log (regs s')) = sent (log (regs s)) ++ frame_words d.
Proof.
  intros Hs Hd Hl Hn. destruct (frame_words_ok d Hd) as (Hb & Hu & Hw).
  set (m := concat (map blocks [Xfer (Some d) true (length d)])).
  destruct (waiting_mem k s st m Hs) as (Hi & Hc & Hk).
  destruct (espi_message_duplex spins n k 0 1 (frame_words d) []
    (replicate (4 * words (Z.of_nat (length d))) 0) (Z.of_nat (length d)) (with_mem m s) m st)
    as (s' & E & Hi' & B & C & L); try done.
  { by rewrite app_nil_r, Hb. }
  { rewrite length_replicate. lia. }
  assert (Hm : mem s' !!! 1%nat = bytes (answers st (frame_words d))).
  { destruct Hi' as (_ & -> & _). unfold m. cbn.
    rewrite skipn_all2 by (rewrite length_replicate; lia). apply app_nil_r. }
  exists s'. unfold run_message. fold m.
  change (imap place [Xfer (Some d) true (length d)]) with
    [Transfer (Some (0, 0)%nat) (Some (1, 0)%nat) (Z.of_nat (length d)) 0 0].
  rewrite E. split; [|split; [|done]].
  - change (imap (collect (mem s')) [Xfer (Some d) true (length d)]) with
      [take (whole (length d)) (mem s' !!! 1%nat)].
    rewrite Hm, firstn_all2; [done|]. rewrite bytes_length, answers_length, Hw, words_whole; lia.
  - split; [|split; [done|by rewrite B]]. destruct Hi' as (H1 & _ & H3). by split.
Qed.

Lemma run_message_send k d s st :
  waiting k s st -> Forall is_byte d -> 0 < Z.of_nat (length d) < 2 ^ 31 ->
  (words (Z.of_nat (length d)) <= n)%nat ->
  exists s', run_message k [Xfer (Some d) false (length d)] s =
      Some (Outcome 0 (Z.of_nat (length d)) [[]], s') /\
    waiting k s' (after st (frame_words d)) /\
    sent (log (regs s')) = sent (log (regs s)) ++ frame_words d.
Proof.
  intros Hs Hd Hl Hn. destruct (frame_words_ok d Hd) as (Hb & Hu & Hw).
  set (m := concat (map blocks [Xfer (Some d) false (length d)])).
  destruct (waiting_mem k s st m Hs) as (Hi & Hc & Hk).
  destruct (espi_message_send spins n k 0 (frame_words d) [] (Z.of_nat (length d)) (with_mem m s) m st)
    as (s' & E & Hi' & B & C & L); try done.
  { by rewrite app_nil_r, Hb. }
  exists s'. unfold run_message. fold m.
  change (imap place [Xfer (Some d) false (length d)]) with
    [Transfer (Some (0, 0)%nat) None (Z.of_nat (length d)) 0 0].
  rewrite E. split; [done|split; [|done]].
  split; [|split; [done|by rewrite B]]. destruct Hi' as (H1 & _ & H3). by split.
Qed.

(** What the SPI core is told. *)
Lemma transfer_duplex k d s st :
  waiting k s st -> Forall is_byte d -> 0 < Z.of_nat (length d) < 2 ^ 31 ->
  (words (Z.of_nat (length d)) <= n)%nat ->
  exists s', transfer k [Xfer (Some d) true (length d)] s =
      (Outcome 0 (Z.of_nat (length d)) [bytes (answers st (frame_words d))], s') /\
    waiting k s' (after st (frame_words d)) /\
    sent (log (regs s')) = sent (log (regs s)) ++ frame_words d.
Proof.
  intros Hs Hd Hl Hn. destruct (run_message_duplex k d s st Hs Hd Hl Hn) as (s' & E & Hs' & L).
  exists s'. split; [|done]. change (transfer ?k ?xs ?s) with (espi_transfer k xs s).
  unfold espi_transfer. rewrite E.
  assert (Hlen : length (bytes (answers st (frame_words d))) = whole (length d)).
  { destruct (frame_words_ok d Hd) as (_ & _ & Hw). by rewrite bytes_length, answers_length, Hw, words_whole by lia. }
  pose proof (whole_bounds (length d)).
  replace (lawful _ _) with true; [done|]. symmetry. apply andb_true_iff. split.
  - apply bool_decide_eq_true_2. constructor; [cbn [len]; lia | constructor].
  - cbn [status Z.eqb negb orb]. apply bool_decide_eq_true_2.
    split; [constructor; [intros _; cbn [len]; lia | constructor] | cbn; lia].
Qed.

Lemma transfer_send k d s st :
  waiting k s st -> Forall is_byte d -> 0 < Z.of_nat (length d) < 2 ^ 31 ->
  (words (Z.of_nat (length d)) <= n)%nat ->
  exists o s', transfer k [Xfer (Some d) false (length d)] s = (o, s') /\ status o = 0 /\
    waiting k s' (after st (frame_words d)) /\
    sent (log (regs s')) = sent (log (regs s)) ++ frame_words d.
Proof.
  intros Hs Hd Hl Hn. destruct (run_message_send k d s st Hs Hd Hl Hn) as (s' & E & Hs' & L).
  eexists _, s'. change (transfer ?k ?xs ?s) with (espi_transfer k xs s).
  unfold espi_transfer. rewrite E. split; [reflexivity|]. split; [|done].
  replace (lawful _ _) with true; [done|]. symmetry. apply andb_true_iff. split.
  - apply bool_decide_eq_true_2. constructor; [cbn; lia | constructor].
  - cbn [status Z.eqb negb orb]. apply bool_decide_eq_true_2.
    split; [constructor; [done | constructor] | cbn; lia].
Qed.

(** ** Requests *)

Lemma ds_header_bytes read a count : Forall is_byte (ds31400_header read a count).
Proof.
  unfold ds31400_header. cbv zeta. apply Forall_cons. split; [|apply Forall_singleton].
  - destruct read; [apply (lor_range 8); [lia | apply u8_is_byte | lia]|].
    change (u8 (not32 0x80)) with (2 ^ 7 - 1). rewrite land_low by lia. unfold is_byte.
    match goal with |- context [?x mod 2 ^ 7] => pose proof (Z.mod_pos_bound x (2 ^ 7)) end. lia.
  - destruct (1 <? count)%nat; [apply (lor_range 8); [lia | apply u8_is_byte | lia] | apply u8_is_byte].
Qed.

Lemma fpga_header_is_bytes single burst a count : is_byte single -> is_byte burst ->
  Forall is_byte (fpga_header single burst a count).
Proof.
  intros Hs Hb. unfold fpga_header. apply Forall_cons. split; [by destruct (count =? 1)%nat|].
  apply Forall_cons. split; [|apply Forall_singleton]; apply u8_is_byte.
Qed.

Lemma frame_of_bytes c a d count : Forall is_byte d -> Forall is_byte (frame_of c a d count).
Proof.
  intros Hd. unfold frame_of. apply Forall_app. split; [|by apply Forall_take].
  destruct (c =? DS31400_CHIP); [apply ds_header_bytes|].
  apply Forall_app. split; [by apply fpga_header_is_bytes | by apply Forall_singleton].
Qed.

Lemma write_frame_bytes c a d count : Forall is_byte d -> Forall is_byte (write_frame c a d count).
Proof.
  intros Hd. unfold write_frame. destruct (c =? DS31400_CHIP); rewrite !Forall_app.
  - split; [apply ds_header_bytes | by apply Forall_take].
  - split; [by apply fpga_header_is_bytes|]. split; [by apply Forall_take | by apply Forall_singleton].
Qed.

Lemma frame_of_length c a d count : (count <= length d)%nat ->
  length (frame_of c a d count) = (count + skip_of c)%nat.
Proof.
  intros Hd. unfold frame_of, skip_of. destruct (c =? DS31400_CHIP); rewrite !length_app, length_take;
    simpl; lia.
Qed.

Lemma few_words l : (l <= 68)%nat -> (words (Z.of_nat l) <= 17)%nat.
Proof.
  intros Hl. unfold words. assert ((Z.of_nat l + 3) / 4 < 18); [|lia].
  apply Z.div_lt_upper_bound; lia.
Qed.

Lemma window (k c : nat) (l r : list Z) : (k + c <= length l)%nat ->
  take c (drop k (l ++ r)) = take c (drop k l).
Proof. intros Hl. rewrite drop_app_le by lia. by rewrite take_app_le by (rewrite length_drop; lia). Qed.

Section Requests.
Context (u : spi_rdwr) (stack : spi_rdwr) (s : sdev (H := fsl_espi HW)) (st : St).
Context (device_idle : idle s) (unlocked : buf_lock s = false) (chip : cs u = 0 \/ cs u = 1).
Context (short : (rw_len u <= 64)%nat) (whole : length (buff u) = 64%nat) (byte_data : Forall is_byte (buff u)).
Context (four_wire : truth (Z.land (mode (kdev s)) SPI_3WIRE) = false).
Context (driver_idle : waiting (target u s) (hw (sbus s)) st) (interrupts : (17 <= n)%nat).

Lemma full_duplex : truth (Z.land flags SPI_MASTER_HALF_DUPLEX) = false.
Proof. reflexivity. Qed.

Lemma skip_range : (2 <= skip_of (cs u) <= 4)%nat.
Proof. unfold skip_of. destruct (cs u =? DS31400_CHIP); lia. Qed.

(** A read of the device is one exchange with the slave. *)
Lemma read_exchange :
  let ws := frame_words (frame_of (cs u) (addr u) (buff u) (rw_len u)) in
  exists s', spidev_read (Some u) stack s =
      Some ((Z.of_nat (rw_len u),
             Some (SpiRdwr (cs u) (addr u) (rw_len u)
               (take (rw_len u) (drop (skip_of (cs u)) (bytes (answers st ws))) ++
                drop (rw_len u) (buff u)))), s') /\
    idle s' /\ buf_lock s' = false /\ kdev s' = target u s /\
    waiting (target u s) (hw (sbus s')) (after st ws) /\
    sent (log (regs (hw (sbus s')))) = sent (log (regs (hw (sbus s)))) ++ ws.
Proof.
  intros ws. pose proof skip_range. set (d := frame_of (cs u) (addr u) (buff u) (rw_len u)) in *.
  assert (Hl : length d = (rw_len u + skip_of (cs u))%nat) by (apply frame_of_length; lia).
  pose proof (frame_of_bytes (cs u) (addr u) (buff u) (rw_len u) byte_data) as Hd. fold d in Hd.
  destruct (transfer_duplex (target u s) d (hw (sbus s)) st driver_idle Hd) as (h' & E & Hw & L);
    [lia | pose proof (few_words (length d)); lia|].
  destruct (spidev_read_run u stack s device_idle unlocked chip short whole full_duplex four_wire)
    as (s' & ER & _ & Hk & Hi & Hb & Hs).
  unfold read_xfer in ER, Hs. fold d in ER, Hs. rewrite <- Hl, E in ER, Hs. cbn [fst snd] in ER, Hs.
  exists s'. rewrite ER, Hs. cbn [hw]. refine (conj _ (conj Hi (conj Hb (conj Hk (conj Hw L))))).
  do 5 f_equal. unfold received. cbn [SpiMaster.rx concat]. rewrite app_nil_r.
  f_equal. fold ws. apply window.
  unfold ws. destruct (frame_words_ok d Hd) as (_ & _ & Hww). pose proof (words_cover (length d)).
  rewrite bytes_length, answers_length, Hww. lia.
Qed.

(** And so is a write. *)
Lemma write_exchange :
  let ws := frame_words (write_frame (cs u) (addr u) (buff u) (rw_len u)) in
  exists s', spidev_write (Some u) stack s = Some (Z.of_nat (rw_len u), s') /\
    idle s' /\ buf_lock s' = false /\ kdev s' = target u s /\
    waiting (target u s) (hw (sbus s')) (after st ws) /\
    sent (log (regs (hw (sbus s')))) = sent (log (regs (hw (sbus s)))) ++ ws.
Proof.
  intros ws. pose proof skip_range. set (d := write_frame (cs u) (addr u) (buff u) (rw_len u)) in *.
  assert (Hl : length d = (rw_len u + skip_of (cs u))%nat) by (apply write_frame_length; lia).
  pose proof (write_frame_bytes (cs u) (addr u) (buff u) (rw_len u) byte_data) as Hd. fold d in Hd.
  destruct (transfer_send (target u s) d (hw (sbus s)) st driver_idle Hd) as (o & h' & E & _ & Hw & L);
    [lia | pose proof (few_words (length d)); lia|].
  destruct (spidev_write_run u stack s device_idle unlocked chip short whole full_duplex four_wire)
    as (s' & ER & _ & Hk & Hi & Hb & Hs).
  unfold write_xfer in Hs. fold d in Hs. rewrite <- Hl, E in Hs. cbn [fst snd] in Hs.
  exists s'. rewrite ER, Hs. cbn [hw]. exact (conj eq_refl (conj Hi (conj Hb (conj Hk (conj Hw L))))).
Qed.
End Requests.

(** ** What the theorem shows *)

(** C29: Reading and writing through the device is an exchange with the slave on the
    board: the request's frame goes out through the SPI core, the message queue and
    the interrupt handler as words, a read returns exactly the slave's answers to the
    words behind the header, and device and driver are ready for the next request. *)
Theorem spidev_reaches_slave (u stack : spi_rdwr) (s : sdev (H := fsl_espi HW)) (st : St) :
  idle s -> buf_lock s = false -> cs u = 0 \/ cs u = 1 ->
  (rw_len u <= 64)%nat -> length (buff u) = 64%nat -> Forall is_byte (buff u) ->
  truth (Z.land (mode (kdev s)) SPI_3WIRE) = false ->
  waiting (target u s) (hw (sbus s)) st -> (17 <= n)%nat ->
  (let ws := frame_words (frame_of (cs u) (addr u) (buff u) (rw_len u)) in
   exists s', spidev_read (Some u) stack s =
       Some ((Z.of_nat (rw_len u),
              Some (SpiRdwr (cs u) (addr u) (rw_len u)
                (take (rw_len u) (drop (skip_of (cs u)) (bytes (answers st ws))) ++
                 drop (rw_len u) (buff u)))), s') /\
     idle s' /\ buf_lock s' = false /\ kdev s' = target u s /\
     waiting (target u s) (hw (sbus s')) (after st ws) /\
     sent (log (regs (hw (sbus s')))) = sent (log (regs (hw (sbus s)))) ++ ws) /\
  (let ws := frame_words (write_frame (cs u) (addr u) (buff u) (rw_len u)) in
   exists s', spidev_write (Some u) stack s = Some (Z.of_nat (rw_len u), s') /\
     idle s' /\ buf_lock s' = false /\ kdev s' = target u s /\
     waiting (target u s) (hw (sbus s')) (after st ws) /\
     sent (log (regs (hw (sbus s')))) = sent (log (regs (hw (sbus s)))) ++ ws).
Proof. intros. split; [by apply read_exchange | by apply write_exchange]. Qed.
End Stack.

(** ** Witness *)

Import EspiCtl.Inverter.

Definition ex_stack : sdev (H := fsl_espi inverter) :=
  SDev (KSpi 0 3 8 6500000) 0 true DS31400_CHIP false false 1 1 (Some (replicate 4096 0)) true false
    false [0; 0; 0; 0] (Bus (ex_espi []) []).

(** Reading two bytes of an FPGA whose answer is the complement of what it gets. *)
Lemma spidev_reaches_slave_witness :
  exists s', spidev_read (SpiMaster0 := espi_master 0 17) (Some ex_request) ex_request ex_stack =
      Some ((2, Some (SpiRdwr 0 0x1234 2 ([0xf8; 0xf8] ++ replicate 62 7))), s') /\
    sent (log (regs (hw (sbus s')))) = [0x03123400; 0x07070000].
Proof.
  destruct (spidev_reaches_slave 0 17 ex_request ex_request ex_stack tt) as [(s' & E & _ & _ & _ & _ & L) _].
  - done.
  - done.
  - by left.
  - cbn. lia.
  - done.
  - by apply Forall_replicate.
  - done.
  - split; [by repeat split|]. split; [by eexists | apply ex_setup].
  - done.
  - exists s'. split; [exact E | exact L].
Defined.
