(* ===== verification/Mdio.v ===== *)
(** * The MDIO controller (linux drivers/net/fsl_pq_mdio.c)

    The management bus of the network PHYs, through the registers of one of the
    processor's Ethernet controllers. A transaction is started by a register
    write and followed by a wait without a limit; [n] bounds the reads of the
    status register a wait makes, and the result [None] says that it is still
    waiting then. The class [MdioCtl] says what the controller does; for every
    such controller the functions are reads and writes of the registers of the
    PHYs, which is what the drivers above use. *)

From S2P Require Import Prelude RegBus.

Definition MIIMIND_BUSY : Z := 0x1.
Definition MIIMIND_NOTVALID : Z := 0x4.
Definition MIIMCFG_INIT_VALUE : Z := 0x7.
Definition MIIMCFG_RESET : Z := 0x80000000.
Definition MII_READ_COMMAND : Z := 0x1.
Definition PHY_INIT_TIMEOUT : nat := Z.to_nat 100000.

Inductive mdio_reg := MIIMCFG | MIIMCOM | MIIMADD | MIIMCON | MIIMSTAT | MIIMIND.

(** A register of a PHY: the PHY's address and the register's number. *)
Abbreviation phy_reg := (Z * Z)%type.

Section Driver.
Context {HW : Type} `{!RegBus mdio_reg HW}.
Abbreviation W := (world mdio_reg HW).

Definition miimadd (mii_id regnum : Z) : Z := u32 (Z.lor (Z.shiftl mii_id 8) regnum).

(** [while (in_be32(&regs->miimind) & mask)], at most [n] reads. *)
Definition wait_clear (n : nat) (mask : Z) : M W bool :=
  p ← poll n MIIMIND (fun v => negb (truth (Z.land v mask))) 0;
  mret (fst p).

Definition fsl_pq_local_mdio_write (n : nat) (mii_id regnum value : Z) : M W (option Z) :=
  wr MIIMADD (miimadd mii_id regnum);;
  wr MIIMCON (u16 value);;
  d ← wait_clear n MIIMIND_BUSY;
  mret (if d : bool then Some 0 else None).

Definition fsl_pq_local_mdio_read (n : nat) (mii_id regnum : Z) : M W (option Z) :=
  wr MIIMADD (miimadd mii_id regnum);;
  wr MIIMCOM 0;;
  wr MIIMCOM MII_READ_COMMAND;;
  d ← wait_clear n (Z.lor MIIMIND_NOTVALID MIIMIND_BUSY);
  if d : bool then
    value ← rd MIIMSTAT;
    mret (Some (u16 value))
  else mret None.

(** The loop reads the register until the bus is free or the counter, tested
    before it is decremented, was zero. *)
Fixpoint reset_loop (timeout : nat) : M W bool :=
  v ← rd MIIMIND;
  if negb (truth (Z.land v MIIMIND_BUSY)) then mret true
  else match timeout with
       | O => mret false
       | S timeout => reset_loop timeout
       end.

Definition fsl_pq_mdio_reset : M W Z :=
  wr MIIMCFG MIIMCFG_RESET;;
  wr MIIMCFG MIIMCFG_INIT_VALUE;;
  r ← reset_loop PHY_INIT_TIMEOUT;
  mret (if r : bool then 0 else - EBUSY).
End Driver.

(** ** What the controller does *)

(** The address register holds the PHY in bits 8 to 12 and its register in bits
    0 to 4. *)
Definition phy_of (a : Z) : phy_reg := (Z.land (Z.shiftr a 8) 0x1f, Z.land a 0x1f).

(** [rests h p]: no transaction; [addressed h p a]: the address register holds
    [a]; [armed h p a]: also, and the command register was cleared, for a read
    starts when the command changes from 0 to 1; [writing h p k]: busy for [k] reads of the indicator, the PHYs are
    [p]; [reading h p v k]: also, with [v] read. *)
Class MdioCtl (HW P : Type) `{!RegBus mdio_reg HW} `{!RegBus phy_reg P} := {
  rests : HW -> P -> Prop;
  addressed : HW -> P -> Z -> Prop;
  armed : HW -> P -> Z -> Prop;
  writing : HW -> P -> nat -> Prop;
  reading : HW -> P -> Z -> nat -> Prop;
  latency : nat;
  rests_add h p a : rests h p -> addressed (rb_write MIIMADD a h) p a;
  addressed_com h p a : addressed h p a -> armed (rb_write MIIMCOM 0 h) p a;
  start_write h p a v : addressed h p a ->
    exists k, (k <= latency)%nat /\ writing (rb_write MIIMCON v h) (rb_write (phy_of a) v p) k;
  start_read h p a : armed h p a ->
    exists k, (k <= latency)%nat /\
      reading (rb_write MIIMCOM MII_READ_COMMAND h) (snd (rb_read (phy_of a) p))
        (fst (rb_read (phy_of a) p)) k;
  writing_wait h p k : writing h p (S k) -> writing (snd (rb_read MIIMIND h)) p k /\
    Z.land (fst (rb_read MIIMIND h)) MIIMIND_BUSY <> 0;
  writing_done h p : writing h p 0 -> rests (snd (rb_read MIIMIND h)) p /\
    Z.land (fst (rb_read MIIMIND h)) MIIMIND_BUSY = 0;
  reading_wait h p v k : reading h p v (S k) -> reading (snd (rb_read MIIMIND h)) p v k /\
    Z.land (fst (rb_read MIIMIND h)) (Z.lor MIIMIND_NOTVALID MIIMIND_BUSY) <> 0;
  reading_done h p v : reading h p v 0 ->
    Z.land (fst (rb_read MIIMIND h)) (Z.lor MIIMIND_NOTVALID MIIMIND_BUSY) = 0 /\
    fst (rb_read MIIMSTAT (snd (rb_read MIIMIND h))) = v /\
    rests (snd (rb_read MIIMSTAT (snd (rb_read MIIMIND h)))) p
}.

Section Refinement.
Context {HW P : Type} `{!RegBus mdio_reg HW} `{!RegBus phy_reg P} `{!MdioCtl HW P}.
Implicit Types (w : world mdio_reg HW) (p : P).

Lemma truth_neq z : z <> 0 -> truth z = true.
Proof. intros H. unfold truth. by rewrite (proj2 (Z.eqb_neq z 0)). Qed.

Lemma miimadd_phy mii_id regnum :
  0 <= mii_id < 32 -> 0 <= regnum < 32 -> phy_of (miimadd mii_id regnum) = (mii_id, regnum).
Proof.
  intros Hm Hr. unfold phy_of, miimadd. rewrite Z.shiftl_mul_pow2, lor_mul_add by lia.
  rewrite u32_small by lia. change 0x1f with (2 ^ 5 - 1). rewrite !land_low by lia.
  rewrite Z.shiftr_div_pow2 by lia.
  replace (mii_id * 2 ^ 8 + regnum) with (regnum + mii_id * 2 ^ 8) by lia.
  rewrite Z.div_add, Z.div_small, Z.add_0_l by lia.
  replace (regnum + mii_id * 2 ^ 8) with (regnum + (mii_id * 8) * 2 ^ 5) by lia.
  rewrite Z.mod_add, !Z.mod_small by lia. done.
Qed.

Lemma wait_writing k : forall n w p,
  writing (dev w) p k -> (k < n)%nat ->
  exists w', wait_clear n MIIMIND_BUSY w = Some (true, w') /\ rests (dev w') p.
Proof.
  unfold wait_clear. induction k as [|k IH]; intros [|n] w p Hw Hn; try lia; cbn [poll].
  - apply writing_done in Hw as [Hr Hb]. rewrite bind_unfold, bind_unfold, rd_run, Hb.
    eexists. split; [reflexivity|done].
  - apply writing_wait in Hw as [Hw Hb]. rewrite bind_unfold, bind_unfold, rd_run.
    rewrite (truth_neq _ Hb). cbn [negb].
    match goal with |- context [poll n MIIMIND _ ?x ?w1] =>
      destruct (IH n w1 p Hw ltac:(lia)) as (w' & E & Hr) end.
    exists w'. split; [|done]. rewrite <- E, bind_unfold. f_equal. by destruct n.
Qed.

Lemma wait_reading k : forall n w p v,
  reading (dev w) p v k -> (k < n)%nat ->
  exists w', wait_clear n (Z.lor MIIMIND_NOTVALID MIIMIND_BUSY) w = Some (true, w') /\
    fst (rb_read MIIMSTAT (dev w')) = v /\ rests (snd (rb_read MIIMSTAT (dev w'))) p.
Proof.
  unfold wait_clear. induction k as [|k IH]; intros [|n] w p v Hw Hn; try lia; cbn [poll].
  - apply reading_done in Hw as (Hb & Hv & Hr). rewrite bind_unfold, bind_unfold, rd_run, Hb.
    eexists. split; [reflexivity|done].
  - apply reading_wait in Hw as [Hw Hb]. rewrite bind_unfold, bind_unfold, rd_run.
    rewrite (truth_neq _ Hb). cbn [negb].
    match goal with |- context [poll n MIIMIND _ ?x ?w1] =>
      destruct (IH n w1 p v Hw ltac:(lia)) as (w' & E & Hr) end.
    exists w'. split; [|done]. rewrite <- E, bind_unfold. f_equal. by destruct n.
Qed.

Lemma accesses_reset_loop n : accesses (S n) (reset_loop (HW := HW) n).
Proof.
  induction n as [|n IH]; cbn [reset_loop].
  - apply (accesses_bind 1 0); [auto with board|]. intros v. apply accesses_if; auto with board.
  - apply (accesses_bind 1 (S n)); [auto with board|]. intros v.
    apply accesses_if; [|done]. eapply accesses_weaken; [auto with board|lia].
Qed.

Lemma reset_loop_total n : forall w, is_Some (reset_loop n w).
Proof.
  induction n as [|n IH]; intros w; cbn [reset_loop]; rewrite bind_unfold, rd_run;
    case_match; first [by eexists | apply IH].
Qed.

(** C37: The MDIO functions are reads and writes of the PHYs' registers: with
    more status reads than the controller's latency, a write has put the value
    into the register it names and a read returns the register's value, and the
    controller is ready for the next one. *)
Theorem mdio_refines n mii_id regnum value w p :
  rests (dev w) p -> 0 <= mii_id < 32 -> 0 <= regnum < 32 -> (latency < n)%nat ->
  (exists w', fsl_pq_local_mdio_write n mii_id regnum value w = Some (Some 0, w') /\
     rests (dev w') (rb_write (mii_id, regnum) (u16 value) p)) /\
  (exists w', fsl_pq_local_mdio_read n mii_id regnum w =
       Some (Some (u16 (fst (rb_read (mii_id, regnum) p))), w') /\
     rests (dev w') (snd (rb_read (mii_id, regnum) p))).
Proof.
  intros Hr Hm Hg Hn. split.
  - unfold fsl_pq_local_mdio_write. rewrite bind_unfold, wr_run, bind_unfold, wr_run. cbn [dev log].
    destruct (start_write _ _ _ (u16 value) (rests_add _ _ (miimadd mii_id regnum) Hr)) as (k & Hk & Hw).
    rewrite miimadd_phy in Hw by done. rewrite bind_unfold.
    match goal with |- context [wait_clear n MIIMIND_BUSY ?w1] =>
      destruct (wait_writing k n w1 _ Hw ltac:(lia)) as (w' & -> & Hr') end.
    by eexists.
  - unfold fsl_pq_local_mdio_read.
    rewrite bind_unfold, wr_run, bind_unfold, wr_run, bind_unfold, wr_run. cbn [dev log].
    destruct (start_read _ _ _ (addressed_com _ _ _ (rests_add _ _ (miimadd mii_id regnum) Hr)))
      as (k & Hk & Hw).
    rewrite miimadd_phy in Hw by done. rewrite bind_unfold.
    match goal with |- context [wait_clear n _ ?w1] =>
      destruct (wait_reading k n w1 _ _ Hw ltac:(lia)) as (w' & -> & Hv & Hr') end.
    rewrite bind_unfold, rd_run, Hv. by eexists.
Qed.
End Refinement.

(** The reset of the bus ends, whatever the controller does: after at most
    100003 register accesses it reports success, or [-EBUSY]. *)
Theorem mdio_reset_ends {HW} `{!RegBus mdio_reg HW} (w : world mdio_reg HW) :
  exists r w' l, fsl_pq_mdio_reset w = Some (r, w') /\ (r = 0 \/ r = - EBUSY) /\
    log w' = log w ++ l /\ (Z.of_nat (length l) <= 100003).
Proof.
  unfold fsl_pq_mdio_reset. rewrite bind_unfold, wr_run, bind_unfold, wr_run, bind_unfold.
  match goal with |- context [reset_loop PHY_INIT_TIMEOUT ?w1] =>
    destruct (reset_loop_total PHY_INIT_TIMEOUT w1) as [[b w'] E];
    destruct (accesses_reset_loop PHY_INIT_TIMEOUT _ _ _ E) as (l & El & Hl) end.
  rewrite E, ret_unfold. eexists _, _, _. split; [reflexivity|].
  split; [destruct b; auto|]. cbn [log] in El. rewrite El, <- !app_assoc. split; [reflexivity|].
  rewrite !length_app. cbn [length]. unfold PHY_INIT_TIMEOUT in Hl. lia.
Qed.

(** *** A controller that is never busy, over PHYs that are a map *)

Module MapPhys.
#[export] Instance phys_bus : RegBus phy_reg (gmap phy_reg Z) := {|
  rb_read r p := (default 0 (p !! r), p);
  rb_write r v p := <[r := v]> p
|}.

Record ctl := Ctl { add : Z; com : Z; stat : Z; phys : gmap phy_reg Z }.

#[export] Instance ctl_bus : RegBus mdio_reg ctl := {|
  rb_read r h :=
    match r with MIIMSTAT => (stat h, h) | MIIMADD => (add h, h) | _ => (0, h) end;
  rb_write r v h :=
    match r with
    | MIIMADD => Ctl v (com h) (stat h) (phys h)
    | MIIMCON => Ctl (add h) (com h) (stat h) (<[phy_of (add h) := v]> (phys h))
    | MIIMCOM => Ctl (add h) v (if (com h =? 0) && (v =? MII_READ_COMMAND)
                                then default 0 (phys h !! phy_of (add h)) else stat h) (phys h)
    | _ => h
    end
|}.

#[export] Program Instance ctl_mdio : MdioCtl ctl (gmap phy_reg Z) := {|
  rests h p := phys h = p;
  addressed h p a := phys h = p /\ add h = a;
  armed h p a := phys h = p /\ add h = a /\ com h = 0;
  writing h p k := phys h = p /\ k = 0%nat;
  reading h p v k := phys h = p /\ stat h = v /\ k = 0%nat;
  latency := 0
|}.
Solve Obligations with (try solve [intros; simpl in *; naive_solver]).
Next Obligation. intros h p a (<- & <- & Hc). simpl in *. rewrite Hc. exists 0%nat. by repeat split. Qed.
End MapPhys.
Import MapPhys.

Lemma mdio_refines_witness :
  (exists w', fsl_pq_local_mdio_write 1 30 16 0x201 (World (Ctl 0 0 0 ∅) []) = Some (Some 0, w') /\
     rests (dev w') (<[(30, 16) := 0x201]> (∅ : gmap phy_reg Z))) /\
  (exists w', fsl_pq_local_mdio_read 1 30 16 (World (Ctl 0 0 0 ∅) []) = Some (Some 0, w') /\
     rests (dev w') (∅ : gmap phy_reg Z)).
Proof.
  refine (mdio_refines 1 30 16 0x201 (World (Ctl 0 0 0 ∅) []) ∅ _ _ _ _);
    [reflexivity|lia|lia|simpl; lia].
Defined.
