(* ===== verification/Bcm53101.v ===== *)
(** * The BCM53101 switch driver (drivers/drv_bcm53101/newdrv/drv_bcm53101.c and the
    third switch's set-up in linux drivers/net/fsl_pq_mdio.c)

    The switch is reached over MDIO: the pages of its ports are the registers of
    real PHYs, every other page goes through a pseudo PHY with a page register,
    four data registers and a command register that reads as busy until the
    access is done. The driver is modelled over the registers of the PHYs, the
    interface the MDIO functions are proved to provide. [mapped] says whether the
    pointer [preg] is set. GPIO pins are recorded as pairs of pin and level. *)

From S2P Require Import Prelude RegBus Mdio.

Definition PSEPHY_ACCESS_CTRL : Z := 16.
Definition PSEPHY_RDWR_CTRL : Z := 17.
Definition PSEPHY_ACCESS_REG1 : Z := 24.
Definition PSEPHY_ACCESS_REG2 : Z := 25.
Definition PSEPHY_ACCESS_REG3 : Z := 26.
Definition PSEPHY_ACCESS_REG4 : Z := 27.
Definition PSEDOPHY : Z := 30.
Definition ACCESS_EN : Z := 1.
Definition OPER_RD : Z := 0x2.
Definition OPER_WR : Z := 0x1.
Definition BCM53101_A : Z := 0.
Definition BCM53101_B : Z := 1.
Definition BCM53101_C : Z := 2.
Definition BCM53101_GPIO_SEL : Z := 8.
Definition BCM53101_GPIO_SEL1 : Z := 13.

Definition is_port (page : Z) : bool := ((0x10 <=? page) && (page <=? 0x14)) || (page =? 0x17).

Section Driver.
Context {P : Type} `{!RegBus phy_reg P}.
Abbreviation W := (world phy_reg P).

Definition fsl_mdio_write (mapped : bool) (mii_id addr val : Z) : M W Z :=
  if negb mapped then mret (-1)
  else wr (mii_id, u16 addr) (u16 val);; mret 0.

(** Result and [*val], which keeps its old value when nothing is read. *)
Definition fsl_mdio_read (mapped : bool) (mii_id addr val : Z) : M W (Z * Z) :=
  if negb mapped then mret (-1, val)
  else v ← rd (mii_id, u16 addr); mret (0, Z.land v 0xffff).

(** The wait for the pseudo PHY; [n] is [s_count]. Only the read gives up when
    the MDIO access itself fails. *)
Fixpoint busy_loop (n : nat) (mapped on_error : bool) (val : Z) : M W Z :=
  match n with
  | O => mret val
  | S n =>
      r ← fsl_mdio_read mapped PSEDOPHY PSEPHY_RDWR_CTRL val;
      if (Z.land (snd r) 0x11 =? 0) || (on_error && truth (fst r)) then mret (snd r)
      else busy_loop n mapped on_error (snd r)
  end.

Definition s_count : nat := Z.to_nat 0xffff.

Definition bcm53101_write (mapped : bool) (page addr : Z) (value : list Z) : M W Z :=
  v0 ← lift_opt (value !! 0%nat);
  if is_port page then
    fsl_mdio_write mapped (page - 0x10) (addr / 2) v0;;
    mret 0
  else
    v1 ← lift_opt (value !! 1%nat);
    v2 ← lift_opt (value !! 2%nat);
    v3 ← lift_opt (value !! 3%nat);
    let page := Z.land page 0xff in
    let mdio_val := u16 (Z.lor (Z.shiftl page 8) ACCESS_EN) in
    fsl_mdio_write mapped PSEDOPHY PSEPHY_ACCESS_CTRL mdio_val;;
    fsl_mdio_write mapped PSEDOPHY PSEPHY_ACCESS_REG1 v0;;
    fsl_mdio_write mapped PSEDOPHY PSEPHY_ACCESS_REG2 v1;;
    fsl_mdio_write mapped PSEDOPHY PSEPHY_ACCESS_REG3 v2;;
    fsl_mdio_write mapped PSEDOPHY PSEPHY_ACCESS_REG4 v3;;
    let mdio_val := u16 (Z.lor (Z.shiftl addr 8) OPER_WR) in
    fsl_mdio_write mapped PSEDOPHY PSEPHY_RDWR_CTRL mdio_val;;
    busy_loop s_count mapped false mdio_val;;
    mret 0.

(** Result and the four halfwords of [value]. *)
Definition bcm53101_read (mapped : bool) (page addr : Z) : M W (Z * list Z) :=
  if is_port page then
    r ← fsl_mdio_read mapped (page - 0x10) (addr / 2) 0;
    mret (0, [snd r; 0; 0; 0])
  else
    let page := Z.land page 0xff in
    fsl_mdio_write mapped PSEDOPHY PSEPHY_ACCESS_CTRL (u16 (Z.lor (Z.shiftl page 8) ACCESS_EN));;
    let setval := u16 (Z.lor (Z.shiftl addr 8) OPER_RD) in
    fsl_mdio_write mapped PSEDOPHY PSEPHY_RDWR_CTRL setval;;
    setval ← busy_loop s_count mapped true setval;
    r0 ← fsl_mdio_read mapped PSEDOPHY PSEPHY_ACCESS_REG1 setval;
    r1 ← fsl_mdio_read mapped PSEDOPHY PSEPHY_ACCESS_REG2 (snd r0);
    r2 ← fsl_mdio_read mapped PSEDOPHY PSEPHY_ACCESS_REG3 (snd r1);
    r3 ← fsl_mdio_read mapped PSEDOPHY PSEPHY_ACCESS_REG4 (snd r2);
    mret (if truth (u16 (fst r3)) then -1 else 0, [snd r0; snd r1; snd r2; snd r3]).

(** *** File operations

    [struct bcm53101_t] is ten bytes on the stack; [stack] is what they held
    before. [user] is the memory at the caller's buffer. *)

Definition half (hi lo : Z) : Z := Z.lor (Z.shiftl hi 8) lo.

Definition bcmstru (b : list Z) : option (Z * Z * list Z) :=
  match b with
  | [page; addr; a0; a1; b0; b1; c0; c1; d0; d1] =>
      Some (page, addr, [half a0 a1; half b0 b1; half c0 c1; half d0 d1])
  | _ => None
  end.

Definition half_bytes (x : Z) : list Z := [u8 (Z.shiftr x 8); u8 x].

Definition bcm53101_fs_write (mapped : bool) (stack user : list Z) (count : nat) : M W Z :=
  src ← lift_opt (buf_read user 0 count);
  b ← lift_opt (buf_write stack 0 src);
  s ← lift_opt (bcmstru b);
  bcm53101_write mapped (fst (fst s)) (snd (fst s)) (snd s);;
  mret 0.

(** Result and the caller's buffer. *)
Definition bcm53101_fs_read (mapped : bool) (stack user : list Z) (count : nat)
  : M W (Z * list Z) :=
  src ← lift_opt (buf_read user 0 count);
  b ← lift_opt (buf_write stack 0 src);
  s ← lift_opt (bcmstru b);
  r ← bcm53101_read mapped (fst (fst s)) (snd (fst s));
  user ← lift_opt (buf_write user 0
    ([fst (fst s); snd (fst s)] ++ concat (map half_bytes (snd r))));
  mret (0, user).

(** Result and the outputs it drives. *)
Definition bcm53101_fs_ioctl (cmd : Z) : Z * list (Z * Z) :=
  if cmd =? BCM53101_A then
    (0, [(BCM53101_GPIO_SEL, BCM53101_A); (BCM53101_GPIO_SEL1, 0)])
  else if cmd =? BCM53101_B then
    (0, [(BCM53101_GPIO_SEL, 1); (BCM53101_GPIO_SEL1, 0)])
  else if cmd =? BCM53101_C then
    (0, [(BCM53101_GPIO_SEL, 1); (BCM53101_GPIO_SEL1, 1)])
  else (- EINVAL, []).

(** *** Configuration: results and outputs *)

Definition bcm53101_cfg_init (mapped : bool) : M W (Z * list (Z * Z)) :=
  if negb mapped then mret (0, [])
  else
    bcm53101_write mapped 2 0x0 [0x80; 0; 0; 0];;
    bcm53101_write mapped 0 0x08 [0x1c; 0; 0; 0];;
    bcm53101_write mapped 2 0x03 [0x0; 0; 0; 0];;
    bcm53101_write mapped 0 0x0e [0x8b; 0; 0; 0];;
    bcm53101_write mapped 0 0x60 [0x3; 0; 0; 0];;
    bcm53101_read mapped 0 0x0b;;
    bcm53101_write mapped 0 0x0b [0x3; 0; 0; 0];;
    mret (0, [(BCM53101_GPIO_SEL, BCM53101_A)]).

(** [bcm53101_c_write] has the body of [bcm53101_write]. *)
Definition bcm53101_c_write (mapped : bool) (page addr : Z) (value : list Z) : M W Z :=
  bcm53101_write mapped page addr value.

Definition BCM53101_C_init (mapped : bool) : M W (Z * list (Z * Z)) :=
  bcm53101_c_write mapped 0 0x12 [0x2012; 0; 0; 0];;
  bcm53101_c_write mapped 2 0x0 [0x80; 0; 0; 0];;
  bcm53101_c_write mapped 0 0x08 [0x1c; 0; 0; 0];;
  bcm53101_c_write mapped 2 0x03 [0x0; 0; 0; 0];;
  bcm53101_c_write mapped 0 0x0b [0x3; 0; 0; 0];;
  bcm53101_c_write mapped 0 0x0e [0x8b; 0; 0; 0];;
  bcm53101_c_write mapped 0 0x60 [0x3; 0; 0; 0];;
  mret (0, [(5, 0); (5, 1); (8, 1); (13, 1)]).
End Driver.

(** ** What the switch does

    [get_reg] and [set_reg] are the switch's registers, four halfwords at a page
    and an address. [quiet p st pg vs]: the pseudo PHY has no access pending,
    page [pg] is selected and the data registers hold [vs]; [working p st pg vs
    k]: it reads as busy [k] more times and is quiet afterwards. *)
Class BcmSwitch (P St : Type) `{!RegBus phy_reg P} := {
  get_reg : Z -> Z -> St -> list Z;
  set_reg : Z -> Z -> list Z -> St -> St;
  quiet : P -> St -> Z -> list Z -> Prop;
  working : P -> St -> Z -> list Z -> nat -> Prop;
  sw_latency : nat;
  get_reg_halves pg a st : exists v0 v1 v2 v3, get_reg pg a st = [v0; v1; v2; v3] /\
    Forall is_u16 [v0; v1; v2; v3];
  quiet_page p st pg vs pg' : quiet p st pg vs -> 0 <= pg' < 256 ->
    quiet (rb_write (PSEDOPHY, PSEPHY_ACCESS_CTRL) (pg' * 2 ^ 8 + ACCESS_EN) p) st pg' vs;
  quiet_data p st pg vs (i : nat) v : quiet p st pg vs -> (i < 4)%nat ->
    quiet (rb_write (PSEDOPHY, PSEPHY_ACCESS_REG1 + Z.of_nat i) v p) st pg (<[i := v]> vs);
  quiet_length p st pg vs : quiet p st pg vs -> length vs = 4%nat;
  quiet_read p st pg vs (i : nat) v : quiet p st pg vs -> vs !! i = Some v ->
    fst (rb_read (PSEDOPHY, PSEPHY_ACCESS_REG1 + Z.of_nat i) p) = v /\
    quiet (snd (rb_read (PSEDOPHY, PSEPHY_ACCESS_REG1 + Z.of_nat i) p)) st pg vs;
  start_wr p st pg vs a : quiet p st pg vs -> 0 <= a < 256 ->
    exists k, (k <= sw_latency)%nat /\
      working (rb_write (PSEDOPHY, PSEPHY_RDWR_CTRL) (a * 2 ^ 8 + OPER_WR) p)
        (set_reg pg a vs st) pg vs k;
  start_rd p st pg vs a : quiet p st pg vs -> 0 <= a < 256 ->
    exists k, (k <= sw_latency)%nat /\
      working (rb_write (PSEDOPHY, PSEPHY_RDWR_CTRL) (a * 2 ^ 8 + OPER_RD) p)
        st pg (get_reg pg a st) k;
  working_wait p st pg vs k : working p st pg vs (S k) ->
    Z.land (Z.land (fst (rb_read (PSEDOPHY, PSEPHY_RDWR_CTRL) p)) 0xffff) 0x11 <> 0 /\
    working (snd (rb_read (PSEDOPHY, PSEPHY_RDWR_CTRL) p)) st pg vs k;
  working_done p st pg vs : working p st pg vs 0 ->
    Z.land (Z.land (fst (rb_read (PSEDOPHY, PSEPHY_RDWR_CTRL) p)) 0xffff) 0x11 = 0 /\
    quiet (snd (rb_read (PSEDOPHY, PSEPHY_RDWR_CTRL) p)) st pg vs
}.

Section Switch.
Context {P St : Type} `{!RegBus phy_reg P} `{!BcmSwitch P St}.
Implicit Types (w : world phy_reg P) (st : St).

Lemma mdio_write_run mii addr v w :
  fsl_mdio_write true mii addr v w =
    Some (0, World (rb_write (mii, u16 addr) (u16 v) (dev w)) (log w ++ [Wr (mii, u16 addr) (u16 v)])).
Proof. reflexivity. Qed.

Lemma mdio_read_run mii addr v w :
  fsl_mdio_read true mii addr v w =
    Some ((0, Z.land (fst (rb_read (mii, u16 addr) (dev w))) 0xffff),
          World (snd (rb_read (mii, u16 addr) (dev w)))
            (log w ++ [Rd (mii, u16 addr) (fst (rb_read (mii, u16 addr) (dev w)))])).
Proof. reflexivity. Qed.

Lemma busy_loop_done k : forall n on_error val w st pg vs,
  working (dev w) st pg vs k -> (k < n)%nat ->
  exists r w', busy_loop n true on_error val w = Some (r, w') /\ quiet (dev w') st pg vs.
Proof.
  induction k as [|k IH]; intros [|n] on_error val w st pg vs Hw Hn; try lia;
    cbn [busy_loop]; rewrite bind_unfold, mdio_read_run; cbn [fst snd];
    change (u16 PSEPHY_RDWR_CTRL) with PSEPHY_RDWR_CTRL.
  - destruct (working_done _ _ _ _ Hw) as [-> Hq]. by eexists _, _.
  - destruct (working_wait _ _ _ _ _ Hw) as [Hb Hw']. rewrite (proj2 (Z.eqb_neq _ 0) Hb).
    change (truth 0) with false. rewrite andb_false_r. cbn [orb]. by eapply IH; [|lia].
Qed.

Lemma command page op : 0 <= page < 256 -> 0 <= op < 256 ->
  u16 (u16 (Z.lor (Z.shiftl page 8) op)) = page * 2 ^ 8 + op.
Proof.
  intros Hp Ho. rewrite Z.shiftl_mul_pow2, lor_mul_add by lia.
  rewrite !u16_small; [done|lia|rewrite u16_small; lia].
Qed.

Lemma land_page page : 0 <= page < 256 -> Z.land page 0xff = page.
Proof. intros H. change 0xff with (2 ^ 8 - 1). rewrite land_low by lia. by apply Z.mod_small. Qed.

Lemma switch_write page addr v0 v1 v2 v3 w st pg vs :
  quiet (dev w) st pg vs -> (sw_latency < s_count)%nat -> is_port page = false ->
  is_byte page -> is_byte addr -> Forall is_u16 [v0; v1; v2; v3] ->
  exists w', bcm53101_write true page addr [v0; v1; v2; v3] w = Some (0, w') /\
    quiet (dev w') (set_reg page addr [v0; v1; v2; v3] st) page [v0; v1; v2; v3].
Proof.
  intros Hq Hl Hport Hp Ha Hv. unfold is_byte in *. rewrite !Forall_cons in Hv.
  destruct Hv as (H0 & H1 & H2 & H3 & _). unfold is_u16 in *.
  unfold bcm53101_write. cbn [lookup list_lookup]. rewrite bind_unfold, lift_opt_run, Hport.
  rewrite bind_unfold, lift_opt_run, bind_unfold, lift_opt_run, bind_unfold, lift_opt_run. cbv zeta.
  rewrite !(land_page page) by done.
  rewrite bind_unfold, mdio_write_run, bind_unfold, mdio_write_run, bind_unfold, mdio_write_run,
    bind_unfold, mdio_write_run, bind_unfold, mdio_write_run, bind_unfold, mdio_write_run.
  cbn [dev log]. rewrite !command, (u16_small v0), (u16_small v1), (u16_small v2), (u16_small v3)
    by (done || (unfold ACCESS_EN, OPER_WR; lia)).
  pose proof (quiet_length _ _ _ _ Hq) as HL.
  destruct vs as [|x0 [|x1 [|x2 [|x3 [|]]]]]; try discriminate HL.
  apply (quiet_page _ _ _ _ page) in Hq; [|lia].
  apply (quiet_data _ _ _ _ 0 v0) in Hq; [|lia]. apply (quiet_data _ _ _ _ 1 v1) in Hq; [|lia].
  apply (quiet_data _ _ _ _ 2 v2) in Hq; [|lia]. apply (quiet_data _ _ _ _ 3 v3) in Hq; [|lia].
  destruct (start_wr _ _ _ _ addr Hq ltac:(lia)) as (k & Hk & Hw).
  rewrite bind_unfold.
  match goal with |- context [busy_loop s_count true false ?v ?w1] =>
    destruct (busy_loop_done k s_count false v w1 _ _ _ Hw ltac:(lia)) as (r & w' & -> & Hq') end.
  exists w'. split; [done|]. exact Hq'.
Qed.

Lemma switch_read page addr w st pg vs :
  quiet (dev w) st pg vs -> (sw_latency < s_count)%nat -> is_port page = false ->
  is_byte page -> is_byte addr ->
  exists w', bcm53101_read true page addr w = Some ((0, get_reg page addr st), w') /\
    quiet (dev w') st page (get_reg page addr st).
Proof.
  intros Hq Hl Hport Hp Ha. unfold is_byte in *. unfold bcm53101_read. rewrite Hport. cbv zeta.
  rewrite (land_page page) by done.
  rewrite bind_unfold, mdio_write_run, bind_unfold, mdio_write_run, bind_unfold. cbn [dev log].
  rewrite !command by (done || (unfold ACCESS_EN, OPER_RD; lia)).
  apply (quiet_page _ _ _ _ page) in Hq; [|lia].
  destruct (start_rd _ _ _ _ addr Hq ltac:(lia)) as (k & Hk & Hw).
  match goal with |- context [busy_loop s_count true true ?v ?w1] =>
    destruct (busy_loop_done k s_count true v w1 _ _ _ Hw ltac:(lia)) as (r & w1' & -> & Hq') end.
  destruct (get_reg_halves page addr st) as (v0 & v1 & v2 & v3 & E & Hv). rewrite E in *.
  rewrite !Forall_cons in Hv. destruct Hv as (H0 & H1 & H2 & H3 & _).
  assert (forall v, is_u16 v -> Z.land v 0xffff = v) as HM.
  { intros v H. rewrite land_ffff. by apply Z.mod_small. }
  destruct (quiet_read _ _ _ _ 0 v0 Hq' eq_refl) as [E0 Q0].
  destruct (quiet_read _ _ _ _ 1 v1 Q0 eq_refl) as [E1 Q1].
  destruct (quiet_read _ _ _ _ 2 v2 Q1 eq_refl) as [E2 Q2].
  destruct (quiet_read _ _ _ _ 3 v3 Q2 eq_refl) as [E3 Q3].
  change (PSEPHY_ACCESS_REG1 + Z.of_nat 0) with PSEPHY_ACCESS_REG1 in *.
  change (PSEPHY_ACCESS_REG1 + Z.of_nat 1) with PSEPHY_ACCESS_REG2 in *.
  change (PSEPHY_ACCESS_REG1 + Z.of_nat 2) with PSEPHY_ACCESS_REG3 in *.
  change (PSEPHY_ACCESS_REG1 + Z.of_nat 3) with PSEPHY_ACCESS_REG4 in *.
  rewrite bind_unfold, mdio_read_run, bind_unfold, mdio_read_run, bind_unfold, mdio_read_run,
    bind_unfold, mdio_read_run, ret_unfold. cbn [dev log fst snd].
  change (u16 PSEPHY_ACCESS_REG1) with PSEPHY_ACCESS_REG1.
  change (u16 PSEPHY_ACCESS_REG2) with PSEPHY_ACCESS_REG2.
  change (u16 PSEPHY_ACCESS_REG3) with PSEPHY_ACCESS_REG3.
  change (u16 PSEPHY_ACCESS_REG4) with PSEPHY_ACCESS_REG4.
  rewrite E0, E1, E2, E3, !HM by done. eexists. split; [reflexivity|]. exact Q3.
Qed.

(** Access to the switch's pages: a write puts the four halfwords into the
    register and a read returns them, as long as the switch answers within the
    65535 polls the driver makes. *)
Theorem bcm53101_access page addr v0 v1 v2 v3 w st pg vs :
  quiet (dev w) st pg vs -> (sw_latency < s_count)%nat -> is_port page = false ->
  is_byte page -> is_byte addr -> Forall is_u16 [v0; v1; v2; v3] ->
  (exists w', bcm53101_write true page addr [v0; v1; v2; v3] w = Some (0, w') /\
     quiet (dev w') (set_reg page addr [v0; v1; v2; v3] st) page [v0; v1; v2; v3]) /\
  (exists w', bcm53101_read true page addr w = Some ((0, get_reg page addr st), w') /\
     quiet (dev w') st page (get_reg page addr st)).
Proof. intros. split; [by eapply switch_write|by eapply switch_read]. Qed.

(** A write of the configuration, within the sequence. *)
Lemma cfg_write {A} (f : Z -> M (world phy_reg P) A) page addr v w st pg vs :
  quiet (dev w) st pg vs -> (sw_latency < s_count)%nat -> is_port page = false ->
  is_byte page -> is_byte addr -> is_u16 v ->
  exists w', (bcm53101_write true page addr [v; 0; 0; 0] ≫= f) w = f 0 w' /\
    quiet (dev w') (set_reg page addr [v; 0; 0; 0] st) page [v; 0; 0; 0].
Proof.
  intros Hq Hl Hport Hp Ha Hv.
  destruct (switch_write page addr v 0 0 0 w st pg vs) as (w' & E & Hq'); [done..| |].
  { rewrite !Forall_cons, Forall_nil. unfold is_u16 in *. repeat split; lia. }
  exists w'. split; [|done]. by rewrite (bind_Some _ _ _ _ _ E).
Qed.
End Switch.

Ltac cfg_step :=
  match goal with Hq : quiet (dev ?w) _ _ _ |- context [(bcm53101_write true ?p ?a [?v; 0; 0; 0] ≫= ?f) ?w] =>
    let w' := fresh "w" in let E := fresh "E" in let Hq' := fresh "Hq" in
    destruct (cfg_write f p a v w _ _ _ Hq) as (w' & E & Hq');
      [done|done|unfold is_byte; lia|unfold is_byte; lia|unfold is_u16; lia|];
    rewrite E; clear E Hq
  end.

Section Config.
Context {P St : Type} `{!RegBus phy_reg P} `{!BcmSwitch P St}.
Implicit Types (w : world phy_reg P) (st : St).

(** The registers of the uplink port and of the switch mode. *)
Definition configured (st : St) : St :=
  set_reg 0 0x0b [0x3; 0; 0; 0] (set_reg 0 0x60 [0x3; 0; 0; 0] (set_reg 0 0x0e [0x8b; 0; 0; 0]
    (set_reg 2 0x03 [0x0; 0; 0; 0] (set_reg 0 0x08 [0x1c; 0; 0; 0]
      (set_reg 2 0x0 [0x80; 0; 0; 0] st))))).

(** The driver's configuration leaves exactly its six registers written:
    uplink port enabled, receiving, without header, at 1000M, with clock delay,
    and the switch forwarding in managed mode. *)
Theorem bcm53101_cfg_init_ok w st pg vs :
  quiet (dev w) st pg vs -> (sw_latency < s_count)%nat ->
  exists w', bcm53101_cfg_init true w = Some ((0, [(BCM53101_GPIO_SEL, BCM53101_A)]), w') /\
    quiet (dev w') (configured st) 0 [0x3; 0; 0; 0].
Proof.
  intros Hq Hl. unfold bcm53101_cfg_init. cbn [negb]. do 5 cfg_step.
  match goal with Hq : quiet (dev ?w) ?s _ _ |- context [bcm53101_read true 0 0x0b] =>
    destruct (switch_read 0 0x0b w s _ _ Hq) as (w6 & E & Hq6);
      [done|done|unfold is_byte; lia|unfold is_byte; lia|] end.
  rewrite (bind_Some _ _ _ _ _ E). clear E. cfg_step. eexists. split; [reflexivity|]. exact Hq.
Qed.
End Config.

(** A write to the device file of more than the ten bytes of the request
    structure overruns it on the kernel stack: the count is the caller's and is
    not checked. *)
Theorem bcm53101_fs_overrun {P} `{!RegBus phy_reg P} mapped stack user count (w : world phy_reg P) :
  length stack = 10%nat -> (10 < count <= length user)%nat ->
  bcm53101_fs_write mapped stack user count w = None /\
  bcm53101_fs_read mapped stack user count w = None.
Proof.
  intros Hs Hc. unfold bcm53101_fs_write, bcm53101_fs_read.
  rewrite !bind_unfold, buf_read_Some, lift_opt_run by lia. rewrite !bind_unfold, buf_write_None; [done|].
  rewrite length_take, length_drop. lia.
Qed.

(** *** A switch that is never busy *)

Module IdleSwitch.
Record sw := Sw { page : Z; data : list Z; store : gmap (Z * Z) (list Z) }.

Definition fetch (pg a : Z) (m : gmap (Z * Z) (list Z)) : list Z :=
  match m !! (pg, a) with
  | Some [v0; v1; v2; v3] => [u16 v0; u16 v1; u16 v2; u16 v3]
  | _ => [0; 0; 0; 0]
  end.

Definition data_index (r : phy_reg) : option nat :=
  if (fst r =? PSEDOPHY) && (PSEPHY_ACCESS_REG1 <=? snd r) && (snd r <=? PSEPHY_ACCESS_REG4)
  then Some (Z.to_nat (snd r - PSEPHY_ACCESS_REG1)) else None.

#[export] Instance sw_bus : RegBus phy_reg sw := {|
  rb_read r h :=
    match data_index r with Some i => (default 0 (data h !! i), h) | None => (0, h) end;
  rb_write r v h :=
    match data_index r with
    | Some i => Sw (page h) (<[i := v]> (data h)) (store h)
    | None =>
        if snd r =? PSEPHY_ACCESS_CTRL then Sw (v / 2 ^ 8) (data h) (store h)
        else if v mod 2 ^ 8 =? OPER_WR
        then Sw (page h) (data h) (<[(page h, v / 2 ^ 8) := data h]> (store h))
        else Sw (page h) (fetch (page h) (v / 2 ^ 8) (store h)) (store h)
    end
|}.

Lemma data_index_reg (i : nat) : (i < 4)%nat ->
  data_index (PSEDOPHY, PSEPHY_ACCESS_REG1 + Z.of_nat i) = Some i.
Proof. intros H. do 4 (destruct i as [|i]; [done|]). lia. Qed.

Lemma fetch_halves pg a m : exists v0 v1 v2 v3,
  fetch pg a m = [v0; v1; v2; v3] /\ Forall is_u16 [v0; v1; v2; v3].
Proof.
  assert (Forall is_u16 [0; 0; 0; 0]) as H0.
  { rewrite !Forall_cons, Forall_nil. unfold is_u16. lia. }
  unfold fetch. repeat case_match; eexists _, _, _, _; (split; [reflexivity|]); try exact H0.
  rewrite !Forall_cons, Forall_nil. repeat split; apply u16_range.
Qed.

Lemma command_parts a op : 0 <= op < 2 ^ 8 ->
  (a * 2 ^ 8 + op) / 2 ^ 8 = a /\ (a * 2 ^ 8 + op) mod 2 ^ 8 = op.
Proof.
  intros H. rewrite (Z.add_comm (a * 2 ^ 8) op), Z.div_add, Z.mod_add by lia.
  rewrite Z.div_small, Z.mod_small by lia. done.
Qed.

#[export] Program Instance sw_switch : BcmSwitch sw (gmap (Z * Z) (list Z)) := {|
  get_reg pg a st := fetch pg a st;
  set_reg pg a vs st := <[(pg, a) := vs]> st;
  quiet p st pg vs := store p = st /\ page p = pg /\ data p = vs /\ length vs = 4%nat;
  working p st pg vs k :=
    store p = st /\ page p = pg /\ data p = vs /\ length vs = 4%nat /\ k = 0%nat;
  sw_latency := 0
|}.
Next Obligation. intros. apply fetch_halves. Qed.
Next Obligation.
  intros p st pg vs pg' (Hs & _ & Hd & HL) Hp. cbn -[Z.div Z.mul].
  destruct (command_parts pg' ACCESS_EN) as [-> _]; [unfold ACCESS_EN; lia|]. done.
Qed.
Next Obligation.
  intros p st pg vs i v (Hs & Hp & Hd & HL) Hi. cbn [rb_write sw_bus]. rewrite data_index_reg by done.
  cbn. rewrite length_insert, Hd. done.
Qed.
Next Obligation. by intros p st pg vs (_ & _ & _ & HL). Qed.
Next Obligation.
  intros p st pg vs i v (Hs & Hp & Hd & HL) Hi. cbn [rb_read sw_bus].
  rewrite data_index_reg by (rewrite <- HL; by eapply lookup_lt_Some). cbn. by rewrite Hd, Hi.
Qed.
Next Obligation.
  intros p st pg vs a (Hs & Hp & Hd & HL) Ha. exists 0%nat. split; [lia|]. cbn -[Z.div Z.modulo Z.mul].
  destruct (command_parts a OPER_WR) as [-> ->]; [unfold OPER_WR; lia|]. cbn. by rewrite Hs, Hp, Hd.
Qed.
Next Obligation.
  intros p st pg vs a (Hs & Hp & Hd & HL) Ha. exists 0%nat. split; [lia|]. cbn -[Z.div Z.modulo Z.mul].
  destruct (command_parts a OPER_RD) as [-> ->]; [unfold OPER_RD; lia|]. cbn. rewrite Hs, Hp.
  destruct (fetch_halves pg a st) as (v0 & v1 & v2 & v3 & -> & _). done.
Qed.
Next Obligation. by intros p st pg vs k (_ & _ & _ & _ & Hk). Qed.
Next Obligation. intros p st pg vs (Hs & Hp & Hd & HL & _). done. Qed.
End IdleSwitch.
Import IdleSwitch.

Definition ex_switch : world phy_reg sw := World (Sw 0 [0; 0; 0; 0] ∅) [].

Lemma ex_quiet : quiet (dev ex_switch) ∅ 0 [0; 0; 0; 0].
Proof. done. Qed.

Lemma ex_latency : (sw_latency < s_count)%nat.
Proof. change (0 < Z.to_nat 0xffff)%nat. lia. Qed.

Lemma bcm53101_access_witness :
  (exists w', bcm53101_write true 0x34 0x02 [1; 2; 3; 4] ex_switch = Some (0, w') /\
     quiet (dev w') (<[(0x34, 0x02) := [1; 2; 3; 4]]> ∅) 0x34 [1; 2; 3; 4]) /\
  (exists w', bcm53101_read true 0x34 0x02 ex_switch = Some ((0, [0; 0; 0; 0]), w') /\
     quiet (dev w') ∅ 0x34 [0; 0; 0; 0]).
Proof.
  refine (bcm53101_access 0x34 0x02 1 2 3 4 ex_switch ∅ 0 _ ex_quiet ex_latency eq_refl _ _ _).
  - unfold is_byte. lia.
  - unfold is_byte. lia.
  - rewrite !Forall_cons, Forall_nil. unfold is_u16. lia.
Defined.

Lemma bcm53101_cfg_init_ok_witness :
  exists w', bcm53101_cfg_init true ex_switch = Some ((0, [(8, 0)]), w') /\
    quiet (dev w') (configured (∅ : gmap (Z * Z) (list Z))) 0 [3; 0; 0; 0].
Proof. exact (bcm53101_cfg_init_ok ex_switch ∅ 0 _ ex_quiet ex_latency). Defined.

Lemma bcm53101_fs_overrun_witness :
  bcm53101_fs_write true (replicate 10 0) (replicate 11 0) 11 ex_switch = None /\
  bcm53101_fs_read true (replicate 10 0) (replicate 11 0) 11 ex_switch = None.
Proof.
  refine (bcm53101_fs_overrun true (replicate 10 0) (replicate 11 0) 11 ex_switch _ _);
    [reflexivity|simpl; lia].
Defined.
