(* ===== verification/Pxm.v ===== *)
(** * The FPGA interface of the cross-connect board (drivers/remotefpga/newApi)

    pxm_drv_fpga.c reads and writes registers of the local FPGA through a device
    file; pxm_drv_fpga_remote.c uses those registers to reach the FPGAs of the
    boards in the slots: a table of clauses, each a slot, an address and a size,
    that the FPGA reads cyclically into a buffer of its own, single reads in the
    same way, and writes. The device file is the class [FpgaFile]: reading at a
    position gives as many bytes as are asked for. (The spidev.c of this kernel
    takes a request structure instead of a position; these programs are written
    for a version without it.) The ioctl calls around an access have no effect
    and their results are not looked at. *)

From S2P Require Import Prelude.

Definition ERR_NONE : Z := 0.
Definition ERR_FPGA_DRV_OPEN : Z := -1.
Definition ERR_FPGA_DRV_ARGV : Z := -5.

Definition FPGA_RT_CLAU_ADDR : Z := 0x2020.
Definition FPGA_RT_BUFF_ADDR : Z := 0x2200.
Definition FPGA_RT_CMD_BUFF_ADDR : Z := 0x0400.
Definition FPGA_RT_CLAU_UNIT_SIZE : Z := 0x0020.
Definition FPGA_RT_RD_OVER_FLGA : Z := 0x2002.
Definition FPGA_RT_WR_ADDR : Z := 0x2010.
Definition FPGA_CR_CLAU_ADDR : Z := 0x2100.
Definition FPGA_CR_BUFF_ADDR : Z := 0x2400.
Definition FPGA_CR_CMD_BUFF_ADDR : Z := 0x0800.
Definition FPGA_CR_CLAU_UNIT_SIZE : Z := 0x0020.
Definition FPGA_CR_EN_ADDR : Z := 0x2040.
Definition FPGA_RT_CLAU : Z := 32.
Definition FPGA_CR_CLAU : Z := 128.

Class FpgaFile (H : Type) := {
  f_read : Z -> nat -> H -> list Z * H;
  f_write : Z -> list Z -> H -> H;
  f_read_length a n h : length (fst (f_read a n h)) = n;
  f_read_bytes a n h : Forall is_byte (fst (f_read a n h))
}.

(** An entry of the table of clauses. *)
Record s_FPGA_RM_ARGV := Clause { cl_slot : Z; cl_addr : Z; cl_size : Z }.

Inductive access := FRead (a : Z) (n : nat) | FWrite (a : Z) (bytes : list Z).

(** The descriptor, whether it is open, the table, the device and the accesses
    made to it. *)
Record pxm (H : Type) := Pxm {
  g_fpga_fd : Z; fd_open : bool; clausCrMap : list s_FPGA_RM_ARGV; fpga : H; flog : list access
}.
Arguments Pxm {_} _ _ _ _ _.
Arguments g_fpga_fd {_} _.
Arguments fd_open {_} _.
Arguments clausCrMap {_} _.
Arguments fpga {_} _.
Arguments flog {_} _.

(** Four bytes of a command as the word [memcpy] makes of them. *)
Definition command_word (slot addr b2 b3 : Z) : Z :=
  be32 (u8 (Z.lor (Z.shiftl (Z.land slot 0x0f) 4) (Z.shiftr (Z.land addr 0xf00) 8)))
       (u8 (Z.land addr 0xff)) (u8 b2) (u8 b3).

Definition read_command (slot addr bufaddr : Z) : Z :=
  command_word slot addr (Z.lor (Z.shiftl 0x5 5) (Z.shiftr (Z.land bufaddr 0x1f00) 8))
    (Z.lor (Z.land bufaddr 0xe0) 0x1f).

Section Driver.
Context {H : Type} `{!FpgaFile H}.
Abbreviation PX := (pxm H).

Definition pxm_fpga_init (fd : Z) : M PX Z :=
  s ← get;
  (if g_fpga_fd s <? 0
   then put (Pxm fd (0 <=? fd) (clausCrMap s) (fpga s) (flog s)) else mret tt);;
  s ← get;
  mret (if g_fpga_fd s <? 0 then ERR_FPGA_DRV_OPEN else ERR_NONE).

(** The descriptor keeps its value. *)
Definition pxm_fpga_close : M PX Z :=
  s ← get;
  (if 0 <? g_fpga_fd s
   then put (Pxm (g_fpga_fd s) false (clausCrMap s) (fpga s) (flog s)) else mret tt);;
  mret ERR_NONE.

(** [lseek] and [read]; on a closed descriptor nothing is read and the buffer
    keeps indeterminate contents. *)
Definition file_read (a : Z) (n : nat) : M PX (list Z) := fun s =>
  if fd_open s
  then Some (fst (f_read a n (fpga s)),
             Pxm (g_fpga_fd s) true (clausCrMap s) (snd (f_read a n (fpga s)))
               (flog s ++ [FRead a n]))
  else None.

Definition file_write (a : Z) (l : list Z) : M PX unit := fun s =>
  if fd_open s
  then Some (tt, Pxm (g_fpga_fd s) true (clausCrMap s) (f_write a l (fpga s))
                   (flog s ++ [FWrite a l]))
  else Some (tt, s).

Definition word_of (l : list Z) : option Z :=
  match l with [b0; b1; b2; b3] => Some (be32 b0 b1 b2 b3) | _ => None end.

(** [data]: the variable pointed to, [None] for a null pointer; it may have no
    value yet. Result and the variable. *)
Definition pxm_fpga_lc_rd (a : Z) (data : option (option Z)) : M PX (Z * option Z) :=
  s ← get;
  if g_fpga_fd s <? 0 then mret (ERR_FPGA_DRV_OPEN, default None data)
  else match data with
  | None => mret (ERR_FPGA_DRV_ARGV, None)
  | Some _ =>
      buff ← file_read (u16 a) 4;
      x ← lift_opt (word_of buff);
      mret (ERR_NONE, Some x)
  end.

(** The loop over [data]: [n] words from byte [off] of [rddata] on. *)
Fixpoint fill_words (n off i : nat) (rddata data : list Z) : option (list Z) :=
  match n with
  | O => Some data
  | S n =>
      l ← buf_read rddata off 4;
      x ← word_of l;
      data ← buf_write data i [x];
      fill_words n (off + 4) (i + 1) rddata data
  end.

(** [data]: the words of the caller's array, [None] for a null pointer. *)
Definition pxm_fpga_lc_rd_len (a : Z) (data : option (list Z)) (len : Z)
  : M PX (Z * option (list Z)) :=
  s ← get;
  if g_fpga_fd s <? 0 then mret (ERR_FPGA_DRV_OPEN, data)
  else match data with
  | None => mret (ERR_FPGA_DRV_ARGV, None)
  | Some data =>
      if (64 <? len) || truth (len mod 4) then mret (ERR_FPGA_DRV_ARGV, Some data)
      else
        l ← file_read (u16 a) (Z.to_nat len);
        rddata ← lift_opt (buf_write (replicate 64 0) 0 l);
        pxm_fpga_lc_rd 0 (Some (Some 0));;
        data ← lift_opt (fill_words (Z.to_nat (len / 4)) 0 0 rddata data);
        mret (ERR_NONE, Some data)
  end.

Definition pxm_fpga_lc_wr (a data : Z) : M PX Z :=
  s ← get;
  if g_fpga_fd s <? 0 then mret ERR_FPGA_DRV_OPEN
  else
    file_write (u16 a) (be32_bytes data);;
    mret ERR_NONE.

(** *** Remote boards *)

Definition set_clause (i : Z) (c : s_FPGA_RM_ARGV) : M PX unit :=
  s ← get;
  put (Pxm (g_fpga_fd s) (fd_open s) (<[Z.to_nat i := c]> (clausCrMap s)) (fpga s) (flog s)).

Definition pxm_fpga_rm_cr_rd_set (clause slot addr size : Z) : M PX Z :=
  if (clause <? 0) || (FPGA_CR_CLAU <=? clause) then mret ERR_FPGA_DRV_ARGV
  else if FPGA_CR_CLAU_UNIT_SIZE <? size then mret ERR_FPGA_DRV_ARGV
  else
    set_clause clause (Clause slot addr size);;
    let bufaddr := FPGA_CR_CMD_BUFF_ADDR + clause * FPGA_CR_CLAU_UNIT_SIZE in
    let read_reg := u16 (FPGA_CR_CLAU_ADDR + clause) in
    pxm_fpga_lc_wr read_reg (read_command slot addr bufaddr).

(** Result, slot, address and size. *)
Definition pxm_fpga_rm_cr_rd_inf (clause : Z) : M PX (Z * option s_FPGA_RM_ARGV) :=
  if (clause <? 0) || (FPGA_CR_CLAU <=? clause) then mret (-1, None)
  else
    s ← get;
    c ← lift_opt (clausCrMap s !! Z.to_nat clause);
    mret (0, Some c).

(** The polling loops: reading [a] until [stop] or until the counter, decremented
    after each read, is zero; the last value and the counter. *)
Fixpoint poll_reg (delay_count : nat) (a : Z) (stop : Z -> bool) (data : option Z) : M PX (Z * nat) :=
  r ← pxm_fpga_lc_rd a (Some data);
  x ← lift_opt (snd r);
  match delay_count with
  | O => mret (x, O)
  | S d => if stop x then mret (x, delay_count) else poll_reg d a stop (Some x)
  end.

Definition delay_count : nat := 1000.

Definition pxm_fpga_rm_cr_en (clause : Z) : M PX Z :=
  if FPGA_CR_CLAU <? clause then mret ERR_FPGA_DRV_ARGV
  else
    let en_addr := FPGA_CR_EN_ADDR + Z.quot clause 16 in
    let en_bit := Z.rem clause 16 in
    poll_reg delay_count en_addr (fun x => Z.land x 0xffff =? 0) None;;
    if en_bit <? 0 then ub else pxm_fpga_lc_wr en_addr (Z.shiftl 1 en_bit).

(** The counter is shared by the registers. *)
Fixpoint en_blk_loop (n i d : nat) (enbuf : list Z) (data : option Z) : M PX unit :=
  match n with
  | O => mret tt
  | S n =>
      let en_addr := FPGA_CR_EN_ADDR + Z.of_nat i in
      r ← poll_reg d en_addr (fun x => Z.land x 0xffff =? 0) data;
      x ← lift_opt (enbuf !! i);
      pxm_fpga_lc_wr en_addr x;;
      en_blk_loop n (i + 1) (snd r) enbuf (Some x)
  end.

Definition pxm_fpga_rm_cr_en_blk (enbuf : option (list Z)) (size : Z) : M PX Z :=
  match enbuf with
  | None => mret ERR_FPGA_DRV_ARGV
  | Some enbuf =>
      if 8 <=? size then mret ERR_FPGA_DRV_ARGV
      else en_blk_loop (Z.to_nat size) 0 delay_count enbuf None;; mret 0
  end.

(** The halfwords of the words read, low half first. *)
Definition halfword (data : list Z) (i : nat) : option Z :=
  x ← data !! (i / 2)%nat;
  Some (if Nat.even i then Z.land x 0xffff else Z.land (Z.shiftr x 16) 0xffff).

Fixpoint copy_halves (n i : nat) (data pbuf : list Z) : option (list Z) :=
  match n with
  | O => Some pbuf
  | S n =>
      x ← halfword data i;
      pbuf ← buf_write pbuf i [x];
      copy_halves n (i + 1) data pbuf
  end.

(** Result and the caller's buffer. *)
Definition pxm_fpga_rm_cr_rd (clause slot addr : Z) (pbuf : option (list Z)) (size : Z)
  : M PX (Z * option (list Z)) :=
  if (clause <? 0) || (FPGA_CR_CLAU <=? clause) then mret (ERR_FPGA_DRV_ARGV, pbuf)
  else match pbuf with
  | None => mret (ERR_FPGA_DRV_ARGV, None)
  | Some pbuf =>
      s ← get;
      c ← lift_opt (clausCrMap s !! Z.to_nat clause);
      if negb (cl_slot c =? slot) || negb (cl_addr c =? addr) || negb (cl_size c =? size)
      then mret (ERR_FPGA_DRV_ARGV, Some pbuf)
      else
        let en_addr := FPGA_CR_EN_ADDR + clause / 16 in
        let en_bit := clause mod 16 in
        poll_reg delay_count en_addr (fun x => Z.land x (Z.shiftl 1 en_bit) =? 0) None;;
        let reg_addr := FPGA_CR_BUFF_ADDR + clause * FPGA_CR_CLAU_UNIT_SIZE / 2 in
        r ← pxm_fpga_lc_rd_len reg_addr (Some (replicate 16 0)) 64;
        data ← lift_opt (snd r);
        pbuf ← lift_opt (copy_halves (Z.to_nat size) 0 data pbuf);
        mret (0, Some pbuf)
  end.

Definition pxm_fpga_rm_rt_rd (clause slot addr : Z) (pbuf : list Z) (size mode : Z)
  : M PX (Z * list Z) :=
  if (clause <? 0) || (FPGA_RT_CLAU <=? clause) then mret (ERR_FPGA_DRV_ARGV, pbuf)
  else
    let bufaddr := FPGA_RT_CMD_BUFF_ADDR + clause * FPGA_RT_CLAU_UNIT_SIZE in
    let read_reg := u16 (FPGA_RT_CLAU_ADDR + clause) in
    pxm_fpga_lc_wr read_reg (read_command slot addr bufaddr);;
    (if mode =? 0
     then poll_reg delay_count FPGA_RT_RD_OVER_FLGA (fun x => x =? 0) None;; mret tt
     else mret tt);;
    let reg_addr := FPGA_RT_BUFF_ADDR + clause * FPGA_RT_CLAU_UNIT_SIZE / 2 in
    r ← pxm_fpga_lc_rd_len reg_addr (Some (replicate 16 0)) 64;
    data ← lift_opt (snd r);
    pbuf ← lift_opt (copy_halves (Z.to_nat size) 0 data pbuf);
    mret (0, pbuf).

Fixpoint rm_wr_loop (slot addr : Z) (values : list Z) : M PX unit :=
  match values with
  | [] => mret tt
  | v :: values =>
      pxm_fpga_lc_wr FPGA_RT_WR_ADDR
        (command_word slot addr (Z.shiftr (Z.land v 0xff00) 8) (Z.land v 0xff));;
      rm_wr_loop slot (u16 (addr + 1)) values
  end.

Definition pxm_fpga_rm_wr (slot addr : Z) (pbuf : option (list Z)) (size : nat) : M PX Z :=
  match pbuf with
  | None => mret ERR_FPGA_DRV_ARGV
  | Some pbuf =>
      values ← lift_opt (buf_read pbuf 0 size);
      rm_wr_loop slot addr values;;
      mret 0
  end.
End Driver.

(** ** The command words *)

Lemma command_word_value slot addr b2 b3 : is_byte b2 -> is_byte b3 ->
  command_word slot addr b2 b3 =
    (slot mod 16) * 2 ^ 28 + (addr mod 2 ^ 12) * 2 ^ 16 + b2 * 2 ^ 8 + b3.
Proof.
  intros H2 H3. unfold command_word, is_byte in *.
  change 0x0f with (2 ^ 4 - 1). change 0xff with (2 ^ 8 - 1). rewrite !land_low by lia.
  assert (Z.shiftr (Z.land addr 0xf00) 8 = addr / 2 ^ 8 mod 2 ^ 4) as ->.
  { rewrite Z.shiftr_land. change (Z.shiftr 0xf00 8) with (2 ^ 4 - 1).
    by rewrite land_low, Z.shiftr_div_pow2 by lia. }
  rewrite Z.shiftl_mul_pow2 by lia.
  pose proof (Z.mod_pos_bound slot (2 ^ 4) ltac:(lia)).
  pose proof (Z.mod_pos_bound (addr / 2 ^ 8) (2 ^ 4) ltac:(lia)).
  pose proof (Z.mod_pos_bound addr (2 ^ 8) ltac:(lia)).
  rewrite lor_mul_add by lia. rewrite !u8_small by lia. rewrite be32_value by (unfold is_byte; lia).
  assert (addr mod 2 ^ 12 = (addr / 2 ^ 8 mod 2 ^ 4) * 2 ^ 8 + addr mod 2 ^ 8) as ->;
    [|change (slot mod 16) with (slot mod 2 ^ 4); lia].
  change (2 ^ 12) with (2 ^ 8 * 2 ^ 4). rewrite Z.rem_mul_r by lia. lia.
Qed.

(** A buffer address of the FPGA is a multiple of 32 below 0x2000. *)
Lemma read_command_value slot addr k : 0 <= k < 256 ->
  read_command slot addr (32 * k) =
    (slot mod 16) * 2 ^ 28 + (addr mod 2 ^ 12) * 2 ^ 16 + 5 * 2 ^ 13 + 32 * k + 31.
Proof.
  intros Hk. unfold read_command.
  assert (Z.shiftr (Z.land (32 * k) 0x1f00) 8 = k / 8) as E1.
  { rewrite Z.shiftr_land. change (Z.shiftr 0x1f00 8) with (2 ^ 5 - 1).
    rewrite land_low, Z.shiftr_div_pow2 by lia.
    replace (32 * k) with (k * 2 ^ 5) by lia. change (2 ^ 8) with (8 * 2 ^ 5).
    rewrite Z.div_mul_cancel_r by lia. apply Z.mod_small.
    split; [apply Z.div_pos; lia|apply Z.div_lt_upper_bound; lia]. }
  assert (Z.land (32 * k) 0xe0 = (k mod 8) * 2 ^ 5) as E2.
  { change 0xe0 with (Z.shiftl (2 ^ 3 - 1) 5). replace (32 * k) with (Z.shiftl k 5).
    - rewrite <- Z.shiftl_land, land_low, Z.shiftl_mul_pow2 by lia. done.
    - rewrite Z.shiftl_mul_pow2; lia. }
  rewrite E1, E2. change (Z.shiftl 0x5 5) with (5 * 2 ^ 5).
  assert (0 <= k / 8 < 2 ^ 5).
  { split; [apply Z.div_pos; lia|apply Z.div_lt_upper_bound; lia]. }
  pose proof (Z.mod_pos_bound k 8 ltac:(lia)). pose proof (Z.div_mod k 8 ltac:(lia)).
  rewrite !lor_mul_add by lia. rewrite command_word_value by (unfold is_byte; lia). lia.
Qed.

(** ** Accesses *)

Section Accesses.
Context {H : Type} `{!FpgaFile H}.
Implicit Types s : pxm H.

(** The device is open and the table of clauses has its size, with no entry
    longer than the buffer of a clause. *)
Definition usable s : Prop :=
  0 <= g_fpga_fd s /\ fd_open s = true /\ length (clausCrMap s) = Z.to_nat FPGA_CR_CLAU /\
  Forall (fun c => 0 <= cl_size c <= FPGA_CR_CLAU_UNIT_SIZE) (clausCrMap s).

(** Only the device and the log of its accesses change. *)
Definition accessed s (l : list access) s' : Prop :=
  g_fpga_fd s' = g_fpga_fd s /\ fd_open s' = fd_open s /\ clausCrMap s' = clausCrMap s /\
  flog s' = flog s ++ l.

Lemma accessed_usable s l s' : accessed s l s' -> usable s -> usable s'.
Proof. intros (E1 & E2 & E3 & _) U. unfold usable. by rewrite E1, E2, E3. Qed.

Lemma accessed_trans s1 l1 s2 l2 s3 :
  accessed s1 l1 s2 -> accessed s2 l2 s3 -> accessed s1 (l1 ++ l2) s3.
Proof.
  intros (A1 & B1 & C1 & D1) (A2 & B2 & C2 & D2). unfold accessed.
  rewrite A2, B2, C2, D2, D1, app_assoc. auto.
Qed.

Definition after_read (a : Z) (n : nat) s : pxm H :=
  Pxm (g_fpga_fd s) true (clausCrMap s) (snd (f_read a n (fpga s))) (flog s ++ [FRead a n]).

Lemma file_read_run a n s : usable s ->
  file_read a n s = Some (fst (f_read a n (fpga s)), after_read a n s) /\
  accessed s [FRead a n] (after_read a n s).
Proof. intros (_ & Ho & _). unfold file_read, accessed. by rewrite Ho. Qed.

Lemma word_of_Some l : length l = 4%nat -> is_Some (word_of l).
Proof. destruct l as [|? [|? [|? [|? [|? ?]]]]]; simpl; intros ?; try lia. by eexists. Qed.

Lemma fd_ok s : usable s -> (g_fpga_fd s <? 0) = false.
Proof. intros [Hf _]. by apply Z.ltb_ge. Qed.

Lemma lc_rd_run a d s : usable s ->
  exists x s', pxm_fpga_lc_rd a (Some d) s = Some ((ERR_NONE, Some x), s') /\
    accessed s [FRead (u16 a) 4] s'.
Proof.
  intros U. unfold pxm_fpga_lc_rd. rewrite bind_unfold, get_run, fd_ok by done.
  destruct (file_read_run (u16 a) 4 s U) as [E HA]. rewrite (bind_Some _ _ _ _ _ E).
  destruct (word_of_Some (fst (f_read (u16 a) 4 (fpga s)))) as [x Ex]; [apply f_read_length|].
  rewrite Ex. by eexists _, _.
Qed.

Lemma lc_wr_run a x s : usable s ->
  exists s', pxm_fpga_lc_wr a x s = Some (ERR_NONE, s') /\
    accessed s [FWrite (u16 a) (be32_bytes x)] s'.
Proof.
  intros U. unfold pxm_fpga_lc_wr. rewrite bind_unfold, get_run, fd_ok by done.
  destruct U as (_ & Ho & _). rewrite bind_unfold. unfold file_write. rewrite Ho, ret_unfold.
  eexists. split; [reflexivity|]. done.
Qed.

(** A poll ends after at most one read more than the counter. *)
Lemma poll_reg_run n a stop : forall d s, usable s ->
  exists x m k s', poll_reg n a stop d s = Some ((x, m), s') /\ (1 <= k <= n + 1)%nat /\
    accessed s (replicate k (FRead (u16 a) 4)) s'.
Proof.
  induction n as [|n IH]; intros d s U; cbn [poll_reg];
    destruct (lc_rd_run a d s U) as (x & s1 & E & HA); rewrite (bind_Some _ _ _ _ _ E); cbn [snd];
    rewrite bind_unfold, lift_opt_run.
  - exists x, 0%nat, 1%nat, s1. auto.
  - destruct (stop x); [exists x, (S n), 1%nat, s1; split; [done|]; split; [lia|done]|].
    destruct (IH (Some x) s1 (accessed_usable _ _ _ HA U)) as (y & m & k & s2 & E2 & Hk & HA2).
    exists y, m, (S k), s2. split; [done|]. split; [lia|].
    apply (accessed_trans _ _ _ _ _ HA HA2).
Qed.

(** Bytes [off] and following of [l], four of them, as a word. *)
Lemma word_at_off l off : (off + 4 <= length l)%nat -> is_Some (buf_read l off 4 ≫= word_of).
Proof.
  intros Hl. rewrite buf_read_Some by done. cbn. apply word_of_Some. rewrite length_take, length_drop. lia.
Qed.

Lemma fill_words_spec n : forall off i rddata data,
  (off + 4 * n <= length rddata)%nat -> (i + n <= length data)%nat ->
  exists data', fill_words n off i rddata data = Some data' /\ length data' = length data /\
    forall j, data' !! j = if bool_decide (i <= j < i + n)%nat
                           then buf_read rddata (off + 4 * (j - i)) 4 ≫= word_of else data !! j.
Proof.
  induction n as [|n IH]; intros off i rddata data Hr Hd; cbn [fill_words].
  { exists data. split; [done|]. split; [done|]. intros j. by rewrite bool_decide_false by lia. }
  destruct (word_at_off rddata off ltac:(lia)) as [x Hx].
  destruct (buf_read rddata off 4) as [l|] eqn:El; [|done]. cbn [mbind option_bind] in Hx |- *. rewrite Hx. cbn [mbind option_bind].
  rewrite buf_write_one by lia. cbn [mbind option_bind].
  destruct (IH (off + 4)%nat (i + 1)%nat rddata (<[i := x]> data)) as (data' & -> & HL & HJ);
    [lia|rewrite length_insert; lia|].
  exists data'. split; [done|]. split; [by rewrite HL, length_insert|].
  intros j. rewrite HJ. destruct (decide (j = i)) as [->|Hne].
  - rewrite bool_decide_false, bool_decide_true by lia.
    replace (off + 4 * (i - i))%nat with off by lia. rewrite El, list_lookup_insert_eq by lia.
    cbn [mbind option_bind]. by rewrite Hx.
  - rewrite list_lookup_insert_ne by done. destruct (decide (i <= j < i + S n)%nat) as [Hj|Hj].
    + rewrite !bool_decide_true by lia. f_equal. f_equal. lia.
    + by rewrite !bool_decide_false by lia.
Qed.

Lemma copy_halves_spec n : forall i data pbuf,
  (i + n <= 2 * length data)%nat -> (i + n <= length pbuf)%nat ->
  exists pbuf', copy_halves n i data pbuf = Some pbuf' /\ length pbuf' = length pbuf /\
    forall j, pbuf' !! j = if bool_decide (i <= j < i + n)%nat then halfword data j else pbuf !! j.
Proof.
  induction n as [|n IH]; intros i data pbuf Hd Hp; cbn [copy_halves].
  { exists pbuf. split; [done|]. split; [done|]. intros j. by rewrite bool_decide_false by lia. }
  assert (is_Some (halfword data i)) as [x Hx].
  { unfold halfword. destruct (lookup_lt_is_Some_2 data (i / 2)) as [y Hy].
    - apply Nat.Div0.div_lt_upper_bound. lia.
    - rewrite Hy. by eexists. }
  rewrite Hx. cbn [mbind option_bind]. rewrite buf_write_one by lia. cbn [mbind option_bind].
  destruct (IH (i + 1)%nat data (<[i := x]> pbuf)) as (pbuf' & -> & HL & HJ);
    [lia|rewrite length_insert; lia|].
  exists pbuf'. split; [done|]. split; [by rewrite HL, length_insert|].
  intros j. rewrite HJ. destruct (decide (j = i)) as [->|Hne].
  - rewrite bool_decide_false, bool_decide_true by lia. by rewrite list_lookup_insert_eq by lia.
  - rewrite list_lookup_insert_ne by done. destruct (decide (i <= j < i + S n)%nat) as [Hj|Hj].
    + by rewrite !bool_decide_true by lia.
    + by rewrite !bool_decide_false by lia.
Qed.

(** Bytes [p] and [p + 1] as a halfword. *)
Definition half_at (l : list Z) (p : nat) : option Z :=
  b ← l !! p; b' ← l !! (p + 1)%nat; Some (b * 2 ^ 8 + b').

(** Where halfword [j] of a buffer comes from: the halves of each word are
    swapped. *)
Definition half_pos (j : nat) : nat := (4 * (j / 2) + if Nat.even j then 2 else 0)%nat.

Lemma be32_halves b0 b1 b2 b3 : Forall is_byte [b0; b1; b2; b3] ->
  Z.land (be32 b0 b1 b2 b3) 0xffff = b2 * 2 ^ 8 + b3 /\
  Z.land (Z.shiftr (be32 b0 b1 b2 b3) 16) 0xffff = b0 * 2 ^ 8 + b1.
Proof.
  rewrite !Forall_cons. intros (H0 & H1 & H2 & H3 & _). rewrite be32_value by done. unfold is_byte in *.
  rewrite !land_ffff, Z.shiftr_div_pow2 by lia.
  replace (b0 * 2 ^ 24 + b1 * 2 ^ 16 + b2 * 2 ^ 8 + b3)
    with (b2 * 2 ^ 8 + b3 + (b0 * 2 ^ 8 + b1) * 2 ^ 16) by lia.
  rewrite Z.mod_add, Z.div_add, (Z.div_small (b2 * 2 ^ 8 + b3)), Z.add_0_l, !Z.mod_small by lia. done.
Qed.

Lemma halfword_at l data j :
  Forall is_byte l -> (4 * (j / 2) + 4 <= length l)%nat ->
  data !! (j / 2)%nat = buf_read l (4 * (j / 2)) 4 ≫= word_of ->
  halfword data j = half_at l (half_pos j).
Proof.
  intros HB HL Hd. rewrite buf_read_Some in Hd by done. cbn [mbind option_bind] in Hd.
  assert (forall k, (k < 4)%nat -> l !! (4 * (j / 2) + k)%nat = take 4 (drop (4 * (j / 2)) l) !! k) as HK.
  { intros k Hk. by rewrite lookup_take_lt, lookup_drop by done. }
  assert (Forall is_byte (take 4 (drop (4 * (j / 2)) l))) as HB4 by by apply Forall_take, Forall_drop.
  assert (length (take 4 (drop (4 * (j / 2)) l)) = 4%nat) as HL4.
  { rewrite length_take, length_drop. lia. }
  destruct (take 4 (drop (4 * (j / 2)) l)) as [|b0 [|b1 [|b2 [|b3 [|]]]]]; try discriminate HL4.
  pose proof (be32_halves _ _ _ _ HB4) as [E1 E2].
  unfold halfword. rewrite Hd. cbn [word_of mbind option_bind]. rewrite E1, E2.
  unfold half_at, half_pos. destruct (Nat.even j).
  - rewrite <- Nat.add_assoc, !HK by lia. done.
  - rewrite <- Nat.add_assoc, !HK by lia. done.
Qed.

Lemma lc_rd_len_run a s : usable s ->
  exists data s', pxm_fpga_lc_rd_len a (Some (replicate 16 0)) 64 s = Some ((ERR_NONE, Some data), s') /\
    accessed s [FRead (u16 a) 64; FRead 0 4] s' /\ length data = 16%nat /\
    forall j, (j < 32)%nat ->
      halfword data j = half_at (fst (f_read (u16 a) 64 (fpga s))) (half_pos j).
Proof.
  intros U. unfold pxm_fpga_lc_rd_len. rewrite bind_unfold, get_run, fd_ok by done.
  change ((64 <? 64) || truth (64 mod 4)) with false. cbv iota.
  change (Z.to_nat 64) with 64%nat. change (Z.to_nat (64 / 4)) with 16%nat.
  destruct (file_read_run (u16 a) 64 s U) as [E HA]. rewrite (bind_Some _ _ _ _ _ E).
  pose proof (f_read_length (u16 a) 64 (fpga s)) as HL. pose proof (f_read_bytes (u16 a) 64 (fpga s)) as HB.
  set (l := fst (f_read (u16 a) 64 (fpga s))) in *.
  assert (buf_write (replicate 64 0) 0 l = Some l) as ->.
  { rewrite buf_write_Some by (rewrite length_replicate; lia). f_equal. cbn [take app].
    rewrite drop_ge by (rewrite length_replicate; lia). apply app_nil_r. }
  rewrite bind_unfold, lift_opt_run.
  destruct (lc_rd_run 0 (Some 0) _ (accessed_usable _ _ _ HA U)) as (x & s2 & E2 & HA2).
  rewrite (bind_Some _ _ _ _ _ E2).
  destruct (fill_words_spec 16 0 0 l (replicate 16 0)) as (data & Ed & Hlen & HJ); [lia|done|].
  rewrite Ed, bind_unfold, lift_opt_run, ret_unfold. exists data, s2. split; [done|].
  split; [exact (accessed_trans _ _ _ _ _ HA HA2)|]. split; [by rewrite Hlen|].
  intros j Hj. assert (j / 2 < 16)%nat by (apply Nat.Div0.div_lt_upper_bound; lia).
  apply halfword_at; [done|lia|]. rewrite HJ, bool_decide_true by lia. f_equal. f_equal. lia.
Qed.

(** ** Properties *)

(** Configuring a clause records it in the table and writes one command to
    the clause's register: slot, address, the read opcode and the clause's own
    32-halfword buffer of the FPGA, each in its field. *)
Theorem cr_rd_set_command clause slot addr size s :
  usable s -> 0 <= clause < FPGA_CR_CLAU -> 0 <= size <= FPGA_CR_CLAU_UNIT_SIZE ->
  exists s', pxm_fpga_rm_cr_rd_set clause slot addr size s = Some (0, s') /\ usable s' /\
    clausCrMap s' = <[Z.to_nat clause := Clause slot addr size]> (clausCrMap s) /\
    flog s' = flog s ++ [FWrite (0x2100 + clause) (be32_bytes
      ((slot mod 16) * 2 ^ 28 + (addr mod 2 ^ 12) * 2 ^ 16 + 5 * 2 ^ 13 + (0x800 + 32 * clause) + 31))].
Proof.
  intros U Hc Hs. unfold FPGA_CR_CLAU in *. unfold pxm_fpga_rm_cr_rd_set. cbv zeta.
  assert ((clause <? 0) || (FPGA_CR_CLAU <=? clause) = false) as ->.
  { apply orb_false_iff. unfold FPGA_CR_CLAU. rewrite Z.ltb_ge, Z.leb_gt. lia. }
  rewrite (proj2 (Z.ltb_ge FPGA_CR_CLAU_UNIT_SIZE size)) by lia.
  unfold set_clause. rewrite bind_unfold, bind_unfold, get_run, put_run. set (s1 := Pxm _ _ _ _ _).
  assert (usable s1) as U1.
  { destruct U as (H1 & H2 & H3 & H4). repeat split; cbn; [done|done|by rewrite length_insert|].
    by apply Forall_insert. }
  destruct (lc_wr_run (u16 (FPGA_CR_CLAU_ADDR + clause)) (read_command slot addr
    (FPGA_CR_CMD_BUFF_ADDR + clause * FPGA_CR_CLAU_UNIT_SIZE)) s1 U1) as (s2 & E & HA).
  exists s2. split; [exact E|]. split; [by eapply accessed_usable|].
  destruct HA as (_ & _ & Hm & Hl). split; [exact Hm|]. rewrite Hl. cbn [flog s1].
  unfold FPGA_CR_CLAU_ADDR, FPGA_CR_CMD_BUFF_ADDR, FPGA_CR_CLAU_UNIT_SIZE.
  rewrite !u16_small by (rewrite ?u16_small; lia).
  replace (0x0800 + clause * 0x0020) with (32 * (64 + clause)) by lia.
  rewrite read_command_value by lia. do 4 f_equal. lia.
Qed.

(** Reading a clause as it was configured has defined behaviour and ends:
    it polls the clause's enable bit at most 1001 times, reads the clause's
    buffer once and returns its halfwords, the two of each word swapped; the
    rest of the caller's buffer is kept. *)
Theorem cr_rd_reads clause c pbuf s :
  usable s -> 0 <= clause < FPGA_CR_CLAU -> clausCrMap s !! Z.to_nat clause = Some c ->
  (Z.to_nat (cl_size c) <= length pbuf)%nat ->
  exists k h pbuf' s', pxm_fpga_rm_cr_rd clause (cl_slot c) (cl_addr c) (Some pbuf) (cl_size c) s =
      Some ((0, Some pbuf'), s') /\ usable s' /\ (1 <= k <= 1001)%nat /\
    flog s' = flog s ++ replicate k (FRead (0x2040 + clause / 16) 4) ++
      [FRead (0x2400 + 16 * clause) 64; FRead 0 4] /\
    length pbuf' = length pbuf /\
    forall j, pbuf' !! j =
      if bool_decide (j < Z.to_nat (cl_size c))%nat
      then half_at (fst (f_read (0x2400 + 16 * clause) 64 h)) (half_pos j) else pbuf !! j.
Proof.
  intros U Hc Hm Hp. unfold FPGA_CR_CLAU in *. unfold pxm_fpga_rm_cr_rd. cbv zeta.
  assert ((clause <? 0) || (FPGA_CR_CLAU <=? clause) = false) as ->.
  { apply orb_false_iff. unfold FPGA_CR_CLAU. rewrite Z.ltb_ge, Z.leb_gt. lia. }
  rewrite bind_unfold, get_run, bind_unfold, Hm, lift_opt_run, !Z.eqb_refl. cbn [negb orb].
  destruct (poll_reg_run delay_count (FPGA_CR_EN_ADDR + clause / 16)
    (fun x => Z.land x (Z.shiftl 1 (clause mod 16)) =? 0) None s U) as (x & m & k & s1 & E1 & Hk & HA1).
  rewrite (bind_Some _ _ _ _ _ E1). pose proof (accessed_usable _ _ _ HA1 U) as U1.
  destruct (lc_rd_len_run (FPGA_CR_BUFF_ADDR + clause * FPGA_CR_CLAU_UNIT_SIZE / 2) s1 U1)
    as (data & s2 & E2 & HA2 & HL & HJ).
  rewrite (bind_Some _ _ _ _ _ E2). cbn [snd]. rewrite bind_unfold, lift_opt_run.
  assert (0 <= cl_size c <= 32) as Hs.
  { destruct U as (_ & _ & _ & HF). by apply (Forall_lookup_1 _ _ _ _ HF Hm). }
  destruct (copy_halves_spec (Z.to_nat (cl_size c)) 0 data pbuf) as (pbuf' & Ep & HLp & HJp); [lia|lia|].
  rewrite Ep, bind_unfold, lift_opt_run, ret_unfold. exists k, (fpga s1), pbuf', s2.
  assert (u16 (FPGA_CR_BUFF_ADDR + clause * FPGA_CR_CLAU_UNIT_SIZE / 2) = 0x2400 + 16 * clause) as EB.
  { unfold FPGA_CR_BUFF_ADDR, FPGA_CR_CLAU_UNIT_SIZE. replace (clause * 0x0020) with (16 * clause * 2) by lia.
    rewrite Z.div_mul by lia. apply u16_small. lia. }
  assert (u16 (FPGA_CR_EN_ADDR + clause / 16) = 0x2040 + clause / 16) as EE.
  { assert (0 <= clause / 16 < 8) by (split; [apply Z.div_pos; lia|apply Z.div_lt_upper_bound; lia]).
    unfold FPGA_CR_EN_ADDR. apply u16_small. lia. }
  rewrite EB in HA2, HJ. rewrite EE in HA1.
  split; [done|]. split; [by eapply accessed_usable|]. split; [unfold delay_count in Hk; lia|].
  split; [by destruct (accessed_trans _ _ _ _ _ HA1 HA2) as (_ & _ & _ & ->)|]. split; [done|].
  intros j. rewrite HJp, !bool_decide_decide.
  do 2 destruct (decide _); try lia; [apply HJ; lia|done].
Qed.

(** The commands of a remote write. *)
Fixpoint write_commands (slot addr : Z) (values : list Z) : list access :=
  match values with
  | [] => []
  | v :: values =>
      FWrite 0x2010 (be32_bytes ((slot mod 16) * 2 ^ 28 + (addr mod 2 ^ 12) * 2 ^ 16 + v)) ::
      write_commands slot (addr + 1) values
  end.

Lemma write_commands_mod slot values : forall a b, a mod 2 ^ 12 = b mod 2 ^ 12 ->
  write_commands slot a values = write_commands slot b values.
Proof.
  induction values as [|v values IH]; intros a b E; [done|]. cbn [write_commands]. rewrite E. f_equal.
  apply IH. by rewrite <- (Zplus_mod_idemp_l a), E, Zplus_mod_idemp_l.
Qed.

(** A remote write sends one command per halfword, in order, to consecutive
    addresses of the slot (modulo the 4096 addresses a board has). *)
Theorem rm_wr_commands slot addr values s :
  usable s -> Forall is_u16 values ->
  exists s', pxm_fpga_rm_wr slot addr (Some values) (length values) s = Some (0, s') /\ usable s' /\
    flog s' = flog s ++ write_commands slot addr values.
Proof.
  intros U Hv. unfold pxm_fpga_rm_wr.
  rewrite buf_read_Some, drop_0, firstn_all, bind_unfold, lift_opt_run by lia.
  assert (exists s', rm_wr_loop slot addr values s = Some (tt, s') /\ usable s' /\
    flog s' = flog s ++ write_commands slot addr values) as (s' & E & U' & HL).
  { revert addr s U. induction Hv as [|v values Hx Hv IH]; intros addr s U; cbn [rm_wr_loop write_commands].
    { exists s. by rewrite app_nil_r. }
    destruct (lc_wr_run FPGA_RT_WR_ADDR (command_word slot addr (Z.shiftr (Z.land v 0xff00) 8)
      (Z.land v 0xff)) s U) as (s1 & E1 & HA). rewrite (bind_Some _ _ _ _ _ E1).
    destruct (IH (u16 (addr + 1)) s1 (accessed_usable _ _ _ HA U)) as (s2 & E2 & U2 & HL2).
    exists s2. split; [done|]. split; [done|]. rewrite HL2. destruct HA as (_ & _ & _ & ->).
    rewrite <- app_assoc. cbn [app]. f_equal. f_equal.
    - unfold is_u16 in Hx. rewrite command_word_value.
      + f_equal. f_equal.
        rewrite Z.shiftr_land. change (Z.shiftr 0xff00 8) with 0xff. rewrite !land_ff, Z.shiftr_div_pow2 by lia.
        rewrite (Z.mod_small (v / 2 ^ 8)).
        * pose proof (Z.div_mod v (2 ^ 8)). lia.
        * split; [apply Z.div_pos; lia|apply Z.div_lt_upper_bound; lia].
      + rewrite Z.shiftr_land. change (Z.shiftr 0xff00 8) with 0xff. rewrite land_ff. apply u8_range.
      + rewrite land_ff. apply u8_range.
    - apply write_commands_mod. unfold u16. change (2 ^ 16) with (2 ^ 12 * 2 ^ 4).
      by rewrite Z.rem_mul_r, Z.mul_comm, Z.mod_add, Z.mod_mod by lia. }
  rewrite (bind_Some _ _ _ _ _ E). by exists s'.
Qed.
End Accesses.

(** *** A device whose registers count up, for closed examples *)

Module CountingFile.
#[export] Program Instance counting : FpgaFile unit := {|
  f_read a n h := (map (fun i => Z.of_nat i mod 2 ^ 8) (seq 0 n), h);
  f_write _ _ h := h
|}.
Next Obligation. intros a n []. simpl. by rewrite length_map, length_seq. Qed.
Next Obligation.
  intros a n []. simpl. apply Forall_map, Forall_forall. intros i _. apply Z.mod_pos_bound. lia.
Qed.
End CountingFile.
Import CountingFile.

Definition ex_pxm : pxm unit := Pxm 3 true (replicate 128 (Clause 3 0x80 6)) tt [].

Lemma ex_usable : usable ex_pxm.
Proof.
  split; [done|]. split; [done|]. split; [done|]. apply Forall_replicate. cbn.
  unfold FPGA_CR_CLAU_UNIT_SIZE. lia.
Qed.

Lemma cr_rd_set_command_witness :
  exists s', pxm_fpga_rm_cr_rd_set 1 3 0x80 32 ex_pxm = Some (0, s') /\ usable s' /\
    clausCrMap s' = <[1%nat := Clause 3 0x80 32]> (replicate 128 (Clause 3 0x80 6)) /\
    flog s' = [FWrite 0x2101 [0x30; 0x80; 0xa8; 0x3f]].
Proof.
  refine (cr_rd_set_command 1 3 0x80 32 ex_pxm ex_usable _ _);
    unfold FPGA_CR_CLAU, FPGA_CR_CLAU_UNIT_SIZE; lia.
Defined.

Lemma cr_rd_reads_witness :
  exists k h pbuf' s', pxm_fpga_rm_cr_rd 17 3 0x80 (Some (replicate 8 0)) 6 ex_pxm =
      Some ((0, Some pbuf'), s') /\ usable s' /\ (1 <= k <= 1001)%nat /\
    flog s' = replicate k (FRead 0x2041 4) ++ [FRead 0x2510 64; FRead 0 4] /\
    length pbuf' = 8%nat /\
    forall j, pbuf' !! j =
      if bool_decide (j < 6)%nat
      then half_at (fst (f_read 0x2510 64 h)) (half_pos j) else replicate 8 0 !! j.
Proof.
  refine (cr_rd_reads 17 (Clause 3 0x80 6) (replicate 8 0) ex_pxm ex_usable _ _ _).
  - unfold FPGA_CR_CLAU. lia.
  - reflexivity.
  - simpl. lia.
Defined.

Lemma rm_wr_commands_witness :
  exists s', pxm_fpga_rm_wr 3 0xfff (Some [0x1234; 0x5678]) 2 ex_pxm = Some (0, s') /\ usable s' /\
    flog s' = [FWrite 0x2010 [0x3f; 0xff; 0x12; 0x34]; FWrite 0x2010 [0x30; 0; 0x56; 0x78]].
Proof.
  refine (rm_wr_commands 3 0xfff [0x1234; 0x5678] ex_pxm ex_usable _).
  rewrite !Forall_cons, Forall_nil. unfold is_u16. lia.
Defined.
