(* ===== verification/Timer.v ===== *)
(** * The kernel's timer wheel

    Timers of the kernel (kernel/timer.c, include/linux/timer.h and the
    comparisons of include/linux/jiffies.h): every processor keeps the timers
    armed on it in five arrays of lists, the near ones in a slot per tick and the
    far ones in coarser slots that are distributed again ("cascaded") when the
    clock reaches them. The watchdog's timer is one of these.

    A list of timers is a list of their names in order. The locks make each
    operation one step; [__run_timers] drops its lock around the call of a timer
    function, so it is a sequence of steps with other operations between them.
    The file holds the operations; TimerProps has the invariant and the
    theorems. *)

From S2P Require Import Prelude.

(** ** Comparing times (include/linux/jiffies.h)

    [(long)(b) - (long)(a) < 0]: the kernel is built so that signed arithmetic
    wraps. *)

Definition time_after (a b : Z) : bool := s32 (b - a) <? 0.
Definition time_before (a b : Z) : bool := time_after b a.
Definition time_after_eq (a b : Z) : bool := 0 <=? s32 (a - b).
Definition time_before_eq (a b : Z) : bool := time_after_eq b a.

(** ** Data *)

(** [CONFIG_BASE_SMALL] is 0 on this board. *)
Definition TVN_BITS : Z := 6.
Definition TVR_BITS : Z := 8.
Definition TVN_SIZE : Z := Z.shiftl 1 TVN_BITS.
Definition TVR_SIZE : Z := Z.shiftl 1 TVR_BITS.
Definition TVN_MASK : Z := TVN_SIZE - 1.
Definition TVR_MASK : Z := TVR_SIZE - 1.

(** The address of a [struct timer_list]. *)
Definition tid : Type := positive.

(** [struct timer_list]: [pending] is [entry.next != NULL], [base] is the number of
    the processor whose [tvec_base] the field points to, and [deferrable] the flag
    in the low bit of that pointer. *)
Record timer_list := Timer {
  pending : bool;
  expires : Z;
  base : nat;
  deferrable : bool;
  function : Z;
  data : Z;
  slack : Z
}.

(** [struct tvec_base]. [work_list] is the local list of [__run_timers] while that
    function runs on the processor; it is kept here because a timer can be taken
    off it by [detach_timer]. *)
Record tvec_base := Tvec_base {
  running_timer : option tid;
  timer_jiffies : Z;
  next_timer : Z;
  tv1 : list (list tid);
  tv2 : list (list tid);
  tv3 : list (list tid);
  tv4 : list (list tid);
  tv5 : list (list tid);
  work_list : option (list tid)
}.

(** The system: the timers of all drivers, the [tvec_base] of every processor, the
    clock, and the timer functions called so far, the latest first, each with its
    timer, the function and the argument. *)
Record system := System {
  timers : gmap tid timer_list;
  bases : list tvec_base;
  jiffies : Z;
  calls : list (tid * Z * Z)
}.

(** Names of the five arrays of a [tvec_base]. *)
Inductive tvec_name := TV1 | TV2 | TV3 | TV4 | TV5.

#[export] Instance tvec_name_eq_dec : EqDecision tvec_name.
Proof. solve_decision. Defined.

Definition tv (n : tvec_name) (b : tvec_base) : list (list tid) :=
  match n with
  | TV1 => tv1 b | TV2 => tv2 b | TV3 => tv3 b | TV4 => tv4 b | TV5 => tv5 b
  end.

Definition set_tv (n : tvec_name) (v : list (list tid)) (b : tvec_base) : tvec_base :=
  let '(Tvec_base r j x v1 v2 v3 v4 v5 w) := b in
  match n with
  | TV1 => Tvec_base r j x v v2 v3 v4 v5 w
  | TV2 => Tvec_base r j x v1 v v3 v4 v5 w
  | TV3 => Tvec_base r j x v1 v2 v v4 v5 w
  | TV4 => Tvec_base r j x v1 v2 v3 v v5 w
  | TV5 => Tvec_base r j x v1 v2 v3 v4 v w
  end.

Definition set_running_timer (r : option tid) (b : tvec_base) : tvec_base :=
  Tvec_base r (timer_jiffies b) (next_timer b) (tv1 b) (tv2 b) (tv3 b) (tv4 b) (tv5 b)
    (work_list b).
Definition set_timer_jiffies (j : Z) (b : tvec_base) : tvec_base :=
  Tvec_base (running_timer b) j (next_timer b) (tv1 b) (tv2 b) (tv3 b) (tv4 b) (tv5 b)
    (work_list b).
Definition set_next_timer (x : Z) (b : tvec_base) : tvec_base :=
  Tvec_base (running_timer b) (timer_jiffies b) x (tv1 b) (tv2 b) (tv3 b) (tv4 b) (tv5 b)
    (work_list b).
Definition set_work_list (w : option (list tid)) (b : tvec_base) : tvec_base :=
  Tvec_base (running_timer b) (timer_jiffies b) (next_timer b) (tv1 b) (tv2 b) (tv3 b)
    (tv4 b) (tv5 b) w.

Definition set_pending (p : bool) (x : timer_list) : timer_list :=
  Timer p (expires x) (base x) (deferrable x) (function x) (data x) (slack x).
Definition set_expires (e : Z) (x : timer_list) : timer_list :=
  Timer (pending x) e (base x) (deferrable x) (function x) (data x) (slack x).
Definition timer_set_base (c : nat) (x : timer_list) : timer_list :=
  Timer (pending x) (expires x) c (deferrable x) (function x) (data x) (slack x).
Definition set_slack (z : Z) (x : timer_list) : timer_list :=
  Timer (pending x) (expires x) (base x) (deferrable x) (function x) (data x) z.

(** Access to a timer or a base that does not exist is undefined. *)
Definition timer (t : tid) : M system timer_list :=
  s ← get; lift_opt (timers s !! t).
Definition on_timer (t : tid) (f : timer_list -> timer_list) : M system unit :=
  modify (fun s => System (alter f t (timers s)) (bases s) (jiffies s) (calls s)).
Definition per_cpu (c : nat) : M system tvec_base :=
  s ← get; lift_opt (bases s !! c).
Definition on_base (c : nat) (f : tvec_base -> tvec_base) : M system unit :=
  modify (fun s => System (timers s) (alter f c (bases s)) (jiffies s) (calls s)).

(** [BUG_ON]. *)
Definition BUG_ON (b : bool) : M system unit := if b then ub else mret tt.

(** ** Slots *)

(** [INIT_LIST_HEAD] of every slot; [init_timers_cpu]. *)
Definition init_timers_cpu (now : Z) : tvec_base :=
  let empty n := replicate (Z.to_nat n) ([] : list tid) in
  Tvec_base None now now (empty TVR_SIZE) (empty TVN_SIZE) (empty TVN_SIZE) (empty TVN_SIZE)
    (empty TVN_SIZE) None.

(** The list [internal_add_timer] chooses. *)
Definition timer_vec (timer_jiffies expires : Z) : tvec_name * nat :=
  let idx := u32 (expires - timer_jiffies) in
  if idx <? TVR_SIZE then (TV1, Z.to_nat (Z.land expires TVR_MASK))
  else if idx <? Z.shiftl 1 (TVR_BITS + TVN_BITS) then
    (TV2, Z.to_nat (Z.land (Z.shiftr expires TVR_BITS) TVN_MASK))
  else if idx <? Z.shiftl 1 (TVR_BITS + 2 * TVN_BITS) then
    (TV3, Z.to_nat (Z.land (Z.shiftr expires (TVR_BITS + TVN_BITS)) TVN_MASK))
  else if idx <? Z.shiftl 1 (TVR_BITS + 3 * TVN_BITS) then
    (TV4, Z.to_nat (Z.land (Z.shiftr expires (TVR_BITS + 2 * TVN_BITS)) TVN_MASK))
  else if s32 idx <? 0 then (TV1, Z.to_nat (Z.land timer_jiffies TVR_MASK))
  else
    let expires := if 0xffffffff <? idx then u32 (0xffffffff + timer_jiffies) else expires in
    (TV5, Z.to_nat (Z.land (Z.shiftr expires (TVR_BITS + 3 * TVN_BITS)) TVN_MASK)).

(** [list_add_tail] of a timer to a slot. *)
Definition vec_add_tail (n : tvec_name) (i : nat) (t : tid) (b : tvec_base) : tvec_base :=
  set_tv n (alter (fun l => l ++ [t]) i (tv n b)) b.

(** [list_replace_init] of a slot: its timers move to another head. *)
Definition vec_replace_init (n : tvec_name) (i : nat) (b : tvec_base) : list tid * tvec_base :=
  (tv n b !!! i, set_tv n (<[i := []]> (tv n b)) b).

(** [__list_del] of a timer's entry: the list it is on, a slot or the work list,
    loses it. *)
Definition list_del (t : tid) (b : tvec_base) : tvec_base :=
  let del := filter (fun x => x <> t) in
  Tvec_base (running_timer b) (timer_jiffies b) (next_timer b)
    (del <$> tv1 b) (del <$> tv2 b) (del <$> tv3 b) (del <$> tv4 b) (del <$> tv5 b)
    (del <$> work_list b).

(** ** Operations *)

Definition internal_add_timer (c : nat) (t : tid) : M system unit :=
  b ← per_cpu c;
  x ← timer t;
  let '(n, i) := timer_vec (timer_jiffies b) (expires x) in
  on_base c (vec_add_tail n i t);;
  on_timer t (set_pending true).

Definition detach_timer (t : tid) (clear_pending : bool) : M system unit :=
  x ← timer t;
  on_base (base x) (list_del t);;
  if clear_pending then on_timer t (set_pending false) else mret tt.

(** [init_timer_key] on processor [cpu], with the fields a driver sets itself. A
    pending timer must not be initialised: its entry would stay in a list. *)
Definition init_timer (t : tid) (cpu : nat) (e fn d : Z) (defer : bool) : M system unit :=
  s ← get;
  BUG_ON (match timers s !! t with Some x => pending x | None => false end);;
  _ ← per_cpu cpu;
  put (System (<[t := Timer false e cpu defer fn d (-1)]> (timers s)) (bases s) (jiffies s)
         (calls s)).

(** A timer that is removed and was the next to expire: the time of the next one
    is to be looked for again. *)
Definition forget_next (x : timer_list) : M system unit :=
  b ← per_cpu (base x);
  if (expires x =? next_timer b) && negb (deferrable x)
  then on_base (base x) (set_next_timer (timer_jiffies b)) else mret tt.

Definition note_next (c : nat) (x : timer_list) : M system unit :=
  b ← per_cpu c;
  if time_before (expires x) (next_timer b) && negb (deferrable x)
  then on_base c (set_next_timer (expires x)) else mret tt.

(** The processor a timer is to be armed on: the current one, or the one the
    scheduler names when the current one is idle and the timer is not pinned
    ([migrate], None if the timer is to stay). *)
Definition target_cpu (pinned : bool) (cpu : nat) (migrate : option nat) : nat :=
  if pinned then cpu else default cpu migrate.

Definition __mod_timer (t : tid) (e : Z) (pending_only pinned : bool) (cpu : nat)
    (migrate : option nat) : M system Z :=
  x ← timer t;
  BUG_ON (function x =? 0);;
  b ← per_cpu (base x);
  if negb (pending x) && pending_only then mret 0
  else
    (if pending x then detach_timer t false;; forget_next x else mret tt);;
    let new_base := target_cpu pinned cpu migrate in
    (if negb (bool_decide (base x = new_base)) &&
        negb (bool_decide (running_timer b = Some t))
     then _ ← per_cpu new_base; on_timer t (timer_set_base new_base)
     else mret tt);;
    on_timer t (set_expires e);;
    x' ← timer t;
    note_next (base x') x';;
    internal_add_timer (base x') t;;
    mret (if pending x then 1 else 0).

Definition mod_timer_pending (t : tid) (e : Z) (cpu : nat) (migrate : option nat) : M system Z :=
  __mod_timer t e true false cpu migrate.

(** [apply_slack]: [find_last_bit] is the number of the highest bit set. *)
Definition expires_limit (now : Z) (x : timer_list) (e : Z) : Z :=
  if 0 <=? slack x then u32 (e + slack x)
  else if time_after e now then u32 (e + u32 (e - now) / 256)
  else e.

Definition apply_slack (now : Z) (x : timer_list) (e : Z) : Z :=
  let limit := expires_limit now x e in
  let mask := Z.lxor e limit in
  if mask =? 0 then e
  else
    let bit := Z.log2 mask in
    let mask := u32 (Z.shiftl 1 bit - 1) in
    Z.land limit (not32 mask).

Definition mod_timer (t : tid) (e : Z) (cpu : nat) (migrate : option nat) : M system Z :=
  x ← timer t;
  if pending x && (expires x =? e) then mret 1
  else
    now ← gets jiffies;
    __mod_timer t (apply_slack now x e) false false cpu migrate.

Definition mod_timer_pinned (t : tid) (e : Z) (cpu : nat) : M system Z :=
  x ← timer t;
  if (expires x =? e) && pending x then mret 1 else __mod_timer t e false true cpu None.

Definition add_timer (t : tid) (cpu : nat) (migrate : option nat) : M system unit :=
  x ← timer t;
  BUG_ON (pending x);;
  _ ← mod_timer t (expires x) cpu migrate;
  mret tt.

Definition add_timer_on (t : tid) (cpu : nat) : M system unit :=
  x ← timer t;
  BUG_ON (pending x || (function x =? 0));;
  _ ← per_cpu cpu;
  on_timer t (timer_set_base cpu);;
  note_next cpu x;;
  internal_add_timer cpu t.

Definition del_timer (t : tid) : M system Z :=
  x ← timer t;
  if pending x then detach_timer t true;; forget_next x;; mret 1 else mret 0.

(** Returns -1 while the timer's function may still be running. *)
Definition try_to_del_timer_sync (t : tid) : M system Z :=
  x ← timer t;
  b ← per_cpu (base x);
  if bool_decide (running_timer b = Some t) then mret (-1) else del_timer t.

(** [del_timer_sync] tries again until it succeeds; [turns] are the steps the other
    processors take between two attempts, and None means it is still waiting. *)
Fixpoint del_timer_sync (turns : list (M system unit)) (t : tid) : M system (option Z) :=
  r ← try_to_del_timer_sync t;
  if 0 <=? r then mret (Some r)
  else
    match turns with
    | [] => mret None
    | m :: turns' => m;; del_timer_sync turns' t
    end.

(** ** Running timers *)

(** The loop of [cascade] over the list it took. *)
Fixpoint cascade_loop (c : nat) (tv_list : list tid) : M system unit :=
  match tv_list with
  | [] => mret tt
  | t :: rest =>
      x ← timer t;
      BUG_ON (negb (bool_decide (base x = c)));;
      internal_add_timer c t;;
      cascade_loop c rest
  end.

Definition cascade (c : nat) (n : tvec_name) (index : Z) : M system Z :=
  b ← per_cpu c;
  let '(tv_list, b') := vec_replace_init n (Z.to_nat index) b in
  on_base c (fun _ => b');;
  cascade_loop c tv_list;;
  mret index.

Definition INDEX (timer_jiffies N : Z) : Z :=
  Z.land (Z.shiftr timer_jiffies (TVR_BITS + N * TVN_BITS)) TVN_MASK.

(** The cascading of [__run_timers]: [!index && !cascade(..) && ..]. *)
Definition cascade_all (c : nat) (j index : Z) : M system unit :=
  if negb (index =? 0) then mret tt
  else
    r2 ← cascade c TV2 (INDEX j 0);
    if negb (r2 =? 0) then mret tt
    else
      r3 ← cascade c TV3 (INDEX j 1);
      if negb (r3 =? 0) then mret tt
      else
        r4 ← cascade c TV4 (INDEX j 2);
        if negb (r4 =? 0) then mret tt
        else _ ← cascade c TV5 (INDEX j 3); mret tt.

(** The body of the outer loop: the timers of one tick become the work list. *)
Definition run_tick (c : nat) : M system unit :=
  b ← per_cpu c;
  let j := timer_jiffies b in
  let index := Z.land j TVR_MASK in
  cascade_all c j index;;
  on_base c (fun b =>
    let b := set_timer_jiffies (u32 (timer_jiffies b + 1)) b in
    let '(l, b) := vec_replace_init TV1 (Z.to_nat index) b in
    set_work_list (Some l) b).

(** The body of the inner loop, up to the call of the timer's function. *)
Definition run_timer (c : nat) (t : tid) : M system unit :=
  x ← timer t;
  on_base c (set_running_timer (Some t));;
  detach_timer t true;;
  modify (fun s => System (timers s) (bases s) (jiffies s)
                     ((t, function x, data x) :: calls s)).

(** [run_timer_softirq] enters [__run_timers] if there is something to do; on a
    processor it does not interrupt itself. *)
Definition run_timer_softirq (c : nat) : M system unit :=
  b ← per_cpu c;
  now ← gets jiffies;
  BUG_ON (bool_decide (is_Some (work_list b)));;
  if time_after_eq now (timer_jiffies b) then on_base c (set_work_list (Some [])) else mret tt.

(** One iteration of the loops of [__run_timers]: the next timer of the work list,
    or, when it is empty, the next tick or the end. *)
Definition run_step (c : nat) : M system unit :=
  b ← per_cpu c;
  now ← gets jiffies;
  match work_list b with
  | None => mret tt
  | Some (t :: _) => run_timer c t
  | Some [] =>
      if time_after_eq now (timer_jiffies b) then run_tick c
      else on_base c (fun b => set_work_list None (set_running_timer None b))
  end.

(** [__run_timers] with [steps] iterations at most; [fn] is what the function of a
    timer does to the timers when it is called. *)
Fixpoint __run_timers (fn : tid -> M system unit) (steps : nat) (c : nat) : M system unit :=
  match steps with
  | O => mret tt
  | S steps' =>
      b ← per_cpu c;
      run_step c;;
      match work_list b with
      | None => mret tt
      | Some (t :: _) => fn t;; __run_timers fn steps' c
      | Some [] => __run_timers fn steps' c
      end
  end.

(** The clock interrupt: [do_timer]. *)
Definition do_timer : M system unit :=
  modify (fun s => System (timers s) (bases s) (u32 (jiffies s + 1)) (calls s)).

(** A processor comes up: [timer_cpu_notify] with [CPU_UP_PREPARE]. *)
Definition timer_cpu_up : M system unit :=
  modify (fun s => System (timers s) (bases s ++ [init_timers_cpu (jiffies s)]) (jiffies s)
                     (calls s)).

(** The kernel before the first processor is up; the clock starts at [j]. *)
Definition boot (j : Z) : system := System ∅ [] j [].

(** ** Events

    What drivers and processors do, one at a time. *)
Inductive event :=
| EvInit (t : tid) (cpu : nat) (e fn d : Z) (defer : bool)
| EvSetExpires (t : tid) (e : Z)
| EvSetSlack (t : tid) (z : Z)
| EvAdd (t : tid) (cpu : nat) (migrate : option nat)
| EvAddOn (t : tid) (cpu : nat)
| EvMod (t : tid) (e : Z) (cpu : nat) (migrate : option nat)
| EvModPending (t : tid) (e : Z) (cpu : nat) (migrate : option nat)
| EvModPinned (t : tid) (e : Z) (cpu : nat)
| EvDel (t : tid)
| EvTryDel (t : tid)
| EvSoftirq (cpu : nat)
| EvRun (cpu : nat)
| EvTick
| EvCpuUp.

(** A driver sets the [expires] field itself only before it adds the timer. *)
Definition handle (ev : event) : M system Z :=
  match ev with
  | EvInit t cpu e fn d defer => init_timer t cpu (u32 e) fn d defer;; mret 0
  | EvSetExpires t e =>
      x ← timer t; BUG_ON (pending x);; on_timer t (set_expires (u32 e));; mret 0
  | EvSetSlack t z => x ← timer t; on_timer t (set_slack (s32 z));; mret 0
  | EvAdd t cpu m => add_timer t cpu m;; mret 0
  | EvAddOn t cpu => add_timer_on t cpu;; mret 0
  | EvMod t e cpu m => mod_timer t (u32 e) cpu m
  | EvModPending t e cpu m => mod_timer_pending t (u32 e) cpu m
  | EvModPinned t e cpu => mod_timer_pinned t (u32 e) cpu
  | EvDel t => del_timer t
  | EvTryDel t => try_to_del_timer_sync t
  | EvSoftirq c => run_timer_softirq c;; mret 0
  | EvRun c => run_step c;; mret 0
  | EvTick => do_timer;; mret 0
  | EvCpuUp => timer_cpu_up;; mret 0
  end.
