(* ===== verification/TimerSpec.v ===== *)
(** * What the timer wheel promises

    The reference the wheel of Timer is compared with: every processor keeps one
    set of armed timers, and at each tick it looks through the whole set for the
    ones whose time has come. The operations are those of Timer with the set in
    the place of the five arrays; nothing is cascaded. TimerProps proves that the
    wheel does exactly this. *)

From S2P Require Import Prelude Timer.

Record sbase := SBase {
  s_running : option tid;
  s_tick : Z;
  s_next : Z;
  s_queue : gset tid;
  s_work : option (gset tid)
}.

Record ssystem := SSystem {
  s_timers : gmap tid timer_list;
  s_bases : list sbase;
  s_now : Z;
  s_calls : list (tid * Z * Z)
}.

Definition s_timer (t : tid) : M ssystem timer_list :=
  q ← get; lift_opt (s_timers q !! t).
Definition s_on_timer (t : tid) (f : timer_list -> timer_list) : M ssystem unit :=
  modify (fun q => SSystem (alter f t (s_timers q)) (s_bases q) (s_now q) (s_calls q)).
Definition s_cpu (c : nat) : M ssystem sbase :=
  q ← get; lift_opt (s_bases q !! c).
Definition s_on_base (c : nat) (f : sbase -> sbase) : M ssystem unit :=
  modify (fun q => SSystem (s_timers q) (alter f c (s_bases q)) (s_now q) (s_calls q)).
Definition s_bug (b : bool) : M ssystem unit := if b then ub else mret tt.

Definition s_set_next (x : Z) (b : sbase) : sbase :=
  SBase (s_running b) (s_tick b) x (s_queue b) (s_work b).
Definition s_set_running (r : option tid) (b : sbase) : sbase :=
  SBase r (s_tick b) (s_next b) (s_queue b) (s_work b).
Definition s_set_work (w : option (gset tid)) (b : sbase) : sbase :=
  SBase (s_running b) (s_tick b) (s_next b) (s_queue b) w.
Definition s_insert (t : tid) (b : sbase) : sbase :=
  SBase (s_running b) (s_tick b) (s_next b) ({[t]} ∪ s_queue b) (s_work b).
Definition s_remove (t : tid) (b : sbase) : sbase :=
  SBase (s_running b) (s_tick b) (s_next b) (s_queue b ∖ {[t]})
    ((fun w => w ∖ {[t]}) <$> s_work b).

(** A timer's time has come at tick [now]. *)
Definition expired (ts : gmap tid timer_list) (now : Z) (t : tid) : bool :=
  match ts !! t with Some x => s32 (expires x - now) <=? 0 | None => false end.

(** One tick: the timers whose time has come are to be run. *)
Definition s_advance (ts : gmap tid timer_list) (b : sbase) : sbase :=
  let due := filter (fun t => expired ts (s_tick b) t = true) (s_queue b) in
  SBase (s_running b) (u32 (s_tick b + 1)) (s_next b) (s_queue b ∖ due) (Some due).

Definition s_add (c : nat) (t : tid) : M ssystem unit :=
  _ ← s_cpu c; x ← s_timer t; s_on_base c (s_insert t);; s_on_timer t (set_pending true).

Definition s_detach (t : tid) (clear_pending : bool) : M ssystem unit :=
  x ← s_timer t;
  s_on_base (base x) (s_remove t);;
  if clear_pending then s_on_timer t (set_pending false) else mret tt.

Definition s_init_timer (t : tid) (cpu : nat) (e fn d : Z) (defer : bool) : M ssystem unit :=
  q ← get;
  s_bug (match s_timers q !! t with Some x => pending x | None => false end);;
  _ ← s_cpu cpu;
  put (SSystem (<[t := Timer false e cpu defer fn d (-1)]> (s_timers q)) (s_bases q) (s_now q)
         (s_calls q)).

Definition s_forget_next (x : timer_list) : M ssystem unit :=
  b ← s_cpu (base x);
  if (expires x =? s_next b) && negb (deferrable x)
  then s_on_base (base x) (s_set_next (s_tick b)) else mret tt.

Definition s_note_next (c : nat) (x : timer_list) : M ssystem unit :=
  b ← s_cpu c;
  if time_before (expires x) (s_next b) && negb (deferrable x)
  then s_on_base c (s_set_next (expires x)) else mret tt.

(** Arming a timer for time [e], taking it off where it was. *)
Definition s_arm (t : tid) (e : Z) (pending_only pinned : bool) (cpu : nat)
    (migrate : option nat) : M ssystem Z :=
  x ← s_timer t;
  s_bug (function x =? 0);;
  b ← s_cpu (base x);
  if negb (pending x) && pending_only then mret 0
  else
    (if pending x then s_detach t false;; s_forget_next x else mret tt);;
    let new_base := target_cpu pinned cpu migrate in
    (if negb (bool_decide (base x = new_base)) && negb (bool_decide (s_running b = Some t))
     then _ ← s_cpu new_base; s_on_timer t (timer_set_base new_base)
     else mret tt);;
    s_on_timer t (set_expires e);;
    x' ← s_timer t;
    s_note_next (base x') x';;
    s_add (base x') t;;
    mret (if pending x then 1 else 0).

Definition s_mod_timer (t : tid) (e : Z) (cpu : nat) (migrate : option nat) : M ssystem Z :=
  x ← s_timer t;
  if pending x && (expires x =? e) then mret 1
  else now ← gets s_now; s_arm t (apply_slack now x e) false false cpu migrate.

Definition s_mod_timer_pinned (t : tid) (e : Z) (cpu : nat) : M ssystem Z :=
  x ← s_timer t;
  if (expires x =? e) && pending x then mret 1 else s_arm t e false true cpu None.

Definition s_add_timer (t : tid) (cpu : nat) (migrate : option nat) : M ssystem unit :=
  x ← s_timer t;
  s_bug (pending x);;
  _ ← s_mod_timer t (expires x) cpu migrate;
  mret tt.

Definition s_add_timer_on (t : tid) (cpu : nat) : M ssystem unit :=
  x ← s_timer t;
  s_bug (pending x || (function x =? 0));;
  _ ← s_cpu cpu;
  s_on_timer t (timer_set_base cpu);;
  s_note_next cpu x;;
  s_add cpu t.

Definition s_del_timer (t : tid) : M ssystem Z :=
  x ← s_timer t;
  if pending x then s_detach t true;; s_forget_next x;; mret 1 else mret 0.

Definition s_try_to_del_timer_sync (t : tid) : M ssystem Z :=
  x ← s_timer t;
  b ← s_cpu (base x);
  if bool_decide (s_running b = Some t) then mret (-1) else s_del_timer t.

Definition s_run_tick (c : nat) : M ssystem unit :=
  _ ← s_cpu c;
  q ← get;
  s_on_base c (s_advance (s_timers q)).

Definition s_run_timer (c : nat) (t : tid) : M ssystem unit :=
  x ← s_timer t;
  s_on_base c (s_set_running (Some t));;
  s_detach t true;;
  modify (fun q => SSystem (s_timers q) (s_bases q) (s_now q)
                     ((t, function x, data x) :: s_calls q)).

Definition s_softirq (c : nat) : M ssystem unit :=
  b ← s_cpu c;
  now ← gets s_now;
  s_bug (bool_decide (is_Some (s_work b)));;
  if time_after_eq now (s_tick b) then s_on_base c (s_set_work (Some ∅)) else mret tt.

(** One iteration of [__run_timers]. The timers of one tick are run in an order the
    set does not fix; [pick] is the next one, and must be one of them. *)
Definition s_run_step (pick : option tid) (c : nat) : M ssystem unit :=
  b ← s_cpu c;
  now ← gets s_now;
  match s_work b, pick with
  | None, _ => mret tt
  | Some w, Some t => if bool_decide (t ∈ w) then s_run_timer c t else ub
  | Some w, None =>
      if bool_decide (w = ∅) then
        if time_after_eq now (s_tick b) then s_run_tick c
        else s_on_base c (fun b => s_set_work None (s_set_running None b))
      else ub
  end.

Definition s_handle (pick : option tid) (ev : event) : M ssystem Z :=
  match ev with
  | EvInit t cpu e fn d defer => s_init_timer t cpu (u32 e) fn d defer;; mret 0
  | EvSetExpires t e =>
      x ← s_timer t; s_bug (pending x);; s_on_timer t (set_expires (u32 e));; mret 0
  | EvSetSlack t z => x ← s_timer t; s_on_timer t (set_slack (s32 z));; mret 0
  | EvAdd t cpu m => s_add_timer t cpu m;; mret 0
  | EvAddOn t cpu => s_add_timer_on t cpu;; mret 0
  | EvMod t e cpu m => s_mod_timer t (u32 e) cpu m
  | EvModPending t e cpu m => s_arm t (u32 e) true false cpu m
  | EvModPinned t e cpu => s_mod_timer_pinned t (u32 e) cpu
  | EvDel t => s_del_timer t
  | EvTryDel t => s_try_to_del_timer_sync t
  | EvSoftirq c => s_softirq c;; mret 0
  | EvRun c => s_run_step pick c;; mret 0
  | EvTick =>
      modify (fun q => SSystem (s_timers q) (s_bases q) (u32 (s_now q + 1)) (s_calls q));; mret 0
  | EvCpuUp =>
      modify (fun q => SSystem (s_timers q) (s_bases q ++ [SBase None (s_now q) (s_now q) ∅ None])
                         (s_now q) (s_calls q));; mret 0
  end.
