(* ===== verification/TimerInv.v ===== *)
(** * The timer wheel: its invariant

    Where a timer may lie in the arrays of Timer ([placed]), the invariant of a
    processor's wheel and of the system ([base_ok], [inv]), that adding, removing
    and cascading timers keep it, and that the slot taken at a tick holds exactly
    the timers whose time has come. *)

From S2P Require Import Prelude Timer TimerSpec.

(** ** Where a timer lies *)

(** Ticks per slot of an array, and its number of slots. *)
Definition unit_of (n : tvec_name) : Z :=
  match n with
  | TV1 => 1 | TV2 => 2 ^ 8 | TV3 => 2 ^ 14 | TV4 => 2 ^ 20 | TV5 => 2 ^ 26
  end.
Definition slots_of (n : tvec_name) : Z := match n with TV1 => 2 ^ 8 | _ => 2 ^ 6 end.

(** Ticks from [j] to [e], around the clock. *)
Definition delta (j e : Z) : Z := u32 (e - j).

(** A timer that expires at [e] may lie in slot [i] of array [n] when the next tick
    to be run is [j]. A slot of an outer array is cascaded at the tick where its
    first timer can be due, so the timer must not be due before that. *)
Definition placed (j e : Z) (n : tvec_name) (i : nat) : Prop :=
  match n with
  | TV1 => (Z.of_nat i = e mod 2 ^ 8 /\ delta j e < 2 ^ 8) \/
           (Z.of_nat i = j mod 2 ^ 8 /\ 2 ^ 31 <= delta j e)
  | _ => Z.of_nat i = (e / unit_of n) mod 2 ^ 6 /\ e mod unit_of n <= delta j e /\
         delta j e < 2 ^ 6 * unit_of n /\ delta j e < 2 ^ 31
  end.

(** The same after the cascading of tick [j]: what is left in the outer arrays is
    due later. *)
Definition settled (j e : Z) (n : tvec_name) (i : nat) : Prop :=
  placed j e n i /\ (n <> TV1 -> e mod unit_of n < delta j e).

Lemma delta_cases j e : is_u32 j -> is_u32 e ->
  delta j e = e - j \/ delta j e = e - j + 2 ^ 32.
Proof.
  unfold is_u32, delta, u32; intros.
  destruct (Z_lt_le_dec e j).
  - right. rewrite <- (Z_mod_plus_full _ 1). apply Z.mod_small; lia.
  - left. apply Z.mod_small; lia.
Qed.

Lemma delta_range j e : 0 <= delta j e < 2 ^ 32.
Proof. apply u32_range. Qed.

Lemma delta_next j e : is_u32 j -> is_u32 e -> delta j e <> 0 ->
  delta (u32 (j + 1)) e = delta j e - 1.
Proof.
  intros. unfold delta, u32.
  rewrite Zminus_mod_idemp_r.
  replace (e - (j + 1)) with (e - j - 1) by lia.
  pose proof (delta_range j e) as Hr. unfold delta, u32 in Hr, H1.
  rewrite <- (Zminus_mod_idemp_l (e - j)).
  set (d := (e - j) mod 2 ^ 32) in *. apply Z.mod_small. lia.
Qed.

Lemma delta_zero j e : is_u32 j -> is_u32 e -> delta j e = 0 <-> e = j.
Proof.
  intros Hj He. pose proof (delta_cases j e Hj He). pose proof (delta_range j e).
  unfold is_u32 in *. lia.
Qed.

Lemma s32_delta j e : is_u32 j -> is_u32 e ->
  s32 (e - j) = if delta j e <? 2 ^ 31 then delta j e else delta j e - 2 ^ 32.
Proof.
  intros Hj He. unfold s32, delta, u32.
  rewrite <- (Zplus_mod_idemp_l (e - j)).
  pose proof (delta_range j e) as Hr. unfold delta, u32 in Hr.
  set (d := (e - j) mod 2 ^ 32) in *.
  destruct (Z.ltb_spec d (2 ^ 31)).
  - rewrite Z.mod_small by lia. lia.
  - rewrite <- (Z_mod_plus_full _ (-1)), Z.mod_small by lia. lia.
Qed.

Lemma shr_land k z : 0 <= k -> Z.land (Z.shiftr z k) TVN_MASK = (z / 2 ^ k) mod 2 ^ 6.
Proof. intros. rewrite Z.shiftr_div_pow2 by lia. change TVN_MASK with (2 ^ 6 - 1). apply land_low; lia. Qed.

Lemma land_tvr z : Z.land z TVR_MASK = z mod 2 ^ 8.
Proof. change TVR_MASK with (2 ^ 8 - 1). apply land_low; lia. Qed.

Lemma s32_sign z : 0 <= z < 2 ^ 32 -> (s32 z <? 0) = (2 ^ 31 <=? z).
Proof.
  intros. pose proof (s32_delta 0 z ltac:(unfold is_u32; lia) ltac:(unfold is_u32; lia)) as Hs.
  unfold delta in Hs. rewrite Z.sub_0_r, u32_small in Hs by lia. rewrite Hs.
  destruct (Z.ltb_spec z (2 ^ 31)); destruct (Z.leb_spec (2 ^ 31) z); lia.
Qed.

Lemma mod_lt a n : 0 < n -> 0 <= a mod n < n.
Proof. apply Z.mod_pos_bound. Qed.

(** The slot a timer is put in is one it may lie in. *)
Lemma timer_vec_settled j e n i : is_u32 j -> is_u32 e -> timer_vec j e = (n, i) ->
  settled j e n i /\ Z.of_nat i < slots_of n.
Proof.
  intros Hj He. unfold timer_vec. cbv zeta. fold (delta j e).
  pose proof (delta_range j e) as Hd.
  rewrite !shr_land, !land_tvr by (unfold TVR_BITS, TVN_BITS; lia).
  rewrite s32_sign by lia.
  change TVR_SIZE with (2 ^ 8). change (Z.shiftl 1 (TVR_BITS + TVN_BITS)) with (2 ^ 14).
  change (Z.shiftl 1 (TVR_BITS + 2 * TVN_BITS)) with (2 ^ 20).
  change (Z.shiftl 1 (TVR_BITS + 3 * TVN_BITS)) with (2 ^ 26).
  change (TVR_BITS + TVN_BITS) with 14. change (TVR_BITS + 2 * TVN_BITS) with 20.
  change (TVR_BITS + 3 * TVN_BITS) with 26. unfold TVR_BITS.
  replace (0xffffffff <? delta j e) with false by (symmetry; apply Z.ltb_ge; lia).
  pose proof (mod_lt e (2 ^ 8)). pose proof (mod_lt j (2 ^ 8)).
  pose proof (fun k => mod_lt (e / k) (2 ^ 6)).
  pose proof (mod_lt e (2 ^ 14)). pose proof (mod_lt e (2 ^ 20)). pose proof (mod_lt e (2 ^ 26)).
  repeat match goal with
  | |- context [if ?a <? ?b then _ else _] => destruct (Z.ltb_spec a b)
  | |- context [if ?a <=? ?b then _ else _] => destruct (Z.leb_spec a b)
  end; intros [= <- <-]; unfold settled, placed, unit_of, slots_of;
    rewrite Z2Nat.id by (first [lia | apply H1; lia]);
    (split; [split|]); try (intros Hn; try done); try lia; try (apply H1; lia).
Qed.

Lemma wrapped_multiple u j e : 0 < u -> (u | 2 ^ 32) -> is_u32 j -> is_u32 e ->
  e mod u = delta j e -> j mod u = 0 /\ j / u = e / u.
Proof.
  intros Hu Hdiv Hj He Hm.
  assert (Hju : j mod u = 0).
  { assert (Hmm : (delta j e) mod u = (e - j) mod u).
    { unfold delta, u32. apply Z.mod_mod_divide, Hdiv. }
    rewrite <- Hm, Z.mod_mod in Hmm by lia.
    pose proof (Z.div_mod e u ltac:(lia)). pose proof (Z.div_mod (e - j) u ltac:(lia)).
    apply Z.mod_divide; [lia|]. exists (e / u - (e - j) / u). nia. }
  split; [exact Hju|].
  pose proof (mod_lt e u Hu). destruct Hdiv as [q Hq].
  pose proof (Z.div_mod j u ltac:(lia)) as Ej. rewrite Hju, Z.add_0_r in Ej.
  pose proof (Z.div_mod e u ltac:(lia)) as Ee.
  destruct (delta_cases j e Hj He) as [Hc | Hc]; unfold is_u32 in *; [nia|].
  exfalso. assert (u * (j / u) = u * (e / u) + 2 ^ 32) by lia.
  assert (u * (e / u) >= 0) by (pose proof (Z.div_pos e u); nia). lia.
Qed.

Lemma unit_divides n : (unit_of n | 2 ^ 32).
Proof.
  destruct n; [exists (2^32)|exists (2^24)|exists (2^18)|exists (2^12)|exists (2^6)]; reflexivity.
Qed.

Lemma unit_pos n : 0 < unit_of n.
Proof. destruct n; reflexivity. Qed.

(** An outer slot that is not the one to be cascaded needs no cascading. *)
Lemma placed_settled j e n i : is_u32 j -> is_u32 e -> placed j e n i ->
  (n <> TV1 -> j mod unit_of n = 0 -> Z.of_nat i <> (j / unit_of n) mod 2 ^ 6) ->
  settled j e n i.
Proof.
  intros Hj He Hp Hn. split; [exact Hp|]. intros Hn1.
  destruct (Z_lt_le_dec (e mod unit_of n) (delta j e)) as [|Hle]; [done|]. exfalso.
  assert (Hp' : Z.of_nat i = (e / unit_of n) mod 2 ^ 6 /\ e mod unit_of n <= delta j e)
    by (destruct n; [done | unfold placed in Hp; tauto ..]).
  destruct (wrapped_multiple (unit_of n) j e (unit_pos n) (unit_divides n) Hj He)
    as [Hz Hq]; [lia|].
  apply (Hn Hn1 Hz). rewrite Hq. tauto.
Qed.

(** The clock moves on. *)
Lemma settled_next j e n i : is_u32 j -> is_u32 e -> settled j e n i ->
  (n = TV1 -> Z.of_nat i <> j mod 2 ^ 8) -> placed (u32 (j + 1)) e n i.
Proof.
  intros Hj He [Hp Hs] Hn. pose proof (delta_range j e).
  assert (Hd : n = TV1 -> delta j e <> 0).
  { intros -> Hz. apply delta_zero in Hz as ->; [|done|done]. unfold placed in Hp.
    specialize (Hn eq_refl). tauto. }
  assert (Hd' : delta j e <> 0).
  { destruct n; [by apply Hd | ..]; specialize (Hs ltac:(done));
      pose proof (mod_lt e (unit_of TV2) (unit_pos _)); pose proof (mod_lt e (unit_of TV3) (unit_pos _));
      pose proof (mod_lt e (unit_of TV4) (unit_pos _)); pose proof (mod_lt e (unit_of TV5) (unit_pos _)); lia. }
  pose proof (delta_next j e Hj He Hd') as Hx.
  destruct n; unfold placed in *; rewrite Hx;
    [| specialize (Hs ltac:(done)); lia ..].
  specialize (Hn eq_refl). left. destruct Hp as [[? ?] | [? ?]]; [lia | tauto].
Qed.

(** The timers of the current slot are the ones whose time has come. *)
Lemma current_slot_expired j e i : is_u32 j -> is_u32 e -> placed j e TV1 i ->
  Z.of_nat i = j mod 2 ^ 8 -> s32 (e - j) <= 0.
Proof.
  intros Hj He Hp Hi. rewrite s32_delta by done.
  pose proof (delta_range j e). destruct Hp as [[Hx Hlt] | [_ Hge]].
  - assert (Hz : delta j e = 0).
    { rewrite Hi in Hx. pose proof (Z.div_mod j (2 ^ 8) ltac:(lia)).
      pose proof (Z.div_mod e (2 ^ 8) ltac:(lia)).
      destruct (delta_cases j e Hj He); lia. }
    rewrite Hz. reflexivity.
  - destruct (Z.ltb_spec (delta j e) (2 ^ 31)); lia.
Qed.

Lemma other_slots_wait j e n i : is_u32 j -> is_u32 e -> settled j e n i ->
  (n = TV1 -> Z.of_nat i <> j mod 2 ^ 8) -> 0 < s32 (e - j).
Proof.
  intros Hj He [Hp Hs] Hn. rewrite s32_delta by done. pose proof (delta_range j e).
  assert (H01 : 0 < delta j e < 2 ^ 31).
  { destruct n; unfold placed in Hp.
    - specialize (Hn eq_refl). destruct Hp as [[? ?] | [? ?]]; [|tauto].
      assert (delta j e <> 0); [|lia]. intros Hz. apply delta_zero in Hz as ->; tauto.
    - pose proof (mod_lt e (2 ^ 8)). specialize (Hs ltac:(done)). unfold unit_of in *. lia.
    - pose proof (mod_lt e (2 ^ 14)). specialize (Hs ltac:(done)). unfold unit_of in *. lia.
    - pose proof (mod_lt e (2 ^ 20)). specialize (Hs ltac:(done)). unfold unit_of in *. lia.
    - pose proof (mod_lt e (2 ^ 26)). specialize (Hs ltac:(done)). unfold unit_of in *. lia. }
  destruct (Z.ltb_spec (delta j e) (2 ^ 31)); lia.
Qed.

(** ** The timers of a processor *)

Definition queued (b : tvec_base) : list tid :=
  mjoin (tv1 b) ++ mjoin (tv2 b) ++ mjoin (tv3 b) ++ mjoin (tv4 b) ++ mjoin (tv5 b).
Definition listed (b : tvec_base) : list tid := queued b ++ default [] (work_list b).

Section Joins.
  Implicit Types (v : list (list tid)) (l : list tid) (t : tid).

Lemma join_take v i l : v !! i = Some l -> mjoin v ≡ₚ l ++ mjoin (<[i := []]> v).
Proof.
  revert i; induction v as [|k v IH]; intros [|i] H; simplify_eq/=; [done|].
  rewrite (IH i H) at 1. by rewrite Permutation_app_swap_app.
Qed.

Lemma join_insert v i l l' : v !! i = Some l -> mjoin (<[i := l']> v) ≡ₚ l' ++ mjoin (<[i := []]> v).
Proof.
  intros H. rewrite (join_take (<[i := l']> v) i l').
  - by rewrite list_insert_insert_eq.
  - apply list_lookup_insert_eq. by eapply lookup_lt_Some.
Qed.

Lemma join_add_tail v i t : (i < length v)%nat ->
  mjoin (alter (fun l => l ++ [t]) i v) ≡ₚ t :: mjoin v.
Proof.
  intros [l H]%lookup_lt_is_Some. rewrite (list_alter_Some _ _ _ _ H).
  rewrite (join_insert v i l _ H), (join_take v i l H). by rewrite <- Permutation_cons_append.
Qed.

Lemma join_filter v t : mjoin (filter (fun x => x <> t) <$> v) = filter (fun x => x <> t) (mjoin v).
Proof. induction v as [|l v IH]; [done|]. cbn. rewrite filter_app. by f_equal. Qed.

End Joins.

Lemma tv_set_same n v b : tv n (set_tv n v b) = v.
Proof. by destruct n, b. Qed.

Lemma tv_set_other n m v b : n <> m -> tv m (set_tv n v b) = tv m b.
Proof. by destruct n, m, b. Qed.

Lemma set_tv_fields n v b :
  timer_jiffies (set_tv n v b) = timer_jiffies b /\ next_timer (set_tv n v b) = next_timer b /\
  running_timer (set_tv n v b) = running_timer b /\ work_list (set_tv n v b) = work_list b.
Proof. by destruct n, b. Qed.

Lemma elem_of_queued t b :
  t ∈ queued b <-> exists n i l, tv n b !! i = Some l /\ t ∈ l.
Proof.
  unfold queued. rewrite !elem_of_app, !list_elem_of_join. split.
  - intros [[l [Hl Hi]]|[[l [Hl Hi]]|[[l [Hl Hi]]|[[l [Hl Hi]]|[l [Hl Hi]]]]]];
      apply list_elem_of_lookup in Hi as [i Hi];
      [exists TV1|exists TV2|exists TV3|exists TV4|exists TV5]; eauto.
  - intros (n & i & l & Hi & Hl). apply list_elem_of_lookup_2 in Hi.
    destruct n; cbn in Hi; eauto 10.
Qed.

Lemma queued_set n v b :
  queued (set_tv n v b) ++ mjoin (tv n b) ≡ₚ queued b ++ mjoin v.
Proof. destruct n, b; cbn; solve_Permutation. Qed.

Lemma queued_add n i t b : (i < length (tv n b))%nat ->
  queued (vec_add_tail n i t b) ≡ₚ t :: queued b.
Proof.
  intros Hi. apply (Permutation_app_inv_r (mjoin (tv n b))). unfold vec_add_tail.
  rewrite queued_set, (join_add_tail _ _ t Hi). solve_Permutation.
Qed.

(** What is in a slot after a timer was added. *)
Lemma lookup_add_tail n i t b m k l u : tv m (vec_add_tail n i t b) !! k = Some l -> u ∈ l ->
  (exists l', tv m b !! k = Some l' /\ u ∈ l') \/ (m = n /\ k = i /\ u = t).
Proof.
  unfold vec_add_tail. intros Hk Hu.
  destruct (decide (n = m)) as [<-|Hm]; [rewrite tv_set_same in Hk | rewrite tv_set_other in Hk by done; eauto].
  rewrite list_lookup_alter in Hk. destruct (decide (i = k)) as [<-|]; [|eauto].
  destruct (tv n b !! i) as [l'|] eqn:E; cbn in Hk; [|done]. injection Hk as <-.
  apply elem_of_app in Hu as [Hu | ->%list_elem_of_singleton]; eauto.
Qed.

Lemma queued_take n i b l : tv n b !! i = Some l ->
  queued b ≡ₚ l ++ queued (set_tv n (<[i := []]> (tv n b)) b).
Proof.
  intros Hi. apply (Permutation_app_inv_r (mjoin (<[i := []]> (tv n b)))).
  rewrite <- queued_set, (join_take _ _ _ Hi). solve_Permutation.
Qed.

Lemma tv_del n t b : tv n (list_del t b) = filter (fun x => x <> t) <$> tv n b.
Proof. by destruct n, b. Qed.

Lemma queued_del t b : queued (list_del t b) = filter (fun x => x <> t) (queued b).
Proof. destruct b. unfold queued; cbn. by rewrite !join_filter, !filter_app. Qed.

Lemma listed_del t b : listed (list_del t b) = filter (fun x => x <> t) (listed b).
Proof.
  unfold listed. rewrite queued_del, filter_app. f_equal. destruct b as [? ? ? ? ? ? ? ? []]; done.
Qed.

(** ** The invariant *)

(** The wheel of processor [c]: the arrays have their sizes, no timer is linked
    twice, a linked timer is pending and belongs to this processor, and it lies
    where it may. *)
Record base_ok (ts : gmap tid timer_list) (c : nat) (b : tvec_base) : Prop := {
  b_size : forall n, Z.of_nat (length (tv n b)) = slots_of n;
  b_tick : is_u32 (timer_jiffies b);
  b_nodup : NoDup (listed b);
  b_owner : forall t, t ∈ listed b ->
      exists x, ts !! t = Some x /\ pending x = true /\ base x = c;
  b_place : forall n i l t x, tv n b !! i = Some l -> t ∈ l -> ts !! t = Some x ->
      placed (timer_jiffies b) (expires x) n i
}.

(** The system: every pending timer is linked, except the one an operation has in
    hand ([hand]). *)
Record inv (hand : option tid) (s : system) : Prop := {
  i_bases : forall c b, bases s !! c = Some b -> base_ok (timers s) c b;
  i_timers : forall t x, timers s !! t = Some x ->
      is_u32 (expires x) /\ exists b, bases s !! base x = Some b;
  i_pending : forall t x b, hand <> Some t -> timers s !! t = Some x -> pending x = true ->
      bases s !! base x = Some b -> t ∈ listed b;
  i_hand : forall t c b, hand = Some t -> bases s !! c = Some b -> t ∉ listed b
}.

(** A timer that is not linked can be changed. *)
Lemma base_ok_timer ts c b t x : t ∉ listed b -> base_ok ts c b -> base_ok (<[t := x]> ts) c b.
Proof.
  intros Hn [H1 H2 H3 H4 H5]. split; [done|done|done| |].
  - intros u Hu. rewrite lookup_insert_ne by (intros ->; done). auto.
  - intros n i l u y Hi Hu. rewrite lookup_insert_ne; [eauto|]. intros <-.
    apply Hn. apply elem_of_app; left. apply elem_of_queued; eauto.
Qed.

(** Two bases with the same lists and the same clock. *)
Lemma base_ok_same ts c b b' :
  (forall n, tv n b' = tv n b) -> timer_jiffies b' = timer_jiffies b ->
  default [] (work_list b') = default [] (work_list b) -> base_ok ts c b -> base_ok ts c b'.
Proof.
  intros Ht Hj Hw [H1 H2 H3 H4 H5].
  assert (Hq : queued b' = queued b).
  { pose proof (Ht TV1). pose proof (Ht TV2). pose proof (Ht TV3). pose proof (Ht TV4).
    pose proof (Ht TV5). cbn [tv] in *. unfold queued. congruence. }
  assert (Hl : listed b' = listed b) by (unfold listed; by rewrite Hq, Hw).
  split; rewrite ?Hj, ?Hl; auto.
  - intros n. by rewrite Ht.
  - intros n i l t x. rewrite Ht. eauto.
Qed.

Lemma base_ok_del ts c b t : base_ok ts c b -> base_ok ts c (list_del t b).
Proof.
  intros [H1 H2 H3 H4 H5]. split; rewrite ?listed_del.
  - intros n. rewrite tv_del, length_fmap. apply H1.
  - by destruct b.
  - by apply NoDup_filter.
  - intros u [? Hu]%list_elem_of_filter. auto.
  - intros n i l u x Hi Hu Hx. rewrite tv_del, list_lookup_fmap in Hi.
    destruct (tv n b !! i) as [l'|] eqn:E; cbn in Hi; [|done]. injection Hi as <-.
    apply list_elem_of_filter in Hu as [_ Hu].
    replace (timer_jiffies (list_del t b)) with (timer_jiffies b) by by destruct b. eauto.
Qed.

Lemma base_ok_add ts c b t x n i : ts !! t = Some x -> pending x = true -> base x = c ->
  is_u32 (expires x) -> timer_vec (timer_jiffies b) (expires x) = (n, i) ->
  t ∉ listed b -> base_ok ts c b -> base_ok ts c (vec_add_tail n i t b).
Proof.
  intros Hx Hp Hb He Hv Hn [H1 H2 H3 H4 H5].
  destruct (timer_vec_settled _ _ _ _ H2 He Hv) as [[Hs _] Hi].
  assert (Hi' : (i < length (tv n b))%nat) by (pose proof (H1 n); lia).
  destruct (set_tv_fields n (alter (fun l => l ++ [t]) i (tv n b)) b) as (Fj & _ & _ & Fw).
  assert (Hl : listed (vec_add_tail n i t b) ≡ₚ t :: listed b).
  { unfold listed, vec_add_tail at 2. rewrite Fw. by rewrite (queued_add n i t b Hi'). }
  split.
  - intros m. unfold vec_add_tail. destruct (decide (n = m)) as [<-|Hm].
    + by rewrite tv_set_same, length_alter.
    + by rewrite tv_set_other.
  - unfold vec_add_tail. by rewrite Fj.
  - rewrite Hl. by constructor.
  - intros u Hu. rewrite Hl in Hu. apply elem_of_cons in Hu as [->|Hu]; eauto.
  - intros m k l u y Hk Hu Hy. fold (vec_add_tail n i t b) in Fj. rewrite Fj.
    destruct (lookup_add_tail _ _ _ _ _ _ _ _ Hk Hu) as [(l' & ? & ?)|(-> & -> & ->)];
      [eauto | by simplify_eq].
Qed.

(** ** Cascading *)

(** Everything in array [n] is due after the slot it is in would be cascaded. *)
Definition settled_in (ts : gmap tid timer_list) (b : tvec_base) (n : tvec_name) : Prop :=
  forall i l t x, tv n b !! i = Some l -> t ∈ l -> ts !! t = Some x ->
    settled (timer_jiffies b) (expires x) n i.

(** [b'] holds the timers of [b] in other slots. *)
Record refiled (ts : gmap tid timer_list) (c : nat) (b b' : tvec_base) : Prop := {
  r_ok : base_ok ts c b';
  r_queued : queued b' ≡ₚ queued b;
  r_tick : timer_jiffies b' = timer_jiffies b;
  r_next : next_timer b' = next_timer b;
  r_running : running_timer b' = running_timer b;
  r_work : work_list b' = work_list b
}.

Definition set_base (c : nat) (b : tvec_base) (s : system) : system :=
  System (timers s) (<[c := b]> (bases s)) (jiffies s) (calls s).

Lemma timer_run t x s : timers s !! t = Some x -> timer t s = Some (x, s).
Proof. intros H. unfold timer. by rewrite bind_unfold, get_run, H. Qed.

Lemma per_cpu_run c b s : bases s !! c = Some b -> per_cpu c s = Some (b, s).
Proof. intros H. unfold per_cpu. by rewrite bind_unfold, get_run, H. Qed.

Lemma on_base_run c f b s : bases s !! c = Some b -> on_base c f s = Some (tt, set_base c (f b) s).
Proof. intros H. unfold on_base, modify, set_base. by rewrite (list_alter_Some _ _ _ _ H). Qed.

Lemma on_timer_run t f x s : timers s !! t = Some x ->
  on_timer t f s = Some (tt, System (<[t := f x]> (timers s)) (bases s) (jiffies s) (calls s)).
Proof. intros H. unfold on_timer, modify. by rewrite (map_alter_Some _ _ _ _ H). Qed.

Lemma set_base_same c b s : bases s !! c = Some b -> set_base c b s = s.
Proof. intros H. destruct s. unfold set_base; cbn in *. by rewrite list_insert_id. Qed.

Lemma set_base_twice c b b' s : set_base c b (set_base c b' s) = set_base c b s.
Proof. unfold set_base; cbn. by rewrite list_insert_insert_eq. Qed.

Lemma set_base_lookup c b b' s : bases s !! c = Some b' -> bases (set_base c b s) !! c = Some b.
Proof. intros H. cbn. apply list_lookup_insert_eq. by eapply lookup_lt_Some. Qed.

Lemma set_base_other c c' b s : c <> c' -> bases (set_base c b s) !! c' = bases s !! c'.
Proof. intros H. cbn. by rewrite list_lookup_insert_ne. Qed.

(** A timer that is linked and pending is put in its slot. *)
Lemma internal_add_run s c b t x n i :
  bases s !! c = Some b -> timers s !! t = Some x ->
  timer_vec (timer_jiffies b) (expires x) = (n, i) ->
  internal_add_timer c t s =
    Some (tt, System (<[t := set_pending true x]> (timers s))
                (<[c := vec_add_tail n i t b]> (bases s)) (jiffies s) (calls s)).
Proof.
  intros Hb Hx Hv. unfold internal_add_timer.
  rewrite bind_unfold, (per_cpu_run c b), bind_unfold, (timer_run t x) by done.
  rewrite Hv, bind_unfold, (on_base_run c _ b) by done. by rewrite (on_timer_run t _ x).
Qed.

Lemma unit_step j n m : unit_of m = unit_of n * 2 ^ 6 ->
  (j mod unit_of m = 0 -> j mod unit_of n = 0) /\
  (j mod unit_of n = 0 -> (j / unit_of n) mod 2 ^ 6 = 0 -> j mod unit_of m = 0) /\
  ((j / unit_of n) mod 2 ^ 6 <> 0 -> j mod unit_of m <> 0).
Proof.
  intros E. pose proof (unit_pos n).
  assert (H1 : j mod unit_of m = j mod unit_of n + unit_of n * ((j / unit_of n) mod 2 ^ 6))
    by (rewrite E; apply Z.rem_mul_r; lia).
  pose proof (mod_lt j (unit_of n) (unit_pos n)). pose proof (mod_lt (j / unit_of n) (2 ^ 6)).
  split_and!; nia.
Qed.

Section Cascade.
  Context (ts : gmap tid timer_list) (c : nat).
  Hypothesis times : forall t x, ts !! t = Some x -> is_u32 (expires x).

(** Timers that are pending on this processor and in none of its lists. *)
Definition loose (b : tvec_base) (l : list tid) : Prop :=
  NoDup l /\ forall t, t ∈ l -> (t ∉ listed b) /\
    exists x, ts !! t = Some x /\ pending x = true /\ base x = c.

(** The loop of [cascade] files loose timers. *)
Lemma cascade_loop_run l : forall s b, timers s = ts -> bases s !! c = Some b ->
  base_ok ts c b -> loose b l ->
  exists b', cascade_loop c l s = Some (tt, set_base c b' s) /\
    base_ok ts c b' /\ (queued b' ≡ₚ l ++ queued b) /\
    timer_jiffies b' = timer_jiffies b /\ next_timer b' = next_timer b /\
    running_timer b' = running_timer b /\ work_list b' = work_list b /\
    forall n, settled_in ts b n -> settled_in ts b' n.
Proof.
  induction l as [|t l IH]; intros s b Ets Hb Hok [Hnd Hl].
  { exists b. rewrite set_base_same by done. cbn. eauto 10. }
  destruct (Hl t) as [Hnl (x & Hx & Hp & Hxc)]; [left|].
  destruct (timer_vec (timer_jiffies b) (expires x)) as [n i] eqn:Hv.
  pose proof (base_ok_add ts c b t x n i Hx Hp Hxc (times _ _ Hx) Hv Hnl Hok) as Hok1.
  destruct (timer_vec_settled _ _ _ _ (b_tick _ _ _ Hok) (times _ _ Hx) Hv) as [Hs Hi].
  assert (Hi' : (i < length (tv n b))%nat) by (pose proof (b_size _ _ _ Hok n); lia).
  pose proof (queued_add n i t b Hi') as Hq.
  destruct (set_tv_fields n (alter (fun l => l ++ [t]) i (tv n b)) b) as (Fj & Fn & Fr & Fw).
  fold (vec_add_tail n i t b) in Fj, Fn, Fr, Fw.
  apply NoDup_cons in Hnd as [Htl Hnd].
  destruct (IH (set_base c (vec_add_tail n i t b) s) (vec_add_tail n i t b))
    as (b' & Hrun & Hok' & Hq' & Ej & En & Er & Ew & Hset); [done| |done| |].
  { by eapply set_base_lookup. }
  { split; [done|]. intros u Hu. destruct (Hl u) as [Hu' Hux]; [by right|]. split; [|done].
    unfold listed. rewrite Hq, Fw. cbn. rewrite not_elem_of_cons. split; [by intros -> | done]. }
  exists b'. split.
  { cbn [cascade_loop]. rewrite bind_unfold, (timer_run t x) by (by rewrite Ets).
    rewrite bool_decide_eq_true_2 by done. cbn [negb BUG_ON]. rewrite bind_unfold, ret_unfold.
    rewrite bind_unfold, (internal_add_run s c b t x n i) by (by rewrite ?Ets).
    rewrite insert_id by (rewrite Ets, Hx; f_equal; destruct x; cbn in *; by subst).
    fold (set_base c (vec_add_tail n i t b) s). rewrite Hrun. by rewrite set_base_twice. }
  split; [done|]. split. { rewrite Hq', Hq. solve_Permutation. }
  split_and!; [congruence..|]. intros m Hm. apply Hset.
  intros k l' u y Hk Hu Hy. rewrite Fj.
  destruct (lookup_add_tail _ _ _ _ _ _ _ _ Hk Hu) as [(l'' & ? & ?)|(-> & -> & ->)];
    [eauto | by simplify_eq].
Qed.

Lemma base_ok_take b n i l : base_ok ts c b -> tv n b !! i = Some l ->
  base_ok ts c (set_tv n (<[i := []]> (tv n b)) b) /\
  loose (set_tv n (<[i := []]> (tv n b)) b) l.
Proof.
  intros [H1 H2 H3 H4 H5] Hi. set (b' := set_tv n (<[i := []]> (tv n b)) b).
  destruct (set_tv_fields n (<[i := []]> (tv n b)) b) as (Fj & _ & _ & Fw). fold b' in Fj, Fw.
  assert (Hl : listed b ≡ₚ l ++ listed b').
  { pose proof (queued_take n i b l Hi) as Hq. fold b' in Hq. unfold listed.
    by rewrite Fw, app_assoc, <- Hq. }
  assert (Hnd : NoDup (l ++ listed b')) by (by rewrite <- Hl).
  apply NoDup_app in Hnd as (Hnd1 & Hdis & Hnd2).
  split; [split|split; [done|]].
  - intros m. subst b'. destruct (decide (n = m)) as [<-|Hm].
    + by rewrite tv_set_same, length_insert.
    + by rewrite tv_set_other.
  - by rewrite Fj.
  - done.
  - intros t Ht. apply H4. rewrite Hl. apply elem_of_app. by right.
  - intros m k l' t x Hk Ht Hx. rewrite Fj. subst b'.
    destruct (decide (n = m)) as [<-|Hm]; [rewrite tv_set_same in Hk | rewrite tv_set_other in Hk by done; eauto].
    apply list_lookup_insert_Some in Hk as [(-> & <- & _) | [_ Hk]]; [by apply not_elem_of_nil in Ht | eauto].
  - intros t Ht. split; [by apply Hdis|]. apply H4. rewrite Hl. apply elem_of_app. by left.
Qed.

(** [cascade] of the slot the clock has reached. *)
Lemma cascade_run s b n : timers s = ts -> bases s !! c = Some b -> base_ok ts c b ->
  n <> TV1 -> timer_jiffies b mod unit_of n = 0 ->
  let index := (timer_jiffies b / unit_of n) mod 2 ^ 6 in
  exists b', cascade c n index s = Some (index, set_base c b' s) /\ refiled ts c b b' /\
    settled_in ts b' n /\ forall m, settled_in ts b m -> settled_in ts b' m.
Proof.
  intros Ets Hb Hok Hn Hm index. set (i := Z.to_nat index).
  assert (Hix : 0 <= index < 2 ^ 6) by (apply mod_lt; lia).
  assert (Hi : (i < length (tv n b))%nat).
  { pose proof (b_size _ _ _ Hok n). unfold i. destruct n; [done | cbn in *; lia ..]. }
  destruct (lookup_lt_is_Some_2 _ _ Hi) as [l Hl].
  destruct (base_ok_take b n i l Hok Hl) as [Hok1 Hloose].
  set (b1 := set_tv n (<[i := []]> (tv n b)) b) in *.
  destruct (set_tv_fields n (<[i := []]> (tv n b)) b) as (Fj & Fn & Fr & Fw). fold b1 in Fj, Fn, Fr, Fw.
  destruct (cascade_loop_run l (set_base c b1 s) b1)
    as (b' & Hrun & Hok' & Hq & Ej & En & Er & Ew & Hset); [done| |done|done|].
  { by eapply set_base_lookup. }
  assert (Hother : forall m, settled_in ts b m -> settled_in ts b1 m).
  { intros m Hs k l' t x Hk Ht Hx. rewrite Fj. unfold b1 in Hk.
    destruct (decide (n = m)) as [<-|Hne]; [rewrite tv_set_same in Hk | rewrite tv_set_other in Hk by done; eauto].
    apply list_lookup_insert_Some in Hk as [(-> & <- & _) | [_ Hk]];
      [by apply not_elem_of_nil in Ht | eauto]. }
  exists b'. split_and!.
  - unfold cascade. rewrite bind_unfold, (per_cpu_run c b) by done.
    unfold vec_replace_init. cbn [fst snd]. fold i. rewrite (list_lookup_total_correct _ _ _ Hl).
    fold b1. rewrite bind_unfold, (on_base_run c _ b) by done.
    rewrite bind_unfold, Hrun, ret_unfold. by rewrite set_base_twice.
  - split; try congruence. pose proof (queued_take n i b l Hl) as Hl'. fold b1 in Hl'. by rewrite Hq.
  - apply Hset. intros k l' t x Hk Ht Hx. rewrite Fj. unfold b1 in Hk. rewrite tv_set_same in Hk.
    apply list_lookup_insert_Some in Hk as [(-> & <- & _) | [Hne Hk]];
      [by apply not_elem_of_nil in Ht|].
    apply placed_settled; [by destruct Hok | eauto | by eapply (b_place _ _ _ Hok) |].
    intros _ _ Heq. apply Hne. unfold i, index. rewrite <- Heq. by rewrite Nat2Z.id.
  - auto.
Qed.

Lemma settled_off b n : base_ok ts c b -> n <> TV1 -> timer_jiffies b mod unit_of n <> 0 ->
  settled_in ts b n.
Proof.
  intros Hok Hn Hm i l t x Hi Ht Hx.
  apply placed_settled; [by destruct Hok | eauto | by eapply (b_place _ _ _ Hok) | done].
Qed.

Lemma settled_tv1 b : base_ok ts c b -> settled_in ts b TV1.
Proof.
  intros Hok i l t x Hi Ht Hx. split; [by eapply (b_place _ _ _ Hok) | done].
Qed.

Lemma refiled_refl b : base_ok ts c b -> refiled ts c b b.
Proof. by split. Qed.

Lemma refiled_trans b b' b'' : refiled ts c b b' -> refiled ts c b' b'' -> refiled ts c b b''.
Proof. intros [] []. split; [done | etransitivity; eassumption | congruence ..]. Qed.

(** All the cascading of a tick: afterwards every timer is due after its slot. *)
Lemma cascade_all_run s b : timers s = ts -> bases s !! c = Some b -> base_ok ts c b ->
  exists b', cascade_all c (timer_jiffies b) (Z.land (timer_jiffies b) TVR_MASK) s =
      Some (tt, set_base c b' s) /\
    refiled ts c b b' /\ forall n, settled_in ts b' n.
Proof.
  intros Ets Hb Hok. set (j := timer_jiffies b). unfold cascade_all.
  rewrite land_tvr. unfold INDEX. rewrite !shr_land by (unfold TVR_BITS, TVN_BITS; lia).
  change (2 ^ (TVR_BITS + 0 * TVN_BITS)) with (unit_of TV2).
  change (2 ^ (TVR_BITS + 1 * TVN_BITS)) with (unit_of TV3).
  change (2 ^ (TVR_BITS + 2 * TVN_BITS)) with (unit_of TV4).
  change (2 ^ (TVR_BITS + 3 * TVN_BITS)) with (unit_of TV5).
  change (2 ^ 8) with (unit_of TV2) at 1.
  pose proof (unit_step j TV2 TV3 eq_refl) as U3. pose proof (unit_step j TV3 TV4 eq_refl) as U4.
  pose proof (unit_step j TV4 TV5 eq_refl) as U5.
  pose proof (settled_tv1 b Hok) as S1.
  destruct (Z.eqb_spec (j mod unit_of TV2) 0) as [E2|E2]; cbn [negb].
  2:{ exists b. rewrite set_base_same by done. split; [done|]. split; [by apply refiled_refl|].
      intros []; [done | apply settled_off; [done..|fold j; tauto] ..]. }
  destruct (cascade_run s b TV2) as (b2 & R2 & F2 & S2 & K2); [done..|]. fold j in R2.
  rewrite bind_unfold, R2. pose proof (r_ok _ _ _ _ F2) as O2. pose proof (r_tick _ _ _ _ F2) as J2.
  pose proof (set_base_lookup c b2 b s Hb) as L2.
  destruct (Z.eqb_spec ((j / unit_of TV2) mod 2 ^ 6) 0) as [E3|E3]; cbn [negb].
  2:{ exists b2. split; [done|]. split; [done|].
      intros []; [auto | auto | apply settled_off; [done..|rewrite J2; fold j; tauto] ..]. }
  destruct (cascade_run (set_base c b2 s) b2 TV3) as (b3 & R3 & F3 & S3 & K3);
    [done|done|done|done|rewrite J2; tauto|]. rewrite J2 in R3. fold j in R3.
  rewrite bind_unfold, R3, set_base_twice. pose proof (r_ok _ _ _ _ F3) as O3.
  pose proof (r_tick _ _ _ _ F3) as J3. rewrite J2 in J3. pose proof (set_base_lookup c b3 b s Hb) as L3.
  destruct (Z.eqb_spec ((j / unit_of TV3) mod 2 ^ 6) 0) as [E4|E4]; cbn [negb].
  2:{ exists b3. split; [done|]. split; [by eapply refiled_trans|].
      intros []; [auto | auto | auto | apply settled_off; [done..|rewrite J3; fold j; tauto] ..]. }
  destruct (cascade_run (set_base c b3 s) b3 TV4) as (b4 & R4 & F4 & S4 & K4);
    [done|done|done|done|rewrite J3; tauto|]. rewrite J3 in R4. fold j in R4.
  rewrite bind_unfold, R4, set_base_twice. pose proof (r_ok _ _ _ _ F4) as O4.
  pose proof (r_tick _ _ _ _ F4) as J4. rewrite J3 in J4. pose proof (set_base_lookup c b4 b s Hb) as L4.
  destruct (Z.eqb_spec ((j / unit_of TV4) mod 2 ^ 6) 0) as [E5|E5]; cbn [negb].
  2:{ exists b4. split; [done|]. split; [eauto using refiled_trans|].
      intros []; [auto 6 | auto 6 | auto 6 | auto 6 | apply settled_off; [done..|rewrite J4; fold j; tauto]]. }
  destruct (cascade_run (set_base c b4 s) b4 TV5) as (b5 & R5 & F5 & S5 & K5);
    [done|done|done|done|rewrite J4; tauto|]. rewrite J4 in R5. fold j in R5.
  rewrite bind_unfold, R5, set_base_twice, ret_unfold.
  exists b5. split; [done|]. split; [eauto using refiled_trans|].
  intros []; auto 7.
Qed.

End Cascade.

(** ** The wheel as a set of timers *)

Definition abs_base (b : tvec_base) : sbase :=
  SBase (running_timer b) (timer_jiffies b) (next_timer b) (list_to_set (queued b))
    (list_to_set <$> work_list b).
Definition abs (s : system) : ssystem :=
  SSystem (timers s) (abs_base <$> bases s) (jiffies s) (calls s).

(** The base after a tick, the slot of which was [l]. *)
Definition ticked (b : tvec_base) (i : nat) (l : list tid) : tvec_base :=
  set_work_list (Some l)
    (set_tv TV1 (<[i := []]> (tv1 b)) (set_timer_jiffies (u32 (timer_jiffies b + 1)) b)).

Lemma tv_ticked n b i l :
  tv n (ticked b i l) = match n with TV1 => <[i := []]> (tv1 b) | _ => tv n b end.
Proof. by destruct n, b. Qed.

Lemma queued_ticked b i l : tv1 b !! i = Some l -> queued b ≡ₚ l ++ queued (ticked b i l).
Proof. intros Hi. rewrite (queued_take TV1 i b l Hi). by destruct b. Qed.

Section Tick.
  Context (ts : gmap tid timer_list) (c : nat) (b : tvec_base).
  Hypothesis times : forall t x, ts !! t = Some x -> is_u32 (expires x).
  Hypothesis ok : base_ok ts c b.
  Hypothesis idle : default [] (work_list b) = [].
  Hypothesis settled : forall n, settled_in ts b n.

Definition current : nat := Z.to_nat (Z.land (timer_jiffies b) TVR_MASK).

Lemma current_index : Z.of_nat current = timer_jiffies b mod 2 ^ 8.
Proof. unfold current. rewrite land_tvr. pose proof (mod_lt (timer_jiffies b) (2 ^ 8)). lia. Qed.

Lemma current_slot : exists l, tv1 b !! current = Some l.
Proof.
  apply lookup_lt_is_Some_2. pose proof (b_size _ _ _ ok TV1) as H. cbn [tv slots_of] in H.
  pose proof current_index. pose proof (mod_lt (timer_jiffies b) (2 ^ 8)). lia.
Qed.

Lemma slot_expired l t : tv1 b !! current = Some l -> t ∈ l ->
  expired ts (timer_jiffies b) t = true.
Proof.
  intros Hl Ht. destruct (b_owner _ _ _ ok t) as (x & Hx & _).
  { apply elem_of_app; left. apply elem_of_queued. exists TV1; eauto. }
  unfold expired. rewrite Hx. apply Z.leb_le.
  apply (current_slot_expired _ _ current); [by destruct ok | eauto | | apply current_index].
  by eapply (b_place _ _ _ ok TV1).
Qed.

Lemma rest_waits l t : tv1 b !! current = Some l -> t ∈ queued (ticked b current l) ->
  expired ts (timer_jiffies b) t = false.
Proof.
  intros Hl Ht. apply elem_of_queued in Ht as (n & i & l' & Hi & Ht). unfold expired.
  destruct (ts !! t) as [x|] eqn:Hx; [|done]. apply Z.leb_gt.
  assert (Hb : tv n b !! i = Some l' /\ (n = TV1 -> i <> current)).
  { rewrite tv_ticked in Hi. destruct n; [|done ..].
    apply list_lookup_insert_Some in Hi as [(_ & <- & _) | [Hne Hi]];
      [by apply not_elem_of_nil in Ht | done]. }
  destruct Hb as [Hb Hne].
  apply (other_slots_wait _ _ n i); [by destruct ok | eauto | by eapply settled |].
  intros ->. rewrite <- current_index. specialize (Hne eq_refl). lia.
Qed.

Lemma base_ok_ticked l : tv1 b !! current = Some l -> base_ok ts c (ticked b current l).
Proof.
  intros Hl. destruct ok as [H1 H2 H3 H4 H5].
  assert (Hp : listed (ticked b current l) ≡ₚ listed b).
  { unfold listed. rewrite idle, app_nil_r, (queued_ticked b current l Hl).
    destruct b; cbn. apply Permutation_app_comm. }
  split.
  - intros n. rewrite tv_ticked. rewrite <- H1. destruct n; [by rewrite length_insert | done ..].
  - destruct b; apply u32_range.
  - by rewrite Hp.
  - intros t Ht. rewrite Hp in Ht. auto.
  - intros n i l' t x Hi Ht Hx.
    replace (timer_jiffies (ticked b current l)) with (u32 (timer_jiffies b + 1)) by by destruct b.
    rewrite tv_ticked in Hi.
    apply settled_next; [done | eauto | |].
    + apply (settled n i l' t x); [|done..]. destruct n; [|done ..].
      apply list_lookup_insert_Some in Hi as [(_ & <- & _) | [_ Hi]];
        [by apply not_elem_of_nil in Ht | done].
    + intros ->. rewrite <- current_index.
      apply list_lookup_insert_Some in Hi as [(_ & <- & _) | [Hne _]];
        [by apply not_elem_of_nil in Ht | lia].
Qed.

Lemma abs_ticked l : tv1 b !! current = Some l ->
  abs_base (ticked b current l) = s_advance ts (abs_base b).
Proof.
  intros Hl. pose proof (queued_ticked b current l Hl) as Hq.
  assert (Hdue : filter (fun t => expired ts (timer_jiffies b) t = true)
                   (list_to_set (queued b) : gset tid) = list_to_set l).
  { apply set_eq. intros t. rewrite elem_of_filter, !elem_of_list_to_set, Hq, elem_of_app. split.
    - intros [He [Ht|Ht]]; [done|]. by rewrite (rest_waits l t Hl Ht) in He.
    - intros Ht. split; [by eapply slot_expired | by left]. }
  unfold s_advance, abs_base at 1. cbn [s_tick s_queue s_running s_next abs_base]. rewrite Hdue.
  f_equal; try (by destruct b). apply set_eq. intros t.
  rewrite elem_of_difference, !elem_of_list_to_set, Hq, elem_of_app.
  split; [|tauto]. intros Ht. split; [by right|]. intros Hl'.
  pose proof (rest_waits l t Hl Ht). by rewrite (slot_expired l t Hl Hl') in *.
Qed.

End Tick.

Lemma run_tick_run s c b : (forall t x, timers s !! t = Some x -> is_u32 (expires x)) ->
  bases s !! c = Some b -> base_ok (timers s) c b -> work_list b = Some [] ->
  exists b', run_tick c s = Some (tt, set_base c b' s) /\ base_ok (timers s) c b' /\
    (listed b' ≡ₚ listed b) /\ abs_base b' = s_advance (timers s) (abs_base b).
Proof.
  intros Ht Hb Hok Hw.
  destruct (cascade_all_run (timers s) c Ht s b eq_refl Hb Hok) as (b1 & Hrun & Hf & Hset).
  pose proof (r_ok _ _ _ _ Hf) as Hok1. pose proof (r_tick _ _ _ _ Hf) as Hj.
  assert (Hidle : default [] (work_list b1) = []) by (by rewrite (r_work _ _ _ _ Hf), Hw).
  destruct (current_slot (timers s) c b1 Hok1) as [l Hl].
  exists (ticked b1 (current b1) l). split_and!.
  - unfold run_tick. rewrite bind_unfold, (per_cpu_run c b), bind_unfold, Hrun by done.
    rewrite (on_base_run c _ b1) by (by eapply set_base_lookup). rewrite set_base_twice.
    do 3 f_equal. unfold vec_replace_init. rewrite <- Hj. fold (current b1). cbn [fst snd].
    replace (tv TV1 (set_timer_jiffies (u32 (timer_jiffies b1 + 1)) b1)) with (tv1 b1)
      by by destruct b1.
    by rewrite (list_lookup_total_correct _ _ _ Hl).
  - by eapply base_ok_ticked.
  - unfold listed. rewrite Hw, <- (r_queued _ _ _ _ Hf), (queued_ticked b1 (current b1) l Hl).
    cbn. rewrite app_nil_r. destruct b1; apply Permutation_app_comm.
  - rewrite (abs_ticked (timers s) c b1 Ht Hok1 Hset l Hl). unfold s_advance, abs_base. cbn.
    rewrite Hj, (r_next _ _ _ _ Hf), (r_running _ _ _ _ Hf).
    by rewrite (list_to_set_perm_L _ _ (r_queued _ _ _ _ Hf)).
Qed.

(** ** Keeping the invariant *)

Section Inv.
  Context (s : system).

Definition with_base (f : tvec_base -> tvec_base) (c : nat) : system :=
  System (timers s) (alter f c (bases s)) (jiffies s) (calls s).
Definition with_timer (f : timer_list -> timer_list) (t : tid) : system :=
  System (alter f t (timers s)) (bases s) (jiffies s) (calls s).

Lemma base_dec f c c' b' : alter f c (bases s) !! c' = Some b' ->
  (c = c' /\ exists b, bases s !! c = Some b /\ b' = f b) \/ (c <> c' /\ bases s !! c' = Some b').
Proof.
  rewrite list_lookup_alter. destruct (decide (c = c')) as [<-|Hne]; [|by right].
  intros (b & Hb & ->)%fmap_Some. left; eauto.
Qed.

Lemma base_stays f c c' b : bases s !! c' = Some b -> exists b', alter f c (bases s) !! c' = Some b'.
Proof.
  intros H. rewrite list_lookup_alter. destruct (decide (c = c')) as [<-|]; [rewrite H|]; eauto.
Qed.

(** A timer that is not pending is in no list. *)
Lemma unlisted t c b : inv None s ->
  (forall x, timers s !! t = Some x -> pending x = false) -> bases s !! c = Some b -> t ∉ listed b.
Proof.
  intros Hi Hp Hb Ht. destruct (b_owner _ _ _ (i_bases _ _ Hi c b Hb) t Ht) as (x & Hx & Hq & _).
  by rewrite (Hp x Hx) in Hq.
Qed.

Lemma inv_hold t : inv None s -> (forall x, timers s !! t = Some x -> pending x = false) ->
  inv (Some t) s.
Proof.
  intros Hi Hp. split; [apply Hi | apply Hi | |].
  - intros u x b _. by apply (i_pending _ _ Hi).
  - intros u c b [= <-] Hb. by eapply unlisted.
Qed.

Lemma inv_release t x : inv (Some t) s -> timers s !! t = Some x -> pending x = false -> inv None s.
Proof.
  intros Hi Hx Hp. split; [apply Hi | apply Hi | | done].
  intros u y b _ Hy Hq. destruct (decide (t = u)) as [<-|Hne]; [congruence|].
  eapply (i_pending _ _ Hi); congruence.
Qed.

(** Changes of a base that leave its lists and its clock. *)
Lemma inv_with_base h f c :
  (forall b n, tv n (f b) = tv n b) -> (forall b, timer_jiffies (f b) = timer_jiffies b) ->
  (forall b, bases s !! c = Some b -> default [] (work_list (f b)) = default [] (work_list b)) ->
  inv h s -> inv h (with_base f c).
Proof.
  intros Ht Hj Hw Hi.
  assert (Hl : forall b, bases s !! c = Some b -> listed (f b) = listed b).
  { intros b Hb. unfold listed. rewrite (Hw b Hb). f_equal. unfold queued.
    pose proof (Ht b TV1). pose proof (Ht b TV2). pose proof (Ht b TV3). pose proof (Ht b TV4).
    pose proof (Ht b TV5). cbn [tv] in *. congruence. }
  split; cbn.
  - intros c' b' [(<- & b & Hb & ->)|[_ Hb]]%base_dec; [|by apply (i_bases _ _ Hi)].
    apply (base_ok_same _ _ b); auto. by apply (i_bases _ _ Hi).
  - intros t x Hx. destruct (i_timers _ _ Hi t x Hx) as [He [b Hb]]. split; [done|].
    by eapply base_stays.
  - intros t x b' Hh Hx Hp [(Hc & b & Hb & ->)|[_ Hb]]%base_dec;
      [rewrite Hl, Hc in * by done|]; by eapply (i_pending _ _ Hi).
  - intros t c' b' Hh [(_ & b & Hb & ->)|[_ Hb]]%base_dec; [rewrite Hl by done|];
      by eapply (i_hand _ _ Hi).
Qed.

Lemma inv_detach t x : inv None s -> timers s !! t = Some x -> inv (Some t) (with_base (list_del t) (base x)).
Proof.
  intros Hi Hx. split; cbn.
  - intros c' b' [(<- & b & Hb & ->)|[_ Hb]]%base_dec; [apply base_ok_del|];
      by apply (i_bases _ _ Hi).
  - intros u y Hy. destruct (i_timers _ _ Hi u y Hy) as [He [b Hb]]. split; [done|].
    by eapply base_stays.
  - intros u y b' Hh Hy Hp [(Hc & b & Hb & ->)|[_ Hb]]%base_dec.
    + rewrite listed_del. apply list_elem_of_filter. split; [by intros ->|].
      eapply (i_pending _ _ Hi); [done|done|done|]. congruence.
    + by eapply (i_pending _ _ Hi).
  - intros u c' b' [= <-] [(_ & b & Hb & ->)|[Hne Hb]]%base_dec.
    + rewrite listed_del. by intros [? _]%list_elem_of_filter.
    + intros Hu. destruct (b_owner _ _ _ (i_bases _ _ Hi c' b' Hb) t Hu) as (y & Hy & _ & Hc).
      congruence.
Qed.

Lemma inv_with_timer t f x : inv (Some t) s -> timers s !! t = Some x ->
  is_u32 (expires (f x)) -> (exists b, bases s !! base (f x) = Some b) ->
  inv (Some t) (with_timer f t).
Proof.
  intros Hi Hx He Hb. unfold with_timer. rewrite (map_alter_Some _ _ _ _ Hx). split; cbn.
  - intros c b Hc. apply base_ok_timer; [by eapply (i_hand _ _ Hi)|]. by apply (i_bases _ _ Hi).
  - intros u y. destruct (decide (t = u)) as [<-|Hne].
    + rewrite lookup_insert_eq. by intros [= <-].
    + rewrite lookup_insert_ne by done. apply (i_timers _ _ Hi).
  - intros u y b Hh. rewrite lookup_insert_ne by congruence. by apply (i_pending _ _ Hi).
  - intros u c b. apply (i_hand _ _ Hi).
Qed.

(** Filing the timer in hand. *)
Lemma inv_file t x b n i : inv (Some t) s -> timers s !! t = Some x ->
  bases s !! base x = Some b -> timer_vec (timer_jiffies b) (expires x) = (n, i) ->
  inv None (System (<[t := set_pending true x]> (timers s))
              (<[base x := vec_add_tail n i t b]> (bases s)) (jiffies s) (calls s)).
Proof.
  intros Hi Hx Hb Hv. destruct (i_timers _ _ Hi t x Hx) as [He _].
  pose proof (i_bases _ _ Hi (base x) b Hb) as Hok.
  pose proof (i_hand _ _ Hi t (base x) b eq_refl Hb) as Hn.
  assert (Hi' : (i < length (tv n b))%nat).
  { destruct (timer_vec_settled _ _ _ _ (b_tick _ _ _ Hok) He Hv) as [_ ?].
    pose proof (b_size _ _ _ Hok n). lia. }
  assert (Hlist : forall u, u ∈ listed (vec_add_tail n i t b) <-> u = t \/ u ∈ listed b).
  { intros u. unfold listed. destruct (set_tv_fields n (alter (fun l => l ++ [t]) i (tv n b)) b)
      as (_ & _ & _ & Fw). unfold vec_add_tail at 2. rewrite Fw.
    rewrite (queued_add n i t b Hi'), !elem_of_app, elem_of_cons. tauto. }
  assert (Hlook : forall c' b', <[base x := vec_add_tail n i t b]> (bases s) !! c' = Some b' ->
    (c' = base x /\ b' = vec_add_tail n i t b) \/ bases s !! c' = Some b').
  { intros c' b'. rewrite list_lookup_insert_Some. naive_solver. }
  split; cbn.
  - intros c' b' [[-> ->]|Hc]%Hlook.
    + apply (base_ok_add _ _ _ t (set_pending true x)); try done.
      * apply lookup_insert_eq.
      * by apply base_ok_timer.
    + apply base_ok_timer; [by eapply (i_hand _ _ Hi)|]. by apply (i_bases _ _ Hi).
  - intros u y. destruct (decide (t = u)) as [<-|Hne].
    + rewrite lookup_insert_eq. intros [= <-]. split; [done|]. cbn.
      rewrite list_lookup_insert_eq by (by eapply lookup_lt_Some). eauto.
    + rewrite lookup_insert_ne by done. intros Hy. destruct (i_timers _ _ Hi u y Hy) as [? [b' ?]].
      split; [done|]. destruct (decide (base x = base y)) as [->|].
      * rewrite list_lookup_insert_eq by (by eapply lookup_lt_Some). eauto.
      * rewrite list_lookup_insert_ne by done. eauto.
  - intros u y b' _. destruct (decide (t = u)) as [<-|Hne].
    + rewrite lookup_insert_eq. intros [= <-] _. cbn.
      rewrite list_lookup_insert_eq by (by eapply lookup_lt_Some). intros [= <-].
      apply Hlist. by left.
    + rewrite lookup_insert_ne by done. intros Hy Hp [[Hc ->]|Hc]%Hlook.
      * apply Hlist. right. eapply (i_pending _ _ Hi); [congruence|done|done|congruence].
      * eapply (i_pending _ _ Hi); [congruence|done..].
  - done.
Qed.

End Inv.
