(* ===== verification/TimerProps.v ===== *)
(** * The timer wheel: theorems

    The wheel of Timer and the sets of TimerSpec do the same for every event
    ([handle_sim], proved operation by operation with [sim]), and what follows from
    it: when a timer runs, that a run of the softirq ends and leaves nothing
    behind, the bounds of the slack, and what [del_timer_sync] guarantees. *)

From S2P Require Import Prelude Timer TimerSpec TimerInv.

(** ** Simulation

    [m] run on the wheel and [n] run on the sets do the same: both are undefined, or
    they return related values and the sets are again those of the wheel. *)

Definition sim {A B} (P : system -> Prop) (m : M system A) (n : M ssystem B)
    (Q : A -> B -> system -> Prop) : Prop :=
  forall s, P s ->
    match m s with
    | None => n (abs s) = None
    | Some (a, s') => exists b, n (abs s) = Some (b, abs s') /\ Q a b s'
    end.

Lemma sim_ret {A B} (P : system -> Prop) (a : A) (b : B) (Q : A -> B -> system -> Prop) :
  (forall s, P s -> Q a b s) -> sim P (mret a) (mret b) Q.
Proof. intros H s HP. rewrite !ret_unfold. eauto. Qed.

Lemma sim_bind {A B A' B'} (P : system -> Prop) (m : M system A) (n : M ssystem B)
    (Q : A -> B -> system -> Prop) (f : A -> M system A') (g : B -> M ssystem B') R :
  sim P m n Q -> (forall a b, sim (Q a b) (f a) (g b) R) -> sim P (m ≫= f) (n ≫= g) R.
Proof.
  intros Hm Hf s HP. rewrite !bind_unfold. specialize (Hm s HP).
  destruct (m s) as [[a s']|]; [|by rewrite Hm].
  destruct Hm as (b & -> & HQ). by apply (Hf a b s').
Qed.

Lemma sim_pre {A B} (P P' : system -> Prop) (m : M system A) (n : M ssystem B) Q :
  (forall s, P' s -> P s) -> sim P m n Q -> sim P' m n Q.
Proof. intros H Hm s Hs. by apply Hm, H. Qed.

Lemma sim_pure {A B} (F : Prop) (P : system -> Prop) (m : M system A) (n : M ssystem B) Q :
  (F -> sim P m n Q) -> sim (fun s => F /\ P s) m n Q.
Proof. intros H s [HF HP]. by apply (H HF s HP). Qed.

(** The states with timers [ts] and [k] processors. *)
Definition st (h : option tid) (ts : gmap tid timer_list) (k : nat) (s : system) : Prop :=
  inv h s /\ timers s = ts /\ length (bases s) = k.

Section Sim.
  Context (h : option tid) (ts : gmap tid timer_list) (k : nat).
  Abbreviation P := (st h ts k).

Lemma st_bases s c : P s -> (c < k)%nat -> exists b, bases s !! c = Some b.
Proof. intros (_ & _ & <-) Hc. by apply lookup_lt_is_Some_2. Qed.

Lemma st_timer s t x : P s -> ts !! t = Some x -> is_u32 (expires x) /\ (base x < k)%nat.
Proof.
  intros (Hi & <- & <-) Hx. destruct (i_timers _ _ Hi t x Hx) as [He [b Hb]].
  split; [done|]. by eapply lookup_lt_Some.
Qed.

Lemma sim_timer t : sim P (timer t) (s_timer t) (fun x y s => (y = x /\ ts !! t = Some x) /\ P s).
Proof.
  intros s HP. unfold timer, s_timer. rewrite !bind_unfold, !get_run. cbn [abs s_timers].
  destruct HP as (Hi & Ht & Hk). rewrite Ht. destruct (ts !! t) as [x|] eqn:E; cbn; [|done].
  exists x. unfold st. eauto 10.
Qed.

(** Reading a base and going on with its abstraction. *)
Lemma sim_per_cpu {A B} c (f : tvec_base -> M system A) (g : sbase -> M ssystem B) Q :
  (forall b, (c < k)%nat -> sim (fun s => P s /\ bases s !! c = Some b) (f b) (g (abs_base b)) Q) ->
  sim P (b ← per_cpu c; f b) (b ← s_cpu c; g b) Q.
Proof.
  intros H s HP. rewrite !bind_unfold. unfold per_cpu, s_cpu. rewrite !bind_unfold, !get_run.
  cbn [abs s_bases]. rewrite list_lookup_fmap.
  destruct (bases s !! c) as [b|] eqn:E; cbn; [|done].
  apply (H b); [|done]. destruct HP as (_ & _ & <-). by eapply lookup_lt_Some.
Qed.

Lemma sim_bug b : sim P (BUG_ON b) (s_bug b) (fun _ _ s => b = false /\ P s).
Proof. intros s HP. destruct b; cbn; [done | eauto]. Qed.

Lemma sim_on_base c f g (Q : system -> Prop) :
  (forall b, abs_base (f b) = g (abs_base b)) -> (forall s, P s -> Q (with_base s f c)) ->
  sim P (on_base c f) (s_on_base c g) (fun _ _ s => Q s).
Proof.
  intros Ha HQ s HP. unfold on_base, s_on_base, modify. exists tt. split; [|by apply HQ].
  unfold abs; cbn. do 3 f_equal. by apply fmap_alter.
Qed.

Lemma sim_on_timer t f (Q : system -> Prop) :
  (forall s, P s -> Q (with_timer s f t)) ->
  sim P (on_timer t f) (s_on_timer t f) (fun _ _ s => Q s).
Proof. intros HQ s HP. exists tt. split; [done | by apply HQ]. Qed.

(** Bookkeeping of the next expiry. *)
Lemma sim_next c z : sim P (on_base c (set_next_timer z)) (s_on_base c (s_set_next z)) (fun _ _ => P).
Proof.
  apply sim_on_base; [by intros []|]. intros s (Hi & Ht & Hk). split_and!.
  - apply inv_with_base; [by intros [] []|by intros []|by intros []|done].
  - done.
  - cbn. by rewrite length_alter.
Qed.

Lemma sim_forget_next x : sim P (forget_next x) (s_forget_next x) (fun _ _ => P).
Proof.
  unfold forget_next, s_forget_next. apply sim_per_cpu. intros b _.
  eapply sim_pre; [intros s [HP _]; exact HP|]. cbn [abs_base s_next s_tick].
  destruct ((expires x =? next_timer b) && negb (deferrable x)); [apply sim_next | by apply sim_ret].
Qed.

Lemma sim_note_next c x : sim P (note_next c x) (s_note_next c x) (fun _ _ => P).
Proof.
  unfold note_next, s_note_next. apply sim_per_cpu. intros b _.
  eapply sim_pre; [intros s [HP _]; exact HP|]. cbn [abs_base s_next].
  destruct (time_before (expires x) (next_timer b) && negb (deferrable x));
    [apply sim_next | by apply sim_ret].
Qed.

End Sim.

Lemma abs_del t b : abs_base (list_del t b) = s_remove t (abs_base b).
Proof.
  unfold abs_base, s_remove. rewrite queued_del. destruct b as [r j x v1 v2 v3 v4 v5 w]. cbn.
  f_equal.
  - apply set_eq. intros u. rewrite elem_of_difference, !elem_of_list_to_set, list_elem_of_filter.
    rewrite elem_of_singleton. tauto.
  - destruct w as [w|]; [|done]. cbn. f_equal. apply set_eq. intros u.
    rewrite elem_of_difference, !elem_of_list_to_set, list_elem_of_filter, elem_of_singleton. tauto.
Qed.

Lemma sim_unlink ts k t x : ts !! t = Some x ->
  sim (st None ts k) (on_base (base x) (list_del t)) (s_on_base (base x) (s_remove t))
    (fun _ _ => st (Some t) ts k).
Proof.
  intros Hx. apply (sim_on_base None ts k); [apply abs_del|].
  intros s (Hi & Ht & Hk). split_and!; [|done|cbn; by rewrite length_alter].
  apply inv_detach; [done | by rewrite Ht].
Qed.

Lemma sim_detach ts k t x : ts !! t = Some x ->
  sim (st None ts k) (detach_timer t false) (s_detach t false) (fun _ _ => st (Some t) ts k).
Proof.
  intros Hx. unfold detach_timer, s_detach.
  eapply sim_bind; [apply sim_timer|]. intros x' y. apply sim_pure. intros [-> Hx'].
  assert (x' = x) as -> by congruence.
  eapply sim_bind; [by apply sim_unlink|]. intros [] []. by apply sim_ret.
Qed.

Lemma sim_detach_clear ts k t x : ts !! t = Some x ->
  sim (st None ts k) (detach_timer t true) (s_detach t true)
    (fun _ _ => st None (alter (set_pending false) t ts) k).
Proof.
  intros Hx. unfold detach_timer, s_detach.
  eapply sim_bind; [apply sim_timer|]. intros x' y. apply sim_pure. intros [-> Hx'].
  assert (x' = x) as -> by congruence.
  eapply sim_bind; [by apply sim_unlink|]. intros [] []. apply sim_on_timer. intros s HP. destruct HP as (Hi & Ht & Hk).
  assert (Hxs : timers s !! t = Some x) by (by rewrite Ht).
  split_and!; [|cbn; by rewrite Ht|done].
  destruct (i_timers _ _ Hi t x Hxs) as [He Hb].
  apply (inv_release _ t (set_pending false x)); [|cbn; by rewrite lookup_alter_eq, Hxs|done].
  by apply (inv_with_timer s t _ x).
Qed.

Lemma sim_add ts k t x : ts !! t = Some x ->
  sim (st (Some t) ts k) (internal_add_timer (base x) t) (s_add (base x) t)
    (fun _ _ => st None (alter (set_pending true) t ts) k).
Proof.
  intros Hx s HP. destruct (st_timer _ _ _ _ _ _ HP Hx) as [He Hk].
  destruct (st_bases _ _ _ _ _ HP Hk) as [b Hb]. destruct HP as (Hi & Ht & Hl).
  assert (Hxs : timers s !! t = Some x) by (by rewrite Ht).
  destruct (timer_vec (timer_jiffies b) (expires x)) as [n i] eqn:Hv.
  rewrite (internal_add_run s (base x) b t x n i) by done. exists tt. split.
  - unfold s_add, s_cpu, s_timer. rewrite bind_unfold, bind_unfold, get_run. cbn [abs s_bases].
    rewrite list_lookup_fmap, Hb. cbn [lift_opt fmap option_fmap option_map].
    rewrite bind_unfold, bind_unfold, get_run. cbn [s_timers abs]. rewrite Hxs.
    cbn [lift_opt]. rewrite bind_unfold. unfold s_on_base, s_on_timer, modify.
    cbn [s_timers s_bases s_now s_calls]. unfold abs. cbn [timers bases jiffies calls].
    rewrite (map_alter_Some _ _ _ _ Hxs). do 3 f_equal. cbn [s_bases].
    rewrite (list_alter_Some _ (abs_base <$> bases s) _ (abs_base b)) by (by rewrite list_lookup_fmap, Hb).
    rewrite list_fmap_insert. f_equal. unfold abs_base, s_insert; cbn.
    destruct (set_tv_fields n (alter (fun l => l ++ [t]) i (tv n b)) b) as (Fj & Fn & Fr & Fw).
    fold (vec_add_tail n i t b) in Fj, Fn, Fr, Fw. rewrite Fj, Fn, Fr, Fw. f_equal.
    pose proof (i_bases _ _ Hi _ _ Hb) as Hok.
    destruct (timer_vec_settled _ _ _ _ (b_tick _ _ _ Hok) He Hv) as [_ Hi'].
    pose proof (b_size _ _ _ Hok n).
    assert (Hp := queued_add n i t b ltac:(lia)).
    apply (list_to_set_perm_L (C := gset tid)) in Hp. by rewrite Hp.
  - split_and!; cbn; [by apply inv_file | by rewrite (map_alter_Some _ _ _ _ Hx), Ht |].
    by rewrite length_insert.
Qed.

Lemma sim_change ts k t f x : ts !! t = Some x -> is_u32 (expires (f x)) -> (base (f x) < k)%nat ->
  sim (st (Some t) ts k) (on_timer t f) (s_on_timer t f) (fun _ _ => st (Some t) (alter f t ts) k).
Proof.
  intros Hx He Hk. apply sim_on_timer. intros s HP.
  destruct (st_bases _ _ _ _ _ HP Hk) as [b Hb]. destruct HP as (Hi & Ht & Hl).
  split_and!; [|cbn; by rewrite Ht|done]. apply (inv_with_timer s t f x); eauto. by rewrite Ht.
Qed.

(** The same result, and the invariant holds again. *)
Definition same {A} (k : nat) (a b : A) (s : system) : Prop :=
  b = a /\ inv None s /\ length (bases s) = k.

Lemma st_same {A} ts k (a : A) s : st None ts k s -> same k a a s.
Proof. intros (Hi & _ & Hk). by split_and!. Qed.

Lemma sim_same {A B} ts k (m : M system A) (n : M ssystem A) (f : A -> B) :
  sim (st None ts k) m n (same k) ->
  sim (st None ts k) (a ← m; mret (f a)) (a ← n; mret (f a)) (same k).
Proof.
  intros H. eapply sim_bind; [exact H|]. intros a b. apply sim_pure. intros ->.
  apply sim_ret. intros s Hs. by split.
Qed.

(** Taking the timer in hand. *)
Lemma sim_take ts k t x : ts !! t = Some x ->
  sim (st None ts k)
    (if pending x then detach_timer t false;; forget_next x else mret tt)
    (if pending x then s_detach t false;; s_forget_next x else mret tt)
    (fun _ _ => st (Some t) ts k).
Proof.
  intros Hx. destruct (pending x) eqn:Hp.
  - eapply sim_bind; [by eapply sim_detach|]. intros [] []. apply sim_forget_next.
  - apply sim_ret. intros s (Hi & Ht & Hk). split_and!; [|done..]. apply inv_hold; [done|].
    rewrite Ht. congruence.
Qed.

Lemma sim_arm ts k t e po pin cpu mig : is_u32 e ->
  sim (st None ts k) (__mod_timer t e po pin cpu mig) (s_arm t e po pin cpu mig) (same k).
Proof.
  intros He. unfold __mod_timer, s_arm.
  eapply sim_bind; [apply sim_timer|]. intros x y. apply sim_pure. intros [-> Hx].
  eapply sim_bind; [apply sim_bug|]. intros [] []. apply sim_pure. intros _.
  apply sim_per_cpu. intros b Hb. eapply sim_pre; [intros s [HP _]; exact HP|].
  destruct (negb (pending x) && po). { apply sim_ret. apply st_same. }
  eapply sim_bind; [by apply sim_take|]. intros [] []. cbv zeta. cbn [abs_base s_running].
  set (nb := target_cpu pin cpu mig).
  eapply (sim_bind _ _ _ (fun _ _ s => exists c, (c < k)%nat /\ st (Some t) (alter (timer_set_base c) t ts) k s)).
  { destruct (negb (bool_decide (base x = nb)) && negb (bool_decide (running_timer b = Some t))).
    - apply sim_per_cpu. intros b' Hb'. intros s [HP _].
      destruct (sim_change ts k t (timer_set_base nb) x Hx) with (s := s) as (u & Hr & Hs); try done.
      { by destruct (st_timer _ _ _ _ _ _ HP Hx). }
      unfold on_timer, modify in *. exists u. eauto.
    - apply sim_ret. intros s HP. exists (base x). split; [done|].
      rewrite (map_alter_Some _ _ _ _ Hx), insert_id; [done|].
      rewrite Hx. by destruct x. }
  intros [] [] s (c & Hc & HP). revert s HP.
  change (sim (st (Some t) (alter (timer_set_base c) t ts) k)
    (on_timer t (set_expires e);; x' ← timer t; note_next (base x') x';;
     internal_add_timer (base x') t;; mret (if pending x then 1 else 0))
    (s_on_timer t (set_expires e);; x' ← s_timer t; s_note_next (base x') x';;
     s_add (base x') t;; mret (if pending x then 1 else 0)) (same k)).
  eapply sim_bind.
  { apply (sim_change _ k t (set_expires e) (timer_set_base c x)); [by rewrite lookup_alter_eq, Hx|done..]. }
  intros [] []. eapply sim_bind; [apply sim_timer|]. intros x' y. apply sim_pure. intros [-> Hx'].
  eapply sim_bind; [apply sim_note_next|]. intros [] [].
  eapply sim_bind; [by apply sim_add|]. intros [] []. apply sim_ret. apply st_same.
Qed.

(** ** Slack *)

Lemma limit_u32 now x e : is_u32 e -> is_u32 (expires_limit now x e).
Proof.
  intros He. unfold expires_limit.
  destruct (0 <=? slack x); [apply u32_range|]. destruct (time_after e now); [apply u32_range | done].
Qed.

Lemma land_high n l : is_u32 l -> 0 <= n <= 31 ->
  Z.land l (not32 (u32 (Z.shiftl 1 n - 1))) = l - l mod 2 ^ n.
Proof.
  intros Hl Hn. rewrite Z.shiftl_1_l.
  assert (H2 : 0 < 2 ^ n <= 2 ^ 31) by (split; [apply Z.pow_pos_nonneg; lia | apply Z.pow_le_mono_r; lia]).
  rewrite (u32_small (2 ^ n - 1)) by lia. unfold not32. rewrite u32_small by lia.
  replace (l - l mod 2 ^ n) with (Z.shiftl (Z.shiftr l n) n)
    by (rewrite Z.shiftl_mul_pow2, Z.shiftr_div_pow2 by lia; pose proof (Z.div_mod l (2 ^ n)); lia).
  replace (2 ^ 32 - 1 - (2 ^ n - 1)) with (Z.shiftl (Z.ones (32 - n)) n).
  2:{ rewrite Z.shiftl_mul_pow2, Z.ones_equiv by lia. rewrite <- Z.sub_1_r, Z.mul_sub_distr_r, <- Z.pow_add_r by lia.
      replace (32 - n + n) with 32 by lia. lia. }
  apply Z.bits_inj'. intros m Hm. rewrite Z.land_spec.
  destruct (Z_lt_le_dec m n).
  - rewrite !Z.shiftl_spec_low by lia. by rewrite andb_false_r.
  - rewrite !Z.shiftl_spec, Z.shiftr_spec by lia. replace (m - n + n) with m by lia.
    destruct (Z_lt_le_dec m 32).
    + rewrite Z.ones_spec_low by lia. apply andb_true_r.
    + rewrite Z.ones_spec_high, andb_false_r by lia. unfold is_u32 in Hl.
      symmetry. destruct (Z.eq_dec l 0) as [->|]; [apply Z.bits_0|].
      apply Z.bits_above_log2; [lia|]. apply Z.log2_lt_pow2; [lia|].
      apply Z.lt_le_trans with (2 ^ 32); [lia | apply Z.pow_le_mono_r; lia].
Qed.

Lemma mask_bit e l : is_u32 e -> is_u32 l -> Z.lxor e l <> 0 ->
  0 <= Z.log2 (Z.lxor e l) <= 31.
Proof.
  intros He Hl Hn. split; [apply Z.log2_nonneg|].
  assert (0 < Z.lxor e l) by (pose proof (Z.lxor_nonneg e l); unfold is_u32 in *; lia).
  apply Z.lt_succ_r, Z.log2_lt_pow2; [done|]. change (Z.succ 31) with 32.
  destruct (Z.eq_dec e 0) as [->|]; [rewrite Z.lxor_0_l; apply Hl|].
  destruct (Z.eq_dec l 0) as [->|]; [rewrite Z.lxor_0_r; apply He|].
  apply Z.log2_lt_pow2; [done|]. unfold is_u32 in *.
  eapply Z.le_lt_trans; [apply Z.log2_lxor; lia|].
  apply Z.max_lub_lt; apply Z.log2_lt_pow2; lia.
Qed.

Lemma apply_slack_value now x e : is_u32 e ->
  let l := expires_limit now x e in
  apply_slack now x e = e /\ l = e \/
  l <> e /\ apply_slack now x e = l - l mod 2 ^ Z.log2 (Z.lxor e l).
Proof.
  intros He l. pose proof (limit_u32 now x e He) as Hl. fold l in Hl.
  unfold apply_slack. fold l. cbv zeta.
  destruct (Z.eqb_spec (Z.lxor e l) 0) as [Hz|Hn].
  - left. split; [done|]. symmetry. by apply Z.lxor_eq.
  - right. split; [intros ->; by rewrite Z.lxor_nilpotent in Hn|].
    apply land_high; [done | by apply mask_bit].
Qed.

Lemma apply_slack_u32 now x e : is_u32 e -> is_u32 (apply_slack now x e).
Proof.
  intros He. destruct (apply_slack_value now x e He) as [[-> _]|[_ ->]]; [done|].
  pose proof (limit_u32 now x e He) as Hl. unfold is_u32 in *.
  set (l := expires_limit now x e) in *. set (p := 2 ^ Z.log2 (Z.lxor e l)).
  assert (0 < p) by (apply Z.pow_pos_nonneg; [lia | apply Z.log2_nonneg]).
  pose proof (mod_lt l p H). pose proof (Z.mod_le l p). lia.
Qed.

(** ** The operations *)

Lemma sim_jiffies {A B} h ts k (f : Z -> M system A) (g : Z -> M ssystem B) Q :
  (forall now, sim (st h ts k) (f now) (g now) Q) ->
  sim (st h ts k) (now ← gets jiffies; f now) (now ← gets s_now; g now) Q.
Proof. intros H s HP. rewrite !bind_unfold, !gets_run. by apply (H _ s HP). Qed.

Lemma sim_mod_timer ts k t e cpu mig : is_u32 e ->
  sim (st None ts k) (mod_timer t e cpu mig) (s_mod_timer t e cpu mig) (same k).
Proof.
  intros He. unfold mod_timer, s_mod_timer.
  eapply sim_bind; [apply sim_timer|]. intros x y. apply sim_pure. intros [-> Hx].
  destruct (pending x && (expires x =? e)). { apply sim_ret. apply st_same. }
  apply sim_jiffies. intros now. apply sim_arm. by apply apply_slack_u32.
Qed.

Lemma sim_add_timer ts k t cpu mig :
  sim (st None ts k) (add_timer t cpu mig) (s_add_timer t cpu mig) (same k).
Proof.
  unfold add_timer, s_add_timer.
  eapply sim_bind; [apply sim_timer|]. intros x y. apply sim_pure. intros [-> Hx].
  eapply sim_bind; [apply sim_bug|]. intros [] []. apply sim_pure. intros _ s HP.
  destruct (st_timer _ _ _ _ _ _ HP Hx) as [He _]. revert s HP. by apply sim_same, sim_mod_timer.
Qed.

Lemma sim_add_timer_on ts k t cpu :
  sim (st None ts k) (add_timer_on t cpu) (s_add_timer_on t cpu) (same k).
Proof.
  unfold add_timer_on, s_add_timer_on.
  eapply sim_bind; [apply sim_timer|]. intros x y. apply sim_pure. intros [-> Hx].
  eapply sim_bind; [apply sim_bug|]. intros [] []. apply sim_pure. intros Hp.
  apply orb_false_iff in Hp as [Hp _].
  apply sim_per_cpu. intros b Hc s [HP _]. destruct (st_timer _ _ _ _ _ _ HP Hx) as [He _].
  assert (HP' : st (Some t) ts k s).
  { destruct HP as (Hi & Ht & Hk). split_and!; [|done..]. apply inv_hold; [done|].
    rewrite Ht. congruence. }
  revert s HP' He HP. intros s HP' He _. revert s HP'.
  change (sim (st (Some t) ts k)
    (on_timer t (timer_set_base cpu);; note_next cpu x;; internal_add_timer cpu t)
    (s_on_timer t (timer_set_base cpu);; s_note_next cpu x;; s_add cpu t) (same k)).
  eapply sim_bind; [by apply (sim_change _ _ _ _ x)|]. intros [] [].
  eapply sim_bind; [apply sim_note_next|]. intros [] [] s HP.
  pose proof (sim_add (alter (timer_set_base cpu) t ts) k t (timer_set_base cpu x)) as Ha.
  rewrite lookup_alter_eq, Hx in Ha. specialize (Ha eq_refl s HP). cbn [base timer_set_base] in Ha.
  destruct (internal_add_timer cpu t s) as [[[] s']|]; [|done].
  destruct Ha as ([] & Hr & Hs). exists tt. split; [done|]. by eapply st_same.
Qed.

Lemma sim_del_timer ts k t :
  sim (st None ts k) (del_timer t) (s_del_timer t) (same k).
Proof.
  unfold del_timer, s_del_timer.
  eapply sim_bind; [apply sim_timer|]. intros x y. apply sim_pure. intros [-> Hx].
  destruct (pending x); [|apply sim_ret; apply st_same].
  eapply sim_bind; [by eapply sim_detach_clear|]. intros [] [].
  eapply sim_bind; [apply sim_forget_next|]. intros [] []. apply sim_ret. apply st_same.
Qed.

Lemma sim_try_del ts k t :
  sim (st None ts k) (try_to_del_timer_sync t) (s_try_to_del_timer_sync t) (same k).
Proof.
  unfold try_to_del_timer_sync, s_try_to_del_timer_sync.
  eapply sim_bind; [apply sim_timer|]. intros x y. apply sim_pure. intros [-> Hx].
  apply sim_per_cpu. intros b _. eapply sim_pre; [intros s [HP _]; exact HP|].
  cbn [abs_base s_running].
  destruct (bool_decide (running_timer b = Some t)); [apply sim_ret; apply st_same | apply sim_del_timer].
Qed.

(** A timer that is not pending may be changed or made. *)
Lemma inv_insert s t x : inv None s -> (forall y, timers s !! t = Some y -> pending y = false) ->
  pending x = false -> is_u32 (expires x) -> (exists b, bases s !! base x = Some b) ->
  inv None (System (<[t := x]> (timers s)) (bases s) (jiffies s) (calls s)).
Proof.
  intros Hi Hp Hx He Hb. split; cbn; [| | |done].
  - intros c b Hc. apply base_ok_timer; [by eapply unlisted | by apply (i_bases _ _ Hi)].
  - intros u y. destruct (decide (t = u)) as [<-|Hne].
    + rewrite lookup_insert_eq. by intros [= <-].
    + rewrite lookup_insert_ne by done. apply (i_timers _ _ Hi).
  - intros u y b Hh. destruct (decide (t = u)) as [<-|Hne].
    + rewrite lookup_insert_eq. intros [= <-]. congruence.
    + rewrite lookup_insert_ne by done. by apply (i_pending _ _ Hi).
Qed.

Lemma sim_init ts k t cpu e fn d defer : is_u32 e ->
  sim (st None ts k) (init_timer t cpu e fn d defer) (s_init_timer t cpu e fn d defer) (same k).
Proof.
  intros He s HP. unfold init_timer, s_init_timer. rewrite !bind_unfold, !get_run.
  cbn [abs s_timers s_bases s_now s_calls].
  destruct (match timers s !! t with Some x => pending x | None => false end) eqn:Hp;
    cbn [BUG_ON s_bug]; [done|]. rewrite !(bind_unfold _ (mret tt)), !ret_unfold, !bind_unfold.
  unfold per_cpu, s_cpu. rewrite !bind_unfold, !get_run. cbn [abs s_bases].
  rewrite list_lookup_fmap. destruct (bases s !! cpu) as [b|] eqn:Hb; cbn; [|done].
  exists tt. split; [done|]. destruct HP as (Hi & Ht & Hk). split_and!; [done| |done].
  apply inv_insert; cbn; eauto. intros y Hy. by rewrite Hy in Hp.
Qed.

Lemma sim_set_expires ts k t e : is_u32 e ->
  sim (st None ts k) (x ← timer t; BUG_ON (pending x);; on_timer t (set_expires e);; mret 0)
    (x ← s_timer t; s_bug (pending x);; s_on_timer t (set_expires e);; mret 0) (same k).
Proof.
  intros He.
  eapply sim_bind; [apply sim_timer|]. intros x y. apply sim_pure. intros [-> Hx].
  eapply sim_bind; [apply sim_bug|]. intros [] []. apply sim_pure. intros Hp.
  eapply (sim_bind _ _ _ (fun _ _ => st None (alter (set_expires e) t ts) k));
    [|intros [] []; apply sim_ret; apply st_same].
  apply sim_on_timer. intros s (Hi & Ht & Hk). split_and!; [|cbn; by rewrite Ht|done].
  assert (Hxs : timers s !! t = Some x) by (by rewrite Ht).
  unfold with_timer. rewrite (map_alter_Some _ _ _ _ Hxs).
  apply inv_insert; cbn; [done|congruence|done|done|]. by apply (i_timers _ _ Hi t x).
Qed.

(** The slack does not affect the lists, so it may change at any time. *)
Lemma sim_set_slack ts k t z :
  sim (st None ts k) (x ← timer t; on_timer t (set_slack z);; mret 0)
    (x ← s_timer t; s_on_timer t (set_slack z);; mret 0) (same k).
Proof.
  eapply sim_bind; [apply sim_timer|]. intros x y. apply sim_pure. intros [-> Hx].
  eapply (sim_bind _ _ _ (fun _ _ => st None (alter (set_slack z) t ts) k));
    [|intros [] []; apply sim_ret; apply st_same].
  apply sim_on_timer. intros s (Hi & Ht & Hk). split_and!; [|cbn; by rewrite Ht|done].
  assert (Hl : forall u y, alter (set_slack z) t (timers s) !! u = Some y ->
    exists y', timers s !! u = Some y' /\ pending y = pending y' /\ base y = base y' /\ expires y = expires y').
  { intros u y. destruct (decide (t = u)) as [<-|Hne].
    - rewrite lookup_alter_eq. intros (y' & Hy & ->)%fmap_Some. exists y'. by destruct y'.
    - rewrite lookup_alter_ne by done. eauto. }
  split; cbn; [| | |done].
  - intros c b Hb. destruct (i_bases _ _ Hi c b Hb) as [H1 H2 H3 H4 H5]. split; [done|done|done| |].
    + intros u Hu. destruct (H4 u Hu) as (y & Hy & Hp & Hc). destruct (decide (t = u)) as [<-|Hne].
      * rewrite lookup_alter_eq, Hy. cbn. exists (set_slack z y). by destruct y.
      * rewrite lookup_alter_ne by done. eauto.
    + intros n i l u y Hn Hu (y' & Hy & _ & _ & ->)%Hl. eauto.
  - intros u y (y' & Hy & _ & -> & ->)%Hl. by apply (i_timers _ _ Hi u).
  - intros u y b _ (y' & Hy & -> & -> & _)%Hl. by apply (i_pending _ _ Hi).
Qed.

(** A base replaced by one with the same timers. *)
Lemma inv_set_base s c b b' : inv None s -> bases s !! c = Some b -> base_ok (timers s) c b' ->
  listed b' ≡ₚ listed b -> inv None (set_base c b' s).
Proof.
  intros Hi Hb Hok Hp.
  assert (Hlook : forall c' x, bases (set_base c b' s) !! c' = Some x ->
    (c' = c /\ x = b') \/ bases s !! c' = Some x).
  { intros c' x. cbn. rewrite list_lookup_insert_Some. naive_solver. }
  split; cbn [set_base timers].
  - intros c' x [[-> ->]|Hx]%Hlook; [done | by apply (i_bases _ _ Hi)].
  - intros t x Hx. destruct (i_timers _ _ Hi t x Hx) as [He [y Hy]]. split; [done|].
    destruct (decide (c = base x)) as [Hc|Hc].
    + rewrite <- Hc. exists b'. by eapply set_base_lookup.
    + rewrite set_base_other by done. eauto.
  - intros t x y _ Hx Hpx [[Hc ->]|Hy]%Hlook.
    + rewrite Hp. eapply (i_pending _ _ Hi); [done|done|done|congruence].
    + by eapply (i_pending _ _ Hi).
  - done.
Qed.

Lemma sim_work ts k c b w : default [] w = default [] (work_list b) ->
  sim (fun s => st None ts k s /\ bases s !! c = Some b) (on_base c (set_work_list w))
    (s_on_base c (s_set_work (list_to_set <$> w))) (fun _ _ => st None ts k).
Proof.
  intros Hw s [(Hi & Ht & Hk) Hb]. exists tt. split.
  - unfold s_on_base, modify. unfold abs; cbn. do 3 f_equal. by apply fmap_alter.
  - split_and!; [|done|cbn; by rewrite length_alter].
    apply (inv_with_base s None _ c); [by intros [] []|by intros []| |done].
    intros b1 Hb1. assert (b1 = b) as -> by congruence. by destruct b.
Qed.

Lemma sim_softirq ts k c :
  sim (st None ts k) (run_timer_softirq c) (s_softirq c) (same k).
Proof.
  unfold run_timer_softirq, s_softirq. apply sim_per_cpu. intros b Hc s [HP Hb].
  rewrite !bind_unfold, !gets_run. cbn [abs s_now abs_base s_work s_tick].
  assert (Hw : is_Some (list_to_set (C := gset tid) <$> work_list b) <-> is_Some (work_list b))
    by apply fmap_is_Some.
  rewrite !bind_unfold. unfold BUG_ON, s_bug. rewrite (bool_decide_ext _ _ Hw).
  case_bool_decide as Hn; [done|]. rewrite !ret_unfold.
  destruct (time_after_eq (jiffies s) (timer_jiffies b)).
  - pose proof (sim_work ts k c b (Some [])) as H.
    destruct H with (s := s) as ([] & Hr & Hs); [|done|].
    { destruct (work_list b); [destruct Hn; eauto | done]. }
    exists tt. split; [exact Hr|]. by eapply st_same.
  - exists tt. split; [done|]. by eapply st_same.
Qed.

Lemma sim_run_timer ts k c t :
  sim (st None ts k) (run_timer c t) (s_run_timer c t) (same k).
Proof.
  unfold run_timer, s_run_timer.
  eapply sim_bind; [apply sim_timer|]. intros x y. apply sim_pure. intros [-> Hx].
  eapply (sim_bind _ _ _ (fun _ _ => st None ts k)).
  { apply sim_on_base; [by intros []|]. intros s (Hi & Ht & Hk).
    split_and!; [|done|cbn; by rewrite length_alter].
    apply inv_with_base; [by intros [] []|by intros []|by intros []|done]. }
  intros [] []. eapply sim_bind; [by eapply sim_detach_clear|]. intros [] [] s (Hi & Ht & Hk).
  exists tt. split; [done|]. split_and!; [done| |done]. destruct Hi. by split.
Qed.

Lemma sim_run_tick ts k c b : work_list b = Some [] ->
  sim (fun s => st None ts k s /\ bases s !! c = Some b) (run_tick c) (s_run_tick c) (same k).
Proof.
  intros Hw s [(Hi & Ht & Hk) Hb].
  destruct (run_tick_run s c b) as (b' & Hr & Hok & Hp & Ha); [|done| |done|].
  { intros t x Hx. by apply (i_timers _ _ Hi t x). }
  { by apply (i_bases _ _ Hi). }
  rewrite Hr. exists tt. split.
  - unfold s_run_tick, s_cpu. rewrite !bind_unfold, get_run. cbn [abs s_bases].
    rewrite list_lookup_fmap, Hb. cbn [fmap option_fmap option_map].
    rewrite lift_opt_run, bind_unfold, get_run.
    unfold s_on_base, modify. cbn [s_timers]. unfold abs, set_base; cbn [timers bases jiffies calls].
    do 3 f_equal. cbn [s_bases s_timers].
    rewrite (list_alter_Some _ (abs_base <$> bases s) _ (abs_base b)) by (by rewrite list_lookup_fmap, Hb).
    by rewrite <- Ha, list_fmap_insert.
  - split_and!; [done| |cbn; by rewrite length_insert]. by eapply inv_set_base.
Qed.

(** The timer [__run_timers] takes next on processor [c]. *)
Definition next_timer_of (c : nat) (s : system) : option tid :=
  match bases s !! c with
  | Some b => match work_list b with Some (t :: _) => Some t | _ => None end
  | None => None
  end.

Lemma run_step_sim ts k c s : st None ts k s ->
  match run_step c s with
  | None => s_run_step (next_timer_of c s) c (abs s) = None
  | Some (a, s') => s_run_step (next_timer_of c s) c (abs s) = Some (a, abs s') /\
      same k tt tt s'
  end.
Proof.
  intros HP. unfold run_step, s_run_step, next_timer_of, per_cpu, s_cpu.
  rewrite !bind_unfold, !get_run. cbn [abs s_bases]. rewrite list_lookup_fmap.
  destruct (bases s !! c) as [b|] eqn:Hb; [|done].
  cbn [fmap option_fmap option_map]. rewrite !lift_opt_run, !bind_unfold, !gets_run.
  change (s_now (abs s)) with (jiffies s). cbn [abs_base s_work s_tick].
  destruct (work_list b) as [[|t w]|] eqn:Hw; cbn [fmap option_fmap option_map].
  - rewrite bool_decide_eq_true_2 by done.
    destruct (time_after_eq (jiffies s) (timer_jiffies b)).
    + pose proof (sim_run_tick ts k c b Hw s (conj HP Hb)) as H.
      destruct (run_tick c s) as [[[] s']|]; [|exact H].
      destruct H as ([] & Hr & Hs). split; [exact Hr | exact Hs].
    + split.
      * unfold s_on_base, modify. unfold abs; cbn. do 3 f_equal. apply fmap_alter. by intros [].
      * destruct HP as (Hi & Ht & Hk). split_and!; [done| |cbn; by rewrite length_alter].
        apply inv_with_base; [by intros [] []|by intros []| |done].
        intros b1 Hb1. assert (b1 = b) as -> by congruence. by rewrite Hw.
  - rewrite bool_decide_eq_true_2 by set_solver.
    pose proof (sim_run_timer ts k c t s HP) as H.
    destruct (run_timer c t s) as [[[] s']|]; [|exact H].
    destruct H as ([] & Hr & Hs). split; [exact Hr | exact Hs].
  - split; [done|]. by eapply st_same.
Qed.

(** ** The clock and the calls

    Only the clock interrupt moves the clock, and only [run_timer] calls a timer
    function. *)

Section Frame.
  Context (F : Z -> list (tid * Z * Z) -> Prop).
Let P (s : system) : Prop := F (jiffies s) (calls s).

Lemma keep_on_base c f : preserves P (on_base c f).
Proof. by apply preserves_modify. Qed.

Lemma keep_on_timer t f : preserves P (on_timer t f).
Proof. by apply preserves_modify. Qed.

Lemma keep_timer t : preserves P (timer t).
Proof. unfold timer. preserve. Qed.

Lemma keep_per_cpu c : preserves P (per_cpu c).
Proof. unfold per_cpu. preserve. Qed.

Lemma keep_bug b : preserves P (BUG_ON b).
Proof. unfold BUG_ON. preserve. Qed.

#[local] Hint Resolve keep_on_base keep_on_timer keep_timer keep_per_cpu keep_bug : board.

Lemma keep_add c t : preserves P (internal_add_timer c t).
Proof. unfold internal_add_timer. preserve. Qed.

Lemma keep_detach t b : preserves P (detach_timer t b).
Proof. unfold detach_timer. preserve. Qed.

Lemma keep_arm t e po pin cpu m : preserves P (__mod_timer t e po pin cpu m).
Proof. unfold __mod_timer, forget_next, note_next, internal_add_timer, detach_timer. preserve. Qed.

Lemma keep_del t : preserves P (del_timer t).
Proof. unfold del_timer, forget_next, detach_timer. preserve. Qed.

#[local] Hint Resolve keep_arm keep_del keep_add keep_detach : board.

Lemma keep_cascade_loop c l : preserves P (cascade_loop c l).
Proof. induction l as [|t l IH]; cbn [cascade_loop]; preserve. Qed.

#[local] Hint Resolve keep_cascade_loop : board.

Lemma keep_run_tick c : preserves P (run_tick c).
Proof. unfold run_tick, cascade_all, cascade. preserve. Qed.

Lemma keep_init t cpu e fn d defer : preserves P (init_timer t cpu e fn d defer).
Proof.
  intros s a s' Hs H. unfold init_timer in H.
  apply bind_inv in H as (s0 & s1 & [= <- <-] & H). apply bind_inv in H as ([] & s2 & H2 & H).
  apply bind_inv in H as (b & s3 & H3 & H). by injection H as _ <-.
Qed.

#[local] Hint Resolve keep_init : board.

(** Every event but the clock interrupt and the run of a timer. *)
Lemma keep_handle ev :
  match ev with EvTick | EvRun _ => True | _ => preserves P (handle ev) end.
Proof.
  destruct ev; try done; cbn [handle];
    [apply preserves_bind; [apply keep_init | intros; apply preserves_ret] | ..];
    unfold add_timer, add_timer_on, mod_timer, mod_timer_pending, mod_timer_pinned,
      try_to_del_timer_sync, run_timer_softirq, note_next, timer_cpu_up; preserve;
    by apply preserves_modify.
Qed.

End Frame.

(** ** Reachable states *)

Definition wf (s : system) : Prop := inv None s /\ is_u32 (jiffies s).

(** The choice the wheel makes among the timers of a tick. *)
Definition pick_of (ev : event) (s : system) : option tid :=
  match ev with EvRun c => next_timer_of c s | _ => None end.

Lemma run_timer_frame (F : Z -> Prop) c t : preserves (fun s => F (jiffies s)) (run_timer c t).
Proof.
  unfold run_timer. apply preserves_bind; [apply (keep_timer (fun j _ => F j))|]. intros x.
  apply preserves_bind; [apply (keep_on_base (fun j _ => F j))|]. intros _.
  apply preserves_bind; [apply (keep_detach (fun j _ => F j))|]. intros _.
  by apply preserves_modify.
Qed.

Lemma run_step_frame (F : Z -> Prop) c : preserves (fun s => F (jiffies s)) (run_step c).
Proof.
  unfold run_step. apply preserves_bind; [apply (keep_per_cpu (fun j _ => F j))|]. intros b.
  apply preserves_bind; [apply preserves_gets|]. intros now.
  destruct (work_list b) as [[|t w]|]; [|apply run_timer_frame|apply preserves_ret].
  destruct (time_after_eq now (timer_jiffies b));
    [apply (keep_run_tick (fun j _ => F j)) | apply (keep_on_base (fun j _ => F j))].
Qed.

Lemma handle_clock ev : preserves (fun s => is_u32 (jiffies s)) (handle ev).
Proof.
  pose proof (keep_handle (fun j _ => is_u32 j) ev) as H. destruct ev; try exact H; cbn [handle].
  - apply preserves_bind; [apply run_step_frame | intros; apply preserves_ret].
  - apply preserves_bind; [|intros; apply preserves_ret].
    apply preserves_modify. intros s _. apply u32_range.
Qed.

Lemma init_base_ok ts c j : is_u32 j -> base_ok ts c (init_timers_cpu j).
Proof.
  intros Hj.
  assert (Hl : forall n i l, tv n (init_timers_cpu j) !! i = Some l -> l = []).
  { intros n i l Hi. destruct n; cbn [tv init_timers_cpu tv1 tv2 tv3 tv4 tv5] in Hi;
      by apply lookup_replicate in Hi as [-> _]. }
  assert (Hn : listed (init_timers_cpu j) = []).
  { unfold listed. cbn [work_list init_timers_cpu default]. rewrite app_nil_r.
    apply elem_of_nil_inv. intros t (n & i & l & Hi & Ht)%elem_of_queued.
    apply Hl in Hi as ->. by apply not_elem_of_nil in Ht. }
  split.
  - intros []; reflexivity.
  - done.
  - rewrite Hn. constructor.
  - intros t. rewrite Hn. by intros ?%not_elem_of_nil.
  - intros n i l t x Hi Ht. apply Hl in Hi as ->. by apply not_elem_of_nil in Ht.
Qed.

Lemma sim_cpu_up ts k : sim (fun s => st None ts k s /\ is_u32 (jiffies s)) (handle EvCpuUp)
  (s_handle None EvCpuUp) (fun a b s => b = a /\ inv None s).
Proof.
  intros s [(Hi & Ht & Hk) Hj]. cbn [handle s_handle]. unfold timer_cpu_up, modify.
  rewrite !bind_unfold. exists 0. split.
  - unfold abs; cbn [timers bases jiffies calls s_timers s_bases s_now s_calls].
    rewrite !ret_unfold. do 3 f_equal. by rewrite fmap_app.
  - split; [done|].
    assert (Hlook : forall c b, (bases s ++ [init_timers_cpu (jiffies s)]) !! c = Some b ->
      bases s !! c = Some b \/ (c = length (bases s) /\ b = init_timers_cpu (jiffies s))).
    { intros c b [Hb|[Hc Hb]]%lookup_app_Some; [by left|]. right.
      apply list_lookup_singleton_Some in Hb as [Hc' <-]. split; [lia | done]. }
    split; cbn; [| | |done].
    + intros c b [Hb|[_ ->]]%Hlook; [by apply (i_bases _ _ Hi) | by apply init_base_ok].
    + intros t x Hx. destruct (i_timers _ _ Hi t x Hx) as [He [b Hb]]. split; [done|].
      exists b. by apply lookup_app_l_Some.
    + intros t x b _ Hx Hp [Hb|[Hc ->]]%Hlook; [by eapply (i_pending _ _ Hi)|].
      destruct (i_timers _ _ Hi t x Hx) as [_ [b Hb]]. apply lookup_lt_Some in Hb. lia.
Qed.

(** Every event does to the wheel what it does to the sets. *)
Lemma handle_sim s ev : wf s ->
  match handle ev s with
  | Some (r, s') => s_handle (pick_of ev s) ev (abs s) = Some (r, abs s') /\ wf s'
  | None => s_handle (pick_of ev s) ev (abs s) = None
  end.
Proof.
  intros [Hi Hj].
  assert (HP : st None (timers s) (length (bases s)) s) by done.
  assert (Hs : sim (fun s' => st None (timers s) (length (bases s)) s' /\ s' = s)
    (handle ev) (s_handle (pick_of ev s) ev) (fun a b s => b = a /\ inv None s)).
  { set (ts := timers s) in *. set (k := length (bases s)) in *.
    assert (Hm : forall n, sim (st None ts k) (handle ev) n (same k) ->
      sim (fun s' => st None ts k s' /\ s' = s) (handle ev) n (fun a b s => b = a /\ inv None s)).
    { intros n Hn s0 [H0 _]. specialize (Hn s0 H0).
      destruct (handle ev s0) as [[a s1]|]; [|done]. destruct Hn as (b & Hr & -> & Hi1 & _). eauto. }
    destruct ev; cbn [handle s_handle pick_of] in *;
      [apply Hm .. | | |].
    - apply (sim_same ts k _ _ (fun _ => 0)), sim_init, u32_range.
    - apply sim_set_expires, u32_range.
    - apply sim_set_slack.
    - apply (sim_same ts k _ _ (fun _ => 0)), sim_add_timer.
    - apply (sim_same ts k _ _ (fun _ => 0)), sim_add_timer_on.
    - apply sim_mod_timer, u32_range.
    - apply sim_arm, u32_range.
    - unfold mod_timer_pinned, s_mod_timer_pinned.
      eapply sim_bind; [apply sim_timer|]. intros x y. apply sim_pure. intros [-> Hx].
      destruct ((expires x =? u32 e) && pending x); [apply sim_ret; apply st_same|].
      apply sim_arm, u32_range.
    - apply sim_del_timer.
    - apply sim_try_del.
    - apply (sim_same ts k _ _ (fun _ => 0)), sim_softirq.
    - intros s0 [H0 ->]. pose proof (run_step_sim ts k cpu s H0) as H.
      rewrite !bind_unfold. destruct (run_step cpu s) as [[[] s1]|]; [|by rewrite H].
      destruct H as [-> (_ & Hi1 & _)]. exists 0. by rewrite !ret_unfold.
    - intros s0 [(Hi0 & _ & _) _]. exists 0. split; [done|]. split; [done|].
      destruct Hi0. by split.
    - intros s0 [H0 ->]. exact (sim_cpu_up ts k s (conj H0 Hj)). }
  specialize (Hs s (conj HP eq_refl)). destruct (handle ev s) as [[r s']|] eqn:E; [|done].
  destruct Hs as (b & Hr & -> & Hi'). split; [done|]. split; [done|].
  by eapply handle_clock.
Qed.

(** A sequence of events, each of which is defined. *)
Fixpoint run_events (evs : list event) (s : system) : option system :=
  match evs with
  | [] => Some s
  | ev :: evs' => match handle ev s with Some (_, s') => run_events evs' s' | None => None end
  end.

Definition reachable (s : system) : Prop :=
  exists j evs, is_u32 j /\ run_events evs (boot j) = Some s.

Lemma run_events_wf evs : forall s s', wf s -> run_events evs s = Some s' -> wf s'.
Proof.
  induction evs as [|ev evs IH]; intros s s' Hw H; cbn in H; [by simplify_eq|].
  pose proof (handle_sim s ev Hw) as Hs. destruct (handle ev s) as [[r s1]|]; [|done].
  eapply IH; [apply Hs | done].
Qed.

Lemma boot_wf j : is_u32 j -> wf (boot j).
Proof. intros Hj. split; [|done]. split; cbn; intros; simplify_map_eq. Qed.

Lemma reachable_wf s : reachable s -> wf s.
Proof. intros (j & evs & Hj & H). eapply run_events_wf; [by apply boot_wf | done]. Qed.

(** ** When a timer runs

    What the sets say about one timer [t] on processor [c]: its fields other than
    the slack, the clock of the processor, and whether the timer waits or is about
    to run. *)

Section Watch.
  Context (t : tid) (c : nat).

Definition core (x : timer_list) : bool * Z * nat := (pending x, expires x, base x).
Definition base_view (b : sbase) : Z * bool * bool :=
  (s_tick b, bool_decide (t ∈ s_queue b), bool_decide (t ∈ default ∅ (s_work b))).
Definition view (q : ssystem) : option (bool * Z * nat) * option (Z * bool * bool) :=
  (core <$> s_timers q !! t, base_view <$> s_bases q !! c).

(** An event that names the timer. *)
Definition touches (ev : event) : bool :=
  match ev with
  | EvInit u _ _ _ _ _ | EvSetExpires u _ | EvAdd u _ _ | EvAddOn u _ | EvMod u _ _ _
  | EvModPending u _ _ _ | EvModPinned u _ _ | EvDel u | EvTryDel u => bool_decide (u = t)
  | _ => false
  end.

Section Keep.
  Context (v : option (bool * Z * nat) * option (Z * bool * bool)).
Let P (q : ssystem) : Prop := view q = v.

Lemma view_on_base c' f : (forall b, base_view (f b) = base_view b) -> preserves P (s_on_base c' f).
Proof.
  intros Hf. apply preserves_modify. intros q Hq. unfold P in *. rewrite <- Hq. unfold view; cbn.
  f_equal. rewrite list_lookup_alter. destruct (decide (c' = c)) as [->|]; [|done].
  destruct (s_bases q !! c); cbn; [by rewrite Hf | done].
Qed.

Lemma view_other_base c' f : c' <> c -> preserves P (s_on_base c' f).
Proof.
  intros Hc. apply preserves_modify. intros q Hq. unfold P in *. rewrite <- Hq. unfold view; cbn.
  by rewrite list_lookup_alter_ne.
Qed.

Lemma view_on_timer u f : u <> t \/ (forall x, core (f x) = core x) -> preserves P (s_on_timer u f).
Proof.
  intros Hu. apply preserves_modify. intros q Hq. unfold P in *. rewrite <- Hq. unfold view; cbn.
  f_equal. destruct (decide (u = t)) as [->|Hne].
  - destruct Hu as [?|Hf]; [done|]. rewrite lookup_alter_eq. destruct (s_timers q !! t); cbn; [by rewrite Hf | done].
  - by rewrite lookup_alter_ne.
Qed.

Lemma view_timer u : preserves P (s_timer u).
Proof. unfold s_timer. preserve. Qed.

Lemma view_cpu c' : preserves P (s_cpu c').
Proof. unfold s_cpu. preserve. Qed.

Lemma view_bug b : preserves P (s_bug b).
Proof. unfold s_bug. preserve. Qed.

Lemma view_insert u : u <> t -> forall b, base_view (s_insert u b) = base_view b.
Proof. intros Hu b. unfold base_view; cbn. f_equal. f_equal. apply bool_decide_ext. set_solver. Qed.

Lemma view_remove u : u <> t -> forall b, base_view (s_remove u b) = base_view b.
Proof.
  intros Hu b. unfold base_view; cbn. f_equal; [f_equal|]; apply bool_decide_ext.
  - set_solver.
  - destruct (s_work b) as [w|]; cbn; set_solver.
Qed.

Lemma view_next z b : base_view (s_set_next z b) = base_view b.
Proof. done. Qed.

Lemma view_running z b : base_view (s_set_running z b) = base_view b.
Proof. done. Qed.

#[local] Hint Resolve view_timer view_cpu view_bug : board.
#[local] Hint Extern 1 (preserves P (s_on_base _ _)) =>
  apply view_on_base; auto using view_insert, view_remove, view_next, view_running : board.
#[local] Hint Extern 1 (preserves P (s_on_timer _ _)) => apply view_on_timer; auto : board.

Lemma view_arm u e po pin cpu m : u <> t -> preserves P (s_arm u e po pin cpu m).
Proof.
  intros Hu. unfold s_arm, s_forget_next, s_note_next, s_add, s_detach. preserve.
Qed.

Lemma view_detach u b : u <> t -> preserves P (s_detach u b).
Proof. intros Hu. unfold s_detach. preserve. Qed.

Lemma view_del u : u <> t -> preserves P (s_del_timer u).
Proof. intros Hu. unfold s_del_timer, s_forget_next, s_detach. preserve. Qed.

Lemma view_run_timer c' u : u <> t -> preserves P (s_run_timer c' u).
Proof.
  intros Hu. unfold s_run_timer, s_detach. preserve. apply preserves_modify. intros q Hq. exact Hq.
Qed.

#[local] Hint Resolve view_arm view_del : board.

Lemma view_init u cpu e fn d defer : u <> t -> preserves P (s_init_timer u cpu e fn d defer).
Proof.
  intros Hu q a q' Hq H. unfold s_init_timer in H.
  apply bind_inv in H as (q0 & q1 & [= <- <-] & H). apply bind_inv in H as ([] & q2 & H2 & H).
  apply bind_inv in H as (b & q3 & H3 & H). injection H as _ <-.
  unfold P in *. rewrite <- Hq. unfold view; cbn. by rewrite lookup_insert_ne.
Qed.

(** Events about other timers, other than a step of [__run_timers]. *)
Lemma view_event pick ev : touches ev = false ->
  match ev with EvRun _ | EvSoftirq _ | EvCpuUp => True | _ => preserves P (s_handle pick ev) end.
Proof.
  intros Ht. destruct ev; try done; cbn [touches] in Ht; try apply bool_decide_eq_false in Ht;
    cbn [s_handle];
    [apply preserves_bind; [by apply view_init | intros; apply preserves_ret] | ..];
    unfold s_add_timer, s_add_timer_on, s_mod_timer, s_mod_timer_pinned, s_try_to_del_timer_sync,
      s_note_next, s_add; preserve; by apply preserves_modify.
Qed.

End Keep.

(** The other events. *)
Lemma view_softirq c' q a q' : s_softirq c' q = Some (a, q') -> view q' = view q.
Proof.
  unfold s_softirq, s_cpu. rewrite !bind_unfold, get_run.
  destruct (s_bases q !! c') as [b|] eqn:Hb; [|done].
  rewrite lift_opt_run, bind_unfold, gets_run, bind_unfold. unfold s_bug.
  case_bool_decide as Hw; [done|]. rewrite ret_unfold.
  destruct (time_after_eq (s_now q) (s_tick b)); [|by intros [= _ <-]].
  intros [= _ <-]. unfold view; cbn. f_equal. rewrite list_lookup_alter.
  destruct (decide (c' = c)) as [->|]; [|done]. rewrite Hb. cbn. f_equal. unfold base_view; cbn.
  destruct (s_work b); [by destruct Hw|done].
Qed.

Lemma view_finish c' q a q' b : s_bases q !! c' = Some b -> default ∅ (s_work b) = ∅ ->
  s_on_base c' (fun b => s_set_work None (s_set_running None b)) q = Some (a, q') ->
  view q' = view q.
Proof.
  intros Hb Hw [= _ <-]. unfold view; cbn. f_equal. rewrite list_lookup_alter.
  destruct (decide (c' = c)) as [->|]; [|done]. rewrite Hb. cbn. f_equal. unfold base_view; cbn.
  by rewrite Hw.
Qed.

(** A tick of the timer's own processor. *)
Lemma view_tick q a q' b : s_bases q !! c = Some b -> s_run_tick c q = Some (a, q') ->
  view q' = (core <$> s_timers q !! t, Some (base_view (s_advance (s_timers q) b))).
Proof.
  intros Hb. unfold s_run_tick, s_cpu. rewrite !bind_unfold, get_run, Hb, lift_opt_run.
  rewrite bind_unfold, get_run. intros [= _ <-]. unfold view; cbn.
  by rewrite list_lookup_alter_eq, Hb.
Qed.

Lemma view_tick_other c' q a q' : c' <> c -> s_run_tick c' q = Some (a, q') -> view q' = view q.
Proof.
  intros Hc H. unfold s_run_tick in H. apply bind_inv in H as (b & q1 & H1 & H).
  apply bind_inv in H as (q2 & q3 & [= <- <-] & H).
  pose proof (view_cpu (view q) c' q b q1 eq_refl H1) as E1.
  exact (view_other_base (view q) c' _ Hc _ _ _ E1 H).
Qed.

(** The run of the timer itself. *)
Lemma view_run q a q' x b : s_timers q !! t = Some x -> base x = c -> s_bases q !! c = Some b ->
  s_run_timer c t q = Some (a, q') ->
  view q' = (Some (false, expires x, c), Some (s_tick b, false, false)).
Proof.
  intros Hx Hc Hb. unfold s_run_timer, s_timer, s_detach. rewrite !bind_unfold, get_run, Hx, lift_opt_run.
  unfold s_on_base, modify. rewrite !bind_unfold. unfold s_timer. rewrite !bind_unfold, get_run.
  cbn [s_timers]. rewrite Hx, lift_opt_run, bind_unfold. unfold s_on_base, modify, s_on_timer.
  intros [= _ <-]. unfold view; cbn. rewrite lookup_alter_eq, Hx, Hc. cbn. f_equal; [by rewrite <- Hc|].
  rewrite list_lookup_alter_eq, list_lookup_alter_eq, Hb. cbn. f_equal. unfold base_view; cbn.
  f_equal; [f_equal|]; apply bool_decide_eq_false; [set_solver|].
  destruct (s_work b) as [w|]; cbn; set_solver.
Qed.

(** How often the timer's function was called. *)
Definition called (s : system) : nat :=
  length (filter (fun r : tid * Z * Z => r.1.1 = t) (calls s)).

(** The event is a tick run by the processor. *)
Definition ticks (ev : event) (s : system) : Z :=
  match ev with
  | EvRun c' =>
      match bases s !! c' with
      | Some b =>
          if bool_decide (c' = c) && bool_decide (work_list b = Some []) &&
             time_after_eq (jiffies s) (timer_jiffies b) then 1 else 0
      | None => 0
      end
  | _ => 0
  end.

Fixpoint ticks_in (evs : list event) (s : system) : Z :=
  match evs with
  | [] => 0
  | ev :: evs' =>
      ticks ev s + match handle ev s with Some (_, s') => ticks_in evs' s' | None => 0 end
  end.

Section Phases.
  Context (e j : Z) (k : nat).
  Hypothesis He : is_u32 e.

(** Ticks to wait, from [j] on. *)
Definition wait : Z := Z.max 0 (s32 (e - j)).

Definition waiting (n : Z) (s : system) : Prop :=
  exists j', view (abs s) = (Some (true, e, c), Some (j', true, false)) /\ is_u32 j' /\
    0 <= n <= wait /\ s32 (e - j') = s32 (e - j) - n /\ called s = k.
Definition due (n : Z) (s : system) : Prop :=
  exists j', view (abs s) = (Some (true, e, c), Some (j', false, true)) /\
    n = wait + 1 /\ called s = k.
Definition gone (n : Z) (s : system) : Prop :=
  exists j', view (abs s) = (Some (false, e, c), Some (j', false, false)) /\
    wait + 1 <= n /\ called s = S k.
Definition phase (n : Z) (s : system) : Prop := waiting n s \/ due n s \/ gone n s.

Lemma phase_same n s s' : phase n s -> view (abs s') = view (abs s) -> calls s' = calls s ->
  phase n s'.
Proof.
  intros Hp Hv Hc. assert (Hk : called s' = called s) by (unfold called; by rewrite Hc).
  destruct Hp as [(j' & ?)|[(j' & ?)|(j' & ?)]]; [left|right; left|right; right];
    exists j'; rewrite Hv, Hk; done.
Qed.

Lemma phase_core n s : phase n s -> exists x, timers s !! t = Some x /\ base x = c /\ expires x = e.
Proof.
  intros Hp. assert (Hv : exists p, core <$> timers s !! t = Some (p, e, c)).
  { destruct Hp as [(j' & H & _)|[(j' & H & _)|(j' & H & _)]]; injection H as H _; eauto. }
  destruct Hv as [p Hv]. apply fmap_Some in Hv as (x & Hx & Hc). injection Hc as _ -> ->. eauto.
Qed.

Lemma s32_next j' : is_u32 j' -> 0 < s32 (e - j') -> s32 (e - u32 (j' + 1)) = s32 (e - j') - 1.
Proof.
  intros Hj Hp. rewrite !s32_delta in * by (try done; apply u32_range).
  pose proof (delta_range j' e).
  destruct (Z.ltb_spec (delta j' e) (2 ^ 31)); [|lia].
  rewrite delta_next by (done || lia). destruct (Z.ltb_spec (delta j' e - 1) (2 ^ 31)); lia.
Qed.

(** A tick of the timer's processor. *)
Lemma phase_tick n s s' b : wf s -> phase n s -> bases s !! c = Some b -> work_list b = Some [] ->
  s_run_tick c (abs s) = Some (tt, abs s') -> calls s' = calls s -> phase (n + 1) s'.
Proof.
  intros Hwf Hp Hb Hw Hr Hc. assert (Hk : called s' = called s) by (unfold called; by rewrite Hc).
  destruct (phase_core n s Hp) as (x & Hx & Hxc & Hxe).
  assert (Hab : s_bases (abs s) !! c = Some (abs_base b)) by (cbn; by rewrite list_lookup_fmap, Hb).
  pose proof (view_tick _ _ _ _ Hab Hr) as Hv. cbn [abs s_timers] in Hv. rewrite Hx in Hv. cbn [fmap option_fmap option_map] in Hv.
  assert (Hvs : view (abs s) = (core <$> timers s !! t, Some (base_view (abs_base b))))
    by (unfold view; by rewrite Hab).
  rewrite Hx in Hvs. cbn [fmap option_fmap option_map] in Hvs.
  assert (Hex : expired (timers s) (timer_jiffies b) t = (s32 (e - timer_jiffies b) <=? 0))
    by (unfold expired; by rewrite Hx, Hxe).
  unfold base_view, s_advance in Hv. cbn [s_tick s_queue s_work abs_base default from_option id] in Hv.
  unfold base_view in Hvs. cbn [s_tick s_queue s_work abs_base default] in Hvs.
  rewrite Hw in Hvs. cbn [fmap option_fmap option_map list_to_set default] in Hvs.
  destruct Hp as [(j' & H & Hj' & Hn & Hs & Hcl)|[(j' & H & _)|(j' & H & Hn & Hcl)]];
    rewrite H in Hvs; unfold core in Hvs, Hv; [|discriminate|];
    injection Hvs as Hco _ _ Hjb Hq; rewrite <- Hco, Hxe, Hxc in Hv.
  - symmetry in Hq. apply bool_decide_eq_true in Hq.
    subst j'. destruct (Z.leb_spec (s32 (e - timer_jiffies b)) 0) as [Hle|Hgt].
    + right. left. exists (u32 (timer_jiffies b + 1)). split; [|split; [unfold wait in *; lia|congruence]].
      rewrite Hv. do 2 f_equal. f_equal; [f_equal|].
      * apply bool_decide_eq_false. rewrite elem_of_difference, elem_of_filter, Hex. tauto.
      * apply bool_decide_eq_true. rewrite elem_of_filter, Hex. tauto.
    + left. exists (u32 (timer_jiffies b + 1)). split_and!.
      * rewrite Hv. do 2 f_equal. f_equal; [f_equal|].
        -- apply bool_decide_eq_true. rewrite elem_of_difference, elem_of_filter, Hex.
           split; [done|]. intros [? _]. done.
        -- apply bool_decide_eq_false. rewrite elem_of_filter, Hex. intros [? _]. done.
      * apply u32_range.
      * lia.
      * unfold wait in *. lia.
      * rewrite s32_next by done. lia.
      * congruence.
  - symmetry in Hq. apply bool_decide_eq_false in Hq.
    right. right. exists (u32 (timer_jiffies b + 1)). split; [|split; [lia|congruence]].
    rewrite Hv. do 2 f_equal. f_equal; [f_equal|]; apply bool_decide_eq_false; set_solver.
Qed.

Lemma run_timer_calls c' u s a s' : run_timer c' u s = Some (a, s') ->
  exists x, timers s !! u = Some x /\ calls s' = (u, function x, data x) :: calls s.
Proof.
  intros H. unfold run_timer in H. apply bind_inv in H as (x & s1 & H1 & H).
  unfold timer in H1. rewrite bind_unfold, get_run in H1.
  destruct (timers s !! u) as [y|] eqn:Hy; [|done]. rewrite lift_opt_run in H1. injection H1 as <- <-.
  apply bind_inv in H as ([] & s2 & H2 & H). apply bind_inv in H as ([] & s3 & H3 & H).
  injection H as _ <-. exists y. split; [done|]. cbn. f_equal.
  pose proof (keep_on_base (fun _ l => l = calls s) _ _ _ _ _ eq_refl H2) as E2.
  exact (keep_detach (fun _ l => l = calls s) _ _ _ _ _ E2 H3).
Qed.

(** The next timer of the work list is run. *)
Lemma phase_run n c' s s' b u w : wf s -> phase n s -> bases s !! c' = Some b ->
  work_list b = Some (u :: w) -> run_timer c' u s = Some (tt, s') ->
  s_run_timer c' u (abs s) = Some (tt, abs s') -> phase n s'.
Proof.
  intros [Hi _] Hp Hb Hw Hr Hs. destruct (phase_core n s Hp) as (x & Hx & Hxc & Hxe).
  destruct (run_timer_calls _ _ _ _ _ Hr) as (y & Hy & Hc).
  assert (Hcl : called s' = ((if decide (u = t) then 1 else 0) + called s)%nat).
  { unfold called. rewrite Hc, filter_cons. cbn. by destruct (decide (u = t)). }
  assert (Hin : u ∈ listed b) by (apply elem_of_app; right; rewrite Hw; left).
  destruct (b_owner _ _ _ (i_bases _ _ Hi c' b Hb) u Hin) as (y' & Hy' & _ & Hyc).
  destruct (decide (u = t)) as [->|Hne].
  - assert (c' = c) as -> by congruence.
    assert (Hab : s_bases (abs s) !! c = Some (abs_base b)) by (cbn; by rewrite list_lookup_fmap, Hb).
    pose proof (view_run (abs s) tt (abs s') x _ Hx Hxc Hab Hs) as Hv. rewrite Hxe in Hv.
    assert (Hwt : exists p j' q, view (abs s) = (p, Some (j', q, true))).
    { unfold view. rewrite Hab. cbn [fmap option_fmap option_map]. unfold base_view.
      rewrite (bool_decide_eq_true_2 (t ∈ default ∅ (s_work (abs_base b)))); [eauto|].
      cbn [abs_base s_work]. rewrite Hw. cbn. apply elem_of_union_l, elem_of_singleton. done. }
    destruct Hwt as (p & j' & q & Hwt).
    destruct Hp as [(? & H & _)|[(? & H & -> & Hk)|(? & H & _)]]; rewrite H in Hwt; [discriminate| |discriminate].
    right. right. exists (s_tick (abs_base b)). split; [done|]. split; [lia|]. by rewrite Hcl, Hk.
  - assert (Hv : view (abs s') = view (abs s))
      by exact (view_run_timer (view (abs s)) c' u Hne _ _ _ eq_refl Hs).
    destruct Hp as [(j' & ?)|[(j' & ?)|(j' & ?)]]; [left|right; left|right; right];
      exists j'; rewrite Hv, Hcl; done.
Qed.

Lemma phase_step n s ev r s' : wf s -> phase n s -> touches ev = false ->
  handle ev s = Some (r, s') -> phase (n + ticks ev s) s'.
Proof.
  intros Hwf Hp Ht Hr. pose proof (handle_sim s ev Hwf) as Hs. rewrite Hr in Hs. destruct Hs as [Hs _].
  destruct (phase_core n s Hp) as (x & Hx & Hxc & _).
  destruct (i_timers _ _ (proj1 Hwf) t x Hx) as [_ [b Hb]]. rewrite Hxc in Hb.
  pose proof (view_event (view (abs s)) (pick_of ev s) ev Ht) as Hv.
  pose proof (keep_handle (fun _ l => l = calls s) ev) as Hc.
  destruct ev; cbn [ticks]; try (rewrite Z.add_0_r;
    apply (phase_same n s s' Hp); [exact (Hv _ _ _ eq_refl Hs) | exact (Hc _ _ _ eq_refl Hr)]).
  - rewrite Z.add_0_r. apply (phase_same n s s' Hp); [|exact (Hc _ _ _ eq_refl Hr)].
    cbn [s_handle pick_of] in Hs. apply bind_inv in Hs as ([] & q & Hs & [= _ <-]).
    by eapply view_softirq.
  - cbn [s_handle pick_of handle] in Hs, Hr.
    apply bind_inv in Hr as ([] & s1 & Hr & [= _ <-]). apply bind_inv in Hs as ([] & q & Hs & [= _ ->]).
    unfold run_step, per_cpu in Hr. unfold s_run_step, s_cpu, next_timer_of in Hs.
    rewrite !bind_unfold, get_run in Hr. rewrite !bind_unfold, get_run in Hs. cbn [abs s_bases] in Hs. rewrite list_lookup_fmap in Hs.
    destruct (bases s !! cpu) as [b'|] eqn:Hb'; [|done]. cbn [fmap option_fmap option_map] in Hs.
    rewrite lift_opt_run, bind_unfold, gets_run in Hr. rewrite lift_opt_run, bind_unfold, gets_run in Hs.
    change (s_now (abs s)) with (jiffies s) in Hs. cbn [abs_base s_work s_tick] in Hs.
    destruct (work_list b') as [[|u w]|] eqn:Hw; cbn [fmap option_fmap option_map] in Hs.
    + rewrite bool_decide_eq_true_2 in Hs by done. rewrite (bool_decide_eq_true_2 (Some [] = Some [])) by done.
      destruct (time_after_eq (jiffies s) (timer_jiffies b')) eqn:Ha.
      * pose proof (keep_run_tick (fun _ l => l = calls s) cpu _ _ _ eq_refl Hr) as Hcl.
        case_bool_decide as Hcc; cbn [andb].
        -- subst cpu. assert (b' = b) as -> by congruence. by apply (phase_tick n s s1 b).
        -- rewrite Z.add_0_r. apply (phase_same n s s1 Hp); [by eapply view_tick_other | done].
      * rewrite andb_false_r, Z.add_0_r. apply (phase_same n s s1 Hp).
        -- eapply (view_finish cpu); [|..|exact Hs]; [cbn; by rewrite list_lookup_fmap, Hb'|].
           cbn. by rewrite Hw.
        -- exact (keep_on_base (fun _ l => l = calls s) _ _ _ _ _ eq_refl Hr).
    + rewrite bool_decide_eq_true_2 in Hs by set_solver. rewrite andb_false_r. cbn [andb].
      rewrite Z.add_0_r. by eapply (phase_run n cpu s s1 b' u w).
    + injection Hr as <-. rewrite andb_false_r. cbn [andb]. by rewrite Z.add_0_r.
  - rewrite Z.add_0_r. apply (phase_same n s s' Hp); [|by injection Hr as _ <-].
    exact (Hv _ _ _ eq_refl Hs).
  - rewrite Z.add_0_r. apply (phase_same n s s' Hp); [|by injection Hr as _ <-].
    cbn [s_handle pick_of] in Hs. apply bind_inv in Hs as ([] & q & Hs & [= _ <-]).
    injection Hs as <-. unfold view. cbn [s_timers s_bases abs]. f_equal.
    rewrite lookup_app_l; [done|]. rewrite length_fmap. by eapply lookup_lt_Some.
Qed.

Lemma phase_run_events evs : forall n s s', wf s -> phase n s -> forallb (fun ev => negb (touches ev)) evs = true ->
  run_events evs s = Some s' -> phase (n + ticks_in evs s) s'.
Proof.
  induction evs as [|ev evs IH]; intros n s s' Hwf Hp Ht H; cbn in *.
  { simplify_eq. by rewrite Z.add_0_r. }
  apply andb_true_iff in Ht as [Ht1 Ht2]. apply negb_true_iff in Ht1.
  pose proof (handle_sim s ev Hwf) as Hs.
  destruct (handle ev s) as [[r s1]|] eqn:Hr; [|done].
  rewrite Z.add_assoc. apply (IH _ s1); [apply Hs| |done|done]. by eapply phase_step.
Qed.

End Phases.

End Watch.

Lemma phase_start s t x b : wf s -> timers s !! t = Some x -> bases s !! base x = Some b ->
  t ∈ queued b -> phase t (base x) (expires x) (timer_jiffies b) (called t s) 0 s.
Proof.
  intros [Hi _] Hx Hb Hq. left. exists (timer_jiffies b).
  pose proof (i_bases _ _ Hi _ _ Hb) as Hok.
  destruct (b_owner _ _ _ Hok t) as (y & Hy & Hp & _); [apply elem_of_app; by left|].
  assert (y = x) as -> by congruence.
  assert (Hw : t ∉ default [] (work_list b)).
  { pose proof (b_nodup _ _ _ Hok) as Hn. apply NoDup_app in Hn as (_ & Hn & _). by apply Hn. }
  split_and!; [|by destruct Hok|done|unfold wait; lia|lia|done].
  unfold view. cbn [abs s_timers s_bases]. rewrite Hx, list_lookup_fmap, Hb. cbn.
  unfold core. rewrite Hp. do 2 f_equal. unfold base_view. cbn. f_equal; [f_equal|].
  - apply bool_decide_eq_true. by apply elem_of_list_to_set.
  - apply bool_decide_eq_false. destruct (work_list b); cbn in *; [by rewrite elem_of_list_to_set | set_solver].
Qed.

(** ** An example

    Two processors come up shortly before the clock wraps around, and a timer is
    armed for three ticks later. *)

Definition demo_start : Z := 2 ^ 32 - 2.
Definition demo_events : list event :=
  [EvCpuUp; EvCpuUp; EvInit 1%positive 0 0 7 42 false; EvMod 1%positive (demo_start + 3) 0 None].
Definition demo : system := default (boot 0) (run_events demo_events (boot demo_start)).
(** Five clock interrupts, and a softirq that runs the ticks that are behind. *)
Definition demo_run : list event :=
  [EvTick; EvTick; EvTick; EvTick; EvTick; EvSoftirq 0; EvRun 0; EvRun 0; EvRun 0; EvRun 0;
   EvRun 0; EvRun 0].
Definition demo_later : system := default (boot 0) (run_events demo_run demo).

Lemma demo_reachable : reachable demo.
Proof. exists demo_start, demo_events. split; [split; vm_compute; done | vm_compute; reflexivity]. Qed.

(** ** The theorems *)

(** C7: The timer wheel does exactly what a kernel would do that kept one set of
    timers per processor and looked through it at every tick: in every reachable
    state every event (arming, modifying, deleting, a step of the softirq, a clock
    interrupt, a processor coming up) is defined on both or on neither, returns the
    same value, and leaves the same timers waiting, about to run and called. *)
Theorem timer_wheel_refines s ev : reachable s ->
  s_handle (pick_of ev s) ev (abs s) = (fun '(r, s') => (r, abs s')) <$> handle ev s.
Proof.
  intros Hr. pose proof (handle_sim s ev (reachable_wf s Hr)) as H.
  destruct (handle ev s) as [[r s']|]; [apply H | exact H].
Qed.

Lemma timer_wheel_refines_witness :
  s_handle (pick_of (EvSoftirq 1) demo) (EvSoftirq 1) (abs demo) =
    (fun '(r, s') => (r, abs s')) <$> handle (EvSoftirq 1) demo.
Proof. exact (timer_wheel_refines demo (EvSoftirq 1) demo_reachable). Defined.

(** C9: In every reachable state the arrays of every processor have their sizes, no
    timer is linked twice, the linked timers are the pending ones of the processor,
    and each lies in a slot that will be looked at when it is due. *)
Theorem timer_wheel_wf s : reachable s -> inv None s.
Proof. intros Hr. by destruct (reachable_wf s Hr). Qed.

Lemma timer_wheel_wf_witness : inv None demo.
Proof. exact (timer_wheel_wf demo demo_reachable). Defined.

(** C8: A timer is run on time: while nobody modifies it, its function is not called
    before its processor has run the tick it expires at (or, if that is in the
    past, the next tick), it is called once while that tick is run, and it has been
    called once when the next tick begins, whatever else happens. *)
Theorem timer_on_time s0 t x b0 evs s :
  reachable s0 -> timers s0 !! t = Some x -> bases s0 !! base x = Some b0 -> t ∈ queued b0 ->
  forallb (fun ev => negb (touches t ev)) evs = true -> run_events evs s0 = Some s ->
  let d := Z.max 0 (s32 (expires x - timer_jiffies b0)) in
  let n := ticks_in (base x) evs s0 in
  (n <= d -> called t s = called t s0 /\ exists b, bases s !! base x = Some b /\ t ∈ queued b) /\
  (n = d + 1 -> called t s = S (called t s0) \/
     called t s = called t s0 /\
     exists b w, bases s !! base x = Some b /\ work_list b = Some w /\ t ∈ w) /\
  (d + 1 < n -> called t s = S (called t s0)).
Proof.
  intros Hr Hx Hb Hq Ht He d n. pose proof (reachable_wf s0 Hr) as Hwf.
  pose proof (i_timers _ _ (proj1 Hwf) t x Hx) as [Hux _].
  pose proof (phase_run_events t (base x) _ _ _ Hux evs 0 s0 s Hwf (phase_start s0 t x b0 Hwf Hx Hb Hq) Ht He)
    as Hp. rewrite Z.add_0_l in Hp. fold n in Hp.
  assert (Hbv : forall p q, view t (base x) (abs s) = (p, Some q) ->
    exists b, bases s !! base x = Some b /\ base_view t (abs_base b) = q).
  { intros p q. unfold view. cbn [abs s_bases]. rewrite list_lookup_fmap.
    destruct (bases s !! base x) as [b|]; intros [= _ H]. eauto. }
  destruct Hp as [(j' & Hv & _ & Hn & _ & Hc)|[(j' & Hv & Hn & Hc)|(j' & Hv & Hn & Hc)]];
    unfold wait in Hn; fold d in Hn; apply Hbv in Hv as (b & Hbs & Hv);
    unfold base_view in Hv; injection Hv as _ Hv1 Hv2.
  - apply bool_decide_eq_true in Hv1. cbn in Hv1. apply elem_of_list_to_set in Hv1.
    split_and!; [eauto | lia | lia].
  - split_and!; [lia | | lia]. intros _. right. split; [done|]. apply bool_decide_eq_true in Hv2.
    cbn in Hv2. destruct (work_list b) as [w|] eqn:Hw; [|set_solver]. cbn in Hv2.
    exists b, w. by rewrite elem_of_list_to_set in Hv2.
  - split_and!; [lia | intros _; by left | done].
Qed.

Lemma timer_on_time_witness : called 1%positive demo_later = S (called 1%positive demo).
Proof.
  refine (proj2 (proj2 (timer_on_time demo 1%positive (Timer true 1 0 false 7 42 (-1))
    (default (init_timers_cpu 0) (bases demo !! 0%nat)) demo_run demo_later demo_reachable _ _ _ _ _)) _).
  - vm_compute. reflexivity.
  - vm_compute. reflexivity.
  - apply (bool_decide_unpack _). vm_compute. exact I.
  - vm_compute. reflexivity.
  - vm_compute. reflexivity.
  - vm_compute. reflexivity.
Defined.
