(* ===== verification/TimerRun.v ===== *)
(** * The timer wheel: the softirq ends, slack and synchronous deletion

    [__run_timers] ends whatever the timer functions do with timers, having run
    every tick up to the present one; the slack [mod_timer] adds stays between the
    time asked for and its limit; and when [del_timer_sync] returns, the timer is
    neither queued nor running on any processor. *)

From S2P Require Import Prelude Timer TimerSpec TimerInv TimerProps.

(** ** The softirq ends *)

(** What drivers do with timers: the events a timer function may cause. *)
Definition api (ev : event) : bool :=
  match ev with EvSoftirq _ | EvRun _ | EvTick | EvCpuUp => false | _ => true end.

Section Progress.
  Context (c : nat) (j now : Z) (m : nat).

(** Processor [c] is in [__run_timers], with at most [m] timers left of the tick
    before [j]. *)
Definition running_tick (s : system) : Prop :=
  jiffies s = now /\ exists b w, bases s !! c = Some b /\ timer_jiffies b = j /\
    work_list b = Some w /\ (length w <= m)%nat.

Definition keeps_work (f : tvec_base -> tvec_base) : Prop :=
  forall b, timer_jiffies (f b) = timer_jiffies b /\
    forall w, work_list b = Some w -> exists w', work_list (f b) = Some w' /\ (length w' <= length w)%nat.

Lemma progress_on_base c' f : keeps_work f -> preserves running_tick (on_base c' f).
Proof.
  intros Hf. apply preserves_modify. intros s (Hn & b & w & Hb & Hj & Hw & Hl). split; [done|].
  destruct (Hf b) as [Hfj Hfw]. destruct (Hfw w Hw) as (w' & Hw' & Hl').
  destruct (decide (c' = c)) as [->|Hne].
  - exists (f b), w'. cbn. rewrite list_lookup_alter_eq, Hb. cbn. split_and!; [done|congruence|done|lia].
  - exists b, w. cbn. by rewrite list_lookup_alter_ne.
Qed.

Lemma progress_on_timer t f : preserves running_tick (on_timer t f).
Proof. by apply preserves_modify. Qed.

Lemma keeps_del t : keeps_work (list_del t).
Proof.
  intros b. split; [by destruct b|]. intros w Hw. exists (filter (fun x => x <> t) w).
  split; [destruct b; cbn in *; by rewrite Hw | apply length_filter].
Qed.

Lemma keeps_add n i t : keeps_work (vec_add_tail n i t).
Proof.
  intros b. destruct (set_tv_fields n (alter (fun l => l ++ [t]) i (tv n b)) b) as (Fj & _ & _ & Fw).
  split; [exact Fj|]. intros w Hw. exists w. split; [by rewrite <- Hw | done].
Qed.

Lemma keeps_next z : keeps_work (set_next_timer z).
Proof. intros []. split; eauto. Qed.

Lemma progress_timer t : preserves running_tick (timer t).
Proof. unfold timer. preserve. Qed.

Lemma progress_per_cpu c' : preserves running_tick (per_cpu c').
Proof. unfold per_cpu. preserve. Qed.

Lemma progress_bug b : preserves running_tick (BUG_ON b).
Proof. unfold BUG_ON. preserve. Qed.

#[local] Hint Resolve progress_timer progress_per_cpu progress_bug progress_on_timer : board.
#[local] Hint Extern 1 (preserves running_tick (on_base _ _)) =>
  apply progress_on_base; auto using keeps_del, keeps_add, keeps_next : board.

Lemma progress_arm t e po pin cpu mg : preserves running_tick (__mod_timer t e po pin cpu mg).
Proof. unfold __mod_timer, forget_next, note_next, internal_add_timer, detach_timer. preserve. Qed.

Lemma progress_del t : preserves running_tick (del_timer t).
Proof. unfold del_timer, forget_next, detach_timer. preserve. Qed.

#[local] Hint Resolve progress_arm progress_del : board.

Lemma progress_init t cpu e fn d defer : preserves running_tick (init_timer t cpu e fn d defer).
Proof.
  intros s a s' Hs H. unfold init_timer in H.
  apply bind_inv in H as (s0 & s1 & [= <- <-] & H). apply bind_inv in H as ([] & s2 & H2 & H).
  apply bind_inv in H as (b & s3 & H3 & H). by injection H as _ <-.
Qed.

Lemma progress_api ev : api ev = true -> preserves running_tick (handle ev).
Proof.
  intros Ha. destruct ev; try done; cbn [handle];
    [apply preserves_bind; [apply progress_init | intros; apply preserves_ret] | ..];
    unfold add_timer, add_timer_on, mod_timer, mod_timer_pending, mod_timer_pinned,
      try_to_del_timer_sync, note_next, internal_add_timer; preserve.
Qed.

Lemma progress_events evs : forall s s', forallb api evs = true -> running_tick s ->
  run_events evs s = Some s' -> running_tick s'.
Proof.
  induction evs as [|ev evs IH]; intros s s' Ha Hs H; cbn in *; [by simplify_eq|].
  apply andb_true_iff in Ha as [Ha1 Ha2]. destruct (handle ev s) as [[r s1]|] eqn:E; [|done].
  eapply IH; [done| |done]. by eapply (progress_api ev Ha1).
Qed.

End Progress.

(** The run of a timer takes it off the work list. *)
Lemma run_timer_progress c j now m s a s' b t w : bases s !! c = Some b ->
  wf s -> work_list b = Some (t :: w) -> timer_jiffies b = j -> jiffies s = now ->
  (length w <= m)%nat -> run_timer c t s = Some (a, s') -> running_tick c j now m s'.
Proof.
  intros Hb [Hi _] Hw Hj Hn Hm H. unfold run_timer in H.
  assert (Hin : t ∈ listed b) by (apply elem_of_app; right; rewrite Hw; left).
  destruct (b_owner _ _ _ (i_bases _ _ Hi c b Hb) t Hin) as (x & Hx & _ & Hc).
  rewrite bind_unfold, (timer_run t x) in H by done.
  rewrite bind_unfold, (on_base_run c _ b) in H by done.
  unfold detach_timer in H. rewrite !bind_unfold in H.
  rewrite (timer_run t x) in H by done.
  rewrite bind_unfold, Hc, (on_base_run c _ (set_running_timer (Some t) b)) in H by (by eapply set_base_lookup).
  injection H as _ <-. split; [done|].
  exists (list_del t (set_running_timer (Some t) b)), (filter (fun x => x <> t) (t :: w)).
  cbn [bases set_base]. rewrite list_insert_insert_eq, list_lookup_insert_eq by (by eapply lookup_lt_Some).
  split_and!; [done | by destruct b | destruct b; cbn in *; by rewrite Hw |].
  rewrite filter_cons, decide_False by (intros Hne; by apply Hne).
  etransitivity; [apply length_filter | done].
Qed.

Lemma run_step_run c s b now : bases s !! c = Some b -> jiffies s = now ->
  run_step c s =
    match work_list b with
    | None => Some (tt, s)
    | Some (t :: _) => run_timer c t s
    | Some [] =>
        if time_after_eq now (timer_jiffies b) then run_tick c s
        else Some (tt, set_base c (set_work_list None (set_running_timer None b)) s)
    end.
Proof.
  intros Hb <-. unfold run_step. rewrite bind_unfold, (per_cpu_run c b) by done.
  rewrite bind_unfold, gets_run. destruct (work_list b) as [[|t w]|]; [|done|done].
  destruct (time_after_eq (jiffies s) (timer_jiffies b)); [done|].
  by rewrite (on_base_run c _ b).
Qed.

Section Ends.
  Context (fn : tid -> M system unit) (c : nat) (now : Z).

(** Timer functions use the timer operations, and do not crash. *)
Hypothesis handlers : forall u s, wf s -> exists evs s',
  forallb api evs = true /\ run_events evs s = Some s' /\ fn u s = Some (tt, s').

(** Where [__run_timers] ends. *)
Definition caught_up (s : system) : Prop :=
  wf s /\ jiffies s = now /\ exists b, bases s !! c = Some b /\ work_list b = None /\
    running_timer b = None /\ timer_jiffies b = u32 (now + 1).

Definition ends (s : system) : Prop :=
  exists n s', caught_up s' /\ forall steps, (n <= steps)%nat -> __run_timers fn steps c s = Some (tt, s').

Lemma ends_after_timer s b t w s1 s2 : bases s !! c = Some b -> work_list b = Some (t :: w) ->
  run_step c s = Some (tt, s1) -> fn t s1 = Some (tt, s2) -> ends s2 -> ends s.
Proof.
  intros Hb Hw Hr Hf (n & s' & Hc & Hs). exists (S n), s'. split; [done|].
  intros [|steps] Hle; [lia|]. cbn [__run_timers].
  rewrite bind_unfold, (per_cpu_run c b), bind_unfold, Hr, Hw, bind_unfold, Hf by done.
  apply Hs. lia.
Qed.

Lemma ends_after_tick s b s1 : bases s !! c = Some b -> work_list b = Some [] ->
  run_step c s = Some (tt, s1) -> ends s1 -> ends s.
Proof.
  intros Hb Hw Hr (n & s' & Hc & Hs). exists (S n), s'. split; [done|].
  intros [|steps] Hle; [lia|]. cbn [__run_timers].
  rewrite bind_unfold, (per_cpu_run c b), bind_unfold, Hr, Hw by done. apply Hs. lia.
Qed.

Lemma step_wf s s1 : wf s -> run_step c s = Some (tt, s1) -> wf s1.
Proof.
  intros Hwf Hr. pose proof (handle_sim s (EvRun c) Hwf) as H. cbn [handle] in H.
  rewrite bind_unfold, Hr, ret_unfold in H. apply H.
Qed.

(** The work list of a tick is emptied. *)
Lemma ends_work m : forall j s, wf s -> running_tick c j now m s ->
  (forall s', wf s' -> running_tick c j now 0 s' -> ends s') -> ends s.
Proof.
  induction m as [|m IH]; intros j s Hwf Hrt Hend; [by apply Hend|].
  destruct Hrt as (Hn & b & [|t w] & Hb & Hj & Hw & Hl).
  { apply Hend; [done|]. split; [done|]. exists b, []. by split_and!. }
  assert (Hd : exists s1, run_timer c t s = Some (tt, s1)).
  { pose proof (handle_sim s (EvRun c) Hwf) as H. cbn [handle] in H.
    rewrite bind_unfold, (run_step_run c s b now Hb Hn), Hw in H.
    destruct (run_timer c t s) as [[[] s1]|] eqn:E; [eauto|]. exfalso.
    destruct (b_owner _ _ _ (i_bases _ _ (proj1 Hwf) c b Hb) t) as (x & Hx & _ & Hc).
    { apply elem_of_app; right; rewrite Hw; left. }
    unfold run_timer in E. rewrite bind_unfold, (timer_run t x) in E by done.
    rewrite bind_unfold, (on_base_run c _ b) in E by done. unfold detach_timer in E.
    rewrite !bind_unfold, (timer_run t x) in E by done. done. }
  destruct Hd as [s1 Hr]. cbn in Hl.
  assert (Hs1 : run_step c s = Some (tt, s1)) by (by rewrite (run_step_run c s b now Hb Hn), Hw).
  pose proof (step_wf s s1 Hwf Hs1) as Hwf1.
  pose proof (run_timer_progress c j now m s tt s1 b t w Hb Hwf Hw Hj Hn ltac:(lia) Hr) as Hrt1.
  destruct (handlers t s1 Hwf1) as (evs & s2 & Ha & He & Hf).
  eapply ends_after_timer; [done..|]. apply (IH j); [by eapply run_events_wf | | done].
  by eapply (progress_events c j now m evs).
Qed.

Lemma tick_progress j s : wf s -> running_tick c j now 0 s -> time_after_eq now j = true ->
  exists s1 m, run_step c s = Some (tt, s1) /\ running_tick c (u32 (j + 1)) now m s1.
Proof.
  intros Hwf (Hn & b & w & Hb & Hj & Hw & Hl) Ht. destruct w; [|cbn in Hl; lia].
  destruct (run_tick_run s c b) as (b' & Hr & _ & _ & Ha); [|done| |done|].
  { intros t x Hx. by apply (i_timers _ _ (proj1 Hwf) t x). }
  { by apply (i_bases _ _ (proj1 Hwf)). }
  assert (Hw' : exists w', work_list b' = Some w').
  { destruct (work_list b') as [w'|] eqn:E; [eauto|]. apply (f_equal s_work) in Ha. cbn in Ha.
    by rewrite E in Ha. }
  destruct Hw' as [w' Hw']. exists (set_base c b' s), (length w'). split.
  - by rewrite (run_step_run c s b now Hb Hn), Hw, Hj, Ht.
  - split; [done|]. exists b', w'. split_and!; [by eapply set_base_lookup| |done|done].
    apply (f_equal s_tick) in Ha. cbn in Ha. by rewrite Ha, Hj.
Qed.

Lemma time_after_eq_delta a b : is_u32 a -> is_u32 b -> time_after_eq a b = (delta b a <? 2 ^ 31).
Proof.
  intros Ha Hb. unfold time_after_eq. rewrite s32_delta by done. pose proof (delta_range b a).
  destruct (Z.ltb_spec (delta b a) (2 ^ 31)); lia.
Qed.

(** The end: the clock of the processor is one past the present. *)
Lemma ends_now s : wf s -> is_u32 now -> running_tick c (u32 (now + 1)) now 0 s -> ends s.
Proof.
  intros Hwf Hun (Hn & b & w & Hb & Hj & Hw & Hl). destruct w; [|cbn in Hl; lia].
  assert (Ht : time_after_eq now (timer_jiffies b) = false).
  { rewrite Hj, time_after_eq_delta by (done || apply u32_range). apply Z.ltb_ge.
    pose proof (delta_next now now Hun Hun) as Hd. unfold delta in *. unfold u32 in *.
    rewrite Zminus_mod_idemp_r. replace (now - (now + 1)) with (-1) by lia. vm_compute. discriminate. }
  set (b' := set_work_list None (set_running_timer None b)).
  assert (Hr : run_step c s = Some (tt, set_base c b' s))
    by (by rewrite (run_step_run c s b now Hb Hn), Hw, Ht).
  assert (Hb' : bases (set_base c b' s) !! c = Some b') by (by eapply set_base_lookup).
  apply (ends_after_tick s b (set_base c b' s)); [done..|].
  exists 1%nat, (set_base c b' s). split.
  - split; [by eapply step_wf|]. split; [done|]. exists b'. by destruct b.
  - intros [|steps] Hle; [lia|]. cbn [__run_timers].
    rewrite bind_unfold, (per_cpu_run c b'), bind_unfold by done.
    by rewrite (run_step_run c _ b' now Hb' Hn).
Qed.

(** One tick after the other, up to the present one. *)
Lemma ends_ticks r : forall j s, is_u32 now -> wf s -> is_u32 j -> delta j now = Z.of_nat r ->
  Z.of_nat r < 2 ^ 31 -> running_tick c j now 0 s -> ends s.
Proof.
  induction r as [|r IH]; intros j s Hun Hwf Hj Hd Hr Hrt.
  - destruct (tick_progress j s Hwf Hrt) as (s1 & m & Hs1 & Hrt1).
    { rewrite time_after_eq_delta, Hd by done. done. }
    destruct Hrt as (Hn & b & w & Hb & Hbj & Hw & Hl). destruct w; [|cbn in Hl; lia].
    apply (ends_after_tick s b s1); [done..|].
    apply (ends_work m (u32 (j + 1))); [exact (step_wf s s1 Hwf Hs1) | done |]. intros s' Hw' Hrt'.
    assert (Hjn : now = j) by (by apply (delta_zero j now Hj Hun)).
    rewrite <- Hjn in Hrt'. by apply ends_now.
  - destruct (tick_progress j s Hwf Hrt) as (s1 & m & Hs1 & Hrt1).
    { rewrite time_after_eq_delta, Hd by done. apply Z.ltb_lt. lia. }
    destruct Hrt as (Hn & b & w & Hb & Hbj & Hw & Hl). destruct w; [|cbn in Hl; lia].
    apply (ends_after_tick s b s1); [done..|].
    apply (ends_work m (u32 (j + 1))); [exact (step_wf s s1 Hwf Hs1) | done |]. intros s' Hw' Hrt'.
    apply (IH (u32 (j + 1))); [done|done|apply u32_range| |lia|done].
    rewrite delta_next by (done || lia). lia.
Qed.

End Ends.

(** C10: A run of the timer softirq ends, whatever timers the timer functions arm,
    change or delete: when the processor is behind the clock, some number of
    iterations is enough, more make no difference, and then every tick up to the
    present one has been run and no timer is left to call. *)
Theorem run_timers_ends fn c s b :
  (forall u s, wf s -> exists evs s',
     forallb api evs = true /\ run_events evs s = Some s' /\ fn u s = Some (tt, s')) ->
  reachable s -> bases s !! c = Some b -> work_list b = None ->
  time_after_eq (jiffies s) (timer_jiffies b) = true ->
  exists n s', caught_up c (jiffies s) s' /\
    forall steps, (n <= steps)%nat -> (run_timer_softirq c;; __run_timers fn steps c) s = Some (tt, s').
Proof.
  intros Hh Hr Hb Hw Ht. pose proof (reachable_wf s Hr) as Hwf.
  set (s1 := set_base c (set_work_list (Some []) b) s).
  assert (Hs1 : run_timer_softirq c s = Some (tt, s1)).
  { unfold run_timer_softirq. rewrite bind_unfold, (per_cpu_run c b), bind_unfold, gets_run by done.
    rewrite Hw, bool_decide_eq_false_2, bind_unfold by (by intros [? ?]). cbn [BUG_ON].
    by rewrite ret_unfold, Ht, (on_base_run c _ b). }
  assert (Hwf1 : wf s1).
  { pose proof (handle_sim s (EvSoftirq c) Hwf) as H. cbn [handle] in H.
    rewrite bind_unfold, Hs1, ret_unfold in H. apply H. }
  pose proof (b_tick _ _ _ (i_bases _ _ (proj1 Hwf) c b Hb)) as Hj.
  pose proof (delta_range (timer_jiffies b) (jiffies s)) as Hd.
  rewrite time_after_eq_delta in Ht by (done || apply Hwf). apply Z.ltb_lt in Ht.
  destruct (ends_ticks fn c (jiffies s) Hh (Z.to_nat (delta (timer_jiffies b) (jiffies s)))
    (timer_jiffies b) s1) as (n & s' & Hc & Hs); [apply Hwf|done|done|lia|lia| |].
  { split; [done|]. exists (set_work_list (Some []) b), []. split_and!; [by eapply set_base_lookup|done..]. }
  exists n, s'. split; [done|]. intros steps Hle. rewrite bind_unfold, Hs1. by apply Hs.
Qed.

Lemma run_timers_ends_witness : exists n s', caught_up 0 (jiffies demo) s' /\
  forall steps, (n <= steps)%nat ->
    (run_timer_softirq 0;; __run_timers (fun _ => mret tt) steps 0) demo = Some (tt, s').
Proof.
  refine (run_timers_ends (fun _ => mret tt) 0 demo (default (init_timers_cpu 0) (bases demo !! 0%nat))
    _ demo_reachable _ _ _).
  - intros u s _. exists [], s. done.
  - vm_compute. reflexivity.
  - vm_compute. reflexivity.
  - vm_compute. reflexivity.
Defined.

(** ** Slack *)

Lemma lxor_even_1 m : Z.lxor (2 * m) 1 = 2 * m + 1.
Proof.
  symmetry. apply Z.add_nocarry_lxor. rewrite (Z.land_ones _ 1), Z.mul_comm by lia.
  apply Z.mod_mul. lia.
Qed.

(** Numbers that differ at bit [b] and not above it. *)
Lemma differ_at e l : 0 <= e -> 0 <= l -> e <> l ->
  let b := Z.log2 (Z.lxor e l) in
  l / 2 ^ b = e / 2 ^ b + 1 \/ e / 2 ^ b = l / 2 ^ b + 1.
Proof.
  intros He Hl Hne b.
  assert (Hpos : 0 < Z.lxor e l).
  { assert (Z.lxor e l <> 0) by (rewrite Z.lxor_eq_0_iff; done).
    pose proof (proj2 (Z.lxor_nonneg e l)). lia. }
  pose proof (Z.log2_nonneg (Z.lxor e l)) as Hb0. fold b in Hb0.
  assert (H1 : Z.lxor (Z.shiftr e b) (Z.shiftr l b) = 1).
  { rewrite <- Z.shiftr_lxor, Z.shiftr_div_pow2 by done.
    pose proof (Z.log2_spec _ Hpos) as [Ha Hb]. fold b in Ha, Hb. rewrite Z.pow_succ_r in Hb by done.
    symmetry. apply (Z.div_unique _ _ 1 (Z.lxor e l - 2 ^ b)); lia. }
  rewrite <- !Z.shiftr_div_pow2 by done.
  set (E := Z.shiftr e b) in *. set (L := Z.shiftr l b) in *.
  assert (HL : L = Z.lxor E 1) by (rewrite <- H1, <- Z.lxor_assoc, Z.lxor_nilpotent; symmetry; apply Z.lxor_0_l).
  destruct (Z.Even_or_Odd E) as [[m Hm]|[m Hm]].
  - left. by rewrite HL, Hm, lxor_even_1.
  - right. rewrite HL, Hm, <- lxor_even_1, Z.lxor_assoc, Z.lxor_nilpotent, Z.lxor_0_r.
    by rewrite lxor_even_1.
Qed.

Lemma limit_delta now x e : is_u32 e -> is_u32 now -> -2 ^ 31 <= slack x < 2 ^ 31 ->
  delta e (expires_limit now x e) =
    if 0 <=? slack x then slack x else if time_after e now then delta now e / 256 else 0.
Proof.
  intros He Hn Hs. unfold expires_limit, delta.
  destruct (Z.leb_spec 0 (slack x)).
  - unfold u32. rewrite Zminus_mod_idemp_l. rewrite Z.mod_small; lia.
  - destruct (time_after e now).
    + pose proof (u32_range (e - now)) as Hr.
      pose proof (Z.div_le_upper_bound (u32 (e - now)) 256 (2 ^ 32)).
      pose proof (Z.div_pos (u32 (e - now)) 256). pose proof (Z.div_lt_upper_bound (u32 (e - now)) 256 (2 ^ 32)).
      set (q := u32 (e - now) / 256) in *. unfold u32. rewrite Zminus_mod_idemp_l.
      replace (e + q - e) with q by lia. apply Z.mod_small. lia.
    + by rewrite Z.sub_diag.
Qed.

(** The time a timer is really set to lies between the time asked for and that
    time plus the slack (the timer's own, or 1/256 of the delay), also when the
    clock wraps around in between. *)
Theorem apply_slack_within now x e :
  is_u32 e -> is_u32 now -> -2 ^ 31 <= slack x < 2 ^ 31 ->
  0 <= delta e (apply_slack now x e) <=
    if 0 <=? slack x then slack x else if time_after e now then delta now e / 256 else 0.
Proof.
  intros He Hn Hs. rewrite <- (limit_delta now x e He Hn Hs).
  pose proof (limit_u32 now x e He) as Hl.
  split; [apply delta_range|].
  pose proof (apply_slack_u32 now x e He) as Hru.
  destruct (apply_slack_value now x e He) as [[-> ->]|[Hne Hr]]; [lia|].
  set (l := expires_limit now x e) in *. set (r := apply_slack now x e) in *.
  set (b := Z.log2 (Z.lxor e l)) in *.
  assert (Hb : 0 < 2 ^ b) by (apply Z.pow_pos_nonneg; [lia | apply Z.log2_nonneg]).
  unfold is_u32 in *. pose proof (Z.mod_pos_bound l (2 ^ b) Hb). pose proof (Z.mod_pos_bound e (2 ^ b) Hb).
  pose proof (Z.div_mod l (2 ^ b) ltac:(lia)). pose proof (Z.div_mod e (2 ^ b) ltac:(lia)).
  pose proof (differ_at e l ltac:(lia) ltac:(lia) ltac:(congruence)) as Hdiff. fold b in Hdiff. cbv zeta in Hdiff.
  destruct (delta_cases e l He Hl) as [Hc|Hc]; destruct (delta_cases e r He Hru) as [Hc'|Hc'];
    pose proof (delta_range e r); pose proof (delta_range e l); destruct Hdiff; nia.
Qed.

Lemma apply_slack_within_witness :
  0 <= delta 5000 (apply_slack 0 (Timer false 0 0 false 7 0 (-1)) 5000) <= 19.
Proof.
  refine (apply_slack_within 0 (Timer false 0 0 false 7 0 (-1)) 5000 _ _ _);
    (split; vm_compute; done).
Defined.

(** A delay of less than 256 ticks gets no automatic slack. *)
Lemma apply_slack_short now x e : is_u32 e -> is_u32 now -> slack x = -1 -> delta now e < 256 ->
  apply_slack now x e = e.
Proof.
  intros He Hn Hs Hd. unfold apply_slack.
  assert (Hl : expires_limit now x e = e).
  { unfold expires_limit. rewrite Hs. cbn [Z.leb Z.compare]. destruct (time_after e now); [|done].
    fold (delta now e). rewrite Z.div_small by (pose proof (delta_range now e); lia).
    rewrite Z.add_0_r. by apply u32_small. }
  by rewrite Hl, Z.lxor_nilpotent.
Qed.

(** ** Synchronous deletion *)

(** A timer whose function runs on a processor belongs to that processor, so that
    [try_to_del_timer_sync] looks at the right one. *)
Definition runs_at_home (s : system) : Prop :=
  forall c b t x, bases s !! c = Some b -> running_timer b = Some t -> timers s !! t = Some x ->
    base x = c.

(** No processor runs the timer. *)
Definition not_running (t : tid) (s : system) : Prop :=
  forall c b, bases s !! c = Some b -> running_timer b <> Some t.

Definition keeps_running (f : tvec_base -> tvec_base) : Prop :=
  forall b, running_timer (f b) = running_timer b.

Section Home.
  Context (P : system -> Prop).
  Hypothesis P_base : forall c f, keeps_running f -> preserves P (on_base c f).
  Hypothesis P_timer : forall t f, (forall x, base (f x) = base x) -> preserves P (on_timer t f).

Lemma home_read t : preserves P (timer t).
Proof. unfold timer. preserve. Qed.

Lemma home_per_cpu c : preserves P (per_cpu c).
Proof. unfold per_cpu. preserve. Qed.

Lemma home_bug b : preserves P (BUG_ON b).
Proof. unfold BUG_ON. preserve. Qed.

Lemma running_add n i t : keeps_running (vec_add_tail n i t).
Proof. intros []. by destruct n. Qed.

Lemma running_del t : keeps_running (list_del t).
Proof. by intros []. Qed.

Lemma running_next z : keeps_running (set_next_timer z).
Proof. by intros []. Qed.

#[local] Hint Resolve home_read home_per_cpu home_bug : board.
#[local] Hint Extern 1 (preserves P (on_base _ _)) =>
  apply P_base; auto using running_add, running_del, running_next : board.
#[local] Hint Extern 1 (preserves P (on_timer _ _)) => apply P_timer; auto : board.

Lemma home_detach t b : preserves P (detach_timer t b).
Proof. unfold detach_timer. preserve. Qed.

Lemma home_forget x : preserves P (forget_next x).
Proof. unfold forget_next. preserve. Qed.

Lemma home_note c x : preserves P (note_next c x).
Proof. unfold note_next. preserve. Qed.

Lemma home_add c t : preserves P (internal_add_timer c t).
Proof. unfold internal_add_timer. preserve. Qed.

Lemma home_del t : preserves P (del_timer t).
Proof. unfold del_timer. preserve. Qed.

Lemma home_cascade_loop c l : preserves P (cascade_loop c l).
Proof. induction l as [|t l IH]; cbn [cascade_loop]; preserve. Qed.

Lemma home_set_expires t e : preserves P (on_timer t (set_expires e)).
Proof. by apply P_timer. Qed.

End Home.

Lemma home_on_base c f : keeps_running f -> preserves runs_at_home (on_base c f).
Proof.
  intros Hf. apply preserves_modify. intros s Hs c' b t x Hb Hr Hx. cbn in *.
  rewrite list_lookup_alter in Hb. destruct (decide (c = c')) as [<-|]; [|by eapply Hs].
  apply fmap_Some in Hb as (b' & Hb' & ->). rewrite Hf in Hr. by eapply Hs.
Qed.

Lemma home_on_timer t f : (forall x, base (f x) = base x) -> preserves runs_at_home (on_timer t f).
Proof.
  intros Hf. apply preserves_modify. intros s Hs c' b u x Hb Hr Hx. cbn in *.
  destruct (decide (t = u)) as [<-|Hne].
  - rewrite lookup_alter_eq in Hx. apply fmap_Some in Hx as (y & Hy & ->). rewrite Hf. by eapply Hs.
  - rewrite lookup_alter_ne in Hx by done. by eapply Hs.
Qed.

(** The same while no processor runs timer [t], which may then change its base. *)
Definition home_and_idle (t : tid) (s : system) : Prop := runs_at_home s /\ not_running t s.

Lemma idle_on_base t c f : keeps_running f -> preserves (home_and_idle t) (on_base c f).
Proof.
  intros Hf s a s' [Hh Hn] H. split; [by eapply home_on_base|].
  injection H as _ <-. intros c' b Hb. cbn in Hb. rewrite list_lookup_alter in Hb.
  destruct (decide (c = c')) as [<-|]; [|by eapply Hn].
  apply fmap_Some in Hb as (b' & Hb' & ->). rewrite Hf. by eapply Hn.
Qed.

Lemma idle_on_timer t u f : u = t \/ (forall x, base (f x) = base x) ->
  preserves (home_and_idle t) (on_timer u f).
Proof.
  intros Hf s a s' [Hh Hn] H. injection H as _ <-. split; [|done].
  intros c b v x Hb Hr Hx. cbn in *. destruct (decide (v = t)) as [->|Hv]; [by destruct (Hn c b)|].
  destruct (decide (u = v)) as [->|Hne].
  - destruct Hf as [?|Hf]; [done|]. rewrite lookup_alter_eq in Hx.
    apply fmap_Some in Hx as (y & Hy & ->). rewrite Hf. by eapply Hh.
  - rewrite lookup_alter_ne in Hx by done. by eapply Hh.
Qed.

Lemma timer_inv t s x s' : timer t s = Some (x, s') -> s' = s /\ timers s !! t = Some x.
Proof.
  unfold timer. rewrite bind_unfold, get_run. destruct (timers s !! t); [|done].
  rewrite lift_opt_run. by intros [= <- <-].
Qed.

Lemma per_cpu_inv c s b s' : per_cpu c s = Some (b, s') -> s' = s /\ bases s !! c = Some b.
Proof.
  unfold per_cpu. rewrite bind_unfold, get_run. destruct (bases s !! c); [|done].
  rewrite lift_opt_run. by intros [= <- <-].
Qed.

Lemma bug_inv b s u s' : BUG_ON b s = Some (u, s') -> s' = s /\ b = false.
Proof. destruct b; [done|]. by intros [= _ <-]. Qed.

#[local] Hint Resolve home_read home_per_cpu home_bug : board.
#[local] Hint Extern 1 (preserves runs_at_home (on_base _ _)) =>
  apply home_on_base; auto using running_add, running_del, running_next : board.
#[local] Hint Extern 1 (preserves runs_at_home (on_timer _ _)) => apply home_on_timer; auto : board.
#[local] Hint Extern 1 (preserves (home_and_idle _) (on_base _ _)) =>
  apply idle_on_base; auto using running_add, running_del, running_next : board.
#[local] Hint Extern 1 (preserves (home_and_idle _) (on_timer _ _)) => apply idle_on_timer; auto : board.

Lemma home_arm t e po pin cpu mg : preserves runs_at_home (__mod_timer t e po pin cpu mg).
Proof.
  intros s a s' Hs H. unfold __mod_timer in H.
  apply bind_inv in H as (x & s0 & Hx & H). apply timer_inv in Hx as [-> Hx].
  apply bind_inv in H as ([] & s0 & Hbug & H). apply bug_inv in Hbug as [-> _].
  apply bind_inv in H as (b & s0 & Hb & H). apply per_cpu_inv in Hb as [-> Hb].
  set (nb := target_cpu pin cpu mg) in H.
  destruct (negb (bool_decide (base x = nb)) && negb (bool_decide (running_timer b = Some t))) eqn:Hm.
  - assert (Hi : home_and_idle t s).
    { split; [done|]. intros c' b' Hb' Hr. pose proof (Hs c' b' t x Hb' Hr Hx) as <-.
      assert (b' = b) as -> by congruence. rewrite (bool_decide_eq_true_2 _ Hr) in Hm.
      by rewrite andb_false_r in Hm. }
    match type of H with ?m s = _ => assert (Hp : preserves (home_and_idle t) m) end.
    { unfold detach_timer, forget_next, note_next, internal_add_timer. preserve. }
    by destruct (Hp s a s' Hi H).
  - match type of H with ?m s = _ => assert (Hp : preserves runs_at_home m) end.
    { unfold detach_timer, forget_next, note_next, internal_add_timer. preserve. }
    by apply (Hp s a s').
Qed.

(** A driver neither initialises a timer whose function may be running nor moves it
    to another processor with [add_timer_on]. *)
Definition disciplined (ev : event) (s : system) : Prop :=
  match ev with EvInit t _ _ _ _ _ | EvAddOn t _ => not_running t s | _ => True end.

Lemma home_init t cpu e fn d defer s a s' : runs_at_home s -> not_running t s ->
  init_timer t cpu e fn d defer s = Some (a, s') -> runs_at_home s'.
Proof.
  intros Hh Hn H. unfold init_timer in H. apply bind_inv in H as (s0 & s1 & [= <- <-] & H).
  apply bind_inv in H as ([] & s2 & H2 & H). apply bind_inv in H as (b & s3 & H3 & [= _ <-]).
  intros c' b' u x Hb Hr Hx. cbn in *. destruct (decide (t = u)) as [<-|Hne]; [by destruct (Hn c' b')|].
  rewrite lookup_insert_ne in Hx by done. by eapply Hh.
Qed.

Lemma home_add_on t cpu s a s' : runs_at_home s -> not_running t s ->
  add_timer_on t cpu s = Some (a, s') -> runs_at_home s'.
Proof.
  intros Hh Hn H. assert (Hp : preserves (home_and_idle t) (add_timer_on t cpu)).
  { unfold add_timer_on, note_next, internal_add_timer. preserve. }
  by destruct (Hp s a s' (conj Hh Hn) H).
Qed.

Lemma home_run c s s' : wf s -> runs_at_home s -> run_step c s = Some (tt, s') -> runs_at_home s'.
Proof.
  intros [Hi _] Hh Hr.
  destruct (bases s !! c) as [b|] eqn:Hb;
    [|unfold run_step, per_cpu in Hr; rewrite !bind_unfold, get_run, Hb in Hr; done].
  rewrite (run_step_run c s b (jiffies s) Hb eq_refl) in Hr.
  destruct (work_list b) as [[|t w]|] eqn:Hw; [| |by injection Hr as <-].
  - destruct (time_after_eq (jiffies s) (timer_jiffies b)).
    + destruct (run_tick_run s c b) as (b' & Hr' & _ & _ & Ha);
        [intros t x Hx; by apply (i_timers _ _ Hi t x) | done | by apply (i_bases _ _ Hi) | done |].
      rewrite Hr' in Hr. injection Hr as <-. apply (f_equal s_running) in Ha. cbn in Ha.
      intros c' y t x Hy Hrt Hx. cbn in Hy. apply list_lookup_insert_Some in Hy as [(-> & <- & _)|[_ Hy]];
        [|by eapply Hh]. rewrite Ha in Hrt. by eapply Hh.
    + injection Hr as <-. intros c' y t x Hy Hrt Hx. cbn in Hy.
      apply list_lookup_insert_Some in Hy as [(-> & <- & _)|[_ Hy]]; [by destruct b | by eapply Hh].
  - destruct (b_owner _ _ _ (i_bases _ _ Hi c b Hb) t) as (x & Hx & _ & Hc).
    { apply elem_of_app; right; rewrite Hw; left. }
    unfold run_timer in Hr. rewrite bind_unfold, (timer_run t x) in Hr by done.
    rewrite bind_unfold, (on_base_run c _ b) in Hr by done.
    apply bind_inv in Hr as ([] & s1 & Hd & [= <-]).
    assert (Hh1 : runs_at_home (set_base c (set_running_timer (Some t) b) s)).
    { intros c' y u z Hy Hrt Hz. cbn in Hy, Hz.
      apply list_lookup_insert_Some in Hy as [(-> & <- & _)|[_ Hy]]; [|by eapply Hh].
      cbn in Hrt. congruence. }
    intros c' y u z. cbn. by apply (home_detach runs_at_home home_on_base home_on_timer t true _ _ _ Hh1 Hd).
Qed.

Lemma running_work w : keeps_running (set_work_list w).
Proof. by intros []. Qed.

#[local] Hint Resolve home_arm : board.
#[local] Hint Resolve running_work : core.

Lemma home_handle ev s r s' : wf s -> runs_at_home s -> disciplined ev s ->
  handle ev s = Some (r, s') -> runs_at_home s'.
Proof.
  intros Hwf Hh Hd H.
  assert (Hp : match ev with
    | EvInit _ _ _ _ _ _ | EvAddOn _ _ | EvRun _ | EvCpuUp => True
    | _ => preserves runs_at_home (handle ev) end).
  { destruct ev; try done; cbn [handle];
      unfold add_timer, mod_timer, mod_timer_pending, mod_timer_pinned, try_to_del_timer_sync,
        del_timer, detach_timer, forget_next, run_timer_softirq; preserve; by apply preserves_modify. }
  destruct ev; try (by apply (Hp s r s')); cbn [handle] in H;
    apply bind_inv in H as ([] & s1 & H & [= _ <-]).
  - by eapply home_init.
  - by eapply home_add_on.
  - by eapply home_run.
  - injection H as <-. intros c b t x Hb Hr Hx. cbn in *.
    apply lookup_app_Some in Hb as [Hb|[_ Hb]]; [by eapply Hh|].
    by apply list_lookup_singleton_Some in Hb as [_ <-].
Qed.

(** Events of other processors between two attempts of [del_timer_sync]. *)
Fixpoint disciplined_run (evs : list event) (s : system) : Prop :=
  match evs with
  | [] => True
  | ev :: evs' =>
      disciplined ev s /\
      match handle ev s with Some (_, s') => disciplined_run evs' s' | None => True end
  end.

Lemma home_events evs : forall s s', wf s -> runs_at_home s -> disciplined_run evs s ->
  run_events evs s = Some s' -> runs_at_home s'.
Proof.
  induction evs as [|ev evs IH]; intros s s' Hwf Hh Hd H; cbn in *; [by simplify_eq|].
  destruct Hd as [Hd1 Hd2]. pose proof (handle_sim s ev Hwf) as Hs.
  destruct (handle ev s) as [[r s1]|] eqn:E; [|done].
  apply (IH s1); [apply Hs | by eapply home_handle | done | done].
Qed.

(** Neither queued nor running anywhere. *)
Definition quiet (t : tid) (s : system) : Prop :=
  (exists x, timers s !! t = Some x /\ pending x = false) /\
  forall c b, bases s !! c = Some b -> (t ∉ listed b) /\ running_timer b <> Some t.

Lemma try_del_quiet t s r s' : wf s -> runs_at_home s ->
  try_to_del_timer_sync t s = Some (r, s') -> 0 <= r -> quiet t s'.
Proof.
  intros Hwf Hh H Hr. pose proof (handle_sim s (EvTryDel t) Hwf) as Hs. cbn [handle] in Hs.
  rewrite H in Hs. destruct Hs as [_ [Hi' _]]. pose proof H as H0.
  unfold try_to_del_timer_sync in H. apply bind_inv in H as (x & s0 & Hx & H).
  apply timer_inv in Hx as [-> Hx]. apply bind_inv in H as (b & s0 & Hb & H).
  apply per_cpu_inv in Hb as [-> Hb]. case_bool_decide as Hrt.
  { rewrite ret_unfold in H. injection H as <- _. lia. }
  assert (Hq : home_and_idle t s).
  { split; [done|]. intros c' b' Hb' Hr'. pose proof (Hh c' b' t x Hb' Hr' Hx) as <-. congruence. }
  assert (Hq' : home_and_idle t s').
  { assert (Hp : preserves (home_and_idle t) (del_timer t))
      by (unfold del_timer, detach_timer, forget_next; preserve). by apply (Hp s r s'). }
  assert (Hpend : exists y, timers s' !! t = Some y /\ pending y = false).
  { unfold del_timer in H. rewrite bind_unfold, (timer_run t x) in H by done.
    destruct (pending x) eqn:Hp; [|injection H as _ <-; eauto].
    apply bind_inv in H as ([] & s1 & Hd & H). apply bind_inv in H as ([] & s2 & Hf & [= _ <-]).
    unfold detach_timer in Hd. rewrite bind_unfold, (timer_run t x) in Hd by done.
    rewrite bind_unfold, (on_base_run _ _ b) in Hd by done.
    assert (H1 : exists y, timers s1 !! t = Some y /\ pending y = false).
    { injection Hd as <-. cbn [timers set_base]. rewrite lookup_alter_eq, Hx. cbn. eauto. }
    assert (Hf' : preserves (fun s => exists y, timers s !! t = Some y /\ pending y = false) (forget_next x)).
    { unfold forget_next, per_cpu. preserve. by apply preserves_modify. }
    exact (Hf' s1 tt s2 H1 Hf). }
  split; [done|]. intros c' b' Hb'. split; [|by apply (proj2 Hq' c')].
  destruct Hpend as (y & Hy & Hp). apply (unlisted s' t c'); [done| |done]. congruence.
Qed.

(** The turns other processors take, as sequences of events. *)
Definition turn (evs : list event) : M system unit := fun s => (fun s' => (tt, s')) <$> run_events evs s.

Fixpoint disciplined_turns (turns : list (list event)) (t : tid) (s : system) : Prop :=
  match turns with
  | [] => True
  | evs :: turns' =>
      match try_to_del_timer_sync t s with
      | Some (_, s1) =>
          disciplined_run evs s1 /\
          match run_events evs s1 with Some s2 => disciplined_turns turns' t s2 | None => True end
      | None => True
      end
  end.

Lemma del_sync_quiet turns : forall t s r s', wf s -> runs_at_home s -> disciplined_turns turns t s ->
  del_timer_sync (turn <$> turns) t s = Some (Some r, s') -> quiet t s'.
Proof.
  induction turns as [|evs turns IH]; intros t s r s' Hwf Hh Hd H; cbn [fmap list_fmap del_timer_sync] in H;
    apply bind_inv in H as (r0 & s1 & H1 & H);
    pose proof (handle_sim s (EvTryDel t) Hwf) as Hs; cbn [handle] in Hs; rewrite H1 in Hs;
    destruct Hs as [_ Hwf1]; pose proof (home_handle (EvTryDel t) s r0 s1 Hwf Hh I H1) as Hh1;
    (destruct (Z.leb_spec 0 r0) as [H0|H0];
      [injection H as <- <-; exact (try_del_quiet t s r0 s1 Hwf Hh H1 H0)|]); [discriminate|].
  cbn [disciplined_turns] in Hd. rewrite H1 in Hd. destruct Hd as [Hd1 Hd2].
  apply bind_inv in H as ([] & s2 & Ht & H). unfold turn in Ht.
  destruct (run_events evs s1) as [s2'|] eqn:E; [|done]. injection Ht as <-.
  apply (IH t s2' r s'); [by eapply run_events_wf | by eapply home_events | done | done].
Qed.

(** States reached by disciplined drivers. *)
Definition reachable_disciplined (s : system) : Prop :=
  exists j evs, is_u32 j /\ disciplined_run evs (boot j) /\ run_events evs (boot j) = Some s.

Lemma reachable_home s : reachable_disciplined s -> wf s /\ runs_at_home s.
Proof.
  intros (j & evs & Hj & Hd & H). split; [eapply run_events_wf; [by apply boot_wf | done]|].
  eapply home_events; [by apply boot_wf | | done | done]. intros c b t x Hb. done.
Qed.

(** C11: When [del_timer_sync] returns, the timer is in no list of any processor and
    its function is running on none, whatever the other processors did while it
    waited, provided that no driver re-initialises a running timer or moves it with
    [add_timer_on]. *)
Theorem del_timer_sync_quiesces turns t s r s' :
  reachable_disciplined s -> disciplined_turns turns t s ->
  del_timer_sync (turn <$> turns) t s = Some (Some r, s') -> quiet t s'.
Proof. intros [Hwf Hh]%reachable_home Hd H. by eapply del_sync_quiet. Qed.

(** The timer's function is running on processor 0 when [del_timer_sync] is called on
    the other one; it returns after processor 0 has finished. *)
Definition demo_turns : list (list event) := [[]; [EvRun 0; EvRun 0; EvRun 0]].
Definition demo_firing : system :=
  default (boot 0) (run_events (demo_events ++ take 11 demo_run) (boot demo_start)).
Definition demo_deleted : system :=
  from_option snd (boot 0) (del_timer_sync (turn <$> demo_turns) 1%positive demo_firing).

Lemma del_timer_sync_quiesces_witness : quiet 1%positive demo_deleted.
Proof.
  refine (del_timer_sync_quiesces demo_turns 1%positive demo_firing 0 demo_deleted _ _ _).
  - exists demo_start, (demo_events ++ take 11 demo_run). split_and!.
    + split; vm_compute; done.
    + vm_compute. repeat split. intros c b Hb. destruct c as [|[|c]]; cbn in Hb; by simplify_eq.
    + vm_compute. reflexivity.
  - vm_compute. repeat split.
  - vm_compute. reflexivity.
Defined.
