(* ===== verification/TimerNext.v ===== *)
(** * The next timer interrupt

    With [CONFIG_NO_HZ] an idle processor stops its clock interrupt until the next
    timer is due; [get_next_timer_interrupt] finds out when that is (kernel/timer.c).
    It looks through the wheel of Timer from the current slot on and stops at the
    first timer it finds, so it is correct only because the wheel is in order. The
    theorem shows that the processor does not sleep past a timer. *)

From S2P Require Import Prelude Timer TimerSpec TimerInv TimerProps.

Definition NEXT_TIMER_MAX_DELTA : Z := Z.shiftl 1 30 - 1.

(** ** Looking through the wheel *)

(** The first timer of a list of [tv1] that is not deferrable. Access to a timer
    that does not exist is undefined. *)
Fixpoint first_live (ts : gmap tid timer_list) (l : list tid) : option (option Z) :=
  match l with
  | [] => Some None
  | t :: l' => x ← ts !! t; if deferrable x then first_live ts l' else Some (Some (expires x))
  end.

(** The loop over a list of another array: [found] and [expires]. *)
Fixpoint min_live (ts : gmap tid timer_list) (l : list tid) (found : bool) (e : Z)
    : option (bool * Z) :=
  match l with
  | [] => Some (found, e)
  | t :: l' =>
      x ← ts !! t;
      if deferrable x then min_live ts l' found e
      else min_live ts l' true (if time_before (expires x) e then expires x else e)
  end.

(** The loop over [tv1], with [n] slots left: the time found and its slot. *)
Fixpoint scan_tv1 (n : nat) (ts : gmap tid timer_list) (v : list (list tid)) (index slot : Z)
    : option (option (Z * Z)) :=
  match n with
  | O => Some None
  | S n' =>
      l ← v !! Z.to_nat slot;
      r ← first_live ts l;
      match r with
      | Some e => Some (Some (e, slot))
      | None =>
          let slot' := Z.land (slot + 1) TVR_MASK in
          if slot' =? index then Some None else scan_tv1 n' ts v index slot'
      end
  end.

(** The loop over the slots of another array: whether to return, [found], [expires]. *)
Fixpoint scan_tvn (n : nat) (ts : gmap tid timer_list) (v : list (list tid)) (index slot : Z)
    (found : bool) (e : Z) : option (bool * bool * Z) :=
  match n with
  | O => Some (false, found, e)
  | S n' =>
      l ← v !! Z.to_nat slot;
      r ← min_live ts l found e;
      let '(found, e) := r in
      if found : bool then Some (negb ((index =? 0) || (slot <? index)), true, e)
      else
        let slot' := Z.land (slot + 1) TVN_MASK in
        if slot' =? index then Some (false, false, e) else scan_tvn n' ts v index slot' false e
  end.

(** [for (array = 0; array < 4; array++)] *)
Fixpoint scan_arrays (arrays : list tvec_name) (ts : gmap tid timer_list) (b : tvec_base)
    (timer_jiffies : Z) (found : bool) (e : Z) : option Z :=
  match arrays with
  | [] => Some e
  | varp :: arrays' =>
      let index := Z.land timer_jiffies TVN_MASK in
      r ← scan_tvn 64 ts (tv varp b) index index found e;
      let '(stop, found, e) := r in
      if stop : bool then Some e
      else
        let timer_jiffies :=
          if truth index then u32 (timer_jiffies + (TVN_SIZE - index)) else timer_jiffies in
        scan_arrays arrays' ts b (Z.shiftr timer_jiffies TVN_BITS) found e
  end.

Definition __next_timer_interrupt (ts : gmap tid timer_list) (b : tvec_base) : option Z :=
  let tj := timer_jiffies b in
  let expires := u32 (tj + NEXT_TIMER_MAX_DELTA) in
  let index := Z.land tj TVR_MASK in
  let cascade found expires :=
    let tj := if truth index then u32 (tj + (TVR_SIZE - index)) else tj in
    scan_arrays [TV2; TV3; TV4; TV5] ts b (Z.shiftr tj TVR_BITS) found expires in
  r ← scan_tv1 256 ts (tv1 b) index index;
  match r with
  | Some (e, slot) => if (index =? 0) || (slot <? index) then cascade true e else Some e
  | None => cascade false expires
  end.

(** What [hrtimer_get_next_event] reports: no event, an expired one, or one in some
    jiffies. *)
Inductive hr_event := HrNone | HrExpired | HrIn (delta : Z).

Definition cmp_next_hrtimer_event (now expires : Z) (hr : hr_event) : Z :=
  match hr with
  | HrNone => expires
  | HrExpired => u32 (now + 1)
  | HrIn delta =>
      let delta := if NEXT_TIMER_MAX_DELTA <? delta then NEXT_TIMER_MAX_DELTA else delta in
      let delta := if delta <? 1 then 1 else delta in
      let now := u32 (now + delta) in
      if time_before now expires then now else expires
  end.

Definition get_next_timer_interrupt (c : nat) (now : Z) (hr : hr_event) : M system Z :=
  s ← get;
  b ← per_cpu c;
  (if time_before_eq (next_timer b) (timer_jiffies b)
   then e ← lift_opt (__next_timer_interrupt (timers s) b); on_base c (set_next_timer e)
   else mret tt);;
  b ← per_cpu c;
  let expires := next_timer b in
  mret (if time_before_eq expires now then now else cmp_next_hrtimer_event now expires hr).

(** ** The order of the slots *)

(** Ticks from [j] to the next multiple of [U], and that multiple. *)
Definition up (j U : Z) : Z := (- j) mod U.
Definition ceil (j U : Z) : Z := (j + up j U) / U.

(** Ticks from [j] until a timer that expires at [e] is run: 0 if it is overdue. *)
Definition ahead (j e : Z) : Z := s32 (e - j).
Definition due (j e : Z) : Z := Z.max 0 (ahead j e).

Lemma ceil_spec j U : 0 < U -> j + up j U = U * ceil j U /\ 0 <= up j U < U.
Proof.
  intros HU. unfold ceil, up. pose proof (Z.mod_pos_bound (- j) U HU). split; [|done].
  apply Z.div_exact; [lia|]. rewrite Zplus_mod_idemp_r. by rewrite Z.add_opp_diag_r.
Qed.

(** The slots of an array, from the next one to be cascaded on, hold timers that
    expire later and later. *)
Lemma block_order U j e i : 0 < U -> (64 * U | 2 ^ 32) -> is_u32 j -> is_u32 e ->
  Z.of_nat i = (e / U) mod 2 ^ 6 -> e mod U <= delta j e < 2 ^ 6 * U ->
  exists q, 0 <= q < 64 /\ Z.of_nat i = (ceil j U + q) mod 2 ^ 6 /\
    delta j e = up j U + q * U + e mod U.
Proof.
  intros HU [w Hw] Hj He Hi Hd. destruct (ceil_spec j U HU) as [HC Hup].
  pose proof (Z.div_mod e U ltac:(lia)) as Ee. pose proof (Z.mod_pos_bound e U HU).
  assert (exists k, delta j e = e - j + k * 2 ^ 32) as [k Hk].
  { destruct (delta_cases j e Hj He); [exists 0 | exists 1]; lia. }
  exists (e / U - ceil j U + 64 * (k * w)).
  assert (Hq : delta j e = up j U + (e / U - ceil j U + 64 * (k * w)) * U + e mod U).
  { rewrite Hk, Hw. set (C := ceil j U) in *. set (m := e mod U) in *. set (Q := e / U) in *.
    replace j with (U * C - up j U) at 1 by lia. rewrite Ee. ring. }
  split; [nia|]. split; [|done]. rewrite Hi.
  replace (ceil j U + (e / U - ceil j U + 64 * (k * w))) with (e / U + (k * w) * 2 ^ 6) by lia.
  by rewrite Z_mod_plus_full.
Qed.

Lemma ahead_delta j e : is_u32 j -> is_u32 e -> delta j e < 2 ^ 31 -> ahead j e = delta j e.
Proof.
  intros Hj He Hd. unfold ahead. rewrite s32_delta by done.
  by destruct (Z.ltb_spec (delta j e) (2 ^ 31)); [|lia].
Qed.

Lemma array_order n j e i : is_u32 j -> is_u32 e -> n <> TV1 -> placed j e n i ->
  exists q r, 0 <= q < 64 /\ 0 <= r < unit_of n /\ Z.of_nat i = (ceil j (unit_of n) + q) mod 2 ^ 6 /\
    ahead j e = up j (unit_of n) + q * unit_of n + r /\ ahead j e < 2 ^ 31.
Proof.
  intros Hj He Hn Hp.
  assert (Hp' : Z.of_nat i = (e / unit_of n) mod 2 ^ 6 /\ e mod unit_of n <= delta j e /\
         delta j e < 2 ^ 6 * unit_of n /\ delta j e < 2 ^ 31) by (by destruct n).
  destruct Hp' as (Hi & H1 & H2 & H3).
  destruct (block_order (unit_of n) j e i) as (q & Hq & Hs & Hd); try done; [apply unit_pos | |].
  { destruct n; [done | exists (2 ^ 18) | exists (2 ^ 12) | exists (2 ^ 6) | exists 1]; reflexivity. }
  exists q, (e mod unit_of n). rewrite ahead_delta by done.
  pose proof (Z.mod_pos_bound e (unit_of n) (unit_pos n)). auto.
Qed.

Lemma tv1_order j e i : is_u32 j -> is_u32 e -> (i < 256)%nat -> placed j e TV1 i ->
  exists q, 0 <= q < 256 /\ Z.of_nat i = (j + q) mod 2 ^ 8 /\ due j e = q /\ (0 < q -> ahead j e = q).
Proof.
  intros Hj He Hi Hp. unfold due. pose proof (delta_range j e).
  destruct Hp as [[Hs Hd] | [Hs Hd]].
  - exists (delta j e). rewrite ahead_delta by (done || lia). split; [lia|]. split; [|split; [lia | done]].
    rewrite Hs. unfold delta, u32.
    rewrite <- (Zplus_mod_idemp_r ((e - j) mod 2 ^ 32)), Z.mod_mod_divide, Zplus_mod_idemp_r by (by exists (2 ^ 24)).
    f_equal. lia.
  - exists 0. rewrite Z.add_0_r. split; [lia|]. split; [done|]. unfold ahead. rewrite s32_delta by done.
    destruct (Z.ltb_spec (delta j e) (2 ^ 31)); lia.
Qed.

(** The next multiple of the next unit. *)
Lemma up_next j U : 0 < U -> up j (64 * U) = up j U + ((- ceil j U) mod 64) * U.
Proof.
  intros HU. destruct (ceil_spec j U HU) as [HC Hup].
  pose proof (Z.mod_pos_bound (- ceil j U) 64). pose proof (Z.div_mod (- ceil j U) 64 ltac:(lia)).
  unfold up at 1. symmetry. apply Z.mod_unique_pos with (q := (- ceil j U) / 64); nia.
Qed.

Lemma ceil_next j U : 0 < U -> ceil j (64 * U) = (ceil j U + (- ceil j U) mod 64) / 64.
Proof.
  intros HU. destruct (ceil_spec j U HU) as [HC Hup]. destruct (ceil_spec j (64 * U)) as [HC' _]; [lia|].
  rewrite up_next in HC' by done.
  assert (ceil j U + (- ceil j U) mod 64 = 64 * ceil j (64 * U)) as -> by nia.
  rewrite (Z.mul_comm 64 (ceil _ _)). by rewrite Z.div_mul by lia.
Qed.

(** ** What the loops find *)

Section Wheel.

Context (ts : gmap tid timer_list) (c : nat) (b : tvec_base).
Context (ok : base_ok ts c b) (times : forall t x, ts !! t = Some x -> is_u32 (expires x)).
Abbreviation j := (timer_jiffies b).

(** A timer of the list that is not deferrable expires at [e]. *)
Definition live (l : list tid) (e : Z) : Prop :=
  exists t x, t ∈ l /\ ts !! t = Some x /\ deferrable x = false /\ expires x = e.

Definition present (l : list tid) : Prop := forall t, t ∈ l -> is_Some (ts !! t).

Lemma present_cons t l : present (t :: l) -> is_Some (ts !! t) /\ present l.
Proof. intros H. split; [apply H; left | intros u Hu; apply H; by right]. Qed.

Lemma live_cons t x l e : ts !! t = Some x ->
  live (t :: l) e <-> (deferrable x = false /\ expires x = e) \/ live l e.
Proof.
  intros Ht. split.
  - intros (u & y & [->|Hu]%elem_of_cons & Hy & Hd & He); [|by right; exists u, y].
    rewrite Ht in Hy. injection Hy as <-. by left.
  - intros [[Hd He]|(u & y & Hu & Hy & Hd & He)].
    + exists t, x. split; [left|]. auto.
    + exists u, y. split; [by right|]. auto.
Qed.

Lemma live_nil e : ~ live [] e.
Proof. intros (t & x & Ht & _). by apply not_elem_of_nil in Ht. Qed.

Lemma live_u32 l e : live l e -> is_u32 e.
Proof. intros (t & x & _ & Hx & _ & <-). eauto. Qed.

Lemma first_live_spec l : present l ->
  exists r, first_live ts l = Some r /\
    match r with Some e => live l e | None => forall e, ~ live l e end.
Proof.
  induction l as [|t l IH]; intros Hp; cbn [first_live].
  { exists None. split; [done | apply live_nil]. }
  apply present_cons in Hp as [[x Hx] Hp]. rewrite Hx. cbn [mbind option_bind].
  destruct (deferrable x) eqn:Ed.
  - destruct (IH Hp) as (r & -> & Hr). exists r. split; [done|]. destruct r as [e|].
    + apply (live_cons t x); auto.
    + intros e [[? _]|?]%(live_cons t x); [congruence | by eapply Hr | done].
  - exists (Some (expires x)). split; [done|]. apply (live_cons t x); auto.
Qed.

Lemma time_before_ahead a e : is_u32 a -> is_u32 e -> - 2 ^ 31 <= ahead j a - ahead j e < 2 ^ 31 ->
  time_before a e = (ahead j a <? ahead j e).
Proof.
  intros Ha He Hr. unfold time_before, time_after.
  assert (E : s32 (a - e) = ahead j a - ahead j e).
  { unfold ahead, s32 in *.
    pose proof (Z.div_mod (a - j + 2 ^ 31) (2 ^ 32) ltac:(lia)).
    pose proof (Z.div_mod (e - j + 2 ^ 31) (2 ^ 32) ltac:(lia)).
    set (x := (a - j + 2 ^ 31) mod 2 ^ 32) in *. set (y := (e - j + 2 ^ 31) mod 2 ^ 32) in *.
    replace (a - e + 2 ^ 31) with
      (x - y + 2 ^ 31 + ((a - j + 2 ^ 31) / 2 ^ 32 - (e - j + 2 ^ 31) / 2 ^ 32) * 2 ^ 32) by lia.
    rewrite Z_mod_plus_full, Z.mod_small by lia. lia. }
  rewrite E. destruct (Z.ltb_spec (ahead j a - ahead j e) 0), (Z.ltb_spec (ahead j a) (ahead j e)); done || lia.
Qed.

(** The smallest time in a list, when all are comparable. *)
Lemma min_live_spec l B found e : present l -> is_u32 e -> B <= 2 ^ 31 ->
  (forall x, live l x -> 0 <= ahead j x < B) -> B - 2 ^ 31 <= ahead j e < 2 ^ 31 ->
  exists found' e', min_live ts l found e = Some (found', e') /\
    ahead j e' <= ahead j e /\ (forall x, live l x -> ahead j e' <= ahead j x) /\
    (e' = e \/ live l e') /\ (found' = true <-> found = true \/ exists x, live l x).
Proof.
  revert found e. induction l as [|t l IH]; intros found e Hp Hu HB Hl He; cbn [min_live].
  { exists found, e. split; [done|]. split; [done|]. split; [by intros x ?%live_nil|]. split; [by left|].
    split; [by left|]. intros [?|[x ?%live_nil]]; done. }
  apply present_cons in Hp as [[x Hx] Hp]. rewrite Hx. cbn [mbind option_bind].
  assert (Hl' : forall y, live l y -> 0 <= ahead j y < B).
  { intros y Hy. apply Hl. apply (live_cons t x); auto. }
  destruct (deferrable x) eqn:Ed.
  - destruct (IH found e Hp Hu HB Hl' He) as (f' & e' & E & H1 & H2 & H3 & H4). exists f', e'.
    split; [done|]. split; [done|]. split.
    { intros y [[? _]|?]%(live_cons t x); [congruence | auto | done]. }
    split; [destruct H3; [by left | right; apply (live_cons t x); auto]|].
    rewrite H4. split; (intros [?|[y Hy]]; [by left | right; exists y]).
    + apply (live_cons t x); auto.
    + apply (live_cons t x) in Hy as [[? _]|?]; [congruence | done | done].
  - assert (Hlx : live (t :: l) (expires x)) by (apply (live_cons t x); auto).
    pose proof (Hl _ Hlx) as Hxr. pose proof (times t x Hx) as Hxu.
    rewrite (time_before_ahead (expires x) e) by (done || lia).
    set (m := if ahead j (expires x) <? ahead j e then expires x else e).
    assert (Hm : is_u32 m /\ B - 2 ^ 31 <= ahead j m < 2 ^ 31 /\ ahead j m <= ahead j e /\
                 ahead j m <= ahead j (expires x) /\ (m = e \/ m = expires x)).
    { unfold m. destruct (Z.ltb_spec (ahead j (expires x)) (ahead j e)); auto with lia. }
    destruct Hm as (Hmu & Hmr & Hm1 & Hm2 & Hm3).
    destruct (IH true m Hp Hmu HB Hl' Hmr) as (f' & e' & E & H1 & H2 & H3 & H4). exists f', e'.
    split; [done|]. split; [lia|]. split.
    { intros y [[_ <-]|?]%(live_cons t x); [lia | auto | done]. }
    split.
    { destruct H3 as [->|H3]; [destruct Hm3 as [->| ->]; auto | right; apply (live_cons t x); auto]. }
    rewrite H4. split; [intros _; right; eauto | by left].
Qed.

(** The slot [q] places after slot [base], in an array of [N] slots. *)
Definition slot_at (base N q : Z) : Z := (base + q) mod N.

Definition empty (v : list (list tid)) (base N q : Z) : Prop :=
  forall l e, v !! Z.to_nat (slot_at base N q) = Some l -> ~ live l e.

Lemma slot_next base N q : 0 < N -> (slot_at base N q + 1) mod N = slot_at base N (q + 1).
Proof. intros HN. unfold slot_at. rewrite Zplus_mod_idemp_l. f_equal. lia. Qed.

Lemma slot_back base N q : 0 < N -> 0 < q < N -> slot_at base N q <> slot_at base N 0.
Proof.
  intros HN Hq H. unfold slot_at in H.
  assert (E : (base + q - (base + 0)) mod N = 0) by (rewrite Zminus_mod, H, Z.sub_diag; apply Zmod_0_l).
  replace (base + q - (base + 0)) with q in E by lia. rewrite Z.mod_small in E by lia. lia.
Qed.

Lemma slot_nowrap base N q : 0 < N -> 0 <= q < N -> slot_at base N 0 <= slot_at base N q ->
  slot_at base N 0 + q < N.
Proof.
  unfold slot_at. rewrite Z.add_0_r. intros HN Hq Hle. pose proof (Z.mod_pos_bound base N HN).
  destruct (Z.lt_ge_cases (base mod N + q) N) as [|Hge]; [done|]. exfalso.
  assert ((base + q) mod N = base mod N + q - N); [|lia].
  rewrite <- Zplus_mod_idemp_l. symmetry. apply Z.mod_unique_pos with (q := 1); lia.
Qed.

Lemma slot_wrap base N : slot_at base N N = slot_at base N 0.
Proof. unfold slot_at. rewrite <- (Z_mod_plus_full (base + 0) 1 N). f_equal. lia. Qed.

Lemma slot_exists n q base : exists l, tv n b !! Z.to_nat (slot_at base (slots_of n) q) = Some l /\ present l.
Proof.
  assert (HN : 0 < slots_of n) by (by destruct n).
  pose proof (Z.mod_pos_bound (base + q) (slots_of n) HN).
  destruct (lookup_lt_is_Some_2 (tv n b) (Z.to_nat (slot_at base (slots_of n) q))) as [l Hl].
  { pose proof (b_size _ _ _ ok n). unfold slot_at. lia. }
  exists l. split; [done|]. intros t Ht. destruct (b_owner _ _ _ ok t) as (x & Hx & _).
  - unfold listed. apply elem_of_app. left. apply elem_of_queued. eauto.
  - eauto.
Qed.

(** [tv1]: the first slot, in the order of the ticks, that has a timer. *)
Lemma scan_tv1_from n : forall q, Z.of_nat n = 256 - q -> 0 <= q < 256 ->
  (forall q', 0 <= q' < q -> empty (tv1 b) j 256 q') ->
  exists r, scan_tv1 n ts (tv1 b) (slot_at j 256 0) (slot_at j 256 q) = Some r /\
    match r with
    | None => forall q', 0 <= q' < 256 -> empty (tv1 b) j 256 q'
    | Some (e, slot) =>
        exists q' l, 0 <= q' < 256 /\ slot = slot_at j 256 q' /\
          tv1 b !! Z.to_nat slot = Some l /\ live l e /\
          forall q'', 0 <= q'' < q' -> empty (tv1 b) j 256 q''
    end.
Proof.
  induction n as [|n IH]; intros q Hn Hq He; [lia|]. cbn [scan_tv1].
  destruct (slot_exists TV1 q j) as (l & Hl & Hp). change (slots_of TV1) with 256 in Hl.
  change (tv TV1 b) with (tv1 b) in Hl. rewrite Hl. cbn [mbind option_bind].
  destruct (first_live_spec l Hp) as (r & -> & Hr). cbn [mbind option_bind].
  destruct r as [e|].
  { eexists. split; [reflexivity|]. exists q, l. auto. }
  assert (Hnext : forall q', 0 <= q' < q + 1 -> empty (tv1 b) j 256 q').
  { intros q' Hq'. destruct (Z.eq_dec q' q) as [->|]; [|apply He; lia].
    intros l' e Hl'. rewrite Hl in Hl'. injection Hl' as <-. apply Hr. }
  rewrite land_tvr. change (2 ^ 8) with 256. rewrite slot_next by lia.
  destruct (Z.eq_dec (q + 1) 256) as [E|E].
  - rewrite E, slot_wrap, Z.eqb_refl. exists None. split; [done|]. intros q' Hq'. apply Hnext. lia.
  - rewrite (proj2 (Z.eqb_neq _ _) (slot_back j 256 (q + 1) ltac:(lia) ltac:(lia))).
    apply IH; [lia | lia | done].
Qed.

Section Array.
Context (n : tvec_name) (outer : n <> TV1) (base : Z).

Lemma slot_exists_outer q : exists l, tv n b !! Z.to_nat (slot_at base 64 q) = Some l /\ present l.
Proof. pose proof (slot_exists n q base) as H. by destruct n. Qed.

(** What holds of the time chosen in slot [q]. *)
Definition chosen (q e e' : Z) : Prop :=
  ahead j e' <= ahead j e /\
  (forall l x, tv n b !! Z.to_nat (slot_at base 64 q) = Some l -> live l x -> ahead j e' <= ahead j x) /\
  (e' = e \/ exists l, tv n b !! Z.to_nat (slot_at base 64 q) = Some l /\ live l e').

Lemma scan_slot q B found e : is_u32 e -> B <= 2 ^ 31 ->
  (forall l x, tv n b !! Z.to_nat (slot_at base 64 q) = Some l -> live l x -> 0 <= ahead j x < B) ->
  B - 2 ^ 31 <= ahead j e < 2 ^ 31 ->
  exists l found' e', tv n b !! Z.to_nat (slot_at base 64 q) = Some l /\
    min_live ts l found e = Some (found', e') /\ chosen q e e' /\
    (found' = true <-> found = true \/ exists x, live l x).
Proof.
  intros Hu HB Hl He. destruct (slot_exists_outer q) as (l & El & Hp).
  destruct (min_live_spec l B found e Hp Hu HB) as (f' & e' & E & H1 & H2 & H3 & H4); [eauto | done|].
  exists l, f', e'. split; [done|]. split; [done|]. split; [|done]. split; [done|]. split.
  - intros l' x Hl'. rewrite El in Hl'. injection Hl' as <-. apply H2.
  - destruct H3; [by left | right; eauto].
Qed.

(** The time is known: only the next slot to be cascaded is looked at. *)
Lemma scan_found B e : is_u32 e -> B <= 2 ^ 31 ->
  (forall l x, tv n b !! Z.to_nat (slot_at base 64 0) = Some l -> live l x -> 0 <= ahead j x < B) ->
  B - 2 ^ 31 <= ahead j e < 2 ^ 31 ->
  exists e', scan_tvn 64 ts (tv n b) (slot_at base 64 0) (slot_at base 64 0) true e =
      Some (negb (slot_at base 64 0 =? 0), true, e') /\ chosen 0 e e'.
Proof.
  intros Hu HB Hl He. destruct (scan_slot 0 B true e Hu HB Hl He) as (l & f' & e' & El & E & Hc & Hf).
  exists e'. split; [|done]. cbn [scan_tvn]. rewrite El. cbn [mbind option_bind]. rewrite E.
  cbn [mbind option_bind]. replace f' with true by (symmetry; apply Hf; by left).
  by rewrite Z.ltb_irrefl, orb_false_r.
Qed.

(** No time is known yet: the first slot that has a timer. *)
Lemma scan_search k e : is_u32 e -> 0 <= ahead j e < 2 ^ 31 ->
  (forall q l x, tv n b !! Z.to_nat (slot_at base 64 q) = Some l -> live l x -> 0 <= ahead j x < 2 ^ 31) ->
  forall q, Z.of_nat k = 64 - q -> 0 <= q < 64 -> (forall q', 0 <= q' < q -> empty (tv n b) base 64 q') ->
  let r := scan_tvn k ts (tv n b) (slot_at base 64 0) (slot_at base 64 q) false e in
  (r = Some (false, false, e) /\ forall q', 0 <= q' < 64 -> empty (tv n b) base 64 q') \/
  exists q' e', r = Some (negb ((slot_at base 64 0 =? 0) || (slot_at base 64 q' <? slot_at base 64 0)), true, e') /\
    0 <= q' < 64 /\ chosen q' e e' /\
    (exists l x, tv n b !! Z.to_nat (slot_at base 64 q') = Some l /\ live l x) /\
    forall q'', 0 <= q'' < q' -> empty (tv n b) base 64 q''.
Proof.
  intros Hu He Hl. induction k as [|k IH]; intros q Hk Hq Hem; [lia|]. cbv zeta. cbn [scan_tvn].
  destruct (scan_slot q (2 ^ 31) false e Hu ltac:(lia) (Hl q) ltac:(lia)) as (l & f' & e' & El & E & Hc & Hf).
  rewrite El. cbn [mbind option_bind]. rewrite E. cbn [mbind option_bind]. destruct f'.
  { right. exists q, e'. split; [done|]. split; [done|]. split; [done|]. split; [|done].
    destruct (proj1 Hf eq_refl) as [|[x Hx]]; [done | eauto]. }
  assert (Hno : forall x, ~ live l x) by (intros x Hx; assert (false = true); [apply Hf; eauto | done]).
  assert (e' = e) as -> by (destruct Hc as (_ & _ & [?|(l' & Hl' & Hx)]); [done|]; rewrite El in Hl';
    injection Hl' as <-; by eapply Hno in Hx).
  assert (Hnext : forall q', 0 <= q' < q + 1 -> empty (tv n b) base 64 q').
  { intros q' Hq'. destruct (Z.eq_dec q' q) as [->|]; [|apply Hem; lia].
    intros l' x Hl'. rewrite El in Hl'. injection Hl' as <-. apply Hno. }
  change TVN_MASK with (2 ^ 6 - 1). rewrite land_low by lia. change (2 ^ 6) with 64. rewrite slot_next by lia.
  destruct (Z.eq_dec (q + 1) 64) as [E1|E1].
  - rewrite E1, slot_wrap, Z.eqb_refl. left. split; [done|]. intros q' Hq'. apply Hnext. lia.
  - rewrite (proj2 (Z.eqb_neq _ _) (slot_back base 64 (q + 1) ltac:(lia) ltac:(lia))).
    apply IH; [lia | lia | done].
Qed.
End Array.

(** ** The arrays, one after the other *)

(** A timer that is not deferrable is in array [n] and expires at [e]. *)
Definition live_in (n : tvec_name) (e : Z) : Prop := exists i l, tv n b !! i = Some l /\ live l e.

Context (recent : forall n e, live_in n e -> - 2 ^ 30 <= ahead j e).
Abbreviation furthest := (u32 (j + NEXT_TIMER_MAX_DELTA)).

Lemma tick_u32 : is_u32 j.
Proof. apply (b_tick _ _ _ ok). Qed.

Lemma live_in_u32 n e : live_in n e -> is_u32 e.
Proof. intros (i & l & _ & H). by eapply live_u32. Qed.

Lemma outer_order n i l e : n <> TV1 -> tv n b !! i = Some l -> live l e ->
  exists q, 0 <= q < 64 /\ i = Z.to_nat (slot_at (ceil j (unit_of n)) 64 q) /\
    up j (unit_of n) + q * unit_of n <= ahead j e < up j (unit_of n) + (q + 1) * unit_of n /\ ahead j e < 2 ^ 31.
Proof.
  intros Hn Hl (t & x & Ht & Hx & _ & <-).
  destruct (array_order n j (expires x) i tick_u32 (times t x Hx) Hn (b_place _ _ _ ok n i l t x Hl Ht Hx))
    as (q & r & Hq & Hr & Hi & Ha & Hb).
  exists q. split; [done|]. split; [|split; [lia | done]]. unfold slot_at. change 64 with (2 ^ 6). lia.
Qed.

Lemma slot_order n q l e : n <> TV1 -> 0 <= q < 64 ->
  tv n b !! Z.to_nat (slot_at (ceil j (unit_of n)) 64 q) = Some l -> live l e ->
  up j (unit_of n) + q * unit_of n <= ahead j e < up j (unit_of n) + (q + 1) * unit_of n /\ ahead j e < 2 ^ 31.
Proof.
  intros Hn Hq Hl He. destruct (outer_order n _ l e Hn Hl He) as (q' & Hq' & Hi & Ha).
  assert (q' = q) as ->; [|done].
  pose proof (Z.mod_pos_bound (ceil j (unit_of n) + q) 64). pose proof (Z.mod_pos_bound (ceil j (unit_of n) + q') 64).
  apply Z2Nat.inj in Hi; [|unfold slot_at; lia ..]. unfold slot_at in Hi. set (C := ceil j (unit_of n)) in *.
  assert (E : (C + q - (C + q')) mod 64 = 0) by (rewrite Zminus_mod, Hi, Z.sub_diag; done).
  apply Z.mod_divide in E as [z Hz]; lia.
Qed.

Lemma up_mono U V : 0 < U -> (U | V) -> 0 < V -> up j U <= up j V.
Proof.
  intros HU Hd HV. unfold up. rewrite <- (Z.mod_mod_divide (- j) V U Hd).
  apply Z.mod_le; [apply Z.mod_pos_bound|]; lia.
Qed.

Lemma unit_step_up n m : unit_of n < unit_of m -> n <> TV1 -> (64 * unit_of n | unit_of m).
Proof.
  destruct n, m; intros H Hn; first [done | cbn in H; lia | by exists 1 | by exists 64 | by exists 4096].
Qed.

(** Timers of the later arrays are not due before the next cascading of the array. *)
Lemma later_arrays n m e : n <> TV1 -> unit_of n < unit_of m -> live_in m e ->
  up j (64 * unit_of n) <= ahead j e.
Proof.
  intros Hn Hm (i & l & Hl & He). assert (m <> TV1) by (by intros ->; destruct n).
  destruct (outer_order m i l e) as (q & Hq & _ & Ha & _); [done..|].
  pose proof (up_mono (64 * unit_of n) (unit_of m)) as Hu. pose proof (unit_pos n). pose proof (unit_pos m).
  specialize (Hu ltac:(lia) (unit_step_up n m Hm Hn) ltac:(lia)). nia.
Qed.

Definition good (e : Z) : Prop :=
  (forall m x, live_in m x -> due j e <= due j x) /\ ahead j e < 2 ^ 30 /\
  (e = furthest \/ exists m, live_in m e).

(** What is known before the arrays with units from [U] on are looked at. *)
Definition state (U : Z) (found : bool) (e : Z) : Prop :=
  is_u32 e /\
  (forall m x, unit_of m < U -> live_in m x -> found = true /\ due j e <= due j x) /\
  (found = true -> - 2 ^ 30 <= ahead j e < up j U + U) /\
  (found = false -> e = furthest) /\ ahead j e < 2 ^ 30 /\
  (e = furthest \/ exists m, live_in m e).

Lemma furthest_delta : delta j furthest = 2 ^ 30 - 1.
Proof.
  unfold delta, u32. rewrite Zminus_mod_idemp_l. change NEXT_TIMER_MAX_DELTA with (2 ^ 30 - 1).
  replace (j + (2 ^ 30 - 1) - j) with (2 ^ 30 - 1) by lia. by rewrite Z.mod_small.
Qed.

Lemma furthest_ahead : ahead j furthest = 2 ^ 30 - 1.
Proof.
  rewrite ahead_delta, furthest_delta; [done | apply tick_u32 | apply u32_range | by rewrite furthest_delta].
Qed.

Lemma due_mono e e' : ahead j e <= ahead j e' -> due j e <= due j e'.
Proof. unfold due. lia. Qed.

Section Stage.
Context (n : tvec_name) (outer : n <> TV1).
Abbreviation U := (unit_of n).
Abbreviation index := (slot_at (ceil j U) 64 0).

Lemma index_spec : (- ceil j U) mod 64 = (if index =? 0 then 0 else 64 - index) /\ 0 <= index < 64.
Proof.
  unfold slot_at. rewrite Z.add_0_r. pose proof (Z.mod_pos_bound (ceil j U) 64). split; [|lia].
  destruct (Z.eqb_spec (ceil j U mod 64) 0) as [E|E].
  - by apply Z_mod_zero_opp_full.
  - by apply Z_mod_nz_opp_full.
Qed.

Lemma units_upto m : unit_of m < 64 * U -> unit_of m < U \/ m = n.
Proof. destruct n, m; cbn; intros H; try lia; auto; try done; left; lia. Qed.

(** A time chosen in slot [q] of the array, when the earlier slots are empty. *)
Lemma chosen_array q e e' : 0 <= q < 64 -> chosen n (ceil j U) q e e' ->
  (forall q', 0 <= q' < q -> empty (tv n b) (ceil j U) 64 q') -> ahead j e' < up j U + (q + 1) * U ->
  forall x, live_in n x -> due j e' <= due j x.
Proof.
  intros Hq (_ & Hmin & _) Hem Hlt x (i & l & Hl & Hx). apply due_mono.
  destruct (outer_order n i l x outer Hl Hx) as (q' & Hq' & -> & Ha & _).
  destruct (Z.lt_trichotomy q' q) as [Hlt'|[-> | Hgt]]; [|by eapply Hmin|].
  - exfalso. eapply Hem; [|exact Hl | exact Hx]. lia.
  - pose proof (unit_pos n). nia.
Qed.

Lemma chosen_recent q e e' : chosen n (ceil j U) q e e' -> - 2 ^ 30 <= ahead j e ->
  - 2 ^ 30 <= ahead j e' /\ (is_u32 e -> is_u32 e').
Proof.
  intros (_ & _ & [->|(l & Hl & He)]) H; [done|].
  assert (live_in n e') by (eexists _, l; eauto). split; [by eapply recent | intros _; by eapply live_in_u32].
Qed.

Lemma chosen_origin q e e' : chosen n (ceil j U) q e e' ->
  ahead j e < 2 ^ 30 /\ (e = furthest \/ exists m, live_in m e) ->
  ahead j e' < 2 ^ 30 /\ (e' = furthest \/ exists m, live_in m e').
Proof.
  intros (Hle & _ & [->|(l & Hl & He)]) H; [done|]. split; [lia|]. right. exists n. eexists _, l. eauto.
Qed.

(** The function may return here: nothing later is due earlier. *)
Lemma stop_good q e e' : 0 <= q < 64 -> chosen n (ceil j U) q e e' ->
  (forall q', 0 <= q' < q -> empty (tv n b) (ceil j U) 64 q') ->
  ahead j e' < up j U + (q + 1) * U -> ahead j e' < up j (64 * U) ->
  (forall m x, unit_of m < U -> live_in m x -> due j e' <= due j x) ->
  ahead j e < 2 ^ 30 /\ (e = furthest \/ exists m, live_in m e) -> good e'.
Proof.
  intros Hq Hc Hem Hlt Hup Hlow Ho. split; [|by eapply chosen_origin]. intros m x Hx.
  destruct (Z.lt_ge_cases (unit_of m) (64 * U)) as [Hm|Hm].
  - destruct (units_upto m Hm) as [Hm' | ->]; [by apply (Hlow m) | by eapply (chosen_array q)].
  - apply due_mono. pose proof (later_arrays n m x outer) as Hl. pose proof (unit_pos n).
    specialize (Hl ltac:(lia) Hx). lia.
Qed.

Lemma unit_small : U <= 2 ^ 26.
Proof. by destruct n. Qed.

Lemma stage_found e : state U true e ->
  exists stop e', scan_tvn 64 ts (tv n b) index index true e = Some (stop, true, e') /\
    if stop : bool then good e' else state (64 * U) true e'.
Proof.
  intros (Hu & Hlow & Hf & _ & Ho). specialize (Hf eq_refl).
  pose proof unit_small. pose proof (unit_pos n). destruct (ceil_spec j U (unit_pos n)) as [_ Hup].
  destruct (scan_found n outer (ceil j U) (2 ^ 27) e Hu ltac:(lia)) as (e' & E & Hc); [|lia|].
  { intros l x Hl Hx. destruct (slot_order n 0 l x outer ltac:(lia) Hl Hx). lia. }
  exists (negb (index =? 0)), e'. split; [exact E|].
  destruct (chosen_recent 0 e e' Hc ltac:(lia)) as [Hr Hu']. pose proof (proj1 Hc) as Hle.
  assert (Hlow' : forall m x, unit_of m < U -> live_in m x -> due j e' <= due j x).
  { intros m x Hm Hx. destruct (Hlow m x Hm Hx) as [_ Hd]. pose proof (due_mono _ _ Hle). lia. }
  destruct index_spec as [Hi Hi']. pose proof (up_next j U (unit_pos n)) as Hn. rewrite Hi in Hn.
  destruct (Z.eqb_spec index 0) as [E0|E0]; cbn [negb].
  - split; [auto|]. split; [|split; [|split; [done | by eapply chosen_origin]]]; [|lia].
    intros m x [Hm | ->]%units_upto Hx; (split; [done|]); [by apply (Hlow' m)|].
    eapply (chosen_array 0); [lia | exact Hc | lia | lia | done].
  - eapply (stop_good 0); [lia | exact Hc | lia | lia | nia | exact Hlow' | exact Ho].
Qed.

Lemma stage_search e : state U false e ->
  exists stop found e', scan_tvn 64 ts (tv n b) index index false e = Some (stop, found, e') /\
    if stop : bool then good e' else state (64 * U) found e'.
Proof.
  intros (Hu & Hlow & _ & He & Ho). specialize (He eq_refl).
  pose proof (unit_pos n). destruct (ceil_spec j U (unit_pos n)) as [_ Hup].
  assert (Hr : 0 <= ahead j e < 2 ^ 31) by (rewrite He, furthest_ahead; lia).
  assert (Hno : forall m x, unit_of m < U -> ~ live_in m x) by (intros m x Hm Hx; by destruct (Hlow m x Hm Hx)).
  assert (Hrange : forall q l x, tv n b !! Z.to_nat (slot_at (ceil j U) 64 q) = Some l -> live l x ->
    0 <= ahead j x < 2 ^ 31).
  { intros q l x Hl Hx. destruct (outer_order n _ l x outer Hl Hx) as (q' & Hq' & _ & Ha & Hb). split; [nia | done]. }
  destruct (scan_search n outer (ceil j U) 64 e Hu Hr Hrange 0 eq_refl ltac:(lia) ltac:(lia))
    as [[E Hem] | (q & e' & E & Hq & Hc & (l & x & Hl & Hx) & Hem)].
  - exists false, false, e. split; [exact E|]. split; [done|]. split; [|split; [done | auto]].
    intros m x [Hm | ->]%units_upto Hx; [by eapply Hno in Hx|]. destruct Hx as (i & l & Hl & Hx).
    destruct (outer_order n i l x outer Hl Hx) as (q & Hq & -> & _). by destruct (Hem q Hq l x Hl).
  - eexists _, true, e'. split; [exact E|].
    destruct (slot_order n q l x outer Hq Hl Hx) as [Ha _].
    assert (Hlt : ahead j e' < up j U + (q + 1) * U) by (pose proof (proj1 (proj2 Hc) l x Hl Hx); lia).
    destruct (chosen_recent q e e' Hc ltac:(lia)) as [Hr' Hu'].
    destruct index_spec as [Hi Hi']. pose proof (up_next j U (unit_pos n)) as Hn. rewrite Hi in Hn.
    destruct ((index =? 0) || (slot_at (ceil j U) 64 q <? index)) eqn:Es; cbn [negb].
    + split; [auto|]. split; [|split; [|split; [done | by eapply chosen_origin]]].
      * intros m y [Hm | ->]%units_upto Hy; [by eapply Hno in Hy|]. split; [done|].
        by eapply (chosen_array q).
      * intros _. split; [done|]. destruct (Z.eqb_spec index 0); nia.
    + apply orb_false_iff in Es as [E0 E1]. rewrite E0 in Hn.
      eapply (stop_good q); [exact Hq | exact Hc | exact Hem | exact Hlt | | intros m y Hm Hy; by eapply Hno in Hy | exact Ho].
      assert (q + 1 <= 64 - index); [|nia].
      apply Z.ltb_ge in E1. pose proof (slot_nowrap (ceil j U) 64 q ltac:(lia) Hq E1). lia.
Qed.
End Stage.

(** The variable [timer_jiffies] of the function, at the array with unit [U]: the
    number of the next block, around the clock. *)
Definition tracks (U tj : Z) : Prop :=
  0 <= tj <= 2 ^ 24 /\ exists a, ceil j U = tj + a * (2 ^ 32 / U).

Lemma turns n : n <> TV1 -> exists w, 2 ^ 32 / unit_of n = 64 * w /\ 2 ^ 32 / (64 * unit_of n) = w.
Proof.
  destruct n; intros H; [done | exists (2 ^ 18) | exists (2 ^ 12) | exists (2 ^ 6) | exists 1]; done.
Qed.

Lemma tracks_mod n tj : n <> TV1 -> tracks (unit_of n) tj -> ceil j (unit_of n) mod 64 = tj mod 64.
Proof.
  intros Hn [_ [a Ha]]. destruct (turns n Hn) as (w & Hw & _). rewrite Ha, Hw.
  replace (a * (64 * w)) with (a * w * 64) by lia. apply Z_mod_plus_full.
Qed.

Lemma land_tvn z : Z.land z TVN_MASK = z mod 64.
Proof. change TVN_MASK with (2 ^ 6 - 1). by rewrite land_low by lia. Qed.

Lemma tracks_index n tj : n <> TV1 -> tracks (unit_of n) tj ->
  Z.land tj TVN_MASK = slot_at (ceil j (unit_of n)) 64 0.
Proof.
  intros Hn Ht. rewrite land_tvn. unfold slot_at. rewrite Z.add_0_r. symmetry. by apply tracks_mod.
Qed.

Lemma round_up z N : 0 < N -> (if truth (z mod N) then z + (N - z mod N) else z) = z + (- z) mod N.
Proof.
  intros HN. unfold truth. destruct (Z.eqb_spec (z mod N) 0) as [E|E]; cbn [negb].
  - rewrite Z_mod_zero_opp_full by done. lia.
  - rewrite Z_mod_nz_opp_full by done. lia.
Qed.

Lemma tracks_next n tj : n <> TV1 -> tracks (unit_of n) tj ->
  tracks (64 * unit_of n)
    (Z.shiftr (if truth (Z.land tj TVN_MASK) then u32 (tj + (TVN_SIZE - Z.land tj TVN_MASK)) else tj) TVN_BITS).
Proof.
  intros Hn Ht. pose proof (tracks_mod n tj Hn Ht) as Hm. destruct Ht as [Hr [a Ha]].
  destruct (turns n Hn) as (w & Hw & Hw'). rewrite land_tvn.
  pose proof (Z.mod_pos_bound tj 64). change TVN_SIZE with 64. rewrite u32_small by lia. rewrite round_up by lia. change TVN_BITS with 6.
  rewrite Z.shiftr_div_pow2 by lia. change (2 ^ 6) with 64.
  pose proof (Z.mod_pos_bound (- tj) 64). split.
  { split; [apply Z.div_pos; lia|]. apply Z.div_le_upper_bound; lia. }
  exists a. rewrite ceil_next by apply unit_pos. rewrite Hw'.
  assert (E : (- ceil j (unit_of n)) mod 64 = (- tj) mod 64).
  { rewrite <- (Z.sub_0_l (ceil _ _)), <- (Z.sub_0_l tj), <- (Zminus_mod_idemp_r 0 tj), <- Hm.
    by rewrite Zminus_mod_idemp_r. }
  rewrite E, Ha, Hw. replace (tj + a * (64 * w) + (- tj) mod 64) with (tj + (- tj) mod 64 + a * w * 64) by lia.
  by rewrite Z.div_add by lia.
Qed.

Lemma arrays_step n ns found e tj : n <> TV1 -> tracks (unit_of n) tj -> state (unit_of n) found e ->
  (forall found e tj, tracks (64 * unit_of n) tj -> state (64 * unit_of n) found e ->
     exists r, scan_arrays ns ts b tj found e = Some r /\ good r) ->
  exists r, scan_arrays (n :: ns) ts b tj found e = Some r /\ good r.
Proof.
  intros Hn Ht Hs Hnext. cbn [scan_arrays]. pose proof (tracks_next n tj Hn Ht) as Ht'.
  rewrite (tracks_index n tj Hn Ht) in *.
  assert (exists stop found' e', scan_tvn 64 ts (tv n b) (slot_at (ceil j (unit_of n)) 64 0)
      (slot_at (ceil j (unit_of n)) 64 0) found e = Some (stop, found', e') /\
    if stop : bool then good e' else state (64 * unit_of n) found' e') as (stop & found' & e' & E & H).
  { destruct found; [|by apply stage_search].
    destruct (stage_found n Hn e Hs) as (stop & e' & E & H). eauto. }
  rewrite E. cbn [mbind option_bind]. destruct stop; [eauto | by apply Hnext].
Qed.

Lemma arrays_good found e tj : tracks (2 ^ 8) tj -> state (2 ^ 8) found e ->
  exists r, scan_arrays [TV2; TV3; TV4; TV5] ts b tj found e = Some r /\ good r.
Proof.
  intros Ht Hs. apply (arrays_step TV2); [done..|]. intros f2 e2 tj2 Ht2 Hs2.
  apply (arrays_step TV3); [done..|]. intros f3 e3 tj3 Ht3 Hs3.
  apply (arrays_step TV4); [done..|]. intros f4 e4 tj4 Ht4 Hs4.
  apply (arrays_step TV5); [done..|]. intros f5 e5 tj5 _ (_ & Hlow & _ & _ & Ho).
  exists e5. split; [done|]. split; [|done]. intros m x Hx. apply (Hlow m); [by destruct m | done].
Qed.

(** ** The function *)

Lemma tracks_first :
  tracks (2 ^ 8) (Z.shiftr (if truth (Z.land j TVR_MASK) then u32 (j + (TVR_SIZE - Z.land j TVR_MASK)) else j) TVR_BITS).
Proof.
  pose proof tick_u32 as Hj. unfold is_u32 in Hj. rewrite land_tvr. change TVR_SIZE with (2 ^ 8).
  change TVR_BITS with 8. rewrite Z.shiftr_div_pow2 by lia.
  assert (exists a, (if truth (j mod 2 ^ 8) then u32 (j + (2 ^ 8 - j mod 2 ^ 8)) else j) = j + up j (2 ^ 8) - a * 2 ^ 32
    /\ 0 <= j + up j (2 ^ 8) - a * 2 ^ 32 < 2 ^ 32) as (a & -> & Hr).
  { pose proof (round_up j (2 ^ 8) ltac:(lia)) as Hru. fold (up j (2 ^ 8)) in Hru. rewrite <- Hru.
    destruct (truth (j mod 2 ^ 8)); [|exists 0; lia].
    set (z := j + (2 ^ 8 - j mod 2 ^ 8)). exists (z / 2 ^ 32).
    pose proof (Z.div_mod z (2 ^ 32) ltac:(lia)). pose proof (Z.mod_pos_bound z (2 ^ 32)). unfold u32. lia. }
  split.
  - split; [apply Z.div_pos; lia|]. apply Z.div_le_upper_bound; lia.
  - exists a. unfold ceil. change (2 ^ 32 / 2 ^ 8) with (2 ^ 24).
    replace (j + up j (2 ^ 8) - a * 2 ^ 32) with (j + up j (2 ^ 8) + (- a * 2 ^ 24) * 2 ^ 8) by lia.
    rewrite Z.div_add by lia. lia.
Qed.

Lemma tv1_live q l e : 0 <= q < 256 -> tv1 b !! Z.to_nat (slot_at j 256 q) = Some l -> live l e ->
  due j e = q /\ (0 < q -> ahead j e = q).
Proof.
  intros Hq Hl (t & x & Ht & Hx & _ & <-).
  pose proof (b_place _ _ _ ok TV1 _ l t x Hl Ht Hx) as Hp. pose proof (Z.mod_pos_bound (j + q) 256).
  destruct (tv1_order j (expires x) (Z.to_nat (slot_at j 256 q)) tick_u32 (times t x Hx) ltac:(unfold slot_at; lia) Hp) as (q' & Hq' & Hi & Hd & Ha).
  assert (q' = q) as ->; [|done]. unfold slot_at in Hi. rewrite Z2Nat.id in Hi by lia. change (2 ^ 8) with 256 in Hi.
  assert (E : (j + q - (j + q')) mod 256 = 0) by (rewrite Zminus_mod, Hi, Z.sub_diag; done).
  apply Z.mod_divide in E as [z Hz]; lia.
Qed.

Lemma tv1_slot x : live_in TV1 x ->
  exists q l, 0 <= q < 256 /\ tv1 b !! Z.to_nat (slot_at j 256 q) = Some l /\ live l x.
Proof.
  intros (i & l & Hl & Hx). pose proof Hx as (t & y & Ht & Hy & _ & <-).
  assert (Hi : (i < 256)%nat).
  { pose proof (lookup_lt_Some _ _ _ Hl). pose proof (b_size _ _ _ ok TV1) as Hz. cbn [slots_of] in Hz. lia. }
  destruct (tv1_order j (expires y) i tick_u32 (times t y Hy) Hi (b_place _ _ _ ok TV1 i l t y Hl Ht Hy))
    as (q & Hq & Hs & _).
  exists q, l. split; [done|]. split; [|done]. unfold slot_at. change 256 with (2 ^ 8). rewrite <- Hs.
  by rewrite Nat2Z.id.
Qed.

Lemma near_unit m : unit_of m < 2 ^ 8 -> m = TV1.
Proof. by destruct m. Qed.

(** A timer of [tv1] before the next cascading comes first. *)
Lemma near_good q l e : 0 <= q < 256 -> tv1 b !! Z.to_nat (slot_at j 256 q) = Some l -> live l e ->
  (forall q', 0 <= q' < q -> empty (tv1 b) j 256 q') -> q < up j (2 ^ 8) -> good e.
Proof.
  intros Hq Hl He Hem Hup. destruct (tv1_live q l e Hq Hl He) as [Hd _].
  split; [|split; [unfold due in Hd; lia | right; exists TV1; eexists _, l; eauto]]. intros m x Hx. rewrite Hd.
  destruct (decide (m = TV1)) as [->|Hm].
  - destruct (tv1_slot x Hx) as (q' & l' & Hq' & Hl' & Hx'). destruct (tv1_live q' l' x Hq' Hl' Hx') as [-> _].
    destruct (Z.lt_ge_cases q' q); [|done]. exfalso. eapply Hem; [|exact Hl' | exact Hx']. lia.
  - destruct Hx as (i & l' & Hl' & Hx). destruct (outer_order m i l' x Hm Hl' Hx) as (q' & Hq' & _ & Ha & _).
    pose proof (unit_pos m). assert (up j (2 ^ 8) <= up j (unit_of m)).
    { apply up_mono; [lia | | done]. by destruct m; [|exists 1 | exists (2 ^ 6) | exists (2 ^ 12) | exists (2 ^ 18)]. }
    unfold due. nia.
Qed.

Lemma near_state q l e : 0 <= q < 256 -> tv1 b !! Z.to_nat (slot_at j 256 q) = Some l -> live l e ->
  (forall q', 0 <= q' < q -> empty (tv1 b) j 256 q') -> state (2 ^ 8) true e.
Proof.
  intros Hq Hl He Hem. destruct (tv1_live q l e Hq Hl He) as [Hd _].
  assert (Hin : live_in TV1 e) by (eexists _, l; eauto).
  split; [by eapply live_in_u32|]. split; [|split; [|split; [done | split; [unfold due in Hd; lia | eauto]]]].
  - intros m x ->%near_unit Hx. split; [done|]. rewrite Hd.
    destruct (tv1_slot x Hx) as (q' & l' & Hq' & Hl' & Hx'). destruct (tv1_live q' l' x Hq' Hl' Hx') as [-> _].
    destruct (Z.lt_ge_cases q' q); [|done]. exfalso. eapply Hem; [|exact Hl' | exact Hx']. lia.
  - intros _. split; [by eapply recent|]. unfold due in Hd. pose proof (Z.mod_pos_bound (- j) (2 ^ 8)).
    unfold up. lia.
Qed.

Lemma next_good : exists r, __next_timer_interrupt ts b = Some r /\ good r.
Proof.
  unfold __next_timer_interrupt. cbv zeta. pose proof tracks_first as Ht. rewrite land_tvr in *.
  replace (j mod 2 ^ 8) with (slot_at j 256 0) in * by (unfold slot_at; by rewrite Z.add_0_r).
  destruct (scan_tv1_from 256 0 eq_refl ltac:(lia) ltac:(lia)) as (r & -> & Hr). cbn [mbind option_bind].
  destruct r as [[e slot]|].
  - destruct Hr as (q & l & Hq & -> & Hl & He & Hem).
    destruct ((slot_at j 256 0 =? 0) || (slot_at j 256 q <? slot_at j 256 0)) eqn:Es.
    + apply arrays_good; [exact Ht | by eapply near_state].
    + exists e. split; [done|]. eapply near_good; [exact Hq | exact Hl | exact He | exact Hem|].
      apply orb_false_iff in Es as [E0 E1]. apply Z.eqb_neq in E0. apply Z.ltb_ge in E1.
      pose proof (slot_nowrap j 256 q ltac:(lia) Hq E1). unfold up.
      unfold slot_at in *. rewrite Z.add_0_r in *. change (2 ^ 8) with 256. rewrite Z_mod_nz_opp_full by done. lia.
  - apply arrays_good; [exact Ht|]. split; [apply u32_range|]. split; [|split; [done | split; [done | split; [rewrite furthest_ahead; lia | by left]]]].
    intros m x ->%near_unit Hx. destruct (tv1_slot x Hx) as (q & l & Hq & Hl & Hx').
    by destruct (Hr q Hq l x Hl).
Qed.
End Wheel.

(** ** What the theorems show *)

(** A timer that keeps processor [c] from sleeping: linked in its wheel and not
    deferrable. *)
Definition awaited (s : system) (b : tvec_base) (e : Z) : Prop :=
  exists t x, t ∈ queued b /\ timers s !! t = Some x /\ deferrable x = false /\ expires x = e.

Lemma awaited_live s b e : awaited s b e <-> exists n, live_in (timers s) b n e.
Proof.
  split.
  - intros (t & x & (n & i & l & Hl & Ht)%elem_of_queued & Hx & Hd & He).
    exists n, i, l. split; [done|]. by exists t, x.
  - intros (n & i & l & Hl & t & x & Ht & Hx & Hd & He). exists t, x. split; [|done].
    apply elem_of_queued. eauto.
Qed.

(** No awaited timer is more than 2^30 ticks overdue. *)
Definition not_ancient (s : system) (b : tvec_base) : Prop :=
  forall e, awaited s b e -> - 2 ^ 30 <= ahead (timer_jiffies b) e.

Lemma next_interrupt s c b : wf s -> bases s !! c = Some b -> not_ancient s b ->
  exists r, __next_timer_interrupt (timers s) b = Some r /\ good (timers s) b r.
Proof.
  intros [Hi _] Hb Hn.
  apply (next_good (timers s) c b); [by apply (i_bases _ _ Hi) | |].
  - intros t x Hx. by destruct (i_timers _ _ Hi t x Hx).
  - intros n e He. apply Hn. apply awaited_live. eauto.
Qed.

(** The search for the next timer looks at a few slots only, but what it returns
    is right: no awaited timer is to be run before the time it returns, and that time
    is the one of an awaited timer, or the furthest there is if none is nearer. *)
Theorem next_timer_not_late s c b : reachable s -> bases s !! c = Some b -> not_ancient s b ->
  let j := timer_jiffies b in
  exists r, __next_timer_interrupt (timers s) b = Some r /\
    (forall e, awaited s b e -> due j r <= due j e) /\
    (r = u32 (j + NEXT_TIMER_MAX_DELTA) \/ awaited s b r).
Proof.
  intros Hr Hb Hn j. destruct (next_interrupt s c b (reachable_wf s Hr) Hb Hn) as (r & E & Hmin & _ & Ho).
  exists r. split; [done|]. split.
  - intros e [m He]%awaited_live. by eapply Hmin.
  - destruct Ho; [by left | right; by apply awaited_live].
Qed.

Lemma ahead_congr a e : exists k, e - a = ahead a e + k * 2 ^ 32.
Proof.
  unfold ahead, s32. exists ((e - a + 2 ^ 31) / 2 ^ 32).
  pose proof (Z.div_mod (e - a + 2 ^ 31) (2 ^ 32) ltac:(lia)). lia.
Qed.

(** The answer for a processor that is at tick [now]. *)
Definition answer (now expires : Z) (hr : hr_event) : Z :=
  if time_before_eq expires now then now else cmp_next_hrtimer_event now expires hr.

Lemma answer_bound j now x hr : - 1 <= ahead j now < 2 ^ 30 -> - 2 ^ 30 <= ahead j x < 2 ^ 30 ->
  ahead now (answer now x hr) <= Z.max 0 (ahead j x - ahead j now).
Proof.
  intros Hn Hx. destruct (ahead_congr j now) as [k1 E1], (ahead_congr j x) as [k2 E2].
  set (n := ahead j now) in *. set (d := ahead j x) in *.
  assert (Hdx : ahead now x = d - n).
  { unfold ahead. apply (s32_congr _ _ (k2 - k1)); lia. }
  unfold answer, time_before_eq, time_after_eq.
  rewrite (s32_congr (now - x) (n - d) (k1 - k2)) by lia.
  destruct (Z.leb_spec 0 (n - d)).
  { unfold ahead. rewrite Z.sub_diag. change (s32 0) with 0. lia. }
  assert (Hstep : forall m, 1 <= m <= NEXT_TIMER_MAX_DELTA -> ahead now (u32 (now + m)) = m /\
    time_before (u32 (now + m)) x = (m <? d - n)).
  { intros m Hm. change NEXT_TIMER_MAX_DELTA with (2 ^ 30 - 1) in Hm. destruct (u32_congr (now + m)) as [k3 E3].
    split; [unfold ahead; apply (s32_congr _ _ k3); lia|].
    unfold time_before, time_after. rewrite (s32_congr _ (n + m - d) (k1 - k2 + k3)) by lia.
    destruct (Z.ltb_spec (n + m - d) 0), (Z.ltb_spec m (d - n)); done || lia. }
  change NEXT_TIMER_MAX_DELTA with (2 ^ 30 - 1) in Hstep. destruct hr as [| |m]; cbn [cmp_next_hrtimer_event].
  - lia.
  - destruct (Hstep 1 ltac:(lia)) as [-> _]. lia.
  - change NEXT_TIMER_MAX_DELTA with (2 ^ 30 - 1).
    set (m' := if (if 2 ^ 30 - 1 <? m then 2 ^ 30 - 1 else m) <? 1 then 1 else if 2 ^ 30 - 1 <? m then 2 ^ 30 - 1 else m).
    assert (1 <= m' <= 2 ^ 30 - 1).
    { unfold m'. destruct (Z.ltb_spec (2 ^ 30 - 1) m); [done|]. destruct (Z.ltb_spec m 1); lia. }
    destruct (Hstep m' ltac:(lia)) as [Ha ->]. destruct (Z.ltb_spec m' (d - n)); lia.
Qed.

(** The time kept in [next_timer]: to be looked for again, or not after any timer. *)
Definition cache_ok (s : system) (b : tvec_base) : Prop :=
  ahead (timer_jiffies b) (next_timer b) <= 0 \/
  (0 < ahead (timer_jiffies b) (next_timer b) < 2 ^ 30 /\
   forall e, awaited s b e -> ahead (timer_jiffies b) (next_timer b) <= ahead (timer_jiffies b) e).

Lemma time_before_eq_ahead j e : - 2 ^ 31 < ahead j e -> time_before_eq e j = (ahead j e <=? 0).
Proof.
  intros H. destruct (ahead_congr j e) as [k E]. unfold time_before_eq, time_after_eq.
  assert (ahead j e < 2 ^ 31) by (unfold ahead, s32; pose proof (Z.mod_pos_bound (e - j + 2 ^ 31) (2 ^ 32)); lia).
  rewrite (s32_congr (j - e) (- ahead j e) (- k)) by lia.
  destruct (Z.leb_spec 0 (- ahead j e)), (Z.leb_spec (ahead j e) 0); done || lia.
Qed.

(** The answer, and the time that is kept from then on. *)
Lemma ask_run s c b now hr : wf s -> bases s !! c = Some b -> not_ancient s b -> cache_ok s b ->
  - 2 ^ 31 < ahead (timer_jiffies b) (next_timer b) ->
  exists x, get_next_timer_interrupt c now hr s = Some (answer now x hr, set_base c (set_next_timer x b) s) /\
    - 2 ^ 30 <= ahead (timer_jiffies b) x < 2 ^ 30 /\
    forall e, awaited s b e -> due (timer_jiffies b) x <= due (timer_jiffies b) e.
Proof.
  intros Hwf Hb Ha Hc Hf. unfold get_next_timer_interrupt.
  rewrite bind_unfold, get_run, bind_unfold, (per_cpu_run c b) by done.
  rewrite (time_before_eq_ahead _ _ Hf). rewrite bind_unfold. destruct (Z.leb_spec (ahead (timer_jiffies b) (next_timer b)) 0).
  - destruct (next_interrupt s c b Hwf Hb Ha) as (r & E & Hmin & Hlt & Ho). exists r.
    rewrite E, bind_unfold, lift_opt_run, (on_base_run c _ b) by done.
    rewrite bind_unfold, (per_cpu_run c (set_next_timer r b)) by (by apply (set_base_lookup c _ b)).
    split; [done|]. split; [|intros e [m He]%awaited_live; by eapply Hmin].
    split; [|done]. destruct Ho as [->|Ho]; [|apply Ha; by apply awaited_live].
    rewrite (furthest_ahead (timers s) c b); [lia|]. by apply (i_bases _ _ (proj1 Hwf)).
  - destruct Hc as [Hc|[Hc Hmin]]; [lia|]. exists (next_timer b).
    rewrite ret_unfold, bind_unfold, (per_cpu_run c b) by done. split.
    + rewrite ret_unfold. replace (set_next_timer (next_timer b) b) with b by (by destruct b).
      by rewrite set_base_same.
    + split; [lia|]. intros e He. specialize (Hmin e He). unfold due. lia.
Qed.

(** A wheel with a far and a near timer: the near one is in [tv2], the far one in [tv3]. *)
Definition idle_events : list event :=
  [EvCpuUp; EvInit 1%positive 0 0 7 42 false; EvInit 2%positive 0 0 7 43 false; EvInit 3%positive 0 0 7 44 true;
   EvModPinned 1%positive (demo_start + 20000) 0; EvModPinned 2%positive (demo_start + 300) 0;
   EvModPinned 3%positive (demo_start + 5) 0].
Definition idle_system : system := default (boot 0) (run_events idle_events (boot demo_start)).
Definition idle_base : tvec_base := default (init_timers_cpu 0) (bases idle_system !! 0%nat).

Lemma idle_reachable : reachable idle_system.
Proof. exists demo_start, idle_events. split; [split; vm_compute; done | vm_compute; reflexivity]. Qed.

Lemma idle_awaited e : awaited idle_system idle_base e -> e = u32 (demo_start + 20000) \/ e = u32 (demo_start + 300).
Proof.
  intros (t & x & Ht & Hx & Hd & <-).
  assert (t = 1%positive \/ t = 2%positive \/ t = 3%positive) as Hin.
  { assert (t ∈ [3%positive; 2%positive; 1%positive]) as Hi; [|by rewrite !elem_of_cons, elem_of_nil in Hi; tauto].
    revert Ht. vm_compute. done. }
  destruct Hin as [-> | [-> | ->]]; vm_compute in Hx; injection Hx as <-; [by left | by right | done].
Qed.

Lemma next_timer_not_late_witness :
  exists r, __next_timer_interrupt (timers idle_system) idle_base = Some r /\ r = u32 (demo_start + 300).
Proof.
  destruct (next_timer_not_late idle_system 0 idle_base idle_reachable) as (r & E & _ & _).
  - vm_compute. reflexivity.
  - intros e [-> | ->]%idle_awaited; vm_compute; discriminate.
  - exists r. split; [exact E|]. vm_compute in E. injection E as <-. vm_compute. reflexivity.
Defined.

(** Without [not_ancient] the search can be wrong: a timer set 2^31 ticks ahead counts
    as overdue and is to be run at once, but [time_before] takes a timer of the next
    slot, 255 ticks ahead, for an earlier one. *)
Definition ancient_events : list event :=
  [EvCpuUp; EvInit 1%positive 0 0 7 42 false; EvInit 2%positive 0 0 7 43 false;
   EvModPinned 2%positive 511 0; EvSoftirq 0; EvRun 0; EvRun 0; EvModPinned 1%positive (256 + 2 ^ 31) 0].
Definition ancient_system : system := default (boot 0) (run_events ancient_events (boot 255)).
Definition ancient_base : tvec_base := default (init_timers_cpu 0) (bases ancient_system !! 0%nat).

Lemma ancient_timer_missed :
  tv1 ancient_base !! 0%nat = Some [1%positive] /\ timer_jiffies ancient_base = 256 /\
  __next_timer_interrupt (timers ancient_system) ancient_base = Some 511.
Proof. vm_compute. auto. Qed.
