(* ===== verification/TimerCache.v ===== *)
(** * The time an idle processor keeps

    A processor remembers when its next timer is due ([next_timer] of its
    [tvec_base]) and looks through the wheel only when that time has passed.
    [__mod_timer], [add_timer_on] and [del_timer] keep the remembered time in step
    (kernel/timer.c). The file proves that they do, for every sequence of events of
    Timer and of questions by idle processors, and with it that no processor sleeps
    past a timer.

    Times are compared around the clock, so the events must stay within its range:
    [near] says that armed timers are less than 2^30 ticks away and that remembered
    times are not older than that. The proof is on the sets of TimerSpec. *)

From S2P Require Import Prelude Timer TimerSpec TimerInv TimerProps TimerNext.

(** ** Within the range of the clock *)

Definition RANGE : Z := 2 ^ 30.

Definition timer_near (ts : gmap tid timer_list) (j : Z) (t : tid) : bool :=
  match ts !! t with
  | Some x => deferrable x || ((- RANGE <=? ahead j (expires x)) && (ahead j (expires x) <? RANGE))
  | None => true
  end.

(** No timer is armed for, and no time is remembered from, 2^30 ticks (49 days) away. *)
Definition near (s : system) : bool :=
  forallb (fun b => (- RANGE <=? ahead (timer_jiffies b) (next_timer b)) &&
                    forallb (timer_near (timers s) (timer_jiffies b)) (queued b)) (bases s).

(** ** The same on sets *)

Definition s_awaited (ts : gmap tid timer_list) (b : sbase) (e : Z) : Prop :=
  exists t x, t ∈ s_queue b /\ ts !! t = Some x /\ deferrable x = false /\ expires x = e.

Definition s_cached (ts : gmap tid timer_list) (b : sbase) : Prop :=
  ahead (s_tick b) (s_next b) <= 0 \/
  (0 < ahead (s_tick b) (s_next b) < RANGE /\
   forall e, s_awaited ts b e -> ahead (s_tick b) (s_next b) <= ahead (s_tick b) e).

Definition s_fresh (b : sbase) : Prop := - RANGE <= ahead (s_tick b) (s_next b).

(** All processors. *)
Definition on_all (P : gmap tid timer_list -> sbase -> Prop) (q : ssystem) : Prop :=
  forall c b, s_bases q !! c = Some b -> P (s_timers q) b.

Definition s_near (q : ssystem) : Prop :=
  on_all (fun ts b => s_fresh b /\ forall e, s_awaited ts b e -> - RANGE <= ahead (s_tick b) e < RANGE) q.

(** The state in which a step finds the wheel: remembered times right and not old,
    and timer [t] in no queue. *)
Definition loose (t : tid) (ts : gmap tid timer_list) (b : sbase) : Prop :=
  s_cached ts b /\ s_fresh b /\ t ∉ s_queue b.

Lemma cached_fewer ts b ts' b' : s_tick b' = s_tick b -> s_next b' = s_next b ->
  (forall e, s_awaited ts' b' e -> s_awaited ts b e) -> s_cached ts b -> s_cached ts' b'.
Proof. unfold s_cached. intros -> -> He [H|[H Hm]]; [by left | right; auto]. Qed.

(** Changing a timer that is in no queue. *)
Lemma awaited_alter t f ts b e : t ∉ s_queue b -> s_awaited (alter f t ts) b e -> s_awaited ts b e.
Proof.
  intros Ht (u & x & Hu & Hx & H). exists u, x. split; [done|].
  rewrite lookup_alter_ne in Hx by (intros ->; done). done.
Qed.

Lemma awaited_insert t y ts b e : t ∉ s_queue b -> s_awaited (<[t := y]> ts) b e -> s_awaited ts b e.
Proof.
  intros Ht (u & x & Hu & Hx & H). exists u, x. split; [done|].
  rewrite lookup_insert_ne in Hx by (intros ->; done). done.
Qed.

Lemma loose_timer t f : preserves (on_all (loose t)) (s_on_timer t f).
Proof.
  apply preserves_modify. intros q Hq c b Hb. cbn in *. destruct (Hq c b Hb) as (Hc & Hf & Ht).
  split_and!; [|done|done]. eapply cached_fewer; [done|done| |exact Hc].
  intros e. by apply awaited_alter.
Qed.

Lemma on_all_base (P : gmap tid timer_list -> sbase -> Prop) c f :
  (forall ts b, P ts b -> P ts (f b)) -> preserves (on_all P) (s_on_base c f).
Proof.
  intros Hf. apply preserves_modify. intros q Hq c' b Hb. cbn in *.
  rewrite list_lookup_alter in Hb. destruct (decide (c = c')) as [<-|]; [|by apply (Hq c')].
  destruct (s_bases q !! c) as [b0|] eqn:E; [|done]. injection Hb as <-. by apply Hf, (Hq c).
Qed.

Lemma cached_remove t ts b : s_cached ts b -> s_cached ts (s_remove t b).
Proof.
  apply cached_fewer; [done|done|]. intros e (u & x & Hu & H). exists u, x. split; [|done]. set_solver.
Qed.

Lemma cached_forget ts b : s_cached ts (s_set_next (s_tick b) b) /\ s_fresh (s_set_next (s_tick b) b).
Proof.
  assert (E : ahead (s_tick b) (s_tick b) = 0) by (unfold ahead; by rewrite Z.sub_diag).
  unfold s_cached, s_fresh. cbn. rewrite E. unfold RANGE. split; [by left | lia].
Qed.

Lemma loose_remove t ts b : loose t ts b -> loose t ts (s_remove t b).
Proof. intros (Hc & Hf & Ht). split_and!; [by apply cached_remove | done | set_solver]. Qed.

Lemma forget_keeps (P : gmap tid timer_list -> sbase -> Prop) x :
  (forall ts b, P ts b -> P ts (s_set_next (s_tick b) b)) -> preserves (on_all P) (s_forget_next x).
Proof.
  intros HP q a q' Hq H. unfold s_forget_next, s_cpu in H. rewrite !bind_unfold, get_run in H.
  destruct (s_bases q !! base x) as [b|] eqn:Hb; [|done]. rewrite lift_opt_run in H.
  destruct (_ && _); [|by injection H as _ <-]. injection H as _ <-. intros c b' Hb'. cbn in *.
  rewrite list_lookup_alter in Hb'. destruct (decide (base x = c)) as [<-|]; [|by apply (Hq c)].
  rewrite Hb in Hb'. injection Hb' as <-. by apply HP, (Hq (base x)).
Qed.

(** A timer is noted and filed: the remembered time is lowered if it is too late. *)
Lemma cached_filed ts b t x x' : loose t ts b -> deferrable x' = deferrable x -> expires x' = expires x ->
  (deferrable x = false -> - RANGE <= ahead (s_tick b) (expires x) < RANGE) ->
  s_cached (<[t := x']> ts)
    (s_insert t (if time_before (expires x) (s_next b) && negb (deferrable x)
                 then s_set_next (expires x) b else b)).
Proof.
  intros (Hc & Hf & Ht) Hd He Hr. unfold s_fresh, RANGE in *.
  assert (Haw : forall b0 e, s_queue b0 = s_queue b -> s_awaited (<[t := x']> ts) (s_insert t b0) e ->
    s_awaited ts b e \/ (deferrable x = false /\ e = expires x)).
  { intros b0 e Hq (u & y & Hu & Hy & Hyd & <-). destruct (decide (u = t)) as [->|Hne].
    - rewrite lookup_insert_eq in Hy. injection Hy as <-. right. split; congruence.
    - left. exists u, y. rewrite lookup_insert_ne in Hy by done. split_and!; try done. cbn in Hu. set_solver. }
  destruct (deferrable x) eqn:Ed; cbn [negb]; rewrite ?andb_false_r, ?andb_true_r.
  { unfold s_cached. cbn. destruct Hc as [Hc|[Hc Hm]]; [by left | right; split; [done|]].
    intros e [H|[H _]]%Haw; auto; congruence. }
  specialize (Hr eq_refl). destruct (ahead_congr (s_tick b) (expires x)) as [k1 E1].
  destruct (ahead_congr (s_tick b) (s_next b)) as [k2 E2].
  assert (Hn : ahead (s_tick b) (s_next b) < 2 ^ 30) by (destruct Hc as [?|[? _]]; unfold RANGE in *; lia).
  assert (time_before (expires x) (s_next b) =
    (ahead (s_tick b) (expires x) <? ahead (s_tick b) (s_next b))) as ->.
  { unfold time_before, time_after.
    rewrite (s32_congr _ (ahead (s_tick b) (expires x) - ahead (s_tick b) (s_next b)) (k1 - k2)) by lia.
    destruct (Z.ltb_spec (ahead (s_tick b) (expires x) - ahead (s_tick b) (s_next b)) 0),
      (Z.ltb_spec (ahead (s_tick b) (expires x)) (ahead (s_tick b) (s_next b))); done || lia. }
  unfold s_cached, RANGE in *.
  destruct (Z.ltb_spec (ahead (s_tick b) (expires x)) (ahead (s_tick b) (s_next b))); cbn [s_tick s_next s_insert s_set_next].
  - destruct (Z_le_gt_dec (ahead (s_tick b) (expires x)) 0); [by left|]. right. split; [lia|].
    intros e [Hw|[_ ->]]%(Haw (s_set_next (expires x) b) e eq_refl); [|lia].
    destruct Hc as [?|[_ Hm]]; [lia|]. specialize (Hm e Hw). lia.
  - destruct Hc as [Hc|[Hc Hm]]; [by left | right; split; [done|]].
    intros e [Hw|[_ ->]]%(Haw b e eq_refl); [by apply Hm | lia].
Qed.

Lemma file_cached c t x y q q' a : on_all (loose t) q -> s_timers q !! t = Some y ->
  deferrable y = deferrable x -> expires y = expires x -> (s_note_next c x;; s_add c t) q = Some (a, q') -> s_near q' -> on_all s_cached q'.
Proof.
  intros Hl Hy Hyd Hye H Hn. unfold s_note_next, s_add, s_cpu, s_timer in H.
  rewrite !bind_unfold, get_run in H. destruct (s_bases q !! c) as [b|] eqn:Hb; [|done]. rewrite lift_opt_run in H.
  set (b1 := if time_before (expires x) (s_next b) && negb (deferrable x) then s_set_next (expires x) b else b).
  assert (H1 : exists q1, s_bases q1 = <[c := b1]> (s_bases q) /\ s_timers q1 = s_timers q /\
    (_ ← s_cpu c; _ ← s_timer t; s_on_base c (s_insert t);; s_on_timer t (set_pending true)) q1 = Some (a, q')).
  { unfold b1. destruct (time_before (expires x) (s_next b) && negb (deferrable x)).
    - eexists. split; [|split; [|exact H]]; [|done]. cbn. by rewrite (list_alter_Some _ _ _ _ Hb).
    - exists q. rewrite list_insert_id by done. done. }
  clear H. destruct H1 as (q1 & B1 & T1 & H). unfold s_cpu, s_timer in H.
  rewrite !bind_unfold, get_run, B1, list_lookup_insert_eq in H by (by eapply lookup_lt_Some).
  rewrite lift_opt_run, !bind_unfold, get_run, T1, Hy, lift_opt_run in H. injection H as _ <-.
  assert (Hts : alter (set_pending true) t (s_timers q1) = <[t := set_pending true y]> (s_timers q))
    by (rewrite T1; by apply map_alter_Some).
  intros c' b' Hb'. cbn [s_bases s_timers] in *. rewrite Hts. rewrite B1, list_lookup_alter in Hb'.
  destruct (Hl c b Hb) as (Hc & Hf & Ht). destruct (decide (c = c')) as [<-|Hne].
  - rewrite list_lookup_insert_eq in Hb' by (by eapply lookup_lt_Some). injection Hb' as <-.
    apply cached_filed; [by apply (Hl c b) | done | done |]. intros Hd.
    assert (Hnc : s_tick (s_insert t b1) = s_tick b) by (unfold b1; by destruct (_ && _)).
    rewrite <- Hnc. apply (Hn c (s_insert t b1)).
    + cbn. rewrite B1, list_lookup_alter_eq, list_lookup_insert_eq by (by eapply lookup_lt_Some). done.
    + cbn [s_timers]. rewrite Hts. exists t, (set_pending true y). rewrite lookup_insert_eq.
      split_and!; [cbn; set_solver | done | cbn; congruence | done].
  - rewrite list_lookup_insert_ne in Hb' by done. destruct (Hl c' b' Hb') as (Hc' & _ & Ht').
    eapply cached_fewer; [done|done| |exact Hc']. intros e. by apply awaited_insert.
Qed.

(** ** The operations *)

(** What the wheel's invariant says of the queues. *)
Definition owned (q : ssystem) : Prop :=
  forall c b t, s_bases q !! c = Some b -> t ∈ s_queue b ->
    exists x, s_timers q !! t = Some x /\ pending x = true /\ base x = c.

Definition ready (ts : gmap tid timer_list) (b : sbase) : Prop := s_cached ts b /\ s_fresh b.

Lemma abs_base_lookup s c b : s_bases (abs s) !! c = Some b ->
  exists b0, bases s !! c = Some b0 /\ b = abs_base b0.
Proof. cbn. rewrite list_lookup_fmap. intros (b0 & -> & Hb)%fmap_Some. eauto. Qed.

Lemma inv_owned s : inv None s -> owned (abs s).
Proof.
  intros Hi c b t (b0 & Hb & ->)%abs_base_lookup Ht. cbn in Ht. apply elem_of_list_to_set in Ht.
  apply (b_owner _ _ _ (i_bases _ _ Hi c b0 Hb)). apply elem_of_app. by left.
Qed.

Lemma ready_idle t q : owned q -> on_all ready q ->
  (forall x, s_timers q !! t = Some x -> pending x = false) -> on_all (loose t) q.
Proof.
  intros Ho Hr Hp c b Hb. destruct (Hr c b Hb) as [Hc Hf]. split_and!; [done|done|].
  intros Ht. destruct (Ho c b t Hb Ht) as (x & Hx & Hxp & _). rewrite (Hp x Hx) in Hxp. done.
Qed.

Lemma s_timer_inv t q x q' : s_timer t q = Some (x, q') -> q' = q /\ s_timers q !! t = Some x.
Proof.
  unfold s_timer. rewrite bind_unfold, get_run. destruct (s_timers q !! t); [|done]. by intros [= <- <-].
Qed.

Lemma s_cpu_inv c q b q' : s_cpu c q = Some (b, q') -> q' = q /\ s_bases q !! c = Some b.
Proof.
  unfold s_cpu. rewrite bind_unfold, get_run. destruct (s_bases q !! c); [|done]. by intros [= <- <-].
Qed.

Lemma s_bug_inv b q a q' : s_bug b q = Some (a, q') -> q' = q /\ b = false.
Proof. destruct b; [done|]. by intros [= _ <-]. Qed.

(** Taking a timer off its queue. *)
Lemma detach_loose t x q a q' : owned q -> on_all ready q -> s_timers q !! t = Some x ->
  (s_detach t false;; s_forget_next x) q = Some (a, q') -> on_all (loose t) q' /\ s_timers q' = s_timers q.
Proof.
  intros Ho Hr Hx H. apply bind_inv in H as ([] & q1 & H1 & H2).
  assert (H0 : on_all (loose t) q1 /\ s_timers q1 = s_timers q).
  { unfold s_detach in H1. apply bind_inv in H1 as (y & q2 & H1 & H). apply s_timer_inv in H1 as [-> Hy].
    assert (y = x) as -> by congruence. apply bind_inv in H as ([] & q2 & [= <-] & [= <-]).
    split; [|done]. intros c b Hb. cbn in *. rewrite list_lookup_alter in Hb.
    destruct (decide (base x = c)) as [<-|Hne].
    - destruct (s_bases q !! base x) as [b0|] eqn:E; [|done]. injection Hb as <-.
      destruct (Hr _ _ E) as [Hc Hf]. split_and!; [by apply cached_remove | done | cbn; set_solver].
    - destruct (Hr c b Hb) as [Hc Hf]. split_and!; [done|done|]. intros Ht.
      destruct (Ho c b t Hb Ht) as (z & Hz & _ & Hzc). congruence. }
  destruct H0 as [H0 Hts]. split.
  - eapply (forget_keeps (loose t) x); [|exact H0|exact H2]. intros ts b (Hc & Hf & Ht).
    destruct (cached_forget ts b). by split_and!.
  - rewrite <- Hts. unfold s_forget_next in H2. apply bind_inv in H2 as (b & q2 & H2 & H).
    apply s_cpu_inv in H2 as [-> _]. destruct (_ && _); by injection H as _ <-.
Qed.

Lemma s_on_timer_inv t f q a q' : s_on_timer t f q = Some (a, q') ->
  s_timers q' = alter f t (s_timers q) /\ s_bases q' = s_bases q.
Proof. by intros [= _ <-]. Qed.

Lemma arm_cached t e po pin cpu mig q r q' : owned q -> on_all ready q ->
  s_arm t e po pin cpu mig q = Some (r, q') -> s_near q' -> on_all s_cached q'.
Proof.
  intros Ho Hr H Hn. unfold s_arm in H. apply bind_inv in H as (x & q1 & H1 & H).
  apply s_timer_inv in H1 as [-> Hx]. apply bind_inv in H as ([] & q1 & H1 & H). apply s_bug_inv in H1 as [-> _].
  apply bind_inv in H as (b & q1 & H1 & H). apply s_cpu_inv in H1 as [-> Hb].
  destruct (negb (pending x) && po); [injection H as _ <-; intros c b' Hb'; by apply (Hr c b')|].
  apply bind_inv in H as ([] & q1 & H1 & H).
  assert (Hl : on_all (loose t) q1).
  { destruct (pending x) eqn:Hp; [by apply (detach_loose t x q tt q1)|]. injection H1 as <-.
    apply ready_idle; [done|done|]. congruence. }
  clear H1. cbv zeta in H. apply bind_inv in H as ([] & q2 & H2 & H).
  assert (Hl2 : on_all (loose t) q2).
  { destruct (_ && _); [|by injection H2 as <-]. apply bind_inv in H2 as (b2 & q3 & H3 & H2).
    apply s_cpu_inv in H3 as [-> _]. by eapply loose_timer. }
  apply bind_inv in H as ([] & q3 & H3 & H). pose proof (loose_timer t _ q2 _ q3 Hl2 H3) as Hl3.
  apply bind_inv in H as (x' & q4 & H4 & H). apply s_timer_inv in H4 as [-> Hx'].
  apply bind_inv in H as ([] & q4 & H4 & H). apply bind_inv in H as ([] & q5 & H5 & [= _ <-]).
  apply (file_cached (base x') t x' x' q3 q5 tt Hl3 Hx' eq_refl eq_refl); [|done]. by rewrite bind_unfold, H4.
Qed.

Lemma add_on_cached t cpu q r q' : owned q -> on_all ready q ->
  s_add_timer_on t cpu q = Some (r, q') -> s_near q' -> on_all s_cached q'.
Proof.
  intros Ho Hr H Hn. unfold s_add_timer_on in H. apply bind_inv in H as (x & q1 & H1 & H).
  apply s_timer_inv in H1 as [-> Hx]. apply bind_inv in H as ([] & q1 & H1 & H).
  apply s_bug_inv in H1 as [-> [Hp _]%orb_false_iff]. apply bind_inv in H as (b & q1 & H1 & H).
  apply s_cpu_inv in H1 as [-> _]. apply bind_inv in H as ([] & q1 & H1 & H).
  assert (Hl : on_all (loose t) q1).
  { eapply loose_timer; [|exact H1]. apply ready_idle; [done|done|]. congruence. }
  apply s_on_timer_inv in H1 as [Ht1 _].
  apply (file_cached cpu t x (timer_set_base cpu x) q1 q' r Hl); [|done|done|done|done].
  by rewrite Ht1, lookup_alter_eq, Hx.
Qed.

Lemma ahead_next j e : - 2 ^ 31 < ahead j e -> ahead (u32 (j + 1)) e = ahead j e - 1.
Proof.
  intros H. destruct (ahead_congr j e) as [k E]. destruct (u32_congr (j + 1)) as [k' E'].
  assert (ahead j e < 2 ^ 31) by (unfold ahead, s32; pose proof (Z.mod_pos_bound (e - j + 2 ^ 31) (2 ^ 32)); lia).
  unfold ahead at 1. apply (s32_congr _ _ (k - k')); lia.
Qed.

(** One tick: the remembered time comes one tick nearer, and so do the timers. *)
Lemma cached_tick ts b : ready ts b -> s_cached ts (s_advance ts b).
Proof.
  intros [Hc Hf]. unfold s_fresh, s_cached, RANGE in *. cbn [s_advance s_tick s_next].
  rewrite ahead_next by lia. destruct Hc as [Hc|[Hc Hm]]; [left; lia|].
  destruct (decide (ahead (s_tick b) (s_next b) = 1)); [left; lia|]. right. split; [lia|].
  intros e (t & x & Ht & Hx & Hd & <-). cbn [s_queue s_advance] in Ht. apply elem_of_difference in Ht as [Ht Hn].
  assert (Hw : s_awaited ts b (expires x)) by (by exists t, x). specialize (Hm _ Hw).
  rewrite ahead_next by lia. lia.
Qed.

Lemma cached_fields f t : (forall x, deferrable (f x) = deferrable x /\ expires (f x) = expires x) ->
  preserves (on_all s_cached) (s_on_timer t f).
Proof.
  intros Hf. apply preserves_modify. intros q Hq c b Hb. cbn in *.
  eapply cached_fewer; [done|done| |exact (Hq c b Hb)]. intros e (u & x & Hu & Hx & Hd & He).
  destruct (decide (u = t)) as [->|Hne]; [|rewrite lookup_alter_ne in Hx by done; by exists u, x].
  rewrite lookup_alter_eq in Hx. apply fmap_Some in Hx as (y & Hy & ->). destruct (Hf y) as [E1 E2].
  exists t, y. split_and!; congruence.
Qed.

Lemma cached_bug b : preserves (on_all s_cached) (s_bug b).
Proof. unfold s_bug. preserve. Qed.
Lemma cached_timer t : preserves (on_all s_cached) (s_timer t).
Proof. unfold s_timer. preserve. Qed.
Lemma cached_cpu c : preserves (on_all s_cached) (s_cpu c).
Proof. unfold s_cpu. preserve. Qed.
Lemma cached_forget_next x : preserves (on_all s_cached) (s_forget_next x).
Proof. apply forget_keeps. intros ts b _. apply cached_forget. Qed.
Lemma cached_base_remove c t : preserves (on_all s_cached) (s_on_base c (s_remove t)).
Proof. apply on_all_base. intros ts b. apply cached_remove. Qed.

#[local] Hint Resolve cached_bug cached_timer cached_cpu cached_forget_next cached_base_remove : board.

Lemma cached_detach t clear : preserves (on_all s_cached) (s_detach t clear).
Proof. unfold s_detach. preserve. by apply cached_fields. Qed.

#[local] Hint Resolve cached_detach : board.

Lemma cached_del t : preserves (on_all s_cached) (s_del_timer t).
Proof. unfold s_del_timer. preserve. Qed.

#[local] Hint Resolve cached_del : board.

Lemma cached_run_timer c t : preserves (on_all s_cached) (s_run_timer c t).
Proof. unfold s_run_timer. preserve; [by apply on_all_base | by apply preserves_modify]. Qed.

(** Events that arm no timer. *)
Lemma quiet_cached pick ev :
  match ev with
  | EvSetSlack _ _ | EvDel _ | EvTryDel _ | EvSoftirq _ | EvTick => preserves (on_all s_cached) (s_handle pick ev)
  | _ => True
  end.
Proof.
  destruct ev; try done; cbn [s_handle]; unfold s_try_to_del_timer_sync, s_softirq; preserve;
    first [by apply cached_fields | by apply on_all_base | by apply preserves_modify].
Qed.

Lemma run_cached pick c q r q' : on_all ready q -> s_run_step pick c q = Some (r, q') -> on_all s_cached q'.
Proof.
  intros Hr H. assert (Hc : on_all s_cached q) by (intros c' b Hb; apply (Hr c' b Hb)).
  unfold s_run_step in H. apply bind_inv in H as (b & q1 & H1 & H). apply s_cpu_inv in H1 as [-> Hb].
  apply bind_inv in H as (now & q1 & [= <- <-] & H).
  destruct (s_work b) as [w|]; [|by injection H as _ <-]. destruct pick as [t|].
  { case_bool_decide; [|done]. by eapply cached_run_timer. }
  case_bool_decide; [|done]. destruct (time_after_eq _ _).
  - unfold s_run_tick in H. apply bind_inv in H as (b' & q1 & H1 & H). apply s_cpu_inv in H1 as [-> _].
    apply bind_inv in H as (q1 & q2 & [= <- <-] & H). injection H as _ <-. intros c' b0 Hb0. cbn in *.
    rewrite list_lookup_alter in Hb0. destruct (decide (c = c')) as [<-|]; [|by apply (Hc c')].
    rewrite Hb in Hb0. injection Hb0 as <-. by apply cached_tick, (Hr c b).
  - eapply on_all_base; [|exact Hc|exact H]. by intros ts b0.
Qed.

Lemma init_cached t cpu e fn d defer q r q' : owned q -> on_all ready q ->
  s_init_timer t cpu e fn d defer q = Some (r, q') -> on_all s_cached q'.
Proof.
  intros Ho Hr H. unfold s_init_timer in H. apply bind_inv in H as (q0 & q1 & [= <- <-] & H).
  apply bind_inv in H as ([] & q1 & H1 & H). apply s_bug_inv in H1 as [-> Hp].
  apply bind_inv in H as (b & q1 & H1 & H). apply s_cpu_inv in H1 as [-> _]. injection H as _ <-.
  assert (Hl : on_all (loose t) q) by (apply ready_idle; [done|done|]; intros x Hx; by rewrite Hx in Hp).
  intros c b' Hb'. cbn in *. destruct (Hl c b' Hb') as (Hc & _ & Ht).
  eapply cached_fewer; [done|done| |exact Hc]. intros e'. by apply awaited_insert.
Qed.

(** Every event keeps the remembered times right. *)
Lemma handle_cached pick ev q r q' : owned q -> on_all ready q ->
  s_handle pick ev q = Some (r, q') -> s_near q' -> on_all s_cached q'.
Proof.
  intros Ho Hr H Hn. assert (Hc : on_all s_cached q) by (intros c b Hb; apply (Hr c b Hb)).
  assert (Hmod : forall t e cpu m r0 q0, s_mod_timer t e cpu m q = Some (r0, q0) -> s_near q0 -> on_all s_cached q0).
  { intros t e cpu m r0 q0 H0 Hn0. unfold s_mod_timer in H0. apply bind_inv in H0 as (x & q1 & H1 & H0).
    apply s_timer_inv in H1 as [-> _]. destruct (_ && _); [by injection H0 as _ <-|].
    apply bind_inv in H0 as (now & q1 & [= <- <-] & H0). by eapply arm_cached. }
  pose proof (quiet_cached pick ev) as Hq.
  destruct ev; try (by eapply Hq); cbn [s_handle] in H.
  - apply bind_inv in H as ([] & q1 & H1 & [= _ <-]). by eapply init_cached.
  - apply bind_inv in H as (x & q1 & H1 & H). apply s_timer_inv in H1 as [-> Hx].
    apply bind_inv in H as ([] & q1 & H1 & H). apply s_bug_inv in H1 as [-> Hp].
    apply bind_inv in H as ([] & q1 & H1 & [= _ <-]).
    assert (Hl : on_all (loose t) q1)
      by (eapply loose_timer; [|exact H1]; apply ready_idle; [done|done|]; congruence).
    intros c b Hb. by apply (Hl c b).
  - apply bind_inv in H as ([] & q1 & H1 & [= _ <-]). unfold s_add_timer in H1.
    apply bind_inv in H1 as (x & q2 & H2 & H1). apply s_timer_inv in H2 as [-> _].
    apply bind_inv in H1 as ([] & q2 & H2 & H1). apply s_bug_inv in H2 as [-> _].
    apply bind_inv in H1 as (r1 & q2 & H2 & [= <-]). by eapply Hmod.
  - apply bind_inv in H as ([] & q1 & H1 & [= _ <-]). by eapply add_on_cached.
  - by eapply Hmod.
  - by eapply arm_cached.
  - unfold s_mod_timer_pinned in H. apply bind_inv in H as (x & q1 & H1 & H).
    apply s_timer_inv in H1 as [-> _]. destruct (_ && _); [by injection H as _ <-|]. by eapply arm_cached.
  - apply bind_inv in H as ([] & q1 & H1 & [= _ <-]). by eapply run_cached.
  - apply bind_inv in H as ([] & q1 & [= <-] & [= _ <-]). intros c b Hb. cbn in *.
    apply lookup_app_Some in Hb as [Hb|[_ Hb]]; [by apply (Hc c)|].
    apply list_lookup_singleton_Some in Hb as [_ <-]. left. cbn. unfold ahead. by rewrite Z.sub_diag.
Qed.

(** ** Runs with idle processors *)

(** What happens: an event of Timer, or an idle processor asks for its next timer. *)
Inductive idle_event :=
| Api (ev : event)
| Ask (c : nat) (now : Z) (hr : hr_event).

Definition idle_step (ev : idle_event) (s : system) : option system :=
  match ev with
  | Api ev => snd <$> handle ev s
  | Ask c now hr => snd <$> get_next_timer_interrupt c now hr s
  end.

(** A run that stays within the range of the clock. *)
Fixpoint run_near (evs : list idle_event) (s : system) : option system :=
  match evs with
  | [] => Some s
  | ev :: evs' =>
      match idle_step ev s with
      | Some s' => if near s' then run_near evs' s' else None
      | None => None
      end
  end.

Record remembers (s : system) : Prop := {
  r_wf : wf s;
  r_near : near s = true;
  r_cache : forall c b, bases s !! c = Some b -> cache_ok s b
}.

Lemma s_awaited_abs s b e : s_awaited (timers s) (abs_base b) e <-> awaited s b e.
Proof.
  unfold s_awaited, awaited. cbn [abs_base s_queue].
  split; intros (t & x & Ht & H); exists t, x; split; try done; by apply elem_of_list_to_set in Ht || apply elem_of_list_to_set.
Qed.

Lemma near_base s c b : near s = true -> bases s !! c = Some b ->
  - RANGE <= ahead (timer_jiffies b) (next_timer b) /\
  forall e, awaited s b e -> - RANGE <= ahead (timer_jiffies b) e < RANGE.
Proof.
  intros Hn Hb. unfold near in Hn. rewrite forallb_forall in Hn.
  assert (Hin : In b (bases s)) by (apply list_elem_of_In; by eapply list_elem_of_lookup_2).
  specialize (Hn b Hin). apply andb_true_iff in Hn as [Hf%Z.leb_le Hq]. split; [done|].
  intros e (t & x & Ht & Hx & Hd & <-). rewrite forallb_forall in Hq. apply list_elem_of_In in Ht.
  specialize (Hq t Ht). unfold timer_near in Hq. rewrite Hx, Hd in Hq. cbn [orb] in Hq.
  apply andb_true_iff in Hq as [?%Z.leb_le ?%Z.ltb_lt]. done.
Qed.

Lemma near_abs s : near s = true -> s_near (abs s).
Proof.
  intros Hn c b (b0 & Hb & ->)%abs_base_lookup. destruct (near_base s c b0 Hn Hb) as [Hf Ha].
  split; [done|]. intros e He. apply Ha. by apply s_awaited_abs.
Qed.

Lemma cache_abs s : (forall c b, bases s !! c = Some b -> cache_ok s b) <-> on_all s_cached (abs s).
Proof.
  split.
  - intros H c b (b0 & Hb & ->)%abs_base_lookup. destruct (H c b0 Hb) as [H0|[H0 Hm]]; [by left|].
    right. split; [done|]. intros e He. apply Hm. by apply s_awaited_abs.
  - intros H c b Hb. assert (Hb' : s_bases (abs s) !! c = Some (abs_base b)) by (cbn; by rewrite list_lookup_fmap, Hb).
    destruct (H c _ Hb') as [H0|[H0 Hm]]; [by left|]. right. split; [done|].
    intros e He. apply Hm. by apply s_awaited_abs.
Qed.

(** The answer keeps the invariant. *)
Lemma ask_remembers c now hr s s' : remembers s -> idle_step (Ask c now hr) s = Some s' ->
  wf s' /\ forall c' b, bases s' !! c' = Some b -> cache_ok s' b.
Proof.
  intros [Hwf Hn Hc] H. cbn in H.
  destruct (bases s !! c) as [b|] eqn:Hb;
    [|unfold get_next_timer_interrupt, per_cpu in H; rewrite bind_unfold, get_run, !bind_unfold, get_run, Hb in H; done].
  destruct (near_base s c b Hn Hb) as [Hf Ha]. unfold RANGE in *.
  destruct (ask_run s c b now hr Hwf Hb) as (x & E & Hx & Hm); [intros e He; by apply Ha | by apply (Hc c) | lia |].
  rewrite E in H. injection H as <-. split.
  - split; [|apply Hwf].
    pose proof (inv_with_base s None (set_next_timer x) c ltac:(by intros b0 [])
      (fun b => eq_refl) (fun b _ => eq_refl) (proj1 Hwf)) as Hi.
    unfold with_base in Hi. by rewrite (list_alter_Some _ _ _ _ Hb) in Hi.
  - intros c' b' Hb'. cbn in Hb'. destruct (decide (c = c')) as [<-|Hne].
    + rewrite list_lookup_insert_eq in Hb' by (by eapply lookup_lt_Some). injection Hb' as <-.
      unfold cache_ok. cbn [timer_jiffies next_timer set_next_timer].
      destruct (Z_le_gt_dec (ahead (timer_jiffies b) x) 0); [by left|]. right. split; [lia|].
      intros e He. specialize (Hm e He). unfold due in Hm. lia.
    + rewrite list_lookup_insert_ne in Hb' by done. exact (Hc c' b' Hb').
Qed.

Lemma step_remembers ev s s' : remembers s -> idle_step ev s = Some s' -> near s' = true -> remembers s'.
Proof.
  intros Hr H Hn. destruct ev as [ev|c now hr].
  - destruct Hr as [Hwf Hn0 Hc]. cbn in H. pose proof (handle_sim s ev Hwf) as Hs.
    destruct (handle ev s) as [[r s1]|]; [|done]. injection H as <-. destruct Hs as [Hs Hwf'].
    split; [done|done|]. apply cache_abs. eapply handle_cached; [by apply inv_owned, Hwf | | exact Hs | by apply near_abs].
    intros c b Hb. split; [exact (proj1 (cache_abs s) Hc c b Hb)|]. exact (proj1 (near_abs s Hn0 c b Hb)).
  - destruct (ask_remembers c now hr s s' Hr H) as [? ?]. by split.
Qed.

Lemma run_remembers evs : forall s s', remembers s -> run_near evs s = Some s' -> remembers s'.
Proof.
  induction evs as [|ev evs IH]; intros s s' Hr H; cbn in H; [by simplify_eq|].
  destruct (idle_step ev s) as [s1|] eqn:E; [|done]. destruct (near s1) eqn:Hn; [|done].
  apply (IH s1); [by eapply step_remembers | done].
Qed.

Lemma boot_remembers j : is_u32 j -> remembers (boot j).
Proof. intros Hj. split; [by apply boot_wf | done | done]. Qed.

(** ** The theorem *)

(** C12: A processor that asks how long it may sleep is not told to sleep past the tick
    at which one of its timers is to be run, whatever the high-resolution timers say
    and whatever happened before: timers armed, changed, deleted and run on all
    processors, and earlier questions, after which the processor remembers an
    answer. The run must stay within the range in which times can be compared
    ([near]): at every step armed timers are within 2^30 ticks of their processor's
    tick, on either side, no processor has kept an answer for more than 2^30
    ticks, and the one that asks is not 2^30 ticks behind the clock. Timers farther
    in the past can be missed ([ancient_timer_missed]). *)
Theorem sleep_not_too_long j evs s c b now hr :
  is_u32 j -> run_near evs (boot j) = Some s -> bases s !! c = Some b ->
  - 1 <= ahead (timer_jiffies b) now < 2 ^ 30 ->
  exists r s', get_next_timer_interrupt c now hr s = Some (r, s') /\
    forall e, awaited s b e ->
      ahead now r <= Z.max 0 (due (timer_jiffies b) e - ahead (timer_jiffies b) now).
Proof.
  intros Hj He Hb Hn. destruct (run_remembers evs (boot j) s (boot_remembers j Hj) He) as [Hwf Hnear Hc].
  destruct (near_base s c b Hnear Hb) as [Hf Ha]. unfold RANGE in *.
  destruct (ask_run s c b now hr Hwf Hb) as (x & E & Hx & Hm); [intros e Hw; by apply Ha | by apply (Hc c) | lia |].
  eexists _, _. split; [exact E|]. intros e Hw.
  pose proof (answer_bound (timer_jiffies b) now x hr Hn Hx). pose proof (Hm e Hw). unfold due in *. lia.
Qed.

(** A far timer is armed, the processor asks and remembers it, then a nearer timer is
    armed on it: the second answer is the near one. *)
Definition asking : list idle_event :=
  [Api EvCpuUp; Api (EvInit 1%positive 0 0 7 42 false); Api (EvInit 2%positive 0 0 7 43 false);
   Api (EvModPinned 1%positive (demo_start + 20000) 0); Ask 0 demo_start HrNone;
   Api (EvModPinned 2%positive (demo_start + 300) 0)].
Definition asked : system := default (boot 0) (run_near asking (boot demo_start)).
Definition asked_base : tvec_base := default (init_timers_cpu 0) (bases asked !! 0%nat).

Lemma sleep_not_too_long_witness :
  exists r s', get_next_timer_interrupt 0 demo_start (HrIn 1000) asked = Some (r, s') /\
    ahead demo_start r <= 300.
Proof.
  destruct (sleep_not_too_long demo_start asking asked 0 asked_base demo_start (HrIn 1000)) as (r & s' & E & H).
  - split; vm_compute; [discriminate | reflexivity].
  - vm_compute. reflexivity.
  - vm_compute. reflexivity.
  - vm_compute. split; [discriminate | reflexivity].
  - exists r, s'. split; [exact E|]. etransitivity; [apply (H (u32 (demo_start + 300)))|].
    + exists 2%positive. eexists. split; [apply (bool_decide_unpack _); vm_compute; exact I|].
      split; [vm_compute; reflexivity|]. split; vm_compute; reflexivity.
    + vm_compute. discriminate.
Defined.
