(* ===== verification/Crc32.v ===== *)
(** * CRC-32 of the kernel

    lib/crc32.c and the program that makes its tables at build time
    (lib/gen_crc32table.c): the checksum UBI keeps of the board's flash images. The
    kernel is built with [CRC_LE_BITS] and [CRC_BE_BITS] 8, so [crc32_le] and
    [crc32_be] look up four bytes at a time in tables, stored byte-swapped on this
    big-endian processor; the source also has the bit-at-a-time code they stand for
    ([CRC_LE_BITS == 1]). The theorems show that the two compute the same. *)

From S2P Require Import Prelude.

(** ** lib/crc32defs.h *)

Definition CRCPOLY_LE : Z := 0xedb88320.
Definition CRCPOLY_BE : Z := 0x04c11db7.
Definition CRC_LE_BITS : Z := 8.
Definition CRC_BE_BITS : Z := 8.

(** ** One bit at a time: the code for [CRC_LE_BITS == 1] and [CRC_BE_BITS == 1] *)

(** [crc = (crc >> 1) ^ ((crc & 1) ? CRCPOLY_LE : 0)] *)
Definition step_le (crc : Z) : Z :=
  Z.lxor (Z.shiftr crc 1) (if truth (Z.land crc 1) then CRCPOLY_LE else 0).
(** [crc = (crc << 1) ^ ((crc & 0x80000000) ? CRCPOLY_BE : 0)] *)
Definition step_be (crc : Z) : Z :=
  Z.lxor (u32 (Z.shiftl crc 1)) (if truth (Z.land crc 0x80000000) then CRCPOLY_BE else 0).

Fixpoint times (n : nat) (f : Z -> Z) (x : Z) : Z :=
  match n with O => x | S n' => times n' f (f x) end.

Module Bitwise.

(** [while (len--)]: every byte goes into the low or the high end of the CRC, and
    eight steps follow. *)
Definition crc32_le (crc : Z) (p : list Z) : Z :=
  fold_left (fun crc b => times 8 step_le (Z.lxor crc b)) p crc.

Definition crc32_be (crc : Z) (p : list Z) : Z :=
  fold_left (fun crc b => times 8 step_be (Z.lxor crc (Z.shiftl b 24))) p crc.

End Bitwise.

(** ** The tables: lib/gen_crc32table.c *)

(** [crc32table_le] and [crc32table_be]: four rows. *)
Definition table : Type := list (list Z).

Definition LE_TABLE_SIZE : Z := Z.shiftl 1 CRC_LE_BITS.
Definition BE_TABLE_SIZE : Z := Z.shiftl 1 CRC_BE_BITS.

Definition at2 (tab : table) (j : nat) (i : Z) : Z := (tab !!! j) !!! Z.to_nat i.
Definition set2 (tab : table) (j : nat) (i : Z) (v : Z) : table :=
  alter (fun row => <[Z.to_nat i := v]> row) j tab.

Definition blank : table := replicate 4 (replicate 256 0).

(** [for (j = 0; j < LE_TABLE_SIZE; j += 2 * i)], with [n] iterations left. *)
Fixpoint init_le_inner (n : nat) (i j crc : Z) (tab : table) : table :=
  match n with
  | O => tab
  | S n' =>
      if j <? LE_TABLE_SIZE
      then init_le_inner n' i (j + 2 * i) crc (set2 tab 0 (i + j) (Z.lxor crc (at2 tab 0 j)))
      else tab
  end.

(** [for (i = 1 << (CRC_LE_BITS - 1); i; i >>= 1)] *)
Fixpoint init_le_outer (n : nat) (i crc : Z) (tab : table) : table :=
  match n with
  | O => tab
  | S n' =>
      if truth i then
        let crc := step_le crc in
        init_le_outer n' (Z.shiftr i 1) crc (init_le_inner 256 i 0 crc tab)
      else tab
  end.

(** The second loop: the rows for the bytes further on. *)
Fixpoint init_le_rows (rows : list nat) (i crc : Z) (tab : table) : table :=
  match rows with
  | [] => tab
  | j :: rows' =>
      let crc := Z.lxor (at2 tab 0 (Z.land crc 0xff)) (Z.shiftr crc 8) in
      init_le_rows rows' i crc (set2 tab j i crc)
  end.

Fixpoint init_le_columns (columns : list Z) (tab : table) : table :=
  match columns with
  | [] => tab
  | i :: columns' => init_le_columns columns' (init_le_rows [1; 2; 3]%nat i (at2 tab 0 i) tab)
  end.

Definition crc32init_le : table :=
  let tab := set2 blank 0 0 0 in
  let tab := init_le_outer 32 (Z.shiftl 1 (CRC_LE_BITS - 1)) 1 tab in
  init_le_columns (seqZ 0 LE_TABLE_SIZE) tab.

(** [for (j = 0; j < i; j++)] *)
Fixpoint init_be_inner (columns : list Z) (i crc : Z) (tab : table) : table :=
  match columns with
  | [] => tab
  | j :: columns' => init_be_inner columns' i crc (set2 tab 0 (i + j) (Z.lxor crc (at2 tab 0 j)))
  end.

(** [for (i = 1; i < BE_TABLE_SIZE; i <<= 1)] *)
Fixpoint init_be_outer (n : nat) (i crc : Z) (tab : table) : table :=
  match n with
  | O => tab
  | S n' =>
      if i <? BE_TABLE_SIZE then
        let crc := step_be crc in
        init_be_outer n' (Z.shiftl i 1) crc (init_be_inner (seqZ 0 i) i crc tab)
      else tab
  end.

Fixpoint init_be_rows (rows : list nat) (i crc : Z) (tab : table) : table :=
  match rows with
  | [] => tab
  | j :: rows' =>
      let crc := Z.lxor (at2 tab 0 (Z.land (Z.shiftr crc 24) 0xff)) (u32 (Z.shiftl crc 8)) in
      init_be_rows rows' i crc (set2 tab j i crc)
  end.

Fixpoint init_be_columns (columns : list Z) (tab : table) : table :=
  match columns with
  | [] => tab
  | i :: columns' => init_be_columns columns' (init_be_rows [1; 2; 3]%nat i (at2 tab 0 i) tab)
  end.

Definition crc32init_be : table :=
  let tab := set2 blank 0 0 0 in
  let tab := init_be_outer 32 1 0x80000000 tab in
  init_be_columns (seqZ 0 BE_TABLE_SIZE) tab.

(** [output_table] prints every entry as [tole(...)] or [tobe(...)]: the tables of the
    kernel are swapped into the byte order of their CRC; on this processor only the
    little-endian one changes. *)
Definition swab32 (x : Z) : Z :=
  Z.lor (Z.lor (Z.shiftl (Z.land x 0x000000ff) 24) (Z.shiftl (Z.land x 0x0000ff00) 8))
    (Z.lor (Z.shiftr (Z.land x 0x00ff0000) 8) (Z.shiftr (Z.land x 0xff000000) 24)).

Definition cpu_to_le32 (x : Z) : Z := swab32 x.
Definition le32_to_cpu (x : Z) : Z := swab32 x.
Definition cpu_to_be32 (x : Z) : Z := x.
Definition be32_to_cpu (x : Z) : Z := x.

Definition crc32table_le : table := map (map cpu_to_le32) crc32init_le.
Definition crc32table_be : table := map (map cpu_to_be32) crc32init_be.

(** ** Four bytes at a time: [crc32_body] *)

(** The macros of the big-endian half. *)
Definition DO_CRC (tab : table) (crc x : Z) : Z :=
  Z.lxor (at2 tab 0 (Z.land (Z.lxor (Z.shiftr crc 24) x) 255)) (u32 (Z.shiftl crc 8)).
Definition DO_CRC4 (tab : table) (crc : Z) : Z :=
  Z.lxor (Z.lxor (Z.lxor (at2 tab 0 (Z.land crc 255))
                         (at2 tab 1 (Z.land (Z.shiftr crc 8) 255)))
                 (at2 tab 2 (Z.land (Z.shiftr crc 16) 255)))
         (at2 tab 3 (Z.land (Z.shiftr crc 24) 255)).

(** The bytes up to the first word boundary: [do DO_CRC of the next byte while ((--len) &&
    ((long)buf)&3)]. *)
Fixpoint align_loop (tab : table) (addr crc : Z) (buf : list Z) : Z * list Z :=
  match buf with
  | [] => (crc, [])
  | x :: buf' =>
      let crc := DO_CRC tab crc x in
      if negb (bool_decide (buf' = [])) && truth (Z.land (addr + 1) 3)
      then align_loop tab (addr + 1) crc buf' else (crc, buf')
  end.

(** Whole words, loaded big-endian, and the bytes after them. *)
Fixpoint word_loop (tab : table) (crc : Z) (buf : list Z) : Z :=
  match buf with
  | b0 :: b1 :: b2 :: b3 :: buf' => word_loop tab (DO_CRC4 tab (Z.lxor crc (be32 b0 b1 b2 b3))) buf'
  | _ => fold_left (DO_CRC tab) buf crc
  end.

Definition crc32_body (crc addr : Z) (buf : list Z) (tab : table) : Z :=
  let '(crc, buf) :=
    if truth (Z.land addr 3) && negb (bool_decide (buf = []))
    then align_loop tab addr crc buf else (crc, buf) in
  word_loop tab crc buf.

(** [addr] is the address of the buffer. *)
Definition crc32_le (crc addr : Z) (p : list Z) : Z :=
  le32_to_cpu (crc32_body (cpu_to_le32 crc) addr p crc32table_le).
Definition crc32_be (crc addr : Z) (p : list Z) : Z :=
  be32_to_cpu (crc32_body (cpu_to_be32 crc) addr p crc32table_be).

(** ** Bits *)

Lemma land_bit x k m n : 0 <= n -> m = Z.shiftl (Z.ones 8) k -> 0 <= k ->
  Z.testbit (Z.land x m) n = ((k <=? n) && (n <? k + 8) && Z.testbit x n).
Proof.
  intros Hn -> Hk. rewrite Z.land_spec, Z.shiftl_spec by done.
  destruct (Z.leb_spec k n); cbn [andb].
  - destruct (Z.ltb_spec n (k + 8)); cbn [andb].
    + rewrite Z.ones_spec_low by lia. apply andb_true_r.
    + rewrite Z.ones_spec_high by lia. apply andb_false_r.
  - rewrite (Z.testbit_neg_r (Z.ones 8)) by lia. apply andb_false_r.
Qed.

Lemma swab_bit x n : 0 <= n -> Z.testbit (swab32 x) n =
  if n <? 8 then Z.testbit x (n + 24) else if n <? 16 then Z.testbit x (n + 8)
  else if n <? 24 then Z.testbit x (n - 8) else if n <? 32 then Z.testbit x (n - 24) else false.
Proof.
  intros Hn. unfold swab32. rewrite !Z.lor_spec, !Z.shiftl_spec, !Z.shiftr_spec by lia.
  rewrite (land_bit x 16 _ (n + 8)), (land_bit x 24 _ (n + 24)) by (done || lia).
  assert (H1 : Z.testbit (Z.land x 255) (n - 24) = (24 <=? n) && (n <? 32) && Z.testbit x (n - 24)).
  { destruct (Z.leb_spec 24 n); [|by rewrite Z.testbit_neg_r by lia].
    rewrite (land_bit x 0) by (done || lia).
    destruct (Z.leb_spec 0 (n - 24)), (Z.ltb_spec (n - 24) (0 + 8)), (Z.ltb_spec n 32); done || lia. }
  assert (H2 : Z.testbit (Z.land x 65280) (n - 8) = (16 <=? n) && (n <? 24) && Z.testbit x (n - 8)).
  { destruct (Z.leb_spec 8 n); [|rewrite Z.testbit_neg_r by lia; destruct (Z.leb_spec 16 n); done || lia].
    rewrite (land_bit x 8) by (done || lia).
    destruct (Z.leb_spec 8 (n - 8)), (Z.ltb_spec (n - 8) (8 + 8)), (Z.leb_spec 16 n), (Z.ltb_spec n 24); done || lia. }
  rewrite H1, H2.
  destruct (Z.ltb_spec n 8), (Z.ltb_spec n 16), (Z.ltb_spec n 24), (Z.ltb_spec n 32),
    (Z.leb_spec 16 n), (Z.leb_spec 24 n), (Z.leb_spec 16 (n + 8)), (Z.ltb_spec (n + 8) (16 + 8)),
    (Z.leb_spec 24 (n + 24)), (Z.ltb_spec (n + 24) (24 + 8)); try lia; cbn [andb orb];
    rewrite ?orb_false_r; done.
Qed.

Lemma u32_bit x n : 0 <= n -> Z.testbit (u32 x) n = (n <? 32) && Z.testbit x n.
Proof.
  intros Hn. unfold u32. destruct (Z.ltb_spec n 32).
  - by rewrite Z.mod_pow2_bits_low by lia.
  - by rewrite Z.mod_pow2_bits_high by lia.
Qed.

Lemma high_bit x n : is_u32 x -> 32 <= n -> Z.testbit x n = false.
Proof.
  intros Hx Hn. rewrite <- (u32_small x) by apply Hx. rewrite u32_bit by lia.
  by destruct (Z.ltb_spec n 32); [lia|].
Qed.

Lemma bits_u32 x : 0 <= x -> (forall n, 32 <= n -> Z.testbit x n = false) -> is_u32 x.
Proof.
  intros Hx H. split; [done|]. assert (E : x = u32 x).
  { apply Z.bits_inj'. intros n Hn. rewrite u32_bit by done.
    destruct (Z.ltb_spec n 32); [done | by apply H]. }
  rewrite E. apply u32_range.
Qed.

Lemma land_255_bit x n : 0 <= n -> Z.testbit (Z.land x 255) n = (n <? 8) && Z.testbit x n.
Proof. intros Hn. rewrite (land_bit x 0) by done. destruct (Z.leb_spec 0 n); [done | lia]. Qed.

(** Equality of words bit by bit. *)
Ltac split_bits :=
  repeat match goal with |- context [?a <? ?b] => destruct (Z.ltb_spec a b); try lia; cbn [andb] end.
Ltac bit_specs :=
  repeat first [rewrite Z.lxor_spec | rewrite swab_bit by lia | rewrite u32_bit by lia
               | rewrite land_255_bit by lia
               | rewrite Z.shiftl_spec by lia | rewrite Z.shiftr_spec by lia].
Ltac by_bits := repeat (progress (bit_specs; split_bits)); try done; try (f_equal; lia).
Ltac bitwise n := apply Z.bits_inj'; intros n ?; by_bits.

Lemma swab_lxor a b : swab32 (Z.lxor a b) = Z.lxor (swab32 a) (swab32 b).
Proof. bitwise n. Qed.

Lemma swab_swab x : is_u32 x -> swab32 (swab32 x) = x.
Proof. intros Hx. bitwise n. symmetry. by apply high_bit. Qed.

Lemma swab_shift x : is_u32 x -> u32 (Z.shiftl (swab32 x) 8) = swab32 (Z.shiftr x 8).
Proof.
  intros Hx. apply Z.bits_inj'. intros n Hn. rewrite u32_bit, swab_bit, Z.shiftl_spec by done.
  destruct (Z.ltb_spec n 8).
  - rewrite (Z.testbit_neg_r (swab32 x)), andb_false_r, Z.shiftr_spec by lia. symmetry. apply high_bit; [done | lia].
  - by_bits.
Qed.

(** The bytes of a swapped word, from the other end. *)
Lemma swab_byte0 x : Z.land (swab32 x) 255 = Z.land (Z.shiftr x 24) 255.
Proof. bitwise n. Qed.
Lemma swab_byte1 x : Z.land (Z.shiftr (swab32 x) 8) 255 = Z.land (Z.shiftr x 16) 255.
Proof. bitwise n. Qed.
Lemma swab_byte2 x : Z.land (Z.shiftr (swab32 x) 16) 255 = Z.land (Z.shiftr x 8) 255.
Proof. bitwise n. Qed.
Lemma swab_byte3 x : Z.land (Z.shiftr (swab32 x) 24) 255 = Z.land x 255.
Proof. bitwise n. Qed.

Lemma swab_top x : is_u32 x -> Z.shiftr (swab32 x) 24 = Z.land x 255.
Proof. intros Hx. bitwise n. Qed.

(** ** The steps are linear *)

Definition linear (f : Z -> Z) : Prop := forall a b, f (Z.lxor a b) = Z.lxor (f a) (f b).

Lemma lxor_swap a b c d : Z.lxor (Z.lxor a b) (Z.lxor c d) = Z.lxor (Z.lxor a c) (Z.lxor b d).
Proof. bitwise n. by destruct (Z.testbit a n), (Z.testbit b n), (Z.testbit c n), (Z.testbit d n). Qed.

Lemma truth_bit x k : 0 <= k -> truth (Z.land x (2 ^ k)) = Z.testbit x k.
Proof.
  intros Hk. unfold truth. destruct (Z.testbit x k) eqn:E.
  - apply negb_true_iff, Z.eqb_neq. intros Hz. apply (f_equal (fun z => Z.testbit z k)) in Hz.
    by rewrite Z.land_spec, E, Z.pow2_bits_true, Z.bits_0 in Hz.
  - apply negb_false_iff, Z.eqb_eq. apply Z.bits_inj'. intros n Hn. rewrite Z.land_spec, Z.bits_0.
    destruct (Z.eq_dec n k) as [->|Hne]; [by rewrite E|]. by rewrite Z.pow2_bits_false, andb_false_r by lia.
Qed.

Lemma linear_if k p : 0 <= k -> linear (fun x => if truth (Z.land x (2 ^ k)) then p else 0).
Proof.
  intros Hk a b. rewrite !truth_bit, Z.lxor_spec by done.
  destruct (Z.testbit a k), (Z.testbit b k); cbn [xorb];
    by rewrite ?Z.lxor_nilpotent, ?Z.lxor_0_l, ?Z.lxor_0_r.
Qed.

Lemma step_le_linear : linear step_le.
Proof.
  intros a b. unfold step_le. rewrite Z.shiftr_lxor.
  pose proof (linear_if 0 CRCPOLY_LE ltac:(lia) a b) as H. change (2 ^ 0) with 1 in H.
  rewrite H. apply lxor_swap.
Qed.

Lemma step_be_linear : linear step_be.
Proof.
  intros a b. unfold step_be. change 0x80000000 with (2 ^ 31).
  pose proof (linear_if 31 CRCPOLY_BE ltac:(lia) a b) as Hp. cbv beta in Hp. rewrite Hp.
  assert (H : u32 (Z.shiftl (Z.lxor a b) 1) = Z.lxor (u32 (Z.shiftl a 1)) (u32 (Z.shiftl b 1)))
    by bitwise n.
  rewrite H. apply lxor_swap.
Qed.

Lemma times_linear n f : linear f -> linear (times n f).
Proof. intros Hf. induction n as [|n IH]; intros a b; cbn; [done|]. by rewrite Hf, IH. Qed.

Lemma times_add m n f x : times (m + n) f x = times n f (times m f x).
Proof. revert x. induction m as [|m IH]; intros x; cbn; [done | apply IH]. Qed.

Lemma linear_0 f : linear f -> f 0 = 0.
Proof. intros Hf. rewrite <- (Z.lxor_nilpotent 0) at 1. rewrite Hf. apply Z.lxor_nilpotent. Qed.

(** A byte in the word, and the words it is cut into. *)
Lemma byte_bit b n : is_byte b -> 8 <= n -> Z.testbit b n = false.
Proof.
  intros Hb Hn. rewrite <- (u8_small b) by apply Hb. unfold u8.
  by rewrite Z.mod_pow2_bits_high by lia.
Qed.

Lemma land_byte b : is_byte b -> Z.land b 255 = b.
Proof. intros Hb. bitwise n. symmetry. by apply byte_bit. Qed.

Lemma byte_range x : 0 <= Z.land x 255 < 256.
Proof. change 255 with (2 ^ 8 - 1). rewrite land_low by lia. apply Z.mod_pos_bound. lia. Qed.

Lemma neg_bit x n : n < 0 -> Z.testbit x n = false.
Proof. apply Z.testbit_neg_r. Qed.

(** A word from its bytes. *)
Definition word (b0 b1 b2 b3 : Z) : Z :=
  Z.lxor (Z.lxor (Z.lxor b0 (Z.shiftl b1 8)) (Z.shiftl b2 16)) (Z.shiftl b3 24).

Lemma word_bit b0 b1 b2 b3 n : is_byte b0 -> is_byte b1 -> is_byte b2 -> is_byte b3 -> 0 <= n ->
  Z.testbit (word b0 b1 b2 b3) n =
    if n <? 8 then Z.testbit b0 n else if n <? 16 then Z.testbit b1 (n - 8)
    else if n <? 24 then Z.testbit b2 (n - 16) else if n <? 32 then Z.testbit b3 (n - 24) else false.
Proof.
  intros H0 H1 H2 H3 Hn. unfold word. rewrite !Z.lxor_spec, !Z.shiftl_spec by done.
  split_bits;
    rewrite ?(neg_bit b1), ?(neg_bit b2), ?(neg_bit b3) by lia;
    rewrite ?(byte_bit b0), ?(byte_bit b1), ?(byte_bit b2), ?(byte_bit b3) by (done || lia);
    by rewrite ?xorb_false_r, ?xorb_false_l.
Qed.

Lemma be32_word b0 b1 b2 b3 : is_byte b0 -> is_byte b1 -> is_byte b2 -> is_byte b3 ->
  be32 b0 b1 b2 b3 = word b3 b2 b1 b0.
Proof.
  intros H0 H1 H2 H3. apply Z.bits_inj'. intros n Hn. rewrite word_bit by done.
  unfold be32. rewrite !Z.lor_spec, !Z.shiftl_spec by done.
  split_bits;
    rewrite ?(neg_bit b0), ?(neg_bit b1), ?(neg_bit b2) by lia;
    rewrite ?(byte_bit b0), ?(byte_bit b1), ?(byte_bit b2), ?(byte_bit b3) by (done || lia);
    by rewrite ?orb_false_r, ?orb_false_l.
Qed.

Lemma swab_word b0 b1 b2 b3 : is_byte b0 -> is_byte b1 -> is_byte b2 -> is_byte b3 ->
  swab32 (word b0 b1 b2 b3) = word b3 b2 b1 b0.
Proof.
  intros H0 H1 H2 H3. apply Z.bits_inj'. intros n Hn. rewrite swab_bit, (word_bit b3) by done.
  split_bits; try done; rewrite word_bit by (done || lia); split_bits; f_equal; lia.
Qed.

Lemma word_of_bytes w : is_u32 w ->
  w = word (Z.land w 255) (Z.land (Z.shiftr w 8) 255) (Z.land (Z.shiftr w 16) 255)
        (Z.land (Z.shiftr w 24) 255).
Proof.
  intros Hw. apply Z.bits_inj'. intros n Hn. rewrite word_bit by (apply byte_range || done).
  split_bits; rewrite ?land_255_bit by lia; split_bits; rewrite ?Z.shiftr_spec by lia;
    try (f_equal; lia); try done. by apply high_bit.
Qed.

Lemma word_u32 b0 b1 b2 b3 : is_byte b0 -> is_byte b1 -> is_byte b2 -> is_byte b3 ->
  is_u32 (word b0 b1 b2 b3).
Proof.
  intros H0 H1 H2 H3. apply bits_u32.
  - unfold word, is_byte in *. repeat (apply Z.lxor_nonneg; split; intros _);
      try (apply Z.shiftl_nonneg); lia.
  - intros n Hn. rewrite word_bit by (done || lia). by split_bits.
Qed.

(** ** Bytes passing through the register *)

(** The low zeros of a little-endian register are shifted out. *)
Lemma step_le_even y : step_le (Z.shiftl y 1) = y.
Proof.
  unfold step_le. pose proof (truth_bit (Z.shiftl y 1) 0) as H. change (2 ^ 0) with 1 in H.
  rewrite H, Z.shiftl_spec_low by lia. rewrite Z.lxor_0_r, Z.shiftr_shiftl_l by lia. apply Z.shiftl_0_r.
Qed.

Lemma times_le_shift n y : times n step_le (Z.shiftl y (Z.of_nat n)) = y.
Proof.
  induction n as [|n IH]; cbn [times]; [apply Z.shiftl_0_r|].
  replace (Z.of_nat (S n)) with (Z.of_nat n + 1) by lia.
  rewrite <- Z.shiftl_shiftl by lia. by rewrite step_le_even.
Qed.

(** The high zeros of a big-endian one. *)
Lemma step_be_small y : 0 <= y < 2 ^ 31 -> step_be y = Z.shiftl y 1.
Proof.
  intros Hy. unfold step_be. change 0x80000000 with (2 ^ 31). rewrite truth_bit by done.
  rewrite Z.bits_above_log2; [|lia|].
  - rewrite Z.lxor_0_r. apply u32_small. rewrite Z.shiftl_mul_pow2; lia.
  - destruct (Z.eq_dec y 0) as [->|]; [done|]. apply Z.log2_lt_pow2; lia.
Qed.

Lemma times_be_shift n y : (n <= 32)%nat -> 0 <= y < 2 ^ (32 - Z.of_nat n) ->
  times n step_be y = Z.shiftl y (Z.of_nat n).
Proof.
  revert y. induction n as [|n IH]; intros y Hn Hy; cbn [times]; [by rewrite Z.shiftl_0_r|].
  assert (Hp : 2 * 2 ^ (32 - Z.of_nat (S n)) = 2 ^ (32 - Z.of_nat n)).
  { rewrite <- Z.pow_succ_r by lia. f_equal. lia. }
  assert (2 ^ (32 - Z.of_nat (S n)) <= 2 ^ 31) by (apply Z.pow_le_mono_r; lia).
  rewrite step_be_small by lia.
  rewrite IH by (rewrite ?Z.shiftl_mul_pow2 by lia; lia).
  rewrite Z.shiftl_shiftl by lia. f_equal. lia.
Qed.

Lemma step_le_u32 c : is_u32 c -> is_u32 (step_le c).
Proof.
  intros Hc. apply bits_u32.
  - unfold step_le. apply Z.lxor_nonneg. split; intros _; [by case_match|].
    apply Z.shiftr_nonneg. apply Hc.
  - intros n Hn. unfold step_le. rewrite Z.lxor_spec, Z.shiftr_spec by lia.
    rewrite high_bit by (done || lia). case_match; [by apply high_bit | by rewrite Z.bits_0].
Qed.

Lemma step_be_u32 c : is_u32 (step_be c).
Proof.
  apply bits_u32.
  - unfold step_be. apply Z.lxor_nonneg. split; intros _; [by case_match|]. apply u32_range.
  - intros n Hn. unfold step_be. rewrite Z.lxor_spec, high_bit by (apply u32_range || done).
    case_match; [by apply high_bit | by rewrite Z.bits_0].
Qed.

Lemma times_u32 (f : Z -> Z) n c : (forall c, is_u32 c -> is_u32 (f c)) -> is_u32 c -> is_u32 (times n f c).
Proof. intros Hf. revert c. induction n as [|n IH]; intros c Hc; [done|]. apply IH. by apply Hf. Qed.

Lemma lxor_u32 a b : is_u32 a -> is_u32 b -> is_u32 (Z.lxor a b).
Proof.
  intros Ha Hb. apply bits_u32; [apply Z.lxor_nonneg; split; intros _; [apply Hb | apply Ha]|].
  intros n Hn. rewrite Z.lxor_spec, !high_bit by done. done.
Qed.

Lemma byte_u32 b : is_byte b -> is_u32 b.
Proof. unfold is_byte, is_u32. lia. Qed.

#[local] Opaque times.

(** ** What the tables hold *)

Definition agrees (tab : table) (f : nat -> Z -> Z) : bool :=
  forallb (fun j => forallb (fun i => at2 tab j i =? f j i) (seqZ 0 256)) (seq 0 4).

Lemma agrees_at tab f : agrees tab f = true ->
  forall j i, (j < 4)%nat -> 0 <= i < 256 -> at2 tab j i = f j i.
Proof.
  intros H j i Hj Hi. unfold agrees in H. rewrite forallb_forall in H.
  specialize (H j). rewrite forallb_forall in H. apply Z.eqb_eq, H.
  - apply in_seq. lia.
  - apply list_elem_of_In, elem_of_seqZ. lia.
Qed.

Lemma table_le_at j i : (j < 4)%nat -> 0 <= i < 256 ->
  at2 crc32table_le j i = swab32 (times (8 * S j) step_le i).
Proof.
  revert j i. apply (agrees_at crc32table_le (fun j i => swab32 (times (8 * S j) step_le i))).
  vm_compute. reflexivity.
Qed.

Lemma table_be_at j i : (j < 4)%nat -> 0 <= i < 256 ->
  at2 crc32table_be j i = times (8 * S j) step_be (Z.shiftl i 24).
Proof.
  revert j i. apply (agrees_at crc32table_be (fun j i => times (8 * S j) step_be (Z.shiftl i 24))).
  vm_compute. reflexivity.
Qed.

(** ** One lookup is eight steps, four lookups are thirty-two *)

Lemma lxor_step n f a b : linear f -> times n f (Z.lxor a b) = Z.lxor (times n f a) (times n f b).
Proof. intros Hf. by apply times_linear. Qed.

Lemma le_split c : times 8 step_le c = Z.lxor (times 8 step_le (Z.land c 255)) (Z.shiftr c 8).
Proof.
  rewrite <- (times_le_shift 8 (Z.shiftr c 8)) at 1. rewrite <- lxor_step by apply step_le_linear.
  f_equal. apply Z.bits_inj'. intros n Hn. rewrite Z.lxor_spec, land_255_bit, Z.shiftl_spec by done.
  split_bits; [rewrite (neg_bit (Z.shiftr c 8)) by lia; by rewrite xorb_false_r|].
  rewrite Z.shiftr_spec by lia. rewrite xorb_false_l. f_equal. lia.
Qed.

Lemma DO_CRC_le c x : is_u32 c -> is_byte x ->
  DO_CRC crc32table_le (swab32 c) x = swab32 (times 8 step_le (Z.lxor c x)).
Proof.
  intros Hc Hx. unfold DO_CRC. rewrite swab_top, swab_shift by done.
  rewrite table_le_at by (apply byte_range || lia). rewrite (le_split (Z.lxor c x)), swab_lxor. f_equal.
  - do 2 f_equal. bitwise n.
  - f_equal. rewrite Z.shiftr_lxor. replace (Z.shiftr x 8) with 0; [by rewrite Z.lxor_0_r|].
    bitwise n. rewrite Z.bits_0. symmetry. apply byte_bit; [done | lia].
Qed.

Lemma be_split c : is_u32 c ->
  times 8 step_be c =
    Z.lxor (times 8 step_be (Z.shiftl (Z.land (Z.shiftr c 24) 255) 24)) (u32 (Z.shiftl c 8)).
Proof.
  intros Hc. assert (E : u32 (Z.shiftl c 8) = times 8 step_be (c mod 2 ^ 24)).
  { rewrite times_be_shift by (try lia; apply Z.mod_pos_bound; lia).
    apply Z.bits_inj'. intros n Hn. rewrite u32_bit, !Z.shiftl_spec by lia. split_bits.
    - destruct (Z.ltb_spec n 8); [by rewrite !neg_bit by lia|]. by rewrite Z.mod_pow2_bits_low by lia.
    - by rewrite Z.mod_pow2_bits_high by lia. }
  rewrite E, <- lxor_step by apply step_be_linear. f_equal. apply Z.bits_inj'. intros n Hn.
  rewrite Z.lxor_spec, Z.shiftl_spec by done. destruct (Z.ltb_spec n 24).
  - rewrite (neg_bit (Z.land _ _)), Z.mod_pow2_bits_low by lia. by rewrite xorb_false_l.
  - rewrite Z.mod_pow2_bits_high, xorb_false_r, land_255_bit, Z.shiftr_spec by lia. split_bits.
    + f_equal. lia.
    + apply high_bit; [done | lia].
Qed.

Lemma shiftl_byte_u32 b k : is_byte b -> 0 <= k <= 24 -> is_u32 (Z.shiftl b k).
Proof.
  intros Hb Hk. assert (2 ^ k <= 2 ^ 24) by (apply Z.pow_le_mono_r; lia).
  rewrite Z.shiftl_mul_pow2 by lia. unfold is_byte, is_u32 in *. nia.
Qed.

Lemma DO_CRC_be c x : is_u32 c -> is_byte x ->
  DO_CRC crc32table_be c x = times 8 step_be (Z.lxor c (Z.shiftl x 24)).
Proof.
  intros Hc Hx. unfold DO_CRC. rewrite table_be_at by (apply byte_range || lia).
  rewrite (be_split (Z.lxor _ _)) by (apply lxor_u32; [done|]; apply shiftl_byte_u32; [done | lia]). f_equal.
  - do 3 f_equal. rewrite Z.shiftr_lxor, Z.shiftr_shiftl_l by lia. by rewrite Z.shiftl_0_r.
  - apply Z.bits_inj'. intros n Hn. rewrite !u32_bit, !(Z.shiftl_spec _ 8) by lia.
    destruct (Z.ltb_spec n 32); [|done]. cbn [andb].
    destruct (Z.ltb_spec n 8); [by rewrite !neg_bit by lia|].
    rewrite Z.lxor_spec, Z.shiftl_spec by lia. by rewrite (neg_bit x), xorb_false_r by lia.
Qed.

(** The four bytes of a word, each shifted through the register by the bytes after it. *)
Lemma times_le_skip m n k y : k = Z.of_nat m -> times (m + n) step_le (Z.shiftl y k) = times n step_le y.
Proof. intros ->. by rewrite times_add, times_le_shift. Qed.

Lemma times_be_skip m n k y t : t = (m + n)%nat -> k = Z.of_nat m -> (m <= 32)%nat ->
  0 <= y < 2 ^ (32 - k) -> times t step_be y = times n step_be (Z.shiftl y k).
Proof. intros -> -> Hm Hy. rewrite times_add. by rewrite (times_be_shift m) by done. Qed.

Lemma times_le_word b0 b1 b2 b3 :
  times 32 step_le (word b0 b1 b2 b3) =
    Z.lxor (Z.lxor (Z.lxor (times 32 step_le b0) (times 24 step_le b1)) (times 16 step_le b2))
      (times 8 step_le b3).
Proof.
  unfold word. rewrite !lxor_step by apply step_le_linear.
  by rewrite (times_le_skip 8 24), (times_le_skip 16 16), (times_le_skip 24 8).
Qed.

Lemma times_be_word b0 b1 b2 b3 : is_byte b0 -> is_byte b1 -> is_byte b2 ->
  times 32 step_be (word b0 b1 b2 b3) =
    Z.lxor (Z.lxor (Z.lxor (times 8 step_be (Z.shiftl b0 24)) (times 16 step_be (Z.shiftl b1 24)))
      (times 24 step_be (Z.shiftl b2 24))) (times 32 step_be (Z.shiftl b3 24)).
Proof.
  unfold is_byte. intros H0 H1 H2. unfold word. rewrite !lxor_step by apply step_be_linear.
  rewrite (times_be_skip 24 8 24 b0 32), (times_be_skip 16 16 16 (Z.shiftl b1 8) 32),
    (times_be_skip 8 24 8 (Z.shiftl b2 16) 32) by (rewrite ?Z.shiftl_mul_pow2; lia).
  by rewrite !Z.shiftl_shiftl by lia.
Qed.

Lemma lxor_rev a b c d : Z.lxor (Z.lxor (Z.lxor a b) c) d = Z.lxor (Z.lxor (Z.lxor d c) b) a.
Proof. rewrite (Z.lxor_comm _ d), (Z.lxor_comm _ c), (Z.lxor_comm a b). by rewrite !Z.lxor_assoc. Qed.

Lemma DO_CRC4_le w : is_u32 w -> DO_CRC4 crc32table_le (swab32 w) = swab32 (times 32 step_le w).
Proof.
  intros Hw. rewrite (word_of_bytes w Hw) at 2. rewrite times_le_word. unfold DO_CRC4.
  rewrite swab_byte0, swab_byte1, swab_byte2, swab_byte3.
  rewrite !table_le_at by (apply byte_range || lia). rewrite !swab_lxor. apply lxor_rev.
Qed.

Lemma DO_CRC4_be w : is_u32 w -> DO_CRC4 crc32table_be w = times 32 step_be w.
Proof.
  intros Hw. rewrite (word_of_bytes w Hw) at 2. rewrite times_be_word by apply byte_range.
  unfold DO_CRC4. by rewrite !table_be_at by (apply byte_range || lia).
Qed.

(** The same words by the bit-at-a-time code. *)
Lemma bitwise_le_word c b0 b1 b2 b3 :
  Bitwise.crc32_le c [b0; b1; b2; b3] = times 32 step_le (Z.lxor c (word b0 b1 b2 b3)).
Proof.
  unfold Bitwise.crc32_le. cbn [fold_left].
  rewrite !lxor_step by apply step_le_linear. rewrite times_le_word, <- !times_add.
  cbn [Nat.add]. by rewrite !Z.lxor_assoc.
Qed.

Lemma bitwise_be_word c b0 b1 b2 b3 : is_byte b0 -> is_byte b1 -> is_byte b2 ->
  Bitwise.crc32_be c [b3; b2; b1; b0] = times 32 step_be (Z.lxor c (word b0 b1 b2 b3)).
Proof.
  intros H0 H1 H2. unfold Bitwise.crc32_be. cbn [fold_left].
  rewrite !lxor_step by apply step_be_linear. rewrite times_be_word, <- !times_add by done.
  cbn [Nat.add]. rewrite !Z.lxor_assoc. f_equal. rewrite <- !Z.lxor_assoc. apply lxor_rev.
Qed.

(** ** The loops, for any table that gives the steps of a bit-at-a-time code *)

Section Body.

Context (tab : table) (stored : Z -> Z) (next : Z -> Z -> Z).
Context (next_u32 : forall c x, is_u32 c -> is_byte x -> is_u32 (next c x)).
Context (byte_ok : forall c x, is_u32 c -> is_byte x -> DO_CRC tab (stored c) x = stored (next c x)).
Context (word_ok : forall c b0 b1 b2 b3, is_u32 c ->
  is_byte b0 -> is_byte b1 -> is_byte b2 -> is_byte b3 ->
  DO_CRC4 tab (Z.lxor (stored c) (be32 b0 b1 b2 b3)) = stored (fold_left next [b0; b1; b2; b3] c)).

Lemma fold_u32 p c : Forall is_byte p -> is_u32 c -> is_u32 (fold_left next p c).
Proof. intros Hp. revert c. induction Hp; intros c Hc; [done|]. cbn [fold_left]. auto. Qed.

Lemma fold_bytes p c : Forall is_byte p -> is_u32 c ->
  fold_left (DO_CRC tab) p (stored c) = stored (fold_left next p c).
Proof.
  intros Hp. revert c. induction Hp; intros c Hc; [done|]. cbn [fold_left].
  rewrite byte_ok by done. auto.
Qed.

Lemma word_loop_eq p c : Forall is_byte p -> is_u32 c ->
  word_loop tab (stored c) p = stored (fold_left next p c).
Proof.
  remember (length p) as n eqn:Hn. revert p c Hn. induction n as [n IH] using lt_wf_ind.
  intros p c -> Hp Hc. destruct p as [|b0 [|b1 [|b2 [|b3 p]]]]; try (by apply fold_bytes).
  repeat match goal with H : Forall _ (_ :: _) |- _ => apply Forall_cons in H as [? H] end.
  cbn [word_loop]. rewrite word_ok by done.
  rewrite (IH (length p)) with (p := p); [done | cbn; lia | done | done |].
  apply fold_u32; [|done]. do 4 (constructor; [done|]). constructor.
Qed.

Lemma align_loop_eq addr p c : Forall is_byte p -> is_u32 c ->
  exists c1 p1, align_loop tab addr (stored c) p = (stored c1, p1) /\ is_u32 c1 /\ Forall is_byte p1
    /\ fold_left next p c = fold_left next p1 c1.
Proof.
  intros Hp. revert addr c. induction Hp as [|x p Hx Hp IH]; intros addr c Hc; cbn [align_loop].
  { by exists c, []. }
  rewrite byte_ok by done. case_match; [apply IH; auto|].
  exists (next c x), p. auto.
Qed.

Lemma crc32_body_eq addr p c : Forall is_byte p -> is_u32 c ->
  crc32_body (stored c) addr p tab = stored (fold_left next p c).
Proof.
  intros Hp Hc. unfold crc32_body. case_match eqn:E; simplify_eq/=.
  destruct (_ && _); simplify_eq; [|by apply word_loop_eq].
  destruct (align_loop_eq addr p c Hp Hc) as (c1 & p1 & E1 & Hc1 & Hp1 & ->).
  rewrite E1 in E. simplify_eq. by apply word_loop_eq.
Qed.

End Body.

Lemma crc32_le_bitwise crc addr p : is_u32 crc -> Forall is_byte p ->
  crc32_le crc addr p = Bitwise.crc32_le crc p.
Proof.
  intros Hc Hp. set (next := fun crc b => times 8 step_le (Z.lxor crc b)).
  assert (Hu : forall c x, is_u32 c -> is_byte x -> is_u32 (next c x)).
  { intros c x Hc1 Hx. apply times_u32; [apply step_le_u32|]. by apply lxor_u32; [|apply byte_u32]. }
  unfold crc32_le, cpu_to_le32, le32_to_cpu.
  rewrite (crc32_body_eq crc32table_le swab32 next Hu DO_CRC_le); [|clear p Hp| done | done].
  - apply swab_swab. by apply (fold_u32 next).
  - intros c b0 b1 b2 b3 Hc1 H0 H1 H2 H3. rewrite be32_word, <- (swab_word b0), <- swab_lxor by done.
    rewrite DO_CRC4_le by (apply lxor_u32; [done | by apply word_u32]).
    f_equal. symmetry. apply bitwise_le_word.
Qed.

Lemma crc32_be_bitwise crc addr p : is_u32 crc -> Forall is_byte p ->
  crc32_be crc addr p = Bitwise.crc32_be crc p.
Proof.
  intros Hc Hp. set (next := fun crc b => times 8 step_be (Z.lxor crc (Z.shiftl b 24))).
  assert (Hu : forall c x, is_u32 c -> is_byte x -> is_u32 (next c x)).
  { intros c x Hc1 Hx. apply times_u32; [intros; apply step_be_u32|].
    apply lxor_u32; [done|]. apply shiftl_byte_u32; [done | lia]. }
  unfold crc32_be, cpu_to_be32, be32_to_cpu.
  apply (crc32_body_eq crc32table_be id next Hu DO_CRC_be); [clear p Hp | done | done].
  intros c b0 b1 b2 b3 Hc1 H0 H1 H2 H3. unfold id. rewrite be32_word by done.
  rewrite DO_CRC4_be by (apply lxor_u32; [done | by apply word_u32]).
  symmetry. by apply bitwise_be_word.
Qed.

(** ** Detecting errors *)

Lemma step_le_zero c : is_u32 c -> step_le c = 0 -> c = 0.
Proof.
  intros Hc H. unfold step_le in H. pose proof (truth_bit c 0) as Ht. change (2 ^ 0) with 1 in Ht.
  rewrite Ht in H by lia. apply Z.lxor_eq in H. destruct (Z.testbit c 0) eqn:E.
  - exfalso. apply (f_equal (fun z => Z.testbit z 31)) in H. cbv beta in H.
    rewrite Z.shiftr_spec in H by lia. by rewrite (high_bit c) in H by (done || lia).
  - apply Z.bits_inj'. intros n Hn. rewrite Z.bits_0. destruct (Z.eq_dec n 0) as [->|]; [done|].
    apply (f_equal (fun z => Z.testbit z (n - 1))) in H. cbv beta in H.
    rewrite Z.shiftr_spec, Z.bits_0 in H by lia. by replace (n - 1 + 1) with n in H by lia.
Qed.

Lemma times_le_inj n a b : is_u32 a -> is_u32 b -> times n step_le a = times n step_le b -> a = b.
Proof.
  intros Ha Hb H. apply Z.lxor_eq. apply (proj2 (Z.lxor_eq_0_iff _ _)) in H.
  rewrite <- lxor_step in H by apply step_le_linear.
  pose proof (lxor_u32 a b Ha Hb) as Hab. revert Hab H. generalize (Z.lxor a b).
  induction n as [|n IH]; intros c Hc H; [done|].
  apply step_le_zero; [done|]. apply IH; [by apply step_le_u32 | done].
Qed.

Lemma bitwise_le_u32 p c : is_u32 c -> Forall is_byte p -> is_u32 (Bitwise.crc32_le c p).
Proof.
  intros Hc Hp. apply fold_u32; [|done | done]. intros c' x Hc' Hx.
  apply times_u32; [apply step_le_u32|]. by apply lxor_u32; [|apply byte_u32].
Qed.

Lemma bitwise_le_app c p q : Bitwise.crc32_le c (p ++ q) = Bitwise.crc32_le (Bitwise.crc32_le c p) q.
Proof. apply fold_left_app. Qed.

(** After the same bytes the registers differ if they differed before. *)
Lemma bitwise_le_inj p c c' : is_u32 c -> is_u32 c' -> Forall is_byte p ->
  Bitwise.crc32_le c p = Bitwise.crc32_le c' p -> c = c'.
Proof.
  intros Hc Hc' Hp. revert c c' Hc Hc'. induction Hp as [|x p Hx Hp IH]; intros c c' Hc Hc' H; [done|].
  assert (forall d, is_u32 d -> is_u32 (Z.lxor d x)) by (intros; by apply lxor_u32; [|apply byte_u32]).
  apply IH in H; [|apply times_u32; auto using step_le_u32..].
  apply times_le_inj in H; [|auto..]. apply (f_equal (Z.lxor x)) in H.
  by rewrite !(Z.lxor_comm x), !Z.lxor_assoc, Z.lxor_nilpotent, !Z.lxor_0_r in H.
Qed.

Lemma length_4 {A} (l : list A) : length l = 4%nat -> exists a b c d, l = [a; b; c; d].
Proof. destruct l as [|a [|b [|c [|d [|]]]]]; try done. by exists a, b, c, d. Qed.

(** Four bytes are recovered from the register. *)
Lemma bitwise_le_word_inj c w w' : is_u32 c -> Forall is_byte w -> Forall is_byte w' ->
  length w = 4%nat -> length w' = 4%nat -> Bitwise.crc32_le c w = Bitwise.crc32_le c w' -> w = w'.
Proof.
  intros Hc Hw Hw' (a & b & d & e & ->)%length_4 (a' & b' & d' & e' & ->)%length_4 H.
  rewrite !Forall_cons in Hw, Hw'. destruct_and!. rewrite !bitwise_le_word in H.
  apply times_le_inj in H; [|apply lxor_u32; [done | by apply word_u32] ..].
  apply (f_equal (Z.lxor c)) in H. rewrite <- !Z.lxor_assoc, Z.lxor_nilpotent, !Z.lxor_0_l in H.
  rewrite <- !be32_word in H by done. apply (f_equal be32_bytes) in H.
  rewrite !bytes_of_be32 in H by done. by simplify_eq.
Qed.

Lemma bitwise_le_window_inj c w w' : is_u32 c -> Forall is_byte w -> Forall is_byte w' ->
  (length w <= 4)%nat -> length w = length w' -> Bitwise.crc32_le c w = Bitwise.crc32_le c w' -> w = w'.
Proof.
  intros Hc Hw Hw' Hl Hl' H. set (z := replicate (4 - length w) 0).
  assert (Hz : Forall is_byte z) by (apply Forall_replicate; done).
  apply (app_inv_tail z). apply (bitwise_le_word_inj c); rewrite ?Forall_app; [done.. | | |].
  1-2: unfold z; rewrite length_app, length_replicate; lia.
  by rewrite !bitwise_le_app, H.
Qed.

(** The bytes of a CRC as the little-endian word it is stored as. *)
Definition le32_bytes (w : Z) : list Z := be32_bytes (cpu_to_le32 w).

Lemma swab_u32 x : is_u32 (swab32 x).
Proof.
  apply bits_u32; [|intros n Hn; rewrite swab_bit by lia; by split_bits].
  unfold swab32. rewrite !Z.lor_nonneg. repeat split;
    apply Z.shiftl_nonneg || apply Z.shiftr_nonneg; apply Z.land_nonneg; by right.
Qed.

Lemma le32_bytes_ok w : Forall is_byte (le32_bytes w).
Proof. unfold le32_bytes, be32_bytes. do 4 (constructor; [apply u8_is_byte|]). constructor. Qed.

Lemma le32_bytes_zero w : is_u32 w -> Bitwise.crc32_le w (le32_bytes w) = 0.
Proof.
  intros Hw. unfold le32_bytes, be32_bytes, cpu_to_le32. rewrite bitwise_le_word.
  rewrite <- (swab_word (u8 (swab32 w))) by apply u8_is_byte.
  rewrite <- be32_word by apply u8_is_byte. rewrite be32_of_bytes by apply swab_u32.
  rewrite swab_swab by done. rewrite Z.lxor_nilpotent. apply linear_0, times_linear, step_le_linear.
Qed.

(** ** What the theorems show *)

(** C38: the checksum of the kernel, which looks four bytes at a time up in byte-swapped
    tables and treats the bytes before the first word boundary and after the last one
    singly, is the checksum of the code that shifts bit by bit, for every buffer at every
    address and every starting value; the tables are those lib/gen_crc32table.c makes. *)
Theorem crc32_le_equiv crc addr p : is_u32 crc -> Forall is_byte p ->
  crc32_le crc addr p = Bitwise.crc32_le crc p.
Proof. apply crc32_le_bitwise. Qed.

Lemma crc32_le_equiv_witness :
  crc32_le 0xffffffff 3 [0x31; 0x32; 0x33; 0x34; 0x35; 0x36; 0x37; 0x38; 0x39]
    = Bitwise.crc32_le 0xffffffff [0x31; 0x32; 0x33; 0x34; 0x35; 0x36; 0x37; 0x38; 0x39] /\
  crc32_le 0xffffffff 3 [0x31; 0x32; 0x33; 0x34; 0x35; 0x36; 0x37; 0x38; 0x39]
    = not32 0xcbf43926.
Proof.
  split; [|by vm_compute].
  refine (crc32_le_equiv 0xffffffff 3 [0x31; 0x32; 0x33; 0x34; 0x35; 0x36; 0x37; 0x38; 0x39] _ _).
  - done.
  - repeat (constructor; [done|]). constructor.
Defined.

(** the same for the big-endian checksum. *)
Theorem crc32_be_equiv crc addr p : is_u32 crc -> Forall is_byte p ->
  crc32_be crc addr p = Bitwise.crc32_be crc p.
Proof. apply crc32_be_bitwise. Qed.

Lemma crc32_be_equiv_witness :
  crc32_be 0xffffffff 2 [1; 2; 3; 4; 5; 6; 7; 8; 9] = Bitwise.crc32_be 0xffffffff [1; 2; 3; 4; 5; 6; 7; 8; 9].
Proof.
  refine (crc32_be_equiv 0xffffffff 2 [1; 2; 3; 4; 5; 6; 7; 8; 9] _ _).
  - done.
  - repeat (constructor; [done|]). constructor.
Defined.

(** a message followed by its checksum, stored little-endian, has checksum 0, wherever
    the two computations find the buffer; and a message in which up to four neighbouring
    bytes were changed never has the checksum of the original. *)
Theorem crc32_le_detects crc addr addr' pre w w' post :
  is_u32 crc -> Forall is_byte (pre ++ w ++ post) -> Forall is_byte w' ->
  crc32_le crc addr' ((pre ++ w ++ post) ++ le32_bytes (crc32_le crc addr (pre ++ w ++ post))) = 0 /\
  ((length w <= 4)%nat -> length w' = length w -> w' <> w ->
   crc32_le crc addr' (pre ++ w' ++ post) <> crc32_le crc addr (pre ++ w ++ post)).
Proof.
  intros Hc Hm Hw'. pose proof Hm as Hm'. rewrite !Forall_app in Hm'. destruct Hm' as (Hpre & Hw & Hpost).
  set (m := pre ++ w ++ post) in *. split.
  - rewrite (crc32_le_bitwise crc addr m) by done. pose proof (bitwise_le_u32 m crc Hc Hm) as Hr.
    rewrite crc32_le_bitwise, bitwise_le_app by (done || by rewrite Forall_app; auto using le32_bytes_ok).
    apply le32_bytes_zero. done.
  - intros Hl Hl' Hne. assert (Hm' : Forall is_byte (pre ++ w' ++ post)) by (by rewrite !Forall_app).
    rewrite !crc32_le_bitwise by done. subst m. rewrite !bitwise_le_app. intros H.
    apply bitwise_le_inj in H; [|by repeat apply bitwise_le_u32..].
    apply bitwise_le_window_inj in H; [done| by apply bitwise_le_u32 | done.. | lia | done].
Qed.

Lemma crc32_le_detects_witness :
  crc32_le 0xffffffff 2 (([1; 2] ++ [3; 4; 5] ++ [6]) ++ le32_bytes (crc32_le 0xffffffff 1 ([1; 2] ++ [3; 4; 5] ++ [6]))) = 0 /\
  crc32_le 0xffffffff 2 ([1; 2] ++ [3; 0xff; 5] ++ [6]) <> crc32_le 0xffffffff 1 ([1; 2] ++ [3; 4; 5] ++ [6]).
Proof.
  destruct (crc32_le_detects 0xffffffff 1 2 [1; 2] [3; 4; 5] [3; 0xff; 5] [6]) as [H1 H2].
  - done.
  - repeat (constructor; [done|]). constructor.
  - repeat (constructor; [done|]). constructor.
  - split; [exact H1|]. apply H2; [cbn; lia | done | done].
Defined.
