(* ===== verification/Vsprintf.v ===== *)
(** * Numbers as text (lib/vsprintf.c, lib/string.c)

    The conversions that the files under /sys and the kernel command line use. A C
    string is the list of its characters, without the terminator. *)

From stdpp Require Import strings.
From S2P Require Import Prelude.

Definition NL : Z := 10.
Definition COMMA : Z := 44.
Definition MINUS : Z := 45.

Definition chars (s : string) : list Z :=
  map (fun a => Z.of_nat (Ascii.nat_of_ascii a)) (String.list_ascii_of_string s).

Definition u64 (z : Z) : Z := z mod 2 ^ 64.

Definition is_digit (c : Z) : bool := (48 <=? c) && (c <=? 57).
Definition TOLOWER (c : Z) : Z := Z.lor c 0x20.
Definition isxdigit (c : Z) : bool := is_digit c || ((97 <=? TOLOWER c) && (TOLOWER c <=? 102)).

Definition simple_guess_base (cp : list Z) : Z :=
  match cp with
  | c0 :: rest =>
      if c0 =? 48 then
        match rest with
        | c1 :: c2 :: _ => if (TOLOWER c1 =? 120) && isxdigit c2 then 16 else 8
        | _ => 8
        end
      else 10
  | [] => 10
  end.

Definition digit_value (c : Z) : Z := if is_digit c then c - 48 else TOLOWER c - 97 + 10.

(** The loop over the digits: the value, and the rest of the text. *)
Fixpoint strtoull_loop (base result : Z) (cp : list Z) : Z * list Z :=
  match cp with
  | c :: rest =>
      if isxdigit c && (digit_value c <? base)
      then strtoull_loop base (u64 (result * base + digit_value c)) rest
      else (result, cp)
  | [] => (result, [])
  end.

Definition simple_strtoull (cp : list Z) (base : Z) : Z * list Z :=
  let base := if base =? 0 then simple_guess_base cp else base in
  let cp := match cp with
            | c0 :: c1 :: rest => if (base =? 16) && (c0 =? 48) && (TOLOWER c1 =? 120) then rest else cp
            | _ => cp
            end in
  strtoull_loop base 0 cp.

Definition simple_strtoul (cp : list Z) (base : Z) : Z * list Z :=
  let r := simple_strtoull cp base in (u32 (fst r), snd r).

(** The result and [*res]. *)
Definition strict_strtoul (cp : list Z) (base : Z) : Z * Z :=
  if (length cp =? 0)%nat then (- EINVAL, 0)
  else
    let (val, tail) := simple_strtoul cp base in
    if (length tail =? length cp)%nat then (- EINVAL, 0)
    else if bool_decide (tail = [] \/ tail = [NL]) then (0, val)
    else (- EINVAL, 0).

Definition strict_strtol (cp : list Z) (base : Z) : Z * Z :=
  match cp with
  | c :: rest =>
      if c =? MINUS then
        let (ret, res) := strict_strtoul rest base in
        (ret, if ret =? 0 then s32 (- res) else s32 res)
      else let (ret, res) := strict_strtoul cp base in (ret, s32 res)
  | [] => let (ret, res) := strict_strtoul cp base in (ret, s32 res)
  end.

(** [long] and [long long]: the negative of the unsigned value, cut to the width. *)
Definition simple_strtol (cp : list Z) (base : Z) : Z * list Z :=
  let r := match cp with
           | c :: rest => if c =? MINUS then let r := simple_strtoul rest base in (- fst r, snd r) else simple_strtoul cp base
           | [] => simple_strtoul cp base
           end in (s32 (fst r), snd r).

Definition simple_strtoll (cp : list Z) (base : Z) : Z * list Z :=
  let r := match cp with
           | c :: rest => if c =? MINUS then let r := simple_strtoull rest base in (- fst r, snd r) else simple_strtoull cp base
           | [] => simple_strtoull cp base
           end in (s64 (fst r), snd r).

Definition strict_strtoull (cp : list Z) (base : Z) : Z * Z :=
  if (length cp =? 0)%nat then (- EINVAL, 0)
  else
    let (val, tail) := simple_strtoull cp base in
    if (length tail =? length cp)%nat then (- EINVAL, 0)
    else if bool_decide (tail = [] \/ tail = [NL]) then (0, val)
    else (- EINVAL, 0).

Definition strict_strtoll (cp : list Z) (base : Z) : Z * Z :=
  match cp with
  | c :: rest =>
      if c =? MINUS then
        let (ret, res) := strict_strtoull rest base in
        (ret, if ret =? 0 then s64 (- res) else s64 res)
      else let (ret, res) := strict_strtoull cp base in (ret, s64 res)
  | [] => let (ret, res) := strict_strtoull cp base in (ret, s64 res)
  end.

Definition isspace (c : Z) : bool := ((9 <=? c) && (c <=? 13)) || (c =? 32) || (c =? 160).

Fixpoint skip_spaces (l : list Z) : list Z :=
  match l with
  | c :: r => if isspace c then skip_spaces r else l
  | [] => []
  end.

(** Equal up to a newline at the end. *)
Fixpoint sysfs_streq (s1 s2 : list Z) : bool :=
  match s1, s2 with
  | [], [] => true
  | [], c :: rest => (c =? NL) && bool_decide (rest = [])
  | c :: rest, [] => (c =? NL) && bool_decide (rest = [])
  | c1 :: r1, c2 :: r2 => if c1 =? c2 then sysfs_streq r1 r2 else false
  end.

(** ** Printing in decimal *)

Fixpoint digits (fuel : nat) (n : Z) : list Z :=
  match fuel with
  | O => []
  | S fuel => if n <? 10 then [48 + n] else digits fuel (n / 10) ++ [48 + n mod 10]
  end.

(** ["%d"]: at most ten digits. *)
Definition decimal (z : Z) : list Z :=
  if z <? 0 then MINUS :: digits 20 (- z) else digits 20 z.

(** ** Round trip *)

Lemma digit_is c : 0 <= c <= 9 -> is_digit (48 + c) = true /\ isxdigit (48 + c) = true /\ digit_value (48 + c) = c.
Proof.
  intros Hc. assert (is_digit (48 + c) = true) as H.
  { unfold is_digit. rewrite (proj2 (Z.leb_le _ _)), (proj2 (Z.leb_le _ _)) by lia. done. }
  split; [done|]. unfold isxdigit, digit_value. rewrite H. split; [done|lia].
Qed.

Lemma strtoull_app base l1 : forall l2 r, 
  Forall (fun c => exists d, c = 48 + d /\ 0 <= d <= 9 /\ d < base) l1 ->
  strtoull_loop base r (l1 ++ l2) = strtoull_loop base (fst (strtoull_loop base r l1)) l2.
Proof.
  induction l1 as [|c l1 IH]; intros l2 r HF; [done|]. apply Forall_cons in HF as [(d & -> & Hd & Hb) HF].
  destruct (digit_is d Hd) as (_ & E1 & E2). cbn [app strtoull_loop]. rewrite E1, E2, (proj2 (Z.ltb_lt _ _) Hb). cbn [andb].
  by apply IH.
Qed.

Lemma digits_forall base fuel : forall n, 10 <= base -> 0 <= n ->
  Forall (fun c => exists d, c = 48 + d /\ 0 <= d <= 9 /\ d < base) (digits fuel n).
Proof.
  induction fuel as [|fuel IH]; intros n Hb Hn; cbn [digits]; [constructor|].
  destruct (Z.ltb_spec n 10); [apply Forall_singleton; exists n; split; [done|lia]|].
  apply Forall_app. split; [apply IH; [done|apply Z.div_pos; lia]|].
  apply Forall_singleton. exists (n mod 10). pose proof (Z.mod_pos_bound n 10). split; [done|lia].
Qed.

Lemma digits_value fuel : forall n, 0 <= n < 10 ^ Z.of_nat fuel -> n < 2 ^ 64 ->
  strtoull_loop 10 0 (digits fuel n) = (n, []).
Proof.
  induction fuel as [|fuel IH]; intros n Hn Hb; cbn [digits].
  { change (10 ^ Z.of_nat 0) with 1 in Hn. cbn. f_equal. lia. }
  destruct (Z.ltb_spec n 10).
  - destruct (digit_is n) as (_ & E1 & E2); [lia|]. cbn [strtoull_loop]. rewrite E1, E2, (proj2 (Z.ltb_lt _ _)) by lia.
    cbn [andb]. unfold u64. rewrite Z.mod_small by lia. done.
  - pose proof (Z.mod_pos_bound n 10 ltac:(lia)). pose proof (Z.div_mod n 10 ltac:(lia)).
    assert (0 <= n / 10 < 10 ^ Z.of_nat fuel) as Hd.
    { split; [apply Z.div_pos; lia|]. apply Z.div_lt_upper_bound; [lia|].
      rewrite Nat2Z.inj_succ, Z.pow_succ_r in Hn by lia. lia. }
    rewrite strtoull_app, IH by (try apply digits_forall; lia). cbn [fst strtoull_loop].
    destruct (digit_is (n mod 10)) as (_ & E1 & E2); [lia|]. rewrite E1, E2, (proj2 (Z.ltb_lt _ _)) by lia.
    cbn [andb]. unfold u64. rewrite Z.mod_small by lia. f_equal. lia.
Qed.

Lemma digits_nonempty fuel n : (0 < fuel)%nat -> (0 < length (digits fuel n))%nat.
Proof. destruct fuel as [|fuel]; [lia|]. intros _. cbn [digits]. destruct (n <? 10); [cbn; lia|]. rewrite length_app. cbn. lia. Qed.

Lemma digits_head fuel : forall n, 0 < n -> (0 < fuel)%nat -> exists d l, digits fuel n = (48 + d) :: l /\ 0 <= d <= 9 /\
  (n < 10 ^ Z.of_nat fuel -> 0 < d).
Proof.
  induction fuel as [|fuel IH]; intros n Hn Hf; [lia|]. cbn [digits].
  destruct (Z.ltb_spec n 10); [exists n, []; split; [done|lia]|].
  destruct fuel as [|fuel].
  { exists (n mod 10), []. pose proof (Z.mod_pos_bound n 10). split; [done|]. split; [lia|].
    change (10 ^ Z.of_nat 1) with 10. lia. }
  destruct (IH (n / 10)) as (d & l & E & Hd & Hp); [apply Z.div_str_pos; lia|lia|].
  exists d, (l ++ [48 + n mod 10]). rewrite E. split; [done|]. split; [done|].
  intros Hlt. apply Hp. apply Z.div_lt_upper_bound; [lia|]. rewrite (Nat2Z.inj_succ (S fuel)), Z.pow_succ_r in Hlt by lia. lia.
Qed.

(** What strict_strtol makes of a number that was printed, with or without a
    newline. *)
Lemma strict_strtoul_decimal n tail : 0 <= n < 2 ^ 32 -> tail = [] \/ tail = [NL] ->
  strict_strtoul (digits 20 n ++ tail) 0 = (0, n).
Proof.
  intros Hn Ht. assert (exists base, simple_guess_base (digits 20 n ++ tail) = base /\
    simple_strtoull (digits 20 n ++ tail) 0 = (n, tail)) as (base & _ & E).
  { destruct (decide (n = 0)) as [->|Hn0]; [exists 8; destruct Ht as [->| ->]; done|].
    destruct (digits_head 20 n) as (d & l & Ed & Hd & Hp); [lia|lia|]. specialize (Hp ltac:(lia)).
    exists 10. assert (simple_guess_base (digits 20 n ++ tail) = 10) as Eb.
    { rewrite Ed. cbn [app simple_guess_base]. by rewrite (proj2 (Z.eqb_neq _ _)) by lia. }
    split; [done|]. unfold simple_strtoull. change (0 =? 0) with true. cbn iota. rewrite Eb.
    change (10 =? 16) with false. cbn [andb].
    assert (forall l : list Z, match l with c0 :: c1 :: rest => l | _ => l end = l) as Hid by (by intros [|? [|? ?]]).
    rewrite Hid, strtoull_app by (apply digits_forall; lia). rewrite digits_value by lia. cbn [fst].
    by destruct Ht as [->| ->]. }
  pose proof (digits_nonempty 20 n ltac:(lia)) as Hlen.
  unfold strict_strtoul, simple_strtoul. rewrite E. cbn [fst snd]. rewrite u32_small by lia.
  rewrite (proj2 (Nat.eqb_neq _ 0)) by (rewrite length_app; lia).
  rewrite (proj2 (Nat.eqb_neq (length tail) _)) by (rewrite length_app; lia).
  by rewrite bool_decide_true.
Qed.

(** A number that was printed is read back by strict_strtol, in whatever base
    it guesses, with or without a newline behind it. *)
Theorem strtol_decimal z tail : - 2 ^ 31 < z < 2 ^ 31 -> tail = [] \/ tail = [NL] ->
  strict_strtol (decimal z ++ tail) 0 = (0, z).
Proof.
  intros Hz Ht. unfold decimal. destruct (Z.ltb_spec z 0).
  - cbn [app strict_strtol]. change (MINUS =? MINUS) with true. cbn iota.
    rewrite strict_strtoul_decimal by (done || lia). change (0 =? 0) with true. cbn iota. f_equal.
    apply (s32_congr _ _ 0); lia.
  - destruct (digits 20 z ++ tail) as [|c l] eqn:E.
    { pose proof (digits_nonempty 20 z ltac:(lia)). apply (f_equal length) in E. rewrite length_app in E. cbn [length] in E. lia. }
    assert (c <> MINUS) as Hc.
    { destruct (decide (z = 0)) as [->|]; [injection E as <- _; done|].
      destruct (digits_head 20 z) as (d & l' & Ed & Hd & _); [lia|lia|]. rewrite Ed in E. injection E as <- _. unfold MINUS. lia. }
    cbn [strict_strtol]. rewrite (proj2 (Z.eqb_neq _ _) Hc), <- E, strict_strtoul_decimal by (done || lia).
    f_equal. apply (s32_congr _ _ 0); lia.
Qed.

Lemma strtol_decimal_witness : strict_strtol (decimal 255 ++ [NL]) 0 = (0, 255).
Proof. refine (strtol_decimal 255 [NL] _ _); [done|by right]. Defined.
