(* ===== verification/Format.v ===== *)
(** * Formatted output (lib/vsprintf.c)

    [vsnprintf] and everything it calls. The buffer is memory of some length, the
    pointer into it an offset that runs on beyond the end of the buffer, as in the
    source, except that it does not wrap around after 4 GB of output; a write that is
    not guarded and falls outside the memory is undefined, and so is an argument
    that is not of the type the directive asks for. The fields of
    [struct printf_spec] keep their widths: [field_width] and [precision] are 16
    bits wide and wrap around. *)

From stdpp Require Import strings.
From S2P Require Import Prelude Vsprintf.


(** A character constant. *)
Definition ch (s : string) : Z := List.hd 0 (chars s).

(** ** Data *)

Definition ZEROPAD : Z := 1.
Definition SIGN : Z := 2.
Definition PLUS : Z := 4.
Definition SPACE : Z := 8.
Definition LEFT : Z := 16.
Definition SMALL : Z := 32.
Definition SPECIAL : Z := 64.

Inductive format_type :=
| FORMAT_TYPE_NONE | FORMAT_TYPE_WIDTH | FORMAT_TYPE_PRECISION | FORMAT_TYPE_CHAR
| FORMAT_TYPE_STR | FORMAT_TYPE_PTR | FORMAT_TYPE_PERCENT_CHAR | FORMAT_TYPE_INVALID
| FORMAT_TYPE_LONG_LONG | FORMAT_TYPE_ULONG | FORMAT_TYPE_LONG | FORMAT_TYPE_UBYTE
| FORMAT_TYPE_BYTE | FORMAT_TYPE_USHORT | FORMAT_TYPE_SHORT | FORMAT_TYPE_UINT
| FORMAT_TYPE_INT | FORMAT_TYPE_NRCHARS | FORMAT_TYPE_SIZE_T | FORMAT_TYPE_PTRDIFF.

Record printf_spec := Spec {
  type : format_type;
  flags : Z;
  base : Z;
  qualifier : Z;
  field_width : Z;
  precision : Z
}.

Definition set_type (t : format_type) (s : printf_spec) : printf_spec :=
  Spec t (flags s) (base s) (qualifier s) (field_width s) (precision s).
Definition set_flags (f : Z) (s : printf_spec) : printf_spec :=
  Spec (type s) f (base s) (qualifier s) (field_width s) (precision s).
Definition set_base (b : Z) (s : printf_spec) : printf_spec :=
  Spec (type s) (flags s) b (qualifier s) (field_width s) (precision s).
Definition set_qualifier (q : Z) (s : printf_spec) : printf_spec :=
  Spec (type s) (flags s) (base s) q (field_width s) (precision s).
Definition set_field_width (w : Z) (s : printf_spec) : printf_spec :=
  Spec (type s) (flags s) (base s) (qualifier s) w (precision s).
Definition set_precision (p : Z) (s : printf_spec) : printf_spec :=
  Spec (type s) (flags s) (base s) (qualifier s) (field_width s) p.
Definition has (f : Z) (s : printf_spec) : bool := truth (Z.land (flags s) f).
Definition add_flag (f : Z) (s : printf_spec) : printf_spec := set_flags (u8 (Z.lor (flags s) f)) s.

(** An argument: [int], [long], [size_t] and [ptrdiff_t] are 32 bits wide on this
    processor; a pointer has an address and the bytes that can be read there. *)
Inductive arg := Word (z : Z) | LongLong (z : Z) | Ptr (addr : Z) (bytes : list Z).

(** The output: the memory at [buf], [str - buf], [end - buf]; the arguments that are
    left; what was stored through the pointers of ["%n"]. *)
Record out := Out { mem : list Z; str : Z; fin : Z; va : list arg; stored : list (Z * Z) }.

(** [if (str < end) *str = c; ++str]. *)
Definition put (c : Z) : M out unit := fun o =>
  if str o <? fin o then
    match buf_write (mem o) (Z.to_nat (str o)) [c] with
    | Some m => Some (tt, Out m (str o + 1) (fin o) (va o) (stored o))
    | None => None
    end
  else Some (tt, Out (mem o) (str o + 1) (fin o) (va o) (stored o)).

Fixpoint puts (l : list Z) : M out unit :=
  match l with
  | [] => mret tt
  | c :: l => put c;; puts l
  end.

Definition va_arg : M out arg := fun o =>
  match va o with
  | a :: l => Some (a, Out (mem o) (str o) (fin o) l (stored o))
  | [] => None
  end.
Definition va_word : M out Z := a ← va_arg; match a with Word z => mret (u32 z) | _ => ub end.
Definition va_long_long : M out Z := a ← va_arg; match a with LongLong z => mret (u64 z) | _ => ub end.
Definition va_ptr : M out (Z * list Z) := a ← va_arg; match a with Ptr p l => mret (p, l) | _ => ub end.

(** ** Digits *)

(** The digits, least significant first, as they are put into the buffer. *)
Definition put_dec_trunc (q : Z) : list Z :=
  let d1 := Z.land (Z.shiftr q 4) 0xf in
  let d2 := Z.land (Z.shiftr q 8) 0xf in
  let d3 := Z.shiftr q 12 in
  let d0 := u32 (6 * (d3 + d2 + d1) + Z.land q 0xf) in
  let q := Z.shiftr (u32 (d0 * 0xcd)) 11 in
  let d0 := u32 (d0 - 10 * q) in
  let d1 := u32 (q + 9 * d3 + 5 * d2 + d1) in
  u8 (d0 + 48) ::
  if negb (d1 =? 0) then
    let q := Z.shiftr (u32 (d1 * 0xcd)) 11 in
    let d1 := u32 (d1 - 10 * q) in
    let d2 := u32 (q + 2 * d2) in
    u8 (d1 + 48) ::
    if negb (d2 =? 0) || negb (d3 =? 0) then
      let q := Z.shiftr (u32 (d2 * 0xd)) 7 in
      let d2 := u32 (d2 - 10 * q) in
      let d3 := u32 (q + 4 * d3) in
      u8 (d2 + 48) ::
      if negb (d3 =? 0) then
        let q := Z.shiftr (u32 (d3 * 0xcd)) 11 in
        let d3 := u32 (d3 - 10 * q) in
        u8 (d3 + 48) :: if negb (q =? 0) then [u8 (q + 48)] else []
      else []
    else []
  else [].

Definition put_dec_full (q : Z) : list Z :=
  let d1 := Z.land (Z.shiftr q 4) 0xf in
  let d2 := Z.land (Z.shiftr q 8) 0xf in
  let d3 := Z.shiftr q 12 in
  let d0 := u32 (6 * (d3 + d2 + d1) + Z.land q 0xf) in
  let q := Z.shiftr (u32 (d0 * 0xcd)) 11 in
  let d0 := u32 (d0 - 10 * q) in
  let d1 := u32 (q + 9 * d3 + 5 * d2 + d1) in
  let q := Z.shiftr (u32 (d1 * 0xcd)) 11 in
  let d1 := u32 (d1 - 10 * q) in
  let d2 := u32 (q + 2 * d2) in
  let q := Z.shiftr (u32 (d2 * 0xd)) 7 in
  let d2 := u32 (d2 - 10 * q) in
  let d3 := u32 (q + 4 * d3) in
  let q := Z.shiftr (u32 (d3 * 0xcd)) 11 in
  let d3 := u32 (d3 - 10 * q) in
  [u8 (d0 + 48); u8 (d1 + 48); u8 (d2 + 48); u8 (d3 + 48); u8 (q + 48)].

(** The loop; four rounds are enough for 64 bits. *)
Fixpoint put_dec_loop (rounds : nat) (num : Z) : list Z :=
  match rounds with
  | O => []
  | S rounds =>
      if num <? 100000 then put_dec_trunc num
      else put_dec_full (num mod 100000) ++ put_dec_loop rounds (num / 100000)
  end.

Definition put_dec (num : Z) : list Z := put_dec_loop 4 num.

(** ["0123456789ABCDEF"]. *)
Definition hex_digits : list Z := chars "0123456789ABCDEF".

(** The loop for base 8 and 16; 22 rounds are enough for 64 bits. *)
Fixpoint radix_loop (rounds : nat) (shift mask locase num : Z) : list Z :=
  match rounds with
  | O => []
  | S rounds =>
      Z.lor (hex_digits !!! Z.to_nat (Z.land (u8 num) mask)) locase ::
      let num := Z.shiftr num shift in
      if num =? 0 then [] else radix_loop rounds shift mask locase num
  end.

(** ** number, string *)

(** [while (k <= --w)], putting [c]: what [w] is afterwards. A width of 16 bits is
    used up in at most 32768 rounds. *)
Fixpoint pad_loop (rounds : nat) (k c w : Z) : M out Z :=
  match rounds with
  | O => ub
  | S rounds =>
      let w := s16 (w - 1) in
      if k <=? w then put c;; pad_loop rounds k c w else mret w
  end.
Definition ROUNDS : nat := Z.to_nat 32769.
Definition pad : Z -> Z -> Z -> M out Z := pad_loop ROUNDS.

(** [while (len < w--)]. *)
Fixpoint pad_post_loop (rounds : nat) (len c w : Z) : M out Z :=
  match rounds with
  | O => ub
  | S rounds => if len <? w then put c;; pad_post_loop rounds len c (s16 (w - 1)) else mret (s16 (w - 1))
  end.
Definition pad_post : Z -> Z -> Z -> M out Z := pad_post_loop ROUNDS.

(** The sign, the absolute value and the width that is left. *)
Definition take_sign (num : Z) (spec : printf_spec) : Z * Z * Z :=
  let w := field_width spec in
  if has SIGN spec then
    if s64 num <? 0 then (ch "-", u64 (- s64 num), s16 (w - 1))
    else if has PLUS spec then (ch "+", num, s16 (w - 1))
    else if has SPACE spec then (ch " ", num, s16 (w - 1))
    else (0, num, w)
  else (0, num, w).

(** [tmp], least significant digit first. *)
Definition number_digits (base locase num : Z) : list Z :=
  if num =? 0 then [ch "0"]
  else if negb (base =? 10) then radix_loop 22 (if base =? 16 then 4 else 3) (base - 1) locase num
  else put_dec num.

Definition number (num : Z) (spec : printf_spec) : M out unit :=
  let need_pfx := has SPECIAL spec && negb (base spec =? 10) in
  let locase := Z.land (flags spec) SMALL in
  let spec := if has LEFT spec then set_flags (Z.land (flags spec) (u8 (Z.lnot ZEROPAD))) spec else spec in
  let '(sign, num, w) := take_sign num spec in
  let w := if need_pfx then (let w := s16 (w - 1) in if base spec =? 16 then s16 (w - 1) else w) else w in
  let tmp := number_digits (base spec) locase num in
  let i := Z.of_nat (length tmp) in
  let p := if precision spec <? i then i else precision spec in
  let w := s16 (w - p) in
  w ← (if negb (truth (Z.land (flags spec) (ZEROPAD + LEFT))) then pad 0 (ch " ") w else mret w);
  (if truth sign then put sign else mret tt);;
  (if need_pfx then
     put (ch "0");;
     if base spec =? 16 then put (Z.lor (ch "X") locase) else mret tt
   else mret tt);;
  w ← (if negb (has LEFT spec) then pad 0 (if has ZEROPAD spec then ch "0" else ch " ") w else mret w);
  _ ← pad i (ch "0") p;
  puts (rev tmp);;
  _ ← pad 0 (ch " ") w;
  mret tt.

(** [strnlen]: the characters before the terminator, [count] at most; [None]: a read
    outside the memory. *)
Fixpoint strn (count : nat) (s : list Z) : option (list Z) :=
  match count with
  | O => Some []
  | S count =>
      match s with
      | [] => None
      | c :: s => if c =? 0 then Some [] else l ← strn count s; Some (c :: l)
      end
  end.

Definition PAGE_SIZE : Z := 4096.

(** A precision of -1 becomes the largest [size_t]: no limit. *)
Definition string (p : Z * list Z) (spec : printf_spec) : M out unit :=
  let s := if fst p <? PAGE_SIZE then chars "(null)" ++ [0] else snd p in
  l ← lift_opt (strn (if precision spec <? 0 then S (length s) else Z.to_nat (precision spec)) s);
  let len := Z.of_nat (length l) in
  w ← (if negb (has LEFT spec) then pad_post len (ch " ") (field_width spec) else mret (field_width spec));
  puts l;;
  _ ← pad_post len (ch " ") w;
  mret tt.

(** A text in a local array of [n] bytes, with its terminator; arrays are far above
    the first page. *)
Definition local (n : nat) (l : list Z) : M out (Z * list Z) :=
  if (length l <? n)%nat then mret (PAGE_SIZE, l ++ [0]) else ub.

(** ** pointer *)

(** [pack_hex_byte] (include/linux/kernel.h). *)
Definition hex_asc : list Z := chars "0123456789abcdef".
Definition hex_asc_lo (x : Z) : Z := hex_asc !!! Z.to_nat (Z.land x 0x0f).
Definition hex_asc_hi (x : Z) : Z := hex_asc !!! Z.to_nat (Z.shiftr (Z.land x 0xf0) 4).
Definition pack_hex_byte (byte : Z) : list Z := [hex_asc_hi byte; hex_asc_lo byte].

(** A character of the format, 0 beyond its end. *)
Definition at_ (fmt : list Z) (i : nat) : Z := default 0 (fmt !! i).

(** The first [n] bytes of what a pointer points to. *)
Definition bytes (n : nat) (l : list Z) : option (list Z) := buf_read l 0 n.

Definition mac_address_string (fmt : list Z) (p : Z * list Z) (spec : printf_spec) : M out unit :=
  let separator := if at_ fmt 1 =? ch "F" then ch "-" else ch ":" in
  addr ← lift_opt (bytes 6 (snd p));
  s ← local 18 (concat (imap (fun i b =>
    pack_hex_byte b ++ if (at_ fmt 0 =? ch "M") && negb (i =? 5)%nat then [separator] else []) addr));
  string s spec.

Definition ip4_string (addr : list Z) (fmt : list Z) : list Z :=
  let leading_zeros := at_ fmt 0 =? ch "i" in
  let quads := if at_ fmt 2 =? ch "l" then rev addr else addr in
  concat (imap (fun i q =>
    let temp := put_dec_trunc q in
    let digits := length temp in
    (if leading_zeros then
       (if (digits <? 3)%nat then [ch "0"] else []) ++ (if (digits <? 2)%nat then [ch "0"] else [])
     else []) ++ rev temp ++ (if (i <? 3)%nat then [ch "."] else [])) quads).

Definition ip4_addr_string (fmt : list Z) (p : Z * list Z) (spec : printf_spec) : M out unit :=
  addr ← lift_opt (bytes 4 (snd p));
  s ← local 16 (ip4_string addr fmt);
  string s spec.

(** Which 16-bit words are zero from the first one on. *)
Fixpoint zero_run (l : list Z) : Z :=
  match l with
  | w :: l => if w =? 0 then 1 + zero_run l else 0
  | [] => 0
  end.

(** The position of the longest run of zeros and its length, -1 and 1 if there is
    none of two or more: the loop over [zerolength] from word [i] on. *)
Fixpoint longest_run (words : list Z) (i longest colonpos : Z) : Z * Z :=
  match words with
  | _ :: rest =>
      let z := zero_run words in
      if longest <? z then longest_run rest (i + 1) z i else longest_run rest (i + 1) longest colonpos
  | [] => (colonpos, longest)
  end.

(** A word in hexadecimal without leading zeros. *)
Definition hex_word (word : Z) : list Z :=
  let hi := Z.shiftr word 8 in
  let lo := Z.land word 0xff in
  if truth hi then (if 0x0f <? hi then pack_hex_byte hi else [hex_asc_lo hi]) ++ pack_hex_byte lo
  else if 0x0f <? lo then pack_hex_byte lo
  else [hex_asc_lo lo].

(** The loop that emits the words: [skip] of them belong to the run that was written
    as two colons. The text and [needcolon]. *)
Fixpoint emit_words (words : list Z) (i colonpos longest : Z) (skip : nat) (needcolon : bool) : list Z * bool :=
  match words with
  | [] => ([], needcolon)
  | w :: words =>
      match skip with
      | S skip => emit_words words (i + 1) colonpos longest skip needcolon
      | O =>
          if i =? colonpos then
            let r := emit_words words (i + 1) colonpos longest (Z.to_nat (longest - 1)) false in
            ((if needcolon || (i =? 0) then [ch ":"] else []) ++ [ch ":"] ++ fst r, snd r)
          else
            let r := emit_words words (i + 1) colonpos longest 0 true in
            ((if needcolon then [ch ":"] else []) ++ hex_word w ++ fst r, snd r)
      end
  end.

(** The address as eight 16-bit words. *)
Fixpoint words16 (l : list Z) : list Z :=
  match l with
  | a :: b :: l => (a * 256 + b) :: words16 l
  | _ => []
  end.

Definition ipv6_addr_v4mapped (w : list Z) : bool :=
  bool_decide (take 6 w = [0; 0; 0; 0; 0; 0xffff]).
Definition ipv6_addr_is_isatap (w : list Z) : bool :=
  (Z.lor (w !!! 4%nat) 0x0200 =? 0x0200) && (w !!! 5%nat =? 0x5efe).

Definition ip6_compressed_string (addr : list Z) : list Z :=
  let w := words16 addr in
  let useIPv4 := ipv6_addr_v4mapped w || ipv6_addr_is_isatap w in
  let range := if useIPv4 then take 6 w else w in
  let '(colonpos, longest) := longest_run range 0 1 (-1) in
  let '(text, needcolon) := emit_words range 0 colonpos longest 0 false in
  text ++ if useIPv4 then (if needcolon then [ch ":"] else []) ++ ip4_string (drop 12 addr) (chars "I4") else [].

Definition ip6_string (addr fmt : list Z) : list Z :=
  concat (imap (fun i b => pack_hex_byte b ++
    if (at_ fmt 0 =? ch "I") && (i mod 2 =? 1)%nat && negb (i =? 15)%nat then [ch ":"] else []) addr).

Definition ip6_addr_string (fmt : list Z) (p : Z * list Z) (spec : printf_spec) : M out unit :=
  addr ← lift_opt (bytes 16 (snd p));
  s ← local 46 (if (at_ fmt 0 =? ch "I") && (at_ fmt 2 =? ch "c") then ip6_compressed_string addr
                else ip6_string addr fmt);
  string s spec.

Definition islower (c : Z) : bool := ((97 <=? c) && (c <=? 122)) || ((223 <=? c) && negb (c =? 247)).
Definition toupper (c : Z) : Z := if islower c then c - 32 else c.

Definition uuid_be : list nat := [0; 1; 2; 3; 4; 5; 6; 7; 8; 9; 10; 11; 12; 13; 14; 15]%nat.
Definition uuid_le : list nat := [3; 2; 1; 0; 5; 4; 7; 6; 8; 9; 10; 11; 12; 13; 14; 15]%nat.

Definition uuid_string (fmt : list Z) (p : Z * list Z) (spec : printf_spec) : M out unit :=
  let f := at_ fmt 1 in
  let uc := (f =? ch "L") || (f =? ch "B") in
  let index := if (f =? ch "L") || (f =? ch "l") then uuid_le else uuid_be in
  addr ← lift_opt (bytes 16 (snd p));
  let text := concat (imap (fun i k => pack_hex_byte (addr !!! k) ++
    if bool_decide (i ∈ [3; 5; 7; 9]%nat) then [ch "-"] else []) index) in
  s ← local 37 (if uc then map toupper text else text);
  string s spec.

Definition IORESOURCE_IO : Z := 0x00000100.
Definition IORESOURCE_MEM : Z := 0x00000200.
Definition IORESOURCE_IRQ : Z := 0x00000400.
Definition IORESOURCE_DMA : Z := 0x00000800.
Definition IORESOURCE_BUS : Z := 0x00001000.
Definition IORESOURCE_PREFETCH : Z := 0x00002000.
Definition IORESOURCE_MEM_64 : Z := 0x00100000.
Definition IORESOURCE_WINDOW : Z := 0x00200000.
Definition IORESOURCE_DISABLED : Z := 0x10000000.

Definition io_spec : printf_spec := Spec FORMAT_TYPE_NONE (Z.lor SPECIAL (Z.lor SMALL ZEROPAD)) 16 0 6 (-1).
Definition mem_spec : printf_spec := Spec FORMAT_TYPE_NONE (Z.lor SPECIAL (Z.lor SMALL ZEROPAD)) 16 0 10 (-1).
Definition bus_spec : printf_spec := Spec FORMAT_TYPE_NONE (Z.lor SMALL ZEROPAD) 16 0 2 (-1).
Definition dec_spec : printf_spec := Spec FORMAT_TYPE_NONE 0 10 0 0 (-1).
Definition str_spec : printf_spec := Spec FORMAT_TYPE_NONE LEFT 0 0 (-1) 10.
Definition flag_spec : printf_spec := Spec FORMAT_TYPE_NONE (Z.lor SPECIAL SMALL) 16 0 0 (-1).

(** [*p++ = c], not guarded. *)
Definition poke (c : Z) : M out unit := fun o =>
  match buf_write (mem o) (Z.to_nat (str o)) [c] with
  | Some m => Some (tt, Out m (str o + 1) (fin o) (va o) (stored o))
  | None => None
  end.

(** A string constant. *)
Definition const (l : list Z) : Z * list Z := (PAGE_SIZE, l ++ [0]).

(** The name of the kind, how its numbers are printed, and whether flags are decoded. *)
Definition resource_kind (raw : bool) (rflags : Z) : list Z * printf_spec * bool :=
  let flag f := truth (Z.land rflags f) in
  if flag IORESOURCE_IO then (chars "io  ", io_spec, negb raw)
  else if flag IORESOURCE_MEM then (chars "mem ", mem_spec, negb raw)
  else if flag IORESOURCE_IRQ then (chars "irq ", dec_spec, negb raw)
  else if flag IORESOURCE_DMA then (chars "dma ", dec_spec, negb raw)
  else if flag IORESOURCE_BUS then (chars "bus ", bus_spec, negb raw)
  else (chars "??? ", mem_spec, false).

Definition resource_text (raw : bool) (start end_ rflags : Z) : M out unit :=
  let flag f := truth (Z.land rflags f) in
  let '(name, spec, decode) := resource_kind raw rflags in
  let when (b : bool) (l : list Z) := if b then string (const l) str_spec else mret tt in
  poke (ch "[");;
  string (const name) str_spec;;
  number start spec;;
  (if negb (start =? end_) then poke (ch "-");; number end_ spec else mret tt);;
  (if decode then
     when (flag IORESOURCE_MEM_64) (chars " 64bit");;
     when (flag IORESOURCE_PREFETCH) (chars " pref");;
     when (flag IORESOURCE_WINDOW) (chars " window");;
     when (flag IORESOURCE_DISABLED) (chars " disabled")
   else string (const (chars " flags ")) str_spec;; number rflags flag_spec);;
  poke (ch "]");;
  poke 0.

(** The array [sym] of [resource_string] has 59 bytes; [struct resource] begins with
    the words [start], [end], [name] and [flags]. *)
Definition RSRC_SYM : nat := 59.

Definition word_at (l : list Z) (i : nat) : option Z :=
  match buf_read l i 4 with Some [a; b; c; d] => Some (be32 a b c d) | _ => None end.

Definition resource_string (fmt : list Z) (p : Z * list Z) (spec : printf_spec) : M out unit :=
  start ← lift_opt (word_at (snd p) 0);
  end_ ← lift_opt (word_at (snd p) 4);
  rflags ← lift_opt (word_at (snd p) 12);
  let sym := Out (replicate RSRC_SYM 0) 0 (Z.of_nat RSRC_SYM) [] [] in
  o ← lift_opt (exec (resource_text (negb (at_ fmt 0 =? ch "R")) start end_ rflags) sym);
  string (PAGE_SIZE, mem o) spec.

(** ** format_decode *)

(** The value and the rest of the text; a sum that does not fit an [int] is
    undefined. *)
Fixpoint skip_atoi (i : Z) (s : list Z) : option (Z * list Z) :=
  match s with
  | c :: rest => if is_digit c then i ← sint (i * 10 + c - 48); skip_atoi i rest else Some (i, s)
  | [] => Some (i, s)
  end.

(** The loop over the flags; the first character is skipped without a look. *)
Fixpoint flags_loop (fl : Z) (fmt : list Z) : Z * list Z :=
  match fmt with
  | [] => (fl, [])
  | c :: rest =>
      if c =? ch "-" then flags_loop (Z.lor fl LEFT) rest
      else if c =? ch "+" then flags_loop (Z.lor fl PLUS) rest
      else if c =? ch " " then flags_loop (Z.lor fl SPACE) rest
      else if c =? ch "#" then flags_loop (Z.lor fl SPECIAL) rest
      else if c =? ch "0" then flags_loop (Z.lor fl ZEROPAD) rest
      else (fl, fmt)
  end.

(** What the type of an integer is, from the qualifier and the flags. *)
Definition integer_type (spec : printf_spec) : format_type :=
  let q := qualifier spec in
  let pick (s u : format_type) := if has SIGN spec then s else u in
  if q =? ch "L" then FORMAT_TYPE_LONG_LONG
  else if q =? ch "l" then pick FORMAT_TYPE_LONG FORMAT_TYPE_ULONG
  else if TOLOWER q =? ch "z" then FORMAT_TYPE_SIZE_T
  else if q =? ch "t" then FORMAT_TYPE_PTRDIFF
  else if q =? ch "H" then pick FORMAT_TYPE_BYTE FORMAT_TYPE_UBYTE
  else if q =? ch "h" then pick FORMAT_TYPE_SHORT FORMAT_TYPE_USHORT
  else pick FORMAT_TYPE_INT FORMAT_TYPE_UINT.

(** From the label [qualifier] on: the rest of the format and the specification. *)
Definition decode_qualifier (fmt : list Z) (spec : printf_spec) : list Z * printf_spec :=
  let spec := set_qualifier 255 spec in
  let c := at_ fmt 0 in
  let '(fmt, spec) :=
    if (c =? ch "h") || (TOLOWER c =? ch "l") || (TOLOWER c =? ch "z") || (c =? ch "t") then
      let fmt := drop 1 fmt in
      if c =? at_ fmt 0 then
        if c =? ch "l" then (drop 1 fmt, set_qualifier (ch "L") spec)
        else if c =? ch "h" then (drop 1 fmt, set_qualifier (ch "H") spec)
        else (fmt, set_qualifier c spec)
      else (fmt, set_qualifier c spec)
    else (fmt, spec) in
  let spec := set_base 10 spec in
  let c := at_ fmt 0 in
  let integer spec := (drop 1 fmt, set_type (integer_type spec) spec) in
  if c =? ch "c" then (drop 1 fmt, set_type FORMAT_TYPE_CHAR spec)
  else if c =? ch "s" then (drop 1 fmt, set_type FORMAT_TYPE_STR spec)
  else if c =? ch "p" then (fmt, set_type FORMAT_TYPE_PTR spec)
  else if c =? ch "n" then (drop 1 fmt, set_type FORMAT_TYPE_NRCHARS spec)
  else if c =? ch "%" then (drop 1 fmt, set_type FORMAT_TYPE_PERCENT_CHAR spec)
  else if c =? ch "o" then integer (set_base 8 spec)
  else if c =? ch "x" then integer (set_base 16 (add_flag SMALL spec))
  else if c =? ch "X" then integer (set_base 16 spec)
  else if (c =? ch "d") || (c =? ch "i") then integer (add_flag SIGN spec)
  else if c =? ch "u" then integer spec
  else (fmt, set_type FORMAT_TYPE_INVALID spec).

(** From the label [precision] on. *)
Definition decode_precision (fmt : list Z) (spec : printf_spec) : option (list Z * printf_spec) :=
  let spec := set_precision (-1) spec in
  if at_ fmt 0 =? ch "." then
    let fmt := drop 1 fmt in
    if is_digit (at_ fmt 0) then
      r ← skip_atoi 0 fmt;
      let p := s16 (fst r) in
      Some (decode_qualifier (snd r) (set_precision (if p <? 0 then 0 else p) spec))
    else if at_ fmt 0 =? ch "*" then Some (drop 1 fmt, set_type FORMAT_TYPE_PRECISION spec)
    else Some (decode_qualifier fmt spec)
  else Some (decode_qualifier fmt spec).

(** Text up to the next directive. *)
Fixpoint literal_part (fmt : list Z) : list Z * list Z :=
  match fmt with
  | c :: rest => if c =? ch "%" then ([], fmt) else let r := literal_part rest in (c :: fst r, snd r)
  | [] => ([], [])
  end.

(** A token that begins: text, or flags and width of a directive. *)
Definition decode_start (fmt : list Z) (spec : printf_spec) : option (list Z * printf_spec) :=
  let spec := set_type FORMAT_TYPE_NONE spec in
  let '(lit, rest) := literal_part fmt in
  if negb (length lit =? 0)%nat || (length rest =? 0)%nat then Some (rest, spec)
  else
    let '(fl, fmt) := flags_loop 0 (drop 1 rest) in
    let spec := set_field_width (-1) (set_flags fl spec) in
    if is_digit (at_ fmt 0) then
      r ← skip_atoi 0 fmt;
      decode_precision (snd r) (set_field_width (s16 (fst r)) spec)
    else if at_ fmt 0 =? ch "*" then Some (drop 1 fmt, set_type FORMAT_TYPE_WIDTH spec)
    else decode_precision fmt spec.

(** The format after the token, in the place of the number of characters read. *)
Definition format_decode (fmt : list Z) (spec : printf_spec) : option (list Z * printf_spec) :=
  match type spec with
  | FORMAT_TYPE_WIDTH =>
      let spec := if field_width spec <? 0
                  then add_flag LEFT (set_field_width (s16 (- field_width spec)) spec) else spec in
      decode_precision fmt (set_type FORMAT_TYPE_NONE spec)
  | FORMAT_TYPE_PRECISION =>
      let spec := if precision spec <? 0 then set_precision 0 spec else spec in
      Some (decode_qualifier fmt (set_type FORMAT_TYPE_NONE spec))
  | _ => decode_start fmt spec
  end.

(** ** vsnprintf *)

Definition isalnum (c : Z) : bool :=
  is_digit c || ((65 <=? c) && (c <=? 90)) || ((97 <=? c) && (c <=? 122)) ||
  ((192 <=? c) && negb (c =? 215) && negb (c =? 247)).

Fixpoint skip_alnum (fmt : list Z) : list Z :=
  match fmt with
  | c :: rest => if isalnum c then skip_alnum rest else fmt
  | [] => []
  end.

Section Print.
(** The text [sprint_symbol] or, without offset, [kallsyms_lookup] finds for an
    address, in tables that the build generates. *)
Context (symbol : bool -> Z -> list Z).

Definition KSYM_SYMBOL_LEN : nat := 225.

Definition symbol_string (ext : Z) (p : Z * list Z) (spec : printf_spec) : M out unit :=
  s ← local KSYM_SYMBOL_LEN (symbol (negb (ext =? ch "f") && negb (ext =? ch "s")) (fst p));
  string s spec.

(** [fmt] is what follows the p. *)
Definition pointer (fmt : list Z) (p : Z * list Z) (spec : printf_spec) : M out unit :=
  let c := at_ fmt 0 in
  let plain :=
    let spec := add_flag SMALL spec in
    let spec := if field_width spec =? -1 then add_flag ZEROPAD (set_field_width 8 spec) else spec in
    number (fst p) (set_base 16 spec) in
  if fst p =? 0 then string (const (chars "(null)")) spec
  else if bool_decide (c ∈ chars "FfSs") then symbol_string c p spec
  else if bool_decide (c ∈ chars "Rr") then resource_string fmt p spec
  else if bool_decide (c ∈ chars "Mm") then mac_address_string fmt p spec
  else if bool_decide (c ∈ chars "Ii") then
    if at_ fmt 1 =? ch "6" then ip6_addr_string fmt p spec
    else if at_ fmt 1 =? ch "4" then ip4_addr_string fmt p spec
    else plain
  else if c =? ch "U" then uuid_string fmt p spec
  else plain.

(** The argument of an integer directive, as [unsigned long long]. *)
Definition integer_arg (t : format_type) : M out Z :=
  match t with
  | FORMAT_TYPE_LONG_LONG => va_long_long
  | FORMAT_TYPE_LONG | FORMAT_TYPE_PTRDIFF | FORMAT_TYPE_INT => z ← va_word; mret (u64 (s32 z))
  | FORMAT_TYPE_UBYTE => z ← va_word; mret (u8 z)
  | FORMAT_TYPE_BYTE => z ← va_word; mret (u64 (s8 z))
  | FORMAT_TYPE_USHORT => z ← va_word; mret (u16 z)
  | FORMAT_TYPE_SHORT => z ← va_word; mret (u64 (s16 z))
  | _ => va_word
  end.

(** The cases of the loop: [old] is the format before the token, [fmt] after it; the
    format and the specification to go on with. The [memcpy] of a text, which is cut at
    [end], does what putting its characters one by one does. *)
Definition directive (old fmt : list Z) (spec : printf_spec) : M out (list Z * printf_spec) :=
  match type spec with
  | FORMAT_TYPE_NONE => puts (take (length old - length fmt) old);; mret (fmt, spec)
  | FORMAT_TYPE_WIDTH => z ← va_word; mret (fmt, set_field_width (s16 z) spec)
  | FORMAT_TYPE_PRECISION => z ← va_word; mret (fmt, set_precision (s16 z) spec)
  | FORMAT_TYPE_CHAR =>
      w ← (if negb (has LEFT spec) then pad 1 (ch " ") (field_width spec) else mret (field_width spec));
      c ← va_word;
      put (u8 c);;
      w ← pad 1 (ch " ") w;
      mret (fmt, set_field_width w spec)
  | FORMAT_TYPE_STR => p ← va_ptr; string p spec;; mret (fmt, spec)
  | FORMAT_TYPE_PTR => p ← va_ptr; pointer (drop 1 fmt) p spec;; mret (skip_alnum fmt, spec)
  | FORMAT_TYPE_PERCENT_CHAR | FORMAT_TYPE_INVALID => put (ch "%");; mret (fmt, spec)
  | FORMAT_TYPE_NRCHARS =>
      p ← va_ptr;
      modify (fun o => Out (mem o) (str o) (fin o) (va o) ((fst p, s32 (str o)) :: stored o));;
      mret (fmt, spec)
  | t => num ← integer_arg t; number num spec;; mret (fmt, spec)
  end.

(** The loop; every round takes characters off the format, or the round before read
    a width or a precision, see [loop_enough]. *)
Fixpoint print_loop (rounds : nat) (fmt : list Z) (spec : printf_spec) : M out unit :=
  match fmt with
  | [] => mret tt
  | _ =>
      match rounds with
      | O => ub
      | S rounds =>
          r ← lift_opt (format_decode fmt spec);
          r ← directive fmt (fst r) (snd r);
          print_loop rounds (fst r) (snd r)
      end
  end.

Definition rounds_for (fmt : list Z) : nat := 2 * length fmt + 1.

Definition spec0 : printf_spec := Spec FORMAT_TYPE_NONE 0 0 0 0 0.

(** The result, the memory at [buf] and what ["%n"] stored; [buf] is the address, and
    a buffer that would wrap around the address space is cut at its end. *)
Definition vsnprintf (buf size : Z) (m : list Z) (fmt : list Z) (args : list arg)
  : option (Z * list Z * list (Z * Z)) :=
  if s32 size <? 0 then Some (0, m, [])
  else
    let size := if u32 (buf + size) <? buf then 2 ^ 32 - 1 - buf else size in
    o ← exec (print_loop (rounds_for fmt) fmt spec0) (Out m 0 size args []);
    m' ← (if 0 <? size then buf_write (mem o) (Z.to_nat (if str o <? size then str o else size - 1)) [0]
          else Some (mem o));
    Some (s32 (str o), m', stored o).

Definition vscnprintf (buf size : Z) (m : list Z) (fmt : list Z) (args : list arg)
  : option (Z * list Z * list (Z * Z)) :=
  r ← vsnprintf buf size m fmt args;
  let '(i, m, st) := r in
  Some (if size <=? u32 i then s32 (size - 1) else i, m, st).

Definition INT_MAX : Z := 2 ^ 31 - 1.
Definition vsprintf (buf : Z) : list Z -> list Z -> list arg -> option (Z * list Z * list (Z * Z)) :=
  vsnprintf buf INT_MAX.
End Print.
