(* ===== verification/FormatProps.v ===== *)
(** * Formatted output: theorems

    The digits that [put_dec] computes without division are those of the number;
    [number] lays out sign, prefix, padding and digits as the directive asks; and
    [vsnprintf] writes the beginning of one and the same text whatever the size of
    the buffer is, with a terminator, and nothing behind it. *)

From stdpp Require Import strings.
From S2P Require Import Prelude Vsprintf Format.

(** ** Decimal digits *)

(** Linear arithmetic with division by constants. *)
Ltac div_lia := Z.to_euclidean_division_equations; lia.

(** The multiplications stand for divisions by ten. *)
Lemma mul_cd x : 0 <= x < 1024 -> Z.shiftr (u32 (x * 0xcd)) 11 = x / 10.
Proof. intros Hx. rewrite u32_small by (unfold is_u32; lia). rewrite Z.shiftr_div_pow2 by lia. change (2 ^ 11) with 2048. div_lia. Qed.

Lemma mul_d x : 0 <= x < 69 -> Z.shiftr (u32 (x * 0xd)) 7 = x / 10.
Proof. intros Hx. rewrite u32_small by (unfold is_u32; lia). rewrite Z.shiftr_div_pow2 by lia. change (2 ^ 7) with 128. div_lia. Qed.

(** A number below 100000 in its hexadecimal digits. *)
Lemma nibbles q : 0 <= q < 100000 -> exists d3 d2 d1 d0,
  Z.shiftr q 12 = d3 /\ Z.land (Z.shiftr q 8) 0xf = d2 /\ Z.land (Z.shiftr q 4) 0xf = d1 /\ Z.land q 0xf = d0 /\
  q = 4096 * d3 + 256 * d2 + 16 * d1 + d0 /\ 0 <= d3 <= 24 /\ 0 <= d2 < 16 /\ 0 <= d1 < 16 /\ 0 <= d0 < 16.
Proof.
  intros Hq. change 0xf with (Z.ones 4). rewrite !Z.land_ones, !Z.shiftr_div_pow2 by lia.
  change (2 ^ 4) with 16. change (2 ^ 8) with 256. change (2 ^ 12) with 4096.
  eexists _, _, _, _. split; [done|]. split; [done|]. split; [done|]. split; [done|]. div_lia.
Qed.

(** The places as the code computes them. *)
Lemma places q : 0 <= q < 100000 ->
  let d1 := Z.land (Z.shiftr q 4) 0xf in let d2 := Z.land (Z.shiftr q 8) 0xf in let d3 := Z.shiftr q 12 in
  let a := u32 (6 * (d3 + d2 + d1) + Z.land q 0xf) in
  let b := u32 (Z.shiftr (u32 (a * 0xcd)) 11 + 9 * d3 + 5 * d2 + d1) in
  let c := u32 (Z.shiftr (u32 (b * 0xcd)) 11 + 2 * d2) in
  let d := u32 (Z.shiftr (u32 (c * 0xd)) 7 + 4 * d3) in
  u8 (u32 (a - 10 * Z.shiftr (u32 (a * 0xcd)) 11) + 48) = 48 + q mod 10 /\
  u8 (u32 (b - 10 * Z.shiftr (u32 (b * 0xcd)) 11) + 48) = 48 + q / 10 mod 10 /\
  u8 (u32 (c - 10 * Z.shiftr (u32 (c * 0xd)) 7) + 48) = 48 + q / 100 mod 10 /\
  u8 (u32 (d - 10 * Z.shiftr (u32 (d * 0xcd)) 11) + 48) = 48 + q / 1000 mod 10 /\
  Z.shiftr (u32 (d * 0xcd)) 11 = q / 10000 /\
  d = q / 1000 /\ (b = 0 <-> q < 10) /\ (c = 0 /\ d3 = 0 <-> q < 100).
Proof.
  intros Hq. destruct (nibbles q Hq) as (d3 & d2 & d1 & d0 & E3 & E2 & E1 & E0 & Eq & ? & ? & ? & ?).
  cbn zeta. rewrite E3, E2, E1, E0. rewrite (u32_small (6 * _ + _)) by (unfold is_u32; lia).
  set (a := 6 * (d3 + d2 + d1) + d0). assert (0 <= a <= 339) by lia. rewrite mul_cd by lia. assert (0 <= a / 10 <= 33) by div_lia.
  rewrite (u32_small (a / 10 + _ + _ + _)) by (unfold is_u32; lia). set (b := a / 10 + 9 * d3 + 5 * d2 + d1).
  assert (0 <= b <= 339) by lia. rewrite mul_cd by lia. assert (0 <= b / 10 <= 33) by div_lia.
  rewrite (u32_small (b / 10 + 2 * d2)) by (unfold is_u32; lia). set (c := b / 10 + 2 * d2).
  assert (0 <= c <= 63) by lia. rewrite mul_d by lia. assert (0 <= c / 10 <= 6) by div_lia.
  rewrite (u32_small (c / 10 + 4 * d3)) by (unfold is_u32; lia). set (d := c / 10 + 4 * d3).
  rewrite mul_cd by lia. rewrite !(u32_small (_ - _)) by (unfold is_u32; div_lia). unfold u8.
  rewrite !Z.mod_small by div_lia.
  assert (q / 10 = b + 400 * d3 + 20 * d2 /\ q mod 10 = a mod 10) as [Q1 Q0] by div_lia.
  assert (q / 100 = q / 10 / 10) as E100 by (by rewrite Z.div_div).
  assert (q / 100 = c + 40 * d3 /\ q / 10 mod 10 = b mod 10) as [Q2 Q1'] by (rewrite E100, Q1; div_lia).
  assert (q / 1000 = q / 100 / 10) as E1000 by (by rewrite Z.div_div).
  assert (q / 1000 = d /\ q / 100 mod 10 = c mod 10) as [Q3 Q2'] by (rewrite E1000, Q2; div_lia).
  assert (q / 10000 = q / 1000 / 10) as -> by (by rewrite Z.div_div).
  rewrite Q3, Q0, Q1', Q2'. split_and!; div_lia.
Qed.

(** The digit at each place, all five of them. *)
Lemma put_dec_full_digits q : 0 <= q < 100000 ->
  put_dec_full q = [48 + q mod 10; 48 + q / 10 mod 10; 48 + q / 100 mod 10; 48 + q / 1000 mod 10; 48 + q / 10000].
Proof.
  intros Hq. destruct (places q Hq) as (P0 & P1 & P2 & P3 & P4 & _). unfold put_dec_full. cbn zeta.
  rewrite P0, P1, P2, P3, P4. unfold u8. rewrite (Z.mod_small (q / 10000 + 48)) by div_lia. by rewrite (Z.add_comm (q / 10000)).
Qed.

Lemma put_dec_trunc_digits q : 0 <= q < 100000 -> put_dec_trunc q = rev (digits 5 q).
Proof.
  intros Hq. destruct (places q Hq) as (P0 & P1 & P2 & P3 & P4 & P5 & P6 & P7). unfold put_dec_trunc. cbn zeta.
  rewrite P0, P1, P2, P3, P4. rewrite P5. clear P0 P1 P2 P3 P4 P5. cbn [digits].
  destruct (Z.ltb_spec q 10) as [H1|H1].
  { rewrite (proj2 P6 H1). cbn. repeat f_equal. div_lia. }
  rewrite (proj2 (Z.eqb_neq _ 0)) by (intros E%P6; lia). cbn [negb]. rewrite rev_unit. f_equal.
  rewrite (Z.div_div q 10 10) by lia. change (10 * 10) with 100.
  destruct (Z.ltb_spec (q / 10) 10) as [H2|H2].
  { destruct (proj2 P7) as [-> ->]; [div_lia|]. cbn. repeat f_equal. div_lia. }
  rewrite rev_unit. match goal with |- _ :: (if ?b then _ else _) = _ => assert (b = true) as -> end.
  { apply not_false_iff_true. intros [Ec%negb_false_iff%Z.eqb_eq Ed%negb_false_iff%Z.eqb_eq]%orb_false_iff.
    assert (q < 100) by (apply P7; by split). div_lia. }
  f_equal. rewrite (Z.div_div q 100 10) by lia. change (100 * 10) with 1000.
  destruct (Z.ltb_spec (q / 100) 10) as [H3|H3].
  { replace (q / 1000) with 0 by div_lia. cbn. repeat f_equal. div_lia. }
  rewrite rev_unit, (proj2 (Z.eqb_neq (q / 1000) 0)) by div_lia. cbn [negb]. f_equal.
  rewrite (Z.div_div q 1000 10) by lia. change (1000 * 10) with 10000.
  destruct (Z.ltb_spec (q / 1000) 10) as [H4|H4].
  { replace (q / 10000) with 0 by div_lia. cbn. repeat f_equal. div_lia. }
  rewrite rev_unit, (proj2 (Z.eqb_neq (q / 10000) 0)) by div_lia. cbn [negb]. f_equal.
  rewrite (proj2 (Z.ltb_lt (q / 10000) 10)) by div_lia. cbn. unfold u8. rewrite Z.mod_small by div_lia. f_equal. lia.
Qed.

Lemma digits_more f f' : forall n, 0 <= n < 10 ^ Z.of_nat f -> (0 < f <= f')%nat -> digits f' n = digits f n.
Proof.
  revert f'. induction f as [|f IH]; intros f' n Hn Hf; [lia|]. destruct f' as [|f']; [lia|]. cbn [digits].
  destruct (Z.ltb_spec n 10) as [|H10]; [done|]. f_equal. rewrite Nat2Z.inj_succ, Z.pow_succ_r in Hn by lia.
  destruct f as [|f]; [change (10 ^ Z.of_nat 0) with 1 in Hn; lia|]. apply IH; [|lia].
  split; [apply Z.div_pos; lia|apply Z.div_lt_upper_bound; lia].
Qed.

(** The last five digits. *)
Lemma digits_split f n : 100000 <= n -> digits (5 + f) n = digits f (n / 100000) ++ rev (put_dec_full (n mod 100000)).
Proof.
  intros Hn. rewrite put_dec_full_digits by (apply Z.mod_pos_bound; lia). cbn [Nat.add digits rev app].
  rewrite (proj2 (Z.ltb_ge n 10)) by lia. rewrite !Z.div_div by lia.
  rewrite !(proj2 (Z.ltb_ge (n / _) 10)) by (apply Z.div_le_lower_bound; lia).
  change (10 * 10) with 100. change (100 * 10) with 1000. change (1000 * 10) with 10000. change (10000 * 10) with 100000.
  replace (n mod 100000 mod 10) with (n mod 10) by div_lia.
  replace (n mod 100000 / 10 mod 10) with (n / 10 mod 10) by div_lia.
  replace (n mod 100000 / 100 mod 10) with (n / 100 mod 10) by div_lia.
  replace (n mod 100000 / 1000 mod 10) with (n / 1000 mod 10) by div_lia.
  replace (n mod 100000 / 10000) with (n / 10000 mod 10) by div_lia.
  by rewrite <- !app_assoc.
Qed.

Lemma put_dec_loop_digits r : forall n, 0 <= n < 10 ^ (5 * Z.of_nat r) -> (0 < r)%nat ->
  put_dec_loop r n = rev (digits (5 * r) n).
Proof.
  induction r as [|r IH]; intros n Hn Hr; [lia|]. cbn [put_dec_loop]. destruct (Z.ltb_spec n 100000) as [Hs|Hs].
  - rewrite put_dec_trunc_digits by lia. f_equal. symmetry. apply digits_more; [|lia]. change (10 ^ Z.of_nat 5) with 100000. lia.
  - replace (5 * S r)%nat with (5 + 5 * r)%nat by lia. rewrite digits_split, rev_app_distr, rev_involutive by lia. f_equal.
    replace (5 * Z.of_nat (S r)) with (5 * Z.of_nat r + 5) in Hn by lia. rewrite Z.pow_add_r in Hn by lia. change (10 ^ 5) with 100000 in Hn.
    destruct r as [|r]; [change (10 ^ (5 * Z.of_nat 0)) with 1 in Hn; lia|].
    apply IH; [|lia]. split; [apply Z.div_pos; lia|apply Z.div_lt_upper_bound; lia].
Qed.

Lemma put_dec_digits n : 0 <= n < 2 ^ 64 -> put_dec n = rev (digits 20 n).
Proof. intros Hn. apply (put_dec_loop_digits 4); [|lia]. change (10 ^ (5 * Z.of_nat 4)) with (10 ^ 20). lia. Qed.

(** The division-free conversion to decimal, which works on hexadecimal digits
    with multiplications and shifts and in blocks of five, gives the decimal digits of
    every 64-bit number, the least significant first, without leading zeros. *)
Theorem put_dec_equiv n : 0 <= n < 2 ^ 64 -> put_dec n = rev (digits 20 n).
Proof. apply put_dec_digits. Qed.

Lemma put_dec_equiv_witness : put_dec (2 ^ 64 - 1) = rev (chars "18446744073709551615").
Proof. refine (put_dec_equiv (2 ^ 64 - 1) _). lia. Defined.

(** ** Output

    What a computation adds to the output: the part of [t] that lies before [end]. *)

Definition clip (p e : Z) (t : list Z) : list Z := take (Z.to_nat (e - p)) t.

Definition advance (t : list Z) (o : out) : out :=
  let p := Z.to_nat (str o) in
  let k := clip (str o) (fin o) t in
  Out (take p (mem o) ++ k ++ drop (p + length k) (mem o)) (str o + Z.of_nat (length t)) (fin o) (va o) (stored o).

(** The memory holds what is written of [t]. *)
Definition fits (t : list Z) (o : out) : Prop :=
  0 <= str o /\ (str o < fin o -> Z.min (str o + Z.of_nat (length t)) (fin o) <= Z.of_nat (length (mem o))).

Definition emits {A} (m : M out A) (a : A) (t : list Z) : Prop := forall o, fits t o -> m o = Some (a, advance t o).

Lemma clip_nil p e t : e <= p -> clip p e t = [].
Proof. intros H. unfold clip. by replace (Z.to_nat (e - p)) with 0%nat by lia. Qed.
Lemma clip_all p e t : p + Z.of_nat (length t) <= e -> clip p e t = t.
Proof. intros H. unfold clip. apply take_ge. lia. Qed.

Lemma advance_nil o : advance [] o = o.
Proof.
  destruct o as [m p e v st]. unfold advance, clip. cbn. rewrite take_nil. cbn [length]. rewrite Nat.add_0_r, app_nil_l, take_drop. f_equal. lia.
Qed.

Lemma fits_app t1 t2 o : fits (t1 ++ t2) o -> fits t1 o /\ fits t2 (advance t1 o).
Proof.
  intros [H0 H]. rewrite length_app in H. split; [split; [done|lia]|]. unfold fits, advance. cbn.
  split; [lia|]. intros Hlt. rewrite !length_app, length_take, length_drop. rewrite clip_all by lia. lia.
Qed.

Lemma advance_advance t1 t2 o : fits (t1 ++ t2) o -> advance t2 (advance t1 o) = advance (t1 ++ t2) o.
Proof.
  intros [H0 H]. destruct o as [m p e v st]. cbn in H0, H. rewrite length_app in H. unfold advance. cbn. rewrite length_app.
  f_equal; [|lia]. destruct (decide (p + Z.of_nat (length t1) < e)) as [Hlt|Hge].
  - rewrite (clip_all p e t1) by lia. unfold clip. rewrite (take_app t1 t2), (take_ge t1 (Z.to_nat (e - p))) by lia.
    replace (Z.to_nat (e - p) - length t1)%nat with (Z.to_nat (e - (p + Z.of_nat (length t1)))) by lia.
    set (k := take _ t2). replace (Z.to_nat (p + Z.of_nat (length t1))) with (Z.to_nat p + length t1)%nat by lia.
    rewrite (app_assoc (take (Z.to_nat p) m) t1), (take_app_length' (take (Z.to_nat p) m ++ t1)) by (rewrite length_app, length_take; lia).
    rewrite <- !app_assoc. do 3 f_equal. rewrite length_app, !drop_app_ge, !drop_drop by (rewrite ?length_app, ?length_take; lia).
    rewrite length_take. f_equal. lia.
  - rewrite (clip_nil _ _ t2) by lia. cbn [length app]. rewrite Nat.add_0_r, take_drop. unfold clip.
    rewrite take_app_le by lia. done.
Qed.

Lemma emits_ret {A} (a : A) : emits (mret a) a [].
Proof. intros o _. by rewrite advance_nil. Qed.

Lemma emits_bind {A B} (m : M out A) (f : A -> M out B) a b t1 t2 : emits m a t1 -> emits (f a) b t2 -> emits (m ≫= f) b (t1 ++ t2).
Proof. intros Hm Hf o Ho. destruct (fits_app _ _ _ Ho) as [H1 H2]. rewrite bind_unfold, Hm, Hf by done. by rewrite advance_advance. Qed.

Lemma put_emits c : emits (put c) tt [c].
Proof.
  intros o [H0 H]. unfold put, advance. destruct (Z.ltb_spec (str o) (fin o)).
  - rewrite clip_all, buf_write_Some by (cbn in *; lia). done.
  - rewrite clip_nil by done. cbn [length app]. by rewrite Nat.add_0_r, take_drop.
Qed.

Lemma puts_emits l : emits (puts l) tt l.
Proof. induction l as [|c l IH]; [apply emits_ret|]. exact (emits_bind _ _ _ _ [c] l (put_emits c) IH). Qed.

(** What the loops over a width put out, and what the width is afterwards. *)
Lemma s16_small z : - 2 ^ 15 <= z < 2 ^ 15 -> s16 z = z.
Proof. intros H. unfold s16. rewrite Z.mod_small by lia. lia. Qed.

Definition pads (k w : Z) : nat := Z.to_nat (s16 (w - 1) - k + 1).

Lemma pad_loop_emits r : forall k c w, - 2 ^ 15 < k -> s16 (w - 1) - k + 1 < Z.of_nat r -> (0 < r)%nat ->
  emits (pad_loop r k c w) (if k <=? s16 (w - 1) then k - 1 else s16 (w - 1)) (replicate (pads k w) c).
Proof.
  induction r as [|r IH]; intros k c w Hk Hr Hr0; [lia|]. cbn [pad_loop]. assert (- 2 ^ 15 <= s16 (w - 1) < 2 ^ 15) as Hb.
  { unfold s16. pose proof (Z.mod_pos_bound (w - 1 + 2 ^ 15) (2 ^ 16)). lia. }
  unfold pads. destruct (Z.leb_spec k (s16 (w - 1))) as [Hle|Hgt].
  - set (v := s16 (w - 1)) in *. assert (s16 (v - 1) = v - 1) as Ev by (apply s16_small; lia).
    replace (Z.to_nat (v - k + 1)) with (S (pads k v)) by (unfold pads; rewrite Ev; lia).
    change (replicate (S (pads k v)) c) with ([c] ++ replicate (pads k v) c).
    apply (emits_bind _ (fun _ => pad_loop r k c v) tt); [apply put_emits|].
    specialize (IH k c v Hk). rewrite Ev in IH. destruct (Z.leb_spec k (v - 1)); [apply IH; lia|].
    assert (v = k) as -> by lia. replace (k - 1) with (k - 1) by lia. apply IH; lia.
  - replace (Z.to_nat (s16 (w - 1) - k + 1)) with 0%nat by lia. apply emits_ret.
Qed.

Lemma pad_emits k c w : 0 <= k -> emits (pad k c w) (if k <=? s16 (w - 1) then k - 1 else s16 (w - 1)) (replicate (pads k w) c).
Proof.
  intros Hk. apply pad_loop_emits; [lia| |unfold ROUNDS; lia]. unfold ROUNDS. rewrite Z2Nat.id by lia.
  unfold s16. pose proof (Z.mod_pos_bound (w - 1 + 2 ^ 15) (2 ^ 16)). lia.
Qed.

(** ** Numbers

    A numeral in any base up to 16, in small letters if [locase] is [SMALL]. *)

Definition glyph (locase d : Z) : Z := if d <? 10 then 48 + d else (if locase =? 0 then 65 else 97) + (d - 10).

Fixpoint numeral (fuel : nat) (b locase n : Z) : list Z :=
  match fuel with
  | O => []
  | S fuel => if n <? b then [glyph locase n] else numeral fuel b locase (n / b) ++ [glyph locase (n mod b)]
  end.

Lemma numeral_ten f l : forall n, 0 <= n -> numeral f 10 l n = digits f n.
Proof.
  induction f as [|f IH]; intros n Hn; [done|]. cbn [numeral digits]. unfold glyph at 1 2. pose proof (Z.mod_pos_bound n 10 ltac:(lia)).
  rewrite (proj2 (Z.ltb_lt (n mod 10) 10)), IH by (try apply Z.div_pos; lia). by destruct (n <? 10).
Qed.

Lemma hex_glyph l d : l = 0 \/ l = SMALL -> 0 <= d < 16 -> Z.lor (hex_digits !!! Z.to_nat d) l = glyph l d.
Proof.
  intros Hl Hd. assert (Forall (fun d => Z.lor (hex_digits !!! d) l = glyph l (Z.of_nat d)) (seq 0 16)) as HF.
  { destruct Hl as [-> | ->]; by repeat constructor. }
  rewrite Forall_forall in HF. specialize (HF (Z.to_nat d)). rewrite Z2Nat.id in HF by lia. apply HF, elem_of_seq. lia.
Qed.

Lemma radix_numeral r sh l : l = 0 \/ l = SMALL -> 0 < sh <= 4 -> forall n, 0 <= n < 2 ^ (sh * Z.of_nat r) -> (0 < r)%nat ->
  radix_loop r sh (2 ^ sh - 1) l n = rev (numeral r (2 ^ sh) l n).
Proof.
  intros Hl Hsh. assert (1 < 2 ^ sh <= 16) as Hb.
  { split; [apply (Z.pow_lt_mono_r 2 0); lia|]. apply (Z.pow_le_mono_r 2 sh 4); lia. }
  assert (forall n, Z.land (u8 n) (2 ^ sh - 1) = n mod 2 ^ sh) as Emask.
  { intros n. unfold u8. replace (2 ^ sh - 1) with (Z.ones sh) by (rewrite Z.ones_equiv; lia).
    rewrite Z.land_ones by lia. apply Z.mod_mod_divide.
    exists (2 ^ (8 - sh)). rewrite <- Z.pow_add_r by lia. by replace (8 - sh + sh) with 8 by lia. }
  induction r as [|r IH]; intros n Hn Hr; [lia|]. cbn [radix_loop numeral]. rewrite Emask, Z.shiftr_div_pow2 by lia.
  pose proof (Z.mod_pos_bound n (2 ^ sh) ltac:(lia)). rewrite hex_glyph by (done || lia).
  destruct (Z.ltb_spec n (2 ^ sh)).
  - rewrite Z.div_small, Z.mod_small by lia. done.
  - assert (0 < n / 2 ^ sh) by (apply Z.div_str_pos; lia). rewrite (proj2 (Z.eqb_neq _ _)) by lia.
    rewrite rev_app_distr. cbn [rev app]. f_equal.
    assert (n / 2 ^ sh < 2 ^ (sh * Z.of_nat r)).
    { apply Z.div_lt_upper_bound; [lia|]. rewrite <- Z.pow_add_r by lia. replace (sh + sh * Z.of_nat r) with (sh * Z.of_nat (S r)) by lia. lia. }
    apply IH; [lia|]. destruct r; [|lia]. rewrite Z.mul_0_r in *. cbn in *. lia.
Qed.

Lemma number_digits_numeral b l n : b ∈ [8; 10; 16] -> l = 0 \/ l = SMALL -> 0 <= n < 2 ^ 64 ->
  number_digits b l n = rev (numeral 22 b l n).
Proof.
  intros Hb Hl Hn. unfold number_digits. destruct (Z.eqb_spec n 0) as [-> |Hz].
  { set_unfold in Hb. by destruct Hb as [-> |[-> |[-> | []]]]. }
  set_unfold in Hb. destruct Hb as [-> |[-> |[-> | []]]]; cbn [Z.eqb Pos.eqb negb].
  - apply (radix_numeral 22 3); lia || done.
  - rewrite numeral_ten, put_dec_digits by lia. by rewrite (digits_more 20 22) by lia.
  - apply (radix_numeral 22 4); lia || done.
Qed.

(** What a directive asks for: the sign, the prefix of [#], the digits, with zeros up
    to the precision, in a field of the given width. *)

Definition sign_text (num : Z) (spec : printf_spec) : list Z :=
  if has SIGN spec then
    if s64 num <? 0 then [ch "-"] else if has PLUS spec then [ch "+"] else if has SPACE spec then [ch " "] else []
  else [].

Definition magnitude (num : Z) (spec : printf_spec) : Z := if has SIGN spec then Z.abs (s64 num) else num.

Definition prefix_text (spec : printf_spec) : list Z :=
  if has SPECIAL spec && negb (base spec =? 10)
  then ch "0" :: (if base spec =? 16 then [if has SMALL spec then ch "x" else ch "X"] else []) else [].

Definition number_text (num : Z) (spec : printf_spec) : list Z :=
  let head := sign_text num spec ++ prefix_text spec in
  let ds := numeral 22 (base spec) (Z.land (flags spec) SMALL) (magnitude num spec) in
  let zeros := replicate (Z.to_nat (precision spec) - length ds) (ch "0") in
  let gap := (Z.to_nat (field_width spec) - length (head ++ zeros ++ ds))%nat in
  if has LEFT spec then head ++ zeros ++ ds ++ replicate gap (ch " ")
  else if has ZEROPAD spec then head ++ replicate gap (ch "0") ++ zeros ++ ds
  else replicate gap (ch " ") ++ head ++ zeros ++ ds.

Lemma land_SMALL f : Z.land f SMALL = 0 \/ Z.land f SMALL = SMALL.
Proof.
  destruct (Z.testbit f 5) eqn:E; [right|left]; apply Z.bits_inj'; intros k Hk; rewrite Z.land_spec, ?Z.bits_0;
    change SMALL with (2 ^ 5); (destruct (decide (k = 5)) as [-> |Hne];
    [rewrite E; by rewrite Z.pow2_bits_true by lia|rewrite Z.pow2_bits_false by lia; apply andb_false_r]).
Qed.

Lemma take_sign_text num spec : 0 <= num < 2 ^ 64 -> -1 <= field_width spec < 2 ^ 15 ->
  exists c, take_sign num spec = (c, magnitude num spec, field_width spec - Z.of_nat (length (sign_text num spec))) /\
    emits (if truth c then put c else mret tt) tt (sign_text num spec) /\ 0 <= magnitude num spec < 2 ^ 64 /\
    (length (sign_text num spec) <= 1)%nat.
Proof.
  intros Hn Hw. unfold take_sign, magnitude, sign_text. assert (- 2 ^ 63 <= s64 num < 2 ^ 63 /\ (0 <= s64 num -> s64 num = num)) as [Hs Hs'].
  { unfold s64. div_lia. }
  destruct (has SIGN spec); [|exists 0; rewrite Z.sub_0_r; repeat split; [apply emits_ret|lia..|cbn; lia]].
  rewrite s16_small by lia. destruct (Z.ltb_spec (s64 num) 0).
  - exists (ch "-"). unfold u64. rewrite Z.mod_small, Z.abs_neq by lia. repeat split; [apply put_emits|lia..|cbn; lia].
  - rewrite Z.abs_eq, Hs' by lia.
    destruct (has PLUS spec); [exists (ch "+")|destruct (has SPACE spec); [exists (ch " ")|exists 0; rewrite Z.sub_0_r]];
      repeat split; try apply put_emits; try apply emits_ret; cbn; lia.
Qed.

Lemma emits_eq {A} (m : M out A) a t t' : emits m a t -> t = t' -> emits m a t'.
Proof. by intros H <-. Qed.

Lemma pad_space c w : - 2 ^ 15 < w < 2 ^ 15 -> emits (pad 0 c w) (Z.min (w - 1) (-1)) (replicate (Z.to_nat w) c).
Proof.
  intros Hw. pose proof (pad_emits 0 c w ltac:(lia)) as H. unfold pads in H. rewrite s16_small in H by lia.
  replace (Z.to_nat (w - 1 - 0 + 1)) with (Z.to_nat w) in H by lia.
  destruct (Z.leb_spec 0 (w - 1)); [by rewrite Z.min_r by lia|by rewrite Z.min_l by lia].
Qed.

(** The padding of [number], around what is put out between. *)
Lemma number_padding (sign pfx : M out unit) st pt (left zero : bool) i p w ds :
  emits sign tt st -> emits pfx tt pt -> -32740 < w < 2 ^ 15 -> i = Z.of_nat (length ds) -> 0 < i <= p -> p < 2 ^ 15 -> left && zero = false ->
  let gap := Z.to_nat w in let zeros := replicate (Z.to_nat (p - i)) (ch "0") in
  emits (w ← (if negb (zero || left) then pad 0 (ch " ") w else mret w);
         sign;; pfx;;
         w ← (if negb left then pad 0 (if zero then ch "0" else ch " ") w else mret w);
         _ ← pad i (ch "0") p; puts ds;; _ ← pad 0 (ch " ") w; mret tt) tt
    (if left then st ++ pt ++ zeros ++ ds ++ replicate gap (ch " ")
     else if zero then st ++ pt ++ replicate gap (ch "0") ++ zeros ++ ds
     else replicate gap (ch " ") ++ st ++ pt ++ zeros ++ ds).
Proof.
  intros Hs Hpf Hw -> Hi Hp Hlz gap zeros. pose proof (pad_emits (Z.of_nat (length ds)) (ch "0") p ltac:(lia)) as Hz. unfold pads in Hz.
  rewrite s16_small in Hz by lia. replace (Z.to_nat (p - 1 - Z.of_nat (length ds) + 1)) with (Z.to_nat (p - Z.of_nat (length ds))) in Hz by lia. fold zeros in Hz.
  assert (forall c w, w <= 0 -> -32760 < w -> emits (pad 0 c w) (Z.min (w - 1) (-1)) []) as Hnone.
  { intros c w' Hw' Hw''. pose proof (pad_space c w' ltac:(lia)) as H. by replace (Z.to_nat w') with 0%nat in H by lia. }
  destruct left, zero; cbn in Hlz; try done; cbn [orb negb]; eapply emits_eq.
  all: try (eapply emits_bind; [apply emits_ret || (apply pad_space; lia)|]; cbv beta).
  all: try (eapply emits_bind; [exact Hs|]; eapply emits_bind; [exact Hpf|]).
  1,3,5: eapply emits_bind; [apply emits_ret || (apply Hnone; lia) || (apply pad_space; lia)|]; cbv beta.
  1,2,3: eapply emits_bind; [exact Hz|]; eapply emits_bind; [apply puts_emits|].
  1,2,3: eapply emits_bind; [(apply Hnone; lia) || (apply pad_space; lia)|]; apply emits_ret.
  all: cbn [app]; rewrite ?app_nil_r; done.
Qed.

(** Clearing [ZEROPAD] changes none of the other flags. *)
Lemma has_clear F spec : Z.land 254 F = F -> has F (set_flags (Z.land (flags spec) (u8 (Z.lnot ZEROPAD))) spec) = has F spec.
Proof.
  intros HF. unfold has, set_flags. cbn [flags]. change (u8 (Z.lnot ZEROPAD)) with 254. by rewrite <- Z.land_assoc, HF.
Qed.

Lemma has_both spec : truth (Z.land (flags spec) (ZEROPAD + LEFT)) = has ZEROPAD spec || has LEFT spec.
Proof.
  unfold has, truth. change (ZEROPAD + LEFT) with (Z.lor ZEROPAD LEFT). rewrite Z.land_lor_distr_r.
  destruct (Z.eqb_spec (Z.land (flags spec) ZEROPAD) 0) as [-> |Hz]; [done|]. cbn. apply negb_true_iff, Z.eqb_neq.
  intros [? _]%Z.lor_eq_0_iff. done.
Qed.

Lemma numeral_length f b l n : (0 < f)%nat -> (0 < length (numeral f b l n) <= f)%nat.
Proof.
  revert n. induction f as [|f IH]; intros n Hf; [lia|]. cbn [numeral]. destruct (n <? b); [cbn; lia|].
  rewrite length_app. cbn [length]. destruct f; [cbn; lia|]. specialize (IH (n / b) ltac:(lia)). lia.
Qed.

Lemma prefix_emits spec l : l = Z.land (flags spec) SMALL ->
  emits (if has SPECIAL spec && negb (base spec =? 10)
         then put (ch "0");; if base spec =? 16 then put (Z.lor (ch "X") l) else mret tt else mret tt) tt (prefix_text spec).
Proof.
  intros ->. unfold prefix_text. destruct (has SPECIAL spec && negb (base spec =? 10)); [|apply emits_ret].
  destruct (base spec =? 16); (eapply emits_eq; [eapply emits_bind; [apply put_emits|]; apply put_emits || apply emits_ret|]); [|done].
  cbn [app]. do 2 f_equal. unfold has. by destruct (land_SMALL (flags spec)) as [-> | ->].
Qed.

(** Sign, prefix and digits of a number in a field, as long as the 16 bits of the
    width do not wrap around. *)
Definition number_ok (num : Z) (spec : printf_spec) : Prop :=
  0 <= num < 2 ^ 64 /\ base spec ∈ [8; 10; 16] /\ -1 <= field_width spec < 2 ^ 15 /\ -1 <= precision spec < 32700.

Lemma number_emits num spec : number_ok num spec -> emits (number num spec) tt (number_text num spec).
Proof.
  intros (Hn & Hb & Hw & Hp). unfold number. set (sp := if has LEFT spec then _ else spec).
  assert (base sp = base spec /\ precision sp = precision spec /\ field_width sp = field_width spec /\
    take_sign num sp = take_sign num spec /\ has LEFT sp = has LEFT spec /\ has LEFT sp && has ZEROPAD sp = false /\
    (has LEFT spec = false -> has ZEROPAD sp = has ZEROPAD spec)) as (-> & -> & Ew & -> & EL & ELZ & EZ).
  { unfold sp. destruct (has LEFT spec) eqn:E; [|by rewrite E]. repeat split; try done.
    - unfold take_sign. by rewrite !has_clear by done.
    - by rewrite has_clear.
    - apply andb_false_iff. right. unfold has, set_flags. cbn [flags]. change (u8 (Z.lnot ZEROPAD)) with 254.
      rewrite <- Z.land_assoc. change (Z.land 254 ZEROPAD) with 0. by rewrite Z.land_0_r. }
  destruct (take_sign_text num spec Hn Hw) as (c & -> & Hs & Hm & Hls). rewrite number_digits_numeral by (done || apply land_SMALL).
  set (ds := numeral 22 _ _ _). rewrite length_rev, rev_involutive, has_both.
  pose proof (numeral_length 22 (base spec) (Z.land (flags spec) SMALL) (magnitude num spec) ltac:(lia)) as Hd. fold ds in Hd.
  set (p := if precision spec <? _ then _ else _). assert (p = Z.max (precision spec) (Z.of_nat (length ds))) as Ep.
  { unfold p. destruct (Z.ltb_spec (precision spec) (Z.of_nat (length ds))); lia. }
  pose proof (prefix_emits spec _ eq_refl) as Hpf.
  match goal with |- context [s16 (?x - p)] => set (w0 := x) end.
  assert (w0 = field_width spec - Z.of_nat (length (sign_text num spec ++ prefix_text spec)) /\ (length (prefix_text spec) <= 2)%nat) as [Ew0 Hlp].
  { unfold w0, prefix_text. rewrite length_app. destruct (has SPECIAL spec && negb (base spec =? 10)); cbn [length]; [|lia].
    destruct (base spec =? 16); cbn [length]; rewrite !s16_small; rewrite ?s16_small; lia. }
  rewrite length_app in Ew0. rewrite s16_small by lia.
  eapply emits_eq; [apply (number_padding _ _ _ _ (has LEFT sp) (has ZEROPAD sp) (Z.of_nat (length ds)) p (w0 - p) ds Hs Hpf); lia || done|].
  unfold number_text. fold ds. rewrite !length_app, length_replicate. rewrite EL in *.
  replace (Z.to_nat (p - Z.of_nat (length ds))) with (Z.to_nat (precision spec) - length ds)%nat by lia.
  replace (Z.to_nat (w0 - p)) with (Z.to_nat (field_width spec) - (length (sign_text num spec) + length (prefix_text spec) +
    (Z.to_nat (precision spec) - length ds + length ds)))%nat by lia.
  destruct (has LEFT spec); [by rewrite <- !app_assoc|]. rewrite EZ by done. destruct (has ZEROPAD spec); by rewrite <- !app_assoc.
Qed.

(** C21: [number] puts out sign, prefix, zeros up to the precision and the digits of the
    number in its base, in a field of the width asked for: spaces before, spaces behind
    with [LEFT], zeros between sign and digits with [ZEROPAD]; what lies behind the end
    of the buffer is counted and not written. *)
Theorem number_layout num spec o : number_ok num spec -> fits (number_text num spec) o ->
  number num spec o = Some (tt, advance (number_text num spec) o).
Proof. intros Hok. by apply number_emits. Qed.

Lemma number_layout_witness :
  let spec := Spec FORMAT_TYPE_UINT (SPECIAL + SMALL + ZEROPAD) 16 0 10 (-1) in
  number 0xbeef spec (Out (replicate 16 0) 2 16 [] []) =
  Some (tt, Out ([0; 0] ++ chars "0x0000beef" ++ replicate 4 0) 12 16 [] []).
Proof.
  intros spec. refine (number_layout 0xbeef spec _ _ _).
  - split; [done|]. split; [apply (bool_decide_unpack _); vm_compute; exact I|done].
  - split; vm_compute; congruence.
Defined.

(** ** The same text for every buffer

    What a computation puts out, takes from the arguments and stores depends on the
    position, the arguments and the stores so far, and not on the memory or its end. *)

Definition moves (t : list Z) (v : list arg) (st : list (Z * Z)) (o : out) : out :=
  let o := advance t o in Out (mem o) (str o) (fin o) v st.

Definition seen (p : Z) (v : list arg) (st : list (Z * Z)) (o : out) : Prop := str o = p /\ va o = v /\ stored o = st.

(** The buffer lies in the memory. *)
Definition roomy (o : out) : Prop := fin o <= Z.of_nat (length (mem o)).

Definition uniform {A} (m : M out A) : Prop := forall p v st, 0 <= p ->
  (exists a t v' st', forall o, seen p v st o -> fits t o -> m o = Some (a, moves t v' st' o)) \/
  (forall o, seen p v st o -> roomy o -> m o = None).

Lemma roomy_fits t o : 0 <= str o -> roomy o -> fits t o.
Proof. unfold roomy, fits. lia. Qed.

Lemma advance_length t o : fits t o -> length (mem (advance t o)) = length (mem o).
Proof.
  intros [H0 H]. unfold advance. cbn. destruct (decide (str o < fin o)).
  - assert (length (clip (str o) (fin o) t) = Nat.min (Z.to_nat (fin o - str o)) (length t)) as E by apply length_take.
    rewrite !length_app, length_take, length_drop, E. lia.
  - rewrite clip_nil by lia. rewrite app_nil_l, Nat.add_0_r, take_drop. done.
Qed.

Lemma emits_uniform {A} (m : M out A) a t : emits m a t -> uniform m.
Proof. intros H p v st Hp. left. exists a, t, v, st. intros o (? & <- & <-) Ho. by rewrite H. Qed.

Lemma uniform_ub {A} : uniform (ub : M out A).
Proof. right. done. Qed.

Lemma uniform_ret {A} (a : A) : uniform (mret a : M out A).
Proof. exact (emits_uniform _ _ _ (emits_ret a)). Qed.

Lemma uniform_lift {A} (x : option A) : uniform (lift_opt x : M out A).
Proof. destruct x; [apply uniform_ret|apply uniform_ub]. Qed.

Lemma moves_moves t1 t2 v v' st st' o : fits (t1 ++ t2) o -> moves t2 v' st' (moves t1 v st o) = moves (t1 ++ t2) v' st' o.
Proof. intros Ho. unfold moves. by rewrite <- (advance_advance t1 t2 o Ho). Qed.

Lemma uniform_bind {A B} (m : M out A) (f : A -> M out B) : uniform m -> (forall a, uniform (f a)) -> uniform (m ≫= f).
Proof.
  intros Hm Hf p v st Hp. destruct (Hm p v st Hp) as [(a & t & v1 & st1 & H)|H].
  - destruct (Hf a (p + Z.of_nat (length t)) v1 st1 ltac:(lia)) as [(b & t' & v2 & st2 & H')|H'].
    + left. exists b, (t ++ t'), v2, st2. intros o Hs Ho. destruct (fits_app _ _ _ Ho) as [H1 H2]. rewrite bind_unfold, H by done.
      rewrite H', moves_moves; [done..| |done]. destruct Hs as (<- & _ & _). done.
    + right. intros o Hs Hr. assert (fits t o) as Ho by (destruct Hs as (<- & _); by apply roomy_fits).
      rewrite bind_unfold, H by done. apply H'; [by destruct Hs as (<- & _)|]. pose proof (advance_length t o Ho) as E.
      unfold roomy in *. change (fin o <= Z.of_nat (length (mem (advance t o)))). by rewrite E.
  - right. intros o Hs Hr. by rewrite bind_unfold, H.
Qed.

Create HintDb uniform discriminated.
#[export] Hint Constants Opaque : uniform.
#[export] Hint Resolve uniform_ub uniform_ret uniform_lift : uniform.

Lemma uniform_put c : uniform (put c).
Proof. exact (emits_uniform _ _ _ (put_emits c)). Qed.
Lemma uniform_puts l : uniform (puts l).
Proof. exact (emits_uniform _ _ _ (puts_emits l)). Qed.
#[export] Hint Resolve uniform_put uniform_puts : uniform.

(** Through binds, conditionals and matches. *)
Ltac uniform := cbv zeta; repeat lazymatch goal with
  | |- uniform (_ ≫= _) => apply uniform_bind; [|intros ?]
  | |- uniform (mret _) => apply uniform_ret
  | |- uniform (if ?b then _ else _) => destruct b
  | |- uniform (match ?x with _ => _ end) => destruct x
  | |- _ => solve [auto with uniform]
  end.

Lemma uniform_va_arg : uniform va_arg.
Proof.
  intros p v st Hp. destruct v as [|a v]; [right|left].
  - intros o (_ & E & _) _. unfold va_arg. by rewrite E.
  - exists a, [], v, st. intros o (<- & E & <-) Ho. unfold va_arg, moves. rewrite E, advance_nil. done.
Qed.
#[export] Hint Resolve uniform_va_arg : uniform.

Lemma uniform_va_word : uniform va_word.
Proof. unfold va_word. uniform. Qed.
Lemma uniform_va_long_long : uniform va_long_long.
Proof. unfold va_long_long. uniform. Qed.
Lemma uniform_va_ptr : uniform va_ptr.
Proof. unfold va_ptr. uniform. Qed.

Lemma uniform_pad k c w : uniform (pad k c w).
Proof. unfold pad. generalize ROUNDS. intros r. revert w. induction r as [|r IH]; intros w; cbn [pad_loop]; uniform. Qed.
Lemma uniform_pad_post k c w : uniform (pad_post k c w).
Proof. unfold pad_post. generalize ROUNDS. intros r. revert w. induction r as [|r IH]; intros w; cbn [pad_post_loop]; uniform. Qed.
Lemma uniform_local n l : uniform (local n l).
Proof. unfold local. uniform. Qed.
#[export] Hint Resolve uniform_va_word uniform_va_long_long uniform_va_ptr uniform_pad uniform_pad_post uniform_local : uniform.

Lemma uniform_number num spec : uniform (number num spec).
Proof. unfold number. destruct (take_sign _ _) as [[sign n] w]. uniform. Qed.
Lemma uniform_string p spec : uniform (string p spec).
Proof. unfold string. uniform. Qed.
#[export] Hint Resolve uniform_number uniform_string : uniform.

Lemma uniform_pointer symbol fmt p spec : uniform (pointer symbol fmt p spec).
Proof.
  unfold pointer, symbol_string, resource_string, mac_address_string, ip6_addr_string, ip4_addr_string, uuid_string. uniform.
Qed.
Lemma uniform_integer_arg t : uniform (integer_arg t).
Proof. unfold integer_arg. uniform. Qed.
#[export] Hint Resolve uniform_pointer uniform_integer_arg : uniform.

Lemma uniform_nrchars a : uniform (modify (fun o => Out (mem o) (str o) (fin o) (va o) ((a, s32 (str o)) :: stored o))).
Proof.
  intros p v st Hp. left. exists tt, [], v, ((a, s32 p) :: st). intros o (<- & <- & <-) _. unfold moves. by rewrite advance_nil.
Qed.
#[export] Hint Resolve uniform_nrchars : uniform.

Lemma uniform_directive symbol old fmt spec : uniform (directive symbol old fmt spec).
Proof. unfold directive. destruct (type spec); uniform. Qed.

Lemma uniform_print_loop symbol r : forall fmt spec, uniform (print_loop symbol r fmt spec).
Proof.
  induction r as [|r IH]; intros fmt spec; destruct fmt as [|c fmt]; cbn [print_loop]; uniform.
  apply uniform_directive.
Qed.

(** What is in the memory afterwards: as much of the text as there is room for, the
    terminator, and the rest as it was. *)
Definition terminated (size : Z) (t m : list Z) : list Z :=
  if size =? 0 then m
  else let k := take (Z.to_nat (size - 1)) t in k ++ 0 :: drop (S (length k)) m.

(** A buffer that lies in the memory and does not wrap around. *)
Definition buffer_ok (buf size : Z) (m : list Z) : Prop :=
  0 <= buf /\ 0 <= size < 2 ^ 31 /\ buf + size < 2 ^ 32 /\ size <= Z.of_nat (length m).

Lemma terminate t m size : 0 < size <= Z.of_nat (length m) ->
  let k := clip 0 size t in
  buf_write (k ++ drop (length k) m) (Z.to_nat (if Z.of_nat (length t) <? size then Z.of_nat (length t) else size - 1)) [0] =
  Some (terminated size t m).
Proof.
  intros Hs k. assert (length k = Nat.min (Z.to_nat (size - 0)) (length t)) as Hk by apply length_take. unfold terminated.
  rewrite (proj2 (Z.eqb_neq size 0)) by lia. set (i := if _ <? _ then _ else _).
  assert (i = Z.min (Z.of_nat (length t)) (size - 1)) as -> by (unfold i; destruct (Z.ltb_spec (Z.of_nat (length t)) size); lia).
  rewrite buf_write_Some by (rewrite length_app, length_drop; cbn [length]; lia). f_equal. cbn [app length].
  assert (take (Z.to_nat (size - 1)) t = take (Z.to_nat (Z.min (Z.of_nat (length t)) (size - 1))) k) as ->.
  { unfold k, clip. rewrite take_take. destruct (decide (Z.of_nat (length t) <= size - 1)); [|f_equal; lia].
    rewrite !take_ge by lia. done. }
  rewrite take_app_le by lia. f_equal. f_equal. rewrite length_take.
  destruct (decide (Z.of_nat (length t) < size)).
  - rewrite drop_app_ge, drop_drop by lia. f_equal. lia.
  - rewrite drop_app_ge, drop_drop by lia. f_equal. lia.
Qed.

Lemma vsnprintf_run symbol buf size m fmt args : buffer_ok buf size m ->
  vsnprintf symbol buf size m fmt args =
  (o ← exec (print_loop symbol (rounds_for fmt) fmt spec0) (Out m 0 size args []);
   m' ← (if 0 <? size then buf_write (mem o) (Z.to_nat (if str o <? size then str o else size - 1)) [0] else Some (mem o));
   Some (s32 (str o), m', stored o)).
Proof.
  intros (Hb & Hs & Hw & Hm). unfold vsnprintf. rewrite s32_small by lia. rewrite (proj2 (Z.ltb_ge size 0)) by lia.
  rewrite u32_small by (unfold is_u32; lia). by rewrite (proj2 (Z.ltb_ge (buf + size) buf)) by lia.
Qed.

(** The text of a format and its arguments. *)
Lemma vsnprintf_text symbol fmt args :
  match vsnprintf symbol 0 0 [] fmt args with
  | Some (n, _, st) => exists t, n = s32 (Z.of_nat (length t)) /\ forall buf size m, buffer_ok buf size m ->
      vsnprintf symbol buf size m fmt args = Some (n, terminated size t m, st)
  | None => forall buf size m, buffer_ok buf size m -> vsnprintf symbol buf size m fmt args = None
  end.
Proof.
  assert (forall buf size m, buffer_ok buf size m -> seen 0 args [] (Out m 0 size args []) /\ roomy (Out m 0 size args [])) as Hseen
    by (intros buf size m (? & ? & ? & ?); done).
  assert (buffer_ok 0 0 []) as H0 by done.
  destruct (uniform_print_loop symbol (rounds_for fmt) fmt spec0 0 args []) as [(a & t & v & st & H)|H]; [done| |].
  - assert (forall buf size m, buffer_ok buf size m -> vsnprintf symbol buf size m fmt args =
      Some (s32 (Z.of_nat (length t)), terminated size t m, st)) as Hall.
    { intros buf size m Hok. rewrite vsnprintf_run by done. unfold exec. destruct (Hseen _ _ _ Hok) as [Hs Hr].
      rewrite H by (done || by apply roomy_fits). cbn. destruct Hok as (_ & Hsz & _ & Hm). destruct (Z.ltb_spec 0 size).
      - change (Z.to_nat 0) with 0%nat. rewrite Z.add_0_l, take_0. cbn [app Nat.add]. by rewrite terminate by lia.
      - replace size with 0 by lia. by rewrite clip_nil. }
    rewrite (Hall 0 0 []) by done. exists t. done.
  - rewrite vsnprintf_run by done. unfold exec. destruct (Hseen _ _ _ H0) as [Hs Hr]. rewrite H by done. cbn. intros buf size m Hok.
    rewrite vsnprintf_run by done. unfold exec. destruct (Hseen _ _ _ Hok). by rewrite H.
Qed.

(** C20: The size of the buffer decides only how much is kept: if the call that measures,
    with no buffer at all, returns [n], then there is one text of [n] characters such that
    every call returns [n], leaves the beginning of that text and a terminator in the
    buffer and nothing else, and stores the same through ["%n"]; and if one call is
    undefined, so is every other. *)
Theorem vsnprintf_truncates symbol fmt args :
  match vsnprintf symbol 0 0 [] fmt args with
  | Some (n, _, st) => exists t, n = s32 (Z.of_nat (length t)) /\ forall buf size m, buffer_ok buf size m ->
      vsnprintf symbol buf size m fmt args = Some (n, terminated size t m, st)
  | None => forall buf size m, buffer_ok buf size m -> vsnprintf symbol buf size m fmt args = None
  end.
Proof. apply vsnprintf_text. Qed.

(** ** The loop over the format ends *)

Definition pending (spec : printf_spec) : nat :=
  match type spec with FORMAT_TYPE_WIDTH | FORMAT_TYPE_PRECISION => 1 | _ => 0 end.
Definition work (fmt : list Z) (spec : printf_spec) : nat := 2 * length fmt + pending spec.

Lemma skip_atoi_length s : forall i r, skip_atoi i s = Some r -> (length (snd r) <= length s)%nat.
Proof.
  induction s as [|c s IH]; intros i r; cbn [skip_atoi]; [by intros [= <-]|].
  destruct (is_digit c); [|by intros [= <-]]. destruct (sint _) as [j|]; [|done]. cbn. intros H%IH. lia.
Qed.

Lemma integer_type_pending sp sp' : pending (set_type (integer_type sp) sp') = 0%nat.
Proof. unfold integer_type. destruct (has SIGN sp); unfold pending, set_type; cbn [type]; repeat (case_match; try done). Qed.

(** The second half of [decode_qualifier]. *)
Lemma conversion_work fmt n spec fmt' spec' : (length fmt <= n)%nat ->
  (let c := at_ fmt 0 in
   let integer spec := (drop 1 fmt, set_type (integer_type spec) spec) in
   if c =? ch "c" then (drop 1 fmt, set_type FORMAT_TYPE_CHAR spec)
   else if c =? ch "s" then (drop 1 fmt, set_type FORMAT_TYPE_STR spec)
   else if c =? ch "p" then (fmt, set_type FORMAT_TYPE_PTR spec)
   else if c =? ch "n" then (drop 1 fmt, set_type FORMAT_TYPE_NRCHARS spec)
   else if c =? ch "%" then (drop 1 fmt, set_type FORMAT_TYPE_PERCENT_CHAR spec)
   else if c =? ch "o" then integer (set_base 8 spec)
   else if c =? ch "x" then integer (set_base 16 (add_flag SMALL spec))
   else if c =? ch "X" then integer (set_base 16 spec)
   else if (c =? ch "d") || (c =? ch "i") then integer (add_flag SIGN spec)
   else if c =? ch "u" then integer spec
   else (fmt, set_type FORMAT_TYPE_INVALID spec)) = (fmt', spec') ->
  (length fmt' <= n)%nat /\ pending spec' = 0%nat.
Proof.
  intros Hn. cbv zeta. repeat match goal with |- (if ?b then _ else _) = _ -> _ => destruct b end;
    intros [= <- <-]; rewrite ?length_drop; (split; [lia|apply integer_type_pending || done]).
Qed.

Lemma decode_qualifier_work fmt spec fmt' spec' : decode_qualifier fmt spec = (fmt', spec') ->
  (length fmt' <= length fmt)%nat /\ pending spec' = 0%nat.
Proof.
  unfold decode_qualifier. intros H. match type of H with (let '(_, _) := ?q in _) = _ => set (q0 := q) in H end.
  assert (length (fst q0) <= length fmt)%nat as Hq.
  { unfold q0. repeat match goal with |- context [if ?b then _ else _] => destruct b end; cbn [fst]; rewrite ?length_drop; lia. }
  destruct q0 as [f sp]. exact (conversion_work f _ _ _ _ Hq H).
Qed.

Lemma decode_precision_work fmt spec fmt' spec' : decode_precision fmt spec = Some (fmt', spec') ->
  (length fmt' <= length fmt)%nat /\ (work fmt' spec' <= 2 * length fmt)%nat.
Proof.
  unfold decode_precision, work. destruct (at_ fmt 0 =? ch ".") eqn:E.
  - assert (0 < length fmt)%nat as Hne by (destruct fmt; [done|cbn; lia]). destruct (is_digit _).
    + destruct (skip_atoi 0 (drop 1 fmt)) as [r|] eqn:Er; [|done]. apply skip_atoi_length in Er. rewrite length_drop in Er.
      intros [= H]. apply decode_qualifier_work in H. lia.
    + destruct (at_ (drop 1 fmt) 0 =? ch "*") eqn:E'; intros [= H].
      * subst. cbn. rewrite !length_drop. lia.
      * apply decode_qualifier_work in H. rewrite length_drop in H. lia.
  - intros [= H]. apply decode_qualifier_work in H. lia.
Qed.

Lemma literal_part_length fmt lit rest : literal_part fmt = (lit, rest) -> (length lit + length rest = length fmt)%nat.
Proof.
  revert lit rest. induction fmt as [|c fmt IH]; intros lit rest; cbn [literal_part]; [by intros [= <- <-]|].
  destruct (c =? ch "%"); [by intros [= <- <-]|]. destruct (literal_part fmt) as [l r]. intros [= <- <-]. cbn. by rewrite (IH l r).
Qed.

Lemma flags_loop_length fmt : forall fl, (length (snd (flags_loop fl fmt)) <= length fmt)%nat.
Proof.
  induction fmt as [|c fmt IH]; intros fl; [done|]. cbn [flags_loop].
  repeat match goal with |- context [if ?b then _ else _] => destruct b end; cbn [snd length]; [apply le_S, IH..|lia].
Qed.

Lemma decode_start_work fmt spec fmt' spec' : fmt <> [] -> decode_start fmt spec = Some (fmt', spec') ->
  (work fmt' spec' < 2 * length fmt)%nat.
Proof.
  intros Hne. assert (0 < length fmt)%nat as Hl by (destruct fmt; [done|cbn; lia]). unfold decode_start.
  destruct (literal_part fmt) as [lit rest] eqn:El. apply literal_part_length in El.
  destruct (Nat.eqb_spec (length lit) 0) as [Hlit|Hlit]; cbn [negb orb].
  2: { intros [= <- <-]. unfold work, pending. cbn [type set_type]. lia. }
  destruct (Nat.eqb_spec (length rest) 0) as [Hr|Hr]; [lia|].
  pose proof (flags_loop_length (drop 1 rest) 0) as Hf. destruct (flags_loop 0 (drop 1 rest)) as [fl f]. cbn [snd] in Hf. rewrite length_drop in Hf.
  destruct (is_digit _); [|destruct (_ =? _)].
  - destruct (skip_atoi 0 f) as [r|] eqn:Er; [|done]. apply skip_atoi_length in Er. intros H%decode_precision_work. lia.
  - intros [= <- <-]. unfold work, pending. cbn [type set_type]. rewrite length_drop. lia.
  - intros H%decode_precision_work. lia.
Qed.

(** A round takes something off the work that is left. *)
Lemma format_decode_work fmt spec fmt' spec' : fmt <> [] -> format_decode fmt spec = Some (fmt', spec') ->
  (work fmt' spec' < work fmt spec)%nat.
Proof.
  intros Hne. unfold format_decode. intros H.
  assert ((work fmt' spec' <= 2 * length fmt)%nat /\ (pending spec = 0 -> work fmt' spec' < 2 * length fmt)%nat) as [H1 H2].
  { unfold pending. destruct (type spec); try (by apply decode_start_work in H; [split; lia|]).
    - apply decode_precision_work in H. lia.
    - injection H as H. apply decode_qualifier_work in H. unfold work. lia. }
  unfold work at 2. lia.
Qed.

Lemma skip_alnum_length fmt : (length (skip_alnum fmt) <= length fmt)%nat.
Proof. induction fmt as [|c fmt IH]; [done|]. cbn [skip_alnum]. destruct (isalnum c); cbn [length]; lia. Qed.

Lemma directive_work symbol old fmt spec o r o' : directive symbol old fmt spec o = Some (r, o') -> (work (fst r) (snd r) <= work fmt spec)%nat.
Proof.
  unfold directive, work, pending. pose proof (skip_alnum_length fmt). destruct (type spec) eqn:Et; intros Hd;
    repeat (apply bind_inv in Hd as (? & ? & _ & Hd)); injection Hd as <- _; cbn [fst snd type set_field_width set_precision]; rewrite Et; lia.
Qed.

(** The rounds of [vsnprintf] are enough: more of them make no difference. *)
Lemma loop_enough symbol r r' : forall fmt spec o, (work fmt spec < r)%nat -> (r <= r')%nat ->
  print_loop symbol r' fmt spec o = print_loop symbol r fmt spec o.
Proof.
  revert r'. induction r as [|r IH]; intros r' fmt spec o Hr Hr'; [lia|]. destruct r' as [|r']; [lia|].
  destruct fmt as [|c fmt]; [done|]. cbn [print_loop]. set (f := c :: fmt) in *. rewrite !bind_unfold.
  destruct (format_decode f spec) as [[f1 s1]|] eqn:E1; [|done]. rewrite !lift_opt_run. cbn [fst snd]. apply format_decode_work in E1; [|done].
  rewrite !bind_unfold. destruct (directive symbol f f1 s1 o) as [[[f2 s2] o2]|] eqn:E2; [|done]. apply directive_work in E2. cbn [fst snd] in *.
  apply IH; lia.
Qed.

(** ** Printing and reading back *)

Definition d_spec : printf_spec := Spec FORMAT_TYPE_INT SIGN 10 255 (-1) (-1).

Lemma d_text z : number_text (u64 (s32 z)) d_spec = decimal (s32 z).
Proof.
  assert (s64 (u64 (s32 z)) = s32 z) as E by (unfold s64, u64, s32; div_lia).
  unfold number_text, sign_text, magnitude, prefix_text, decimal. change (has SIGN d_spec) with true.
  change (has PLUS d_spec) with false. change (has SPACE d_spec) with false. change (has SPECIAL d_spec) with false.
  change (has LEFT d_spec) with false. change (has ZEROPAD d_spec) with false. cbn [base precision field_width d_spec andb].
  change (Z.to_nat (-1)) with 0%nat. rewrite !Nat.sub_0_l. cbn [replicate app]. rewrite app_nil_r, numeral_ten, E by lia.
  assert (- 2 ^ 31 <= s32 z < 2 ^ 31) by (unfold s32; div_lia). rewrite (digits_more 20 22) by lia.
  destruct (Z.ltb_spec (s32 z) 0); [by rewrite Z.abs_neq by lia|by rewrite Z.abs_eq by lia].
Qed.

(** ["%d"] puts out the number in decimal. *)
Lemma decode_d rest spec : pending spec = 0%nat -> format_decode (37 :: 100 :: rest) spec = Some (rest, d_spec).
Proof. unfold pending, format_decode. by destruct (type spec). Qed.

Lemma directive_d symbol old rest z o l : va o = Word z :: l -> fits (decimal (s32 z)) o ->
  directive symbol old rest d_spec o = Some ((rest, d_spec), moves (decimal (s32 z)) l (stored o) o).
Proof.
  intros Hva Ho. unfold directive. cbn [type d_spec integer_arg]. set (o1 := Out (mem o) (str o) (fin o) l (stored o)).
  assert (va_word o = Some (u32 z, o1)) as Ev by (unfold va_word; rewrite bind_unfold; unfold va_arg; by rewrite Hva).
  rewrite !bind_unfold, Ev, ret_unfold. rewrite bind_unfold.
  replace (s32 (u32 z)) with (s32 z) by (unfold s32, u32; div_lia).
  rewrite (number_emits (u64 (s32 z)) d_spec), d_text; [done| |by rewrite d_text].
  split; [unfold u64; apply Z.mod_pos_bound; lia|]. split; [apply (bool_decide_unpack _); vm_compute; exact I|done].
Qed.

(** A round of the loop. *)
Lemma print_d symbol r rest spec z o l : pending spec = 0%nat -> va o = Word z :: l -> fits (decimal (s32 z)) o ->
  print_loop symbol (S r) (37 :: 100 :: rest) spec o = print_loop symbol r rest d_spec (moves (decimal (s32 z)) l (stored o) o).
Proof.
  intros Hp Hva Ho. cbn [print_loop]. rewrite bind_unfold, decode_d, lift_opt_run by done. rewrite bind_unfold. cbn [fst snd].
  by rewrite (directive_d _ _ _ _ _ _ Hva Ho).
Qed.

Lemma strn_stop n l r : Forall (fun c => c <> 0) l -> (length l < n)%nat -> strn n (l ++ 0 :: r) = Some l.
Proof.
  revert n. induction l as [|c l IH]; intros [|n] Hl Hn; cbn [length] in Hn; try lia; [done|]. inversion_clear Hl.
  cbn [app strn]. rewrite (proj2 (Z.eqb_neq c 0)) by done. rewrite IH by (done || lia). done.
Qed.

Lemma decimal_nonzero z : Forall (fun c => c <> 0) (decimal z).
Proof.
  assert (forall n, 0 <= n -> Forall (fun c => c <> 0) (digits 20 n)) as Hd.
  { intros n Hn. eapply Forall_impl; [apply (digits_forall 10 20 n); lia|]. intros c (d & -> & ? & _). lia. }
  unfold decimal. destruct (Z.ltb_spec z 0); [constructor; [done|]|]; apply Hd; lia.
Qed.

Lemma vsnprintf_d symbol z buf size m : - 2 ^ 31 <= z < 2 ^ 31 -> buffer_ok buf size m ->
  vsnprintf symbol buf size m (chars "%d") [Word z] = Some (s32 (Z.of_nat (length (decimal z))), terminated size (decimal z) m, []).
Proof.
  intros Hz Hok. assert (buffer_ok 0 0 []) as H0 by done. rewrite vsnprintf_run by done. unfold exec.
  pose proof Hok as (_ & Hsz & _ & Hm). rewrite <- (s32_small z) at 2 3 by done.
  change (rounds_for (chars "%d")) with 5%nat. change (chars "%d") with [37; 100].
  rewrite (print_d symbol _ _ _ z _ []) by (done || apply roomy_fits; done). cbn.
  destruct (Z.ltb_spec 0 size).
  - change (Z.to_nat 0) with 0%nat. rewrite Z.add_0_l, take_0. cbn [app Nat.add]. by rewrite terminate by lia.
  - replace size with 0 by lia. by rewrite clip_nil.
Qed.

(** What ["%d"] writes into a buffer that has room for it, [strict_strtol] reads back:
    every number above the smallest one comes back as it was. *)
Theorem print_read_roundtrip symbol z buf size m :
  - 2 ^ 31 < z < 2 ^ 31 -> buffer_ok buf size m -> Z.of_nat (length (decimal z)) < size ->
  exists m' t, vsnprintf symbol buf size m (chars "%d") [Word z] = Some (Z.of_nat (length t), m', []) /\
    strn (Z.to_nat size) m' = Some t /\ strict_strtol t 0 = (0, z) /\ length m' = length m.
Proof.
  intros Hz Hok Hl. exists (terminated size (decimal z) m), (decimal z). pose proof Hok as (_ & Hsz & _ & Hm).
  rewrite vsnprintf_d by (done || lia). unfold terminated. rewrite s32_small, (proj2 (Z.eqb_neq size 0)), take_ge by lia.
  split; [done|]. split; [apply strn_stop; [apply decimal_nonzero|lia]|]. split; [|rewrite length_app; cbn [length]; rewrite length_drop; lia].
  rewrite <- (app_nil_r (decimal z)). apply strtol_decimal; [done|by left].
Qed.

Lemma print_read_roundtrip_witness : exists m' t,
  vsnprintf (fun _ _ => []) 0x1000 8 (replicate 8 7) (chars "%d") [Word (-417)] = Some (Z.of_nat (length t), m', []) /\
  strn 8 m' = Some t /\ strict_strtol t 0 = (0, -417) /\ length m' = 8%nat.
Proof. refine (print_read_roundtrip _ (-417) 0x1000 8 (replicate 8 7) _ _ _); [done|done|vm_compute; congruence]. Defined.

(** ** Corners *)

(** A precision near the largest 16-bit number makes the width wrap around: the field
    of ["%+.32767d"] is padded with 32767 spaces. *)
Lemma width_wraps o : fits (replicate (Z.to_nat 32767) (ch " ")) o ->
  pad 0 (ch " ") (s16 (s16 (-1 - 1) - 32767)) o = Some (-1, advance (replicate (Z.to_nat 32767) (ch " ")) o).
Proof. exact (pad_emits 0 (ch " ") (s16 (s16 (-1 - 1) - 32767)) ltac:(lia) o). Qed.

(** ["%zd"] prints a negative number as a large one. *)
Example size_t_unsigned : vsnprintf (fun _ _ => []) 0x1000 16 (replicate 16 0) (chars "%zd") [Word (-1)] =
  Some (10, chars "4294967295" ++ replicate 6 0, []).
Proof. vm_compute. reflexivity. Qed.

(** [vscnprintf] with no room at all returns -1. *)
Example vscnprintf_empty : vscnprintf (fun _ _ => []) 0x1000 0 [] (chars "x") [] = Some (-1, [], []).
Proof. vm_compute. reflexivity. Qed.

(** ** The local array of resource_string

    A computation that puts out [t] if [t] and what was put out before fit into the
    buffer. *)
Definition within {A} (m : M out A) (a : A) (t : list Z) : Prop := forall o, 0 <= str o -> roomy o ->
  str o + Z.of_nat (length t) <= fin o -> m o = Some (a, advance t o).

Lemma emits_within {A} (m : M out A) a t : emits m a t -> within m a t.
Proof. intros H o H0 Hr _. by apply H, roomy_fits. Qed.

Lemma within_bind {A B} (m : M out A) (f : A -> M out B) a b t1 t2 : within m a t1 -> within (f a) b t2 -> within (m ≫= f) b (t1 ++ t2).
Proof.
  intros Hm Hf o H0 Hr Hl. rewrite length_app in Hl. pose proof (roomy_fits (t1 ++ t2) o H0 Hr) as Ho.
  rewrite bind_unfold, Hm by (done || lia). rewrite Hf, advance_advance; [done..|cbn; lia| |cbn; lia].
  unfold roomy in *. rewrite advance_length by (by apply roomy_fits). done.
Qed.

Lemma poke_within c : within (poke c) tt [c].
Proof.
  intros o H0 Hr Hl. cbn in Hl. unfold roomy in Hr. unfold poke, advance. rewrite clip_all, buf_write_Some by (cbn; lia). done.
Qed.

Lemma pad_post_loop_emits r : forall len c w, 0 <= len -> -2 ^ 15 < w < 2 ^ 15 -> w - len < Z.of_nat r -> (0 < r)%nat ->
  emits (pad_post_loop r len c w) (Z.min w len - 1) (replicate (Z.to_nat (w - len)) c).
Proof.
  induction r as [|r IH]; intros len c w Hl Hw Hr Hr0; [lia|]. cbn [pad_post_loop]. rewrite s16_small by lia. destruct (Z.ltb_spec len w).
  - replace (Z.to_nat (w - len)) with (S (Z.to_nat (w - 1 - len))) by lia. replace (Z.min w len) with (Z.min (w - 1) len) by lia.
    apply (emits_bind (put c) (fun _ => pad_post_loop r len c (w - 1)) tt _ [c]); [apply put_emits|]. apply IH; lia.
  - replace (Z.to_nat (w - len)) with 0%nat by lia. rewrite Z.min_l by lia. apply emits_ret.
Qed.

Lemma pad_post_emits len c w : 0 <= len -> -2 ^ 15 < w < 2 ^ 15 ->
  emits (pad_post len c w) (Z.min w len - 1) (replicate (Z.to_nat (w - len)) c).
Proof. intros Hl Hw. apply pad_post_loop_emits; [done..| |]; unfold ROUNDS; lia. Qed.

(** A text in a field. *)
Definition string_text (l : list Z) (spec : printf_spec) : list Z :=
  let gap := replicate (Z.to_nat (field_width spec) - length l) (ch " ") in
  if has LEFT spec then l ++ gap else gap ++ l.

Lemma string_emits p spec l : PAGE_SIZE <= fst p -> -1 <= field_width spec < 2 ^ 15 ->
  strn (if precision spec <? 0 then S (length (snd p)) else Z.to_nat (precision spec)) (snd p) = Some l ->
  emits (string p spec) tt (string_text l spec).
Proof.
  intros Hp Hw Hl. unfold string, string_text. rewrite (proj2 (Z.ltb_ge (fst p) PAGE_SIZE)), Hl by done.
  assert (Z.to_nat (field_width spec - Z.of_nat (length l)) = (Z.to_nat (field_width spec) - length l)%nat) as Eg by lia.
  pose proof (pad_post_emits (Z.of_nat (length l)) (ch " ") (field_width spec) ltac:(lia) ltac:(lia)) as H1. rewrite Eg in H1.
  destruct (has LEFT spec); cbn [negb]; eapply emits_eq.
  - eapply emits_bind; [exact (emits_ret l)|]. eapply emits_bind; [apply emits_ret|]. eapply emits_bind; [apply puts_emits|].
    eapply emits_bind; [exact H1|apply emits_ret].
  - cbn [app]. by rewrite app_nil_r.
  - eapply emits_bind; [exact (emits_ret l)|]. eapply emits_bind; [exact H1|]. eapply emits_bind; [apply puts_emits|].
    eapply emits_bind; [apply pad_post_emits; lia|apply emits_ret].
  - replace (Z.to_nat (Z.min _ _ - 1 - _)) with 0%nat by lia. cbn [app replicate]. by rewrite !app_nil_r.
Qed.

Lemma const_within l : Forall (fun c => c <> 0) l -> (length l <= 10)%nat -> within (string (const l) str_spec) tt l.
Proof.
  intros Hl Hn. apply emits_within. apply (emits_eq _ _ (string_text l str_spec)); [|unfold string_text; cbn; apply app_nil_r].
  apply string_emits; [done..|]. change (strn 10 (l ++ [0]) = Some l). destruct (decide (length l < 10)%nat); [by apply strn_stop|].
  assert (length l = 10%nat) as E by lia. rewrite <- E. clear - Hl. induction Hl; [done|].
  cbn [length app strn]. rewrite (proj2 (Z.eqb_neq x 0)), IHHl by done. done.
Qed.

(** A computation that puts out at most [n] characters. *)
Definition upto (n : nat) (m : M out unit) : Prop := exists t, within m tt t /\ (length t <= n)%nat.

Lemma upto_bind n k m m' : upto n m -> upto k m' -> upto (n + k) (m;; m').
Proof. intros (t & Ht & Hn) (t' & Ht' & Hk). exists (t ++ t'). split; [by eapply within_bind|]. rewrite length_app. lia. Qed.
Lemma upto_ret n : upto n (mret tt).
Proof. exists []. split; [apply emits_within, emits_ret|cbn; lia]. Qed.
Lemma upto_poke c : upto 1 (poke c).
Proof. exists [c]. split; [apply poke_within|done]. Qed.
Lemma upto_const n s : (length (chars s) <= n <= 10)%nat -> Forall (fun c => c <> 0) (chars s) -> upto n (string (const (chars s)) str_spec).
Proof. intros Hn Hs. exists (chars s). split; [apply const_within; [done|lia]|lia]. Qed.

Lemma numeral_bound k b l : 1 < b -> forall f n, 0 <= n < b ^ Z.of_nat (S k) -> (length (numeral f b l n) <= S k)%nat.
Proof.
  intros Hb. induction k as [|k IH]; intros [|f] n Hn; cbn [numeral]; try (cbn; lia).
  - rewrite (proj2 (Z.ltb_lt n b)) by (change (Z.of_nat 1) with 1 in Hn; lia). done.
  - destruct (n <? b); [cbn; lia|]. rewrite length_app. cbn [length].
    assert (length (numeral f b l (n / b)) <= S k)%nat; [|lia]. apply IH. split; [apply Z.div_pos; lia|].
    apply Z.div_lt_upper_bound; [lia|]. rewrite <- Z.pow_succ_r by lia. replace (Z.succ (Z.of_nat (S k))) with (Z.of_nat (S (S k))) by lia. lia.
Qed.

Lemma upto_number num spec : spec ∈ [io_spec; mem_spec; bus_spec; dec_spec; flag_spec] -> 0 <= num < 2 ^ 32 -> upto 10 (number num spec).
Proof.
  intros Hs Hn. exists (number_text num spec). set_unfold in Hs.
  assert (number_ok num spec /\ sign_text num spec = [] /\ precision spec = -1 /\ field_width spec <= 10 /\ magnitude num spec = num /\
    (length (prefix_text spec) + length (numeral 22 (base spec) (Z.land (flags spec) SMALL) num) <= 10)%nat) as (Hok & Es & Ep & Hw & Em & Hd).
  { pose proof (numeral_bound 7 16 SMALL ltac:(lia) 22 num ltac:(lia)). pose proof (numeral_bound 9 10 0 ltac:(lia) 22 num ltac:(lia)).
    destruct Hs as [-> |[-> |[-> |[-> |[-> | []]]]]]; (split; [split; [lia|split; [apply (bool_decide_unpack _); vm_compute; exact I|done]]|]);
      (split; [done|]); (split; [done|]); (split; [done|]); (split; [done|]).
    all: match goal with |- (?a + _ <= _)%nat => let v := eval vm_compute in a in change a with v end.
    all: cbn [base flags io_spec mem_spec bus_spec dec_spec flag_spec].
    4: change (Z.land 0 SMALL) with 0; lia.
    all: match goal with |- context [Z.land ?f SMALL] => change (Z.land f SMALL) with SMALL end; lia. }
  split; [by apply emits_within, number_emits|]. unfold number_text. rewrite Es, Ep, Em. change (Z.to_nat (-1)) with 0%nat.
  rewrite Nat.sub_0_l. cbn [replicate app]. destruct (has LEFT spec), (has ZEROPAD spec); rewrite !length_app, ?length_replicate; lia.
Qed.

Lemma resource_text_upto raw start end_ rflags : 0 <= start < 2 ^ 32 -> 0 <= end_ < 2 ^ 32 -> 0 <= rflags < 2 ^ 32 ->
  upto 57 (resource_text raw start end_ rflags).
Proof.
  intros Hs He Hr. unfold resource_text.
  assert (exists name spec decode, resource_kind raw rflags = (chars name, spec, decode) /\ (length (chars name) <= 4)%nat /\ Forall (fun c => c <> 0) (chars name) /\
    spec ∈ [io_spec; mem_spec; bus_spec; dec_spec; flag_spec]) as (name & spec & decode & -> & Hl & Hz & Hsp).
  { unfold resource_kind. repeat match goal with |- context [if ?b then (chars _, _, _) else _] => destruct b end;
      (eexists _, _, _; split; [reflexivity|]); (split; [done|]); (split; [by repeat constructor|]); set_solver. }
  assert (flag_spec ∈ [io_spec; mem_spec; bus_spec; dec_spec; flag_spec]) as Hf by set_solver.
  change 57%nat with (1 + (4 + (10 + (11 + (29 + (1 + 1))))))%nat.
  repeat (apply upto_bind; [|]).
  1, 6, 7: apply upto_poke.
  1: by apply upto_const; [lia|].
  1: by apply upto_number.
  1: destruct (negb _); [|apply upto_ret]; apply (upto_bind 1 10); [apply upto_poke|by apply upto_number].
  destruct decode.
  - change 29%nat with (8 + (5 + (7 + 9)))%nat. repeat (apply upto_bind; [|]); case_match; try apply upto_ret; by apply upto_const; [cbn; lia|repeat constructor].
  - change 29%nat with (9 + 20)%nat. apply upto_bind; [by apply upto_const; [cbn; lia|repeat constructor]|].
    destruct (upto_number rflags flag_spec Hf Hr) as (t & Ht & Hn). exists t. split; [done|lia].
Qed.

Lemma strn_length n l t : strn n l = Some t -> (length t <= length l)%nat.
Proof.
  revert n t. induction l as [|c l IH]; intros [|n] t; cbn [strn]; [by intros [= <-]|done|intros [= <-]; cbn; lia|].
  destruct (c =? 0); [intros [= <-]; cbn; lia|]. destruct (strn n l) as [k|] eqn:E; [|done]. intros [= <-]. cbn. apply IH in E. lia.
Qed.

Lemma strn_total n l : 0 ∈ l -> exists t, strn n l = Some t.
Proof.
  revert n. induction l as [|c l IH]; intros [|n] Hz; [set_solver| |by eexists|]; [set_solver|]. cbn [strn]. destruct (Z.eqb_spec c 0); [by eexists|].
  destruct (IH n) as [t Et]; [set_solver|]. rewrite Et. by eexists.
Qed.

Lemma word_at_range l i : (i + 4 <= length l)%nat -> Forall (fun b => 0 <= b < 256) l -> exists z, word_at l i = Some z /\ 0 <= z < 2 ^ 32.
Proof.
  intros Hi Hb. unfold word_at. rewrite buf_read_Some by done. assert (length (take 4 (drop i l)) = 4%nat) as E by (rewrite length_take, length_drop; lia).
  assert (Forall (fun b => 0 <= b < 256) (take 4 (drop i l))) as HF by (by apply Forall_take, Forall_drop).
  destruct (take 4 (drop i l)) as [|a [|b [|c [|d [|]]]]]; try done. eexists. split; [done|].
  rewrite !Forall_cons in HF. rewrite be32_value by (unfold is_byte; lia). lia.
Qed.

(** C22: Whatever a resource holds, ["%pR"] and ["%pr"] write its text, unguarded writes
    included, within the 59 bytes of the local array, and put it out in its field. *)
Theorem resource_string_safe fmt p spec o :
  (16 <= length (snd p))%nat -> Forall (fun b => 0 <= b < 256) (snd p) -> -1 <= field_width spec < 2 ^ 15 -> 0 <= str o -> roomy o ->
  exists t, (length t <= RSRC_SYM)%nat /\ resource_string fmt p spec o = Some (tt, advance (string_text t spec) o).
Proof.
  intros Hl Hb Hw Ho Hr. destruct (word_at_range (snd p) 0) as (z0 & E0 & H0); [lia|done|].
  destruct (word_at_range (snd p) 4) as (z4 & E4 & H4); [lia|done|]. destruct (word_at_range (snd p) 12) as (z12 & E12 & H12); [lia|done|].
  destruct (resource_text_upto (negb (at_ fmt 0 =? ch "R")) z0 z4 z12 H0 H4 H12) as (t & Ht & Hn).
  set (sym := Out (replicate RSRC_SYM 0) 0 (Z.of_nat RSRC_SYM) [] []).
  assert (exec (resource_text (negb (at_ fmt 0 =? ch "R")) z0 z4 z12) sym = Some (advance t sym)) as E.
  { unfold exec. rewrite Ht; [done..|]. cbn. unfold RSRC_SYM. lia. }
  assert (mem (advance t sym) = t ++ replicate (RSRC_SYM - length t) 0) as Em.
  { unfold advance. cbn [str fin mem sym]. rewrite clip_all by (unfold RSRC_SYM; lia). change (Z.to_nat 0) with 0%nat.
    rewrite take_0, drop_replicate. done. }
  destruct (strn_total (if precision spec <? 0 then S (length (mem (advance t sym))) else Z.to_nat (precision spec)) (mem (advance t sym))) as [l El].
  { rewrite Em. apply elem_of_app. right. apply elem_of_replicate. unfold RSRC_SYM. split; [done|lia]. }
  exists l. split.
  - apply strn_length in El. rewrite Em, length_app, length_replicate in El. unfold RSRC_SYM in *. lia.
  - unfold resource_string. rewrite E0, E4, E12. run. fold sym. rewrite E. run. apply string_emits; [done..|]. by apply roomy_fits.
Qed.

(** A memory resource at 0xffe05000. *)
Lemma resource_string_safe_witness :
  let res := [0xff; 0xe0; 0x50; 0x00; 0xff; 0xe0; 0x5f; 0xff; 0; 0; 0; 0; 0; 0; 0x02; 0] in
  let o := Out (replicate 64 0) 0 64 [] [] in
  exists t, (length t <= RSRC_SYM)%nat /\
    resource_string (chars "R") (0x10000, res) (Spec FORMAT_TYPE_PTR 0 10 255 (-1) (-1)) o = Some (tt, advance (string_text t (Spec FORMAT_TYPE_PTR 0 10 255 (-1) (-1))) o).
Proof.
  intros res o. refine (resource_string_safe (chars "R") (0x10000, res) (Spec FORMAT_TYPE_PTR 0 10 255 (-1) (-1)) o _ _ _ _ _); try done.
  repeat constructor; done.
Defined.

Example resource_text_example :
  let res := [0xff; 0xe0; 0x50; 0x00; 0xff; 0xe0; 0x5f; 0xff; 0; 0; 0; 0; 0; 0; 0x02; 0] in
  vsnprintf (fun _ _ => []) 0x1000 40 (replicate 40 0) (chars "%pR") [Ptr 0x10000 res] =
  Some (27, chars "[mem 0xffe05000-0xffe05fff]" ++ replicate 13 0, []).
Proof. vm_compute. reflexivity. Qed.
