(* ===== verification/Scan.v ===== *)
(** * Formatted input (lib/vsprintf.c)

    [vsscanf]. A string is the list of its characters without the terminator; the
    position counts on when the code steps over the terminator. The result is the
    number of conversions and what is stored through the pointers, in the order of
    the arguments; what a conversion stores is not limited by the source, so the
    arrays behind the pointers are the caller's. *)

From stdpp Require Import strings.
From S2P Require Import Prelude Vsprintf Format.

(** Characters, or a number of the width of its type. *)
Inductive store := Chars (l : list Z) | Number (z : Z).

Record scan := Scan { s_fmt : list Z; s_str : list Z; s_pos : Z; s_num : Z; s_out : list store }.

(** How a round of the loop ends. *)
Inductive flow := Continue (s : scan) | Break (s : scan) | Return (s : scan).

Definition set_fmt (f : list Z) (s : scan) : scan := Scan f (s_str s) (s_pos s) (s_num s) (s_out s).
Definition next_fmt (s : scan) : scan := set_fmt (drop 1 (s_fmt s)) s.
(** [str++]. *)
Definition next_str (s : scan) : scan := Scan (s_fmt s) (drop 1 (s_str s)) (s_pos s + 1) (s_num s) (s_out s).
(** [str = rest], further on in the same string. *)
Definition move_to (rest : list Z) (s : scan) : scan :=
  Scan (s_fmt s) rest (s_pos s + (Z.of_nat (length (s_str s)) - Z.of_nat (length rest))) (s_num s) (s_out s).
Definition add_store (n : Z) (x : store) (s : scan) : scan :=
  Scan (s_fmt s) (s_str s) (s_pos s) (s_num s + n) (s_out s ++ [x]).

(** The loops that skip a conversion. *)
Fixpoint skip_conversion (f : list Z) : list Z :=
  match f with
  | c :: rest => if negb (isspace c) && negb (c =? ch "%") then skip_conversion rest else f
  | [] => []
  end.
Fixpoint skip_word (l : list Z) : list Z :=
  match l with
  | c :: rest => if negb (isspace c) then skip_word rest else l
  | [] => []
  end.

(** [do *s++ = *str++; while (--field_width > 0 && *str)]: what is copied, and the rest. *)
Fixpoint copy_chars (w : Z) (l : list Z) : list Z * list Z :=
  match l with
  | [] => ([], [])
  | c :: rest =>
      let w := s16 (w - 1) in
      if (0 <? w) && negb (bool_decide (rest = [])) then let r := copy_chars w rest in (c :: fst r, snd r)
      else ([c], rest)
  end.

(** [while ( *str && !isspace( *str) && field_width--)]. *)
Fixpoint copy_word (w : Z) (l : list Z) : list Z * list Z :=
  match l with
  | [] => ([], [])
  | c :: rest =>
      if isspace c || (w =? 0) then ([], l)
      else let r := copy_word (s16 (w - 1)) rest in (c :: fst r, snd r)
  end.

Definition SHRT_MAX : Z := 2 ^ 15 - 1.

(** The qualifier, 255 if there is none, and the format behind it. *)
Definition scan_qualifier (f : list Z) : Z * list Z :=
  let c := at_ f 0 in
  if (c =? ch "h") || (TOLOWER c =? ch "l") || (TOLOWER c =? ch "z") then
    let f := drop 1 f in
    if c =? at_ f 0 then
      if c =? ch "h" then (ch "H", drop 1 f)
      else if c =? ch "l" then (ch "L", drop 1 f)
      else (c, f)
    else (c, f)
  else (255, f).

(** The value that is stored, and the rest of the text. *)
Definition scan_number (qualifier base : Z) (is_sign : bool) (l : list Z) : Z * list Z :=
  let signed := simple_strtol l base in
  let unsigned := simple_strtoul l base in
  if qualifier =? ch "H" then if is_sign then (s8 (fst signed), snd signed) else (u8 (fst unsigned), snd unsigned)
  else if qualifier =? ch "h" then if is_sign then (s16 (fst signed), snd signed) else (u16 (fst unsigned), snd unsigned)
  else if qualifier =? ch "l" then if is_sign then signed else unsigned
  else if qualifier =? ch "L" then if is_sign then simple_strtoll l base else simple_strtoull l base
  else if (qualifier =? ch "Z") || (qualifier =? ch "z") then unsigned
  else if is_sign then signed else unsigned.

Definition scan_integer (qualifier base : Z) (is_sign : bool) (s : scan) : flow :=
  let s := move_to (skip_spaces (s_str s)) s in
  let digit := at_ (s_str s) 0 in
  let digit := if is_sign && (digit =? ch "-") then at_ (s_str s) 1 else digit in
  if (digit =? 0) || ((base =? 16) && negb (isxdigit digit)) || ((base =? 10) && negb (is_digit digit))
     || ((base =? 8) && (negb (is_digit digit) || (ch "7" <? digit))) || ((base =? 0) && negb (is_digit digit))
  then Break s
  else
    let r := scan_number qualifier base is_sign (s_str s) in
    Continue (add_store 1 (Number (fst r)) (move_to (snd r) s)).

(** The switch over the conversion; [s] has the format behind it. *)
Definition conversion (c field_width qualifier : Z) (s : scan) : flow :=
  if c =? ch "c" then
    let r := copy_chars (if field_width =? -1 then 1 else field_width) (s_str s) in
    Continue (add_store 1 (Chars (fst r)) (move_to (snd r) s))
  else if c =? ch "s" then
    let s := move_to (skip_spaces (s_str s)) s in
    let r := copy_word (if field_width =? -1 then SHRT_MAX else field_width) (s_str s) in
    Continue (add_store 1 (Chars (fst r ++ [0])) (move_to (snd r) s))
  else if c =? ch "n" then Continue (add_store 0 (Number (s_pos s)) s)
  else if c =? ch "o" then scan_integer qualifier 8 false s
  else if (c =? ch "x") || (c =? ch "X") then scan_integer qualifier 16 false s
  else if c =? ch "i" then scan_integer qualifier 0 true s
  else if c =? ch "d" then scan_integer qualifier 10 true s
  else if c =? ch "u" then scan_integer qualifier 10 false s
  else if c =? ch "%" then (if at_ (s_str s) 0 =? ch "%" then Continue (next_str s) else Return (next_str s))
  else Return s.

(** A directive; [s] has the format behind the percent sign. *)
Definition scan_directive (s : scan) : option flow :=
  if at_ (s_fmt s) 0 =? ch "*" then
    Some (Continue (move_to (skip_word (s_str s)) (set_fmt (skip_conversion (s_fmt s)) s)))
  else
    r ← (if is_digit (at_ (s_fmt s) 0) then w ← skip_atoi 0 (s_fmt s); Some (s16 (fst w), snd w) else Some (-1, s_fmt s));
    let '(field_width, f) := r in
    let '(qualifier, f) := scan_qualifier f in
    let s := set_fmt f s in
    if (at_ f 0 =? 0) || (at_ (s_str s) 0 =? 0) then Some (Break s)
    else Some (conversion (at_ f 0) field_width qualifier (next_fmt s)).

(** The body of the loop. *)
Definition scan_round (s : scan) : option flow :=
  let s := if isspace (at_ (s_fmt s) 0)
           then move_to (skip_spaces (s_str s)) (set_fmt (skip_spaces (drop 1 (s_fmt s))) s) else s in
  let c := at_ (s_fmt s) 0 in
  if negb (c =? ch "%") && negb (c =? 0) then
    let s' := next_str (next_fmt s) in
    Some (if c =? at_ (s_str s) 0 then Continue s' else Break s')
  else if c =? 0 then Some (Break s)
  else scan_directive (next_fmt s).

(** A ["%n"] at the end of the input. *)
Definition scan_end (s : scan) : scan :=
  if (at_ (s_fmt s) 0 =? ch "%") && (at_ (s_fmt s) 1 =? ch "n") then add_store 0 (Number (s_pos s)) s else s.

(** Every round takes at least one character off the format, see [scan_enough]. *)
Fixpoint scan_loop (rounds : nat) (s : scan) : option scan :=
  if bool_decide (s_fmt s = []) || bool_decide (s_str s = []) then Some (scan_end s)
  else match rounds with
  | O => None
  | S rounds =>
      r ← scan_round s;
      match r with
      | Continue s => scan_loop rounds s
      | Break s => Some (scan_end s)
      | Return s => Some s
      end
  end.

Definition vsscanf (buf fmt : list Z) : option (Z * list store) :=
  s ← scan_loop (length fmt) (Scan fmt buf 0 0 []);
  Some (s_num s, s_out s).
