(* ===== verification/ScanProps.v ===== *)
(** * Formatted input: theorems

    [vsscanf] returns for every text and every format, as long as the widths in the
    format fit an [int]; and it reads back what [vsnprintf] wrote with the same
    format. *)

From stdpp Require Import strings.
From S2P Require Import Prelude Vsprintf Format FormatProps Scan.

(** ** The loop ends *)

Lemma drop_suffix {A} n (l : list A) : drop n l `suffix_of` l.
Proof. exists (take n l). symmetry. apply take_drop. Qed.

Lemma skip_spaces_suffix l : skip_spaces l `suffix_of` l.
Proof. induction l as [|c l IH]; [done|]. cbn [skip_spaces]. destruct (isspace c); [by apply suffix_cons_r|done]. Qed.

Lemma skip_conversion_suffix f : skip_conversion f `suffix_of` f.
Proof. induction f as [|c f IH]; [done|]. cbn [skip_conversion]. destruct (_ && _); [by apply suffix_cons_r|done]. Qed.

Lemma skip_atoi_suffix s : forall i r, skip_atoi i s = Some r -> snd r `suffix_of` s.
Proof.
  induction s as [|c s IH]; intros i r; cbn [skip_atoi]; [by intros [= <-]|].
  destruct (is_digit c); [|by intros [= <-]]. destruct (sint _) as [j|]; [|done]. cbn. intros H%IH. by apply suffix_cons_r.
Qed.

Lemma scan_qualifier_suffix f : snd (scan_qualifier f) `suffix_of` f.
Proof.
  unfold scan_qualifier. repeat match goal with |- context [if ?b then _ else _] => destruct b end; cbn [snd];
    repeat (etransitivity; [apply drop_suffix|]); done.
Qed.

(** A round that goes on has taken something off the format. *)
Definition goes_on (f : list Z) (r : flow) : Prop := match r with Continue s => s_fmt s `suffix_of` f | _ => True end.

Lemma conversion_goes_on f c w q s : s_fmt s `suffix_of` f -> goes_on f (conversion c w q s).
Proof.
  intros H. unfold conversion, scan_integer. cbv zeta. repeat match goal with |- context [if ?b then _ else _] => destruct b end; done.
Qed.

(** The widths in a format fit an [int]. *)
Definition widths_ok (fmt : list Z) : Prop := forall f, f `suffix_of` fmt -> is_Some (skip_atoi 0 f).

Lemma scan_directive_goes_on s : widths_ok (s_fmt s) -> exists r, scan_directive s = Some r /\ goes_on (s_fmt s) r.
Proof.
  intros Hw. unfold scan_directive. destruct (_ =? ch "*").
  { eexists. split; [done|]. apply skip_conversion_suffix. }
  set (x := if is_digit _ then _ else _). assert (exists w f, x = Some (w, f) /\ f `suffix_of` s_fmt s) as (w & f & -> & Hf).
  { unfold x. destruct (is_digit _); [|by eexists _, _]. destruct (Hw (s_fmt s)) as [[z g] Ea]; [done|]. rewrite Ea.
    eexists _, _. split; [done|]. by apply skip_atoi_suffix in Ea. }
  cbn [mbind option_bind]. pose proof (scan_qualifier_suffix f) as Hq. destruct (scan_qualifier f) as [q g]. cbn [snd] in Hq.
  destruct (_ || _); (eexists; split; [done|]); [done|]. apply conversion_goes_on. cbn. etransitivity; [apply drop_suffix|]. by etransitivity.
Qed.

Lemma scan_round_goes_on s : s_fmt s <> [] -> widths_ok (s_fmt s) -> exists r, scan_round s = Some r /\ goes_on (drop 1 (s_fmt s)) r.
Proof.
  intros Hne Hw. unfold scan_round. set (s1 := if isspace _ then _ else s).
  assert (s_fmt s1 = s_fmt s \/ s_fmt s1 `suffix_of` drop 1 (s_fmt s)) as H1.
  { unfold s1. destruct (isspace _); [right; apply skip_spaces_suffix|by left]. }
  assert (drop 1 (s_fmt s1) `suffix_of` drop 1 (s_fmt s)) as H2.
  { destruct H1 as [-> |H1]; [done|]. etransitivity; [apply drop_suffix|done]. }
  destruct (_ && _); [|destruct (_ =? 0)].
  - destruct (_ =? _); by eexists.
  - by eexists.
  - destruct (scan_directive_goes_on (next_fmt s1)) as (r & -> & Hr).
    { intros f Hf. apply Hw. cbn in Hf. etransitivity; [exact Hf|]. etransitivity; [exact H2|apply drop_suffix]. }
    eexists. split; [done|]. destruct r; try done. cbn [goes_on next_fmt set_fmt s_fmt] in *. by etransitivity.
Qed.

Lemma scan_loop_returns r : forall s, (length (s_fmt s) <= r)%nat -> widths_ok (s_fmt s) -> is_Some (scan_loop r s).
Proof.
  induction r as [|r IH]; intros s Hr Hw; cbn [scan_loop].
  - assert (s_fmt s = []) as -> by (apply nil_length_inv; lia). by eexists.
  - destruct (bool_decide (s_fmt s = []) || bool_decide (s_str s = [])) eqn:E; [by eexists|].
    apply orb_false_iff in E as [E _]. apply bool_decide_eq_false in E. destruct (scan_round_goes_on s E Hw) as (f & -> & Hf).
    cbn [mbind option_bind]. destruct f as [s'|s'|s']; [|by eexists..]. cbn in Hf. apply IH.
    + apply suffix_length in Hf. rewrite length_drop in Hf. destruct (s_fmt s); [done|]. cbn [length] in *. lia.
    + intros g Hg. apply Hw. etransitivity; [exact Hg|]. etransitivity; [exact Hf|apply drop_suffix].
Qed.

(** More rounds make no difference. *)
Lemma scan_enough r r' : forall s x, scan_loop r s = Some x -> (r <= r')%nat -> scan_loop r' s = Some x.
Proof.
  revert r'. induction r as [|r IH]; intros r' s x H Hr; (destruct r' as [|r']; [try lia; try done|]); cbn [scan_loop] in *;
    destruct (bool_decide (s_fmt s = []) || bool_decide (s_str s = [])); try done.
  destruct (scan_round s) as [[s'|s'|s']|]; cbn [mbind option_bind] in *; try done. apply IH; [done|lia].
Qed.

(** [vsscanf] returns for every text and every format whose widths fit an [int]: the
    loop ends after as many rounds as the format has characters. *)
Theorem vsscanf_returns buf fmt : widths_ok fmt -> is_Some (vsscanf buf fmt).
Proof.
  intros Hw. unfold vsscanf. destruct (scan_loop_returns (length fmt) (Scan fmt buf 0 0 [])) as [s ->]; [done..|]. by eexists.
Qed.

Lemma vsscanf_returns_witness : is_Some (vsscanf (chars "reset 12") (chars "reset %u")).
Proof.
  refine (vsscanf_returns (chars "reset 12") (chars "reset %u") _). intros f [k Hk].
  assert (f = drop (length k) (chars "reset %u")) as -> by (rewrite Hk; by rewrite drop_app_length).
  generalize (length k). intros n. do 9 (destruct n as [|n]; [vm_compute; by eexists|]). vm_compute. by eexists.
Defined.

(** ** Numbers *)

(** The end of a number: the end of the text, or a space. *)
Definition ends (tail : list Z) : Prop := tail = [] \/ exists l, tail = 32 :: l.

Lemma strtoul_digits n tail : 0 <= n < 2 ^ 32 -> ends tail -> simple_strtoul (digits 20 n ++ tail) 10 = (n, tail).
Proof.
  intros Hn Ht. unfold simple_strtoul, simple_strtoull. change (10 =? 0) with false. cbn iota. change (10 =? 16) with false. cbn [andb].
  assert (forall l : list Z, match l with c0 :: c1 :: rest => l | _ => l end = l) as Hid by (by intros [|? [|? ?]]).
  rewrite Hid, strtoull_app by (apply digits_forall; lia). rewrite digits_value by lia. cbn [fst].
  assert (strtoull_loop 10 n tail = (n, tail)) as -> by (by destruct Ht as [-> |[l ->]]). cbn [fst snd]. by rewrite u32_small by (unfold is_u32; lia).
Qed.

Lemma digits_first n : 0 <= n -> exists c l, digits 20 n = c :: l /\ 48 <= c <= 57.
Proof.
  intros Hn. pose proof (digits_forall 10 20 n ltac:(lia) Hn) as HF. pose proof (digits_nonempty 20 n ltac:(lia)).
  destruct (digits 20 n) as [|c l]; [cbn in *; lia|]. apply Forall_cons in HF as [(d & -> & Hd & _) _]. eexists _, _. split; [done|lia].
Qed.

Lemma strtol_decimal_prefix z tail : - 2 ^ 31 <= z < 2 ^ 31 -> ends tail -> simple_strtol (decimal z ++ tail) 10 = (z, tail).
Proof.
  intros Hz Ht. unfold simple_strtol, decimal. destruct (Z.ltb_spec z 0).
  - cbn [app]. change (MINUS =? MINUS) with true. cbn iota. rewrite strtoul_digits by (done || lia). cbn [fst snd]. by rewrite Z.opp_involutive, s32_small.
  - destruct (digits_first z) as (c & l & E & Hc); [lia|]. pose proof (strtoul_digits z tail ltac:(lia) Ht) as Es. rewrite E in *. cbn [app] in *.
    rewrite (proj2 (Z.eqb_neq c MINUS)) by (unfold MINUS; lia). rewrite Es. cbn [fst snd]. by rewrite s32_small.
Qed.

(** How a number in decimal begins. *)
Lemma decimal_first z tail : exists c l, decimal z ++ tail = c :: l /\ isspace c = false /\ c <> 0 /\
  (let d := if c =? ch "-" then at_ (decimal z ++ tail) 1 else c in d <> 0 /\ is_digit d = true).
Proof.
  assert (forall c, 48 <= c <= 57 -> isspace c = false /\ is_digit c = true /\ (c =? ch "-") = false) as Hd.
  { intros c Hc. unfold isspace, is_digit. change (ch "-") with 45.
    rewrite (proj2 (Z.leb_gt c 13)), (proj2 (Z.eqb_neq c 32)), (proj2 (Z.eqb_neq c 160)), (proj2 (Z.eqb_neq c 45)), andb_false_r by lia.
    by rewrite (proj2 (Z.leb_le 48 c)), (proj2 (Z.leb_le c 57)) by lia. }
  unfold decimal. destruct (Z.ltb_spec z 0).
  - destruct (digits_first (- z)) as (c & l & E & Hc); [lia|]. rewrite E. eexists _, _. split; [done|]. split; [done|]. split; [done|].
    destruct (Hd c Hc) as (_ & Hi & _). change (c <> 0 /\ is_digit c = true). split; [lia|done].
  - destruct (digits_first z) as (c & l & E & Hc); [lia|]. rewrite E. destruct (Hd c Hc) as (Hs & Hi & He). eexists _, _. split; [done|].
    split; [done|]. split; [lia|]. cbv zeta. rewrite He. split; [lia|done].
Qed.

Lemma scan_d s rest z tail : s_fmt s = 100 :: rest -> s_str s = decimal z ++ tail -> - 2 ^ 31 <= z < 2 ^ 31 -> ends tail ->
  exists p, scan_directive s = Some (Continue (Scan rest tail p (s_num s + 1) (s_out s ++ [Number z]))).
Proof.
  intros Hf Hs Hz Ht. unfold scan_directive. rewrite Hf. change (at_ (100 :: rest) 0) with 100. change (100 =? ch "*") with false.
  change (is_digit 100) with false. cbn [mbind option_bind]. change (scan_qualifier (100 :: rest)) with (255, 100 :: rest). cbv iota beta.
  destruct (decimal_first z tail) as (c & l & E & Hc & Hc0 & Hd). cbn [s_str set_fmt]. rewrite Hs, E in *. change (at_ (c :: l) 0) with c.
  change (at_ (100 :: rest) 0) with 100. change (100 =? 0) with false. rewrite (proj2 (Z.eqb_neq c 0)) by done. cbn [orb].
  change (conversion 100 (-1) 255 ?x) with (scan_integer 255 10 true x). unfold scan_integer. cbn [s_str next_fmt set_fmt move_to]. rewrite Hs.
  cbn [skip_spaces]. rewrite Hc. cbn [s_str]. change (at_ (c :: l) 0) with c. cbn [andb].
  destruct Hd as [Hd0 Hdi]. rewrite (proj2 (Z.eqb_neq _ 0) Hd0), Hdi. change (10 =? 16) with false. change (10 =? 8) with false.
  change (10 =? 0) with false. cbn [andb orb negb Z.eqb Pos.eqb]. unfold scan_number.
  change (255 =? ch "H") with false. change (255 =? ch "h") with false. change (255 =? ch "l") with false. change (255 =? ch "L") with false.
  change ((255 =? ch "Z") || (255 =? ch "z")) with false. cbv iota. rewrite <- E, strtol_decimal_prefix by done.
  eexists. reflexivity.
Qed.

(** ** A list of numbers, printed and read back *)

(** ["%d %d ... %d"] with [n + 1] directives, and what it puts out. *)
Fixpoint fmt_ints (n : nat) : list Z :=
  match n with O => chars "%d" | S n => chars "%d " ++ fmt_ints n end.
Fixpoint ints_text (z : Z) (zs : list Z) : list Z :=
  match zs with [] => decimal z | z' :: zs => decimal z ++ 32 :: ints_text z' zs end.

Definition is_int (z : Z) : Prop := - 2 ^ 31 <= z < 2 ^ 31.

Lemma fmt_ints_cons n : exists rest, fmt_ints n = 37 :: 100 :: rest.
Proof. destruct n; by eexists. Qed.

Lemma fmt_ints_length n : length (fmt_ints n) = (2 + 3 * n)%nat.
Proof. induction n as [|n IH]; cbn [fmt_ints]; [done|]. rewrite length_app, IH. change (length (chars "%d ")) with 3%nat. lia. Qed.

Lemma print_space symbol r n o : fits [32] o ->
  print_loop symbol (S r) (32 :: fmt_ints n) d_spec o = print_loop symbol r (fmt_ints n) (set_type FORMAT_TYPE_NONE d_spec) (moves [32] (va o) (stored o) o).
Proof.
  intros Ho. destruct (fmt_ints_cons n) as [rest ->]. cbn [print_loop]. rewrite bind_unfold.
  change (format_decode (32 :: 37 :: 100 :: rest) d_spec) with (Some (37 :: 100 :: rest, set_type FORMAT_TYPE_NONE d_spec)).
  rewrite lift_opt_run, bind_unfold. unfold directive. cbn [fst snd type set_type].
  assert (forall c (l : list Z), take (length (c :: l) - length l) (c :: l) = [c]) as ->.
  { intros c l. replace (length (c :: l) - length l)%nat with 1%nat by (cbn [length]; lia). done. }
  rewrite bind_unfold, (puts_emits [32]) by done. done.
Qed.

Lemma print_ints symbol zs : forall z spec r o, pending spec = 0%nat -> va o = map Word (z :: zs) -> Forall is_int (z :: zs) ->
  fits (ints_text z zs) o -> (2 * length zs < r)%nat ->
  print_loop symbol r (fmt_ints (length zs)) spec o = Some (tt, moves (ints_text z zs) [] (stored o) o).
Proof.
  induction zs as [|z' zs IH]; intros z spec r o Hp Hva Hz Ho Hr; inversion_clear Hz as [|? ? Hz0 Hz1];
    (destruct r as [|r]; [cbn in Hr; lia|]); cbn [fmt_ints length ints_text map] in *.
  - change (chars "%d") with [37; 100]. assert (fits (decimal (s32 z)) o) as Ho' by (by rewrite (s32_small z)).
    rewrite (print_d _ _ _ _ z _ []), (s32_small z) by done. by destruct r.
  - destruct r as [|r]; [lia|]. change (chars "%d " ++ fmt_ints (length zs)) with (37 :: 100 :: 32 :: fmt_ints (length zs)).
    destruct (fits_app _ _ _ Ho) as [Ho1 Ho2]. rewrite <- (s32_small z) in Ho1 by done. rewrite (print_d _ _ _ _ z _ (map Word (z' :: zs))) by done.
    rewrite (s32_small z) in * by done. change (32 :: ints_text z' zs) with ([32] ++ ints_text z' zs) in Ho2 |- *. destruct (fits_app _ _ _ Ho2) as [Ho3 Ho4].
    rewrite print_space by done. rewrite (IH z'); [|done|done|done|exact Ho4|lia]. rewrite !moves_moves by done. done.
Qed.

(** One conversion, with the space before it. *)
Lemma scan_round_d s sp rest z tail : sp = [] \/ sp = [32] -> s_fmt s = sp ++ 37 :: 100 :: rest -> s_str s = sp ++ decimal z ++ tail ->
  is_int z -> ends tail -> exists p, scan_round s = Some (Continue (Scan rest tail p (s_num s + 1) (s_out s ++ [Number z]))).
Proof.
  intros Hsp Hf Hs Hz Ht. unfold scan_round. set (s1 := if isspace _ then _ else s).
  assert (s_fmt s1 = 37 :: 100 :: rest /\ s_str s1 = decimal z ++ tail /\ s_num s1 = s_num s /\ s_out s1 = s_out s) as (E1 & E2 & <- & <-).
  { unfold s1. destruct (decimal_first z tail) as (c & l & E & Hc & _). rewrite Hf, Hs.
    destruct Hsp as [-> | ->]; [done|]. change (isspace (at_ ([32] ++ 37 :: 100 :: rest) 0)) with true. cbn iota. cbn [move_to set_fmt s_fmt s_str s_num s_out].
    split; [done|]. split; [|done]. rewrite E. cbn [app skip_spaces]. change (isspace 32) with true. cbn iota. by rewrite Hc. }
  rewrite E1. change (at_ (37 :: 100 :: rest) 0) with 37. change (negb (37 =? ch "%") && negb (37 =? 0)) with false. change (37 =? 0) with false. cbn iota.
  apply (scan_d (next_fmt s1) rest z tail); cbn; by rewrite ?E1, ?E2.
Qed.

Lemma scan_ints zs : forall z sp r s, sp = [] \/ sp = [32] -> s_fmt s = sp ++ fmt_ints (length zs) -> s_str s = sp ++ ints_text z zs ->
  Forall is_int (z :: zs) -> (length zs < r)%nat ->
  exists p, scan_loop r s = Some (Scan [] [] p (s_num s + Z.of_nat (length (z :: zs))) (s_out s ++ map Number (z :: zs))).
Proof.
  induction zs as [|z' zs IH]; intros z sp r s Hsp Hf Hs Hz Hr; inversion_clear Hz as [|? ? Hz0 Hz1];
    (destruct r as [|r]; [cbn in Hr; lia|]); cbn [fmt_ints length ints_text map] in *.
  all: assert (bool_decide (s_fmt s = []) || bool_decide (s_str s = []) = false) as Hne by
    (rewrite Hf, Hs; destruct (decimal_first z []) as (c & l & E & _); rewrite app_nil_r in E; rewrite E; by destruct Hsp as [-> | ->]).
  all: cbn [scan_loop]; rewrite Hne.
  - destruct (scan_round_d s sp [] z []) as [p Ep]; [done..|by rewrite app_nil_r|done|by left|]. rewrite Ep. cbn [mbind option_bind].
    exists p. by destruct r.
  - destruct (scan_round_d s sp (32 :: fmt_ints (length zs)) z (32 :: ints_text z' zs)) as [p Ep]; [done..|right; by eexists|].
    rewrite Ep. cbn [mbind option_bind]. edestruct (IH z' [32]) as [p' Ep']; [by right| | |done| |rewrite Ep']; [done|done|lia|].
    exists p'. cbn [s_num s_out]. rewrite <- app_assoc. do 2 f_equal. lia.
Qed.

Lemma ints_text_nonzero zs : forall z, Forall (fun c => c <> 0) (ints_text z zs).
Proof.
  induction zs as [|z' zs IH]; intros z; cbn [ints_text]; [apply decimal_nonzero|]. apply Forall_app. split; [apply decimal_nonzero|]. by constructor.
Qed.

Lemma vsnprintf_ints symbol z zs buf size m : Forall is_int (z :: zs) -> buffer_ok buf size m ->
  vsnprintf symbol buf size m (fmt_ints (length zs)) (map Word (z :: zs)) =
  Some (s32 (Z.of_nat (length (ints_text z zs))), terminated size (ints_text z zs) m, []).
Proof.
  intros Hz Hok. rewrite vsnprintf_run by done. pose proof Hok as (_ & Hsz & _ & Hm). unfold exec.
  rewrite (print_ints symbol zs z) by (done || (apply roomy_fits; done) || (unfold rounds_for; rewrite fmt_ints_length; lia)).
  cbn. destruct (Z.ltb_spec 0 size).
  - change (Z.to_nat 0) with 0%nat. rewrite Z.add_0_l, take_0. cbn [app Nat.add]. by rewrite terminate by lia.
  - replace size with 0 by lia. by rewrite clip_nil.
Qed.

(** C39: Numbers written with ["%d %d ... %d"], as many as there are, into a buffer that has
    room for them, come back from [vsscanf] with the same format: it returns how many
    they are and stores each of them. *)
Theorem scan_print_roundtrip symbol z zs buf size m :
  Forall is_int (z :: zs) -> buffer_ok buf size m -> Z.of_nat (length (ints_text z zs)) < size ->
  exists m' t, vsnprintf symbol buf size m (fmt_ints (length zs)) (map Word (z :: zs)) = Some (Z.of_nat (length t), m', []) /\
    strn (Z.to_nat size) m' = Some t /\
    vsscanf t (fmt_ints (length zs)) = Some (Z.of_nat (length (z :: zs)), map Number (z :: zs)).
Proof.
  intros Hz Hok Hl. pose proof Hok as (_ & Hsz & _ & Hm). exists (terminated size (ints_text z zs) m), (ints_text z zs).
  rewrite vsnprintf_ints, s32_small by (done || lia). split; [done|]. split.
  - unfold terminated. rewrite (proj2 (Z.eqb_neq size 0)), take_ge by lia. apply strn_stop; [apply ints_text_nonzero|lia].
  - unfold vsscanf. destruct (scan_ints zs z [] (length (fmt_ints (length zs))) (Scan (fmt_ints (length zs)) (ints_text z zs) 0 0 [])) as [p Ep];
      [by left|done..| |by rewrite Ep]. rewrite fmt_ints_length. lia.
Qed.

Lemma scan_print_roundtrip_witness : exists m' t,
  vsnprintf (fun _ _ => []) 0x1000 32 (replicate 32 7) (fmt_ints 2) [Word 250; Word (-7); Word (- 2 ^ 31)] = Some (Z.of_nat (length t), m', []) /\
  strn (Z.to_nat 32) m' = Some t /\ vsscanf t (fmt_ints 2) = Some (3, [Number 250; Number (-7); Number (- 2 ^ 31)]).
Proof.
  refine (scan_print_roundtrip _ 250 [-7; - 2 ^ 31] 0x1000 32 (replicate 32 7) _ _ _); [|done|vm_compute; congruence].
  repeat constructor; done.
Defined.

(** ** Corners *)

(** The width of a number is read and not used. *)
Example width_ignored : vsscanf (chars "1234") (chars "%2d%2d") = Some (1, [Number 1234]).
Proof. reflexivity. Qed.

(** A ["%n"] behind white space that ends the text is not filled. *)
Example n_not_filled : vsscanf (chars "12 ") (chars "%d %n") = Some (1, [Number 12]) /\
  vsscanf (chars "12") (chars "%d%n") = Some (1, [Number 12; Number 2]).
Proof. done. Qed.

(** A width of 32768 is no limit. *)
Example width_no_limit : vsscanf (chars "abcdef") (chars "%32768s") = Some (1, [Chars (chars "abcdef" ++ [0])]).
Proof. reflexivity. Qed.
