(* ===== verification/WdtProc.v ===== *)
(** * The /proc files of the watchdog (drivers/wdt/src/proc.c)

    Functions that print and set the driver's variables. Nothing registers them:
    the calls in [wdt_proc_init] are disabled. *)

From stdpp Require Import strings.
From S2P Require Import Prelude Klist Vsprintf Scan Watchdog WatchdogSpec.

(** ** sscanf with one ["%u"]: the number if the result is 1 *)

Definition sscanf_u (buffer : list Z) (fmt : string) : option Z :=
  match vsscanf buffer (chars fmt) with
  | Some (1, [Number n]) => Some n
  | _ => None
  end.

Definition strcmp (l : list Z) (s : string) : bool := bool_decide (l = chars s).

(** ** Variables *)

Record proc_vars := ProcVars { wdt_proc_reset : Z; wdt_proc_verbose : Z; wdt_proc_debug : Z }.

(** ** Writing *)

Definition wdtproc_set_proc (buffer : list Z) (v : proc_vars) : proc_vars :=
  match sscanf_u buffer "%u" with
  | Some number => ProcVars 1 (s32 number) (wdt_proc_debug v)
  | None =>
      match sscanf_u buffer "verbose %u" with
      | Some number => ProcVars (wdt_proc_reset v) (s32 number) (wdt_proc_debug v)
      | None =>
          match sscanf_u buffer "reset %u" with
          | Some number => ProcVars (s32 number) (wdt_proc_verbose v) (wdt_proc_debug v)
          | None =>
              if strcmp buffer "reset on" then ProcVars 1 (wdt_proc_verbose v) (wdt_proc_debug v)
              else if strcmp buffer "reset off" then ProcVars 0 (wdt_proc_verbose v) (wdt_proc_debug v)
              else if strcmp buffer "off" then ProcVars 0 0 (wdt_proc_debug v)
              else if strcmp buffer "on" then ProcVars 1 1 (wdt_proc_debug v)
              else v
          end
      end
  end.

Definition wdtproc_set_debug (buffer : list Z) (v : proc_vars) : proc_vars :=
  match (match sscanf_u buffer "%u" with Some n => Some n | None => sscanf_u buffer "level %u" end) with
  | Some n => ProcVars (wdt_proc_reset v) (wdt_proc_verbose v) (if 9 <? s32 n then 9 else s32 n)
  | None => v
  end.

Definition wdt_enable_write_proc (buffer : list Z) : M wdt unit :=
  match sscanf_u buffer "%u" with
  | Some number => modify (with_vars (set_enabled (s32 number)))
  | None =>
      if bool_decide (sscanf_u buffer "%u" = None) then modify (with_vars (set_enabled 0))
      else if strcmp buffer "enable on" then modify (with_vars (set_enabled 1))
      else if strcmp buffer "reset off" then modify (with_vars (set_enabled 0))
      else mret tt
  end.

(** ** Reading: the text *)

Definition line (l : list Z) : list Z := l ++ [NL].

Definition wdtproc_show_proc (v : proc_vars) : list Z :=
  line (chars "WDT: Watchdog Proc options") ++
  line (chars "Auto clear on show is " ++ chars (if truth (wdt_proc_reset v) then "on" else "off")%string) ++
  line (chars "Verbose level is " ++ decimal (wdt_proc_verbose v)).

Definition wdtproc_show_debug (v : proc_vars) : list Z :=
  line (chars "WDT: Watchdog Debug output") ++ line (chars "Debug level is " ++ decimal (wdt_proc_debug v)).

Definition wdt_enable_read_proc (c : ctl) : list Z := line (chars "Enabled (0=no, 1=yes): " ++ decimal (enabled c)).
Definition wdt_open_read_proc (c : ctl) : list Z :=
  line (chars " WDT opened by " ++ decimal (device_open c) ++ chars " applications").
Definition wdt_timer_read_proc (c : ctl) : list Z :=
  line (chars " only " ++ decimal (s32 (timer_count c)) ++ chars " ticks left until reset will occur ").

(** The text of a C string in an array; a string without terminator is not one. *)
Fixpoint cstr (l : list Z) : option (list Z) :=
  match l with
  | [] => None
  | c :: l => if c =? 0 then Some [] else r ← cstr l; Some (c :: r)
  end.

(** ["%20s"]. *)
Definition pad20 (l : list Z) : list Z := replicate (20 - length l) 32 ++ l.

Definition task_text (i now : Z) (t : task) : option (list Z) :=
  cmd ← cstr (command t);
  Some (
    line (chars "  " ++ decimal i ++ chars ". registered task: ") ++
    line (chars "   # PID of task                  " ++ decimal (pid t) ++ chars " ") ++
    line (chars "   # Calling Period in jiffies    " ++ decimal (s32 (call_period t)) ++ chars " ") ++
    line (chars "   # Will expire in (jiffies)     " ++ decimal (s32 (expires t - now)) ++ chars " ") ++
    line (chars "   # Last jiffies                 " ++ decimal (s32 (last_jiffies t)) ++ chars " ") ++
    line (line (chars "   # Extra info (1st 20 Bytes)   " ++ pad20 cmd ++ chars " "))).

Section Show.
Context (registered_tasks_list soft_margin : Z).

Definition overview (c : ctl) : list Z :=
  [NL] ++ line (chars "*** Watchdog Timer overview: ") ++
  line (chars "enabled: (0=no, 1=yes)            " ++ decimal (enabled c) ++
        chars (if truth (enabled c) then " (enabled)" else " (disabled)")%string) ++
  line (chars "exclusiv open: (0=no, 1=yes)      " ++ decimal (device_exclusiv_open_only c) ++
        chars (if truth (device_exclusiv_open_only c) then " (open exclusic)" else " (multiple open)")%string) ++
  line (chars "opend by No. of tasks:            " ++ decimal (device_open c) ++ chars " ") ++
  line (chars "time out open only: (0=no, 1=yes) " ++ decimal (timeout_open_only c) ++
        chars (if truth (timeout_open_only c) then " (time out is opend)" else " (will not time out if not opened)")%string) ++
  line (chars "RESET after No. of sec:           " ++ decimal soft_margin ++ chars " ") ++
  line (chars "remaing jiffies until HW RESET    " ++ decimal (s32 (timer_count c)) ++ chars " ") ++
  line (chars "internal trigger period:          " ++ decimal (s32 (timer_period c)) ++ chars " ").

(** The loop; the text and the number of tasks. *)
Fixpoint show_loop (fuel : nat) (ptr i : Z) (s : wdt) : option (list Z * Z) :=
  if ptr =? registered_tasks_list then Some ([], i)
  else match fuel with
  | O => None
  | S fuel =>
      t ← tasks s !! ptr;
      text ← task_text (i + 1) (jiffies (vars s)) t;
      n ← links s !! ptr;
      r ← show_loop fuel (next n) (i + 1) s;
      Some (text ++ fst r, snd r)
  end.

Definition wdtproc_show_registered_tasks : M wdt (list Z) :=
  s ← get;
  ptr ← lift_opt (first registered_tasks_list s);
  r ← lift_opt (show_loop (size (links s)) ptr 0 s);
  mret (overview (vars s) ++ fst r ++ line (chars "currently registered tasks:       " ++ decimal (snd r) ++ chars " ")).
End Show.

(** ** What is shown *)

(** The text for a list of tasks that begins with number [i + 1]. *)
Fixpoint tasks_text (i now : Z) (ts : list task) : option (list Z) :=
  match ts with
  | [] => Some []
  | t :: ts => text ← task_text (i + 1) now t; rest ← tasks_text (i + 1) now ts; Some (text ++ rest)
  end.

Section ShowSpec.
Context (head soft_margin : Z).

Lemma show_loop_ok l : forall fuel a s ts i,
  chain (links s) a l head -> head ∉ l ->
  Forall2 (fun q t => tasks s !! q = Some t) l ts -> (length l <= fuel)%nat ->
  show_loop head fuel (List.hd head l) i s =
    (fun text => (text, i + Z.of_nat (length ts))) <$> tasks_text i (jiffies (vars s)) ts.
Proof.
  induction l as [|q l IH]; intros fuel a s ts i Hc Hh Ht Hf; inversion Ht as [|? t ? ts' Hq Ht']; subst.
  - destruct fuel; cbn [List.hd show_loop]; rewrite Z.eqb_refl; cbn; do 2 f_equal; lia.
  - destruct fuel as [|fuel]; cbn [List.hd show_loop length] in *; [lia|]. rewrite (proj2 (Z.eqb_neq q head)) by set_solver.
    rewrite Hq. cbn [tasks_text mbind option_bind]. destruct (task_text (i + 1) _ t) as [text|]; [|done].
    destruct (chain_step _ _ _ _ _ Hc) as (n & Hn & En). rewrite Hn. cbn [mbind option_bind]. rewrite En. destruct Hc as [_ Hc].
    rewrite (IH fuel q s ts' (i + 1)); [|done|set_solver|done|lia]. destruct (tasks_text (i + 1) _ ts') as [rest|]; [|done].
    cbn. do 2 f_equal. lia.
Qed.

(** The overview shows the variables, every registered task in its order and their
    number, and changes nothing. *)
Lemma show_registered_tasks_ok s a text : rep head s a -> tasks_text 0 (jiffies (avars a)) (regs a) = Some text ->
  wdtproc_show_registered_tasks head soft_margin s =
    Some (overview soft_margin (avars a) ++ text ++
          line (chars "currently registered tasks:       " ++ decimal (Z.of_nat (length (regs a))) ++ chars " "), s).
Proof.
  intros [l R] Ht. unfold wdtproc_show_registered_tasks. rewrite bind_unfold, get_run, (rep_first _ _ _ _ R), bind_unfold, lift_opt_run.
  destruct (rep_list _ _ _ _ R) as [Hnd Hc]. pose proof (rep_fuel _ _ _ _ R) as Hf.
  rewrite (show_loop_ok l _ head s (regs a)); [|done|apply NoDup_cons in Hnd; tauto|apply (rep_tasks _ _ _ _ R)|done].
  rewrite (rep_vars _ _ _ _ R), Ht. cbn [fmap option_fmap option_map]. rewrite bind_unfold, lift_opt_run, ret_unfold. reflexivity.
Qed.
End ShowSpec.

Lemma decimal_nonempty z : (0 < length (decimal z))%nat.
Proof. unfold decimal. case_match; cbn [length]; [lia|]. apply digits_nonempty. lia. Qed.

(** A page has 4096 bytes; each task takes more than 200. *)
Lemma task_text_long i now t text : task_text i now t = Some text -> (200 < length text)%nat.
Proof.
  unfold task_text. destruct (cstr (command t)) as [cmd|]; [|done]. cbn [mbind option_bind]. intros Ht%(inj Some). subst text.
  pose proof (decimal_nonempty i). pose proof (decimal_nonempty (pid t)). pose proof (decimal_nonempty (s32 (call_period t))).
  pose proof (decimal_nonempty (s32 (expires t - now))). pose proof (decimal_nonempty (s32 (last_jiffies t))).
  unfold line, pad20. rewrite !length_app, length_replicate.
  repeat match goal with |- context [length (chars ?x)] => let n := eval vm_compute in (length (chars x)) in change (length (chars x)) with n end.
  cbn [length]. lia.
Qed.

Lemma tasks_text_long now ts : forall i text, tasks_text i now ts = Some text -> (200 * length ts <= length text)%nat.
Proof.
  induction ts as [|t ts IH]; intros i text H; cbn [tasks_text length] in *; [lia|].
  destruct (task_text (i + 1) now t) as [x|] eqn:Ex; [|done]. cbn [mbind option_bind] in H.
  destruct (tasks_text (i + 1) now ts) as [y|] eqn:Ey; [|done]. cbn [mbind option_bind] in H. injection H as <-.
  apply task_text_long in Ex. apply IH in Ey. rewrite length_app. lia.
Qed.

(** ** What is set *)

(** The command that the comment gives for enabling the watchdog disables it. *)
Lemma enable_on_disables s : wdt_enable_write_proc (chars "enable on") s = Some (tt, with_vars (set_enabled 0) s).
Proof. reflexivity. Qed.
