(* ===== verification/GpioLib.v ===== *)
(** * The GPIO library of the kernel (drivers/gpio/gpiolib.c)

    A table with a descriptor for each GPIO number, the chips that own ranges of
    numbers, and the files under /sys/class/gpio. A chip is its operations on a
    hardware state. The spinlock and the mutex make the table updates atomic;
    results of services of the kernel (memory, devices and files in sysfs,
    interrupts) are arguments. *)

From stdpp Require Import strings.
From S2P Require Import Prelude Vsprintf.

Definition EPERM : Z := 1.
Definition ENOENT : Z := 2.
Definition EIO : Z := 5.
Definition ENOSPC : Z := 28.
Definition ERANGE : Z := 34.

Definition ARCH_NR_GPIOS : Z := 256.
Definition gpio_is_valid (number : Z) : bool := u32 number <? ARCH_NR_GPIOS.

Definition FLAG_REQUESTED : Z := 0.
Definition FLAG_IS_OUT : Z := 1.
Definition FLAG_RESERVED : Z := 2.
Definition FLAG_EXPORT : Z := 3.
Definition FLAG_SYSFS : Z := 4.
Definition FLAG_TRIG_FALL : Z := 5.
Definition FLAG_TRIG_RISE : Z := 6.
Definition FLAG_ACTIVE_LOW : Z := 7.
Definition PDESC_ID_SHIFT : Z := 16.
Definition GPIO_FLAGS_MASK : Z := Z.shiftl 1 PDESC_ID_SHIFT - 1.
Definition GPIO_TRIGGER_MASK : Z := Z.lor (Z.shiftl 1 FLAG_TRIG_FALL) (Z.shiftl 1 FLAG_TRIG_RISE).

Definition GPIOF_DIR_IN : Z := 1.
Definition GPIOF_INIT_HIGH : Z := 2.
Definition IRQF_SHARED : Z := 0x80.
Definition IRQF_TRIGGER_RISING : Z := 1.
Definition IRQF_TRIGGER_FALLING : Z := 2.

(** The operations of [struct gpio_chip] that may be absent. *)
Record chip_ops (S : Type) := ChipOps {
  request : option (Z -> M S Z);
  free : option (Z -> M S unit);
  direction_input : option (Z -> M S Z);
  chip_get : option (Z -> M S Z);
  direction_output : option (Z -> Z -> M S Z);
  set_debounce : option (Z -> Z -> M S Z);
  chip_set : option (Z -> Z -> M S unit);
  to_irq : option (Z -> M S Z)
}.
Arguments request {_}. Arguments free {_}. Arguments direction_input {_}. Arguments chip_get {_}.
Arguments direction_output {_}. Arguments set_debounce {_}. Arguments chip_set {_}. Arguments to_irq {_}.

(** [live]: whether [try_module_get] of the owner succeeds; [users]: how often it
    was taken. *)
Record gpio_chip (S : Type) := Chip { base : Z; ngpio : Z; live : bool; users : Z; exported : bool; ops : chip_ops S }.
Arguments Chip {_}. Arguments base {_}. Arguments ngpio {_}. Arguments live {_}. Arguments users {_}.
Arguments exported {_}. Arguments ops {_}.

(** The device of an exported GPIO: which of the optional files it has. *)
Record sysfs_device := Device { has_direction : bool; has_edge : bool }.

(** [struct gpio_desc]; [dev]: the device [class_find_device] finds. *)
Record desc := Desc { chip : option positive; flags : Z; dev : option sysfs_device }.

(** [pdesc_idr]: the interrupt and its flags for each number in use. *)
Record gpiolib (S : Type) := GpioLib {
  hw : S;
  gpio_desc : list desc;
  chips : gmap positive (gpio_chip S);
  class_p : bool;
  pdesc_idr : gmap Z (option (Z * Z))
}.
Arguments GpioLib {_}. Arguments hw {_}. Arguments gpio_desc {_}. Arguments chips {_}. Arguments class_p {_}.
Arguments pdesc_idr {_}.

Definition set_flags (f : Z -> Z) (d : desc) : desc := Desc (chip d) (f (flags d)) (dev d).
Definition set_chip (c : option positive) (d : desc) : desc := Desc c (flags d) (dev d).
Definition set_dev (v : option sysfs_device) (d : desc) : desc := Desc (chip d) (flags d) v.
Definition test_bit (b : Z) (d : desc) : bool := Z.testbit (flags d) b.
Definition set_bit (b : Z) : desc -> desc := set_flags (fun f => Z.setbit f b).
Definition clear_bit (b : Z) : desc -> desc := set_flags (fun f => Z.clearbit f b).

(** Whether a pointer is not null. *)
Definition has {A} (o : option A) : bool := match o with Some _ => true | None => false end.

Section Lib.
Context {S : Type}.
Implicit Types (s : gpiolib S).

Definition with_hw (h : S) (s : gpiolib S) : gpiolib S :=
  GpioLib h (gpio_desc s) (chips s) (class_p s) (pdesc_idr s).
Definition with_descs (l : list desc) (s : gpiolib S) : gpiolib S :=
  GpioLib (hw s) l (chips s) (class_p s) (pdesc_idr s).
Definition with_chips (c : gmap positive (gpio_chip S)) (s : gpiolib S) : gpiolib S :=
  GpioLib (hw s) (gpio_desc s) c (class_p s) (pdesc_idr s).
Definition with_idr (i : gmap Z (option (Z * Z))) (s : gpiolib S) : gpiolib S :=
  GpioLib (hw s) (gpio_desc s) (chips s) (class_p s) i.

Definition on_hw {A} (m : M S A) : M (gpiolib S) A := zoom hw with_hw m.

(** [&gpio_desc[gpio]]: reading and changing an element. *)
Definition get_desc (gpio : Z) : M (gpiolib S) desc :=
  s ← get; if gpio <? 0 then ub else lift_opt (gpio_desc s !! Z.to_nat gpio).
Definition upd_desc (f : desc -> desc) (gpio : Z) : M (gpiolib S) unit :=
  d ← get_desc gpio;
  modify (fun s => with_descs (<[Z.to_nat gpio := f d]> (gpio_desc s)) s).

Definition get_chip (c : positive) : M (gpiolib S) (gpio_chip S) := s ← get; lift_opt (chips s !! c).
Definition upd_chip (f : gpio_chip S -> gpio_chip S) (c : positive) : M (gpiolib S) unit :=
  k ← get_chip c;
  modify (fun s => with_chips (<[c := f k]> (chips s)) s).

Definition add_users (n : Z) (k : gpio_chip S) : gpio_chip S :=
  Chip (base k) (ngpio k) (live k) (users k + n) (exported k) (ops k).
Definition set_base (b : Z) (k : gpio_chip S) : gpio_chip S :=
  Chip b (ngpio k) (live k) (users k) (exported k) (ops k).
Definition set_exported (b : bool) (k : gpio_chip S) : gpio_chip S :=
  Chip (base k) (ngpio k) (live k) (users k) b (ops k).

Definition try_module_get (c : positive) : M (gpiolib S) bool :=
  k ← get_chip c;
  if live k then upd_chip (add_users 1) c;; mret true else mret false.
Definition module_put (c : positive) : M (gpiolib S) unit := upd_chip (add_users (-1)) c.

(** ** Chips and numbers *)

Definition gpio_ensure_requested (gpio : Z) : M (gpiolib S) Z :=
  d ← get_desc gpio;
  match chip d with
  | None => ub
  | Some c =>
      if test_bit FLAG_REQUESTED d then mret 0
      else
        upd_desc (set_bit FLAG_REQUESTED) gpio;;
        got ← try_module_get c;
        if got : bool then k ← get_chip c; mret (if has (request (ops k)) then 1 else 0)
        else upd_desc (clear_bit FLAG_REQUESTED) gpio;; mret (- EIO)
  end.

(** The loop of [gpiochip_find_base] from [i] down. *)
Fixpoint find_base (fuel : nat) (n i spare : Z) : M (gpiolib S) Z :=
  if i <? 0 then mret (- ENOSPC)
  else match fuel with
  | O => ub
  | Datatypes.S fuel =>
      d ← get_desc i;
      match chip d with
      | Some c => k ← get_chip c; find_base fuel n (i - (ngpio k - 1) - 1) 0
      | None =>
          if test_bit FLAG_RESERVED d then find_base fuel n (i - 1) 0
          else if spare + 1 =? n then mret i
          else find_base fuel n (i - 1) (spare + 1)
      end
  end.

Definition gpiochip_find_base (n : Z) : M (gpiolib S) Z :=
  find_base (Z.to_nat ARCH_NR_GPIOS) n (ARCH_NR_GPIOS - 1) 0.

(** [for (i = start; i < start + ngpio; i++)] with an early end. *)
Fixpoint reserve_loop (n : nat) (i : Z) : M (gpiolib S) Z :=
  match n with
  | O => mret 0
  | Datatypes.S n =>
      d ← get_desc i;
      if has (chip d) || test_bit FLAG_RESERVED d then mret (- EBUSY)
      else upd_desc (set_bit FLAG_RESERVED) i;; reserve_loop n (i + 1)
  end.

Definition gpiochip_reserve (start n : Z) : M (gpiolib S) Z :=
  if negb (gpio_is_valid start) || negb (gpio_is_valid (start + n - 1)) then mret (- EINVAL)
  else reserve_loop (Z.to_nat n) start.

(** Whether some descriptor of a range satisfies [p]. *)
Fixpoint any_desc (p : desc -> bool) (n : nat) (i : Z) : M (gpiolib S) bool :=
  match n with
  | O => mret false
  | Datatypes.S n => d ← get_desc i; if p d then mret true else any_desc p n (i + 1)
  end.
Fixpoint each_desc (f : desc -> desc) (n : nat) (i : Z) : M (gpiolib S) unit :=
  match n with
  | O => mret tt
  | Datatypes.S n => upd_desc f i;; each_desc f n (i + 1)
  end.

(** [while (gpio_desc[gpio].chip == chip) gpio_desc[gpio++].chip = NULL]. *)
Fixpoint disown (fuel : nat) (c : positive) (i : Z) : M (gpiolib S) unit :=
  match fuel with
  | O => ub
  | Datatypes.S fuel =>
      d ← get_desc i;
      if bool_decide (chip d = Some c) then upd_desc (set_chip None) i;; disown fuel c (i + 1) else mret tt
  end.

(** [create]: the result of creating the device of the chip and its files. *)
Definition gpiochip_export (c : positive) (create : Z) : M (gpiolib S) Z :=
  s ← get;
  if negb (class_p s) then mret 0
  else
    upd_chip (set_exported (create =? 0)) c;;
    k ← get_chip c;
    (if negb (create =? 0) then disown (Z.to_nat ARCH_NR_GPIOS + 1) c (base k) else mret tt);;
    mret create.

Definition gpiochip_unexport (c : positive) : M (gpiolib S) unit :=
  k ← get_chip c; if exported k then upd_chip (set_exported false) c else mret tt.

(** [c]: the chip, already in [chips] but owning nothing. *)
Definition gpiochip_add (c : positive) (create : Z) : M (gpiolib S) Z :=
  k ← get_chip c;
  if (negb (gpio_is_valid (base k)) || negb (gpio_is_valid (base k + ngpio k - 1))) && (0 <=? base k)
  then mret (- EINVAL)
  else
    b ← (if base k <? 0 then gpiochip_find_base (ngpio k) else mret (base k));
    if b <? 0 then mret b
    else
      (if base k <? 0 then upd_chip (set_base b) c else mret tt);;
      taken ← any_desc (fun d => has (chip d)) (Z.to_nat (ngpio k)) b;
      if taken : bool then mret (- EBUSY)
      else
        let f := if has (direction_input (ops k)) then 0 else Z.shiftl 1 FLAG_IS_OUT in
        each_desc (fun d => Desc (Some c) f (dev d)) (Z.to_nat (ngpio k)) b;;
        gpiochip_export c create.

Definition gpiochip_remove (c : positive) : M (gpiolib S) Z :=
  k ← get_chip c;
  busy ← any_desc (test_bit FLAG_REQUESTED) (Z.to_nat (ngpio k)) (base k);
  if busy : bool then mret (- EBUSY)
  else
    each_desc (set_chip None) (Z.to_nat (ngpio k)) (base k);;
    gpiochip_unexport c;;
    mret 0.

(** ** Interrupts for poll(2) *)

Definition __gpio_to_irq (gpio : Z) : M (gpiolib S) Z :=
  d ← get_desc gpio;
  c ← lift_opt (chip d);
  k ← get_chip c;
  match to_irq (ops k) with
  | Some f => on_hw (f (gpio - base k))
  | None => mret (- ENXIO)
  end.

(** [idr_get_new_above(.., 1, ..)]: the smallest number from [i] on that is free. *)
Fixpoint idr_free (fuel : nat) (used : gmap Z (option (Z * Z))) (i : Z) : Z :=
  match fuel with
  | O => i
  | Datatypes.S fuel => if bool_decide (is_Some (used !! i)) then idr_free fuel used (i + 1) else i
  end.

(** What the kernel answers: memory for the descriptor, the error of
    [idr_get_new_above] after the repetitions for -EAGAIN (-ENOMEM, also when
    [idr_pre_get] fails, or -ENOSPC), the directory entry of the file,
    [request_irq]. *)
Record irq_env := IrqEnv { mem : bool; idr_err : Z; dirent : bool; request_irq : Z }.

Definition irq_flags_of (d : desc) (gpio_flags : Z) : Z :=
  let low := test_bit FLAG_ACTIVE_LOW d in
  let f := IRQF_SHARED in
  let f := if Z.testbit gpio_flags FLAG_TRIG_FALL
           then Z.lor f (if low then IRQF_TRIGGER_RISING else IRQF_TRIGGER_FALLING) else f in
  if Z.testbit gpio_flags FLAG_TRIG_RISE
  then Z.lor f (if low then IRQF_TRIGGER_FALLING else IRQF_TRIGGER_RISING) else f.

(** The label [free_id]. *)
Definition free_id (gpio id : Z) : M (gpiolib S) unit :=
  modify (fun s => with_idr (delete id (pdesc_idr s)) s);;
  upd_desc (set_flags (fun f => Z.land f GPIO_FLAGS_MASK)) gpio.

Definition gpio_setup_irq (gpio gpio_flags : Z) (e : irq_env) : M (gpiolib S) Z :=
  d ← get_desc gpio;
  if Z.land (flags d) GPIO_TRIGGER_MASK =? gpio_flags then mret 0
  else
    irq ← __gpio_to_irq gpio;
    if irq <? 0 then mret (- EIO)
    else
      s ← get;
      let id := Z.shiftr (flags d) PDESC_ID_SHIFT in
      let pdesc := bool_decide (is_Some (pdesc_idr s !! id)) in
      (if pdesc then modify (fun s => with_idr (<[id := None]> (pdesc_idr s)) s) else mret tt);;
      upd_desc (set_flags (fun f => Z.land f (not32 GPIO_TRIGGER_MASK))) gpio;;
      if gpio_flags =? 0 then free_id gpio id;; mret 0
      else
        let finish id :=
          if negb (request_irq e =? 0) then free_id gpio id;; mret (request_irq e)
          else
            modify (fun s => with_idr (<[id := Some (irq, irq_flags_of d gpio_flags)]> (pdesc_idr s)) s);;
            upd_desc (set_flags (fun f => Z.lor f gpio_flags)) gpio;;
            mret 0 in
        if pdesc then finish id
        else if negb (mem e) then mret (- ENOMEM)
        else if negb (idr_err e =? 0) then mret (idr_err e)
        else
          let id := idr_free (size (pdesc_idr s)) (pdesc_idr s) 1 in
          modify (fun s => with_idr (<[id := None]> (pdesc_idr s)) s);;
          upd_desc (set_flags (fun f => Z.lor (Z.land f GPIO_FLAGS_MASK) (u32 (Z.shiftl id PDESC_ID_SHIFT)))) gpio;;
          d ← get_desc gpio;
          if negb (Z.shiftr (flags d) PDESC_ID_SHIFT =? id) then free_id gpio id;; mret (- ERANGE)
          else if negb (dirent e) then free_id gpio id;; mret (- ENODEV)
          else finish id.

(** ** Requesting GPIOs *)

(** [sysfs_remove]: what the kernel answers while the device is taken away. *)
Definition gpio_unexport (gpio : Z) (e : irq_env) : M (gpiolib S) unit :=
  if negb (gpio_is_valid gpio) then mret tt
  else
    d ← get_desc gpio;
    if test_bit FLAG_EXPORT d && has (dev d) then
      gpio_setup_irq gpio 0 e;;
      upd_desc (clear_bit FLAG_EXPORT) gpio;;
      upd_desc (set_dev None) gpio
    else mret tt.

Definition gpio_request (gpio : Z) : M (gpiolib S) Z :=
  if negb (gpio_is_valid gpio) then mret (- EINVAL)
  else
    d ← get_desc gpio;
    match chip d with
    | None => mret (- EINVAL)
    | Some c =>
        got ← try_module_get c;
        if negb got then mret (- EINVAL)
        else if test_bit FLAG_REQUESTED d then module_put c;; mret (- EBUSY)
        else
          upd_desc (set_bit FLAG_REQUESTED) gpio;;
          k ← get_chip c;
          match request (ops k) with
          | None => mret 0
          | Some f =>
              status ← on_hw (f (gpio - base k));
              (if status <? 0 then module_put c;; upd_desc (clear_bit FLAG_REQUESTED) gpio else mret tt);;
              mret status
          end
    end.

Definition gpio_free (gpio : Z) (e : irq_env) : M (gpiolib S) unit :=
  if negb (gpio_is_valid gpio) then mret tt
  else
    gpio_unexport gpio e;;
    d ← get_desc gpio;
    match chip d with
    | Some c =>
        if test_bit FLAG_REQUESTED d then
          k ← get_chip c;
          (match free (ops k) with Some f => on_hw (f (gpio - base k)) | None => mret tt end);;
          module_put c;;
          upd_desc (clear_bit FLAG_ACTIVE_LOW) gpio;;
          upd_desc (clear_bit FLAG_REQUESTED) gpio
        else mret tt
    | None => mret tt
    end.

(** ** Direction and value *)

(** The checks that the functions for the direction and [gpio_set_debounce] have in
    common: [ok] says whether the chip has the operations. [inl]: the error; [inr]:
    the chip, the offset and what [gpio_ensure_requested] said. *)
Definition gpio_checks (ok : chip_ops S -> bool) (gpio : Z) : M (gpiolib S) (Z + (gpio_chip S * Z * Z)) :=
  if negb (gpio_is_valid gpio) then mret (inl (- EINVAL))
  else
    d ← get_desc gpio;
    match chip d with
    | None => mret (inl (- EINVAL))
    | Some c =>
        k ← get_chip c;
        if negb (ok (ops k)) then mret (inl (- EINVAL))
        else if ngpio k <=? u32 (gpio - base k) then mret (inl (- EINVAL))
        else
          status ← gpio_ensure_requested gpio;
          if status <? 0 then mret (inl status) else mret (inr (k, gpio - base k, status))
    end.

(** The functions for the direction then ask the chip, if the GPIO was not requested
    before. *)
Definition gpio_prepare (ok : chip_ops S -> bool) (gpio : Z) : M (gpiolib S) (Z + (gpio_chip S * Z)) :=
  r ← gpio_checks ok gpio;
  match r with
  | inl status => mret (inl status)
  | inr (k, off, status) =>
      if status =? 0 then mret (inr (k, off))
      else
        status ← (match request (ops k) with Some f => on_hw (f off) | None => ub end);
        if status <? 0 then mret (inl status) else mret (inr (k, off))
  end.

Definition gpio_direction_input (gpio : Z) : M (gpiolib S) Z :=
  r ← gpio_prepare (fun o => has (chip_get o) && has (direction_input o)) gpio;
  match r with
  | inl status => mret status
  | inr (k, off) =>
      status ← (match direction_input (ops k) with Some f => on_hw (f off) | None => ub end);
      (if status =? 0 then upd_desc (clear_bit FLAG_IS_OUT) gpio else mret tt);;
      mret status
  end.

Definition gpio_direction_output (gpio value : Z) : M (gpiolib S) Z :=
  r ← gpio_prepare (fun o => has (chip_set o) && has (direction_output o)) gpio;
  match r with
  | inl status => mret status
  | inr (k, off) =>
      status ← (match direction_output (ops k) with Some f => on_hw (f off value) | None => ub end);
      (if status =? 0 then upd_desc (set_bit FLAG_IS_OUT) gpio else mret tt);;
      mret status
  end.

Definition gpio_set_debounce (gpio debounce : Z) : M (gpiolib S) Z :=
  r ← gpio_checks (fun o => has (chip_set o) && has (set_debounce o)) gpio;
  match r with
  | inl status => mret status
  | inr (k, off, _) => match set_debounce (ops k) with Some f => on_hw (f off debounce) | None => ub end
  end.

Definition __gpio_get_value (gpio : Z) : M (gpiolib S) Z :=
  d ← get_desc gpio;
  c ← lift_opt (chip d);
  k ← get_chip c;
  match chip_get (ops k) with Some f => on_hw (f (gpio - base k)) | None => mret 0 end.

Definition __gpio_set_value (gpio value : Z) : M (gpiolib S) unit :=
  d ← get_desc gpio;
  c ← lift_opt (chip d);
  k ← get_chip c;
  match chip_set (ops k) with Some f => on_hw (f (gpio - base k) value) | None => ub end.

(** The same bodies, for callers that may sleep. *)
Definition gpio_get_value_cansleep : Z -> M (gpiolib S) Z := __gpio_get_value.
Definition gpio_set_value_cansleep : Z -> Z -> M (gpiolib S) unit := __gpio_set_value.

Definition gpio_request_one (gpio fl : Z) : M (gpiolib S) Z :=
  err ← gpio_request gpio;
  if truth err then mret err
  else if truth (Z.land fl GPIOF_DIR_IN) then gpio_direction_input gpio
  else gpio_direction_output gpio (if truth (Z.land fl GPIOF_INIT_HIGH) then 1 else 0).

Fixpoint gpio_free_array (l : list (Z * Z)) (e : irq_env) : M (gpiolib S) unit :=
  match l with
  | [] => mret tt
  | (gpio, _) :: l => gpio_free gpio e;; gpio_free_array l e
  end.

(** The loop; [got]: the elements before this one, the last one first. *)
Fixpoint request_loop (l got : list (Z * Z)) (e : irq_env) : M (gpiolib S) Z :=
  match l with
  | [] => mret 0
  | (gpio, fl) :: l =>
      err ← gpio_request_one gpio fl;
      if truth err then gpio_free_array got e;; mret err
      else request_loop l ((gpio, fl) :: got) e
  end.

Definition gpio_request_array (l : list (Z * Z)) (e : irq_env) : M (gpiolib S) Z := request_loop l [] e.

Definition gpiochip_is_requested (c : positive) (offset : Z) : M (gpiolib S) bool :=
  k ← get_chip c;
  let gpio := base k + offset in
  if negb (gpio_is_valid gpio) then mret false
  else d ← get_desc gpio; mret (bool_decide (chip d = Some c) && test_bit FLAG_REQUESTED d).

(** ** Files *)

(** The results of creating the device, its files, the file for the direction and
    the one for the edge. *)
Record export_env := ExportEnv { dev_err : Z; group_err : Z; direction_err : Z; edge_err : Z }.

(** The device and the error; an error unregisters it. *)
Definition create_device (gpio : Z) (may_change : bool) (e : export_env) : M (gpiolib S) (Z * option sysfs_device) :=
  if negb (dev_err e =? 0) then mret (dev_err e, None)
  else if negb (group_err e =? 0) then mret (group_err e, None)
  else if may_change && negb (direction_err e =? 0) then mret (direction_err e, None)
  else
    irq ← __gpio_to_irq gpio;
    d ← get_desc gpio;
    let edge := (0 <=? irq) && (may_change || negb (test_bit FLAG_IS_OUT d)) in
    if edge && negb (edge_err e =? 0) then mret (edge_err e, None)
    else mret (0, Some (Device may_change edge)).

Definition gpio_export (gpio : Z) (direction_may_change : bool) (e : export_env) : M (gpiolib S) Z :=
  s ← get;
  if negb (class_p s) then mret (- ENOENT)
  else if negb (gpio_is_valid gpio) then mret (- EINVAL)
  else
    d ← get_desc gpio;
    c ← lift_opt (chip d);
    k ← get_chip c;
    if test_bit FLAG_REQUESTED d && negb (test_bit FLAG_EXPORT d) then
      let may_change := direction_may_change && has (direction_input (ops k)) && has (direction_output (ops k)) in
      r ← create_device gpio may_change e;
      let (status, v) := (r : Z * option sysfs_device) in
      (if status =? 0 then upd_desc (set_dev v) gpio;; upd_desc (set_bit FLAG_EXPORT) gpio else mret tt);;
      mret status
    else mret (- EINVAL).

Definition gpio_direction_show (gpio : Z) : M (gpiolib S) (Z * list Z) :=
  d ← get_desc gpio;
  if negb (test_bit FLAG_EXPORT d) then mret (- EIO, [])
  else
    let text := chars (if test_bit FLAG_IS_OUT d then "out" else "in")%string ++ [NL] in
    mret (Z.of_nat (length text), text).

(** [buf]: what was written to the file. *)
Definition gpio_direction_store (gpio : Z) (buf : list Z) : M (gpiolib S) Z :=
  d ← get_desc gpio;
  status ←
    (if negb (test_bit FLAG_EXPORT d) then mret (- EIO)
     else if sysfs_streq buf (chars "high"%string) then gpio_direction_output gpio 1
     else if sysfs_streq buf (chars "out"%string) || sysfs_streq buf (chars "low"%string)
     then gpio_direction_output gpio 0
     else if sysfs_streq buf (chars "in"%string) then gpio_direction_input gpio
     else mret (- EINVAL));
  mret (if truth status then status else Z.of_nat (length buf)).

Definition gpio_value_show (gpio : Z) : M (gpiolib S) (Z * list Z) :=
  d ← get_desc gpio;
  if negb (test_bit FLAG_EXPORT d) then mret (- EIO, [])
  else
    v ← gpio_get_value_cansleep gpio;
    let value := if test_bit FLAG_ACTIVE_LOW d then negb (truth v) else truth v in
    let text := decimal (if value then 1 else 0) ++ [NL] in
    mret (Z.of_nat (length text), text).

Definition gpio_value_store (gpio : Z) (buf : list Z) : M (gpiolib S) Z :=
  d ← get_desc gpio;
  if negb (test_bit FLAG_EXPORT d) then mret (- EIO)
  else if negb (test_bit FLAG_IS_OUT d) then mret (- EPERM)
  else
    let (status, value) := strict_strtol buf 0 in
    if status =? 0 then
      let v := if test_bit FLAG_ACTIVE_LOW d then negb (truth value) else truth value in
      gpio_set_value_cansleep gpio (if v then 1 else 0);;
      mret (Z.of_nat (length buf))
    else mret status.

Definition trigger_types : list (list Z * Z) :=
  [(chars "none"%string, 0); (chars "falling"%string, Z.shiftl 1 FLAG_TRIG_FALL);
   (chars "rising"%string, Z.shiftl 1 FLAG_TRIG_RISE);
   (chars "both"%string, Z.lor (Z.shiftl 1 FLAG_TRIG_FALL) (Z.shiftl 1 FLAG_TRIG_RISE))].

Definition gpio_edge_show (gpio : Z) : M (gpiolib S) (Z * list Z) :=
  d ← get_desc gpio;
  if negb (test_bit FLAG_EXPORT d) then mret (- EIO, [])
  else match List.find (fun t => Z.land (flags d) GPIO_TRIGGER_MASK =? snd t) trigger_types with
       | Some (name, _) => mret (Z.of_nat (length (name ++ [NL])), name ++ [NL])
       | None => mret (0, [])
       end.

Definition gpio_edge_store (gpio : Z) (buf : list Z) (e : irq_env) : M (gpiolib S) Z :=
  match List.find (fun t => sysfs_streq (fst t) buf) trigger_types with
  | None => mret (- EINVAL)
  | Some (_, fl) =>
      d ← get_desc gpio;
      if negb (test_bit FLAG_EXPORT d) then mret (- EIO)
      else
        status ← gpio_setup_irq gpio fl e;
        mret (if truth status then status else Z.of_nat (length buf))
  end.

(** [present]: the device is there. *)
Definition sysfs_set_active_low (gpio value : Z) (present : bool) (e : irq_env) : M (gpiolib S) Z :=
  d ← get_desc gpio;
  if Bool.eqb (test_bit FLAG_ACTIVE_LOW d) (truth value) then mret 0
  else
    upd_desc (if truth value then set_bit FLAG_ACTIVE_LOW else clear_bit FLAG_ACTIVE_LOW) gpio;;
    if present && xorb (test_bit FLAG_TRIG_RISE d) (test_bit FLAG_TRIG_FALL d) then
      gpio_setup_irq gpio 0 e;;
      gpio_setup_irq gpio (Z.land (flags d) GPIO_TRIGGER_MASK) e
    else mret 0.

Definition gpio_active_low_show (gpio : Z) : M (gpiolib S) (Z * list Z) :=
  d ← get_desc gpio;
  if negb (test_bit FLAG_EXPORT d) then mret (- EIO, [])
  else
    let text := decimal (if test_bit FLAG_ACTIVE_LOW d then 1 else 0) ++ [NL] in
    mret (Z.of_nat (length text), text).

Definition gpio_active_low_store (gpio : Z) (buf : list Z) (e : irq_env) : M (gpiolib S) Z :=
  d ← get_desc gpio;
  status ←
    (if negb (test_bit FLAG_EXPORT d) then mret (- EIO)
     else
       let (status, value) := strict_strtol buf 0 in
       if status =? 0 then sysfs_set_active_low gpio (if truth value then 1 else 0) true e else mret status);
  mret (if truth status then status else Z.of_nat (length buf)).

Definition gpio_sysfs_set_active_low (gpio value : Z) (e : irq_env) : M (gpiolib S) Z :=
  if negb (gpio_is_valid gpio) then mret (- EINVAL)
  else
    d ← get_desc gpio;
    if test_bit FLAG_EXPORT d && negb (has (dev d)) then mret (- ENODEV)
    else sysfs_set_active_low gpio value (test_bit FLAG_EXPORT d) e.

Definition export_store (buf : list Z) (x : export_env) (e : irq_env) : M (gpiolib S) Z :=
  let (status, gpio) := strict_strtol buf 0 in
  if status <? 0 then mret status
  else
    status ← gpio_request (u32 gpio);
    if status <? 0 then mret status
    else
      status ← gpio_export (u32 gpio) true x;
      (if status <? 0 then gpio_free (u32 gpio) e else upd_desc (set_bit FLAG_SYSFS) gpio);;
      mret (if truth status then status else Z.of_nat (length buf)).

Definition unexport_store (buf : list Z) (e : irq_env) : M (gpiolib S) Z :=
  let (status, gpio) := strict_strtol buf 0 in
  if status <? 0 then mret status
  else if negb (gpio_is_valid gpio) then mret (- EINVAL)
  else
    d ← get_desc gpio;
    if test_bit FLAG_SYSFS d then
      upd_desc (clear_bit FLAG_SYSFS) gpio;;
      gpio_free gpio e;;
      mret (Z.of_nat (length buf))
    else mret (- EINVAL).

(** The scan for the chips that registered early; [create c]: the result for a
    chip. *)
Fixpoint sysfs_init_loop (fuel : nat) (gpio status : Z) (create : positive -> Z) : M (gpiolib S) Z :=
  match fuel with
  | O => mret status
  | Datatypes.S fuel =>
      d ← get_desc gpio;
      match chip d with
      | None => sysfs_init_loop fuel (gpio + 1) status create
      | Some c =>
          k ← get_chip c;
          if exported k then sysfs_init_loop fuel (gpio + 1) status create
          else
            status ← gpiochip_export c (create c);
            sysfs_init_loop fuel (gpio + 1) status create
      end
  end.

Definition gpiolib_sysfs_init (class_register : Z) (create : positive -> Z) : M (gpiolib S) Z :=
  if class_register <? 0 then mret class_register
  else
    modify (fun s => GpioLib (hw s) (gpio_desc s) (chips s) true (pdesc_idr s));;
    sysfs_init_loop (Z.to_nat ARCH_NR_GPIOS) 0 class_register create.
End Lib.
