(* ===== verification/GpioLibProps.v ===== *)
(** * The GPIO library keeps its table consistent

    A chip owns all of its range or nothing, the device of an exported GPIO is there
    as long as the flag, and only while the GPIO has a chip and is requested, and a
    chip's module is held at least once for each of its requested GPIOs. As long as
    the table is [whole], every requested GPIO has a chip, and the module is held
    exactly that often. Every function of the library keeps this, whatever the chips'
    operations and the services of the kernel do; only creating the devices of early
    chips can end the wholeness. *)

From stdpp Require Import strings.
From S2P Require Import Prelude Vsprintf GpioLib.

Section Inv.
Context {S : Type} {whole : bool}.
Implicit Types (s : gpiolib S) (d : desc) (k : gpio_chip S).

Definition holds_chip (c : positive) (d : desc) : Prop := chip d = Some c /\ test_bit FLAG_REQUESTED d = true.
#[local] Instance holds_chip_dec c d : Decision (holds_chip c d).
Proof. unfold holds_chip. apply _. Defined.

(** How many GPIOs of the chip are requested. *)
Definition claimed (l : list desc) (c : positive) : Z := Z.of_nat (length (filter (holds_chip c) l)).

Definition owns (k : gpio_chip S) (i : Z) : Prop := base k <= i < base k + ngpio k.

Definition desc_ok (d : desc) : Prop :=
  (whole = true -> test_bit FLAG_REQUESTED d = true -> is_Some (chip d)) /\
  test_bit FLAG_EXPORT d = has (dev d) /\
  (test_bit FLAG_EXPORT d = true -> test_bit FLAG_REQUESTED d = true /\ is_Some (chip d)).

Record lib_ok (s : gpiolib S) : Prop := LibOk {
  ok_len : Z.of_nat (length (gpio_desc s)) = ARCH_NR_GPIOS;
  ok_descs : Forall desc_ok (gpio_desc s);
  ok_class i d : class_p s = false -> gpio_desc s !! i = Some d -> dev d = None;
  ok_chip i d c : gpio_desc s !! i = Some d -> chip d = Some c ->
    exists k, chips s !! c = Some k /\ owns k (Z.of_nat i) /\ 0 <= base k /\ base k + ngpio k <= ARCH_NR_GPIOS;
  ok_full i d c k j : gpio_desc s !! i = Some d -> chip d = Some c -> chips s !! c = Some k -> owns k (Z.of_nat j) ->
    exists d', gpio_desc s !! j = Some d' /\ chip d' = Some c;
  ok_users c k : chips s !! c = Some k ->
    claimed (gpio_desc s) c <= users k /\ (whole = true -> users k = claimed (gpio_desc s) c)
}.

(** ** Counting *)

Lemma filter_insert (P : desc -> Prop) `{!forall x, Decision (P x)} (l : list desc) i d d' : l !! i = Some d ->
  Z.of_nat (length (filter P (<[i := d']> l))) =
  Z.of_nat (length (filter P l)) - (if decide (P d) then 1 else 0) + (if decide (P d') then 1 else 0).
Proof.
  intros E. pose proof (lookup_lt_Some _ _ _ E) as Hl. rewrite insert_take_drop by done.
  rewrite <- (take_drop_middle l i d E) at 3. rewrite !filter_app, !length_app, !filter_cons.
  destruct (decide (P d)), (decide (P d')); cbn [length]; lia.
Qed.

(** ** Changes of a descriptor that the invariant does not see *)

Definition harmless (f : desc -> desc) : Prop := forall d,
  chip (f d) = chip d /\ dev (f d) = dev d /\
  test_bit FLAG_REQUESTED (f d) = test_bit FLAG_REQUESTED d /\ test_bit FLAG_EXPORT (f d) = test_bit FLAG_EXPORT d.

Lemma harmless_flags g : (forall f, Z.testbit (g f) FLAG_REQUESTED = Z.testbit f FLAG_REQUESTED) ->
  (forall f, Z.testbit (g f) FLAG_EXPORT = Z.testbit f FLAG_EXPORT) -> harmless (set_flags g).
Proof. intros H1 H2 d. unfold test_bit, set_flags. cbn [flags chip dev]. by rewrite H1, H2. Qed.

Lemma bit_out b : 0 <= b -> b <> FLAG_REQUESTED -> b <> FLAG_EXPORT -> harmless (set_bit b) /\ harmless (clear_bit b).
Proof.
  intros Hb H1 H2. split; apply harmless_flags; intros f;
    rewrite ?Z.setbit_eqb, ?Z.clearbit_eqb by (done || (unfold FLAG_REQUESTED, FLAG_EXPORT; lia));
    rewrite (proj2 (Z.eqb_neq _ _)) by done; cbn; by rewrite ?andb_true_r.
Qed.

Lemma mask_out m : Z.testbit m FLAG_REQUESTED = true -> Z.testbit m FLAG_EXPORT = true -> harmless (set_flags (fun f => Z.land f m)).
Proof. intros H1 H2. apply harmless_flags; intros f; rewrite Z.land_spec, ?H1, ?H2; apply andb_true_r. Qed.

Lemma or_out m : Z.testbit m FLAG_REQUESTED = false -> Z.testbit m FLAG_EXPORT = false -> harmless (set_flags (fun f => Z.lor f m)).
Proof. intros H1 H2. apply harmless_flags; intros f; rewrite Z.lor_spec, ?H1, ?H2; apply orb_false_r. Qed.

Lemma id_out id : harmless (set_flags (fun f => Z.lor (Z.land f GPIO_FLAGS_MASK) (u32 (Z.shiftl id PDESC_ID_SHIFT)))).
Proof.
  assert (forall b, 0 <= b < 16 -> Z.testbit (u32 (Z.shiftl id PDESC_ID_SHIFT)) b = false) as H.
  { intros b Hb. unfold u32. rewrite Z.mod_pow2_bits_low, Z.shiftl_spec_low by (unfold PDESC_ID_SHIFT; lia). done. }
  apply harmless_flags; intros f; rewrite Z.lor_spec, Z.land_spec, H by (unfold FLAG_REQUESTED, FLAG_EXPORT; lia);
    rewrite orb_false_r; apply andb_true_r.
Qed.

Lemma insert_cases (l : list desc) i d j d' : <[i := d]> l !! j = Some d' -> (j = i /\ d' = d) \/ (j <> i /\ l !! j = Some d').
Proof.
  destruct (decide (j = i)) as [->|Hne]; [|rewrite list_lookup_insert_ne by done; auto].
  intros H. pose proof (lookup_lt_Some _ _ _ H) as Hl. rewrite length_insert in Hl.
  rewrite list_lookup_insert_eq in H by done. left. by injection H.
Qed.

(** A change that keeps the chips of the descriptors, and counts right. *)
Lemma ok_change s i d d' cs : lib_ok s -> gpio_desc s !! i = Some d -> chip d' = chip d -> desc_ok d' ->
  (forall c k, chips s !! c = Some k -> exists k', cs !! c = Some k' /\ base k' = base k /\ ngpio k' = ngpio k) ->
  (forall c k', cs !! c = Some k' -> exists k, chips s !! c = Some k /\ base k' = base k /\ ngpio k' = ngpio k /\
     users k' = users k - (if decide (holds_chip c d) then 1 else 0) + (if decide (holds_chip c d') then 1 else 0)) ->
  class_p s = true \/ dev d' = dev d \/ dev d' = None ->
  lib_ok (with_descs (<[i := d']> (gpio_desc s)) (with_chips cs s)).
Proof.
  intros [HL HD HK HC HF HU] Ed Ech Hok Hcs1 Hcs2 Hdev. constructor; cbn [gpio_desc chips with_descs with_chips].
  - by rewrite length_insert.
  - by apply Forall_insert.
  - cbn [class_p with_descs with_chips]. intros j dj Hp Hj. apply insert_cases in Hj as [[-> ->]|[_ Hj]]; [|by apply (HK j)].
    destruct Hdev as [Hdev|[->|Hdev]]; [congruence|by apply (HK i)|done].
  - intros j dj c Hj Hc. assert (exists dj0, gpio_desc s !! j = Some dj0 /\ chip dj0 = Some c) as (dj0 & Ej & Ej').
    { apply insert_cases in Hj as [[-> ->]|[_ Hj]]; [exists d; split; congruence|eauto]. }
    destruct (HC j dj0 c Ej Ej') as (k & Ek & Ho & Hb). destruct (Hcs1 c k Ek) as (k' & Ek' & E1 & E2).
    exists k'. unfold owns in *. rewrite E1, E2. done.
  - intros j dj c k' m Hj Hc Hk Ho. assert (exists dj0, gpio_desc s !! j = Some dj0 /\ chip dj0 = Some c) as (dj0 & Ej & Ej').
    { apply insert_cases in Hj as [[-> ->]|[_ Hj]]; [exists d; split; congruence|eauto]. }
    destruct (Hcs2 c k' Hk) as (k & Ek & E1 & E2 & _). unfold owns in Ho. rewrite E1, E2 in Ho.
    destruct (HF j dj0 c k m Ej Ej' Ek Ho) as (dm & Em & Ecm). destruct (decide (m = i)) as [->|Hne].
    + exists d'. rewrite list_lookup_insert_eq by (by eapply lookup_lt_Some). split; [done|congruence].
    + exists dm. by rewrite list_lookup_insert_ne.
  - intros c k' Hk. destruct (Hcs2 c k' Hk) as (k & Ek & _ & _ & Eu). destruct (HU c k Ek) as [U1 U2]. rewrite Eu. unfold claimed in *.
    rewrite (filter_insert _ _ _ d d' Ed). split; [lia|]. intros Hw. by rewrite (U2 Hw).
Qed.

Lemma holds_harmless f c d : harmless f -> holds_chip c (f d) <-> holds_chip c d.
Proof. intros H. destruct (H d) as (E1 & _ & E3 & _). unfold holds_chip. by rewrite E1, E3. Qed.

Lemma ok_harmless s i d f : lib_ok s -> gpio_desc s !! i = Some d -> harmless f ->
  lib_ok (with_descs (<[i := f d]> (gpio_desc s)) s).
Proof.
  intros Hok Ed Hf. destruct (Hf d) as (E1 & E2 & E3 & E4).
  assert (s = with_chips (chips s) s) as Es by (by destruct s). rewrite Es at 2.
  apply (ok_change s i d); [done|done|done| |eauto| |by rewrite E2; auto].
  - pose proof (Forall_lookup_1 _ _ _ _ (ok_descs s Hok) Ed) as (H1 & H2 & H3). unfold desc_ok. by rewrite E1, E2, E3, E4.
  - intros c k Ek. exists k. split; [done|]. split; [done|]. split; [done|]. pose proof (holds_harmless f c d Hf).
    destruct (decide (holds_chip c d)), (decide (holds_chip c (f d))); try lia; tauto.
Qed.

(** ** The single steps *)

Lemma get_desc_inv g s d s' : get_desc g s = Some (d, s') -> s' = s /\ 0 <= g /\ gpio_desc s !! Z.to_nat g = Some d.
Proof.
  unfold get_desc. rewrite bind_unfold, get_run. destruct (Z.ltb_spec g 0); [done|].
  destruct (gpio_desc s !! Z.to_nat g) eqn:E; [|done]. rewrite lift_opt_run. intros [= <- <-]. done.
Qed.

Lemma upd_desc_inv f g s u s' : upd_desc f g s = Some (u, s') ->
  exists d, 0 <= g /\ gpio_desc s !! Z.to_nat g = Some d /\ s' = with_descs (<[Z.to_nat g := f d]> (gpio_desc s)) s.
Proof.
  intros H. apply bind_inv in H as (d & s1 & (-> & Hg & Ed)%get_desc_inv & H). rewrite modify_run in H. injection H as _ <-.
  by exists d.
Qed.

Lemma get_chip_inv c s k s' : get_chip c s = Some (k, s') -> s' = s /\ chips s !! c = Some k.
Proof.
  unfold get_chip. rewrite bind_unfold, get_run. destruct (chips s !! c); [|done]. rewrite lift_opt_run. by intros [= <- <-].
Qed.

Lemma upd_chip_inv f c s u s' : upd_chip f c s = Some (u, s') ->
  exists k, chips s !! c = Some k /\ s' = with_chips (<[c := f k]> (chips s)) s.
Proof.
  intros H. apply bind_inv in H as (k & s1 & (-> & Ek)%get_chip_inv & H). rewrite modify_run in H. injection H as _ <-. by exists k.
Qed.

Lemma try_module_get_inv c s b s' : try_module_get c s = Some (b, s') ->
  exists k, chips s !! c = Some k /\ b = live k /\
    s' = if b then with_chips (<[c := add_users 1 k]> (chips s)) s else s.
Proof.
  intros H. apply bind_inv in H as (k & s1 & (-> & Ek)%get_chip_inv & H). exists k. split; [done|].
  destruct (live k).
  - apply bind_inv in H as ([] & s1 & (k' & Ek' & ->)%upd_chip_inv & H). rewrite ret_unfold in H. injection H as <- <-.
    split; [done|]. congruence.
  - rewrite ret_unfold in H. by injection H as <- <-.
Qed.

Lemma on_hw_inv {A} (m : M S A) s a s' : on_hw m s = Some (a, s') -> exists h, s' = with_hw h s.
Proof. unfold on_hw, zoom. destruct (m (hw s)) as [[x h]|]; [|done]. intros [= <- <-]. by exists h. Qed.

Lemma ok_hw s h : lib_ok s -> lib_ok (with_hw h s).
Proof. intros []. by constructor. Qed.
Lemma ok_idr s i : lib_ok s -> lib_ok (with_idr i s).
Proof. intros []. by constructor. Qed.

Lemma add_users_other c k c' n s : chips s !! c = Some k ->
  (forall k', chips s !! c' = Some k' -> exists k1, <[c := add_users n k]> (chips s) !! c' = Some k1 /\ base k1 = base k' /\ ngpio k1 = ngpio k').
Proof.
  intros Ek k' Ek'. destruct (decide (c' = c)) as [->|Hne].
  - exists (add_users n k). rewrite lookup_insert_eq. split; [done|]. assert (k' = k) as -> by congruence. done.
  - exists k'. by rewrite lookup_insert_ne.
Qed.

(** A requested GPIO more, or one less. *)
Lemma ok_count s i d d' c k n : lib_ok s -> gpio_desc s !! i = Some d -> chip d = Some c -> chip d' = Some c -> desc_ok d' ->
  chips s !! c = Some k -> dev d' = dev d ->
  n = (if test_bit FLAG_REQUESTED d' then 1 else 0) - (if test_bit FLAG_REQUESTED d then 1 else 0) ->
  lib_ok (with_descs (<[i := d']> (gpio_desc s)) (with_chips (<[c := add_users n k]> (chips s)) s)).
Proof.
  intros Hok Ed Ec Ec' Hd' Ek Hv Hn. apply (ok_change s i d); [done|done|congruence|done| | |by auto].
  - intros c' k' Ek'. by apply (add_users_other c k c' n s).
  - intros c' k'. destruct (decide (c' = c)) as [->|Hne].
    + rewrite lookup_insert_eq. intros [= <-]. exists k. split; [done|]. split; [done|]. split; [done|]. cbn [users add_users].
      unfold holds_chip. destruct (decide (chip d = Some c /\ _)) as [[_ H1]|H1], (decide (chip d' = Some c /\ _)) as [[_ H2]|H2];
        destruct (test_bit FLAG_REQUESTED d), (test_bit FLAG_REQUESTED d'); try done; try lia; exfalso; tauto.
    + rewrite lookup_insert_ne by done. intros Ek'. exists k'. split; [done|]. split; [done|]. split; [done|].
      rewrite !decide_False by (unfold holds_chip; intros [? _]; congruence). lia.
Qed.

(** The same when nothing is counted. *)
Lemma ok_same s i d d' : lib_ok s -> gpio_desc s !! i = Some d -> chip d' = chip d -> desc_ok d' ->
  test_bit FLAG_REQUESTED d' = test_bit FLAG_REQUESTED d ->
  class_p s = true \/ dev d' = dev d \/ dev d' = None -> lib_ok (with_descs (<[i := d']> (gpio_desc s)) s).
Proof.
  intros Hok Ed Ec Hd Hr Hv. assert (s = with_chips (chips s) s) as Es by (by destruct s). rewrite Es at 2.
  apply (ok_change s i d); [done|done|done|done|eauto| |done]. intros c k Ek. exists k. split; [done|]. split; [done|]. split; [done|].
  assert (holds_chip c d' <-> holds_chip c d) by (unfold holds_chip; by rewrite Ec, Hr).
  destruct (decide (holds_chip c d)), (decide (holds_chip c d')); try lia; tauto.
Qed.

(** ** Functions that keep the table consistent *)

Definition safe {A} (m : M (gpiolib S) A) : Prop := forall s a s', lib_ok s -> m s = Some (a, s') -> lib_ok s'.

Lemma safe_ret {A} (a : A) : safe (mret a).
Proof. intros s b s' Hs H. rewrite ret_unfold in H. by injection H as _ <-. Qed.
Lemma safe_bind {A B} (m : M (gpiolib S) A) (f : A -> M (gpiolib S) B) : safe m -> (forall a, safe (f a)) -> safe (m ≫= f).
Proof. intros Hm Hf s b s' Hs H. apply bind_inv in H as (a & s1 & H1 & H2). by eapply Hf; [eapply Hm|]. Qed.
Lemma safe_ub {A} : safe (ub : M (gpiolib S) A).
Proof. by intros s a s' _ H. Qed.
Lemma safe_get : safe get.
Proof. intros s a s' Hs H. rewrite get_run in H. by injection H as _ <-. Qed.
Lemma safe_lift {A} (o : option A) : safe (lift_opt o).
Proof. intros s a s' Hs H. destruct o; [|done]. rewrite lift_opt_run in H. by injection H as _ <-. Qed.
Lemma safe_get_desc g : safe (get_desc g).
Proof. intros s a s' Hs H. by apply get_desc_inv in H as [-> _]. Qed.
Lemma safe_get_chip c : safe (get_chip c).
Proof. intros s a s' Hs H. by apply get_chip_inv in H as [-> _]. Qed.
Lemma safe_hw {A} (m : M S A) : safe (on_hw m).
Proof. intros s a s' Hs H. apply on_hw_inv in H as [h ->]. by apply ok_hw. Qed.
Lemma safe_idr f : safe (modify (fun s => with_idr (f s) s)).
Proof. intros s a s' Hs H. rewrite modify_run in H. injection H as _ <-. by apply ok_idr. Qed.
Lemma safe_upd f g : harmless f -> safe (upd_desc f g).
Proof. intros Hf s a s' Hs H. apply upd_desc_inv in H as (d & _ & Ed & ->). by apply ok_harmless. Qed.
End Inv.
Arguments desc_ok : clear implicits.
Arguments lib_ok {S} whole s.
Arguments safe {S} whole {A} m.

Create HintDb gpio.
#[export] Hint Resolve safe_ret safe_ub safe_get safe_lift safe_get_desc safe_get_chip safe_hw safe_idr : gpio.

(** Through binds and conditions down to the steps. *)
Ltac keep_table :=
  repeat first [ solve [eauto with gpio] | apply safe_bind; [|intros ?] | case_match ].

Section Ops.
Context {S : Type} {whole : bool}.
Implicit Types (s : gpiolib S) (d : desc) (k : gpio_chip S).

Lemma set_requested d : test_bit FLAG_REQUESTED (set_bit FLAG_REQUESTED d) = true /\
  test_bit FLAG_EXPORT (set_bit FLAG_REQUESTED d) = test_bit FLAG_EXPORT d.
Proof. unfold test_bit, set_bit, set_flags. cbn [flags]. by rewrite !Z.setbit_eqb. Qed.

Lemma clear_requested d : test_bit FLAG_REQUESTED (clear_bit FLAG_REQUESTED d) = false /\
  test_bit FLAG_EXPORT (clear_bit FLAG_REQUESTED d) = test_bit FLAG_EXPORT d.
Proof.
  unfold test_bit, clear_bit, set_flags. cbn [flags]. rewrite !Z.clearbit_eqb. cbn. by rewrite andb_false_r, andb_true_r.
Qed.

Lemma set_export d : test_bit FLAG_EXPORT (set_bit FLAG_EXPORT d) = true /\
  test_bit FLAG_REQUESTED (set_bit FLAG_EXPORT d) = test_bit FLAG_REQUESTED d.
Proof. unfold test_bit, set_bit, set_flags. cbn [flags]. by rewrite !Z.setbit_eqb. Qed.

Lemma clear_export d : test_bit FLAG_EXPORT (clear_bit FLAG_EXPORT d) = false /\
  test_bit FLAG_REQUESTED (clear_bit FLAG_EXPORT d) = test_bit FLAG_REQUESTED d.
Proof.
  unfold test_bit, clear_bit, set_flags. cbn [flags]. rewrite !Z.clearbit_eqb. cbn. by rewrite andb_false_r, andb_true_r.
Qed.

Lemma desc_at s i d : lib_ok whole s -> gpio_desc s !! i = Some d -> desc_ok whole d.
Proof. intros Hok. apply Forall_lookup_1, Hok. Qed.

(** A free GPIO becomes a requested one, and back. *)
Lemma claim_ok s i d c k : lib_ok whole s -> gpio_desc s !! i = Some d -> chip d = Some c -> chips s !! c = Some k ->
  test_bit FLAG_REQUESTED d = false ->
  lib_ok whole (with_descs (<[i := set_bit FLAG_REQUESTED d]> (gpio_desc s)) (with_chips (<[c := add_users 1 k]> (chips s)) s)).
Proof.
  intros Hok Ed Ec Ek Hr. destruct (set_requested d) as [H1 H2]. destruct (desc_at s i d Hok Ed) as (D1 & D2 & D3).
  apply (ok_count s i d); try done; [|by rewrite H1, Hr].
  split; [|split; [by rewrite H2|done]]. intros _. cbn. by rewrite Ec.
Qed.

Lemma unclaim_ok s i d c k f : lib_ok whole s -> gpio_desc s !! i = Some d -> chip d = Some c -> chips s !! c = Some k ->
  test_bit FLAG_REQUESTED d = true -> test_bit FLAG_EXPORT d = false -> harmless f ->
  lib_ok whole (with_descs (<[i := clear_bit FLAG_REQUESTED (f d)]> (gpio_desc s)) (with_chips (<[c := add_users (-1) k]> (chips s)) s)).
Proof.
  intros Hok Ed Ec Ek Hr He Hf. destruct (clear_requested (f d)) as [H1 H2]. destruct (Hf d) as (F1 & F2 & F3 & F4).
  destruct (desc_at s i d Hok Ed) as (D1 & D2 & D3). apply (ok_count s i d); try done; [cbn; congruence| |by rewrite H1, Hr].
  split; [congruence|]. rewrite H2, F4, He. split; [|done]. cbn. by rewrite F2, <- D2.
Qed.

(** Taking a module and putting it back. *)
Lemma put_back s c k : chips s !! c = Some k ->
  with_chips (<[c := add_users (-1) (add_users 1 k)]> (<[c := add_users 1 k]> (chips s))) s = s.
Proof.
  intros Ek. rewrite insert_insert_eq. replace (add_users (-1) (add_users 1 k)) with k.
  - rewrite insert_id by done. by destruct s.
  - destruct k. unfold add_users. cbn. f_equal. lia.
Qed.

Lemma safe_ensure_requested g : safe (S := S) whole (gpio_ensure_requested g).
Proof.
  intros s a s' Hok H. apply bind_inv in H as (d & s1 & (-> & Hg & Ed)%get_desc_inv & H).
  destruct (chip d) as [c|] eqn:Ec; [|done]. destruct (test_bit FLAG_REQUESTED d) eqn:Er.
  { rewrite ret_unfold in H. by injection H as _ <-. }
  apply bind_inv in H as ([] & s1 & (d' & _ & Ed' & ->)%upd_desc_inv & H). assert (d' = d) as -> by congruence.
  apply bind_inv in H as (b & s2 & (k & Ek & -> & ->)%try_module_get_inv & H). cbn [chips with_descs] in Ek. destruct (live k).
  - apply bind_inv in H as (k' & s3 & (-> & _)%get_chip_inv & H). rewrite ret_unfold in H. injection H as _ <-.
    by apply (claim_ok s (Z.to_nat g) d c k).
  - apply bind_inv in H as ([] & s3 & (d' & _ & Ed1 & ->)%upd_desc_inv & H). rewrite ret_unfold in H. injection H as _ <-.
    cbn [gpio_desc with_descs] in *. rewrite list_lookup_insert_eq in Ed1 by (by eapply lookup_lt_Some). injection Ed1 as <-.
    rewrite list_insert_insert_eq. destruct (clear_requested (set_bit FLAG_REQUESTED d)) as [H1 H2].
    destruct (set_requested d) as [_ H3]. destruct (desc_at s _ d Hok Ed) as (D1 & D2 & D3).
    assert (with_descs (<[Z.to_nat g := clear_bit FLAG_REQUESTED (set_bit FLAG_REQUESTED d)]> (gpio_desc s))
      (with_descs (<[Z.to_nat g := set_bit FLAG_REQUESTED d]> (gpio_desc s)) s) =
      with_descs (<[Z.to_nat g := clear_bit FLAG_REQUESTED (set_bit FLAG_REQUESTED d)]> (gpio_desc s)) s) as -> by done.
    apply (ok_same s _ d); try done; [|congruence|by auto].
    split; [congruence|]. rewrite H2, H3. split; [done|]. intros He. destruct (D3 He). congruence.
Qed.

Lemma safe_request g : safe (S := S) whole (gpio_request g).
Proof.
  unfold gpio_request. destruct (negb (gpio_is_valid g)); [apply safe_ret|]. intros s a s' Hok H. apply bind_inv in H as (d & s1 & (-> & Hg & Ed)%get_desc_inv & H).
  destruct (chip d) as [c|] eqn:Ec; [|by eapply safe_ret].
  apply bind_inv in H as (b & s1 & (k & Ek & -> & ->)%try_module_get_inv & H). destruct (live k); cbn [negb] in H; [|by eapply safe_ret].
  destruct (test_bit FLAG_REQUESTED d) eqn:Er.
  - apply bind_inv in H as ([] & s2 & (k' & Ek' & ->)%upd_chip_inv & H). rewrite ret_unfold in H. injection H as _ <-.
    cbn [chips with_chips] in Ek'. rewrite lookup_insert_eq in Ek'. injection Ek' as <-. cbn [chips with_chips].
    assert (forall m n, with_chips m (with_chips n s) = with_chips m s) as -> by done. by rewrite put_back.
  - apply bind_inv in H as ([] & s2 & (d' & _ & Ed' & ->)%upd_desc_inv & H). cbn [gpio_desc with_chips] in Ed'. assert (d' = d) as -> by congruence.
    pose proof (claim_ok s _ d c k Hok Ed Ec Ek Er) as Hok1. cbn [gpio_desc chips with_chips] in H.
    match type of Hok1 with lib_ok _ ?x => set (s2 := x) in * end. fold s2 in H.
    apply bind_inv in H as (k1 & s3 & (-> & Ek1)%get_chip_inv & H). destruct (request (ops k1)) as [f|]; [|by eapply safe_ret].
    apply bind_inv in H as (status & s3 & [h ->]%on_hw_inv & H). apply bind_inv in H as ([] & s4 & H4 & H).
    rewrite ret_unfold in H. injection H as _ <-. destruct (status <? 0); [|rewrite ret_unfold in H4; injection H4 as <-; by apply ok_hw].
    apply bind_inv in H4 as ([] & s5 & (k2 & Ek2 & ->)%upd_chip_inv & (d2 & _ & Ed2 & ->)%upd_desc_inv).
    destruct (set_requested d) as [H1 H2]. destruct (desc_at s _ d Hok Ed) as (D1 & D2 & D3).
    cbn [gpio_desc with_chips with_hw] in Ed2. subst s2. cbn [gpio_desc with_descs] in Ed2.
    rewrite list_lookup_insert_eq in Ed2 by (by eapply lookup_lt_Some). injection Ed2 as <-.
    apply (unclaim_ok _ _ (set_bit FLAG_REQUESTED d) c k2 id (ok_hw _ h Hok1)); try done.
    + cbn. rewrite list_lookup_insert_eq by (by eapply lookup_lt_Some). done.
    + rewrite H2. destruct (test_bit FLAG_EXPORT d); [destruct (D3 eq_refl); congruence|done].
Qed.

(** ** Interrupts, export and release *)

Lemma gpio_to_irq_inv g s a s' : __gpio_to_irq g s = Some (a, s') -> exists h, s' = with_hw h s.
Proof.
  intros H. apply bind_inv in H as (d & s1 & (-> & _)%get_desc_inv & H). destruct (chip d) as [c|]; [|done].
  apply bind_inv in H as (c' & s1 & H1 & H). rewrite lift_opt_run in H1. injection H1 as <- <-.
  apply bind_inv in H as (k & s1 & (-> & _)%get_chip_inv & H). destruct (to_irq (ops k)); [by apply on_hw_inv in H|].
  rewrite ret_unfold in H. injection H as _ <-. exists (hw s). by destruct s.
Qed.

Lemma safe_to_irq g : safe (S := S) whole (__gpio_to_irq g).
Proof. intros s a s' Hok H. apply gpio_to_irq_inv in H as [h ->]. by apply ok_hw. Qed.

Definition triggers (fl : Z) : Prop := Z.testbit fl FLAG_REQUESTED = false /\ Z.testbit fl FLAG_EXPORT = false.

Lemma safe_setup_irq g fl e : triggers fl -> safe (S := S) whole (gpio_setup_irq g fl e).
Proof.
  intros [F1 F2].
  assert (safe (S := S) whole (upd_desc (set_flags (fun f => Z.land f (not32 GPIO_TRIGGER_MASK))) g)) as H1
    by (apply safe_upd, mask_out; reflexivity).
  assert (safe (S := S) whole (upd_desc (set_flags (fun f => Z.land f GPIO_FLAGS_MASK)) g)) as H2
    by (apply safe_upd, mask_out; reflexivity).
  assert (safe (S := S) whole (upd_desc (set_flags (fun f => Z.lor f fl)) g)) as H3 by (by apply safe_upd, or_out).
  assert (forall id, safe (S := S) whole (upd_desc (set_flags (fun f => Z.lor (Z.land f GPIO_FLAGS_MASK) (u32 (Z.shiftl id PDESC_ID_SHIFT)))) g)) as H4
    by (intros id; apply safe_upd, id_out).
  pose proof (safe_to_irq g) as H5. unfold gpio_setup_irq, free_id. cbv zeta. keep_table.
Qed.

Lemma desc_bits_off fl : triggers (Z.land fl GPIO_TRIGGER_MASK).
Proof. unfold triggers. rewrite !Z.land_spec. by rewrite !andb_false_r. Qed.

Lemma test_dev b v d : test_bit b (set_dev v d) = test_bit b d.
Proof. done. Qed.

Lemma unexport_ok g e s u s' : lib_ok whole s -> gpio_unexport g e s = Some (u, s') -> gpio_is_valid g = true ->
  lib_ok whole s' /\ forall d, gpio_desc s' !! Z.to_nat g = Some d -> test_bit FLAG_EXPORT d = false.
Proof.
  intros Hok H Hv. unfold gpio_unexport in H. rewrite Hv in H. cbn [negb] in H.
  apply bind_inv in H as (d & s1 & (-> & Hg & Ed)%get_desc_inv & H). destruct (test_bit FLAG_EXPORT d) eqn:Ee; cbn [andb] in H.
  - destruct (desc_at s _ d Hok Ed) as (D1 & D2 & D3). rewrite <- D2, Ee in H.
    apply bind_inv in H as (r & s1 & H1 & H). assert (lib_ok whole s1) as Hok1 by (by eapply safe_setup_irq; [| |exact H1]).
    apply bind_inv in H as ([] & s2 & (d1 & _ & Ed1 & ->)%upd_desc_inv & (d2 & _ & Ed2 & ->)%upd_desc_inv).
    cbn [gpio_desc with_descs] in *. pose proof (lookup_lt_Some _ _ _ Ed1) as Hl.
    rewrite list_lookup_insert_eq in Ed2 by done. injection Ed2 as <-. rewrite list_insert_insert_eq.
    destruct (clear_export d1) as [C1 C2]. destruct (desc_at s1 _ d1 Hok1 Ed1) as (E1 & E2 & E3). split.
    + apply (ok_same s1 _ d1 (set_dev None (clear_bit FLAG_EXPORT d1))); try done; [|by auto].
      unfold desc_ok. by rewrite !test_dev, C1, C2.
    + intros dz. rewrite list_lookup_insert_eq by done. intros [= <-]. exact C1.
  - rewrite ret_unfold in H. injection H as _ <-. split; [done|]. intros dz E. congruence.
Qed.

Lemma safe_unexport g e : safe (S := S) whole (gpio_unexport g e).
Proof.
  intros s u s' Hok H. destruct (gpio_is_valid g) eqn:Hv; [by eapply unexport_ok|].
  unfold gpio_unexport in H. rewrite Hv in H. cbn [negb] in H. rewrite ret_unfold in H. by injection H as _ <-.
Qed.

Lemma safe_free g e : safe (S := S) whole (gpio_free g e).
Proof.
  unfold gpio_free. destruct (gpio_is_valid g) eqn:Hv; cbn [negb]; [|apply safe_ret]. intros s u s' Hok H.
  apply bind_inv in H as ([] & s1 & H1 & H). destruct (unexport_ok g e s _ s1 Hok H1 Hv) as [Hok1 He].
  apply bind_inv in H as (d & s2 & (-> & Hg & Ed)%get_desc_inv & H). specialize (He d Ed).
  destruct (chip d) as [c|] eqn:Ec; [|by eapply safe_ret]. destruct (test_bit FLAG_REQUESTED d) eqn:Er; [|by eapply safe_ret].
  apply bind_inv in H as (k & s2 & (-> & Ek)%get_chip_inv & H). apply bind_inv in H as ([] & s2 & H2 & H).
  assert (exists h, s2 = with_hw h s1) as [h ->].
  { destruct (free (ops k)); [by apply on_hw_inv in H2|]. rewrite ret_unfold in H2. injection H2 as <-. exists (hw s1). by destruct s1. }
  apply bind_inv in H as ([] & s3 & (k' & Ek' & ->)%upd_chip_inv & H).
  apply bind_inv in H as ([] & s4 & (d' & _ & Ed' & ->)%upd_desc_inv & (d2 & _ & Ed2 & ->)%upd_desc_inv).
  cbn [gpio_desc chips with_descs with_chips with_hw] in *. assert (d' = d) as -> by congruence.
  rewrite list_lookup_insert_eq in Ed2 by (by eapply lookup_lt_Some). injection Ed2 as <-. rewrite list_insert_insert_eq.
  apply (unclaim_ok (with_hw h s1) (Z.to_nat g) d c k' (clear_bit FLAG_ACTIVE_LOW)); try done; [by apply ok_hw|].
  apply bit_out; done.
Qed.

Lemma create_device_inv g b x s r s' : create_device g b x s = Some (r, s') ->
  exists h, s' = with_hw h s /\ (fst r = 0 -> has (snd r) = true).
Proof.
  assert (forall a, mret (M := M (gpiolib S)) a s = Some (r, s') -> (fst a = 0 -> has (snd a) = true) ->
    exists h, s' = with_hw h s /\ (fst r = 0 -> has (snd r) = true)) as Hret.
  { intros a H Ha. rewrite ret_unfold in H. injection H as <- <-. exists (hw s). split; [by destruct s|done]. }
  unfold create_device. destruct (dev_err x =? 0) eqn:E1; cbn [negb]; [|intros H; apply (Hret _ H); cbn; intros; by zbool].
  destruct (group_err x =? 0) eqn:E2; cbn [negb]; [|intros H; apply (Hret _ H); cbn; intros; by zbool].
  destruct (b && negb (direction_err x =? 0)) eqn:E3; [intros H; apply (Hret _ H); cbn; intros Ez; rewrite Ez in E3; by destruct b|].
  intros H. apply bind_inv in H as (irq & s1 & [h ->]%gpio_to_irq_inv & H).
  apply bind_inv in H as (d & s1 & (-> & _)%get_desc_inv & H). cbv zeta in H. exists h.
  destruct ((0 <=? irq) && _ && _) eqn:E4; rewrite ret_unfold in H; injection H as <- <-; split; try done.
  cbn. intros Ez. rewrite Ez in E4. by rewrite andb_false_r in E4.
Qed.

Lemma safe_export g b x : safe (S := S) whole (gpio_export g b x).
Proof.
  intros s a s' Hok H. apply bind_inv in H as (s0 & s1 & H0 & H). rewrite get_run in H0. injection H0 as <- <-.
  destruct (class_p s) eqn:Hp; cbn [negb] in H; [|by eapply safe_ret]. destruct (negb (gpio_is_valid g)); [by eapply safe_ret|].
  apply bind_inv in H as (d & s1 & (-> & Hg & Ed)%get_desc_inv & H). destruct (chip d) as [c|] eqn:Ec; [|done].
  apply bind_inv in H as (c' & s1 & H1 & H). rewrite lift_opt_run in H1. injection H1 as <- <-.
  apply bind_inv in H as (k & s1 & (-> & _)%get_chip_inv & H). destruct (test_bit FLAG_REQUESTED d) eqn:Er; cbn [andb] in H; [|by eapply safe_ret].
  destruct (test_bit FLAG_EXPORT d); cbn [negb] in H; [by eapply safe_ret|]. cbv zeta in H.
  apply bind_inv in H as ([st v] & s1 & (h & -> & Hv)%create_device_inv & H). cbn [fst snd] in Hv.
  apply bind_inv in H as ([] & s1 & H1 & H). rewrite ret_unfold in H. injection H as _ <-. destruct (Z.eqb_spec st 0) as [Hz|_].
  2:{ rewrite ret_unfold in H1. injection H1 as <-. by apply ok_hw. }
  apply bind_inv in H1 as ([] & s2 & (d1 & _ & Ed1 & ->)%upd_desc_inv & (d2 & _ & Ed2 & ->)%upd_desc_inv).
  cbn [gpio_desc with_descs with_hw] in *. assert (d1 = d) as -> by congruence.
  rewrite list_lookup_insert_eq in Ed2 by (by eapply lookup_lt_Some). injection Ed2 as <-. rewrite list_insert_insert_eq.
  destruct (set_export (set_dev v d)) as [C1 C2]. rewrite test_dev in C2.
  apply (ok_same (with_hw h s) _ d (set_bit FLAG_EXPORT (set_dev v d))); try done; [by apply ok_hw| |by left]. unfold desc_ok. rewrite C1, C2.
  cbn [chip dev set_dev set_bit set_flags]. rewrite Ec, (Hv Hz). split; [by eexists|]. split; [done|]. intros _. split; [done|by eexists].
Qed.

(** ** Direction, value and files *)

#[local] Hint Resolve safe_ensure_requested safe_request safe_to_irq safe_setup_irq safe_unexport safe_free safe_export : gpio.

Lemma safe_flag b g : 0 <= b -> b <> FLAG_REQUESTED -> b <> FLAG_EXPORT ->
  safe (S := S) whole (upd_desc (set_bit b) g) /\ safe (S := S) whole (upd_desc (clear_bit b) g).
Proof. intros H1 H2 H3. destruct (bit_out b H1 H2 H3). split; by apply safe_upd. Qed.

Lemma safe_checks ok g : safe (S := S) whole (gpio_checks ok g).
Proof. unfold gpio_checks. keep_table. Qed.
#[local] Hint Resolve safe_checks : gpio.
Lemma safe_prepare ok g : safe (S := S) whole (gpio_prepare ok g).
Proof. unfold gpio_prepare. keep_table. Qed.
#[local] Hint Resolve safe_prepare : gpio.

Lemma safe_direction_input g : safe (S := S) whole (gpio_direction_input g).
Proof. destruct (safe_flag FLAG_IS_OUT g) as [? ?]; [done..|]. unfold gpio_direction_input. keep_table. Qed.
Lemma safe_direction_output g v : safe (S := S) whole (gpio_direction_output g v).
Proof. destruct (safe_flag FLAG_IS_OUT g) as [? ?]; [done..|]. unfold gpio_direction_output. keep_table. Qed.
Lemma safe_set_debounce g v : safe (S := S) whole (gpio_set_debounce g v).
Proof. unfold gpio_set_debounce. keep_table. Qed.
Lemma safe_get_value g : safe (S := S) whole (__gpio_get_value g).
Proof. unfold __gpio_get_value. keep_table. Qed.
Lemma safe_set_value g v : safe (S := S) whole (__gpio_set_value g v).
Proof. unfold __gpio_set_value. keep_table. Qed.
#[local] Hint Resolve safe_direction_input safe_direction_output safe_get_value safe_set_value : gpio.

Lemma safe_request_one g fl : safe (S := S) whole (gpio_request_one g fl).
Proof. unfold gpio_request_one. keep_table. Qed.
Lemma safe_free_array l e : safe (S := S) whole (gpio_free_array l e).
Proof. induction l as [|[g fl] l IH]; cbn [gpio_free_array]; keep_table. Qed.
#[local] Hint Resolve safe_request_one safe_free_array : gpio.
Lemma safe_request_array l e : safe (S := S) whole (gpio_request_array l e).
Proof.
  unfold gpio_request_array. generalize (@nil (Z * Z)). induction l as [|[g fl] l IH]; intros got; cbn [request_loop]; keep_table.
Qed.

Lemma safe_direction_store g buf : safe (S := S) whole (gpio_direction_store g buf).
Proof. unfold gpio_direction_store. keep_table. Qed.
Lemma safe_value_store g buf : safe (S := S) whole (gpio_value_store g buf).
Proof. unfold gpio_value_store, gpio_set_value_cansleep. keep_table. Qed.

Lemma safe_edge_store g buf e : safe (S := S) whole (gpio_edge_store g buf e).
Proof.
  unfold gpio_edge_store. destruct (List.find _ _) as [[name fl]|] eqn:E; [|apply safe_ret].
  assert (triggers fl) as Ht by (apply List.find_some in E as [E _]; by destruct E as [[= <- <-]|[[= <- <-]|[[= <- <-]|[[= <- <-]|[]]]]]). keep_table.
Qed.

Lemma safe_set_active_low g v b e : safe (S := S) whole (sysfs_set_active_low g v b e).
Proof.
  destruct (safe_flag FLAG_ACTIVE_LOW g) as [H1 H2]; [done..|]. assert (triggers 0) as H3 by done. pose proof desc_bits_off as H4.
  unfold sysfs_set_active_low. apply safe_bind; [auto with gpio|intros d]. case_match; [apply safe_ret|].
  apply safe_bind; [by destruct (truth v)|intros _]. keep_table.
Qed.
#[local] Hint Resolve safe_set_active_low : gpio.

Lemma safe_active_low_store g buf e : safe (S := S) whole (gpio_active_low_store g buf e).
Proof. unfold gpio_active_low_store. keep_table. Qed.
Lemma safe_sysfs_set_active_low g v e : safe (S := S) whole (gpio_sysfs_set_active_low g v e).
Proof. unfold gpio_sysfs_set_active_low. keep_table. Qed.

Lemma safe_export_store buf x e : safe (S := S) whole (export_store buf x e).
Proof.
  unfold export_store. destruct (strict_strtol buf 0) as [st g]. destruct (safe_flag FLAG_SYSFS g) as [H1 H2]; [done..|]. keep_table.
Qed.
Lemma safe_unexport_store buf e : safe (S := S) whole (unexport_store buf e).
Proof.
  unfold unexport_store. destruct (strict_strtol buf 0) as [st g]. destruct (safe_flag FLAG_SYSFS g) as [H1 H2]; [done..|]. keep_table.
Qed.
Lemma safe_reserve a n : safe (S := S) whole (gpiochip_reserve a n).
Proof.
  unfold gpiochip_reserve. case_match; [apply safe_ret|]. generalize (Z.to_nat n) as m, a as i. clear.
  induction m as [|m IH]; intros i; cbn [reserve_loop]; [apply safe_ret|].
  destruct (safe_flag FLAG_RESERVED i) as [H1 H2]; [done..|]. keep_table.
Qed.
End Ops.
