(* ===== verification/GpioReach.v ===== *)
(** * What the GPIO library guarantees

    Chips come and go without disturbing the table, so it is consistent in every
    state that calls of the library reach ([gpio_table_invariant]); one failure while
    sysfs starts leaves requested GPIOs without a chip. From that: a GPIO has one
    owner at a time and a chip with owners stays. *)

From stdpp Require Import strings.
From S2P Require Import Prelude Vsprintf GpioLib GpioLibProps.

(** ** Ranges of the table *)

Definition in_range (i : Z) (n : nat) (j : nat) : bool := (i <=? Z.of_nat j) && (Z.of_nat j <? i + Z.of_nat n).

Definition map_range (f : desc -> desc) (n : nat) (i : Z) (l : list desc) : list desc :=
  imap (fun j d => if in_range i n j then f d else d) l.

Lemma map_range_lookup f n i l j : map_range f n i l !! j = (fun d => if in_range i n j then f d else d) <$> l !! j.
Proof. unfold map_range. apply list_lookup_imap. Qed.

Lemma map_range_step f n i l d : 0 <= i -> l !! Z.to_nat i = Some d ->
  map_range f n (i + 1) (<[Z.to_nat i := f d]> l) = map_range f (S n) i l.
Proof.
  intros Hi Ed. apply list_eq. intros j. rewrite !map_range_lookup. destruct (decide (j = Z.to_nat i)) as [->|Hne].
  - rewrite list_lookup_insert_eq by (by eapply lookup_lt_Some). rewrite Ed. cbn. unfold in_range.
    destruct (Z.leb_spec (i + 1) (Z.of_nat (Z.to_nat i))); [lia|]. destruct (Z.leb_spec i (Z.of_nat (Z.to_nat i))); [|lia].
    destruct (Z.ltb_spec (Z.of_nat (Z.to_nat i)) (i + Z.of_nat (S n))); [done|lia].
  - rewrite list_lookup_insert_ne by done. destruct (l !! j) as [x|]; [|done]. cbn. unfold in_range.
    replace ((i + 1 <=? Z.of_nat j) && (Z.of_nat j <? i + 1 + Z.of_nat n)) with
      ((i <=? Z.of_nat j) && (Z.of_nat j <? i + Z.of_nat (S n))); [done|].
    destruct (Z.leb_spec i (Z.of_nat j)), (Z.leb_spec (i + 1) (Z.of_nat j)), (Z.ltb_spec (Z.of_nat j) (i + Z.of_nat (S n))),
      (Z.ltb_spec (Z.of_nat j) (i + 1 + Z.of_nat n)); try done; lia.
Qed.

Lemma map_range_nil f i l : map_range f 0 i l = l.
Proof.
  apply list_eq. intros j. rewrite map_range_lookup. unfold in_range. destruct (l !! j); [|done]. cbn.
  destruct (Z.leb_spec i (Z.of_nat j)), (Z.ltb_spec (Z.of_nat j) (i + Z.of_nat 0)); try done; lia.
Qed.

Section Chips.
Context {S : Type} {whole : bool}.
Implicit Types (s : gpiolib S) (d : desc) (k : gpio_chip S).

Lemma each_desc_inv f n i s u s' : each_desc f n i s = Some (u, s') -> s' = with_descs (map_range f n i (gpio_desc s)) s.
Proof.
  revert i s. induction n as [|n IH]; intros i s H; cbn [each_desc] in H.
  - rewrite ret_unfold in H. injection H as _ <-. rewrite map_range_nil. by destruct s.
  - apply bind_inv in H as ([] & s1 & (d & Hi & Ed & ->)%upd_desc_inv & H). apply IH in H as ->. cbn [gpio_desc with_descs].
    by rewrite map_range_step.
Qed.

Lemma any_desc_inv p n i s b s' : any_desc p n i s = Some (b, s') ->
  s' = s /\ (b = false -> forall j, in_range i n j = true -> exists d, gpio_desc s !! j = Some d /\ p d = false).
Proof.
  revert i. induction n as [|n IH]; intros i H; cbn [any_desc] in H.
  - rewrite ret_unfold in H. injection H as <- <-. split; [done|]. intros _ j. unfold in_range.
    destruct (Z.leb_spec i (Z.of_nat j)), (Z.ltb_spec (Z.of_nat j) (i + Z.of_nat 0)); try done; lia.
  - apply bind_inv in H as (d & s1 & (-> & Hi & Ed)%get_desc_inv & H). destruct (p d) eqn:Ep.
    { rewrite ret_unfold in H. by injection H as <- <-. }
    apply IH in H as [-> H]. split; [done|]. intros Hb j Hj. destruct (decide (j = Z.to_nat i)) as [->|Hne]; [eauto|].
    apply H; [done|]. unfold in_range in *. apply andb_prop in Hj as [H1 H2]. apply Z.leb_le in H1. apply Z.ltb_lt in H2.
    apply andb_true_intro. split; [apply Z.leb_le|apply Z.ltb_lt]; lia.
Qed.

(** Elements from [i] on that belong to the chip lose it, up to one that does not. *)
Lemma disown_inv fuel c i s u s' : disown fuel c i s = Some (u, s') ->
  exists n, s' = with_descs (map_range (set_chip None) n i (gpio_desc s)) s /\
    (forall j, in_range i n j = true -> exists d, gpio_desc s !! j = Some d /\ chip d = Some c) /\
    (forall j d, Z.of_nat j = i + Z.of_nat n -> gpio_desc s !! j = Some d -> chip d <> Some c) /\ 0 <= i.
Proof.
  revert i s. induction fuel as [|fuel IH]; intros i s H; cbn [disown] in H; [done|].
  apply bind_inv in H as (d & s1 & (-> & Hi & Ed)%get_desc_inv & H). case_bool_decide as Ec.
  - apply bind_inv in H as ([] & s1 & (d1 & _ & Ed1 & ->)%upd_desc_inv & H). assert (d1 = d) as -> by congruence.
    apply IH in H as (n & -> & H1 & H2 & H3). cbn [gpio_desc with_descs] in *. exists (Datatypes.S n).
    rewrite map_range_step by done. split; [done|]. split; [|split; [|lia]].
    + intros j Hj. destruct (decide (j = Z.to_nat i)) as [->|Hne]; [by exists d|].
      destruct (H1 j) as (dj & Ej & Hc); [|exists dj; by rewrite list_lookup_insert_ne in Ej].
      unfold in_range in *. apply andb_prop in Hj as [G1 G2]. apply Z.leb_le in G1. apply Z.ltb_lt in G2.
      apply andb_true_intro. split; [apply Z.leb_le|apply Z.ltb_lt]; lia.
    + intros j dj Ej Hj. apply (H2 j dj); [lia|]. rewrite list_lookup_insert_ne by lia. done.
  - rewrite ret_unfold in H. injection H as _ <-. exists 0%nat. rewrite map_range_nil. split; [by destruct s|].
    split; [|split; [|lia]].
    + intros j. unfold in_range. destruct (Z.leb_spec i (Z.of_nat j)), (Z.ltb_spec (Z.of_nat j) (i + Z.of_nat 0)); try done; lia.
    + intros j dj Ej Hj. replace j with (Z.to_nat i) in Hj by lia. congruence.
Qed.

Lemma filter_imap (P : desc -> Prop) `{!forall x, Decision (P x)} (g : nat -> desc -> desc) l :
  (forall j d, l !! j = Some d -> P (g j d) <-> P d) -> length (filter P (imap g l)) = length (filter P l).
Proof.
  revert g. induction l as [|d l IH]; intros g HP; [done|]. cbn [imap]. rewrite !filter_cons. pose proof (HP 0%nat d eq_refl) as H0.
  specialize (IH (g ∘ Datatypes.S) (fun j dj => HP (Datatypes.S j) dj)). destruct (decide (P d)), (decide (P (g 0%nat d))); cbn [length]; lia || tauto.
Qed.

Lemma claimed_range f n i l c : (forall j d, in_range i n j = true -> l !! j = Some d -> holds_chip c (f d) <-> holds_chip c d) ->
  claimed (map_range f n i l) c = claimed l c.
Proof.
  intros H. unfold claimed, map_range. f_equal. apply filter_imap. intros j d Ed. destruct (in_range i n j) eqn:Ej; [|done]. by apply (H j).
Qed.

Lemma filter_imap_le (P : desc -> Prop) `{!forall x, Decision (P x)} (g : nat -> desc -> desc) l :
  (forall j d, P (g j d) -> P d) -> (length (filter P (imap g l)) <= length (filter P l))%nat.
Proof.
  revert g. induction l as [|d l IH]; intros g HP; [done|]. cbn [imap]. rewrite !filter_cons. pose proof (HP 0%nat d) as H0.
  specialize (IH (g ∘ Datatypes.S) (fun j dj => HP (Datatypes.S j) dj)). destruct (decide (P d)), (decide (P (g 0%nat d))); cbn [length]; lia || tauto.
Qed.

Lemma claimed_disowned n i l c : claimed (map_range (set_chip None) n i l) c <= claimed l c.
Proof.
  unfold claimed, map_range. apply Nat2Z.inj_le, filter_imap_le. intros j d. destruct (in_range i n j); [|done]. by intros [? _].
Qed.

Lemma in_range_owns k j : in_range (base k) (Z.to_nat (ngpio k)) j = true <-> owns k (Z.of_nat j).
Proof.
  unfold in_range, owns. rewrite andb_true_iff, Z.leb_le, Z.ltb_lt. lia.
Qed.

(** The chip has no GPIO. *)
Definition unowned s (c : positive) : Prop := forall j d, gpio_desc s !! j = Some d -> chip d <> Some c.
(** The chip has its range. *)
Definition owner s (c : positive) k : Prop := chips s !! c = Some k /\
  forall j, owns k (Z.of_nat j) -> exists d, gpio_desc s !! j = Some d /\ chip d = Some c.

Lemma quiet_desc d : desc_ok whole d -> chip d = None -> dev d = None.
Proof.
  intros (D1 & D2 & D3) Hc. destruct (test_bit FLAG_EXPORT d); [destruct D3 as [_ [? ?]]; [done|congruence]|by destruct (dev d)].
Qed.

(** No GPIO of a chip has a device, and, for a whole table, none is requested. *)
Definition idle s k : Prop := forall j d, owns k (Z.of_nat j) -> gpio_desc s !! j = Some d ->
  dev d = None /\ (whole = true -> test_bit FLAG_REQUESTED d = false).

Lemma release_ok s c k : lib_ok whole s -> owner s c k -> idle s k ->
  lib_ok whole (with_descs (map_range (set_chip None) (Z.to_nat (ngpio k)) (base k) (gpio_desc s)) s) /\
  unowned (with_descs (map_range (set_chip None) (Z.to_nat (ngpio k)) (base k) (gpio_desc s)) s) c.
Proof.
  intros [HL HD HK HC HF HU] [Ek Hown] Hfree.
  assert (forall j d, map_range (set_chip None) (Z.to_nat (ngpio k)) (base k) (gpio_desc s) !! j = Some d ->
    exists d0, gpio_desc s !! j = Some d0 /\ ((owns k (Z.of_nat j) /\ d = set_chip None d0) \/ (~ owns k (Z.of_nat j) /\ d = d0))) as Hnew.
  { intros j d Hj. rewrite map_range_lookup in Hj. destruct (gpio_desc s !! j) as [d0|]; [|done]. exists d0. split; [done|].
    cbn in Hj. injection Hj as <-. destruct (in_range _ _ j) eqn:Ej; [left|right].
    - apply in_range_owns in Ej. done.
    - split; [|done]. intros Ho. apply in_range_owns in Ho. congruence. }
  assert (forall j d c', map_range (set_chip None) (Z.to_nat (ngpio k)) (base k) (gpio_desc s) !! j = Some d ->
    chip d = Some c' -> gpio_desc s !! j = Some d /\ c' <> c) as Hchip.
  { intros j d c' Hj Hc. destruct (Hnew j d Hj) as (d0 & Ed & [[Ho ->]|[Ho ->]]); [done|]. split; [done|]. intros ->.
    destruct (HC j d0 c Ed Hc) as (k' & Ek' & Ho' & _). assert (k' = k) as -> by congruence. done. }
  split; [constructor; cbn [gpio_desc chips with_descs]|].
  - unfold map_range. by rewrite length_imap.
  - apply Forall_lookup_2. intros j d Hj. destruct (Hnew j d Hj) as (d0 & Ed & [[Ho ->]|[Ho ->]]).
    + pose proof (Forall_lookup_1 _ _ _ _ HD Ed) as (_ & D2 & _). destruct (Hfree j d0 Ho Ed) as [E1 E2].
      rewrite E1 in D2. unfold desc_ok, test_bit in *. cbn [flags chip dev set_chip]. rewrite D2, E1.
      split; [intros Hw; by rewrite (E2 Hw)|done].
    + by apply (Forall_lookup_1 _ _ _ _ HD Ed).
  - intros j d Hp Hj. destruct (Hnew j d Hj) as (d0 & Ed & [[_ ->]|[_ ->]]); by apply (HK j d0).
  - intros j d c' Hj Hc. destruct (Hchip j d c' Hj Hc) as [Ed _]. by apply (HC j d).
  - intros j d c' k' m Hj Hc Ek' Ho. destruct (Hchip j d c' Hj Hc) as [Ed Hne]. destruct (HF j d c' k' m Ed Hc Ek' Ho) as (dm & Em & Hm).
    exists dm. rewrite map_range_lookup, Em. split; [|done]. cbn. f_equal. destruct (in_range _ _ m) eqn:Er; [|done].
    apply in_range_owns in Er. destruct (Hown m Er) as (dm' & Em' & Hm'). congruence.
  - intros c' k' Ek'. destruct (HU c' k' Ek') as [U1 U2]. split; [etrans; [apply claimed_disowned|done]|].
    intros Hw. rewrite claimed_range; [by apply U2|]. intros j d Hj Ed. apply in_range_owns in Hj.
    destruct (Hfree j d Hj Ed) as [_ E]. unfold holds_chip, test_bit in *. cbn [flags set_chip]. rewrite (E Hw). split; by intros [_ ?].
  - intros j d Hj Hc. by destruct (Hchip j d c Hj Hc) as [_ ?].
Qed.

(** A range without chips gets one. *)
Lemma acquire_ok s c k f : lib_ok whole s -> chips s !! c = Some k -> unowned s c -> 0 <= base k -> triggers f ->
  (forall j, owns k (Z.of_nat j) -> exists d, gpio_desc s !! j = Some d /\ chip d = None) ->
  lib_ok whole (with_descs (map_range (fun d => Desc (Some c) f (dev d)) (Z.to_nat (ngpio k)) (base k) (gpio_desc s)) s) /\
  owner (with_descs (map_range (fun d => Desc (Some c) f (dev d)) (Z.to_nat (ngpio k)) (base k) (gpio_desc s)) s) c k.
Proof.
  intros [HL HD HK HC HF HU] Ek Hun Hb [F1 F2] Hfree. set (own := fun d => Desc (Some c) f (dev d)).
  assert (forall j d, owns k (Z.of_nat j) -> gpio_desc s !! j = Some d -> chip d = None /\ dev d = None) as Hq.
  { intros j d Ho Ed. destruct (Hfree j Ho) as (d' & Ed' & Hc). assert (d' = d) as -> by congruence.
    split; [done|]. apply quiet_desc; [|done]. by apply (Forall_lookup_1 _ _ _ _ HD Ed). }
  assert (forall j, map_range own (Z.to_nat (ngpio k)) (base k) (gpio_desc s) !! j =
    if in_range (base k) (Z.to_nat (ngpio k)) j then Some (own (Desc None 0 None)) else gpio_desc s !! j) as Hl.
  { intros j. rewrite map_range_lookup. destruct (in_range _ _ j) eqn:Ej; [|by destruct (gpio_desc s !! j)].
    apply in_range_owns in Ej. destruct (Hfree j Ej) as (d & Ed & _). rewrite Ed. cbn. destruct (Hq j d Ej Ed) as (_ & Hd).
    unfold own. by rewrite Hd. }
  assert (forall j, owns k (Z.of_nat j) -> map_range own (Z.to_nat (ngpio k)) (base k) (gpio_desc s) !! j = Some (own (Desc None 0 None))) as Hin.
  { intros j Ho. rewrite Hl. apply in_range_owns in Ho. by rewrite Ho. }
  split; [constructor; cbn [gpio_desc chips with_descs]|].
  - unfold map_range. by rewrite length_imap.
  - apply Forall_lookup_2. intros j d. rewrite Hl. destruct (in_range _ _ j); [|by apply Forall_lookup_1].
    intros [= <-]. unfold desc_ok, test_bit, own. cbn [flags chip dev]. by rewrite F1, F2.
  - intros j d Hp. rewrite Hl. destruct (in_range _ _ j); [by intros [= <-]|by apply (HK j)].
  - intros j d c' Hj Hc. rewrite Hl in Hj. destruct (in_range _ _ j) eqn:Ej; [|by apply (HC j d)].
    injection Hj as <-. injection Hc as <-. exists k. split; [done|]. apply in_range_owns in Ej. split; [done|]. split; [done|].
    destruct (Hfree (Z.to_nat (base k + ngpio k - 1))) as (dl & El & _); [unfold owns in *; lia|].
    apply lookup_lt_Some in El. unfold owns in Ej. lia.
  - intros j d c' k' m Hj Hc Ek' Ho. rewrite Hl in Hj. destruct (in_range _ _ j) eqn:Ej.
    + injection Hj as <-. injection Hc as <-. assert (k' = k) as -> by congruence. rewrite Hin by done. eauto.
    + destruct (HF j d c' k' m Hj Hc Ek' Ho) as (dm & Em & Hm). rewrite Hl. destruct (in_range _ _ m) eqn:Er; [|eauto].
      apply in_range_owns in Er. destruct (Hq m dm Er Em). congruence.
  - intros c' k' Ek'. rewrite claimed_range; [by apply HU|]. intros j d Hj Ed. apply in_range_owns in Hj.
    unfold holds_chip, test_bit, own. cbn [flags chip]. rewrite F1, (proj1 (Hq j d Hj Ed)). split; by intros [? ?].
  - split; [done|]. intros j Ho. cbn [gpio_desc with_descs]. rewrite Hin by done. eauto.
Qed.

(** ** Registering and removing chips *)

(** Changes of a chip that the invariant does not see. *)
Lemma ok_view s c k k' : lib_ok whole s -> chips s !! c = Some k -> users k' = users k ->
  unowned s c \/ (base k' = base k /\ ngpio k' = ngpio k) -> lib_ok whole (with_chips (<[c := k']> (chips s)) s).
Proof.
  intros [HL HD HK HC HF HU] Ek Eu Hv. constructor; cbn [gpio_desc chips with_chips]; [done|done|done|..].
  - intros j d c' Ed Hc. destruct (HC j d c' Ed Hc) as (k1 & E1 & Ho & Hb). destruct (decide (c' = c)) as [->|Hne].
    + destruct Hv as [Hun|[B N]]; [by destruct (Hun j d)|]. exists k'. rewrite lookup_insert_eq. unfold owns in *.
      assert (k1 = k) as -> by congruence. by rewrite B, N.
    + exists k1. by rewrite lookup_insert_ne.
  - intros j d c' k1 m Ed Hc E1 Ho. destruct (decide (c' = c)) as [->|Hne].
    + destruct Hv as [Hun|[B N]]; [by destruct (Hun j d)|]. rewrite lookup_insert_eq in E1. injection E1 as <-.
      unfold owns in Ho. rewrite B, N in Ho. by apply (HF j d c k m).
    + rewrite lookup_insert_ne in E1 by done. by apply (HF j d c' k1 m).
  - intros c' k1. destruct (decide (c' = c)) as [->|Hne].
    + rewrite lookup_insert_eq. intros [= <-]. rewrite Eu. by apply HU.
    + rewrite lookup_insert_ne by done. apply HU.
Qed.

Lemma export_ok s c k create r s' : lib_ok whole s -> owner s c k ->
  (create <> 0 -> idle s k) ->
  gpiochip_export c create s = Some (r, s') -> lib_ok whole s'.
Proof.
  intros Hok [Ek Hown] Hq H. apply bind_inv in H as (s0 & s1 & H0 & H). rewrite get_run in H0. injection H0 as <- <-.
  destruct (negb (class_p s)); [rewrite ret_unfold in H; by injection H as _ <-|].
  apply bind_inv in H as ([] & s1 & (k' & Ek' & ->)%upd_chip_inv & H). assert (k' = k) as -> by congruence.
  set (k' := set_exported (create =? 0) k) in *.
  assert (lib_ok whole (with_chips (<[c := k']> (chips s)) s)) as Hok1 by (apply (ok_view s c k); auto).
  apply bind_inv in H as (k1 & s1 & (-> & E1)%get_chip_inv & H). cbn [chips with_chips] in E1. rewrite lookup_insert_eq in E1. injection E1 as <-.
  apply bind_inv in H as ([] & s1 & H1 & H). rewrite ret_unfold in H. injection H as _ <-.
  destruct (Z.eqb_spec create 0) as [_|Hc]; cbn [negb] in H1; [rewrite ret_unfold in H1; by injection H1 as <-|].
  apply disown_inv in H1 as (n & -> & H1 & H2 & H3). cbn [gpio_desc with_chips] in *.
  assert (owner (with_chips (<[c := k']> (chips s)) s) c k') as Ho' by (split; [cbn; by rewrite lookup_insert_eq|done]).
  assert (n = Z.to_nat (ngpio k')) as ->; [|by apply (release_ok _ c k' Hok1 Ho'), Hq].
  assert (~ (Z.to_nat (ngpio k') < n)%nat) as L1.
  { intros Hlt. destruct (H1 (Z.to_nat (base k' + Z.of_nat (Z.to_nat (ngpio k'))))) as (d & Ed & Hd).
    - unfold in_range. rewrite andb_true_iff, Z.leb_le, Z.ltb_lt. lia.
    - destruct (ok_chip _ Hok1 _ d c Ed Hd) as (k1 & E1 & Ho & _). destruct Ho' as [E2 _]. assert (k1 = k') as -> by congruence.
      unfold owns in Ho. lia. }
  assert (~ (n < Z.to_nat (ngpio k'))%nat) as L2; [|lia]. intros Hlt.
  destruct (Hown (Z.to_nat (base k' + Z.of_nat n))) as (d & Ed & Hd); [unfold owns; change (base k) with (base k'); change (ngpio k) with (ngpio k'); lia|].
  apply (H2 _ d) in Ed; [done|lia].
Qed.

Lemma find_base_pure fuel n i sp s b s' : find_base fuel n i sp s = Some (b, s') -> s' = s.
Proof.
  revert i sp. induction fuel as [|fuel IH]; intros i sp H; cbn [find_base] in H; destruct (i <? 0); try done;
    try (rewrite ret_unfold in H; by injection H as _ <-).
  apply bind_inv in H as (d & s1 & (-> & _)%get_desc_inv & H). destruct (chip d) as [c|].
  - apply bind_inv in H as (k' & s1 & (-> & _)%get_chip_inv & H). by apply IH in H.
  - destruct (test_bit _ d); [by apply IH in H|].
    destruct (sp + 1 =? _); [rewrite ret_unfold in H; by injection H as _ <-|by apply IH in H].
Qed.

Lemma gpiochip_find_base_pure n s b s' : gpiochip_find_base n s = Some (b, s') -> s' = s.
Proof. apply find_base_pure. Qed.

Lemma add_ok s c k create r s' : lib_ok whole s -> chips s !! c = Some k -> unowned s c -> gpiochip_add c create s = Some (r, s') -> lib_ok whole s'.
Proof.
  intros Hok Ek Hun H. apply bind_inv in H as (k0 & s0 & (-> & E0)%get_chip_inv & H). assert (k0 = k) as -> by congruence.
  destruct ((_ || _) && _); [rewrite ret_unfold in H; by injection H as _ <-|].
  apply bind_inv in H as (b & s0 & H0 & H).
  assert (s0 = s /\ (0 <= base k -> b = base k)) as [-> Hb].
  { destruct (Z.ltb_spec (base k) 0); [|rewrite ret_unfold in H0; by injection H0 as <- <-].
    split; [exact (gpiochip_find_base_pure _ _ _ _ H0)|lia]. }
  destruct (Z.ltb_spec b 0) as [|Hb0]; [rewrite ret_unfold in H; by injection H as _ <-|].
  apply bind_inv in H as ([] & s1 & H1 & H).
  assert (exists k1, lib_ok whole s1 /\ chips s1 !! c = Some k1 /\ unowned s1 c /\ base k1 = b /\ ngpio k1 = ngpio k) as (k1 & Hok1 & E1 & Hun1 & B1 & N1).
  { destruct (Z.ltb_spec (base k) 0) as [Hneg|Hpos].
    - apply upd_chip_inv in H1 as (k' & E' & ->). assert (k' = k) as -> by congruence. exists (set_base b k).
      split; [apply (ok_view s c k); auto|]. split; [cbn; by rewrite lookup_insert_eq|done].
    - rewrite ret_unfold in H1. injection H1 as <-. exists k. rewrite (Hb Hpos). done. }
  apply bind_inv in H as (taken & s2 & [-> Ht]%any_desc_inv & H). rewrite <- B1, <- N1 in *.
  destruct taken; [rewrite ret_unfold in H; by injection H as _ <-|]. specialize (Ht eq_refl). cbv zeta in H.
  apply bind_inv in H as ([] & s2 & ->%each_desc_inv & H).
  match type of H with gpiochip_export _ _ (with_descs (map_range (fun d => Desc _ ?f _) _ _ _) _) = _ => set (fl := f) in * end.
  destruct (acquire_ok s1 c k1 fl Hok1 E1 Hun1) as [Hok2 Ho2]; [lia|unfold fl; by destruct (has _)| |].
  { intros j Hj. apply in_range_owns in Hj. destruct (Ht j Hj) as (d & Ed & Hd). exists d. split; [done|]. by destruct (chip d). }
  apply (export_ok _ c k1 create r s' Hok2 Ho2); [|exact H]. intros _ j d Hj Ed. pose proof (desc_at _ j d Hok2 Ed) as (_ & D2 & _).
  assert (triggers (flags d)) as [T1 T2].
  { cbn [gpio_desc with_descs] in Ed. rewrite map_range_lookup in Ed. apply in_range_owns in Hj. rewrite Hj in Ed.
    destruct (gpio_desc s1 !! j) as [d0|]; [|done]. injection Ed as <-. unfold fl. cbn [flags]. by destruct (has _). }
  split; [|done]. unfold test_bit in D2. rewrite T2 in D2. by destruct (dev d).
Qed.

Lemma remove_ok s c k r s' : lib_ok whole s -> owner s c k -> gpiochip_remove c s = Some (r, s') -> lib_ok whole s' /\ (r = 0 -> unowned s' c).
Proof.
  intros Hok Ho H. apply bind_inv in H as (k0 & s0 & (-> & E0)%get_chip_inv & H). destruct Ho as [Ek Hown]. assert (k0 = k) as -> by congruence.
  apply bind_inv in H as (b & s0 & [-> Hb]%any_desc_inv & H). destruct b; [rewrite ret_unfold in H; injection H as <- <-; done|].
  apply bind_inv in H as ([] & s1 & ->%each_desc_inv & H). destruct (release_ok s c k Hok (conj Ek Hown)) as [Hok1 Hun1].
  { intros j d Hj Ed. apply in_range_owns in Hj. destruct (Hb eq_refl j Hj) as (d' & Ed' & Hd). assert (d' = d) as -> by congruence.
    split; [|done]. destruct (desc_at _ j d Hok Ed) as (_ & D2 & D3). destruct (test_bit FLAG_EXPORT d); [destruct D3; congruence|].
    by destruct (dev d). }
  apply bind_inv in H as ([] & s2 & H2 & H). rewrite ret_unfold in H. injection H as _ <-.
  apply bind_inv in H2 as (k1 & s3 & (-> & E1)%get_chip_inv & H2). destruct (exported k1); [|rewrite ret_unfold in H2; by injection H2 as <-].
  apply upd_chip_inv in H2 as (k2 & E2 & ->). split; [by apply (ok_view _ c k2); auto|done].
Qed.

Lemma chip_owner s j d c : lib_ok whole s -> gpio_desc s !! j = Some d -> chip d = Some c -> exists k, owner s c k.
Proof.
  intros Hok Ed Hc. destruct (ok_chip s Hok j d c Ed Hc) as (k & Ek & _). exists k. split; [done|]. intros m. by apply (ok_full s Hok j d).
Qed.

(** Creating the device of a chip takes at most chips out of descriptors. *)
Lemma export_descs s c create r s' j d' : gpiochip_export c create s = Some (r, s') -> gpio_desc s' !! j = Some d' ->
  exists d, gpio_desc s !! j = Some d /\ (d' = d \/ d' = set_chip None d).
Proof.
  intros H Hj. apply bind_inv in H as (s0 & s1 & H0 & H). rewrite get_run in H0. injection H0 as <- <-.
  destruct (negb (class_p s)); [rewrite ret_unfold in H; injection H as _ <-; eauto|].
  apply bind_inv in H as ([] & s1 & (k' & Ek' & ->)%upd_chip_inv & H).
  apply bind_inv in H as (k1 & s1 & (-> & _)%get_chip_inv & H). apply bind_inv in H as ([] & s1 & H1 & H).
  rewrite ret_unfold in H. injection H as _ <-. destruct (negb (create =? 0)); [|rewrite ret_unfold in H1; injection H1 as <-; eauto].
  apply disown_inv in H1 as (n & -> & _). cbn [gpio_desc with_descs with_chips] in Hj. rewrite map_range_lookup in Hj.
  destruct (gpio_desc s !! j) as [d|]; [|done]. exists d. split; [done|]. cbn in Hj. injection Hj as <-. destruct (in_range _ _ j); auto.
Qed.

Definition no_devices s : Prop := forall j d, gpio_desc s !! j = Some d -> dev d = None.

(** No chip whose device cannot be created has a requested GPIO. *)
Definition no_loss (create : positive -> Z) s : bool :=
  forallb (fun d => match chip d with
                    | Some c => negb (test_bit FLAG_REQUESTED d) || (create c =? 0)
                    | None => true
                    end) (gpio_desc s).

Lemma no_loss_at create s j d c : no_loss create s = true -> gpio_desc s !! j = Some d -> chip d = Some c ->
  create c <> 0 -> test_bit FLAG_REQUESTED d = false.
Proof.
  intros H Ed Ec Hc. unfold no_loss in H. rewrite forallb_forall in H. apply list_elem_of_lookup_2, list_elem_of_In, H in Ed.
  rewrite Ec in Ed. apply orb_prop in Ed as [Ed|Ed]; [by apply negb_true_iff|]. by zbool.
Qed.

Lemma export_keeps s c create0 r s' create : gpiochip_export c create0 s = Some (r, s') ->
  (no_devices s -> no_devices s') /\ (no_loss create s = true -> no_loss create s' = true).
Proof.
  intros H. split.
  - intros Hd j d Hj. destruct (export_descs _ _ _ _ _ _ _ H Hj) as (d0 & E0 & [->| ->]); by apply (Hd j d0).
  - intros Hn. apply forallb_forall. intros d Hd%list_elem_of_In. apply list_elem_of_lookup in Hd as [j Hj].
    destruct (export_descs _ _ _ _ _ _ _ H Hj) as (d0 & E0 & [->| ->]); [|done].
    unfold no_loss in Hn. rewrite forallb_forall in Hn. by apply Hn, list_elem_of_In, list_elem_of_lookup_2 with j.
Qed.

Lemma sysfs_init_ok fuel g st create s r s' : lib_ok whole s -> no_devices s -> (whole = true -> no_loss create s = true) ->
  sysfs_init_loop fuel g st create s = Some (r, s') -> lib_ok whole s'.
Proof.
  revert g st s. induction fuel as [|fuel IH]; intros g st s Hok Hd Hn H; cbn [sysfs_init_loop] in H.
  { rewrite ret_unfold in H. by injection H as _ <-. }
  apply bind_inv in H as (d & s1 & (-> & _ & Ed)%get_desc_inv & H). destruct (chip d) as [c|] eqn:Ec; [|by eapply IH].
  apply bind_inv in H as (k & s1 & (-> & _)%get_chip_inv & H). destruct (exported k); [by eapply IH|].
  apply bind_inv in H as (r1 & s1 & H1 & H). destruct (chip_owner s _ d c Hok Ed Ec) as [k1 Ho].
  destruct (export_keeps _ _ _ _ _ create H1) as [K1 K2].
  refine (IH _ _ _ (export_ok s c k1 (create c) r1 s1 Hok Ho _ H1) (K1 Hd) (fun Hw => K2 (Hn Hw)) H).
  intros Hc j dj Hj Ej. split; [by apply (Hd j)|]. intros Hw. destruct (proj2 Ho j Hj) as (dj' & Ej' & Hcj).
  assert (dj' = dj) as -> by congruence. by apply (no_loss_at create s j dj c (Hn Hw)).
Qed.

Lemma ok_weaken s b : lib_ok whole s -> lib_ok (whole && b) s.
Proof.
  intros [HL HD HK HC HF HU]. constructor; try done.
  - eapply Forall_impl; [exact HD|]. intros d (D1 & D2 & D3). split; [|done]. intros [Hw _]%andb_prop. by apply D1.
  - intros c k Ek. destruct (HU c k Ek) as [U1 U2]. split; [done|]. intros [Hw _]%andb_prop. by apply U2.
Qed.
End Chips.

(** ** The states that calls reach *)

(** The functions that drivers, boards and writers of the files call. *)
Inductive entry :=
  | Request (g : Z) | Free (g : Z) (e : irq_env) | RequestOne (g fl : Z) | RequestArray (l : list (Z * Z)) (e : irq_env)
  | FreeArray (l : list (Z * Z)) (e : irq_env) | DirectionInput (g : Z) | DirectionOutput (g v : Z) | Debounce (g v : Z)
  | SetValue (g v : Z) | GetValue (g : Z) | Reserve (start n : Z) | Export (g : Z) (change : bool) (x : export_env)
  | Unexport (g : Z) (e : irq_env) | SetActiveLow (g v : Z) (e : irq_env) | DirectionStore (g : Z) (buf : list Z)
  | ValueStore (g : Z) (buf : list Z) | EdgeStore (g : Z) (buf : list Z) (e : irq_env) | ActiveLowStore (g : Z) (buf : list Z) (e : irq_env)
  | ExportStore (buf : list Z) (x : export_env) (e : irq_env) | UnexportStore (buf : list Z) (e : irq_env).

Section Reach.
Context {S : Type} {whole : bool}.
Implicit Types (s : gpiolib S) (d : desc) (k : gpio_chip S).

Definition ignore {A} (m : M (gpiolib S) A) : M (gpiolib S) unit := m;; mret tt.

Definition run_entry (x : entry) : M (gpiolib S) unit :=
  match x with
  | Request g => ignore (gpio_request g)
  | Free g e => gpio_free g e
  | RequestOne g fl => ignore (gpio_request_one g fl)
  | RequestArray l e => ignore (gpio_request_array l e)
  | FreeArray l e => gpio_free_array l e
  | DirectionInput g => ignore (gpio_direction_input g)
  | DirectionOutput g v => ignore (gpio_direction_output g v)
  | Debounce g v => ignore (gpio_set_debounce g v)
  | SetValue g v => __gpio_set_value g v
  | GetValue g => ignore (__gpio_get_value g)
  | Reserve a n => ignore (gpiochip_reserve a n)
  | Export g b x => ignore (gpio_export g b x)
  | Unexport g e => gpio_unexport g e
  | SetActiveLow g v e => ignore (gpio_sysfs_set_active_low g v e)
  | DirectionStore g buf => ignore (gpio_direction_store g buf)
  | ValueStore g buf => ignore (gpio_value_store g buf)
  | EdgeStore g buf e => ignore (gpio_edge_store g buf e)
  | ActiveLowStore g buf e => ignore (gpio_active_low_store g buf e)
  | ExportStore buf x e => ignore (export_store buf x e)
  | UnexportStore buf e => ignore (unexport_store buf e)
  end.

(** One call, a chip that a driver prepares or gives up, or a change of the
    hardware. A driver adds a chip that has no range and removes one that has. *)
Inductive call : gpiolib S -> gpiolib S -> Prop :=
  | call_entry x s s' : run_entry x s = Some (tt, s') -> call s s'
  | call_add c k create r s s' : chips s !! c = Some k -> unowned s c -> gpiochip_add c create s = Some (r, s') -> call s s'
  | call_remove c k r s s' : owner s c k -> gpiochip_remove c s = Some (r, s') -> call s s'
  | call_prepare c k s : chips s !! c = None -> users k = 0 -> call s (with_chips (<[c := k]> (chips s)) s)
  | call_give_up c s : unowned s c -> call s (with_chips (delete c (chips s)) s)
  | call_hardware h s : call s (with_hw h s).

Definition boot (h : S) : gpiolib S :=
  GpioLib h (replicate (Z.to_nat ARCH_NR_GPIOS) (Desc None 0 None)) ∅ false ∅.

(** The states after boot. [gpiolib_sysfs_init] runs once, and registers the class; it
    creates the devices of the chips that registered before, with any results. The
    flag says whether each failure was one of a chip without requested GPIOs. *)
Inductive reached (h : S) : bool -> gpiolib S -> Prop :=
  | reached_boot : reached h true (boot h)
  | reached_call w s s' : reached h w s -> call s s' -> reached h w s'
  | reached_init w st create r s s' : reached h w s -> class_p s = false ->
      gpiolib_sysfs_init st create s = Some (r, s') -> reached h (w && no_loss create s) s'.

Lemma boot_ok h : lib_ok true (boot h).
Proof.
  assert (forall j d, gpio_desc (boot h) !! j = Some d -> d = Desc None 0 None) as H.
  { intros j d Hj. cbn [gpio_desc boot] in Hj. by apply lookup_replicate in Hj as [-> _]. }
  constructor.
  - cbn [gpio_desc boot]. by rewrite length_replicate.
  - apply Forall_lookup_2. intros j d Hj. by rewrite (H j d Hj).
  - intros j d _ Hj. by rewrite (H j d Hj).
  - intros j d c Hj Hc. by rewrite (H j d Hj) in Hc.
  - intros j d c k m Hj Hc. by rewrite (H j d Hj) in Hc.
  - intros c k Hk. cbn [chips boot] in Hk. by rewrite lookup_empty in Hk.
Qed.

#[local] Hint Resolve safe_request safe_free safe_request_one safe_request_array safe_free_array safe_direction_input
  safe_direction_output safe_set_debounce safe_set_value safe_get_value safe_reserve safe_export safe_unexport
  safe_sysfs_set_active_low safe_direction_store safe_value_store safe_edge_store safe_active_low_store safe_export_store
  safe_unexport_store : gpio.

Lemma entry_ok x : safe (S := S) whole (run_entry x).
Proof. destruct x; cbn [run_entry]; unfold ignore; keep_table. Qed.

Lemma unowned_claims s c : unowned s c -> claimed (gpio_desc s) c = 0.
Proof.
  intros H. unfold claimed. destruct (filter _ _) as [|d l] eqn:E; [done|]. assert (d ∈ d :: l) as Hd by left.
  rewrite <- E in Hd. apply list_elem_of_filter in Hd as [[Hc _] Hin]. apply list_elem_of_lookup in Hin as [j Hj]. by destruct (H j d Hj).
Qed.

Lemma call_ok s s' : lib_ok whole s -> call s s' -> lib_ok whole s'.
Proof.
  intros Hok H. destruct H as [x s s' H|c k create r s s' Ek Hun H|c k r s s' Ho H|c k s Hk Hu|c s Hun|h s].
  - by apply (entry_ok x s tt).
  - by apply (add_ok s c k create r).
  - by apply (remove_ok s c k r).
  - assert (unowned s c) as Hun.
    { intros j d Ed Hc. destruct (ok_chip s Hok j d c Ed Hc) as (k' & Ek' & _). congruence. }
    destruct Hok as [HL HD HK HC HF HU]. constructor; cbn [gpio_desc chips with_chips]; [done|done|done|..].
    + intros j d c' Ed Hc. rewrite lookup_insert_ne by (intros ->; by apply (Hun j d)). by apply (HC j d).
    + intros j d c' k' m Ed Hc. rewrite lookup_insert_ne by (intros ->; by apply (Hun j d)). by apply (HF j d).
    + intros c' k'. destruct (decide (c' = c)) as [->|Hne]; [|rewrite lookup_insert_ne by done; apply HU].
      rewrite lookup_insert_eq. intros [= <-]. by rewrite unowned_claims, Hu.
  - destruct Hok as [HL HD HK HC HF HU]. constructor; cbn [gpio_desc chips with_chips]; [done|done|done|..].
    + intros j d c' Ed Hc. rewrite lookup_delete_ne by (intros ->; by apply (Hun j d)). by apply (HC j d).
    + intros j d c' k' m Ed Hc. rewrite lookup_delete_ne by (intros ->; by apply (Hun j d)). by apply (HF j d).
    + intros c' k' [_ H]%lookup_delete_Some. by apply HU.
  - by apply ok_hw.
Qed.

Lemma init_ok st create s r s' : lib_ok whole s -> class_p s = false -> gpiolib_sysfs_init st create s = Some (r, s') ->
  lib_ok (whole && no_loss create s) s'.
Proof.
  intros Hok Hp H. unfold gpiolib_sysfs_init in H. apply (ok_weaken _ (no_loss create s)) in Hok.
  destruct (st <? 0); [rewrite ret_unfold in H; by injection H as _ <-|].
  apply bind_inv in H as ([] & s1 & H1 & H). rewrite modify_run in H1. injection H1 as <-.
  refine (sysfs_init_ok _ _ _ create _ _ _ _ _ _ H).
  - by destruct Hok.
  - intros j d Hj. by apply (ok_class s Hok j).
  - by intros [_ Hn]%andb_prop.
Qed.
End Reach.

(** C24: in every state that calls of the GPIO library reach from boot, whatever the
    chips' operations, the files' writers and the kernel's services do: a chip owns
    either its whole range of numbers (inside the table) or nothing; a GPIO is marked
    exported exactly when its device is there, and only while it is requested and
    has a chip; and a chip's module is held at least once for each of its requested
    GPIOs. Moreover, unless [gpiolib_sysfs_init] failed to create the device of a
    chip that had registered early and had requested GPIOs, every requested GPIO has a
    chip, and a chip's module is held exactly once for each of its requested GPIOs.
    After such a failure both can be false for ever ([early_chip_lost]). *)
Theorem gpio_table_invariant {S} (h : S) w s : reached h w s -> lib_ok w s.
Proof. induction 1; eauto using boot_ok, call_ok, init_ok. Qed.

Section Requests.
Context {S : Type} {whole : bool}.
Implicit Types (s : gpiolib S) (d : desc) (k : gpio_chip S).

(** ** Requesting *)

(** The chips' operations for requesting return. *)
Definition requests_return s : Prop := forall c k f o, chips s !! c = Some k -> request (ops k) = Some f ->
  forall h, is_Some (f o h).

Definition same_table s s' : Prop := gpio_desc s' = gpio_desc s /\ chips s' = chips s.

Lemma set_clear b d : 0 <= b -> test_bit b d = false -> clear_bit b (set_bit b d) = d.
Proof.
  intros Hb H. destruct d as [c f v]. unfold clear_bit, set_bit, set_flags, test_bit in *. cbn [flags chip dev] in *. f_equal.
  apply Z.bits_inj'. intros n Hn. rewrite Z.clearbit_eqb, Z.setbit_eqb by done.
  destruct (Z.eqb_spec b n) as [->|]; [by rewrite H|]. cbn. by rewrite andb_true_r.
Qed.

Lemma get_desc_run g s d : 0 <= g -> gpio_desc s !! Z.to_nat g = Some d -> get_desc g s = Some (d, s).
Proof. intros Hg Ed. unfold get_desc. rewrite bind_unfold, get_run. destruct (Z.ltb_spec g 0); [lia|]. by rewrite Ed, lift_opt_run. Qed.
Lemma upd_desc_run f g s d : 0 <= g -> gpio_desc s !! Z.to_nat g = Some d ->
  upd_desc f g s = Some (tt, with_descs (<[Z.to_nat g := f d]> (gpio_desc s)) s).
Proof. intros Hg Ed. unfold upd_desc. by rewrite bind_unfold, (get_desc_run g s d), modify_run. Qed.
Lemma get_chip_run c s k : chips s !! c = Some k -> get_chip c s = Some (k, s).
Proof. intros Ek. unfold get_chip. by rewrite bind_unfold, get_run, Ek, lift_opt_run. Qed.
Lemma upd_chip_run f c s k : chips s !! c = Some k -> upd_chip f c s = Some (tt, with_chips (<[c := f k]> (chips s)) s).
Proof. intros Ek. unfold upd_chip. by rewrite bind_unfold, (get_chip_run c s k), modify_run. Qed.
Lemma try_module_get_run c s k : chips s !! c = Some k ->
  try_module_get c s = Some (live k, if live k then with_chips (<[c := add_users 1 k]> (chips s)) s else s).
Proof.
  intros Ek. unfold try_module_get. rewrite bind_unfold, (get_chip_run c s k) by done.
  destruct (live k); [|by rewrite ret_unfold]. by rewrite bind_unfold, (upd_chip_run _ c s k), ret_unfold.
Qed.

Lemma valid_number g : 0 <= g < 2 ^ 32 -> gpio_is_valid g = (g <? ARCH_NR_GPIOS).
Proof. intros Hg. unfold gpio_is_valid, u32. by rewrite Z.mod_small. Qed.

(** The end of [gpio_request], for a free GPIO whose module was taken. *)
Lemma request_free_run s g d c k : requests_return s -> 0 <= g -> gpio_is_valid g = true -> gpio_desc s !! Z.to_nat g = Some d ->
  chip d = Some c -> chips s !! c = Some k -> live k = true -> test_bit FLAG_REQUESTED d = false ->
  exists r s', gpio_request g s = Some (r, s') /\ (r < 0 -> same_table s s') /\
    (0 <= r -> gpio_desc s' = <[Z.to_nat g := set_bit FLAG_REQUESTED d]> (gpio_desc s) /\ chips s' = <[c := add_users 1 k]> (chips s)).
Proof.
  intros Hret Hg Hv Ed Ec Ek El Er. unfold gpio_request. rewrite Hv. cbn [negb].
  rewrite bind_unfold, (get_desc_run g s d), Ec by done. rewrite bind_unfold, (try_module_get_run c s k Ek), El. cbn [negb]. rewrite Er.
  rewrite bind_unfold, (upd_desc_run _ g _ d) by done. pose proof (lookup_lt_Some _ _ _ Ed) as Hl. cbn [gpio_desc with_chips].
  rewrite bind_unfold, (get_chip_run c _ (add_users 1 k)) by (cbn; by rewrite lookup_insert_eq). cbn [ops add_users base].
  destruct (request (ops k)) as [f|] eqn:Ef.
  2:{ eexists 0, _. rewrite ret_unfold. done. }
  rewrite bind_unfold. unfold on_hw, zoom. cbn [hw with_descs with_chips]. destruct (Hret c k f (g - base k) Ek Ef (hw s)) as [[st h] ->].
  destruct (Z.ltb_spec st 0) as [Hst|Hst].
  - eexists st, _. unfold module_put. rewrite bind_unfold, bind_unfold, (upd_chip_run _ c _ (add_users 1 k)) by (cbn; by rewrite lookup_insert_eq).
    rewrite (upd_desc_run _ g _ (set_bit FLAG_REQUESTED d)) by (done || (cbn; by rewrite list_lookup_insert_eq)).
    rewrite ret_unfold. split; [done|]. split; [|lia]. intros _. split; cbn [gpio_desc chips with_descs with_chips with_hw].
    + rewrite list_insert_insert_eq, set_clear by done. by apply list_insert_id.
    + exact (f_equal chips (put_back s c k Ek)).
  - eexists st, _. rewrite bind_unfold, !ret_unfold. split; [done|]. split; [lia|done].
Qed.

(** The GPIO was free and went to the caller. *)
Definition granted s g s' : Prop := exists d c k,
  gpio_desc s !! Z.to_nat g = Some d /\ chip d = Some c /\ chips s !! c = Some k /\ live k = true /\
  test_bit FLAG_REQUESTED d = false /\ gpio_desc s' = <[Z.to_nat g := set_bit FLAG_REQUESTED d]> (gpio_desc s) /\
  chips s' = <[c := add_users 1 k]> (chips s).

(** Someone has the GPIO, and the module of its chip stays. *)
Definition held s g : Prop := exists d c k,
  gpio_desc s !! Z.to_nat g = Some d /\ test_bit FLAG_REQUESTED d = true /\ chip d = Some c /\ chips s !! c = Some k /\ live k = true.

(** C26: [gpio_request] always returns, and gives a GPIO to one owner at a time. With
    an error nothing in the table has changed. Otherwise the GPIO has a chip whose
    module is there, nobody had requested it, and the only changes are that it is
    marked as requested and that the module is held once more. A GPIO that someone
    holds, of a chip whose module stays, is refused with -EBUSY. *)
Theorem gpio_request_outcome s g : lib_ok whole s -> requests_return s -> 0 <= g < 2 ^ 32 ->
  exists r s', gpio_request g s = Some (r, s') /\ (r < 0 -> same_table s s') /\ (0 <= r -> granted s g s') /\
    (held s g -> r = - EBUSY).
Proof.
  intros Hok Hret Hg. pose proof (valid_number g Hg) as Hv. pose proof (ok_len s Hok) as HL.
  assert (forall e, gpio_request g s = Some (- e, s) -> 0 < e -> (held s g -> e = EBUSY) ->
    exists r s', gpio_request g s = Some (r, s') /\ (r < 0 -> same_table s s') /\ (0 <= r -> granted s g s') /\ (held s g -> r = - EBUSY)) as Herr.
  { intros e H He Hh. exists (- e), s. split; [done|]. split; [done|]. split; [lia|]. intros Hd. by rewrite (Hh Hd). }
  destruct (Z.ltb_spec g ARCH_NR_GPIOS) as [Hlt|Hge].
  2:{ apply (Herr EINVAL); [|done|intros (d & c & k & Ed%lookup_lt_Some & _); lia]. unfold gpio_request. by rewrite Hv. }
  destruct (lookup_lt_is_Some_2 (gpio_desc s) (Z.to_nat g)) as [d Ed]; [lia|].
  destruct (chip d) as [c|] eqn:Ec.
  2:{ apply (Herr EINVAL); [|done|intros (d' & c & k & Ed' & _ & Ec' & _); congruence].
      unfold gpio_request. rewrite Hv. cbn [negb]. by rewrite bind_unfold, (get_desc_run g s d), Ec, ret_unfold by (done || lia). }
  destruct (ok_chip s Hok _ d c Ed Ec) as (k & Ek & _). destruct (live k) eqn:El.
  2:{ apply (Herr EINVAL); [|done|intros (d' & c' & k' & Ed' & _ & Ec' & Ek' & El'); congruence].
      unfold gpio_request. rewrite Hv. cbn [negb]. rewrite bind_unfold, (get_desc_run g s d), Ec by (done || lia).
      by rewrite bind_unfold, (try_module_get_run c s k Ek), El. }
  destruct (test_bit FLAG_REQUESTED d) eqn:Er.
  { apply (Herr EBUSY); [|done|done]. unfold gpio_request. rewrite Hv. cbn [negb].
    rewrite bind_unfold, (get_desc_run g s d), Ec by (done || lia). rewrite bind_unfold, (try_module_get_run c s k Ek), El. cbn [negb].
    rewrite Er, bind_unfold. unfold module_put. rewrite (upd_chip_run _ c _ (add_users 1 k)) by (cbn; by rewrite lookup_insert_eq).
    rewrite ret_unfold. do 2 f_equal. exact (put_back s c k Ek). }
  destruct (request_free_run s g d c k) as (r & s' & H & H1 & H2); try done; [lia|].
  exists r, s'. split; [done|]. split; [done|]. split.
  - intros Hr. destruct (H2 Hr). by exists d, c, k.
  - intros (d' & c' & k' & Ed' & Er' & _). congruence.
Qed.

Lemma any_desc_run p n i s : 0 <= i -> (forall j, in_range i n j = true -> is_Some (gpio_desc s !! j)) ->
  (exists j d, in_range i n j = true /\ gpio_desc s !! j = Some d /\ p d = true) -> any_desc p n i s = Some (true, s).
Proof.
  revert i. induction n as [|n IH]; intros i Hi Hall (j & d & Hj & Ed & Hp).
  { unfold in_range in Hj. apply andb_prop in Hj as [H1%Z.leb_le H2%Z.ltb_lt]. lia. }
  assert (forall m, in_range i (Datatypes.S n) m = true <-> m = Z.to_nat i \/ in_range (i + 1) n m = true) as Hsplit.
  { intros m. unfold in_range. rewrite !andb_true_iff, !Z.leb_le, !Z.ltb_lt. lia. }
  cbn [any_desc]. destruct (Hall (Z.to_nat i)) as [d0 Ed0]; [apply Hsplit; by left|].
  rewrite bind_unfold, (get_desc_run i s d0) by done. destruct (p d0) eqn:Ep; [done|]. apply IH; [lia| |].
  - intros m Hm. apply Hall, Hsplit. by right.
  - exists j, d. apply Hsplit in Hj as [->|Hj]; [congruence|done].
Qed.

(** While a GPIO of a chip is requested, the chip stays. *)
Lemma gpiochip_remove_busy s c k j d : lib_ok whole s -> owner s c k -> owns k (Z.of_nat j) -> gpio_desc s !! j = Some d ->
  test_bit FLAG_REQUESTED d = true -> gpiochip_remove c s = Some (- EBUSY, s).
Proof.
  intros Hok [Ek Hown] Hj Ed Hr. destruct (Hown j Hj) as (d' & Ed' & Hc).
  destruct (ok_chip s Hok j d' c Ed' Hc) as (k' & Ek' & _ & Hb & _). assert (k' = k) as -> by congruence.
  unfold gpiochip_remove. rewrite bind_unfold, (get_chip_run c s k) by done. rewrite bind_unfold, any_desc_run; [done|done| |].
  - intros m Hm%in_range_owns. destruct (Hown m Hm) as (dm & -> & _). by eexists.
  - exists j, d. by rewrite in_range_owns.
Qed.
End Requests.

(** ** A board with one chip *)

Module Sample.

Definition ops : chip_ops (list Z) :=
  ChipOps _ None None (Some (fun _ => mret 0)) (Some (fun o => gets (fun l => default 0 (l !! Z.to_nat o))))
    (Some (fun o v => modify (fun l => <[Z.to_nat o := v]> l);; mret 0)) None
    (Some (fun o v => modify (fun l => <[Z.to_nat o := v]> l))) None.
Definition chip0 : gpio_chip (list Z) := Chip (-1) 16 true 0 false ops.
Definition levels : list Z := replicate 16 0.

(** The state after the chip has registered, with a number of the library's choice. *)
Definition prepared : gpiolib (list Z) := with_chips (<[1%positive := chip0]> (chips (boot levels))) (boot levels).
Definition registered : gpiolib (list Z) := from_option snd (boot levels) (gpiochip_add 1 0 prepared).
Definition requested : gpiolib (list Z) := from_option snd (boot levels) (gpio_request 250 registered).

Lemma registered_run : gpiochip_add 1 0 prepared = Some (0, registered).
Proof. vm_compute. reflexivity. Qed.

Lemma registered_ok : lib_ok true registered.
Proof.
  apply (add_ok prepared 1 chip0 0 0); [| |intros j d Hd Hc|apply registered_run]; [|reflexivity|].
  - apply (call_ok (boot levels)); [apply boot_ok|]. apply call_prepare; reflexivity.
  - cbn [gpio_desc with_chips prepared boot] in Hd. apply lookup_replicate in Hd as [-> _]. discriminate.
Qed.

Lemma no_requests s : forallb (fun k => negb (has (request (GpioLib.ops k)))) (map_to_list (chips s)).*2 = true ->
  requests_return (S := list Z) s.
Proof.
  intros H c k f o Ek Ef. rewrite forallb_forall in H. specialize (H k). rewrite Ef in H. discriminate H.
  apply list_elem_of_In, list_elem_of_fmap. exists (c, k). split; [reflexivity|]. by apply elem_of_map_to_list.
Qed.
End Sample.

(** ** A chip that registers early *)

Module Early.

(** The chip registers for the numbers from 0 on, GPIO 3 is requested, and then the
    device of the chip cannot be created. *)
Definition prepared : gpiolib (list Z) :=
  with_chips (<[1%positive := Chip 0 16 true 0 false Sample.ops]> (chips (boot Sample.levels))) (boot Sample.levels).
Definition registered : gpiolib (list Z) := default prepared (exec (gpiochip_add 1 0) prepared).
Definition requested : gpiolib (list Z) := default prepared (exec (gpio_request 3) registered).
Definition lost : gpiolib (list Z) := default prepared (exec (gpiolib_sysfs_init 0 (fun _ => - ENOMEM)) requested).

Lemma requested_reachable : reached Sample.levels true requested.
Proof.
  apply (reached_call _ _ registered); [apply (reached_call _ _ prepared); [apply (reached_call _ _ (boot Sample.levels)); [constructor|]|]|].
  - apply call_prepare; reflexivity.
  - apply (call_add 1 (Chip 0 16 true 0 false Sample.ops) 0 0); [reflexivity| |vm_compute; reflexivity].
    intros j d Hd Hc. cbn [gpio_desc with_chips prepared boot] in Hd. apply lookup_replicate in Hd as [-> _]. discriminate.
  - apply (call_entry (Request 3)). vm_compute. reflexivity.
Qed.

Lemma lost_reachable : reached Sample.levels false lost.
Proof.
  apply (reached_init _ true 0 (fun _ => - ENOMEM) (- ENOMEM) requested); [apply requested_reachable|reflexivity|vm_compute; reflexivity].
Qed.
End Early.

Lemma gpio_table_invariant_witness : lib_ok true Early.requested /\ lib_ok false Early.lost /\
  map users (map_to_list (chips Early.requested)).*2 = [1].
Proof.
  split; [|split; [|vm_compute; reflexivity]].
  - apply (gpio_table_invariant Sample.levels), Early.requested_reachable.
  - apply (gpio_table_invariant Sample.levels), Early.lost_reachable.
Defined.

(** GPIO 3 is requested and has no chip; releasing it does nothing, it cannot be
    requested, and the module of the chip stays held. *)
Example early_chip_lost :
  match (gpio_free 3 (IrqEnv true 0 true 0) ;; gpio_request 3) Early.lost with
  | Some (r, s) => (r, (fun d => (test_bit FLAG_REQUESTED d, chip d)) <$> gpio_desc s !! 3%nat, map users (map_to_list (chips s)).*2)
  | None => (0, None, [])
  end = (- EINVAL, Some (true, None), [1]).
Proof. vm_compute. reflexivity. Qed.

Lemma gpio_request_outcome_witness :
  (exists r s', gpio_request 250 Sample.registered = Some (r, s') /\ (r < 0 -> same_table Sample.registered s') /\
     (0 <= r -> granted Sample.registered 250 s') /\ (held Sample.registered 250 -> r = - EBUSY)) /\
  fst <$> gpio_request 250 Sample.registered = Some 0 /\ fst <$> gpio_request 250 Sample.requested = Some (- EBUSY).
Proof.
  split; [|vm_compute; split; reflexivity].
  refine (gpio_request_outcome Sample.registered 250 Sample.registered_ok (Sample.no_requests _ _) _); [vm_compute; reflexivity|lia].
Defined.

(** ** Errors that leave traces *)

Module Traces.

Definition reserved_at (i : nat) (s : gpiolib (list Z)) : bool :=
  match gpio_desc s !! i with Some d => test_bit FLAG_RESERVED d | None => false end.
Definition requested_at (i : nat) (s : gpiolib (list Z)) : bool :=
  match gpio_desc s !! i with Some d => test_bit FLAG_REQUESTED d | None => false end.

(** A reservation that fails has reserved the numbers before the one in use. *)
Example reserve_partial :
  match gpiochip_reserve 236 8 Sample.registered with
  | Some (r, s) => (r, map (fun i => reserved_at i s) (seq 234 8))
  | None => (0, [])
  end = (- EBUSY, [false; false; true; true; true; true; false; false]).
Proof. vm_compute. reflexivity. Qed.

(** A chip that cannot make its pins inputs. *)
Definition out_only : chip_ops (list Z) :=
  ChipOps _ None None None (chip_get Sample.ops) (direction_output Sample.ops) None (chip_set Sample.ops) None.
Definition out_prepared : gpiolib (list Z) :=
  with_chips (<[1%positive := Chip 0 16 true 0 false out_only]> (chips (boot Sample.levels))) (boot Sample.levels).
Definition no_irq : irq_env := IrqEnv true 0 true 0.

(** The array is refused because the second GPIO cannot be an input; the first one
    is given back, the second one stays requested and its module held. *)
Example request_array_leaks :
  match (gpiochip_add 1 0 ;; gpio_request_array [(3, 0); (4, GPIOF_DIR_IN)] no_irq) out_prepared with
  | Some (r, s) => (r, requested_at 3 s, requested_at 4 s, map users (map_to_list (chips s)).*2)
  | None => (0, false, false, [])
  end = (- EINVAL, false, true, [1]).
Proof. vm_compute. reflexivity. Qed.

(** When the device of a chip at the end of the table cannot be created, taking
    back its numbers reads beyond the table. *)
Example export_failure_overruns :
  gpiochip_add 1 (- ENOMEM) (GpioLib (hw Sample.prepared) (gpio_desc Sample.prepared) (chips Sample.prepared) true ∅) = None.
Proof. vm_compute. reflexivity. Qed.
End Traces.
