(* ===== verification/Gpio8xxx.v ===== *)
(** * The GPIO controller of the processor (arch/powerpc/sysdev/mpc8xxx_gpio.c)

    The driver on the six registers of the block, as a chip of the GPIO library.
    The block is an interface; what a theorem relies on is in [BlockLaws]. The
    functions hold the chip's lock around each read-modify-write and are atomic
    for one another; the watchdog driver writes the same registers without it. *)

From S2P Require Import Prelude GpioLib.

Definition MPC8XXX_GPIO_PINS : Z := 32.
Definition GPIO_DIR : Z := 0x00.
Definition GPIO_ODR : Z := 0x04.
Definition GPIO_DAT : Z := 0x08.
Definition GPIO_IER : Z := 0x0c.
Definition GPIO_IMR : Z := 0x10.
Definition GPIO_ICR : Z := 0x14.

Definition IRQ_TYPE_EDGE_FALLING : Z := 2.
Definition IRQ_TYPE_EDGE_BOTH : Z := 3.

(** The registers; reading one changes nothing. *)
Class GpioBlock (HW : Type) := {
  in_be32 : Z -> HW -> Z;
  out_be32 : Z -> Z -> HW -> HW
}.

(** [struct mpc8xxx_gpio_chip] with the block, and the variable [oldvalue] of the
    file. [complaints]: the pins of the watchdog that were reported. *)
Record mpc8xxx (HW : Type) := Mpc8xxx {
  block : HW;
  data : Z;
  irq : bool;
  oldvalue : Z;
  complaints : list Z
}.
Arguments Mpc8xxx {_}. Arguments block {_}. Arguments data {_}. Arguments irq {_}.
Arguments oldvalue {_}. Arguments complaints {_}.

(** [1u << (31 - gpio)]. *)
Definition mpc8xxx_gpio2mask (gpio : Z) : Z := u32 (Z.shiftl 1 (MPC8XXX_GPIO_PINS - 1 - gpio)).

Section Driver.
Context {HW : Type} `{!GpioBlock HW}.

Definition set_data (v : Z) (s : mpc8xxx HW) : mpc8xxx HW :=
  Mpc8xxx (block s) v (irq s) (oldvalue s) (complaints s).
Definition set_oldvalue (v : Z) (s : mpc8xxx HW) : mpc8xxx HW :=
  Mpc8xxx (block s) (data s) (irq s) v (complaints s).
Definition set_irq (b : bool) (s : mpc8xxx HW) : mpc8xxx HW :=
  Mpc8xxx (block s) (data s) b (oldvalue s) (complaints s).
Definition complain (gpio : Z) (s : mpc8xxx HW) : mpc8xxx HW :=
  Mpc8xxx (block s) (data s) (irq s) (oldvalue s) (complaints s ++ [gpio]).

Definition read_reg (r : Z) : M (mpc8xxx HW) Z := gets (fun s => in_be32 r (block s)).
Definition write_reg (r v : Z) : M (mpc8xxx HW) unit :=
  modify (fun s => Mpc8xxx (out_be32 r v (block s)) (data s) (irq s) (oldvalue s) (complaints s)).
Definition setbits32 (r m : Z) : M (mpc8xxx HW) unit := v ← read_reg r; write_reg r (Z.lor v m).
Definition clrbits32 (r m : Z) : M (mpc8xxx HW) unit := v ← read_reg r; write_reg r (Z.land v (not32 m)).

Definition mpc8xxx_gpio_save_regs : M (mpc8xxx HW) unit := v ← read_reg GPIO_DAT; modify (set_data v).

Definition mpc8572_gpio_get (gpio : Z) : M (mpc8xxx HW) Z :=
  dat ← read_reg GPIO_DAT;
  dir ← read_reg GPIO_DIR;
  d ← gets data;
  mret (Z.land (Z.lor (Z.land dat (not32 dir)) d) (mpc8xxx_gpio2mask gpio)).

Definition mpc8xxx_gpio_get (gpio : Z) : M (mpc8xxx HW) Z :=
  dat ← read_reg GPIO_DAT; mret (Z.land dat (mpc8xxx_gpio2mask gpio)).

(** The message for the pins of the watchdog. *)
Definition report (gpio : Z) : M (mpc8xxx HW) unit :=
  if (1 =? gpio) || (3 =? gpio) then modify (complain gpio) else mret tt.

Definition mpc8xxx_gpio_set (gpio val : Z) : M (mpc8xxx HW) unit :=
  report gpio;;
  old ← gets oldvalue;
  if (9 =? gpio) && (old =? val) then mret tt
  else
    modify (set_oldvalue val);;
    v ← read_reg GPIO_DAT;
    let v := if truth val then Z.lor v (mpc8xxx_gpio2mask gpio) else Z.land v (not32 (mpc8xxx_gpio2mask gpio)) in
    modify (set_data v);;
    write_reg GPIO_DAT v.

Definition mpc8xxx_gpio_dir_in (gpio : Z) : M (mpc8xxx HW) Z :=
  report gpio;;
  clrbits32 GPIO_DIR (mpc8xxx_gpio2mask gpio);;
  mret 0.

Definition mpc8xxx_gpio_dir_out (gpio val : Z) : M (mpc8xxx HW) Z :=
  report gpio;;
  mpc8xxx_gpio_set gpio val;;
  setbits32 GPIO_DIR (mpc8xxx_gpio2mask gpio);;
  mret 0.

(** [mapping]: what [irq_create_mapping] gives. *)
Definition mpc8xxx_gpio_to_irq (mapping : Z -> Z) (offset : Z) : M (mpc8xxx HW) Z :=
  i ← gets irq;
  mret (if i && (offset <? MPC8XXX_GPIO_PINS) then mapping offset else - ENXIO).

(** ** Interrupts *)

(** [ffs]: the number of the lowest bit that is set, from 1. *)
Definition ffs (x : Z) : Z :=
  match list_find (fun i => Z.testbit x i = true) (seqZ 0 32) with Some (_, i) => i + 1 | None => 0 end.

(** The interrupt of the block that is handled, if any. *)
Definition mpc8xxx_gpio_irq_cascade : M (mpc8xxx HW) (option Z) :=
  ier ← read_reg GPIO_IER;
  imr ← read_reg GPIO_IMR;
  let mask := Z.land ier imr in
  mret (if truth mask then Some (32 - ffs mask) else None).

(** [hwirq]: [virq_to_hw(virq)]. *)
Definition mpc8xxx_irq_unmask (hwirq : Z) : M (mpc8xxx HW) unit := setbits32 GPIO_IMR (mpc8xxx_gpio2mask hwirq).
Definition mpc8xxx_irq_mask (hwirq : Z) : M (mpc8xxx HW) unit := clrbits32 GPIO_IMR (mpc8xxx_gpio2mask hwirq).
Definition mpc8xxx_irq_ack (hwirq : Z) : M (mpc8xxx HW) unit := write_reg GPIO_IER (mpc8xxx_gpio2mask hwirq).

Definition mpc8xxx_irq_set_type (hwirq flow_type : Z) : M (mpc8xxx HW) Z :=
  if flow_type =? IRQ_TYPE_EDGE_FALLING then setbits32 GPIO_ICR (mpc8xxx_gpio2mask hwirq);; mret 0
  else if flow_type =? IRQ_TYPE_EDGE_BOTH then clrbits32 GPIO_ICR (mpc8xxx_gpio2mask hwirq);; mret 0
  else mret (- EINVAL).

(** ** Registration *)

(** [compatible]: the node is "fsl,mpc8572-gpio". *)
Definition mpc8xxx_ops (compatible : bool) (mapping : Z -> Z) : chip_ops (mpc8xxx HW) :=
  ChipOps _ None None (Some mpc8xxx_gpio_dir_in)
    (Some (if compatible then mpc8572_gpio_get else mpc8xxx_gpio_get))
    (Some mpc8xxx_gpio_dir_out) None (Some mpc8xxx_gpio_set) (Some (mpc8xxx_gpio_to_irq mapping)).

(** drivers/of/gpio.c; [label], [regs]: whether there is memory for the label and
    the registers can be mapped. *)
Definition of_mm_gpiochip_add (c : positive) (label regs : bool) (save_regs : M (mpc8xxx HW) unit) (create : Z)
  : M (gpiolib (mpc8xxx HW)) Z :=
  if negb label then mret (- ENOMEM)
  else if negb regs then mret (- ENOMEM)
  else
    upd_chip (set_base 0) c;;
    on_hw save_regs;;
    gpiochip_add c create.

(** [mem]: the allocation; [host]: the block has an interrupt and
    [irq_alloc_host] succeeds. *)
Definition mpc8xxx_add_controller (c : positive) (mem compatible label regs host : bool) (mapping : Z -> Z) (create : Z)
  : M (gpiolib (mpc8xxx HW)) unit :=
  if negb mem then mret tt
  else
    modify (fun s => with_chips (<[c := Chip 0 MPC8XXX_GPIO_PINS true 0 false (mpc8xxx_ops compatible mapping)]> (chips s)) s);;
    ret ← of_mm_gpiochip_add c label regs mpc8xxx_gpio_save_regs create;
    if truth ret then modify (fun s => with_chips (delete c (chips s)) s)
    else if host then
      on_hw (modify (set_irq true);; write_reg GPIO_IER 0xffffffff;; write_reg GPIO_IMR 0)
    else mret tt.
End Driver.
