(* ===== verification/Gpio8xxxProps.v ===== *)
(** * What the GPIO driver does to the pins

    The pins as a table: for each output the level it drives. [mpc8xxx_gpio_set] drives
    the pin it is asked for and every other output to what the data register reads
    there, which need not be the level the output has: on some blocks outputs cannot
    be read, and an open-drain output reads the line. A value for pin 9 is dropped when
    it is the last one written to any pin. *)

From S2P Require Import Prelude GpioLib Gpio8xxx.

(** The direction register reads back, and the data register drives the outputs.
    Nothing is said of what the data register reads, for inputs or outputs. *)
Class BlockLaws (HW : Type) `{!GpioBlock HW} := {
  dir : HW -> Z;
  latch : HW -> Z;
  in_dir h : in_be32 GPIO_DIR h = dir h;
  out_dir v h : dir (out_be32 GPIO_DIR v h) = v /\ latch (out_be32 GPIO_DIR v h) = latch h;
  out_dat v h : dir (out_be32 GPIO_DAT v h) = dir h /\ latch (out_be32 GPIO_DAT v h) = v
}.

(** ** Masks *)

Lemma pin_mask_bit g i : 0 <= g < 32 -> 0 <= i -> Z.testbit (mpc8xxx_gpio2mask g) i = (i =? 31 - g).
Proof.
  intros Hg Hi. unfold mpc8xxx_gpio2mask, MPC8XXX_GPIO_PINS. replace (32 - 1 - g) with (31 - g) by lia.
  rewrite Z.shiftl_1_l, u32_small by (split; [apply Z.pow_nonneg; lia|apply Z.pow_lt_mono_r; lia]).
  rewrite Z.pow2_bits_eqb by lia. apply Z.eqb_sym.
Qed.

Lemma mask_range g : 0 <= mpc8xxx_gpio2mask g < 2 ^ 32.
Proof. apply u32_range. Qed.

(** A read-modify-write of the bit of a pin. *)
Lemma update_bit g v (on : bool) i : 0 <= g < 32 -> 0 <= i < 32 ->
  Z.testbit (if on then Z.lor v (mpc8xxx_gpio2mask g) else Z.land v (not32 (mpc8xxx_gpio2mask g))) i =
  if i =? 31 - g then on else Z.testbit v i.
Proof.
  intros Hg Hi. pose proof (mask_range g). destruct on.
  - rewrite Z.lor_spec, pin_mask_bit by lia. destruct (i =? 31 - g); [apply orb_true_r|apply orb_false_r].
  - rewrite Z.land_spec, not32_spec, pin_mask_bit by lia. destruct (i =? 31 - g); [apply andb_false_r|apply andb_true_r].
Qed.

Section Pins.
Context {HW : Type} `{!GpioBlock HW} `{!BlockLaws HW}.
Implicit Types (s : mpc8xxx HW).

(** ** Steps of the driver *)

Inductive pin_op := PSet (g v : Z) | PIn (g : Z) | POut (g v : Z).

Definition pin_of (o : pin_op) : Z := match o with PSet g _ | PIn g | POut g _ => g end.

Definition run_op (o : pin_op) : M (mpc8xxx HW) unit :=
  match o with
  | PSet g v => mpc8xxx_gpio_set g v
  | PIn g => mpc8xxx_gpio_dir_in g;; mret tt
  | POut g v => mpc8xxx_gpio_dir_out g v;; mret tt
  end.

Fixpoint run_ops (l : list pin_op) : M (mpc8xxx HW) unit :=
  match l with [] => mret tt | o :: l => run_op o;; run_ops l end.

(** ** The table of outputs *)

Definition pin_level (h : HW) (g : Z) : option bool :=
  if Z.testbit (dir h) (31 - g) then Some (Z.testbit (latch h) (31 - g)) else None.

(** The outputs with their levels, and the last value written. *)
Definition pins : Type := gmap Z bool * Z.

Definition shows (s : mpc8xxx HW) (p : pins) : Prop :=
  oldvalue s = snd p /\ forall g, 0 <= g < 32 -> fst p !! g = pin_level (block s) g.

Definition dropped (g v last : Z) : bool := (9 =? g) && (last =? v).

(** The outputs after the data register, which read [rb], was written back with the
    bit of pin [g] changed. *)
Definition written (rb g v : Z) (m : gmap Z bool) : gmap Z bool :=
  map_imap (fun p _ => Some (if p =? g then truth v else Z.testbit rb (31 - p))) m.

(** A step; [rb]: what the data register reads before it. *)
Inductive pin_step (rb : Z) : pin_op -> pins -> pins -> Prop :=
  | step_drop g v m last : dropped g v last = true -> pin_step rb (PSet g v) (m, last) (m, last)
  | step_set g v m last : dropped g v last = false -> pin_step rb (PSet g v) (m, last) (written rb g v m, v)
  | step_in g m last : pin_step rb (PIn g) (m, last) (delete g m, last)
  | step_out g v m last : dropped g v last = false ->
      pin_step rb (POut g v) (m, last) (<[g := truth v]> (written rb g v m), v)
  | step_out_drop g v m last b : dropped g v last = true -> m !! g = Some b \/ m !! g = None ->
      pin_step rb (POut g v) (m, last) (<[g := b]> m, last).

Inductive pin_steps : list (pin_op * Z) -> pins -> pins -> Prop :=
  | steps_nil p : pin_steps [] p p
  | steps_cons o rb l p p1 p2 : pin_step rb o p p1 -> pin_steps l p1 p2 -> pin_steps ((o, rb) :: l) p p2.

(** The calls with what the data register reads before each. *)
Fixpoint readings (l : list pin_op) (s : mpc8xxx HW) : list (pin_op * Z) :=
  match l with
  | [] => []
  | o :: l => (o, in_be32 GPIO_DAT (block s)) :: match exec (run_op o) s with Some s' => readings l s' | None => [] end
  end.

(** The data register shows the level of a pin, if it is an output: now, and before
    each call of a sequence. *)
Definition reads_back (q : Z) (h : HW) : bool :=
  match pin_level h q with Some b => Bool.eqb (Z.testbit (in_be32 GPIO_DAT h) (31 - q)) b | None => true end.

Fixpoint reads_back_along (q : Z) (l : list pin_op) (s : mpc8xxx HW) : bool :=
  match l with
  | [] => true
  | o :: l => reads_back q (block s) && match exec (run_op o) s with Some s' => reads_back_along q l s' | None => true end
  end.

Lemma written_lookup rb g v m p : written rb g v m !! p =
  (fun _ => if p =? g then truth v else Z.testbit rb (31 - p)) <$> m !! p.
Proof. unfold written. rewrite map_lookup_imap. by destruct (m !! p). Qed.

(** ** Runs *)

Lemma report_run g s : exists l, report g s = Some (tt, Mpc8xxx (block s) (data s) (irq s) (oldvalue s) l).
Proof.
  unfold report. destruct ((1 =? g) || (3 =? g)); [rewrite modify_run; by eexists|].
  rewrite ret_unfold. exists (complaints s). by destruct s.
Qed.

Lemma set_run g v s : 0 <= g < 32 ->
  exists s', mpc8xxx_gpio_set g v s = Some (tt, s') /\
    (if dropped g v (oldvalue s) then block s' = block s /\ oldvalue s' = oldvalue s
     else oldvalue s' = v /\ dir (block s') = dir (block s) /\
       forall i, 0 <= i < 32 -> Z.testbit (latch (block s')) i =
         if i =? 31 - g then truth v else Z.testbit (in_be32 GPIO_DAT (block s)) i).
Proof.
  intros Hg. unfold mpc8xxx_gpio_set. destruct (report_run g s) as [l E]. rewrite bind_unfold, E, bind_unfold, gets_run.
  cbn [oldvalue]. fold (dropped g v (oldvalue s)). destruct (dropped g v (oldvalue s)); [by eexists|].
  rewrite bind_unfold, modify_run. unfold read_reg. rewrite bind_unfold, gets_run, bind_unfold, modify_run.
  unfold write_reg. rewrite modify_run. eexists. split; [reflexivity|]. cbn [oldvalue block set_data set_oldvalue].
  match goal with |- context [out_be32 GPIO_DAT ?x ?h] => destruct (out_dat x h) as [E1 E2] end.
  rewrite E1, E2. split; [done|]. split; [done|]. intros i Hi. by apply update_bit.
Qed.

Lemma setbits_run g s : 0 <= g < 32 ->
  exists s', setbits32 GPIO_DIR (mpc8xxx_gpio2mask g) s = Some (tt, s') /\ oldvalue s' = oldvalue s /\
    latch (block s') = latch (block s) /\
    forall i, 0 <= i < 32 -> Z.testbit (dir (block s')) i = if i =? 31 - g then true else Z.testbit (dir (block s)) i.
Proof.
  intros Hg. unfold setbits32, read_reg, write_reg. rewrite bind_unfold, gets_run, modify_run. eexists. split; [reflexivity|].
  cbn [oldvalue block]. match goal with |- context [out_be32 GPIO_DIR ?x ?h] => destruct (out_dir x h) as [E1 E2] end.
  rewrite E1, E2, in_dir. split; [done|]. split; [done|]. intros i Hi. by apply (update_bit g _ true).
Qed.

Lemma clrbits_run g s : 0 <= g < 32 ->
  exists s', clrbits32 GPIO_DIR (mpc8xxx_gpio2mask g) s = Some (tt, s') /\ oldvalue s' = oldvalue s /\
    latch (block s') = latch (block s) /\
    forall i, 0 <= i < 32 -> Z.testbit (dir (block s')) i = if i =? 31 - g then false else Z.testbit (dir (block s)) i.
Proof.
  intros Hg. unfold clrbits32, read_reg, write_reg. rewrite bind_unfold, gets_run, modify_run. eexists. split; [reflexivity|].
  cbn [oldvalue block]. match goal with |- context [out_be32 GPIO_DIR ?x ?h] => destruct (out_dir x h) as [E1 E2] end.
  rewrite E1, E2, in_dir. split; [done|]. split; [done|]. intros i Hi. by apply (update_bit g _ false).
Qed.

(** Levels after a write of the data register. *)
Lemma level_set g v s s' : 0 <= g < 32 -> dir (block s') = dir (block s) ->
  (forall i, 0 <= i < 32 -> Z.testbit (latch (block s')) i =
     if i =? 31 - g then truth v else Z.testbit (in_be32 GPIO_DAT (block s)) i) ->
  forall p, 0 <= p < 32 -> pin_level (block s') p =
    (fun _ => if p =? g then truth v else Z.testbit (in_be32 GPIO_DAT (block s)) (31 - p)) <$> pin_level (block s) p.
Proof.
  intros Hg Ed El p Hp. unfold pin_level. rewrite Ed, El by lia.
  replace (31 - p =? 31 - g) with (p =? g) by (destruct (Z.eqb_spec p g), (Z.eqb_spec (31 - p) (31 - g)); lia || done).
  by destruct (Z.testbit (dir (block s)) (31 - p)).
Qed.

Lemma level_dir g (on : bool) s s' : latch (block s') = latch (block s) ->
  (forall i, 0 <= i < 32 -> Z.testbit (dir (block s')) i = if i =? 31 - g then on else Z.testbit (dir (block s)) i) ->
  0 <= g < 32 -> forall p, 0 <= p < 32 -> pin_level (block s') p =
    if decide (p = g) then (if on then Some (Z.testbit (latch (block s)) (31 - g)) else None) else pin_level (block s) p.
Proof.
  intros El Ed Hg p Hp. unfold pin_level. rewrite El, Ed by lia. destruct (decide (p = g)) as [->|Hne].
  - by rewrite Z.eqb_refl.
  - by rewrite (proj2 (Z.eqb_neq _ _)) by lia.
Qed.

(** One step of the driver is one step of the table, and leaves the other pins that read
    back as they are. *)
Definition refines (o : pin_op) (s : mpc8xxx HW) (p : pins) : Prop :=
  exists s' p', run_op o s = Some (tt, s') /\ pin_step (in_be32 GPIO_DAT (block s)) o p p' /\ shows s' p'.

Lemma set_refines g v s p : 0 <= g < 32 -> shows s p -> refines (PSet g v) s p.
Proof.
  intros Hg [Hl Hp]. destruct p as [m last]. cbn [fst snd] in *. subst last. unfold refines. cbn [run_op].
  destruct (set_run g v s Hg) as (s' & E & H). destruct (dropped g v (oldvalue s)) eqn:Ed.
  - destruct H as [Eb Eo]. exists s', (m, oldvalue s). split; [done|]. split; [by constructor|]. split; [done|]. cbn. by rewrite Eb.
  - destruct H as (Eo & Edir & El). pose proof (level_set g v s s' Hg Edir El) as HL.
    exists s', (written (in_be32 GPIO_DAT (block s)) g v m, v). split; [done|]. split; [by constructor|]. split; [done|].
    intros p Hpp. cbn. by rewrite written_lookup, HL, Hp.
Qed.

Lemma in_refines g s p : 0 <= g < 32 -> shows s p -> refines (PIn g) s p.
Proof.
  intros Hg [Hl Hp]. destruct p as [m last]. cbn [fst snd] in *. subst last. unfold refines. cbn [run_op].
  unfold mpc8xxx_gpio_dir_in. rewrite bind_unfold. destruct (report_run g s) as [l E]. rewrite bind_unfold, E, bind_unfold.
  match goal with |- context [clrbits32 _ _ ?s0] => destruct (clrbits_run g s0 Hg) as (s' & E' & Eo & El & Ed) end.
  rewrite E', !ret_unfold. exists s', (delete g m, oldvalue s). split; [done|]. split; [constructor|].
  split; [done|]. intros p Hpp. cbn. rewrite (level_dir g false _ s' El Ed Hg p Hpp). cbn [block].
  destruct (decide (p = g)) as [->|]; [apply lookup_delete_eq|]. rewrite lookup_delete_ne by done. by apply Hp.
Qed.

Lemma out_refines g v s p : 0 <= g < 32 -> shows s p -> refines (POut g v) s p.
Proof.
  intros Hg [Hl Hp]. destruct p as [m last]. cbn [fst snd] in *. subst last. unfold refines. cbn [run_op].
  unfold mpc8xxx_gpio_dir_out. rewrite bind_unfold. destruct (report_run g s) as [l E]. rewrite bind_unfold, E, bind_unfold.
  match goal with |- context [mpc8xxx_gpio_set _ _ ?s0] => destruct (set_run g v s0 Hg) as (s1 & E1 & H1);
    pose proof (level_set g v s0 s1 Hg) as HL1 end.
  rewrite E1. cbn [block oldvalue] in H1, HL1. destruct (setbits_run g s1 Hg) as (s' & E' & Eo & El & Ed).
  rewrite bind_unfold, E', !ret_unfold. pose proof (level_dir g true s1 s' El Ed Hg) as HL. cbn iota in HL.
  destruct (dropped g v (oldvalue s)) eqn:Edr.
  - destruct H1 as [Eb1 Eo1]. set (b := Z.testbit (latch (block s1)) (31 - g)) in *.
    exists s', (<[g := b]> m, oldvalue s). split; [done|]. split.
    + apply step_out_drop; [done|]. rewrite (Hp g Hg). unfold pin_level. subst b. rewrite Eb1.
      destruct (Z.testbit (dir (block s)) (31 - g)); [by left|by right].
    + split; [cbn; congruence|]. intros p Hpp. cbn. rewrite HL, Eb1 by done.
      destruct (decide (p = g)) as [->|]; [apply lookup_insert_eq|]. rewrite lookup_insert_ne by done. by apply Hp.
  - destruct H1 as (Eo1 & Ed1 & El1). eexists s', _. split; [done|]. split; [by constructor|].
    split; [cbn; congruence|]. intros p Hpp. cbn. rewrite HL by done. destruct (decide (p = g)) as [->|].
    + rewrite lookup_insert_eq, El1, Z.eqb_refl by lia. done.
    + rewrite lookup_insert_ne, written_lookup by done. by rewrite HL1, Hp.
Qed.

Lemma op_refines o s p : 0 <= pin_of o < 32 -> shows s p -> refines o s p.
Proof. destruct o; [apply set_refines|apply in_refines|apply out_refines]. Qed.

(** A step leaves the level of another pin that reads back. *)
Lemma step_others o rb p p' q : pin_step rb o p p' -> q <> pin_of o ->
  (forall b, fst p !! q = Some b -> Z.testbit rb (31 - q) = b) -> fst p' !! q = fst p !! q.
Proof.
  intros H Hq Hb. destruct H; cbn [fst snd pin_of] in *; rewrite ?lookup_delete_ne, ?lookup_insert_ne, ?written_lookup by done;
    rewrite ?(proj2 (Z.eqb_neq q g)) by done; try done; destruct (m !! q) as [b|]; try done; cbn; by rewrite (Hb b).
Qed.

(** C25: The GPIO driver refines the table of pins. On any block, every sequence of
    set, input and output calls for its 32 pins runs to its end and changes the
    table as the steps say. A set drives the pin as asked, if it is an output, and
    at the same time drives every other output to the level that the data register
    reads for it; a value for pin 9 is dropped, and changes nothing, when it equals
    the last one written to any pin. Hence an output that no call of the sequence
    names keeps its level if the data register shows that level before each call.
    This is all that can be said: the data register of the MPC8572 and MPC8536 does not
    show the outputs, and there a set clears them ([erratum_clears]). *)
Theorem gpio_driver_refines l s p : Forall (fun o => 0 <= pin_of o < 32) l -> shows s p ->
  exists s' p', run_ops l s = Some (tt, s') /\ pin_steps (readings l s) p p' /\ shows s' p' /\
    forall q, 0 <= q < 32 -> q ∉ pin_of <$> l -> reads_back_along q l s = true ->
      pin_level (block s') q = pin_level (block s) q.
Proof.
  intros HF. revert s p. induction HF as [|o l Ho _ IH]; intros s p HS; cbn [run_ops readings reads_back_along].
  - exists s, p. split; [done|]. split; [constructor|done].
  - destruct (op_refines o s p Ho HS) as (s1 & p1 & E1 & S1 & H1). destruct (IH s1 p1 H1) as (s2 & p2 & E2 & S2 & H2 & H3).
    exists s2, p2. unfold exec. rewrite bind_unfold, E1. cbn [fmap option_fmap option_map snd]. split; [done|].
    split; [by econstructor|]. split; [done|]. intros q Hq Hin Hr. apply andb_prop in Hr as [Hr1 Hr2].
    rewrite fmap_cons in Hin. apply not_elem_of_cons in Hin as [Hqo Hin]. rewrite H3 by done.
    rewrite <- (proj2 H1), <- (proj2 HS) by done. apply (step_others _ _ _ _ _ S1 Hqo). intros b Hb.
    rewrite (proj2 HS) in Hb by done. unfold reads_back in Hr1. rewrite Hb in Hr1. by apply Bool.eqb_prop.
Qed.
End Pins.

(** ** Interrupts *)

Lemma ffs_lowest x : 0 <= x < 2 ^ 32 -> x <> 0 ->
  0 <= ffs x - 1 < 32 /\ Z.testbit x (ffs x - 1) = true /\ forall i, 0 <= i < ffs x - 1 -> Z.testbit x i = false.
Proof.
  intros Hx Hn. unfold ffs. destruct (list_find _ _) as [[k i]|] eqn:E.
  - apply list_find_Some in E as (El & Hi & Hmin). apply lookup_seqZ in El as [-> Hk]. replace (0 + Z.of_nat k + 1 - 1) with (Z.of_nat k) by lia.
    split; [lia|]. split; [done|]. intros j Hj. apply not_true_is_false. apply (Hmin (Z.to_nat j)); [|lia].
    apply lookup_seqZ. lia.
  - apply list_find_None in E. exfalso. apply Hn. apply Z.bits_inj'. intros i Hi. rewrite Z.bits_0.
    destruct (decide (i < 32)).
    + apply not_true_is_false. rewrite Forall_forall in E. apply E. apply elem_of_seqZ. lia.
    + apply Z.bits_above_log2; [lia|]. apply Z.log2_lt_pow2; [lia|]. apply Z.lt_le_trans with (2 ^ 32); [lia|].
      apply Z.pow_le_mono_r; lia.
Qed.

(** The cascade handles the pending interrupt of the highest pin, if there is one
    that is not masked. *)
Lemma irq_cascade_pending {HW} `{!GpioBlock HW} (s : mpc8xxx HW) :
  let pending p := Z.testbit (Z.land (in_be32 GPIO_IER (block s)) (in_be32 GPIO_IMR (block s))) (31 - p) in
  is_u32 (in_be32 GPIO_IER (block s)) -> is_u32 (in_be32 GPIO_IMR (block s)) ->
  exists r, mpc8xxx_gpio_irq_cascade s = Some (r, s) /\
    match r with
    | Some p => 0 <= p < 32 /\ pending p = true /\ forall q, p < q < 32 -> pending q = false
    | None => forall q, 0 <= q < 32 -> pending q = false
    end.
Proof.
  intros pending H1 H2. unfold mpc8xxx_gpio_irq_cascade, read_reg. rewrite bind_unfold, gets_run, bind_unfold, gets_run, ret_unfold.
  eexists. split; [reflexivity|]. subst pending. set (x := Z.land _ _).
  assert (0 <= x < 2 ^ 32) as Hx.
  { by apply land_u32. }
  unfold truth. destruct (Z.eqb_spec x 0) as [->|Hn]; cbn [negb].
  - intros q Hq. apply Z.bits_0.
  - destruct (ffs_lowest x Hx Hn) as (Hr & Hb & Hmin). split; [lia|]. split; [by replace (31 - (32 - ffs x)) with (ffs x - 1) by lia|].
    intros q Hq. apply Hmin. lia.
Qed.

(** ** A block *)

Module Board.
(** The registers, and the levels at the inputs. [erratum]: outputs read as 0. *)
Record regs := Regs { r_dir : Z; r_odr : Z; r_dat : Z; r_ier : Z; r_imr : Z; r_icr : Z; r_pins : Z; erratum : bool }.

Definition read (r : Z) (h : regs) : Z :=
  if r =? GPIO_DIR then r_dir h
  else if r =? GPIO_ODR then r_odr h
  else if r =? GPIO_DAT then
    Z.lor (if erratum h then 0 else Z.land (r_dat h) (r_dir h)) (Z.land (r_pins h) (Z.lnot (r_dir h)))
  else if r =? GPIO_IER then r_ier h
  else if r =? GPIO_IMR then r_imr h
  else r_icr h.

Definition write (r v : Z) (h : regs) : regs :=
  let 'Regs d o t e m c p b := h in
  if r =? GPIO_DIR then Regs v o t e m c p b
  else if r =? GPIO_ODR then Regs d v t e m c p b
  else if r =? GPIO_DAT then Regs d o v e m c p b
  else if r =? GPIO_IER then Regs d o t (Z.land e (Z.lnot v)) m c p b
  else if r =? GPIO_IMR then Regs d o t e v c p b
  else Regs d o t e m v p b.

#[global] Instance block_regs : GpioBlock regs := {| in_be32 := read; out_be32 := write |}.

#[global] Program Instance regs_laws : BlockLaws regs := {| dir h := r_dir h; latch h := r_dat h |}.
Next Obligation. done. Qed.
Next Obligation. intros v h. by destruct h. Qed.
Next Obligation. intros v h. by destruct h. Qed.

Definition reset (b : bool) : regs := Regs 0 0 0 0 0 0 0 b.
Definition driver {HW} (h : HW) : mpc8xxx HW := Mpc8xxx h 0 false 0 [].
End Board.

(** Pin 7 is driven high. *)
Definition ex_pin7 : mpc8xxx Board.regs := Board.driver (Board.Regs (2 ^ 24) 0 (2 ^ 24) 0 0 0 0 false).

Lemma gpio_driver_refines_witness :
  exists s' p', run_ops [POut 5 1; POut 9 1; PSet 5 0] ex_pin7 = Some (tt, s') /\
    pin_steps (readings [POut 5 1; POut 9 1; PSet 5 0] ex_pin7) ({[7 := true]}, 0) p' /\ shows s' p' /\
    pin_level (block s') 7 = Some true.
Proof.
  destruct (gpio_driver_refines [POut 5 1; POut 9 1; PSet 5 0] ex_pin7 ({[7 := true]}, 0)) as (s' & p' & E & S & H & K).
  - repeat constructor; cbn; done.
  - split; [reflexivity|]. intros g Hg. unfold pin_level. cbn [dir latch Board.regs_laws Board.r_dir Board.r_dat block ex_pin7 Board.driver fst].
    rewrite Z.pow2_bits_eqb by lia. destruct (Z.eqb_spec 24 (31 - g)) as [Hg7|Hg7].
    + replace g with 7 by lia. reflexivity.
    + apply lookup_singleton_ne. lia.
  - exists s', p'. split; [exact E|]. split; [exact S|]. split; [exact H|].
    rewrite K; [reflexivity|lia|by vm_compute; set_solver|vm_compute; reflexivity].
Defined.

(** Pin 9 was set high, pin 5 then low: the request to set pin 9 low is dropped. *)
Lemma pin9_stays_high :
  (fun s => pin_level (block s) 9) <$>
    exec (run_ops [POut 9 1; POut 5 0; PSet 9 0]) (Board.driver (Board.reset false)) = Some (Some true).
Proof. vm_compute. reflexivity. Qed.

(** On a block whose outputs cannot be read, a set clears the other outputs. *)
Lemma erratum_clears :
  (fun s => Z.testbit (Board.r_dat (block s)) (31 - 5)) <$>
    exec (run_ops [POut 5 1; POut 6 1]) (Board.driver (Board.reset true)) = Some false.
Proof. vm_compute. reflexivity. Qed.

(** An input that was high when some output was set reads as high for ever. *)
Lemma input_reads_stale :
  let low h := Board.Regs (Board.r_dir h) 0 (Board.r_dat h) 0 0 0 0 false in
  truth <$> result (modify (fun s => Mpc8xxx (low (block s)) (data s) (irq s) (oldvalue s) (complaints s));; mpc8572_gpio_get 2)
    (default (Board.driver (Board.reset false))
       (exec (run_ops [POut 5 1]) (Board.driver (Board.Regs 0 0 0 0 0 0 (2 ^ 29) false)))) = Some true.
Proof. vm_compute. reflexivity. Qed.
