(* ===== verification/GpioUser.v ===== *)
(** * Programs on the GPIO files (drivers/externdrv/sysled.c, gpio_oper.c)

    The run LED is on pin 9 of the processor. The programs reach it through the
    files under /sys/class/gpio: this file puts them on top of the GPIO library and
    the driver of the controller, and shows when the LED follows the calls, while
    nobody else sets a pin. *)

From stdpp Require Import strings.
From S2P Require Import Prelude Vsprintf GpioLib GpioLibProps GpioReach Gpio8xxx Gpio8xxxProps.

Definition RUN_LED : Z := 9.

Section Programs.
Context {S : Type}.
(** What the kernel answers while files are created and removed. *)
Context (x : export_env) (e : irq_env).

(** What a store function sees of the bytes written: up to the first NUL. *)
Fixpoint cstring (l : list Z) : list Z :=
  match l with
  | c :: l => if c =? 0 then [] else c :: cstring l
  | [] => []
  end.

(** The files: [export] and [unexport] are there with the class, those of a GPIO
    with its device. [open] gives -1 for a file that is not there, otherwise some
    descriptor [fd]. *)
Definition open_class (fd : Z) : M (gpiolib S) Z := s ← get; mret (if class_p s then fd else -1).
Definition open_dev (file : sysfs_device -> bool) (gpio fd : Z) : M (gpiolib S) Z :=
  s ← get;
  mret (match gpio_desc s !! Z.to_nat gpio with
        | Some d => match dev d with Some v => if file v then fd else -1 | None => -1 end
        | None => -1
        end).

(** A function that opens a file, writes [buf] and ignores the result. *)
Definition write_file (open : M (gpiolib S) Z) (store : list Z -> M (gpiolib S) Z) (buf : list Z) : M (gpiolib S) Z :=
  fd ← open;
  if fd <? 0 then mret fd else store (cstring buf);; mret 0.

(** ** gpio_oper.c *)

Definition gpio_export (fd gpio : Z) : M (gpiolib S) Z :=
  write_file (open_class fd) (fun b => export_store b x e) (decimal (s32 gpio)).
Definition gpio_unexport (fd gpio : Z) : M (gpiolib S) Z :=
  write_file (open_class fd) (fun b => unexport_store b e) (decimal (s32 gpio)).
Definition gpio_set_dir (fd gpio out_flag : Z) : M (gpiolib S) Z :=
  write_file (open_dev has_direction gpio fd) (gpio_direction_store gpio)
    (chars (if truth out_flag then "out" else "in")%string ++ [0]).
Definition gpio_set_value (fd gpio value : Z) : M (gpiolib S) Z :=
  write_file (open_dev (fun _ => true) gpio fd) (gpio_value_store gpio)
    (chars (if truth value then "1" else "0")%string ++ [0]).
Definition gpio_set_edge (fd gpio : Z) (edge : list Z) : M (gpiolib S) Z :=
  write_file (open_dev has_edge gpio fd) (fun b => gpio_edge_store gpio b e) (edge ++ [0]).

(** [ch]: what the variable holds before; reading the file may fail. *)
Definition gpio_get_value (fd gpio ch : Z) : M (gpiolib S) (Z * option Z) :=
  fd ← open_dev (fun _ => true) gpio fd;
  if fd <? 0 then mret (fd, None)
  else
    r ← gpio_value_show gpio;
    let ch := match snd r with c :: _ => c | [] => ch end in
    mret (0, Some (if negb (ch =? 48) then 1 else 0)).

Definition gpio_fd_open (fd gpio : Z) : M (gpiolib S) Z := open_dev (fun _ => true) gpio fd.

(** ** sysled.c *)

(** [system("echo text > file")]. *)
Definition echo (open : M (gpiolib S) Z) (store : list Z -> M (gpiolib S) Z) (text : list Z) : M (gpiolib S) unit :=
  write_file open store (text ++ [NL]);; mret tt.

Definition sysLedInit : M (gpiolib S) unit :=
  echo (open_class 0) (fun b => export_store b x e) (decimal RUN_LED);;
  echo (open_dev has_direction RUN_LED 0) (gpio_direction_store RUN_LED) (chars "out"%string).

Definition setRunLed (led_color : Z) : M (gpiolib S) Z :=
  let onoff := if truth led_color then 0 else 1 in
  echo (open_dev (fun _ => true) RUN_LED 0) (gpio_value_store RUN_LED) (decimal onoff);;
  mret 0.

(** A program that starts the LED and sets it as often as it likes. *)
Fixpoint setRunLeds (l : list Z) : M (gpiolib S) unit :=
  match l with [] => mret tt | c :: l => setRunLed c;; setRunLeds l end.
End Programs.

(** ** The board *)

Section Board.
Context {HW : Type} `{!GpioBlock HW} `{!BlockLaws HW}.
Context (compatible : bool) (mapping : Z -> Z) (c : positive).
Implicit Types (s : gpiolib (mpc8xxx HW)) (d : desc).

(** Pin 9 belongs to the controller. *)
Definition on_controller s d : Prop := gpio_desc s !! 9%nat = Some d /\ chip d = Some c /\
  exists k, chips s !! c = Some k /\ base k = 0 /\ ngpio k = 32 /\ live k = true /\ ops k = mpc8xxx_ops compatible mapping.

Definition output d : Prop := test_bit FLAG_REQUESTED d = true /\ test_bit FLAG_EXPORT d = true /\ test_bit FLAG_ACTIVE_LOW d = false /\
  exists v, dev d = Some v /\ has_direction v = true.

(** The LED's files work. *)
Definition led_ready s : Prop := exists d, on_controller s d /\ output d /\ test_bit FLAG_IS_OUT d = true.

(** What the pin drives, and the last value written to any pin. *)
Definition led_state (t : mpc8xxx HW) (b old : bool) : Prop :=
  pin_level (block t) 9 = Some b /\ oldvalue t = (if old then 1 else 0).

Lemma set_value_run s v : led_ready s -> exists h,
  mpc8xxx_gpio_set 9 v (hw s) = Some (tt, h) /\ __gpio_set_value 9 v s = Some (tt, with_hw h s).
Proof.
  intros (d & (Ed & Ec & k & Ek & B & N & L & O) & _). destruct (set_run 9 v (hw s)) as (h & E & _); [lia|]. exists h. split; [done|].
  unfold __gpio_set_value. rewrite bind_unfold, (get_desc_run 9 s d), Ec by done. rewrite bind_unfold, lift_opt_run.
  rewrite bind_unfold, (get_chip_run c s k), O, B by done. cbn [chip_set mpc8xxx_ops]. unfold on_hw, zoom.
  change (9 - 0) with 9. by rewrite E.
Qed.

Lemma value_store_run s buf v : led_ready s -> strict_strtol buf 0 = (0, v) -> exists h,
  mpc8xxx_gpio_set 9 (if truth v then 1 else 0) (hw s) = Some (tt, h) /\
  gpio_value_store 9 buf s = Some (Z.of_nat (length buf), with_hw h s).
Proof.
  intros Hr Hb. destruct (set_value_run s (if truth v then 1 else 0) Hr) as (h & E1 & E2). exists h. split; [done|].
  destruct Hr as (d & (Ed & _) & (_ & He & Ha & _) & Ho). unfold gpio_value_store, gpio_set_value_cansleep.
  rewrite bind_unfold, (get_desc_run 9 s d) by done. rewrite He, Ho, Hb, Ha. cbn [negb]. by rewrite Z.eqb_refl, bind_unfold, E2.
Qed.

Lemma led_set t (b old want : bool) t' : led_state t b old -> mpc8xxx_gpio_set 9 (if want then 1 else 0) t = Some (tt, t') ->
  led_state t' (if Bool.eqb old want then b else want) want.
Proof.
  intros [Hp Ho] H. destruct (set_run 9 (if want then 1 else 0) t) as (t1 & E & H1); [lia|].
  rewrite E in H. injection H as ->. unfold led_state.
  unfold dropped in H1. rewrite Z.eqb_refl, Ho in H1. cbn [andb] in H1.
  replace ((if old then 1 else 0) =? (if want then 1 else 0)) with (Bool.eqb old want) in H1 by (by destruct old, want).
  destruct (Bool.eqb old want) eqn:Eq.
  - apply Bool.eqb_prop in Eq as ->. destruct H1 as [-> ->]. done.
  - destruct H1 as (Eo & Ed & El). split; [|done]. rewrite (level_set 9 _ t t' ltac:(lia) Ed El 9), Hp by lia.
    cbn. by destruct want.
Qed.

Lemma open_dev_run s d v file g fd : gpio_desc s !! Z.to_nat g = Some d -> dev d = Some v -> file v = true ->
  open_dev file g fd s = Some (fd, s).
Proof. intros Ed Ev Hf. unfold open_dev. by rewrite bind_unfold, get_run, Ed, Ev, Hf, ret_unfold. Qed.

Lemma led_ready_hw s h : led_ready s -> led_ready (with_hw h s).
Proof. done. Qed.

(** A call that asks for the value written last changes nothing. *)
Lemma setRunLed_run s col b old : led_ready s -> led_state (hw s) b old ->
  let want := negb (truth col) in
  exists s', setRunLed col s = Some (0, s') /\ led_ready s' /\ led_state (hw s') (if Bool.eqb old want then b else want) want.
Proof.
  intros Hr Hs want. pose (text := decimal (if want then 1 else 0) ++ [NL]).
  assert (cstring text = text /\ strict_strtol text 0 = (0, if want then 1 else 0)) as [Et Ep] by (unfold text; destruct want; vm_compute; split; reflexivity).
  destruct (value_store_run s text _ Hr Ep) as (h & E1 & E2). replace (truth (if want then 1 else 0)) with want in E1 by (by destruct want).
  exists (with_hw h s). split; [|split; [done|]; by apply (led_set (hw s))].
  unfold setRunLed, echo, write_file. destruct Hr as (d & (Ed & _) & (_ & _ & _ & v & Ev & _) & _).
  rewrite !bind_unfold, (open_dev_run s d v) by done. cbn [Z.ltb Z.compare].
  replace (decimal (if truth col then 0 else 1) ++ [NL]) with text by (unfold text, want; by destruct (truth col)).
  rewrite Et, bind_unfold. change RUN_LED with 9. by rewrite E2, !ret_unfold.
Qed.

(** Calls that all ask for the LED to be on, after a 0: none is written. After the
    first that asks for it to be off, the pin follows. *)
Definition led_after (b old : bool) (l : list Z) : bool :=
  if negb old && forallb truth l then b else negb (truth (default 1 (last l))).

Lemma forallb_last (l : list Z) z : forallb truth l = true -> last l = Some z -> truth z = true.
Proof. intros H E. apply last_Some in E as [l' ->]. rewrite forallb_app in H. cbn in H. by destruct (truth z); [|rewrite andb_false_r in H]. Qed.

Lemma setRunLeds_run l : forall s b old, led_ready s -> led_state (hw s) b old -> (old = true -> b = true /\ l <> []) ->
  exists s', setRunLeds l s = Some (tt, s') /\ pin_level (block (hw s')) 9 = Some (led_after b old l).
Proof.
  induction l as [|a l IH]; intros s b old Hr Hs Hb; cbn [setRunLeds].
  - exists s. split; [done|]. destruct old; [by destruct (Hb eq_refl)|]. apply Hs.
  - destruct (setRunLed_run s a b old Hr Hs) as (s1 & E & Hr1 & Hs1). rewrite bind_unfold, E.
    destruct (decide (l = [])) as [->|Hl].
    + exists s1. cbn [setRunLeds]. rewrite ret_unfold. split; [done|]. rewrite (proj1 Hs1). unfold led_after. cbn.
      destruct old; [destruct (Hb eq_refl) as [-> _]|]; by destruct (truth a).
    + destruct (IH s1 _ _ Hr1 Hs1) as (s' & E' & Hl').
      { intros Hw. split; [|done]. rewrite Hw. destruct old; [by destruct (Hb eq_refl)|done]. }
      exists s'. split; [done|]. rewrite Hl'. unfold led_after. rewrite last_cons. destruct (last l) eqn:El; [|by apply last_None in El].
      cbn [forallb default from_option id]. destruct (forallb truth l) eqn:Ef; [|by rewrite !andb_false_r].
      pose proof (forallb_last l z Ef El) as Hz. cbn. rewrite Hz. by destruct (truth a), old.
Qed.

(** ** Starting the LED *)

(** The controller is registered, the class is there, and nobody has the pin. *)
Definition board_up s : Prop := class_p s = true /\ exists d, on_controller s d /\
  test_bit FLAG_REQUESTED d = false /\ test_bit FLAG_EXPORT d = false /\ test_bit FLAG_ACTIVE_LOW d = false.

Lemma request_run s d : on_controller s d -> test_bit FLAG_REQUESTED d = false -> exists s',
  gpio_request 9 s = Some (0, s') /\ hw s' = hw s /\ class_p s' = class_p s /\ on_controller s' (set_bit FLAG_REQUESTED d).
Proof.
  intros (Ed & Ec & k & Ek & B & N & L & O) Hr. unfold gpio_request. change (negb (gpio_is_valid 9)) with false. cbn iota.
  rewrite bind_unfold, (get_desc_run 9 s d), Ec by done. rewrite bind_unfold, (try_module_get_run c s k Ek), L. cbn [negb].
  rewrite Hr, bind_unfold, (upd_desc_run _ 9 _ d) by done. rewrite bind_unfold, (get_chip_run c _ (add_users 1 k)) by (cbn; by rewrite lookup_insert_eq).
  cbn [ops add_users]. rewrite O. cbn [request mpc8xxx_ops]. rewrite ret_unfold. eexists. split; [done|]. split; [done|]. split; [done|].
  split; [cbn; by rewrite list_lookup_insert_eq by (by eapply lookup_lt_Some)|]. split; [done|].
  exists (add_users 1 k). cbn. by rewrite lookup_insert_eq.
Qed.

Lemma upd_controller s d f : on_controller s d -> chip (f d) = chip d ->
  exists s', upd_desc f 9 s = Some (tt, s') /\ hw s' = hw s /\ class_p s' = class_p s /\ on_controller s' (f d).
Proof.
  intros (Ed & Ec & Hk) Hf. rewrite (upd_desc_run f 9 s d) by done. eexists. split; [done|]. split; [done|]. split; [done|].
  split; [cbn; by rewrite list_lookup_insert_eq by (by eapply lookup_lt_Some)|]. split; [congruence|done].
Qed.

Lemma create_device_run s d x : on_controller s d -> x = ExportEnv 0 0 0 0 -> exists edge,
  create_device 9 true x s = Some ((0, Some (Device true edge)), s).
Proof.
  intros (Ed & Ec & k & Ek & B & N & L & O) ->. unfold create_device. cbn [dev_err group_err direction_err edge_err Z.eqb negb andb].
  assert (exists r, __gpio_to_irq 9 s = Some (r, s)) as [r Er].
  { unfold __gpio_to_irq. rewrite bind_unfold, (get_desc_run 9 s d), Ec by done. rewrite bind_unfold, lift_opt_run.
    rewrite bind_unfold, (get_chip_run c s k), O by done. cbn [to_irq mpc8xxx_ops]. unfold on_hw, zoom, mpc8xxx_gpio_to_irq.
    rewrite bind_unfold, gets_run, ret_unfold. eexists. by destruct s. }
  rewrite bind_unfold, Er, bind_unfold, (get_desc_run 9 s d), andb_false_r by done. eexists. by rewrite ret_unfold.
Qed.

Lemma gpio_export_run s d x : on_controller s d -> class_p s = true -> x = ExportEnv 0 0 0 0 ->
  test_bit FLAG_REQUESTED d = true -> test_bit FLAG_EXPORT d = false -> exists s' edge,
  GpioLib.gpio_export 9 true x s = Some (0, s') /\ hw s' = hw s /\
  on_controller s' (set_bit FLAG_EXPORT (set_dev (Some (Device true edge)) d)).
Proof.
  intros Hc Hp Hx Hr He. destruct (create_device_run s d x Hc Hx) as [edge Ecd].
  destruct (upd_controller s d (set_dev (Some (Device true edge))) Hc eq_refl) as (s1 & E1 & H1 & _ & C1).
  destruct (upd_controller s1 _ (set_bit FLAG_EXPORT) C1 eq_refl) as (s2 & E2 & H2 & _ & C2).
  exists s2, edge. split; [|split; [congruence|done]]. pose proof Hc as (Ed & Ec & k & Ek & B & N & L & O).
  unfold GpioLib.gpio_export. rewrite bind_unfold, get_run, Hp. change (negb (gpio_is_valid 9)) with false. cbn [negb].
  rewrite bind_unfold, (get_desc_run 9 s d), Ec by done. rewrite bind_unfold, lift_opt_run.
  rewrite bind_unfold, (get_chip_run c s k), Hr, He, O by done. cbn [negb andb has direction_input direction_output mpc8xxx_ops].
  rewrite bind_unfold, Ecd. cbn [Z.eqb]. rewrite bind_unfold, bind_unfold, E1, E2. by rewrite ret_unfold.
Qed.

Lemma export_store_run s x e : board_up s -> x = ExportEnv 0 0 0 0 -> exists d s',
  export_store (decimal 9 ++ [NL]) x e s = Some (2, s') /\ hw s' = hw s /\ on_controller s' d /\ output d.
Proof.
  intros (Hp & d & Hc & Hr & He & Ha) Hx. destruct (request_run s d Hc Hr) as (s1 & E1 & H1 & P1 & C1).
  destruct (set_requested d) as [R1 R2]. destruct (gpio_export_run s1 _ x C1) as (s2 & edge & E2 & H2 & C2); [congruence|done|done|congruence|].
  destruct (upd_controller s2 _ (set_bit FLAG_SYSFS) C2 eq_refl) as (s3 & E3 & H3 & _ & C3).
  eexists _, s3. split; [|split; [congruence|split; [exact C3|]]].
  - unfold export_store. change (strict_strtol (decimal 9 ++ [NL]) 0) with (0, 9). cbn iota. change (u32 9) with 9.
    change (0 <? 0) with false. cbn iota. rewrite bind_unfold, E1. change (0 <? 0) with false. cbn iota.
    rewrite bind_unfold, E2. change (0 <? 0) with false. cbn iota. by rewrite bind_unfold, E3.
  - unfold output. unfold test_bit, set_bit, set_flags, set_dev in *. cbn [flags dev] in *.
    rewrite !Z.setbit_eqb by done. cbn [Z.eqb orb]. rewrite Ha. split; [done|]. split; [done|]. split; [done|].
    exists (Device true edge). done.
Qed.

(** The 0 that comes with the direction is dropped when a 0 was written last; the LED
    then shows what the data register held. *)
Definition led_first (t : mpc8xxx HW) : bool := (oldvalue t =? 0) && Z.testbit (latch (block t)) 22.

Lemma dir_out_run (t : mpc8xxx HW) : exists t', mpc8xxx_gpio_dir_out 9 0 t = Some (0, t') /\ led_state t' (led_first t) false.
Proof.
  unfold mpc8xxx_gpio_dir_out. destruct (report_run 9 t) as [l E]. rewrite bind_unfold, E, bind_unfold.
  match goal with |- context [mpc8xxx_gpio_set _ _ ?t0] => destruct (set_run 9 0 t0 ltac:(lia)) as (t1 & E1 & H1) end.
  unfold dropped in H1. cbn [oldvalue block] in H1. rewrite E1, bind_unfold.
  destruct (setbits_run 9 t1 ltac:(lia)) as (t2 & E2 & Ho2 & Hl & Hd). rewrite E2, ret_unfold. exists t2. split; [done|].
  unfold led_state, led_first. rewrite (level_dir 9 true t1 t2 Hl Hd), decide_True, Ho2 by (done || lia).
  change (31 - 9) with 22. destruct (Z.eqb_spec (oldvalue t) 0) as [Ho|Ho]; cbn [andb Z.eqb Pos.eqb] in H1 |- *.
  - destruct H1 as [-> ->]. done.
  - destruct H1 as (-> & _ & Hbit). by rewrite Hbit by lia.
Qed.

Lemma direction_store_run s d : on_controller s d -> output d -> exists s',
  gpio_direction_store 9 (chars "out"%string ++ [NL]) s = Some (4, s') /\ led_ready s' /\
  led_state (hw s') (led_first (hw s)) false.
Proof.
  intros Hc Ho. destruct (dir_out_run (hw s)) as (t & Et & Hlt). pose proof Hc as (Ed & Ec & k & Ek & B & N & L & O).
  pose proof Ho as (Hr & He & Ha & v & Hv & Hdir).
  assert (on_controller (with_hw t s) d) as Hc1 by done.
  destruct (upd_controller _ d (set_bit FLAG_IS_OUT) Hc1 eq_refl) as (s1 & E1 & H1 & _ & C1). cbn [hw with_hw] in H1.
  exists s1. rewrite H1. split; [|split; [|done]].
  - unfold gpio_direction_store. rewrite bind_unfold, (get_desc_run 9 s d), He by done. cbn [negb].
    change (sysfs_streq _ (chars "high"%string)) with false. change (sysfs_streq _ (chars "out"%string)) with true. cbn [orb].
    unfold gpio_direction_output, gpio_prepare, gpio_checks. change (negb (gpio_is_valid 9)) with false. cbn iota.
    rewrite !bind_unfold, (get_desc_run 9 s d), Ec by done. rewrite bind_unfold, (get_chip_run c s k), O, B, N by done.
    cbn [has chip_set direction_output mpc8xxx_ops andb negb]. change (32 <=? u32 (9 - 0)) with false. cbn iota.
    unfold gpio_ensure_requested. rewrite !bind_unfold, (get_desc_run 9 s d), Ec, Hr by done. rewrite ret_unfold.
    change (0 <? 0) with false. cbn iota. rewrite !ret_unfold. change (0 =? 0) with true. cbn iota.
    rewrite ret_unfold, O. cbn [direction_output mpc8xxx_ops].
    unfold on_hw, zoom. rewrite bind_unfold. change (9 - 0) with 9. rewrite Et. change (0 =? 0) with true. cbn iota.
    rewrite bind_unfold, E1, ret_unfold. done.
  - eexists. split; [exact C1|]. unfold output, test_bit, set_bit, set_flags in *. cbn [flags dev] in *. rewrite !Z.setbit_eqb by done.
    cbn [Z.eqb orb]. rewrite Hr, He, Ha. split; [|done]. split; [done|]. split; [done|]. split; [done|]. by exists v.
Qed.

Lemma sysLedInit_run s x e : board_up s -> x = ExportEnv 0 0 0 0 -> exists s',
  sysLedInit x e s = Some (tt, s') /\ led_ready s' /\ led_state (hw s') (led_first (hw s)) false.
Proof.
  intros Hb Hx. destruct (export_store_run s x e Hb Hx) as (d & s1 & E1 & H1 & C1 & O1).
  destruct (direction_store_run s1 d C1 O1) as (s2 & E2 & R2 & L2). exists s2.
  split; [|split; [done|by rewrite <- H1]]. destruct Hb as [Hp _]. destruct C1 as (Ed & _). destruct O1 as (_ & _ & _ & v & Ev & Hv).
  unfold sysLedInit, echo, write_file, open_class. rewrite !bind_unfold, get_run, Hp, ret_unfold. change (0 <? 0) with false. cbn iota.
  change RUN_LED with 9. change (cstring (decimal 9 ++ [NL])) with (decimal 9 ++ [NL]). rewrite bind_unfold, E1, !ret_unfold.
  rewrite !bind_unfold, (open_dev_run s1 d v) by done. change (0 <? 0) with false. cbn iota.
  change (cstring (chars "out"%string ++ [NL])) with (chars "out"%string ++ [NL]). by rewrite bind_unfold, E2, !ret_unfold.
Qed.

(** C23: what the run LED shows. On a board whose controller is registered and
    where nobody has pin 9, and while the files are created without error and nobody
    else sets a pin, [sysLedInit] followed by any number of [setRunLed] calls runs to
    its end, through the files, the GPIO library and the driver. It leaves the pin
    driven to the level of the last call (low when the LED is to be on), or low if
    there was none, with one exception: if 0 was the last value written to any pin
    before, as after boot, and no call asked for the LED to be off, all the writes
    are dropped and the pin keeps what the data register held for it, so that a
    LED with a 1 there stays off. *)
Theorem run_led_follows l s e : board_up s ->
  exists s', (sysLedInit (ExportEnv 0 0 0 0) e;; setRunLeds l) s = Some (tt, s') /\
    pin_level (block (hw s')) 9 =
      Some (if (oldvalue (hw s) =? 0) && forallb truth l then Z.testbit (latch (block (hw s))) 22
            else negb (truth (default 1 (last l)))).
Proof.
  intros Hb. destruct (sysLedInit_run s _ e Hb eq_refl) as (s1 & E1 & R1 & L1).
  destruct (setRunLeds_run l s1 _ _ R1 L1) as (s2 & E2 & L2); [done|].
  exists s2. rewrite bind_unfold, E1. split; [done|]. rewrite L2. f_equal. unfold led_after, led_first.
  destruct (oldvalue (hw s) =? 0); [done|]. cbn [andb negb]. destruct (forallb truth l) eqn:El; [|done].
  destruct (last l) eqn:E; [|done]. cbn. by rewrite (forallb_last l z).
Qed.
End Board.

(** ** The board after boot *)

Module H2000.

(** The library starts, the class is registered, the controller is added; [dat]: what
    the boot loader left in the data register. *)
Definition regs (dat : Z) : Board.regs := Board.Regs 0 0 dat 0 0 0 0 true.
Definition start (dat : Z) : gpiolib (mpc8xxx Board.regs) := boot (Board.driver (regs dat)).
Definition add : M (gpiolib (mpc8xxx Board.regs)) unit :=
  mpc8xxx_add_controller 1 true true true true true (fun p => 100 + p) 0.
Definition up (dat : Z) : gpiolib (mpc8xxx Board.regs) :=
  default (start dat) (exec (gpiolib_sysfs_init 0 (fun _ => 0);; add) (start dat)).
Definition services : irq_env := IrqEnv true 0 true 0.

Definition run_led (dat : Z) (l : list Z) : option (option bool) :=
  (fun s => pin_level (block (hw s)) 9) <$> exec (sysLedInit (ExportEnv 0 0 0 0) services;; setRunLeds l) (up dat).

(** The descriptor of pin 9 and the chip. *)
Definition led_desc : desc := default (Desc None 0 None) (gpio_desc (up 0) !! 9%nat).

Lemma up_chip : chips (up 0) !! 1%positive = Some (Chip 0 32 true 0 true (mpc8xxx_ops true (fun p => 100 + p))).
Proof.
  unfold up, add, mpc8xxx_add_controller, mpc8xxx_ops.
  generalize (mpc8xxx_gpio_dir_in (HW := Board.regs)), (mpc8572_gpio_get (HW := Board.regs)),
    (mpc8xxx_gpio_dir_out (HW := Board.regs)), (mpc8xxx_gpio_set (HW := Board.regs)),
    (mpc8xxx_gpio_to_irq (HW := Board.regs) (fun p => 100 + p)).
  intros. vm_compute. reflexivity.
Qed.

Lemma up_board : board_up true (fun p => 100 + p) 1 (up 0).
Proof.
  split; [vm_compute; reflexivity|]. exists led_desc. split; [|split; [|split]]; [|vm_compute; reflexivity..].
  split; [vm_compute; reflexivity|]. split; [vm_compute; reflexivity|]. eexists. split; [apply up_chip|]. done.
Qed.
End H2000.

Lemma run_led_follows_witness :
  (exists s', (sysLedInit (ExportEnv 0 0 0 0) H2000.services;; setRunLeds [1; 0; 0; 1]) (H2000.up 0) = Some (tt, s') /\
     pin_level (block (hw s')) 9 = Some false) /\ H2000.run_led (2 ^ 22) [1; 0; 1] = Some (Some false).
Proof.
  split; [|vm_compute; reflexivity].
  destruct (run_led_follows true (fun p => 100 + p) 1 [1; 0; 0; 1] (H2000.up 0) H2000.services H2000.up_board) as (s' & E & L).
  exists s'. split; [exact E|]. rewrite L. vm_compute. reflexivity.
Defined.

(** With a 1 in the data register the LED is off, and the first request to turn it on
    is lost: the driver takes 0 for the last value. *)
Example run_led_stays_off : H2000.run_led (2 ^ 22) [1] = Some (Some true).
Proof. vm_compute. reflexivity. Qed.

(** A second controller asks for the same numbers and is refused: its chip is given
    up. *)
Example second_controller :
  (fun s => map_to_list (base <$> chips s)) <$>
    exec (mpc8xxx_add_controller 2 true true true true false (fun p => p) 0) (H2000.up 0) = Some [(1%positive, 0)].
Proof. vm_compute. reflexivity. Qed.

(** gpio_oper.c: the bytes with their terminator mean the same. *)
Lemma gpio_set_value_writes {HW} `{!GpioBlock HW} `{!BlockLaws HW} compatible mapping c (s : gpiolib (mpc8xxx HW)) fd v b old :
  led_ready compatible mapping c s -> led_state (hw s) b old -> 0 <= fd ->
  exists s', gpio_set_value fd 9 v s = Some (0, s') /\ led_ready compatible mapping c s' /\
    led_state (hw s') (if Bool.eqb old (truth v) then b else truth v) (truth v).
Proof.
  intros Hr Hs Hfd. pose (text := chars (if truth v then "1" else "0")%string).
  assert (strict_strtol text 0 = (0, if truth v then 1 else 0)) as Ep by (unfold text; destruct (truth v); vm_compute; reflexivity).
  destruct (value_store_run compatible mapping c s text _ Hr Ep) as (h & E1 & E2).
  replace (truth (if truth v then 1 else 0)) with (truth v) in E1 by (by destruct (truth v)).
  exists (with_hw h s). split; [|split; [done|]; by apply (led_set (hw s))].
  unfold gpio_set_value, write_file. destruct Hr as (d & (Ed & _) & (_ & _ & _ & w & Ew & _) & _).
  rewrite bind_unfold, (open_dev_run s d w) by done. destruct (Z.ltb_spec fd 0); [lia|].
  replace (cstring (chars (if truth v then "1" else "0")%string ++ [0])) with text by (unfold text; by destruct (truth v)).
  by rewrite bind_unfold, E2, ret_unfold.
Qed.
