(* ===== verification/Printk.v ===== *)
(** * The kernel log (kernel/printk.c)

    The characters of the log lie in a ring buffer; three 32-bit counters that
    wrap around say where the reader of syslog, the consoles and the writer
    are. The ring is a state of its own ([ring]); the rest of the file's
    variables, the consoles and what was written to them are [klog]. Reading
    outside [log_buf], waiting for a spinlock or semaphore that is held and
    waiting for text that never comes are [None].

    The code gives up the spinlock of the ring while it copies a character to
    the user or calls the consoles. What other processors do to the ring
    meanwhile is an argument: a list of [ract] for each time. *)

From stdpp Require Import strings.
From S2P Require Import Prelude Vsprintf.

Definition CONFIG_LOG_BUF_SHIFT : Z := 14.
Definition __LOG_BUF_LEN : Z := Z.shiftl 1 CONFIG_LOG_BUF_SHIFT.
Definition DEFAULT_MESSAGE_LOGLEVEL : Z := 4.
Definition MINIMUM_CONSOLE_LOGLEVEL : Z := 1.
Definition DEFAULT_CONSOLE_LOGLEVEL : Z := 7.
Definition UINT_MAX : Z := 2 ^ 32 - 1.
Definition ERESTARTSYS : Z := 512.
Definition HZ : Z := 250.

(** include/linux/syslog.h *)
Definition SYSLOG_ACTION_CLOSE : Z := 0.
Definition SYSLOG_ACTION_OPEN : Z := 1.
Definition SYSLOG_ACTION_READ : Z := 2.
Definition SYSLOG_ACTION_READ_ALL : Z := 3.
Definition SYSLOG_ACTION_READ_CLEAR : Z := 4.
Definition SYSLOG_ACTION_CLEAR : Z := 5.
Definition SYSLOG_ACTION_CONSOLE_OFF : Z := 6.
Definition SYSLOG_ACTION_CONSOLE_ON : Z := 7.
Definition SYSLOG_ACTION_CONSOLE_LEVEL : Z := 8.
Definition SYSLOG_ACTION_SIZE_UNREAD : Z := 9.
Definition SYSLOG_ACTION_SIZE_BUFFER : Z := 10.

(** include/linux/console.h *)
Definition CON_PRINTBUFFER : Z := 1.
Definition CON_CONSDEV : Z := 2.
Definition CON_ENABLED : Z := 4.
Definition CON_BOOT : Z := 8.
Definition CON_ANYTIME : Z := 16.

(** Characters. *)
Definition LT : Z := 60.
Definition GT : Z := 62.
Definition CH0 : Z := 48.
Definition CH7 : Z := 55.
Definition CHc : Z := 99.
Definition CHd : Z := 100.

(** ** The ring buffer *)

Record ring := Ring {
  log_buf : list Z;
  log_buf_len : Z;
  log_start : Z;
  con_start : Z;
  log_end : Z;
  logged_chars : Z
}.

Definition with_log_start (i : Z) (r : ring) : ring :=
  Ring (log_buf r) (log_buf_len r) i (con_start r) (log_end r) (logged_chars r).
Definition with_con_start (i : Z) (r : ring) : ring :=
  Ring (log_buf r) (log_buf_len r) (log_start r) i (log_end r) (logged_chars r).
Definition with_logged (n : Z) (r : ring) : ring :=
  Ring (log_buf r) (log_buf_len r) (log_start r) (con_start r) (log_end r) n.

(** [log_buf_len - 1], and the place of an index in the array. *)
Definition LOG_BUF_MASK (r : ring) : Z := u32 (log_buf_len r - 1).
Definition masked (idx : Z) (r : ring) : nat := Z.to_nat (Z.land idx (LOG_BUF_MASK r)).
Definition LOG_BUF (idx : Z) (r : ring) : option Z := log_buf r !! masked idx r.

Definition emit_log_char (c : Z) : M ring unit := fun r =>
  match buf_write (log_buf r) (masked (log_end r) r) [c] with
  | None => None
  | Some buf =>
      let size := u32 (log_buf_len r) in
      let log_end := u32 (log_end r + 1) in
      let log_start := if size <? u32 (log_end - log_start r) then u32 (log_end - size) else log_start r in
      let con_start := if size <? u32 (log_end - con_start r) then u32 (log_end - size) else con_start r in
      let logged := if logged_chars r <? size then u32 (logged_chars r + 1) else logged_chars r in
      Some (tt, Ring buf (log_buf_len r) log_start con_start log_end logged)
  end.

Fixpoint emit_all (cs : list Z) : M ring unit :=
  match cs with
  | [] => mret tt
  | c :: cs => emit_log_char c;; emit_all cs
  end.

(** What others do to the ring while the lock is free: write a character, take
    one as readers, clear, hand everything to the consoles. *)
Inductive ract := REmit (c : Z) | RTake | RClear | RFlush.

Definition run_ract (a : ract) : M ring unit :=
  match a with
  | REmit c => emit_log_char c
  | RTake => modify (fun r => if log_start r =? log_end r then r
                              else with_log_start (u32 (log_start r + 1)) r)
  | RClear => modify (with_logged 0)
  | RFlush => modify (fun r => with_con_start (log_end r) r)
  end.

Fixpoint run_racts (l : list ract) : M ring unit :=
  match l with
  | [] => mret tt
  | a :: l => run_ract a;; run_racts l
  end.

(** ** Memory of the caller *)

(** [access_ok] for the length asked for; which bytes can be accessed; the
    bytes. *)
Record umem := Umem { u_ok : bool; u_mapped : nat -> bool; u_data : list Z }.

Definition __put_user (c : Z) (i : nat) (m : umem) : Z * umem :=
  if u_mapped m i && bool_decide (i < length (u_data m))%nat
  then (0, Umem (u_ok m) (u_mapped m) (<[i := c]> (u_data m)))
  else (- EFAULT, m).

Definition __get_user (i : nat) (m : umem) : option Z :=
  if u_mapped m i then u_data m !! i else None.

(** ** Reading the log *)

(** The loop of [SYSLOG_ACTION_READ]: at most [n] more characters, the [i]-th
    next. Error, characters taken, the caller's memory. *)
Fixpoint read_loop (n : nat) (envs : list (list ract)) (i : nat) (m : umem) : M ring (Z * nat * umem) :=
  match n with
  | O => mret (0, i, m)
  | S n =>
      r ← get;
      if log_start r =? log_end r then mret (0, i, m)
      else
        c ← lift_opt (LOG_BUF (log_start r) r);
        put (with_log_start (u32 (log_start r + 1)) r);;
        run_racts (default [] (head envs));;
        let (error, m) := __put_user c i m in
        if truth error then mret (error, S i, m) else read_loop n (tail envs) (S i) m
  end.

(** The loop of [SYSLOG_ACTION_READ_ALL], from the newest character back. *)
Fixpoint copy_back (n : nat) (envs : list (list ract)) (limit : Z) (count i : nat) (m : umem)
  : M ring (Z * nat * umem) :=
  match n with
  | O => mret (0, i, m)
  | S n =>
      r ← get;
      let j := u32 (limit - 1 - Z.of_nat i) in
      if u32 (j + log_buf_len r) <? log_end r then mret (0, i, m)
      else
        c ← lift_opt (LOG_BUF j r);
        run_racts (default [] (head envs));;
        let (error, m) := __put_user c (count - 1 - i) m in
        if truth error then mret (error, S i, m) else copy_back n (tail envs) limit count (S i) m
  end.

(** Moving [n] characters from [offset] to the start. *)
Fixpoint shift_down (n offset i : nat) (m : umem) : Z * umem :=
  match n with
  | O => (0, m)
  | S n =>
      match __get_user (i + offset) m with
      | None => (- EFAULT, m)
      | Some c =>
          let (error, m) := __put_user c i m in
          if truth error then (- EFAULT, m) else shift_down n offset (S i) m
      end
  end.

(** [wait_event_interruptible(log_wait, log_start - log_end)]: [None] when a
    signal comes, otherwise what happens to the ring meanwhile. *)
Definition wait_for_text (wait : option (list ract)) : M ring Z :=
  r ← get;
  if negb (log_start r =? log_end r) then mret 0
  else match wait with
  | None => mret (- ERESTARTSYS)
  | Some acts =>
      run_racts acts;;
      r ← get;
      if log_start r =? log_end r then ub else mret 0
  end.

Definition syslog_read (wait : option (list ract)) (envs : list (list ract)) (buf : option umem) (len : Z)
  : M ring (Z * option umem) :=
  match buf with
  | None => mret (- EINVAL, None)
  | Some m =>
      if len <? 0 then mret (- EINVAL, Some m)
      else if len =? 0 then mret (0, Some m)
      else if negb (u_ok m) then mret (- EFAULT, Some m)
      else
        error ← wait_for_text wait;
        if truth error then mret (error, Some m)
        else
          r ← read_loop (Z.to_nat len) envs 0 m;
          let '(error, i, m) := r in
          mret (if truth error then error else Z.of_nat i, Some m)
  end.

Definition syslog_read_all (do_clear : bool) (envs : list (list ract)) (buf : option umem) (len : Z)
  : M ring (Z * option umem) :=
  match buf with
  | None => mret (- EINVAL, None)
  | Some m =>
      if len <? 0 then mret (- EINVAL, Some m)
      else if len =? 0 then mret (0, Some m)
      else if negb (u_ok m) then mret (- EFAULT, Some m)
      else
        r ← get;
        let count := if u32 (log_buf_len r) <? len then u32 (log_buf_len r) else len in
        let count := if logged_chars r <? count then logged_chars r else count in
        (if do_clear then modify (with_logged 0) else mret tt);;
        let count := Z.to_nat count in
        o ← copy_back count envs (log_end r) count 0 m;
        let '(error, i, m) := o in
        if truth error then mret (error, Some m)
        else if (i =? count)%nat then mret (Z.of_nat i, Some m)
        else
          let (error, m) := shift_down i (count - i) 0 m in
          mret (if truth error then error else Z.of_nat i, Some m)
  end.

(** ** The rest of the state *)

(** [struct console]: the fields that matter; [next] links the registered
    ones. [con_write], [con_device], [con_unblank]: the function is given. *)
Record console := Console {
  con_name : list Z;
  con_index : Z;
  con_flags : Z;
  con_write : bool;
  con_device : bool;
  con_unblank : bool;
  con_next : option positive
}.

(** [console_printk], [saved_console_loglevel], [ignore_loglevel]. *)
Record levels := Levels {
  console_loglevel : Z;
  default_message_loglevel : Z;
  minimum_console_loglevel : Z;
  saved_console_loglevel : Z;
  ignore_loglevel : bool
}.

(** State that lasts from one message to the next: the static [msg_level] of
    [call_console_drivers], [new_text_line], [recursion_bug], [printk_time]. *)
Record line := Line { msg_level : Z; new_text_line : bool; recursion_bug : bool; printk_time : bool }.

Record locks := Locks {
  printk_cpu : Z;
  oops_in_progress : bool;
  oops_timestamp : Z;
  logbuf_lock : bool;
  console_sem : Z;
  console_locked : bool;
  console_suspended : bool;
  console_may_schedule : bool
}.

(** The registered consoles and what was written to them, in order; whether
    somebody sleeps on [log_wait]; the processors whose [printk_pending] is set. *)
Record output := Output {
  cons : gmap positive console;
  console_drivers : option positive;
  written : list (positive * list Z);
  log_wait : bool;
  printk_pending : gset Z
}.

Record klog := Klog { rg : ring; lv : levels; ln : line; lk : locks; out : output }.

Definition with_rg (r : ring) (s : klog) : klog := Klog r (lv s) (ln s) (lk s) (out s).
Definition with_lv (l : levels) (s : klog) : klog := Klog (rg s) l (ln s) (lk s) (out s).
Definition with_ln (l : line) (s : klog) : klog := Klog (rg s) (lv s) l (lk s) (out s).
Definition with_lk (l : locks) (s : klog) : klog := Klog (rg s) (lv s) (ln s) l (out s).
Definition with_out (o : output) (s : klog) : klog := Klog (rg s) (lv s) (ln s) (lk s) o.

Definition on_ring {A} (m : M ring A) : M klog A := zoom rg with_rg m.

(** The processor that runs: its number, whether it is online or in an
    interrupt, and the time. *)
Record cpu := Cpu { this_cpu : Z; cpu_online : bool; in_interrupt : bool; jiffies : Z }.

Definition set_msg_level (l : Z) (t : line) : line :=
  Line l (new_text_line t) (recursion_bug t) (printk_time t).
Definition set_new_text_line (b : bool) (t : line) : line :=
  Line (msg_level t) b (recursion_bug t) (printk_time t).
Definition set_recursion_bug (b : bool) (t : line) : line :=
  Line (msg_level t) (new_text_line t) b (printk_time t).

Definition set_printk_cpu (c : Z) (k : locks) : locks :=
  Locks c (oops_in_progress k) (oops_timestamp k) (logbuf_lock k) (console_sem k) (console_locked k)
    (console_suspended k) (console_may_schedule k).
Definition set_logbuf_lock (b : bool) (k : locks) : locks :=
  Locks (printk_cpu k) (oops_in_progress k) (oops_timestamp k) b (console_sem k) (console_locked k)
    (console_suspended k) (console_may_schedule k).
Definition set_sem (z : Z) (k : locks) : locks :=
  Locks (printk_cpu k) (oops_in_progress k) (oops_timestamp k) (logbuf_lock k) z (console_locked k)
    (console_suspended k) (console_may_schedule k).
Definition set_locked (b m : bool) (k : locks) : locks :=
  Locks (printk_cpu k) (oops_in_progress k) (oops_timestamp k) (logbuf_lock k) (console_sem k) b
    (console_suspended k) m.
Definition set_suspended (b : bool) (k : locks) : locks :=
  Locks (printk_cpu k) (oops_in_progress k) (oops_timestamp k) (logbuf_lock k) (console_sem k)
    (console_locked k) b (console_may_schedule k).

Definition in_line (f : line -> line) : M klog unit := modify (fun s => with_ln (f (ln s)) s).
Definition in_locks (f : locks -> locks) : M klog unit := modify (fun s => with_lk (f (lk s)) s).

(** [spin_lock(&logbuf_lock)], [spin_unlock], [down(&console_sem)],
    [down_trylock], [up]. *)
Definition spin_lock : M klog unit := fun s =>
  if logbuf_lock (lk s) then None else Some (tt, with_lk (set_logbuf_lock true (lk s)) s).
Definition spin_unlock : M klog unit := in_locks (set_logbuf_lock false).
Definition down : M klog unit := fun s =>
  if 0 <? console_sem (lk s) then Some (tt, with_lk (set_sem (console_sem (lk s) - 1) (lk s)) s) else None.
Definition down_trylock : M klog bool := fun s =>
  if 0 <? console_sem (lk s) then Some (false, with_lk (set_sem (console_sem (lk s) - 1) (lk s)) s)
  else Some (true, s).
Definition up : M klog unit := in_locks (fun k => set_sem (console_sem k + 1) k).

(** ** Writing to the consoles *)

(** [for_each_console]: the consoles from [p] on; [None] when the list runs in a
    circle or leaves the allocated consoles. *)
Fixpoint chain (fuel : nat) (st : gmap positive console) (p : option positive) : option (list positive) :=
  match p with
  | None => Some []
  | Some i =>
      match fuel with
      | O => None
      | S fuel =>
          c ← st !! i;
          l ← chain fuel st (con_next c);
          Some (i :: l)
      end
  end.

Definition drivers (o : output) : option (list positive) := chain (size (cons o)) (cons o) (console_drivers o).

Definition has_flag (f : Z) (c : console) : bool := truth (Z.land (con_flags c) f).

Section Cpu.
Context (e : cpu).

Definition accepts (c : console) : bool :=
  has_flag CON_ENABLED c && con_write c && (cpu_online e || has_flag CON_ANYTIME c).

(** [con->write(con, &LOG_BUF(start), end - start)] for each console of a list. *)
Fixpoint write_consoles (ids : list positive) (start stop : Z) : M klog unit :=
  match ids with
  | [] => mret tt
  | i :: ids =>
      s ← get;
      c ← lift_opt (cons (out s) !! i);
      (if accepts c then
         text ← lift_opt (buf_read (log_buf (rg s)) (masked start (rg s)) (Z.to_nat (u32 (stop - start))));
         let o := out s in
         put (with_out (Output (cons o) (console_drivers o) (written o ++ [(i, text)]) (log_wait o)
                          (printk_pending o)) s)
       else mret tt);;
      write_consoles ids start stop
  end.

Definition __call_console_drivers (start stop : Z) : M klog unit :=
  s ← get;
  ids ← lift_opt (drivers (out s));
  write_consoles ids start stop.

Definition _call_console_drivers (start stop msg_log_level : Z) : M klog unit :=
  s ← get;
  if ((msg_log_level <? console_loglevel (lv s)) || ignore_loglevel (lv s)) &&
     bool_decide (is_Some (console_drivers (out s))) && negb (start =? stop)
  then
    let mask := LOG_BUF_MASK (rg s) in
    if Z.land stop mask <? Z.land start mask then
      __call_console_drivers (Z.land start mask) (u32 (log_buf_len (rg s)));;
      __call_console_drivers 0 (Z.land stop mask)
    else __call_console_drivers start stop
  else mret tt.

(** The inner loop: up to and including a newline, or to the end; whether a
    newline was found. *)
Fixpoint to_newline (fuel : nat) (cur stop : Z) : M ring (Z * bool) :=
  if cur =? stop then mret (cur, false)
  else match fuel with
  | O => ub
  | S fuel =>
      r ← get;
      c ← lift_opt (LOG_BUF cur r);
      let cur := u32 (cur + 1) in
      if c =? NL then mret (cur, true) else to_newline fuel cur stop
  end.

(** The level of a tag at [cur], if one is there and the line has none yet. *)
Definition level_tag (level cur stop : Z) : M ring (option Z) :=
  if negb ((level <? 0) && (2 <? u32 (stop - cur))) then mret None
  else
    r ← get;
    c0 ← lift_opt (LOG_BUF (u32 (cur + 0)) r);
    c1 ← lift_opt (LOG_BUF (u32 (cur + 1)) r);
    c2 ← lift_opt (LOG_BUF (u32 (cur + 2)) r);
    mret (if (c0 =? LT) && (CH0 <=? c1) && (c1 <=? CH7) && (c2 =? GT) then Some (c1 - CH0) else None).

(** The outer loop; it returns [start_print]. *)
Fixpoint print_lines (fuel : nat) (cur start_print stop : Z) : M klog Z :=
  if cur =? stop then mret start_print
  else match fuel with
  | O => ub
  | S fuel =>
      level ← gets (fun s => msg_level (ln s));
      tag ← on_ring (level_tag level cur stop);
      p ← (match tag with
           | Some l => in_line (set_msg_level l);; mret (u32 (cur + 3), u32 (cur + 3))
           | None => mret (cur, start_print)
           end);
      let (cur, start_print) := (p : Z * Z) in
      q ← on_ring (to_newline (Z.to_nat (u32 (stop - cur))) cur stop);
      let (cur, newline) := (q : Z * bool) in
      if newline then
        s ← get;
        let level := if msg_level (ln s) <? 0 then default_message_loglevel (lv s) else msg_level (ln s) in
        _call_console_drivers start_print cur level;;
        in_line (set_msg_level (-1));;
        print_lines fuel cur cur stop
      else print_lines fuel cur start_print stop
  end.

Definition call_console_drivers (start stop : Z) : M klog unit :=
  if 0 <? s32 (start - stop) then ub
  else
    start_print ← print_lines (Z.to_nat (u32 (stop - start))) start start stop;
    s ← get;
    _call_console_drivers start_print stop (msg_level (ln s)).

(** ** The console semaphore *)

Definition acquire_console_sem : M klog unit :=
  if in_interrupt e then ub
  else
    down;;
    k ← gets lk;
    if console_suspended k then mret tt else in_locks (set_locked true true).

Definition try_acquire_console_sem : M klog Z :=
  busy ← down_trylock;
  if busy : bool then mret (-1)
  else
    k ← gets lk;
    if console_suspended k then up;; mret (-1)
    else in_locks (set_locked true false);; mret 0.

Definition is_console_locked : M klog bool := gets (fun s => console_locked (lk s)).

(** Somebody who waits is woken at the next tick of this processor. *)
Definition wake_up_klogd : M klog unit :=
  modify (fun s => let o := out s in
    if log_wait o then with_out (Output (cons o) (console_drivers o) (written o) (log_wait o)
                                   ({[this_cpu e]} ∪ printk_pending o)) s
    else s).

Definition printk_tick : M klog unit :=
  modify (fun s => let o := out s in
    if bool_decide (this_cpu e ∈ printk_pending o)
    then with_out (Output (cons o) (console_drivers o) (written o) false
                     (printk_pending o ∖ {[this_cpu e]})) s
    else s).

Definition printk_needs_cpu (c : Z) : M klog bool :=
  gets (fun s => bool_decide (c ∈ printk_pending (out s))).

(** The loop of [release_console_sem]; each pass hands the text up to [log_end]
    to the consoles, while others use the ring. *)
Fixpoint release_loop (fuel : nat) (envs : list (list ract)) (wake_klogd : bool) : M klog bool :=
  match fuel with
  | O => ub
  | S fuel =>
      spin_lock;;
      r ← gets rg;
      let wake_klogd := wake_klogd || negb (log_start r =? log_end r) in
      if con_start r =? log_end r then mret wake_klogd
      else
        on_ring (modify (with_con_start (log_end r)));;
        spin_unlock;;
        on_ring (run_racts (default [] (head envs)));;
        call_console_drivers (con_start r) (log_end r);;
        release_loop fuel (tail envs) wake_klogd
  end.

Definition release_console_sem (envs : list (list ract)) : M klog unit :=
  k ← gets lk;
  if console_suspended k then up
  else
    in_locks (fun k => set_locked (console_locked k) false k);;
    wake_klogd ← release_loop (length envs + 2) envs false;
    in_locks (fun k => set_locked false (console_may_schedule k) k);;
    up;;
    spin_unlock;;
    if wake_klogd : bool then wake_up_klogd else mret tt.

(** ** printk *)

(** [time_after_eq], [time_after] on 32-bit times. *)
Definition time_after_eq (a b : Z) : bool := 0 <=? s32 (a - b).
Definition time_after (a b : Z) : bool := s32 (b - a) <? 0.

Definition zap_locks : M klog unit :=
  k ← gets lk;
  if time_after_eq (jiffies e) (oops_timestamp k) &&
     negb (time_after (jiffies e) (u32 (oops_timestamp k + 30 * HZ))) then mret tt
  else
    in_locks (fun k => Locks (printk_cpu k) (oops_in_progress k) (jiffies e) false 1 (console_locked k)
                         (console_suspended k) (console_may_schedule k)).

Definition have_callable_console : M klog bool :=
  s ← get;
  ids ← lift_opt (drivers (out s));
  cs ← lift_opt (mapM (fun i => cons (out s) !! i) ids);
  mret (existsb (has_flag CON_ANYTIME) cs).

Definition can_use_console : M klog bool :=
  if cpu_online e then mret true else have_callable_console.

Definition acquire_console_semaphore_for_printk : M klog bool :=
  busy ← try_acquire_console_sem;
  retval ← (if busy =? 0 then
              usable ← can_use_console;
              if usable : bool then mret true
              else in_locks (fun k => set_locked false (console_may_schedule k) k);; up;; mret false
            else mret false);
  in_locks (set_printk_cpu UINT_MAX);;
  spin_unlock;;
  mret retval.

Definition printk_buf_size : nat := 1024.
Definition recursion_bug_msg : list Z := chars "<2>BUG: recent printk recursion!"%string ++ [NL].

(** The characters of a C string. *)
Fixpoint c_string (l : list Z) : list Z :=
  match l with
  | [] => []
  | c :: l => if c =? 0 then [] else c :: c_string l
  end.

(** The loop that copies the message into the log; [stamp]: what [sprintf] makes
    of the time. It returns [printed_len]. *)
Fixpoint put_text (level : Z) (stamp p : list Z) (printed_len : Z) : M klog Z :=
  match p with
  | [] => mret printed_len
  | c :: p =>
      t ← gets ln;
      printed_len ←
        (if new_text_line t then
           on_ring (emit_all [LT; u8 (level + CH0); GT]);;
           in_line (set_new_text_line false);;
           if printk_time t then on_ring (emit_all stamp);; mret (printed_len + 3 + Z.of_nat (length stamp))
           else mret (printed_len + 3)
         else mret printed_len);
      on_ring (emit_log_char c);;
      (if c =? NL then in_line (set_new_text_line true) else mret tt);;
      put_text level stamp p printed_len
  end.

(** A tag at the start of the message: the level, and the text behind it. *)
Definition parse_level (p : list Z) : M klog (Z * list Z) :=
  default_level ← gets (fun s => default_message_loglevel (lv s));
  match p with
  | c0 :: c1 :: c2 :: rest =>
      if (c0 =? LT) && (c2 =? GT) then
        let new_line :=
          t ← gets ln;
          if new_text_line t then mret tt
          else on_ring (emit_log_char NL);; in_line (set_new_text_line true) in
        if (CH0 <=? c1) && (c1 <=? CH7) then new_line;; mret (c1 - CH0, rest)
        else if c1 =? CHd then new_line;; mret (default_level, rest)
        else if c1 =? CHc then mret (default_level, rest)
        else mret (default_level, p)
      else mret (default_level, p)
  | _ => mret (default_level, p)
  end.

(** [format]: what [vscnprintf] makes of the buffer behind a prefix, [printed_len] and
    [printk_buf]. *)
Definition vprintk_with (format : list Z -> option (Z * list Z)) (stamp : list Z) (envs : list (list ract)) : M klog Z :=
  k ← gets lk;
  if (printk_cpu k =? this_cpu e) && negb (oops_in_progress k) then
    in_line (set_recursion_bug true);; mret 0
  else
    (if printk_cpu k =? this_cpu e then zap_locks else mret tt);;
    spin_lock;;
    in_locks (set_printk_cpu (this_cpu e));;
    t ← gets ln;
    in_line (set_recursion_bug false);;
    b ← lift_opt (format (if recursion_bug t then recursion_bug_msg else []));
    p ← parse_level (c_string (snd b));
    printed_len ← put_text (fst p) stamp (snd p) (fst b);
    acquired ← acquire_console_semaphore_for_printk;
    (if acquired : bool then release_console_sem envs else mret tt);;
    mret printed_len.

(** The part of a text that fits behind the prefix. *)
Definition cut_text (text prefix : list Z) : list Z := prefix ++ take (printk_buf_size - length prefix - 1) text.

(** [text]: what the format and its arguments give, see PrintkFormat. *)
Definition vprintk (text : list Z) : list Z -> list (list ract) -> M klog Z :=
  vprintk_with (fun prefix => let b := cut_text text prefix in Some (Z.of_nat (length b), b)).
End Cpu.

(** ** The system call *)

Definition set_console_loglevel (c saved : Z) (l : levels) : levels :=
  Levels c (default_message_loglevel l) (minimum_console_loglevel l) saved (ignore_loglevel l).
Definition in_levels (f : levels -> levels) : M klog unit := modify (fun s => with_lv (f (lv s)) s).

(** [security]: the result of [security_syslog]. Result and the caller's memory. *)
Definition do_syslog (type len security : Z) (buf : option umem) (wait : option (list ract))
    (envs : list (list ract)) : M klog (Z * option umem) :=
  if truth security then mret (security, buf)
  else if (type =? SYSLOG_ACTION_CLOSE) || (type =? SYSLOG_ACTION_OPEN) then mret (0, buf)
  else if type =? SYSLOG_ACTION_READ then on_ring (syslog_read wait envs buf len)
  else if type =? SYSLOG_ACTION_READ_CLEAR then on_ring (syslog_read_all true envs buf len)
  else if type =? SYSLOG_ACTION_READ_ALL then on_ring (syslog_read_all false envs buf len)
  else if type =? SYSLOG_ACTION_CLEAR then on_ring (modify (with_logged 0));; mret (0, buf)
  else if type =? SYSLOG_ACTION_CONSOLE_OFF then
    in_levels (fun l => set_console_loglevel (minimum_console_loglevel l)
      (if saved_console_loglevel l =? -1 then console_loglevel l else saved_console_loglevel l) l);;
    mret (0, buf)
  else if type =? SYSLOG_ACTION_CONSOLE_ON then
    in_levels (fun l => if saved_console_loglevel l =? -1 then l
                        else set_console_loglevel (saved_console_loglevel l) (-1) l);;
    mret (0, buf)
  else if type =? SYSLOG_ACTION_CONSOLE_LEVEL then
    if (len <? 1) || (8 <? len) then mret (- EINVAL, buf)
    else
      in_levels (fun l => set_console_loglevel (Z.max len (minimum_console_loglevel l)) (-1) l);;
      mret (0, buf)
  else if type =? SYSLOG_ACTION_SIZE_UNREAD then
    r ← gets rg; mret (s32 (log_end r - log_start r), buf)
  else if type =? SYSLOG_ACTION_SIZE_BUFFER then
    r ← gets rg; mret (log_buf_len r, buf)
  else mret (- EINVAL, buf).

(** ** Growing the buffer at boot *)

(** [roundup_pow_of_two] (include/linux/log2.h) for a size above 1; a shift by 32
    has no defined result. *)
Definition roundup_pow_of_two (n : Z) : option Z :=
  let s := Z.log2 (n - 1) + 1 in if s <? 32 then Some (Z.shiftl 1 s) else None.

Fixpoint copy_log (fuel : nat) (old : list Z) (start stop : Z) (dest_idx : nat) (new : list Z) : option (list Z) :=
  if start =? stop then Some new
  else match fuel with
  | O => None
  | S fuel =>
      c ← old !! Z.to_nat (Z.land start (__LOG_BUF_LEN - 1));
      new ← buf_write new dest_idx [c];
      copy_log fuel old (u32 (start + 1)) stop (S dest_idx) new
  end.

(** The message that is printed at the end. *)
Inductive setup_message := NoMessage | AllocFailed | NewLength (n : Z).

(** [arg]: the number [memparse] found; [mem]: what [alloc_bootmem] gives for a
    size. *)
Definition log_buf_len_setup (arg : Z) (mem : Z -> option (list Z)) : M ring setup_message := fun r =>
  match (if arg =? 0 then Some 0 else if arg =? 1 then Some 1 else roundup_pow_of_two arg) with
  | None => None
  | Some size =>
      if u32 (log_buf_len r) <? size then
        match mem size with
        | None => Some (AllocFailed, r)
        | Some new =>
            let offset := Z.min (con_start r) (log_start r) in
            match copy_log (Z.to_nat (u32 (log_end r - offset))) (log_buf r) offset (log_end r) 0 new with
            | None => None
            | Some buf =>
                Some (NewLength (s32 size),
                      Ring buf (s32 size) (u32 (log_start r - offset)) (u32 (con_start r - offset))
                        (u32 (log_end r - offset)) (logged_chars r))
            end
        end
      else Some (NoMessage, r)
  end.

(** ** Dumping the log *)

(** The two pieces [kmsg_dump] hands to the dumpers: place in the buffer and
    length. The length is [logged_chars] read a second time, without the lock:
    [later] is its value then. *)
Definition dump_segments (r : ring) (later : Z) : (Z * Z) * (Z * Z) :=
  let stop := Z.land (log_end r) (LOG_BUF_MASK r) in
  if stop <? later then ((u32 (log_buf_len r - later + stop), later - stop), (0, stop))
  else ((0, 0), (stop - later, later)).

Definition kmsg_dump (r : ring) (later : Z) : option (list Z * list Z) :=
  let '((o1, l1), (o2, l2)) := dump_segments r later in
  s1 ← buf_read (log_buf r) (Z.to_nat o1) (Z.to_nat l1);
  s2 ← buf_read (log_buf r) (Z.to_nat o2) (Z.to_nat l2);
  Some (s1, s2).

(** ** Suspending, stopping and unblanking *)

Section Suspend.
Context (e : cpu).

(** [enabled]: [console_suspend_enabled]. *)
Definition suspend_console (enabled : bool) (stamp : list Z) (envs : list (list ract)) : M klog unit :=
  if negb enabled then mret tt
  else
    vprintk e (chars "Suspending console(s) (use no_console_suspend to debug)"%string ++ [NL]) stamp envs;;
    acquire_console_sem e;;
    in_locks (set_suspended true);;
    up.

Definition resume_console (enabled : bool) (envs : list (list ract)) : M klog unit :=
  if negb enabled then mret tt
  else
    down;;
    in_locks (set_suspended false);;
    release_console_sem e envs.

Definition set_flags (f : Z -> Z) (c : console) : console :=
  Console (con_name c) (con_index c) (f (con_flags c)) (con_write c) (con_device c) (con_unblank c)
    (con_next c).
Definition set_next (n : option positive) (c : console) : console :=
  Console (con_name c) (con_index c) (con_flags c) (con_write c) (con_device c) (con_unblank c) n.

(** A change of an allocated console. *)
Definition update_console (f : console -> console) (i : positive) : M klog unit := fun s =>
  match cons (out s) !! i with
  | None => None
  | Some c =>
      let o := out s in
      Some (tt, with_out (Output (<[i := f c]> (cons o)) (console_drivers o) (written o) (log_wait o)
                            (printk_pending o)) s)
  end.

Definition console_stop (i : positive) (envs : list (list ract)) : M klog unit :=
  acquire_console_sem e;;
  update_console (set_flags (fun f => Z.land f (not32 CON_ENABLED))) i;;
  release_console_sem e envs.

Definition console_start (i : positive) (envs : list (list ract)) : M klog unit :=
  acquire_console_sem e;;
  update_console (set_flags (fun f => Z.lor f CON_ENABLED)) i;;
  release_console_sem e envs.
End Suspend.
