(* ===== verification/PrintkProps.v ===== *)
(** * The kernel log is a log

    The abstract log is the list of all characters ever written, with the
    positions of the reader and the consoles; it forgets nothing, and its
    numbers do not wrap around. The ring buffer of Printk is proved to be this log
    as far as it reaches back. *)

From stdpp Require Import strings.
From S2P Require Import Prelude Vsprintf Printk.

Abbreviation zlen l := (Z.of_nat (length l)).

(** [hist]: everything written; [rd], [cn]: the next character for the reader and
    for the consoles; [fresh]: the characters since the last clear, as far as the
    buffer holds them. *)
Record alog := ALog { hist : list Z; rd : Z; cn : Z; fresh : Z }.

Definition a_end (a : alog) : Z := zlen (hist a).

Section Abstract.
Context (N : Z).

Definition a_emit (c : Z) (a : alog) : alog :=
  ALog (hist a ++ [c]) (Z.max (rd a) (a_end a + 1 - N)) (Z.max (cn a) (a_end a + 1 - N))
    (Z.min N (fresh a + 1)).

Definition a_emits (cs : list Z) (a : alog) : alog := foldl (fun a c => a_emit c a) a cs.

Definition a_ract (t : ract) (a : alog) : alog :=
  match t with
  | REmit c => a_emit c a
  | RTake => ALog (hist a) (Z.min (rd a + 1) (a_end a)) (cn a) (fresh a)
  | RClear => ALog (hist a) (rd a) (cn a) 0
  | RFlush => ALog (hist a) (rd a) (a_end a) (fresh a)
  end.

Definition a_racts (l : list ract) (a : alog) : alog := foldl (fun a t => a_ract t a) a l.

(** Reading [n] characters while others use the log. *)
Fixpoint a_read (n : nat) (envs : list (list ract)) (a : alog) : list Z * alog :=
  match n with
  | O => ([], a)
  | S n =>
      match hist a !! Z.to_nat (rd a) with
      | None => ([], a)
      | Some c =>
          let r := a_read n (tail envs)
            (a_racts (default [] (head envs)) (ALog (hist a) (rd a + 1) (cn a) (fresh a))) in
          (c :: fst r, snd r)
      end
  end.
End Abstract.

(** ** Representation *)

(** The ring is the log [a]: counters modulo 2^32, the last characters at their
    places. *)
Record rep (r : ring) (a : alog) : Prop := Rep {
  rep_size : exists k, 0 <= k <= 30 /\ log_buf_len r = 2 ^ k;
  rep_length : zlen (log_buf r) = log_buf_len r;
  rep_end : log_end r = u32 (a_end a);
  rep_start : log_start r = u32 (rd a);
  rep_con : con_start r = u32 (cn a);
  rep_rd : 0 <= rd a <= a_end a /\ a_end a - rd a <= log_buf_len r;
  rep_cn : 0 <= cn a <= a_end a /\ a_end a - cn a <= log_buf_len r;
  rep_fresh : logged_chars r = fresh a /\ 0 <= fresh a <= Z.min (log_buf_len r) (a_end a);
  rep_text : forall i, Z.max 0 (a_end a - log_buf_len r) <= i < a_end a ->
    log_buf r !! Z.to_nat (i mod log_buf_len r) = hist a !! Z.to_nat i
}.

Lemma size_bounds r a : rep r a -> 1 <= log_buf_len r <= 2 ^ 30.
Proof.
  intros R. destruct (rep_size _ _ R) as (k & Hk & ->).
  pose proof (Z.pow_pos_nonneg 2 k). pose proof (Z.pow_le_mono_r 2 k 30). lia.
Qed.

Lemma u32_sub a b : u32 (u32 a - u32 b) = u32 (a - b).
Proof. unfold u32. by rewrite Zminus_mod_idemp_l, Zminus_mod_idemp_r. Qed.

Lemma u32_sub_small a b : 0 <= a - b < 2 ^ 32 -> u32 (u32 a - u32 b) = a - b.
Proof. intros. rewrite u32_sub. by apply u32_small. Qed.

Lemma u32_succ a : u32 (u32 a + 1) = u32 (a + 1).
Proof. unfold u32. by rewrite Zplus_mod_idemp_l. Qed.

Lemma u32_eqb a b : 0 <= b - a < 2 ^ 32 -> (u32 a =? u32 b) = (a =? b).
Proof.
  intros H. destruct (Z.eqb_spec a b) as [->|Hne]; [apply Z.eqb_refl|].
  apply Z.eqb_neq. intros E. pose proof (u32_sub_small b a H) as E2.
  rewrite E, Z.sub_diag in E2. change (u32 0) with 0 in E2. lia.
Qed.

(** The place of a character. *)
Lemma land_place r a i : rep r a -> Z.land (u32 i) (LOG_BUF_MASK r) = i mod log_buf_len r.
Proof.
  intros R. pose proof (size_bounds _ _ R). destruct (rep_size _ _ R) as (k & Hk & E).
  unfold LOG_BUF_MASK. rewrite (u32_small (log_buf_len r - 1)) by lia. rewrite E, land_low by lia.
  unfold u32. rewrite Z.mod_mod_divide; [done|].
  exists (2 ^ (32 - k)). rewrite <- Z.pow_add_r by lia. f_equal. lia.
Qed.

Lemma masked_place r a i : rep r a -> masked (u32 i) r = Z.to_nat (i mod log_buf_len r).
Proof. intros R. unfold masked. by rewrite (land_place r a). Qed.

Lemma place_lt r a i : rep r a -> (Z.to_nat (i mod log_buf_len r) < length (log_buf r))%nat.
Proof.
  intros R. pose proof (size_bounds _ _ R). pose proof (rep_length _ _ R).
  pose proof (Z.mod_pos_bound i (log_buf_len r)). lia.
Qed.

Lemma log_buf_lookup r a i : rep r a -> Z.max 0 (a_end a - log_buf_len r) <= i < a_end a ->
  LOG_BUF (u32 i) r = hist a !! Z.to_nat i.
Proof. intros R Hi. unfold LOG_BUF. rewrite (masked_place r a) by done. by apply (rep_text _ _ R). Qed.

(** ** Writing *)

Lemma log_max N e x : 0 <= x <= e -> e - x <= N -> 1 <= N <= 2 ^ 30 ->
  (if N <? u32 (u32 (e + 1) - u32 x) then u32 (u32 (e + 1) - N) else u32 x) = u32 (Z.max x (e + 1 - N)).
Proof.
  intros Hx Hd HN. rewrite u32_sub_small by lia. destruct (Z.ltb_spec N (e + 1 - x)).
  - rewrite Z.max_r by lia. unfold u32. by rewrite Zminus_mod_idemp_l.
  - by rewrite Z.max_l by lia.
Qed.

Lemma place_ne N e i : 1 <= N -> e - N < i < e -> Z.to_nat (i mod N) <> Z.to_nat (e mod N).
Proof.
  intros HN Hi E. apply Z2Nat.inj in E; [|apply Z.mod_pos_bound; lia..].
  assert ((e - i) mod N = 0) as E0 by (by rewrite Zminus_mod, E, Z.sub_diag, Zmod_0_l).
  rewrite Z.mod_small in E0; lia.
Qed.

Lemma emit_rep c r a : rep r a ->
  exists r', emit_log_char c r = Some (tt, r') /\ log_buf_len r' = log_buf_len r /\
    rep r' (a_emit (log_buf_len r) c a).
Proof.
  intros R. pose proof (size_bounds _ _ R) as HN. set (N := log_buf_len r) in *.
  unfold emit_log_char. rewrite (rep_end _ _ R), (rep_start _ _ R), (rep_con _ _ R).
  rewrite (masked_place r a) by done. rewrite buf_write_one by (by eapply place_lt).
  cbv zeta. fold N. rewrite (u32_small N) by lia. destruct (rep_rd _ _ R), (rep_cn _ _ R), (rep_fresh _ _ R) as [EF HF].
  fold N in HF. rewrite u32_succ. rewrite !log_max by done. eexists. split; [reflexivity|]. split; [done|].
  assert (a_end (a_emit N c a) = a_end a + 1) as EE by (unfold a_end; cbn; rewrite length_app; cbn; lia).
  assert (0 <= a_end a) by (unfold a_end; lia).
  constructor; cbn [log_buf log_buf_len log_start con_start log_end logged_chars]; fold N; rewrite ?EE.
  - apply (rep_size _ _ R).
  - rewrite length_insert. apply (rep_length _ _ R).
  - done.
  - done.
  - done.
  - cbn. lia.
  - cbn. lia.
  - cbn [fresh a_emit]. rewrite EF. split; [|lia].
    destruct (Z.ltb_spec (fresh a) N); [rewrite u32_small by lia; lia|lia].
  - intros i Hi. cbn [hist a_emit]. destruct (decide (i = a_end a)) as [->|Hne].
    + rewrite list_lookup_insert_eq by (by eapply place_lt). unfold a_end.
      by rewrite Nat2Z.id, list_lookup_middle.
    + rewrite list_lookup_insert_ne by (apply not_eq_sym, (place_ne N); lia).
      rewrite lookup_app_l by (unfold a_end in *; lia). apply (rep_text _ _ R). fold N. lia.
Qed.

Lemma emits_rep cs : forall r a, rep r a ->
  exists r', emit_all cs r = Some (tt, r') /\ log_buf_len r' = log_buf_len r /\
    rep r' (a_emits (log_buf_len r) cs a).
Proof.
  induction cs as [|c cs IH]; intros r a R; [by exists r|]. cbn [emit_all].
  destruct (emit_rep c r a R) as (r1 & E1 & L1 & R1). destruct (IH r1 _ R1) as (r2 & E2 & L2 & R2).
  rewrite L1 in *. exists r2. by rewrite (bind_Some _ _ _ _ _ E1).
Qed.

Lemma ract_rep t r a : rep r a ->
  exists r', run_ract t r = Some (tt, r') /\ log_buf_len r' = log_buf_len r /\
    rep r' (a_ract (log_buf_len r) t a).
Proof.
  intros R. pose proof (size_bounds _ _ R) as HN.
  destruct t as [c| | |]; cbn [run_ract a_ract]; [by apply emit_rep|..]; rewrite modify_run;
    (eexists; split; [reflexivity|]); destruct R as [S1 S2 S3 S4 S5 S6 S7 S8 S9].
  - rewrite S3, S4, u32_eqb by lia. destruct (Z.eqb_spec (rd a) (a_end a)) as [E|E]; (split; [done|]).
    + constructor; try done; cbn; unfold a_end in *; cbn; rewrite Z.min_r by lia; first [lia | by rewrite S4, E].
    + constructor; try done; cbn; unfold a_end in *; cbn; rewrite Z.min_l by lia; rewrite ?u32_succ; [done|lia].
  - split; [done|]. constructor; try done; cbn. unfold a_end in *. cbn. lia.
  - split; [done|]. constructor; try done; cbn. unfold a_end in *. cbn. lia.
Qed.

Lemma racts_rep l : forall r a, rep r a ->
  exists r', run_racts l r = Some (tt, r') /\ log_buf_len r' = log_buf_len r /\
    rep r' (a_racts (log_buf_len r) l a).
Proof.
  induction l as [|t l IH]; intros r a R; [by exists r|]. cbn [run_racts].
  destruct (ract_rep t r a R) as (r1 & E1 & L1 & R1). destruct (IH r1 _ R1) as (r2 & E2 & L2 & R2).
  rewrite L1 in *. exists r2. by rewrite (bind_Some _ _ _ _ _ E1).
Qed.

(** ** Reading *)

(** The caller's memory can take [n] bytes. *)
Definition roomy (n : nat) (m : umem) : Prop :=
  u_ok m = true /\ (n <= length (u_data m))%nat /\ forall i, (i < n)%nat -> u_mapped m i = true.

Definition with_data (d : list Z) (m : umem) : umem := Umem (u_ok m) (u_mapped m) d.

Lemma put_user_run c i n m : roomy n m -> (i < n)%nat ->
  __put_user c i m = (0, with_data (<[i := c]> (u_data m)) m).
Proof.
  intros (_ & Hl & Hm) Hi. unfold __put_user. rewrite Hm by done. rewrite bool_decide_true by lia. done.
Qed.

Lemma roomy_data n m d : roomy n m -> length d = length (u_data m) -> roomy n (with_data d m).
Proof. intros (H1 & H2 & H3) Hd. repeat split; [done|cbn; lia|done]. Qed.

Lemma a_read_length N n : forall envs a, (length (fst (a_read N n envs a)) <= n)%nat.
Proof.
  induction n as [|n IH]; intros envs a; cbn; [done|]. case_match; cbn; [|lia].
  specialize (IH (tail envs)). lia || apply le_n_S, IH.
Qed.

(** The positions of a log whose reader has text. *)
Lemma reader_lookup r a : rep r a ->
  (log_start r =? log_end r) = (rd a =? a_end a) /\
  (rd a <> a_end a -> exists c, hist a !! Z.to_nat (rd a) = Some c /\ LOG_BUF (log_start r) r = Some c).
Proof.
  intros R. pose proof (size_bounds _ _ R). destruct (rep_rd _ _ R). rewrite (rep_start _ _ R), (rep_end _ _ R).
  split; [apply u32_eqb; lia|]. intros Hne.
  destruct (lookup_lt_is_Some_2 (hist a) (Z.to_nat (rd a))) as [c Ec]; [unfold a_end in *; lia|].
  exists c. split; [done|]. rewrite (log_buf_lookup r a) by (done || lia). done.
Qed.

Lemma take_rep r a : rep r a -> rd a <> a_end a ->
  rep (with_log_start (u32 (log_start r + 1)) r) (ALog (hist a) (rd a + 1) (cn a) (fresh a)).
Proof.
  intros [S1 S2 S3 S4 S5 S6 S7 S8 S9] Hne. constructor; try done; cbn.
  - by rewrite S4, u32_succ.
  - unfold a_end in *. cbn. lia.
Qed.

Lemma read_loop_refines n : forall envs i m r a, rep r a -> roomy (i + n) m ->
  let o := a_read (log_buf_len r) n envs a in
  exists r', read_loop n envs i m r =
      Some ((0, (i + length (fst o))%nat,
             with_data (take i (u_data m) ++ fst o ++ drop (i + length (fst o)) (u_data m)) m), r') /\
    rep r' (snd o) /\ log_buf_len r' = log_buf_len r.
Proof.
  induction n as [|n IH]; intros envs i m r a R Hm o; subst o.
  - exists r. cbn. rewrite Nat.add_0_r, take_drop. by destruct m.
  - cbn [read_loop]. rewrite bind_unfold, get_run. destruct (reader_lookup r a R) as [-> Hc].
    cbn [a_read]. destruct (Z.eqb_spec (rd a) (a_end a)) as [E|E].
    + rewrite lookup_ge_None_2 by (unfold a_end in E; lia). exists r. cbn.
      rewrite Nat.add_0_r, take_drop. by destruct m.
    + destruct (Hc E) as (c & -> & ->). rewrite bind_unfold, lift_opt_run, bind_unfold, put_run, bind_unfold.
      destruct (racts_rep (default [] (head envs)) _ _ (take_rep r a R E)) as (r1 & -> & L1 & R1).
      cbn [log_buf_len with_log_start] in L1, R1. rewrite (put_user_run c i (i + S n)) by (done || lia).
      change (truth 0) with false. cbn iota.
      destruct (IH (tail envs) (S i) (with_data (<[i:=c]> (u_data m)) m) r1 _ R1) as (r2 & -> & R2 & L2).
      { replace (S i + n)%nat with (i + S n)%nat by lia. apply roomy_data; [done|]. by rewrite length_insert. }
      rewrite L1 in *. exists r2. split; [|done]. cbn [fst snd]. do 2 f_equal.
      assert (i < length (u_data m))%nat by (destruct Hm as (_ & ? & _); lia).
      set (cs := fst _). f_equal; [f_equal; cbn; lia|]. unfold with_data. cbn [u_ok u_mapped u_data length].
      f_equal. rewrite Nat.add_succ_r. apply (splice_insert (u_data m) cs i); lia.
Qed.

Lemma a_read_quiet N n : forall envs a, Forall (eq []) envs -> 0 <= rd a <= a_end a ->
  a_read N n envs a =
    (take n (drop (Z.to_nat (rd a)) (hist a)),
     ALog (hist a) (Z.min (rd a + Z.of_nat n) (a_end a)) (cn a) (fresh a)).
Proof.
  induction n as [|n IH]; intros envs a He Hr; cbn [a_read].
  - rewrite take_0, Z.add_0_r, Z.min_l by lia. by destruct a.
  - destruct (hist a !! Z.to_nat (rd a)) as [c|] eqn:Ec.
    + assert (default [] (head envs) = []) as -> by (by destruct He as [|? ? <-]).
      apply lookup_lt_Some in Ec as Hl. unfold a_end in *. cbn [a_racts foldl].
      rewrite IH; [|by destruct He; [constructor|]|cbn; unfold a_end; cbn; lia]. cbn [rd hist cn fresh fst snd a_end].
      rewrite (drop_S _ _ _ Ec). cbn [take].
      replace (Z.to_nat (rd a + 1)) with (S (Z.to_nat (rd a))) by lia.
      replace (rd a + 1 + Z.of_nat n) with (rd a + Z.of_nat (S n)) by lia. done.
    + apply lookup_ge_None_1 in Ec. unfold a_end in *. rewrite drop_ge by lia. rewrite Z.min_r by lia.
      replace (zlen (hist a)) with (rd a) by lia. by destruct a.
Qed.

Lemma wait_run acts r a : rep r a ->
  let a0 := if rd a =? a_end a then a_racts (log_buf_len r) acts a else a in
  rd a0 <> a_end a0 ->
  exists r0, wait_for_text (Some acts) r = Some (0, r0) /\ rep r0 a0 /\ log_buf_len r0 = log_buf_len r.
Proof.
  intros R a0 H0. unfold wait_for_text. rewrite bind_unfold, get_run. subst a0.
  destruct (reader_lookup r a R) as [-> _]. destruct (Z.eqb_spec (rd a) (a_end a)) as [E|E]; cbn [negb].
  - rewrite bind_unfold. destruct (racts_rep acts r a R) as (r1 & -> & L1 & R1).
    rewrite bind_unfold, get_run. destruct (reader_lookup r1 _ R1) as [-> _].
    rewrite (proj2 (Z.eqb_neq _ _) H0). by exists r1.
  - by exists r.
Qed.

Lemma on_ring_run {A} (m : M ring A) s x r : m (rg s) = Some (x, r) -> on_ring m s = Some (x, with_rg r s).
Proof. intros E. unfold on_ring, zoom. by rewrite E. Qed.

(** C17: Reading the log (SYSLOG_ACTION_READ) gives the caller the characters the
    abstract log has next, while other processors write, read, clear and print
    between any two of them; without them the next unread characters in order.
    A read of an empty log waits until there is text. *)
Theorem syslog_read_refines s a m len acts envs :
  rep (rg s) a -> 0 < len -> roomy (Z.to_nat len) m ->
  let N := log_buf_len (rg s) in
  let a0 := if rd a =? a_end a then a_racts N acts a else a in
  let o := a_read N (Z.to_nat len) envs a0 in
  rd a0 <> a_end a0 ->
  exists r', do_syslog SYSLOG_ACTION_READ len 0 (Some m) (Some acts) envs s =
      Some ((zlen (fst o), Some (with_data (fst o ++ drop (length (fst o)) (u_data m)) m)), with_rg r' s) /\
    rep r' (snd o) /\ fst o <> [] /\
    (Forall (eq []) envs ->
       fst o = take (Z.to_nat len) (drop (Z.to_nat (rd a0)) (hist a0)) /\
       rd (snd o) = Z.min (rd a0 + len) (a_end a0) /\ hist (snd o) = hist a0).
Proof.
  intros R Hl Hm N a0 o Ha. destruct (wait_run acts (rg s) a R Ha) as (r0 & E0 & R0 & L0). fold N in L0.
  destruct (read_loop_refines (Z.to_nat len) envs 0 m r0 a0 R0 Hm) as (r1 & E1 & R1 & L1).
  rewrite L0 in E1, R1. fold o in E1, R1. exists r1. split; [|split; [done|split]].
  - change (do_syslog SYSLOG_ACTION_READ len 0 (Some m) (Some acts) envs)
      with (on_ring (syslog_read (Some acts) envs (Some m) len)).
    apply on_ring_run. unfold syslog_read.
    rewrite (proj2 (Z.ltb_ge len 0)), (proj2 (Z.eqb_neq len 0)) by lia. destruct Hm as (-> & _). cbn [negb].
    rewrite (bind_Some _ _ _ _ _ E0). change (truth 0) with false. cbn iota. by rewrite (bind_Some _ _ _ _ _ E1).
  - subst o. destruct (Z.to_nat len) as [|n] eqn:En; [lia|]. cbn [a_read].
    destruct (reader_lookup r0 a0 R0) as [_ HL]. destruct (HL Ha) as (c & -> & _). done.
  - intros He. subst o. rewrite a_read_quiet by (done || apply (rep_rd _ _ R0)). cbn. by rewrite Z2Nat.id by lia.
Qed.

(** ** Reading the last messages *)

Definition is_emit (t : ract) : bool := match t with REmit _ => true | _ => false end.
Definition emitted (l : list ract) : Z := zlen (filter (fun t => is_emit t) l).

Lemma emitted_cons t l : emitted (t :: l) = (if is_emit t then 1 else 0) + emitted l.
Proof. unfold emitted. rewrite filter_cons. case_decide; destruct t; cbn [is_emit length] in *; (done || lia). Qed.

Lemma emitted_app l1 l2 : emitted (l1 ++ l2) = emitted l1 + emitted l2.
Proof. unfold emitted. rewrite filter_app, length_app. lia. Qed.

Lemma emitted_nonneg l : 0 <= emitted l.
Proof. unfold emitted. lia. Qed.

Lemma racts_hist N l : forall a,
  hist a `prefix_of` hist (a_racts N l a) /\ a_end (a_racts N l a) = a_end a + emitted l.
Proof.
  induction l as [|t l IH]; intros a; [split; [done|unfold emitted; cbn; lia]|].
  destruct (IH (a_ract N t a)) as [IH1 IH2]. cbn [a_racts foldl]. unfold a_racts in *. rewrite IH2, emitted_cons.
  assert (hist a `prefix_of` hist (a_ract N t a) /\
          a_end (a_ract N t a) = a_end a + if is_emit t then 1 else 0) as [E1 E2].
  { destruct t; cbn; unfold a_end; cbn; rewrite ?length_app; cbn; (split; [|lia]); try done.
    by apply prefix_app_r. }
  split; [by etrans|]. lia.
Qed.

Lemma racts_cn N l : forall a, 0 <= N -> cn a <= a_end a -> cn a <= cn (a_racts N l a).
Proof.
  induction l as [|t l IH]; intros a HN Ha; [done|]. cbn [a_racts foldl]. unfold a_racts in IH.
  assert (cn a <= cn (a_ract N t a) <= a_end (a_ract N t a)) as [? ?]; [|etrans; [|apply IH]; done].
  destruct t; cbn; unfold a_end in *; cbn; rewrite ?length_app; cbn; lia.
Qed.

(** Characters [i] to [j] of a text. *)
Definition slice (i j : Z) (h : list Z) : list Z := take (Z.to_nat (j - i)) (drop (Z.to_nat i) h).

Lemma slice_cons i j h c : 0 <= i < j -> h !! Z.to_nat i = Some c -> slice i j h = c :: slice (i + 1) j h.
Proof.
  intros Hi Hc. unfold slice. rewrite (drop_S _ _ _ Hc).
  replace (Z.to_nat (j - i)) with (S (Z.to_nat (j - (i + 1)))) by lia. cbn. do 3 f_equal. lia.
Qed.

Lemma slice_snoc i j h c : 0 <= i <= j -> h !! Z.to_nat j = Some c -> slice i (j + 1) h = slice i j h ++ [c].
Proof.
  intros Hi Hc. unfold slice. replace (Z.to_nat (j + 1 - i)) with (S (Z.to_nat (j - i))) by lia.
  erewrite take_S_r; [done|]. rewrite lookup_drop. rewrite <- Hc. f_equal. lia.
Qed.

Lemma slice_length i j h : 0 <= i <= j -> j <= zlen h -> length (slice i j h) = Z.to_nat (j - i).
Proof. intros. unfold slice. rewrite length_take, length_drop. lia. Qed.

Lemma slice_empty i h : slice i i h = [].
Proof. unfold slice. by rewrite Z.sub_diag. Qed.

Lemma slice_app x y b h : 0 <= x <= y -> y <= b -> slice x y h ++ slice y b h = slice x b h.
Proof.
  intros. unfold slice.
  rewrite <- (take_drop (Z.to_nat (y - x)) (take (Z.to_nat (b - x)) _)), take_take, skipn_firstn_comm, drop_drop.
  f_equal; f_equal; [lia|lia|f_equal; lia].
Qed.

Lemma u32_epoch w z : w * 2 ^ 32 <= z < w * 2 ^ 32 + 2 ^ 32 -> u32 z = z - w * 2 ^ 32.
Proof.
  intros H. rewrite <- (u32_small (z - w * 2 ^ 32)) by lia. unfold u32.
  rewrite <- (Z_mod_plus_full (z - w * 2 ^ 32) w). f_equal. lia.
Qed.

(** The loop that copies backwards: [k] more characters are copied, the ones
    before position [L - i], to the end of the first [n] bytes; if it stops early
    then because the next one was overwritten. The counter has wrapped [w] times,
    and does not come within [log_buf_len] of the next time. *)
Lemma copy_back_run w L n : forall envs i m r a,
  rep r a -> roomy (n + i) m -> Z.of_nat (n + i) <= L <= a_end a ->
  Z.of_nat (n + i) <= log_buf_len r -> w * 2 ^ 32 <= L ->
  a_end a + emitted (concat envs) + log_buf_len r <= w * 2 ^ 32 + 2 ^ 32 ->
  exists k r' a', copy_back n envs (u32 L) (n + i) i m r =
      Some ((0, (k + i)%nat, with_data (take (n - k) (u_data m) ++
               slice (L - Z.of_nat i - Z.of_nat k) (L - Z.of_nat i) (hist a') ++ drop n (u_data m)) m), r') /\
    (k <= n)%nat /\ rep r' a' /\ hist a `prefix_of` hist a' /\
    ((k < n)%nat -> L - Z.of_nat (k + i) <= a_end a' - log_buf_len r) /\
    (Forall (eq []) envs -> a' = a).
Proof.
  induction n as [|n IH]; intros envs i m r a R Hm HL HNn Hw HW.
  - exists 0%nat, r, a. cbn. rewrite Z.sub_0_r, slice_empty. cbn. rewrite drop_0.
    split; [by destruct m|]. split; [done|]. split; [done|]. split; [done|]. split; [lia|done].
  - pose proof (size_bounds _ _ R) as HN. cbn [copy_back]. rewrite bind_unfold, get_run. cbv zeta.
    assert (0 <= a_end a /\ 0 <= emitted (concat envs)) as [? ?] by (unfold a_end, emitted; lia).
    set (J := L - 1 - Z.of_nat i). assert (0 <= J < L) as HJ by lia.
    assert (u32 (u32 L - 1 - Z.of_nat i) = u32 J) as ->.
    { unfold J, u32. rewrite <- Z.sub_add_distr, Zminus_mod_idemp_l. f_equal. lia. }
    assert (u32 (u32 J + log_buf_len r) = J + log_buf_len r - w * 2 ^ 32) as ->.
    { rewrite u32_add_l. apply u32_epoch; unfold J; lia. }
    rewrite (rep_end _ _ R), (u32_epoch w (a_end a)) by lia.
    destruct (Z.ltb_spec (J + log_buf_len r - w * 2 ^ 32) (a_end a - w * 2 ^ 32)) as [Hb|Hb].
    { exists 0%nat, r, a. cbn [fst snd]. rewrite Z.sub_0_r, Nat.sub_0_r, slice_empty. cbn [app].
      rewrite take_drop. split; [by destruct m|]. split; [lia|]. split; [done|]. split; [done|]. split; [lia|done]. }
    destruct (lookup_lt_is_Some_2 (hist a) (Z.to_nat J)) as [c Ec]; [unfold a_end in *; lia|].
    assert (LOG_BUF (u32 J) r = Some c) as ->.
    { rewrite (log_buf_lookup r a) by (done || lia). done. }
    rewrite bind_unfold, lift_opt_run, bind_unfold.
    destruct (racts_rep (default [] (head envs)) r a R) as (r1 & -> & L1 & R1).
    destruct (racts_hist (log_buf_len r) (default [] (head envs)) a) as [P1 E1].
    set (a1 := a_racts _ _ a) in *.
    replace (S n + i - 1 - i)%nat with n by lia.
    rewrite (put_user_run c n (S n + i)) by (done || lia). change (truth 0) with false. cbn iota.
    assert (n < length (u_data m))%nat as Hn by (destruct Hm as (_ & ? & _); lia).
    replace (S n + i)%nat with (n + S i)%nat in * by lia.
    destruct (IH (tail envs) (S i) (with_data (<[n:=c]> (u_data m)) m) r1 a1 R1) as
      (k & r' & a' & -> & Hk & R' & P2 & Hov & Hq).
    { apply roomy_data; [done|]. by rewrite length_insert. }
    { rewrite E1. unfold emitted. lia. }
    { by rewrite L1. }
    { done. }
    { rewrite L1, E1. destruct envs as [|e envs]; cbn in *; unfold emitted in *; cbn in *; [lia|].
      rewrite filter_app, length_app in HW. lia. }
    exists (S k), r', a'. rewrite L1 in Hov.
    split; [|split; [lia|split; [done|split; [by etrans|split]]]].
    + do 2 f_equal. f_equal; [f_equal; lia|]. unfold with_data. cbn [u_data u_ok u_mapped]. f_equal.
      assert (hist a' !! Z.to_nat J = Some c) as Ec'.
      { eapply prefix_lookup_Some; [exact Ec|]. by etrans. }
      replace (L - Z.of_nat i) with (J + 1) by lia. rewrite (slice_snoc _ J _ c) by (done || lia).
      rewrite (take_insert_ge) by lia. replace (S n - S k)%nat with (n - k)%nat by lia. f_equal.
      rewrite <- app_assoc. f_equal; [f_equal; lia|]. cbn. rewrite insert_take_drop by done.
      rewrite drop_app_ge by (rewrite length_take; lia). rewrite length_take, Nat.min_l by lia.
      by rewrite Nat.sub_diag.
    + intros Hlt. specialize (Hov ltac:(lia)). lia.
    + intros He. rewrite Hq by (by destruct He; [constructor|]). subst a1. by destruct He as [|? ? <-].
Qed.

Lemma shift_down_run n offset : forall i m, roomy (i + offset + n) m ->
  shift_down n offset i m =
    (0, with_data (take i (u_data m) ++ take n (drop (i + offset) (u_data m)) ++ drop (i + n) (u_data m)) m).
Proof.
  induction n as [|n IH]; intros i m Hm; cbn [shift_down].
  - rewrite take_0, Nat.add_0_r. cbn [app]. rewrite take_drop. by destruct m.
  - pose proof Hm as (_ & Hl & Hmap). unfold __get_user. rewrite Hmap by lia.
    destruct (lookup_lt_is_Some_2 (u_data m) (i + offset)) as [c Ec]; [lia|]. rewrite Ec.
    rewrite (put_user_run c i (i + offset + S n)) by (done || lia). change (truth 0) with false. cbn iota.
    rewrite IH.
    2:{ replace (S i + offset + n)%nat with (i + offset + S n)%nat by lia. apply roomy_data; [done|].
        by rewrite length_insert. }
    f_equal. unfold with_data. cbn [u_data u_ok u_mapped]. f_equal.
    rewrite (drop_S _ _ _ Ec). cbn [take]. rewrite (drop_insert_lt _ (S i + offset)) by lia.
    replace (i + S n)%nat with (S i + n)%nat by lia. rewrite splice_insert by lia. done.
Qed.

Lemma slice_last h h' k : h `prefix_of` h' -> (k <= length h)%nat ->
  slice (zlen h - Z.of_nat k) (zlen h) h' = drop (length h - k) h.
Proof.
  intros [z ->] Hk. unfold slice. replace (Z.to_nat _) with k by lia.
  replace (Z.to_nat _) with (length h - k)%nat by lia. rewrite drop_app_le by lia.
  rewrite take_app_le by (rewrite length_drop; lia). apply take_ge. rewrite length_drop. lia.
Qed.

Lemma clear_rep (clear : bool) r a : rep r a ->
  rep (if clear then with_logged 0 r else r) (if clear then ALog (hist a) (rd a) (cn a) 0 else a).
Proof. intros R. destruct clear; [|done]. by destruct (ract_rep RClear r a R) as (r' & [= <-] & _ & R'). Qed.

(** The copy and the correction behind it: the first [k] bytes. *)
Lemma copied_run L count envs m r a :
  rep r a -> roomy count m -> Z.of_nat count <= L -> Z.of_nat count <= log_buf_len r -> L = a_end a ->
  u32 (a_end a) + emitted (concat envs) + log_buf_len r <= 2 ^ 32 ->
  exists k m' r' a',
    (o ← copy_back count envs (u32 L) count 0 m;
     let '(error, i, m) := o in
     if truth error then mret (error, Some m)
     else if (i =? count)%nat then mret (Z.of_nat i, Some m)
     else
       let (error, m) := shift_down i (count - i) 0 m in
       mret (if truth error then error else Z.of_nat i, Some m)) r = Some ((Z.of_nat k, Some m'), r') /\
    (k <= count)%nat /\ take k (u_data m') = drop (length (hist a) - k) (hist a) /\
    rep r' a' /\ hist a `prefix_of` hist a' /\
    ((k < count)%nat -> a_end a - Z.of_nat k <= a_end a' - log_buf_len r) /\
    (Forall (eq []) envs -> a' = a).
Proof.
  intros R Hm HL HNc -> HW. destruct (u32_congr (a_end a)) as [w Ew]. pose proof (u32_range (a_end a)) as Hu.
  destruct (copy_back_run (- w) (a_end a) count envs 0 m r a R) as (k & r' & a' & E & Hk & R' & P & Hov & Hq);
    [by rewrite Nat.add_0_r|lia|by rewrite Nat.add_0_r|lia|lia|].
  rewrite !Nat.add_0_r, Z.sub_0_r in *. unfold a_end in E, HL. rewrite slice_last in E by (done || lia).
  set (t := drop (length (hist a) - k) (hist a)) in *.
  assert (length t = k) as Lt by (subst t; rewrite length_drop; lia).
  set (d := take (count - k) (u_data m) ++ t ++ drop count (u_data m)) in *.
  assert (length (take (count - k) (u_data m)) = (count - k)%nat) as L1
    by (destruct Hm as (_ & ? & _); rewrite length_take; lia).
  fold (a_end a) in E. rewrite (bind_Some _ _ _ _ _ E). change (truth 0) with false. cbn iota.
  destruct (Nat.eqb_spec k count) as [->|Hne].
  - eexists count, _, r', a'. rewrite ret_unfold. split; [reflexivity|]. split; [done|]. split; [|done].
    cbn. subst d. rewrite Nat.sub_diag, take_0. cbn. by rewrite <- Lt at 1; rewrite take_app_length.
  - rewrite shift_down_run.
    2:{ apply roomy_data; [|subst d; rewrite !length_app, L1, Lt, length_drop; destruct Hm as (_ & ? & _); lia].
        replace (0 + (count - k) + k)%nat with count by lia. done. }
    change (truth 0) with false. cbn iota. eexists k, _, r', a'. rewrite ret_unfold. split; [reflexivity|].
    split; [done|]. split; [|done]. cbn. subst d. rewrite take_0. cbn [app].
    rewrite <- L1 at 1. rewrite drop_app_length. rewrite <- Lt at 2. rewrite take_app_length.
    rewrite <- Lt at 1. by rewrite take_app_length.
Qed.

(** The last messages, away from the wrap-around of the counter of characters. *)
Lemma syslog_read_all_run s a m len envs (clear : bool) :
  rep (rg s) a -> 0 < len -> roomy (Z.to_nat (Z.min len (fresh a))) m ->
  u32 (a_end a) + emitted (concat envs) + log_buf_len (rg s) <= 2 ^ 32 ->
  let count := Z.to_nat (Z.min len (fresh a)) in
  exists k m' r' a',
    do_syslog (if clear then SYSLOG_ACTION_READ_CLEAR else SYSLOG_ACTION_READ_ALL) len 0 (Some m) None envs s =
      Some ((Z.of_nat k, Some m'), with_rg r' s) /\
    (k <= count)%nat /\ take k (u_data m') = drop (length (hist a) - k) (hist a) /\
    rep r' a' /\ hist a `prefix_of` hist a' /\
    ((k < count)%nat -> a_end a - Z.of_nat k <= a_end a' - log_buf_len (rg s)) /\
    (Forall (eq []) envs -> k = count /\ a' = if clear then ALog (hist a) (rd a) (cn a) 0 else a).
Proof.
  intros R Hl Hm HW count. pose proof (size_bounds _ _ R) as HN. destruct (rep_fresh _ _ R) as [EF HF].
  pose proof (clear_rep clear _ _ R) as R0.
  set (a0 := if clear then ALog _ _ _ 0 else a) in *. set (r0 := if clear then with_logged 0 _ else _) in *.
  assert (hist a0 = hist a /\ a_end a0 = a_end a) as [Eh Ee] by (by subst a0; destruct clear).
  assert (log_buf_len r0 = log_buf_len (rg s)) as El by (by subst r0; destruct clear).
  destruct (copied_run (a_end a) count envs m r0 a0 R0 Hm) as (k & m' & r' & a' & E & Hk & Ht & R' & P & Hov & Hq);
    [subst count; lia|subst count; rewrite El; lia|done|by rewrite Ee, El|].
  rewrite Eh, Ee, El in *. exists k, m', r', a'. split; [|split; [done|split; [done|split; [done|split; [done|split; [done|]]]]]].
  - replace (do_syslog _ _ _ _ _ _) with (on_ring (syslog_read_all clear envs (Some m) len)) by (by destruct clear).
    apply on_ring_run. unfold syslog_read_all.
    rewrite (proj2 (Z.ltb_ge len 0)), (proj2 (Z.eqb_neq len 0)) by lia. destruct Hm as (-> & _). cbn [negb].
    rewrite bind_unfold, get_run. cbv zeta. rewrite (u32_small (log_buf_len _)), EF by lia.
    replace (Z.to_nat _) with count.
    2:{ subst count. f_equal. destruct (Z.ltb_spec (log_buf_len (rg s)) len);
        [destruct (Z.ltb_spec (fresh a) (log_buf_len (rg s)))|destruct (Z.ltb_spec (fresh a) len)]; lia. }
    rewrite bind_unfold. rewrite (rep_end _ _ R).
    replace ((if clear then modify (with_logged 0) else mret tt) (rg s)) with (Some (tt, r0)) by (by subst r0; destruct clear).
    exact E.
  - intros He. split; [|by apply Hq]. rewrite (Hq He) in Hov. rewrite Ee in Hov.
    destruct (decide (k < count)%nat) as [Hlt|]; [|lia]. specialize (Hov Hlt). subst count. lia.
Qed.

(** Near the wrap-around of [log_end] the test for overwritten characters wraps
    around first: for the last [log_buf_len] values of the counter nothing of the
    log is returned, although it is all there. *)
Lemma syslog_read_all_blind s a m len envs (clear : bool) :
  rep (rg s) a -> 0 < len -> 0 < fresh a -> u_ok m = true ->
  2 ^ 32 - log_buf_len (rg s) < u32 (a_end a) ->
  exists r', do_syslog (if clear then SYSLOG_ACTION_READ_CLEAR else SYSLOG_ACTION_READ_ALL) len 0 (Some m) None envs s =
    Some ((0, Some m), with_rg r' s) /\ rep r' (if clear then ALog (hist a) (rd a) (cn a) 0 else a).
Proof.
  intros R Hl Hf Hm HW. pose proof (size_bounds _ _ R) as HN. destruct (rep_fresh _ _ R) as [EF HF].
  exists (if clear then with_logged 0 (rg s) else rg s). split; [|by apply clear_rep].
  replace (do_syslog _ _ _ _ _ _) with (on_ring (syslog_read_all clear envs (Some m) len)) by (by destruct clear).
  apply on_ring_run. unfold syslog_read_all.
  rewrite (proj2 (Z.ltb_ge len 0)), (proj2 (Z.eqb_neq len 0)), Hm by lia. cbn [negb].
  rewrite bind_unfold, get_run. cbv zeta. rewrite bind_unfold.
  set (r0 := if clear then with_logged 0 (rg s) else rg s).
  replace ((if clear then modify (with_logged 0) else mret tt) (rg s)) with (Some (tt, r0)) by (by subst r0; destruct clear).
  match goal with |- context [copy_back ?c] => destruct c as [|n] eqn:Ec end.
  { exfalso. rewrite EF, u32_small in Ec by lia. repeat case_match; zbool; lia. }
  assert (log_buf_len r0 = log_buf_len (rg s) /\ log_end r0 = log_end (rg s)) as [El Ee] by (by subst r0; destruct clear).
  cbn [copy_back]. rewrite bind_unfold, bind_unfold, get_run. cbv zeta.
  rewrite El, Ee, (rep_end _ _ R). pose proof (u32_range (a_end a)) as HE. set (x := u32 (a_end a)) in *.
  rewrite Z.sub_0_r, (u32_small (x - 1)), (u32_once_around (x - 1 + _)) by lia.
  by rewrite (proj2 (Z.ltb_lt _ _)) by lia.
Qed.

(** C19: Reading the last messages (SYSLOG_ACTION_READ_ALL, READ_CLEAR). The counter of
    characters wraps at 2^32. As long as it does not come within [log_buf_len] of
    that during the call, the call returns the last characters of the log as it was
    when it began, without a gap, while others go on writing: it stops at a
    character that was overwritten meanwhile, and without others gives all that was
    asked for. When the counter is within [log_buf_len] of wrapping as the call
    begins, it returns nothing. *)
Theorem syslog_read_all_last s a m len envs (clear : bool) :
  rep (rg s) a -> 0 < len -> roomy (Z.to_nat (Z.min len (fresh a))) m ->
  let count := Z.to_nat (Z.min len (fresh a)) in
  let call := do_syslog (if clear then SYSLOG_ACTION_READ_CLEAR else SYSLOG_ACTION_READ_ALL)
                len 0 (Some m) None envs s in
  let after := if clear then ALog (hist a) (rd a) (cn a) 0 else a in
  (u32 (a_end a) + emitted (concat envs) + log_buf_len (rg s) <= 2 ^ 32 ->
   exists k m' r' a', call = Some ((Z.of_nat k, Some m'), with_rg r' s) /\
     (k <= count)%nat /\ take k (u_data m') = drop (length (hist a) - k) (hist a) /\
     rep r' a' /\ hist a `prefix_of` hist a' /\
     ((k < count)%nat -> a_end a - Z.of_nat k <= a_end a' - log_buf_len (rg s)) /\
     (Forall (eq []) envs -> k = count /\ a' = after)) /\
  (0 < fresh a -> 2 ^ 32 - log_buf_len (rg s) < u32 (a_end a) ->
   exists r', call = Some ((0, Some m), with_rg r' s) /\ rep r' after).
Proof.
  intros R Hl Hm count call after. split.
  - intros HW. by apply syslog_read_all_run.
  - intros Hf HW. apply syslog_read_all_blind; try done. apply Hm.
Qed.

(** ** The log at boot *)

Definition boot_ring (k : Z) : ring := Ring (replicate (Z.to_nat (2 ^ k)) 0) (2 ^ k) 0 0 0 0.
Definition boot_log : alog := ALog [] 0 0 0.

Lemma boot_rep k : 0 <= k <= 30 -> rep (boot_ring k) boot_log.
Proof.
  intros Hk. pose proof (Z.pow_pos_nonneg 2 k ltac:(lia) ltac:(lia)).
  constructor; cbn; try done; try lia.
  - by exists k.
  - rewrite length_replicate. lia.
  - unfold a_end. cbn. lia.
  - unfold a_end. cbn. lia.
  - unfold a_end. cbn. lia.
  - intros i. unfold a_end. cbn. lia.
Qed.

(** ** Witnesses *)

Definition ex_klog (r : ring) (o : output) : klog :=
  Klog r (Levels 7 4 1 (-1) false) (Line (-1) true false false) (Locks UINT_MAX false 0 false 1 false false false) o.
Definition no_output : output := Output ∅ None [] false ∅.

(** A ring of eight characters that got the text "ab\n". *)
Definition ex_text : list Z := [97; 98; 10].
Definition ex_ring : ring := default (boot_ring 3) (exec (emit_all ex_text) (boot_ring 3)).
Definition ex_log : alog := a_emits 8 ex_text boot_log.

Lemma ex_ring_rep : rep ex_ring ex_log.
Proof.
  destruct (emits_rep ex_text (boot_ring 3) boot_log) as (r & E & _ & R); [apply boot_rep; lia|].
  unfold ex_ring, exec. by rewrite E.
Qed.

Definition ex_umem : umem := Umem true (fun _ => true) [0; 0; 0; 0].

Lemma ex_umem_roomy n : (n <= 4)%nat -> roomy n ex_umem.
Proof. intros Hn. by split_and!. Qed.

(** While the reader takes "ab", another processor writes seven characters: the
    rest of the text is lost to it. *)
Lemma syslog_read_refines_witness :
  exists r', do_syslog SYSLOG_ACTION_READ 3 0 (Some ex_umem) (Some []) [[]; map REmit [1; 2; 3; 4; 5; 6; 7]]
      (ex_klog ex_ring no_output) = Some ((3, Some (Umem true (fun _ => true) [97; 98; 10; 0])), with_rg r' (ex_klog ex_ring no_output)).
Proof.
  destruct (syslog_read_refines (ex_klog ex_ring no_output) ex_log ex_umem 3 []
    [[]; map REmit [1; 2; 3; 4; 5; 6; 7]] ex_ring_rep) as (r' & E & _).
  - lia.
  - apply ex_umem_roomy. simpl. lia.
  - vm_compute. discriminate.
  - exists r'. exact E.
Defined.

Lemma syslog_read_all_last_witness :
  exists k m' r', do_syslog SYSLOG_ACTION_READ_CLEAR 2 0 (Some ex_umem) None [] (ex_klog ex_ring no_output) =
      Some ((Z.of_nat k, Some m'), with_rg r' (ex_klog ex_ring no_output)) /\
    k = 2%nat /\ take k (u_data m') = [98; 10] /\ logged_chars r' = 0.
Proof.
  destruct (syslog_read_all_last (ex_klog ex_ring no_output) ex_log ex_umem 2 [] true ex_ring_rep) as [H _].
  - lia.
  - apply ex_umem_roomy. simpl. lia.
  - destruct H as (k & m' & r' & a' & E & _ & Ht & R' & _ & _ & Hq); [vm_compute; discriminate|].
    destruct (Hq ltac:(constructor)) as [-> ->]. eexists _, m', r'. split; [exact E|].
    split; [reflexivity|]. split; [exact Ht|]. exact (proj1 (rep_fresh _ _ R')).
Defined.
