(* ===== verification/PrintkConsole.v ===== *)
(** * What the consoles show

    The text between [con_start] and [log_end] is cut into lines; a line gets its
    level from the tag in front of it, and is written without the tag to every
    console that takes part when the level is important enough. This is [render],
    a function on the text; the loops over the ring buffer with its indices that
    wrap around are proved to do just that. *)

From stdpp Require Import strings.
From S2P Require Import Prelude Vsprintf Printk PrintkProps.

(** ** Lines and levels of a text *)

Definition tag_of (t : list Z) : option (Z * list Z) :=
  match t with
  | c0 :: c1 :: c2 :: rest =>
      if (c0 =? LT) && (CH0 <=? c1) && (c1 <=? CH7) && (c2 =? GT) then Some (c1 - CH0, rest) else None
  | _ => None
  end.

(** The first line with its newline, and what follows it. *)
Fixpoint cut (t : list Z) : list Z * option (list Z) :=
  match t with
  | [] => ([], None)
  | c :: t => if c =? NL then ([c], Some t) else let r := cut t in (c :: fst r, snd r)
  end.

(** The pieces with their levels, and the level of an unfinished line; a
    negative level: none yet. *)
Fixpoint render (fuel : nat) (standard level : Z) (t : list Z) : list (Z * list Z) * Z :=
  match fuel, t with
  | S fuel, _ :: _ =>
      let p := if level <? 0 then default (level, t) (tag_of t) else (level, t) in
      match cut (snd p) with
      | (l, Some rest) =>
          let r := render fuel standard (-1) rest in
          ((if fst p <? 0 then standard else fst p, l) :: fst r, snd r)
      | (l, None) => ([(fst p, l)], fst p)
      end
  | _, _ => ([], level)
  end.

(** The pieces that are important enough. *)
Definition loud (l : levels) (level : Z) : bool := (level <? console_loglevel l) || ignore_loglevel l.
Definition shown (l : levels) (ps : list (Z * list Z)) : list Z :=
  concat (map (fun p => if loud l (fst p) then snd p else []) ps).

(** What console [i] got. *)
Definition heard (i : positive) (w : list (positive * list Z)) : list Z :=
  concat (snd <$> filter (fun p => fst p = i) w).

Lemma heard_app i w1 w2 : heard i (w1 ++ w2) = heard i w1 ++ heard i w2.
Proof. unfold heard. by rewrite filter_app, fmap_app, concat_app. Qed.

Lemma cut_split t : t = fst (cut t) ++ default [] (snd (cut t)).
Proof.
  induction t as [|c t IH]; [done|]. cbn. destruct (c =? NL); [done|]. cbn. f_equal. exact IH.
Qed.

Lemma cut_nonempty t : t <> [] -> fst (cut t) <> [].
Proof. destruct t as [|c t]; [done|]. cbn. by destruct (c =? NL). Qed.

Lemma slice_split x b h l rest : 0 <= x <= b -> b <= zlen h -> slice x b h = l ++ rest ->
  l = slice x (x + zlen l) h /\ rest = slice (x + zlen l) b h /\ x + zlen l <= b.
Proof.
  intros Hx Hb E. pose proof (slice_length x b h Hx Hb) as HL. rewrite E, length_app in HL.
  assert (slice x (x + zlen l) h = take (length l) (slice x b h)) as E1.
  { unfold slice. rewrite take_take. do 2 f_equal. lia. }
  assert (slice (x + zlen l) b h = drop (length l) (slice x b h)) as E2.
  { unfold slice. rewrite skipn_firstn_comm, drop_drop. f_equal; [lia|]. f_equal. lia. }
  rewrite E1, E2, E, take_app_length, drop_app_length. split; [done|]. split; [done|lia].
Qed.

Lemma slice_nth i j h k : 0 <= i -> i + Z.of_nat k < j -> slice i j h !! k = h !! Z.to_nat (i + Z.of_nat k).
Proof.
  intros Hi Hk. unfold slice. rewrite lookup_take_lt by lia. rewrite lookup_drop. f_equal. lia.
Qed.

Lemma slice_nil i j h : 0 <= i <= j -> j <= zlen h -> slice i j h = [] -> i = j.
Proof. intros Hi Hj E. pose proof (slice_length i j h Hi Hj) as HL. rewrite E in HL. cbn in HL. lia. Qed.

(** ** Text in the ring *)

(** Characters [x] to [b] are still in the ring. *)
Definition kept (r : ring) (a : alog) (x b : Z) : Prop :=
  rep r a /\ Z.max 0 (a_end a - log_buf_len r) <= x <= b /\ b <= a_end a /\ b - x <= log_buf_len r.

Lemma kept_char r a x b i : kept r a x b -> x <= i < b ->
  exists c, LOG_BUF (u32 i) r = Some c /\ hist a !! Z.to_nat i = Some c.
Proof.
  intros (R & Hx & Hb & _) Hi.
  destruct (lookup_lt_is_Some_2 (hist a) (Z.to_nat i)) as [c Ec]; [unfold a_end in *; lia|].
  exists c. by rewrite (log_buf_lookup r a) by (done || lia).
Qed.

Lemma kept_later r a x y b : kept r a x b -> x <= y <= b -> kept r a y b.
Proof. intros (R & Hx & Hb & Hl) Hy. split; [done|]. lia. Qed.

Lemma kept_eqb r a x b : kept r a x b -> (u32 x =? u32 b) = (x =? b).
Proof. intros (R & Hx & Hb & Hl). pose proof (size_bounds _ _ R). apply u32_eqb. lia. Qed.

Lemma to_newline_run r a b n : forall x, kept r a x b -> n = Z.to_nat (b - x) ->
  let q := cut (slice x b (hist a)) in
  to_newline n (u32 x) (u32 b) r =
    Some ((u32 (x + zlen (fst q)), bool_decide (is_Some (snd q))), r).
Proof.
  induction n as [|n IH]; intros x K En q; subst q; pose proof K as (R & Hx & Hb & Hl); cbn [to_newline];
    rewrite (kept_eqb r a x b K).
  - assert (x = b) as -> by lia. rewrite Z.eqb_refl, slice_empty. cbn. by rewrite Z.add_0_r.
  - rewrite (proj2 (Z.eqb_neq x b)) by lia. destruct (kept_char r a x b x K) as (c & Ec & Eh); [lia|].
    rewrite bind_unfold, get_run, Ec, bind_unfold, lift_opt_run, (slice_cons x b _ c) by (done || lia).
    cbn [cut]. rewrite u32_succ. destruct (c =? NL).
    + cbn. by replace (x + 1) with (x + zlen [c]) by (cbn; lia).
    + assert (kept r a (x + 1) b) as K1 by (apply (kept_later r a x); [done|lia]).
      rewrite (IH (x + 1) K1) by lia. cbn [fst snd length].
      do 3 f_equal. f_equal. lia.
Qed.

Lemma level_tag_run r a x b level : kept r a x b ->
  level_tag level (u32 x) (u32 b) r =
    Some (if level <? 0 then fst <$> tag_of (slice x b (hist a)) else None, r).
Proof.
  intros K. pose proof K as (R & Hx & Hb & Hl). pose proof (size_bounds _ _ R). unfold level_tag.
  rewrite u32_sub_small by lia. destruct (level <? 0); [|done]. cbn [andb].
  pose proof (slice_length x b (hist a) ltac:(lia) ltac:(unfold a_end in Hb; lia)) as HL.
  destruct (Z.ltb_spec 2 (b - x)) as [H2|H2]; cbn [negb].
  - destruct (kept_char r a x b x K) as (c0 & E0 & T0); [lia|].
    destruct (kept_char r a x b (x + 1) K) as (c1 & E1 & T1); [lia|].
    destruct (kept_char r a x b (x + 2) K) as (c2 & E2 & T2); [lia|].
    rewrite (slice_cons x b _ c0), (slice_cons (x + 1) b _ c1), (slice_cons (x + 1 + 1) b _ c2)
      by (try lia; rewrite <- ?Z.add_assoc; done).
    rewrite bind_unfold, get_run, Z.add_0_r, u32_idemp, E0, bind_unfold, lift_opt_run.
    rewrite u32_succ, E1, bind_unfold, lift_opt_run.
    assert (u32 (u32 x + 2) = u32 (x + 2)) as -> by (unfold u32; by rewrite Zplus_mod_idemp_l).
    rewrite E2, bind_unfold, lift_opt_run, ret_unfold. cbn [tag_of]. by destruct (_ && _).
  - destruct (slice x b (hist a)) as [|? [|? [|? ?]]]; cbn in HL; try lia; done.
Qed.

(** ** Writing a piece *)

Section Show.
Context (e : cpu).

Definition with_written (w : list (positive * list Z)) (s : klog) : klog :=
  let o := out s in
  with_out (Output (cons o) (console_drivers o) (written o ++ w) (log_wait o) (printk_pending o)) s.

(** The consoles in the list that take part. *)
Definition takes_part (o : output) (i : positive) : Prop :=
  match cons o !! i with Some c => accepts e c = true | None => False end.
#[global] Instance takes_part_dec o i : Decision (takes_part o i).
Proof. unfold takes_part. case_match; apply _. Defined.
Definition audience (o : output) (ids : list positive) : list positive := filter (takes_part o) ids.

(** The console list is sound: [ids] are the registered consoles. *)
Definition registered (o : output) (ids : list positive) : Prop :=
  drivers o = Some ids /\ NoDup ids /\ Forall (fun i => is_Some (cons o !! i)) ids.

(** Every console of the audience, and no other, got [t]. *)
Definition says (o : output) (ids : list positive) (t : list Z) (w : list (positive * list Z)) : Prop :=
  forall i, heard i w = if decide (i ∈ audience o ids) then t else [].

Lemma with_written_nil s : with_written [] s = s.
Proof. unfold with_written. rewrite app_nil_r. by destruct s as [? ? ? ? []]. Qed.

Lemma with_written_app w1 w2 s : with_written w2 (with_written w1 s) = with_written (w1 ++ w2) s.
Proof. unfold with_written. cbn. by rewrite app_assoc. Qed.

Lemma says_nil o ids : says o ids [] [].
Proof. intros i. by case_decide. Qed.

Lemma says_app o ids t1 t2 w1 w2 : says o ids t1 w1 -> says o ids t2 w2 -> says o ids (t1 ++ t2) (w1 ++ w2).
Proof. intros H1 H2 i. rewrite heard_app, H1, H2. by case_decide. Qed.

Lemma heard_all i t l : NoDup l -> heard i ((fun j => (j, t)) <$> l) = if decide (i ∈ l) then t else [].
Proof.
  induction 1 as [|j l Hj HN IH]; [by rewrite decide_False by apply not_elem_of_nil|].
  unfold heard in *. rewrite fmap_cons, filter_cons. cbn [fst]. destruct (decide (j = i)) as [->|Hne].
  - rewrite (decide_True) by constructor. rewrite fmap_cons. cbn [concat snd].
    rewrite IH, decide_False by done. apply app_nil_r.
  - rewrite IH. destruct (decide (i ∈ l)); [rewrite decide_True by (by constructor) | rewrite decide_False]; try done.
    rewrite elem_of_cons. intros [->|?]; done.
Qed.

Lemma says_all o ids t : NoDup ids -> says o ids t ((fun j => (j, t)) <$> audience o ids).
Proof. intros HN i. apply heard_all. by apply NoDup_filter. Qed.

Lemma write_consoles_run start stop text : forall ids s,
  Forall (fun i => is_Some (cons (out s) !! i)) ids ->
  buf_read (log_buf (rg s)) (masked start (rg s)) (Z.to_nat (u32 (stop - start))) = Some text ->
  write_consoles e ids start stop s =
    Some (tt, with_written ((fun j => (j, text)) <$> audience (out s) ids) s).
Proof.
  induction ids as [|i ids IH]; intros s Hc Ht; [by cbn; rewrite with_written_nil|].
  inversion Hc as [|? ? [c Ec] Hcs]; subst. cbn [write_consoles].
  rewrite bind_unfold, get_run, Ec, bind_unfold, lift_opt_run, bind_unfold.
  unfold audience. rewrite filter_cons.
  destruct (accepts e c) eqn:Ea.
  - rewrite decide_True by (unfold takes_part; by rewrite Ec). rewrite Ht, bind_unfold, lift_opt_run. cbv zeta. rewrite put_run.
    change (with_out _ s) with (with_written [(i, text)] s). rewrite IH by done.
    by rewrite with_written_app.
  - rewrite decide_False by (unfold takes_part; rewrite Ec; congruence). rewrite ret_unfold. by apply IH.
Qed.

Lemma call_drivers_run start stop text ids s :
  registered (out s) ids ->
  buf_read (log_buf (rg s)) (masked start (rg s)) (Z.to_nat (u32 (stop - start))) = Some text ->
  exists w, __call_console_drivers e start stop s = Some (tt, with_written w s) /\ says (out s) ids text w.
Proof.
  intros (Hd & HN & Hc) Ht. unfold __call_console_drivers. rewrite bind_unfold, get_run, Hd, bind_unfold, lift_opt_run.
  rewrite (write_consoles_run _ _ text) by done. eexists. split; [done|]. by apply says_all.
Qed.

(** A piece that does not run over the end of the buffer. *)
Lemma ring_read r a x b : kept r a x b -> x mod log_buf_len r + (b - x) <= log_buf_len r ->
  buf_read (log_buf r) (Z.to_nat (x mod log_buf_len r)) (Z.to_nat (b - x)) = Some (slice x b (hist a)).
Proof.
  intros K Hm. pose proof K as (R & Hx & Hb & Hl). pose proof (size_bounds _ _ R) as HN.
  pose proof (rep_length _ _ R) as HL. pose proof (Z.mod_pos_bound x (log_buf_len r) ltac:(lia)) as HM.
  rewrite buf_read_Some by lia. f_equal. apply list_eq. intros k.
  destruct (decide (Z.of_nat k < b - x)) as [Hk|Hk].
  - rewrite lookup_take_lt, lookup_drop, slice_nth by lia. rewrite <- (rep_text _ _ R) by lia. f_equal.
    rewrite <- (Z.mod_unique (x + Z.of_nat k) (log_buf_len r) (x / log_buf_len r) (x mod log_buf_len r + Z.of_nat k));
      [lia|left; lia|]. rewrite (Z.div_mod x (log_buf_len r)) at 1 by lia. lia.
  - unfold slice. rewrite !lookup_take_ge by lia. done.
Qed.

(** Where a piece that runs over the end of the buffer is cut. *)
Lemma wrap_point N x b : 1 <= N -> 0 <= x <= b -> b - x < N ->
  (b mod N < x mod N -> exists y, x <= y <= b /\ y mod N = 0 /\ y - x = N - x mod N /\ b - y = b mod N) /\
  (x mod N <= b mod N -> b - x = b mod N - x mod N).
Proof.
  intros HN Hx Hl. pose proof (Z.div_mod x N ltac:(lia)) as Ex. pose proof (Z.div_mod b N ltac:(lia)) as Eb.
  pose proof (Z.mod_pos_bound x N ltac:(lia)). pose proof (Z.mod_pos_bound b N ltac:(lia)).
  split; intros Hm.
  - assert (b / N = x / N + 1) as E by nia. exists (N * (x / N + 1)).
    split; [nia|]. split; [rewrite Z.mul_comm; apply Z_mod_mult|]. split; nia.
  - assert (b / N = x / N) as E by nia. nia.
Qed.

Lemma masked_small r a i : rep r a -> 0 <= i < log_buf_len r -> masked i r = Z.to_nat i.
Proof.
  intros R Hi. pose proof (size_bounds _ _ R). rewrite <- (u32_small i) at 1 by lia.
  rewrite (masked_place _ a) by done. by rewrite Z.mod_small.
Qed.

Lemma piece_run a x b level ids s : kept (rg s) a x b -> b - x < log_buf_len (rg s) -> registered (out s) ids ->
  exists w, _call_console_drivers e (u32 x) (u32 b) level s = Some (tt, with_written w s) /\
    says (out s) ids (if loud (lv s) level then slice x b (hist a) else []) w.
Proof.
  intros K Hl Hr. pose proof K as (R & Hx & Hb & _). pose proof (size_bounds _ _ R) as HN.
  unfold _call_console_drivers. rewrite bind_unfold, get_run, (kept_eqb _ a x b K). fold (loud (lv s) level).
  destruct (loud (lv s) level); cbn [andb].
  2:{ exists []. rewrite with_written_nil. split; [done|apply says_nil]. }
  case_bool_decide as Hc; cbn [andb].
  2:{ exists []. rewrite with_written_nil. split; [done|]. destruct Hr as (Hd & _). unfold drivers in Hd.
      rewrite <- eq_None_not_Some in Hc. rewrite Hc in Hd. destruct (size _); injection Hd as <-; by intros i. }
  destruct (Z.eqb_spec x b) as [->|Hne]; cbn [negb].
  { exists []. rewrite with_written_nil, slice_empty. split; [done|apply says_nil]. }
  cbv zeta. rewrite !(land_place _ a) by done.
  destruct (wrap_point (log_buf_len (rg s)) x b ltac:(lia) ltac:(lia) Hl) as [Hw Hn].
  pose proof (Z.mod_pos_bound x (log_buf_len (rg s)) ltac:(lia)). pose proof (Z.mod_pos_bound b (log_buf_len (rg s)) ltac:(lia)).
  set (N := log_buf_len (rg s)) in *.
  destruct (Z.ltb_spec (b mod N) (x mod N)) as [Hlt|Hge].
  - destruct (Hw Hlt) as (y & Hy & Hy0 & Hyx & Hby). rewrite bind_unfold.
    destruct (call_drivers_run (x mod N) (u32 N) (slice x y (hist a)) ids s Hr) as (w1 & -> & S1).
    { rewrite (masked_small _ a), (u32_small N), (u32_small (N - _)), <- Hyx by (done || lia). apply ring_read; [|fold N; lia].
      split; [done|]. fold N. lia. }
    destruct (call_drivers_run 0 (b mod N) (slice y b (hist a)) ids (with_written w1 s) Hr) as (w2 & -> & S2).
    { change (rg (with_written w1 s)) with (rg s). rewrite (masked_small _ a), Z.sub_0_r, u32_small, <- Hby by (done || lia).
      replace 0 with (y mod N) at 1 by done. apply ring_read; [|fold N; lia]. by apply (kept_later _ _ x). }
    exists (w1 ++ w2). rewrite with_written_app. split; [done|].
    rewrite <- (slice_app x y b) by lia. by apply says_app.
  - destruct (call_drivers_run (u32 x) (u32 b) (slice x b (hist a)) ids s Hr) as (w & E & S1).
    { rewrite (masked_place _ a), u32_sub_small by (done || lia). apply ring_read; [done|]. fold N. rewrite (Hn Hge). lia. }
    by exists w.
Qed.

(** ** Lines *)

Lemma same_line l : set_msg_level (msg_level l) l = l.
Proof. by destruct l. Qed.

Lemma same_level s : with_ln (set_msg_level (msg_level (ln s)) (ln s)) s = s.
Proof. by destruct s as [? ? [] ? ?]. Qed.

Lemma print_done fuel c sp s : print_lines e fuel c sp c s = Some (sp, s).
Proof. destruct fuel; cbn; by rewrite Z.eqb_refl. Qed.

Lemma shown_cons l p ps : shown l (p :: ps) = (if loud l (fst p) then snd p else []) ++ shown l ps.
Proof. done. Qed.

(** The end of [call_console_drivers]. *)
Definition rest_of_line (stop sp : Z) : M klog unit :=
  s ← get; _call_console_drivers e sp stop (msg_level (ln s)).

Lemma rest_run a x b ids s : kept (rg s) a x b -> b - x < log_buf_len (rg s) -> registered (out s) ids ->
  exists w, rest_of_line (u32 b) (u32 x) s = Some (tt, with_written w s) /\
    says (out s) ids (shown (lv s) [(msg_level (ln s), slice x b (hist a))]) w.
Proof.
  intros K Hl Hr. destruct (piece_run a x b (msg_level (ln s)) ids s K Hl Hr) as (w & E & S).
  exists w. split; [exact E|]. cbn. by rewrite app_nil_r.
Qed.

(** The tag of a line, if it has one to read. *)
Lemma tag_split level t : t <> [] ->
  let p := if level <? 0 then default (level, t) (tag_of t) else (level, t) in
  exists k, snd p = drop k t /\ (k <= length t)%nat /\
    match (if level <? 0 then fst <$> tag_of t else None) with
    | Some l => fst p = l /\ k = 3%nat
    | None => fst p = level /\ k = 0%nat
    end.
Proof.
  intros Ht. destruct (level <? 0); [|by exists 0%nat; rewrite drop_0; split_and!; [|lia|..]].
  destruct (tag_of t) as [[l t']|] eqn:E; cbn.
  - unfold tag_of in E. destruct t as [|c0 [|c1 [|c2 t]]]; try done. destruct (_ && _); [|done].
    injection E as <- <-. exists 3%nat. cbn. split_and!; try done. lia.
  - by exists 0%nat; rewrite drop_0; split_and!; [|lia|..].
Qed.

Lemma tag_run {A} a x b s (g : Z * Z -> M klog A) : kept (rg s) a x b -> x < b ->
  let t := slice x b (hist a) in
  let level := msg_level (ln s) in
  let p := if level <? 0 then default (level, t) (tag_of t) else (level, t) in
  exists y, x <= y <= b /\ snd p = slice y b (hist a) /\
    (level ← gets (fun s => msg_level (ln s));
     tag ← on_ring (level_tag level (u32 x) (u32 b));
     p ← (match tag with
          | Some l => in_line (set_msg_level l);; mret (u32 (u32 x + 3), u32 (u32 x + 3))
          | None => mret (u32 x, u32 x)
          end);
     g p) s = g (u32 y, u32 y) (with_ln (set_msg_level (fst p) (ln s)) s).
Proof.
  intros K Hx t level p. pose proof K as (R & Hx0 & Hb & Hl).
  assert (length t = Z.to_nat (b - x)) as Lt by (apply slice_length; unfold a_end in *; lia).
  destruct (tag_split level t) as (k & Ep & Hk & HT); [intros E; rewrite E in Lt; cbn in Lt; lia|].
  fold p in Ep, HT. exists (x + Z.of_nat k). split; [lia|]. split.
  { rewrite Ep. subst t. unfold slice. rewrite skipn_firstn_comm, drop_drop. f_equal; [lia|]. f_equal. lia. }
  rewrite bind_unfold, gets_run, bind_unfold. fold level.
  rewrite (on_ring_run _ _ _ _ (level_tag_run _ a x b level K)). fold t.
  assert (with_rg (rg s) s = s) as -> by (by destruct s). rewrite bind_unfold.
  destruct (if level <? 0 then fst <$> tag_of t else None) as [l|]; destruct HT as [HT ->].
  - unfold in_line. rewrite bind_unfold, modify_run, ret_unfold, HT.
    assert (u32 (u32 x + 3) = u32 (x + Z.of_nat 3)) as -> by (unfold u32; by rewrite Zplus_mod_idemp_l). done.
  - rewrite ret_unfold, HT. subst level. by rewrite same_level, Z.add_0_r.
Qed.

Lemma kept_shorter r a x y b : kept r a x b -> x <= y <= b -> kept r a x y.
Proof. intros (R & Hx & Hb & Hl) Hy. split; [done|]. lia. Qed.

(** One line of the outer loop: printed with its newline, or left for the end. *)
Lemma line_step a b ids fuel x s : kept (rg s) a x b -> x < b -> registered (out s) ids ->
  let t := slice x b (hist a) in
  let level := msg_level (ln s) in
  let p := if level <? 0 then default (level, t) (tag_of t) else (level, t) in
  let l := fst (cut (snd p)) in
  zlen l < log_buf_len (rg s) ->
  match snd (cut (snd p)) with
  | Some rest => exists z w, x < z <= b /\ rest = slice z b (hist a) /\
      says (out s) ids (if loud (lv s) (if fst p <? 0 then default_message_loglevel (lv s) else fst p) then l else []) w /\
      print_lines e (S fuel) (u32 x) (u32 x) (u32 b) s =
        print_lines e fuel (u32 z) (u32 z) (u32 b) (with_ln (set_msg_level (-1) (ln s)) (with_written w s))
  | None => exists y, x <= y <= b /\ l = slice y b (hist a) /\
      print_lines e (S fuel) (u32 x) (u32 x) (u32 b) s = Some (u32 y, with_ln (set_msg_level (fst p) (ln s)) s)
  end.
Proof.
  intros K Hne Hr t level p l Hl. pose proof K as (R & Hx & Hb & _). pose proof (size_bounds _ _ R) as HN.
  cbn [print_lines]. rewrite (kept_eqb _ a x b K), (proj2 (Z.eqb_neq x b)) by lia.
  match goal with |- context [fun p : Z * Z => @?g p] =>
    destruct (tag_run a x b s g K Hne) as (y & Hy & Ep & ->) end.
  fold t level in Ep |- *. fold p in Ep |- *. pose proof (kept_later _ _ _ y _ K Hy) as K1.
  set (s1 := with_ln (set_msg_level (fst p) (ln s)) s). cbn iota. rewrite u32_sub_small, bind_unfold by lia.
  rewrite (on_ring_run _ s1 _ _ (to_newline_run (rg s1) a b _ y K1 eq_refl)). rewrite <- Ep.
  change (with_rg (rg s1) s1) with s1. pose proof (cut_split (snd p)) as Ec. subst l.
  destruct (cut (snd p)) as [l [rest|]] eqn:Ecut; cbn [fst snd default from_option id] in *.
  - rewrite bool_decide_true by eauto. cbn iota. rewrite bind_unfold, get_run.
    rewrite Ep in Ec. apply slice_split in Ec as (El & Er & Hz); [|unfold a_end in *; lia..].
    assert (l <> []) as Hl0.
    { intros ->. pose proof (cut_nonempty (snd p)) as Hn. rewrite Ecut in Hn. destruct (snd p); [done|by apply Hn]. }
    assert (0 < zlen l) by (destruct l; [done|cbn; lia]).
    destruct (piece_run a y (y + zlen l) (if fst p <? 0 then default_message_loglevel (lv s) else fst p) ids s1)
      as (w & E & S); [by apply (kept_shorter _ _ _ _ b); [|lia]|cbn [rg s1 with_ln]; lia|done|].
    exists (y + zlen l), w. split; [lia|]. split; [done|]. split; [rewrite El; exact S|].
    cbn [msg_level ln lv s1 with_ln set_msg_level]. by rewrite (bind_Some _ _ _ _ _ E).
  - rewrite bool_decide_false by (by intros []). cbn iota. rewrite app_nil_r in Ec. subst l.
    exists y. split; [done|]. split; [done|].
    replace (y + zlen (snd p)) with b by (rewrite Ep, slice_length; unfold a_end in *; lia). apply print_done.
Qed.

(** No piece is as long as the buffer. *)
Definition brief (N : Z) (ps : list (Z * list Z)) : Prop := Forall (fun p => zlen (snd p) < N) ps.

Lemma render_brief N standard : forall fuel level t, zlen t < N -> brief N (fst (render fuel standard level t)).
Proof.
  induction fuel as [|fuel IH]; intros level t Ht; [constructor|]. destruct t as [|c t]; [constructor|].
  destruct (tag_split level (c :: t) ltac:(done)) as (k & Ep & _). cbn [render].
  set (p := if level <? 0 then _ else _) in *. pose proof (cut_split (snd p)) as Ec.
  assert (length (snd p) <= length (c :: t))%nat as Hp by (rewrite Ep, length_drop; lia). rewrite Ec, length_app in Hp.
  destruct (cut (snd p)) as [l [rest|]]; cbn [fst snd default from_option id] in *.
  - constructor; [cbn [snd]; lia|]. apply IH. lia.
  - constructor; [cbn [snd]; lia|constructor].
Qed.

Lemma lines_run a b ids : forall fuel x s, kept (rg s) a x b -> registered (out s) ids ->
  (Z.to_nat (b - x) <= fuel)%nat ->
  let o := render fuel (default_message_loglevel (lv s)) (msg_level (ln s)) (slice x b (hist a)) in
  brief (log_buf_len (rg s)) (fst o) ->
  exists w, (print_lines e fuel (u32 x) (u32 x) (u32 b) ≫= rest_of_line (u32 b)) s =
      Some (tt, with_ln (set_msg_level (snd o) (ln s)) (with_written w s)) /\
    says (out s) ids (shown (lv s) (fst o)) w.
Proof.
  induction fuel as [|fuel IH]; intros x s K Hr Hf o HB; subst o; pose proof K as (R & Hx & Hb & _);
    pose proof (size_bounds _ _ R).
  all: destruct (decide (x = b)) as [->|Hne]; [|try lia].
  1,2: rewrite slice_empty, (bind_Some _ _ _ _ _ (print_done _ _ _ s));
    destruct (rest_run a b b ids s K ltac:(lia) Hr) as (w & -> & S); rewrite slice_empty in S; exists w; cbn [render fst snd];
    (split; [do 2 f_equal; exact (eq_sym (same_level (with_written w s))) | cbn in S; by destruct (loud _ _)]).
  pose proof (line_step a b ids fuel x s K ltac:(lia) Hr) as HS. cbv zeta in HS.
  assert (exists c t', slice x b (hist a) = c :: t') as (c & t' & Et).
  { destruct (slice x b (hist a)) as [|c t'] eqn:Et; [|eauto]. apply slice_nil in Et; unfold a_end in *; lia. }
  set (t := slice x b (hist a)) in *. rewrite Et in HB |- *. cbn [render] in HB |- *. rewrite <- Et in HB |- *.
  set (p := if msg_level (ln s) <? 0 then _ else _) in *.
  destruct (cut (snd p)) as [l [rest|]]; cbn [fst snd] in *; inversion_clear HB as [|? ? Hl HB'];
    specialize (HS Hl); rewrite bind_unfold.
  - destruct HS as (z & w1 & Hz & -> & S1 & ->).
    destruct (IH z (with_ln (set_msg_level (-1) (ln s)) (with_written w1 s))) as (w2 & E2 & S2);
      [by apply (kept_later _ _ x); [|lia]|done|lia|done|].
    rewrite bind_unfold in E2. rewrite E2. exists (w1 ++ w2). split.
    + do 2 f_equal. unfold with_written. cbn. by rewrite app_assoc.
    + rewrite shown_cons. by apply says_app.
  - destruct HS as (y & Hy & -> & ->).
    destruct (rest_run a y b ids (with_ln (set_msg_level (fst p) (ln s)) s)) as (w & -> & S1);
      [by apply (kept_later _ _ x); [|lia]| |done|by exists w].
    cbn [snd] in Hl. rewrite slice_length in Hl by (unfold a_end in *; lia). cbn. lia.
Qed.

Lemma s32_diff a b : - 2 ^ 31 <= a - b < 2 ^ 31 -> s32 (u32 a - u32 b) = a - b.
Proof.
  intros H. unfold s32, u32.
  rewrite <- (Zplus_mod_idemp_l (a mod _ - b mod _)), Zminus_mod_idemp_l, Zminus_mod_idemp_r, Zplus_mod_idemp_l.
  rewrite Z.mod_small; lia.
Qed.

(** ** The output of a range of the log *)

Lemma call_console_run a x b ids s : kept (rg s) a x b -> registered (out s) ids ->
  let o := render (Z.to_nat (b - x)) (default_message_loglevel (lv s)) (msg_level (ln s)) (slice x b (hist a)) in
  brief (log_buf_len (rg s)) (fst o) ->
  exists w, call_console_drivers e (u32 x) (u32 b) s =
      Some (tt, with_ln (set_msg_level (snd o) (ln s)) (with_written w s)) /\
    says (out s) ids (shown (lv s) (fst o)) w.
Proof.
  intros K Hr o HB. pose proof K as (R & Hx & Hb & _). pose proof (size_bounds _ _ R).
  destruct (lines_run a b ids (Z.to_nat (b - x)) x s K Hr ltac:(lia) HB) as (w & E & S).
  exists w. split; [|exact S]. unfold call_console_drivers.
  assert ((0 <? s32 (u32 x - u32 b)) = false) as ->.
  { apply Z.ltb_ge. rewrite s32_diff; lia. }
  rewrite u32_sub_small by lia. exact E.
Qed.

(** ** Releasing the console semaphore *)

(** What the log hands to the consoles, pass by pass, while others write. *)
Fixpoint a_release (N standard : Z) (envs : list (list ract)) (a : alog) (level : Z)
  : list (Z * list Z) * Z * alog :=
  if cn a =? a_end a then ([], level, a)
  else
    let t := slice (cn a) (a_end a) (hist a) in
    let o := render (length t) standard level t in
    let flushed := ALog (hist a) (rd a) (a_end a) (fresh a) in
    match envs with
    | [] => (fst o, snd o, flushed)
    | acts :: envs =>
        let '(ps, level, a) := a_release N standard envs (a_racts N acts flushed) (snd o) in
        (fst o ++ ps, level, a)
    end.

(** In every pass the text that goes out and what others write meanwhile fit into the
    buffer, so that nothing is overwritten before it is printed. *)
Fixpoint fits (N : Z) (envs : list (list ract)) (a : alog) : bool :=
  match envs with
  | [] => true
  | acts :: envs =>
      (cn a =? a_end a) ||
      ((a_end a - cn a + emitted acts <=? N) &&
       fits N envs (a_racts N acts (ALog (hist a) (rd a) (a_end a) (fresh a))))
  end.

Lemma shown_app l ps qs : shown l (ps ++ qs) = shown l ps ++ shown l qs.
Proof. unfold shown. by rewrite map_app, concat_app. Qed.

(** One pass: the text up to [log_end] goes out, the others' actions run. *)
Lemma pass_run acts a ids s : rep (rg s) a -> registered (out s) ids -> cn a <> a_end a ->
  a_end a - cn a + emitted acts <= log_buf_len (rg s) ->
  let t := slice (cn a) (a_end a) (hist a) in
  let o := render (length t) (default_message_loglevel (lv s)) (msg_level (ln s)) t in
  brief (log_buf_len (rg s)) (fst o) ->
  let a1 := a_racts (log_buf_len (rg s)) acts (ALog (hist a) (rd a) (a_end a) (fresh a)) in
  exists r1 w, rep r1 a1 /\ log_buf_len r1 = log_buf_len (rg s) /\
    says (out s) ids (shown (lv s) (fst o)) w /\
    (on_ring (modify (with_con_start (log_end (rg s))));; spin_unlock;; on_ring (run_racts acts);;
     call_console_drivers e (con_start (rg s)) (log_end (rg s))) s =
      Some (tt, Klog r1 (lv s) (set_msg_level (snd o) (ln s)) (set_logbuf_lock false (lk s))
                  (out (with_written w s))).
Proof.
  intros R Hr Hne Hlt t o HB a1. pose proof (size_bounds _ _ R) as HN. destruct (rep_cn _ _ R) as [Hcn _].
  destruct (ract_rep RFlush (rg s) a R) as (r0 & E0 & L0 & R0). cbn [a_ract] in R0.
  destruct (racts_rep acts r0 _ R0) as (r1 & E1 & L1 & R1). rewrite L0 in L1, R1. fold a1 in R1.
  destruct (racts_hist (log_buf_len (rg s)) acts (ALog (hist a) (rd a) (a_end a) (fresh a))) as [P Ee]. fold a1 in P, Ee.
  change (a_end (ALog _ _ _ _)) with (a_end a) in Ee. cbn [hist] in P.
  assert (0 <= emitted acts) by (unfold emitted; lia).
  set (s1 := Klog r1 (lv s) (ln s) (set_logbuf_lock false (lk s)) (out s)).
  assert (slice (cn a) (a_end a) (hist a1) = t) as Et.
  { destruct P as [z ->]. subst t. unfold slice. rewrite drop_app_le by (unfold a_end in *; lia).
    rewrite take_app_le; [done|]. rewrite length_drop. unfold a_end in *. lia. }
  assert (Z.to_nat (a_end a - cn a) = length t) as El by (subst t; rewrite slice_length; unfold a_end in *; lia).
  destruct (call_console_run a1 (cn a) (a_end a) ids s1) as (w & Ec & S).
  { split; [done|]. cbn [rg s1]. rewrite L1. lia. }
  { done. }
  { rewrite Et, El. cbn [rg s1]. rewrite L1. exact HB. }
  rewrite Et, El in Ec, S. exists r1, w. split; [done|]. split; [done|]. split; [exact S|].
  cbn [run_ract] in E0. rewrite modify_run in E0.
  rewrite bind_unfold, (on_ring_run _ s _ r0) by (rewrite modify_run; exact E0).
  unfold spin_unlock, in_locks. rewrite bind_unfold, modify_run, bind_unfold.
  rewrite (on_ring_run _ _ _ r1) by exact E1. rewrite (rep_con _ _ R), (rep_end _ _ R). exact Ec.
Qed.

Lemma seq_assoc {A1 A2 A3 A4 B} (m1 : M klog A1) (m2 : M klog A2) (m3 : M klog A3) (m4 : M klog A4) (k : M klog B) s :
  (m1;; m2;; m3;; m4;; k) s = ((m1;; m2;; m3;; m4) ≫= fun _ => k) s.
Proof.
  rewrite !bind_unfold. destruct (m1 s) as [[x1 s1]|]; [|done]. rewrite !bind_unfold.
  destruct (m2 s1) as [[x2 s2]|]; [|done]. rewrite !bind_unfold. by destruct (m3 s2) as [[x3 s3]|].
Qed.

Lemma cn_eqb r a : rep r a -> (con_start r =? log_end r) = (cn a =? a_end a).
Proof.
  intros R. pose proof (size_bounds _ _ R). destruct (rep_cn _ _ R). rewrite (rep_con _ _ R), (rep_end _ _ R).
  apply u32_eqb. lia.
Qed.

Lemma lock_run s : logbuf_lock (lk s) = false -> spin_lock s = Some (tt, with_lk (set_logbuf_lock true (lk s)) s).
Proof. intros HL. unfold spin_lock. by rewrite HL. Qed.

(** The pass that finds nothing to print, and one that prints. *)
Lemma release_stop n envs wake s a : rep (rg s) a -> logbuf_lock (lk s) = false -> cn a = a_end a ->
  release_loop e (S n) envs wake s =
    Some (wake || negb (rd a =? a_end a), with_lk (set_logbuf_lock true (lk s)) s).
Proof.
  intros R HL Hc. cbn [release_loop]. rewrite bind_unfold, lock_run, bind_unfold, gets_run by done.
  cbn [rg with_lk]. rewrite (cn_eqb _ a), Hc, Z.eqb_refl by done. by destruct (reader_lookup _ _ R) as [-> _].
Qed.

Lemma release_pass n envs wake s a ids : rep (rg s) a -> registered (out s) ids -> logbuf_lock (lk s) = false ->
  cn a <> a_end a -> a_end a - cn a + emitted (default [] (head envs)) <= log_buf_len (rg s) ->
  let t := slice (cn a) (a_end a) (hist a) in
  let o := render (length t) (default_message_loglevel (lv s)) (msg_level (ln s)) t in
  brief (log_buf_len (rg s)) (fst o) ->
  let a1 := a_racts (log_buf_len (rg s)) (default [] (head envs)) (ALog (hist a) (rd a) (a_end a) (fresh a)) in
  exists wake' r1 w, rep r1 a1 /\ log_buf_len r1 = log_buf_len (rg s) /\
    says (out s) ids (shown (lv s) (fst o)) w /\
    release_loop e (S n) envs wake s =
      release_loop e n (tail envs) wake'
        (Klog r1 (lv s) (set_msg_level (snd o) (ln s)) (set_logbuf_lock false (lk s)) (out (with_written w s))).
Proof.
  intros R Hr HL Hne Hlt t o HB a1. set (s0 := with_lk (set_logbuf_lock true (lk s)) s).
  destruct (pass_run (default [] (head envs)) a ids s0 R Hr Hne Hlt HB) as (r1 & w & R1 & L1 & S & E).
  eexists _, r1, w. split; [done|]. split; [done|]. split; [exact S|].
  cbn [release_loop]. rewrite bind_unfold, lock_run, bind_unfold, gets_run by done.
  change (rg (with_lk _ s)) with (rg s). rewrite (cn_eqb _ a), (proj2 (Z.eqb_neq _ _) Hne) by done.
  cbv zeta. rewrite seq_assoc. fold s0. rewrite (bind_Some _ _ _ _ _ E). reflexivity.
Qed.

Lemma release_loop_run ids : forall envs fuel a s wake, rep (rg s) a -> registered (out s) ids ->
  logbuf_lock (lk s) = false -> (length envs + 2 <= fuel)%nat ->
  fits (log_buf_len (rg s)) envs a = true ->
  let '(ps, level, a') := a_release (log_buf_len (rg s)) (default_message_loglevel (lv s)) envs a (msg_level (ln s)) in
  brief (log_buf_len (rg s)) ps ->
  exists wake' r' w, rep r' a' /\ log_buf_len r' = log_buf_len (rg s) /\
    says (out s) ids (shown (lv s) ps) w /\ cn a' = a_end a' /\
    release_loop e fuel envs wake s =
      Some (wake', Klog r' (lv s) (set_msg_level level (ln s)) (set_logbuf_lock true (lk s)) (out (with_written w s))).
Proof.
  induction envs as [|acts envs IH]; intros [|fuel] a s wake R Hr HL Hf Hlt; cbn [length concat] in *; try lia;
    cbn [a_release]; destruct (Z.eqb_spec (cn a) (a_end a)) as [Ec|Ec].
  1,3: intros _; rewrite (release_stop _ _ _ _ a) by done; eexists _, (rg s), []; rewrite with_written_nil;
    (split; [done|]); (split; [done|]); (split; [apply says_nil|]); (split; [done|]); do 2 f_equal;
    by rewrite same_line.
  - intros HB. assert (Hcn : a_end a - cn a + emitted (default [] (head [])) <= log_buf_len (rg s)).
    { change (emitted _) with 0. destruct (rep_cn _ _ R). lia. }
    destruct (release_pass fuel [] wake s a ids R Hr HL Ec Hcn HB) as (wk & r1 & w & R1 & L1 & S & ->).
    destruct fuel as [|fuel]; [lia|]. erewrite release_stop; [|exact R1|done|done].
    eexists _, r1, w. split; [done|]. split; [done|]. split; [exact S|]. done.
  - cbn [fits] in Hlt. rewrite (proj2 (Z.eqb_neq _ _) Ec) in Hlt. cbn [orb] in Hlt.
    apply andb_true_iff in Hlt as [Hlt%Z.leb_le Hfits].
    set (t := slice _ _ _). set (o := render _ _ _ t). set (a1 := a_racts _ acts _).
    destruct (a_release _ _ envs a1 (snd o)) as [[ps level] a'] eqn:EA. intros [HB1 HB2]%Forall_app.
    destruct (release_pass fuel (acts :: envs) wake s a ids R Hr HL Ec) as (wk & r1 & w & R1 & L1 & S & ->);
      [cbn [default head from_option id]; lia|done|].
    cbn [default head from_option id tail] in *. fold t o in S |- *. fold a1 in R1.
    match goal with |- context [release_loop e fuel envs wk ?s1] => specialize (IH fuel a1 s1 wk R1 Hr eq_refl) end.
    cbn [rg lv ln msg_level set_msg_level] in IH. rewrite L1, EA in IH.
    destruct IH as (wk' & r' & w' & R' & L' & S' & C' & E'); [lia|exact Hfits|done|].
    exists wk', r', (w ++ w'). split; [done|]. split; [done|]. split; [rewrite shown_app; by apply says_app|]. split; [done|].
    rewrite E'. do 2 f_equal. unfold with_written. cbn. by rewrite app_assoc.
Qed.

(** The state after the release: the ring [r'], the line's level, the semaphore
    and what was written. *)
Lemma release_run envs a ids s : rep (rg s) a -> registered (out s) ids ->
  logbuf_lock (lk s) = false -> console_suspended (lk s) = false ->
  fits (log_buf_len (rg s)) envs a = true ->
  let '(ps, level, a') := a_release (log_buf_len (rg s)) (default_message_loglevel (lv s)) envs a (msg_level (ln s)) in
  brief (log_buf_len (rg s)) ps ->
  exists r' w pending, rep r' a' /\ log_buf_len r' = log_buf_len (rg s) /\
    says (out s) ids (shown (lv s) ps) w /\ cn a' = a_end a' /\
    release_console_sem e envs s =
      Some (tt, Klog r' (lv s) (set_msg_level level (ln s))
        (Locks (printk_cpu (lk s)) (oops_in_progress (lk s)) (oops_timestamp (lk s)) false
           (console_sem (lk s) + 1) false false false)
        (Output (cons (out s)) (console_drivers (out s)) (written (out s) ++ w) (log_wait (out s)) pending)).
Proof.
  intros R Hr HL HS Hlt. unfold release_console_sem. rewrite bind_unfold, gets_run, HS. unfold in_locks.
  rewrite bind_unfold, modify_run. set (s1 := with_lk _ s).
  pose proof (release_loop_run ids envs (length envs + 2) a s1 false R Hr HL ltac:(done) Hlt) as HR.
  cbn [rg lv ln s1 with_lk] in HR. destruct (a_release _ _ envs a _) as [[ps level] a']. intros HB.
  destruct (HR HB) as (wake & r' & w & R' & L' & S & C & E). rewrite bind_unfold, E.
  rewrite bind_unfold, modify_run. unfold up, spin_unlock, in_locks.
  rewrite bind_unfold, modify_run, bind_unfold, modify_run. unfold wake_up_klogd.
  destruct wake; [rewrite modify_run; destruct (log_wait (out s)) eqn:EW|];
    (eexists r', w, _; split; [done|]; split; [done|]; split; [done|]; split; [done|]); cbn; unfold with_out, with_lk, set_logbuf_lock, set_sem, set_locked; cbn; by rewrite ?EW, ?HS.
Qed.

(** C18: Releasing the console semaphore, while other processors write to the log
    between the passes of its loop: each console that takes part is handed exactly
    the lines that are important enough, without their tags, in order, the others
    nothing, and nothing is left to print. This needs that no line is as long as the
    buffer, and that in every pass the text going out and what others write
    meanwhile fit into the buffer. A line as long as the buffer is read past its end
    ([console_overrun]). *)
Theorem release_console_sem_shows envs a ids s : rep (rg s) a -> registered (out s) ids ->
  logbuf_lock (lk s) = false -> console_suspended (lk s) = false ->
  fits (log_buf_len (rg s)) envs a = true ->
  let '(ps, level, a') := a_release (log_buf_len (rg s)) (default_message_loglevel (lv s)) envs a (msg_level (ln s)) in
  brief (log_buf_len (rg s)) ps ->
  exists s' w, release_console_sem e envs s = Some (tt, s') /\
    rep (rg s') a' /\ con_start (rg s') = log_end (rg s') /\ msg_level (ln s') = level /\
    written (out s') = written (out s) ++ w /\
    (forall i, heard i w = if decide (i ∈ audience (out s) ids) then shown (lv s) ps else []) /\
    console_sem (lk s') = console_sem (lk s) + 1 /\ console_locked (lk s') = false /\ logbuf_lock (lk s') = false.
Proof.
  intros R Hr HL HS Hlt. pose proof (release_run envs a ids s R Hr HL HS Hlt) as HR.
  destruct (a_release _ _ envs a _) as [[ps level] a']. intros HB. destruct (HR HB) as (r' & w & pending & R' & _ & S & C & E).
  eexists _, w. split; [exact E|]. split; [done|]. split; [|done]. cbn.
  rewrite (rep_con _ _ R'), (rep_end _ _ R'), C. done.
Qed.

(** ** A line as long as the buffer *)

Lemma write_consoles_overrun start stop : forall ids s,
  audience (out s) ids <> [] ->
  buf_read (log_buf (rg s)) (masked start (rg s)) (Z.to_nat (u32 (stop - start))) = None ->
  write_consoles e ids start stop s = None.
Proof.
  induction ids as [|i ids IH]; intros s Ha Ht; [done|]. cbn [write_consoles].
  rewrite bind_unfold, get_run, bind_unfold. unfold audience in Ha. rewrite filter_cons in Ha.
  destruct (cons (out s) !! i) as [c|] eqn:Ec; [|done]. rewrite lift_opt_run, bind_unfold.
  destruct (accepts e c) eqn:Ea; [by rewrite Ht|].
  rewrite decide_False in Ha by (unfold takes_part; rewrite Ec; congruence). rewrite ret_unfold. by apply IH.
Qed.

Lemma cut_no_newline t : NL ∉ t -> cut t = (t, None).
Proof.
  induction t as [|c t IH]; intros Hn; [done|]. apply not_elem_of_cons in Hn as [Hc Ht]. cbn.
  rewrite (proj2 (Z.eqb_neq c NL)) by done. by rewrite IH.
Qed.

Lemma drivers_some o ids : registered o ids -> ids <> [] -> is_Some (console_drivers o).
Proof.
  intros (Hd & _) Hi. unfold drivers in Hd. destruct (console_drivers o); [by eexists|].
  destruct (size _); injection Hd as <-; done.
Qed.

(** When the text that waits is one line as long as the whole buffer, and does not
    start at the beginning of the array, the test for a wrapped piece fails (both
    ends have the same place) and the consoles are handed [log_buf_len] characters
    from the middle of the array: a read past its end. *)
Theorem console_overrun a ids s :
  let x := a_end a - log_buf_len (rg s) in
  rep (rg s) a -> registered (out s) ids -> audience (out s) ids <> [] ->
  0 <= x -> x mod log_buf_len (rg s) <> 0 -> (NL ∉ slice x (a_end a) (hist a)) ->
  0 <= msg_level (ln s) -> loud (lv s) (msg_level (ln s)) = true ->
  call_console_drivers e (u32 x) (log_end (rg s)) s = None.
Proof.
  intros x R Hr Ha Hx Hm Hn Hlv Hloud. pose proof (size_bounds _ _ R) as HN.
  rewrite (rep_end _ _ R). set (b := a_end a) in *. set (N := log_buf_len (rg s)) in *.
  assert (kept (rg s) a x b) as K by (split; [done|]; fold b; fold N; lia).
  unfold call_console_drivers. rewrite (proj2 (Z.ltb_ge 0 _)) by (rewrite s32_diff; lia).
  rewrite u32_sub_small by lia. replace (Z.to_nat (b - x)) with (S (Z.to_nat (N - 1))) by lia.
  cbn [print_lines]. rewrite (kept_eqb _ a x b K), (proj2 (Z.eqb_neq x b)), bind_unfold by lia.
  match goal with |- context [fun p : Z * Z => @?g p] =>
    destruct (tag_run a x b s g K) as (y & Hy & Ep & E); [lia|] end.
  rewrite (proj2 (Z.ltb_ge _ 0) Hlv) in Ep, E. cbn [snd fst] in Ep, E. rewrite E. clear E.
  assert (y = x) as ->.
  { assert (length (slice x b (hist a)) = length (slice y b (hist a))) as EL by (by rewrite Ep).
    rewrite !slice_length in EL by (subst b; unfold a_end in *; lia). lia. }
  rewrite same_level. cbn iota. rewrite u32_sub_small, bind_unfold by lia.
  rewrite (on_ring_run _ s _ _ (to_newline_run (rg s) a b _ x K eq_refl)).
  rewrite (cut_no_newline _ Hn). cbn [fst snd]. rewrite bool_decide_false by (by intros []). cbn iota.
  replace (x + zlen (slice x b (hist a))) with b by (rewrite slice_length; subst b; unfold a_end in *; lia).
  assert (with_rg (rg s) s = s) as -> by (by destruct s).
  rewrite print_done, bind_unfold, get_run. unfold _call_console_drivers. rewrite bind_unfold, get_run.
  fold (loud (lv s) (msg_level (ln s))). rewrite Hloud, (kept_eqb _ a x b K), (proj2 (Z.eqb_neq x b)) by lia.
  rewrite bool_decide_true by (apply (drivers_some _ ids); [done|by intros ->]). cbn [andb negb]. cbv zeta.
  rewrite !(land_place _ a) by done. fold N.
  assert (b mod N = x mod N) as -> by (replace b with (x + 1 * N) by lia; apply Z_mod_plus_full).
  rewrite Z.ltb_irrefl. unfold __call_console_drivers. destruct Hr as (Hd & _). rewrite bind_unfold, get_run, Hd, bind_unfold, lift_opt_run.
  apply write_consoles_overrun; [done|]. rewrite (masked_place _ a), u32_sub_small by (done || lia).
  apply buf_read_None. pose proof (rep_length _ _ R). fold N in H |- *. pose proof (Z.mod_pos_bound x N). lia.
Qed.
End Show.

(** ** Witnesses *)

Definition ex_cpu : cpu := Cpu 0 true false 0.
(** A serial console that is enabled and one that is not. *)
Definition ex_output : output :=
  Output {[1%positive := Console [116] 0 (Z.lor CON_ENABLED CON_CONSDEV) true true false (Some 2%positive);
           2%positive := Console [117] 0 0 true true false None]} (Some 1%positive) [] false ∅.

Lemma ex_registered : registered ex_output [1%positive; 2%positive].
Proof.
  split; [by vm_compute|]. split; [apply NoDup_cons_2; [set_solver|apply NoDup_singleton]|].
  apply Forall_cons_2; [|apply Forall_singleton]; by eexists; vm_compute.
Qed.

(** "<4>a\n<7>b\n" waits in a ring of 16 characters; the second line is only for
    debugging. *)
Definition ex_pending : list Z := [60; 52; 62; 97; 10; 60; 55; 62; 98; 10].
Definition ex_pending_ring : ring := default (boot_ring 4) (exec (emit_all ex_pending) (boot_ring 4)).

Lemma ex_pending_rep : rep ex_pending_ring (a_emits 16 ex_pending boot_log).
Proof.
  destruct (emits_rep ex_pending (boot_ring 4) boot_log) as (r & E & _ & R); [apply boot_rep; lia|].
  unfold ex_pending_ring, exec. by rewrite E.
Qed.

(** While the first line goes out another processor writes "<4>c\n", which the next
    pass prints. *)
Definition ex_others : list (list ract) := [map REmit [60; 52; 62; 99; 10]].

Lemma release_console_sem_shows_witness :
  exists s' w, release_console_sem ex_cpu ex_others (ex_klog ex_pending_ring ex_output) = Some (tt, s') /\
    con_start (rg s') = log_end (rg s') /\ heard 1 w = [97; 10; 99; 10] /\ heard 2 w = [] /\ written (out s') = w.
Proof.
  assert (Hf : fits (log_buf_len (rg (ex_klog ex_pending_ring ex_output))) ex_others
    (a_emits 16 ex_pending boot_log) = true) by (vm_compute; reflexivity).
  pose proof (release_console_sem_shows ex_cpu ex_others (a_emits 16 ex_pending boot_log) [1%positive; 2%positive]
    (ex_klog ex_pending_ring ex_output) ex_pending_rep ex_registered eq_refl eq_refl Hf) as H.
  destruct (a_release _ _ _ _ _) as [[ps level] a'] eqn:E in H.
  vm_compute in E. injection E as <- <- <-.
  destruct H as (s' & w & E & _ & Hc & _ & Hw & Hh & _); [vm_compute; repeat constructor|].
  exists s', w. split; [exact E|]. split; [exact Hc|]. split; [|split].
  - rewrite (Hh 1%positive). vm_compute. reflexivity.
  - rewrite (Hh 2%positive). vm_compute. reflexivity.
  - exact Hw.
Defined.
