(* ===== verification/PrintkMsg.v ===== *)
(** * From printk to the consoles and to syslog

    A message goes through [vprintk] into the log, with a tag in front of every
    line, and from the log to the consoles without the tags: what they show is the
    text of the message. *)

From stdpp Require Import strings.
From S2P Require Import Prelude Vsprintf Printk PrintkProps PrintkConsole.

(** ** Text with tags *)

(** What the log gets for a text; [b]: it starts on a new line. *)
Fixpoint tagged (b : bool) (level : Z) (p : list Z) : list Z :=
  match p with
  | [] => []
  | c :: p => (if b then [LT; level + CH0; GT] else []) ++ c :: tagged (c =? NL) level p
  end.

(** Whether the next text starts on a new line. *)
Fixpoint ends (b : bool) (p : list Z) : bool :=
  match p with
  | [] => b
  | c :: p => ends (c =? NL) p
  end.

Lemma tagged_length b level p : (length (tagged b level p) <= 4 * length p)%nat.
Proof. revert b. induction p as [|c p IH]; intros b; cbn; [done|]. specialize (IH (c =? NL)). destruct b; cbn; lia. Qed.

Lemma tagged_new level c p : tagged true level (c :: p) = LT :: (level + CH0) :: GT :: tagged false level (c :: p).
Proof. done. Qed.

Lemma cut_tagged level p : cut (tagged false level p) = (fst (cut p), tagged true level <$> snd (cut p)).
Proof.
  induction p as [|c p IH]; [done|]. cbn. destruct (Z.eqb_spec c NL) as [->|Hc]; [done|].
  by rewrite IH.
Qed.

Lemma ends_cut b p : p <> [] ->
  ends b p = match snd (cut p) with Some rest => ends true rest | None => false end.
Proof.
  revert b. induction p as [|c p IH]; intros b Hp; [done|]. cbn. destruct (c =? NL) eqn:Ec; [done|].
  cbn. destruct p as [|c' p]; [done|]. by apply IH.
Qed.

Lemma tag_of_tagged level p : 0 <= level <= 7 -> p <> [] ->
  tag_of (tagged true level p) = Some (level, tagged false level p).
Proof.
  intros Hl Hp. destruct p as [|c p]; [done|]. rewrite tagged_new. unfold tag_of.
  rewrite (proj2 (Z.leb_le CH0 _)), (proj2 (Z.leb_le _ CH7)) by (unfold CH0, CH7; lia). cbn.
  by rewrite Z.add_simpl_r.
Qed.

Lemma tagged_rest level p rest : snd (cut p) = Some rest ->
  (length (tagged true level rest) < length (tagged false level p))%nat.
Proof.
  intros E. assert (p <> []) as Hp by (by intros ->). apply cut_nonempty in Hp.
  rewrite (cut_split (tagged false level p)), cut_tagged, E, length_app. cbn. destruct (fst (cut p)); [done|cbn; lia].
Qed.

(** On a new line: every piece has the message's level, and together they are the
    text. *)
Lemma render_new lv standard level : 0 <= level <= 7 -> forall fuel p,
  (length (tagged true level p) <= fuel)%nat ->
  let o := render fuel standard (-1) (tagged true level p) in
  shown lv (fst o) = (if loud lv level then p else []) /\
  snd o = if ends true p then -1 else level.
Proof.
  intros Hl. induction fuel as [|fuel IH]; intros p Hf o; subst o.
  - destruct p; [|rewrite tagged_new in Hf; cbn in Hf; lia]. by destruct (loud _ _).
  - destruct p as [|c p]; [by destruct (loud _ _)|].
    pose proof (tag_of_tagged level (c :: p) Hl ltac:(done)) as ET. rewrite tagged_new in Hf, ET |- *.
    cbn [render]. change (-1 <? 0) with true. cbn iota. rewrite ET. cbn [default from_option id snd fst].
    pose proof (cut_split (c :: p)) as Ec. pose proof (tagged_rest level (c :: p)) as HT.
    rewrite cut_tagged, (ends_cut true (c :: p)) by done. cbn [length] in Hf.
    destruct (cut (c :: p)) as [l [rest|]]; cbn [fst snd fmap option_fmap option_map default from_option id] in *.
    + specialize (HT rest eq_refl). destruct (IH rest) as [IH1 IH2]; [lia|].
      rewrite shown_cons, IH1, IH2. cbn [fst snd]. rewrite (proj2 (Z.ltb_ge level 0)) by lia.
      rewrite Ec. by destruct (loud lv level).
    + cbn. rewrite app_nil_r in Ec. subst l. by destruct (loud lv level); rewrite ?app_nil_r.
Qed.

(** In the middle of a line of level [old]: the rest of that line goes with it. *)
Lemma render_more lv standard old level p fuel : 0 <= old -> 0 <= level <= 7 -> p <> [] ->
  (length (tagged false level p) <= fuel)%nat ->
  let o := render fuel standard old (tagged false level p) in
  shown lv (fst o) = (if loud lv old then fst (cut p) else []) ++
                     (if loud lv level then default [] (snd (cut p)) else []) /\
  snd o = match snd (cut p) with
          | None => old
          | Some rest => if ends true rest then -1 else level
          end.
Proof.
  intros Ho Hl Hp Hf o. subst o. destruct fuel as [|fuel]; [destruct p; cbn in Hf; [done|lia]|].
  assert (exists c t, tagged false level p = c :: t) as (c & t & Et) by (destruct p; [done|cbn; eauto]).
  pose proof (tagged_rest level p) as HT. rewrite Et in Hf, HT |- *. cbn [render]. rewrite <- Et.
  rewrite (proj2 (Z.ltb_ge old 0)) by lia. cbn [fst snd]. rewrite cut_tagged.
  destruct (cut p) as [l [rest|]]; cbn [fst snd fmap option_fmap option_map default from_option id length] in *.
  - specialize (HT rest eq_refl). destruct (render_new lv standard level Hl fuel rest) as [E1 E2].
    { lia. }
    rewrite shown_cons, E1, E2. cbn [fst snd]. by rewrite (proj2 (Z.ltb_ge old 0)) by lia.
  - cbn. by destruct (loud lv level).
Qed.

(** ** Into the log *)

Lemma a_emits_log N t : forall a,
  hist (a_emits N t a) = hist a ++ t /\
  (a_end a + zlen t - N <= cn a -> cn (a_emits N t a) = cn a).
Proof.
  induction t as [|c t IH]; intros a; cbn [a_emits foldl]; [by rewrite app_nil_r|].
  destruct (IH (a_emit N c a)) as [H1 H2]. unfold a_emits in *. split.
  - rewrite H1. cbn. by rewrite <- app_assoc.
  - cbn [length]. intros Hl. rewrite H2; cbn; unfold a_end in *; cbn; rewrite ?length_app; cbn; lia.
Qed.

Lemma a_emits_app N t1 t2 a : a_emits N (t1 ++ t2) a = a_emits N t2 (a_emits N t1 a).
Proof. apply foldl_app. Qed.

(** The level of a message, whether it asks for a new line, and its text. *)
Definition parse (standard : Z) (p : list Z) : bool * Z * list Z :=
  match p with
  | c0 :: c1 :: c2 :: rest =>
      if (c0 =? LT) && (c2 =? GT) then
        if (CH0 <=? c1) && (c1 <=? CH7) then (true, c1 - CH0, rest)
        else if c1 =? CHd then (true, standard, rest)
        else if c1 =? CHc then (false, standard, rest)
        else (false, standard, p)
      else (false, standard, p)
  | _ => (false, standard, p)
  end.

Lemma parse_level_bounds standard p : 0 <= standard <= 7 -> 0 <= snd (fst (parse standard p)) <= 7.
Proof.
  intros Hs. unfold parse. repeat case_match; zbool; cbn in *; unfold CH0, CH7 in *; lia.
Qed.

Lemma parse_length standard p : (length (snd (parse standard p)) <= length p)%nat.
Proof. unfold parse. repeat case_match; cbn; lia. Qed.

Definition fresh_text (b demand : bool) : list Z := if demand && negb b then [NL] else [].

Lemma parse_level_run p s a : rep (rg s) a ->
  let '(demand, level, body) := parse (default_message_loglevel (lv s)) p in
  let b := new_text_line (ln s) in
  exists r', parse_level p s =
      Some ((level, body), with_ln (set_new_text_line (b || demand) (ln s)) (with_rg r' s)) /\
    log_buf_len r' = log_buf_len (rg s) /\ rep r' (a_emits (log_buf_len (rg s)) (fresh_text b demand) a).
Proof.
  intros R. unfold parse, parse_level.
  assert (with_ln (set_new_text_line (new_text_line (ln s) || false) (ln s)) (with_rg (rg s) s) = s) as Hsame
    by (rewrite orb_false_r; by destruct s as [? ? [] ? ?]).
  assert (forall l q, exists r', (mret (l, q) : M klog (Z * list Z)) s =
      Some ((l, q), with_ln (set_new_text_line (new_text_line (ln s) || false) (ln s)) (with_rg r' s)) /\
    log_buf_len r' = log_buf_len (rg s) /\
    rep r' (a_emits (log_buf_len (rg s)) (fresh_text (new_text_line (ln s)) false) a)) as Hno.
  { intros l q. exists (rg s). rewrite Hsame. done. }
  assert (forall (l : Z) (q : list Z), exists r',
      ((t ← gets ln; if new_text_line t then mret tt
        else on_ring (emit_log_char NL);; in_line (set_new_text_line true));; mret (l, q)) s =
      Some ((l, q), with_ln (set_new_text_line (new_text_line (ln s) || true) (ln s)) (with_rg r' s)) /\
    log_buf_len r' = log_buf_len (rg s) /\
    rep r' (a_emits (log_buf_len (rg s)) (fresh_text (new_text_line (ln s)) true) a)) as Hyes.
  { intros l q. rewrite orb_true_r, bind_unfold, bind_unfold, gets_run. destruct (new_text_line (ln s)) eqn:Eb.
    - exists (rg s). change (true || false) with true in Hsame. rewrite Hsame. done.
    - destruct (emit_rep NL (rg s) a R) as (r' & E & L & R'). exists r'.
      rewrite bind_unfold, (on_ring_run _ _ _ _ E). done. }
  destruct p as [|c0 [|c1 [|c2 rest]]]; rewrite bind_unfold, gets_run; try apply Hno.
  destruct ((c0 =? LT) && (c2 =? GT)); [|apply Hno]. cbv zeta.
  destruct ((CH0 <=? c1) && (c1 <=? CH7)); [apply Hyes|].
  destruct (c1 =? CHd); [apply Hyes|]. destruct (c1 =? CHc); apply Hno.
Qed.

Lemma put_text_run level stamp : 0 <= level <= 7 -> forall p plen s a,
  rep (rg s) a -> printk_time (ln s) = false ->
  let b := new_text_line (ln s) in
  exists r', put_text level stamp p plen s =
      Some (plen + zlen (tagged b level p) - zlen p,
            with_ln (set_new_text_line (ends b p) (ln s)) (with_rg r' s)) /\
    log_buf_len r' = log_buf_len (rg s) /\
    rep r' (a_emits (log_buf_len (rg s)) (tagged b level p) a).
Proof.
  intros Hl. induction p as [|c p IH]; intros plen s a R HT b; subst b.
  - exists (rg s). cbn [put_text ends tagged length]. rewrite ret_unfold. split; [|done].
    do 2 f_equal; [lia|by destruct s as [? ? [] ? ?]].
  - cbn [put_text]. rewrite bind_unfold, gets_run.
    assert (exists r1, rep r1 (a_emits (log_buf_len (rg s)) (if new_text_line (ln s) then [LT; level + CH0; GT] else []) a) /\
      log_buf_len r1 = log_buf_len (rg s) /\
      (if new_text_line (ln s) then
         on_ring (emit_all [LT; u8 (level + CH0); GT]);; in_line (set_new_text_line false);;
         if printk_time (ln s) then on_ring (emit_all stamp);; mret (plen + 3 + zlen stamp) else mret (plen + 3)
       else mret plen) s = Some (plen + (if new_text_line (ln s) then 3 else 0),
                                 with_ln (set_new_text_line false (ln s)) (with_rg r1 s))) as (r1 & R1 & L1 & E1).
    { rewrite HT. destruct (new_text_line (ln s)) eqn:Eb.
      - rewrite u8_small by (unfold CH0; lia).
        destruct (emits_rep [LT; level + CH0; GT] (rg s) a R) as (r1 & E1 & L1 & R1). exists r1.
        split; [done|]. split; [done|]. by rewrite bind_unfold, (on_ring_run _ _ _ _ E1).
      - exists (rg s). rewrite Z.add_0_r. do 2 (split; [done|]). rewrite <- Eb. by destruct s as [? ? [] ? ?]. }
    rewrite bind_unfold, E1. set (a1 := a_emits _ _ a) in R1. set (s1 := with_ln _ (with_rg r1 s)) in *.
    destruct (emit_rep c r1 a1 R1) as (r2 & E2 & L2 & R2). rewrite L1 in L2, R2.
    rewrite bind_unfold, (on_ring_run _ s1 _ _ E2), bind_unfold.
    set (s2 := with_ln (set_new_text_line (c =? NL) (ln s)) (with_rg r2 s)).
    assert ((if c =? NL then in_line (set_new_text_line true) else mret tt) (with_rg r2 s1) = Some (tt, s2)) as ->
      by (by subst s2; destruct (c =? NL)).
    destruct (IH (plen + (if new_text_line (ln s) then 3 else 0)) s2 _ R2 HT) as (r3 & -> & L3 & R3).
    cbn [rg s2 with_ln with_rg ln new_text_line set_new_text_line] in L3, R3. exists r3. rewrite L2 in L3, R3.
    split; [|split; [done|]].
    + cbn [new_text_line ln s2 with_ln set_new_text_line tagged ends]. do 2 f_equal.
      rewrite length_app. cbn [length]. destruct (new_text_line (ln s)); cbn [length]; lia.
    + cbn [tagged]. by rewrite a_emits_app.
Qed.

Section Print.
Context (e : cpu).
Context (online : cpu_online e = true) (cpu_number : 0 <= this_cpu e < 2 ^ 31).

Lemma acquire_run s : console_sem (lk s) = 1 -> console_suspended (lk s) = false ->
  acquire_console_semaphore_for_printk e s =
    Some (true, with_lk (Locks UINT_MAX (oops_in_progress (lk s)) (oops_timestamp (lk s)) false 0 true false false) s).
Proof.
  intros Hs Hp. unfold acquire_console_semaphore_for_printk, can_use_console. rewrite online.
  destruct s as [? ? ? [] ?]. cbn in Hs, Hp. subst. reflexivity.
Qed.

(** ** A message *)

(** Nothing waits to be printed and nobody holds the locks. *)
Record calm (s : klog) (a : alog) (ids : list positive) : Prop := Calm {
  calm_rep : rep (rg s) a;
  calm_cons : registered (out s) ids;
  calm_size : 4096 <= log_buf_len (rg s);
  calm_flushed : cn a = a_end a;
  calm_cpu : printk_cpu (lk s) <> this_cpu e;
  calm_lock : logbuf_lock (lk s) = false;
  calm_sem : console_sem (lk s) = 1;
  calm_awake : console_suspended (lk s) = false;
  calm_time : printk_time (ln s) = false;
  calm_recursion : recursion_bug (ln s) = false;
  calm_standard : 0 <= default_message_loglevel (lv s) <= 7
}.

(** [msg_level] is the level of the line that is not finished, if there is one. *)
Definition at_level (t : line) : Prop :=
  if new_text_line t then msg_level t = -1 else 0 <= msg_level t <= 7.

Definition ready (s : klog) (a : alog) (ids : list positive) : Prop := calm s a ids /\ at_level (ln s).

(** What the consoles show of a message of this level and text: all of it when it
    starts on a new line, which a level tag sees to; otherwise its first line ends
    the line of level [old]. *)
Definition console_text (l : levels) (b : bool) (old : Z) (demand : bool) (level : Z) (body : list Z) : list Z :=
  if b || demand then
    (if loud l old then fresh_text b demand else []) ++ (if loud l level then body else [])
  else
    (if loud l old then fst (cut body) else []) ++ (if loud l level then default [] (snd (cut body)) else []).

Lemma render_message l standard b old demand level body :
  0 <= level <= 7 -> (if b : bool then old = -1 else 0 <= old <= 7) ->
  let t := fresh_text b demand ++ tagged (b || demand) level body in
  let o := render (length t) standard old t in
  shown l (fst o) = console_text l b old demand level body /\
  (if ends (b || demand) body then snd o = -1 else 0 <= snd o <= 7).
Proof.
  intros Hl Ho t o. subst t o. unfold console_text, fresh_text. destruct b; cbn [orb andb negb].
  - subst old. rewrite andb_false_r. cbn [app].
    destruct (render_new l standard level Hl (length (tagged true level body)) body) as [-> ->]; [done|].
    split; [by destruct (loud l (-1))|]. by destruct (ends true body).
  - destruct demand; cbn [andb app].
    + cbn [length render]. rewrite (proj2 (Z.ltb_ge old 0)) by lia. cbn [snd fst cut]. rewrite Z.eqb_refl.
      destruct (render_new l standard level Hl (length (tagged true level body)) body) as [E1 E2]; [done|].
      cbn [fst snd]. rewrite shown_cons, E1, E2, (proj2 (Z.ltb_ge old 0)) by lia. split; [done|].
      by destruct (ends true body).
    + destruct (decide (body = [])) as [->|Hb]; [cbn; by destruct (loud l old), (loud l level)|].
      destruct (render_more l standard old level body (length (tagged false level body))) as [-> ->]; [lia|done|done|done|].
      split; [done|]. rewrite (ends_cut false body Hb). destruct (snd (cut body)) as [rest|]; [|lia].
      by destruct (ends true rest).
Qed.

Lemma logged_text N t a : rd a <= a_end a -> cn a = a_end a -> zlen t < N ->
  let a1 := a_emits N t a in
  hist a1 = hist a ++ t /\ cn a1 = a_end a /\ a_end a1 = a_end a + zlen t /\ slice (cn a1) (a_end a1) (hist a1) = t.
Proof.
  intros Hr Hc Ht a1. destruct (a_emits_log N t a) as [E1 E2]. fold a1 in E1, E2. rewrite E2, Hc by lia.
  assert (a_end a1 = a_end a + zlen t) as Ee by (unfold a_end; rewrite E1, length_app; lia).
  split; [done|]. split; [done|]. split; [done|]. rewrite Ee, E1. unfold slice, a_end.
  replace (Z.to_nat (zlen (hist a))) with (length (hist a)) by lia. rewrite drop_app_length. apply take_ge. lia.
Qed.

(** The C string [vprintk] makes of the formatted text. *)
Definition message (text : list Z) : list Z := c_string (take 1023 text).

Lemma c_string_length l : (length (c_string l) <= length l)%nat.
Proof. induction l as [|c l IH]; cbn; [done|]. destruct (c =? 0); cbn; lia. Qed.

(** Everything of [vprintk] before the console semaphore. *)
Lemma vprintk_run text stamp s a ids : calm s a ids ->
  let '(demand, level, body) := parse (default_message_loglevel (lv s)) (message text) in
  let b := new_text_line (ln s) in
  let t := fresh_text b demand ++ tagged (b || demand) level body in
  exists n r1, rep r1 (a_emits (log_buf_len (rg s)) t a) /\ log_buf_len r1 = log_buf_len (rg s) /\
    n = zlen (take 1023 text) + zlen (tagged (b || demand) level body) - zlen body /\
    vprintk e text stamp [] s =
      (release_console_sem e [];; mret n)
        (Klog r1 (lv s) (set_new_text_line (ends (b || demand) body) (ln s))
           (Locks UINT_MAX (oops_in_progress (lk s)) (oops_timestamp (lk s)) false 0 true false false) (out s)).
Proof.
  intros [R Hr HZ Hf Hc Hl Hs Hp HT Hrec Hstd].
  pose proof (parse_level_bounds _ (message text) Hstd) as Hlev.
  set (s1 := with_lk (set_printk_cpu (this_cpu e) (set_logbuf_lock true (lk s))) s).
  pose proof (parse_level_run (message text) s1 a R) as HP. cbn [lv ln rg s1 with_lk] in HP.
  destruct (parse _ (message text)) as [[demand level] body]. destruct HP as (r0 & EP & L0 & R0). cbn [fst snd] in Hlev.
  set (b := new_text_line (ln s)) in *. set (s2 := with_ln _ (with_rg r0 s1)) in *.
  destruct (put_text_run level stamp Hlev body (zlen (take 1023 text)) s2 _ R0 HT) as (r1 & ET & L1 & R1).
  change (new_text_line (ln s2)) with (b || demand) in ET, R1. change (rg s2) with r0 in L1, R1. rewrite L0 in L1, R1.
  eexists _, r1. rewrite a_emits_app. split; [exact R1|]. split; [done|]. split; [reflexivity|].
  unfold vprintk, vprintk_with. rewrite bind_unfold, gets_run, (proj2 (Z.eqb_neq _ _) Hc). cbn [andb].
  rewrite bind_unfold, ret_unfold, bind_unfold, lock_run by done. unfold in_locks, in_line.
  rewrite bind_unfold, modify_run, bind_unfold, gets_run, bind_unfold, modify_run.
  cbn [ln with_lk]. rewrite Hrec. cbv zeta. change (cut_text text []) with (take 1023 text). rewrite bind_unfold, lift_opt_run. cbn [fst snd].
  fold (message text).
  match goal with |- context [parse_level (message text) ≫= ?g] =>
    match goal with |- context [(parse_level (message text) ≫= g) ?s'] => replace s' with s1 end end.
  2:{ unfold s1. destruct s as [? ? [] ? ?]. cbn in Hrec. by subst. }
  rewrite (bind_Some _ _ _ _ _ EP). cbn [fst snd]. rewrite (bind_Some _ _ _ _ _ ET).
  rewrite bind_unfold, acquire_run by done. reflexivity.
Qed.

Lemma a_release_nil N standard a level :
  let t := slice (cn a) (a_end a) (hist a) in
  let o := render (length t) standard level t in
  a_release N standard [] a level = (fst o, snd o, ALog (hist a) (rd a) (a_end a) (fresh a)).
Proof.
  cbn [a_release]. destruct (Z.eqb_spec (cn a) (a_end a)) as [E|E]; [|done].
  rewrite E, slice_empty. cbn. rewrite <- E. by destruct a.
Qed.

(** The whole of [vprintk] from a calm state: what the consoles write is the
    rendering of what it logs. *)
Lemma printk_run text stamp s a ids : calm s a ids ->
  let '(demand, level, body) := parse (default_message_loglevel (lv s)) (message text) in
  let b := new_text_line (ln s) in
  let t := fresh_text b demand ++ tagged (b || demand) level body in
  let o := render (length t) (default_message_loglevel (lv s)) (msg_level (ln s)) t in
  exists n s' a' w, vprintk e text stamp [] s = Some (n, s') /\ calm s' a' ids /\ hist a' = hist a ++ t /\
    says e (out s) ids (shown (lv s) (fst o)) w /\ lv s' = lv s /\
    ln s' = set_msg_level (snd o) (set_new_text_line (ends (b || demand) body) (ln s)) /\
    exists pending, out s' = Output (cons (out s)) (console_drivers (out s)) (written (out s) ++ w)
      (log_wait (out s)) pending.
Proof.
  intros HR. pose proof (vprintk_run text stamp s a ids HR) as HV.
  pose proof (parse_length (default_message_loglevel (lv s)) (message text)) as HLen.
  destruct (parse _ (message text)) as [[demand level] body]. destruct HV as (n & r1 & R1 & L1 & _ & EV).
  cbn [fst snd] in *. destruct HR as [R Hr HZ Hf Hc Hl Hs Hp HT Hrec Hstd]. set (b := new_text_line (ln s)) in *.
  set (t := fresh_text b demand ++ tagged (b || demand) level body) in *. cbv zeta. set (o := render _ _ _ t).
  assert (zlen t < log_buf_len (rg s)) as Ht.
  { subst t. rewrite length_app. pose proof (tagged_length (b || demand) level body).
    pose proof (c_string_length (take 1023 text)). rewrite length_take in *. unfold message in HLen.
    unfold fresh_text. destruct (demand && negb b); cbn [length]; lia. }
  destruct (logged_text _ t a ltac:(apply (rep_rd _ _ R)) Hf Ht) as (Eh & Ecn & Een & Et).
  set (a1 := a_emits _ t a) in *. set (s1 := Klog r1 _ _ _ _) in EV.
  pose proof (release_run e [] a1 ids s1 R1 Hr eq_refl eq_refl) as HREL. cbn [rg lv ln lk out s1 msg_level set_new_text_line] in HREL.
  rewrite L1, a_release_nil, Et in HREL.
  destruct HREL as (r2 & w & pending & R2 & L2 & S2 & C2 & E2); [done|by apply render_brief|].
  eexists n, _, (ALog (hist a1) (rd a1) (a_end a1) (fresh a1)), w. rewrite EV, (bind_Some _ _ _ _ _ E2), ret_unfold.
  split; [reflexivity|]. split; [|split; [exact Eh|split; [exact S2|split; [done|split; [done|by exists pending]]]]].
  constructor; cbn; try done; [lia|unfold UINT_MAX; lia].
Qed.

(** vprintk shows its message: from a state with nothing left to print, the log
    grows by the text with a tag in front of each of its lines, every console that
    takes part gets the text itself, without tags, if its level is important
    enough, the others nothing, and the state is as before, ready for the next
    message. Text beyond 1023 characters is cut off. *)
Lemma vprintk_shows text stamp s a ids : ready s a ids ->
  let '(demand, level, body) := parse (default_message_loglevel (lv s)) (message text) in
  let b := new_text_line (ln s) in
  exists n s' a' w, vprintk e text stamp [] s = Some (n, s') /\ ready s' a' ids /\
    hist a' = hist a ++ fresh_text b demand ++ tagged (b || demand) level body /\
    written (out s') = written (out s) ++ w /\
    (forall i, heard i w = if decide (i ∈ audience e (out s) ids)
                           then console_text (lv s) b (msg_level (ln s)) demand level body else []) /\
    new_text_line (ln s') = ends (b || demand) body /\ lv s' = lv s.
Proof.
  intros [HR Hlv]. pose proof (printk_run text stamp s a ids HR) as HV.
  pose proof (parse_level_bounds _ (message text) (calm_standard _ _ _ HR)) as Hlev.
  destruct (parse _ (message text)) as [[demand level] body]. cbn [fst snd] in Hlev. set (b := new_text_line (ln s)) in *.
  destruct HV as (n & s' & a' & w & E & HC & Hh & S & Hl & Hn & pending & Ho).
  destruct (render_message (lv s) (default_message_loglevel (lv s)) b (msg_level (ln s)) demand level body Hlev Hlv) as [ES EL].
  rewrite ES in S. exists n, s', a', w. split; [exact E|]. split; [split; [exact HC|]|].
  { unfold at_level. rewrite Hn. exact EL. }
  split; [exact Hh|]. rewrite Ho, Hn. split; [done|]. split; [exact S|done].
Qed.
End Print.

(** ** Witness *)

Definition ex_boot : klog := ex_klog (boot_ring 14) ex_output.

Lemma ex_boot_ready : ready ex_cpu ex_boot boot_log [1%positive; 2%positive].
Proof.
  split; [|done]. constructor; try done; [apply boot_rep; lia|exact ex_registered|..]; cbn; unfold UINT_MAX; lia.
Qed.
