(* ===== verification/PrintkFormat.v ===== *)
(** * The kernel log: formatted messages

    [vprintk] with the format and its arguments: [vscnprintf] fills the buffer
    [printk_buf] behind the prefix of a recursion. The buffer is memory of 1024 bytes
    at an address, with whatever an earlier message has left in it. *)

From stdpp Require Import strings.
From S2P Require Import Prelude Vsprintf Format FormatProps Printk PrintkProps PrintkConsole PrintkMsg.

Section Format.
Context (symbol : bool -> Z -> list Z) (printk_buf : Z).

(** The prefix is copied with its terminator. *)
Definition format_buf (m fmt : list Z) (args : list arg) (prefix : list Z) : option (Z * list Z) :=
  m ← (if bool_decide (prefix = []) then Some m else buf_write m 0 (prefix ++ [0]));
  let printed_len := length prefix in
  r ← vscnprintf symbol (printk_buf + Z.of_nat printed_len) (Z.of_nat (printk_buf_size - printed_len)) (drop printed_len m) fmt args;
  let '(n, m', _) := r in
  Some (Z.of_nat printed_len + n, take printed_len m ++ m').

Definition vprintk_fmt (e : cpu) (m fmt : list Z) (args : list arg) : list Z -> list (list ract) -> M klog Z :=
  vprintk_with e (format_buf m fmt args).

(** ** The buffer *)

Lemma c_string_stop l r : c_string (l ++ 0 :: r) = c_string l.
Proof. induction l as [|c l IH]; [done|]. cbn [app c_string]. destruct (c =? 0); [done|]. by rewrite IH. Qed.

(** The text of a format and its arguments, whatever the buffer is; [vsnprintf_truncates]
    says that there is one if the call is defined. *)
Definition formats (fmt : list Z) (args : list arg) (t : list Z) : Prop :=
  Z.of_nat (length t) < 2 ^ 31 /\ exists st, forall buf size m, buffer_ok buf size m ->
    vsnprintf symbol buf size m fmt args = Some (Z.of_nat (length t), terminated size t m, st).

Context (in_memory : 0 <= printk_buf /\ printk_buf + 1024 < 2 ^ 32).

Lemma format_buf_ok m fmt args t prefix : length m = printk_buf_size -> prefix ∈ [[]; recursion_bug_msg] -> formats fmt args t ->
  exists b, format_buf m fmt args prefix = Some (Z.of_nat (length (cut_text t prefix)), b) /\ c_string b = c_string (cut_text t prefix).
Proof.
  intros Hm Hp (Ht & st & Ha). assert (length prefix <= 100)%nat as Hl.
  { set_unfold in Hp. destruct Hp as [-> |[-> | []]]; vm_compute; lia. }
  unfold format_buf. set (m0 := if bool_decide _ then _ else _). assert (exists m1, m0 = Some m1 /\ length m1 = printk_buf_size /\ take (length prefix) m1 = prefix) as (m1 & -> & Hm1 & Hpre).
  { unfold m0. case_bool_decide as Hb; [subst; by exists m|]. rewrite buf_write_Some by (rewrite length_app, Hm; unfold printk_buf_size; cbn [length]; lia).
    eexists. split; [done|]. rewrite take_0. cbn [app Nat.add]. split.
    - rewrite !length_app, length_drop, Hm. unfold printk_buf_size. cbn [length]. lia.
    - rewrite <- app_assoc. apply take_app_length. }
  cbn [mbind option_bind]. unfold vscnprintf, printk_buf_size in *. rewrite Ha.
  2: { split; [lia|]. split; [lia|]. split; [lia|]. rewrite length_drop, Hm1. lia. }
  cbn [mbind option_bind]. unfold terminated, cut_text, printk_buf_size. rewrite (proj2 (Z.eqb_neq _ 0)) by lia. rewrite Hpre.
  replace (Z.to_nat (Z.of_nat (1024 - length prefix) - 1)) with (1024 - length prefix - 1)%nat by lia.
  match goal with |- exists b, Some (?x, ?y) = _ /\ _ => exists y; assert (x = Z.of_nat (length (prefix ++ take (1024 - length prefix - 1) t))) as -> end.
  - rewrite length_app, length_take. rewrite u32_small by (unfold is_u32; lia).
    destruct (Z.leb_spec (Z.of_nat (1024 - length prefix)) (Z.of_nat (length t))); [rewrite s32_small|]; lia.
  - split; [done|]. by rewrite app_assoc, c_string_stop.
Qed.

(** ** The message *)

Lemma bind_ext {S A B} (m : M S A) (f g : A -> M S B) s : (forall a s', f a s' = g a s') -> (m ≫= f) s = (m ≫= g) s.
Proof. intros H. rewrite !bind_unfold. destruct (m s) as [[a s']|]; [apply H|done]. Qed.

(** Only the C string in the buffer and its length count. *)
Lemma vprintk_with_ext e f g stamp envs s :
  (forall prefix, prefix ∈ [[]; recursion_bug_msg] -> exists n b b', f prefix = Some (n, b) /\ g prefix = Some (n, b') /\ c_string b = c_string b') ->
  vprintk_with e f stamp envs s = vprintk_with e g stamp envs s.
Proof.
  intros H. unfold vprintk_with. apply bind_ext. intros k s1. destruct (_ && _); [done|]. do 5 (apply bind_ext; intros ? ?).
  match goal with |- context [f ?p] => destruct (H p) as (n & b & b' & -> & -> & E) end; [destruct (recursion_bug _); set_solver|].
  rewrite !bind_unfold, !lift_opt_run. cbn [fst snd]. by rewrite E.
Qed.

(** With its arguments, a format is the text that [vsnprintf] makes of it. *)
Lemma vprintk_fmt_text e fmt args t m stamp envs s : formats fmt args t -> length m = printk_buf_size ->
  vprintk_fmt e m fmt args stamp envs s = vprintk e t stamp envs s.
Proof.
  intros Ht Hm. apply vprintk_with_ext. intros prefix Hp.
  destruct (format_buf_ok m fmt args t prefix Hm Hp Ht) as (b & Eb & Es). by eexists _, b, _.
Qed.

(** C16: printk shows its message: from a state with nothing left to print, the log grows
    by the text that the format and its arguments give, with a tag in front of each of
    its lines; every console that takes part gets the text itself, without tags, if
    its level is important enough, the others nothing; and the state is as before,
    ready for the next message. Text beyond 1023 characters is cut off, and what an
    earlier message has left in the buffer makes no difference. *)
Theorem printk_shows e m fmt args t stamp s a ids : cpu_online e = true -> 0 <= this_cpu e < 2 ^ 31 -> length m = printk_buf_size ->
  formats fmt args t -> ready e s a ids ->
  let '(demand, level, body) := parse (default_message_loglevel (lv s)) (message t) in
  let b := new_text_line (ln s) in
  exists n s' a' w, vprintk_fmt e m fmt args stamp [] s = Some (n, s') /\ ready e s' a' ids /\
    hist a' = hist a ++ fresh_text b demand ++ tagged (b || demand) level body /\
    written (Printk.out s') = written (Printk.out s) ++ w /\
    (forall i, heard i w = if decide (i ∈ audience e (Printk.out s) ids)
                           then console_text (lv s) b (msg_level (ln s)) demand level body else []) /\
    new_text_line (ln s') = ends (b || demand) body /\ lv s' = lv s.
Proof.
  intros Hon Hcpu Hm Ht HR. pose proof (vprintk_shows e Hon Hcpu t stamp s a ids HR) as H.
  destruct (parse _ (message t)) as [[demand level] body]. rewrite (vprintk_fmt_text e fmt args t m stamp [] s Ht Hm). exact H.
Qed.
End Format.

Lemma digits_bound f : forall n, (length (digits f n) <= f)%nat.
Proof.
  induction f as [|f IH]; intros n; cbn [digits]; [done|]. destruct (n <? 10); [cbn; lia|]. rewrite length_app. specialize (IH (n / 10)). cbn [length]. lia.
Qed.

Lemma formats_d symbol z : - 2 ^ 31 <= z < 2 ^ 31 -> formats symbol (chars "%d") [Word z] (decimal z).
Proof.
  intros Hz. assert (Z.of_nat (length (decimal z)) < 2 ^ 31) as Hl.
  { assert (length (decimal z) <= 21)%nat; [|lia]. unfold decimal. pose proof (fun n => digits_bound 20 n).
    destruct (z <? 0); cbn [length]; [specialize (H (- z))|specialize (H z)]; lia. }
  split; [done|]. exists []. intros buf size m Hok. rewrite vsnprintf_d by done. by rewrite s32_small by lia.
Qed.

(** printk("%d", -42), with an old message in the buffer. *)
Lemma printk_shows_witness :
  exists n s' a' w, vprintk_fmt (fun _ _ => []) 0xc0400000 ex_cpu (chars "old" ++ replicate (1021) 0) (chars "%d") [Word (-42)] [] [] ex_boot = Some (n, s') /\
    ready ex_cpu s' a' [1%positive; 2%positive] /\ hist a' = chars "<4>-42" /\
    written (Printk.out s') = w /\ heard 1 w = chars "-42" /\ heard 2 w = [].
Proof.
  destruct (printk_shows (fun _ _ => []) 0xc0400000 ltac:(lia) ex_cpu (chars "old" ++ replicate (1021) 0) (chars "%d") [Word (-42)] (chars "-42") [] ex_boot boot_log
    [1%positive; 2%positive] eq_refl ltac:(vm_compute; split; discriminate || reflexivity) eq_refl (formats_d _ (-42) ltac:(lia)) ex_boot_ready)
    as (n & s' & a' & w & E & HR & Hh & Hw & Ht & _).
  exists n, s', a', w. split; [exact E|]. split; [exact HR|]. split; [exact Hh|]. split; [exact Hw|].
  split; [rewrite (Ht 1%positive) | rewrite (Ht 2%positive)]; vm_compute; reflexivity.
Defined.
