(* ===== verification/PrintkBoot.v ===== *)
(** * Growing and dumping the log

    At boot the log can be moved to a larger buffer; when the kernel dies it is
    handed to the dumpers in two pieces. Both keep the text. *)

From stdpp Require Import strings.
From S2P Require Import Prelude Vsprintf Printk PrintkProps PrintkConsole.

(** ** Growing *)

Lemma copy_log_run r a stop : rep r a -> log_buf_len r = __LOG_BUF_LEN -> stop = a_end a ->
  forall n x k new, n = Z.to_nat (stop - x) -> Z.max 0 (stop - log_buf_len r) <= x <= stop ->
  (k + n <= length new)%nat ->
  copy_log n (log_buf r) (u32 x) (u32 stop) k new =
    Some (take k new ++ slice x stop (hist a) ++ drop (k + n) new).
Proof.
  intros R HB ->. pose proof (size_bounds _ _ R). induction n as [|n IH]; intros x k new En Hx Hk; cbn [copy_log];
    rewrite u32_eqb by lia.
  - assert (x = a_end a) as -> by lia. rewrite Z.eqb_refl, slice_empty, Nat.add_0_r. cbn. by rewrite take_drop.
  - rewrite (proj2 (Z.eqb_neq x _)) by lia.
    destruct (lookup_lt_is_Some_2 (hist a) (Z.to_nat x)) as [c Ec]; [unfold a_end in *; lia|].
    assert (log_buf r !! Z.to_nat (Z.land (u32 x) (__LOG_BUF_LEN - 1)) = Some c) as ->.
    { rewrite <- HB. rewrite <- (u32_small (log_buf_len r - 1)) by lia. fold (LOG_BUF_MASK r).
      rewrite (land_place r a) by done. rewrite (rep_text _ _ R) by lia. done. }
    cbn [mbind option_bind]. rewrite buf_write_one by lia. cbn [mbind option_bind].
    rewrite u32_succ, (IH (x + 1) (S k)) by (rewrite ?length_insert; lia). f_equal.
    rewrite (slice_cons x _ _ c), splice_insert by (done || lia). do 3 f_equal. lia.
Qed.

Lemma roundup_bounds arg k : 0 <= k <= 30 -> 2 ^ k < arg <= 2 ^ 30 ->
  exists j, k < j <= 30 /\ roundup_pow_of_two arg = Some (2 ^ j) /\ arg <= 2 ^ j.
Proof.
  intros Hk Ha. pose proof (Z.pow_pos_nonneg 2 k). unfold roundup_pow_of_two.
  assert (k <= Z.log2 (arg - 1)) by (apply Z.log2_le_pow2; lia).
  assert (Z.log2 (arg - 1) < 30) by (apply Z.log2_lt_pow2; lia).
  exists (Z.log2 (arg - 1) + 1). rewrite (proj2 (Z.ltb_lt _ 32)) by lia. split; [lia|].
  rewrite Z.shiftl_mul_pow2, Z.mul_1_l by lia. split; [done|].
  pose proof (Z.log2_spec (arg - 1) ltac:(lia)). rewrite Z.add_1_r. lia.
Qed.

(** Growing the buffer at boot (log_buf_len=) keeps the log: the new buffer has
    at least the size asked for, a power of two, and holds everything the reader
    and the consoles have not had, at their places. *)
Theorem log_buf_grows arg mem r a :
  rep r a -> log_buf_len r = __LOG_BUF_LEN -> __LOG_BUF_LEN < arg <= 2 ^ 30 ->
  (forall size, 0 <= size -> exists new, mem size = Some new /\ zlen new = size) ->
  a_end a < 2 ^ 32 -> fresh a <= a_end a - Z.min (rd a) (cn a) ->
  let off := Z.min (cn a) (rd a) in
  exists size r', log_buf_len_setup arg mem r = Some (NewLength size, r') /\
    arg <= size /\ log_buf_len r' = size /\
    rep r' (ALog (drop (Z.to_nat off) (hist a)) (rd a - off) (cn a - off) (fresh a)).
Proof.
  intros R HB Ha Hmem Hw Hf off. pose proof (size_bounds _ _ R) as HN.
  destruct (roundup_bounds arg CONFIG_LOG_BUF_SHIFT) as (j & Hj & Er & Hle); [unfold CONFIG_LOG_BUF_SHIFT; lia|exact Ha|].
  destruct (rep_rd _ _ R), (rep_cn _ _ R), (rep_fresh _ _ R) as [EF HF].
  pose proof (Z.pow_le_mono_r 2 j 30 ltac:(lia) ltac:(lia)). assert (1 <= __LOG_BUF_LEN < 2 ^ j) as HB2 by lia.
  assert (a_end a - rd a <= __LOG_BUF_LEN /\ a_end a - cn a <= __LOG_BUF_LEN) as [? ?] by lia.
  destruct (Hmem (2 ^ j) ltac:(lia)) as (new & Em & Ln). set (n := Z.to_nat (a_end a - off)).
  pose proof (copy_log_run r a (a_end a) R HB eq_refl n off 0 new eq_refl) as EC. rewrite HB in EC.
  rewrite take_0 in EC. cbn [app Nat.add] in EC.
  assert (zlen (slice off (a_end a) (hist a)) = a_end a - off) as Ls by (rewrite slice_length; unfold a_end in *; lia).
  assert (slice off (a_end a) (hist a) = drop (Z.to_nat off) (hist a)) as Es.
  { unfold slice. apply take_ge. rewrite length_drop. unfold a_end. lia. }
  unfold log_buf_len_setup. rewrite !(proj2 (Z.eqb_neq arg _)) by lia.
  rewrite Er, HB, (u32_small __LOG_BUF_LEN), (proj2 (Z.ltb_lt __LOG_BUF_LEN (2 ^ j))), Em by lia.
  rewrite (rep_con _ _ R), (rep_start _ _ R), (rep_end _ _ R). cbv zeta.
  rewrite (u32_small (cn a)), (u32_small (rd a)) by lia. fold off.
  replace (Z.to_nat (u32 (u32 (a_end a) - off))) with n by (subst n; rewrite (u32_small (a_end a)), u32_small by lia; done).
  rewrite (u32_small off) in EC by lia. rewrite EC by lia.
  assert (s32 (2 ^ j) = 2 ^ j) as ->.
  { pose proof (Z.pow_pos_nonneg 2 j). unfold s32. rewrite Z.mod_small; lia. }
  exists (2 ^ j). eexists. split; [reflexivity|]. split; [done|]. split; [done|].
  set (a' := ALog _ _ _ _).
  assert (a_end a' = a_end a - off) as Ee by (unfold a_end at 1; cbn [hist a']; rewrite <- Es; done).
  unfold CONFIG_LOG_BUF_SHIFT in Hj.
  constructor; cbn [log_buf log_buf_len log_start con_start log_end logged_chars]; rewrite ?Ee; try done; try (cbn; lia).
  - exists j. split; [lia|done].
  - rewrite length_app, length_drop. lia.
  - rewrite (u32_small (a_end a)) by lia. done.
  - intros i Hi. rewrite Z.mod_small, Es by lia. rewrite Es in Ls. rewrite lookup_app_l by lia. done.
Qed.

(** ** Dumping *)

(** The pieces of the last [n] characters. *)
Lemma dump_places N e n : 1 <= N -> 0 <= n <= N -> n <= e ->
  (e mod N < n -> e - n <= e - e mod N <= e /\ (e - n) mod N = N - n + e mod N /\ (e - e mod N) mod N = 0) /\
  (n <= e mod N -> (e - n) mod N = e mod N - n).
Proof.
  intros HN Hn He. pose proof (Z.mod_pos_bound e N ltac:(lia)). pose proof (Z.div_mod e N ltac:(lia)) as E.
  split; intros Hc.
  - split; [lia|]. assert (0 <= e - e mod N) by (pose proof (Z.mod_le e N); lia).
    assert ((e - e mod N) mod N = 0) as E0 by (replace (e - e mod N) with (e / N * N) by lia; apply Z_mod_mult).
    split; [|done]. destruct (decide (n - e mod N = N)) as [E1|E1].
    + assert (n = N /\ e mod N = 0) as [-> E2] by lia. rewrite E2, Z.sub_diag.
      replace (e - N) with ((e / N - 1) * N) by lia. apply Z_mod_mult.
    + symmetry. apply (Z.mod_unique_pos _ _ (e / N - 1)); lia.
  - symmetry. apply (Z.mod_unique_pos _ _ (e / N)); lia.
Qed.

(** Without others writing meanwhile, the two pieces a dumper gets are together
    exactly the characters logged since the last clear, in order, and lie in the
    buffer. *)
Theorem kmsg_dump_last r a : rep r a ->
  exists s1 s2, kmsg_dump r (logged_chars r) = Some (s1, s2) /\
    s1 ++ s2 = drop (length (hist a) - Z.to_nat (fresh a)) (hist a).
Proof.
  intros R. pose proof (size_bounds _ _ R) as HN. destruct (rep_fresh _ _ R) as [-> HF].
  unfold kmsg_dump, dump_segments. rewrite (rep_end _ _ R), (land_place r a) by done.
  set (N := log_buf_len r) in *. set (n := fresh a) in *. set (b := a_end a) in *.
  destruct (dump_places N b n) as [Hw Hc]; [lia|lia|lia|].
  pose proof (Z.mod_pos_bound b N ltac:(lia)).
  assert (forall x y, b - n <= x <= y -> y <= b -> kept r a x y) as K.
  { intros x y Hx Hy. split; [done|]. fold b N. lia. }
  assert (slice (b - n) b (hist a) = drop (length (hist a) - Z.to_nat n) (hist a)) as <-.
  { unfold slice. subst b. unfold a_end. rewrite take_ge by (rewrite length_drop; lia). f_equal. lia. }
  destruct (Z.ltb_spec (b mod N) n) as [Hlt|Hge].
  - destruct (Hw Hlt) as (Hb & E1 & E2). rewrite u32_small by lia.
    pose proof (ring_read r a (b - n) (b - b mod N) (K (b - n) (b - b mod N) ltac:(lia) ltac:(lia))) as R1.
    pose proof (ring_read r a (b - b mod N) b (K (b - b mod N) b ltac:(lia) ltac:(lia))) as R2.
    fold N in R1, R2. rewrite E1 in R1. rewrite E2 in R2. replace (b - (b - b mod N)) with (b mod N) in R2 by lia.
    replace (b - b mod N - (b - n)) with (n - b mod N) in R1 by lia. rewrite R1 by lia. cbn [mbind option_bind].
    rewrite R2 by lia. eexists _, _. split; [reflexivity|]. apply slice_app; lia.
  - pose proof (ring_read r a (b - n) b (K (b - n) b ltac:(lia) ltac:(lia))) as R1. fold N in R1.
    rewrite (Hc Hge) in R1. replace (b - (b - n)) with n in R1 by lia. change (Z.to_nat 0) with 0%nat.
    rewrite (buf_read_Some _ 0 0) by lia. cbn [mbind option_bind]. rewrite R1 by lia. by eexists _, _.
Qed.

(** ** Switching the consoles off and on *)

Lemma off_run s m b w v : do_syslog SYSLOG_ACTION_CONSOLE_OFF m 0 b w v s =
  Some ((0, b), with_lv (set_console_loglevel (minimum_console_loglevel (lv s))
    (if saved_console_loglevel (lv s) =? -1 then console_loglevel (lv s) else saved_console_loglevel (lv s)) (lv s)) s).
Proof. reflexivity. Qed.

Lemma on_run s m b w v : do_syslog SYSLOG_ACTION_CONSOLE_ON m 0 b w v s =
  Some ((0, b), with_lv (if saved_console_loglevel (lv s) =? -1 then lv s
                         else set_console_loglevel (saved_console_loglevel (lv s)) (-1) (lv s)) s).
Proof. reflexivity. Qed.

(** Switching the consoles off, any number of times, and on again gives back the
    level there was. *)
Theorem console_off_on s n m b w v :
  saved_console_loglevel (lv s) = -1 -> console_loglevel (lv s) <> -1 ->
  exists s1 s2, Nat.iter (S n) (fun k => k ≫= fun s => snd <$> do_syslog SYSLOG_ACTION_CONSOLE_OFF m 0 b w v s) (Some s) = Some s1 /\
    console_loglevel (lv s1) = minimum_console_loglevel (lv s) /\
    do_syslog SYSLOG_ACTION_CONSOLE_ON m 0 b w v s1 = Some ((0, b), s2) /\
    lv s2 = lv s.
Proof.
  intros Hs Hc.
  assert (Nat.iter (S n) (fun k => k ≫= fun s => snd <$> do_syslog SYSLOG_ACTION_CONSOLE_OFF m 0 b w v s) (Some s) =
    Some (with_lv (set_console_loglevel (minimum_console_loglevel (lv s)) (console_loglevel (lv s)) (lv s)) s)) as E.
  { induction n as [|n IH].
    - change (snd <$> do_syslog SYSLOG_ACTION_CONSOLE_OFF m 0 b w v s = Some
        (with_lv (set_console_loglevel (minimum_console_loglevel (lv s)) (console_loglevel (lv s)) (lv s)) s)).
      by rewrite off_run, Hs.
    - rewrite Nat.iter_succ, IH. cbn [mbind option_bind]. rewrite off_run.
      cbn [lv with_lv saved_console_loglevel set_console_loglevel]. by rewrite (proj2 (Z.eqb_neq _ _) Hc). }
  eexists _, _. split; [exact E|]. split; [done|]. rewrite on_run. split; [reflexivity|].
  cbn [lv with_lv saved_console_loglevel set_console_loglevel]. rewrite (proj2 (Z.eqb_neq _ _) Hc).
  destruct (lv s). cbn in *. by subst.
Qed.

(** ** Witnesses *)

Definition ex_mem (n : Z) : option (list Z) := Some (replicate (Z.to_nat n) 0).

Lemma log_buf_grows_witness :
  exists size r', log_buf_len_setup 50000 ex_mem (boot_ring 14) = Some (NewLength size, r') /\
    50000 <= size /\ log_buf_len r' = size.
Proof.
  destruct (log_buf_grows 50000 ex_mem (boot_ring 14) boot_log) as (size & r' & E & H1 & H2 & _).
  - apply boot_rep. lia.
  - reflexivity.
  - vm_compute. split; [reflexivity|discriminate].
  - intros n Hn. exists (replicate (Z.to_nat n) 0). split; [reflexivity|]. rewrite length_replicate. lia.
  - vm_compute. reflexivity.
  - vm_compute. discriminate.
  - exists size, r'. split; [exact E|]. split; [exact H1|exact H2].
Defined.

Lemma kmsg_dump_last_witness :
  exists s1 s2, kmsg_dump ex_ring 3 = Some (s1, s2) /\ s1 ++ s2 = [97; 98; 10].
Proof. exact (kmsg_dump_last ex_ring ex_log ex_ring_rep). Defined.
