(* ===== verification/Console.v ===== *)
(** * Registration of consoles and dumpers (kernel/printk.c)

    The consoles the command line asks for, and the list of registered consoles,
    linked through [con_next]: the preferred one first, boot consoles only until a
    real one is there. The messages the code prints go through [vprintk] of Printk;
    no other processor writes to the log meanwhile. *)

From stdpp Require Import strings.
From S2P Require Import Prelude Vsprintf Printk.

Definition MAX_CMDLINECONSOLES : nat := 8.
Definition E2BIG : Z := 7.

(** [struct console_cmdline]; an empty name: the slot is free. *)
Record console_cmdline := Cmdline { cl_name : list Z; cl_index : Z; cl_options : option (list Z) }.

Record consoles := Consoles {
  kl : klog;
  cmdline : list console_cmdline;
  selected_console : Z;
  preferred_console : Z;
  console_set_on_cmdline : bool
}.

Definition with_kl (k : klog) (s : consoles) : consoles :=
  Consoles k (cmdline s) (selected_console s) (preferred_console s) (console_set_on_cmdline s).
Definition with_cmdline (l : list console_cmdline) (s : consoles) : consoles :=
  Consoles (kl s) l (selected_console s) (preferred_console s) (console_set_on_cmdline s).
Definition with_selected (i : Z) (s : consoles) : consoles :=
  Consoles (kl s) (cmdline s) i (preferred_console s) (console_set_on_cmdline s).
Definition with_preferred (i : Z) (s : consoles) : consoles :=
  Consoles (kl s) (cmdline s) (selected_console s) i (console_set_on_cmdline s).

Definition on_klog {A} (m : M klog A) : M consoles A := zoom kl with_kl m.

(** ** The command line *)

(** The first slot that has this name and index, or is free, or is past the end;
    whether it has them. *)
Fixpoint find_cmdline (l : list console_cmdline) (name : list Z) (idx : Z) (i : nat) : nat * bool :=
  match l with
  | [] => (i, false)
  | c :: l =>
      match cl_name c with
      | [] => (i, false)
      | _ => if bool_decide (cl_name c = name) && (cl_index c =? idx) then (i, true)
             else find_cmdline l name idx (S i)
      end
  end.

(** [strlcpy(c->name, name, 8)]. *)
Definition short_name (name : list Z) : list Z := take 7 name.

Definition add_preferred_console (name : list Z) (idx : Z) (options : option (list Z)) : M consoles Z :=
  l ← gets cmdline;
  let (i, found) := find_cmdline l name idx 0 in
  if found then modify (with_selected (Z.of_nat i));; mret 0
  else if (i =? MAX_CMDLINECONSOLES)%nat then mret (- E2BIG)
  else
    modify (with_selected (Z.of_nat i));;
    modify (with_cmdline (<[i := Cmdline (short_name name) idx options]> l));;
    mret 0.

Definition update_console_cmdline (name : list Z) (idx : Z) (name_new : list Z) (idx_new : Z)
    (options : option (list Z)) : M consoles Z :=
  l ← gets cmdline;
  let (i, found) := find_cmdline l name idx 0 in
  if found then
    modify (with_cmdline (<[i := Cmdline (short_name name_new) idx_new options]> l));;
    mret (Z.of_nat i)
  else mret (-1).

(** The text up to a character that satisfies [stop], and the text from it on. *)
Fixpoint break_at (stop : Z -> bool) (l : list Z) : list Z * list Z :=
  match l with
  | [] => ([], [])
  | c :: l => if stop c then ([], c :: l) else let r := break_at stop l in (c :: fst r, snd r)
  end.

(** [console=]: [str] without its terminator. *)
Definition console_setup (str : list Z) : M consoles Z :=
  let buf := match str with
             | c :: _ => if is_digit c then chars "ttyS"%string ++ take 7 str else take 11 str
             | [] => []
             end in
  let options := match snd (break_at (fun c => c =? COMMA) str) with [] => None | _ :: o => Some o end in
  let (name, s) := break_at (fun c => is_digit c || (c =? COMMA)) buf in
  add_preferred_console name (s32 (fst (simple_strtoul s 10))) options;;
  modify (fun s => Consoles (kl s) (cmdline s) (selected_console s) (preferred_console s) true);;
  mret 1.

(** ** Registration *)


Definition set_index (i : Z) (c : console) : console :=
  Console (con_name c) (s16 i) (con_flags c) (con_write c) (con_device c) (con_unblank c) (con_next c).

Definition add_flag (f : Z) : console -> console := set_flags (fun g => Z.lor g f).
Definition clear_flag (f : Z) : console -> console := set_flags (fun g => Z.land g (not32 f)).

Definition get_console (i : positive) : M klog console :=
  s ← get; lift_opt (cons (out s) !! i).

Definition set_head (p : option positive) : M klog unit :=
  modify (fun s => let o := out s in
    with_out (Output (cons o) p (written o) (log_wait o) (printk_pending o)) s).

Section Register.
Context (e : cpu).
(** The driver's [setup], if it has one: from the console's index and the options
    to the result and the index it leaves behind. *)
Context (setup : positive -> option (Z -> option (list Z) -> Z * Z)).
(** What the driver's [early_setup] makes of the command line, the only thing here
    that drivers change in it (with [update_console_cmdline]). *)
Context (early_setup : positive -> list console_cmdline -> list console_cmdline).

Definition printk (text : list Z) : M klog unit := vprintk e text [] [];; mret tt.

(** ** Leaving the list *)

(** The loop with [b] in front of the console it looks at. *)
Fixpoint unlink (fuel : nat) (i b : positive) : M klog Z :=
  match fuel with
  | O => ub
  | S fuel =>
      cb ← get_console b;
      match con_next cb with
      | None => mret 1
      | Some a =>
          if bool_decide (a = i) then
            ca ← get_console a;
            update_console (set_next (con_next ca)) b;;
            mret 0
          else unlink fuel i a
      end
  end.

(** Take [i] out of the list: 0, or 1 when it is not there. *)
Definition detach (i : positive) : M klog Z :=
  o ← gets out;
  match console_drivers o with
  | None => mret 1
  | Some h =>
      if bool_decide (h = i) then
        c ← get_console i;
        set_head (con_next c);;
        mret 0
      else unlink (size (cons o)) i h
  end.

(** If this isn't the last console and it has CON_CONSDEV set, the next preferred
    console gets it. *)
Definition hand_on (i : positive) : M klog unit :=
  o ← gets out;
  c ← get_console i;
  match console_drivers o with
  | Some h => if has_flag CON_CONSDEV c then update_console (add_flag CON_CONSDEV) h else mret tt
  | None => mret tt
  end.

Definition unregister_console (i : positive) : M klog Z :=
  acquire_console_sem e;;
  res ← detach i;
  hand_on i;;
  release_console_sem e [];;
  mret res.

(** [for_each_console(con) if (con->flags & CON_BOOT) unregister_console(con)]: the
    next console is read from one that may have left the list. [announce]: with a
    message before it goes. *)
Fixpoint drop_boot_consoles (fuel : nat) (announce : bool) (p : option positive) : M klog unit :=
  match p with
  | None => mret tt
  | Some i =>
      match fuel with
      | O => ub
      | S fuel =>
          c ← get_console i;
          (if has_flag CON_BOOT c then
             (if announce then
                printk (chars "<6>turn off boot console "%string ++ con_name c ++ decimal (con_index c) ++ [NL])
              else mret tt);;
             unregister_console i;; mret tt
           else mret tt);;
          c ← get_console i;
          drop_boot_consoles fuel announce (con_next c)
      end
  end.

Definition disable_boot_consoles : M klog Z :=
  o ← gets out;
  drop_boot_consoles (size (cons o)) true (console_drivers o);;
  mret 0.

(** ** Entering the list *)

Definition try_setup (new : positive) (options : option (list Z)) (c : console) : bool * console :=
  match setup new with
  | None => (true, c)
  | Some f => let (res, i) := f (con_index c) options in (res =? 0, set_index i c)
  end.

(** No console was selected: the first one that registers is taken. *)
Definition take_first (new : positive) (c : console) (s : consoles) : console * consoles :=
  let (ok, c) := try_setup new None (if con_index c <? 0 then set_index 0 c else c) in
  if ok then
    let c := add_flag CON_ENABLED c in
    if con_device c then (add_flag CON_CONSDEV c, with_preferred 0 s) else (c, s)
  else (c, s).

(** The loop over the command line. *)
Fixpoint match_cmdline (l : list console_cmdline) (i : nat) (new : positive) (c : console) (s : consoles)
  : console * consoles :=
  match l with
  | [] => (c, s)
  | cl :: l =>
      if bool_decide (cl_name cl = []) then (c, s)
      else if negb (bool_decide (cl_name cl = con_name c)) then match_cmdline l (S i) new c s
      else if (0 <=? con_index c) && negb (con_index c =? cl_index cl) then match_cmdline l (S i) new c s
      else
        let (ok, c) := try_setup new (cl_options cl) (if con_index c <? 0 then set_index (cl_index cl) c else c) in
        if ok then
          let c := set_index (cl_index cl) (add_flag CON_ENABLED c) in
          if Z.of_nat i =? selected_console s
          then (add_flag CON_CONSDEV c, with_preferred (selected_console s) s)
          else (c, s)
        else (c, s)
  end.

(** Everything [register_console] does before it looks whether the console is
    enabled. *)
Definition choose (new : positive) (bcon : bool) (c : console) (s : consoles) : console * consoles :=
  let s := if (preferred_console s <? 0) || bcon || bool_decide (console_drivers (out (kl s)) = None)
           then with_preferred (selected_console s) s else s in
  let s := with_cmdline (early_setup new (cmdline s)) s in
  let (c, s) := if preferred_console s <? 0 then take_first new c s else (c, s) in
  match_cmdline (cmdline s) 0 new c s.

(** Put the console at the head of the list, or behind it. *)
Definition link (new : positive) : M klog unit :=
  c ← get_console new;
  o ← gets out;
  match console_drivers o with
  | None => update_console (set_next None) new;; set_head (Some new)
  | Some h =>
      if has_flag CON_CONSDEV c then
        update_console (set_next (Some h)) new;;
        set_head (Some new);;
        update_console (clear_flag CON_CONSDEV) h
      else
        ch ← get_console h;
        update_console (set_next (con_next ch)) new;;
        update_console (set_next (Some new)) h
  end.

(** A real console that takes over from a boot console. *)
Definition takes_over (bcon : bool) (c : console) : bool :=
  bcon && (Z.land (con_flags c) (Z.lor CON_CONSDEV CON_BOOT) =? CON_CONSDEV).

(** The rest of [register_console], for a console that is enabled. *)
Definition enlist (new : positive) (bcon : bool) : M klog unit :=
  c ← get_console new;
  (if takes_over bcon c then update_console (clear_flag CON_PRINTBUFFER) new else mret tt);;
  acquire_console_sem e;;
  link new;;
  c ← get_console new;
  (if has_flag CON_PRINTBUFFER c then on_ring (modify (fun r => with_con_start (log_start r) r)) else mret tt);;
  release_console_sem e [];;
  c ← get_console new;
  if takes_over bcon c then
    printk (chars "<6>console ["%string ++ con_name c ++ decimal (con_index c) ++
            chars "] enabled, bootconsole disabled"%string ++ [NL]);;
    o ← gets out;
    drop_boot_consoles (size (cons o)) false (console_drivers o)
  else
    printk (chars "<6>"%string ++ (if has_flag CON_BOOT c then chars "boot"%string else []) ++
            chars "console ["%string ++ con_name c ++ decimal (con_index c) ++ chars "] enabled"%string ++ [NL]).

Definition register_console (new : positive) : M consoles unit :=
  s ← get;
  let o := out (kl s) in
  ids ← lift_opt (drivers o);
  cs ← lift_opt (mapM (fun i => cons o !! i) ids);
  c ← on_klog (get_console new);
  if has_flag CON_BOOT c && existsb (fun c => negb (has_flag CON_BOOT c)) cs then
    on_klog (printk (chars "<6>Too late to register bootconsole "%string ++ con_name c ++ decimal (con_index c) ++ [NL]))
  else
    let bcon := match cs with h :: _ => has_flag CON_BOOT h | [] => false end in
    let (c, s) := choose new bcon c s in
    put s;;
    on_klog (update_console (fun _ => c) new);;
    if has_flag CON_ENABLED c then on_klog (enlist new bcon) else mret tt.

(** ** Using the consoles *)

(** The consoles whose [unblank] was called. *)
Definition console_unblank : M klog (list positive) :=
  k ← gets lk;
  busy ← (if oops_in_progress k then down_trylock else acquire_console_sem e;; mret false);
  if busy : bool then mret []
  else
    in_locks (set_locked true false);;
    o ← gets out;
    ids ← lift_opt (drivers o);
    release_console_sem e [];;
    mret (List.filter (fun i => match cons o !! i with
                                | Some c => has_flag CON_ENABLED c && con_unblank c
                                | None => false
                                end) ids).

(** [device i]: what the console's function finds. *)
Definition console_device {D} (device : positive -> option D) : M klog (option D) :=
  acquire_console_sem e;;
  o ← gets out;
  ids ← lift_opt (drivers o);
  release_console_sem e [];;
  mret (head (omap (fun i => c ← cons o !! i; if con_device c then device i else None) ids)).
End Register.

(** ** Dumpers *)

(** [struct kmsg_dumper]: whether [dump] is set, and [registered]. *)
Record dumpers := Dumpers { dump_list : list positive; dump_registered : gset positive }.

Definition kmsg_dump_register (d : positive) (has_dump : bool) (l : dumpers) : Z * dumpers :=
  if negb has_dump then (- EINVAL, l)
  else if bool_decide (d ∈ dump_registered l) then (- EBUSY, l)
  else (0, Dumpers (dump_list l ++ [d]) ({[d]} ∪ dump_registered l)).

Definition kmsg_dump_unregister (d : positive) (l : dumpers) : Z * dumpers :=
  if bool_decide (d ∈ dump_registered l)
  then (0, Dumpers (filter (fun x => x <> d) (dump_list l)) (dump_registered l ∖ {[d]}))
  else (- EINVAL, l).
