(* ===== verification/ConsoleProps.v ===== *)
(** * The list of registered consoles

    [register_console] and [unregister_console] keep the linked list of consoles
    sound, put the console where it belongs, and take out just the consoles they
    should, while the messages they print reach the consoles. *)

From stdpp Require Import strings.
From S2P Require Import Prelude Vsprintf Printk PrintkProps PrintkConsole PrintkMsg Console.

(** ** Linked lists of consoles *)

Fixpoint linked (st : gmap positive console) (p : option positive) (ids : list positive) : Prop :=
  match ids with
  | [] => p = None
  | i :: ids => p = Some i /\ exists c, st !! i = Some c /\ linked st (con_next c) ids
  end.

Lemma chain_linked st ids : forall fuel p,
  chain fuel st p = Some ids <-> linked st p ids /\ (length ids <= fuel)%nat.
Proof.
  induction ids as [|i ids IH]; intros fuel p.
  - destruct p as [i|], fuel; cbn; split; try naive_solver lia.
    all: destruct (st !! i) as [c|]; cbn; try done; by destruct (chain fuel st (con_next c)).
  - destruct p as [j|], fuel; cbn [chain linked length]; split; try naive_solver lia.
    + destruct (st !! j) as [c|] eqn:Ec; cbn; [|done].
      destruct (chain fuel st (con_next c)) as [l|] eqn:El; cbn; [|done]. intros [= -> ->].
      apply IH in El as [El ?]. split; [|lia]. eauto.
    + intros [[[= ->] (c & -> & El)] Hf]. cbn. by rewrite (proj2 (IH fuel (con_next c))) by (split; [done|lia]).
Qed.

Lemma linked_member st ids : forall p i, linked st p ids -> i ∈ ids -> is_Some (st !! i).
Proof.
  induction ids as [|j ids IH]; intros p i; cbn; [set_solver|].
  intros (_ & c & Ec & Hl) [->|Hi]%elem_of_cons; [by eexists|by eapply IH].
Qed.

Lemma linked_size st p ids : linked st p ids -> NoDup ids -> (length ids <= size st)%nat.
Proof.
  intros Hl Hd. rewrite <- (size_dom st), <- (size_list_to_set (C := gset positive) ids) by done.
  apply subseteq_size. intros i Hi%elem_of_list_to_set. apply elem_of_dom. by eapply linked_member.
Qed.

Lemma registered_linked o ids : registered o ids <-> linked (cons o) (console_drivers o) ids /\ NoDup ids.
Proof.
  unfold registered, drivers. rewrite chain_linked. split; [tauto|]. intros [Hl Hd].
  split; [split; [done|by eapply linked_size]|]. split; [done|].
  apply Forall_forall. intros i Hi. by eapply linked_member.
Qed.

(** The consoles of the list keep their place when their [con_next] does. *)
Lemma linked_frame st st' ids : forall p,
  (forall i c, i ∈ ids -> st !! i = Some c -> exists c', st' !! i = Some c' /\ con_next c' = con_next c) ->
  linked st p ids -> linked st' p ids.
Proof.
  induction ids as [|i ids IH]; intros p Hf; cbn; [done|]. intros (-> & c & Ec & Hl). split; [done|].
  destruct (Hf i c) as (c' & Ec' & En); [set_solver|done|]. exists c'. split; [done|]. rewrite En.
  apply IH; [|done]. intros j cj Hj. apply Hf. set_solver.
Qed.

Lemma linked_insert st i c p ids : i ∉ ids -> linked st p ids -> linked (<[i := c]> st) p ids.
Proof.
  intros Hi. apply linked_frame. intros j cj Hj Ej. exists cj. split; [|done].
  rewrite lookup_insert_ne; [done|]. by intros ->.
Qed.

Lemma linked_update st i c f p ids : st !! i = Some c -> con_next (f c) = con_next c ->
  linked st p ids -> linked (<[i := f c]> st) p ids.
Proof.
  intros Ec Hn. apply linked_frame. intros j cj Hj Ej. destruct (decide (j = i)) as [->|Hne].
  - exists (f c). rewrite lookup_insert_eq. split; [done|congruence].
  - exists cj. by rewrite lookup_insert_ne.
Qed.

Lemma linked_app st ids1 ids2 : forall p, linked st p (ids1 ++ ids2) -> exists q, linked st q ids2.
Proof. induction ids1 as [|i ids1 IH]; intros p; cbn; [eauto|]. intros (_ & c & _ & Hl). by eapply IH. Qed.

Lemma linked_head st p ids : linked st p ids -> p = head ids.
Proof. destruct ids; cbn; [done|naive_solver]. Qed.

(** Consoles up to [con_next] and CON_CONSDEV. *)
Definition core (c : console) : console := set_next None (clear_flag CON_CONSDEV c).
Definition agree (st st' : gmap positive console) : Prop := forall i, core <$> st !! i = core <$> st' !! i.

#[global] Instance agree_equiv : Equivalence agree.
Proof. split; [by intros ? ?|by intros ? ? H ?|by intros ? ? ? H1 H2 i; rewrite H1]. Qed.

Lemma core_next p c : core (set_next p c) = core c.
Proof. by destruct c. Qed.
Lemma core_add c : core (add_flag CON_CONSDEV c) = core c.
Proof.
  unfold core, set_next, clear_flag, add_flag, set_flags. cbn. f_equal.
  rewrite Z.land_lor_distr_l. change (Z.land CON_CONSDEV (not32 CON_CONSDEV)) with 0. apply Z.lor_0_r.
Qed.
Lemma core_clear c : core (clear_flag CON_CONSDEV c) = core c.
Proof.
  unfold core, set_next, clear_flag, set_flags. cbn. f_equal. rewrite <- Z.land_assoc. f_equal.
Qed.

Lemma agree_update st i c f : st !! i = Some c -> core (f c) = core c -> agree st (<[i := f c]> st).
Proof.
  intros Ec Hf j. destruct (decide (j = i)) as [->|Hne]; [|by rewrite lookup_insert_ne].
  rewrite lookup_insert_eq, Ec. cbn. by rewrite Hf.
Qed.

Lemma agree_lookup st st' i c : agree st st' -> st !! i = Some c -> exists c', st' !! i = Some c' /\ core c' = core c.
Proof.
  intros H E. specialize (H i). rewrite E in H. destruct (st' !! i) as [c'|]; [|done]. cbn in H.
  exists c'. split; [done|congruence].
Qed.

Lemma core_flag f c c' : Z.land (not32 CON_CONSDEV) f = f -> core c = core c' -> has_flag f c = has_flag f c'.
Proof.
  intros Hf H. unfold has_flag. rewrite <- Hf, !Z.land_assoc.
  change (Z.land (con_flags c) (not32 CON_CONSDEV)) with (con_flags (core c)).
  change (Z.land (con_flags c') (not32 CON_CONSDEV)) with (con_flags (core c')). by rewrite H.
Qed.

(** ** Runs of the steps *)

Definition with_cons (st : gmap positive console) (s : klog) : klog :=
  let o := out s in with_out (Output st (console_drivers o) (written o) (log_wait o) (printk_pending o)) s.

Lemma get_console_run i c s : cons (out s) !! i = Some c -> get_console i s = Some (c, s).
Proof. intros E. unfold get_console. by rewrite bind_unfold, get_run, E. Qed.

Lemma update_console_run f i c s : cons (out s) !! i = Some c ->
  update_console f i s = Some (tt, with_cons (<[i := f c]> (cons (out s))) s).
Proof. intros E. unfold update_console. by rewrite E. Qed.

Lemma filter_absent (i : positive) (ids : list positive) : i ∉ ids -> filter (fun j => j <> i) ids = ids.
Proof.
  induction ids as [|j ids IH]; [done|]. intros [Hj Hi]%not_elem_of_cons.
  rewrite filter_cons_True by done. by rewrite IH.
Qed.

(** The loop of [unregister_console] takes [i] out behind [b], if it is there. *)
Lemma unlink_run i ids : forall fuel b s, linked (cons (out s)) (Some b) (b :: ids) -> NoDup (b :: ids) -> b <> i ->
  (length ids < fuel)%nat ->
  exists st, unlink fuel i b s = Some (if decide (i ∈ ids) then 0 else 1, with_cons st s) /\
    linked st (Some b) (b :: filter (fun j => j <> i) ids) /\ agree (cons (out s)) st /\
    (forall j, con_flags <$> st !! j = con_flags <$> cons (out s) !! j) /\
    (forall j, j = i \/ j ∉ b :: ids -> st !! j = cons (out s) !! j).
Proof.
  induction ids as [|a ids IH]; intros [|fuel] b s (_ & cb & Eb & Hl) Hd Hb Hf; cbn [length] in Hf; try lia;
    cbn [unlink]; rewrite bind_unfold, (get_console_run _ cb) by done.
  - cbn in Hl. rewrite Hl. exists (cons (out s)). rewrite ret_unfold. destruct s as [? ? ? ? []].
    split; [done|]. split; [cbn; eauto|]. done.
  - destruct Hl as (En & ca & Ea & Hl). rewrite En. apply NoDup_cons in Hd as [Hba Hd].
    destruct (bool_decide_reflect (a = i)) as [->|Hai].
    + rewrite bind_unfold, (get_console_run _ ca), bind_unfold by done.
      rewrite (update_console_run _ _ cb), ret_unfold by done. eexists. rewrite decide_True by set_solver.
      split; [reflexivity|]. apply NoDup_cons in Hd as [Hi Hd]. rewrite filter_cons_False by naive_solver.
      rewrite filter_absent by done.
      split; [|split; [|split]].
      * split; [done|]. eexists. rewrite lookup_insert_eq. split; [reflexivity|]. cbn.
        apply linked_insert; [set_solver|done].
      * by apply (agree_update _ _ cb (set_next (con_next ca))).
      * intros j. destruct (decide (j = b)) as [->|]; [by rewrite lookup_insert_eq, Eb|by rewrite lookup_insert_ne].
      * intros j Hj. apply lookup_insert_ne. set_solver.
    + destruct (IH fuel a s) as (st & E & L & A & F & O); [split; [done|eauto]|done|done|lia|].
      exists st. rewrite E. rewrite filter_cons_True by done. split; [|split; [|split; [done|split; [done|]]]].
      * do 2 f_equal. destruct (decide (i ∈ ids)), (decide (i ∈ a :: ids)); set_solver.
      * split; [done|]. exists cb. rewrite O by (right; done). split; [done|]. by rewrite En.
      * intros j Hj. apply O. set_solver.
Qed.

Lemma detach_run i c s ids : registered (out s) ids -> cons (out s) !! i = Some c ->
  exists o, detach i s = Some (if decide (i ∈ ids) then 0 else 1, with_out o s) /\
    registered o (filter (fun j => j <> i) ids) /\ agree (cons (out s)) (cons o) /\ cons o !! i = Some c /\
    forall j, con_flags <$> cons o !! j = con_flags <$> cons (out s) !! j.
Proof.
  intros [Hl Hd]%registered_linked Ec. unfold detach. rewrite bind_unfold, gets_run.
  pose proof (linked_size _ _ _ Hl Hd) as Hsz.
  assert (forall o, linked (cons o) (console_drivers o) (filter (fun j => j <> i) ids) ->
    registered o (filter (fun j => j <> i) ids)) as Hr.
  { intros o Ho. apply registered_linked. split; [done|]. by apply NoDup_filter. }
  destruct ids as [|h ids].
  - cbn in Hl. rewrite Hl, ret_unfold. exists (out s). destruct s as [? ? ? ? ?].
    split; [done|]. split; [by apply Hr|]. done.
  - destruct Hl as (Eh & ch & Ech & Hl). rewrite Eh. destruct (bool_decide_reflect (h = i)) as [->|Hh].
    + assert (ch = c) as -> by congruence. rewrite bind_unfold, (get_console_run _ c) by done.
      unfold set_head. rewrite bind_unfold, modify_run, ret_unfold. rewrite decide_True by set_solver.
      eexists. split; [reflexivity|]. split; [|done]. apply Hr. cbn [cons console_drivers].
      apply NoDup_cons in Hd as [Hi Hd]. rewrite filter_cons_False by naive_solver. by rewrite filter_absent.
    + destruct (unlink_run i ids (size (cons (out s))) h s) as (st & E & L & A & F & O);
        [split; [done|eauto]|done|done|cbn in Hsz; lia|].
      exists (out (with_cons st s)). rewrite E. split.
      { do 2 f_equal. destruct (decide (i ∈ ids)), (decide (i ∈ h :: ids)); set_solver. }
      split; [apply Hr; rewrite filter_cons_True by done; cbn [out with_cons with_out cons console_drivers]; by rewrite Eh|].
      split; [exact A|]. split; [cbn; rewrite O by (by left); done|exact F].
Qed.

(** Only the head of the list is /dev/console. *)
Definition consdev (st : gmap positive console) (i : positive) : bool :=
  match st !! i with Some c => has_flag CON_CONSDEV c | None => false end.
Definition sole (st : gmap positive console) (ids : list positive) : Prop :=
  forall i, i ∈ tail ids -> consdev st i = false.
Definition is_boot (st : gmap positive console) (i : positive) : bool :=
  match st !! i with Some c => has_flag CON_BOOT c | None => false end.

Lemma agree_boot st st' i : agree st st' -> is_boot st i = is_boot st' i.
Proof.
  intros H. specialize (H i). unfold is_boot. destruct (st !! i), (st' !! i); try done.
  apply core_flag; [done|]. cbn in H. congruence.
Qed.

Lemma filter_boot st st' (ids : list positive) : agree st st' ->
  filter (fun i => is_boot st i = false) ids = filter (fun i => is_boot st' i = false) ids.
Proof. intros H. apply list_filter_iff. intros i. by rewrite (agree_boot st st' i H). Qed.

Lemma filter_boot_insert st new c c' (ids : list positive) : st !! new = Some c -> has_flag CON_BOOT c' = has_flag CON_BOOT c ->
  filter (fun i => is_boot (<[new := c']> st) i = false) ids = filter (fun i => is_boot st i = false) ids.
Proof.
  intros Ec Hb. apply list_filter_iff. intros i. unfold is_boot.
  destruct (decide (i = new)) as [->|]; [by rewrite lookup_insert_eq, Ec, Hb|by rewrite lookup_insert_ne].
Qed.

Lemma sole_insert st new c ids : new ∉ ids -> sole st ids -> sole (<[new := c]> st) ids.
Proof.
  intros Hn Hs j Hj. unfold consdev. rewrite lookup_insert_ne; [by apply Hs|].
  intros ->. apply Hn. destruct ids; [done|]. cbn in Hj. set_solver.
Qed.

Lemma consdev_flags st st' i : con_flags <$> st !! i = con_flags <$> st' !! i -> consdev st i = consdev st' i.
Proof.
  unfold consdev, has_flag. destruct (st !! i), (st' !! i); cbn; try done. by intros [= ->].
Qed.

Lemma tail_filter (i j : positive) (ids : list positive) : j ∈ tail (filter (fun k => k <> i) ids) -> j ∈ tail ids.
Proof.
  destruct ids as [|h ids]; [done|]. destruct (decide (h = i)) as [->|Hh].
  - rewrite filter_cons_False by naive_solver. cbn [tail]. intros Hj.
    assert (j ∈ filter (fun k => k <> i) ids) as [_ ?]%list_elem_of_filter; [|done].
    destruct (filter _ ids); [done|]. cbn in Hj. set_solver.
  - rewrite filter_cons_True by done. cbn [tail]. intros Hj. by apply list_elem_of_filter in Hj as [_ ?].
Qed.

Lemma lor_truth_r a b : truth b = true -> truth (Z.lor a b) = true.
Proof.
  unfold truth. rewrite !negb_true_iff, !Z.eqb_neq. intros Hb H. apply Hb. by apply Z.lor_eq_0_iff in H as [_ ?].
Qed.

Section Calm.
Context (e : cpu).
Context (online : cpu_online e = true) (cpu_number : 0 <= this_cpu e < 2 ^ 31) (task : in_interrupt e = false).

(** The state inside of the console semaphore. *)
Definition acquired (s : klog) : klog :=
  with_lk (Locks (printk_cpu (lk s)) (oops_in_progress (lk s)) (oops_timestamp (lk s)) (logbuf_lock (lk s)) 0
             true false true) s.

Lemma acquire_console_run s a ids : calm e s a ids -> acquire_console_sem e s = Some (tt, acquired s).
Proof.
  intros H. pose proof (calm_sem _ _ _ _ H) as Hs. pose proof (calm_awake _ _ _ _ H) as Hp. clear H.
  unfold acquire_console_sem. rewrite task. destruct s as [? ? ? [] ?]. cbn in Hs, Hp. subst. reflexivity.
Qed.

(** No line of the text that the reader has not seen is as long as the buffer. *)
Definition short_lines (s : klog) (a : alog) : Prop :=
  let t := slice (rd a) (a_end a) (hist a) in
  brief (log_buf_len (rg s)) (fst (render (length t) (default_message_loglevel (lv s)) (msg_level (ln s)) t)).

Definition rewind (r : ring) : ring := with_con_start (log_start r) r.

(** The end of a section in which the list became [o], and perhaps the whole log is
    to be printed once more. *)
Lemma release_calm (back : bool) s a ids o ids' : calm e s a ids -> registered o ids' ->
  (back = true -> short_lines s a) ->
  exists s' a', release_console_sem e [] (with_rg ((if back then rewind else id) (rg s)) (with_out o (acquired s)))
      = Some (tt, s') /\
    calm e s' a' ids' /\ hist a' = hist a /\ cons (out s') = cons o /\ console_drivers (out s') = console_drivers o.
Proof.
  intros [R Hr HZ Hf Hc Hl Hs Hp HT Hrec Hstd] Ho Hb. set (s1 := with_rg _ _).
  set (a1 := ALog (hist a) (rd a) (if back then rd a else cn a) (fresh a)).
  assert (rep (rg s1) a1) as R1.
  { destruct R. destruct back; constructor; done. }
  assert (log_buf_len (rg s1) = log_buf_len (rg s)) as L1 by (by destruct back).
  pose proof (release_run e [] a1 ids' s1 R1 Ho Hl eq_refl) as HREL. rewrite a_release_nil, L1 in HREL.
  cbn [lv ln s1 with_rg with_out acquired with_lk] in HREL.
  destruct HREL as (r2 & w & pending & R2 & L2 & S2 & C2 & E2).
  - done.
  - subst a1. cbn [cn hist]. change (a_end (ALog _ _ _ _)) with (a_end a). destruct back; [by apply Hb|].
    rewrite Hf, slice_empty. constructor.
  - eexists _, (ALog (hist a1) (rd a1) (a_end a1) (fresh a1)). split; [exact E2|]. split; [|done]. constructor; cbn; try done. by rewrite L2.
Qed.

Lemma hand_on_run i c s ids : registered (out s) ids -> cons (out s) !! i = Some c ->
  exists o, hand_on i s = Some (tt, with_out o s) /\
    registered o ids /\ agree (cons (out s)) (cons o) /\ (con_next <$> cons o !! i = Some (con_next c)) /\
    (forall j, j ∈ tail ids -> consdev (cons o) j = consdev (cons (out s)) j) /\
    (has_flag CON_CONSDEV c = true -> forall h, head ids = Some h -> consdev (cons o) h = true).
Proof.
  intros R Ec. pose proof (proj1 (registered_linked _ _) R) as [L D]. unfold hand_on.
  rewrite bind_unfold, gets_run, bind_unfold, (get_console_run _ c) by done.
  assert (with_out (out s) s = s) as Hs by (by destruct s).
  destruct ids as [|h l]; [cbn in L; rewrite L; exists (out s); by rewrite Hs, Ec|].
  destruct L as (Eh & ch & Ech & L). rewrite Eh.
  destruct (has_flag CON_CONSDEV c); [|exists (out s); by rewrite Hs, Ec].
  rewrite (update_console_run _ _ ch) by done. eexists. split; [reflexivity|].
  cbn [cons console_drivers out with_cons with_out]. split; [|split; [|split; [|split]]].
  - apply registered_linked. split; [|done]. cbn [cons console_drivers]. rewrite Eh.
    apply linked_update; [done|done|]. split; [done|eauto].
  - apply agree_update; [done|apply core_add].
  - destruct (decide (i = h)) as [->|]; [|by rewrite lookup_insert_ne, Ec].
    rewrite lookup_insert_eq. cbn. congruence.
  - intros j Hj. unfold consdev. rewrite lookup_insert_ne; [done|]. intros ->. by apply NoDup_cons in D as [? _].
  - intros _ h' [= <-]. unfold consdev. rewrite lookup_insert_eq. unfold has_flag, add_flag, set_flags. cbn.
    rewrite Z.land_lor_distr_l. apply lor_truth_r. reflexivity.
Qed.

Lemma unregister_run i c s a ids : calm e s a ids -> cons (out s) !! i = Some c ->
  let ids' := filter (fun j => j <> i) ids in
  exists s' a', unregister_console e i s = Some (if decide (i ∈ ids) then 0 else 1, s') /\
    calm e s' a' ids' /\ agree (cons (out s)) (cons (out s')) /\
    (con_next <$> cons (out s') !! i = Some (con_next c)) /\
    (sole (cons (out s)) ids -> sole (cons (out s')) ids') /\
    (has_flag CON_CONSDEV c = true -> forall h, head ids' = Some h -> consdev (cons (out s')) h = true).
Proof.
  intros HC Ec ids'. unfold unregister_console. rewrite bind_unfold, (acquire_console_run s a ids HC).
  destruct (detach_run i c (acquired s) ids) as (o & E & Ro & Ao & Eo & Fo); [apply HC|done|].
  fold ids' in Ro. change (cons (out (acquired s))) with (cons (out s)) in *. rewrite bind_unfold, E.
  destruct (hand_on_run i c (with_out o (acquired s)) ids' Ro Eo) as (o' & E' & R' & A' & N' & T' & H').
  cbn [out with_out] in A', T'. rewrite bind_unfold, E'.
  destruct (release_calm false s a ids o' ids' HC R') as (s' & a' & ER & HC' & _ & Es & Ed); [done|].
  exists s', a'. rewrite bind_unfold.
  assert (with_out o' (with_out o (acquired s)) = with_rg (id (rg s)) (with_out o' (acquired s))) as -> by done.
  rewrite ER, ret_unfold. split; [done|]. split; [done|]. rewrite Es. split; [by etrans|]. split; [done|].
  split; [|done]. intros Hs j Hj. rewrite T', (consdev_flags _ _ j (Fo j)) by done. apply Hs. by eapply tail_filter.
Qed.

Lemma printk_calm text s a ids : calm e s a ids ->
  exists s' a', printk e text s = Some (tt, s') /\ calm e s' a' ids /\
    cons (out s') = cons (out s) /\ console_drivers (out s') = console_drivers (out s).
Proof.
  intros HC. pose proof (printk_run e online cpu_number text [] s a ids HC) as HV.
  destruct (parse _ (message text)) as [[demand level] body].
  destruct HV as (n & s' & a' & w & E & HC' & _ & _ & _ & _ & pending & Ho).
  exists s', a'. unfold printk. rewrite bind_unfold, E, ret_unfold. split; [done|]. split; [done|]. by rewrite Ho.
Qed.

(** The loop over the consoles that drops the boot consoles: [pre] is behind it,
    [rest] is to come. *)
Lemma drop_boot_run announce rest : forall pre fuel s a p,
  calm e s a (pre ++ rest) -> (length rest <= fuel)%nat -> linked (cons (out s)) p rest ->
  let ids' := pre ++ filter (fun i => is_boot (cons (out s)) i = false) rest in
  exists s' a', drop_boot_consoles e fuel announce p s = Some (tt, s') /\ calm e s' a' ids' /\
    agree (cons (out s)) (cons (out s')) /\ (sole (cons (out s)) (pre ++ rest) -> sole (cons (out s')) ids').
Proof.
  induction rest as [|i rest IH]; intros pre fuel s a p HC Hf Hl ids'; subst ids'.
  { cbn in Hl. subst p. exists s, a. rewrite filter_nil. by destruct fuel. }
  destruct Hl as (-> & c & Ec & Hl). destruct fuel as [|fuel]; cbn [length] in Hf; [lia|]. cbn [drop_boot_consoles].
  rewrite bind_unfold, (get_console_run _ c), bind_unfold by done. destruct (has_flag CON_BOOT c) eqn:Eb.
  - rewrite filter_cons_False by (unfold is_boot; rewrite Ec; congruence).
    assert (exists s1 a1, (if announce then printk e (chars "<6>turn off boot console "%string ++ con_name c ++ decimal (con_index c) ++ [NL])
        else mret tt) s = Some (tt, s1) /\ calm e s1 a1 (pre ++ i :: rest) /\ cons (out s1) = cons (out s))
      as (s1 & a1 & E1 & HC1 & Ec1).
    { destruct announce; [|by exists s, a]. destruct (printk_calm (chars "<6>turn off boot console "%string ++
        con_name c ++ decimal (con_index c) ++ [NL]) s a _ HC) as (s1 & a1 & E1 & HC1 & Ec1 & _). by exists s1, a1. }
    rewrite <- Ec1 in *. rewrite bind_unfold, E1, bind_unfold. clear E1 Ec1 s HC.
    destruct (unregister_run i c s1 a1 _ HC1 Ec) as (s2 & a2 & E2 & HC2 & A2 & N2 & S2 & _). rewrite E2, ret_unfold.
    rewrite filter_app, filter_cons_False in HC2, S2 by naive_solver.
    pose proof (proj1 (registered_linked _ _) (calm_cons _ _ _ _ HC1)) as [L1 D1].
    rewrite !filter_absent in HC2, S2 by (apply NoDup_app in D1 as (? & ? & [? ?]%NoDup_cons); set_solver).
    destruct (cons (out s2) !! i) as [c2|] eqn:Ec2; [|done]. injection N2 as N2.
    rewrite bind_unfold, (get_console_run _ c2), N2 by done.
    destruct (IH pre fuel s2 a2 (con_next c) HC2) as (s3 & a3 & E3 & HC3 & A3 & S3); [lia| |].
    { destruct (linked_app _ pre rest _ (proj1 (proj1 (registered_linked _ _) (calm_cons _ _ _ _ HC2)))) as [q Hq].
      rewrite (linked_head _ _ _ Hl), <- (linked_head _ _ _ Hq). exact Hq. }
    rewrite <- (filter_boot _ _ rest A2) in HC3, S3. exists s3, a3. rewrite E3.
    split; [done|]. split; [done|]. split; [by etrans|]. auto.
  - rewrite filter_cons_True by (unfold is_boot; by rewrite Ec).
    rewrite ret_unfold, bind_unfold, (get_console_run _ c) by done.
    destruct (IH (pre ++ [i]) fuel s a (con_next c)) as (s3 & a3 & E3 & HC3 & A3 & S3); [|lia|done|].
    { by rewrite <- app_assoc. }
    rewrite <- app_assoc in HC3. rewrite <- !app_assoc in S3. exists s3, a3. split; [exact E3|]. split; [exact HC3|]. split; [exact A3|exact S3].
Qed.

(** ** Entering the list *)

(** Where the new console goes. *)
Definition placed (first : bool) (new : positive) (ids : list positive) : list positive :=
  match ids with
  | [] => [new]
  | h :: rest => if first then new :: h :: rest else h :: new :: rest
  end.

Lemma link_run new c s ids : registered (out s) ids -> new ∉ ids -> cons (out s) !! new = Some c ->
  let ids' := placed (has_flag CON_CONSDEV c) new ids in
  exists o, link new s = Some (tt, with_out o s) /\ registered o ids' /\ agree (cons (out s)) (cons o) /\
    (con_flags <$> cons o !! new = Some (con_flags c)) /\
    (sole (cons (out s)) ids -> sole (cons o) ids').
Proof.
  intros [L D]%registered_linked Hn Ec ids'. subst ids'. unfold link.
  rewrite bind_unfold, (get_console_run _ c), bind_unfold, gets_run by done. destruct ids as [|h ids].
  - cbn in L. rewrite L, bind_unfold, (update_console_run _ _ c) by done. unfold set_head. rewrite modify_run.
    eexists. split; [reflexivity|]. cbn [cons out with_out with_cons placed]. split; [|split; [|split]].
    + apply registered_linked. split; [|apply NoDup_singleton]. cbn. rewrite lookup_insert_eq. eauto.
    + by apply (agree_update _ _ c (set_next None)).
    + by rewrite lookup_insert_eq.
    + intros _ j. set_solver.
  - destruct L as (Eh & ch & Ech & L). rewrite Eh. apply not_elem_of_cons in Hn as [Hnh Hn].
    apply NoDup_cons in D as [Hh D]. destruct (has_flag CON_CONSDEV c) eqn:Edev; cbn [placed].
    + rewrite bind_unfold, (update_console_run _ _ c) by done. unfold set_head. rewrite bind_unfold, modify_run.
      rewrite (update_console_run _ _ ch) by (cbn; by rewrite lookup_insert_ne).
      eexists. split; [reflexivity|]. cbn [cons out with_out with_cons placed]. split; [|split; [|split]].
      * apply registered_linked. split; [|apply NoDup_cons; split; [set_solver|by apply NoDup_cons]].
        cbn. split; [done|]. eexists. rewrite lookup_insert_ne, lookup_insert_eq by done. split; [reflexivity|].
        split; [done|]. eexists. rewrite lookup_insert_eq. split; [reflexivity|]. cbn.
        by apply linked_insert, linked_insert.
      * etrans; [by apply (agree_update (cons (out s)) new c (set_next (Some h)))|].
        apply (agree_update _ h ch); [by rewrite lookup_insert_ne|apply core_clear].
      * by rewrite lookup_insert_ne, lookup_insert_eq.
      * intros Hs j [->|Hj]%elem_of_cons; unfold consdev.
        -- rewrite lookup_insert_eq. unfold has_flag, clear_flag, set_flags. cbn. rewrite <- Z.land_assoc.
           change (Z.land (not32 CON_CONSDEV) CON_CONSDEV) with 0. by rewrite Z.land_0_r.
        -- rewrite !lookup_insert_ne by set_solver. by apply Hs.
    + rewrite bind_unfold, (get_console_run _ ch), bind_unfold by done.
      rewrite (update_console_run _ _ c), (update_console_run _ _ ch) by (done || (cbn; by rewrite lookup_insert_ne)).
      eexists. split; [reflexivity|]. cbn [cons out with_out with_cons console_drivers placed]. rewrite Eh. split; [|split; [|split]].
      * apply registered_linked. split; [|apply NoDup_cons; split; [set_solver|by apply NoDup_cons]].
        cbn. split; [done|]. eexists. rewrite lookup_insert_eq by done. split; [reflexivity|].
        split; [done|]. eexists. rewrite lookup_insert_ne, lookup_insert_eq by done. split; [reflexivity|]. cbn.
        by apply linked_insert, linked_insert.
      * etrans; [by apply (agree_update (cons (out s)) new c (set_next (con_next ch)))|].
        apply (agree_update _ h ch (set_next (Some new))); [by rewrite lookup_insert_ne|done].
      * by rewrite lookup_insert_ne, lookup_insert_eq.
      * intros Hs j [->|Hj]%elem_of_cons; unfold consdev.
        -- by rewrite lookup_insert_ne, lookup_insert_eq.
        -- rewrite !lookup_insert_ne by set_solver. by apply Hs.
Qed.

Lemma calm_cons_change s a ids o ids' : calm e s a ids -> registered o ids' -> calm e (with_out o s) a ids'.
Proof. intros [] Ho. by constructor. Qed.

Lemma clear_has f g c : Z.land (not32 g) f = f -> has_flag f (clear_flag g c) = has_flag f c.
Proof. intros H. unfold has_flag, clear_flag, set_flags. cbn [con_flags]. by rewrite <- Z.land_assoc, H. Qed.

Lemma registered_insert o ids new c : registered o ids -> new ∉ ids ->
  registered (Output (<[new := c]> (cons o)) (console_drivers o) (written o) (log_wait o) (printk_pending o)) ids.
Proof.
  intros [L D]%registered_linked Hn. apply registered_linked. split; [|done]. by apply linked_insert.
Qed.

(** The console that takes over does not print the log again. *)
Definition unbuffered (bcon : bool) (c : console) : console :=
  if takes_over bcon c then clear_flag CON_PRINTBUFFER c else c.

Lemma unbuffered_flags bcon c :
  has_flag CON_CONSDEV (unbuffered bcon c) = has_flag CON_CONSDEV c /\
  has_flag CON_BOOT (unbuffered bcon c) = has_flag CON_BOOT c /\
  takes_over bcon (unbuffered bcon c) = takes_over bcon c /\
  (has_flag CON_PRINTBUFFER (unbuffered bcon c) = true -> has_flag CON_PRINTBUFFER c = true).
Proof.
  unfold unbuffered. destruct (takes_over bcon c) eqn:E; [|done]. rewrite !clear_has by done.
  split; [done|]. split; [done|]. unfold takes_over, has_flag, clear_flag, set_flags in *. cbn [con_flags] in *.
  rewrite <- !Z.land_assoc. change (Z.land (not32 CON_PRINTBUFFER) (Z.lor CON_CONSDEV CON_BOOT)) with (Z.lor CON_CONSDEV CON_BOOT).
  split; [done|]. change (Z.land (not32 CON_PRINTBUFFER) CON_PRINTBUFFER) with 0. by rewrite Z.land_0_r.
Qed.

(** Up to the message: the console is in the list, and has got the log if it
    wants it. *)
Lemma nest_run new bcon c s a ids : calm e s a ids -> new ∉ ids -> cons (out s) !! new = Some c ->
  (has_flag CON_PRINTBUFFER c = true -> short_lines s a) ->
  let ids' := placed (has_flag CON_CONSDEV c) new ids in
  exists s' a' c', (enlist e new bcon s =
      (if takes_over bcon c' then
         printk e (chars "<6>console ["%string ++ con_name c' ++ decimal (con_index c') ++
                   chars "] enabled, bootconsole disabled"%string ++ [NL]);;
         o ← gets out;
         drop_boot_consoles e (size (cons o)) false (console_drivers o)
       else
         printk e (chars "<6>"%string ++ (if has_flag CON_BOOT c' then chars "boot"%string else []) ++
                   chars "console ["%string ++ con_name c' ++ decimal (con_index c') ++ chars "] enabled"%string ++ [NL])) s') /\
    takes_over bcon c' = takes_over bcon c /\ calm e s' a' ids' /\
    agree (<[new := unbuffered bcon c]> (cons (out s))) (cons (out s')) /\
    (sole (cons (out s)) ids -> sole (cons (out s')) ids').
Proof.
  intros HC Hn Ec HB ids'. destruct (unbuffered_flags bcon c) as (F1 & F2 & F3 & F4). set (c1 := unbuffered bcon c) in *.
  set (s1 := with_cons (<[new := c1]> (cons (out s))) s).
  assert (calm e s1 a ids) as HC1 by (apply (calm_cons_change s a ids); [done|]; apply registered_insert; [apply HC|done]).
  unfold enlist. rewrite bind_unfold, (get_console_run _ c), bind_unfold by done.
  assert ((if takes_over bcon c then update_console (clear_flag CON_PRINTBUFFER) new else mret tt) s = Some (tt, s1)) as ->.
  { subst s1 c1. unfold unbuffered. destruct (takes_over bcon c); [by apply update_console_run|].
    rewrite insert_id by done. by destruct s as [? ? ? ? []]. }
  rewrite bind_unfold, (acquire_console_run s1 a ids HC1), bind_unfold.
  destruct (link_run new c1 (acquired s1) ids) as (o & E & Ro & Ao & Eo & So);
    [apply HC1|done|by cbn; rewrite lookup_insert_eq|]. rewrite E. rewrite F1 in Ro, So. fold ids' in Ro, So.
  destruct (cons o !! new) as [c2|] eqn:Ec2; [|done]. injection Eo as Eo.
  rewrite bind_unfold, (get_console_run _ c2), bind_unfold by done.
  replace (has_flag CON_PRINTBUFFER c2) with (has_flag CON_PRINTBUFFER c1) by (unfold has_flag; by rewrite Eo).
  destruct (release_calm (has_flag CON_PRINTBUFFER c1) s1 a ids o ids' HC1 Ro) as (s2 & a2 & ER & HC2 & _ & Es & Ed);
    [intros H; by apply HB, F4|].
  assert ((if has_flag CON_PRINTBUFFER c1 then on_ring (modify (fun r => with_con_start (log_start r) r)) else mret tt)
    (with_out o (acquired s1)) = Some (tt, with_rg ((if has_flag CON_PRINTBUFFER c1 then rewind else id) (rg s1))
      (with_out o (acquired s1)))) as -> by (by destruct (has_flag CON_PRINTBUFFER c1)).
  rewrite bind_unfold, ER, bind_unfold, (get_console_run _ c2) by (by rewrite Es).
  exists s2, a2, c2. split; [done|]. split; [|split; [done|split]].
  - rewrite <- F3. unfold takes_over. by rewrite Eo.
  - by rewrite Es.
  - intros Hs. rewrite Es. by apply So, sole_insert.
Qed.

Lemma enlist_run new bcon c s a ids : calm e s a ids -> new ∉ ids -> cons (out s) !! new = Some c ->
  (has_flag CON_PRINTBUFFER c = true -> short_lines s a) ->
  let l := placed (has_flag CON_CONSDEV c) new ids in
  let ids' := if takes_over bcon c then filter (fun i => is_boot (cons (out s)) i = false) l else l in
  exists s' a', enlist e new bcon s = Some (tt, s') /\ calm e s' a' ids' /\
    agree (<[new := unbuffered bcon c]> (cons (out s))) (cons (out s')) /\
    (sole (cons (out s)) ids -> sole (cons (out s')) ids').
Proof.
  intros HC Hn Ec HB l ids'. destruct (nest_run new bcon c s a ids HC Hn Ec HB) as (s1 & a1 & c' & -> & -> & HC1 & A1 & S1).
  fold l in HC1, S1. subst ids'. destruct (takes_over bcon c); last first.
  { match goal with |- context [printk e ?t] => destruct (printk_calm t s1 a1 l HC1) as (s2 & a2 & E2 & HC2 & Es & Ed) end.
    exists s2, a2. rewrite E2, Es. done. }
  match goal with |- context [printk e ?t] => destruct (printk_calm t s1 a1 l HC1) as (s2 & a2 & E2 & HC2 & Es & Ed) end.
  rewrite bind_unfold, E2, bind_unfold, gets_run.
  pose proof (proj1 (registered_linked _ _) (calm_cons _ _ _ _ HC2)) as [L2 D2].
  destruct (drop_boot_run false l [] (size (cons (out s2))) s2 a2 (console_drivers (out s2)) HC2) as (s3 & a3 & E3 & HC3 & A3 & S3);
    [by eapply linked_size|done|]. rewrite Es in *. exists s3, a3. rewrite E3. cbn [app] in *.
  rewrite <- (filter_boot _ _ l A1) in HC3, S3.
  rewrite (filter_boot_insert _ new c) in HC3, S3 by (done || by destruct (unbuffered_flags bcon c) as (_ & -> & _)).
  split; [done|]. split; [done|]. split; [by etrans|]. auto.
Qed.
End Calm.

(** ** Choosing the console *)

Definition keeps (c c' : console) : Prop :=
  has_flag CON_BOOT c' = has_flag CON_BOOT c /\ has_flag CON_PRINTBUFFER c' = has_flag CON_PRINTBUFFER c.

#[global] Instance keeps_equiv : Equivalence keeps.
Proof. unfold keeps. split; red; naive_solver congruence. Qed.

Lemma keeps_index i c : keeps c (set_index i c).
Proof. done. Qed.
Lemma keeps_flag_add f c : Z.land f CON_BOOT = 0 -> Z.land f CON_PRINTBUFFER = 0 -> keeps c (add_flag f c).
Proof.
  intros H1 H2. unfold keeps, has_flag, add_flag, set_flags. cbn [con_flags].
  by rewrite !Z.land_lor_distr_l, H1, H2, !Z.lor_0_r.
Qed.

Ltac keep := repeat first [reflexivity | etrans; [|by apply keeps_flag_add] | etrans; [|apply keeps_index]].

Section Choose.
Context (setup : positive -> option (Z -> option (list Z) -> Z * Z)).
Context (early_setup : positive -> list console_cmdline -> list console_cmdline).

Lemma keeps_setup new options c : keeps c (snd (try_setup setup new options c)).
Proof. unfold try_setup. destruct (setup new) as [f|]; [|done]. by destruct (f _ options). Qed.

Lemma take_first_keeps new c s :
  let r := take_first setup new c s in kl (snd r) = kl s /\ cmdline (snd r) = cmdline s /\ keeps c (fst r).
Proof.
  intros r. subst r. unfold take_first. set (c0 := if con_index c <? 0 then _ else _).
  assert (keeps c c0) as H0 by (subst c0; by destruct (con_index c <? 0)).
  pose proof (keeps_setup new None c0) as H1. destruct (try_setup setup new None c0) as [ok c1]. cbn [snd] in H1.
  destruct ok; [|split; [done|split; [done|]]; cbn; by etrans].
  destruct (con_device _); cbn; (split; [done|]); (split; [done|]); (etrans; [exact H0|]); (etrans; [exact H1|]);
    keep.
Qed.

Lemma match_cmdline_keeps l : forall i new c s,
  let r := match_cmdline setup l i new c s in kl (snd r) = kl s /\ keeps c (fst r).
Proof.
  induction l as [|cl l IH]; intros i new c s r; subst r; cbn [match_cmdline]; [done|].
  case_bool_decide; [done|]. case_bool_decide; cbn [negb]; [|apply IH].
  destruct (_ && _); [apply IH|]. set (c0 := if con_index c <? 0 then _ else _).
  assert (keeps c c0) as H1 by (subst c0; by destruct (con_index c <? 0)).
  pose proof (keeps_setup new (cl_options cl) c0) as H2. destruct (try_setup setup new _ c0) as [ok c1]. cbn [snd] in H2.
  destruct ok; [|split; [done|]; cbn; by etrans].
  destruct (_ =? _); cbn; (split; [done|]); (etrans; [exact H1|]); (etrans; [exact H2|]);
    keep.
Qed.

Lemma choose_keeps new bcon c s :
  let r := choose setup early_setup new bcon c s in kl (snd r) = kl s /\ keeps c (fst r).
Proof.
  intros r. subst r. unfold choose. cbv zeta. set (s0 := if (_ || _) then _ else _).
  assert (kl s0 = kl s) as E0 by (subst s0; by destruct (_ || _)). clearbody s0.
  destruct (preferred_console _ <? 0).
  - pose proof (take_first_keeps new c (with_cmdline (early_setup new (cmdline s0)) s0)) as (E1 & _ & K1).
    destruct (take_first _ _ _ _) as [c1 s1]. cbn [fst snd] in *.
    destruct (match_cmdline_keeps (cmdline s1) 0 new c1 s1) as [E2 K2]. cbv beta iota. rewrite E2, E1. split; [done|by etrans].
  - cbv beta iota. match goal with |- context [match_cmdline _ ?l 0 new c ?s1] => destruct (match_cmdline_keeps l 0 new c s1) as [E2 K2] end.
    cbv beta iota. by rewrite E2.
Qed.
End Choose.

Lemma consoles_read o ids : registered o ids ->
  exists cs, mapM (fun i => cons o !! i) ids = Some cs /\ map (has_flag CON_BOOT) cs = map (is_boot (cons o)) ids.
Proof.
  intros (_ & _ & HF). induction HF as [|i ids [c Ec] _ (cs & E & Em)]; [by exists []|].
  exists (c :: cs). cbn. rewrite Ec. cbn. rewrite E. split; [done|]. unfold is_boot at 1. by rewrite Ec, Em.
Qed.

Lemma existsb_map {A B} (f : A -> B) (p : B -> bool) l : existsb p (map f l) = existsb (fun x => p (f x)) l.
Proof. induction l as [|x l IH]; cbn; [done|]. by rewrite IH. Qed.

(** ** Registration *)

Section Register.
Context (e : cpu).
Context (online : cpu_online e = true) (cpu_number : 0 <= this_cpu e < 2 ^ 31) (task : in_interrupt e = false).
Context (setup : positive -> option (Z -> option (list Z) -> Z * Z)).
Context (early_setup : positive -> list console_cmdline -> list console_cmdline).

(** The list after [register_console]: [c1] is the console as it was chosen. *)
Definition new_list (st : gmap positive console) (ids : list positive) (new : positive) (bcon : bool) (c1 : console) : list positive :=
  if has_flag CON_ENABLED c1 then
    let l := placed (has_flag CON_CONSDEV c1) new ids in
    if takes_over bcon c1 then filter (fun i => is_boot st i = false) l else l
  else ids.

(** No boot console is left in a list. *)
Definition no_boot (st : gmap positive console) (ids : list positive) : Prop :=
  Forall (fun i => is_boot st i = false) ids.

Lemma no_boot_placed st b new ids : is_boot st new = false -> no_boot st (placed b new ids) <-> no_boot st ids.
Proof.
  intros H. unfold no_boot. destruct ids as [|h ids], b; cbn; rewrite !Forall_cons; naive_solver.
Qed.

Lemma no_boot_new_list st ids new bcon c1 : is_boot st new = false -> has_flag CON_ENABLED c1 = true ->
  no_boot st (new_list st ids new bcon c1) <-> takes_over bcon c1 = true \/ no_boot st ids.
Proof.
  intros H E. unfold new_list. rewrite E. destruct (takes_over bcon c1).
  - split; [by left|]. intros _. apply Forall_forall. intros i Hi. by apply list_elem_of_filter in Hi as [? _].
  - rewrite no_boot_placed by done. naive_solver.
Qed.

(** C27: Registering a console that is not registered yet ends, and leaves a sound
    list. A boot console is refused once there is a real one. Otherwise the console
    is chosen by the command line, or because it is the first; if it is enabled, it
    enters the list, at the head when it is the preferred one (which then alone
    is /dev/console) and behind the head otherwise; and a preferred real console
    that finds a boot console at the head takes all boot consoles, and no others,
    out of the list. This is less than the comment above the function promises,
    by which a real console removes all boot consoles as soon as it registers: for
    an enabled real console, the last clause says that the promise is kept if and
    only if the console is the preferred one and a boot console is at the head, or
    there was no boot console to remove. In every other case they stay. *)
Theorem register_console_list new c s a ids :
  let st := cons (out (kl s)) in
  let bcon := match ids with h :: _ => is_boot st h | [] => false end in
  let too_late := has_flag CON_BOOT c && existsb (fun i => negb (is_boot st i)) ids in
  let r := choose setup early_setup new bcon c s in
  let ids' := if too_late then ids else new_list st ids new bcon (fst r) in
  calm e (kl s) a ids -> new ∉ ids -> st !! new = Some c ->
  (has_flag CON_PRINTBUFFER c = true -> short_lines (kl s) a) ->
  exists s' a', register_console e setup early_setup new s = Some (tt, s') /\ calm e (kl s') a' ids' /\
    (sole st ids -> sole (cons (out (kl s'))) ids') /\
    (forall i, i <> new -> core <$> cons (out (kl s')) !! i = core <$> st !! i) /\
    preferred_console s' = preferred_console (if too_late then s else snd r) /\
    (has_flag CON_BOOT c = false -> has_flag CON_ENABLED (fst r) = true ->
     no_boot st ids' <-> takes_over bcon (fst r) = true \/ no_boot st ids).
Proof.
  intros st bcon too_late r ids' HC Hn Ec HB. subst ids'.
  assert (has_flag CON_BOOT c = false -> has_flag CON_ENABLED (fst r) = true ->
     no_boot st (if too_late then ids else new_list st ids new bcon (fst r)) <->
     takes_over bcon (fst r) = true \/ no_boot st ids) as HP.
  { intros Hb He. subst too_late. rewrite Hb. cbn. apply no_boot_new_list; [|done]. unfold is_boot. by rewrite Ec. }
  unfold register_console.
  destruct (consoles_read _ _ (calm_cons _ _ _ _ HC)) as (cs & Ecs & Emap). fold st in Emap.
  rewrite bind_unfold, get_run. cbv zeta. rewrite (proj1 (calm_cons _ _ _ _ HC)), bind_unfold, lift_opt_run.
  rewrite Ecs, bind_unfold, lift_opt_run, bind_unfold. unfold on_klog, zoom at 1.
  rewrite (get_console_run _ c) by done. cbv beta iota.
  assert (with_kl (kl s) s = s) as Hs by (by destruct s).
  assert (existsb (fun c => negb (has_flag CON_BOOT c)) cs = existsb (fun i => negb (is_boot st i)) ids) as ->.
  { by rewrite <- (existsb_map (has_flag CON_BOOT) negb), Emap, existsb_map. }
  assert (match cs with h :: _ => has_flag CON_BOOT h | [] => false end = bcon) as ->.
  { subst bcon. destruct cs, ids; try done. by injection Emap as ->. }
  rewrite Hs. fold too_late. destruct too_late.
  - unfold zoom. match goal with |- context [printk e ?t] =>
      destruct (printk_calm e online cpu_number t (kl s) a ids HC) as (k & a' & E & HC' & Es & _) end.
    exists (with_kl k s), a'. rewrite E. split; [done|]. split; [done|]. cbn [kl with_kl]. rewrite Es. repeat (split; [done|]). exact HP.
  - destruct (choose_keeps setup early_setup new bcon c s) as [E1 K1]. fold r in E1, K1 |- *.
    destruct r as [c1 s1]. cbn [fst snd] in *. rewrite bind_unfold, put_run, bind_unfold.
    unfold zoom at 1. rewrite E1, (update_console_run _ _ c) by done.
    set (k := with_cons (<[new := c1]> (cons (out (kl s)))) (kl s)).
    assert (calm e k a ids) as HCk by (apply (calm_cons_change _ _ _ ids); [done|]; apply registered_insert; [apply HC|done]).
    unfold new_list in HP |- *. destruct (has_flag CON_ENABLED c1).
    + destruct (enlist_run e online cpu_number task new bcon c1 k a ids HCk Hn) as (k' & a' & E & HC' & A' & S');
        [by cbn; rewrite lookup_insert_eq|intros H; apply HB; by rewrite <- (proj2 K1)|].
      exists (with_kl k' s1), a'. unfold zoom. cbn [kl with_kl]. rewrite E. cbn [out k with_cons with_out cons] in HC', A', S'.
      rewrite (filter_boot_insert _ new c c1) in HC', S' by (done || apply K1).
      split; [done|]. split; [exact HC'|]. split; [intros H; by apply S', sole_insert|]. split; [|split; [done|exact HP]].
      intros i Hi. cbn [kl with_kl]. by rewrite <- (A' i), !lookup_insert_ne.
    + exists (with_kl k s1), a. rewrite ret_unfold. split; [done|]. split; [done|]. cbn [kl with_kl out k with_cons with_out cons].
      split; [intros H; by apply sole_insert|]. split; [|split; [done|exact HP]]. intros i Hi. by rewrite lookup_insert_ne.
Qed.

(** Unregistering a console takes it and no other out of the list, with the
    result 0, or changes nothing in the list, with the result 1, when it was not
    registered. If it was /dev/console, the new head of the list is. *)
Theorem unregister_console_list i c s a ids :
  let st := cons (out s) in
  let ids' := filter (fun j => j <> i) ids in
  calm e s a ids -> st !! i = Some c ->
  exists s' a', unregister_console e i s = Some (if decide (i ∈ ids) then 0 else 1, s') /\ calm e s' a' ids' /\
    (forall j, core <$> cons (out s') !! j = core <$> st !! j) /\
    (sole st ids -> sole (cons (out s')) ids') /\
    (has_flag CON_CONSDEV c = true -> forall h, head ids' = Some h -> consdev (cons (out s')) h = true).
Proof.
  intros st ids' HC Ec. destruct (unregister_run e task i c s a ids HC Ec) as (s' & a' & E & HC' & A & _ & S & H).
  exists s', a'. split; [done|]. split; [done|]. split; [|done]. intros j. symmetry. apply A.
Qed.

(** [disable_boot_consoles] leaves the real consoles. *)
Lemma disable_boot_consoles_run s a ids : calm e s a ids ->
  exists s' a', disable_boot_consoles e s = Some (0, s') /\
    calm e s' a' (filter (fun i => is_boot (cons (out s)) i = false) ids) /\ agree (cons (out s)) (cons (out s')).
Proof.
  intros HC. pose proof (proj1 (registered_linked _ _) (calm_cons _ _ _ _ HC)) as [L D].
  destruct (drop_boot_run e online cpu_number task true ids [] (size (cons (out s))) s a (console_drivers (out s)) HC)
    as (s' & a' & E & HC' & A & _); [by eapply linked_size|done|].
  exists s', a'. unfold disable_boot_consoles. rewrite bind_unfold, gets_run, bind_unfold, E. done.
Qed.
End Register.

(** ** Witnesses *)

Definition ex_names : list Z := chars "ttyS"%string.
(** A boot console is registered; the serial console is on the command line. *)
Definition ex_consoles : consoles :=
  Consoles (ex_klog (boot_ring 14)
    (Output {[1%positive := Console (chars "udbg"%string) 0 (Z.lor CON_ENABLED (Z.lor CON_CONSDEV CON_BOOT)) true false false None;
              2%positive := Console ex_names (-1) CON_PRINTBUFFER true true false None]} (Some 1%positive) [] false ∅))
    [Cmdline ex_names 0 (Some (chars "115200"%string))] 0 (-1) true.

Lemma ex_consoles_calm : calm ex_cpu (kl ex_consoles) boot_log [1%positive].
Proof.
  constructor; try done; [apply boot_rep; lia| |cbn; lia..].
  split; [by vm_compute|]. split; [apply NoDup_singleton|]. apply Forall_singleton. by eexists; vm_compute.
Qed.

Lemma register_console_list_witness :
  exists s' a', register_console ex_cpu (fun _ => Some (fun i _ => (0, i))) (fun _ l => l) 2 ex_consoles = Some (tt, s') /\
    calm ex_cpu (kl s') a' [2%positive] /\ preferred_console s' = 0.
Proof.
  destruct (register_console_list ex_cpu eq_refl ltac:(vm_compute; split; discriminate || reflexivity) eq_refl
    (fun _ => Some (fun i _ => (0, i))) (fun _ l => l) 2 (Console ex_names (-1) CON_PRINTBUFFER true true false None)
    ex_consoles boot_log [1%positive] ex_consoles_calm) as (s' & a' & E & HC & _ & _ & Hp & _).
  - by apply not_elem_of_cons; split; [|apply not_elem_of_nil].
  - reflexivity.
  - intros _. constructor.
  - exists s', a'. split; [exact E|]. split; [exact HC|exact Hp].
Defined.

Lemma unregister_console_list_witness :
  exists s' a', unregister_console ex_cpu 1 (kl ex_consoles) = Some (0, s') /\ calm ex_cpu s' a' [].
Proof.
  destruct (unregister_console_list ex_cpu eq_refl 1
    (Console (chars "udbg"%string) 0 (Z.lor CON_ENABLED (Z.lor CON_CONSDEV CON_BOOT)) true false false None)
    (kl ex_consoles) boot_log [1%positive] ex_consoles_calm eq_refl) as (s' & a' & E & HC & _).
  exists s', a'. split; [exact E|exact HC].
Defined.

(** A real console that the command line does not prefer leaves the boot console
    in the list. *)
Lemma boot_console_stays :
  result (register_console ex_cpu (fun _ => None) (fun _ l => l) 2;; s ← get; lift_opt (drivers (out (kl s))))
    (Consoles (kl ex_consoles) [Cmdline ex_names 0 None; Cmdline (chars "tty"%string) 0 None] 1 (-1) true)
  = Some [1%positive; 2%positive].
Proof. vm_compute. reflexivity. Qed.
