(* ===== verification/Ratelimit.v ===== *)
(** * Rate limiting (lib/ratelimit.c, kernel/printk.c)

    [___ratelimit] lets at most [burst] callers through until [interval] ticks
    have passed, and [printk_timed_ratelimit] one caller per interval. *)

From S2P Require Import Prelude Timer.

Record ratelimit_state := Ratelimit {
  interval : Z;
  burst : Z;
  printed : Z;
  missed : Z;
  begin : Z
}.

Definition ratelimit_state_init (i b : Z) : ratelimit_state := Ratelimit i b 0 0 0.

(** [busy]: the lock is held by somebody else. The result, and the number in the
    message "callbacks suppressed" if it is printed. *)
Definition ___ratelimit (busy : bool) (jiffies : Z) (rs : ratelimit_state) : Z * option Z * ratelimit_state :=
  if interval rs =? 0 then (1, None, rs)
  else if busy then (0, None, rs)
  else
    let begin0 := if begin rs =? 0 then jiffies else begin rs in
    let over := time_after jiffies (u32 (begin0 + interval rs)) in
    let message := if over && negb (missed rs =? 0) then Some (missed rs) else None in
    let rs := if over then Ratelimit (interval rs) (burst rs) 0 0 0
              else Ratelimit (interval rs) (burst rs) (printed rs) (missed rs) begin0 in
    if negb (burst rs =? 0) && (printed rs <? burst rs)
    then (1, message, Ratelimit (interval rs) (burst rs) (printed rs + 1) (missed rs) (begin rs))
    else (0, message, Ratelimit (interval rs) (burst rs) (printed rs) (s32 (missed rs + 1)) (begin rs)).

(** [printk_ratelimit_state]: 10 messages in 5 seconds. *)
Definition HZ : Z := 250.
Definition printk_ratelimit_state : ratelimit_state := ratelimit_state_init (5 * HZ) 10.

Definition LONG_MAX : Z := 2 ^ 31 - 1.
Definition MAX_JIFFY_OFFSET : Z := Z.shiftr LONG_MAX 1 - 1.
Definition MSEC_PER_SEC : Z := 1000.

Definition msecs_to_jiffies (m : Z) : Z :=
  if s32 m <? 0 then MAX_JIFFY_OFFSET else (m + MSEC_PER_SEC / HZ - 1) / (MSEC_PER_SEC / HZ).

Definition time_in_range (a b c : Z) : bool := time_after_eq a b && time_before_eq a c.

(** The result and [*caller_jiffies]. *)
Definition printk_timed_ratelimit (caller_jiffies jiffies interval_msecs : Z) : bool * Z :=
  if (caller_jiffies =? 0) ||
     negb (time_in_range jiffies caller_jiffies (u32 (caller_jiffies + msecs_to_jiffies interval_msecs)))
  then (true, jiffies)
  else (false, caller_jiffies).

(** Calls at the times of a list, with the results. *)
Fixpoint calls (l : list (bool * Z)) (rs : ratelimit_state) : list Z * ratelimit_state :=
  match l with
  | [] => ([], rs)
  | (busy, t) :: l =>
      let '(r, _, rs) := ___ratelimit busy (u32 t) rs in
      let '(rest, rs) := calls l rs in (r :: rest, rs)
  end.

(** ** Comparing times *)

Lemma time_after_over g i t : 0 <= i < 2 ^ 31 -> g <= t <= g + i ->
  time_after (u32 t) (u32 (u32 g + i)) = false.
Proof.
  intros Hi Ht. unfold time_after. destruct (u32_congr t) as [k1 E1], (u32_congr (u32 g + i)) as [k2 E2], (u32_congr g) as [k3 E3].
  apply Z.ltb_ge. rewrite (s32_congr _ (g + i - t) (k2 + k3 - k1)); lia.
Qed.

Lemma time_after_begin t i : 0 <= i < 2 ^ 31 -> time_after (u32 t) (u32 (u32 t + i)) = false.
Proof. intros Hi. apply time_after_over; lia. Qed.

(** ** The bound *)

Definition passed (rs : list Z) : Z := Z.of_nat (length (filter (fun r => r = 1) rs)).

Lemma passed_cons r rs : passed (r :: rs) = (if decide (r = 1) then 1 else 0) + passed rs.
Proof. unfold passed. rewrite filter_cons. destruct (decide (r = 1)); cbn [length]; lia. Qed.

(** Times in order, from [t] on, and up to [stop]. *)
Fixpoint ordered (t stop : Z) (l : list (bool * Z)) : Prop :=
  match l with [] => t <= stop | (_, t') :: l => t <= t' /\ ordered t' stop l end.

Lemma ordered_end stop l : forall t, ordered t stop l -> t <= stop.
Proof. induction l as [|[b t'] l IH]; cbn; intros t; [done|]. intros [? ?%IH]. lia. Qed.

(** The window began at [g] or later. *)
Definition window (g t : Z) (rs : ratelimit_state) : Prop :=
  begin rs <> 0 -> exists g', begin rs = u32 g' /\ g <= g' <= t.

Definition count (r : Z) : Z := if decide (r = 1) then 1 else 0.

Lemma time_over g t rs : 0 < interval rs < 2 ^ 31 -> window g t rs -> g <= t ->
  time_after (u32 t) (u32 ((if begin rs =? 0 then u32 t else begin rs) + interval rs)) = true -> g + interval rs < t.
Proof.
  intros Hi Hw Hg Ho. destruct (decide (g + interval rs < t)) as [|Hn]; [done|].
  destruct (Z.eqb_spec (begin rs) 0) as [E|E]; [rewrite time_after_begin in Ho by lia; done|].
  destruct (Hw E) as (g' & Eg & Hg'). rewrite Eg, time_after_over in Ho by lia. done.
Qed.

(** One call: it leaves the window as it is, or starts another one. *)
Lemma ratelimit_step busy t rs : 0 < interval rs < 2 ^ 31 -> 0 <= printed rs <= burst rs ->
  let '(r, _, rs') := ___ratelimit busy (u32 t) rs in
  interval rs' = interval rs /\ burst rs' = burst rs /\ 0 <= printed rs' <= burst rs /\
  ((printed rs' = printed rs + count r /\ forall g t0, window g t0 rs -> g <= t0 <= t -> window g t rs') \/
   (printed rs' = count r /\ window t t rs' /\ forall g t0, window g t0 rs -> g <= t0 <= t -> g + interval rs < t)).
Proof.
  intros Hi Hp. unfold ___ratelimit. rewrite (proj2 (Z.eqb_neq (interval rs) 0)) by lia.
  assert (forall g t0, window g t0 rs -> g <= t0 <= t -> window g t rs) as Hw.
  { intros g t0 W Ht E. destruct (W E) as (g' & -> & Hg). exists g'. split; [done|lia]. }
  destruct busy; [split; [done|]; split; [done|]; split; [done|]; left; split; [change (count 0) with 0; lia|done]|].
  pose proof (fun g => time_over g t rs Hi) as HO.
  set (b0 := if begin rs =? 0 then u32 t else begin rs) in *.
  assert (forall g t0, window g t0 rs -> g <= t0 <= t -> exists g', b0 = u32 g' /\ g <= g' <= t) as Hb.
  { intros g t0 W Ht. subst b0. destruct (Z.eqb_spec (begin rs) 0) as [E|E]; [exists t; split; [done|lia]|].
    destruct (W E) as (g' & -> & Hg). exists g'. split; [done|lia]. }
  destruct (time_after _ _); cbn [burst printed interval begin missed];
    destruct (negb (burst rs =? 0) && _) eqn:Ec; cbn [burst printed interval begin]; zbool;
    (split; [done|]; split; [done|]; split; [lia|]); change (count 1) with 1; change (count 0) with 0.
  1,2: right; split; [lia|]; split; [by intros ?|]; intros g t0 W Ht; apply HO; [by eapply Hw|lia|done].
  all: left; split; [lia|]; intros g t0 W Ht _; by eapply Hb.
Qed.

(** From a window that began at [g] or later. *)
Lemma calls_window stop l : forall g t rs, 0 < interval rs < 2 ^ 31 -> 0 <= printed rs <= burst rs ->
  window g t rs -> g <= t -> ordered t stop l ->
  passed (fst (calls l rs)) + printed rs <= burst rs * (1 + (stop - g) / (interval rs + 1)).
Proof.
  induction l as [|[busy t'] l IH]; intros g t rs Hi Hp W Hg Ho; cbn [calls fst ordered] in *.
  - assert (0 <= (stop - g) / (interval rs + 1)) by (apply Z.div_pos; lia). unfold passed. cbn. nia.
  - destruct Ho as [Ht Ho]. pose proof (ratelimit_step busy t' rs Hi Hp) as HS. pose proof (ordered_end _ _ _ Ho).
    destruct (___ratelimit busy (u32 t') rs) as [[r msg] rs']. destruct HS as (Ei & Eb & Hp' & HS).
    specialize (fun g' => IH g' t' rs'). rewrite Ei, Eb in IH. destruct (calls l rs') as [rest rs2]. cbn [fst] in *.
    rewrite passed_cons. fold (count r). destruct HS as [[Ep W']|(Ep & W' & HO)].
    + specialize (IH g Hi Hp' (W' g t W ltac:(lia)) ltac:(lia) Ho). lia.
    + specialize (IH t' Hi Hp' W' ltac:(lia) Ho). specialize (HO g t W ltac:(lia)).
      assert ((stop - t') / (interval rs + 1) + 1 <= (stop - g) / (interval rs + 1)).
      { rewrite <- Z.div_add by lia. apply Z.div_le_mono; lia. }
      nia.
Qed.

(** Rate limiting: whatever the state was before, of the calls in a period no
    more than [burst] are let through for each interval that fits into the period,
    and for two more. So in a period that is not longer than [interval] at most
    twice [burst] get through. The 32-bit tick counter may wrap around meanwhile. *)
Theorem ratelimit_bound l rs start stop : 0 < interval rs < 2 ^ 31 -> 0 <= printed rs <= burst rs ->
  ordered start stop l ->
  passed (fst (calls l rs)) <= burst rs * (2 + (stop - start) / (interval rs + 1)).
Proof.
  intros Hi Hp Ho. enough (passed (fst (calls l rs)) + printed rs <= burst rs * (2 + (stop - start) / (interval rs + 1))) by lia.
  revert start rs Hi Hp Ho. induction l as [|[busy t'] l IH]; intros start rs Hi Hp Ho; cbn [calls fst ordered] in *.
  - assert (0 <= (stop - start) / (interval rs + 1)) by (apply Z.div_pos; lia). unfold passed. cbn. nia.
  - destruct Ho as [Ht Ho]. pose proof (ratelimit_step busy t' rs Hi Hp) as HS. pose proof (ordered_end _ _ _ Ho).
    destruct (___ratelimit busy (u32 t') rs) as [[r msg] rs']. destruct HS as (Ei & Eb & Hp' & HS).
    assert ((stop - t') / (interval rs + 1) <= (stop - start) / (interval rs + 1)) by (apply Z.div_le_mono; lia).
    pose proof (calls_window stop l t' t' rs') as HW. specialize (IH t' rs'). rewrite Ei, Eb in *.
    destruct (calls l rs') as [rest rs2]. cbn [fst] in *. rewrite passed_cons. fold (count r).
    destruct HS as [[Ep W']|(Ep & W' & _)].
    + specialize (IH Hi Hp' Ho). nia.
    + specialize (HW Hi Hp' W' ltac:(lia) Ho). nia.
Qed.

(** ** Waiting *)

(** A caller that finds the lock free is let through once the interval is over,
    and the number of callers that were not is reported. *)
Lemma ratelimit_recovers g t rs : 0 < interval rs < 2 ^ 31 -> 0 < burst rs -> begin rs = u32 g -> begin rs <> 0 ->
  g + interval rs < t <= g + interval rs + 2 ^ 31 ->
  ___ratelimit false (u32 t) rs =
    (1, if missed rs =? 0 then None else Some (missed rs), Ratelimit (interval rs) (burst rs) 1 0 0).
Proof.
  intros Hi Hb Hg Hn Ht. unfold ___ratelimit.
  rewrite (proj2 (Z.eqb_neq (interval rs) 0)), (proj2 (Z.eqb_neq _ _) Hn), Hg by lia.
  assert (time_after (u32 t) (u32 (u32 g + interval rs)) = true) as ->.
  { unfold time_after. destruct (u32_congr t) as [k1 E1], (u32_congr (u32 g + interval rs)) as [k2 E2], (u32_congr g) as [k3 E3].
    apply Z.ltb_lt. rewrite (s32_congr _ (g + interval rs - t) (k2 + k3 - k1)); lia. }
  cbn [burst printed interval begin missed]. rewrite (proj2 (Z.eqb_neq (burst rs) 0)), (proj2 (Z.ltb_lt 0 _)) by lia.
  cbn [negb andb]. by destruct (missed rs =? 0).
Qed.

Lemma jiffies_range m : is_u32 m -> 0 <= msecs_to_jiffies m < 2 ^ 31.
Proof.
  intros Hm. unfold msecs_to_jiffies. change (MSEC_PER_SEC / HZ) with 4. change MAX_JIFFY_OFFSET with 1073741822.
  destruct (s32 m <? 0); [lia|]. unfold is_u32 in Hm. split; [apply Z.div_pos; lia|apply Z.div_lt_upper_bound; lia].
Qed.

(** [printk_timed_ratelimit] says yes exactly when more than the interval has
    passed since the time it was given, if that is not too long ago. *)
Lemma printk_timed_ratelimit_gap last now ms : is_u32 ms -> u32 last <> 0 -> last <= now < last + 2 ^ 31 ->
  printk_timed_ratelimit (u32 last) (u32 now) ms =
    if decide (last + msecs_to_jiffies ms < now) then (true, u32 now) else (false, u32 last).
Proof.
  intros Hm Hl Hn. unfold printk_timed_ratelimit. rewrite (proj2 (Z.eqb_neq _ _) Hl). cbn [orb].
  pose proof (jiffies_range ms Hm). set (j := msecs_to_jiffies ms) in *.
  unfold time_in_range, time_before_eq, time_after_eq.
  destruct (u32_congr now) as [k1 E1], (u32_congr (u32 last + j)) as [k2 E2], (u32_congr last) as [k3 E3].
  rewrite (s32_congr _ (now - last) (k1 - k3)) by lia. rewrite (s32_congr _ (last + j - now) (k2 + k3 - k1)) by lia.
  rewrite (proj2 (Z.leb_le 0 (now - last))) by lia. cbn [andb].
  destruct (Z.leb_spec 0 (last + j - now)); cbn [negb].
  - by rewrite decide_False by lia.
  - by rewrite decide_True by lia.
Qed.

(** ** Witnesses *)

(** Thirty calls of [printk_ratelimit] at once. *)
Lemma ratelimit_bound_witness :
  passed (fst (calls (replicate 30 (false, 5000)) printk_ratelimit_state)) <= 20.
Proof.
  refine (ratelimit_bound (replicate 30 (false, 5000)) printk_ratelimit_state 5000 5000 _ _ _).
  - vm_compute. done.
  - vm_compute. split; discriminate.
  - cbn. lia.
Defined.

(** 19 messages in two ticks, although the limit is 10 in 5 seconds. *)
Lemma ratelimit_twice :
  passed (fst (calls (replicate 9 (false, 2250) ++ replicate 10 (false, 2251))
    (snd (calls [(false, 1000)] printk_ratelimit_state)))) = 19.
Proof. vm_compute. reflexivity. Qed.

(** When nothing was printed for half of the counter's range after the limit was
    reached, the next message is suppressed. *)
Lemma ratelimit_stuck :
  fst (calls (replicate 10 (false, 1000) ++ [(false, 1000 + 1250 + 2 ^ 31 + 1)]) printk_ratelimit_state)
  = replicate 10 1 ++ [0].
Proof. vm_compute. reflexivity. Qed.
