(* ===== verification/TimerSleep.v ===== *)
(** * Sleeping and rounding on the timer wheel (kernel/timer.c, kernel/time.c)

    A task that sleeps for a time arms a timer that lies on its own stack, gives up
    the processor, and takes the timer off the wheel before it returns
    ([schedule_timeout]); [msleep] does so until the time has passed. What happens
    while the task is away is a sequence of events of Timer, which is also how the
    scheduler appears here: it runs other code and at some time returns.

    The file also has the functions that round times to whole seconds
    ([round_jiffies] and its variants). *)

From S2P Require Import Prelude Ratelimit Timer TimerSpec TimerInv TimerProps TimerRun.

(** ** Rounding

    [now] is the value [jiffies] has when the function compares with it; the
    functions for relative times have read it once before, as [j0]. *)

Definition round_jiffies_common (now j cpu : Z) (force_up : bool) : Z :=
  let original := j in
  let j := u32 (j + cpu * 3) in
  let rem := j mod HZ in
  let j := if (rem <? HZ / 4) && negb force_up then u32 (j - rem) else u32 (j - rem + HZ) in
  let j := u32 (j - cpu * 3) in
  if j <=? now then original else j.

Definition __round_jiffies (now j cpu : Z) : Z := round_jiffies_common now j cpu false.
Definition __round_jiffies_relative (j0 now j cpu : Z) : Z :=
  u32 (round_jiffies_common now (u32 (j + j0)) cpu false - j0).
Definition __round_jiffies_up (now j cpu : Z) : Z := round_jiffies_common now j cpu true.
Definition __round_jiffies_up_relative (j0 now j cpu : Z) : Z :=
  u32 (round_jiffies_common now (u32 (j + j0)) cpu true - j0).

(** On the processor that runs the code, [raw_smp_processor_id]. *)
Section Current.
  Context (smp_processor_id : Z).

Definition round_jiffies (now j : Z) : Z := round_jiffies_common now j smp_processor_id false.
Definition round_jiffies_relative (j0 now j : Z) : Z :=
  __round_jiffies_relative j0 now j smp_processor_id.
Definition round_jiffies_up (now j : Z) : Z := round_jiffies_common now j smp_processor_id true.
Definition round_jiffies_up_relative (j0 now j : Z) : Z :=
  __round_jiffies_up_relative j0 now j smp_processor_id.

End Current.

(** ** Sleeping *)

Definition TASK_RUNNING : Z := 0.
Definition TASK_INTERRUPTIBLE : Z := 1.
Definition TASK_UNINTERRUPTIBLE : Z := 2.
Definition TASK_WAKEKILL : Z := 128.
Definition TASK_KILLABLE : Z := Z.lor TASK_WAKEKILL TASK_UNINTERRUPTIBLE.
Definition MAX_SCHEDULE_TIMEOUT : Z := LONG_MAX.

(** [(MSEC_PER_SEC / HZ) * j] *)
Definition jiffies_to_msecs (j : Z) : Z := u32 (MSEC_PER_SEC / HZ * j).

(** What a sleeping task sees: the timers, the clock in full width, of which
    [jiffies] is the low word, its own [state], and the values
    [schedule_timeout] has complained about. *)
Record sleeper := Sleeper {
  wheel : system;
  jiffies_64 : Z;
  state : Z;
  wrong : list Z
}.

(** The circumstances of one call of [schedule_timeout]: the processor it is called
    on and the one an idle processor hands its timers to, what was on the stack
    where the timer's [expires] field lies, the events while the task is away, those
    between two attempts to delete the timer, and whether a signal is pending
    before the call. *)
Record nap := Nap {
  cpu : nat;
  migrate : option nat;
  garbage : Z;
  asleep : list event;
  between : list (list event);
  signal_pending : bool
}.

(** Clock interrupts among events. *)
Definition is_tick (ev : event) : Z := match ev with EvTick => 1 | _ => 0 end.
Fixpoint clock (evs : list event) : Z :=
  match evs with [] => 0 | ev :: evs' => is_tick ev + clock evs' end.

(** Clock interrupts while [del_timer_sync] waits. *)
Fixpoint waited (turns : list (list event)) (t : tid) (s : system) : Z :=
  match turns with
  | [] => 0
  | evs :: turns' =>
      match try_to_del_timer_sync t s with
      | Some (r, s1) =>
          if 0 <=? r then 0
          else match run_events evs s1 with
               | Some s2 => clock evs + waited turns' t s2
               | None => 0
               end
      | None => 0
      end
  end.

Definition on_wheel {A} (m : M system A) : M sleeper A :=
  zoom wheel (fun w s => Sleeper w (jiffies_64 s) (state s) (wrong s)) m.
Definition set_current_state (z : Z) : M sleeper unit :=
  modify (fun s => Sleeper (wheel s) (jiffies_64 s) z (wrong s)).
Definition advance (n : Z) : M sleeper unit :=
  modify (fun s => Sleeper (wheel s) (jiffies_64 s + n) (state s) (wrong s)).

(** [schedule]: other code runs, and when the task runs again it is [TASK_RUNNING]. *)
Definition schedule (evs : list event) : M sleeper unit :=
  on_wheel (turn evs);; advance (clock evs);; set_current_state TASK_RUNNING.

Section Sleep.
  (** The timer on the task's stack, the address of [process_timeout] and that of the
      task. *)
  Context (timer : tid) (process_timeout current : Z).

(** [del_singleshot_timer_sync] is [del_timer_sync]. *)
Definition del_singleshot_timer_sync (turns : list (list event)) : M sleeper (option Z) :=
  n ← gets (fun s => waited turns timer (wheel s));
  r ← on_wheel (del_timer_sync (turn <$> turns) timer);
  advance n;;
  mret r.

(** Up to the call of [schedule]: the time at which the timer expires. *)
Definition arm (timeout : Z) (n : nap) : M sleeper Z :=
  now ← gets (fun s => jiffies (wheel s));
  let expire := u32 (timeout + now) in
  on_wheel (init_timer timer (cpu n) (u32 (garbage n)) process_timeout current false);;
  _ ← on_wheel (__mod_timer timer expire false false (cpu n) (migrate n));
  mret expire.

(** None: the task is still waiting for the timer's function to end. *)
Definition schedule_timeout (timeout : Z) (n : nap) : M sleeper (option Z) :=
  let out timeout := Some (if timeout <? 0 then 0 else timeout) in
  if timeout =? MAX_SCHEDULE_TIMEOUT then schedule (asleep n);; mret (out timeout)
  else if timeout <? 0 then
    modify (fun s => Sleeper (wheel s) (jiffies_64 s) (state s) (timeout :: wrong s));;
    set_current_state TASK_RUNNING;;
    mret (out timeout)
  else
    expire ← arm timeout n;
    schedule (asleep n);;
    r ← del_singleshot_timer_sync (between n);
    match r with
    | None => mret None
    | Some _ => now ← gets (fun s => jiffies (wheel s)); mret (out (s32 (expire - now)))
    end.

Definition schedule_timeout_interruptible (timeout : Z) (n : nap) : M sleeper (option Z) :=
  set_current_state TASK_INTERRUPTIBLE;; schedule_timeout timeout n.
Definition schedule_timeout_killable (timeout : Z) (n : nap) : M sleeper (option Z) :=
  set_current_state TASK_KILLABLE;; schedule_timeout timeout n.
Definition schedule_timeout_uninterruptible (timeout : Z) (n : nap) : M sleeper (option Z) :=
  set_current_state TASK_UNINTERRUPTIBLE;; schedule_timeout timeout n.

(** The loop of [msleep], an iteration per element of the list; None if it has not
    ended by then. *)
Fixpoint msleep_loop (naps : list nap) (timeout : Z) : M sleeper (option unit) :=
  if timeout =? 0 then mret (Some tt)
  else
    match naps with
    | [] => mret None
    | n :: naps' =>
        r ← schedule_timeout_uninterruptible (s32 timeout) n;
        match r with None => mret None | Some r => msleep_loop naps' (u32 r) end
    end.

Definition msleep (msecs : Z) (naps : list nap) : M sleeper (option unit) :=
  msleep_loop naps (u32 (msecs_to_jiffies msecs + 1)).

Fixpoint msleep_interruptible_loop (naps : list nap) (timeout : Z) : M sleeper (option Z) :=
  if timeout =? 0 then mret (Some timeout)
  else
    match naps with
    | [] => mret None
    | n :: naps' =>
        if signal_pending n then mret (Some timeout)
        else
          r ← schedule_timeout_interruptible (s32 timeout) n;
          match r with None => mret None | Some r => msleep_interruptible_loop naps' (u32 r) end
    end.

Definition msleep_interruptible (msecs : Z) (naps : list nap) : M sleeper (option Z) :=
  timeout ← msleep_interruptible_loop naps (u32 (msecs_to_jiffies msecs + 1));
  mret (jiffies_to_msecs <$> timeout).

End Sleep.

(** ** Rounding stays near *)

(** The rounded time is the time asked for, or a time after [now] at which the clock
    of the processor, skewed by three ticks per processor, is at a whole second:
    less than a quarter of a second earlier or at most one second later, and never
    earlier when rounding up. *)
Lemma round_jiffies_near now j cpu up : is_u32 j -> 0 <= cpu < 2 ^ 16 ->
  let r := round_jiffies_common now j cpu up in
  r = j \/
  now < r /\ exists k, r = u32 (j + k) /\ (u32 (j + cpu * 3) + k) mod HZ = 0 /\
    (if up then 0 else - (HZ / 4)) < k <= HZ.
Proof.
  intros Hj Hc. unfold round_jiffies_common. cbv zeta. set (a := u32 (j + cpu * 3)).
  pose proof (Z.mod_pos_bound a HZ ltac:(done)) as Hm. pose proof (Z.div_mod a HZ ltac:(done)) as Ha.
  set (k := if (a mod HZ <? HZ / 4) && negb up then - (a mod HZ) else HZ - a mod HZ).
  match goal with |- context [u32 (?x - cpu * 3)] => assert (Hx : u32 (x - cpu * 3) = u32 (j + k)) end.
  { subst k. destruct (u32_congr (j + cpu * 3)) as [q Hq]. fold a in Hq. clearbody a.
    assert (Hu : forall z, u32 (u32 z - cpu * 3) = u32 (z - cpu * 3)) by (intros; unfold u32; apply Zminus_mod_idemp_l).
    destruct (_ && _); rewrite Hu; unfold u32; set (m := a mod HZ) in *; clearbody m;
      rewrite <- (Z_mod_plus_full (j + _) q); f_equal; lia. }
  rewrite Hx. destruct (Z.leb_spec (u32 (j + k)) now) as [|Hn]; [by left|]. right. split; [done|].
  exists k. split; [done|]. subst k. change (HZ / 4) with 62 in *. change HZ with 250 in *.
  destruct up; cbn [negb]; rewrite ?andb_false_r, ?andb_true_r; [|destruct (Z.ltb_spec (a mod 250) 62)];
    (split; [|lia]); [|replace (a + - (a mod 250)) with (a / 250 * 250) by lia; apply Z_mod_mult|];
    replace (a + (250 - a mod 250)) with ((a / 250 + 1) * 250) by lia; apply Z_mod_mult.
Qed.

(** The comparison with [jiffies] does not take the wrap-around of the clock into
    account: just after it, on the second processor, a time in the future is rounded
    to one in the past. *)
Lemma round_jiffies_past :
  let r := __round_jiffies 1 2 1 in
  r = 2 ^ 32 - 3 /\ time_after 2 1 = true /\ time_before r 1 = true.
Proof. vm_compute. auto. Qed.

(** ** The clock while a task sleeps *)

Lemma s32_shift z y k : z = y + k * 2 ^ 32 -> s32 z = s32 y.
Proof.
  intros ->. unfold s32. f_equal. replace (y + k * 2 ^ 32 + 2 ^ 31) with (y + 2 ^ 31 + k * 2 ^ 32) by lia.
  apply Z_mod_plus_full.
Qed.

Lemma handle_jiffies ev s r s' : is_u32 (jiffies s) -> handle ev s = Some (r, s') ->
  jiffies s' = u32 (jiffies s + is_tick ev).
Proof.
  intros Hj H. set (j := jiffies s) in *.
  assert (Hid : preserves (fun s => jiffies s = j) (handle ev) -> is_tick ev = 0 ->
    jiffies s' = u32 (j + is_tick ev)).
  { intros Hp ->. rewrite Z.add_0_r, u32_small by done. by apply (Hp s r s'). }
  pose proof (keep_handle (fun i _ => i = j) ev) as Hk. destruct ev; try (by apply Hid).
  - apply Hid; [|done]. cbn [handle]. apply preserves_bind; [apply (run_step_frame (fun i => i = j)) |].
    intros. apply preserves_ret.
  - cbn [handle] in H. unfold do_timer, modify in H. by injection H as _ <-.
Qed.

Lemma events_jiffies evs : forall s s', is_u32 (jiffies s) -> run_events evs s = Some s' ->
  jiffies s' = u32 (jiffies s + clock evs).
Proof.
  induction evs as [|ev evs IH]; intros s s' Hj H; cbn in H |- *.
  { injection H as <-. by rewrite Z.add_0_r, u32_small. }
  destruct (handle ev s) as [[r s1]|] eqn:E; [|done]. pose proof (handle_jiffies ev s r s1 Hj E) as H1.
  rewrite (IH s1 s'), H1, u32_add_l by (done || (rewrite H1; apply u32_range)). f_equal. lia.
Qed.

Lemma del_sync_jiffies turns : forall t s r s', is_u32 (jiffies s) ->
  del_timer_sync (turn <$> turns) t s = Some (r, s') -> jiffies s' = u32 (jiffies s + waited turns t s).
Proof.
  induction turns as [|evs turns IH]; intros t s r s' Hj H; cbn [fmap list_fmap del_timer_sync waited] in *;
    apply bind_inv in H as (r0 & s1 & H1 & H);
    pose proof (handle_jiffies (EvTryDel t) s r0 s1 Hj H1) as Hj1; cbn [is_tick] in Hj1;
    rewrite Z.add_0_r, u32_small in Hj1 by done.
  - rewrite Z.add_0_r, u32_small by done. destruct (0 <=? r0); by injection H as _ <-.
  - rewrite H1. destruct (0 <=? r0); [injection H as _ <-; by rewrite Z.add_0_r, u32_small|].
    apply bind_inv in H as ([] & s2 & Ht & H). unfold turn in Ht.
    destruct (run_events evs s1) as [s2'|] eqn:E; [|done]. injection Ht as <-.
    assert (Hj2 : jiffies s2' = u32 (jiffies s + clock evs))
      by (rewrite <- Hj1; eapply events_jiffies; [by rewrite Hj1 | done]).
    rewrite (IH t s2' r s'), Hj2, u32_add_l by (done || (rewrite Hj2; apply u32_range)). f_equal. lia.
Qed.

Lemma clock_nonneg evs : 0 <= clock evs.
Proof. induction evs as [|[] evs IH]; cbn; lia. Qed.

Lemma waited_nonneg turns : forall t s, 0 <= waited turns t s.
Proof.
  induction turns as [|evs turns IH]; intros t s; cbn; [done|].
  pose proof (clock_nonneg evs). repeat case_match; try done.
  match goal with |- context [waited turns t ?s2] => specialize (IH t s2) end. lia.
Qed.

(** [jiffies] is the low word of the clock. *)
Definition synced (s : sleeper) : Prop := jiffies (wheel s) = u32 (jiffies_64 s).

Lemma on_wheel_inv {A} (m : M system A) s a s' : on_wheel m s = Some (a, s') ->
  m (wheel s) = Some (a, wheel s') /\ jiffies_64 s' = jiffies_64 s /\ state s' = state s /\
  wrong s' = wrong s.
Proof.
  unfold on_wheel, zoom. destruct (m (wheel s)) as [[b w]|]; [|done]. by intros [= <- <-].
Qed.

Lemma schedule_inv evs s s' : schedule evs s = Some (tt, s') ->
  run_events evs (wheel s) = Some (wheel s') /\ jiffies_64 s' = jiffies_64 s + clock evs /\
  state s' = TASK_RUNNING.
Proof.
  unfold schedule. intros ([] & s1 & H1 & H)%bind_inv. apply bind_inv in H as ([] & s2 & [= <-] & [= <-]).
  apply on_wheel_inv in H1 as (H1 & Hj & _). unfold turn in H1.
  destruct (run_events evs (wheel s)) as [w|]; [|done]. injection H1 as H1. cbn.
  by rewrite Hj, H1.
Qed.

Lemma del_singleshot_inv t turns s r s' : del_singleshot_timer_sync t turns s = Some (r, s') ->
  del_timer_sync (turn <$> turns) t (wheel s) = Some (r, wheel s') /\
  jiffies_64 s' = jiffies_64 s + waited turns t (wheel s) /\ state s' = state s.
Proof.
  unfold del_singleshot_timer_sync. intros (n & s0 & [= <- <-] & H)%bind_inv.
  apply bind_inv in H as (r0 & s1 & H1 & H). apply bind_inv in H as ([] & s2 & [= <-] & [= <- <-]).
  apply on_wheel_inv in H1 as (H1 & Hj & Hs & _). cbn. by rewrite Hj.
Qed.

Lemma arm_inv t fn d timeout n s e s' : arm t fn d timeout n s = Some (e, s') ->
  e = u32 (timeout + jiffies (wheel s)) /\ jiffies (wheel s') = jiffies (wheel s) /\
  jiffies_64 s' = jiffies_64 s /\ state s' = state s.
Proof.
  unfold arm. intros (j & s0 & [= <- <-] & H)%bind_inv. cbv zeta in H.
  apply bind_inv in H as ([] & s1 & H1 & H). apply bind_inv in H as (r & s2 & H2 & [= <- <-]).
  apply on_wheel_inv in H1 as (H1 & Hj1 & Hs1 & _). apply on_wheel_inv in H2 as (H2 & Hj2 & Hs2 & _).
  pose proof (keep_init (fun i _ => i = jiffies (wheel s)) _ _ _ _ _ _ _ _ _ eq_refl H1) as E1.
  pose proof (keep_arm (fun i _ => i = jiffies (wheel s)) _ _ _ _ _ _ _ _ _ E1 H2) as E2.
  cbn in E2. rewrite Hj2, Hs2. done.
Qed.

Section Returns.
  Context (t : tid) (fn d : Z).

(** A call with a finite timeout: the clock is followed, and what is returned is the
    rest of the time. *)
Lemma schedule_timeout_rest timeout n s r s' : synced s -> 0 <= timeout < MAX_SCHEDULE_TIMEOUT ->
  schedule_timeout t fn d timeout n s = Some (r, s') ->
  let elapsed := jiffies_64 s' - jiffies_64 s in
  synced s' /\ clock (asleep n) <= elapsed /\ state s' = TASK_RUNNING /\
  forall r', r = Some r' -> r' = Z.max 0 (s32 (timeout - elapsed)).
Proof.
  intros Hs Ht. unfold schedule_timeout. cbv zeta.
  destruct (Z.eqb_spec timeout MAX_SCHEDULE_TIMEOUT); [lia|]. destruct (Z.ltb_spec timeout 0) as [|_]; [lia|].
  intros (e & s1 & H1 & H)%bind_inv. apply bind_inv in H as ([] & s2 & H2 & H).
  apply bind_inv in H as (q & s3 & H3 & H).
  apply arm_inv in H1 as (-> & E1 & J1 & _). apply schedule_inv in H2 as (H2 & J2 & S2).
  apply del_singleshot_inv in H3 as (H3 & J3 & S3).
  assert (U : is_u32 (jiffies (wheel s))) by (rewrite Hs; apply u32_range).
  apply events_jiffies in H2; [|by rewrite E1]. apply del_sync_jiffies in H3; [|rewrite H2; apply u32_range].
  assert (Hs3 : synced s3).
  { unfold synced. rewrite H3, H2, E1, Hs, J3, J2, J1, !u32_add_l. by rewrite <- !Z.add_assoc, u32_add_l. }
  pose proof (waited_nonneg (between n) t (wheel s2)).
  assert (Es : s' = s3) by (destruct q; [by injection H as _ <- | by injection H as _ <-]). subst s'.
  split_and!; [done | lia | by rewrite S3 |]. intros r' ->. destruct q as [q|]; [|done].
  injection H as H. rewrite <- H. rewrite Hs3, Hs.
  destruct (u32_congr (timeout + u32 (jiffies_64 s))) as [k1 E], (u32_congr (jiffies_64 s)) as [k2 E'],
    (u32_congr (jiffies_64 s3)) as [k3 E''].
  rewrite (s32_shift _ (timeout - (jiffies_64 s3 - jiffies_64 s)) (k1 + k2 - k3)) by lia.
  destruct (Z.ltb_spec (s32 (timeout - (jiffies_64 s3 - jiffies_64 s))) 0); lia.
Qed.

(** The rest and the time passed make up at least the timeout. *)
Lemma rest_enough timeout elapsed : 0 <= timeout < MAX_SCHEDULE_TIMEOUT -> 0 <= elapsed ->
  timeout <= elapsed + Z.max 0 (s32 (timeout - elapsed)) /\
  Z.max 0 (s32 (timeout - elapsed)) <= MAX_SCHEDULE_TIMEOUT.
Proof.
  intros Ht He. change MAX_SCHEDULE_TIMEOUT with (2 ^ 31 - 1) in *. assert (s32 (timeout - elapsed) < 2 ^ 31) by (unfold s32; pose proof (Z.mod_pos_bound (timeout - elapsed + 2 ^ 31) (2 ^ 32)); lia).
  split; [|lia]. destruct (Z_le_gt_dec timeout elapsed); [lia|]. rewrite s32_small by lia. lia.
Qed.

(** Without a bound, only the clock moves on. *)
Lemma schedule_forever n s r s' : synced s -> is_u32 (jiffies (wheel s)) ->
  schedule_timeout t fn d MAX_SCHEDULE_TIMEOUT n s = Some (r, s') ->
  r = Some MAX_SCHEDULE_TIMEOUT /\ synced s' /\ jiffies_64 s <= jiffies_64 s'.
Proof.
  intros Hs U. unfold schedule_timeout. cbv zeta. rewrite Z.eqb_refl.
  intros ([] & s1 & H1 & [= <- <-])%bind_inv. apply schedule_inv in H1 as (H1 & J1 & _).
  apply events_jiffies in H1; [|done]. pose proof (clock_nonneg (asleep n)).
  split_and!; [done | | lia]. unfold synced. rewrite H1, Hs, J1. apply u32_add_l.
Qed.

(** One iteration of the loops of [msleep]. *)
Lemma sleep_once timeout z n s r s' : synced s -> 0 <= timeout <= MAX_SCHEDULE_TIMEOUT ->
  (set_current_state z;; schedule_timeout t fn d timeout n) s = Some (Some r, s') ->
  synced s' /\ jiffies_64 s <= jiffies_64 s' /\ 0 <= r <= MAX_SCHEDULE_TIMEOUT /\
  timeout <= jiffies_64 s' - jiffies_64 s + r.
Proof.
  intros Hs Ht ([] & s0 & [= <-] & H)%bind_inv.
  set (s0 := Sleeper _ _ _ _) in H. assert (Hs0 : synced s0) by done.
  change (jiffies_64 s) with (jiffies_64 s0). clearbody s0. clear Hs s.
  destruct (decide (timeout = MAX_SCHEDULE_TIMEOUT)) as [->|Hne].
  - apply schedule_forever in H as ([= ->] & Hs' & Hj); [|done|rewrite Hs0; apply u32_range].
    split_and!; [done | lia | lia | lia | lia].
  - apply schedule_timeout_rest in H as (Hs' & Hc & _ & Hr); [|done|lia].
    pose proof (clock_nonneg (asleep n)). specialize (Hr r eq_refl) as ->.
    pose proof (rest_enough timeout (jiffies_64 s' - jiffies_64 s0)). split_and!; [done | lia ..].
Qed.

Lemma loop_arg timeout : 0 <= timeout <= MAX_SCHEDULE_TIMEOUT -> s32 timeout = timeout /\ u32 timeout = timeout.
Proof.
  change MAX_SCHEDULE_TIMEOUT with (2 ^ 31 - 1). intros. split; [apply s32_small | apply u32_small]; lia.
Qed.

Lemma msleep_loop_long naps : forall timeout s s', synced s -> 0 <= timeout <= MAX_SCHEDULE_TIMEOUT ->
  msleep_loop t fn d naps timeout s = Some (Some tt, s') -> timeout <= jiffies_64 s' - jiffies_64 s.
Proof.
  induction naps as [|n naps IH]; intros timeout s s' Hs Ht H; cbn [msleep_loop] in H;
    (destruct (Z.eqb_spec timeout 0) as [->|]; [injection H as <-; lia|]); [done|].
  rewrite (proj1 (loop_arg timeout Ht)) in H. apply bind_inv in H as ([r|] & s1 & H1 & H); [|done].
  apply sleep_once in H1 as (Hs1 & Hj & Hr & Hle); [|done|done].
  rewrite (proj2 (loop_arg r Hr)) in H. apply IH in H; [lia|done|done].
Qed.

(** The time that is left when the loop ends, and the time passed. *)
Lemma msleep_interruptible_loop_long naps : forall timeout s r s', synced s ->
  0 <= timeout <= MAX_SCHEDULE_TIMEOUT ->
  msleep_interruptible_loop t fn d naps timeout s = Some (Some r, s') ->
  timeout <= jiffies_64 s' - jiffies_64 s + r /\ 0 <= r <= MAX_SCHEDULE_TIMEOUT.
Proof.
  induction naps as [|n naps IH]; intros timeout s r s' Hs Ht H; cbn [msleep_interruptible_loop] in H;
    (destruct (Z.eqb_spec timeout 0) as [->|]; [injection H as <- <-; lia|]); [done|].
  destruct (signal_pending n); [injection H as <- <-; lia|].
  rewrite (proj1 (loop_arg timeout Ht)) in H. apply bind_inv in H as ([q|] & s1 & H1 & H); [|done].
  apply sleep_once in H1 as (Hs1 & Hj & Hq & Hle); [|done|done].
  rewrite (proj2 (loop_arg q Hq)) in H. apply IH in H; [lia|done|done].
Qed.

End Returns.

(** ** The timer of a sleeping task *)

(** A task may sleep: the wheel is well formed, the memory the timer will lie in
    holds no timer that is armed or running, and the processors exist. *)
Record ready (t : tid) (fn : Z) (n : nap) (s : system) : Prop := {
  ready_wf : wf s;
  ready_home : runs_at_home s;
  ready_fn : fn <> 0;
  ready_new : forall x, timers s !! t = Some x -> pending x = false;
  ready_idle : not_running t s;
  ready_cpu : is_Some (bases s !! cpu n);
  ready_target : is_Some (bases s !! target_cpu false (cpu n) (migrate n))
}.

(** The timer is armed on processor [c] for time [e]. *)
Definition armed (t : tid) (c : nat) (e : Z) (s : system) : Prop :=
  exists x b, timers s !! t = Some x /\ base x = c /\ expires x = e /\ bases s !! c = Some b /\
    t ∈ queued b.

Section Arm.
  Context (t : tid) (fn d : Z) (n : nap) (s : system).
  Hypothesis Hr : ready t fn n s.

Definition init_state : system :=
  System (<[t := Timer false (u32 (garbage n)) (cpu n) false fn d (-1)]> (timers s)) (bases s)
    (jiffies s) (calls s).

Lemma init_run : init_timer t (cpu n) (u32 (garbage n)) fn d false s = Some (tt, init_state).
Proof.
  unfold init_timer. rewrite bind_unfold, get_run.
  assert (match timers s !! t with Some x => pending x | None => false end = false) as ->.
  { destruct (timers s !! t) as [x|] eqn:E; [by apply (ready_new _ _ _ _ Hr)|done]. }
  rewrite bind_unfold. cbn [BUG_ON]. rewrite ret_unfold.
  destruct (ready_cpu _ _ _ _ Hr) as [b Hb]. by rewrite bind_unfold, (per_cpu_run _ b).
Qed.

Lemma init_wf : wf init_state.
Proof.
  pose proof (handle_sim s (EvInit t (cpu n) (garbage n) fn d false) (ready_wf _ _ _ _ Hr)) as H.
  cbn [handle] in H. rewrite bind_unfold, init_run in H. apply H.
Qed.

Lemma note_next_run c x b s0 : bases s0 !! c = Some b ->
  exists b', note_next c x s0 = Some (tt, set_base c b' s0) /\ queued b' = queued b /\
    timer_jiffies b' = timer_jiffies b /\ forall m, tv m b' = tv m b.
Proof.
  intros Hb. unfold note_next. rewrite bind_unfold, (per_cpu_run _ b) by done.
  destruct (_ && _).
  - rewrite (on_base_run c _ b) by done. exists (set_next_timer (expires x) b). by destruct b.
  - exists b. by rewrite set_base_same.
Qed.

Definition moved_state (e : Z) : system :=
  System (<[t := Timer false e (target_cpu false (cpu n) (migrate n)) false fn d (-1)]> (timers s))
    (bases s) (jiffies s) (calls s).

Lemma move_run b0 : bases s !! cpu n = Some b0 ->
  let c := target_cpu false (cpu n) (migrate n) in
  (if negb (bool_decide (cpu n = c)) && negb (bool_decide (running_timer b0 = Some t))
   then _ ← per_cpu c; on_timer t (timer_set_base c) else mret tt) init_state =
    Some (tt, moved_state (u32 (garbage n))).
Proof.
  intros Hb0 c. destruct (ready_target _ _ _ _ Hr) as [b Hb]. fold c in Hb.
  rewrite (bool_decide_eq_false_2 (running_timer b0 = Some t)) by exact (ready_idle _ _ _ _ Hr _ _ Hb0).
  unfold moved_state, init_state. fold c. case_bool_decide as Hc; cbn [negb andb].
  - by rewrite <- Hc.
  - rewrite bind_unfold, (per_cpu_run _ b) by done.
    rewrite (on_timer_run _ _ _ _ (lookup_insert_eq _ _ _)). cbn. by rewrite insert_insert_eq.
Qed.

Lemma arm_file e : is_u32 e -> let c := target_cpu false (cpu n) (migrate n) in
  exists r s', __mod_timer t e false false (cpu n) (migrate n) init_state = Some (r, s') /\
    armed t c e s' /\
    forall b, bases s !! c = Some b ->
      exists b', bases s' !! c = Some b' /\ timer_jiffies b' = timer_jiffies b.
Proof.
  intros He c. destruct (ready_cpu _ _ _ _ Hr) as [b0 Hb0]. destruct (ready_target _ _ _ _ Hr) as [b Hb].
  fold c in Hb. unfold __mod_timer.
  rewrite bind_unfold, (timer_run t _ init_state (lookup_insert_eq _ _ _)). cbn [function pending base negb andb].
  rewrite (proj2 (Z.eqb_neq fn 0)) by exact (ready_fn _ _ _ _ Hr). cbn [BUG_ON].
  rewrite bind_unfold, ret_unfold, bind_unfold, (per_cpu_run _ b0) by done.
  rewrite bind_unfold, ret_unfold, bind_unfold. rewrite move_run by done.
  rewrite bind_unfold, (on_timer_run _ _ _ _ (lookup_insert_eq _ _ _)).
  cbn [moved_state timers bases jiffies calls]. rewrite insert_insert_eq.
  match goal with |- context [System ?w ?x ?y ?z] => change (System w x y z) with (moved_state e) end.
  rewrite bind_unfold, (timer_run t (Timer false e c false fn d (-1))) by apply lookup_insert_eq.
  cbn [base]. rewrite bind_unfold.
  destruct (note_next_run c (Timer false e c false fn d (-1)) b (moved_state e) Hb) as (b' & Hn & Hq & Hj & Ht).
  rewrite Hn. destruct (timer_vec (timer_jiffies b') e) as [m i] eqn:Hv.
  rewrite bind_unfold, (internal_add_run _ c b' t (Timer false e c false fn d (-1)) m i);
    [| by apply (set_base_lookup c b' b) | apply lookup_insert_eq | done].
  rewrite ret_unfold. eexists _, _. split; [done|].
  assert (Hl : (c < length (bases s))%nat) by (by eapply lookup_lt_Some).
  pose proof (b_size _ _ _ (i_bases _ _ (proj1 (ready_wf _ _ _ _ Hr)) c b Hb) m) as Hsz.
  pose proof (b_tick _ _ _ (i_bases _ _ (proj1 (ready_wf _ _ _ _ Hr)) c b Hb)) as Htick.
  destruct (timer_vec_settled (timer_jiffies b') e m i) as [_ Hi]; [by rewrite Hj | done | done |].
  assert (Hb' : <[c := vec_add_tail m i t b']> (bases (set_base c b' (moved_state e))) !! c =
    Some (vec_add_tail m i t b')) by (apply list_lookup_insert_eq; cbn; by rewrite length_insert).
  split.
  - exists (set_pending true (Timer false e c false fn d (-1))), (vec_add_tail m i t b').
    split_and!; [apply lookup_insert_eq | done | done | done |].
    rewrite (queued_add m i t b') by (rewrite Ht; lia). left.
  - intros b1 Hb1. exists (vec_add_tail m i t b'). split; [done|].
    unfold vec_add_tail. rewrite (proj1 (set_tv_fields m _ b')). congruence.
Qed.

Lemma arm_run e : is_u32 e -> let c := target_cpu false (cpu n) (migrate n) in
  exists r s', __mod_timer t e false false (cpu n) (migrate n) init_state = Some (r, s') /\
    armed t c e s' /\ wf s' /\ runs_at_home s' /\ jiffies s' = jiffies s /\ calls s' = calls s /\
    forall b, bases s !! c = Some b ->
      exists b', bases s' !! c = Some b' /\ timer_jiffies b' = timer_jiffies b.
Proof.
  intros He c. destruct (arm_file e He) as (r & s' & H & Ha & Hb). exists r, s'.
  assert (Hi : st None (timers init_state) (length (bases init_state)) init_state)
    by (by split; [apply init_wf|]).
  pose proof (sim_arm _ _ t e false false (cpu n) (migrate n) He init_state Hi) as Hs. rewrite H in Hs.
  destruct Hs as (_ & _ & _ & Hinv & _).
  pose proof (keep_arm (fun i l => i = jiffies s /\ l = calls s) _ _ _ _ _ _ init_state _ _
    (conj eq_refl eq_refl) H) as [Hj Hc].
  split_and!; [done | done | | | done | done | done].
  - split; [done|]. rewrite Hj. apply (ready_wf _ _ _ _ Hr).
  - eapply home_arm; [|exact H].
    eapply home_init; [apply (ready_home _ _ _ _ Hr) | apply (ready_idle _ _ _ _ Hr) | apply init_run].
Qed.

End Arm.

Section Nap.
  Context (t : tid) (fn d timeout : Z) (n : nap) (s : sleeper).
  Hypothesis Hr : ready t fn n (wheel s).
  Hypothesis Hs : synced s.
Let c := target_cpu false (cpu n) (migrate n).
Let e := u32 (timeout + jiffies (wheel s)).

(** The timer can always be armed. *)
Lemma arm_succeeds : exists s1, arm t fn d timeout n s = Some (e, s1) /\ armed t c e (wheel s1) /\
  wf (wheel s1) /\ runs_at_home (wheel s1) /\ jiffies (wheel s1) = jiffies (wheel s) /\
  forall b, bases (wheel s) !! c = Some b ->
    exists b', bases (wheel s1) !! c = Some b' /\ timer_jiffies b' = timer_jiffies b.
Proof.
  destruct (arm_run t fn d n (wheel s) Hr e) as (r & w & H & Ha & Hw & Hh & Hj & _ & Hb);
    [apply u32_range|].
  exists (Sleeper w (jiffies_64 s) (state s) (wrong s)). split; [|done].
  unfold arm. rewrite bind_unfold, gets_run. cbv zeta. rewrite bind_unfold.
  unfold on_wheel at 1, zoom. rewrite (init_run t fn d n (wheel s) Hr).
  rewrite bind_unfold. unfold on_wheel, zoom. cbn [wheel]. fold e. by rewrite H.
Qed.

Section Early.
  Context (b : tvec_base) (k : nat).
  Hypothesis Ht : 0 <= timeout.
  (** [lag] ticks are still to be run on the processor, up to the present one. *)
Let j := timer_jiffies b.
Let lag := s32 (jiffies (wheel s) - j).
  Hypothesis Hj : is_u32 j.
  Hypothesis Hlag : -1 <= lag /\ lag + timeout < 2 ^ 31.

Lemma wait_lag : s32 (e - j) = timeout + lag.
Proof.
  unfold lag, e in *. destruct (u32_congr (timeout + jiffies (wheel s))) as [q Hq].
  assert (Hd : exists q', jiffies (wheel s) - j = lag + q' * 2 ^ 32).
  { unfold lag, s32. exists ((jiffies (wheel s) - j + 2 ^ 31) / 2 ^ 32).
    pose proof (Z.div_mod (jiffies (wheel s) - j + 2 ^ 31) (2 ^ 32)). lia. }
  destruct Hd as [q' Hd]. fold lag. apply (s32_congr _ _ (q + q')); lia.
Qed.

(** Either the timeout has passed, or the timer still waits. *)
Definition early (N m : Z) (w : system) : Prop :=
  timeout <= N \/ (waiting t c e j k m w /\ m <= lag + N + 1).

(** A tick is run only if the clock has reached it. *)
Lemma tick_in_time N m w ev : jiffies w = u32 (jiffies (wheel s) + N) -> 0 <= N < timeout ->
  waiting t c e j k m w -> m <= lag + N + 1 -> ticks c ev w <> 0 ->
  ticks c ev w = 1 /\ is_tick ev = 0 /\ m <= lag + N.
Proof.
  intros Hjw HN (j' & Hv & Hj' & Hmw & Hs32 & _) Hm Hne. destruct ev; try done. unfold ticks in *.
  destruct (bases w !! _) as [b'|] eqn:Hb; [|done]. case_bool_decide as Hc; [subst|done].
  case_bool_decide; [|done]. destruct (time_after_eq _ _) eqn:Hta; [|done]. cbn [andb] in *.
  split_and!; [done | done |]. unfold time_after_eq in Hta. apply Z.leb_le in Hta.
  assert (Htj : timer_jiffies b' = j').
  { unfold view in Hv. cbn [abs s_bases] in Hv. rewrite list_lookup_fmap, Hb in Hv.
    by injection Hv as _ <-. }
  rewrite Htj, Hjw in Hta. rewrite wait_lag in Hs32. destruct (u32_congr (jiffies (wheel s) + N)) as [q1 E1].
  destruct (u32_congr (timeout + jiffies (wheel s))) as [q2 E2]. fold e in E2.
  assert (Hd : exists q, e - j' = timeout + lag - m + q * 2 ^ 32).
  { rewrite <- Hs32. unfold s32. exists ((e - j' + 2 ^ 31) / 2 ^ 32).
    pose proof (Z.div_mod (e - j' + 2 ^ 31) (2 ^ 32)). lia. }
  destruct Hd as [q Hd]. rewrite (s32_congr _ (N + lag - m) (q1 - q2 + q)) in Hta; lia.
Qed.

Lemma early_step N m w ev r w' : wf w -> jiffies w = u32 (jiffies (wheel s) + N) -> 0 <= N ->
  phase t c e j k m w -> early N m w -> touches t ev = false -> handle ev w = Some (r, w') ->
  early (N + is_tick ev) (m + ticks c ev w) w'.
Proof.
  intros Hwf Hjw HN Hp He Htc H.
  pose proof (phase_step t c e j k (u32_range _) m w ev r w' Hwf Hp Htc H) as Hp'.
  assert (0 <= is_tick ev) by (by destruct ev).
  destruct He as [He|[Hw Hm]]; [left; lia|].
  destruct (Z_le_gt_dec timeout N) as [|HNt]; [left; lia|].
  assert (Hwait : wait e j = Z.max 0 (timeout + lag)) by (unfold wait; by rewrite wait_lag).
  destruct (decide (ticks c ev w = 0)) as [Hz|Hnz].
  - rewrite Hz, Z.add_0_r in *. pose proof Hw as (_ & _ & _ & Hmw & _).
    destruct Hp' as [Hp'|[(? & _ & ? & _)|(? & _ & ? & _)]]; [right; split; [done|lia] | lia | lia].
  - destruct (tick_in_time N m w ev) as (E1 & E2 & Hle); [done | lia | done | done | done |].
    rewrite E2, Z.add_0_r. rewrite E1 in *. destruct Hp' as [Hp'|[(? & _ & ? & _)|(? & _ & ? & _)]];
      [right; split; [done|lia] | left; lia | left; lia].
Qed.

Lemma early_events evs : forall N m w w', wf w -> jiffies w = u32 (jiffies (wheel s) + N) -> 0 <= N ->
  phase t c e j k m w -> early N m w -> forallb (fun ev => negb (touches t ev)) evs = true ->
  run_events evs w = Some w' -> exists m', early (N + clock evs) m' w'.
Proof.
  induction evs as [|ev evs IH]; intros N m w w' Hwf Hjw HN Hp He Htc H; cbn in H, Htc |- *.
  { injection H as <-. exists m. by rewrite Z.add_0_r. }
  apply andb_true_iff in Htc as [Ht1 Ht2]. apply negb_true_iff in Ht1.
  destruct (handle ev w) as [[r w1]|] eqn:E; [|done].
  pose proof (early_step N m w ev r w1 Hwf Hjw HN Hp He Ht1 E) as He1.
  pose proof (phase_step t c e j k (u32_range _) m w ev r w1 Hwf Hp Ht1 E) as Hp1.
  pose proof (handle_sim w ev Hwf) as Hsim. rewrite E in Hsim.
  rewrite Z.add_assoc. apply (IH _ _ w1 w') in He1; [done | apply Hsim | | by destruct ev; cbn; lia | done | done | done].
  rewrite (handle_jiffies ev w r w1 (proj2 Hwf) E), Hjw, u32_add_l. by rewrite Z.add_assoc.
Qed.

End Early.

(** Nobody else uses the timer while the task is away. *)
Definition untouched : bool := forallb (fun ev => negb (touches t ev)) (asleep n).

(** The wheel when the task is back from [schedule]. *)
Definition awake : option system :=
  match arm t fn d timeout n s with
  | Some (_, s1) => run_events (asleep n) (wheel s1)
  | None => None
  end.

(** The timer's function has woken the task. *)
Definition woken : bool :=
  match arm t fn d timeout n s, awake with
  | Some (_, s1), Some w => (called t (wheel s1) <? called t w)%nat
  | _, _ => false
  end.

(** The processor the timer is armed on has not run ahead of the clock, and is not
    half the clock's range behind. *)
Definition lag_ok : Prop :=
  forall b, bases (wheel s) !! c = Some b ->
    let lag := s32 (jiffies (wheel s) - timer_jiffies b) in
    -1 <= lag /\ lag + timeout < 2 ^ 31.

(** Other processors keep to the rules of Timer while the task is away and while
    it waits for the timer's function. *)
Definition disciplined_nap : Prop :=
  match arm t fn d timeout n s with
  | Some (_, s1) =>
      disciplined_run (asleep n) (wheel s1) /\
      match awake with Some w => disciplined_turns (between n) t w | None => True end
  | None => True
  end.

Lemma armed_phase s1 : armed t c e s1 -> wf s1 -> exists b, bases s1 !! c = Some b /\
  phase t c e (timer_jiffies b) (called t s1) 0 s1 /\
  waiting t c e (timer_jiffies b) (called t s1) 0 s1.
Proof.
  intros (x & b & Hx & <- & <- & Hb & Hq) Hwf. exists b.
  pose proof (phase_start s1 t x b Hwf Hx Hb Hq) as Hp. split_and!; [done | done |].
  destruct Hp as [Hp|[(j' & _ & H & _)|(j' & _ & H & _)]]; [done | unfold wait in H; lia | unfold wait in H; lia].
Qed.

(** The timer does not wake the task early. *)
Lemma woken_in_time : 0 <= timeout -> lag_ok -> untouched = true -> woken = true ->
  timeout <= clock (asleep n).
Proof.
  intros Ht Hlag Hu. unfold woken, awake.
  destruct arm_succeeds as (s1 & -> & Ha & Hwf & _ & Hj & Hb).
  destruct (run_events (asleep n) (wheel s1)) as [w|] eqn:He; [|done]. intros Hc%Nat.ltb_lt.
  destruct (armed_phase (wheel s1) Ha Hwf) as (b' & Hb' & Hp & Hw).
  destruct (ready_target _ _ _ _ Hr) as [b Hb0]. fold c in Hb0.
  destruct (Hb b Hb0) as (b'' & Hb'' & Hbj). assert (b'' = b') as -> by congruence.
  pose proof (Hlag b Hb0) as Hl. cbv zeta in Hl. rewrite <- Hbj in Hl.
  destruct (early_events b' (called t (wheel s1)) Ht Hl (asleep n) 0 0 (wheel s1) w)
    as (m' & [Hd|[(j' & _ & _ & _ & _ & Hcl) _]]); try done.
  - by rewrite Z.add_0_r, Hj, u32_small by (rewrite Hs; apply u32_range).
  - right. split; [done|]. lia.
  - lia.
Qed.

(** A timer that nobody runs is deleted at the first attempt. *)
Lemma del_sync_ends turns w x : wf w -> timers w !! t = Some x -> not_running t w ->
  exists q w', del_timer_sync (turn <$> turns) t w = Some (Some q, w') /\ waited turns t w = 0.
Proof.
  intros [Hi _] Hx Hn. destruct (i_timers _ _ Hi t x Hx) as [_ [b Hb]].
  assert (Hd : exists q w', try_to_del_timer_sync t w = Some (q, w') /\ 0 <= q).
  { unfold try_to_del_timer_sync. rewrite bind_unfold, (timer_run t x), bind_unfold, (per_cpu_run _ b) by done.
    rewrite bool_decide_eq_false_2 by exact (Hn _ _ Hb). unfold del_timer.
    rewrite bind_unfold, (timer_run t x) by done. destruct (pending x); [|by exists 0, w].
    unfold detach_timer, forget_next. rewrite bind_unfold, bind_unfold, (timer_run t x) by done.
    rewrite bind_unfold, (on_base_run _ _ b) by done.
    rewrite (on_timer_run _ _ x) by done. rewrite bind_unfold, bind_unfold.
    rewrite (per_cpu_run _ (list_del t b)) by (by apply (set_base_lookup _ _ b)).
    destruct (_ && _); eexists 1, _; by split. }
  destruct Hd as (q & w' & Hd & Hq). exists q, w'.
  assert (Hq' : (0 <=? q) = true) by (by apply Z.leb_le).
  destruct turns; cbn [fmap list_fmap del_timer_sync waited]; rewrite bind_unfold, ?Hd, Hq'; done.
Qed.

(** The task returns if the timer's function is not running when it is back. *)
Lemma schedule_timeout_ends w : 0 <= timeout < MAX_SCHEDULE_TIMEOUT -> untouched = true ->
  awake = Some w -> not_running t w ->
  exists r s', schedule_timeout t fn d timeout n s = Some (Some r, s') /\
    jiffies_64 s' = jiffies_64 s + clock (asleep n).
Proof.
  intros Ht Hu. unfold awake. destruct arm_succeeds as (s1 & Harm & Ha & Hwf & _). rewrite Harm. intros He Hn.
  destruct (armed_phase (wheel s1) Ha Hwf) as (b & Hb & Hp & _).
  pose proof (phase_run_events t c e _ _ (u32_range _) (asleep n) 0 (wheel s1) w Hwf Hp Hu He) as Hp'.
  apply phase_core in Hp' as (x & Hx & _); [|apply u32_range].
  destruct (del_sync_ends (between n) w x) as (q & w' & Hd & Hw0); [by eapply run_events_wf | done | done |].
  pose proof (arm_inv _ _ _ _ _ _ _ _ Harm) as (_ & _ & J1 & _).
  unfold schedule_timeout. cbv zeta. destruct (Z.eqb_spec timeout MAX_SCHEDULE_TIMEOUT); [lia|].
  destruct (Z.ltb_spec timeout 0); [lia|]. rewrite bind_unfold, Harm, bind_unfold.
  unfold schedule. rewrite bind_unfold. unfold on_wheel at 1, zoom, turn. rewrite He. cbn [fmap option_fmap option_map].
  unfold advance, set_current_state, modify. rewrite bind_unfold. cbn [wheel jiffies_64 state wrong].
  unfold del_singleshot_timer_sync. rewrite bind_unfold, bind_unfold, gets_run. cbn [wheel]. rewrite Hw0.
  rewrite bind_unfold. unfold on_wheel, zoom. cbn [wheel]. fold turn. rewrite Hd.
  eexists _, _. split; [reflexivity|]. cbn. lia.
Qed.

End Nap.

(** ** An example

    Two processors are up shortly before the clock wraps around, and a task sleeps
    on the second one. *)

Definition demo_wheel : system := default (boot 0) (run_events [EvCpuUp; EvCpuUp] (boot demo_start)).
Definition demo_task : sleeper := Sleeper demo_wheel demo_start TASK_RUNNING [].

(** The clock goes on by four ticks, and the softirq runs until it has called the
    timer's function; then the task is back on the other processor, and the softirq
    goes on while the task waits for it. *)
Definition demo_nap : nap :=
  Nap 1 None 77 (replicate 4 EvTick ++ EvSoftirq 1 :: replicate 5 (EvRun 1)) [[]; replicate 2 (EvRun 1)] false.

(** The same, with the softirq at its end before the task is back. *)
Definition demo_nap2 : nap :=
  Nap 1 None 77 (replicate 4 EvTick ++ EvSoftirq 1 :: replicate 7 (EvRun 1)) [] false.

Definition demo_back (n : nap) : sleeper :=
  from_option snd demo_task (schedule_timeout 1%positive 9 5 3 n demo_task).

Lemma demo_ready n : cpu n = 1%nat -> migrate n = None -> ready 1%positive 9 n (wheel demo_task).
Proof.
  intros Hc Hm.
  assert (Hd : reachable_disciplined demo_wheel).
  { exists demo_start, [EvCpuUp; EvCpuUp]. split_and!; [split; vm_compute; done | by cbn | reflexivity]. }
  apply reachable_home in Hd as [Hwf Hh]. split; rewrite ?Hc, ?Hm; cbn [wheel demo_task]; try done.
  intros c b Hb. destruct c as [|[|c]]; vm_compute in Hb; by simplify_eq.
Qed.

(** The time [msleep] sleeps for, in ticks. *)
Lemma sleep_range msecs : is_u32 msecs ->
  1 <= msecs_to_jiffies msecs + 1 < MAX_SCHEDULE_TIMEOUT /\
  Z.min msecs (2 ^ 32 - 8) <= MSEC_PER_SEC / HZ * msecs_to_jiffies msecs.
Proof.
  intros Hm. pose proof (jiffies_range msecs Hm) as [Hj _]. change MAX_SCHEDULE_TIMEOUT with (2 ^ 31 - 1).
  unfold msecs_to_jiffies, is_u32 in *. change (MSEC_PER_SEC / HZ) with 4 in *. change MAX_JIFFY_OFFSET with 1073741822 in *.
  rewrite s32_sign in * by done. destruct (Z.leb_spec (2 ^ 31) msecs); [lia|].
  pose proof (Z.div_mod (msecs + 4 - 1) 4). pose proof (Z.mod_pos_bound (msecs + 4 - 1) 4). lia.
Qed.

(** The state of the task does not matter to its timer. *)
Lemma arm_state t fn d timeout n s z :
  arm t fn d timeout n (Sleeper (wheel s) (jiffies_64 s) z (wrong s)) =
    (fun '(e, s1) => (e, Sleeper (wheel s1) (jiffies_64 s1) z (wrong s1))) <$> arm t fn d timeout n s.
Proof.
  unfold arm. rewrite !bind_unfold, !gets_run. cbv zeta. cbn [wheel]. rewrite !bind_unfold.
  unfold on_wheel at 1 3, zoom. cbn [wheel]. destruct (init_timer _ _ _ _ _ _ _) as [[[] w]|]; [|done].
  rewrite !bind_unfold. unfold on_wheel, zoom. cbn [wheel].
  by destruct (__mod_timer _ _ _ _ _ _ w) as [[r w']|].
Qed.

(** ** The theorems *)

(** C13: [schedule_timeout] leaves nothing behind: when it returns, the timer on the
    task's stack is in no list of any processor and its function runs on none, the
    task is running, and the value returned is the rest of the timeout, 0 if it has
    passed, whatever the other processors did meanwhile. If it was the timer that
    woke the task, at least [timeout] ticks have passed and 0 is returned. *)
Theorem schedule_timeout_returns t fn d timeout n s r s' :
  ready t fn n (wheel s) -> synced s -> 0 <= timeout < MAX_SCHEDULE_TIMEOUT ->
  disciplined_nap t fn d timeout n s ->
  schedule_timeout t fn d timeout n s = Some (Some r, s') ->
  let elapsed := jiffies_64 s' - jiffies_64 s in
  quiet t (wheel s') /\ state s' = TASK_RUNNING /\ r = Z.max 0 (s32 (timeout - elapsed)) /\
  (lag_ok timeout n s -> untouched t n = true -> woken t fn d timeout n s = true ->
   timeout <= elapsed /\ (elapsed <= timeout + 2 ^ 31 -> r = 0)).
Proof.
  intros Hr Hs Ht Hd H elapsed.
  destruct (schedule_timeout_rest t fn d timeout n s (Some r) s' Hs Ht H) as (_ & Hc & Hst & Hrest).
  fold elapsed in Hc, Hrest. specialize (Hrest r eq_refl). split_and!; [|done|done|].
  - unfold schedule_timeout in H. cbv zeta in H.
    destruct (Z.eqb_spec timeout MAX_SCHEDULE_TIMEOUT); [lia|]. destruct (Z.ltb_spec timeout 0) as [|_]; [lia|].
    apply bind_inv in H as (e & s1 & H1 & H). apply bind_inv in H as ([] & s2 & H2 & H).
    apply bind_inv in H as ([q|] & s3 & H3 & H); [|done]. injection H as _ <-.
    destruct (arm_succeeds t fn d timeout n s Hr) as (s1' & H1' & _ & Hwf & Hh & _).
    rewrite H1' in H1. injection H1 as <- <-. unfold disciplined_nap, awake in Hd. rewrite H1' in Hd.
    apply schedule_inv in H2 as (H2 & _). rewrite H2 in Hd. destruct Hd as [Hd1 Hd2].
    apply del_singleshot_inv in H3 as (H3 & _).
    eapply del_sync_quiet; [by eapply run_events_wf | by eapply home_events | exact Hd2 | exact H3].
  - intros Hl Hu Hw. pose proof (woken_in_time t fn d timeout n s Hr Hs ltac:(lia) Hl Hu Hw).
    split; [lia|]. intros Hle. rewrite Hrest. rewrite s32_small; lia.
Qed.

Lemma schedule_timeout_returns_witness :
  quiet 1%positive (wheel (demo_back demo_nap)) /\ jiffies_64 (demo_back demo_nap) = demo_start + 4.
Proof.
  split; [|vm_compute; reflexivity].
  refine (proj1 (schedule_timeout_returns 1%positive 9 5 3 demo_nap demo_task 0 (demo_back demo_nap) _ _ _ _ _)).
  - by apply demo_ready.
  - vm_compute. reflexivity.
  - vm_compute. split; [discriminate | reflexivity].
  - vm_compute. repeat split.
  - vm_compute. reflexivity.
Defined.

(** C14: [msleep] never returns early: when it returns, at least [msecs]
    milliseconds have passed after the first clock tick, which may come at once,
    whatever woke the task and however often. A tick is 4 milliseconds; only the
    last seven values of an unsigned int are cut. *)
Theorem msleep_long t fn d msecs naps s s' : synced s -> is_u32 msecs ->
  msleep t fn d msecs naps s = Some (Some tt, s') ->
  Z.min msecs (2 ^ 32 - 8) <= MSEC_PER_SEC / HZ * (jiffies_64 s' - jiffies_64 s - 1).
Proof.
  intros Hs Hm H. destruct (sleep_range msecs Hm) as [Ht Hj].
  unfold msleep in H. rewrite (proj2 (loop_arg (msecs_to_jiffies msecs + 1) ltac:(lia))) in H.
  apply msleep_loop_long in H; [|done|lia]. change (MSEC_PER_SEC / HZ) with 4 in *. lia.
Qed.

(** The task is woken too early three times before the time has passed. *)
Definition demo_naps : list nap :=
  [Nap 0 None 0 [EvTick] [] false; Nap 1 None 1 [] [] false; Nap 0 None 2 [EvTick] [] false;
   Nap 1 None 3 (replicate 3 EvTick) [] false].
Definition demo_slept : sleeper :=
  from_option snd demo_task (msleep 1%positive 9 5 10 demo_naps demo_task).

Lemma msleep_long_witness : 10 <= MSEC_PER_SEC / HZ * (jiffies_64 demo_slept - jiffies_64 demo_task - 1).
Proof.
  refine (msleep_long 1%positive 9 5 10 demo_naps demo_task demo_slept _ _ _).
  - vm_compute. reflexivity.
  - vm_compute. split; [discriminate | reflexivity].
  - vm_compute. reflexivity.
Defined.

(** C15: [msleep] returns: a task that is woken by its timer, and by nothing else, is
    back after one call of [schedule_timeout], unless its processor is half the
    clock's range behind. *)
Theorem msleep_ends t fn d msecs n s w :
  let timeout := msecs_to_jiffies msecs + 1 in
  ready t fn n (wheel s) -> synced s -> is_u32 msecs ->
  lag_ok timeout n s -> untouched t n = true -> woken t fn d timeout n s = true ->
  awake t fn d timeout n s = Some w -> not_running t w -> clock (asleep n) <= timeout + 2 ^ 31 ->
  exists s', msleep t fn d msecs [n] s = Some (Some tt, s').
Proof.
  intros timeout Hr Hs Hm Hl Hu Hw Ha Hn Hc. destruct (sleep_range msecs Hm) as [Ht _]. fold timeout in Ht.
  pose proof (woken_in_time t fn d timeout n s Hr Hs ltac:(lia) Hl Hu Hw) as Hin.
  set (s0 := Sleeper (wheel s) (jiffies_64 s) TASK_UNINTERRUPTIBLE (wrong s)).
  assert (Ha0 : awake t fn d timeout n s0 = Some w).
  { unfold awake, s0 in *. rewrite arm_state. by destruct (arm t fn d timeout n s) as [[e s1]|]. }
  destruct (schedule_timeout_ends t fn d timeout n s0 Hr w ltac:(lia) Hu Ha0 Hn) as (r & s' & H & J).
  destruct (schedule_timeout_rest t fn d timeout n s0 (Some r) s' Hs ltac:(lia) H) as (_ & _ & _ & Hrest).
  specialize (Hrest r eq_refl). rewrite J in Hrest. rewrite s32_small in Hrest by lia.
  exists s'. unfold msleep. fold timeout. destruct (loop_arg timeout ltac:(lia)) as [E1 E2]. rewrite E2.
  cbn [msleep_loop]. rewrite (proj2 (Z.eqb_neq timeout 0)), E1, bind_unfold by lia.
  unfold schedule_timeout_uninterruptible. rewrite bind_unfold. cbn [set_current_state modify]. fold s0.
  unfold set_current_state, modify. fold s0. rewrite H. assert (r = 0) as -> by lia. done.
Qed.

Lemma msleep_ends_witness : exists s', msleep 1%positive 9 5 5 [demo_nap2] demo_task = Some (Some tt, s').
Proof.
  refine (msleep_ends 1%positive 9 5 5 demo_nap2 demo_task
    (default (boot 0) (awake 1%positive 9 5 3 demo_nap2 demo_task)) _ _ _ _ _ _ _ _ _).
  - by apply demo_ready.
  - vm_compute. reflexivity.
  - vm_compute. split; [discriminate | reflexivity].
  - intros b Hb. vm_compute in Hb. injection Hb as <-. vm_compute. split; [discriminate | reflexivity].
  - vm_compute. reflexivity.
  - vm_compute. reflexivity.
  - vm_compute. reflexivity.
  - intros c b Hb. destruct c as [|[|c]]; vm_compute in Hb; by simplify_eq.
  - vm_compute. discriminate.
Defined.

(** A signal ends [msleep_interruptible]; the time passed and the time returned make
    up at least the time asked for. *)
Lemma msleep_interruptible_rest t fn d msecs naps s r s' : synced s -> is_u32 msecs ->
  msleep_interruptible t fn d msecs naps s = Some (Some r, s') ->
  exists rest, r = jiffies_to_msecs rest /\
    Z.min msecs (2 ^ 32 - 8) <= MSEC_PER_SEC / HZ * (jiffies_64 s' - jiffies_64 s + rest - 1).
Proof.
  intros Hs Hm H. destruct (sleep_range msecs Hm) as [Ht Hj].
  unfold msleep_interruptible in H. rewrite (proj2 (loop_arg (msecs_to_jiffies msecs + 1) ltac:(lia))) in H.
  apply bind_inv in H as ([rest|] & s1 & H & [= <- <-]). exists rest. split; [done|].
  apply msleep_interruptible_loop_long in H; [|done|lia]. change (MSEC_PER_SEC / HZ) with 4 in *. lia.
Qed.
