(* ===== verification/Peripherals.v ===== *)
(** * Fan, power modules, EEPROM, alarm LED, temperature and clock
    (drivers/externdrv)

    The functions open the device of the FPGA (or the I2C bus, the clock), seek to
    a register and read or write a few bytes. What the system calls do on the open
    file is the interface [FpgaDev], of which nothing is assumed; on the board it is
    the driver of SpiDev, and PeripheralsProps says what comes of it. Memory the
    programs do not initialise is an argument. *)

From S2P Require Import Prelude SpiDev.

Definition FAN1_SPEED_ADDR : Z := 0xc.
Definition FAN2_SPEED_ADDR : Z := 0xe.
Definition FAN_SPEED_THRESH : Z := 4000.
Definition FAN_PLUG_IN_ADDR : Z := 0xb.
Definition FAN_OPER_STATUS_ADDR : Z := 0x14.
Definition FAN_ENABLE_ADDR : Z := 0x14.
Definition FAN_LED_ADDR : Z := 0x6e.

Definition FPGA_POWER1_PLUGGED : Z := 0x70.
Definition FPGA_POWER2_PLUGGED : Z := 0x72.
Definition FPGA_POWER1_ADDR : Z := 0xb0.
Definition FPGA_POWER2_ADDR : Z := 0xc0.
Definition FPGA_POWER2_OUT_ON_OFF : Z := 0x7b.
Definition DELAY_COUNT : nat := 100.
Definition FPGA_RDEN_OFFSET : Z := 0x02.
Definition FPGA_ADDR_OFFSET : Z := 0x04.
Definition FPGA_WRDATA_OFFSET : Z := 0x06.
Definition FPGA_RDDATA_OFFSET : Z := 0x08.
Definition FPGA_EN_OFFSET : Z := 0x0a.

Definition I2C_BASE : Z := 0x1000.
Definition I2C_RSV : Z := I2C_BASE + 0x0.
Definition I2C_CMD : Z := I2C_BASE + 0x1.
Definition I2C_DATA : Z := I2C_BASE + 0x40.
Definition BUFSIZE : nat := 256.

Definition SPI_IOC_OPER_FPGA_DONE : Z := IOW SPI_IOC_MAGIC 6 1.

(** The file /dev/spidev0.0: a read gets the position, the count and what is in the
    buffer, and gives its result and the bytes it stores from the start of the
    buffer on; a write gets the same and gives its result. *)
Class FpgaDev (D : Type) := {
  dev_open : M D bool;
  dev_close : M D unit;
  dev_ioctl : Z -> M D unit;
  dev_read : Z -> nat -> list Z -> M D (Z * list Z);
  dev_write : Z -> nat -> list Z -> M D Z
}.

(** [struct fpga_msg]; [buf] has four bytes. *)
Record fpga_msg := FpgaMsg { msg_addr : Z; msg_len : nat; msg_buf : list Z }.

(** A program: the device, the position of the open file, the variable
    [power_plug], and how many blocks were allocated and not freed. *)
Record prog (D : Type) := Prog { dev : D; file : option Z; power_plug : list Z; blocks : Z }.
Arguments Prog {_}. Arguments dev {_}. Arguments file {_}. Arguments power_plug {_}. Arguments blocks {_}.

Section Programs.
Context {D : Type} `{!FpgaDev D}.

Definition with_dev (d : D) (s : prog D) : prog D := Prog d (file s) (power_plug s) (blocks s).
Definition with_file (f : option Z) (s : prog D) : prog D := Prog (dev s) f (power_plug s) (blocks s).
Definition add_blocks (n : Z) (s : prog D) : prog D := Prog (dev s) (file s) (power_plug s) (blocks s + n).

(** ** System calls; on a closed file they fail *)

Definition on_dev {A} (m : M D A) : M (prog D) A := zoom dev with_dev m.

Definition sys_open : M (prog D) bool :=
  ok ← on_dev dev_open;
  (if ok : bool then modify (with_file (Some 0)) else mret tt);;
  mret ok.
Definition sys_close : M (prog D) unit :=
  f ← gets file;
  match f with Some _ => modify (with_file None);; on_dev dev_close | None => mret tt end.
Definition sys_ioctl (cmd : Z) : M (prog D) unit :=
  f ← gets file;
  match f with Some _ => on_dev (dev_ioctl cmd) | None => mret tt end.
Definition sys_lseek (a : Z) : M (prog D) unit :=
  modify (fun s => match file s with Some _ => with_file (Some a) s | None => s end).
(** The result and the buffer; undefined when more is stored than it holds. *)
Definition sys_read (n : nat) (buf : list Z) : M (prog D) (Z * list Z) :=
  f ← gets file;
  match f with
  | Some a =>
      r ← on_dev (dev_read a n buf);
      buf ← lift_opt (buf_write buf 0 (snd r));
      mret (fst r, buf)
  | None => mret (-1, buf)
  end.
Definition sys_write (n : nat) (buf : list Z) : M (prog D) Z :=
  f ← gets file;
  match f with Some a => on_dev (dev_write a n buf) | None => mret (-1) end.

(** ** fpgardwr.c, for a descriptor that [open] returned *)

Definition read_fpga_data (msg : fpga_msg) : M (prog D) (Z * fpga_msg) :=
  sys_lseek (msg_addr msg);;
  r ← sys_read (msg_len msg) (msg_buf msg);
  mret (if fst r =? Z.of_nat (msg_len msg) then 1 else -1, FpgaMsg (msg_addr msg) (msg_len msg) (snd r)).

Definition write_fpga_data (msg : fpga_msg) : M (prog D) Z :=
  sys_lseek (msg_addr msg);;
  r ← sys_write (msg_len msg) (msg_buf msg);
  mret (if r =? Z.of_nat (msg_len msg) then 1 else -1).

Definition byte (buf : list Z) (i : nat) : Z := default 0 (buf !! i).

(** ** fan.c *)

(** The body that the two functions for a bit of the fan have in common. *)
Definition fan_bit (addr : Z) (stack : list Z) : M (prog D) Z :=
  ok ← sys_open;
  if negb ok then mret (-1)
  else
    sys_ioctl SPI_IOC_OPER_FPGA;;
    sys_lseek addr;;
    r ← sys_read 4 stack;
    if fst r =? 4 then
      sys_ioctl SPI_IOC_OPER_FPGA_DONE;;
      sys_close;;
      mret (Z.land (byte (snd r) 3) 1)
    else
      sys_ioctl SPI_IOC_OPER_FPGA_DONE;;
      sys_close;;
      mret (-1).

Definition getFanHwState : list Z -> M (prog D) Z := fan_bit FAN_PLUG_IN_ADDR.
Definition getFanRunState : list Z -> M (prog D) Z := fan_bit FAN_OPER_STATUS_ADDR.

(** One round of the loop of [getFanSpeed]. *)
Definition fan_speed (addr : Z) (stack : list Z) : M (prog D) Z :=
  r ← read_fpga_data (FpgaMsg addr 4 stack);
  if 0 <? fst r then
    let buf := msg_buf (snd r) in
    mret (u16 (Z.lor (Z.shiftl (byte buf 2) 8) (byte buf 3)) / 60)
  else
    sys_ioctl SPI_IOC_OPER_FPGA_DONE;;
    sys_close;;
    mret 0.

(** The result and the two elements of [fan]. *)
Definition getFanSpeed (stack : list Z * list Z) : M (prog D) (Z * (Z * Z)) :=
  ok ← sys_open;
  if negb ok then mret (-1, (0, 0))
  else
    sys_ioctl SPI_IOC_OPER_FPGA;;
    f0 ← fan_speed FAN1_SPEED_ADDR (fst stack);
    f1 ← fan_speed FAN2_SPEED_ADDR (snd stack);
    sys_ioctl SPI_IOC_OPER_FPGA_DONE;;
    sys_close;;
    mret (0, (f0, f1)).

(** Open, write [data] at [addr], close: -1 when the device cannot be opened,
    otherwise what [write] gave. *)
Definition write_once (addr : Z) (data : list Z) : M (prog D) (option Z) :=
  ok ← sys_open;
  if negb ok then mret None
  else
    sys_ioctl SPI_IOC_OPER_FPGA;;
    sys_lseek addr;;
    r ← sys_write (length data) data;
    sys_ioctl SPI_IOC_OPER_FPGA_DONE;;
    sys_close;;
    mret (Some r).

Definition enableFan (on_off : Z) : M (prog D) Z :=
  let data := if on_off =? 1 then [0; 0; 0; 0] else [0; 0; 0xff; 0xff] in
  r ← write_once FAN_ENABLE_ADDR data;
  mret (match r with Some n => if n =? 4 then 0 else -1 | None => -1 end).

Definition setFanRunLed (runStatus : Z) : M (prog D) Z :=
  r ← write_once FAN_LED_ADDR [0; if runStatus =? 0 then 0 else 1];
  mret (match r with Some _ => 0 | None => -1 end).

(** The result and [fan[0]]. *)
Definition getFanState (stack : list Z) : M (prog D) (Z * Z) :=
  v ← getFanHwState stack;
  let fan := u16 v in
  mret (if (fan =? 1) || (fan =? 0) then 0 else -1, fan).

(** The result and [RunSpeed]; [is_raise_alarm] is not used. *)
Definition getFanInfo (index : Z) (stack : list Z * list Z) : M (prog D) (Z * (Z * Z)) :=
  if negb (index =? 1) then mret (-1, (0, 0))
  else
    r ← getFanSpeed stack;
    if fst r <? 0 then mret (-1, (0, 0)) else mret (0, snd r).

(** ** sysled.c *)

Definition setAlarmLed (led_type led_color : Z) : M (prog D) Z :=
  let type := if truth led_type then 3 else 2 in
  ok ← sys_open;
  if negb ok then mret (-1)
  else
    let b3 := if truth led_color then Z.land 0 (Z.lnot (Z.shiftl 1 type)) else Z.lor 0 (Z.shiftl 1 type) in
    write_fpga_data (FpgaMsg 0x15 4 [0; 0; 0; u8 b3]);;
    sys_close;;
    mret 0.

(** ** power.c *)

Definition set_plug (number v : Z) (s : prog D) : prog D :=
  Prog (dev s) (file s) (<[Z.to_nat (number - 1) := v]> (power_plug s)) (blocks s).

Definition getPowerHwState (number : Z) (stack : list Z) : M (prog D) Z :=
  if (number <? 1) || (2 <? number) then mret (-1)
  else
    ok ← sys_open;
    if negb ok then mret (-1)
    else
      sys_ioctl SPI_IOC_OPER_FPGA;;
      sys_lseek (if number =? 1 then FPGA_POWER1_PLUGGED else FPGA_POWER2_PLUGGED);;
      r ← sys_read 2 stack;
      let v := Z.land (byte (snd r) 1) 7 in
      (if fst r =? 2 then modify (set_plug number v) else mret tt);;
      sys_ioctl SPI_IOC_OPER_FPGA_DONE;;
      sys_close;;
      mret (if fst r =? 2 then v else -1).

(** [while (!temp[1])] with its count. *)
Fixpoint wait_valid (count : nat) (valid_data : Z) (temp : list Z) : M (prog D) (list Z) :=
  if negb (byte temp 1 =? 0) then mret temp
  else match count with
  | O => mret temp
  | S count =>
      sys_lseek valid_data;;
      r ← sys_read 2 temp;
      wait_valid count valid_data (snd r)
  end.

Definition COUNT : nat := Z.to_nat 0xfffff.

(** [temp[1] = 0] and the loop. *)
Definition settle (valid_data : Z) (temp : list Z) : M (prog D) (list Z) :=
  wait_valid COUNT valid_data [byte temp 0; 0].

(** The [do] loop: at most [n] rounds. *)
Fixpoint wait_enable (n : nat) (msg : fpga_msg) : M (prog D) fpga_msg :=
  match n with
  | O => mret msg
  | S n =>
      r ← read_fpga_data msg;
      let msg := snd r in
      if truth (Z.land (byte (msg_buf msg) 1) 1) then mret msg else wait_enable n msg
  end.

(** One round of the loop over the two registers: the temporary bytes, the
    messages that are read, and the value unless the FPGA is not ready. *)
Record scratch := Scratch { temp : list Z; msg1 : fpga_msg; msg3 : fpga_msg; msg4 : fpga_msg }.

Definition read_power (addr_power valid_data : Z) (reg : Z) (t : scratch) : M (prog D) (option Z * scratch) :=
  write_fpga_data (FpgaMsg (addr_power + FPGA_ADDR_OFFSET) 2 [0xce; u8 reg]);;
  tmp ← settle valid_data (temp t);
  r1 ← read_fpga_data (msg1 t);
  let m1 := snd r1 in
  write_fpga_data (FpgaMsg (addr_power + FPGA_RDEN_OFFSET) 2 [0; Z.lxor (byte (msg_buf m1) 1) 1]);;
  tmp ← settle valid_data tmp;
  m3 ← wait_enable (DELAY_COUNT + 1) (msg3 t);
  if truth (Z.land (byte (msg_buf m3) 1) 1) then
    r4 ← read_fpga_data (msg4 t);
    let m4 := snd r4 in
    mret (Some (byte (msg_buf m4) 1), Scratch tmp m1 m3 m4)
  else mret (None, Scratch tmp m1 m3 (msg4 t)).

(** The end of [getVoltageInfo] on every path. *)
Definition finish (frees : Z) : M (prog D) unit :=
  sys_ioctl SPI_IOC_OPER_FPGA_DONE;;
  sys_close;;
  modify (add_blocks (- frees)).

Definition voltage (d0 d1 : Z) : Z :=
  u16 (Z.lor (Z.shiftl d0 4) (Z.land (Z.shiftr d1 4) 0x0f)) * 25 / 1000.

(** Setting register 6 of the module. *)
Definition configure (addr_power valid_data : Z) (junk : list Z) : M (prog D) (list Z) :=
  write_fpga_data (FpgaMsg (addr_power + FPGA_ADDR_OFFSET) 2 [0xce; 0x06]);;
  tmp ← settle valid_data junk;
  write_fpga_data (FpgaMsg (addr_power + FPGA_WRDATA_OFFSET) 2 [0x00; 0x20]);;
  tmp ← settle valid_data tmp;
  r2 ← read_fpga_data (FpgaMsg addr_power 2 junk);
  tmp ← settle valid_data tmp;
  write_fpga_data (FpgaMsg addr_power 2 [0; Z.lxor (byte (msg_buf (snd r2)) 1) 1]);;
  settle valid_data tmp.

(** [mem], [mem']: the allocations; [junk]: what uninitialised memory holds. *)
Definition getVoltageInfo (number : Z) (mem mem' : bool) (junk : list Z) : M (prog D) Z :=
  ret ← getPowerHwState number junk;
  if (ret =? 7) || (ret =? -1) then mret (-1)
  else
    ok ← sys_open;
    if negb ok then mret (-1)
    else
      sys_ioctl SPI_IOC_OPER_FPGA;;
      let addr_power := if number =? 1 then FPGA_POWER1_ADDR else FPGA_POWER2_ADDR in
      let valid_data := addr_power + FPGA_EN_OFFSET in
      if negb mem then finish 0;; mret (-1)
      else
        modify (add_blocks 1);;
        tmp ← configure addr_power valid_data junk;
        if negb mem' then finish 0;; mret (-1)
        else
          modify (add_blocks 1);;
          let t := Scratch tmp (FpgaMsg (addr_power + FPGA_RDEN_OFFSET) 2 junk)
                     (FpgaMsg (addr_power + FPGA_EN_OFFSET) 2 junk) (FpgaMsg (addr_power + FPGA_RDDATA_OFFSET) 2 junk) in
          a ← read_power addr_power valid_data 2 t;
          match fst a with
          | None => finish 2;; mret (-1)
          | Some d0 =>
              b ← read_power addr_power valid_data 3 (snd a);
              match fst b with
              | None => finish 2;; mret (-1)
              | Some d1 => finish 2;; mret (voltage d0 d1)
              end
          end.

(** The result and the two states. *)
Definition getPowerState (stack : list Z) : M (prog D) (Z * (Z * Z)) :=
  a ← getPowerHwState 1 stack;
  b ← getPowerHwState 2 stack;
  mret (0, (u16 a, u16 b)).

(** The result, undefined when the function succeeds (it has no return there), and
    the two bytes of [pwrOn]. *)
Definition getPowerOn (stack : list Z) : M (prog D) (option Z * option (list Z)) :=
  ok ← sys_open;
  if negb ok then mret (Some (-1), None)
  else
    sys_ioctl SPI_IOC_OPER_FPGA;;
    sys_lseek FPGA_POWER2_OUT_ON_OFF;;
    r ← sys_read 2 stack;
    sys_ioctl SPI_IOC_OPER_FPGA_DONE;;
    sys_close;;
    mret (if fst r =? 2 then (None, Some (take 2 (snd r))) else (Some (-1), None)).

(** The result, [HwState] and [VoltageIn]. *)
Definition getPowerInfo (index : Z) (mem mem' : bool) (junk : list Z) : M (prog D) (Z * (Z * Z)) :=
  if (index <? 1) || (2 <? index) then mret (-1, (0, 0))
  else
    h ← getPowerHwState index junk;
    v ← getVoltageInfo index mem mem' junk;
    mret (0, (h, v)).

(** ** eeprom_api.c *)

(** Which EEPROM; 0: the one on the board itself. *)
Definition LOCALBOARD : Z := 0x00.
Definition BACKBOARD : Z := 0x50.
Definition FAN : Z := 0x51.
Definition PWR_A : Z := 0x52.
Definition PWR_B : Z := 0x53.
Definition CK01 : Z := 0x4f.

Definition i2c_cmd (i2c_addr rd_wr : Z) : Z :=
  let cmd := Z.lor 0 0x00020000 in
  let cmd := Z.lor cmd (Z.shiftl 1 15) in
  let cmd := Z.lor cmd (if truth rd_wr then Z.shiftl 1 14 else 0) in
  let cmd := Z.lor cmd (Z.shiftl 1 13) in
  let cmd := Z.lor cmd (Z.shiftl 1 12) in
  let cmd := Z.lor cmd (if truth i2c_addr then Z.shiftl 1 11 else 0) in
  Z.lor cmd (Z.shiftl (Z.land i2c_addr 0x7) 8).

Definition i2c_cmdword_set (i2c_addr rd_wr : Z) : M (prog D) Z :=
  let msg := FpgaMsg I2C_RSV 4 (be32_bytes 0x00010000) in
  write_fpga_data msg;;
  read_fpga_data msg;;
  write_fpga_data (FpgaMsg I2C_CMD 4 (be32_bytes (i2c_cmd i2c_addr rd_wr)));;
  mret 0.

(** The loop from word [i] on. *)
Fixpoint write_words (n : nat) (i : Z) (str : list Z) : M (prog D) unit :=
  match n with
  | O => mret tt
  | S n =>
      w ← lift_opt (buf_read str 0 4);
      write_fpga_data (FpgaMsg (I2C_DATA + i) 4 w);;
      write_words n (i + 1) (drop 4 str)
  end.

Definition EepromWrite (eep_addr : Z) (buf : option (list Z)) (len : Z) : M (prog D) Z :=
  match buf with
  | Some buf =>
      if negb (len =? 256) then mret (-1)
      else
        ok ← sys_open;
        if negb ok then mret (-1)
        else
          sys_ioctl SPI_IOC_OPER_FPGA;;
          write_words (BUFSIZE / 4) 0 buf;;
          ret ← i2c_cmdword_set eep_addr 0;
          sys_ioctl SPI_IOC_OPER_FPGA_DONE;;
          sys_close;;
          mret ret
  | None => mret (-1)
  end.

(** [msg]: the bytes that the message holds from the round before. *)
Fixpoint read_words (n : nat) (i : Z) (msg : list Z) : M (prog D) (list Z) :=
  match n with
  | O => mret []
  | S n =>
      r ← read_fpga_data (FpgaMsg (I2C_DATA + i) 4 msg);
      let b := msg_buf (snd r) in
      rest ← read_words n (i + 1) b;
      mret (take 4 b ++ rest)
  end.

(** The result and the 256 bytes of the buffer, if they were written. *)
Definition EepromRead (eep_addr : Z) (has_buf : bool) (len : Z) (stack : list Z) : M (prog D) (Z * option (list Z)) :=
  if negb has_buf || negb (len =? 256) then mret (-1, None)
  else
    ok ← sys_open;
    if negb ok then mret (-1, None)
    else
      sys_ioctl SPI_IOC_OPER_FPGA;;
      ret ← i2c_cmdword_set eep_addr 1;
      l ← read_words (BUFSIZE / 4) 0 stack;
      sys_ioctl SPI_IOC_OPER_FPGA_DONE;;
      sys_close;;
      mret (ret, Some l).
End Programs.

(** ** temperature.c *)


(** [(short)((float)temp / 256.0 * 10)]: the product has at most 19 significant bits
    and is exact, the conversion cuts towards zero. *)
Definition tenths (temp : Z) : Z := Z.quot (temp * 10) 256.

(** What the services answer: the file opens, the three allocations, the result of
    the transfer and the two bytes it leaves. *)
Record i2c_env := I2cEnv { i2c_opens : bool; i2c_mem : bool; i2c_mem0 : bool; i2c_mem1 : bool; i2c_ret : Z; i2c_b0 : Z; i2c_b1 : Z }.

(** The result, [*temperature], and the blocks that stay allocated. *)
Definition getTemperature (e : i2c_env) : option (Z * option Z * Z) :=
  if negb (i2c_opens e) then Some (-1, None, 0)
  else if negb (i2c_mem e) then Some (-1, None, 0)
  else if negb (i2c_mem0 e) || negb (i2c_mem1 e) then None
  else if i2c_ret e <? 0 then Some (-1, None, 3)
  else
    let t := s16 (tenths (s16 (Z.lor (Z.shiftl (i2c_b0 e) 8) (i2c_b1 e)))) in
    Some (t, Some t, 0).

(** ** rtc.c *)

Record rtc_time := RtcTime { tm_sec : Z; tm_min : Z; tm_hour : Z; tm_mday : Z; tm_mon : Z; tm_year : Z }.

(** Which pointers are not null. *)
Record rtc_out := RtcOut { o_year : bool; o_month : bool; o_day : bool; o_hour : bool; o_minute : bool; o_second : bool }.
(** The variables a call sets. *)
Record rtc_values := RtcValues { v_year : option Z; v_month : option Z; v_day : option Z; v_hour : option Z; v_minute : option Z; v_second : option Z }.

Definition nothing : rtc_values := RtcValues None None None None None None.

(** [fd]: what [open] gives; [ret], [t]: what the driver answers. *)
Definition rtc_get_time (fd ret : Z) (t : rtc_time) (p : rtc_out) : option (Z * rtc_values) :=
  if 0 <=? fd then
    if ret <? 0 then Some (-1, nothing)
    else
      let set (b : bool) (z : Z) := if b then Some z else None in
      if o_day p && negb (o_month p && o_year p) then None
      else
        date ← (if o_day p then
                  mon ← sint (tm_mon t + 1); year ← sint (tm_year t + 1900); Some (Some year, Some mon)
                else Some (None, None));
        Some (0, RtcValues (fst date) (snd date) (set (o_day p) (tm_mday t))
                   (set (o_hour p) (tm_hour t)) (set (o_minute p) (tm_min t)) (set (o_second p) (tm_sec t)))
  else Some (-1, nothing).

(** The result and the time that is handed to the driver. *)
Definition rtc_set_time (fd ret : Z) (iYear iMonth iDay iHour iMinute iSecond : Z) : option (Z * option rtc_time) :=
  if 0 <=? fd then
    mon ← sint (iMonth - 1);
    year ← sint (iYear - 1900);
    Some (if ret <? 0 then -1 else 0, Some (RtcTime iSecond iMinute iHour iDay mon year))
  else Some (-1, None).

(** The time [settimeofday] gets; [mktime]: of the C library. *)
Definition rtc_recover_systime (mktime : rtc_time -> Z) (fd ret : Z) (t : rtc_time) : option (Z * Z) :=
  r ← rtc_get_time fd ret t (RtcOut true true true true true true);
  let v := snd r in
  year ← sint (default 0 (v_year v) - 1900);
  mon ← sint (default 0 (v_month v) - 1);
  Some (0, mktime (RtcTime (default 0 (v_second v)) (default 0 (v_minute v)) (default 0 (v_hour v)) (default 0 (v_day v)) mon year)).
