(* ===== verification/PeripheralsProps.v ===== *)
(** * What the peripheral functions do

    The programs expect a file whose read and write go to the position they seek to
    and move the bytes they ask for. The driver of the board's /dev/spidev0.0
    (SpiDev) does neither: whatever the count, it takes a request of 70 bytes from
    the buffer and stores 70 bytes there, and it ignores the position. This file
    puts the programs on that driver: a read never delivers anything. It also has
    what the functions do when accesses fail, and the clock and the temperature. *)

From S2P Require Import Prelude SpiMaster SpiDev SpiDevProps Peripherals.

(** ** The programs on the driver of the board *)

(** [struct spi_rdwr_argv] in memory: [cs], a byte of padding, [addr], [len],
    [buff]. *)
Definition sizeof_spi_rdwr : nat := 70.

Definition decode (l : list Z) : spi_rdwr :=
  SpiRdwr (byte l 0) (byte l 2 * 256 + byte l 3) (Z.to_nat (byte l 4 * 256 + byte l 5)) (take 64 (drop 6 l)).
Definition encode (u : spi_rdwr) : list Z :=
  [cs u; 0; addr u / 256; addr u mod 256; Z.of_nat (rw_len u) / 256; Z.of_nat (rw_len u) mod 256] ++
  take 64 (buff u ++ replicate 64 0).

Section Board.
Context {H : Type} `{!SpiMaster H}.
(** What lies behind a buffer in memory when the file is accessed at a position, the
    driver's uninitialised variable, its buffer from the kernel, and the argument of
    its ioctl. *)
Context (beyond : Z -> list Z -> list Z) (stack : spi_rdwr) (mem : option (list Z)) (arg : ioctl_arg).

(** What the driver takes for the request. *)
Definition request_at (pos : Z) (buf : list Z) : spi_rdwr := decode (take sizeof_spi_rdwr (buf ++ beyond pos buf)).

(** The system calls are the functions of the driver. *)
#[local] Instance board_dev : FpgaDev (sdev (H := H)) := {|
  dev_open := r ← spidev_open true mem; mret (0 <=? r);
  dev_close := spidev_release;; mret tt;
  dev_ioctl cmd := spidev_ioctl cmd arg;; mret tt;
  dev_read pos _ buf :=
    r ← spidev_read (Some (request_at pos buf)) stack;
    mret (fst r, match snd r with Some u => encode u | None => [] end);
  dev_write pos _ buf := spidev_write (Some (request_at pos buf)) stack
|}.

(** The driver carries out the request: it has a known chip and a valid length. *)
Definition accepts (pos : Z) (buf : list Z) : bool :=
  let u := request_at pos buf in ((cs u =? 0) || (cs u =? 1)) && (rw_len u <=? 64)%nat.

(** The device is bound, nobody holds its mutexes, and it is not in 3-wire mode. *)
Definition ready (d : sdev (H := H)) : Prop :=
  idle d /\ buf_lock d = false /\ truth (Z.land (mode (kdev d)) SPI_3WIRE) = false.

Lemma encode_length u : length (encode u) = sizeof_spi_rdwr.
Proof. unfold encode, sizeof_spi_rdwr. rewrite length_app, length_take, length_app, length_replicate. cbn [length]. lia. Qed.

(** A refused request: nothing is stored. *)
Lemma spidev_refuses u d : ready d -> ((cs u =? 0) || (cs u =? 1)) && (rw_len u <=? 64)%nat = false ->
  exists d', ready d' /\ spidev_read (Some u) stack d = Some ((Z.of_nat (rw_len u), None), d') /\
    spidev_write (Some u) stack d = Some (Z.of_nat (rw_len u), d').
Proof.
  intros ((Hb & Hf & Hl) & Hbl & H3) Ha. unfold spidev_read, spidev_write, lock_chip_sel.
  rewrite !bind_unfold, Hl. cbv zeta. change (default stack (Some u)) with u.
  assert ((if (cs u =? 0) || (cs u =? 1) then deref_spi else mret tt) (with_chip_sel_lock true d) =
    Some (tt, with_chip_sel_lock true d)) as E.
  { destruct (_ || _); [|done]. unfold deref_spi. cbn [bound freed with_chip_sel_lock]. by rewrite Hb, Hf. }
  rewrite !(bind_Some _ _ _ _ _ E), !bind_unfold. clear E.
  destruct ((cs u =? 0) || (cs u =? 1)) eqn:Ec; cbn [andb negb] in *.
  - rewrite select_chip_run by (apply orb_prop in Ec as [?%Z.eqb_eq|?%Z.eqb_eq]; auto). apply Nat.leb_gt in Ha.
    rewrite (proj2 (Nat.ltb_lt _ _) Ha). cbn [negb orb]. rewrite !bind_unfold. unfold unlock_chip_sel.
    cbn [chip_sel_lock with_chip_sel with_kdev with_chip_sel_lock]. rewrite !ret_unfold. eexists.
    split; [|split; reflexivity]. by repeat split.
  - apply orb_false_elim in Ec as [E0 E1]. unfold select_chip. rewrite E0, E1, ret_unfold. cbn [negb orb].
    rewrite !bind_unfold. unfold unlock_chip_sel. cbn [chip_sel_lock with_chip_sel_lock]. rewrite !ret_unfold. eexists.
    split; [|split; reflexivity]. by repeat split.
Qed.

Section Full.
Context (Hfd : truth (Z.land flags SPI_MASTER_HALF_DUPLEX) = false).
Context (Hbeyond : forall pos buf, (66 <= length (beyond pos buf))%nat).

Lemma request_buff pos buf : length buf = 4%nat -> length (buff (request_at pos buf)) = 64%nat.
Proof. intros Hl. pose proof (Hbeyond pos buf). cbn [buff request_at decode]. lens. unfold sizeof_spi_rdwr. lia. Qed.

Lemma accepts_inv pos buf : accepts pos buf = true ->
  (cs (request_at pos buf) = 0 \/ cs (request_at pos buf) = 1) /\ (rw_len (request_at pos buf) <= 64)%nat.
Proof.
  intros E. apply andb_prop in E as [Ec El%Nat.leb_le]. split; [|done]. apply orb_prop in Ec as [?%Z.eqb_eq|?%Z.eqb_eq]; auto.
Qed.

(** A read of the file into four bytes: the driver stores 70, or nothing. *)
Lemma board_read n pos buf s : file s = Some pos -> ready (dev s) -> length buf = 4%nat ->
  if accepts pos buf
  then (exists v l d', dev_read pos n buf (dev s) = Some ((v, l), d') /\ length l = sizeof_spi_rdwr) /\ sys_read n buf s = None
  else exists d', ready d' /\ sys_read n buf s = Some ((Z.of_nat (rw_len (request_at pos buf)), buf), with_dev d' s).
Proof.
  intros Hfile Hr Hl. unfold sys_read. rewrite bind_unfold, gets_run, Hfile, bind_unfold. unfold on_dev, zoom.
  cbn [dev_read board_dev]. destruct (accepts pos buf) eqn:Ea.
  - destruct (accepts_inv _ _ Ea) as [Hc Hn]. destruct Hr as (Hi & Hbl & H3).
    destruct (spidev_read_run _ stack _ Hi Hbl Hc Hn (request_buff pos buf Hl) Hfd H3) as (d' & E & _).
    rewrite (bind_Some _ _ _ _ _ E), ret_unfold. cbn [fst snd]. split.
    + eexists _, _, _. split; [reflexivity|]. apply encode_length.
    + rewrite bind_unfold, buf_write_None by (rewrite encode_length, Hl; unfold sizeof_spi_rdwr; lia). done.
  - destruct (spidev_refuses _ _ Hr Ea) as (d' & Hr' & E & _). rewrite (bind_Some _ _ _ _ _ E), ret_unfold. cbn [fst snd].
    exists d'. split; [done|]. by rewrite bind_unfold, buf_write_Some by (simpl; lia).
Qed.

Lemma board_write n pos buf s : file s = Some pos -> ready (dev s) -> length buf = 4%nat ->
  exists r d', ready d' /\ sys_write n buf s = Some (r, with_dev d' s).
Proof.
  intros Hfile Hr Hl. unfold sys_write. rewrite bind_unfold, gets_run, Hfile. unfold on_dev, zoom.
  cbn [dev_write board_dev]. destruct (accepts pos buf) eqn:Ea.
  - destruct (accepts_inv _ _ Ea) as [Hc Hn]. destruct Hr as (Hi & Hbl & H3).
    destruct (spidev_write_run _ stack _ Hi Hbl Hc Hn (request_buff pos buf Hl) Hfd H3) as (d' & E & _ & Hk & Hi' & Hbl' & _).
    rewrite E. eexists _, _. split; [|reflexivity]. repeat split; try apply Hi'; [done|]. by rewrite Hk.
  - destruct (spidev_refuses _ _ Hr Ea) as (d' & Hr' & _ & E). rewrite E. by eexists _, _.
Qed.

(** The commands of the programs are not among those of the driver. *)
Lemma board_ioctl cmd s : cmd = SPI_IOC_OPER_FPGA \/ cmd = SPI_IOC_OPER_FPGA_DONE -> bound (dev s) = true ->
  sys_ioctl cmd s = Some (tt, s).
Proof.
  intros Hc Hb. unfold sys_ioctl. rewrite bind_unfold, gets_run. destruct (file s) eqn:Ef; [|done]. unfold on_dev, zoom.
  cbn [dev_ioctl board_dev]. assert (exists r, spidev_ioctl cmd arg (dev s) = Some (r, dev s)) as [r E].
  { unfold spidev_ioctl. destruct (negb (_ =? _)); [by eexists|]. destruct (_ && negb (arg_ok arg)); [by eexists|].
    exists (- ENOTTY, NoReply). rewrite bind_unfold, gets_run, Hb. cbn [negb]. rewrite bind_unfold, modify_run.
    rewrite (bind_Some _ _ _ (- ENOTTY, NoReply) (with_refs (refs (dev s) + 1) (dev s)));
      [|destruct Hc as [-> | ->]; reflexivity].
    rewrite bind_unfold, modify_run, ret_unfold. unfold with_refs. destruct (dev s). cbn. repeat f_equal. lia. }
  rewrite (bind_Some _ _ _ _ _ E), ret_unfold. destruct s; reflexivity.
Qed.

Lemma board_seek pos q (s : prog (sdev (H := H))) : file s = Some q -> sys_lseek pos s = Some (tt, with_file (Some pos) s).
Proof. intros Hf. unfold sys_lseek. by rewrite modify_run, Hf. Qed.

(** A register is read into nothing or beyond the message. *)
Lemma board_read_fpga_data msg q s : file s = Some q -> ready (dev s) -> length (msg_buf msg) = 4%nat ->
  if accepts (msg_addr msg) (msg_buf msg) then read_fpga_data msg s = None
  else exists r d', ready d' /\ read_fpga_data msg s = Some ((r, msg), with_dev d' (with_file (Some (msg_addr msg)) s)).
Proof.
  intros Hf Hr Hl. unfold read_fpga_data. rewrite bind_unfold, (board_seek _ q) by done.
  pose proof (board_read (msg_len msg) (msg_addr msg) (msg_buf msg) (with_file (Some (msg_addr msg)) s) eq_refl Hr Hl) as HB.
  destruct (accepts _ _).
  - destruct HB as [_ E]. by rewrite bind_unfold, E.
  - destruct HB as (d' & Hr' & E). rewrite (bind_Some _ _ _ _ _ E), ret_unfold. cbn [fst snd].
    eexists _, d'. split; [done|]. by destruct msg.
Qed.

Lemma board_write_fpga_data msg q s : file s = Some q -> ready (dev s) -> length (msg_buf msg) = 4%nat ->
  exists r d', ready d' /\ write_fpga_data msg s = Some (r, with_dev d' (with_file (Some (msg_addr msg)) s)).
Proof.
  intros Hf Hr Hl. unfold write_fpga_data. rewrite bind_unfold, (board_seek _ q) by done.
  destruct (board_write (msg_len msg) (msg_addr msg) (msg_buf msg) (with_file (Some (msg_addr msg)) s) eq_refl Hr Hl)
    as (r & d' & Hr' & E). rewrite (bind_Some _ _ _ _ _ E), ret_unfold. by eexists _, d'.
Qed.

(** Either one of the reads overruns the message, or all leave it as it is. *)
Lemma board_read_words junk n : forall i q s, file s = Some q -> ready (dev s) -> length junk = 4%nat ->
  if existsb (fun i => accepts (I2C_DATA + i) junk) (seqZ i (Z.of_nat n)) then read_words n i junk s = None
  else exists q' d', ready d' /\
    read_words n i junk s = Some (concat (replicate n junk), with_dev d' (with_file (Some q') s)).
Proof.
  induction n as [|n IH]; intros i q s Hf Hr Hl.
  - exists q, (dev s). split; [done|]. cbn [read_words]. rewrite ret_unfold. destruct s. simpl in Hf. by subst.
  - rewrite seqZ_cons by lia. replace (Z.pred (Z.of_nat (S n))) with (Z.of_nat n) by lia. cbn [existsb read_words].
    pose proof (board_read_fpga_data (FpgaMsg (I2C_DATA + i) 4 junk) q s Hf Hr Hl) as HB. cbn [msg_addr msg_buf] in HB.
    destruct (accepts _ _); cbn [orb]; [by rewrite bind_unfold, HB|]. destruct HB as (r & d & Hrd & E).
    rewrite (bind_Some _ _ _ _ _ E). cbv zeta. cbn [snd msg_buf].
    specialize (IH (Z.succ i) (I2C_DATA + i) (with_dev d (with_file (Some (I2C_DATA + i)) s)) eq_refl Hrd Hl).
    destruct (existsb _ _).
    + replace (i + 1) with (Z.succ i) by lia. by rewrite bind_unfold, IH.
    + destruct IH as (q' & d' & Hr' & E'). exists q', d'. split; [done|].
      replace (i + 1) with (Z.succ i) by lia. rewrite (bind_Some _ _ _ _ _ E'), ret_unfold, firstn_all2 by lia. done.
Qed.

Definition mode_word : list Z := be32_bytes 0x00010000.

Lemma board_i2c_cmdword_set i2c_addr rd_wr q s : file s = Some q -> ready (dev s) ->
  if accepts I2C_RSV mode_word then i2c_cmdword_set i2c_addr rd_wr s = None
  else exists d', ready d' /\ i2c_cmdword_set i2c_addr rd_wr s = Some (0, with_dev d' (with_file (Some I2C_CMD) s)).
Proof.
  intros Hf Hr. unfold i2c_cmdword_set. cbv zeta.
  destruct (board_write_fpga_data (FpgaMsg I2C_RSV 4 mode_word) q s Hf Hr eq_refl) as (r1 & d1 & Hr1 & E1).
  rewrite (bind_Some _ _ _ _ _ E1).
  pose proof (board_read_fpga_data (FpgaMsg I2C_RSV 4 mode_word) I2C_RSV
    (with_dev d1 (with_file (Some I2C_RSV) s)) eq_refl Hr1 eq_refl) as HB.
  cbn [msg_addr msg_buf] in HB |- *. fold mode_word. destruct (accepts _ _); [by rewrite bind_unfold, HB|].
  destruct HB as (r2 & d2 & Hr2 & E2). rewrite (bind_Some _ _ _ _ _ E2).
  destruct (board_write_fpga_data (FpgaMsg I2C_CMD 4 (be32_bytes (i2c_cmd i2c_addr rd_wr))) I2C_RSV
    (with_dev d2 (with_file (Some I2C_RSV) s)) eq_refl Hr2 eq_refl)
    as (r3 & d3 & Hr3 & E3). rewrite (bind_Some _ _ _ _ _ E3), ret_unfold. by exists d3.
Qed.

(** The device can be opened: it is in the driver's list, and there is memory. *)
Definition can_open (d : sdev (H := H)) : Prop := listed d = true /\ (is_Some (buffer d) \/ is_Some mem).

Lemma board_open s : can_open (dev s) -> ready (dev s) ->
  exists d', ready d' /\ sys_open s = Some (true, with_dev d' (with_file (Some 0) s)).
Proof.
  intros [Hl Hm] Hr. unfold sys_open. rewrite bind_unfold. unfold on_dev, zoom. cbn [dev_open board_dev].
  rewrite bind_unfold. unfold spidev_open. rewrite bind_unfold, gets_run, Hl. cbn [negb andb]. rewrite bind_unfold, gets_run.
  destruct (buffer (dev s)) as [m|] eqn:Eb; [|destruct Hm as [Hm|[m Hm]]; [by destruct Hm|rewrite Hm]];
    (eexists; split; [|rewrite bind_unfold, modify_run, bind_unfold, modify_run, ret_unfold; reflexivity]);
    exact Hr.
Qed.

Lemma board_close q s : file s = Some q -> ready (dev s) -> exists s', sys_close s = Some (tt, s').
Proof.
  intros Hf ((Hb & Hfr & _) & _). unfold sys_close. rewrite bind_unfold, gets_run, Hf, bind_unfold, modify_run.
  unfold on_dev, zoom. cbn [dev_close board_dev dev with_file]. unfold spidev_release.
  rewrite bind_unfold, bind_unfold, gets_run, Hfr, bind_unfold, modify_run, bind_unfold, gets_run.
  destruct (_ =? 0); [|by eexists]. rewrite bind_unfold, modify_run, bind_unfold, gets_run.
  cbn [bound with_buffer with_users]. rewrite Hb. by eexists.
Qed.

(** C31: On the board's SPI device, which takes 70 bytes from the caller's buffer for
    the request and answers with 70 bytes whatever the count, the programs read
    nothing. A register read of [read_fpga_data] into its four bytes overruns them
    when the bytes happen to be a valid request (the driver completes it and hands out
    70 bytes); otherwise it ends and leaves the message as it was. So [EepromRead]
    overruns its message or that of [i2c_cmdword_set] when what lies behind one of
    them completes a valid request; otherwise it ends, reports success, and hands out
    64 copies of the four bytes that were on the stack, whatever is in the EEPROM. The
    device is bound and idle and can be opened, the controller is full duplex. *)
Theorem eeprom_read_nothing junk eep_addr s :
  length junk = 4%nat -> ready (dev s) -> can_open (dev s) ->
  (forall msg q, file s = Some q -> length (msg_buf msg) = 4%nat ->
     if accepts (msg_addr msg) (msg_buf msg)
     then read_fpga_data msg s = None /\
       exists v l d', dev_read (msg_addr msg) (msg_len msg) (msg_buf msg) (dev s) = Some ((v, l), d') /\
         length l = sizeof_spi_rdwr
     else exists r s', read_fpga_data msg s = Some ((r, msg), s')) /\
  (if accepts I2C_RSV mode_word || existsb (fun i => accepts (I2C_DATA + i) junk) (seqZ 0 64)
   then EepromRead eep_addr true 256 junk s = None
   else exists s', EepromRead eep_addr true 256 junk s = Some ((0, Some (concat (replicate 64 junk))), s')).
Proof.
  intros Hj Hr Ho. split.
  - intros msg q Hf Hl. pose proof (board_read_fpga_data msg q s Hf Hr Hl) as HB.
    pose proof (board_read (msg_len msg) (msg_addr msg) (msg_buf msg) (with_file (Some (msg_addr msg)) s) eq_refl Hr Hl) as HD.
    destruct (accepts _ _); [by destruct HD|]. destruct HB as (r & d' & _ & E). by eexists _, _.
  - unfold EepromRead. cbn [negb orb]. change (256 =? 256) with true. cbn [negb].
    destruct (board_open s Ho Hr) as (d1 & Hr1 & E1). rewrite (bind_Some _ _ _ _ _ E1). cbn [negb].
    rewrite bind_unfold, board_ioctl by (auto; apply Hr1).
    pose proof (board_i2c_cmdword_set eep_addr 1 0 (with_dev d1 (with_file (Some 0) s)) eq_refl Hr1) as HC.
    destruct (accepts I2C_RSV mode_word); cbn [orb]; [by rewrite bind_unfold, HC|].
    destruct HC as (d2 & Hr2 & E2).
    change (with_dev d2 _) with (with_dev d2 (with_file (Some I2C_CMD) s)) in E2. rewrite (bind_Some _ _ _ _ _ E2).
    pose proof (board_read_words junk 64 0 I2C_CMD (with_dev d2 (with_file (Some I2C_CMD) s)) eq_refl Hr2 Hj) as HW.
    change (Z.of_nat 64) with 64 in HW. change (BUFSIZE / 4)%nat with 64%nat. destruct (existsb _ _); [by rewrite bind_unfold, HW|].
    destruct HW as (q3 & d3 & Hr3 & E3). rewrite (bind_Some _ _ _ _ _ E3).
    rewrite bind_unfold, board_ioctl by (auto; apply Hr3).
    match goal with |- context [(sys_close;; _) ?x] => destruct (board_close q3 x eq_refl Hr3) as (s' & E4) end.
    rewrite (bind_Some _ _ _ _ _ E4), ret_unfold. by exists s'.
Qed.
End Full.
End Board.

(** Nobody has the device open. *)
Definition ex_board : prog (sdev (H := unit)) :=
  Prog (SDev (KSpi 0 3 8 6500000) 0 true DS31400_CHIP false false 1 0 None true false false [0; 0; 0; 0] (Bus tt []))
    None [0; 0] 0.
Definition ex_ioctl_arg : ioctl_arg :=
  IoctlArg true None true (inl 0) 0 None true true (User (fun _ _ => true) (fun _ _ => None) (fun _ _ => true)) [] [].

(** Behind the buffers, bytes that are no valid length, and zeros, which are one. *)
Definition refused (pos : Z) (buf : list Z) : list Z := replicate 66 0xff.
Definition taken (pos : Z) (buf : list Z) : list Z := replicate 66 0.
Definition ex_dev (beyond : Z -> list Z -> list Z) : FpgaDev (sdev (H := unit)) :=
  board_dev (SpiMaster0 := NullMaster.null_master) beyond (SpiRdwr 0 0 0 []) (Some (replicate 4096 0)) ex_ioctl_arg.

Lemma eeprom_read_nothing_witness :
  (exists s', EepromRead (FpgaDev0 := ex_dev refused) BACKBOARD true 256 [1; 2; 3; 4] ex_board =
     Some ((0, Some (concat (replicate 64 [1; 2; 3; 4]))), s')) /\
  EepromRead (FpgaDev0 := ex_dev taken) BACKBOARD true 256 [1; 2; 3; 4] ex_board = None.
Proof.
  assert (forall (p : Z) (b : list Z), (66 <= length (refused p b))%nat) as H1 by (intros; vm_compute; lia).
  assert (forall (p : Z) (b : list Z), (66 <= length (taken p b))%nat) as H2 by (intros; vm_compute; lia).
  split.
  - refine (proj2 (eeprom_read_nothing (SpiMaster0 := NullMaster.null_master) refused
      (SpiRdwr 0 0 0 []) (Some (replicate 4096 0)) ex_ioctl_arg eq_refl H1
      [1; 2; 3; 4] BACKBOARD ex_board eq_refl _ _)); [by repeat split|]. split; [done|]. right. by eexists.
  - refine (proj2 (eeprom_read_nothing (SpiMaster0 := NullMaster.null_master) taken
      (SpiRdwr 0 0 0 []) (Some (replicate 4096 0)) ex_ioctl_arg eq_refl H2
      [1; 2; 3; 4] BACKBOARD ex_board eq_refl _ _)); [by repeat split|]. split; [done|]. right. by eexists.
Defined.

(** ** When accesses fail *)

Module Shaky.
(** The speed of the first fan cannot be read, the second turns. *)
#[global] Instance shaky_dev : FpgaDev unit := {|
  dev_open := mret true; dev_close := mret tt; dev_ioctl _ := mret tt;
  dev_read a n _ := mret (if a =? FAN2_SPEED_ADDR then (4, [0; 0; 0x75; 0x30]) else (-1, []));
  dev_write a n _ := mret (Z.of_nat n) |}.
Definition start : prog unit := Prog tt None [0; 0] 0.
End Shaky.

(** The failure of the first fan closes the device, and the second one is reported
    as standing still, with success. *)
Example fan_speed_lost :
  fst <$> getFanSpeed ([0; 0; 0; 0], [0; 0; 0; 0]) Shaky.start = Some (0, (0, 0)) /\
  fst <$> (sys_open;; fan_speed FAN2_SPEED_ADDR [0; 0; 0; 0]) Shaky.start = Some 500.
Proof. vm_compute. split; reflexivity. Qed.

(** ** Clock and temperature *)

(** When the clock cannot be read, the system time is set to the year 0. *)
Lemma recover_without_clock mktime fd ret t : fd < 0 \/ ret < 0 ->
  rtc_recover_systime mktime fd ret t = Some (0, mktime (RtcTime 0 0 0 0 (-1) (-1900))).
Proof.
  intros H. unfold rtc_recover_systime, rtc_get_time. destruct (Z.leb_spec 0 fd); [|done]. destruct (Z.ltb_spec ret 0); [done|lia].
Qed.

(** What was set is read. *)
Lemma rtc_set_get fd ret year month day hour minute second t : 0 <= fd -> 0 <= ret ->
  rtc_set_time fd ret year month day hour minute second = Some (0, Some t) ->
  - 2 ^ 31 <= year < 2 ^ 31 -> - 2 ^ 31 <= month < 2 ^ 31 ->
  rtc_get_time fd ret t (RtcOut true true true true true true) =
    Some (0, RtcValues (Some year) (Some month) (Some day) (Some hour) (Some minute) (Some second)).
Proof.
  intros Hf Hr H Hy Hm. unfold rtc_set_time, rtc_get_time in *. rewrite (proj2 (Z.leb_le 0 fd) Hf) in *.
  rewrite (proj2 (Z.ltb_ge ret 0) Hr) in *. unfold sint in *.
  destruct ((- 2 ^ 31 <=? month - 1) && _); [|done]. destruct ((- 2 ^ 31 <=? year - 1900) && _); [|done]. injection H as <-.
  cbn [o_day o_month o_year o_hour o_minute o_second tm_mon tm_year tm_mday tm_hour tm_min tm_sec andb negb].
  replace (month - 1 + 1) with month by lia. replace (year - 1900 + 1900) with year by lia.
  rewrite !(proj2 (Z.leb_le _ _)), !(proj2 (Z.ltb_lt _ _)) by lia. reflexivity.
Qed.

(** The comment promises tenths of a degree: 25.5 degrees, and minus 0.5. *)
Example temperatures :
  getTemperature (I2cEnv true true true true 2 0x19 0x80) = Some (255, Some 255, 0) /\
  getTemperature (I2cEnv true true true true 2 0xff 0x80) = Some (-5, Some (-5), 0).
Proof. vm_compute. split; reflexivity. Qed.
