(* ===== verification/WdtTimer.v ===== *)
(** * The watchdog on the timer wheel

    The watchdog driver of Watchdog asks for its timer by writing down a time; the
    wheel of Timer calls functions of timers when their time comes. Here the two
    run together: the timer of the driver is a timer of the wheel, next to others,
    every clock interrupt is followed by the softirq that runs the wheel, and the
    driver's function is called when the wheel calls it. The driver then behaves as
    if its function were called exactly at the times it wrote down, so that what
    WatchdogProps proves of the driver alone holds of the board. *)

From S2P Require Import Prelude Klist WdtHardware Watchdog WatchdogSpec WatchdogProps.
From S2P Require Import Timer TimerSpec TimerInv TimerProps TimerRun.

Record board := Board { dog : wdt; wheel : system }.

Definition on_dog {A} : M wdt A -> M board A := zoom dog (fun d b => Board d (wheel b)).
Definition on_wheel {A} : M system A -> M board A := zoom wheel (fun w b => Board (dog b) w).

Definition ticktock (d : wdt) : option Z := watchdog_ticktock (vars d).

Section Board.
Context (head : Z) (t : tid) (other : tid -> M system unit).

(** [watchdog_fire], whose [mod_timer] is the one of the wheel. *)
Definition fire : M board unit :=
  on_dog (Watchdog.handle head EvFire);;
  e ← on_dog (gets ticktock);
  match e with
  | Some e => _ ← on_wheel (mod_timer t e 0 None); mret tt
  | None => mret tt
  end.

Definition function_of (u : tid) : M board unit :=
  if bool_decide (u = t) then fire else on_wheel (other u).

(** [__run_timers] on the processor the watchdog's timer is on. *)
Fixpoint run_timers (steps : nat) : M board unit :=
  match steps with
  | O => mret tt
  | S steps =>
      b ← on_wheel (per_cpu 0);
      on_wheel (run_step 0);;
      match work_list b with
      | None => mret tt
      | Some (u :: _) => function_of u;; run_timers steps
      | Some [] => run_timers steps
      end
  end.

(** The clock interrupt, and the softirq after it. *)
Definition clock (steps : nat) : M board unit :=
  on_wheel do_timer;;
  on_dog (Watchdog.handle head Watchdog.EvTick);;
  on_wheel (run_timer_softirq 0);;
  run_timers steps.

(** What happens on the board: a call of a process, or a tick of the clock. *)
Inductive bevent := Call (ev : Watchdog.event) | Clock.

Definition is_call (ev : bevent) : bool :=
  match ev with Call EvFire | Call Watchdog.EvTick => false | _ => true end.

Definition board_step (steps : nat) (ev : bevent) : M board unit :=
  match ev with
  | Call ev => _ ← on_dog (Watchdog.handle head ev); mret tt
  | Clock => clock steps
  end.

Fixpoint board_run (steps : nat) (evs : list bevent) : M board unit :=
  match evs with
  | [] => mret tt
  | ev :: evs => board_step steps ev;; board_run steps evs
  end.

(** The driver with a perfect timer: its function is called when the clock shows
    the time it wrote down. *)
Definition perfect_step (ev : bevent) : M wdt unit :=
  match ev with
  | Call ev => _ ← Watchdog.handle head ev; mret tt
  | Clock =>
      Watchdog.handle head Watchdog.EvTick;;
      d ← get;
      if bool_decide (ticktock d = Some (Watchdog.jiffies (vars d)))
      then _ ← Watchdog.handle head EvFire; mret tt else mret tt
  end.

Fixpoint perfect_run (evs : list bevent) : M wdt unit :=
  match evs with
  | [] => mret tt
  | ev :: evs => perfect_step ev;; perfect_run evs
  end.

(** ** The two agree *)

(** The timer in the wheel is the one the driver wrote down; [None]: not pending. *)
Definition timer_is (o : option Z) (s : system) : Prop :=
  exists x, timers s !! t = Some x /\ base x = 0%nat /\ function x <> 0 /\ slack x < 0 /\
    pending x = bool_decide (is_Some o) /\ forall e, o = Some e -> expires x = e.

Record tied (b : board) : Prop := {
  td_wf : TimerProps.wf (wheel b);
  td_clock : Watchdog.jiffies (vars (dog b)) = jiffies (wheel b);
  td_period : timer_period (vars (dog b)) = TRIGGER_PERIOD;
  td_base : exists w, bases (wheel b) !! 0%nat = Some w /\ work_list w = None /\
    timer_jiffies w = u32 (jiffies (wheel b) + 1);
  td_timer : timer_is (ticktock (dog b)) (wheel b);
  td_ahead : forall e, ticktock (dog b) = Some e -> 0 < s32 (e - jiffies (wheel b))
}.

(** ** The wheel, seen from the watchdog's timer *)

(** Events of other drivers: they name other timers only. *)
Definition foreign (ev : Timer.event) : bool :=
  api ev && negb (touches t ev) &&
  match ev with EvSetSlack u _ => negb (bool_decide (u = t)) | _ => true end.

Section Foreign.
Context (v : option timer_list).
Let P (s : system) : Prop := timers s !! t = v.

Lemma other_on_timer u f : u <> t -> preserves P (on_timer u f).
Proof. intros Hu. apply preserves_modify. intros s Hs. unfold P in *. cbn. by rewrite lookup_alter_ne. Qed.
Lemma other_on_base c f : preserves P (on_base c f).
Proof. by apply preserves_modify. Qed.
Lemma other_timer u : preserves P (timer u).
Proof. unfold timer. preserve. Qed.
Lemma other_per_cpu c : preserves P (per_cpu c).
Proof. unfold per_cpu. preserve. Qed.
Lemma other_bug b : preserves P (BUG_ON b).
Proof. unfold BUG_ON. preserve. Qed.

#[local] Hint Resolve other_on_timer other_on_base other_timer other_per_cpu other_bug : board.

Lemma other_arm u e po pin cpu mg : u <> t -> preserves P (__mod_timer u e po pin cpu mg).
Proof. intros Hu. unfold __mod_timer, forget_next, note_next, internal_add_timer, detach_timer. preserve. Qed.
Lemma other_del u : u <> t -> preserves P (del_timer u).
Proof. intros Hu. unfold del_timer, forget_next, detach_timer. preserve. Qed.
Lemma other_init u cpu e fn d defer : u <> t -> preserves P (init_timer u cpu e fn d defer).
Proof.
  intros Hu s a s' Hs H. unfold init_timer in H. apply bind_inv in H as (s0 & s1 & [= <- <-] & H).
  apply bind_inv in H as ([] & s2 & H2 & H). apply bind_inv in H as (b & s3 & H3 & H). injection H as _ <-.
  unfold P in *. cbn. by rewrite lookup_insert_ne.
Qed.

#[local] Hint Resolve other_arm other_del : board.

Lemma foreign_timer ev : foreign ev = true -> preserves P (Timer.handle ev).
Proof.
  unfold foreign. intros [[Ha Ht]%andb_true_iff Hs]%andb_true_iff. apply negb_true_iff in Ht.
  destruct ev; try done; cbn [touches] in Ht; try apply bool_decide_eq_false in Ht;
    try (apply negb_true_iff, bool_decide_eq_false in Hs); cbn [Timer.handle];
    [apply preserves_bind; [by apply other_init | intros; apply preserves_ret] | ..];
    unfold add_timer, add_timer_on, mod_timer, mod_timer_pending, mod_timer_pinned,
      try_to_del_timer_sync, note_next, internal_add_timer; preserve.
Qed.
End Foreign.

Lemma foreign_view ev s r s' : TimerProps.wf s -> foreign ev = true -> Timer.handle ev s = Some (r, s') ->
  view t 0 (abs s') = view t 0 (abs s).
Proof.
  unfold foreign. intros Hwf [[Ha Ht]%andb_true_iff _]%andb_true_iff H. apply negb_true_iff in Ht.
  pose proof (handle_sim s ev Hwf) as Hs. rewrite H in Hs. destruct Hs as [Hs _].
  pose proof (view_event t 0 (view t 0 (abs s)) (pick_of ev s) ev Ht) as Hv.
  destruct ev; try done; by eapply Hv.
Qed.

Lemma foreign_events evs : forall s s', forallb foreign evs = true -> TimerProps.wf s ->
  run_events evs s = Some s' -> timers s' !! t = timers s !! t /\ view t 0 (abs s') = view t 0 (abs s).
Proof.
  induction evs as [|ev evs IH]; intros s s' Hf Hwf H; cbn in *; [by simplify_eq|].
  apply andb_true_iff in Hf as [Hf Hfs]. destruct (Timer.handle ev s) as [[r s1]|] eqn:E; [|done].
  pose proof (handle_sim s ev Hwf) as Hs. rewrite E in Hs. destruct Hs as [_ Hwf1].
  destruct (IH s1 s' Hfs Hwf1 H) as [-> ->]. split; [|by eapply foreign_view].
  by eapply (foreign_timer (timers s !! t) ev Hf).
Qed.

Lemma foreign_api evs : forallb foreign evs = true -> forallb api evs = true.
Proof.
  induction evs as [|ev evs IH]; cbn; [done|]. unfold foreign at 1.
  intros [[[-> _]%andb_true_iff _]%andb_true_iff H]%andb_true_iff. cbn. auto.
Qed.

(** Calling the function of a timer: the timer is no longer pending. *)
Lemma run_timer_ok s b u w : TimerProps.wf s -> bases s !! 0%nat = Some b -> work_list b = Some (u :: w) ->
  exists s1, run_step 0 s = Some (tt, s1) /\ run_timer 0 u s = Some (tt, s1) /\ TimerProps.wf s1 /\
    timers s1 = alter (set_pending false) u (timers s) /\ s_run_timer 0 u (abs s) = Some (tt, abs s1).
Proof.
  intros Hwf Hb Hw. pose proof (run_step_run 0 s b _ Hb eq_refl) as Hr. rewrite Hw in Hr.
  destruct (b_owner _ _ _ (i_bases _ _ (proj1 Hwf) _ b Hb) u) as (x & Hx & _ & Hc).
  { apply elem_of_app; right; rewrite Hw; left. }
  pose proof (handle_sim s (EvRun 0) Hwf) as H. cbn [Timer.handle pick_of s_handle] in H.
  rewrite bind_unfold, Hr in H.
  assert (exists s1, run_timer 0 u s = Some (tt, s1) /\ timers s1 = alter (set_pending false) u (timers s)) as (s1 & E & Et).
  { unfold run_timer, detach_timer. rewrite bind_unfold, (timer_run u x), bind_unfold, (on_base_run _ _ b) by done.
    rewrite !bind_unfold, (timer_run u x) by done. by eexists. }
  rewrite E, ret_unfold in H. destruct H as [H Hwf1]. exists s1. rewrite Hr. split_and!; try done.
  unfold next_timer_of in H. rewrite Hb, Hw, bind_unfold in H. unfold s_run_step, s_cpu in H.
  rewrite bind_unfold, bind_unfold, get_run in H. cbn [abs s_bases] in H. rewrite list_lookup_fmap, Hb in H.
  cbn [fmap option_fmap option_map] in H. rewrite lift_opt_run, bind_unfold, gets_run in H.
  unfold abs_base in H at 1. cbn [s_work] in H. rewrite Hw in H. cbn [fmap option_fmap option_map] in H.
  rewrite bool_decide_eq_true_2 in H by set_solver.
  destruct (s_run_timer 0 u _) as [[[] q]|]; [|done]. rewrite ret_unfold in H. by injection H as ->.
Qed.

Lemma apply_slack_near now x e : slack x < 0 -> is_u32 e -> 0 < s32 (e - now) < 256 -> apply_slack now x e = e.
Proof.
  intros Hs He Hd. assert (expires_limit now x e = e) as E.
  { unfold expires_limit. rewrite (proj2 (Z.leb_gt 0 (slack x))) by lia. destruct (time_after e now); [|done].
    assert (u32 (e - now) = s32 (e - now)) as ->.
    { unfold u32, s32 in *. symmetry. apply (Z.mod_unique _ _ ((e - now + 2 ^ 31) / 2 ^ 32)); [lia|].
      pose proof (Z.div_mod (e - now + 2 ^ 31) (2 ^ 32)). lia. }
    rewrite Z.div_small, Z.add_0_r by lia. by apply u32_small. }
  unfold apply_slack. by rewrite E, Z.lxor_nilpotent.
Qed.

Lemma timer_at q x : s_timers q !! t = Some x -> s_timer t q = Some (x, q).
Proof. intros Hx. unfold s_timer. by rewrite bind_unfold, get_run, Hx. Qed.
Lemma cpu_at q b : s_bases q !! 0%nat = Some b -> s_cpu 0 q = Some (b, q).
Proof. intros Hb. unfold s_cpu. by rewrite bind_unfold, get_run, Hb. Qed.

(** Whether the timer is on the list of the tick being run. *)
Definition workv (q : ssystem) : option bool := snd <$> snd (view t 0 q).

Lemma s_add_ok q x b : s_timers q !! t = Some x -> s_bases q !! 0%nat = Some b ->
  exists q', s_add 0 t q = Some (tt, q') /\ s_timers q' !! t = Some (set_pending true x) /\ workv q' = workv q.
Proof.
  intros Hx Hb. unfold s_add. rewrite bind_unfold, (cpu_at q b), bind_unfold, (timer_at q x) by done.
  eexists. split; [reflexivity|]. cbn. rewrite lookup_alter_eq, Hx. split; [done|].
  unfold workv, view; cbn. rewrite list_lookup_alter_eq, Hb. done.
Qed.

Lemma s_arm_ok q x b e : s_timers q !! t = Some x -> s_bases q !! 0%nat = Some b -> base x = 0%nat ->
  function x <> 0 -> pending x = false -> apply_slack (s_now q) x e = e ->
  exists q', s_mod_timer t e 0 None q = Some (0, q') /\
    s_timers q' !! t = Some (set_pending true (set_expires e x)) /\ workv q' = workv q.
Proof.
  intros Hx Hb Hc Hf Hp Ha. unfold s_mod_timer, s_arm. rewrite bind_unfold, (timer_at q x), Hp by done. cbn [andb].
  rewrite bind_unfold, gets_run, Ha. rewrite bind_unfold, (timer_at q x), (proj2 (Z.eqb_neq (function x) 0)) by done.
  cbn [s_bug]. rewrite bind_unfold, ret_unfold, bind_unfold, Hc, (cpu_at q b), Hp by done.
  cbn [negb andb]. rewrite bind_unfold, ret_unfold, bind_unfold, bool_decide_eq_true_2 by done.
  cbn [negb andb]. rewrite ret_unfold, bind_unfold. unfold s_on_timer at 1. rewrite modify_run.
  set (q1 := SSystem _ _ _ _). assert (s_timers q1 !! t = Some (set_expires e x)) as Hx1.
  { cbn. by rewrite lookup_alter_eq, Hx. }
  rewrite bind_unfold, (timer_at q1 _ Hx1). change (base (set_expires e x)) with (base x). rewrite Hc.
  rewrite bind_unfold. unfold s_note_next. rewrite bind_unfold, (cpu_at q1 b Hb).
  assert (exists q2, (if time_before (expires (set_expires e x)) (s_next b) && negb (deferrable (set_expires e x))
     then s_on_base 0 (s_set_next (expires (set_expires e x))) else mret tt) q1 = Some (tt, q2) /\
    s_timers q2 = s_timers q1 /\ (exists b2, s_bases q2 !! 0%nat = Some b2) /\ workv q2 = workv q) as (q2 & -> & Ht2 & [b2 Hb2] & Hw2).
  { destruct (_ && _); eexists; (split; [reflexivity|]); (split; [done|]); unfold workv, view, q1; cbn.
    - rewrite list_lookup_alter_eq, Hb. cbn. eauto.
    - rewrite Hb. eauto. }
  rewrite <- Ht2 in Hx1. destruct (s_add_ok q2 _ b2 Hx1 Hb2) as (q3 & E & Hx3 & Hw3).
  rewrite bind_unfold, E, ret_unfold. exists q3. by rewrite Hw3.
Qed.

Lemma arm_ok s x b e : TimerProps.wf s -> timers s !! t = Some x -> bases s !! 0%nat = Some b -> base x = 0%nat ->
  function x <> 0 -> slack x < 0 -> pending x = false -> is_u32 e -> 0 < s32 (e - jiffies s) < 256 ->
  exists s', mod_timer t e 0 None s = Some (0, s') /\ TimerProps.wf s' /\
    timers s' !! t = Some (set_pending true (set_expires e x)) /\ workv (abs s') = workv (abs s).
Proof.
  intros Hwf Hx Hb Hc Hf Hs Hp He Hd. pose proof (handle_sim s (EvMod t e 0 None) Hwf) as H. cbn [Timer.handle s_handle] in H.
  rewrite u32_small in H by done.
  destruct (s_arm_ok (abs s) x (abs_base b) e) as (q & E & Hx' & Hw'); try done.
  { cbn. by rewrite list_lookup_fmap, Hb. } { by apply apply_slack_near. }
  rewrite E in H. destruct (mod_timer t e 0 None s) as [[r s']|]; [|done]. destruct H as [[= <- ->] Hwf'].
  exists s'. by split_and!.
Qed.

(** ** The driver's own variables *)

Lemma serve_loop_vars fuel : forall ptr p f d r, serve_loop head fuel ptr p f d = Some r -> vars (snd r) = vars d.
Proof.
  induction fuel as [|fuel IH]; intros ptr p f d r; cbn [serve_loop]; destruct (ptr =? head); try done; [by intros [= <-]..|].
  destruct (tasks d !! ptr) as [x|]; [|done]. destruct (links d !! ptr) as [n|]; [|done]. cbn [mbind option_bind].
  destruct (pid x =? p); intros H%IH; by rewrite H.
Qed.

Lemma serve_all_loop_vars fuel : forall ptr d d', serve_all_loop head fuel ptr d = Some d' -> vars d' = vars d.
Proof.
  induction fuel as [|fuel IH]; intros ptr d d'; cbn [serve_all_loop]; destruct (ptr =? head); try done; [by intros [= <-]..|].
  destruct (tasks d !! ptr) as [x|]; [|done]. destruct (links d !! ptr) as [n|]; [|done]. cbn [mbind option_bind].
  intros H%IH. by rewrite H.
Qed.

Lemma unregister_loop_vars fuel : forall ptr p d r, unregister_loop head fuel ptr p d = Some r -> vars (snd r) = vars d.
Proof.
  induction fuel as [|fuel IH]; intros ptr p d r; cbn [unregister_loop]; destruct (_ || _); try done; [by intros [= <-]..|].
  destruct (tasks d !! ptr) as [x|]; [|done]. cbn [mbind option_bind]. destruct (pid x =? p).
  - destruct (Klist.list_del ptr (links d)); [|done]. by intros [= <-].
  - destruct (links d !! ptr) as [n|]; [|done]. apply IH.
Qed.

Section Keep.
Context (P : ctl -> Prop).
Let K (d : wdt) : Prop := P (vars d).

Lemma keep_upd f : (forall c, P c -> P (f c)) -> preserves K (upd f).
Proof. intros Hf. apply preserves_modify. intros d Hd. by apply Hf. Qed.

(** An operation on the task list. *)
Lemma keep_list {X A} (m : Z -> wdt -> option X) (g : X -> wdt) (h : X -> A) :
  (forall p d x, m p d = Some x -> vars (g x) = vars d) ->
  preserves K (d ← get; ptr ← lift_opt (first head d); x ← lift_opt (m ptr d); put (g x);; mret (h x)).
Proof.
  intros Hm d a d' Hd H. apply bind_inv in H as (d0 & d1 & [= <- <-] & H). apply bind_inv in H as (ptr & d2 & H2 & H).
  unfold lift_opt in H2. destruct (first head d); [|done]. injection H2 as <- <-.
  apply bind_inv in H as (x & d3 & H3 & H). unfold lift_opt in H3. destruct (m _ d) as [y|] eqn:E; [|done]. injection H3 as <- <-.
  injection H as _ <-. unfold K in *. by rewrite (Hm _ d y E).
Qed.

Lemma keep_serve p : preserves K (wdt_serve_task head p).
Proof. apply (keep_list (fun ptr d => serve_loop head (size (links d)) ptr p false d) snd). intros q d x. apply serve_loop_vars. Qed.
Lemma keep_serve_all : preserves K (serve_all_tasks head).
Proof. apply (keep_list (fun ptr d => serve_all_loop head (size (links d)) ptr d) id). intros q d x. apply serve_all_loop_vars. Qed.
Lemma keep_unregister p : preserves K (wdt_unregister_task head p).
Proof. apply (keep_list (fun ptr d => unregister_loop head (size (links d)) ptr p d) snd). intros q d x. apply unregister_loop_vars. Qed.

Lemma keep_register mem x : preserves K (wdt_register_task head mem x).
Proof.
  unfold wdt_register_task, wdt_task_already_registered. apply preserves_bind; [preserve|]. intros r.
  destruct (truth r); [preserve|]. destruct (mem =? 0); [preserve|].
  intros d a d' Hd H. apply bind_inv in H as (d0 & d1 & [= <- <-] & H).
  apply bind_inv in H as (h1 & d2 & H2 & H). unfold lift_opt in H2. destruct (INIT_LIST_HEAD _ _); [|done]. injection H2 as <- <-.
  apply bind_inv in H as (h2 & d3 & H3 & H). unfold lift_opt in H3. destruct (list_add _ _ _); [|done]. injection H3 as <- <-.
  by injection H as _ <-.
Qed.

Lemma keep_hardware {A} (m : M hw A) : preserves K (on_hardware m).
Proof. intros d a d' Hd H. unfold on_hardware, zoom in H. destruct (m _) as [[b h]|]; [|done]. by injection H as _ <-. Qed.
Lemma keep_var {A} (f : ctl -> A) : preserves K (var f).
Proof. apply preserves_gets. Qed.

#[local] Hint Resolve keep_serve keep_serve_all keep_unregister keep_register keep_hardware keep_var : board.

Lemma keep_check : preserves K (check_registered_tasks head).
Proof. unfold check_registered_tasks. preserve. Qed.
End Keep.

Definition timing (c : ctl) : Z * Z * option Z := (Watchdog.jiffies c, timer_period c, watchdog_ticktock c).

(** A call of a process does not change the clock or the timer. *)
Lemma call_timing v ev : is_call (Call ev) = true -> preserves (fun d => timing (vars d) = v) (Watchdog.handle head ev).
Proof.
  intros Hc. set (P := fun c => timing c = v). pose proof (keep_serve P). pose proof (keep_serve_all P).
  pose proof (keep_unregister P). pose proof (keep_register P). pose proof (@keep_var P).
  destruct ev; try done; cbn [Watchdog.handle];
    unfold softdog_open, softdog_release, softdog_read, softdog_write, softdog_ioctl; preserve; by apply (keep_upd P).
Qed.

(** The function of the timer leaves it stopped, or set one period ahead. *)
Lemma fire_timing d r d' : Watchdog.handle head EvFire d = Some (r, d') ->
  let j := Watchdog.jiffies (vars d) in let p := timer_period (vars d) in
  Watchdog.jiffies (vars d') = j /\ timer_period (vars d') = p /\ (ticktock d' = None \/ ticktock d' = Some (u32 (j + p))).
Proof.
  intros H j p. set (P := fun c => Watchdog.jiffies c = j /\ timer_period c = p /\
    (watchdog_ticktock c = None \/ watchdog_ticktock c = Some (u32 (j + p)))). change (P (vars d')).
  cbn [Watchdog.handle] in H. apply bind_inv in H as ([] & d1 & [= <-] & H). apply bind_inv in H as ([] & d2 & H & H2).
  rewrite ret_unfold in H2. injection H2 as _ <-. unfold watchdog_fire in H.
  apply bind_inv in H as (c & d3 & [= <- <-] & H). apply bind_inv in H as ([] & d4 & H4 & H).
  assert (P (vars d4)) as P4.
  { revert H4. destruct (_ && _); intros [= <-]; unfold P; cbn; auto. }
  apply bind_inv in H as (c & d5 & [= <- <-] & H). generalize dependent d2. intros d2. revert P4.
  pose proof (@keep_hardware P). pose proof (keep_check P).
  assert (forall c, P c -> preserves (fun d => P (vars d)) (if (0 <? timer_count c) || negb (truth (enabled c)) then
    (if negb (truth (do_hard_reset c)) then on_hardware serve_watchdog_hw;; mret tt else mret tt);;
    Watchdog.mod_timer (Watchdog.jiffies c + timer_period c);;
    if negb (truth (enabled c)) then mret tt
    else if truth (timeout_open_only c) && negb (truth (device_open c)) then mret tt
    else r ← check_registered_tasks head; if r =? 0 then upd (set_timer_count (TIMEOUT_VALUE * HZ)) else count_down
    else mret tt)) as HP.
  { intros c (Hj & Hp & _). preserve; apply (keep_upd P).
    - rewrite Hj, Hp. intros x (? & ? & _). unfold P. cbn. auto.
    - done.
    - intros x Hx. destruct (timer_period x <? timer_count x); exact Hx. }
  intros P4 H2. exact (HP (vars d4) P4 d4 tt d2 P4 H2).
Qed.

(** ** One tick of the clock *)

Lemma on_wheel_run {A} (m : M system A) d s a s' : m s = Some (a, s') -> on_wheel m (Board d s) = Some (a, Board d s').
Proof. intros H. unfold on_wheel, zoom. cbn. by rewrite H. Qed.
Lemma on_dog_run {A} (m : M wdt A) d s a d' : m d = Some (a, d') -> on_dog m (Board d s) = Some (a, Board d' s).
Proof. intros H. unfold on_dog, zoom. cbn. by rewrite H. Qed.

Section Loop.
Context (now : Z).

(** In the softirq of tick [now], with at most [m] timers left to call; [due]: the
    watchdog's is one of them. *)
Definition at_work (due : bool) (m : nat) (d : wdt) (s : system) : Prop :=
  TimerProps.wf s /\ running_tick 0 (u32 (now + 1)) now m s /\ timer_is (ticktock d) s /\
  workv (abs s) = Some due /\ Watchdog.jiffies (vars d) = now /\ timer_period (vars d) = TRIGGER_PERIOD /\
  (due = false -> forall e, ticktock d = Some e -> 0 < s32 (e - now)).

Definition ends_with (d' : wdt) (b : board) : Prop :=
  exists n b', tied b' /\ dog b' = d' /\ forall steps, (n <= steps)%nat -> run_timers steps b = Some (tt, b').

Lemma ends_call d' d s b u w s1 b2 : bases s !! 0%nat = Some b -> work_list b = Some (u :: w) ->
  run_step 0 s = Some (tt, s1) -> function_of u (Board d s1) = Some (tt, b2) -> ends_with d' b2 -> ends_with d' (Board d s).
Proof.
  intros Hb Hw Hr Hf (n & b' & Ht & Hd & Hs). exists (S n), b'. split; [done|]. split; [done|].
  intros [|steps] Hle; [lia|]. cbn [run_timers].
  rewrite bind_unfold, (on_wheel_run _ _ _ _ _ (per_cpu_run 0 b s Hb)), bind_unfold, (on_wheel_run _ _ _ _ _ Hr), Hw, bind_unfold, Hf.
  apply Hs. lia.
Qed.

Lemma ends_empty d' d s b s1 : bases s !! 0%nat = Some b -> work_list b = Some [] ->
  run_step 0 s = Some (tt, s1) -> ends_with d' (Board d s1) -> ends_with d' (Board d s).
Proof.
  intros Hb Hw Hr (n & b' & Ht & Hd & Hs). exists (S n), b'. split; [done|]. split; [done|].
  intros [|steps] Hle; [lia|]. cbn [run_timers].
  rewrite bind_unfold, (on_wheel_run _ _ _ _ _ (per_cpu_run 0 b s Hb)), bind_unfold, (on_wheel_run _ _ _ _ _ Hr), Hw.
  apply Hs. lia.
Qed.

Lemma workv_at s b : bases s !! 0%nat = Some b -> workv (abs s) = Some (bool_decide (t ∈ default [] (work_list b))).
Proof.
  intros Hb. unfold workv, view. cbn. rewrite list_lookup_fmap, Hb. cbn. f_equal. apply bool_decide_ext.
  destruct (work_list b); cbn; set_solver.
Qed.

(** Nothing left to do: the softirq ends. *)
Lemma work_finished d s : is_u32 now -> at_work false 0 d s -> ends_with d (Board d s).
Proof.
  intros Hn (Hwf & (Hj & b & w & Hb & Hbj & Hw & Hl) & Hx & _ & Hd & Hp & Ha). destruct w; [|cbn in Hl; lia].
  set (b' := set_work_list None (set_running_timer None b)). set (s1 := set_base 0 b' s).
  assert (run_step 0 s = Some (tt, s1)) as Hr.
  { rewrite (run_step_run 0 s b now Hb Hj), Hw, Hbj, time_after_eq_delta by (done || apply u32_range).
    replace (delta (u32 (now + 1)) now) with (2 ^ 32 - 1); [done|]. unfold delta, u32. rewrite Zminus_mod_idemp_r.
    by replace (now - (now + 1)) with (-1) by lia. }
  assert (bases s1 !! 0%nat = Some b') as Hb1 by (by eapply set_base_lookup).
  apply (ends_empty d d s b s1); [done..|]. exists 1%nat, (Board d s1). split; [|split; [done|]].
  - split; cbn; try done; [by eapply step_wf | congruence | exists b'; rewrite Hj; by destruct b | rewrite Hj; auto].
  - intros [|steps] Hle; [lia|]. cbn [run_timers].
    rewrite bind_unfold, (on_wheel_run _ _ _ _ _ (per_cpu_run 0 b' s1 Hb1)), bind_unfold.
    rewrite (on_wheel_run _ _ _ _ _ (run_step_run 0 s1 b' now Hb1 Hj)). done.
Qed.

(** The functions of the other timers use the timer operations on other timers,
    and do not crash. *)
Hypothesis others : forall u s, u <> t -> TimerProps.wf s -> exists evs s',
  forallb foreign evs = true /\ run_events evs s = Some s' /\ other u s = Some (tt, s').

Lemma call_other due m d s b u w : at_work due (S m) d s -> bases s !! 0%nat = Some b -> work_list b = Some (u :: w) -> u <> t ->
  exists s1 s2, run_step 0 s = Some (tt, s1) /\ function_of u (Board d s1) = Some (tt, Board d s2) /\ at_work due m d s2.
Proof.
  intros (Hwf & (Hj & b0 & w0 & Hb0 & Hbj & Hw0 & Hl) & (x & Hx & Hxs) & Hk & Hd) Hb Hw Hu.
  rewrite Hb in Hb0. injection Hb0 as <-. rewrite Hw in Hw0. injection Hw0 as <-. cbn in Hl.
  destruct (run_timer_ok s b u w Hwf Hb Hw) as (s1 & Hr & Hr' & Hwf1 & Ht1 & Hs1).
  pose proof (run_timer_progress 0 _ _ m s tt s1 b u w Hb Hwf Hw Hbj Hj ltac:(lia) Hr') as Hrt1.
  destruct (others u s1 Hu Hwf1) as (evs & s2 & Hf & He & Ho). destruct (foreign_events evs s1 s2 Hf Hwf1 He) as [Ht2 Hv2].
  pose proof (view_run_timer t 0 (view t 0 (abs s)) 0 u Hu (abs s) tt (abs s1) eq_refl Hs1) as Hv1.
  exists s1, s2. split; [done|]. split.
  { unfold function_of. rewrite bool_decide_eq_false_2 by done. by apply on_wheel_run. }
  split; [by eapply run_events_wf|]. split; [eapply progress_events; [by apply foreign_api|done|done]|].
  split; [exists x; by rewrite Ht2, Ht1, lookup_alter_ne|]. split; [|done]. unfold workv. by rewrite Hv2, Hv1.
Qed.

Lemma period_ahead e : is_u32 now -> e = u32 (now + TRIGGER_PERIOD) -> is_u32 e /\ 0 < s32 (e - now) < 256.
Proof.
  intros Hn ->. split; [apply u32_range|]. assert (s32 (u32 (now + TRIGGER_PERIOD) - now) = TRIGGER_PERIOD) as ->; [|done].
  apply (s32_congr _ _ (- ((now + TRIGGER_PERIOD) / 2 ^ 32))); [|done]. unfold u32.
  pose proof (Z.div_mod (now + TRIGGER_PERIOD) (2 ^ 32)). lia.
Qed.

Lemma call_dog m d s b w r d' : is_u32 now -> at_work true (S m) d s -> bases s !! 0%nat = Some b -> work_list b = Some (t :: w) ->
  Watchdog.handle head EvFire d = Some (r, d') ->
  exists s1 s2, run_step 0 s = Some (tt, s1) /\ function_of t (Board d s1) = Some (tt, Board d' s2) /\ at_work false m d' s2.
Proof.
  intros Hn (Hwf & (Hj & b0 & w0 & Hb0 & Hbj & Hw0 & Hl) & (x & Hx & Hxb & Hxf & Hxs & _) & Hk & Hdj & Hdp & _) Hb Hw Hfire.
  rewrite Hb in Hb0. injection Hb0 as <-. rewrite Hw in Hw0. injection Hw0 as <-. cbn in Hl. destruct (fire_timing d r d' Hfire) as (Hj' & Hp' & Htt). cbn zeta in Htt. rewrite Hdj, Hdp in Htt.
  destruct (run_timer_ok s b t w Hwf Hb Hw) as (s1 & Hr & Hr' & Hwf1 & Ht1 & Hs1).
  pose proof (run_timer_progress 0 _ _ m s tt s1 b t w Hb Hwf Hw Hbj Hj ltac:(lia) Hr') as Hrt1.
  pose proof (view_run t 0 (abs s) tt (abs s1) x (abs_base b) Hx Hxb) as Hv1.
  assert (timers s1 !! t = Some (set_pending false x)) as Hx1 by (by rewrite Ht1, lookup_alter_eq, Hx).
  assert (workv (abs s1) = Some false) as Hk1.
  { unfold workv. rewrite Hv1; [done| |done]. cbn. by rewrite list_lookup_fmap, Hb. }
  unfold function_of. rewrite bool_decide_eq_true_2 by done. unfold fire.
  exists s1. rewrite bind_unfold, (on_dog_run _ _ _ _ _ Hfire), bind_unfold, (on_dog_run (gets ticktock) d' s1 (ticktock d') d' eq_refl).
  destruct Htt as [Htt|Htt]; rewrite Htt.
  - exists s1. rewrite ret_unfold. do 2 (split; [done|]). split; [done|]. split; [done|].
    split; [by exists (set_pending false x); rewrite Htt|]. rewrite Htt. split_and!; congruence.
  - destruct (period_ahead _ Hn eq_refl) as [He Hd]. destruct Hrt1 as (Hj1 & b1 & w1 & Hb1 & Hrt1).
    destruct (arm_ok s1 (set_pending false x) b1 (u32 (now + TRIGGER_PERIOD))) as (s2 & E & Hwf2 & Hx2 & Hk2);
      [done|done|done|done|done|done|done|done|by rewrite Hj1|].
    exists s2. rewrite bind_unfold, (on_wheel_run _ _ _ _ _ E), ret_unfold. do 2 (split; [done|]). split; [done|]. split.
    + eapply (progress_api 0 _ _ m (EvMod t (u32 (now + TRIGGER_PERIOD)) 0 None)); [done| |cbn [Timer.handle]; rewrite u32_small by done; exact E].
      split; [done|]. by exists b1, w1.
    + split; [by eexists; split; [exact Hx2|]; rewrite Htt; split_and!; try done; intros e [= <-]|].
      rewrite Hk2, Hk1. split_and!; [done|congruence|congruence|]. intros _ e. rewrite Htt. intros [= <-]. lia.
Qed.

Lemma loop_ends m : forall due d s d', is_u32 now -> at_work due m d s ->
  (if due : bool then exists r, Watchdog.handle head EvFire d = Some (r, d') else d' = d) -> ends_with d' (Board d s).
Proof.
  induction m as [|m IH]; intros due d s d' Hn Ha Hf;
    pose proof Ha as (Hwf & (Hj & b & w & Hb & Hbj & Hw & Hl) & Hx & Hk & Hd);
    pose proof (workv_at s b Hb) as Hk'; rewrite Hw, Hk in Hk'; (destruct w as [|u w]; [|cbn in Hl; try lia]).
  1,2: rewrite bool_decide_eq_false_2 in Hk' by set_solver; apply (inj Some) in Hk'; subst due d'; apply work_finished; [done|].
  1,2: destruct Ha as (A1 & A2 & A3); split; [done|]; split; [|done]; split; [done|]; by exists b, [].
  destruct (decide (u = t)) as [->|Hu].
  - rewrite bool_decide_eq_true_2 in Hk' by set_solver. apply (inj Some) in Hk'. subst due.
    destruct Hf as [r Hf]. destruct (call_dog m d s b w r d' Hn Ha Hb Hw Hf) as (s1 & s2 & Hr & Hfn & Ha').
    apply (ends_call d' d s b t w s1 (Board d' s2)); [done..|]. by apply (IH false).
  - destruct (call_other due m d s b u w Ha Hb Hw Hu) as (s1 & s2 & Hr & Hfn & Ha').
    apply (ends_call d' d s b u w s1 (Board d s2)); [done..|]. by apply (IH due).
Qed.
End Loop.

(** Whether the time is reached is what the signed difference says. *)
Lemma reached j e : is_u32 j -> is_u32 e -> 0 < s32 (e - j) ->
  0 <= s32 (e - u32 (j + 1)) /\ (s32 (e - u32 (j + 1)) <=? 0) = bool_decide (e = u32 (j + 1)).
Proof.
  intros Hj He Hd. pose proof (u32_range (j + 1)) as Hj1. rewrite (s32_delta _ _ Hj He) in Hd. rewrite (s32_delta _ _ Hj1 He).
  pose proof (delta_range j e). pose proof (delta_zero _ _ Hj1 He) as Hz. destruct (Z.ltb_spec (delta j e) (2 ^ 31)); [|lia].
  rewrite delta_next in * by (done || lia). rewrite (proj2 (Z.ltb_lt (delta j e - 1) (2 ^ 31))) by lia. split; [lia|].
  destruct (decide (e = u32 (j + 1))) as [Heq|Hne].
  - rewrite bool_decide_eq_true_2 by done. apply Z.leb_le. apply Hz in Heq. lia.
  - rewrite bool_decide_eq_false_2 by done. apply Z.leb_gt. assert (delta j e - 1 <> 0) by (intros E; apply Hne, Hz, E). lia.
Qed.

(** The tick takes the watchdog's timer if its time is reached. *)
Lemma tick_takes s b o j : TimerProps.wf s -> bases s !! 0%nat = Some b -> work_list b = Some [] -> is_u32 j ->
  jiffies s = u32 (j + 1) -> timer_jiffies b = u32 (j + 1) -> timer_is o s -> (forall e, o = Some e -> 0 < s32 (e - j)) ->
  exists b', run_step 0 s = Some (tt, set_base 0 b' s) /\ timer_jiffies b' = u32 (u32 (j + 1) + 1) /\
    (exists w, work_list b' = Some w) /\ bool_decide (t ∈ default [] (work_list b')) = bool_decide (o = Some (u32 (j + 1))).
Proof.
  intros Hwf Hb Hw Hj Hjs Hbj (x & Hx & Hxb & _ & _ & Hxp & Hxe) Ha. pose proof (i_bases _ _ (proj1 Hwf) _ _ Hb) as Hok.
  destruct (run_tick_run s 0 b) as (b' & Hr & _ & _ & Hab); [|done..|].
  { intros u y Hy. by apply (i_timers _ _ (proj1 Hwf) u y). }
  exists b'. split.
  { rewrite (run_step_run 0 s b _ Hb eq_refl), Hw, Hjs, Hbj, time_after_eq_delta by apply u32_range.
    unfold delta. by rewrite Z.sub_diag. }
  split; [apply (f_equal s_tick) in Hab; cbn in Hab; by rewrite Hab, Hbj|].
  apply (f_equal s_work) in Hab. cbn in Hab. destruct (work_list b') as [w|]; [|done]. split; [eauto|].
  cbn in Hab. injection Hab as Hab. cbn [default from_option id].
  assert (t ∈ w <-> expired (timers s) (timer_jiffies b) t = true /\ t ∈ queued b) as Hin.
  { rewrite <- (elem_of_list_to_set (C := gset tid)), Hab, elem_of_filter, elem_of_list_to_set. done. }
  apply bool_decide_ext. rewrite Hin. unfold expired. rewrite Hx, Hbj. destruct o as [e|].
  - rewrite (Hxe e eq_refl). destruct (reached j e) as [_ ->]; [done|rewrite <- (Hxe e eq_refl); by apply (i_timers _ _ (proj1 Hwf) t x)|auto|].
    rewrite bool_decide_eq_true. split; [by intros [-> _]|]. intros [= ->]. split; [done|].
    assert (t ∈ listed b) as Hl by (by apply (i_pending _ _ (proj1 Hwf) t x b); rewrite ?Hxb).
    unfold listed in Hl. rewrite Hw in Hl. by apply elem_of_app in Hl as [?|Hl%not_elem_of_nil].
  - split; [|done]. intros [_ Hq]. destruct (b_owner _ _ _ Hok t) as (y & Hy & Hyp & _); [apply elem_of_app; by left|].
    rewrite Hx in Hy. injection Hy as <-. rewrite Hxp in Hyp. by apply bool_decide_eq_true in Hyp as [? [=]].
Qed.

Hypothesis others : forall u s, u <> t -> TimerProps.wf s -> exists evs s',
  forallb foreign evs = true /\ run_events evs s = Some s' /\ other u s = Some (tt, s').

Lemma wheel_event ev s r s' : TimerProps.wf s -> Timer.handle ev s = Some (r, s') -> TimerProps.wf s'.
Proof. intros Hwf H. pose proof (handle_sim s ev Hwf) as Hs. rewrite H in Hs. apply Hs. Qed.

(** The softirq of one tick: the driver's function is called if its time is reached. *)
Lemma tick_ends d s b j d' : TimerProps.wf s -> bases s !! 0%nat = Some b -> work_list b = Some [] -> is_u32 j ->
  jiffies s = u32 (j + 1) -> timer_jiffies b = u32 (j + 1) -> timer_is (ticktock d) s ->
  (forall e, ticktock d = Some e -> 0 < s32 (e - j)) ->
  Watchdog.jiffies (vars d) = u32 (j + 1) -> timer_period (vars d) = TRIGGER_PERIOD ->
  (if bool_decide (ticktock d = Some (u32 (j + 1))) then exists r, Watchdog.handle head EvFire d = Some (r, d') else d' = d) ->
  ends_with d' (Board d s).
Proof.
  intros Hwf Hb Hw Hj Hjs Hbj Htm Hah Hdj Hp Hf. set (now := u32 (j + 1)) in *.
  destruct (tick_takes s b (ticktock d) j) as (b2 & Hr & Hj2 & [w Hw2] & Hk); try done.
  set (s2 := set_base 0 b2 s) in *. assert (bases s2 !! 0%nat = Some b2) as Hb2 by (by eapply set_base_lookup).
  apply (ends_empty d' d s b s2); [done..|].
  apply (loop_ends now others (length w) (bool_decide (ticktock d = Some now))); [apply u32_range| |done].
  split; [by eapply step_wf|]. split; [split; [done|]; by exists b2, w|]. split; [done|].
  split; [by rewrite (workv_at s2 b2 Hb2), Hk|]. split; [done|]. split; [done|]. intros Hne%bool_decide_eq_false e He.
  destruct Htm as (x & Hx & _ & _ & _ & _ & Hxe). destruct (reached j e) as [Hge Heq]; [done| |auto|].
  { rewrite <- (Hxe e He). by apply (i_timers _ _ (proj1 Hwf) t x). }
  rewrite bool_decide_eq_false_2 in Heq by (intros ->; by apply Hne). apply Z.leb_gt in Heq. done.
Qed.

Lemma clock_ends d s d' : tied (Board d s) -> perfect_step Clock d = Some (tt, d') ->
  exists n b', tied b' /\ dog b' = d' /\ forall steps, (n <= steps)%nat -> clock steps (Board d s) = Some (tt, b').
Proof.
  intros [Hwf Hclk Hp (b & Hb & Hw & Hbj) Htm Hah] Hstep. cbn in Hwf, Hclk, Hp, Hb, Hbj, Htm, Hah.
  set (j := jiffies s) in *. set (now := u32 (j + 1)).
  set (d0 := with_vars (set_jiffies now) d). set (s0 := System (timers s) (bases s) now (calls s)).
  set (b1 := set_work_list (Some []) b). set (s1 := set_base 0 b1 s0).
  assert (Watchdog.handle head Watchdog.EvTick d = Some (0, d0)) as Ed.
  { cbn. unfold upd. rewrite bind_unfold, modify_run, ret_unfold. unfold d0, with_vars, now. by rewrite <- Hclk. }
  assert (Timer.handle Timer.EvTick s = Some (0, s0)) as Es by done.
  pose proof (wheel_event _ _ _ _ Hwf Es) as Hwf0.
  assert (run_timer_softirq 0 s0 = Some (tt, s1)) as Eq.
  { unfold run_timer_softirq. rewrite bind_unfold, (per_cpu_run 0 b s0 Hb), bind_unfold, gets_run, Hw, bind_unfold.
    rewrite bool_decide_eq_false_2 by (by intros [? ?]). cbn [BUG_ON]. rewrite ret_unfold, Hbj. cbn [jiffies s0].
    rewrite time_after_eq_delta by apply u32_range. unfold delta. rewrite Z.sub_diag. cbn. by apply on_base_run. }
  assert (TimerProps.wf s1) as Hwf1.
  { apply (wheel_event (EvSoftirq 0) s0 0); [done|]. cbn [Timer.handle]. by rewrite bind_unfold, Eq, ret_unfold. }
  assert (bases s1 !! 0%nat = Some b1) as Hb1 by (by eapply set_base_lookup).
  cbn [perfect_step] in Hstep. rewrite bind_unfold, Ed, bind_unfold, get_run in Hstep. change (Watchdog.jiffies (vars d0)) with now in Hstep.
  destruct (tick_ends d0 s1 b1 j d') as (n & b' & Ht & Hd & Hs); try done; [apply Hwf| |].
  { destruct (bool_decide _); [|by injection Hstep as <-]. apply bind_inv in Hstep as (r & d1 & H1 & H2).
    injection H2 as <-. eauto. }
  exists n, b'. do 2 (split; [done|]). intros steps Hle. unfold clock.
  rewrite bind_unfold, (on_wheel_run do_timer d s tt s0 eq_refl), bind_unfold, (on_dog_run _ _ _ _ _ Ed), bind_unfold.
  rewrite (on_wheel_run _ _ _ _ _ Eq). by apply Hs.
Qed.

Lemma step_ends ev b d' : is_call ev = true -> tied b -> perfect_step ev (dog b) = Some (tt, d') ->
  exists n b', tied b' /\ dog b' = d' /\ forall steps, (n <= steps)%nat -> board_step steps ev b = Some (tt, b').
Proof.
  intros Hc Ht Hs. destruct b as [d s], ev as [ev|]; [|by apply clock_ends]. cbn [perfect_step dog] in Hs.
  apply bind_inv in Hs as (r & d1 & H1 & H2). injection H2 as <-. exists 0%nat, (Board d1 s).
  pose proof (call_timing (timing (vars d)) ev Hc d r d1 eq_refl H1) as Hv. injection Hv as Hj Hp Htt.
  split; [|split; [done|]].
  - destruct Ht as [Hwf Hclk Hper Hb Htm Hah]. unfold ticktock in *. cbn in *. split; cbn; unfold ticktock; by rewrite ?Hj, ?Hp, ?Htt.
  - intros steps _. cbn [board_step]. by rewrite bind_unfold, (on_dog_run _ _ _ _ _ H1).
Qed.


Lemma run_ends evs : forall b d', forallb is_call evs = true -> tied b -> perfect_run evs (dog b) = Some (tt, d') ->
  exists n b', tied b' /\ dog b' = d' /\ forall steps, (n <= steps)%nat -> board_run steps evs b = Some (tt, b').
Proof.
  induction evs as [|ev evs IH]; intros b d' Hc Ht H; cbn [perfect_run forallb] in *.
  { injection H as <-. by exists 0%nat, b. }
  apply andb_true_iff in Hc as [Hc Hcs]. apply bind_inv in H as ([] & d1 & H1 & H2).
  destruct (step_ends ev b d1 Hc Ht H1) as (n1 & b1 & Ht1 & <- & Hs1).
  destruct (IH b1 d' Hcs Ht1 H2) as (n2 & b2 & Ht2 & Hd2 & Hs2).
  exists (n1 + n2)%nat, b2. do 2 (split; [done|]). intros steps Hle. cbn [board_run].
  rewrite bind_unfold, Hs1 by lia. apply Hs2. lia.
Qed.

(** ** A hanging task *)

Lemma perfect_app evs evs' d : perfect_run (evs ++ evs') d = (perfect_run evs;; perfect_run evs') d.
Proof.
  revert d. induction evs as [|ev evs IH]; intros d; [done|]. cbn [app perfect_run]. rewrite !bind_unfold.
  destruct (perfect_step ev d) as [[[] d1]|]; [|done]. apply IH.
Qed.

(** Between two calls of the driver's function only the clock advances. *)
Lemma perfect_beat n : forall d, (0 < n)%nat -> 0 <= Watchdog.jiffies (vars d) ->
  Watchdog.jiffies (vars d) + Z.of_nat n < 2 ^ 32 -> ticktock d = Some (Watchdog.jiffies (vars d) + Z.of_nat n) ->
  perfect_run (replicate n Clock) d = handle_all head (beat n) d.
Proof.
  induction n as [|n IH]; intros d Hn H0 Hj Ht; [lia|]. set (j := Watchdog.jiffies (vars d)) in *.
  cbn [replicate perfect_run]. change (beat (S n)) with (Watchdog.EvTick :: beat n). cbn [handle_all perfect_step].
  set (d1 := with_vars (fun c => set_jiffies (u32 (Watchdog.jiffies c + 1)) c) d).
  assert (Watchdog.handle head Watchdog.EvTick d = Some (0, d1)) as E by done.
  assert (Watchdog.jiffies (vars d1) = j + 1) as E1 by (cbn; apply u32_small; unfold is_u32; lia).
  rewrite !bind_unfold, E, bind_unfold, get_run, E1. change (ticktock d1) with (ticktock d). rewrite Ht.
  destruct n as [|n].
  - rewrite bool_decide_eq_true_2 by (do 2 f_equal; lia). cbn [replicate perfect_run]. unfold beat. cbn [replicate app handle_all].
    rewrite !bind_unfold. by destruct (Watchdog.handle head EvFire d1) as [[r d2]|].
  - rewrite bool_decide_eq_false_2 by (intros [= ?]; lia). rewrite ret_unfold. apply IH; rewrite ?E1; [lia|lia|lia|].
    change (ticktock d1) with (ticktock d). rewrite Ht. f_equal. lia.
Qed.

Lemma handle_all_app evs evs' d : handle_all head (evs ++ evs') d = (handle_all head evs;; handle_all head evs') d.
Proof.
  revert d. induction evs as [|ev evs IH]; intros d; [done|]. cbn [app handle_all]. rewrite !bind_unfold.
  destruct (Watchdog.handle head ev d) as [[r d1]|]; [|done]. apply IH.
Qed.

Lemma beats_app ds ds' : beats (ds ++ ds') = beats ds ++ beats ds'.
Proof. unfold beats. by rewrite map_app, concat_app. Qed.

Lemma hanging_again a : hanging a -> 0 < timer_count (avars a) ->
  watchdog_ticktock (avars (a_fire a)) = Some (u32 (Watchdog.jiffies (avars a) + 62)).
Proof.
  intros H Hc. pose proof (hanging_check a H) as HC. destruct H as ([He Ho] & Hp & _). unfold a_fire.
  rewrite (proj2 (Z.eqb_neq (timer_count (avars a)) 0)) by lia. rewrite (proj2 (Z.ltb_lt 0 (timer_count (avars a)))) by lia.
  rewrite He, Ho, HC. cbn. rewrite Hp. by destruct (_ <? _).
Qed.

Lemma perfect_beats k : forall n d a, rep head d a -> is_Some (ahw a) -> hanging a -> (0 < n)%nat ->
  ticktock d = Some (Watchdog.jiffies (vars d) + Z.of_nat n) -> 62 * (Z.of_nat k - 1) < timer_count (avars a) ->
  Watchdog.jiffies (vars d) + Z.of_nat n + 62 * Z.of_nat k < 2 ^ 32 ->
  perfect_run (replicate (n + 62 * k) Clock) d = handle_all head (beats (n :: replicate k 62%nat)) d.
Proof.
  induction k as [|k IH]; intros n d a R Hh Ha Hn Ht Hc Hj; pose proof (rep_vars_eq _ _ _ R) as V; pose proof Ha as (_ & _ & H0 & _);
    change (beats (n :: replicate ?k 62%nat)) with (beat n ++ beats (replicate k 62%nat)); rewrite handle_all_app.
  - rewrite Nat.mul_0_r, Nat.add_0_r, perfect_beat by (rewrite ?V in *; done || lia). rewrite bind_unfold.
    by destruct (handle_all head (beat n) d) as [[[] d1]|].
  - replace (n + 62 * S k)%nat with (n + (62 + 62 * k))%nat by lia. rewrite replicate_add, perfect_app, !bind_unfold.
    rewrite perfect_beat by (rewrite ?V in *; done || lia).
    destruct (run_beats head [n] d a R Hh) as (d1 & E1 & R1 & Hh1). change (beats [n]) with (beat n ++ []) in *. rewrite app_nil_r in *.
    rewrite E1. destruct (hanging_beat n a Ha) as (a1 & Ea & Ha1 & V1); [rewrite V in *; lia|]. rewrite Ea in R1, Hh1.
    assert (0 < timer_count (avars a1)) as Hc1 by (rewrite V1; cbn; lia).
    destruct (hanging_fire a1 Ha1 Hc1) as (Ha2 & _ & Hj2 & Hc2). pose proof (rep_vars_eq _ _ _ R1) as V2.
    rewrite V1 in Hj2, Hc2. cbn in Hj2, Hc2.
    apply (IH 62%nat d1 (a_fire a1)); rewrite ?V2; try done; [lia| |lia|rewrite V in *; lia].
    unfold ticktock. rewrite V2, hanging_again, V1, Hj2 by done. cbn. rewrite u32_small; [done|]. rewrite V in *. unfold is_u32. lia.
Qed.
End Board.

(** ** The theorems *)

(** What the functions of the other timers may do: use the timer operations on
    timers other than [t], without a crash. *)
Definition well_behaved (t : tid) (other : tid -> M system unit) : Prop :=
  forall u s, u <> t -> TimerProps.wf s -> exists evs s',
    forallb (foreign t) evs = true /\ run_events evs s = Some s' /\ other u s = Some (tt, s').

(** C6: The watchdog driver on the timer wheel: whatever processes ask of the driver
    and however the clock ticks, every softirq ends, the driver's function is called
    exactly when the clock shows the time the driver wrote down, although the wheel
    keeps other timers, cascades and rounds, and the driver does what it would do
    with a perfect timer; the timer of the wheel and the driver's variable agree
    again afterwards. *)
Theorem watchdog_on_wheel head t other b evs d' :
  well_behaved t other -> tied t b -> forallb is_call evs = true ->
  perfect_run head evs (dog b) = Some (tt, d') ->
  exists n b', tied t b' /\ dog b' = d' /\
    forall steps, (n <= steps)%nat -> board_run head t other steps evs b = Some (tt, b').
Proof. intros Ho Ht Hc H. exact (run_ends head t other Ho evs b d' Hc Ht H). Qed.

(** C5: The board reboots when a task hangs: with the driver on the timer wheel, a
    task overdue, the countdown full and the timer set [k] ticks ahead, the driver
    has not ordered a reboot [k] + 80 * 62 ticks of the clock later, and has ordered
    one after 62 more, 20 seconds in all. *)
Theorem board_reboots head t other b p x k :
  well_behaved t other -> tied t b -> WatchdogProps.reachable head (dog b) -> watching (vars (dog b)) ->
  timer_count (vars (dog b)) = TIMEOUT_VALUE * HZ -> tasks (dog b) !! p = Some x ->
  Watchdog.expires x <= Watchdog.jiffies (vars (dog b)) ->
  each_task (fun u => last_jiffies u < Watchdog.jiffies (vars (dog b))) (dog b) -> (0 < k)%nat ->
  ticktock (dog b) = Some (Watchdog.jiffies (vars (dog b)) + Z.of_nat k) ->
  Watchdog.jiffies (vars (dog b)) + Z.of_nat k + 62 * 81 < 2 ^ 32 ->
  exists n b1 b2, forall steps, (n <= steps)%nat ->
    board_run head t other steps (replicate (k + 62 * 80) Clock) b = Some (tt, b1) /\
    restarts (vars (dog b1)) = restarts (vars (dog b)) /\
    board_run head t other steps (replicate (k + 62 * 81) Clock) b = Some (tt, b2) /\
    restarts (vars (dog b2)) = S (restarts (vars (dog b))).
Proof.
  intros Ho Ht Hr Hw Hc Hx He Hl Hk Htt Hj. destruct (hanging_start head (dog b) p x Hr Hw Hx He Hl) as (a & R & Hh & Ha).
  pose proof (rep_vars_eq _ _ _ R) as V.
  destruct (hanging_reboots head (dog b) a (k :: replicate 80 62%nat) 62 R Hh Ha Hc) as (d1 & d2 & E1 & _ & H1 & E2 & H2);
    [done|change (sum_list (k :: replicate 80 62%nat)) with (k + 4960)%nat; lia|].
  assert (forall i, (i <= 81)%nat -> perfect_run head (replicate (k + 62 * i) Clock) (dog b) =
    handle_all head (beats (k :: replicate i 62%nat)) (dog b)) as Hp.
  { intros i Hi. apply (perfect_beats head i k (dog b) a); try done; [|lia]. rewrite V in Hc. rewrite Hc. unfold TIMEOUT_VALUE, HZ. lia. }
  assert (perfect_run head (replicate (k + 62 * 81) Clock) (dog b) = Some (tt, d2)) as P2.
  { rewrite Hp by lia. change (replicate 81 62%nat) with (replicate 80 62%nat ++ [62%nat]).
    rewrite app_comm_cons, beats_app. by rewrite handle_all_app, bind_unfold, E1. }
  rewrite <- (Hp 80%nat) in E1 by lia.
  assert (forall n, forallb is_call (replicate n Clock) = true) as Hcs by (induction n; done).
  destruct (run_ends head t other Ho _ b d1 (Hcs _) Ht E1) as (n1 & b1 & _ & <- & S1).
  destruct (run_ends head t other Ho _ b d2 (Hcs _) Ht P2) as (n2 & b2 & _ & <- & S2).
  exists (n1 + n2)%nat, b1, b2. intros steps Hle. rewrite S1, S2 by lia. done.
Qed.

(** ** A board *)

Module Sample.
Definition wheel_events : list Timer.event :=
  [EvCpuUp; EvInit 1%positive 0 0 7 0 false; EvInit 2%positive 0 0 9 0 false; EvMod 1%positive 1062 0 None;
   EvMod 2%positive 1300 0 None; EvSoftirq 0; EvRun 0; EvRun 0].
Definition the_wheel : system := default (boot 0) (run_events wheel_events (boot 1001)).
(** The driver loaded at tick 1000, a task of period 1 registered, a tick later. *)
Definition the_board : board := Board (ex_state 1000 1) the_wheel.
Definition idle (u : tid) : M system unit := mret tt.

Lemma idle_behaves : well_behaved 1%positive idle.
Proof. intros u s _ _. by exists [], s. Qed.

Lemma board_tied : tied 1%positive the_board.
Proof.
  split.
  - apply reachable_wf. exists 1001, wheel_events. split; [split; vm_compute; done | vm_compute; reflexivity].
  - reflexivity.
  - reflexivity.
  - eexists. split; [vm_compute; reflexivity|]. split; reflexivity.
  - eexists. split; [vm_compute; reflexivity|]. split_and!; try done. intros e [= <-]. reflexivity.
  - intros e [= <-]. vm_compute. reflexivity.
Qed.
End Sample.

Lemma watchdog_on_wheel_witness : exists n b', tied 1%positive b' /\
  dog b' = default (ex_state 1000 1) (exec (perfect_run 4096 (replicate 70 Clock)) (ex_state 1000 1)) /\
  forall steps, (n <= steps)%nat ->
    board_run 4096 1%positive Sample.idle steps (replicate 70 Clock) Sample.the_board = Some (tt, b').
Proof.
  refine (watchdog_on_wheel 4096 1%positive Sample.idle Sample.the_board (replicate 70 Clock) _
    Sample.idle_behaves Sample.board_tied _ _).
  - reflexivity.
  - vm_compute. reflexivity.
Defined.

Lemma board_reboots_witness : exists n b1 b2, forall steps, (n <= steps)%nat ->
  board_run 4096 1%positive Sample.idle steps (replicate (61 + 62 * 80) Clock) Sample.the_board = Some (tt, b1) /\
  restarts (vars (dog b1)) = 0%nat /\
  board_run 4096 1%positive Sample.idle steps (replicate (61 + 62 * 81) Clock) Sample.the_board = Some (tt, b2) /\
  restarts (vars (dog b2)) = 1%nat.
Proof.
  refine (board_reboots 4096 1%positive Sample.idle Sample.the_board 8192 (Task 7 1 1001 1000 []) 61
    Sample.idle_behaves Sample.board_tied _ _ _ _ _ _ _ _ _).
  - ex_reach.
  - by vm_compute.
  - by vm_compute.
  - by vm_compute.
  - by vm_compute.
  - ex_tasks (Task 7 1 1001 1000 []).
  - lia.
  - reflexivity.
  - by vm_compute.
Defined.

(** The wheel, computed: after 61 ticks the driver has been called once and its timer
    is set 62 ticks further. *)
Example first_call :
  (fun r => (ticktock (dog (snd r)), length (calls (wheel (snd r))))) <$>
    board_run 4096 1%positive Sample.idle 5 (replicate 61 Clock) Sample.the_board = Some (Some 1124, 1%nat).
Proof. vm_compute. reflexivity. Qed.
