(* ===== verification/FpgaCdev.v ===== *)
(** * The former FPGA character device (drivers/spi/fpga.c)

    A character device of its own for the registers of the FPGA, over the SPI core.
    Waiting for a semaphore that nobody releases and access through a null or freed
    pointer are undefined. *)

From S2P Require Import Prelude SpiMaster.

Definition FPGA_REG_ADDR_MAX : Z := 0x0fff.
Definition MULTI_REG_LEN_MAX : nat := 12.
Definition SPI_FPGA_WR_SINGLE : Z := 0x01.
Definition SPI_FPGA_WR_BURST : Z := 0x02.
Definition SPI_FPGA_RD_BURST : Z := 0x03.
Definition SPI_FPGA_RD_SINGLE : Z := 0x05.

(** [unsigned char buf[MULTI_REG_LEN_MAX + 2] = {0}]. *)
Definition zeroed : list Z := replicate (MULTI_REG_LEN_MAX + 2) 0.

Record fpga_dev_t := FpgaDevT { spi : kspi; devno : Z }.

(** The global [fpga]: [fpga_remove] frees it and keeps the pointer. *)
Inductive fpga_ptr := Null | Live (f : fpga_dev_t) | Freed (f : fpga_dev_t).

Section Device.
Context {H : Type} `{!SpiMaster H}.

(** The globals, the registered device numbers and character devices, the bus. *)
Record fstate := FState {
  spi_sem : Z;
  spi_flag : Z;
  fpga : fpga_ptr;
  regions : list Z;
  cdevs : Z;
  kbus : bus H
}.

Definition with_sem (n : Z) (s : fstate) : fstate := FState n (spi_flag s) (fpga s) (regions s) (cdevs s) (kbus s).
Definition with_flag (n : Z) (s : fstate) : fstate := FState (spi_sem s) n (fpga s) (regions s) (cdevs s) (kbus s).
Definition with_fpga (p : fpga_ptr) (s : fstate) : fstate := FState (spi_sem s) (spi_flag s) p (regions s) (cdevs s) (kbus s).
Definition with_regions (l : list Z) (s : fstate) : fstate := FState (spi_sem s) (spi_flag s) (fpga s) l (cdevs s) (kbus s).
Definition with_cdevs (n : Z) (s : fstate) : fstate := FState (spi_sem s) (spi_flag s) (fpga s) (regions s) n (kbus s).
Definition with_kbus (b : bus H) (s : fstate) : fstate := FState (spi_sem s) (spi_flag s) (fpga s) (regions s) (cdevs s) b.
Definition on_kbus {A} : M (bus H) A -> M fstate A := zoom kbus with_kbus.

Definition down : M fstate unit := fun s => if 0 <? spi_sem s then Some (tt, with_sem (spi_sem s - 1) s) else None.

(** [fpga->spi]. *)
Definition get_spi : M fstate kspi := fun s => match fpga s with Live f => Some (spi f, s) | _ => None end.

(** ** Access to registers *)

Definition header (single burst addr : Z) (count : nat) : list Z :=
  [if (count =? 1)%nat then single else burst; u8 (Z.land (Z.shiftr addr 8) 0xff); u8 (Z.land addr 0xff)].

Definition fpga_spi_write (addr : Z) (data : option (list Z)) (count : nat) : M fstate Z :=
  match data with
  | None => mret (- EINVAL)
  | Some data =>
      if (MULTI_REG_LEN_MAX <? count)%nat then mret (- EINVAL)
      else
        buf ← lift_opt (buf_write zeroed 0 (header SPI_FPGA_WR_SINGLE SPI_FPGA_WR_BURST addr count));
        (if addr =? 0x12 then
           down;;
           flag ← lift_opt (data !! 1%nat);
           modify (with_flag flag)
         else mret tt);;
        src ← lift_opt (buf_read data 0 count);
        buf ← lift_opt (buf_write buf 3 src);
        k ← get_spi;
        on_kbus (spi_write k buf (count + 3))
  end.

(** Result and the caller's data. *)
Definition fpga_spi_read (addr : Z) (data : option (list Z)) (count : nat) : M fstate (Z * option (list Z)) :=
  match data with
  | None => mret (- EINVAL, None)
  | Some data =>
      if (MULTI_REG_LEN_MAX <? count)%nat then mret (- EINVAL, Some data)
      else
        buf ← lift_opt (buf_write zeroed 0 (header SPI_FPGA_RD_SINGLE SPI_FPGA_RD_BURST addr count));
        src ← lift_opt (buf_read data 0 count);
        buf ← lift_opt (buf_write buf 3 src);
        tx ← lift_opt (buf_read buf 0 count);
        k ← get_spi;
        o ← on_kbus (spi_sync k [Xfer (Some tx) true count]);
        rxb ← lift_opt (buf_write zeroed 0 (concat (rx o)));
        src ← lift_opt (buf_read rxb 0 count);
        data ← lift_opt (buf_write data 0 src);
        mret (status o, Some data)
  end.

(** ** File operations *)

(** [unsigned char data[MULTI_REG_LEN_MAX] = {0}]. *)
Definition data0 : list Z := replicate MULTI_REG_LEN_MAX 0.

(** [(addr + count) > (FPGA_REG_ADDR_MAX + 1)], in [unsigned int]. *)
Definition out_of_range (addr count : Z) : bool :=
  (Z.of_nat MULTI_REG_LEN_MAX <? count) || (FPGA_REG_ADDR_MAX + 1 <? u32 (addr + count)).

(** The result and what the process gets; [count] is a [size_t]. *)
Definition fpga_cdev_read (f_pos count : Z) : M fstate (Z * option (list Z)) :=
  let addr := u32 f_pos in
  if out_of_range addr count then mret (0, None)
  else
    r ← fpga_spi_read (u16 addr) (Some data0) (Z.to_nat count);
    if fst r <? 0 then mret (0, None)
    else mret (count, take (Z.to_nat count) <$> snd r).

(** [user]: the bytes that [copy_from_user] finds. *)
Definition fpga_cdev_write (f_pos count : Z) (user : list Z) : M fstate Z :=
  let addr := u32 f_pos in
  if out_of_range addr count then mret 0
  else
    data ← lift_opt (buf_write data0 0 (take (Z.to_nat count) user));
    r ← fpga_spi_write (u16 addr) (Some data) (Z.to_nat count);
    mret (if r <? 0 then 0 else count).

(** The result and the position. *)
Definition fpga_cdev_lseek (f_pos offset : Z) : Z * Z :=
  if (offset <? 0) || (FPGA_REG_ADDR_MAX <? offset) then (-1, f_pos) else (offset, offset).

(** ** Binding *)

(** [region]: the number [alloc_chrdev_region] gives, or with [false] what was on
    the stack; [cdev]: [cdev_alloc] succeeds (it returns null otherwise, which the
    test for an error pointer does not catch); [mem]: [kzalloc] succeeds. *)
Definition fpga_probe (region : bool * Z) (cdev mem : bool) : M fstate Z :=
  (if fst region then modify (fun s => with_regions (snd region :: regions s) s) else mret tt);;
  if negb cdev then ub
  else
    modify (fun s => with_cdevs (cdevs s + 1) s);;
    r ← on_kbus (spi_setup (KSpi 0 SPI_MODE_3 8 2000000));
    let k := snd r in
    if negb mem then
      modify (with_fpga Null);;
      modify (fun s => with_cdevs (cdevs s - 1) s);;
      modify (fun s => with_regions (filter (fun n => n <> snd region) (regions s)) s);;
      mret (- ENOMEM)
    else
      modify (with_fpga (Live (FpgaDevT k (snd region))));;
      mret 0.

(** [if (fpga)] holds for a freed pointer too. *)
Definition fpga_remove : M fstate Z := fun s =>
  match fpga s with
  | Null => Some (0, s)
  | Live f =>
      let l := if negb (devno f =? 0) then filter (fun n => n <> devno f) (regions s) else regions s in
      Some (0, with_fpga (Freed f) (with_cdevs (cdevs s - 1) (with_regions l s)))
  | Freed f => None
  end.

Definition fpga_init : M fstate Z := modify (with_sem 1);; mret 0.
End Device.
Arguments fstate : clear implicits.
Arguments FState {_}. Arguments fpga {_}. Arguments spi_sem {_}. Arguments spi_flag {_}. Arguments kbus {_}.
Arguments regions {_}. Arguments cdevs {_}.

(** ** What the device does *)

Section Behaviour.
Context {H : Type} `{!SpiMaster H}.
Context (full_duplex : truth (Z.land flags SPI_MASTER_HALF_DUPLEX) = false).
Implicit Types (s : fstate H).

Definition in_range (addr count : Z) : Prop := 0 <= addr /\ 0 <= count <= 12 /\ addr + count <= FPGA_REG_ADDR_MAX + 1.

Lemma in_range_ok addr count : in_range addr count -> u32 addr = addr /\ u16 addr = addr mod 2 ^ 16 /\ out_of_range addr count = false.
Proof.
  intros (H1 & H2 & H3). unfold FPGA_REG_ADDR_MAX in *. assert (is_u32 addr) by (unfold is_u32; lia).
  split; [by apply u32_small|]. split; [done|]. unfold out_of_range. change (Z.of_nat MULTI_REG_LEN_MAX) with 12.
  rewrite u32_small by (unfold is_u32; lia). rewrite (proj2 (Z.ltb_ge 12 count)), (proj2 (Z.ltb_ge _ _)); [done|unfold FPGA_REG_ADDR_MAX; lia|lia].
Qed.

Lemma header_length a b c n : length (header a b c n) = 3%nat.
Proof. done. Qed.

(** The two buffers of 14 bytes hold a header and up to 11 bytes of data. *)
Lemma frame_ok hd data n : length hd = 3%nat -> (n <= 11)%nat -> length data = 12%nat -> exists buf1 buf2,
  buf_write zeroed 0 hd = Some buf1 /\ buf_read data 0 n = Some (take n data) /\ buf_write buf1 3 (take n data) = Some buf2 /\
  length buf2 = 14%nat /\ take (n + 3) buf2 = hd ++ take n data.
Proof.
  intros Hh Hn Hd. set (buf1 := hd ++ replicate 11 0). assert (buf_write zeroed 0 hd = Some buf1) as E1.
  { unfold buf_write. change (length zeroed) with 14%nat. rewrite bool_decide_true by lia. by rewrite Hh. }
  assert (length buf1 = 14%nat) as L1 by (unfold buf1; rewrite length_app; cbn; lia).
  exists buf1, (hd ++ take n data ++ drop (3 + n) buf1). split; [done|].
  split; [unfold buf_read; by rewrite bool_decide_true by lia|]. split.
  - unfold buf_write. rewrite length_take, Hd, Nat.min_l, bool_decide_true by lia. unfold buf1 at 1. by rewrite (take_app_length' hd) by done.
  - rewrite !length_app, length_take, length_drop, L1, Hh. split; [lia|].
    rewrite app_assoc, take_app_length'; [done|]. rewrite length_app, length_take. lia.
Qed.

(** Twelve bytes, which the checks allow, do not fit. *)
Lemma frame_overruns hd data : length hd = 3%nat -> length data = 12%nat ->
  forall buf1, buf_write zeroed 0 hd = Some buf1 -> buf_write buf1 3 (take 12 data) = None.
Proof.
  intros Hh Hd buf1 H1. apply buf_write_length in H1. change (length zeroed) with 14%nat in H1.
  apply buf_write_None. rewrite length_take. lia.
Qed.

Lemma data_ok (user : list Z) n : (n <= 12)%nat -> length user = n -> exists data,
  buf_write data0 0 (take n user) = Some data /\ length data = 12%nat /\ take n data = user.
Proof.
  intros Hn Hu. rewrite take_ge by lia. rewrite buf_write_Some by (rewrite Hu; done). eexists. split; [done|].
  rewrite take_0, app_nil_l. split; [rewrite length_app, length_drop, Hu; cbn [Nat.add]; change (length data0) with 12%nat; lia|].
  by rewrite take_app_length'.
Qed.

(** A write of up to eleven bytes is one message: the header and the data. *)
Lemma cdev_write_sends s f addr count user : fpga s = Live f -> truth (Z.land (mode (spi f)) SPI_3WIRE) = false ->
  in_range addr count -> count <= 11 -> addr <> 0x12 -> Z.of_nat (length user) = count ->
  let n := Z.to_nat count in
  let xs := [Xfer (Some (header SPI_FPGA_WR_SINGLE SPI_FPGA_WR_BURST addr n ++ user)) false (n + 3)] in
  let t := transfer (spi f) xs (hw (kbus s)) in
  fpga_cdev_write addr count user s =
    Some (if status (fst t) <? 0 then 0 else count, with_kbus (Bus (snd t) (messages (kbus s) ++ [(spi f, xs)])) s).
Proof.
  intros Hf Hm Hr H11 Ha Hu n xs t. destruct (in_range_ok addr count Hr) as (E1 & E2 & E3). destruct Hr as (R1 & R2 & R3).
  unfold fpga_cdev_write. rewrite E1, E3. destruct (data_ok user n) as (data & D1 & D2 & D3); [lia|lia|].
  fold n. rewrite bind_unfold, D1, lift_opt_run, bind_unfold. unfold fpga_spi_write.
  assert (u16 addr = addr) as -> by (rewrite E2; apply Z.mod_small; unfold FPGA_REG_ADDR_MAX in *; lia).
  rewrite (proj2 (Nat.ltb_ge MULTI_REG_LEN_MAX n)) by (unfold MULTI_REG_LEN_MAX; lia).
  destruct (frame_ok (header SPI_FPGA_WR_SINGLE SPI_FPGA_WR_BURST addr n) data n) as (b1 & b2 & F1 & F2 & F3 & F4 & F5); [done|lia|done|].
  rewrite bind_unfold, F1, lift_opt_run, (proj2 (Z.eqb_neq addr 0x12)) by done. rewrite bind_unfold, ret_unfold.
  rewrite bind_unfold, F2, lift_opt_run, bind_unfold, F3, lift_opt_run, bind_unfold. unfold get_spi at 1. rewrite Hf.
  unfold on_kbus, zoom, spi_write. rewrite bind_unfold, buf_read_Some, lift_opt_run, drop_0, F5, D3 by lia.
  rewrite bind_unfold, spi_sync_run by done. rewrite ret_unfold. done.
Qed.

(** Twelve bytes, which the checks let through, overrun the buffers. *)
Lemma cdev_write_overruns s addr user : in_range addr 12 -> addr <> 0x12 -> length user = 12%nat -> fpga_cdev_write addr 12 user s = None.
Proof.
  intros Hr Ha Hu. destruct (in_range_ok addr 12 Hr) as (E1 & E2 & E3). destruct Hr as (R1 & R2 & R3).
  unfold fpga_cdev_write. rewrite E1, E3. change (Z.to_nat 12) with 12%nat. destruct (data_ok user 12) as (data & D1 & D2 & D3); [lia|lia|].
  rewrite bind_unfold, D1, lift_opt_run, bind_unfold. unfold fpga_spi_write.
  assert (u16 addr = addr) as -> by (rewrite E2; apply Z.mod_small; unfold FPGA_REG_ADDR_MAX in *; lia).
  change (MULTI_REG_LEN_MAX <? 12)%nat with false. cbn iota. rewrite bind_unfold, (buf_write_Some zeroed) by (cbn; lia).
  rewrite lift_opt_run, (proj2 (Z.eqb_neq addr 0x12)) by done. rewrite bind_unfold, ret_unfold.
  rewrite bind_unfold, buf_read_Some, lift_opt_run, bind_unfold by lia. rewrite drop_0, D3, (buf_write_None _ 3); [done|].
  rewrite Hu. cbn. lia.
Qed.

(** A read of one byte sends the command and no address: every register reads the same. *)
Lemma cdev_read_ignores_address s addr addr' : in_range addr 1 -> in_range addr' 1 -> fpga_cdev_read addr 1 s = fpga_cdev_read addr' 1 s.
Proof.
  intros Hr Hr'. destruct (in_range_ok addr 1 Hr) as (E1 & _ & E3). destruct (in_range_ok addr' 1 Hr') as (E1' & _ & E3').
  unfold fpga_cdev_read. rewrite E1, E1', E3, E3'. reflexivity.
Qed.

(** A second write to register 0x12 waits for ever: nobody releases the semaphore. *)
Lemma sem_taken s addr data count r s' : fpga_spi_write addr data count s = Some (r, s') ->
  spi_sem s' = spi_sem s \/ (addr = 0x12 /\ spi_sem s' = spi_sem s - 1).
Proof.
  unfold fpga_spi_write. destruct data as [data|]; [|intros [= _ <-]; auto]. destruct (_ <? _)%nat; [intros [= _ <-]; auto|].
  intros E. apply bind_inv in E as (b1 & s1 & H1 & E). destruct (buf_write zeroed 0 _); [|done]. injection H1 as <- <-.
  apply bind_inv in E as ([] & s2 & H2 & E). assert (spi_sem s' = spi_sem s2) as ->.
  { apply bind_inv in E as (b3 & s3 & H3 & E). destruct (buf_read data 0 count); [|done]. injection H3 as <- <-.
    apply bind_inv in E as (b4 & s4 & H4 & E). destruct (buf_write _ 3 _); [|done]. injection H4 as <- <-.
    apply bind_inv in E as (k & s5 & H5 & E). unfold get_spi in H5. destruct (fpga s2); [done| |done]. injection H5 as <- <-.
    unfold on_kbus, zoom in E. destruct (spi_write _ _ _ _) as [[z b]|]; [|done]. by injection E as _ <-. }
  destruct (Z.eqb_spec addr 0x12); [|injection H2 as <-; auto]. right. split; [done|].
  apply bind_inv in H2 as ([] & s3 & H3 & H2). unfold down in H3. destruct (0 <? spi_sem s); [|done]. injection H3 as <-.
  apply bind_inv in H2 as (z & s4 & H4 & H2). destruct (data !! 1%nat); [|done]. injection H4 as <- <-. by injection H2 as <-.
Qed.

Lemma sem_stuck s data count : spi_sem s <= 0 -> (count <= 12)%nat -> fpga_spi_write 0x12 (Some data) count s = None.
Proof.
  intros Hs Hc. unfold fpga_spi_write. rewrite (proj2 (Nat.ltb_ge MULTI_REG_LEN_MAX count)) by (unfold MULTI_REG_LEN_MAX; lia).
  rewrite bind_unfold, (buf_write_Some zeroed) by (cbn; lia). rewrite lift_opt_run, Z.eqb_refl, bind_unfold, bind_unfold.
  unfold down. by rewrite (proj2 (Z.ltb_ge 0 (spi_sem s))).
Qed.
End Behaviour.
